(* ===== verification/_CoqProject ===== *)
-Q . S2P
Prelude.v
LinkedList.v
Irql.v
Pmm.v
PmmBoot.v
PageTable.v
Sched.v
SchedInv.v
SchedSafe.v
SchedCalls.v
SchedReap.v
SchedInit.v
SchedThms.v
Heap.v
Pool.v
PoolThms.v
Kva.v
KvaInv.v
KvaLayout.v
KvaMach.v
KvaOps.v
KvaCalls.v
KvaFixmap.v
KvaHeap.v
KvaRun.v
KvaQuery.v
KvaThms.v
Parts.v
Alloc.v
AllocInv.v
AllocOps.v
AllocState.v
AllocCalls.v
AllocRun.v
AllocSteps.v
AllocDiag.v
AllocThms.v
Ex.v
ExInv.v
ExRefs.v
ExHandles.v
ExLife.v
ExCalls.v
ExProcess.v
ExThread.v
ExControl.v
ExSpec.v
ExRun.v
ExToy.v
ExThms.v
Input.v
InputThms.v
Ps2.v
UserMode.v
UserCopy.v
LowHalf.v
Staging.v
StagingInv.v
StagingFill.v
StagingSpace.v
StagingState.v
StagingRun.v
StagingThms.v
Program.v
Syscall.v
SyscallInv.v
SyscallSafe.v
SyscallRun.v
SyscallThms.v
Idt.v
Time.v
TimeThms.v
ClockEvent.v
ClockEventThms.v
