(* ===== verification/Prelude.v ===== *)
(** * HimuOS kernel: a verification library

    This library models the core of the HimuOS kernel ([src/src/kernel], with
    the list library of [src/src/lib/common]) and proves it correct.  Kernel
    routines become functions on explicit states; a routine that can stop the
    machine, leave an object or loop returns [res] (below), and the theorems
    say that it returns [Ok].

    ** Parts

    - this file: status codes and alignment macros ([_hobase.h]), assertions,
      machine words, C arrays with bounds, bounded loops, the insertion sort
      the kernel uses, the hint database [words];
    - [LinkedList]: intrusive rings ([lib/common/linked_list.c]) on a pointer
      heap, refined to mathematical lists;
    - [Irql]: execution levels, guards, critical sections and the interrupt
      bracket ([ke/irql.c], [ke/critical_section.c], parts of [arch/]);
    - [Pmm]: the bitmap page allocator and its device facade
      ([ke/pmm/bitmap_sink.c], [ke/pmm/pmm_device.c]); class [PageAllocator] is
      what the memory manager is proved against, the bitmap its instance;
    - [PmmBoot]: bringing the allocator up from the boot memory map
      ([ke/pmm/pmm_boot_init.c]);
    - [PageTable]: walking and changing page tables, address spaces
      ([ke/mm/address_space.c]) against the hardware walk [hw_walk];
    - [Sched], [SchedInv], [SchedSafe], [SchedCalls], [SchedReap], [SchedInit],
      [SchedThms]: threads, waits, timers, synchronisation objects and the
      scheduler ([ke/thread/]): the operations, the queue invariant, its
      preservation by every kernel call, the finalisation of threads with the
      hook that calls back, start-up, and the properties;
    - [Heap], [Pool], [PoolThms]: the page heap as an interface ([HeapServices],
      [HeapLaws]) and the object pool ([ke/mm/pool.c]) above it;
    - [Kva]: the virtual arenas, temporary mappings and page heap
      ([ke/mm/kva.c]); [KvaInv] the invariant that ties page states, records,
      translations and frames together, [KvaLayout] its preservation by moves
      of the layout, [KvaMach] the teardown of a range, [KvaOps], [KvaCalls],
      [KvaFixmap], [KvaQuery] the operations, [KvaRun] sequences of calls,
      [KvaHeap] the instances of [HeapServices] and [HeapLaws], [KvaThms] the
      properties;
    - [Parts], [Alloc]: the byte allocator ([ke/mm/allocator.c]) on fields of
      heap words; [AllocInv] pages of slots and the invariant, [AllocOps] lists
      in memory, [AllocState] pages that join and leave a class, [AllocCalls]
      the critical sections, [AllocRun] whole calls, [AllocSteps] threads that
      interleave, [AllocDiag] the diagnosis, [AllocThms] the properties, on the
      page heap ([OnKva]) and on the bump allocator ([OnToy]);
    - [Ex]: the executive ([kernel/ex/]): object headers ([object.c]), handle
      tables ([handle.c]), processes and threads ([process.c], [thread.c],
      [image.c]), the published tables ([runtime_table.c]), finalisation
      ([user_runtime_bridge.c]) and process control ([process_control.c]);
      [ExInv] its invariant, [ExRefs], [ExHandles], [ExLife], [ExCalls],
      [ExProcess], [ExThread], [ExControl] the calls as moves between the
      reference accounts, [ExSpec] exact contracts, [ExRun] the states calls
      reach, [ExToy] a concrete world, [ExThms] the properties;
    - [Input]: the keyboard line device ([ke/input/input.c]); [InputThms] the
      line editor it implements; [Ps2] the sink and driver below it
      ([ke/input/sinks/], [drivers/input/]) over I/O ports, and the composed
      property;
    - [UserMode], [UserCopy]: user stagings as data and copies between kernel
      and user memory ([ke/user_mode.c], [ke/user_mode_syscall.c]), proved
      against the processor's translation; [Staging] the staging of an image
      over the whole state of [Kva]: [LowHalf] page tables whose upper half is
      shared, [StagingInv] frames that are not the kernel's, [StagingFill]
      pages written through temporary mappings, [StagingSpace] the tables of a
      process beside the kernel's, [StagingState], [StagingRun] a staging
      under construction, [StagingThms] the properties;
    - [Program]: the registry of built-in programs ([ex/program.c]); [Syscall]
      the system calls ([ex/syscall.c]), their trap, the hooks of
      [user_runtime_bridge.c] and the spawning and waiting around their
      blocking points; [SyscallInv] what calls leave alone, [SyscallSafe]
      calls that go well, [SyscallRun] the kernel as steps of user threads and
      of everyone else, [SyscallThms] the properties;
    - [Idt]: the interrupt descriptor table ([arch/amd64/idt.c]), the hooks of
      the user runtime ([ke/user_runtime_hooks.c]) and its start ([ex/runtime.c]);
    - [Time]: the counters (TSC, HPET, ACPI PM timer: [drivers/time/]), their
      sinks and the time source over them ([ke/time/]), processor information
      ([arch/amd64/cpu.c]); [TimeThms] what hardware that counts promises
      ([TimeLaws]) and the properties; [ClockEvent] the local APIC timer and the
      clock event device, [ClockEventThms] its properties and the scheduler's
      requests to it.

    The scheduler uses lists for rings: [LinkedList.run_ops_refines] is what
    licenses that.  Page tables allocate from any [PageAllocator]; pools and
    the byte allocator from any heap that satisfies [HeapLaws] (and finds its
    ranges, [RangeLaws]), as the page heap of [kva.c] does with words that are
    read and written through the page tables; the scheduler's clock, timer and
    address-space switch are class [Services] of [Sched].  The user runtime's
    finalize hook re-enters the scheduler: it signals completion events with
    [KeSetEvent] inside [KiFinalizeThread], so it is a list of stages, each up to
    its next [KeSetEvent]; when the idle thread reaps, such a call can switch to the thread
    it wakes, and the rest of the hook is a frame on the idle thread's stack.
    [ServicesLaws] says of a stage that it succeeds and sets an event that
    exists.  The executive runs
    over class [ExServices] with its contract [ExLaws]: memory, address spaces,
    staging, kernel threads, input focus and completion events.  The keyboard
    device runs over [InputServices] with [InputLaws], which the PS/2 driver
    discharges over any controller that queues bytes ([PortLaws]).  System calls
    add [SyscallServices] with [SyscallLaws]: copies, console, input line and
    system information.  The clocks run over [TimeHw] with [TimeLaws] and
    [LapicHw] with [LapicLaws]; [ClockServices] says which calls of the clocks
    the scheduler's [Services] are.

    ** Reading the theorems

    The theorems with a claim number are the properties; the rest are lemmas
    and run rules.  Scheduler: every permitted call in a reachable state
    returns and keeps the invariant, the re-entrant finalize hook included;
    queues, wake-ups, priorities, mutexes,
    joins and the reaper.  Allocator: first fit, free and reserve on every
    branch and exactly when a wrapped count leads past the bitmap, round trip,
    self-check, start-up from any memory map that has no empty descriptor
    between two overlapping ones (which the code's overlap check misses).  Page tables: agreement with the
    hardware walk, exactness of map, unmap and protect, sharing of the kernel
    half.  Pools: safety under every interleaving, all-or-nothing
    initialisation, fresh zeroed slots, complete destruction.  Virtual arenas:
    no call breaks the layout, ranges come from the first run that fits and go
    back completely, released handles and tokens stay dead, every address is
    classified truly, and the page heap keeps the heap contract.  Byte allocator: requests are
    served with memory of their own or refused, pointers are freed once, any
    interleaving of critical sections is safe, addresses are diagnosed truly.
    Executive: in
    every state that permitted calls reach, calls return and the reference count
    of every process, thread and console is the number of its references; closing takes effect or changes nothing, closed handles
    stay revoked, inserted handles resolve, waited-for children are freed, the
    handle code is faithful.  Keyboard: the device, sink and driver together
    are a line editor with focus.  User copies: they never fault and move
    exactly the bytes ring 3 may read or write.  Staging: an image is staged
    completely, with its permissions, or leaves nothing behind.  System calls:
    in whatever order threads trap, block, resume and fault, calls return,
    references stay accounted for, and a thread returns to user mode unkilled
    or leaves with its process marked; programs are found under their names.
    Interrupts: ring 3 can raise the system-call vector only, and every
    interrupt goes where it belongs.  Clocks: the best counter there is is
    found and calibrated by the median, uptime is the time that passed, a busy
    wait waits, the timer's rate is what it was measured at, its interrupts are
    counted and acknowledged, and it is armed with the count its delay, kept
    within what its register can hold, stands for, or reports why not.

    ** Bounds and fuel

    Machine words are [Z] with [u8], [u32], [u64] written where the code wraps.
    Loops over arrays are [for_loop] with the code's own bound.  Loops without
    one take fuel, and a theorem shows the fuel is enough: the page scan takes
    one more than the number of pages, the timeout queue one more than its
    length, a pool's page list and a class of the byte allocator the number of pages of
    the heap arena ([walk_fuel]).  The arenas
    have the code's own sizes (8192, 64 and 16384 pages) and 512 records; a
    range generation is never reused because the counter stops at 2^64 - 1.
    Releasing an object runs destroy routines that release again: thread,
    process, console service, so [release_depth] is 3.  A busy wait on a counter
    ends after as many readings as ticks, each times the accesses until the
    counter moves ([enough]).  A switch is settled by two resumptions ([settle]): only the
    idle thread, resumed in the reaper, switches again.  The executive's
    properties assume ([roomy]) that no 32-bit reference count is within 16 of
    wrapping and process numbers are not exhausted.

    ** Not modelled

    Device drivers but the keyboard's and the timers', consoles, the boot
    loader, user programs and demos are input and output around this core.
    While a busy wait of the timer's self test runs, interrupts are taken when
    it ends.  The import of the boot page tables
    and the user-range checks of [address_space.c] are left out, and of [kva.c]
    the self test, which only calls the other operations; a critical section
    there is one step (the reservation and the mapping of
    [KeKvaMapOwnedPages] together), and what interrupts it is the outside change that
    [calls_ok] allows between calls.  The heap that holds
    staging objects is class [SmallObjects].  In the byte allocator a
    prepared page is filled in one step, since no other thread sees it.  The
    executive's calls are atomic here: the code guards its tables and flags by
    critical sections but not a whole call.  So is the finalisation of an
    exited thread, though the idle thread may be switched away from where it
    signals ([InFinalize] in [Sched]).  At a blocking wait a call is cut in
    two ([ExWaitProcess_begin], [ExWaitProcess_end]; [Blocked] in [Syscall]),
    and [SyscallRun] lets anything happen in between; there a thread traps,
    resumes or faults only while its process has not been torn down
    ([leavable]), which is so until the thread itself has exited.  The writes to
    the console are taken to return, which they do for bytes below 0x80.  Its
    information snapshots are not modelled.  Log lines (but their clock
    stamp, in [Time]) and names of objects are left out everywhere. *)

From Stdlib Require Export ZArith Lia Bool.
From Stdlib Require Export Sorting.Sorted Sorting.Permutation.
From stdpp Require Export base list sorting gmap.

#[global] Set Default Goal Selector "!".

Local Open Scope Z_scope.

(** ** Status codes ([_hobase.h], [enum _HIMUOS_ERROR_CODE]) *)

Inductive HO_STATUS : Type :=
| EC_SUCCESS
| EC_FAILURE
| EC_ILLEGAL_ARGUMENT
| EC_NOT_ENOUGH_MEMORY
| EC_UNREACHABLE
| EC_NOT_SUPPORTED
| EC_OUT_OF_RESOURCE
| EC_INVALID_STATE
| EC_UNSUPPORTED_MACHINE
| EC_TIMEOUT.

#[export] Instance HO_STATUS_eq_dec : EqDecision HO_STATUS.
Proof. solve_decision. Defined.

(** ** The outcome of a kernel routine

    [Panic c] is [HO_KASSERT]/[HO_KPANIC] stopping the machine with code [c];
    [Oob] is an access outside the object a pointer designates; [NoFuel] is a
    model artefact, excluded by a theorem wherever a bounded loop is used. *)

Inductive res (A : Type) : Type :=
| Ok (a : A)
| Panic (c : HO_STATUS)
| Oob
| NoFuel.
Arguments Ok {A} a.
Arguments Panic {A} c.
Arguments Oob {A}.
Arguments NoFuel {A}.

Definition res_bind {A B} (m : res A) (k : A -> res B) : res B :=
  match m with
  | Ok a => k a
  | Panic c => Panic c
  | Oob => Oob
  | NoFuel => NoFuel
  end.

Declare Scope res_scope.
Delimit Scope res_scope with res.
Notation "'let*' x ':=' e 'in' k" := (res_bind e (fun x => k))
  (at level 10, x pattern, e at level 200, k at level 200,
   format "'[v' 'let*'  x  ':='  e  'in' '/' k ']'") : res_scope.
#[global] Open Scope res_scope.

(** [HO_KASSERT] ([hodbg.h]): stop the machine when the condition is false. *)
Definition HO_KASSERT (b : bool) (c : HO_STATUS) : res unit :=
  if b then Ok tt else Panic c.

Lemma res_bind_ok {A B} (m : res A) (k : A -> res B) b :
  res_bind m k = Ok b <-> exists a, m = Ok a /\ k a = Ok b.
Proof.
  split.
  - destruct m; simpl; try discriminate. eauto.
  - intros (a & -> & H). exact H.
Qed.

Lemma kassert_ok b c u : HO_KASSERT b c = Ok u <-> b = true.
Proof. destruct b, u; simpl; split; congruence. Qed.

(** ** Machine words: a [w]-bit unsigned integer is a [Z] in [[0, 2^w)] *)

Definition u8 (x : Z) : Z := x mod 2 ^ 8.
Definition u32 (x : Z) : Z := x mod 2 ^ 32.
Definition u64 (x : Z) : Z := x mod 2 ^ 64.
Definition not64 (x : Z) : Z := u64 (Z.lnot x).

Definition is_u8 (x : Z) : Prop := 0 <= x < 2 ^ 8.
Definition is_u32 (x : Z) : Prop := 0 <= x < 2 ^ 32.
Definition is_u64 (x : Z) : Prop := 0 <= x < 2 ^ 64.

Lemma u8_small x : is_u8 x -> u8 x = x.
Proof. apply Z.mod_small. Qed.
Lemma u32_small x : is_u32 x -> u32 x = x.
Proof. apply Z.mod_small. Qed.
Lemma u64_small x : is_u64 x -> u64 x = x.
Proof. apply Z.mod_small. Qed.
Lemma u8_range x : is_u8 (u8 x).
Proof. apply Z.mod_pos_bound. lia. Qed.
Lemma u32_range x : is_u32 (u32 x).
Proof. apply Z.mod_pos_bound. lia. Qed.
Lemma u64_range x : is_u64 (u64 x).
Proof. apply Z.mod_pos_bound. lia. Qed.

(** The word lemmas that close or simplify the common side conditions. *)
Create HintDb words.
#[export] Hint Resolve u8_range u32_range u64_range : words.
#[export] Hint Rewrite u8_small u32_small u64_small using assumption : words.

(** [lia] with the word ranges unfolded. *)
Ltac word_lia := unfold is_u8, is_u32, is_u64 in *; lia.

(** [lia] with quotients and remainders by constants. *)
Ltac div_lia := word_lia || (unfold is_u8, is_u32, is_u64 in *; Z.to_euclidean_division_equations; lia).

(** Remove the wrap-arounds whose argument [word_lia] shows in range. *)
Ltac unwrap :=
  repeat match goal with
  | |- context [u64 ?x] => rewrite (u64_small x) by word_lia
  | |- context [u32 ?x] => rewrite (u32_small x) by word_lia
  | |- context [u8 ?x] => rewrite (u8_small x) by word_lia
  end.

(** Alignment macros of [_hobase.h]. *)
Definition HO_ALIGN_UP (value alignment : Z) : Z :=
  Z.land (u64 (value + (alignment - 1))) (not64 (alignment - 1)).
Definition HO_ALIGN_DOWN (value alignment : Z) : Z :=
  Z.land value (not64 (alignment - 1)).
Definition HO_IS_ALIGNED (addr align : Z) : bool :=
  Z.land addr (align - 1) =? 0.

Definition PAGE_4KB : Z := 4096.
Definition PAGE_2MB : Z := 2097152.
Definition PAGE_1GB : Z := 1073741824.
Definition PAGE_SHIFT : Z := 12.

(** Bit masks that are powers of two are arithmetic. *)
Lemma not64_ones n : 0 <= n <= 64 -> not64 (2 ^ n - 1) = 2 ^ 64 - 2 ^ n.
Proof.
  intros Hn. unfold not64, u64, Z.lnot.
  replace (Z.pred (- (2 ^ n - 1))) with (2 ^ 64 - 2 ^ n + (-1) * 2 ^ 64) by lia.
  rewrite Z.mod_add by lia. apply Z.mod_small.
  pose proof (Z.pow_le_mono_r 2 n 64). pose proof (Z.pow_pos_nonneg 2 n). lia.
Qed.

Lemma land_align_mask x n :
  0 <= n <= 64 -> is_u64 x -> Z.land x (2 ^ 64 - 2 ^ n) = x - x mod 2 ^ n.
Proof.
  intros Hn Hx.
  pose proof (Z.pow_pos_nonneg 2 n ltac:(lia) ltac:(lia)) as Hp.
  assert (Hs : 2 ^ 64 = 2 ^ (64 - n) * 2 ^ n).
  { rewrite <- Z.pow_add_r by lia. f_equal. lia. }
  replace (2 ^ 64 - 2 ^ n) with (Z.shiftl (Z.ones (64 - n)) n).
  2: { rewrite Z.shiftl_mul_pow2, Z.ones_equiv by lia. lia. }
  assert (Hl : Z.land x (Z.shiftl (Z.ones (64 - n)) n)
               = Z.shiftl (Z.land (Z.shiftr x n) (Z.ones (64 - n))) n).
  { apply Z.bits_inj'. intros i Hi.
    rewrite Z.land_spec, !Z.shiftl_spec, Z.land_spec by lia.
    destruct (Z.ltb_spec i n).
    - rewrite !(Z.testbit_neg_r _ (i - n)) by lia. apply andb_false_r.
    - rewrite Z.shiftr_spec by lia. do 2 f_equal. lia. }
  rewrite Hl, Z.land_ones, Z.shiftr_div_pow2, Z.shiftl_mul_pow2 by lia.
  rewrite (Z.mod_small (x / 2 ^ n)).
  - pose proof (Z.div_mod x (2 ^ n)). lia.
  - unfold is_u64 in Hx. split; [apply Z.div_pos; lia|].
    apply Z.div_lt_upper_bound; lia.
Qed.

Lemma align_down_pow2 x n :
  0 <= n <= 64 -> is_u64 x -> HO_ALIGN_DOWN x (2 ^ n) = x - x mod 2 ^ n.
Proof.
  intros Hn Hx. unfold HO_ALIGN_DOWN.
  rewrite not64_ones by lia. by apply land_align_mask.
Qed.

Lemma is_aligned_pow2 x n :
  0 <= n -> HO_IS_ALIGNED x (2 ^ n) = (x mod 2 ^ n =? 0).
Proof.
  intros Hn. unfold HO_IS_ALIGNED.
  by rewrite Z.sub_1_r, <- Z.ones_equiv, Z.land_ones by lia.
Qed.

Lemma is_aligned_4k x : HO_IS_ALIGNED x PAGE_4KB = (x mod PAGE_4KB =? 0).
Proof. apply (is_aligned_pow2 x 12). lia. Qed.

(** ** Arrays: C indexing with its bounds *)

Section arrays.
Context {A : Type}.
Implicit Types (l : list A) (i : Z) (x : A).

Definition rd (l : list A) (i : Z) : res A :=
  if i <? 0 then Oob else
  match l !! Z.to_nat i with
  | Some x => Ok x
  | None => Oob
  end.

Definition wr (l : list A) (i : Z) (x : A) : res (list A) :=
  if (i <? 0) || (Z.of_nat (length l) <=? i) then Oob
  else Ok (<[Z.to_nat i := x]> l).

Lemma rd_ok l i x : rd l i = Ok x <-> 0 <= i /\ l !! Z.to_nat i = Some x.
Proof.
  unfold rd. destruct (Z.ltb_spec i 0).
  - split; [discriminate | lia].
  - destruct (l !! Z.to_nat i); split; intuition congruence.
Qed.

Lemma rd_in l i : 0 <= i < Z.of_nat (length l) -> exists x, rd l i = Ok x.
Proof.
  intros Hi. destruct (lookup_lt_is_Some_2 l (Z.to_nat i)) as [x Hx]; [lia|].
  exists x. apply rd_ok. split; [lia | done].
Qed.

Lemma wr_in l i x :
  0 <= i < Z.of_nat (length l) -> wr l i x = Ok (<[Z.to_nat i := x]> l).
Proof.
  intros Hi. unfold wr.
  by rewrite (proj2 (Z.ltb_ge i 0)), (proj2 (Z.leb_gt _ i)) by lia.
Qed.
End arrays.

(** ** Bounded loops *)

(** [for (i = start; n iterations; i++) s = body(i, s)]. *)
Fixpoint for_loop {T : Type} (n : nat) (i : Z) (body : Z -> T -> res T) (s : T) : res T :=
  match n with
  | O => Ok s
  | S n' => let* s' := body i s in for_loop n' (i + 1) body s'
  end.

(** The rule for a [for] loop whose body always returns. *)
Lemma for_loop_rule {T} (I : Z -> T -> Prop) (n : nat) (i : Z) body (s : T) :
  I i s ->
  (forall j t, i <= j < i + Z.of_nat n -> I j t -> exists t', body j t = Ok t' /\ I (j + 1) t') ->
  exists s', for_loop n i body s = Ok s' /\ I (i + Z.of_nat n) s'.
Proof.
  revert i s. induction n as [|n IH]; intros i s Hs Hb.
  - exists s. split; [done|]. by rewrite Nat2Z.inj_0, Z.add_0_r.
  - destruct (Hb i s) as (t & Et & Ht); [lia | done |].
    destruct (IH (i + 1) t Ht) as (s' & Es & Hs').
    { intros j u Hj. apply Hb. lia. }
    exists s'. split; [by simpl; rewrite Et|].
    by replace (i + Z.of_nat (S n)) with (i + 1 + Z.of_nat n) by lia.
Qed.

(** ** Finite checks: a boolean fact about every small number, by evaluation *)

Lemma forall_below (n : nat) (f : Z -> bool) :
  forallb f (map Z.of_nat (seq 0 n)) = true -> forall x, 0 <= x < Z.of_nat n -> f x = true.
Proof.
  rewrite forallb_forall. intros Hf x Hx. apply Hf, in_map_iff.
  exists (Z.to_nat x). split; [lia|]. apply in_seq. lia.
Qed.

(** ** Sorted lists *)

Lemma sorted_weaken {A} (R R' : A -> A -> Prop) l :
  (forall a b, a ∈ l -> b ∈ l -> R a b -> R' a b) -> StronglySorted R l -> StronglySorted R' l.
Proof.
  intros HR. induction 1 as [|a l Hs IH Hf]; constructor.
  - apply IH. intros x y Hx Hy. apply HR; by right.
  - apply Forall_forall. intros x Hx. rewrite Forall_forall in Hf.
    apply HR; [by left | by right | by apply Hf].
Qed.

Lemma sorted_filter {A} (R : A -> A -> Prop) (P : A -> Prop) `{forall x, Decision (P x)} l :
  StronglySorted R l -> StronglySorted R (filter P l).
Proof.
  induction 1 as [|a l Hs IH Hf]; [constructor|].
  destruct (decide (P a)); [|by rewrite filter_cons_False].
  rewrite filter_cons_True by done. constructor; [done|].
  rewrite Forall_forall in *. intros x [_ Hx]%list_elem_of_filter. by apply Hf.
Qed.

Lemma filter_iff_in {A} (P Q : A -> Prop) `{forall x, Decision (P x)} `{forall x, Decision (Q x)} (l : list A) :
  (forall x, x ∈ l -> P x <-> Q x) -> filter P l = filter Q l.
Proof.
  induction l as [|a l IH]; intros HPQ; [done|].
  assert (IH' : filter P l = filter Q l) by (apply IH; intros x Hx; apply HPQ; by right).
  destruct (decide (P a)).
  - rewrite !filter_cons_True; [by rewrite IH' | apply HPQ; [by left | done] | done].
  - rewrite !filter_cons_False; [done | | done]. rewrite <- HPQ by (by left). done.
Qed.

(** ** Insertion sort on an array

    The two sorts of the kernel are the same loop up to the comparison:
    [shift key prev] says that [prev] has to move up to make room for [key]. *)

Section insertion_sort.
Context {A : Type} (shift : A -> A -> bool).

(** The inner loop, [n] being the loop's own [j]. *)
Fixpoint sift_down (n : nat) (a : list A) (key : A) : res (list A) :=
  match n with
  | O => wr a 0 key
  | S k =>
      let* prev := rd a (Z.of_nat n - 1) in
      if shift key prev
      then let* a := wr a (Z.of_nat n) prev in sift_down k a key
      else wr a (Z.of_nat n) key
  end.

Definition insertion_sort (a : list A) : res (list A) :=
  for_loop (pred (length a)) 1 (fun i a =>
    let* key := rd a i in sift_down (Z.to_nat i) a key) a.

(** Where [key] ends up in an already sorted prefix. *)
Fixpoint place_rev (key : A) (r : list A) : list A :=
  match r with
  | [] => [key]
  | p :: r => if shift key p then p :: place_rev key r else key :: p :: r
  end.

Definition place (key : A) (l : list A) : list A := rev (place_rev key (rev l)).

Lemma rd_app (l1 l2 : list A) x i :
  i = Z.of_nat (length l1) -> rd (l1 ++ x :: l2) i = Ok x.
Proof.
  intros ->. apply rd_ok. split; [lia|]. rewrite Nat2Z.id. by apply list_lookup_middle.
Qed.

Lemma wr_app (l1 l2 : list A) x y i :
  i = Z.of_nat (length l1) -> wr (l1 ++ x :: l2) i y = Ok (l1 ++ y :: l2).
Proof.
  intros ->. rewrite wr_in by (rewrite length_app; simpl; lia).
  by rewrite Nat2Z.id, insert_app_r_alt, Nat.sub_diag by lia.
Qed.

Lemma sift_down_place n (pre suf : list A) x key :
  length pre = n -> sift_down n (pre ++ x :: suf) key = Ok (place key pre ++ suf).
Proof.
  revert pre suf x. induction n as [|n IH]; intros pre suf x Hn.
  - destruct pre; [|done]. simpl. by rewrite (wr_app [] suf x key).
  - destruct pre as [|p pre _] using rev_ind; [done|]. rewrite length_app in Hn. simpl in Hn.
    cbn [sift_down]. rewrite <- app_assoc. cbn [app]. rewrite (rd_app pre (x :: suf) p) by lia.
    cbn [res_bind]. unfold place. rewrite rev_app_distr. cbn [rev app place_rev].
    change (pre ++ p :: x :: suf) with (pre ++ [p] ++ x :: suf). rewrite app_assoc.
    destruct (shift key p) eqn:E.
    + rewrite (wr_app (pre ++ [p]) suf x p) by (rewrite length_app; simpl; lia). cbn [res_bind].
      rewrite <- app_assoc. cbn [app]. rewrite IH by lia. unfold place. cbn [rev].
      by rewrite <- app_assoc.
    + rewrite (wr_app (pre ++ [p]) suf x key) by (rewrite length_app; simpl; lia).
      cbn [rev]. by rewrite rev_involutive, <- !app_assoc.
Qed.

(** What the array is sorted by: no element has to move past an earlier one. *)
Definition in_order (x y : A) : Prop := shift y x = false.

Lemma place_perm key l : Permutation (key :: l) (place key l).
Proof.
  unfold place. rewrite <- Permutation_rev, <- (rev_involutive l) at 1. generalize (rev l) as r. clear l.
  intros r. rewrite <- Permutation_rev. induction r as [|p r IH]; [done|]. simpl.
  destruct (shift key p); [|done]. by rewrite <- IH, Permutation_swap.
Qed.

Context (Htrans : forall x y z, in_order x y -> in_order y z -> in_order x z).
Context (Htotal : forall x y, in_order x y \/ in_order y x).

Lemma place_sorted key l :
  StronglySorted in_order l -> StronglySorted in_order (place key l).
Proof.
  intros Hl. rewrite <- (rev_involutive l) in Hl. unfold place. revert Hl.
  generalize (rev l) as r. clear l. induction r as [|p r IH]; intros Hs; cbn [place_rev].
  { repeat constructor. }
  cbn [rev] in Hs. destruct (shift key p) eqn:E.
  - cbn [rev]. apply StronglySorted_app in Hs as (Hx & Hr & _). apply StronglySorted_app.
    split; [|split; [by apply IH | repeat constructor]].
    intros x1 x2 H1 ->%list_elem_of_singleton.
    pose proof (place_perm key (rev r)) as Hp. unfold place in Hp. rewrite rev_involutive in Hp.
    rewrite <- Hp in H1. apply elem_of_cons in H1 as [Hin|Hin].
    + subst x1. destruct (Htotal key p) as [|Hc]; [done|]. unfold in_order in Hc. congruence.
    + apply Hx; [done | by left].
  - cbn [rev]. apply StronglySorted_app. split; [|split; [done | repeat constructor]].
    intros x1 x2 H1 ->%list_elem_of_singleton. apply elem_of_app in H1 as [H1| ->%list_elem_of_singleton]; [|done].
    apply Htrans with p; [|done]. apply StronglySorted_app in Hs as (Hx & _). by apply Hx; [|left].
Qed.

(** The sort returns a sorted permutation and never leaves the array. *)
Lemma insertion_sort_spec a :
  exists a', insertion_sort a = Ok a' /\ Permutation a a' /\ StronglySorted in_order a'.
Proof.
  destruct a as [|x0 a0] eqn:Ea; [exists []; repeat split; constructor|]. rewrite <- Ea.
  assert (Hlen : (0 < length a)%nat) by (subst; simpl; lia). clear Ea.
  unfold insertion_sort.
  destruct (for_loop_rule (fun i b => exists pre suf, b = pre ++ suf /\ Z.of_nat (length pre) = i /\
      length b = length a /\ Permutation a b /\ StronglySorted in_order pre)
    (pred (length a)) 1 (fun i a => let* key := rd a i in sift_down (Z.to_nat i) a key) a)
    as (b & -> & pre & suf & -> & Hpre & Hl & Hp & Hs).
  - destruct a as [|x a]; [simpl in Hlen; lia|]. exists [x], a. split_and!; try done. repeat constructor.
  - intros j b Hj (pre & suf & -> & Hpre & Hl & Hp & Hs).
    destruct suf as [|key suf]; [rewrite app_nil_r in Hl; lia|].
    rewrite (rd_app pre suf key) by done. cbn [res_bind]. rewrite sift_down_place by lia.
    eexists. split; [done|]. pose proof (place_perm key pre) as Hpp.
    exists (place key pre), suf. split_and!; try done.
    + rewrite <- Hpp. simpl. lia.
    + rewrite length_app, <- Hpp. rewrite length_app in Hl. simpl in *. lia.
    + rewrite Hp, <- Hpp. simpl. by rewrite Permutation_middle.
    + by apply place_sorted.
  - assert (suf = []) as ->.
    { rewrite length_app in Hl. destruct suf; [done|]. simpl in Hl. lia. }
    rewrite app_nil_r in *. by exists pre.
Qed.
End insertion_sort.
