(* ===== verification/LinkedList.v ===== *)
(** * Intrusive doubly-linked lists ([lib/common/linked_list.c])

    The store maps the address of every [LINKED_LIST_TAG] to its two links;
    the five operations are the source's pointer assignments in order.
    [is_dll h head l] says that the ring of [head] holds exactly the entries
    [l]; the refinement theorems show that each operation is the list
    operation its callers assume. *)

From S2P Require Import Prelude.

Local Open Scope Z_scope.

Module LinkedList.

(** ** Data: the store of tags *)

Abbreviation addr := Z.

Record LINKED_LIST_TAG := mkTag { Flink : addr; Blink : addr }.

Abbreviation store := (gmap Z LINKED_LIST_TAG).

Definition get_flink (h : store) (a : addr) : res addr :=
  match h !! a with Some t => Ok (Flink t) | None => Oob end.
Definition get_blink (h : store) (a : addr) : res addr :=
  match h !! a with Some t => Ok (Blink t) | None => Oob end.
Definition set_flink (h : store) (a v : addr) : res store :=
  match h !! a with Some t => Ok (<[a := mkTag v (Blink t)]> h) | None => Oob end.
Definition set_blink (h : store) (a v : addr) : res store :=
  match h !! a with Some t => Ok (<[a := mkTag (Flink t) v]> h) | None => Oob end.

(** ** Operations *)

Definition LinkedListInit (h : store) (head : addr) : res store :=
  let* h := set_flink h head head in
  set_blink h head head.

Definition LinkedListInsertHead (h : store) (head entry : addr) : res store :=
  let* f := get_flink h head in
  let* h := set_flink h entry f in
  let* h := set_blink h entry head in
  let* f := get_flink h head in
  let* h := set_blink h f entry in
  set_flink h head entry.

Definition LinkedListInsertTail (h : store) (head entry : addr) : res store :=
  let* h := set_flink h entry head in
  let* b := get_blink h head in
  let* h := set_blink h entry b in
  let* b := get_blink h head in
  let* h := set_flink h b entry in
  set_blink h head entry.

Definition LinkedListRemove (h : store) (entry : addr) : res store :=
  let* b := get_blink h entry in
  let* f := get_flink h entry in
  let* h := set_flink h b f in
  let* f := get_flink h entry in
  let* b := get_blink h entry in
  let* h := set_blink h f b in
  let* h := set_flink h entry entry in
  set_blink h entry entry.

Definition LinkedListIsEmpty (h : store) (head : addr) : res bool :=
  let* f := get_flink h head in Ok (f =? head).

(** [KiCountQueueDepth] ([scheduler/diag.c]): walk the ring and count. *)
Fixpoint count_from (fuel : nat) (h : store) (head p : addr) (count : Z) : res Z :=
  if p =? head then Ok count else
  match fuel with
  | O => NoFuel
  | S fuel => let* q := get_flink h p in count_from fuel h head q (u32 (count + 1))
  end.

Definition KiCountQueueDepth (fuel : nat) (h : store) (head : addr) : res Z :=
  let* p := get_flink h head in count_from fuel h head p 0.

(** ** The abstraction: a ring and its contents *)

Definition fl (h : store) (a : addr) : option addr := Flink <$> h !! a.
Definition bl (h : store) (a : addr) : option addr := Blink <$> h !! a.

Definition linked (h : store) (a b : addr) : Prop := fl h a = Some b /\ bl h b = Some a.

(** Consecutive tags of a path point at each other. *)
Fixpoint path_ok (h : store) (l : list addr) : Prop :=
  match l with
  | a :: (b :: _) as t => linked h a b /\ path_ok h t
  | _ => True
  end.

Definition is_dll (h : store) (head : addr) (l : list addr) : Prop :=
  NoDup (head :: l) /\ path_ok h (head :: l ++ [head]).

(** ** Link updates as function updates *)

Lemma fl_bl_some h a : is_Some (fl h a) <-> is_Some (bl h a).
Proof. unfold fl, bl. by rewrite !fmap_is_Some. Qed.

Lemma get_flink_ok h a b : fl h a = Some b -> get_flink h a = Ok b.
Proof. unfold fl, get_flink. by destruct (h !! a); intros [= <-]. Qed.
Lemma get_blink_ok h a b : bl h a = Some b -> get_blink h a = Ok b.
Proof. unfold bl, get_blink. by destruct (h !! a); intros [= <-]. Qed.

Lemma set_flink_run h a v :
  is_Some (fl h a) ->
  exists h', set_flink h a v = Ok h' /\
    (forall x, fl h' x = if decide (x = a) then Some v else fl h x) /\
    (forall x, bl h' x = bl h x).
Proof.
  unfold fl, bl, set_flink. intros [w Hw]. destruct (h !! a) as [t|] eqn:E; [|done].
  eexists. split; [done|]. split; intros x; rewrite lookup_insert; repeat case_decide; subst; rewrite ?E; done.
Qed.

Lemma set_blink_run h a v :
  is_Some (fl h a) ->
  exists h', set_blink h a v = Ok h' /\
    (forall x, bl h' x = if decide (x = a) then Some v else bl h x) /\
    (forall x, fl h' x = fl h x).
Proof.
  unfold fl, bl, set_blink. intros [w Hw]. destruct (h !! a) as [t|] eqn:E; [|done].
  eexists. split; [done|]. split; intros x; rewrite lookup_insert; repeat case_decide; subst; rewrite ?E; done.
Qed.

(** ** Paths *)

Definition consec (l : list addr) (a b : addr) : Prop :=
  exists l1 l2, l = l1 ++ a :: b :: l2.

Lemma consec_elem l a b : consec l a b -> a ∈ l /\ b ∈ l.
Proof. intros (l1 & l2 & ->). set_solver. Qed.

Lemma consec_not_last l a b z : NoDup (l ++ [z]) -> consec (l ++ [z]) a b -> a <> z.
Proof.
  intros Hnd (l1 & l2 & E) ->.
  assert (Hz : z ∈ b :: l2).
  { assert (Hl : last (l ++ [z]) = last (l1 ++ z :: b :: l2)) by by rewrite E.
    rewrite last_snoc, last_app_cons, last_cons_cons in Hl.
    symmetry in Hl. by apply last_Some_elem_of in Hl. }
  rewrite E in Hnd. apply NoDup_app in Hnd as (_ & _ & Hnd).
  apply NoDup_cons in Hnd as [Hn _]. done.
Qed.

Lemma consec_not_first l a b z : NoDup (z :: l) -> consec (z :: l) a b -> b <> z.
Proof.
  intros Hnd (l1 & l2 & E) ->. destruct l1 as [|y l1]; simplify_list_eq.
  - apply NoDup_cons in Hnd as [Hn _]. set_solver.
  - apply NoDup_cons in Hnd as [Hn _]. set_solver.
Qed.

Lemma path_ok_app h l1 x l2 :
  path_ok h (l1 ++ x :: l2) <-> path_ok h (l1 ++ [x]) /\ path_ok h (x :: l2).
Proof.
  induction l1 as [|a l1 IH]; [simpl; tauto|].
  destruct l1 as [|b l1]; simpl in *; tauto.
Qed.

Lemma path_ok_frame h h' l :
  (forall a b, consec l a b -> fl h' a = fl h a /\ bl h' b = bl h b) ->
  path_ok h l -> path_ok h' l.
Proof.
  induction l as [|a l IH]; [done|]. destruct l as [|b l]; [done|].
  intros Hf [[Hab1 Hab2] Hl]. split.
  - destruct (Hf a b) as [E1 E2]; [by exists [], l|]. split; congruence.
  - apply IH; [|done]. intros x y (l1 & l2 & E). apply Hf.
    exists (a :: l1), l2. by rewrite E.
Qed.

(** The last tag of a non-empty path and its first one. *)
Lemma snoc_split (a : addr) l : exists l' z, a :: l = l' ++ [z].
Proof. destruct (exists_last (l := a :: l)) as (l' & z & E); [done|]. eauto. Qed.
Lemma cons_split l (z : addr) : exists s l', l ++ [z] = s :: l'.
Proof. destruct l; simpl; eauto. Qed.

(** ** Splicing one tag into, and out of, a ring

    [P = p0 ++ [p]] is the ring up to the insertion point and [Q = s :: q0]
    the rest of it up to the head. *)

Section splice.
Context (h h' : store) (head e p s : addr) (l1 l2 p0 q0 : list addr).
Context (HP : head :: l1 = p0 ++ [p]) (HQ : l2 ++ [head] = s :: q0).
Context (Hnd : NoDup (head :: l1 ++ l2)) (He : e ∉ head :: l1 ++ l2).

Lemma splice_nodup_P : NoDup (head :: l1).
Proof. rewrite app_comm_cons in Hnd. by apply NoDup_app in Hnd as [? _]. Qed.

Lemma splice_nodup_Q : NoDup (l2 ++ [head]).
Proof.
  apply NoDup_cons in Hnd as [Hh Hl]. apply NoDup_app in Hl as (_ & _ & Hl2).
  apply NoDup_app. split; [done|]. split; [set_solver|]. apply NoDup_singleton.
Qed.

Lemma splice_P_frame a b :
  consec (head :: l1) a b -> a <> p /\ a <> e /\ b <> s /\ b <> e.
Proof.
  intros Hc. pose proof splice_nodup_P as HndP.
  destruct (consec_elem _ _ _ Hc) as [Ha Hb].
  assert (Hbh : b <> head) by (by eapply consec_not_first).
  assert (Hap : a <> p).
  { rewrite HP in HndP, Hc. by eapply consec_not_last. }
  split; [done|]. split; [set_solver|]. split; [|set_solver].
  intros ->. assert (Hs : s ∈ l2 ++ [head]) by (rewrite HQ; set_solver).
  apply elem_of_app in Hs as [Hs|Hs]; [|set_solver].
  rewrite app_comm_cons in Hnd. apply NoDup_app in Hnd as (_ & Hd & _).
  by apply (Hd s).
Qed.

Lemma splice_Q_frame a b :
  consec (l2 ++ [head]) a b -> a <> p /\ a <> e /\ b <> s /\ b <> e.
Proof.
  intros Hc. pose proof splice_nodup_Q as HndQ.
  destruct (consec_elem _ _ _ Hc) as [Ha Hb].
  assert (Hah : a <> head) by (by eapply consec_not_last).
  assert (Hbs : b <> s).
  { rewrite HQ in HndQ, Hc. by eapply consec_not_first. }
  split; [|set_solver]. intros ->.
  assert (Hp : p ∈ head :: l1) by (rewrite HP; set_solver).
  assert (Ha' : p ∈ l2) by set_solver.
  rewrite app_comm_cons in Hnd. apply NoDup_app in Hnd as (_ & Hd & _).
  by apply (Hd p).
Qed.

Lemma splice_in :
  path_ok h (head :: (l1 ++ l2) ++ [head]) ->
  (forall x, fl h' x = if decide (x = p) then Some e else
                       if decide (x = e) then Some s else fl h x) ->
  (forall x, bl h' x = if decide (x = s) then Some e else
                       if decide (x = e) then Some p else bl h x) ->
  is_dll h' head (l1 ++ e :: l2).
Proof.
  intros Hpath Hfl Hbl. split.
  { rewrite app_comm_cons, <- Permutation_middle, <- app_comm_cons.
    by apply NoDup_cons. }
  assert (Hpe : p <> e).
  { assert (p ∈ head :: l1) by (rewrite HP; set_solver). set_solver. }
  assert (Hse : s <> e).
  { assert (s ∈ l2 ++ [head]) by (rewrite HQ; set_solver). set_solver. }
  rewrite <- app_assoc, <- !app_comm_cons, app_comm_cons, HP.
  rewrite <- app_assoc, app_comm_cons, HP in Hpath.
  rewrite <- !app_assoc in *. simpl in *.
  rewrite path_ok_app in Hpath |- *. destruct Hpath as [HpP HpQ]. split.
  - eapply path_ok_frame; [|exact HpP]. intros a b Hc. rewrite <- HP in Hc.
    apply splice_P_frame in Hc as (? & ? & ? & ?).
    rewrite Hfl, Hbl. by repeat rewrite decide_False by done.
  - rewrite HQ in HpQ |- *. destruct HpQ as [_ HpQ]. split; [|split].
    + split; [by rewrite Hfl, decide_True|].
      by rewrite Hbl, decide_False, decide_True by done.
    + split; [by rewrite Hfl, decide_False, decide_True by done|].
      by rewrite Hbl, decide_True.
    + eapply path_ok_frame; [|exact HpQ]. intros a b Hc. rewrite <- HQ in Hc.
      apply splice_Q_frame in Hc as (? & ? & ? & ?).
      rewrite Hfl, Hbl. by repeat rewrite decide_False by done.
Qed.

Lemma splice_out :
  path_ok h (head :: (l1 ++ e :: l2) ++ [head]) ->
  (forall x, fl h' x = if decide (x = e) then Some e else
                       if decide (x = p) then Some s else fl h x) ->
  (forall x, bl h' x = if decide (x = e) then Some e else
                       if decide (x = s) then Some p else bl h x) ->
  is_dll h' head (l1 ++ l2).
Proof.
  intros Hpath Hfl Hbl. split; [done|].
  assert (Hpe : p <> e).
  { assert (p ∈ head :: l1) by (rewrite HP; set_solver). set_solver. }
  assert (Hse : s <> e).
  { assert (s ∈ l2 ++ [head]) by (rewrite HQ; set_solver). set_solver. }
  rewrite <- app_assoc, app_comm_cons, HP.
  rewrite <- app_assoc, app_comm_cons, HP in Hpath.
  rewrite <- !app_assoc in *. simpl in *.
  rewrite path_ok_app in Hpath |- *. destruct Hpath as [HpP HpQ]. split.
  - eapply path_ok_frame; [|exact HpP]. intros a b Hc. rewrite <- HP in Hc.
    apply splice_P_frame in Hc as (? & ? & ? & ?).
    rewrite Hfl, Hbl. by repeat rewrite decide_False by done.
  - rewrite HQ in HpQ |- *. destruct HpQ as (_ & _ & HpQ). split.
    + split; [by rewrite Hfl, decide_False, decide_True by done|].
      by rewrite Hbl, decide_False, decide_True by done.
    + eapply path_ok_frame; [|exact HpQ]. intros a b Hc. rewrite <- HQ in Hc.
      apply splice_Q_frame in Hc as (? & ? & ? & ?).
      rewrite Hfl, Hbl. by repeat rewrite decide_False by done.
Qed.
End splice.

(** ** What the operations do to a ring *)

Lemma path_ok_mid h l1 a b l2 : path_ok h (l1 ++ a :: b :: l2) -> linked h a b.
Proof. rewrite path_ok_app. simpl. tauto. Qed.

Lemma linked_some h a b : linked h a b -> is_Some (fl h a) /\ is_Some (fl h b).
Proof. intros [H1 H2]. split; [eauto|]. apply fl_bl_some. eauto. Qed.

(** Run one link assignment; the side condition is that the tag exists. *)
Ltac run_set :=
  lazymatch goal with
  | |- context [set_flink ?h ?a ?v] =>
      let h' := fresh "h" in let F := fresh "F" in let B := fresh "B" in
      destruct (set_flink_run h a v) as (h' & -> & F & B)
  | |- context [set_blink ?h ?a ?v] =>
      let h' := fresh "h" in let F := fresh "F" in let B := fresh "B" in
      destruct (set_blink_run h a v) as (h' & -> & B & F)
  end.
Ltac links :=
  repeat match goal with
  | F : forall x, fl ?h x = _ |- context [fl ?h _] => rewrite F
  | B : forall x, bl ?h x = _ |- context [bl ?h _] => rewrite B
  end; repeat case_decide; simplify_eq; eauto.

Lemma LinkedListInit_empty h head :
  is_Some (h !! head) -> exists h', LinkedListInit h head = Ok h' /\ is_dll h' head [].
Proof.
  intros Hs. assert (Hf : is_Some (fl h head)) by (unfold fl; by rewrite fmap_is_Some).
  unfold LinkedListInit. run_set; [done|]. simpl. run_set; [links|].
  eexists. split; [done|]. split; [apply NoDup_singleton|].
  simpl. split; [|done]. split; links.
Qed.

Lemma insert_between_tail h head l e :
  is_dll h head l -> e ∉ head :: l -> is_Some (h !! e) ->
  exists h', LinkedListInsertTail h head e = Ok h' /\ is_dll h' head (l ++ [e]) /\
    (forall x, x ∉ e :: head :: l -> fl h' x = fl h x /\ bl h' x = bl h x).
Proof.
  intros [Hnd Hpath] He Hs.
  assert (Hfe : is_Some (fl h e)) by (unfold fl; by rewrite fmap_is_Some).
  destruct (snoc_split head l) as (p0 & p & HP).
  assert (Hps : linked h p head).
  { rewrite app_comm_cons, HP, <- app_assoc in Hpath. simpl in Hpath. eapply path_ok_mid, Hpath. }
  destruct (linked_some _ _ _ Hps) as [Hfp Hfh]. destruct Hps as [Hfl Hbl].
  assert (e <> head) by set_solver.
  assert (e <> p) by (assert (p ∈ head :: l) by (rewrite HP; set_solver); set_solver).
  unfold LinkedListInsertTail. run_set; [done|]. simpl.
  rewrite (get_blink_ok _ head p) by links. simpl. run_set; [links|]. simpl.
  rewrite (get_blink_ok _ head p) by links. simpl. run_set; [links|]. simpl.
  run_set; [links|]. eexists. split; [done|]. split.
  { apply (splice_in h _ head e p head l [] p0 []); rewrite ?app_nil_r; try done;
      intros x; links. }
  assert (p ∈ head :: l) by (rewrite HP; set_solver).
  intros x Hx. split; links; set_solver.
Qed.

Lemma insert_between_head h head l e :
  is_dll h head l -> e ∉ head :: l -> is_Some (h !! e) ->
  exists h', LinkedListInsertHead h head e = Ok h' /\ is_dll h' head (e :: l) /\
    (forall x, x ∉ e :: head :: l -> fl h' x = fl h x /\ bl h' x = bl h x).
Proof.
  intros [Hnd Hpath] He Hs.
  assert (Hfe : is_Some (fl h e)) by (unfold fl; by rewrite fmap_is_Some).
  destruct (cons_split l head) as (s & q0 & HQ).
  assert (Hps : linked h head s).
  { rewrite HQ in Hpath. by apply (path_ok_mid _ []) in Hpath. }
  destruct (linked_some _ _ _ Hps) as [Hfh Hfs]. destruct Hps as [Hfl Hbl].
  assert (e <> head) by set_solver.
  assert (e <> s) by (assert (s ∈ l ++ [head]) by (rewrite HQ; set_solver); set_solver).
  unfold LinkedListInsertHead.
  rewrite (get_flink_ok _ head s) by links. simpl. run_set; [done|]. simpl.
  run_set; [links|]. simpl.
  rewrite (get_flink_ok _ head s) by links. simpl. run_set; [links|]. simpl.
  run_set; [links|]. eexists. split; [done|]. split.
  { apply (splice_in h _ head e head s [] l [] q0); try done; intros x; links. }
  assert (s ∈ l ++ [head]) by (rewrite HQ; set_solver).
  intros x Hx. split; links; set_solver.
Qed.

Lemma remove_from_ring h head l1 e l2 :
  is_dll h head (l1 ++ e :: l2) ->
  exists h', LinkedListRemove h e = Ok h' /\ is_dll h' head (l1 ++ l2) /\ is_dll h' e [] /\
    (forall x, x ∉ head :: l1 ++ e :: l2 -> fl h' x = fl h x /\ bl h' x = bl h x).
Proof.
  intros [Hnd Hpath].
  destruct (snoc_split head l1) as (p0 & p & HP). destruct (cons_split l2 head) as (s & q0 & HQ).
  assert (Hnd' : NoDup (e :: head :: l1 ++ l2)).
  { revert Hnd. by rewrite app_comm_cons, <- Permutation_middle, <- app_comm_cons. }
  apply NoDup_cons in Hnd' as [He Hnd'].
  assert (Hpath' := Hpath).
  rewrite <- app_assoc, app_comm_cons, HP, <- app_comm_cons, HQ in Hpath'.
  rewrite <- app_assoc in Hpath'. simpl in Hpath'.
  pose proof (path_ok_mid _ _ _ _ _ Hpath') as Hpe.
  assert (Hes : linked h e s).
  { rewrite (app_assoc p0 [p]) in Hpath' || idtac.
    apply (path_ok_mid _ (p0 ++ [p]) e s q0). by rewrite <- app_assoc. }
  assert (p <> e) by (assert (p ∈ head :: l1) by (rewrite HP; set_solver); set_solver).
  assert (s <> e) by (assert (s ∈ l2 ++ [head]) by (rewrite HQ; set_solver); set_solver).
  destruct (linked_some _ _ _ Hpe) as [Hfp Hfe]. destruct (linked_some _ _ _ Hes) as [_ Hfs].
  destruct Hpe as [Hpf Heb]. destruct Hes as [Hef Hsb].
  unfold LinkedListRemove.
  rewrite (get_blink_ok _ e p) by links. simpl.
  rewrite (get_flink_ok _ e s) by links. simpl. run_set; [links|]. simpl.
  rewrite (get_flink_ok _ e s) by links. simpl.
  rewrite (get_blink_ok _ e p) by links. simpl. run_set; [links|]. simpl.
  run_set; [links|]. simpl. run_set; [links|]. eexists. split; [done|]. split; [|split].
  - apply (splice_out h _ head e p s l1 l2 p0 q0); try done; intros x; links.
  - split; [apply NoDup_singleton|]. simpl. split; [|done]. split; links.
  - assert (p ∈ head :: l1) by (rewrite HP; set_solver).
    assert (s ∈ l2 ++ [head]) by (rewrite HQ; set_solver).
    intros x Hx. split; links; set_solver.
Qed.

Lemma empty_ring_test h head l :
  is_dll h head l -> LinkedListIsEmpty h head = Ok (bool_decide (l = [])).
Proof.
  intros [Hnd Hpath]. unfold LinkedListIsEmpty. destruct l as [|a l].
  - destruct Hpath as [[Hf _] _]. rewrite (get_flink_ok _ _ _ Hf). simpl.
    by rewrite Z.eqb_refl.
  - destruct Hpath as [[Hf _] _]. rewrite (get_flink_ok _ _ _ Hf). simpl.
    apply NoDup_cons in Hnd as [Hn _]. rewrite (proj2 (Z.eqb_neq a head)) by set_solver.
    done.
Qed.

(** A ring's contents are determined by the store. *)
Lemma count_from_path h head a l n fuel :
  path_ok h (a :: l ++ [head]) -> head ∉ a :: l ->
  (length l < fuel)%nat -> 0 <= n -> n + Z.of_nat (length l) + 1 < 2 ^ 32 ->
  count_from fuel h head a n = Ok (n + 1 + Z.of_nat (length l)).
Proof.
  revert a n fuel. induction l as [|b l IH]; intros a n fuel Hp Hh Hf Hn Hb.
  - destruct fuel as [|fuel]; [simpl in Hf; lia|]. simpl.
    rewrite (proj2 (Z.eqb_neq a head)) by set_solver.
    destruct Hp as [[Hfl _] _]. rewrite (get_flink_ok _ _ _ Hfl). simpl.
    unwrap. destruct fuel; simpl; rewrite Z.eqb_refl; f_equal; lia.
  - destruct fuel as [|fuel]; [simpl in Hf; lia|]. simpl.
    rewrite (proj2 (Z.eqb_neq a head)) by set_solver.
    destruct Hp as [[Hfl _] Hp]. rewrite (get_flink_ok _ _ _ Hfl). simpl.
    simpl length in *. unwrap. rewrite IH; [f_equal; lia| done | set_solver | lia | lia | lia].
Qed.

(** ** The abstract specification: a family of disjoint rings

    A tag that is in no list is the head of its own empty ring, which is how
    [LinkedListInit] and [LinkedListRemove] leave it. *)

Abbreviation ring_map := (gmap Z (list Z)).

Definition rings (h : store) (R : ring_map) : Prop :=
  (forall hd l, R !! hd = Some l -> is_dll h hd l) /\
  (forall hd1 hd2 l1 l2, hd1 <> hd2 -> R !! hd1 = Some l1 -> R !! hd2 = Some l2 ->
     hd1 :: l1 ## hd2 :: l2).

Inductive list_op :=
| OpInsertHead (hd e : addr)
| OpInsertTail (hd e : addr)
| OpRemove (hd e : addr).

(** The code's call; the ring a removed tag is in is not an argument of it. *)
Definition run_op (h : store) (o : list_op) : res store :=
  match o with
  | OpInsertHead hd e => LinkedListInsertHead h hd e
  | OpInsertTail hd e => LinkedListInsertTail h hd e
  | OpRemove _ e => LinkedListRemove h e
  end.

(** What it means on lists; [None] when the caller breaks the contract. *)
Definition spec_op (R : ring_map) (o : list_op) : option ring_map :=
  match o with
  | OpInsertHead hd e =>
      if decide (hd <> e /\ R !! e = Some []) then
        match R !! hd with
        | Some l => Some (<[hd := e :: l]> (delete e R))
        | None => None
        end
      else None
  | OpInsertTail hd e =>
      if decide (hd <> e /\ R !! e = Some []) then
        match R !! hd with
        | Some l => Some (<[hd := l ++ [e]]> (delete e R))
        | None => None
        end
      else None
  | OpRemove hd e =>
      match R !! hd with
      | Some l =>
          if decide (e ∈ l) then Some (<[e := []]> (<[hd := filter (.≠ e) l]> R)) else None
      | None => None
      end
  end.

Fixpoint run_ops (h : store) (os : list list_op) : res store :=
  match os with
  | [] => Ok h
  | o :: os => let* h := run_op h o in run_ops h os
  end.

Fixpoint spec_ops (R : ring_map) (os : list list_op) : option ring_map :=
  match os with
  | [] => Some R
  | o :: os => R' ← spec_op R o; spec_ops R' os
  end.

Lemma is_dll_frame h h' hd l :
  (forall x, x ∈ hd :: l -> fl h' x = fl h x /\ bl h' x = bl h x) ->
  is_dll h hd l -> is_dll h' hd l.
Proof.
  intros Hf [Hnd Hp]. split; [done|]. eapply path_ok_frame; [|exact Hp].
  intros a b [Ha Hb]%consec_elem. split; apply Hf; set_solver.
Qed.

(** Replacing one ring and releasing or absorbing one singleton keeps the
    family disjoint. *)
Lemma rings_update h h' R hd e l l' :
  rings h R -> R !! hd = Some l -> hd <> e -> R !! e = Some [] ->
  is_dll h' hd l' -> (forall x, x ∈ l' <-> x = e \/ x ∈ l) ->
  (forall x, x ∉ e :: hd :: l -> fl h' x = fl h x /\ bl h' x = bl h x) ->
  rings h' (<[hd := l']> (delete e R)).
Proof.
  intros [Hd Hdis] Hl Hne He Hl' Hin Hf. split.
  - intros k m Hk. destruct (decide (k = hd)) as [->|Hkh].
    { rewrite lookup_insert_eq in Hk. by simplify_eq. }
    rewrite lookup_insert_ne in Hk by done. apply lookup_delete_Some in Hk as [Hke Hk].
    eapply is_dll_frame; [|by eapply Hd]. intros x Hx. apply Hf.
    pose proof (Hdis k hd m l Hkh Hk Hl). pose proof (Hdis k e m [] (not_eq_sym Hke) Hk He).
    set_solver.
  - intros k1 k2 m1 m2 Hne12 H1 H2.
    assert (Hgen : forall k m, k <> hd -> k <> e -> R !! k = Some m -> hd :: l' ## k :: m).
    { intros k m Hkh Hke Hk. pose proof (Hdis k hd m l Hkh Hk Hl).
      pose proof (Hdis k e m [] Hke Hk He). set_solver. }
    destruct (decide (k1 = hd)) as [->|Hk1], (decide (k2 = hd)) as [->|Hk2]; [done|..];
      rewrite ?lookup_insert_eq, ?(lookup_insert_ne _ hd) in H1 by done;
      rewrite ?lookup_insert_eq, ?(lookup_insert_ne _ hd) in H2 by done; simplify_eq;
      repeat match goal with
      | H : delete _ _ !! _ = Some _ |- _ => apply lookup_delete_Some in H as [? ?]
      end.
    + by apply Hgen.
    + pose proof (Hgen k1 m1). set_solver.
    + by eapply Hdis.
Qed.

Lemma rings_remove h h' R hd e l1 l2 :
  rings h R -> R !! hd = Some (l1 ++ e :: l2) ->
  is_dll h' hd (l1 ++ l2) -> is_dll h' e [] ->
  (forall x, x ∉ hd :: l1 ++ e :: l2 -> fl h' x = fl h x /\ bl h' x = bl h x) ->
  rings h' (<[e := []]> (<[hd := l1 ++ l2]> R)).
Proof.
  intros [Hd Hdis] Hl Hl' He' Hf.
  assert (Hnd : NoDup (hd :: l1 ++ e :: l2)) by (by apply Hd in Hl as [? _]).
  assert (He : e ∉ hd :: l1 ++ l2).
  { revert Hnd. rewrite app_comm_cons, <- Permutation_middle, <- app_comm_cons.
    by intros [? _]%NoDup_cons. }
  assert (Hfar : forall k m, k <> hd -> R !! k = Some m -> hd :: l1 ++ e :: l2 ## k :: m).
  { intros k m Hkh Hk. by eapply (Hdis hd k). }
  split.
  - intros k m Hk. rewrite !lookup_insert in Hk. repeat case_decide; simplify_eq; try done.
    eapply is_dll_frame; [|by eapply Hd]. intros x Hx. apply Hf.
    assert (k <> hd) by congruence. pose proof (Hfar k m). set_solver.
  - assert (Hin : forall k m, <[e := []]> (<[hd := l1 ++ l2]> R) !! k = Some m ->
      (k = e /\ m = []) \/ (k = hd /\ m = l1 ++ l2) \/
      (k <> hd /\ R !! k = Some m /\ hd :: l1 ++ e :: l2 ## k :: m)).
    { intros k m Hk. rewrite !lookup_insert in Hk. repeat case_decide; simplify_eq; eauto.
      right. right. eauto. }
    assert (Hehd : [e] ## hd :: l1 ++ l2) by (clear -He; set_solver).
    intros k1 k2 m1 m2 Hne H1 H2.
    destruct (Hin _ _ H1) as [[-> ->]|[[-> ->]|(N1 & R1 & D1)]],
             (Hin _ _ H2) as [[-> ->]|[[-> ->]|(N2 & R2 & D2)]]; try done.
    + clear -D2. set_solver.
    + clear -Hehd. set_solver.
    + clear -D2. set_solver.
    + clear -D1. set_solver.
    + clear -D1. set_solver.
    + by eapply Hdis.
Qed.

Lemma filter_absent_id (e : addr) (l : list addr) : e ∉ l -> filter (.≠ e) l = l.
Proof.
  induction l as [|x l IH]; [done|]. intros [Hx Hl]%not_elem_of_cons.
  rewrite filter_cons_True by done. by rewrite IH.
Qed.

Lemma run_op_refines h R o R' :
  rings h R -> spec_op R o = Some R' -> exists h', run_op h o = Ok h' /\ rings h' R'.
Proof.
  intros HR Hs. assert (Hdom : forall k m, R !! k = Some m -> is_Some (h !! k)).
  { intros k m Hk. apply HR in Hk as [_ Hp].
    assert (Hf : is_Some (fl h k)) by (destruct m; destruct Hp as [[Hf _] _]; eauto).
    unfold fl in Hf. by rewrite fmap_is_Some in Hf. }
  assert (Hout : forall hd e l, hd <> e -> R !! e = Some [] -> R !! hd = Some l -> e ∉ hd :: l).
  { intros hd e l Hne He Hl. pose proof (proj2 HR hd e l [] Hne Hl He). set_solver. }
  destruct o as [hd e|hd e|hd e]; unfold spec_op in Hs.
  - case_decide as Hc; [|done]. destruct Hc as [Hne He].
    destruct (R !! hd) as [l|] eqn:Hl; simplify_eq/=.
    destruct (insert_between_head h hd l e) as (h' & E & Hd & Hf);
      [by apply HR | by eapply Hout | by eapply Hdom |].
    exists h'. split; [done|]. eapply rings_update; eauto. set_solver.
  - case_decide as Hc; [|done]. destruct Hc as [Hne He].
    destruct (R !! hd) as [l|] eqn:Hl; simplify_eq/=.
    destruct (insert_between_tail h hd l e) as (h' & E & Hd & Hf);
      [by apply HR | by eapply Hout | by eapply Hdom |].
    exists h'. split; [done|]. eapply rings_update; eauto. set_solver.
  - destruct (R !! hd) as [l|] eqn:Hl; [|done].
    case_decide as Hc; [|done]. simplify_eq.
    apply list_elem_of_split in Hc as (l1 & l2 & ->).
    assert (Hnd : NoDup (l1 ++ e :: l2)).
    { apply HR in Hl as [Hnd _]. by apply NoDup_cons in Hnd as [_ Hnd]. }
    destruct (remove_from_ring h hd l1 e l2) as (h' & E & Hd & He & Hf); [by apply HR|].
    exists h'. split; [done|].
    assert (Hfl : filter (.≠ e) (l1 ++ e :: l2) = l1 ++ l2).
    { rewrite <- Permutation_middle in Hnd. apply NoDup_cons in Hnd as [Hn _].
      rewrite filter_app, filter_cons_False by tauto.
      apply not_elem_of_app in Hn as [Hn1 Hn2].
      by rewrite !filter_absent_id. }
    rewrite Hfl. by eapply rings_remove.
Qed.

(** C33: every sequence of list calls that respects the callers' contract runs to
    completion on the pointer structure and leaves exactly the lists that the
    same calls compute on mathematical lists. *)
Theorem run_ops_refines h R os R' :
  rings h R -> spec_ops R os = Some R' -> exists h', run_ops h os = Ok h' /\ rings h' R'.
Proof.
  revert h R. induction os as [|o os IH]; intros h R HR Hs; simpl in *; [simplify_eq; eauto|].
  destruct (spec_op R o) as [R1|] eqn:E; [|done]. simpl in Hs.
  destruct (run_op_refines _ _ _ _ HR E) as (h1 & -> & HR1). simpl. eauto.
Qed.

(** Three self-linked tags: two entries queued, one taken out again. *)
Lemma run_ops_refines_witness :
  let h : store := {[ 1 := mkTag 1 1; 2 := mkTag 2 2; 3 := mkTag 3 3 ]} in
  let R : ring_map := {[ 1 := []; 2 := []; 3 := [] ]} in
  let os := [OpInsertTail 1 2; OpInsertHead 1 3; OpRemove 1 2] in
  exists h' R', run_ops h os = Ok h' /\ rings h' R' /\ R' !! 1 = Some [3] /\ R' !! 2 = Some [].
Proof.
  intros h R os.
  assert (HR : rings h R).
  { split.
    - intros k m Hk. unfold R in Hk. rewrite !lookup_insert, lookup_singleton in Hk.
      repeat case_decide; simplify_eq; (split; [apply NoDup_singleton|]); done.
    - intros k1 k2 m1 m2 Hne H1 H2. unfold R in H1, H2. rewrite !lookup_insert, lookup_singleton in H1, H2.
      repeat case_decide; simplify_eq; clear -Hne; set_solver. }
  destruct (run_ops_refines h R os _ HR eq_refl) as (h' & E & Hr).
  exists h'. eexists. split; [exact E|]. split; [exact Hr|]. by vm_compute.
Defined.

End LinkedList.
