(* ===== verification/Irql.v ===== *)
(** * Execution levels and critical sections ([ke/irql.c], [ke/critical_section.c])

    The processor's state is the interrupt flag, the IRQL states (one per
    thread, reached through [gCurrentIrqlState]) and the global critical-section
    depth.  A guard is the caller's stack object; a null pointer is [None].

    [block] is the language of the kernel's own bracketed code: nested guards,
    critical sections and interrupts delivered by the hardware where the flag
    allows one.  The theorems show that no assertion of the two files can fire
    on such code, that every bracket restores what it found, and that the
    bracketed code runs with interrupts masked at dispatch level. *)

From S2P Require Import Prelude.

Local Open Scope Z_scope.

Module Irql.

Inductive KE_IRQL := KE_IRQL_PASSIVE_LEVEL | KE_IRQL_DISPATCH_LEVEL.

#[export] Instance KE_IRQL_eq_dec : EqDecision KE_IRQL.
Proof. solve_decision. Defined.

Record KE_IRQL_STATE := mkIrqlState {
  CurrentLevel : KE_IRQL;
  DispatchDepth : Z;
  InterruptDepth : Z
}.

Record KE_IRQL_GUARD := mkIrqlGuard {
  Active : bool;
  Transitioned : bool;
  SavedInterruptState : bool;
  PreviousLevel : KE_IRQL;
  TargetLevel : KE_IRQL;
  EnterDepth : Z
}.

Record KE_CRITICAL_SECTION := mkCritical {
  IrqlGuard : KE_IRQL_GUARD;
  CsEnterDepth : Z;
  CsActive : bool
}.

(** The globals of the two files, and the processor's interrupt flag. *)
Record cpu := mkCpu {
  MaskableInterruptEnabled : bool;
  IrqlStates : gmap Z KE_IRQL_STATE;
  gCurrentIrqlState : Z;                (* 0 is the null pointer *)
  gCriticalSectionDepth : Z
}.

Definition set_IF (b : bool) (s : cpu) : cpu :=
  mkCpu b (IrqlStates s) (gCurrentIrqlState s) (gCriticalSectionDepth s).
Definition set_depth (d : Z) (s : cpu) : cpu :=
  mkCpu (MaskableInterruptEnabled s) (IrqlStates s) (gCurrentIrqlState s) d.
Definition set_irql_state (st : KE_IRQL_STATE) (s : cpu) : cpu :=
  mkCpu (MaskableInterruptEnabled s) (<[gCurrentIrqlState s := st]> (IrqlStates s))
        (gCurrentIrqlState s) (gCriticalSectionDepth s).

(** ** [arch.c], [cpu.c]: the maskable-interrupt flag *)

Definition ArchDisableInterrupts (s : cpu) : bool * cpu :=
  (MaskableInterruptEnabled s, set_IF false s).

Definition ArchRestoreInterruptState (saved : bool) (s : cpu) : cpu :=
  if saved then set_IF true s else set_IF false s.

(** ** [irql.c] *)

Definition MAX_DEPTH : Z := 0xFFFFFFFF.

Definition KiGetCurrentIrqlState (s : cpu) : res KE_IRQL_STATE :=
  let* _ := HO_KASSERT (negb (gCurrentIrqlState s =? 0)) EC_INVALID_STATE in
  match IrqlStates s !! gCurrentIrqlState s with
  | Some st => Ok st
  | None => Oob
  end.

Definition KiAssertIrqlState (st : KE_IRQL_STATE) : res unit :=
  let* _ := HO_KASSERT (InterruptDepth st <=? DispatchDepth st) EC_INVALID_STATE in
  if DispatchDepth st =? 0
  then HO_KASSERT (bool_decide (CurrentLevel st = KE_IRQL_PASSIVE_LEVEL)) EC_INVALID_STATE
  else HO_KASSERT (bool_decide (CurrentLevel st = KE_IRQL_DISPATCH_LEVEL)) EC_INVALID_STATE.

Definition KeInitializeIrqlState (state : Z) (s : cpu) : res cpu :=
  let* _ := HO_KASSERT (negb (state =? 0)) EC_ILLEGAL_ARGUMENT in
  Ok (mkCpu (MaskableInterruptEnabled s)
            (<[state := mkIrqlState KE_IRQL_PASSIVE_LEVEL 0 0]> (IrqlStates s))
            (gCurrentIrqlState s) (gCriticalSectionDepth s)).

Definition KeSetCurrentIrqlState (state : Z) (s : cpu) : res cpu :=
  let* _ := HO_KASSERT (negb (state =? 0)) EC_ILLEGAL_ARGUMENT in
  match IrqlStates s !! state with
  | None => Oob
  | Some st =>
      let* _ := KiAssertIrqlState st in
      Ok (mkCpu (MaskableInterruptEnabled s) (IrqlStates s) state (gCriticalSectionDepth s))
  end.

Definition KeGetCurrentIrql (s : cpu) : res KE_IRQL :=
  let* st := KiGetCurrentIrqlState s in
  let* _ := KiAssertIrqlState st in
  Ok (CurrentLevel st).

Definition KeIsBlockingAllowed (s : cpu) : res bool :=
  let* l := KeGetCurrentIrql s in
  Ok (bool_decide (l = KE_IRQL_PASSIVE_LEVEL)).

Definition KeAcquireIrqlGuard (guard : option KE_IRQL_GUARD) (targetLevel : KE_IRQL) (s : cpu)
  : res (KE_IRQL_GUARD * cpu) :=
  let* st := KiGetCurrentIrqlState s in
  match guard with
  | None => Panic EC_ILLEGAL_ARGUMENT
  | Some guard =>
      let* _ := HO_KASSERT (negb (Active guard)) EC_INVALID_STATE in
      let* _ := HO_KASSERT (bool_decide (targetLevel = KE_IRQL_DISPATCH_LEVEL)) EC_NOT_SUPPORTED in
      let* _ := HO_KASSERT (negb (DispatchDepth st =? MAX_DEPTH)) EC_OUT_OF_RESOURCE in
      let* _ := KiAssertIrqlState st in
      let '(transitioned, saved, s) :=
        if decide (CurrentLevel st = KE_IRQL_PASSIVE_LEVEL)
        then let '(b, s) := ArchDisableInterrupts s in (true, b, s)
        else (false, false, s) in
      let st' := mkIrqlState KE_IRQL_DISPATCH_LEVEL (u32 (DispatchDepth st + 1))
                             (InterruptDepth st) in
      let guard' := mkIrqlGuard true transitioned saved (CurrentLevel st) targetLevel
                                (DispatchDepth st') in
      let* _ := KiAssertIrqlState st' in
      Ok (guard', set_irql_state st' s)
  end.

Definition KeReleaseIrqlGuard (guard : option KE_IRQL_GUARD) (s : cpu)
  : res (KE_IRQL_GUARD * cpu) :=
  let* st := KiGetCurrentIrqlState s in
  match guard with
  | None => Panic EC_ILLEGAL_ARGUMENT
  | Some guard =>
      let* _ := HO_KASSERT (Active guard) EC_INVALID_STATE in
      let* _ := HO_KASSERT (bool_decide (TargetLevel guard = KE_IRQL_DISPATCH_LEVEL))
                           EC_NOT_SUPPORTED in
      let* _ := KiAssertIrqlState st in
      let* _ := HO_KASSERT (negb (DispatchDepth st =? 0)) EC_INVALID_STATE in
      let* _ := HO_KASSERT (EnterDepth guard =? DispatchDepth st) EC_INVALID_STATE in
      let d := u32 (DispatchDepth st - 1) in
      let st' := mkIrqlState (if d =? 0 then PreviousLevel guard else KE_IRQL_DISPATCH_LEVEL)
                             d (InterruptDepth st) in
      let s := set_irql_state st' s in
      let* s :=
        if Transitioned guard then
          let* _ := HO_KASSERT (d =? 0) EC_INVALID_STATE in
          Ok (ArchRestoreInterruptState (SavedInterruptState guard) s)
        else Ok s in
      let guard' := mkIrqlGuard false false (SavedInterruptState guard) (PreviousLevel guard)
                                KE_IRQL_PASSIVE_LEVEL 0 in
      let* _ := KiAssertIrqlState st' in
      Ok (guard', s)
  end.

Definition KeEnterInterruptContext (s : cpu) : res cpu :=
  let* st := KiGetCurrentIrqlState s in
  let* _ := KiAssertIrqlState st in
  let* _ := HO_KASSERT (negb (DispatchDepth st =? MAX_DEPTH)) EC_OUT_OF_RESOURCE in
  let* _ := HO_KASSERT (negb (InterruptDepth st =? MAX_DEPTH)) EC_OUT_OF_RESOURCE in
  let st' := mkIrqlState KE_IRQL_DISPATCH_LEVEL (u32 (DispatchDepth st + 1))
                         (u32 (InterruptDepth st + 1)) in
  let* _ := KiAssertIrqlState st' in
  Ok (set_irql_state st' s).

Definition KeLeaveInterruptContext (s : cpu) : res cpu :=
  let* st := KiGetCurrentIrqlState s in
  let* _ := KiAssertIrqlState st in
  let* _ := HO_KASSERT (negb (InterruptDepth st =? 0)) EC_INVALID_STATE in
  let* _ := HO_KASSERT (negb (DispatchDepth st =? 0)) EC_INVALID_STATE in
  let* _ := HO_KASSERT (DispatchDepth st =? InterruptDepth st) EC_INVALID_STATE in
  let d := u32 (DispatchDepth st - 1) in
  let st' := mkIrqlState (if d =? 0 then KE_IRQL_PASSIVE_LEVEL else KE_IRQL_DISPATCH_LEVEL)
                         d (u32 (InterruptDepth st - 1)) in
  let* _ := KiAssertIrqlState st' in
  Ok (set_irql_state st' s).

(** ** [critical_section.c] *)

Definition KeEnterCriticalSection (guard : option KE_CRITICAL_SECTION) (s : cpu)
  : res (KE_CRITICAL_SECTION * cpu) :=
  match guard with
  | None => Panic EC_ILLEGAL_ARGUMENT
  | Some guard =>
      let* _ := HO_KASSERT (negb (CsActive guard)) EC_INVALID_STATE in
      let* _ := HO_KASSERT (negb (gCriticalSectionDepth s =? MAX_DEPTH)) EC_OUT_OF_RESOURCE in
      let* (g, s) := KeAcquireIrqlGuard (Some (IrqlGuard guard)) KE_IRQL_DISPATCH_LEVEL s in
      let s := set_depth (u32 (gCriticalSectionDepth s + 1)) s in
      Ok (mkCritical g (gCriticalSectionDepth s) true, s)
  end.

Definition KeLeaveCriticalSection (guard : option KE_CRITICAL_SECTION) (s : cpu)
  : res (KE_CRITICAL_SECTION * cpu) :=
  match guard with
  | None => Panic EC_ILLEGAL_ARGUMENT
  | Some guard =>
      let* _ := HO_KASSERT (CsActive guard) EC_INVALID_STATE in
      let* _ := HO_KASSERT (negb (gCriticalSectionDepth s =? 0)) EC_INVALID_STATE in
      let* _ := HO_KASSERT (CsEnterDepth guard =? gCriticalSectionDepth s) EC_INVALID_STATE in
      let s := set_depth (u32 (gCriticalSectionDepth s - 1)) s in
      let* (g, s) := KeReleaseIrqlGuard (Some (IrqlGuard guard)) s in
      Ok (mkCritical g 0 false, s)
  end.

(** ** Bracketed kernel code

    An [Act] observes the level, the flag and both depths.  An [Interrupt] is a
    device interrupt that becomes pending at that point: it is delivered only
    if the flag is set (the gate clears the flag, [iretq] sets it again), and
    its handler is bracketed as in [IdtExceptionHandler] ([arch/amd64/idt.c]). *)
Inductive block :=
| Act
| Then (p q : block)
| Guarded_by (p : block)
| Critical (p : block)
| Interrupt (handler : block).

Record observation := mkObs { obs_level : KE_IRQL; obs_IF : bool; obs_nest : Z; obs_critical : Z }.

Definition fresh_guard : KE_IRQL_GUARD :=
  mkIrqlGuard false false false KE_IRQL_PASSIVE_LEVEL KE_IRQL_PASSIVE_LEVEL 0.
Definition fresh_critical : KE_CRITICAL_SECTION := mkCritical fresh_guard 0 false.

(** The hardware's part of an interrupt and the C handler's bracket. *)
Definition IdtDispatchInterrupt (handler : cpu -> res (list observation * cpu)) (s : cpu)
  : res (list observation * cpu) :=
  if MaskableInterruptEnabled s then
    let s := set_IF false s in
    let* s := KeEnterInterruptContext s in
    let* (t, s) := handler s in
    let* s := KeLeaveInterruptContext s in
    Ok (t, set_IF true s)
  else Ok ([], s).

(** [nest] counts the brackets lexically around the point. *)
Fixpoint run (nest : Z) (p : block) (s : cpu) : res (list observation * cpu) :=
  match p with
  | Act =>
      let* l := KeGetCurrentIrql s in
      Ok ([mkObs l (MaskableInterruptEnabled s) nest (gCriticalSectionDepth s)], s)
  | Then p q =>
      let* (t1, s) := run nest p s in
      let* (t2, s) := run nest q s in
      Ok (t1 ++ t2, s)
  | Guarded_by p =>
      let* (g, s) := KeAcquireIrqlGuard (Some fresh_guard) KE_IRQL_DISPATCH_LEVEL s in
      let* (t, s) := run (nest + 1) p s in
      let* (_, s) := KeReleaseIrqlGuard (Some g) s in
      Ok (t, s)
  | Critical p =>
      let* (g, s) := KeEnterCriticalSection (Some fresh_critical) s in
      let* (t, s) := run (nest + 1) p s in
      let* (_, s) := KeLeaveCriticalSection (Some g) s in
      Ok (t, s)
  | Interrupt p => IdtDispatchInterrupt (run (nest + 1) p) s
  end.

Fixpoint nesting (p : block) : Z :=
  match p with
  | Act => 0
  | Then p q => Z.max (nesting p) (nesting q)
  | Guarded_by p | Critical p | Interrupt p => nesting p + 1
  end.

(** ** The processor invariant *)

Definition irql_ok (st : KE_IRQL_STATE) : Prop :=
  0 <= InterruptDepth st <= DispatchDepth st /\
  CurrentLevel st =
    if DispatchDepth st =? 0 then KE_IRQL_PASSIVE_LEVEL else KE_IRQL_DISPATCH_LEVEL.

(** The current IRQL state is consistent and has dispatch depth [d]; dispatch
    level is never observed with interrupts enabled. *)
Definition cpu_ok (s : cpu) (d : Z) : Prop :=
  gCurrentIrqlState s <> 0 /\ 0 <= gCriticalSectionDepth s /\
  (0 < d -> MaskableInterruptEnabled s = false) /\
  exists st, IrqlStates s !! gCurrentIrqlState s = Some st /\ irql_ok st /\ DispatchDepth st = d.

Definition level_at (d : Z) : KE_IRQL :=
  if d =? 0 then KE_IRQL_PASSIVE_LEVEL else KE_IRQL_DISPATCH_LEVEL.

Lemma get_state s st :
  gCurrentIrqlState s <> 0 -> IrqlStates s !! gCurrentIrqlState s = Some st ->
  KiGetCurrentIrqlState s = Ok st.
Proof.
  intros Hc Hs. unfold KiGetCurrentIrqlState. rewrite (proj2 (Z.eqb_neq _ 0) Hc). simpl.
  by rewrite Hs.
Qed.

Lemma assert_ok st : irql_ok st -> KiAssertIrqlState st = Ok tt.
Proof.
  intros [Hd Hl]. unfold KiAssertIrqlState. rewrite (proj2 (Z.leb_le _ _)) by lia. simpl.
  rewrite Hl. by destruct (DispatchDepth st =? 0).
Qed.

Lemma set_irql_back s st st' :
  IrqlStates s !! gCurrentIrqlState s = Some st ->
  set_irql_state st (set_irql_state st' s) = s.
Proof.
  intros Hs. destruct s as [b m c k]. unfold set_irql_state. simpl in *.
  by rewrite insert_insert_eq, insert_id.
Qed.

Ltac kassert :=
  repeat match goal with
  | |- context [HO_KASSERT ?b ?c] =>
      let H := fresh in
      assert (H : b = true) by (first [ reflexivity | done
        | rewrite ?negb_true_iff, ?Z.eqb_neq, ?Z.eqb_eq, ?Z.leb_le; unfold MAX_DEPTH in *; simpl; lia ]);
      rewrite H; clear H; cbn [HO_KASSERT res_bind]
  end.

Lemma current_level s d : cpu_ok s d -> KeGetCurrentIrql s = Ok (level_at d).
Proof.
  intros (Hc & _ & _ & st & Hs & Hok & <-). unfold KeGetCurrentIrql.
  rewrite (get_state s st) by done. cbn [res_bind].
  rewrite assert_ok by done. cbn [res_bind]. by rewrite (proj2 Hok).
Qed.

(** The two halves of an IRQL guard undo each other. *)
Lemma guard_bracket s d g :
  cpu_ok s d -> d < MAX_DEPTH -> Active g = false ->
  exists g' s', KeAcquireIrqlGuard (Some g) KE_IRQL_DISPATCH_LEVEL s = Ok (g', s') /\
    cpu_ok s' (d + 1) /\ MaskableInterruptEnabled s' = false /\
    gCriticalSectionDepth s' = gCriticalSectionDepth s /\
    (exists g2, KeReleaseIrqlGuard (Some g') s' = Ok (g2, s) /\ Active g2 = false).
Proof.
  intros (Hc & Hk & Hif & st & Hs & Hok & <-) Hd Hg. set (d := DispatchDepth st) in *.
  assert (Hr : 0 <= d) by (destruct Hok; lia).
  assert (Hw : u32 (d + 1) = d + 1) by (apply u32_small; unfold MAX_DEPTH in *; word_lia).
  set (st' := mkIrqlState KE_IRQL_DISPATCH_LEVEL (d + 1) (InterruptDepth st)).
  assert (Hok' : irql_ok st').
  { destruct Hok as [H1 _]. split; simpl; [lia|].
    by rewrite (proj2 (Z.eqb_neq (d + 1) 0)) by lia. }
  assert (Hlev : CurrentLevel st = level_at d) by apply Hok.
  assert (Hsb : set_irql_state st (set_irql_state st' (set_IF false s)) = set_IF false s)
    by (by apply set_irql_back).
  assert (Hif2 : d <> 0 -> set_IF false s = s).
  { intros Hd0. destruct s as [b m c k]. simpl in *. unfold set_IF; simpl. by rewrite Hif by lia. }
  exists (mkIrqlGuard true (d =? 0) (if d =? 0 then MaskableInterruptEnabled s else false)
            (level_at d) KE_IRQL_DISPATCH_LEVEL (d + 1)), (set_irql_state st' (set_IF false s)).
  split_and!; try done.
  - unfold KeAcquireIrqlGuard. rewrite (get_state s st) by done. cbn [res_bind]. rewrite Hg.
    kassert. fold d. kassert. rewrite assert_ok by done. cbn [res_bind]. rewrite Hw.
    destruct (decide _) as [Hl|Hl]; rewrite Hlev in Hl; unfold level_at in Hl;
      destruct (Z.eqb_spec d 0) as [Hd0|Hd0]; try done; simpl;
      fold st'; rewrite assert_ok by done; simpl; rewrite Hlev; unfold level_at.
    + by rewrite (proj2 (Z.eqb_eq _ _) Hd0).
    + rewrite (proj2 (Z.eqb_neq _ _) Hd0). by rewrite Hif2.
  - unfold cpu_ok. split_and!; try done. exists st'. simpl. by rewrite lookup_insert_eq.
  - exists (mkIrqlGuard false false (if d =? 0 then MaskableInterruptEnabled s else false)
              (level_at d) KE_IRQL_PASSIVE_LEVEL 0). split.
    { unfold KeReleaseIrqlGuard.
    rewrite (get_state _ st') by (simpl; rewrite ?lookup_insert_eq; done). cbn [res_bind].
    simpl. rewrite assert_ok by done. cbn [res_bind].
    replace (DispatchDepth st') with (d + 1) by done.
    replace (InterruptDepth st') with (InterruptDepth st) by done. kassert.
    replace (d + 1 - 1) with d by lia. rewrite (u32_small d) by (unfold MAX_DEPTH in *; word_lia).
    replace (mkIrqlState (if d =? 0 then level_at d else KE_IRQL_DISPATCH_LEVEL) d
               (InterruptDepth st)) with st.
    2: { rewrite <- Hlev. destruct st as [l0 d0 i0]. simpl in *. subst d. f_equal. rewrite Hlev.
         unfold level_at. by destruct (d0 =? 0). }
    rewrite Hsb. rewrite (assert_ok st) by done.
    destruct (Z.eqb_spec d 0) as [Hd0|Hd0]; simpl.
    + f_equal. f_equal. destruct s as [b m c k]. by destruct b.
    + by rewrite Hif2. }
    reflexivity.
Qed.

Lemma critical_bracket s d cs :
  cpu_ok s d -> d < MAX_DEPTH -> gCriticalSectionDepth s < MAX_DEPTH ->
  CsActive cs = false -> Active (IrqlGuard cs) = false ->
  exists g' s', KeEnterCriticalSection (Some cs) s = Ok (g', s') /\
    cpu_ok s' (d + 1) /\ MaskableInterruptEnabled s' = false /\
    gCriticalSectionDepth s' = gCriticalSectionDepth s + 1 /\
    (exists g2, KeLeaveCriticalSection (Some g') s' = Ok (g2, s) /\
       CsActive g2 = false /\ Active (IrqlGuard g2) = false).
Proof.
  intros Hok Hd Hk Hcs Hcg. assert (Hk0 : 0 <= gCriticalSectionDepth s) by (destruct Hok; tauto).
  destruct (guard_bracket s d (IrqlGuard cs)) as (g & s1 & Ha & Hok1 & Hif & Hc & g2 & Hr & Hg2); [done..|].
  assert (Hw : u32 (gCriticalSectionDepth s + 1) = gCriticalSectionDepth s + 1)
    by (apply u32_small; unfold MAX_DEPTH in *; word_lia).
  set (k := gCriticalSectionDepth s) in *.
  exists (mkCritical g (k + 1) true), (set_depth (k + 1) s1). split_and!; try done.
  - unfold KeEnterCriticalSection. fold k. rewrite Hcs. kassert. rewrite Ha. cbn [res_bind].
    by rewrite Hc, Hw.
  - destruct Hok1 as (H1 & H2 & H3 & st & H4). unfold cpu_ok. split_and!; try done; simpl; [lia|]. eauto.
  - exists (mkCritical g2 0 false). split; [|done].
    unfold KeLeaveCriticalSection. cbn [gCriticalSectionDepth set_depth CsActive CsEnterDepth].
    kassert. replace (k + 1 - 1) with k by lia. rewrite (u32_small k) by (unfold MAX_DEPTH in *; word_lia).
    replace (set_depth k (set_depth (k + 1) s1)) with s1.
    2: { destruct s1 as [b1 m1 c1 k1]. unfold set_depth. simpl in *. by rewrite Hc. }
    simpl. by rewrite Hr.
Qed.

(** An interrupt context entered from passive level leaves no trace. *)
Lemma interrupt_bracket s :
  cpu_ok s 0 ->
  exists s', KeEnterInterruptContext (set_IF false s) = Ok s' /\
    cpu_ok s' 1 /\ gCriticalSectionDepth s' = gCriticalSectionDepth s /\
    KeLeaveInterruptContext s' = Ok (set_IF false s).
Proof.
  intros (Hc & Hk & Hif & st & Hs & Hok & Hd).
  assert (Hi : InterruptDepth st = 0) by (destruct Hok; lia).
  assert (Hst : st = mkIrqlState KE_IRQL_PASSIVE_LEVEL 0 0).
  { destruct st as [l0 d0 i0]. destruct Hok as [_ Hl]. simpl in *. by subst. }
  set (st' := mkIrqlState KE_IRQL_DISPATCH_LEVEL 1 1).
  assert (Hok' : irql_ok st') by (split; [simpl; lia | done]).
  exists (set_irql_state st' (set_IF false s)). split_and!; try done.
  - unfold KeEnterInterruptContext. rewrite (get_state _ st) by done. cbn [res_bind].
    rewrite assert_ok by done. rewrite Hst. cbn. fold st'. done.
  - unfold cpu_ok. split_and!; try done. exists st'. simpl. by rewrite lookup_insert_eq.
  - unfold KeLeaveInterruptContext.
    rewrite (get_state _ st') by (simpl; rewrite ?lookup_insert_eq; done). cbn [res_bind].
    rewrite assert_ok by done. cbn [res_bind].
    replace (DispatchDepth st') with 1 by done. replace (InterruptDepth st') with 1 by done.
    kassert. replace (u32 (1 - 1)) with 0 by done. simpl (if 0 =? 0 then _ else _).
    rewrite <- Hst, assert_ok by done. cbn [res_bind]. f_equal. by apply set_irql_back.
Qed.

(** ** Bracketed code *)

(** What a point nested [obs_nest o] deep must see when the whole block was
    entered [nest] deep, at dispatch depth [d], with flag [b]. *)
Definition observes (nest d : Z) (b : bool) (o : observation) : Prop :=
  nest <= obs_nest o /\
  obs_level o = level_at (d + (obs_nest o - nest)) /\
  obs_IF o = if d + (obs_nest o - nest) =? 0 then b else false.

Lemma observes_deeper nest d b b' t :
  0 <= d -> Forall (observes (nest + 1) (d + 1) b') t -> b' = false ->
  Forall (observes nest d b) t.
Proof.
  intros Hd Ht ->. eapply Forall_impl; [exact Ht|]. intros o (Hn & Hl & Hb).
  replace (d + 1 + (obs_nest o - (nest + 1))) with (d + (obs_nest o - nest)) in * by lia.
  split_and!; [lia | done |]. rewrite Hb.
  by rewrite (proj2 (Z.eqb_neq (d + (obs_nest o - nest)) 0)) by lia.
Qed.

Lemma nesting_nonneg p : 0 <= nesting p.
Proof. induction p; simpl; lia. Qed.

(** C34: code built from nested IRQL guards, critical sections and interrupts
    delivered by the hardware never fires an assertion of [irql.c] or
    [critical_section.c] as long as the nesting fits the 32-bit depths; it
    restores the processor's state exactly; and every point inside a bracket
    runs at dispatch level with interrupts masked, while code outside brackets
    sees the level and the flag of its caller. *)
Theorem bracketed_code_safe nest p s d :
  cpu_ok s d -> d + nesting p <= MAX_DEPTH ->
  gCriticalSectionDepth s + nesting p <= MAX_DEPTH ->
  exists t, run nest p s = Ok (t, s) /\
    Forall (observes nest d (MaskableInterruptEnabled s)) t.
Proof.
  revert nest s d. induction p as [|p IHp q IHq|p IH|p IH|p IH]; intros nest s d Hok Hd Hk; simpl in Hd, Hk.
  all: assert (Hd0 : 0 <= d)
    by (destruct Hok as (_ & _ & _ & st & _ & [Hst _] & <-); lia).
  - eexists. simpl. rewrite (current_level s d) by done. split; [done|].
    apply Forall_singleton. unfold observes. simpl. rewrite Z.sub_diag, Z.add_0_r.
    split_and!; [lia | done |]. destruct (Z.eqb_spec d 0); [done|]. apply Hok. lia.
  - destruct (IHp nest s d) as (t1 & E1 & H1); [done | lia.. |].
    destruct (IHq nest s d) as (t2 & E2 & H2); [done | lia.. |].
    exists (t1 ++ t2). simpl. rewrite E1. simpl. rewrite E2. split; [done|]. by apply Forall_app.
  - pose proof (nesting_nonneg p).
    destruct (guard_bracket s d fresh_guard) as (g & s' & Ha & Hok' & Hif & Hc & g2 & Hr & _);
      [done | lia | done |].
    destruct (IH (nest + 1) s' (d + 1)) as (t & E & Ht); [done | lia.. |].
    exists t. cbn [run]. rewrite Ha. cbn [res_bind]. rewrite E. cbn [res_bind]. rewrite Hr. split; [done|].
    by eapply observes_deeper.
  - pose proof (nesting_nonneg p).
    destruct (critical_bracket s d fresh_critical) as (g & s' & Ha & Hok' & Hif & Hc & g2 & Hr & _);
      [done | lia | lia | done | done |].
    destruct (IH (nest + 1) s' (d + 1)) as (t & E & Ht); [done | lia.. |].
    exists t. cbn [run]. rewrite Ha. cbn [res_bind]. rewrite E. cbn [res_bind]. rewrite Hr. split; [done|].
    by eapply observes_deeper.
  - simpl. unfold IdtDispatchInterrupt.
    destruct (MaskableInterruptEnabled s) eqn:Hif; [|by exists []].
    assert (d = 0) as ->.
    { destruct (decide (d = 0)); [done|]. destruct Hok as (_ & _ & Hm & _).
      rewrite Hm in Hif by lia. done. }
    destruct (interrupt_bracket s) as (s' & Ha & Hok' & Hc & Hr); [done|].
    destruct (IH (nest + 1) s' 1) as (t & E & Ht); [done | lia.. |].
    exists t. rewrite Ha. simpl. rewrite E. simpl. rewrite Hr. simpl. split.
    + do 2 f_equal. destruct s as [b m c k]. simpl in *. by subst.
    + eapply observes_deeper; [done | exact Ht |]. apply Hok'. lia.
Qed.

(** A passive thread takes a critical section, an interrupt arrives inside it
    (masked) and one after it (delivered). *)
Lemma bracketed_code_safe_witness :
  let s := mkCpu true {[ 8 := mkIrqlState KE_IRQL_PASSIVE_LEVEL 0 0 ]} 8 0 in
  let p := Then (Critical (Then Act (Then (Interrupt Act) (Guarded_by Act)))) (Then Act (Interrupt Act)) in
  cpu_ok s 0 /\
  exists t, run 0 p s = Ok (t, s) /\ Forall (observes 0 0 true) t /\ length t = 4%nat.
Proof.
  intros s p.
  assert (Hok : cpu_ok s 0).
  { unfold cpu_ok. split_and!; try done. eexists. split; [done|]. split; [|done]. by split. }
  split; [exact Hok|].
  destruct (bracketed_code_safe 0 p s 0 Hok) as (t & E & Ht); [by vm_compute..|].
  exists t. split_and!; [exact E | exact Ht |].
  assert (E' : run 0 p s = Ok (t, s)) by exact E. vm_compute in E'. by injection E' as <-.
Defined.

End Irql.
