(* ===== verification/Pmm.v ===== *)
(** * The physical page allocator ([ke/pmm/bitmap_sink.c], [ke/pmm/pmm_device.c])

    [Module Bitmap] is the 2-bits-per-page bitmap sink: the bitmap is a list of
    bytes accessed with bounds, the loops are the source's.  Its theorems give
    the first-fit specification of allocation, the behaviour of [FreePages],
    [ReservePages] and [CheckInvariants] on every branch, and the invariant
    that the three counters describe the bitmap.  [Module Device] is the
    facade through the table of function pointers; [PageAllocator] is the
    contract the memory manager is verified against, with the bitmap sink as
    its instance. *)

From S2P Require Import Prelude.

Local Open Scope Z_scope.

Record KE_PMM_ALLOC_CONSTRAINTS := mkConstraints {
  MaxPhysAddr : Z;
  AlignmentPages : Z
}.

Record KE_PMM_STATS := mkStats {
  TotalBytes : Z;
  FreeBytes : Z;
  AllocatedBytes : Z;
  ReservedBytes : Z
}.

(** Page states ([KE_PMM_PAGE_STATE]): a 2-bit number; 3 is not a state. *)
Definition PMM_PAGE_FREE : Z := 0.
Definition PMM_PAGE_ALLOCATED : Z := 1.
Definition PMM_PAGE_RESERVED : Z := 2.

Module Bitmap.

Record KE_PMM_BITMAP_CONTEXT := mkCtx {
  Bitmap : list Z;
  ManagedBasePhys : Z;
  TotalManagedPages : Z;
  FreePages : Z;
  AllocatedPages : Z;
  ReservedPages : Z
}.

(** ** 2-bit helpers *)

Definition BitmapGetState (b : list Z) (pageIndex : Z) : res Z :=
  let byteIdx := Z.shiftr pageIndex 2 in
  let bitOff := Z.shiftl (Z.land pageIndex 3) 1 in
  let* x := rd b byteIdx in
  Ok (Z.land (Z.shiftr x bitOff) 3).

Definition set_bits (x bitOff state : Z) : Z :=
  u8 (Z.lor (Z.land x (Z.lnot (Z.shiftl 3 bitOff))) (Z.shiftl state bitOff)).

Definition BitmapSetState (b : list Z) (pageIndex state : Z) : res (list Z) :=
  let byteIdx := Z.shiftr pageIndex 2 in
  let bitOff := Z.shiftl (Z.land pageIndex 3) 1 in
  let* x := rd b byteIdx in
  wr b byteIdx (set_bits x bitOff state).

Definition BitmapSetRange (b : list Z) (startIndex count state : Z) : res (list Z) :=
  for_loop (Z.to_nat count) 0 (fun i b => BitmapSetState b (u64 (startIndex + i)) state) b.

(** The loop of [BitmapCheckRange] returns at the first mismatch. *)
Fixpoint check_from (n : nat) (b : list Z) (startIndex i expected : Z) : res bool :=
  match n with
  | O => Ok true
  | S n =>
      let* s := BitmapGetState b (u64 (startIndex + i)) in
      if negb (s =? expected) then Ok false
      else check_from n b startIndex (i + 1) expected
  end.

Definition BitmapCheckRange (b : list Z) (startIndex count expected : Z) : res bool :=
  check_from (Z.to_nat count) b startIndex 0 expected.

(** ** Allocation *)

(** The inner loop: [None] when the run is free, [Some j] at the first page
    that is not. *)
Fixpoint probe (n : nat) (b : list Z) (i j : Z) : res (option Z) :=
  match n with
  | O => Ok None
  | S n =>
      let* s := BitmapGetState b (u64 (i + j)) in
      if negb (s =? PMM_PAGE_FREE) then Ok (Some j) else probe n b i (j + 1)
  end.

(** The [while] loop; [Some i] is the index of the run found. *)
Fixpoint scan (fuel : nat) (b : list Z) (alignPages maxPageIndex count i : Z) : res (option Z) :=
  if u64 (i + count) <=? maxPageIndex then
    match fuel with
    | O => NoFuel
    | S fuel =>
        let rem := i mod alignPages in
        if (1 <? alignPages) && negb (rem =? 0)
        then scan fuel b alignPages maxPageIndex count (u64 (i + (alignPages - rem)))
        else
          let* hit := probe (Z.to_nat count) b i 0 in
          match hit with
          | None => Ok (Some i)
          | Some j => scan fuel b alignPages maxPageIndex count (u64 (i + j + 1))
          end
    end
  else Ok None.

(** The constraint checks: the alignment and the exclusive page limit. *)
Definition alloc_limits (ctx : KE_PMM_BITMAP_CONTEXT) (constraints : option KE_PMM_ALLOC_CONSTRAINTS)
  : HO_STATUS + Z * Z :=
  let maxPageIndex := TotalManagedPages ctx in
  match constraints with
  | None => inr (1, maxPageIndex)
  | Some c =>
      if (1 <? AlignmentPages c) && negb (Z.land (AlignmentPages c) (AlignmentPages c - 1) =? 0)
      then inl EC_ILLEGAL_ARGUMENT
      else
        let alignPages := if 1 <? AlignmentPages c then AlignmentPages c else 1 in
        if negb (MaxPhysAddr c =? 0) then
          let maxAddr := MaxPhysAddr c in
          if maxAddr <? ManagedBasePhys ctx then inl EC_NOT_ENOUGH_MEMORY
          else
            let limit := Z.shiftr (u64 (u64 (maxAddr - ManagedBasePhys ctx) + 1)) PAGE_SHIFT in
            inr (alignPages, if limit <? maxPageIndex then limit else maxPageIndex)
        else inr (alignPages, maxPageIndex)
  end.

Definition BitmapAllocPages (ctx : KE_PMM_BITMAP_CONTEXT) (count : Z)
    (constraints : option KE_PMM_ALLOC_CONSTRAINTS)
  : res (HO_STATUS * KE_PMM_BITMAP_CONTEXT * option Z) :=
  if count =? 0 then Ok (EC_ILLEGAL_ARGUMENT, ctx, None) else
  match alloc_limits ctx constraints with
  | inl e => Ok (e, ctx, None)
  | inr (alignPages, maxPageIndex) =>
      if maxPageIndex <? count then Ok (EC_NOT_ENOUGH_MEMORY, ctx, None) else
      let* found := scan (S (Z.to_nat maxPageIndex)) (Bitmap ctx) alignPages maxPageIndex count 0 in
      match found with
      | Some i =>
          let* b := BitmapSetRange (Bitmap ctx) i count PMM_PAGE_ALLOCATED in
          Ok (EC_SUCCESS,
              mkCtx b (ManagedBasePhys ctx) (TotalManagedPages ctx)
                    (u64 (FreePages ctx - count)) (u64 (AllocatedPages ctx + count))
                    (ReservedPages ctx),
              Some (u64 (ManagedBasePhys ctx + u64 (i * PAGE_4KB))))
      | None => Ok (EC_NOT_ENOUGH_MEMORY, ctx, None)
      end
  end.

(** ** Release and reservation *)

Definition BitmapFreePages (ctx : KE_PMM_BITMAP_CONTEXT) (basePhys count : Z)
  : res (HO_STATUS * KE_PMM_BITMAP_CONTEXT) :=
  if count =? 0 then Ok (EC_ILLEGAL_ARGUMENT, ctx) else
  if negb (HO_IS_ALIGNED basePhys PAGE_4KB) then Ok (EC_ILLEGAL_ARGUMENT, ctx) else
  if basePhys <? ManagedBasePhys ctx then Ok (EC_ILLEGAL_ARGUMENT, ctx) else
  let startIndex := Z.shiftr (u64 (basePhys - ManagedBasePhys ctx)) PAGE_SHIFT in
  if TotalManagedPages ctx <? u64 (startIndex + count) then Ok (EC_ILLEGAL_ARGUMENT, ctx) else
  let* ok := BitmapCheckRange (Bitmap ctx) startIndex count PMM_PAGE_ALLOCATED in
  if negb ok then Ok (EC_INVALID_STATE, ctx) else
  let* b := BitmapSetRange (Bitmap ctx) startIndex count PMM_PAGE_FREE in
  Ok (EC_SUCCESS,
      mkCtx b (ManagedBasePhys ctx) (TotalManagedPages ctx)
            (u64 (FreePages ctx + count)) (u64 (AllocatedPages ctx - count)) (ReservedPages ctx)).

Definition BitmapReservePages (ctx : KE_PMM_BITMAP_CONTEXT) (basePhys count : Z)
  : res (HO_STATUS * KE_PMM_BITMAP_CONTEXT) :=
  if count =? 0 then Ok (EC_ILLEGAL_ARGUMENT, ctx) else
  if negb (HO_IS_ALIGNED basePhys PAGE_4KB) then Ok (EC_ILLEGAL_ARGUMENT, ctx) else
  if basePhys <? ManagedBasePhys ctx then Ok (EC_ILLEGAL_ARGUMENT, ctx) else
  let startIndex := Z.shiftr (u64 (basePhys - ManagedBasePhys ctx)) PAGE_SHIFT in
  if TotalManagedPages ctx <? u64 (startIndex + count) then Ok (EC_ILLEGAL_ARGUMENT, ctx) else
  let* ok := BitmapCheckRange (Bitmap ctx) startIndex count PMM_PAGE_FREE in
  if negb ok then Ok (EC_INVALID_STATE, ctx) else
  let* b := BitmapSetRange (Bitmap ctx) startIndex count PMM_PAGE_RESERVED in
  Ok (EC_SUCCESS,
      mkCtx b (ManagedBasePhys ctx) (TotalManagedPages ctx)
            (u64 (FreePages ctx - count)) (AllocatedPages ctx) (u64 (ReservedPages ctx + count))).

(** ** Queries *)

Definition BitmapQueryStats (ctx : KE_PMM_BITMAP_CONTEXT) (outStats : bool)
  : HO_STATUS * option KE_PMM_STATS :=
  if negb outStats then (EC_ILLEGAL_ARGUMENT, None) else
  (EC_SUCCESS,
   Some (mkStats (u64 (TotalManagedPages ctx * PAGE_4KB)) (u64 (FreePages ctx * PAGE_4KB))
                 (u64 (AllocatedPages ctx * PAGE_4KB)) (u64 (ReservedPages ctx * PAGE_4KB)))).

(** The counting loop; [None] is the early return on an unknown state. *)
Fixpoint count_states (n : nat) (b : list Z) (i : Z) (acc : Z * Z * Z) : res (option (Z * Z * Z)) :=
  match n with
  | O => Ok (Some acc)
  | S n =>
      let* s := BitmapGetState b i in
      let '(f, a, r) := acc in
      if s =? PMM_PAGE_FREE then count_states n b (i + 1) (u64 (f + 1), a, r)
      else if s =? PMM_PAGE_ALLOCATED then count_states n b (i + 1) (f, u64 (a + 1), r)
      else if s =? PMM_PAGE_RESERVED then count_states n b (i + 1) (f, a, u64 (r + 1))
      else Ok None
  end.

Definition BitmapCheckInvariants (ctx : KE_PMM_BITMAP_CONTEXT) : res HO_STATUS :=
  let* acc := count_states (Z.to_nat (TotalManagedPages ctx)) (Bitmap ctx) 0 (0, 0, 0) in
  match acc with
  | None => Ok EC_INVALID_STATE
  | Some (countFree, countAlloc, countReserved) =>
      if negb (countFree =? FreePages ctx) || negb (countAlloc =? AllocatedPages ctx)
         || negb (countReserved =? ReservedPages ctx)
      then Ok EC_INVALID_STATE
      else if negb (u64 (u64 (countFree + countAlloc) + countReserved) =? TotalManagedPages ctx)
      then Ok EC_INVALID_STATE
      else Ok EC_SUCCESS
  end.

(** [outStats] and [ctx] say whether the out-pointer was non-null; [None] is a
    null [bitmap]. *)
Definition KePmmBitmapSinkInit (ctx : bool) (bitmap : option (list Z)) (managedBasePhys totalManagedPages : Z)
  : HO_STATUS * option KE_PMM_BITMAP_CONTEXT :=
  match bitmap with
  | None => (EC_ILLEGAL_ARGUMENT, None)
  | Some b =>
      if negb ctx || (totalManagedPages =? 0) then (EC_ILLEGAL_ARGUMENT, None)
      else (EC_SUCCESS, Some (mkCtx b managedBasePhys totalManagedPages 0 0 0))
  end.

(** ** The bitmap as a function from page index to state *)

Definition page_state (b : list Z) (i : Z) : Z :=
  match b !! Z.to_nat (Z.shiftr i 2) with
  | Some x => Z.land (Z.shiftr x (Z.shiftl (Z.land i 3) 1)) 3
  | None => 3
  end.

Definition bytes (b : list Z) : Prop := Forall is_u8 b.

(** Pages the bitmap has room for. *)
Definition room (b : list Z) : Z := 4 * Z.of_nat (length b).

Lemma page_split i : 0 <= i -> Z.shiftr i 2 = i / 4 /\ Z.land i 3 = i mod 4.
Proof.
  intros Hi. split; [by rewrite Z.shiftr_div_pow2 by lia|].
  change 3 with (Z.ones 2). by rewrite Z.land_ones by lia.
Qed.

Lemma get_state_ok b i : 0 <= i < room b -> BitmapGetState b i = Ok (page_state b i).
Proof.
  unfold room. intros Hi. destruct (page_split i) as [Hq Hr]; [lia|].
  destruct (rd_in b (Z.shiftr i 2)) as [x Hx]; [rewrite Hq; div_lia|].
  unfold BitmapGetState, page_state. rewrite Hx. simpl. f_equal.
  apply rd_ok in Hx as [_ Hx]. by rewrite Hx.
Qed.

(** Writing one 2-bit field of a byte leaves the other three alone. *)
Lemma set_bits_spec x o o' s :
  0 <= x < 256 -> 0 <= o < 4 -> 0 <= o' < 4 -> 0 <= s < 4 ->
  Z.land (Z.shiftr (set_bits x (Z.shiftl o 1) s) (Z.shiftl o' 1)) 3 =
  if o' =? o then s else Z.land (Z.shiftr x (Z.shiftl o' 1)) 3.
Proof.
  intros Hx Ho Ho' Hs. apply Z.eqb_eq.
  apply (forall_below 4 (fun s => Z.land (Z.shiftr (set_bits x (Z.shiftl o 1) s) (Z.shiftl o' 1)) 3
    =? if o' =? o then s else Z.land (Z.shiftr x (Z.shiftl o' 1)) 3)); [|lia].
  revert x Hx. apply (forall_below 256). revert o Ho. apply (forall_below 4).
  revert o' Ho'. apply (forall_below 4). by vm_compute.
Qed.

Lemma set_state_ok b i s :
  bytes b -> 0 <= i < room b -> 0 <= s < 4 ->
  exists b', BitmapSetState b i s = Ok b' /\ length b' = length b /\ bytes b' /\
    forall j, 0 <= j -> page_state b' j = if j =? i then s else page_state b j.
Proof.
  unfold room. intros Hb Hi Hs. destruct (page_split i) as [Hq Hr]; [lia|].
  destruct (rd_in b (Z.shiftr i 2)) as [x Hx]; [rewrite Hq; div_lia|].
  pose proof Hx as Hx'. apply rd_ok in Hx' as [_ Hl].
  assert (Hxb : is_u8 x) by by eapply Forall_lookup_1.
  eexists. unfold BitmapSetState. rewrite Hx. cbn [res_bind].
  rewrite wr_in by (rewrite Hq; div_lia). split_and!; [done | apply length_insert | |].
  { apply Forall_insert; [done | apply u8_range]. }
  intros j Hj. destruct (page_split j) as [Hqj Hrj]; [done|]. unfold page_state.
  destruct (decide (Z.to_nat (Z.shiftr j 2) = Z.to_nat (Z.shiftr i 2))) as [E|E].
  - rewrite E, list_lookup_insert_eq, Hl by (rewrite Hq; div_lia).
    rewrite set_bits_spec by (rewrite ?Hr, ?Hrj; div_lia).
    replace (j =? i) with (Z.land j 3 =? Z.land i 3); [done|].
    assert (j / 4 = i / 4) by (rewrite Hq, Hqj in E; div_lia). apply eq_true_iff_eq. rewrite !Z.eqb_eq. rewrite Hr, Hrj. div_lia.
  - rewrite list_lookup_insert_ne by done.
    destruct (Z.eqb_spec j i) as [->|]; [done|done].
Qed.

Definition in_range (a c i : Z) : bool := (a <=? i) && (i <? a + c).

Lemma in_range_spec a c i : in_range a c i = true <-> a <= i < a + c.
Proof. unfold in_range. rewrite andb_true_iff, Z.leb_le, Z.ltb_lt. done. Qed.

(** [BitmapSetRange] writes exactly the pages of the range. *)
Lemma set_range_ok b a c s :
  bytes b -> 0 <= a -> 0 <= c -> a + c <= room b -> room b < 2 ^ 64 -> 0 <= s < 4 ->
  exists b', BitmapSetRange b a c s = Ok b' /\ length b' = length b /\ bytes b' /\
    forall j, 0 <= j -> page_state b' j = if in_range a c j then s else page_state b j.
Proof.
  intros Hb Ha Hc Hac Hroom Hs. unfold BitmapSetRange.
  destruct (for_loop_rule (fun k b' => length b' = length b /\ bytes b' /\
      forall j, 0 <= j -> page_state b' j = if in_range a k j then s else page_state b j)
    (Z.to_nat c) 0 (fun i b => BitmapSetState b (u64 (a + i)) s) b) as (b' & E & HI).
  - split_and!; [done..|]. intros j Hj. unfold in_range.
    destruct (Z.leb_spec a j), (Z.ltb_spec j (a + 0)); simpl; done || lia.
  - intros k t Hk (Hl & Ht & Hp).
    rewrite u64_small by word_lia.
    destruct (set_state_ok t (a + k) s) as (t' & E & Hl' & Ht' & Hp');
      [done | unfold room in *; rewrite Hl; lia | done |].
    exists t'. split_and!; [done | lia | done |]. intros j Hj. rewrite Hp', Hp by done.
    unfold in_range.
    destruct (Z.eqb_spec j (a + k)), (Z.leb_spec a j), (Z.ltb_spec j (a + k)),
      (Z.ltb_spec j (a + (k + 1))); simpl; done || lia.
  - exists b'. destruct HI as (H1 & H2 & H3). split_and!; [done..|].
    intros j Hj. rewrite H3 by done. by replace (0 + Z.of_nat (Z.to_nat c)) with c by lia.
Qed.

(** [BitmapCheckRange] decides whether the whole range has one state. *)
Lemma check_from_ok n b a i s :
  0 <= a -> 0 <= i -> a + i + Z.of_nat n <= room b -> room b < 2 ^ 64 ->
  exists r, check_from n b a i s = Ok r /\
    (r = true <-> forall j, a + i <= j < a + i + Z.of_nat n -> page_state b j = s).
Proof.
  revert i. induction n as [|n IH]; intros i Ha Hi Hn Hroom; simpl.
  - exists true. split; [done|]. split; [lia | done].
  - rewrite u64_small, get_state_ok by word_lia. cbn [res_bind].
    destruct (Z.eqb_spec (page_state b (a + i)) s) as [Heq|Hne]; simpl.
    + destruct (IH (i + 1)) as (r & -> & Hr); [lia..|]. exists r. split; [done|]. rewrite Hr.
      split; intros H j Hj; [|apply H; lia].
      destruct (decide (j = a + i)) as [->|]; [done|]. apply H. lia.
    + exists false. split; [done|]. split; [done|]. intros H. exfalso. apply Hne, H. lia.
Qed.

Lemma check_range_ok b a c s :
  0 <= a -> 0 <= c -> a + c <= room b -> room b < 2 ^ 64 ->
  exists r, BitmapCheckRange b a c s = Ok r /\
    (r = true <-> forall j, a <= j < a + c -> page_state b j = s).
Proof.
  intros Ha Hc Hac Hroom. destruct (check_from_ok (Z.to_nat c) b a 0 s) as (r & E & Hr); [lia..|].
  exists r. split; [done|]. rewrite Hr.
  by replace (a + 0 + Z.of_nat (Z.to_nat c)) with (a + c) by lia; rewrite Z.add_0_r.
Qed.

(** ** Tallies: how many pages are in a state *)

Fixpoint tally (f : Z -> Z) (s : Z) (n : nat) : Z :=
  match n with
  | O => 0
  | S n => tally f s n + if f (Z.of_nat n) =? s then 1 else 0
  end.

Lemma tally_range f s n : 0 <= tally f s n <= Z.of_nat n.
Proof. induction n; simpl; [lia|]. destruct (_ =? s); lia. Qed.

(** Three tallies of three different states never exceed the whole. *)
Lemma tally_total f n :
  tally f PMM_PAGE_FREE n + tally f PMM_PAGE_ALLOCATED n + tally f PMM_PAGE_RESERVED n <= Z.of_nat n.
Proof.
  unfold PMM_PAGE_FREE, PMM_PAGE_ALLOCATED, PMM_PAGE_RESERVED.
  induction n; cbn [tally]; [lia|].
  destruct (Z.eqb_spec (f (Z.of_nat n)) 0), (Z.eqb_spec (f (Z.of_nat n)) 1),
    (Z.eqb_spec (f (Z.of_nat n)) 2); lia.
Qed.

Lemma tally_ext f g s n :
  (forall i, 0 <= i < Z.of_nat n -> f i = g i) -> tally f s n = tally g s n.
Proof. induction n; intros H; simpl; [done|]. rewrite IHn, H by (intros; try apply H; lia). done. Qed.

(** Moving a range from state [s] to state [t] moves its length between the
    two tallies. *)
Lemma tally_move f g a c s t u n :
  0 <= a -> 0 <= c -> s <> t ->
  (forall i, 0 <= i -> g i = if in_range a c i then t else f i) ->
  (forall i, a <= i < a + c -> f i = s) ->
  let inside := Z.max 0 (Z.min (a + c) (Z.of_nat n) - a) in
  tally g u n = tally f u n + (if u =? t then inside else 0) - (if u =? s then inside else 0).
Proof.
  intros Ha Hc Hst Hg Hf. induction n as [|n IH]; cbv zeta in *; cbn [tally].
  { destruct (u =? t), (u =? s); lia. }
  rewrite IH, Hg by lia. destruct (in_range a c (Z.of_nat n)) eqn:E.
  - apply in_range_spec in E. rewrite Hf by lia.
    destruct (Z.eqb_spec u t), (Z.eqb_spec u s), (Z.eqb_spec t u), (Z.eqb_spec s u); subst; lia.
  - assert (~ a <= Z.of_nat n < a + c) by (rewrite <- in_range_spec; congruence).
    destruct (u =? t), (u =? s); lia.
Qed.

(** A range inside the first [n] pages that all have state [s] bounds the tally. *)
Lemma tally_at_least f a c s n :
  0 <= a -> 0 <= c -> a + c <= Z.of_nat n -> (forall i, a <= i < a + c -> f i = s) ->
  c <= tally f s n.
Proof.
  intros Ha Hc Hn Hf. set (g i := if in_range a c i then s + 1 else f i).
  pose proof (tally_move f g a c s (s + 1) s n Ha Hc ltac:(lia) ltac:(done) Hf) as E.
  cbv zeta in E. pose proof (tally_range g s n) as Hr.
  rewrite Z.eqb_refl, (proj2 (Z.eqb_neq s (s + 1))) in E by lia. lia.
Qed.

(** ** The context invariant *)

Definition state (ctx : KE_PMM_BITMAP_CONTEXT) (i : Z) : Z := page_state (Bitmap ctx) i.

Definition pages (ctx : KE_PMM_BITMAP_CONTEXT) : nat := Z.to_nat (TotalManagedPages ctx).

(** The geometry of a context: the bitmap covers the managed range, which does
    not wrap around the physical address space. *)
Record geometry (ctx : KE_PMM_BITMAP_CONTEXT) : Prop := mkGeometry {
  geo_bytes : bytes (Bitmap ctx);
  geo_room : 0 < TotalManagedPages ctx <= room (Bitmap ctx);
  geo_words : room (Bitmap ctx) < 2 ^ 64;
  geo_base : 0 <= ManagedBasePhys ctx /\ ManagedBasePhys ctx mod PAGE_4KB = 0;
  geo_end : ManagedBasePhys ctx + TotalManagedPages ctx * PAGE_4KB <= 2 ^ 64
}.

(** The counters describe the bitmap. *)
Record counted (ctx : KE_PMM_BITMAP_CONTEXT) : Prop := mkCounted {
  cnt_states : forall i, 0 <= i < TotalManagedPages ctx -> 0 <= state ctx i <= 2;
  cnt_free : FreePages ctx = tally (state ctx) PMM_PAGE_FREE (pages ctx);
  cnt_alloc : AllocatedPages ctx = tally (state ctx) PMM_PAGE_ALLOCATED (pages ctx);
  cnt_reserved : ReservedPages ctx = tally (state ctx) PMM_PAGE_RESERVED (pages ctx)
}.

Definition pmm_ok (ctx : KE_PMM_BITMAP_CONTEXT) : Prop := geometry ctx /\ counted ctx.

(** [ctx'] is [ctx] with the pages [[a, a+c)] put in state [s]. *)
Definition moved (ctx ctx' : KE_PMM_BITMAP_CONTEXT) (a c s : Z) : Prop :=
  ManagedBasePhys ctx' = ManagedBasePhys ctx /\
  TotalManagedPages ctx' = TotalManagedPages ctx /\
  forall i, 0 <= i -> state ctx' i = if in_range a c i then s else state ctx i.

(** The counter a state is tallied in. *)
Definition counter (ctx : KE_PMM_BITMAP_CONTEXT) (s : Z) : Z :=
  if s =? PMM_PAGE_FREE then FreePages ctx
  else if s =? PMM_PAGE_ALLOCATED then AllocatedPages ctx else ReservedPages ctx.

(** Every mutation of the sink is such a move, with its counter updates:
    [shift] does the work of the three operations at once. *)
Lemma shift ctx a c s t :
  pmm_ok ctx -> 0 <= a -> 0 < c -> a + c <= TotalManagedPages ctx ->
  0 <= s <= 2 -> 0 <= t <= 2 -> s <> t ->
  (forall i, a <= i < a + c -> state ctx i = s) ->
  exists b, BitmapSetRange (Bitmap ctx) a c t = Ok b /\
    forall f al r,
      (let k u := u64 (counter ctx u + (if u =? t then c else 0) - (if u =? s then c else 0)) in
       f = k PMM_PAGE_FREE /\ al = k PMM_PAGE_ALLOCATED /\ r = k PMM_PAGE_RESERVED) ->
      let ctx' := mkCtx b (ManagedBasePhys ctx) (TotalManagedPages ctx) f al r in
      pmm_ok ctx' /\ moved ctx ctx' a c t.
Proof.
  intros [G C] Ha Hc Hac Hs Ht Hst Hf.
  destruct (set_range_ok (Bitmap ctx) a c t) as (b & Hb & Hlen & Hby & Hp);
    [apply G | lia | lia | pose proof (geo_room _ G); lia | apply G | lia |].
  exists b. split; [done|]. intros f al r Hk ctx'.
  assert (Hst' : forall i, 0 <= i -> state ctx' i = if in_range a c i then t else state ctx i) by done.
  assert (Hm : moved ctx ctx' a c t) by done. split; [|exact Hm].
  assert (Htot : Z.of_nat (pages ctx) = TotalManagedPages ctx)
    by (unfold pages; pose proof (geo_room _ G); lia).
  assert (Hcnt : forall u, 0 <= u <= 2 ->
    u64 (counter ctx u + (if u =? t then c else 0) - (if u =? s then c else 0)) = tally (state ctx') u (pages ctx)).
  { intros u Hu. assert (counter ctx u = tally (state ctx) u (pages ctx)) as ->.
    { destruct C as [_ C1 C2 C3]. unfold counter, PMM_PAGE_FREE, PMM_PAGE_ALLOCATED, PMM_PAGE_RESERVED in *.
      destruct (Z.eqb_spec u 0) as [->|]; [done|]. destruct (Z.eqb_spec u 1) as [->|]; [done|].
      by assert (u = 2) as -> by lia. }
    pose proof (tally_move _ _ a c s t u (pages ctx) Ha ltac:(lia) Hst Hst' Hf) as Hmv. cbv zeta in Hmv.
    pose proof (tally_range (state ctx') u (pages ctx)). pose proof (geo_room _ G). pose proof (geo_words _ G).
    replace (Z.max 0 (Z.min (a + c) (Z.of_nat (pages ctx)) - a)) with c in Hmv by lia.
    rewrite <- Hmv. apply u64_small. word_lia. }
  cbv zeta in Hk. destruct Hk as (-> & -> & ->). split.
  - destruct G as [G1 G2 G3 G4 G5]. unfold room in *. by split; simpl; unfold room; rewrite ?Hlen.
  - split; simpl; [|apply Hcnt; done..]. intros i Hi. fold ctx'. rewrite Hst' by lia.
    destruct (in_range a c i); [lia|]. by apply C.
Qed.

(** ** The scan *)

Lemma probe_ok n b i j :
  0 <= i -> 0 <= j -> i + j + Z.of_nat n <= room b -> room b < 2 ^ 64 ->
  exists r, probe n b i j = Ok r /\
    match r with
    | None => forall k, i + j <= k < i + j + Z.of_nat n -> page_state b k = PMM_PAGE_FREE
    | Some k => j <= k < j + Z.of_nat n /\ page_state b (i + k) <> PMM_PAGE_FREE
    end.
Proof.
  revert j. induction n as [|n IH]; intros j Hi Hj Hn Hroom; simpl.
  - exists None. split; [done|]. lia.
  - rewrite u64_small, get_state_ok by word_lia. cbn [res_bind].
    destruct (Z.eqb_spec (page_state b (i + j)) PMM_PAGE_FREE) as [Heq|Hne]; simpl.
    + destruct (IH (j + 1)) as (r & -> & Hr); [lia..|]. exists r. split; [done|].
      destruct r as [k|]; [split; [lia|apply Hr]|]. intros k Hk.
      destruct (decide (k = i + j)) as [->|]; [done|]. apply Hr. lia.
    + exists (Some j). split; [done|]. split; [lia|done].
Qed.

(** A run of [count] free pages at [k], aligned and below the limit. *)
Definition fits (b : list Z) (align limit count k : Z) : Prop :=
  0 <= k /\ k + count <= limit /\ k mod align = 0 /\
  forall j, k <= j < k + count -> page_state b j = PMM_PAGE_FREE.

Definition first_fit (b : list Z) (align limit count : Z) (r : option Z) : Prop :=
  match r with
  | Some k => fits b align limit count k /\ forall k', 0 <= k' < k -> ~ fits b align limit count k'
  | None => forall k, ~ fits b align limit count k
  end.

(** No multiple of [m] lies strictly between [i] and the next one. *)
Lemma next_multiple i m k :
  0 < m -> i mod m <> 0 -> i <= k < i + (m - i mod m) -> k mod m <> 0.
Proof.
  intros Hm Hi Hk E. apply Z.mod_divide in E as [q Hq]; [|lia].
  pose proof (Z.div_mod i m ltac:(lia)). pose proof (Z.mod_pos_bound i m Hm).
  assert (i / m < q < i / m + 1) by nia. lia.
Qed.

(** The scan finds the lowest fitting run and never runs out of iterations:
    every turn advances the index. *)
Lemma scan_ok fuel b align limit count i :
  1 <= align <= 2 ^ 63 -> 0 < count -> limit <= room b -> limit <= 2 ^ 52 -> count <= 2 ^ 52 ->
  room b < 2 ^ 64 -> 0 <= i <= 2 ^ 63 + 2 ^ 53 -> limit - i < Z.of_nat fuel ->
  (forall k, 0 <= k < i -> ~ fits b align limit count k) ->
  exists r, scan fuel b align limit count i = Ok r /\ first_fit b align limit count r.
Proof.
  intros Ha Hc Hl Hl2 Hc2 Hroom. revert i. induction fuel as [|fuel IH]; intros i Hi Hfuel Hno.
  all: assert (Hend : limit < i + count -> first_fit b align limit count None)
    by (intros Hge k Hk; apply (Hno k); [destruct Hk; lia | done]).
  all: cbn [scan]; rewrite u64_small by word_lia; destruct (Z.leb_spec (i + count) limit); [|by eauto].
  { lia. }
  assert (Hprobe : i mod align = 0 ->
    exists r, (let* hit := probe (Z.to_nat count) b i 0 in
               match hit with
               | None => Ok (Some i)
               | Some j => scan fuel b align limit count (u64 (i + j + 1))
               end) = Ok r /\ first_fit b align limit count r).
  { intros Hal. destruct (probe_ok (Z.to_nat count) b i 0) as ([j|] & E & Hr); [lia..| |];
      rewrite E; cbn [res_bind].
    - destruct Hr as [Hj Hbad]. rewrite u64_small by word_lia. apply IH; [lia..|].
      intros k Hk Hf. destruct (decide (k < i)) as [|]; [by apply (Hno k); [lia|]|].
      apply Hbad, Hf. destruct Hf. lia.
    - exists (Some i). split; [done|]. split; [|by intros k ?; apply Hno].
      repeat split; [lia.. | done |]. intros j Hj. apply Hr. lia. }
  destruct (Z.ltb_spec 1 align) as [H1|H1]; simpl.
  - pose proof (Z.mod_pos_bound i align ltac:(lia)).
    destruct (Z.eqb_spec (i mod align) 0) as [Hr|Hr]; simpl; [by apply Hprobe|].
    rewrite u64_small by word_lia. apply IH; [lia..|]. intros k Hk Hf.
    destruct (decide (k < i)) as [|]; [by apply (Hno k); [lia|]|].
    eapply (next_multiple i align k); [lia | done | lia | apply Hf].
  - apply Hprobe. replace align with 1 by lia. apply Z.mod_1_r.
Qed.

(** ** The limits *)

Lemma pow2_bound a : is_u64 a -> 1 < a -> Z.land a (a - 1) = 0 -> a <= 2 ^ 63.
Proof.
  intros Ha H1 Hl. destruct (Z.le_gt_cases a (2 ^ 63)) as [|Hgt]; [done|]. exfalso.
  assert (Hb : forall x, 2 ^ 63 <= x < 2 ^ 64 -> Z.testbit x 63 = true).
  { intros x Hx. apply Z.testbit_true; [lia|].
    replace (x / 2 ^ 63) with 1; [done|]. apply (Z.div_unique _ _ _ (x - 2 ^ 63)); lia. }
  assert (Hbit : Z.testbit (Z.land a (a - 1)) 63 = true)
    by (rewrite Z.land_spec, !Hb by word_lia; done).
  by rewrite Hl, Z.bits_0 in Hbit.
Qed.

(** The alignment the caller asked for. *)
Definition asked_alignment (constraints : option KE_PMM_ALLOC_CONSTRAINTS) : Z :=
  match constraints with Some c => AlignmentPages c | None => 0 end.

(** What the caller asked for, in the terms of the interface: [count] free
    pages from index [k], aligned, whose last byte is at most [MaxPhysAddr]. *)
Definition acceptable (ctx : KE_PMM_BITMAP_CONTEXT) (constraints : option KE_PMM_ALLOC_CONSTRAINTS)
    (count k : Z) : Prop :=
  0 <= k /\ k + count <= TotalManagedPages ctx /\
  (forall j, k <= j < k + count -> state ctx j = PMM_PAGE_FREE) /\
  match constraints with
  | None => True
  | Some c =>
      (1 < AlignmentPages c -> k mod AlignmentPages c = 0) /\
      (MaxPhysAddr c <> 0 -> ManagedBasePhys ctx + (k + count) * PAGE_4KB - 1 <= MaxPhysAddr c)
  end.

(** The constraints are words, and the limit is not the one for which
    [maxAddr - base + 1] wraps around. *)
Definition good_constraints (ctx : KE_PMM_BITMAP_CONTEXT) (constraints : option KE_PMM_ALLOC_CONSTRAINTS)
  : Prop :=
  match constraints with
  | None => True
  | Some c => is_u64 (MaxPhysAddr c) /\ is_u64 (AlignmentPages c) /\
      MaxPhysAddr c - ManagedBasePhys ctx + 1 < 2 ^ 64
  end.

Definition power_of_two (a : Z) : bool := negb (1 <? a) || (Z.land a (a - 1) =? 0).

Lemma alloc_limits_spec ctx constraints count :
  geometry ctx -> good_constraints ctx constraints -> 0 < count ->
  match alloc_limits ctx constraints with
  | inl e => (e = EC_ILLEGAL_ARGUMENT /\ power_of_two (asked_alignment constraints) = false) \/
      (e = EC_NOT_ENOUGH_MEMORY /\ power_of_two (asked_alignment constraints) = true /\
       forall k, ~ acceptable ctx constraints count k)
  | inr (align, limit) =>
      power_of_two (asked_alignment constraints) = true /\
      1 <= align <= 2 ^ 63 /\ limit <= TotalManagedPages ctx /\
      forall k, fits (Bitmap ctx) align limit count k <-> acceptable ctx constraints count k
  end.
Proof.
  intros [_ _ _ [Hb _] _] Hg Hc. unfold alloc_limits, power_of_two, asked_alignment.
  destruct constraints as [[mx al]|]; simpl in *.
  2: { split; [done|]. split; [lia|]. split; [lia|]. intros k. unfold fits, acceptable, state.
       rewrite Z.mod_1_r. tauto. }
  destruct Hg as (Hmx & Hal & Hwr). unfold PAGE_SHIFT, acceptable, fits, state in *. simpl.
  destruct (Z.ltb_spec 1 al) as [H1|H1]; simpl;
    [destruct (Z.eqb_spec (Z.land al (al - 1)) 0) as [Hp|Hp]; simpl; [pose proof (pow2_bound al Hal H1 Hp) | by left] |].
  all: destruct (Z.eqb_spec mx 0) as [Hm|Hm]; simpl.
  all: try (split; [done|]; split; [lia|]; split; [lia|]; intros k; rewrite ?Z.mod_1_r; intuition lia).
  all: destruct (Z.ltb_spec mx (ManagedBasePhys ctx)) as [Hlt|Hge];
    [right; split; [done|]; split; [done|]; intros k (H0 & H2 & _ & _ & H3); specialize (H3 Hm);
     unfold PAGE_4KB in *; lia |].
  all: rewrite (u64_small (mx - _)), u64_small, Z.shiftr_div_pow2 by word_lia; change (2 ^ 12) with 4096;
    set (lim := (mx - ManagedBasePhys ctx + 1) / 4096).
  all: assert (Hlim : forall k, k + count <= lim <-> ManagedBasePhys ctx + (k + count) * PAGE_4KB - 1 <= mx)
    by (intros k; unfold lim, PAGE_4KB; div_lia).
  all: split; [done|]; split; [lia|]; split; [destruct (Z.ltb_spec lim (TotalManagedPages ctx)); lia|];
    intros k; specialize (Hlim k); rewrite ?Z.mod_1_r;
    destruct (Z.ltb_spec lim (TotalManagedPages ctx)); intuition lia.
Qed.

Lemma total_bound ctx : geometry ctx -> TotalManagedPages ctx <= 2 ^ 52.
Proof. intros [_ G2 _ [G4 _] G5]. unfold PAGE_4KB in *. lia. Qed.

Lemma page_address ctx k :
  geometry ctx -> 0 <= k < TotalManagedPages ctx ->
  u64 (ManagedBasePhys ctx + u64 (k * PAGE_4KB)) = ManagedBasePhys ctx + k * PAGE_4KB.
Proof.
  intros [_ _ _ [Hb _] He] Hk. unfold PAGE_4KB in *.
  rewrite (u64_small (k * 4096)), u64_small by word_lia. done.
Qed.

(** The counter updates written in the source are those of [shift]. *)
Ltac counters :=
  cbv zeta; unfold counter, PMM_PAGE_FREE, PMM_PAGE_ALLOCATED, PMM_PAGE_RESERVED; simpl;
  rewrite ?Z.add_0_r, ?Z.sub_0_r; repeat split; try done;
  symmetry; apply u64_small.

Lemma counter_small ctx u : pmm_ok ctx -> 0 <= u <= 2 -> is_u64 (counter ctx u).
Proof.
  intros [G [_ C1 C2 C3]] Hu. pose proof (geo_room _ G). pose proof (geo_words _ G).
  assert (Hp : Z.of_nat (pages ctx) = TotalManagedPages ctx) by (unfold pages; lia).
  unfold counter. destruct (u =? PMM_PAGE_FREE), (u =? PMM_PAGE_ALLOCATED);
    rewrite ?C1, ?C2, ?C3;
    match goal with |- is_u64 (tally ?f ?s ?n) => pose proof (tally_range f s n) end; word_lia.
Qed.

(** What an allocation promises on every branch. *)
Definition alloc_contract (ctx : KE_PMM_BITMAP_CONTEXT) (count : Z)
    (constraints : option KE_PMM_ALLOC_CONSTRAINTS) : Prop :=
  exists s ctx' out, BitmapAllocPages ctx count constraints = Ok (s, ctx', out) /\ pmm_ok ctx' /\
    match s with
    | EC_SUCCESS => exists k,
        acceptable ctx constraints count k /\
        (forall k', 0 <= k' < k -> ~ acceptable ctx constraints count k') /\
        moved ctx ctx' k count PMM_PAGE_ALLOCATED /\
        out = Some (ManagedBasePhys ctx + k * PAGE_4KB)
    | EC_NOT_ENOUGH_MEMORY =>
        0 < count /\ power_of_two (asked_alignment constraints) = true /\
        (forall k, ~ acceptable ctx constraints count k) /\ ctx' = ctx /\ out = None
    | EC_ILLEGAL_ARGUMENT =>
        (count = 0 \/ power_of_two (asked_alignment constraints) = false) /\ ctx' = ctx /\ out = None
    | _ => False
    end.

Lemma alloc_pages_run ctx count constraints :
  pmm_ok ctx -> is_u64 count -> good_constraints ctx constraints ->
  alloc_contract ctx count constraints.
Proof.
  intros Hok Hcnt Hg. pose proof Hok as [G _]. unfold alloc_contract, BitmapAllocPages.
  destruct (Z.eqb_spec count 0) as [H0|H0]; [do 3 eexists; split; [done|]; eauto|].
  assert (Hc : 0 < count) by word_lia.
  pose proof (alloc_limits_spec ctx constraints count G Hg Hc) as Hlim.
  destruct (alloc_limits ctx constraints) as [e|[align limit]].
  { destruct Hlim as [(-> & Hp)|(-> & Hp & Hn)]; do 3 eexists; split; [done|eauto|done|]; eauto 10. }
  destruct Hlim as (Hp & Ha & Hle & Hacc). pose proof (total_bound ctx G). pose proof (geo_room _ G).
  destruct (Z.ltb_spec limit count) as [Hs|Hs].
  { do 3 eexists; split; [done|]. split; [done|]. split_and!; try done.
    intros k Hk. apply Hacc in Hk. destruct Hk. lia. }
  destruct (scan_ok (S (Z.to_nat limit)) (Bitmap ctx) align limit count 0) as (r & -> & Hr);
    [lia.. | apply G | lia | lia | lia |].
  cbn [res_bind]. destruct r as [k|]; simpl in Hr.
  - destruct Hr as [Hk Hfirst]. pose proof (proj1 (Hacc k) Hk) as Hak.
    destruct Hk as (Hk0 & Hk1 & _ & Hfree).
    destruct (shift ctx k count PMM_PAGE_FREE PMM_PAGE_ALLOCATED) as (b & -> & Hsh);
      [done | lia | lia | lia | done | done | done | done |].
    cbn [res_bind]. rewrite page_address by (done || lia).
    destruct (Hsh (u64 (FreePages ctx - count)) (u64 (AllocatedPages ctx + count)) (ReservedPages ctx))
      as [Hok' Hm].
    { counters. apply (counter_small ctx 2 Hok). lia. }
    do 3 eexists. split; [done|]. split; [exact Hok'|]. exists k. split_and!; try done.
    intros k' Hk' Hf. apply (Hfirst k' Hk'). by apply Hacc.
  - do 3 eexists. split; [done|]. split; [done|]. split_and!; try done.
    intros k Hk. apply (Hr k). by apply Hacc.
Qed.

(** ** Release and reservation *)

(** The range named by [basePhys] and [count] is page-aligned and managed. *)
Definition managed (ctx : KE_PMM_BITMAP_CONTEXT) (basePhys count : Z) : Prop :=
  basePhys mod PAGE_4KB = 0 /\ ManagedBasePhys ctx <= basePhys /\
  basePhys + count * PAGE_4KB <= ManagedBasePhys ctx + TotalManagedPages ctx * PAGE_4KB.

Definition index_of (ctx : KE_PMM_BITMAP_CONTEXT) (basePhys : Z) : Z :=
  (basePhys - ManagedBasePhys ctx) / PAGE_4KB.

(** What an operation that moves a range from state [s] to state [t] promises. *)
Definition range_contract (s t : Z)
    (op : KE_PMM_BITMAP_CONTEXT -> Z -> Z -> res (HO_STATUS * KE_PMM_BITMAP_CONTEXT))
    (ctx : KE_PMM_BITMAP_CONTEXT) (basePhys count : Z) : Prop :=
  exists st ctx', op ctx basePhys count = Ok (st, ctx') /\ pmm_ok ctx' /\
    let a := index_of ctx basePhys in
    match st with
    | EC_SUCCESS =>
        0 < count /\ managed ctx basePhys count /\
        (forall i, a <= i < a + count -> state ctx i = s) /\ moved ctx ctx' a count t
    | EC_ILLEGAL_ARGUMENT => (count = 0 \/ ~ managed ctx basePhys count) /\ ctx' = ctx
    | EC_INVALID_STATE =>
        managed ctx basePhys count /\
        ~ (forall i, a <= i < a + count -> state ctx i = s) /\ ctx' = ctx
    | _ => False
    end.

(** The argument checks shared by the two operations. *)
Lemma range_checks ctx basePhys count :
  geometry ctx -> is_u64 basePhys -> is_u64 count -> 0 < count ->
  (basePhys - ManagedBasePhys ctx) / PAGE_4KB + count < 2 ^ 64 ->
  let a := Z.shiftr (u64 (basePhys - ManagedBasePhys ctx)) PAGE_SHIFT in
  HO_IS_ALIGNED basePhys PAGE_4KB && negb (basePhys <? ManagedBasePhys ctx) &&
    negb (TotalManagedPages ctx <? u64 (a + count)) = true <-> managed ctx basePhys count.
Proof.
  intros G Hb Hc H0 Hw. cbv zeta. rewrite !andb_true_iff, !negb_true_iff, is_aligned_4k, Z.eqb_eq.
  rewrite Z.ltb_ge. pose proof (geo_base _ G) as [G4 G4']. pose proof (geo_end _ G).
  unfold managed. rewrite Z.ltb_ge. unfold PAGE_SHIFT.
  split.
  - intros [[H1 H2] H3]. revert H3.
    rewrite (u64_small (basePhys - _)), Z.shiftr_div_pow2 by word_lia. change (2 ^ 12) with PAGE_4KB.
    rewrite u64_small; unfold PAGE_4KB in *; [|div_lia]. intros H3. split_and!; [done..|]. div_lia.
  - intros (H1 & H2 & H3). split; [done|].
    rewrite (u64_small (basePhys - _)), Z.shiftr_div_pow2 by word_lia. change (2 ^ 12) with PAGE_4KB.
    rewrite u64_small; unfold PAGE_4KB in *; div_lia.
Qed.

(** [BitmapFreePages] and [BitmapReservePages] are the same routine up to the
    two states and the two counters. *)
Ltac range_operation :=
  match goal with
  | Hok : pmm_ok ?ctx, H0 : 0 < ?count, Hm : managed ?ctx ?p ?count |- _ =>
      let s := match goal with |- context [BitmapCheckRange _ _ _ ?s] => s end in
      let t := match goal with |- context [BitmapSetRange _ _ _ ?t] => t end in
      let a := match goal with |- context [BitmapCheckRange _ ?a _ _] => a end in
      let r := fresh "r" in
      let Hr := fresh "Hr" in
      destruct (check_range_ok (Bitmap ctx) a count s) as (r & -> & Hr);
        [lia | lia | lia | apply Hok |]; cbn [res_bind];
      destruct r; simpl negb; cbn iota;
        [ destruct (shift ctx a count s t) as (?b & -> & ?Hsh);
            [done | lia | lia | lia | done | done | done | by apply Hr |]; cbn [res_bind]
        | do 2 eexists; split; [done|]; split; [done|]; split; [done|]; split; [|done];
          by intros ?%Hr ]
  end.

Lemma managed_index ctx p count :
  geometry ctx -> is_u64 p -> managed ctx p count ->
  0 <= index_of ctx p /\ index_of ctx p + count <= TotalManagedPages ctx /\
  Z.shiftr (u64 (p - ManagedBasePhys ctx)) PAGE_SHIFT = index_of ctx p /\
  p = ManagedBasePhys ctx + index_of ctx p * PAGE_4KB.
Proof.
  intros G Hp (H1 & H2 & H3). pose proof (geo_base _ G) as [Hb Hb']. unfold index_of, PAGE_SHIFT in *.
  rewrite u64_small, Z.shiftr_div_pow2 by word_lia. change (2 ^ 12) with PAGE_4KB.
  unfold PAGE_4KB in *. split_and!; div_lia.
Qed.

(** The guards of both operations, decided once. *)
Lemma range_guards ctx basePhys count (k : res (HO_STATUS * KE_PMM_BITMAP_CONTEXT)) :
  geometry ctx -> is_u64 basePhys -> is_u64 count ->
  (basePhys - ManagedBasePhys ctx) / PAGE_4KB + count < 2 ^ 64 ->
  let a := Z.shiftr (u64 (basePhys - ManagedBasePhys ctx)) PAGE_SHIFT in
  let r := (if count =? 0 then Ok (EC_ILLEGAL_ARGUMENT, ctx) else
    if negb (HO_IS_ALIGNED basePhys PAGE_4KB) then Ok (EC_ILLEGAL_ARGUMENT, ctx) else
    if basePhys <? ManagedBasePhys ctx then Ok (EC_ILLEGAL_ARGUMENT, ctx) else
    if TotalManagedPages ctx <? u64 (a + count) then Ok (EC_ILLEGAL_ARGUMENT, ctx) else k) in
  (r = Ok (EC_ILLEGAL_ARGUMENT, ctx) /\ (count = 0 \/ ~ managed ctx basePhys count)) \/
  (r = k /\ 0 < count /\ managed ctx basePhys count).
Proof.
  intros G Hb Hc Hw a r. destruct (Z.eqb_spec count 0) as [|H0]; [by left; split; [|left]|].
  assert (Hc0 : 0 < count) by word_lia.
  pose proof (range_checks ctx basePhys count G Hb Hc Hc0 Hw) as Hchk. cbv zeta in Hchk. fold a in Hchk.
  subst r. destruct (HO_IS_ALIGNED basePhys PAGE_4KB), (basePhys <? ManagedBasePhys ctx),
    (TotalManagedPages ctx <? u64 (a + count)); simpl in *;
    first [ right; by split_and!; [..|apply Hchk] | left; split; [done|]; right; by rewrite <- Hchk ].
Qed.

Lemma free_pages_run ctx basePhys count :
  pmm_ok ctx -> is_u64 basePhys -> is_u64 count ->
  (basePhys - ManagedBasePhys ctx) / PAGE_4KB + count < 2 ^ 64 ->
  range_contract PMM_PAGE_ALLOCATED PMM_PAGE_FREE BitmapFreePages ctx basePhys count.
Proof.
  intros Hok Hb Hc Hw. pose proof Hok as [G _]. unfold range_contract, BitmapFreePages. cbv zeta.
  edestruct range_guards as [[E Hno]|(E & H0 & Hm)]; [exact G | exact Hb | exact Hc | exact Hw | |];
    cbv zeta in E; rewrite E; [by do 2 eexists; split; [done|]|].
  destruct (managed_index ctx basePhys count G Hb Hm) as (Ha & Hac & -> & _).
  pose proof (geo_room _ G). range_operation.
  destruct (Hsh (u64 (FreePages ctx + count)) (u64 (AllocatedPages ctx - count)) (ReservedPages ctx))
    as [Hok' Hmv]; [counters; by apply (counter_small ctx 2 Hok)|].
  do 2 eexists. split; [done|]. split; [exact Hok'|]. split_and!; try done. by apply Hr.
Qed.

Lemma reserve_pages_run ctx basePhys count :
  pmm_ok ctx -> is_u64 basePhys -> is_u64 count ->
  (basePhys - ManagedBasePhys ctx) / PAGE_4KB + count < 2 ^ 64 ->
  range_contract PMM_PAGE_FREE PMM_PAGE_RESERVED BitmapReservePages ctx basePhys count.
Proof.
  intros Hok Hb Hc Hw. pose proof Hok as [G _]. unfold range_contract, BitmapReservePages. cbv zeta.
  edestruct range_guards as [[E Hno]|(E & H0 & Hm)]; [exact G | exact Hb | exact Hc | exact Hw | |];
    cbv zeta in E; rewrite E; [by do 2 eexists; split; [done|]|].
  destruct (managed_index ctx basePhys count G Hb Hm) as (Ha & Hac & -> & _).
  pose proof (geo_room _ G). range_operation.
  destruct (Hsh (u64 (FreePages ctx - count)) (AllocatedPages ctx) (u64 (ReservedPages ctx + count)))
    as [Hok' Hmv]; [counters; by apply (counter_small ctx 1 Hok)|].
  do 2 eexists. split; [done|]. split; [exact Hok'|]. split_and!; try done. by apply Hr.
Qed.

(** ** The self-check *)

Definition tallies (st : Z -> Z) (n : nat) : Z * Z * Z :=
  (tally st PMM_PAGE_FREE n, tally st PMM_PAGE_ALLOCATED n, tally st PMM_PAGE_RESERVED n).

(** Having counted the first [i] pages, the loop counts the next [n]. *)
Lemma count_states_ok n b i :
  Z.of_nat (i + n) <= room b -> room b < 2 ^ 64 ->
  exists r, count_states n b (Z.of_nat i) (tallies (page_state b) i) = Ok r /\
    match r with
    | Some acc => acc = tallies (page_state b) (i + n) /\
        forall k, Z.of_nat i <= k < Z.of_nat (i + n) -> 0 <= page_state b k <= 2
    | None => exists k, Z.of_nat i <= k < Z.of_nat (i + n) /\ ~ 0 <= page_state b k <= 2
    end.
Proof.
  revert i. induction n as [|n IH]; intros i Hn Hroom; cbn [count_states].
  { eexists. split; [done|]. rewrite Nat.add_0_r. split; [done|]. lia. }
  rewrite get_state_ok by lia. cbn [res_bind]. unfold tallies at 1.
  destruct (IH (S i)) as (r & E & Hr); [lia | done |].
  replace (S i + n)%nat with (i + S n)%nat in Hr by lia.
  replace (Z.of_nat (S i)) with (Z.of_nat i + 1) in * by lia.
  assert (Hst : forall s, page_state b (Z.of_nat i) = s -> 0 <= s <= 2 ->
    exists r, count_states n b (Z.of_nat i + 1) (tallies (page_state b) (S i)) = Ok r /\
      match r with
      | Some acc => acc = tallies (page_state b) (i + S n) /\
          forall k, Z.of_nat i <= k < Z.of_nat (i + S n) -> 0 <= page_state b k <= 2
      | None => exists k, Z.of_nat i <= k < Z.of_nat (i + S n) /\ ~ 0 <= page_state b k <= 2
      end).
  { intros s Hs Hs2. exists r. split; [done|]. destruct r as [acc|].
    - destruct Hr as [-> Hr]. split; [done|]. intros k Hk.
      destruct (decide (k = Z.of_nat i)) as [->|]; [lia|]. apply Hr. lia.
    - destruct Hr as (k & Hk & Hb). exists k. split; [lia|done]. }
  pose proof (tally_range (page_state b) PMM_PAGE_FREE i).
  pose proof (tally_range (page_state b) PMM_PAGE_ALLOCATED i).
  pose proof (tally_range (page_state b) PMM_PAGE_RESERVED i).
  unfold tallies in Hst. cbn [tally] in Hst.
  unfold PMM_PAGE_FREE, PMM_PAGE_ALLOCATED, PMM_PAGE_RESERVED in *.
  destruct (Z.eqb_spec (page_state b (Z.of_nat i)) 0) as [E0|E0];
    [rewrite E0 in Hst; specialize (Hst 0 eq_refl ltac:(lia)) |
  destruct (Z.eqb_spec (page_state b (Z.of_nat i)) 1) as [E1|E1];
    [rewrite E1 in Hst; specialize (Hst 1 eq_refl ltac:(lia)) |
  destruct (Z.eqb_spec (page_state b (Z.of_nat i)) 2) as [E2|E2];
    [rewrite E2 in Hst; specialize (Hst 2 eq_refl ltac:(lia)) |]]].
  1-3: cbn [Z.eqb Pos.eqb] in Hst; rewrite !Z.add_0_r in Hst; rewrite u64_small by word_lia; exact Hst.
  exists None. split; [done|]. exists (Z.of_nat i). lia.
Qed.

(** ** The properties *)

(** C30: [BitmapAllocPages] is first fit.  On success the run is the lowest one
    that the caller's constraints accept, exactly its pages become allocated,
    the counters keep describing the bitmap and the address returned is that of
    its first page; [EC_NOT_ENOUGH_MEMORY] is returned exactly when no
    acceptable run exists, [EC_ILLEGAL_ARGUMENT] exactly for a zero count or an
    alignment that is not a power of two, both leaving the context alone.  In
    particular the scan terminates and stays inside the bitmap. *)
Theorem alloc_first_fit ctx count constraints :
  pmm_ok ctx -> is_u64 count -> good_constraints ctx constraints ->
  alloc_contract ctx count constraints.
Proof. apply alloc_pages_run. Qed.

(** [BitmapFreePages] releases a range exactly when it is page-aligned,
    managed and entirely allocated: then its pages become free and nothing else
    changes; a range that is not entirely allocated (a double free) is refused
    with [EC_INVALID_STATE] and a range that is not managed with
    [EC_ILLEGAL_ARGUMENT], without any effect. *)
Theorem free_pages_contract ctx basePhys count :
  pmm_ok ctx -> is_u64 basePhys -> is_u64 count ->
  (basePhys - ManagedBasePhys ctx) / PAGE_4KB + count < 2 ^ 64 ->
  range_contract PMM_PAGE_ALLOCATED PMM_PAGE_FREE BitmapFreePages ctx basePhys count.
Proof. apply free_pages_run. Qed.

(** [BitmapReservePages] withdraws a range exactly when it is page-aligned,
    managed and entirely free; every other call is refused without effect. *)
Theorem reserve_pages_contract ctx basePhys count :
  pmm_ok ctx -> is_u64 basePhys -> is_u64 count ->
  (basePhys - ManagedBasePhys ctx) / PAGE_4KB + count < 2 ^ 64 ->
  range_contract PMM_PAGE_FREE PMM_PAGE_RESERVED BitmapReservePages ctx basePhys count.
Proof. apply reserve_pages_run. Qed.

(** [BitmapCheckInvariants] accepts a context exactly when every managed
    page is in a valid state and the three counters are the numbers of pages in
    the three states. *)
Theorem check_invariants_decides ctx :
  geometry ctx ->
  exists s, BitmapCheckInvariants ctx = Ok s /\
    (s = EC_SUCCESS <-> counted ctx) /\ (s = EC_SUCCESS \/ s = EC_INVALID_STATE).
Proof.
  intros G. pose proof (geo_room _ G). pose proof (geo_words _ G).
  assert (Hp : Z.of_nat (pages ctx) = TotalManagedPages ctx) by (unfold pages; lia).
  unfold BitmapCheckInvariants. fold (pages ctx).
  destruct (count_states_ok (pages ctx) (Bitmap ctx) 0) as (r & E & Hr); [simpl; lia | done |].
  change (tallies (page_state (Bitmap ctx)) 0) with (0, 0, 0) in E. change (Z.of_nat 0) with 0 in *.
  rewrite E. cbn [res_bind]. simpl in Hr. rewrite Hp in Hr.
  assert (Hsum : (forall k, 0 <= k < TotalManagedPages ctx -> 0 <= state ctx k <= 2) ->
    tally (state ctx) PMM_PAGE_FREE (pages ctx) + tally (state ctx) PMM_PAGE_ALLOCATED (pages ctx)
    + tally (state ctx) PMM_PAGE_RESERVED (pages ctx) = TotalManagedPages ctx).
  { rewrite <- Hp. unfold PMM_PAGE_FREE, PMM_PAGE_ALLOCATED, PMM_PAGE_RESERVED.
    clear. generalize (pages ctx) as n. induction n as [|n IH]; intros Hs; [done|]. cbn [tally].
    specialize (Hs (Z.of_nat n)) as Hn. specialize (IH ltac:(intros; apply Hs; lia)).
    destruct (Z.eqb_spec (state ctx (Z.of_nat n)) 0), (Z.eqb_spec (state ctx (Z.of_nat n)) 1),
      (Z.eqb_spec (state ctx (Z.of_nat n)) 2); lia. }
  destruct r as [acc|]; [destruct Hr as [-> Hr]; unfold tallies | destruct Hr as (k & Hk & Hbad)].
  - pose proof (tally_range (state ctx) PMM_PAGE_FREE (pages ctx)).
    pose proof (tally_range (state ctx) PMM_PAGE_ALLOCATED (pages ctx)).
    pose proof (tally_range (state ctx) PMM_PAGE_RESERVED (pages ctx)).
    specialize (Hsum Hr). change (page_state (Bitmap ctx)) with (state ctx) in *.
    destruct (Z.eqb_spec (tally (state ctx) PMM_PAGE_FREE (pages ctx)) (FreePages ctx)) as [E1|E1],
      (Z.eqb_spec (tally (state ctx) PMM_PAGE_ALLOCATED (pages ctx)) (AllocatedPages ctx)) as [E2|E2],
      (Z.eqb_spec (tally (state ctx) PMM_PAGE_RESERVED (pages ctx)) (ReservedPages ctx)) as [E3|E3];
      simpl; try (eexists; split; [done|]; split; [|by right]; split; [done|]; by intros [_ ? ? ?]).
    rewrite (u64_small (tally _ _ _ + tally _ _ _)), u64_small, Hsum, Z.eqb_refl by word_lia.
    eexists; split; [done|]. split; [|by left]. split; [|done]. intros _. by split.
  - eexists; split; [done|]. split; [|by right]. split; [done|]. intros [Hc _ _ _].
    exfalso. by apply Hbad, Hc.
Qed.

(** Two well-formed contexts with the same pages have the same counters. *)
Lemma same_counters ctx ctx' :
  pmm_ok ctx -> pmm_ok ctx' -> TotalManagedPages ctx' = TotalManagedPages ctx ->
  (forall i, 0 <= i -> state ctx' i = state ctx i) ->
  FreePages ctx' = FreePages ctx /\ AllocatedPages ctx' = AllocatedPages ctx /\
  ReservedPages ctx' = ReservedPages ctx.
Proof.
  intros [_ [_ -> -> ->]] [_ [_ -> -> ->]] Ht Hs. unfold pages. rewrite Ht.
  repeat split; apply tally_ext; intros i Hi; apply Hs; lia.
Qed.

(** C31: a successful allocation can be given back: freeing what was returned
    succeeds and restores every page state and all three counters, and freeing
    it a second time is refused with [EC_INVALID_STATE] and changes nothing. *)
Theorem free_undoes_alloc ctx count constraints ctx1 p :
  pmm_ok ctx -> is_u64 count -> good_constraints ctx constraints ->
  BitmapAllocPages ctx count constraints = Ok (EC_SUCCESS, ctx1, Some p) ->
  exists ctx2, BitmapFreePages ctx1 p count = Ok (EC_SUCCESS, ctx2) /\
    (forall i, 0 <= i -> state ctx2 i = state ctx i) /\
    FreePages ctx2 = FreePages ctx /\ AllocatedPages ctx2 = AllocatedPages ctx /\
    ReservedPages ctx2 = ReservedPages ctx /\
    BitmapFreePages ctx2 p count = Ok (EC_INVALID_STATE, ctx2).
Proof.
  intros Hok Hc Hg E.
  destruct (alloc_pages_run ctx count constraints Hok Hc Hg) as (s & c1 & out & E' & Hok1 & Hs).
  rewrite E in E'. injection E' as <- <- Eout. destruct Hs as (k & (Hk0 & Hk1 & Hfree & _) & _ & Hm & ->).
  injection Eout as ->. destruct Hm as (Hb1 & Ht1 & Hst1).
  pose proof Hok as [G _]. pose proof (geo_base _ G) as [Gb Gb']. pose proof (geo_end _ G) as Ge.
  pose proof (total_bound ctx G).
  assert (Hc0 : 0 < count).
  { destruct (Z.eq_dec count 0) as [->|]; [|word_lia]. by vm_compute in E. }
  set (p := ManagedBasePhys ctx + k * PAGE_4KB) in *.
  assert (Hp : is_u64 p) by (unfold p, PAGE_4KB in *; word_lia).
  assert (Hman : forall c, ManagedBasePhys c = ManagedBasePhys ctx ->
    TotalManagedPages c = TotalManagedPages ctx ->
    managed c p count /\ index_of c p = k /\ (p - ManagedBasePhys c) / PAGE_4KB + count < 2 ^ 64).
  { intros c Eb Et. unfold managed, index_of, p. rewrite Eb, Et. unfold PAGE_4KB in *.
    split_and!; div_lia. }
  assert (Hall : forall i, k <= i < k + count -> state ctx1 i = PMM_PAGE_ALLOCATED).
  { intros i Hi. rewrite Hst1 by lia. by rewrite (proj2 (in_range_spec _ _ _)). }
  destruct (Hman ctx1 Hb1 Ht1) as (Hm1 & Hi1 & Hw1).
  destruct (free_pages_run ctx1 p count Hok1 Hp Hc Hw1) as (s2 & ctx2 & E2 & Hok2 & Hs2).
  cbv zeta in Hs2. rewrite Hi1 in Hs2.
  destruct s2; try done; [|by destruct Hs2 as [[?|?] _]; [lia|]|by destruct Hs2 as (_ & [] & _)].
  destruct Hs2 as (_ & _ & _ & Hb2 & Ht2 & Hst2).
  assert (Hst : forall i, 0 <= i -> state ctx2 i = state ctx i).
  { intros i Hi. rewrite Hst2, Hst1 by done. destruct (in_range k count i) eqn:Hin; [|done].
    apply in_range_spec in Hin. by rewrite Hfree. }
  destruct (Hman ctx2 ltac:(congruence) ltac:(congruence)) as (Hm2 & Hi2 & Hw2).
  destruct (free_pages_run ctx2 p count Hok2 Hp Hc Hw2) as (s3 & ctx3 & E3 & _ & Hs3).
  cbv zeta in Hs3. rewrite Hi2 in Hs3.
  exists ctx2. split; [exact E2|]. split; [exact Hst|].
  destruct (same_counters ctx ctx2) as (-> & -> & ->); [done | done | congruence | done |].
  split_and!; try done. rewrite E3.
  destruct s3; try done; [|by destruct Hs3 as [[?|?] _]; [lia|]|by destruct Hs3 as (_ & _ & ->)].
  destruct Hs3 as (_ & _ & Hall2 & _). specialize (Hall2 k ltac:(lia)).
  by rewrite Hst, Hfree in Hall2 by lia.
Qed.

(** ** Witnesses: twelve pages above 1 MB, three of them in use *)

Definition sample : KE_PMM_BITMAP_CONTEXT := mkCtx [0x41; 0x08; 0x00] 0x100000 12 9 2 1.

Lemma sample_ok : pmm_ok sample.
Proof.
  split; split; try (by vm_compute); try (by split; vm_compute).
  - repeat constructor; by vm_compute.
  - intros i Hi.
    assert (Hb : (0 <=? state sample i) && (state sample i <=? 2) = true)
      by (by apply (forall_below 12 (fun i => (0 <=? state sample i) && (state sample i <=? 2)))).
    lia.
Qed.

Definition sample_constraints : option KE_PMM_ALLOC_CONSTRAINTS := Some (mkConstraints 0x10AFFF 4).

Lemma alloc_first_fit_witness :
  (pmm_ok sample /\ good_constraints sample sample_constraints) /\
  alloc_contract sample 3 sample_constraints /\
  BitmapAllocPages sample 3 sample_constraints =
    Ok (EC_SUCCESS, mkCtx [0x41; 0x08; 0x15] 0x100000 12 6 5 1, Some 0x108000).
Proof.
  assert (H : good_constraints sample sample_constraints) by (by repeat split).
  split; [exact (conj sample_ok H)|]. split; [|by vm_compute].
  apply (alloc_first_fit sample 3 sample_constraints sample_ok); [by split | exact H].
Defined.

Lemma free_pages_contract_witness :
  pmm_ok sample /\
  range_contract PMM_PAGE_ALLOCATED PMM_PAGE_FREE BitmapFreePages sample 0x103000 1 /\
  BitmapFreePages sample 0x103000 1 = Ok (EC_SUCCESS, mkCtx [0x01; 0x08; 0x00] 0x100000 12 10 1 1).
Proof.
  split; [exact sample_ok|]. split; [|by vm_compute].
  apply (free_pages_contract sample 0x103000 1 sample_ok); by vm_compute.
Defined.

Lemma reserve_pages_contract_witness :
  pmm_ok sample /\
  range_contract PMM_PAGE_FREE PMM_PAGE_RESERVED BitmapReservePages sample 0x100000 2 /\
  BitmapReservePages sample 0x101000 2 = Ok (EC_SUCCESS, mkCtx [0x69; 0x08; 0x00] 0x100000 12 7 2 3).
Proof.
  split; [exact sample_ok|]. split; [|by vm_compute].
  apply (reserve_pages_contract sample 0x100000 2 sample_ok); by vm_compute.
Defined.

Lemma check_invariants_decides_witness :
  geometry sample /\
  exists s, BitmapCheckInvariants sample = Ok s /\ (s = EC_SUCCESS <-> counted sample) /\ s = EC_SUCCESS.
Proof.
  split; [apply sample_ok|].
  destruct (check_invariants_decides sample (proj1 sample_ok)) as (s & E & Hs & _).
  exists s. split; [exact E|]. split; [exact Hs|]. by apply Hs, sample_ok.
Defined.

Lemma free_undoes_alloc_witness :
  pmm_ok sample /\
  exists ctx1, BitmapAllocPages sample 3 None = Ok (EC_SUCCESS, ctx1, Some 0x106000) /\
  exists ctx2, BitmapFreePages ctx1 0x106000 3 = Ok (EC_SUCCESS, ctx2) /\
    BitmapFreePages ctx2 0x106000 3 = Ok (EC_INVALID_STATE, ctx2).
Proof.
  split; [exact sample_ok|]. eexists. split; [by vm_compute|].
  edestruct (free_undoes_alloc sample 3 None) as (ctx2 & E & _ & _ & _ & _ & E2);
    [exact sample_ok | by split | exact I | by vm_compute |].
  exists ctx2. split; [exact E | exact E2].
Defined.

(** ** Boundaries of the contracts: arithmetic that wraps *)

(** A range check that is longer than the bitmap stops at the first page in
    another state, or walks off the bitmap. *)
Lemma check_from_long n b a i s :
  0 <= a + i < 2 ^ 64 -> Z.max (room b) (a + i) < a + i + Z.of_nat n -> room b < 2 ^ 64 ->
  check_from n b a i s = Oob /\ (forall j, a + i <= j < room b -> page_state b j = s) \/
  check_from n b a i s = Ok false /\ exists j, a + i <= j < room b /\ page_state b j <> s.
Proof.
  revert i. induction n as [|n IH]; intros i Hi Hn Hroom; [lia|]. cbn [check_from]. rewrite u64_small by word_lia.
  destruct (decide (a + i < room b)) as [Hlt|Hge].
  - rewrite get_state_ok by lia. cbn [res_bind]. destruct (Z.eqb_spec (page_state b (a + i)) s) as [Heq|Hne]; cbn [negb].
    + destruct (IH (i + 1)) as [[-> H]|(-> & j & Hj & Hne)]; [lia..| |].
      * left. split; [done|]. intros j Hj. destruct (decide (j = a + i)) as [->|]; [done|]. apply H. lia.
      * right. split; [done|]. exists j. split; [lia | done].
    + right. split; [done|]. exists (a + i). split; [lia | done].
  - left. split; [|intros; lia]. unfold BitmapGetState, rd.
    rewrite (proj1 (page_split (a + i) ltac:(lia))), lookup_ge_None_2 by (unfold room in Hge; div_lia).
    by destruct (_ <? _).
Qed.

(** C35: The bound check of [BitmapFreePages] adds two 64-bit numbers, and so
    does not keep the call inside the bitmap.  A call reads past the bitmap's
    end exactly when its base is page-aligned and not below the managed range,
    the page number and the count together wrap past [2^64] and land on the
    number of managed pages or below it, and every page the bitmap holds from
    that base to its very end is allocated. *)
Theorem free_count_wraps_out_of_bounds ctx basePhys count : pmm_ok ctx -> is_u64 basePhys -> is_u64 count ->
  let a := index_of ctx basePhys in
  BitmapFreePages ctx basePhys count = Oob <->
  basePhys mod PAGE_4KB = 0 /\ ManagedBasePhys ctx <= basePhys /\
  2 ^ 64 <= a + count <= 2 ^ 64 + TotalManagedPages ctx /\
  (forall i, a <= i < room (Bitmap ctx) -> page_state (Bitmap ctx) i = PMM_PAGE_ALLOCATED).
Proof.
  intros Hok Hb Hc a. pose proof Hok as [G _]. pose proof (geo_base _ G) as [Hb0 _]. pose proof (geo_room _ G) as Hr.
  pose proof (geo_words _ G) as Hw. pose proof (total_bound ctx G) as Ht.
  destruct (Z.ltb_spec (a + count) (2 ^ 64)) as [Hlt|Hge].
  { destruct (free_pages_run ctx basePhys count Hok Hb Hc Hlt) as (st & ctx' & E & _). rewrite E. split; [done | lia]. }
  unfold BitmapFreePages.
  destruct (Z.eqb_spec count 0) as [->|Hc0]; [split; [done|]; intros (_ & Hm & H & _); unfold a, index_of in *; unfold is_u64, PAGE_4KB in *; div_lia|].
  destruct (HO_IS_ALIGNED basePhys PAGE_4KB) eqn:Hal; rewrite is_aligned_4k in Hal; cbn [negb];
    [apply Z.eqb_eq in Hal | apply Z.eqb_neq in Hal; by split; [|intros (? & _)]].
  destruct (Z.ltb_spec basePhys (ManagedBasePhys ctx)) as [|Hm]; [split; [done | intros (_ & ? & _); lia]|].
  assert (Ha : 0 <= a < 2 ^ 52) by (unfold a, index_of; unfold is_u64, PAGE_4KB in *; div_lia).
  assert (Ea : Z.shiftr (u64 (basePhys - ManagedBasePhys ctx)) PAGE_SHIFT = a).
  { unfold a, index_of, PAGE_SHIFT. by rewrite u64_small, Z.shiftr_div_pow2 by word_lia. }
  cbv zeta. rewrite Ea. assert (Eu : u64 (a + count) = a + count - 2 ^ 64).
  { unfold u64, is_u64 in *. symmetry. apply Z.mod_unique with 1; lia. }
  rewrite Eu. destruct (Z.ltb_spec (TotalManagedPages ctx) (a + count - 2 ^ 64)) as [|Hle]; [split; [done | lia]|].
  unfold is_u64 in *.
  unfold BitmapCheckRange.
  destruct (check_from_long (Z.to_nat count) (Bitmap ctx) a 0 PMM_PAGE_ALLOCATED) as [[-> H]|(-> & j & Hj & Hne)]; [lia|lia|done| |];
    cbn [res_bind negb]; rewrite Z.add_0_r in *.
  - split; [|done]. intros _. split; [done|]. split; [done|]. split; [lia | done].
  - split; [done|]. intros (_ & _ & _ & H). by destruct (Hne (H j Hj)).
Qed.

(** One byte, four allocated pages: freeing [2^64 - 1] pages from page 1 reads
    past the byte. *)
Lemma free_count_wraps_out_of_bounds_witness :
  BitmapFreePages (mkCtx [0x55] 0 4 0 4 0) PAGE_4KB (2 ^ 64 - 1) = Oob.
Proof.
  apply free_count_wraps_out_of_bounds.
  - split; split; try (by vm_compute); try (by split; vm_compute).
    + repeat constructor; by vm_compute.
    + intros i Hi. simpl in Hi.
      assert (i = 0 \/ i = 1 \/ i = 2 \/ i = 3) as [-> | [-> | [-> | ->]]] by lia; by vm_compute.
  - by split; vm_compute.
  - by split; vm_compute.
  - split; [reflexivity|]. split; [by vm_compute|]. split; [by split; vm_compute|].
    intros i Hi. change (1 <= i < 4) in Hi. assert (i = 1 \/ i = 2 \/ i = 3) as [-> | [-> | ->]] by lia; by vm_compute.
Defined.

(** With the managed range based at 0, the limit [2^64 - 1] (every address)
    wraps to page limit 0 and is refused although pages are free. *)
Lemma limit_wraps_to_zero :
  BitmapAllocPages (mkCtx [0x00] 0 4 4 0 0) 1 (Some (mkConstraints (2 ^ 64 - 1) 0)) =
  Ok (EC_NOT_ENOUGH_MEMORY, mkCtx [0x00] 0 4 4 0 0, None).
Proof. reflexivity. Qed.

End Bitmap.

(** * The device facade

    The sink is the table of functions [KE_PMM_SINK]; the device calls through
    it once initialised. *)
Module Device.

Record KE_PMM_SINK (C : Type) := mkSink {
  AllocPages : C -> Z -> option KE_PMM_ALLOC_CONSTRAINTS -> res (HO_STATUS * C * option Z);
  FreePages : C -> Z -> Z -> res (HO_STATUS * C);
  ReservePages : C -> Z -> Z -> res (HO_STATUS * C);
  QueryStats : C -> bool -> HO_STATUS * option KE_PMM_STATS;
  CheckInvariants : C -> res HO_STATUS
}.
Arguments AllocPages {C}.
Arguments FreePages {C}.
Arguments ReservePages {C}.
Arguments QueryStats {C}.
Arguments CheckInvariants {C}.

Record KE_PMM_DEVICE (C : Type) := mkDevice {
  Sink : KE_PMM_SINK C;
  SinkContext : C;
  Initialized : bool
}.
Arguments mkDevice {C}.
Arguments Sink {C}.
Arguments SinkContext {C}.
Arguments Initialized {C}.

Definition gBitmapSink : KE_PMM_SINK Bitmap.KE_PMM_BITMAP_CONTEXT :=
  mkSink _ Bitmap.BitmapAllocPages Bitmap.BitmapFreePages Bitmap.BitmapReservePages
    Bitmap.BitmapQueryStats Bitmap.BitmapCheckInvariants.

Section facade.
Context {C : Type}.
Implicit Type dev : KE_PMM_DEVICE C.

Definition with_context dev (c : C) : KE_PMM_DEVICE C := mkDevice (Sink dev) c (Initialized dev).

Definition KePmmAllocPages dev (count : Z) (constraints : option KE_PMM_ALLOC_CONSTRAINTS)
  : res (HO_STATUS * KE_PMM_DEVICE C * option Z) :=
  if negb (Initialized dev) then Ok (EC_INVALID_STATE, dev, None) else
  let* (s, c, out) := AllocPages (Sink dev) (SinkContext dev) count constraints in
  Ok (s, with_context dev c, out).

Definition KePmmFreePages dev (basePhys count : Z) : res (HO_STATUS * KE_PMM_DEVICE C) :=
  if negb (Initialized dev) then Ok (EC_INVALID_STATE, dev) else
  let* (s, c) := FreePages (Sink dev) (SinkContext dev) basePhys count in
  Ok (s, with_context dev c).

Definition KePmmReservePages dev (basePhys count : Z) : res (HO_STATUS * KE_PMM_DEVICE C) :=
  if negb (Initialized dev) then Ok (EC_INVALID_STATE, dev) else
  let* (s, c) := ReservePages (Sink dev) (SinkContext dev) basePhys count in
  Ok (s, with_context dev c).

Definition KePmmQueryStats dev (outStats : bool) : HO_STATUS * option KE_PMM_STATS :=
  if negb (Initialized dev) then (EC_INVALID_STATE, None)
  else QueryStats (Sink dev) (SinkContext dev) outStats.

Definition KePmmCheckInvariants dev : res HO_STATUS :=
  if negb (Initialized dev) then Ok EC_INVALID_STATE
  else CheckInvariants (Sink dev) (SinkContext dev).
End facade.

End Device.

(** * What the memory manager relies on

    [PageAllocator] is the face of the PMM that [ke/mm] calls;
    [PageAllocatorLaws] is its contract in terms of the state of each page
    frame, named by its physical address (3 when it is not managed). *)
Class PageAllocator (P : Type) := {
  pmm_alloc : P -> Z -> option KE_PMM_ALLOC_CONSTRAINTS -> res (HO_STATUS * P * option Z);
  pmm_free : P -> Z -> Z -> res (HO_STATUS * P)
}.

(** The page frames of a run. *)
Definition frame_in (a n b : Z) : bool := (a <=? b) && (b <? a + n * PAGE_4KB).

Class PageAllocatorLaws (P : Type) `{PageAllocator P} := {
  frames_ok : P -> Prop;
  frame_state : P -> Z -> Z;
  pmm_alloc_law p n :
    frames_ok p -> 0 < n < 2 ^ 64 ->
    exists s p' out, pmm_alloc p n None = Ok (s, p', out) /\ frames_ok p' /\
      ((s = EC_SUCCESS /\ exists a, out = Some a /\ a mod PAGE_4KB = 0 /\ 0 <= a /\
          a + n * PAGE_4KB <= 2 ^ 52 /\
          (forall b, b mod PAGE_4KB = 0 -> frame_in a n b = true -> frame_state p b = PMM_PAGE_FREE) /\
          (forall b, b mod PAGE_4KB = 0 ->
             frame_state p' b = if frame_in a n b then PMM_PAGE_ALLOCATED else frame_state p b))
       \/ (s <> EC_SUCCESS /\ p' = p /\ out = None));
  pmm_free_law p a n :
    frames_ok p -> a mod PAGE_4KB = 0 -> 0 <= a < 2 ^ 52 -> 0 < n <= 2 ^ 52 ->
    exists s p', pmm_free p a n = Ok (s, p') /\ frames_ok p' /\
      ((s = EC_SUCCESS /\
        (forall b, b mod PAGE_4KB = 0 -> frame_in a n b = true -> frame_state p b = PMM_PAGE_ALLOCATED) /\
        (forall b, b mod PAGE_4KB = 0 ->
           frame_state p' b = if frame_in a n b then PMM_PAGE_FREE else frame_state p b))
       \/ (s <> EC_SUCCESS /\ p' = p /\
           ~ (forall b, b mod PAGE_4KB = 0 -> frame_in a n b = true -> frame_state p b = PMM_PAGE_ALLOCATED)))
}.

(** ** The bitmap device keeps the contract *)
Module BitmapDevice.
Import Bitmap Device.

Abbreviation device := (KE_PMM_DEVICE KE_PMM_BITMAP_CONTEXT).

#[export] Instance device_allocator : PageAllocator device := {
  pmm_alloc := KePmmAllocPages;
  pmm_free := KePmmFreePages
}.

(** An initialised device over the bitmap sink whose range is within the 52
    bits of a physical address. *)
Definition device_ok (d : device) : Prop :=
  Sink d = gBitmapSink /\ Initialized d = true /\ pmm_ok (SinkContext d) /\
  ManagedBasePhys (SinkContext d) + TotalManagedPages (SinkContext d) * PAGE_4KB <= 2 ^ 52.

Definition device_frame (d : device) (b : Z) : Z :=
  let c := SinkContext d in
  if (ManagedBasePhys c <=? b) && (b <? ManagedBasePhys c + TotalManagedPages c * PAGE_4KB)
  then state c (index_of c b) else 3.

(** A move of a run of pages, seen on page frames. *)
Lemma moved_frames (d d' : device) k n s b :
  device_ok d -> 0 <= k -> 0 < n -> k + n <= TotalManagedPages (SinkContext d) ->
  moved (SinkContext d) (SinkContext d') k n s -> b mod PAGE_4KB = 0 ->
  device_frame d' b =
    if frame_in (ManagedBasePhys (SinkContext d) + k * PAGE_4KB) n b then s else device_frame d b.
Proof.
  intros (_ & _ & [G _] & Hl) Hk Hn Hkn (Hb & Ht & Hst) Hal. unfold device_frame, index_of, frame_in.
  rewrite Hb, Ht. destruct (geo_base _ G) as [Gb Gb'].
  set (c := SinkContext d) in *. set (i := (b - ManagedBasePhys c) / PAGE_4KB).
  destruct (Z.leb_spec (ManagedBasePhys c) b), (Z.ltb_spec b (ManagedBasePhys c + TotalManagedPages c * PAGE_4KB));
    simpl; try (rewrite (proj2 (andb_false_iff _ _)); [done|]; rewrite Z.leb_gt, Z.ltb_ge; unfold PAGE_4KB in *; lia).
  rewrite Hst by (unfold i, PAGE_4KB; div_lia). unfold in_range.
  replace ((k <=? i) && (i <? k + n))
    with ((ManagedBasePhys c + k * PAGE_4KB <=? b) && (b <? ManagedBasePhys c + k * PAGE_4KB + n * PAGE_4KB)); [done|].
  apply eq_true_iff_eq. rewrite !andb_true_iff, !Z.leb_le, !Z.ltb_lt.
  assert (b = ManagedBasePhys c + i * PAGE_4KB) by (unfold i, PAGE_4KB in *; div_lia).
  unfold PAGE_4KB in *. lia.
Qed.

Lemma frame_of_page (d : device) k :
  device_ok d -> 0 <= k < TotalManagedPages (SinkContext d) ->
  device_frame d (ManagedBasePhys (SinkContext d) + k * PAGE_4KB) = state (SinkContext d) k.
Proof.
  intros _ Hk. unfold device_frame, index_of, PAGE_4KB.
  rewrite (proj2 (Z.leb_le _ _)), (proj2 (Z.ltb_lt _ _)) by lia. simpl. f_equal. div_lia.
Qed.

Lemma device_ok_moved (d : device) c' k n s :
  device_ok d -> pmm_ok c' -> moved (SinkContext d) c' k n s ->
  device_ok (with_context d c').
Proof.
  intros (H1 & H2 & _ & H4) Hc (Hb & Ht & _). unfold device_ok. simpl. rewrite Hb, Ht. by split_and!.
Qed.

(** A run that is not managed has a frame that is not. *)
Lemma unmanaged_frame (d : device) a n :
  device_ok d -> a mod PAGE_4KB = 0 -> 0 < n -> ~ managed (SinkContext d) a n ->
  exists b, b mod PAGE_4KB = 0 /\ frame_in a n b = true /\ device_frame d b = 3.
Proof.
  intros (_ & _ & [G _] & _) Hal Hn Hno. destruct (geo_base _ G) as [_ Gb].
  assert (Hcase : a < ManagedBasePhys (SinkContext d) \/
    ManagedBasePhys (SinkContext d) + TotalManagedPages (SinkContext d) * PAGE_4KB < a + n * PAGE_4KB).
  { destruct (Z.lt_ge_cases a (ManagedBasePhys (SinkContext d))); [by left|]. right.
    apply Z.nle_gt. intros Hle. by apply Hno. }
  unfold device_frame, frame_in. destruct Hcase as [Hlt|Hgt].
  - exists a. split; [done|]. rewrite (proj2 (Z.leb_gt (ManagedBasePhys (SinkContext d)) a)) by lia. simpl.
    rewrite Z.leb_refl, (proj2 (Z.ltb_lt _ _)) by (unfold PAGE_4KB; lia); done.
  - exists (a + (n - 1) * PAGE_4KB). unfold PAGE_4KB in *. split; [div_lia|].
    rewrite (proj2 (Z.leb_le a _)), (proj2 (Z.ltb_lt _ (a + n * 4096))) by lia. split; [done|].
    rewrite (proj2 (Z.ltb_ge _ _)), andb_false_r; [done|]. div_lia.
Qed.

Lemma in_run_index (d : device) k n b :
  device_ok d -> b mod PAGE_4KB = 0 ->
  frame_in (ManagedBasePhys (SinkContext d) + k * PAGE_4KB) n b = true ->
  exists i, k <= i < k + n /\ b = ManagedBasePhys (SinkContext d) + i * PAGE_4KB.
Proof.
  intros (_ & _ & [G _] & _) Hal Hin. destruct (geo_base _ G) as [_ Gb].
  unfold frame_in in Hin. rewrite andb_true_iff, Z.leb_le, Z.ltb_lt in Hin.
  exists ((b - ManagedBasePhys (SinkContext d)) / PAGE_4KB). unfold PAGE_4KB in *. split; div_lia.
Qed.

#[export] Program Instance device_laws : PageAllocatorLaws device := {
  frames_ok := device_ok;
  frame_state := device_frame
}.
Next Obligation.
  intros d n Hd Hn. pose proof Hd as (Hs & Hi & Hok & Hl). pose proof Hok as [G _].
  destruct (alloc_pages_run (SinkContext d) n None Hok) as (s & c' & out & E & Hok' & Hres);
    [word_lia | done |].
  do 3 eexists. split.
  { simpl. unfold KePmmAllocPages. rewrite Hi, Hs. simpl. rewrite E. reflexivity. }
  destruct s; try done; simpl.
  - destruct Hres as (k & (Hk0 & Hk1 & Hfree & _) & _ & Hm & ->).
    split; [by eapply device_ok_moved|]. left. split; [done|]. eexists. split; [done|].
    destruct (geo_base _ G) as [Gb Gb']. unfold PAGE_4KB in *. split_and!; [div_lia | lia | lia | |].
    + intros b Hal Hin. destruct (in_run_index d k n b Hd Hal Hin) as (i & Hi' & ->).
      rewrite frame_of_page by (done || lia). apply Hfree. lia.
    + intros b Hal. apply (moved_frames d (with_context d c') k n); try done; lia.
  - destruct Hres as (_ & -> & ->). destruct d. split; [done|]. by right.
  - destruct Hres as (_ & _ & _ & -> & ->). destruct d. split; [done|]. by right.
Qed.
Next Obligation.
  intros d a n Hd Hal Ha Hn. pose proof Hd as (Hs & Hi & Hok & Hl). pose proof Hok as [G _].
  destruct (geo_base _ G) as [Gb Gb'].
  destruct (free_pages_run (SinkContext d) a n Hok) as (s & c' & E & Hok' & Hres);
    [word_lia | word_lia | unfold PAGE_4KB in *; div_lia |].
  do 2 eexists. split.
  { simpl. unfold KePmmFreePages. rewrite Hi, Hs. simpl. rewrite E. reflexivity. }
  cbv zeta in Hres.
  destruct s; try done; simpl.
  - destruct Hres as (_ & Hman & Hall & Hm).
    destruct (managed_index (SinkContext d) a n G ltac:(word_lia) Hman) as (Hk0 & Hk1 & _ & Hae).
    split; [by eapply device_ok_moved|]. left. split; [done|]. split.
    + intros b Hb Hin. rewrite Hae in Hin. destruct (in_run_index d _ n b Hd Hb Hin) as (i & Hi' & ->).
      rewrite frame_of_page by (done || lia). by apply Hall.
    + intros b Hb. rewrite Hae. apply (moved_frames d (with_context d c')); try done; lia.
  - destruct Hres as ([|Hno] & ->); [lia|].
    destruct (unmanaged_frame d a n Hd Hal ltac:(lia) Hno) as (b & Hb & Hin & Hbad).
    destruct d. split; [done|]. right. split_and!; [done..|]. intros Hall.
    specialize (Hall b Hb Hin). simpl in *. rewrite Hbad in Hall. done.
  - destruct Hres as (Hman & Hno & ->).
    destruct (managed_index (SinkContext d) a n G ltac:(word_lia) Hman) as (Hk0 & Hk1 & _ & Hae).
    destruct d as [sk c i]. split; [done|]. right. split_and!; [done..|]. intros Hall. apply Hno.
    intros i0 Hi0. rewrite <- (frame_of_page (mkDevice sk c i)) by (done || (simpl in *; lia)). simpl in *.
    apply Hall; [unfold PAGE_4KB in *; div_lia|].
    unfold frame_in. rewrite andb_true_iff, Z.leb_le, Z.ltb_lt. unfold PAGE_4KB in *. lia.
Qed.

End BitmapDevice.
