(* ===== verification/PmmBoot.v ===== *)
(** * Bringing up the page allocator ([ke/pmm/pmm_boot_init.c])

    The boot memory map is a list of EFI descriptors, sorted in place, checked,
    and turned into a bitmap context: everything reserved, reclaimable ranges
    freed, then the bitmap itself, low memory and the boot ranges reserved
    again.  The main theorem says which pages end up free and that the context
    handed to the device satisfies the allocator's invariant. *)

From S2P Require Import Prelude Pmm.

Local Open Scope Z_scope.

Module PmmBoot.
Import Bitmap.

Record EFI_MEMORY_DESCRIPTOR := mkDesc {
  DescType : Z;
  PhysicalStart : Z;
  NumberOfPages : Z
}.

(** The fields of [BOOT_CAPSULE] this file reads. *)
Record BOOT_CAPSULE := mkCapsule {
  KrnlEntryPhys : Z; KrnlPages : Z;
  KrnlStackPhys : Z; KrnlStackPages : Z;
  KrnlIST1StackPhys : Z; IST1StackPages : Z;
  KrnlIST2StackPhys : Z; IST2StackPages : Z;
  BasePhys : Z; HandoffPages : Z;
  PageTablePtr : Z; PageTableSize : Z;
  FramebufferPhys : Z; FramebufferSize : Z
}.

(** [BOOT_RESERVED_RANGE] *)
Record BOOT_RESERVED_RANGE := mkBootRange { Start : Z; Pages : Z }.

Definition IS_RECLAIMABLE_MEMORY (type : Z) : bool :=
  (type =? 1) || (type =? 2) || (type =? 3) || (type =? 4) || (type =? 7).

Definition PMM_LOW_RESERVED_BYTES : Z := 2 ^ 20.
Definition PMM_LOW_RESERVED_PAGES : Z := Z.shiftr PMM_LOW_RESERVED_BYTES PAGE_SHIFT.
Definition UINT64_MAX : Z := 0xFFFFFFFFFFFFFFFF.

(** ** The file's own copies of the bitmap helpers *)

Definition BitmapGetState (ctx : KE_PMM_BITMAP_CONTEXT) (pageIndex : Z) : res Z :=
  let byteIdx := pageIndex / 4 in
  let bitOff := pageIndex mod 4 * 2 in
  let* x := rd (Bitmap ctx) byteIdx in
  Ok (Z.land (Z.shiftr x bitOff) 3).

Definition with_bitmap (ctx : KE_PMM_BITMAP_CONTEXT) (b : list Z) : KE_PMM_BITMAP_CONTEXT :=
  mkCtx b (ManagedBasePhys ctx) (TotalManagedPages ctx) (FreePages ctx) (AllocatedPages ctx)
    (ReservedPages ctx).

Definition BitmapSetState (ctx : KE_PMM_BITMAP_CONTEXT) (pageIndex state : Z) : res KE_PMM_BITMAP_CONTEXT :=
  let byteIdx := pageIndex / 4 in
  let bitOff := pageIndex mod 4 * 2 in
  let* x := rd (Bitmap ctx) byteIdx in
  let* b := wr (Bitmap ctx) byteIdx
              (u8 (Z.lor (Z.land x (Z.lnot (Z.shiftl 3 bitOff))) (Z.shiftl state bitOff))) in
  Ok (with_bitmap ctx b).

Definition PhysRangesOverlap (aStart aEnd bStart bEnd : Z) : bool := (aStart <? bEnd) && (bStart <? aEnd).

(** [SortDescriptorsByPhysAddr] *)
Definition SortDescriptorsByPhysAddr (descs : list EFI_MEMORY_DESCRIPTOR) : res (list EFI_MEMORY_DESCRIPTOR) :=
  insertion_sort (fun tmp prev => negb (PhysicalStart prev <=? PhysicalStart tmp)) descs.

Definition ReserveBootRange (ctx : KE_PMM_BITMAP_CONTEXT) (rangeStart rangePages : Z)
  : res KE_PMM_BITMAP_CONTEXT :=
  if rangePages =? 0 then Ok ctx else
  let rangeEnd := u64 (rangeStart + u64 (rangePages * PAGE_4KB)) in
  let managedEnd := u64 (ManagedBasePhys ctx + u64 (TotalManagedPages ctx * PAGE_4KB)) in
  let clipStart := if rangeStart <? ManagedBasePhys ctx then ManagedBasePhys ctx else rangeStart in
  let clipEnd := if managedEnd <? rangeEnd then managedEnd else rangeEnd in
  if clipEnd <=? clipStart then Ok ctx else
  let startIdx := Z.shiftr (u64 (clipStart - ManagedBasePhys ctx)) PAGE_SHIFT in
  let pageCount := Z.shiftr (u64 (clipEnd - clipStart)) PAGE_SHIFT in
  for_loop (Z.to_nat pageCount) 0 (fun i ctx =>
    let idx := u64 (startIdx + i) in
    let* s := BitmapGetState ctx idx in
    if s =? PMM_PAGE_FREE then
      let* ctx := BitmapSetState ctx idx PMM_PAGE_RESERVED in
      Ok (mkCtx (Bitmap ctx) (ManagedBasePhys ctx) (TotalManagedPages ctx)
            (u64 (FreePages ctx - 1)) (AllocatedPages ctx) (u64 (ReservedPages ctx + 1)))
    else Ok ctx) ctx.

(** ** Step 2: validation and the managed range *)

Record survey := mkSurvey { managedLowest : Z; managedHighest : Z; totalReclaimablePages : Z }.

Fixpoint validate (prev : option EFI_MEMORY_DESCRIPTOR) (descs : list EFI_MEMORY_DESCRIPTOR) (acc : survey)
  : HO_STATUS + survey :=
  match descs with
  | [] => inr acc
  | d :: rest =>
      if NumberOfPages d =? 0 then validate (Some d) rest acc else
      let start := PhysicalStart d in
      let npages := NumberOfPages d in
      if negb (HO_IS_ALIGNED start PAGE_4KB) then inl EC_NOT_SUPPORTED else
      let end_ := u64 (start + u64 (npages * PAGE_4KB)) in
      if end_ <? start then inl EC_ILLEGAL_ARGUMENT else
      let overlaps :=
        match prev with
        | None => false
        | Some p =>
            (0 <? NumberOfPages p) &&
            (start <? u64 (PhysicalStart p + u64 (NumberOfPages p * PAGE_4KB)))
        end in
      if overlaps then inl EC_ILLEGAL_ARGUMENT else
      if negb (IS_RECLAIMABLE_MEMORY (DescType d)) then validate (Some d) rest acc else
      validate (Some d) rest
        (mkSurvey (if start <? managedLowest acc then start else managedLowest acc)
                  (if managedHighest acc <? end_ then end_ else managedHighest acc)
                  (u64 (totalReclaimablePages acc + npages)))
  end.

(** ** Step 3: a place for the bitmap *)

Definition boot_ranges (capsule : BOOT_CAPSULE) : list BOOT_RESERVED_RANGE :=
  let ptPages := u64 (u64 (PageTableSize capsule + PAGE_4KB) - 1) / PAGE_4KB in
  let fbPages := u64 (u64 (FramebufferSize capsule + PAGE_4KB) - 1) / PAGE_4KB in
  [ mkBootRange (KrnlEntryPhys capsule) (KrnlPages capsule);
    mkBootRange (KrnlStackPhys capsule) (KrnlStackPages capsule);
    mkBootRange (KrnlIST1StackPhys capsule) (IST1StackPages capsule);
    mkBootRange (KrnlIST2StackPhys capsule) (IST2StackPages capsule);
    mkBootRange (BasePhys capsule) (HandoffPages capsule);
    mkBootRange (PageTablePtr capsule) ptPages;
    mkBootRange (FramebufferPhys capsule) fbPages ].

(** The loop over [bootRanges]: an overlap, or a range that wraps. *)
Definition overlaps_boot_owned (ranges : list BOOT_RESERVED_RANGE) (candidateStart candidateEnd : Z) : bool :=
  existsb (fun r =>
    negb (Pages r =? 0) &&
    (let rangeEnd := u64 (Start r + u64 (Pages r * PAGE_4KB)) in
     (rangeEnd <? Start r) || PhysRangesOverlap candidateStart candidateEnd (Start r) rangeEnd)) ranges.

(** The candidate loop inside one descriptor; [n] bounds its iterations. *)
Fixpoint try_candidates (n : nat) (ranges : list BOOT_RESERVED_RANGE)
    (bitmapPages candidateStart lastCandidate descEnd : Z) : res (option Z) :=
  if lastCandidate <? candidateStart then Ok None else
  match n with
  | O => NoFuel
  | S n =>
      let candidateEnd := u64 (candidateStart + u64 (bitmapPages * PAGE_4KB)) in
      if (candidateEnd <? candidateStart) || (descEnd <? candidateEnd) then Ok None else
      if negb (overlaps_boot_owned ranges candidateStart candidateEnd) then Ok (Some candidateStart)
      else try_candidates n ranges bitmapPages (u64 (candidateStart + PAGE_4KB)) lastCandidate descEnd
  end.

Fixpoint place_bitmap (ranges : list BOOT_RESERVED_RANGE) (descs : list EFI_MEMORY_DESCRIPTOR)
    (bitmapPages : Z) : res (option Z) :=
  match descs with
  | [] => Ok None
  | d :: rest =>
      if (NumberOfPages d =? 0) || negb (IS_RECLAIMABLE_MEMORY (DescType d)) || (NumberOfPages d <? bitmapPages)
      then place_bitmap ranges rest bitmapPages else
      let descStart := PhysicalStart d in
      let descEnd := u64 (descStart + u64 (NumberOfPages d * PAGE_4KB)) in
      if descEnd <? descStart then place_bitmap ranges rest bitmapPages else
      let firstCandidate := if descStart <? PMM_LOW_RESERVED_BYTES then PMM_LOW_RESERVED_BYTES else descStart in
      if descEnd <=? firstCandidate then place_bitmap ranges rest bitmapPages else
      let firstCandidate := if negb (HO_IS_ALIGNED firstCandidate PAGE_4KB)
                            then HO_ALIGN_UP firstCandidate PAGE_4KB else firstCandidate in
      let lastCandidate := u64 (descEnd - u64 (bitmapPages * PAGE_4KB)) in
      if lastCandidate <? firstCandidate then place_bitmap ranges rest bitmapPages else
      let* hit := try_candidates (S (Z.to_nat ((lastCandidate - firstCandidate) / PAGE_4KB))) ranges
                    bitmapPages firstCandidate lastCandidate descEnd in
      match hit with
      | Some p => Ok (Some p)
      | None => place_bitmap ranges rest bitmapPages
      end
  end.

(** ** Steps 4 and 5: reserve everything, free the reclaimable ranges *)

Definition reserve_all (ctx : KE_PMM_BITMAP_CONTEXT) : res KE_PMM_BITMAP_CONTEXT :=
  let* ctx := for_loop (Z.to_nat (TotalManagedPages ctx)) 0
                (fun i ctx => BitmapSetState ctx i PMM_PAGE_RESERVED) ctx in
  Ok (mkCtx (Bitmap ctx) (ManagedBasePhys ctx) (TotalManagedPages ctx) 0 (AllocatedPages ctx)
        (TotalManagedPages ctx)).

Fixpoint free_reclaimable (lowest highest : Z) (descs : list EFI_MEMORY_DESCRIPTOR)
    (ctx : KE_PMM_BITMAP_CONTEXT) : res KE_PMM_BITMAP_CONTEXT :=
  match descs with
  | [] => Ok ctx
  | d :: rest =>
      if (NumberOfPages d =? 0) || negb (IS_RECLAIMABLE_MEMORY (DescType d))
      then free_reclaimable lowest highest rest ctx else
      let start := PhysicalStart d in
      let end_ := u64 (start + u64 (NumberOfPages d * PAGE_4KB)) in
      let start := if start <? lowest then lowest else start in
      let end_ := if highest <? end_ then highest else end_ in
      if end_ <=? start then free_reclaimable lowest highest rest ctx else
      let startIdx := u64 (start - lowest) / PAGE_4KB in
      let pageCount := u64 (end_ - start) / PAGE_4KB in
      let* ctx := for_loop (Z.to_nat pageCount) 0
                    (fun j ctx => BitmapSetState ctx (u64 (startIdx + j)) PMM_PAGE_FREE) ctx in
      free_reclaimable lowest highest rest
        (mkCtx (Bitmap ctx) (ManagedBasePhys ctx) (TotalManagedPages ctx)
           (u64 (FreePages ctx + pageCount)) (AllocatedPages ctx) (u64 (ReservedPages ctx - pageCount)))
  end.

Fixpoint reserve_ranges (ranges : list BOOT_RESERVED_RANGE) (ctx : KE_PMM_BITMAP_CONTEXT)
  : res KE_PMM_BITMAP_CONTEXT :=
  match ranges with
  | [] => Ok ctx
  | r :: rest => let* ctx := ReserveBootRange ctx (Start r) (Pages r) in reserve_ranges rest ctx
  end.

(** Steps 4 to 9 for a placed bitmap. *)
Definition populate (capsule : BOOT_CAPSULE) (descs : list EFI_MEMORY_DESCRIPTOR) (sv : survey)
    (bitmapPhys bitmapPages totalManagedPages : Z) : res (HO_STATUS * option KE_PMM_BITMAP_CONTEXT) :=
  let bitmap := replicate (Z.to_nat (u64 (bitmapPages * PAGE_4KB))) 0 in
  match KePmmBitmapSinkInit true (Some bitmap) (managedLowest sv) totalManagedPages with
  | (EC_SUCCESS, Some ctx) =>
      let* ctx := reserve_all ctx in
      let* ctx := free_reclaimable (managedLowest sv) (managedHighest sv) descs ctx in
      let* ctx := reserve_ranges
        (mkBootRange bitmapPhys bitmapPages :: mkBootRange 0 PMM_LOW_RESERVED_PAGES ::
         mkBootRange 0 1 :: boot_ranges capsule) ctx in
      Ok (EC_SUCCESS, Some ctx)
  | (status, _) => Ok (status, None)
  end.

(** The device is active exactly when a context is returned; [None] for the
    capsule is a null pointer. *)
Definition KePmmInitFromBootMemoryMap (capsule : option BOOT_CAPSULE) (memMap : list EFI_MEMORY_DESCRIPTOR)
  : res (HO_STATUS * option (Device.KE_PMM_DEVICE KE_PMM_BITMAP_CONTEXT)) :=
  match capsule with
  | None => Ok (EC_ILLEGAL_ARGUMENT, None)
  | Some capsule =>
  match memMap with
  | [] => Ok (EC_ILLEGAL_ARGUMENT, None)
  | _ :: _ =>
  let* descs := SortDescriptorsByPhysAddr memMap in
  match validate None descs (mkSurvey UINT64_MAX 0 0) with
  | inl e => Ok (e, None)
  | inr sv =>
      if (totalReclaimablePages sv =? 0) || (managedHighest sv <=? managedLowest sv)
      then Ok (EC_NOT_ENOUGH_MEMORY, None) else
      let totalManagedPages := u64 (managedHighest sv - managedLowest sv) / PAGE_4KB in
      let bitmapBytes := u64 (totalManagedPages + 3) / 4 in
      let bitmapPages := u64 (u64 (bitmapBytes + PAGE_4KB) - 1) / PAGE_4KB in
      let* place := place_bitmap (boot_ranges capsule) descs bitmapPages in
      match place with
      | None => Ok (EC_NOT_ENOUGH_MEMORY, None)
      | Some bitmapPhys =>
          let* (status, ctx) := populate capsule descs sv bitmapPhys bitmapPages totalManagedPages in
          match ctx with
          | Some ctx => Ok (EC_SUCCESS, Some (Device.mkDevice Device.gBitmapSink ctx true))
          | None => Ok (status, None)
          end
      end
  end
  end
  end.

(** ** The helpers are those of the sink *)

Lemma set_state_same ctx i s : 0 <= i ->
  BitmapSetState ctx i s = let* b := Bitmap.BitmapSetState (Bitmap ctx) i s in Ok (with_bitmap ctx b).
Proof.
  intros Hi. destruct (page_split i Hi) as [Hq Hr].
  unfold BitmapSetState, Bitmap.BitmapSetState, set_bits. rewrite Hq, Hr, (Z.shiftl_mul_pow2 (i mod 4)) by lia.
  change (2 ^ 1) with 2. by destruct (rd (Bitmap ctx) (i / 4)).
Qed.

Lemma get_state_same ctx i : 0 <= i -> BitmapGetState ctx i = Bitmap.BitmapGetState (Bitmap ctx) i.
Proof.
  intros Hi. destruct (page_split i Hi) as [Hq Hr].
  unfold BitmapGetState, Bitmap.BitmapGetState. by rewrite Hq, Hr, (Z.shiftl_mul_pow2 (i mod 4)) by lia.
Qed.

(** The inline loops of the file are [BitmapSetRange]. *)
Lemma set_loop n i ctx a idx s :
  (forall j, i <= j < i + Z.of_nat n -> idx j = u64 (a + j)) ->
  for_loop n i (fun j ctx => BitmapSetState ctx (idx j) s) ctx =
  let* b := for_loop n i (fun j b => Bitmap.BitmapSetState b (u64 (a + j)) s) (Bitmap ctx) in
  Ok (with_bitmap ctx b).
Proof.
  revert i ctx. induction n as [|n IH]; intros i ctx Hidx; cbn [for_loop].
  { by destruct ctx. }
  rewrite Hidx by lia. rewrite set_state_same by (pose proof (u64_range (a + i)); word_lia).
  destruct (Bitmap.BitmapSetState (Bitmap ctx) (u64 (a + i)) s) as [b| | |]; simpl; try done.
  rewrite IH by (intros; apply Hidx; lia). simpl. by destruct (for_loop _ _ _ _).
Qed.

Lemma tally_const f s u n :
  (forall i, 0 <= i < Z.of_nat n -> f i = s) -> tally f u n = if u =? s then Z.of_nat n else 0.
Proof.
  induction n as [|n IH]; intros Hf; cbn [tally]; [by case_match|].
  rewrite IH by (intros; apply Hf; lia). rewrite Hf by lia.
  destruct (Z.eqb_spec u s), (Z.eqb_spec s u); lia.
Qed.

(** ** Steps 4 and 5 *)

(** A fresh context becomes a well-formed one with every page reserved. *)
Lemma reserve_all_run ctx :
  geometry ctx -> AllocatedPages ctx = 0 ->
  exists ctx', reserve_all ctx = Ok ctx' /\ pmm_ok ctx' /\
    ManagedBasePhys ctx' = ManagedBasePhys ctx /\ TotalManagedPages ctx' = TotalManagedPages ctx /\
    forall i, 0 <= i < TotalManagedPages ctx -> state ctx' i = PMM_PAGE_RESERVED.
Proof.
  intros G Ha. pose proof (geo_room _ G). pose proof (geo_words _ G). unfold reserve_all.
  rewrite (set_loop _ 0 ctx 0 (fun j => j)).
  2: { intros j Hj. rewrite u64_small; [lia|word_lia]. }
  destruct (set_range_ok (Bitmap ctx) 0 (TotalManagedPages ctx) PMM_PAGE_RESERVED) as (b & Hb & Hl & Hby & Hp);
    [apply G | lia | lia | lia | done | done |].
  unfold BitmapSetRange in Hb. rewrite Hb. cbn [res_bind]. eexists. split; [done|].
  assert (Hst : forall i, 0 <= i < TotalManagedPages ctx ->
    state (mkCtx b (ManagedBasePhys ctx) (TotalManagedPages ctx) 0 (AllocatedPages ctx) (TotalManagedPages ctx)) i
      = PMM_PAGE_RESERVED).
  { intros i Hi. unfold state. simpl. rewrite Hp by lia. by rewrite (proj2 (in_range_spec _ _ _)). }
  split; [|by split_and!]. split.
  - destruct G as [G1 G2 G3 G4 G5]. unfold room in *. by split; simpl; unfold room; rewrite ?Hl.
  - unfold pages. split; simpl; unfold pages; simpl.
    + intros i Hi. rewrite Hst by done. unfold PMM_PAGE_RESERVED. lia.
    + erewrite tally_const; [|intros i Hi; apply Hst; lia]. done.
    + erewrite tally_const; [|intros i Hi; apply Hst; lia]. done.
    + erewrite tally_const; [|intros i Hi; apply Hst; lia]. simpl. lia.
Qed.

(** The descriptor covers page [i] of a range based at [low]. *)
Definition covers (start pages low i : Z) : bool :=
  (start <=? low + i * PAGE_4KB) && (low + i * PAGE_4KB <? start + pages * PAGE_4KB).

Definition reclaims (low : Z) (d : EFI_MEMORY_DESCRIPTOR) (i : Z) : bool :=
  IS_RECLAIMABLE_MEMORY (DescType d) && covers (PhysicalStart d) (NumberOfPages d) low i.

Lemma covers_range start pages low i :
  low mod PAGE_4KB = 0 -> start mod PAGE_4KB = 0 ->
  covers start pages low i = in_range ((start - low) / PAGE_4KB) pages i.
Proof.
  intros H1 H2. unfold covers, in_range. apply eq_true_iff_eq.
  rewrite !andb_true_iff, !Z.leb_le, !Z.ltb_lt. unfold PAGE_4KB in *. div_lia.
Qed.

(** What validation guarantees of a descriptor. *)
Record desc_ok (d : EFI_MEMORY_DESCRIPTOR) : Prop := mkDescOk {
  do_aligned : PhysicalStart d mod PAGE_4KB = 0;
  do_start : 0 <= PhysicalStart d;
  do_pages : 0 < NumberOfPages d;
  do_end : PhysicalStart d + NumberOfPages d * PAGE_4KB < 2 ^ 64
}.

Definition desc_before (a b : EFI_MEMORY_DESCRIPTOR) : Prop :=
  PhysicalStart a + NumberOfPages a * PAGE_4KB <= PhysicalStart b.

Lemma desc_end d : desc_ok d ->
  u64 (PhysicalStart d + u64 (NumberOfPages d * PAGE_4KB)) = PhysicalStart d + NumberOfPages d * PAGE_4KB.
Proof.
  intros [_ H1 H2 H3]. unfold PAGE_4KB in *.
  rewrite (u64_small (NumberOfPages d * 4096)) by word_lia. apply u64_small. word_lia.
Qed.

Lemma free_reclaimable_run low high descs : forall done ctx,
  pmm_ok ctx -> ManagedBasePhys ctx = low -> low + TotalManagedPages ctx * PAGE_4KB = high -> high < 2 ^ 64 ->
  (forall d, d ∈ descs -> desc_ok d) ->
  (forall d, d ∈ descs -> IS_RECLAIMABLE_MEMORY (DescType d) = true ->
     low <= PhysicalStart d /\ PhysicalStart d + NumberOfPages d * PAGE_4KB <= high) ->
  StronglySorted desc_before (done ++ descs) ->
  (forall i, 0 <= i < TotalManagedPages ctx ->
     state ctx i = if existsb (fun d => reclaims low d i) done then PMM_PAGE_FREE else PMM_PAGE_RESERVED) ->
  exists ctx', free_reclaimable low high descs ctx = Ok ctx' /\ pmm_ok ctx' /\
    ManagedBasePhys ctx' = low /\ TotalManagedPages ctx' = TotalManagedPages ctx /\
    forall i, 0 <= i < TotalManagedPages ctx ->
      state ctx' i = if existsb (fun d => reclaims low d i) (done ++ descs)
                     then PMM_PAGE_FREE else PMM_PAGE_RESERVED.
Proof.
  induction descs as [|d descs IH]; intros done ctx Hok Hb Hh Hh64 Hd Hin Hs Hst; cbn [free_reclaimable].
  { exists ctx. rewrite app_nil_r. by split_and!. }
  assert (Hdok : desc_ok d) by (apply Hd; by left). pose proof Hdok as [D1 D2 D3 D4].
  rewrite (proj2 (Z.eqb_neq (NumberOfPages d) 0)) by lia. cbn [orb].
  replace (done ++ d :: descs) with ((done ++ [d]) ++ descs) in * by by rewrite <- app_assoc.
  assert (Hex : forall i, existsb (fun d => reclaims low d i) (done ++ [d]) =
    existsb (fun d => reclaims low d i) done || reclaims low d i).
  { intros i. rewrite existsb_app. simpl. by rewrite orb_false_r. }
  destruct (IS_RECLAIMABLE_MEMORY (DescType d)) eqn:Hr; simpl negb; cbn iota.
  2: { apply (IH (done ++ [d])); try done; try (intros; apply Hd || apply Hin; by right).
       - intros d' Hd'. apply Hin. by right.
       - intros i Hi. rewrite Hst by done. rewrite Hex. unfold reclaims at 3. by rewrite Hr, orb_false_r. }
  destruct (Hin d (list_elem_of_here _ _) Hr) as [Hlo Hhi].
  pose proof Hok as [G _]. destruct (geo_base _ G) as [Gb Gb']. rewrite Hb in Gb, Gb'.
  rewrite desc_end by done. rewrite (proj2 (Z.ltb_ge (PhysicalStart d) low)) by lia.
  rewrite (proj2 (Z.ltb_ge high _)) by lia. rewrite (proj2 (Z.leb_gt _ _)) by (unfold PAGE_4KB in *; lia).
  rewrite (u64_small (PhysicalStart d - low)) by (unfold PAGE_4KB in *; word_lia).
  assert (Hcnt : u64 (PhysicalStart d + NumberOfPages d * PAGE_4KB - PhysicalStart d) / PAGE_4KB = NumberOfPages d).
  { rewrite u64_small by (unfold PAGE_4KB in *; word_lia). unfold PAGE_4KB. div_lia. }
  rewrite Hcnt. set (a := (PhysicalStart d - low) / PAGE_4KB).
  assert (Ha : 0 <= a /\ a + NumberOfPages d <= TotalManagedPages ctx /\ PhysicalStart d = low + a * PAGE_4KB)
    by (unfold a, PAGE_4KB in *; div_lia).
  assert (Hcov : forall i, reclaims low d i = in_range a (NumberOfPages d) i).
  { intros i. unfold reclaims. by rewrite Hr, covers_range. }
  assert (Hres : forall i, a <= i < a + NumberOfPages d -> state ctx i = PMM_PAGE_RESERVED).
  { intros i Hi. rewrite Hst by lia. destruct (existsb _ done) eqn:E; [|done]. exfalso.
    apply existsb_exists in E as (d' & Hd' & Hc). apply list_elem_of_In in Hd'.
    rewrite <- app_assoc in Hs. apply StronglySorted_app in Hs as (Hs & _).
    specialize (Hs d' d Hd' (list_elem_of_here _ _)). unfold desc_before in Hs.
    unfold reclaims, covers in Hc. rewrite !andb_true_iff, Z.leb_le, Z.ltb_lt in Hc.
    unfold PAGE_4KB in *. lia. }
  rewrite (set_loop _ 0 ctx a (fun j => u64 (a + j))) by done.
  destruct (shift ctx a (NumberOfPages d) PMM_PAGE_RESERVED PMM_PAGE_FREE) as (b & Eb & Hsh);
    [done | lia | lia | lia | done | done | done | done |].
  unfold BitmapSetRange in Eb. rewrite Eb. cbn [res_bind].
  destruct (Hsh (u64 (FreePages ctx + NumberOfPages d)) (AllocatedPages ctx) (u64 (ReservedPages ctx - NumberOfPages d)))
    as [Hok' (Hb' & Ht' & Hst')]; [counters; by apply (counter_small ctx 1 Hok)|].
  destruct (IH (done ++ [d]) _ Hok') as (ctx' & E & Hres'); try done.
  - intros d' Hd'. apply Hd. by right.
  - intros d' Hd'. apply Hin. by right.
  - intros i Hi. rewrite Hst' by (simpl in Hi; lia). rewrite Hex, Hcov.
    destruct (in_range _ _ _); [by rewrite orb_true_r|]. by rewrite orb_false_r, Hst.
  - exists ctx'. split; [exact E|]. exact Hres'.
Qed.

(** ** Steps 6 to 9: reserving ranges *)

(** A range handed over by the boot loader: page-aligned, not wrapping. *)
Definition range_ok (r : BOOT_RESERVED_RANGE) : Prop :=
  0 <= Start r /\ Start r mod PAGE_4KB = 0 /\ 0 <= Pages r /\ Start r + Pages r * PAGE_4KB < 2 ^ 64.

(** One turn of the loop of [ReserveBootRange]. *)
Lemma reserve_one ctx i :
  pmm_ok ctx -> 0 <= i < TotalManagedPages ctx ->
  exists ctx', (let* s := BitmapGetState ctx i in
    if s =? PMM_PAGE_FREE then
      let* ctx := BitmapSetState ctx i PMM_PAGE_RESERVED in
      Ok (mkCtx (Bitmap ctx) (ManagedBasePhys ctx) (TotalManagedPages ctx)
            (u64 (FreePages ctx - 1)) (AllocatedPages ctx) (u64 (ReservedPages ctx + 1)))
    else Ok ctx) = Ok ctx' /\ pmm_ok ctx' /\
    ManagedBasePhys ctx' = ManagedBasePhys ctx /\ TotalManagedPages ctx' = TotalManagedPages ctx /\
    forall k, 0 <= k -> state ctx' k = if (k =? i) && (state ctx k =? PMM_PAGE_FREE) then PMM_PAGE_RESERVED else state ctx k.
Proof.
  intros Hok Hi. pose proof Hok as [G _]. pose proof (geo_room _ G). pose proof (geo_words _ G).
  rewrite get_state_same, get_state_ok by lia. cbn [res_bind]. fold (state ctx i).
  destruct (Z.eqb_spec (state ctx i) PMM_PAGE_FREE) as [Hf|Hf].
  - destruct (shift ctx i 1 PMM_PAGE_FREE PMM_PAGE_RESERVED) as (b & Eb & Hsh);
      [done | lia | lia | lia | done | done | done | by intros k Hk; replace k with i by lia |].
    unfold BitmapSetRange in Eb. change (Z.to_nat 1) with 1%nat in Eb. cbn [for_loop] in Eb.
    rewrite Z.add_0_r, u64_small in Eb by word_lia. apply res_bind_ok in Eb as (b' & Eb & [= <-]).
    rewrite set_state_same, Eb by lia. cbn [res_bind].
    destruct (Hsh (u64 (FreePages ctx - 1)) (AllocatedPages ctx) (u64 (ReservedPages ctx + 1))) as [Hok' (H1 & H2 & H3)];
      [counters; by apply (counter_small ctx 1 Hok)|].
    eexists. split; [done|]. split; [exact Hok'|]. split_and!; try done. intros k Hk.
    etrans; [by apply H3|]. unfold in_range.
    destruct (Z.eqb_spec k i) as [->|]; [|destruct (Z.leb_spec i k), (Z.ltb_spec k (i + 1)); simpl; done || lia].
    rewrite Hf, Z.leb_refl, (proj2 (Z.ltb_lt _ _)) by lia. done.
  - eexists. split; [done|]. split_and!; try done. intros k Hk.
    destruct (Z.eqb_spec k i) as [->|]; [|done]. by rewrite (proj2 (Z.eqb_neq _ _)).
Qed.

Lemma reserve_range_run ctx r :
  pmm_ok ctx -> ManagedBasePhys ctx + TotalManagedPages ctx * PAGE_4KB < 2 ^ 64 -> range_ok r ->
  exists ctx', ReserveBootRange ctx (Start r) (Pages r) = Ok ctx' /\ pmm_ok ctx' /\
    ManagedBasePhys ctx' = ManagedBasePhys ctx /\ TotalManagedPages ctx' = TotalManagedPages ctx /\
    forall i, 0 <= i < TotalManagedPages ctx ->
      state ctx' i = if covers (Start r) (Pages r) (ManagedBasePhys ctx) i && (state ctx i =? PMM_PAGE_FREE)
                     then PMM_PAGE_RESERVED else state ctx i.
Proof.
  intros Hok Hend (R0 & R1 & R2 & R3). pose proof Hok as [G _]. destruct (geo_base _ G) as [Gb Gb'].
  pose proof (geo_room _ G) as Gr. pose proof (total_bound ctx G). unfold ReserveBootRange. unfold PAGE_4KB in *.
  set (low := ManagedBasePhys ctx) in *. set (total := TotalManagedPages ctx) in *.
  assert (Hcov : forall cs ce i, cs = Z.max (Start r) low -> ce = Z.min (Start r + Pages r * 4096) (low + total * 4096) ->
    0 <= i < total -> covers (Start r) (Pages r) low i = in_range ((cs - low) / 4096) ((ce - cs) / 4096) i).
  { intros cs ce i -> -> Hi. unfold covers, in_range. apply eq_true_iff_eq.
    rewrite !andb_true_iff, !Z.leb_le, !Z.ltb_lt. unfold PAGE_4KB. div_lia. }
  assert (Hnone : (forall i, 0 <= i < total -> covers (Start r) (Pages r) low i = false) ->
    exists ctx', Ok ctx = Ok ctx' /\ pmm_ok ctx' /\ ManagedBasePhys ctx' = low /\ TotalManagedPages ctx' = total /\
      forall i, 0 <= i < total -> state ctx' i = if covers (Start r) (Pages r) low i && (state ctx i =? PMM_PAGE_FREE)
        then PMM_PAGE_RESERVED else state ctx i).
  { intros Hc. exists ctx. split_and!; try done. intros i Hi. by rewrite Hc. }
  destruct (Z.eqb_spec (Pages r) 0) as [Hz|Hz].
  { apply Hnone. intros i Hi. unfold covers, PAGE_4KB. rewrite Hz. destruct (Z.leb_spec (Start r) (low + i * 4096)); [|done].
    simpl. apply Z.ltb_ge. lia. }
  rewrite (u64_small (Pages r * 4096)) by word_lia. rewrite (u64_small (total * 4096)) by word_lia.
  rewrite (u64_small (Start r + Pages r * 4096)) by word_lia. rewrite (u64_small (low + total * 4096)) by word_lia.
  set (cs := if Start r <? low then low else Start r). set (ce := if low + total * 4096 <? _ then _ else _).
  assert (Ecs : cs = Z.max (Start r) low) by (unfold cs; destruct (Z.ltb_spec (Start r) low); lia).
  assert (Ece : ce = Z.min (Start r + Pages r * 4096) (low + total * 4096))
    by (unfold ce; destruct (Z.ltb_spec (low + total * 4096) (Start r + Pages r * 4096)); lia).
  clearbody cs ce. destruct (Z.leb_spec ce cs) as [Hle|Hgt].
  { apply Hnone. intros i Hi. rewrite (Hcov cs ce) by done. unfold in_range.
    destruct (Z.leb_spec ((cs - low) / 4096) i); [|done]. simpl. apply Z.ltb_ge. div_lia. }
  rewrite (u64_small (cs - low)), (u64_small (ce - cs)), !Z.shiftr_div_pow2 by (unfold PAGE_SHIFT; word_lia).
  change (2 ^ PAGE_SHIFT) with 4096.
  set (a := (cs - low) / 4096) in *. set (c := (ce - cs) / 4096) in *.
  assert (Hac : 0 <= a /\ 0 <= c /\ a + c <= total) by (unfold a, c; div_lia).
  destruct (for_loop_rule (fun j b => pmm_ok b /\ ManagedBasePhys b = low /\ TotalManagedPages b = total /\
      forall i, 0 <= i < total -> state b i = if in_range a j i && (state ctx i =? PMM_PAGE_FREE)
        then PMM_PAGE_RESERVED else state ctx i)
    (Z.to_nat c) 0 (fun i ctx =>
      let idx := u64 (a + i) in
      let* s := BitmapGetState ctx idx in
      if s =? PMM_PAGE_FREE then
        let* ctx := BitmapSetState ctx idx PMM_PAGE_RESERVED in
        Ok (mkCtx (Bitmap ctx) (ManagedBasePhys ctx) (TotalManagedPages ctx)
              (u64 (FreePages ctx - 1)) (AllocatedPages ctx) (u64 (ReservedPages ctx + 1)))
      else Ok ctx) ctx) as (ctx' & E & Hok' & H1 & H2 & H3).
  - split_and!; try done. intros i Hi. unfold in_range.
    destruct (Z.leb_spec a i), (Z.ltb_spec i (a + 0)); simpl; done || lia.
  - intros j b Hj (Hokb & Hb1 & Hb2 & Hb3). cbv zeta. rewrite u64_small by word_lia.
    destruct (reserve_one b (a + j) Hokb) as (b' & E & Hok' & H1 & H2 & H3); [lia|].
    exists b'. split; [exact E|]. split_and!; [done | congruence | congruence |]. intros i Hi.
    rewrite H3, Hb3 by lia. unfold in_range.
    destruct (Z.eqb_spec i (a + j)), (Z.leb_spec a i), (Z.ltb_spec i (a + j)), (Z.ltb_spec i (a + (j + 1))); simpl; try lia; try done;
      by destruct (Z.eqb_spec (state ctx i) PMM_PAGE_FREE).
  - exists ctx'. split; [exact E|]. split_and!; try done. intros i Hi. rewrite H3, (Hcov cs ce) by done.
    by replace (0 + Z.of_nat (Z.to_nat c)) with c by lia.
Qed.

Lemma reserve_ranges_run rs : forall ctx,
  pmm_ok ctx -> ManagedBasePhys ctx + TotalManagedPages ctx * PAGE_4KB < 2 ^ 64 ->
  (forall r, r ∈ rs -> range_ok r) ->
  exists ctx', reserve_ranges rs ctx = Ok ctx' /\ pmm_ok ctx' /\
    ManagedBasePhys ctx' = ManagedBasePhys ctx /\ TotalManagedPages ctx' = TotalManagedPages ctx /\
    forall i, 0 <= i < TotalManagedPages ctx ->
      state ctx' i = if existsb (fun r => covers (Start r) (Pages r) (ManagedBasePhys ctx) i) rs
                        && (state ctx i =? PMM_PAGE_FREE)
                     then PMM_PAGE_RESERVED else state ctx i.
Proof.
  induction rs as [|r rs IH]; intros ctx Hok He Hr; cbn [reserve_ranges existsb].
  { exists ctx. by split_and!. }
  destruct (reserve_range_run ctx r Hok He) as (c1 & -> & Hok1 & B1 & T1 & S1); [apply Hr; by left|].
  cbn [res_bind]. destruct (IH c1 Hok1) as (c2 & -> & Hok2 & B2 & T2 & S2);
    [by rewrite B1, T1 | intros r' Hr'; apply Hr; by right |].
  exists c2. split; [done|]. split_and!; try congruence; try done. intros i Hi.
  rewrite S2, S1, B1 by lia. destruct (covers (Start r) (Pages r) (ManagedBasePhys ctx) i), (existsb _ rs); simpl; try done.
  all: destruct (Z.eqb_spec (state ctx i) PMM_PAGE_FREE) as [E|Hne]; rewrite ?E; try done.
  all: by rewrite (proj2 (Z.eqb_neq _ _) Hne).
Qed.

(** ** Step 2: what validation establishes *)

(** A descriptor as the firmware writes it: an address that is a word and a
    length, possibly 0, whose number of bytes is one. *)
Definition desc_words (d : EFI_MEMORY_DESCRIPTOR) : Prop :=
  is_u64 (PhysicalStart d) /\ 0 <= NumberOfPages d < 2 ^ 52.

Definition range_end (d : EFI_MEMORY_DESCRIPTOR) : Z := PhysicalStart d + NumberOfPages d * PAGE_4KB.

(** A descriptor that passed the first two checks. *)
Lemma desc_checked d : desc_words d -> 0 < NumberOfPages d -> PhysicalStart d mod PAGE_4KB = 0 ->
  PhysicalStart d <= u64 (PhysicalStart d + u64 (NumberOfPages d * PAGE_4KB)) -> desc_ok d.
Proof.
  intros [Hs Hn] Hp Hal Hwrap. split; [done | word_lia | lia |].
  rewrite (u64_small (NumberOfPages d * PAGE_4KB)) in Hwrap by (unfold PAGE_4KB; word_lia).
  destruct (Z.lt_ge_cases (PhysicalStart d + NumberOfPages d * PAGE_4KB) (2 ^ 64)) as [|Hge]; [done|]. exfalso.
  unfold u64, PAGE_4KB, is_u64 in *. rewrite (Z.mod_eq _ (2 ^ 64)) in Hwrap by lia.
  assert ((PhysicalStart d + NumberOfPages d * 4096) / 2 ^ 64 = 1) as Hq by (symmetry; apply (Z.div_unique _ _ _ (PhysicalStart d + NumberOfPages d * 4096 - 2 ^ 64)); lia).
  rewrite Hq in Hwrap. lia.
Qed.

Lemma validate_map_run prev descs acc sv :
  (forall d, d ∈ descs -> desc_words d /\ 0 < NumberOfPages d) -> (forall p, prev = Some p -> desc_ok p) ->
  validate prev descs acc = inr sv ->
  (forall d, d ∈ descs -> desc_ok d /\ forall p, prev = Some p -> range_end p <= PhysicalStart d) /\
  StronglySorted desc_before descs /\
  (forall d, d ∈ descs -> IS_RECLAIMABLE_MEMORY (DescType d) = true ->
     managedLowest sv <= PhysicalStart d /\ range_end d <= managedHighest sv) /\
  managedLowest sv <= managedLowest acc /\ managedHighest acc <= managedHighest sv /\
  (managedLowest sv = managedLowest acc \/ exists d, d ∈ descs /\ managedLowest sv = PhysicalStart d) /\
  (managedHighest sv = managedHighest acc \/ exists d, d ∈ descs /\ managedHighest sv = range_end d).
Proof.
  revert prev acc. induction descs as [|d descs IH]; intros prev acc Hw Hp Hv; cbn [validate] in Hv.
  { injection Hv as <-. split_and!; try lia; try (by left); try apply SSorted_nil; intros d Hd; by apply elem_of_nil in Hd. }
  destruct (Hw d (list_elem_of_here _ _)) as [Hdw Hn0]. pose proof Hdw as [Hs Hn].
  rewrite (proj2 (Z.eqb_neq _ _)) in Hv by lia.
  rewrite is_aligned_4k in Hv. destruct (Z.eqb_spec (PhysicalStart d mod PAGE_4KB) 0) as [Hal|]; [|done]. simpl in Hv.
  destruct (Z.ltb_spec (u64 (PhysicalStart d + u64 (NumberOfPages d * PAGE_4KB))) (PhysicalStart d)) as [|Hwrap]; [done|].
  pose proof (desc_checked d Hdw Hn0 Hal Hwrap) as Hd. rewrite desc_end in Hv by done. fold (range_end d) in Hv.
  assert (Hprev : forall p, prev = Some p -> range_end p <= PhysicalStart d).
  { intros p ->. rewrite desc_end in Hv by by apply Hp. rewrite (proj2 (Z.ltb_lt 0 _)) in Hv by by apply Hp.
    unfold range_end. simpl in Hv. destruct (Z.ltb_spec (PhysicalStart d) (PhysicalStart p + NumberOfPages p * PAGE_4KB)); done. }
  destruct (match prev with Some p => _ | None => false end); [done|].
  set (acc' := if IS_RECLAIMABLE_MEMORY (DescType d) then mkSurvey (if PhysicalStart d <? managedLowest acc then PhysicalStart d else managedLowest acc)
    (if managedHighest acc <? range_end d then range_end d else managedHighest acc)
    (u64 (totalReclaimablePages acc + NumberOfPages d)) else acc).
  assert (Hv' : validate (Some d) descs acc' = inr sv)
    by (unfold acc'; destruct (IS_RECLAIMABLE_MEMORY (DescType d)); exact Hv).
  destruct (IH (Some d) acc') as (A1 & A2 & A3 & A4 & A5 & A6 & A7);
    [intros d' Hd'; apply Hw; by right | by intros p [= <-] | done |].
  assert (Hpos : 0 < NumberOfPages d * PAGE_4KB) by (unfold PAGE_4KB; lia).
  assert (Hacc : (acc' = acc \/ IS_RECLAIMABLE_MEMORY (DescType d) = true) /\
    managedLowest acc' <= managedLowest acc /\ managedHighest acc <= managedHighest acc' /\
    (IS_RECLAIMABLE_MEMORY (DescType d) = true -> managedLowest acc' <= PhysicalStart d /\ range_end d <= managedHighest acc') /\
    (managedLowest acc' = managedLowest acc \/ managedLowest acc' = PhysicalStart d) /\
    (managedHighest acc' = managedHighest acc \/ managedHighest acc' = range_end d)).
  { unfold acc'. destruct (IS_RECLAIMABLE_MEMORY (DescType d)); simpl;
      [|split_and!; auto; lia || done].
    destruct (Z.ltb_spec (PhysicalStart d) (managedLowest acc)), (Z.ltb_spec (managedHighest acc) (range_end d));
      split_and!; auto; lia. }
  destruct Hacc as (_ & B1 & B2 & B3 & B4 & B5). split_and!; try lia.
  - intros d' [->|Hd']%elem_of_cons; [done|]. destruct (A1 d' Hd') as [Hok' Hlt]. split; [done|].
    intros p Hp'. specialize (Hlt d eq_refl). specialize (Hprev p Hp'). unfold range_end in *. lia.
  - constructor; [done|]. apply Forall_forall. intros d' Hd'. by apply (A1 d' Hd').
  - intros d' [->|Hd']%elem_of_cons Hr; [|by apply A3]. specialize (B3 Hr). lia.
  - destruct A6 as [->|(d' & Hd' & ->)]; [destruct B4 as [->| ->]; [by left|right; exists d; split; [by left|done]] |].
    right. exists d'. split; [by right|done].
  - destruct A7 as [->|(d' & Hd' & ->)]; [destruct B5 as [->| ->]; [by left|right; exists d; split; [by left|done]] |].
    right. exists d'. split; [by right|done].
Qed.

(** *** Empty descriptors

    Every loop of the file passes over them; only the overlap check looks at
    the preceding descriptor, empty or not. *)

Definition occupied (descs : list EFI_MEMORY_DESCRIPTOR) : list EFI_MEMORY_DESCRIPTOR :=
  filter (fun d => 0 < NumberOfPages d) descs.

(** No empty descriptor of the map lies between two that overlap. *)
Definition hides_no_overlap (memMap : list EFI_MEMORY_DESCRIPTOR) : Prop := forall d x e,
  [d; x; e] ⊆+ memMap -> 0 < NumberOfPages d -> NumberOfPages x = 0 -> 0 < NumberOfPages e ->
  PhysicalStart d <= PhysicalStart x <= PhysicalStart e -> range_end d <= PhysicalStart e.

(** The same of a list in its order. *)
Definition apart_in_order (descs : list EFI_MEMORY_DESCRIPTOR) : Prop := forall d x e,
  [d; x; e] `sublist_of` descs -> 0 < NumberOfPages d -> NumberOfPages x = 0 -> 0 < NumberOfPages e ->
  range_end d <= PhysicalStart e.

Lemma sorted_apart (R : relation EFI_MEMORY_DESCRIPTOR) memMap descs : (forall a b, R a b -> PhysicalStart a <= PhysicalStart b) ->
  StronglySorted R descs -> Permutation memMap descs -> hides_no_overlap memMap -> apart_in_order descs.
Proof.
  intros HR Hs Hp Hh d x e Hsub Hd Hx He. apply (Hh d x e); [rewrite Hp; by apply sublist_submseteq | done..|].
  apply sublist_cons_l in Hsub as (k1 & k2 & -> & Hsub). apply sublist_cons_l in Hsub as (k3 & k4 & -> & Hsub).
  apply sublist_cons_l in Hsub as (k5 & k6 & -> & _). apply StronglySorted_app in Hs as (_ & _ & Hs).
  apply StronglySorted_cons in Hs as [Hdx Hs]. apply StronglySorted_app in Hs as (_ & _ & Hs).
  apply StronglySorted_cons in Hs as [Hxe _]. rewrite Forall_forall in Hdx, Hxe.
  split; apply HR; [apply Hdx | apply Hxe]; set_solver.
Qed.

Lemma validate_occupied last prev descs acc sv :
  (forall d, d ∈ descs -> desc_words d) -> (forall q, last = Some q -> desc_ok q) ->
  (prev = last \/ exists p, prev = Some p /\ NumberOfPages p = 0 /\
     forall q e, last = Some q -> e ∈ descs -> 0 < NumberOfPages e -> range_end q <= PhysicalStart e) ->
  apart_in_order (option_list last ++ descs) -> validate prev descs acc = inr sv -> validate last (occupied descs) acc = inr sv.
Proof.
  revert last prev acc. induction descs as [|d descs IH]; intros last prev acc Hw Hl Hp Ha Hv; [exact Hv|].
  destruct (Hw d (list_elem_of_here _ _)) as [Hs Hn]. cbn [validate] in Hv. unfold occupied. rewrite filter_cons.
  destruct (Z.eqb_spec (NumberOfPages d) 0) as [Hz|Hz].
  - rewrite decide_False by lia. apply IH with (Some d); [intros; apply Hw; by right | done | | | done].
    + right. exists d. split; [done|]. split; [done|]. intros q e -> He Hpos. pose proof (Hl q eq_refl) as [_ _ Hq _].
      apply (Ha q d e); [|done..]. cbn. apply sublist_skip, sublist_skip. apply sublist_cons_l.
      apply list_elem_of_split in He as (k1 & k2 & ->). exists k1, k2. split; [done | apply sublist_nil_l].
    + intros a x e Hsub. apply Ha. etransitivity; [exact Hsub|]. apply sublist_app; [done|]. by apply sublist_cons.
  - rewrite decide_True by lia. cbn [validate]. rewrite (proj2 (Z.eqb_neq _ _) Hz).
    destruct (HO_IS_ALIGNED (PhysicalStart d) PAGE_4KB) eqn:Hal; cbn [negb] in *; [|done].
    rewrite is_aligned_4k in Hal. apply Z.eqb_eq in Hal.
    destruct (Z.ltb_spec (u64 (PhysicalStart d + u64 (NumberOfPages d * PAGE_4KB))) (PhysicalStart d)) as [|Hwrap]; [done|].
    assert (Hok : desc_ok d) by (apply desc_checked; [by apply Hw; left | lia | done | done]).
    destruct (match prev with Some p => _ | None => false end) eqn:Ho; [done|].
    assert (Eo : match last with Some p => (0 <? NumberOfPages p) && (PhysicalStart d <? u64 (PhysicalStart p + u64 (NumberOfPages p * PAGE_4KB)))
                 | None => false end = false).
    { destruct Hp as [<-|(p & -> & Hpz & Hq)]; [done|]. destruct last as [q|]; [|done].
      rewrite desc_end by by apply Hl. specialize (Hq q d eq_refl ltac:(by left) ltac:(lia)). unfold range_end in Hq.
      rewrite (proj2 (Z.ltb_ge (PhysicalStart d) _)) by lia. by rewrite andb_false_r. }
    rewrite Eo. fold (occupied descs).
    assert (Hsub : apart_in_order (option_list (Some d) ++ descs)).
    { intros a x e Hsub. apply Ha. etransitivity; [exact Hsub|]. apply sublist_inserts_l. done. }
    destruct (IS_RECLAIMABLE_MEMORY (DescType d)); cbn [negb] in *;
      (apply IH with (Some d); [intros; apply Hw; by right | by intros q [= <-] | by left | done | done]).
Qed.

(** The other loops skip them. *)
Lemma occupied_empty d descs : NumberOfPages d = 0 -> occupied (d :: descs) = occupied descs.
Proof. intros Hz. unfold occupied. rewrite filter_cons, decide_False by lia. done. Qed.
Lemma place_occupied ranges descs bp : (forall d, d ∈ descs -> 0 <= NumberOfPages d) ->
  place_bitmap ranges descs bp = place_bitmap ranges (occupied descs) bp.
Proof.
  induction descs as [|d descs IH]; intros Hd; [done|].
  destruct (Z.eqb_spec (NumberOfPages d) 0) as [Hz|Hz].
  - rewrite occupied_empty by done. cbn [place_bitmap]. rewrite (proj2 (Z.eqb_eq _ _) Hz). cbn [orb]. apply IH. intros; apply Hd; by right.
  - assert (0 < NumberOfPages d) by (specialize (Hd d (list_elem_of_here _ _)); lia).
    unfold occupied. rewrite filter_cons, decide_True by done. cbn [place_bitmap]. rewrite IH by (intros; apply Hd; by right). done.
Qed.
Lemma free_occupied low high descs ctx : (forall d, d ∈ descs -> 0 <= NumberOfPages d) ->
  free_reclaimable low high descs ctx = free_reclaimable low high (occupied descs) ctx.
Proof.
  revert ctx. induction descs as [|d descs IH]; intros ctx Hd; [done|].
  assert (Hd' : forall d, d ∈ descs -> 0 <= NumberOfPages d) by (intros; apply Hd; by right).
  destruct (Z.eqb_spec (NumberOfPages d) 0) as [Hz|Hz].
  - rewrite occupied_empty by done. cbn [free_reclaimable]. rewrite (proj2 (Z.eqb_eq _ _) Hz). cbn [orb]. by apply IH.
  - assert (0 < NumberOfPages d) by (specialize (Hd d (list_elem_of_here _ _)); lia).
    unfold occupied. rewrite filter_cons, decide_True by done. cbn [free_reclaimable]. fold (occupied descs).
    repeat (case_match; [by apply IH|]). destruct (for_loop _ _ _ _); cbn [res_bind]; try done. by apply IH.
Qed.
Lemma occupied_in d descs : d ∈ occupied descs <-> 0 < NumberOfPages d /\ d ∈ descs.
Proof. unfold occupied. by rewrite list_elem_of_filter. Qed.
Lemma reclaims_occupied low i descs : (forall d, d ∈ descs -> 0 <= NumberOfPages d) ->
  existsb (fun d => reclaims low d i) descs = existsb (fun d => reclaims low d i) (occupied descs).
Proof.
  intros Hd. apply eq_true_iff_eq. rewrite !existsb_exists. split; intros (d & Hin & Hc); exists d; rewrite <- list_elem_of_In in *;
    rewrite occupied_in in *; split; try done; [|apply Hin]. split; [|done].
  unfold reclaims, covers in Hc. rewrite !andb_true_iff, Z.leb_le, Z.ltb_lt in Hc. unfold PAGE_4KB in *. lia.
Qed.

(** ** Step 3: where the bitmap goes *)

Definition good_place (ranges : list BOOT_RESERVED_RANGE) (descs : list EFI_MEMORY_DESCRIPTOR) (bitmapPages p : Z) : Prop :=
  p mod PAGE_4KB = 0 /\ PMM_LOW_RESERVED_BYTES <= p /\
  overlaps_boot_owned ranges p (p + bitmapPages * PAGE_4KB) = false /\
  exists d, d ∈ descs /\ IS_RECLAIMABLE_MEMORY (DescType d) = true /\
    PhysicalStart d <= p /\ p + bitmapPages * PAGE_4KB <= range_end d.

Lemma try_candidates_run n ranges bp first last dend :
  0 < bp -> 0 <= first -> first mod PAGE_4KB = 0 -> last = dend - bp * PAGE_4KB -> 0 <= last -> dend < 2 ^ 64 ->
  last - first < Z.of_nat n * PAGE_4KB ->
  exists r, try_candidates n ranges bp first last dend = Ok r /\
    forall p, r = Some p -> first <= p <= last /\ p mod PAGE_4KB = 0 /\
      overlaps_boot_owned ranges p (p + bp * PAGE_4KB) = false.
Proof.
  intros Hbp. revert first. induction n as [|n IH]; intros first Hf Hal Hl Hl0 Hd Hn; cbn [try_candidates].
  { destruct (Z.ltb_spec last first); [|unfold PAGE_4KB in *; lia]. by exists None. }
  destruct (Z.ltb_spec last first); [by exists None|].
  unfold PAGE_4KB in *. rewrite (u64_small (bp * 4096)), u64_small by word_lia.
  rewrite (proj2 (Z.ltb_ge _ first)), (proj2 (Z.ltb_ge dend _)) by lia. simpl.
  destruct (overlaps_boot_owned ranges first (first + bp * 4096)) eqn:Ho; simpl.
  - rewrite u64_small by word_lia. destruct (IH (first + 4096)) as (r & -> & Hr); try done; try lia; [div_lia|].
    exists r. split; [done|]. intros p Hp. destruct (Hr p Hp) as (H1 & H2 & H3). split_and!; (done || lia).
  - exists (Some first). split; [done|]. intros p [= <-]. split_and!; (done || lia).
Qed.

Lemma place_bitmap_run ranges descs bp :
  (forall d, d ∈ descs -> desc_ok d) -> 0 < bp ->
  exists r, place_bitmap ranges descs bp = Ok r /\ forall p, r = Some p -> good_place ranges descs bp p.
Proof.
  induction descs as [|d descs IH]; intros Hd Hbp; cbn [place_bitmap]; [by exists None|].
  destruct IH as (r0 & E0 & H0); [intros d' Hd'; apply Hd; by right | done |].
  assert (Hskip : exists r, place_bitmap ranges descs bp = Ok r /\ forall p, r = Some p -> good_place ranges (d :: descs) bp p).
  { exists r0. split; [done|]. intros p Hp. destruct (H0 p Hp) as (H1 & H2 & H3 & d' & Hd' & H4).
    split_and!; try done. exists d'. split; [by right|done]. }
  pose proof (Hd d (list_elem_of_here _ _)) as Hok. pose proof Hok as [D1 D2 D3 D4].
  rewrite (proj2 (Z.eqb_neq _ 0)) by lia. cbn [orb].
  destruct (IS_RECLAIMABLE_MEMORY (DescType d)) eqn:Hr; simpl negb; cbn [orb]; [|done].
  destruct (Z.ltb_spec (NumberOfPages d) bp); [done|].
  rewrite desc_end by done. fold (range_end d).
  rewrite (proj2 (Z.ltb_ge _ _)) by (unfold range_end, PAGE_4KB; lia).
  set (first := if PhysicalStart d <? _ then _ else _).
  assert (Hfirst : first = Z.max (PhysicalStart d) PMM_LOW_RESERVED_BYTES)
    by (unfold first; destruct (Z.ltb_spec (PhysicalStart d) PMM_LOW_RESERVED_BYTES); lia).
  assert (Hfal : first mod PAGE_4KB = 0).
  { destruct (Z.max_spec (PhysicalStart d) PMM_LOW_RESERVED_BYTES) as [[_ Hm]|[_ Hm]]; by rewrite Hfirst, Hm. }
  clearbody first. destruct (Z.leb_spec (range_end d) first); [done|].
  rewrite is_aligned_4k, Hfal. simpl negb. cbn iota.
  assert (Hend : range_end d < 2 ^ 64) by exact D4.
  assert (Hbpe : bp * PAGE_4KB <= range_end d) by (unfold range_end, PAGE_4KB in *; lia).
  rewrite (u64_small (bp * PAGE_4KB)), u64_small by (unfold PAGE_4KB in *; word_lia).
  destruct (Z.ltb_spec (range_end d - bp * PAGE_4KB) first); [done|].
  edestruct (try_candidates_run (S (Z.to_nat ((range_end d - bp * PAGE_4KB - first) / PAGE_4KB))) ranges bp first
    (range_end d - bp * PAGE_4KB) (range_end d)) as (r & -> & Hres); try done.
  { unfold PMM_LOW_RESERVED_BYTES in *. lia. }
  { lia. }
  { unfold PAGE_4KB in *. div_lia. }
  cbn [res_bind]. destruct r as [p|]; [|done]. exists (Some p). split; [done|]. intros p' [= <-].
  destruct (Hres p eq_refl) as (Q1 & Q2 & Q3). split_and!; try done; [lia|].
  exists d. split_and!; [by left | done | lia | lia].
Qed.

(** ** The bring-up *)

(** The pages of the low megabyte and of the boot loader's ranges. *)
Definition boot_owned (capsule : BOOT_CAPSULE) (bitmapPhys bitmapPages low i : Z) : bool :=
  existsb (fun r => covers (Start r) (Pages r) low i)
    (mkBootRange bitmapPhys bitmapPages :: mkBootRange 0 PMM_LOW_RESERVED_PAGES ::
     mkBootRange 0 1 :: boot_ranges capsule).

(** Validation refuses with an error. *)
Lemma validate_refuses prev descs acc e : validate prev descs acc = inl e -> e <> EC_SUCCESS.
Proof. revert prev acc. induction descs as [|d descs IH]; intros prev acc; cbn [validate]; [done|]. repeat case_match; try by intros [= <-]. all: apply IH. Qed.

(** What a successful bring-up hands to the device. *)
Definition brought_up (capsule : BOOT_CAPSULE) (descs : list EFI_MEMORY_DESCRIPTOR)
    (dev : Device.KE_PMM_DEVICE KE_PMM_BITMAP_CONTEXT) : Prop :=
  Device.Initialized dev = true /\ Device.Sink dev = Device.gBitmapSink /\
  let ctx := Device.SinkContext dev in
  pmm_ok ctx /\
  exists bitmapPhys bitmapPages,
    good_place (boot_ranges capsule) descs bitmapPages bitmapPhys /\
    TotalManagedPages ctx <= 4 * (bitmapPages * PAGE_4KB) /\
    forall i, 0 <= i < TotalManagedPages ctx ->
      state ctx i =
        if existsb (fun d => reclaims (ManagedBasePhys ctx) d i) descs
           && negb (boot_owned capsule bitmapPhys bitmapPages (ManagedBasePhys ctx) i)
        then PMM_PAGE_FREE else PMM_PAGE_RESERVED.

Lemma populate_run capsule descs sv p bp total :
  (forall r, r ∈ boot_ranges capsule -> range_ok r) ->
  (forall d, d ∈ descs -> desc_ok d) -> StronglySorted desc_before descs ->
  (forall d, d ∈ descs -> IS_RECLAIMABLE_MEMORY (DescType d) = true ->
     managedLowest sv <= PhysicalStart d /\ range_end d <= managedHighest sv) ->
  0 <= managedLowest sv -> managedLowest sv mod PAGE_4KB = 0 -> managedHighest sv < 2 ^ 64 ->
  0 < total -> managedLowest sv + total * PAGE_4KB = managedHighest sv ->
  0 < bp <= 2 ^ 40 -> total <= 4 * (bp * PAGE_4KB) ->
  good_place (boot_ranges capsule) descs bp p ->
  exists ctx, populate capsule descs sv p bp total = Ok (EC_SUCCESS, Some ctx) /\
    brought_up capsule descs (Device.mkDevice Device.gBitmapSink ctx true).
Proof.
  intros Hr Hd Hs Hin Hl0 Hlal Hh Ht Hlh Hbp Htot Hp. unfold populate.
  rewrite u64_small by (unfold PAGE_4KB; word_lia).
  set (bitmap := replicate _ 0). unfold KePmmBitmapSinkInit. rewrite (proj2 (Z.eqb_neq total 0)) by lia.
  cbn [negb orb].
  assert (G : geometry (mkCtx bitmap (managedLowest sv) total 0 0 0)).
  { split; simpl; unfold room, bitmap; rewrite ?length_replicate; try (unfold PAGE_4KB in *; lia); try done.
    apply Forall_replicate. done. }
  destruct (reserve_all_run _ G eq_refl) as (c1 & E1 & Hok1 & B1 & T1 & S1). rewrite E1. cbn [res_bind].
  simpl in B1, T1, S1.
  destruct (free_reclaimable_run (managedLowest sv) (managedHighest sv) descs [] c1) as (c2 & E2 & Hok2 & B2 & T2 & S2);
    try done; try (by rewrite T1).
  rewrite E2. cbn [res_bind]. simpl in S2.
  destruct (reserve_ranges_run (mkBootRange p bp :: mkBootRange 0 PMM_LOW_RESERVED_PAGES :: mkBootRange 0 1 :: boot_ranges capsule) c2 Hok2)
    as (c3 & E3 & Hok3 & B3 & T3 & S3).
  { rewrite B2, T2, T1. lia. }
  { intros r [->|[->|[->|Hr']%elem_of_cons]%elem_of_cons]%elem_of_cons; [|by split_and!..|by apply Hr].
    destruct Hp as (P1 & P2 & _ & d & Hd' & _ & P3 & P4). destruct (Hd d Hd') as [_ _ _ D4].
    unfold range_ok, range_end, PMM_LOW_RESERVED_BYTES in *. simpl. split_and!; (done || lia). }
  rewrite E3. cbn [res_bind]. exists c3. split; [done|]. split; [done|]. split; [done|]. cbv zeta. simpl.
  split; [done|]. exists p, bp. split; [done|]. rewrite T3, T2, T1. split; [done|]. intros i Hi.
  rewrite S3, S2 by lia. rewrite B3, B2. unfold boot_owned.
  destruct (existsb (fun d => reclaims (managedLowest sv) d i) descs),
    (existsb (fun r => covers (Start r) (Pages r) (managedLowest sv) i) _); done.
Qed.

(** What is brought up from the occupied descriptors is from all of them. *)
Lemma brought_up_occupied capsule descs dev : (forall d, d ∈ descs -> 0 <= NumberOfPages d) ->
  brought_up capsule (occupied descs) dev -> brought_up capsule descs dev.
Proof.
  intros Hd (H1 & H2 & H3 & p & bp & (P1 & P2 & P3 & d & Hin & P4) & H5 & H6). split; [done|]. split; [done|]. split; [done|].
  exists p, bp. split; [|split; [done|]].
  - split; [done|]. split; [done|]. split; [done|]. apply occupied_in in Hin as [_ Hin]. exists d. by split.
  - intros i Hi. rewrite (reclaims_occupied _ _ descs) by done. by apply H6.
Qed.

(** C32: bringing up the allocator from the boot memory map always terminates
    with a status; when it succeeds the device is active over a context whose
    counters and bitmap agree, the bitmap lies in reclaimable memory above 1 MB
    clear of the boot loader's ranges, and a managed page is free exactly when
    some reclaimable descriptor covers it and neither the bitmap, the low
    megabyte nor a boot range does; every other page is reserved.  The map may
    hold empty descriptors, which count for nothing; but none may lie between
    two descriptors that overlap, since the overlap check, which looks only at
    the preceding descriptor, then misses the overlap.  Other overlaps need no
    assumption: they are refused. *)
Theorem boot_map_brings_up_pmm capsule memMap :
  (forall d, d ∈ memMap -> desc_words d) -> hides_no_overlap memMap -> (forall r, r ∈ boot_ranges capsule -> range_ok r) ->
  exists st out, KePmmInitFromBootMemoryMap (Some capsule) memMap = Ok (st, out) /\
    match out with
    | None => st <> EC_SUCCESS
    | Some dev => st = EC_SUCCESS /\ exists descs, Permutation memMap descs /\ brought_up capsule descs dev
    end.
Proof.
  intros Hw Hh Hr. unfold KePmmInitFromBootMemoryMap. destruct memMap as [|d0 ds] eqn:Em; [by do 2 eexists|].
  rewrite <- Em in *. clear Em. unfold SortDescriptorsByPhysAddr.
  destruct (insertion_sort_spec (fun tmp prev => negb (PhysicalStart prev <=? PhysicalStart tmp))) with (a := memMap)
    as (descs & -> & Hperm & Hsorted).
  { intros x y z. unfold in_order. rewrite !negb_false_iff, !Z.leb_le. lia. }
  { intros x y. unfold in_order. rewrite !negb_false_iff, !Z.leb_le. lia. }
  cbn [res_bind]. assert (Hw' : forall d, d ∈ descs -> desc_words d) by (intros d; rewrite <- Hperm; apply Hw).
  assert (Hn' : forall d, d ∈ descs -> 0 <= NumberOfPages d) by (intros d Hd; by apply Hw').
  assert (Hap : apart_in_order descs).
  { eapply sorted_apart; [|exact Hsorted | exact Hperm | exact Hh]. intros a b. unfold in_order. rewrite negb_false_iff, Z.leb_le. done. }
  destruct (validate None descs (mkSurvey UINT64_MAX 0 0)) as [e|sv] eqn:Ev; [by exists e, None; split; [|eapply validate_refuses]|].
  apply (validate_occupied None) in Ev; [|done|done|by left|done]. set (ne := occupied descs) in *.
  destruct (validate_map_run None ne _ sv ltac:(intros d [Hd Hin]%occupied_in; split; [by apply Hw' | done]) ltac:(done) Ev)
    as (V1 & V2 & V3 & V4 & V5 & V6 & V7). simpl in V4, V5, V6, V7.
  destruct (_ || _) eqn:Eg; [by do 2 eexists|]. apply orb_false_iff in Eg as [_ Eg]. apply Z.leb_gt in Eg.
  assert (Hdok : forall d, d ∈ ne -> desc_ok d) by (intros d Hd; by apply V1).
  assert (Hlow : 0 <= managedLowest sv /\ managedLowest sv mod PAGE_4KB = 0).
  { destruct V6 as [E|(d & Hd & ->)]; [|by destruct (Hdok d Hd)].
    destruct V7 as [E'|(d & Hd & E')]; [unfold UINT64_MAX in *; lia|].
    destruct (Hdok d Hd) as [_ _ _ D4]. unfold range_end, UINT64_MAX in *. lia. }
  assert (Hhigh : managedHighest sv < 2 ^ 64 /\ managedHighest sv mod PAGE_4KB = 0).
  { destruct V7 as [->|(d & Hd & ->)]; [done|]. destruct (Hdok d Hd) as [D1 D2 D3 D4].
    unfold range_end, PAGE_4KB in *. split; [done|div_lia]. }
  rewrite (u64_small (managedHighest sv - managedLowest sv)) by word_lia.
  set (total := (managedHighest sv - managedLowest sv) / PAGE_4KB).
  assert (Htot : 0 < total <= 2 ^ 52 /\ managedLowest sv + total * PAGE_4KB = managedHighest sv)
    by (unfold total, PAGE_4KB in *; div_lia).
  clearbody total. rewrite (u64_small (total + 3)) by word_lia.
  rewrite (u64_small ((total + 3) / 4 + PAGE_4KB)), u64_small by (unfold PAGE_4KB; div_lia).
  set (bp := ((total + 3) / 4 + PAGE_4KB - 1) / PAGE_4KB).
  assert (Hbp : 0 < bp <= 2 ^ 40 /\ total <= 4 * (bp * PAGE_4KB)) by (unfold bp, PAGE_4KB; div_lia).
  clearbody bp. rewrite place_occupied by done. fold ne.
  destruct (place_bitmap_run (boot_ranges capsule) ne bp Hdok) as ([p|] & -> & Hp); [lia|..];
    cbn [res_bind]; [|by do 2 eexists].
  destruct (populate_run capsule ne sv p bp total) as (ctx & Ep & Hup); try done; try lia; [by apply Hp|].
  assert (Ee : populate capsule descs sv p bp total = populate capsule ne sv p bp total).
  { unfold populate. destruct (KePmmBitmapSinkInit _ _ _ _) as [[] [c|]]; try done.
    destruct (reserve_all c) as [c1| | |]; cbn [res_bind]; try done. by rewrite free_occupied. }
  rewrite Ee, Ep. cbn [res_bind]. do 2 eexists. split; [done|]. split; [done|]. exists descs. split; [done|]. by apply brought_up_occupied.
Qed.

(** ** Witness and a boundary *)

Definition sample_capsule : BOOT_CAPSULE :=
  mkCapsule 0x100000 2 0x102000 1 0x103000 1 0x104000 1 0x105000 1 0x106000 0x1000 0x80000000 0x1000.

(** Sixteen pages from 1 MB in two reclaimable pieces around a firmware page,
    listed out of order, with an empty descriptor inside the first piece and one
    beyond all memory. *)
Definition sample_map : list EFI_MEMORY_DESCRIPTOR :=
  [mkDesc 7 0x109000 7; mkDesc 7 0x104000 0; mkDesc 2 0x100000 8; mkDesc 6 0x108000 1; mkDesc 6 0x900123 0].

(** [hides_no_overlap], as a test. *)
Definition hides_no_overlapb (memMap : list EFI_MEMORY_DESCRIPTOR) : bool :=
  forallb (fun d => forallb (fun x => forallb (fun e =>
    negb ((0 <? NumberOfPages d) && (NumberOfPages x =? 0) && (0 <? NumberOfPages e) &&
          (PhysicalStart d <=? PhysicalStart x) && (PhysicalStart x <=? PhysicalStart e)) ||
    (range_end d <=? PhysicalStart e)) memMap) memMap) memMap.
Lemma hides_no_overlapb_sound memMap : hides_no_overlapb memMap = true -> hides_no_overlap memMap.
Proof.
  unfold hides_no_overlapb. intros Hb d x e Hsub Hd Hx He [H1 H2].
  assert (Hin : forall y, y ∈ [d; x; e] -> In y memMap) by (intros y Hy; apply list_elem_of_In; by eapply elem_of_submseteq).
  rewrite forallb_forall in Hb. specialize (Hb d (Hin d ltac:(set_solver))). rewrite forallb_forall in Hb.
  specialize (Hb x (Hin x ltac:(set_solver))). rewrite forallb_forall in Hb. specialize (Hb e (Hin e ltac:(set_solver))).
  apply orb_true_iff in Hb as [Hb|Hb]; [|by apply Z.leb_le]. apply negb_true_iff in Hb.
  rewrite !(proj2 (Z.ltb_lt _ _)), (proj2 (Z.eqb_eq _ _)), !(proj2 (Z.leb_le _ _)) in Hb by done. done.
Qed.

Lemma boot_map_brings_up_pmm_witness :
  (forall d, d ∈ sample_map -> desc_words d) /\
  exists dev, KePmmInitFromBootMemoryMap (Some sample_capsule) sample_map = Ok (EC_SUCCESS, Some dev) /\
    (exists descs, Permutation sample_map descs /\ brought_up sample_capsule descs dev).
Proof.
  assert (Hw : forall d, d ∈ sample_map -> desc_words d).
  { intros d. unfold sample_map. rewrite !elem_of_cons, elem_of_nil.
    intros [->|[->|[->|[->|[->|[]]]]]]; vm_compute; repeat split; congruence. }
  assert (Hh : hides_no_overlap sample_map) by (apply hides_no_overlapb_sound; vm_compute; reflexivity).
  assert (Hr : forall r, r ∈ boot_ranges sample_capsule -> range_ok r).
  { intros r. rewrite list_elem_of_In. simpl.
    intros [<-|[<-|[<-|[<-|[<-|[<-|[<-|[]]]]]]]]; vm_compute; repeat split; congruence. }
  split; [exact Hw|].
  destruct (boot_map_brings_up_pmm sample_capsule sample_map Hw Hh Hr) as (st & out & E & Ho).
  destruct out as [dev|].
  - destruct Ho as [-> Ho]. exists dev. split; [exact E | exact Ho].
  - exfalso. apply Ho.
    assert (Hs : match KePmmInitFromBootMemoryMap (Some sample_capsule) sample_map with
                 | Ok (s, _) => s = EC_SUCCESS
                 | _ => False
                 end) by (vm_compute; reflexivity).
    rewrite E in Hs. exact Hs.
Defined.

(** The overlap check looks only at the preceding descriptor, and skips it when
    it is empty: an empty descriptor between two overlapping ones hides the
    overlap, and the counters no longer describe the bitmap. *)
Lemma empty_descriptor_hides_overlap :
  match KePmmInitFromBootMemoryMap (Some sample_capsule)
          [mkDesc 7 0x100000 16; mkDesc 7 0x104000 0; mkDesc 7 0x108000 8] with
  | Ok (EC_SUCCESS, Some dev) => Device.KePmmCheckInvariants dev = Ok EC_INVALID_STATE
  | _ => False
  end.
Proof. vm_compute. reflexivity. Qed.

End PmmBoot.
