(* ===== verification/PageTable.v ===== *)
(** * Page tables ([ke/mm/address_space.c])

    Physical memory is a function from the address of a 64-bit word to its
    value: every access of the file goes through the direct map
    ([HHDM_PHYS2VIRT]), so a pointer to a page-table entry is the entry's
    physical address.  The page allocator is any [PageAllocator] that keeps its
    contract.  [hw_walk] is the processor's own translation, the specification
    the walker and the three mutators are measured against; [tree] is the
    invariant that the tables of a root form a tree. *)

From S2P Require Import Prelude Pmm.

Local Open Scope Z_scope.

Module PageTable.

Definition PTE_PRESENT : Z := 2 ^ 0.
Definition PTE_WRITABLE : Z := 2 ^ 1.
Definition PTE_USER : Z := 2 ^ 2.
Definition PTE_WRITETHROUGH : Z := 2 ^ 3.
Definition PTE_CACHE_DISABLE : Z := 2 ^ 4.
Definition PTE_ACCESSED : Z := 2 ^ 5.
Definition PTE_DIRTY : Z := 2 ^ 6.
Definition PTE_PAGE_SIZE : Z := 2 ^ 7.
Definition PTE_GLOBAL : Z := 2 ^ 8.
Definition PTE_NO_EXECUTE : Z := 2 ^ 63.
Definition PAGE_MASK : Z := not64 (PAGE_4KB - 1).
Definition KE_PT_PHYS_ADDR_MASK : Z := 0x000FFFFFFFFFF000.
Definition KE_PT_ALLOWED_LEAF_FLAGS : Z :=
  Z.lor (Z.lor (Z.lor (Z.lor (Z.lor PTE_WRITABLE PTE_USER) PTE_WRITETHROUGH) PTE_CACHE_DISABLE)
    PTE_GLOBAL) PTE_NO_EXECUTE.
Definition ENTRIES_PER_TABLE : Z := 512.

Definition PML4_INDEX (addr : Z) : Z := Z.land (Z.shiftr addr 39) (ENTRIES_PER_TABLE - 1).
Definition PDPT_INDEX (addr : Z) : Z := Z.land (Z.shiftr addr 30) (ENTRIES_PER_TABLE - 1).
Definition PD_INDEX (addr : Z) : Z := Z.land (Z.shiftr addr 21) (ENTRIES_PER_TABLE - 1).
Definition PT_INDEX (addr : Z) : Z := Z.land (Z.shiftr addr 12) (ENTRIES_PER_TABLE - 1).

(** [(entry & flag) != 0] *)
Definition has (entry flag : Z) : bool := negb (Z.land entry flag =? 0).

Record KE_IMPORTED_REGION := mkRegion {
  VirtualStart : Z;
  VirtualEndExclusive : Z;
  PhysicalStart : Z;
  PhysicalEndExclusive : Z;
  Size : Z;
  RegionAttributes : Z;
  ProvenanceValue : Z;
  Type_ : Z;
  Provenance : Z;
  Lifetime : Z;
  Granularity : Z;
  BootOwned : bool;
  Pinned : bool
}.

Record KE_KERNEL_ADDRESS_SPACE := mkKernelSpace {
  RootPageTablePhys : Z;
  Regions : list KE_IMPORTED_REGION;
  BootOwnedRegionCount : Z;
  PinnedRegionCount : Z;
  Initialized : bool
}.

Record KE_PROCESS_ADDRESS_SPACE := mkProcessSpace {
  PsRootPageTablePhys : Z;
  PsInitialized : bool
}.

Record KE_PT_MAPPING := mkMapping {
  Present : bool;
  LargeLeaf : bool;
  UserAccessible : bool;
  Level : Z;
  PageSize : Z;
  PhysicalBase : Z;
  Attributes : Z
}.

Definition no_mapping : KE_PT_MAPPING := mkMapping false false false 0 0 0 0.

(** A pointer to an entry is [None] when null; [WalkLevel] 0 means no leaf. *)
Record KE_PT_WALK := mkWalk {
  Pml4Entry : option Z;
  PdptEntry : option Z;
  PdEntry : option Z;
  PtEntry : option Z;
  LeafEntry : option Z;
  LeafValue : Z;
  LeafPhysBase : Z;
  LeafVirtBase : Z;
  WalkPageSize : Z;
  WalkLevel : Z
}.

Abbreviation memory := (Z -> Z).

Definition store (m : memory) (a v : Z) : memory := fun x => if x =? a then v else m x.

(** [memset(table, 0, PAGE_4KB)] *)
Definition clear_page (m : memory) (t : Z) : memory :=
  fun x => if (t <=? x) && (x <? t + PAGE_4KB) then 0 else m x.

(** The machine: memory, the PMM, CR3 and the pages [invlpg] was run on. *)
Record machine (P : Type) := mkMachine {
  mem : memory;
  pmm : P;
  cr3 : Z;
  invalidated : list Z
}.
Arguments mkMachine {P}.
Arguments mem {P}.
Arguments pmm {P}.
Arguments cr3 {P}.
Arguments invalidated {P}.

Section machine.
Context {P : Type}.
Implicit Type s : machine P.
Definition set_mem s (m : memory) : machine P := mkMachine m (pmm s) (cr3 s) (invalidated s).
Definition set_pmm s (p : P) : machine P := mkMachine (mem s) p (cr3 s) (invalidated s).
Definition KiReadCr3 s : Z := Z.land (cr3 s) PAGE_MASK.
Definition KiInvalidatePage s (va : Z) : machine P :=
  mkMachine (mem s) (pmm s) (cr3 s) (va :: invalidated s).
End machine.

Definition entry_at (table index : Z) : Z := table + 8 * index.

(** ** The walk *)

Definition KiIntermediateEntryFlagsForLeaf (leafAttributes : Z) : Z :=
  let flags := Z.lor PTE_PRESENT PTE_WRITABLE in
  if has leafAttributes PTE_USER then Z.lor flags PTE_USER else flags.

Definition KiIsUserReachableEntry (m : memory) (entry : option Z) : bool :=
  match entry with
  | None => false
  | Some e => Z.land (m e) (Z.lor PTE_PRESENT PTE_USER) =? Z.lor PTE_PRESENT PTE_USER
  end.

Definition KiIsWalkUserAccessible (m : memory) (walk : KE_PT_WALK) : bool :=
  match LeafEntry walk with
  | None => false
  | Some _ =>
      if negb (KiIsUserReachableEntry m (Pml4Entry walk)) || negb (KiIsUserReachableEntry m (PdptEntry walk))
      then false
      else if WalkLevel walk =? 3 then true
      else if negb (KiIsUserReachableEntry m (PdEntry walk)) then false
      else if WalkLevel walk =? 2 then true
      else KiIsUserReachableEntry m (PtEntry walk)
  end.

Definition KiLeafPhysBase (entry pageSize : Z) : Z :=
  Z.land (Z.land entry KE_PT_PHYS_ADDR_MASK) (not64 (pageSize - 1)).

Definition KiWalkImportedRoot (space : option KE_KERNEL_ADDRESS_SPACE) (m : memory) (virtAddr : Z)
  : HO_STATUS * option KE_PT_WALK :=
  match space with
  | None => (EC_ILLEGAL_ARGUMENT, None)
  | Some space =>
  if negb (Initialized space) then (EC_INVALID_STATE, None) else
  if negb (HO_IS_ALIGNED virtAddr PAGE_4KB) then (EC_ILLEGAL_ARGUMENT, None) else
  let pml4e := entry_at (RootPageTablePhys space) (PML4_INDEX virtAddr) in
  if negb (has (m pml4e) PTE_PRESENT)
  then (EC_SUCCESS, Some (mkWalk (Some pml4e) None None None None 0 0 0 0 0)) else
  let pdpte := entry_at (Z.land (m pml4e) PAGE_MASK) (PDPT_INDEX virtAddr) in
  if negb (has (m pdpte) PTE_PRESENT)
  then (EC_SUCCESS, Some (mkWalk (Some pml4e) (Some pdpte) None None None 0 0 0 0 0)) else
  if has (m pdpte) PTE_PAGE_SIZE
  then (EC_SUCCESS, Some (mkWalk (Some pml4e) (Some pdpte) None None (Some pdpte) (m pdpte)
          (u64 (KiLeafPhysBase (m pdpte) PAGE_1GB + Z.land virtAddr (PAGE_1GB - 1)))
          (Z.land virtAddr (not64 (PAGE_1GB - 1))) PAGE_1GB 3)) else
  let pde := entry_at (Z.land (m pdpte) PAGE_MASK) (PD_INDEX virtAddr) in
  if negb (has (m pde) PTE_PRESENT)
  then (EC_SUCCESS, Some (mkWalk (Some pml4e) (Some pdpte) (Some pde) None None 0 0 0 0 0)) else
  if has (m pde) PTE_PAGE_SIZE
  then (EC_SUCCESS, Some (mkWalk (Some pml4e) (Some pdpte) (Some pde) None (Some pde) (m pde)
          (u64 (KiLeafPhysBase (m pde) PAGE_2MB + Z.land virtAddr (PAGE_2MB - 1)))
          (Z.land virtAddr (not64 (PAGE_2MB - 1))) PAGE_2MB 2)) else
  let pte := entry_at (Z.land (m pde) PAGE_MASK) (PT_INDEX virtAddr) in
  if negb (has (m pte) PTE_PRESENT)
  then (EC_SUCCESS, Some (mkWalk (Some pml4e) (Some pdpte) (Some pde) (Some pte) None 0 0 0 0 0)) else
  (EC_SUCCESS, Some (mkWalk (Some pml4e) (Some pdpte) (Some pde) (Some pte) (Some pte) (m pte)
     (Z.land (m pte) KE_PT_PHYS_ADDR_MASK) virtAddr PAGE_4KB 1))
  end.

(** [out] is false for a null [outMapping]. *)
Definition KePtQueryPage (space : option KE_KERNEL_ADDRESS_SPACE) (m : memory) (virtAddr : Z) (out : bool)
  : HO_STATUS * option KE_PT_MAPPING :=
  if negb (bool_decide (is_Some space)) || negb out then (EC_ILLEGAL_ARGUMENT, None) else
  match KiWalkImportedRoot space m virtAddr with
  | (EC_SUCCESS, Some walk) =>
      match LeafEntry walk with
      | None => (EC_SUCCESS, Some no_mapping)
      | Some _ =>
          (EC_SUCCESS, Some (mkMapping true (1 <? WalkLevel walk) (KiIsWalkUserAccessible m walk)
             (WalkLevel walk) (WalkPageSize walk) (LeafPhysBase walk) (LeafValue walk)))
      end
  | (status, _) => (status, None)
  end.

(** ** Mutation *)

(** [KE_NEW_TABLE] and [KE_ENTRY_FLAG_PROMOTION]; the arrays are lists with the
    newest entry first, three long at most. *)
Record KE_NEW_TABLE := mkNewTable { ParentEntry : Z; TablePhys : Z }.
Record KE_ENTRY_FLAG_PROMOTION := mkPromotion { Entry : Z; AddedFlags : Z }.

Section mutators.
Context `{PageAllocator P}.
Implicit Type s : machine P.

Fixpoint KiRollbackNewTables (tables : list KE_NEW_TABLE) s : res (machine P) :=
  match tables with
  | [] => Ok s
  | t :: tables =>
      let s := set_mem s (store (mem s) (ParentEntry t) 0) in
      let* (_, p) := pmm_free (pmm s) (TablePhys t) 1 in
      KiRollbackNewTables tables (set_pmm s p)
  end.

Fixpoint KiRollbackEntryPromotions (promotions : list KE_ENTRY_FLAG_PROMOTION) s : machine P :=
  match promotions with
  | [] => s
  | p :: promotions =>
      KiRollbackEntryPromotions promotions
        (set_mem s (store (mem s) (Entry p) (Z.land (mem s (Entry p)) (not64 (AddedFlags p)))))
  end.

Definition KiRollbackMapSetup (tables : list KE_NEW_TABLE)
    (promotions : list KE_ENTRY_FLAG_PROMOTION) s : res (machine P) :=
  let* s := KiRollbackNewTables tables s in
  Ok (KiRollbackEntryPromotions promotions s).

(** What [KiEnsureChildTable] reads and writes: the machine and the two
    undo logs. *)
Record setup := mkSetup {
  machine_of : machine P;
  newTables : list KE_NEW_TABLE;
  promotions : list KE_ENTRY_FLAG_PROMOTION
}.

Definition KiEnsureChildTable (parentEntry leafAttributes : Z) (w : setup)
  : res (HO_STATUS * setup * option Z) :=
  let s := machine_of w in
  let e := mem s parentEntry in
  if negb (has e PTE_PRESENT) then
    let* (status, p, tablePhys) := pmm_alloc (pmm s) 1 None in
    match status, tablePhys with
    | EC_SUCCESS, Some tablePhys =>
        let m := clear_page (mem s) tablePhys in
        let m := store m parentEntry
                   (Z.lor tablePhys (KiIntermediateEntryFlagsForLeaf leafAttributes)) in
        if 3 <=? Z.of_nat (length (newTables w)) then Oob else
        Ok (EC_SUCCESS,
            mkSetup (set_mem (set_pmm s p) m) (mkNewTable parentEntry tablePhys :: newTables w)
              (promotions w),
            Some tablePhys)
    | EC_SUCCESS, None => Oob
    | _, _ => Ok (status, mkSetup (set_pmm s p) (newTables w) (promotions w), None)
    end
  else if has e PTE_PAGE_SIZE then Ok (EC_NOT_SUPPORTED, w, None)
  else if has leafAttributes PTE_USER && negb (has e PTE_USER) then
    if 3 <=? Z.of_nat (length (promotions w)) then Ok (EC_INVALID_STATE, w, None) else
    let m := store (mem s) parentEntry (Z.lor e PTE_USER) in
    Ok (EC_SUCCESS,
        mkSetup (set_mem s m) (newTables w) (mkPromotion parentEntry PTE_USER :: promotions w),
        Some (Z.land (m parentEntry) PAGE_MASK))
  else Ok (EC_SUCCESS, w, Some (Z.land e PAGE_MASK)).

(** A failing step of [KePtMapPage]: undo, then report. *)
Definition map_fail (status : HO_STATUS) (w : setup) : res (HO_STATUS * machine P) :=
  let* s := KiRollbackMapSetup (newTables w) (promotions w) (machine_of w) in
  Ok (status, s).

Definition KePtMapPage (space : option KE_KERNEL_ADDRESS_SPACE) (virtAddr physAddr attributes : Z) s
  : res (HO_STATUS * machine P) :=
  match space with
  | None => Ok (EC_ILLEGAL_ARGUMENT, s)
  | Some space =>
  if negb (Initialized space) then Ok (EC_INVALID_STATE, s) else
  if negb (HO_IS_ALIGNED virtAddr PAGE_4KB) || negb (HO_IS_ALIGNED physAddr PAGE_4KB)
  then Ok (EC_ILLEGAL_ARGUMENT, s) else
  let pml4Entry := entry_at (RootPageTablePhys space) (PML4_INDEX virtAddr) in
  let* (status, w, pdpt) := KiEnsureChildTable pml4Entry attributes (mkSetup s [] []) in
  match pdpt with
  | None => Ok (status, machine_of w)
  | Some pdpt =>
  let* (status, w, pd) := KiEnsureChildTable (entry_at pdpt (PDPT_INDEX virtAddr)) attributes w in
  match pd with
  | None => map_fail status w
  | Some pd =>
  let* (status, w, pt) := KiEnsureChildTable (entry_at pd (PD_INDEX virtAddr)) attributes w in
  match pt with
  | None => map_fail status w
  | Some pt =>
  let ptEntry := entry_at pt (PT_INDEX virtAddr) in
  let s := machine_of w in
  if has (mem s ptEntry) PTE_PRESENT then map_fail EC_INVALID_STATE w else
  let s := set_mem s (store (mem s) ptEntry
    (Z.lor (Z.lor (Z.land physAddr PAGE_MASK) (Z.land attributes KE_PT_ALLOWED_LEAF_FLAGS))
       PTE_PRESENT)) in
  let s := if KiReadCr3 s =? RootPageTablePhys space then KiInvalidatePage s virtAddr else s in
  Ok (EC_SUCCESS, s)
  end end end
  end.

Definition KePtUnmapPage (space : option KE_KERNEL_ADDRESS_SPACE) (virtAddr : Z) s
  : HO_STATUS * machine P :=
  match space with
  | None => (EC_ILLEGAL_ARGUMENT, s)
  | Some sp =>
  match KiWalkImportedRoot space (mem s) virtAddr with
  | (EC_SUCCESS, Some walk) =>
      match LeafEntry walk with
      | None => (EC_INVALID_STATE, s)
      | Some leaf =>
          if negb (WalkLevel walk =? 1) then (EC_NOT_SUPPORTED, s) else
          let s := set_mem s (store (mem s) leaf 0) in
          (EC_SUCCESS, if KiReadCr3 s =? RootPageTablePhys sp then KiInvalidatePage s virtAddr else s)
      end
  | (status, _) => (status, s)
  end
  end.

Definition KePtProtectPage (space : option KE_KERNEL_ADDRESS_SPACE) (virtAddr attributes : Z) s
  : HO_STATUS * machine P :=
  match space with
  | None => (EC_ILLEGAL_ARGUMENT, s)
  | Some sp =>
  match KiWalkImportedRoot space (mem s) virtAddr with
  | (EC_SUCCESS, Some walk) =>
      match LeafEntry walk with
      | None => (EC_INVALID_STATE, s)
      | Some leaf =>
          if negb (WalkLevel walk =? 1) then (EC_NOT_SUPPORTED, s) else
          let preserved := Z.lor (Z.land (LeafValue walk) KE_PT_PHYS_ADDR_MASK)
                             (Z.land (LeafValue walk) (Z.lor PTE_ACCESSED PTE_DIRTY)) in
          let s := set_mem s (store (mem s) leaf
            (Z.lor (Z.lor preserved (Z.land attributes KE_PT_ALLOWED_LEAF_FLAGS)) PTE_PRESENT)) in
          (EC_SUCCESS, if KiReadCr3 s =? RootPageTablePhys sp then KiInvalidatePage s virtAddr else s)
      end
  | (status, _) => (status, s)
  end
  end.

(** ** Process roots *)

Definition KiCopyImportedKernelHighHalfMappings (m : memory) (destinationPml4 sourcePml4 : Z) : memory :=
  fun x =>
    if (entry_at destinationPml4 (ENTRIES_PER_TABLE / 2) <=? x)
       && (x <? entry_at destinationPml4 ENTRIES_PER_TABLE)
    then m (sourcePml4 + (x - destinationPml4)) else m x.

Definition KeCreateProcessAddressSpace (gKernelAddressSpace : KE_KERNEL_ADDRESS_SPACE) (outSpace : bool) s
  : res (HO_STATUS * machine P * option KE_PROCESS_ADDRESS_SPACE) :=
  if negb outSpace then Ok (EC_ILLEGAL_ARGUMENT, s, None) else
  if negb (Initialized gKernelAddressSpace) then Ok (EC_INVALID_STATE, s, None) else
  let* (status, p, root) := pmm_alloc (pmm s) 1 None in
  match status, root with
  | EC_SUCCESS, Some root =>
      let m := clear_page (mem s) root in
      let m := KiCopyImportedKernelHighHalfMappings m root (RootPageTablePhys gKernelAddressSpace) in
      Ok (EC_SUCCESS, set_mem (set_pmm s p) m, Some (mkProcessSpace root true))
  | EC_SUCCESS, None => Oob
  | _, _ => Ok (status, set_pmm s p, None)
  end.

Definition first_error (firstError status : HO_STATUS) : HO_STATUS :=
  if negb (bool_decide (status = EC_SUCCESS)) && bool_decide (firstError = EC_SUCCESS)
  then status else firstError.

(** The recursion over the levels, freeing children before their table. *)
Fixpoint KiDestroyOwnedPageTableSubtree (level : nat) (tablePhys : Z) s
  : res (HO_STATUS * machine P) :=
  let* (firstError, s) :=
    match level with
    | S (S _ as child) =>
        for_loop 512 0 (fun idx '(firstError, s) =>
          let entry := mem s (entry_at tablePhys idx) in
          if negb (has entry PTE_PRESENT) then Ok (firstError, s) else
          if has entry PTE_PAGE_SIZE then Ok (firstError, s) else
          let* (childStatus, s) := KiDestroyOwnedPageTableSubtree child (Z.land entry PAGE_MASK) s in
          Ok (first_error firstError childStatus, s)) (EC_SUCCESS, s)
    | _ => Ok (EC_SUCCESS, s)
    end in
  let* (freeStatus, p) := pmm_free (pmm s) tablePhys 1 in
  Ok (first_error firstError freeStatus, set_pmm s p).

Definition KeDestroyProcessAddressSpace (space : option KE_PROCESS_ADDRESS_SPACE) s
  : res (HO_STATUS * machine P * option KE_PROCESS_ADDRESS_SPACE) :=
  match space with
  | None => Ok (EC_ILLEGAL_ARGUMENT, s, None)
  | Some sp =>
  if negb (PsInitialized sp) then Ok (EC_INVALID_STATE, s, space) else
  if KiReadCr3 s =? PsRootPageTablePhys sp then Ok (EC_INVALID_STATE, s, space) else
  let* (firstError, s) :=
    for_loop 256 0 (fun idx '(firstError, s) =>
      let entry := mem s (entry_at (PsRootPageTablePhys sp) idx) in
      if negb (has entry PTE_PRESENT) then Ok (firstError, s) else
      if has entry PTE_PAGE_SIZE then Ok (firstError, s) else
      let* (childStatus, s) := KiDestroyOwnedPageTableSubtree 3 (Z.land entry PAGE_MASK) s in
      Ok (first_error firstError childStatus, s)) (EC_SUCCESS, s) in
  let* (freeStatus, p) := pmm_free (pmm s) (PsRootPageTablePhys sp) 1 in
  Ok (first_error firstError freeStatus, set_pmm s p, Some (mkProcessSpace 0 false))
  end.

Definition KeQueryActiveRootPageTable (out : bool) s : HO_STATUS * option Z :=
  if negb out then (EC_ILLEGAL_ARGUMENT, None) else (EC_SUCCESS, Some (KiReadCr3 s)).

Definition KeSwitchAddressSpace (rootPageTablePhys : Z) s : HO_STATUS * machine P :=
  if (rootPageTablePhys =? 0) || negb (HO_IS_ALIGNED rootPageTablePhys PAGE_4KB)
  then (EC_ILLEGAL_ARGUMENT, s) else
  if KiReadCr3 s =? rootPageTablePhys then (EC_SUCCESS, s) else
  (EC_SUCCESS, mkMachine (mem s) (pmm s) rootPageTablePhys (invalidated s)).
End mutators.

(** ** Imported regions *)

Definition KeFindImportedRegion (space : option KE_KERNEL_ADDRESS_SPACE) (virtAddr : Z)
  : option KE_IMPORTED_REGION :=
  match space with
  | None => None
  | Some space =>
      if negb (Initialized space) then None else
      fold_left (fun best region =>
        if (virtAddr <? VirtualStart region) || (VirtualEndExclusive region <=? virtAddr) then best
        else match best with
             | None => Some region
             | Some b => if Size region <? Size b then Some region else best
             end) (Regions space) None
  end.

Definition KiCompareImportedRegions (left right : KE_IMPORTED_REGION) : Z :=
  if VirtualStart left <? VirtualStart right then -1 else
  if VirtualStart right <? VirtualStart left then 1 else
  if Size left <? Size right then -1 else
  if Size right <? Size left then 1 else
  if Type_ left <? Type_ right then -1 else
  if Type_ right <? Type_ left then 1 else 0.

Definition KiSortImportedRegions (regions : list KE_IMPORTED_REGION) : res (list KE_IMPORTED_REGION) :=
  insertion_sort (fun key prev => KiCompareImportedRegions key prev <? 0) regions.

(** ** The bits of an entry *)

Lemma has_bit e k : 0 <= k -> has e (2 ^ k) = Z.testbit e k.
Proof.
  intros Hk. unfold has. apply eq_true_iff_eq. rewrite negb_true_iff, Z.eqb_neq.
  rewrite <- Z.shiftl_1_l. split.
  - intros Hne. destruct (Z.testbit e k) eqn:E; [done|]. exfalso. apply Hne.
    apply Z.bits_inj'. intros i Hi. rewrite Z.land_spec, Z.bits_0, Z.shiftl_spec by done.
    destruct (Z.eq_dec i k) as [->|Hik]; [by rewrite E|].
    assert (Z.testbit 1 (i - k) = false) as ->.
    { destruct (Z.lt_ge_cases i k); [by apply Z.testbit_neg_r; lia|]. apply (Z.bits_above_log2 1); simpl; lia. }
    apply andb_false_r.
  - intros Hb Heq. assert (Hc : Z.testbit (Z.land e (Z.shiftl 1 k)) k = true).
    { rewrite Z.land_spec, Hb, Z.shiftl_spec, Z.sub_diag by done. done. }
    by rewrite Heq, Z.bits_0 in Hc.
Qed.

Lemma has_P e : has e PTE_PRESENT = Z.testbit e 0.
Proof. by apply has_bit. Qed.
Lemma has_U e : has e PTE_USER = Z.testbit e 2.
Proof. by apply has_bit. Qed.
Lemma has_PS e : has e PTE_PAGE_SIZE = Z.testbit e 7.
Proof. by apply has_bit. Qed.

Lemma page_mask_bit i : Z.testbit PAGE_MASK i = (12 <=? i) && (i <? 64).
Proof.
  change PAGE_MASK with (Z.shiftl (Z.ones 52) 12).
  destruct (Z.lt_ge_cases i 0) as [Hn|Hn].
  { rewrite Z.testbit_neg_r by done. symmetry. apply andb_false_iff. left. apply Z.leb_gt. lia. }
  rewrite Z.shiftl_spec by done. destruct (Z.leb_spec 12 i).
  - destruct (Z.ltb_spec i 64); [apply Z.ones_spec_low; lia | apply Z.ones_spec_high; lia].
  - apply Z.testbit_neg_r. lia.
Qed.

Lemma phys_mask_bit i : Z.testbit KE_PT_PHYS_ADDR_MASK i = (12 <=? i) && (i <? 52).
Proof.
  change KE_PT_PHYS_ADDR_MASK with (Z.shiftl (Z.ones 40) 12).
  destruct (Z.lt_ge_cases i 0) as [Hn|Hn].
  { rewrite Z.testbit_neg_r by done. symmetry. apply andb_false_iff. left. apply Z.leb_gt. lia. }
  rewrite Z.shiftl_spec by done. destruct (Z.leb_spec 12 i).
  - destruct (Z.ltb_spec i 52); [apply Z.ones_spec_low; lia | apply Z.ones_spec_high; lia].
  - apply Z.testbit_neg_r. lia.
Qed.

(** A page frame: a page-aligned physical address of at most 52 bits. *)
Definition frame (a : Z) : Prop := a mod PAGE_4KB = 0 /\ 0 <= a < 2 ^ 52.

Lemma frame_bit a i : frame a -> 0 <= i -> Z.testbit a i = (12 <=? i) && (i <? 52) && Z.testbit a i.
Proof.
  intros [Hal Hr] Hi. destruct (Z.leb_spec 12 i) as [|Hlt]; simpl.
  - destruct (Z.ltb_spec i 52); [done|]. destruct (Z.eq_dec a 0) as [->|]; [apply Z.bits_0|].
    apply Z.bits_above_log2; [lia|]. apply Z.log2_lt_pow2; [lia|].
    pose proof (Z.pow_le_mono_r 2 52 i). lia.
  - replace a with (Z.shiftl (a / 2 ^ 12) 12)
      by (rewrite Z.shiftl_mul_pow2 by lia; unfold PAGE_4KB in *; change (2 ^ 12) with 4096; div_lia).
    rewrite Z.shiftl_spec by done. apply Z.testbit_neg_r. lia.
Qed.

Lemma flags_bit f i : 0 <= f < 4096 -> 12 <= i -> Z.testbit f i = false.
Proof.
  intros Hf Hi. destruct (Z.eq_dec f 0) as [->|]; [apply Z.bits_0|].
  apply Z.bits_above_log2; [lia|]. apply Z.log2_lt_pow2; [lia|].
  pose proof (Z.pow_le_mono_r 2 12 i). change (2 ^ 12) with 4096 in *. lia.
Qed.

Lemma frame_flags_mask a f :
  frame a -> 0 <= f < 4096 -> Z.land (Z.lor a f) PAGE_MASK = a.
Proof.
  intros Ha Hf. apply Z.bits_inj'. intros i Hi.
  rewrite Z.land_spec, Z.lor_spec, page_mask_bit, (frame_bit a i) by done.
  destruct (Z.leb_spec 12 i); simpl; [|by rewrite andb_false_r].
  rewrite (flags_bit f) by done. rewrite orb_false_r.
  destruct (Z.ltb_spec i 52), (Z.ltb_spec i 64); simpl; rewrite ?andb_true_r; done || lia.
Qed.

Lemma frame_flags_bit a f k : frame a -> 0 <= k < 12 -> Z.testbit (Z.lor a f) k = Z.testbit f k.
Proof.
  intros Ha Hk. rewrite Z.lor_spec, (frame_bit a k) by (done || lia).
  by rewrite (proj2 (Z.leb_gt 12 k)) by lia.
Qed.

(** The address field the C code uses and the one the processor uses agree
    when the former is a page frame. *)
Lemma page_mask_phys e : frame (Z.land e PAGE_MASK) -> Z.land e KE_PT_PHYS_ADDR_MASK = Z.land e PAGE_MASK.
Proof.
  intros Hf. apply Z.bits_inj'. intros i Hi.
  rewrite (frame_bit _ i Hf Hi), !Z.land_spec, page_mask_bit, phys_mask_bit.
  destruct (12 <=? i), (Z.ltb_spec i 52), (Z.ltb_spec i 64), (Z.testbit e i); simpl; done || lia.
Qed.

Lemma user_page_mask e : Z.land (Z.lor e PTE_USER) PAGE_MASK = Z.land e PAGE_MASK.
Proof. by rewrite Z.land_lor_distr_l, Z.lor_0_r. Qed.

Lemma user_bit e k : k <> 2 -> Z.testbit (Z.lor e PTE_USER) k = Z.testbit e k.
Proof.
  intros Hk. rewrite Z.lor_spec. unfold PTE_USER. rewrite Z.pow2_bits_false by lia. apply orb_false_r.
Qed.

(** Dropping the user bit that was added gives the entry back. *)
Lemma user_undo e : is_u64 e -> has e PTE_USER = false ->
  Z.land (Z.lor e PTE_USER) (not64 PTE_USER) = e /\ Z.land e (not64 PTE_USER) = e.
Proof.
  intros He Hu. rewrite has_U in Hu.
  assert (Hm : forall i, 0 <= i -> Z.testbit (not64 PTE_USER) i = (i <? 64) && negb (i =? 2)).
  { intros i Hi. unfold not64, u64, PTE_USER. destruct (Z.ltb_spec i 64).
    - rewrite Z.mod_pow2_bits_low, Z.lnot_spec by lia. simpl. f_equal.
      destruct (Z.eqb_spec i 2) as [->|]; [done|]. by apply Z.pow2_bits_false; lia.
    - by rewrite Z.mod_pow2_bits_high by lia. }
  assert (Hhigh : forall i, 64 <= i -> Z.testbit e i = false).
  { intros i Hi. destruct (Z.eq_dec e 0) as [->|]; [apply Z.bits_0|].
    unfold is_u64 in He. apply Z.bits_above_log2; [lia|]. apply Z.log2_lt_pow2; [lia|].
    pose proof (Z.pow_le_mono_r 2 64 i). lia. }
  split; apply Z.bits_inj'; intros i Hi; rewrite Z.land_spec, Hm by done;
    destruct (Z.eqb_spec i 2) as [->|Hi2]; rewrite ?user_bit by done; rewrite ?Hu; simpl;
    rewrite ?andb_false_r, ?andb_true_r; try done;
    (destruct (Z.ltb_spec i 64); [by rewrite andb_true_r | by rewrite Hhigh]).
Qed.

(** ** The processor's translation *)

(** Bytes covered by an entry of a level-[l] table. *)
Definition span (l : nat) : Z := 2 ^ (12 + 9 * (Z.of_nat l - 1)).

Definition vindex (l : nat) (va : Z) : Z := (va / span l) mod 512.

(** The part of the address already consumed on reaching a level-[l] table. *)
Definition vprefix (l : nat) (va : Z) : Z := (va mod 2 ^ 48) / span (S l).

(** The four-level walk of the architecture: entries at levels 3 and 2 may be
    large leaves, the address of a child is bits 51:12, and the page is
    reachable from ring 3 when every entry on the way is. *)
Fixpoint hw_walk (m : memory) (l : nat) (t va : Z) (user : bool) : option KE_PT_MAPPING :=
  match l with
  | O => None
  | S l' =>
      let e := m (entry_at t (vindex l va)) in
      if negb (has e PTE_PRESENT) then None else
      let user := user && has e PTE_USER in
      if bool_decide (l = 1%nat) || (bool_decide (l = 2 \/ l = 3)%nat && has e PTE_PAGE_SIZE)
      then Some (mkMapping true (1 <? Z.of_nat l) user (Z.of_nat l) (span l)
                   (Z.land e KE_PT_PHYS_ADDR_MASK / span l * span l + va mod span l) e)
      else hw_walk m l' (Z.land e KE_PT_PHYS_ADDR_MASK) va user
  end.

Definition translate (m : memory) (root va : Z) : option KE_PT_MAPPING := hw_walk m 4 root va true.

Lemma span_pos l : 0 < span (S l).
Proof. unfold span. apply Z.pow_pos_nonneg; lia. Qed.

Lemma span_S l : span (S (S l)) = 512 * span (S l).
Proof. unfold span. rewrite <- (Z.pow_add_r 2 9) by lia. f_equal. lia. Qed.

Lemma prefix_step l va : (l < 4)%nat -> vprefix l va = vprefix (S l) va * 512 + vindex (S l) va.
Proof.
  intros Hl. unfold vprefix, vindex. rewrite span_S. pose proof (span_pos l).
  assert (Hd : exists c, 2 ^ 48 = span (S l) * (512 * c) /\ 0 < c).
  { exists (2 ^ (27 - 9 * Z.of_nat l)). change 512 with (2 ^ 9). unfold span.
    rewrite <- !Z.pow_add_r by lia. split; [f_equal; lia | apply Z.pow_pos_nonneg; lia]. }
  destruct Hd as (c & Hc & Hc0). rewrite Hc, Z.rem_mul_r by lia. set (sp := span (S l)) in *.
  rewrite (Z.mul_comm 512 sp), <- Z.div_div by lia.
  replace ((va mod sp + sp * (va / sp mod (512 * c))) / sp) with (va / sp mod (512 * c)).
  2: { pose proof (Z.mod_pos_bound va sp ltac:(lia)).
       rewrite (Z.mul_comm sp (_ mod _)), Z.div_add, (Z.div_small (va mod sp)) by lia. lia. }
  set (x := va / sp) in *.
  replace (x mod 512) with ((x mod (512 * c)) mod 512).
  2: { rewrite Z.rem_mul_r, (Z.mul_comm 512 (_ mod c)), Z.mod_add, Z.mod_mod by lia. done. }
  pose proof (Z.div_mod (x mod (512 * c)) 512). lia.
Qed.

Lemma prefix_top va : vprefix 4 va = 0.
Proof. unfold vprefix. apply Z.div_small. change (span 5) with (2 ^ 48). apply Z.mod_pos_bound. lia. Qed.

Lemma vindex_range l va : 0 <= vindex l va < 512.
Proof. apply Z.mod_pos_bound. lia. Qed.

Lemma index_eq (k : Z) va : 0 <= k -> 0 <= va ->
  Z.land (Z.shiftr va k) (ENTRIES_PER_TABLE - 1) = va / 2 ^ k mod 512.
Proof.
  intros Hk Hv. change (ENTRIES_PER_TABLE - 1) with (Z.ones 9).
  by rewrite Z.land_ones, Z.shiftr_div_pow2 by lia.
Qed.

(** ** The tree of tables under a root

    [G] names every table of the tree with its level and the address prefix it
    translates. *)
Abbreviation tables := (gmap Z (nat * Z)).

Record tree (m : memory) (root : Z) (G : tables) : Prop := mkTree {
  tr_root : G !! root = Some (4%nat, 0);
  tr_label t l p : G !! t = Some (l, p) -> frame t /\ (1 <= l <= 4)%nat;
  tr_word t x i : G !! t = Some x -> 0 <= i < 512 -> is_u64 (m (entry_at t i));
  tr_child t l p i : G !! t = Some (S (S l), p) -> 0 <= i < 512 ->
    has (m (entry_at t i)) PTE_PRESENT = true ->
    (has (m (entry_at t i)) PTE_PAGE_SIZE = true /\ (l < 2)%nat) \/
    (has (m (entry_at t i)) PTE_PAGE_SIZE = false /\
     G !! Z.land (m (entry_at t i)) PAGE_MASK = Some (S l, p * 512 + i));
  tr_parent t l p : G !! t = Some (l, p) -> (l < 4)%nat ->
    exists t' p' i, G !! t' = Some (S l, p') /\ 0 <= i < 512 /\ p = p' * 512 + i /\
      has (m (entry_at t' i)) PTE_PRESENT = true /\
      has (m (entry_at t' i)) PTE_PAGE_SIZE = false /\
      Z.land (m (entry_at t' i)) PAGE_MASK = t;
  tr_unique t1 t2 x : G !! t1 = Some x -> G !! t2 = Some x -> t1 = t2
}.

(** Entries of different tables, or of different indices, are different words. *)
Lemma entry_inj t1 t2 i1 i2 :
  frame t1 -> frame t2 -> 0 <= i1 < 512 -> 0 <= i2 < 512 ->
  entry_at t1 i1 = entry_at t2 i2 -> t1 = t2 /\ i1 = i2.
Proof. unfold frame, entry_at, PAGE_4KB. intros [H1 _] [H2 _] Hi1 Hi2 E. div_lia. Qed.

Lemma tree_child_frame m root G t l p i :
  tree m root G -> G !! t = Some (S (S l), p) -> 0 <= i < 512 ->
  has (m (entry_at t i)) PTE_PRESENT = true -> has (m (entry_at t i)) PTE_PAGE_SIZE = false ->
  Z.land (m (entry_at t i)) KE_PT_PHYS_ADDR_MASK = Z.land (m (entry_at t i)) PAGE_MASK /\
  G !! Z.land (m (entry_at t i)) PAGE_MASK = Some (S l, p * 512 + i).
Proof.
  intros T Ht Hi Hp Hs. destruct (tr_child _ _ _ T t l p i Ht Hi Hp) as [[Hs' _]|[_ Hc]]; [congruence|].
  split; [|done]. apply page_mask_phys. by eapply tr_label.
Qed.

(** ** [KePtQueryPage] is the processor's translation *)

Definition space_ok (space : KE_KERNEL_ADDRESS_SPACE) (m : memory) (G : tables) : Prop :=
  Initialized space = true /\ tree m (RootPageTablePhys space) G.

Lemma leaf_phys l e va :
  (l = 2 \/ l = 3)%nat -> is_u64 e -> is_u64 va ->
  u64 (KiLeafPhysBase e (span l) + Z.land va (span l - 1)) =
  Z.land e KE_PT_PHYS_ADDR_MASK / span l * span l + va mod span l /\
  Z.land va (not64 (span l - 1)) = va / span l * span l.
Proof.
  intros Hl He Hv. unfold KiLeafPhysBase.
  set (k := 12 + 9 * (Z.of_nat l - 1)). assert (Hk : 0 <= k <= 30) by (unfold k; lia).
  change (span l) with (2 ^ k). set (b := Z.land e KE_PT_PHYS_ADDR_MASK).
  assert (Hb : 0 <= b < 2 ^ 52).
  { split; [apply Z.land_nonneg; right; done|].
    destruct (Z.eq_dec b 0) as [->|]; [done|]. apply Z.log2_lt_cancel. rewrite Z.log2_pow2 by lia.
    assert (Hle : Z.log2 b <= Z.min (Z.log2 e) (Z.log2 KE_PT_PHYS_ADDR_MASK))
      by (apply Z.log2_land; [word_lia | done]).
    change (Z.log2 KE_PT_PHYS_ADDR_MASK) with 51 in Hle. lia. }
  assert (Hpow : 0 < 2 ^ k) by (apply Z.pow_pos_nonneg; lia).
  assert (Hpow2 : 2 ^ k <= 2 ^ 30) by (apply Z.pow_le_mono_r; lia).
  rewrite not64_ones, !land_align_mask by (lia || word_lia).
  replace (2 ^ k - 1) with (Z.ones k) by (rewrite Z.ones_equiv; lia). rewrite Z.land_ones by lia.
  pose proof (Z.div_mod b (2 ^ k) ltac:(lia)). pose proof (Z.mod_pos_bound b (2 ^ k) Hpow).
  pose proof (Z.div_mod va (2 ^ k) ltac:(lia)). pose proof (Z.mod_pos_bound va (2 ^ k) Hpow).
  pose proof (Z.mod_le b (2 ^ k) ltac:(lia) Hpow).
  clearbody b k. set (bm := b mod 2 ^ k) in *. set (vm := va mod 2 ^ k) in *. set (w := 2 ^ k) in *. clearbody bm vm w.
  rewrite u64_small; [split; lia|]. unfold is_u64. lia.
Qed.

Lemma index_levels va : 0 <= va ->
  PML4_INDEX va = vindex 4 va /\ PDPT_INDEX va = vindex 3 va /\
  PD_INDEX va = vindex 2 va /\ PT_INDEX va = vindex 1 va.
Proof.
  intros Hv. unfold PML4_INDEX, PDPT_INDEX, PD_INDEX, PT_INDEX. rewrite !index_eq by lia. done.
Qed.

Lemma user_reachable m e : has (m e) PTE_PRESENT = true ->
  KiIsUserReachableEntry m (Some e) = has (m e) PTE_USER.
Proof.
  intros Hp. unfold KiIsUserReachableEntry. rewrite has_P in Hp. rewrite has_U.
  apply eq_true_iff_eq. rewrite Z.eqb_eq. change (Z.lor PTE_PRESENT PTE_USER) with 5. split.
  - intros E. assert (Hb : Z.testbit (Z.land (m e) 5) 2 = true) by by rewrite E.
    rewrite Z.land_spec in Hb. apply andb_true_iff in Hb. apply Hb.
  - intros Hu. apply Z.bits_inj'. intros i Hi. rewrite Z.land_spec.
    destruct (Z.eq_dec i 0) as [->|]; [by rewrite Hp|]. destruct (Z.eq_dec i 2) as [->|]; [by rewrite Hu|].
    assert (Z.testbit 5 i = false) as ->; [|apply andb_false_r].
    destruct (Z.eq_dec i 1) as [->|]; [done|]. apply (Z.bits_above_log2 5); simpl; lia.
Qed.

(** What a finished walk says about the translation [o] of the address. *)
Definition walk_agrees (m : memory) (G : tables) (va : Z) (w : KE_PT_WALK) (o : option KE_PT_MAPPING) : Prop :=
  match o with
  | None => LeafEntry w = None
  | Some mp =>
      exists leaf, LeafEntry w = Some leaf /\ m leaf = LeafValue w /\
        mp = mkMapping true (1 <? WalkLevel w) (KiIsWalkUserAccessible m w) (WalkLevel w)
               (WalkPageSize w) (LeafPhysBase w) (LeafValue w) /\
        (WalkLevel w = 1 -> exists t, G !! t = Some (1%nat, vprefix 1 va) /\ leaf = entry_at t (vindex 1 va))
  end.

Lemma walk_translate space m G va :
  space_ok space m G -> is_u64 va -> va mod PAGE_4KB = 0 ->
  exists w, KiWalkImportedRoot (Some space) m va = (EC_SUCCESS, Some w) /\
    walk_agrees m G va w (translate m (RootPageTablePhys space) va).
Proof.
  intros [Hi T] Hv Hal. destruct (index_levels va) as (I4 & I3 & I2 & I1); [word_lia|].
  pose proof (tr_root _ _ _ T) as R4. rewrite <- (prefix_top va) in R4.
  unfold KiWalkImportedRoot, translate. rewrite Hi, is_aligned_4k, Hal, I4, I3, I2, I1. simpl negb. cbn iota.
  set (t4 := RootPageTablePhys space) in *. cbn [hw_walk]. rewrite !bool_decide_eq_false_2 by lia.
  set (e4 := m (entry_at t4 (vindex 4 va))).
  destruct (has e4 PTE_PRESENT) eqn:P4; simpl; [|by eexists].
  destruct (tr_child _ _ _ T _ _ _ _ R4 (vindex_range 4 va) P4) as [[_ ?]|[S4 R3]]; [lia|].
  destruct (tree_child_frame _ _ _ _ _ _ _ T R4 (vindex_range 4 va) P4 S4) as [A4 _].
  fold e4 in S4, R3, A4. rewrite A4. rewrite <- prefix_step in R3 by lia.
  set (t3 := Z.land e4 PAGE_MASK) in *. set (e3 := m (entry_at t3 (vindex 3 va))).
  destruct (has e3 PTE_PRESENT) eqn:P3; simpl; [|by eexists].
  assert (W3 : is_u64 e3) by (eapply tr_word; [exact T | exact R3 | apply vindex_range]).
  destruct (has e3 PTE_PAGE_SIZE) eqn:S3; simpl.
  { eexists. split; [done|]. simpl. eexists. split_and!; [done | done | | done].
    destruct (leaf_phys 3 e3 va) as [L1 _]; [lia | done | done |].
    change PAGE_1GB with (span 3). rewrite L1.
    unfold KiIsWalkUserAccessible. cbn [LeafEntry Pml4Entry PdptEntry WalkLevel].
    rewrite !user_reachable by done. fold e4 e3.
    by destruct (has e4 PTE_USER), (has e3 PTE_USER). }
  destruct (tree_child_frame _ _ _ _ _ _ _ T R3 (vindex_range 3 va) P3 S3) as [A3 R2].
  fold e3 in R2, A3. rewrite A3. rewrite <- prefix_step in R2 by lia.
  set (t2 := Z.land e3 PAGE_MASK) in *. set (e2 := m (entry_at t2 (vindex 2 va))).
  destruct (has e2 PTE_PRESENT) eqn:P2; simpl; [|by eexists].
  assert (W2 : is_u64 e2) by (eapply tr_word; [exact T | exact R2 | apply vindex_range]).
  destruct (has e2 PTE_PAGE_SIZE) eqn:S2; simpl.
  { eexists. split; [done|]. simpl. eexists. split_and!; [done | done | | done].
    destruct (leaf_phys 2 e2 va) as [L1 _]; [lia | done | done |].
    change PAGE_2MB with (span 2). rewrite L1.
    unfold KiIsWalkUserAccessible. cbn [LeafEntry Pml4Entry PdptEntry PdEntry WalkLevel].
    rewrite !user_reachable by done. fold e4 e3 e2.
    by destruct (has e4 PTE_USER), (has e3 PTE_USER), (has e2 PTE_USER). }
  destruct (tree_child_frame _ _ _ _ _ _ _ T R2 (vindex_range 2 va) P2 S2) as [A2 R1].
  fold e2 in R1, A2. rewrite A2. rewrite <- prefix_step in R1 by lia.
  set (t1 := Z.land e2 PAGE_MASK) in *. set (e1 := m (entry_at t1 (vindex 1 va))).
  destruct (has e1 PTE_PRESENT) eqn:P1; simpl; [|by eexists].
  assert (W1 : is_u64 e1) by (eapply tr_word; [exact T | exact R1 | apply vindex_range]).
  eexists. split; [done|]. simpl. eexists. split_and!; [done | done | | by eauto].
  unfold KiIsWalkUserAccessible. cbn [LeafEntry Pml4Entry PdptEntry PdEntry PtEntry WalkLevel].
  rewrite !user_reachable by done. fold e4 e3 e2 e1.
  assert (Z.land e1 KE_PT_PHYS_ADDR_MASK / span 1 * span 1 + va mod span 1 = Z.land e1 KE_PT_PHYS_ADDR_MASK) as ->.
  { change (span 1) with PAGE_4KB. rewrite Hal, Z.add_0_r.
    assert (Hm : Z.land e1 KE_PT_PHYS_ADDR_MASK mod PAGE_4KB = 0).
    { change PAGE_4KB with (2 ^ 12). rewrite <- Z.land_ones, <- Z.land_assoc by lia. by rewrite Z.land_0_r. }
    unfold PAGE_4KB in *. div_lia. }
  by destruct (has e4 PTE_USER), (has e3 PTE_USER), (has e2 PTE_USER), (has e1 PTE_USER).
Qed.

Lemma query_page_run space m G va :
  space_ok space m G -> is_u64 va -> va mod PAGE_4KB = 0 ->
  KePtQueryPage (Some space) m va true =
    (EC_SUCCESS, Some (default no_mapping (translate m (RootPageTablePhys space) va))).
Proof.
  intros Hs Hv Hal. destruct (walk_translate space m G va Hs Hv Hal) as (w & E & Hw).
  unfold KePtQueryPage. rewrite bool_decide_eq_true_2, E by eauto. simpl.
  destruct (translate m (RootPageTablePhys space) va) as [mp|]; simpl in Hw; [|by rewrite Hw].
  by destruct Hw as (leaf & -> & _ & -> & _).
Qed.

(** ** Changes that keep translations *)

(** How one entry may change: a hole stays a hole, the value stays, or (when
    [strict] is false, above the leaf level) the user bit is added. *)
Definition entry_kept (strict : bool) (l : nat) (e e' : Z) : Prop :=
  (has e PTE_PRESENT = false /\ has e' PTE_PRESENT = false) \/ e' = e \/
  (strict = false /\ (1 < l)%nat /\ has e PTE_PRESENT = true /\ has e PTE_PAGE_SIZE = false /\
   e' = Z.lor e PTE_USER).

Lemma kept_fields strict l e e' : entry_kept strict l e e' ->
  has e' PTE_PRESENT = has e PTE_PRESENT /\
  (has e PTE_PRESENT = true ->
   has e' PTE_PAGE_SIZE = has e PTE_PAGE_SIZE /\
   Z.land e' PAGE_MASK = Z.land e PAGE_MASK /\
   (has e PTE_USER = true -> has e' PTE_USER = true) /\
   (strict = true \/ has e PTE_PAGE_SIZE = true \/ l = 1%nat -> e' = e)).
Proof.
  intros [[H1 H2]|[->|(-> & Hl & H1 & H2 & ->)]].
  - split; congruence.
  - repeat split; auto.
  - rewrite !has_P, !has_PS, !has_U, user_page_mask, !user_bit in * by done.
    split; [done|]. intros _. repeat split; try done.
    + intros Hu. by rewrite Z.lor_spec, Hu.
    + intros [?|[?|?]]; [done|congruence|lia].
Qed.

(** Equal translations, up to a user accessibility that may have been gained
    when [strict] is false. *)
Definition same_mapping (strict : bool) (o o' : option KE_PT_MAPPING) : Prop :=
  match o, o' with
  | None, None => True
  | Some a, Some b =>
      b = mkMapping (Present a) (LargeLeaf a) (UserAccessible b) (Level a) (PageSize a)
            (PhysicalBase a) (Attributes a) /\
      (UserAccessible a = true -> UserAccessible b = true) /\ (strict = true -> b = a)
  | _, _ => False
  end.

Lemma same_mapping_strict o o' : same_mapping true o o' -> o' = o.
Proof. destruct o, o'; simpl; try done. intros (_ & _ & H). by rewrite H. Qed.

Lemma same_mapping_refl strict o : same_mapping strict o o.
Proof. destruct o as [[]|]; simpl; done. Qed.

(** The tables the walk of [va] visits are those labelled with its prefixes. *)
Definition on_path (G : tables) (va : Z) (t : Z) (l : nat) : Prop := G !! t = Some (l, vprefix l va).

Lemma walk_kept strict m m' root G va l t u u' :
  tree m root G -> on_path G va t l -> (u = true -> u' = true) -> (strict = true -> u' = u) ->
  (forall t' l', on_path G va t' l' -> (1 <= l' <= l)%nat ->
     entry_kept strict l' (m (entry_at t' (vindex l' va))) (m' (entry_at t' (vindex l' va)))) ->
  same_mapping strict (hw_walk m l t va u) (hw_walk m' l t va u').
Proof.
  intros T. revert t u u'. induction l as [|l IH]; intros t u u' Ht Hu Hus Hk; [done|].
  assert (Hke := Hk t (S l) Ht ltac:(lia)).
  destruct (kept_fields _ _ _ _ Hke) as [HP Hf]. cbn [hw_walk]. rewrite HP.
  destruct (has (m (entry_at t (vindex (S l) va))) PTE_PRESENT) eqn:P; simpl; [|done].
  destruct (Hf eq_refl) as (HS & HM & HU & Heq). rewrite HS.
  set (e := m (entry_at t (vindex (S l) va))) in *. set (e' := m' (entry_at t (vindex (S l) va))) in *.
  destruct (bool_decide (S l = 1%nat) || bool_decide (S l = 2 \/ S l = 3)%nat && has e PTE_PAGE_SIZE) eqn:L.
  - assert (e' = e) as ->.
    { apply Heq. apply orb_true_iff in L as [L|L]; [right; right; by apply bool_decide_eq_true_1 in L|].
      right. left. apply andb_true_iff in L. apply L. }
    simpl. split; [done|]. split.
    + intros [H1 H2]%andb_true_iff. by rewrite Hu, H2.
    + intros Hs. by rewrite Hus.
  - apply orb_false_iff in L as [L1 L2]. apply bool_decide_eq_false_1 in L1.
    destruct l as [|l']; [done|].
    destruct (tr_child _ _ _ T _ _ _ _ Ht (vindex_range _ va) P) as [[HPS Hlt]|[HPS Hc]].
    { exfalso. fold e in HPS. rewrite HPS, andb_true_r in L2. apply bool_decide_eq_false_1 in L2. lia. }
    destruct (tree_child_frame _ _ _ _ _ _ _ T Ht (vindex_range _ va) P HPS) as [Ha _].
    assert (Hlev : (S l' < 4)%nat) by (pose proof (proj2 (tr_label _ _ _ T _ _ _ Ht)); lia).
    rewrite <- prefix_step in Hc by done. fold e in Ha, Hc.
    assert (Ha' : Z.land e' KE_PT_PHYS_ADDR_MASK = Z.land e PAGE_MASK).
    { rewrite page_mask_phys; rewrite HM; [done|]. by eapply tr_label. }
    rewrite Ha, Ha'. apply IH; [done | | |].
    + intros [H1 H2]%andb_true_iff. rewrite Hu, HU by done. done.
    + intros Hs. rewrite Hus by done. f_equal.
      destruct Hke as [[Hn _]|[->|(? & _)]]; [|done|congruence]. fold e in Hn. congruence.
    + intros t' l'' Hp Hl. apply Hk; [done|lia].
Qed.

(** Memories that agree in that sense on every table translate alike, and the
    tables still form the same tree. *)
Definition tables_kept (strict : bool) (m m' : memory) (G : tables) : Prop :=
  forall t l p i, G !! t = Some (l, p) -> 0 <= i < 512 ->
    entry_kept strict l (m (entry_at t i)) (m' (entry_at t i)) /\ is_u64 (m' (entry_at t i)).

Lemma kept_translate strict m m' root G va :
  tree m root G -> tables_kept strict m m' G ->
  same_mapping strict (translate m root va) (translate m' root va).
Proof.
  intros T Hk. apply (walk_kept strict m m' root G); try done.
  - unfold on_path. rewrite prefix_top. apply T.
  - intros t' l' Hp Hl. eapply Hk; [exact Hp | apply vindex_range].
Qed.

Lemma kept_tree strict m m' root G : tree m root G -> tables_kept strict m m' G -> tree m' root G.
Proof.
  intros T Hk. split; try apply T.
  - intros t [l p] i Ht Hi. by eapply Hk.
  - intros t l p i Ht Hi HP. destruct (Hk t _ _ i Ht Hi) as [Hke _].
    destruct (kept_fields _ _ _ _ Hke) as [E1 E2]. rewrite HP in E1. destruct (E2 (eq_sym E1)) as (-> & -> & _).
    by apply (tr_child _ _ _ T t l p i).
  - intros t l p Ht Hl. destruct (tr_parent _ _ _ T t l p Ht Hl) as (t' & p' & i & Ht' & Hi & Hp & HP & HS & HM).
    destruct (Hk t' _ _ i Ht' Hi) as [Hke _]. destruct (kept_fields _ _ _ _ Hke) as [E1 E2].
    destruct (E2 HP) as (E3 & E4 & _). exists t', p', i. rewrite E1, E3, E4. by repeat split; try apply Hi.
Qed.

(** ** Reaching a table *)

(** The entries above level [l] on the way to [va] all carry the user bit. *)
Definition user_path (m : memory) (G : tables) (va : Z) (l : nat) : Prop :=
  forall t' l', (l < l')%nat -> on_path G va t' l' -> has (m (entry_at t' (vindex l' va))) PTE_USER = true.

(** The walk of [va] passes through every table labelled with its prefixes; two
    memories with the same entries above it reach it in the same way. *)
Lemma walks_reach m m' root G va l t :
  tree m root G -> on_path G va t l ->
  (forall t' l', (l < l')%nat -> on_path G va t' l' ->
     m' (entry_at t' (vindex l' va)) = m (entry_at t' (vindex l' va))) ->
  exists u, (user_path m G va l -> u = true) /\
    translate m root va = hw_walk m l t va u /\ translate m' root va = hw_walk m' l t va u.
Proof.
  intros T Ht Hsame. assert (Hl : (1 <= l <= 4)%nat) by by eapply tr_label.
  remember (4 - l)%nat as d eqn:Hd. revert l t Ht Hl Hd Hsame.
  induction d as [|d IH]; intros l t Ht Hl Hd Hsame.
  { assert (l = 4%nat) as -> by lia. unfold on_path in Ht. rewrite prefix_top in Ht.
    assert (t = root) as -> by (eapply tr_unique; [exact T | exact Ht | apply T]). by exists true. }
  destruct (tr_parent _ _ _ T t l _ Ht) as (t' & p' & i & Ht' & Hi & Hp & HP & HS & HM); [lia|].
  rewrite (prefix_step l va) in Hp by lia. pose proof (vindex_range (S l) va).
  assert (p' = vprefix (S l) va) as -> by lia. assert (i = vindex (S l) va) as -> by lia.
  destruct (IH (S l) t' Ht') as (u & Hu & E & E'); [lia..| |].
  { intros t'' l'' Hl'' Hp''. apply Hsame; [lia|done]. }
  exists (u && has (m (entry_at t' (vindex (S l) va))) PTE_USER).
  assert (Hphys : Z.land (m (entry_at t' (vindex (S l) va))) KE_PT_PHYS_ADDR_MASK = t).
  { rewrite page_mask_phys; rewrite HM; [done|]. by eapply tr_label. }
  split; [|split].
  - intros Hup. rewrite Hu, (Hup t' (S l)); [done | lia | done |].
    intros t'' l'' Hl'' Hp''. apply Hup; [lia|done].
  - rewrite E. cbn [hw_walk]. rewrite HP, HS, andb_false_r, orb_false_r. simpl negb. cbn iota.
    by rewrite bool_decide_eq_false_2, Hphys by lia.
  - rewrite E'. cbn [hw_walk]. rewrite (Hsame t' (S l)) by (done || lia).
    rewrite HP, HS, andb_false_r, orb_false_r. simpl negb. cbn iota.
    by rewrite bool_decide_eq_false_2, Hphys by lia.
Qed.

Lemma walk_reaches m root G va l t :
  tree m root G -> on_path G va t l ->
  exists u, (user_path m G va l -> u = true) /\ translate m root va = hw_walk m l t va u.
Proof. intros T Ht. destruct (walks_reach m m root G va l t T Ht) as (u & Hu & E & _); eauto. Qed.

(** ** Single writes to a tree *)

Lemma lor_u64 a b : is_u64 a -> is_u64 b -> is_u64 (Z.lor a b).
Proof.
  unfold is_u64. intros Ha Hb. split; [apply Z.lor_nonneg; lia|].
  destruct (Z.eq_dec (Z.lor a b) 0) as [->|Hne]; [lia|].
  assert (H0 : 0 <= Z.lor a b) by (apply Z.lor_nonneg; lia).
  apply Z.log2_lt_pow2; [lia|]. rewrite Z.log2_lor by lia.
  assert (Hlog : forall x, 0 <= x < 2 ^ 64 -> Z.log2 x < 64).
  { intros x Hx. destruct (Z.eq_dec x 0) as [->|]; [done|]. apply Z.log2_lt_pow2; lia. }
  pose proof (Hlog a Ha). pose proof (Hlog b Hb). lia.
Qed.

Lemma store_eq m a v : store m a v a = v.
Proof. unfold store. by rewrite Z.eqb_refl. Qed.
Lemma store_ne m a v x : x <> a -> store m a v x = m x.
Proof. intros H. unfold store. by rewrite (proj2 (Z.eqb_neq x a) H). Qed.

(** Entries of other tables survive clearing a page. *)
Lemma clear_other m tp t i : frame tp -> frame t -> t <> tp -> 0 <= i < 512 ->
  clear_page m tp (entry_at t i) = m (entry_at t i).
Proof.
  intros [H1 _] [H2 _] Hne Hi. unfold clear_page, entry_at, PAGE_4KB in *.
  destruct (Z.leb_spec tp (t + 8 * i)), (Z.ltb_spec (t + 8 * i) (tp + 4096)); simpl; try done. div_lia.
Qed.
Lemma clear_same m tp i : 0 <= i < 512 -> clear_page m tp (entry_at tp i) = 0.
Proof.
  intros Hi. unfold clear_page, entry_at, PAGE_4KB.
  by rewrite (proj2 (Z.leb_le _ _)), (proj2 (Z.ltb_lt _ _)) by lia.
Qed.

Definition child_entry (tp attrs : Z) : Z := Z.lor tp (KiIntermediateEntryFlagsForLeaf attrs).

Lemma child_entry_fields tp attrs : frame tp ->
  has (child_entry tp attrs) PTE_PRESENT = true /\ has (child_entry tp attrs) PTE_PAGE_SIZE = false /\
  has (child_entry tp attrs) PTE_USER = has attrs PTE_USER /\
  Z.land (child_entry tp attrs) PAGE_MASK = tp /\ is_u64 (child_entry tp attrs).
Proof.
  intros Hf. unfold child_entry, KiIntermediateEntryFlagsForLeaf.
  assert (Hw : is_u64 tp) by (destruct Hf; word_lia).
  rewrite has_P, has_PS, !has_U.
  destruct (Z.testbit attrs 2);
    rewrite (frame_flags_bit tp _ 0), (frame_flags_bit tp _ 7), (frame_flags_bit tp _ 2) by (done || lia);
    (split_and!; [done..| by apply frame_flags_mask | apply lor_u64; [done | by vm_compute]]).
Qed.

(** Hanging an empty table under a hole. *)
Lemma hang_table m root G t l p i tp attrs :
  tree m root G -> G !! t = Some (S (S l), p) -> 0 <= i < 512 ->
  has (m (entry_at t i)) PTE_PRESENT = false -> frame tp -> G !! tp = None ->
  let m' := store (clear_page m tp) (entry_at t i) (child_entry tp attrs) in
  tree m' root (<[tp := (S l, p * 512 + i)]> G) /\
  (forall t2 x i2, G !! t2 = Some x -> 0 <= i2 < 512 -> entry_at t2 i2 <> entry_at t i ->
     m' (entry_at t2 i2) = m (entry_at t2 i2)) /\
  forall va, translate m' root va = translate m root va.
Proof.
  intros T Ht Hi HP Htp Hnew m'.
  destruct (child_entry_fields tp attrs Htp) as (FP & FS & _ & FM & FW).
  assert (Hft : frame t) by by eapply tr_label.
  assert (Hold : forall t2 x i2, G !! t2 = Some x -> 0 <= i2 < 512 -> entry_at t2 i2 <> entry_at t i ->
     m' (entry_at t2 i2) = m (entry_at t2 i2)).
  { intros t2 [l2 p2] i2 H2 Hi2 Hne. unfold m'. rewrite store_ne by done.
    apply clear_other; [done | by eapply tr_label | congruence | done]. }
  assert (Hti : m' (entry_at t i) = child_entry tp attrs) by apply store_eq.
  assert (Hz : forall j, 0 <= j < 512 -> m' (entry_at tp j) = 0).
  { intros j Hj. unfold m'. rewrite store_ne; [by apply clear_same|].
    intros E. apply entry_inj in E as [-> _]; try done. congruence. }
  assert (Hfresh : forall t2, G !! t2 <> Some (S l, p * 512 + i)).
  { intros t2 H2. destruct (tr_label _ _ _ T _ _ _ Ht) as [_ Hl].
    destruct (tr_parent _ _ _ T _ _ _ H2) as (t' & p' & i' & Ht' & Hi' & Hp & HP' & _); [lia|].
    assert (p' = p /\ i' = i) as [-> ->] by lia.
    rewrite (tr_unique _ _ _ T t' t _ Ht' Ht) in HP'. congruence. }
  assert (T' : tree m' root (<[tp := (S l, p * 512 + i)]> G)).
  { split.
    - rewrite lookup_insert_ne; [apply T|]. intros ->. pose proof (tr_root _ _ _ T). congruence.
    - intros t2 l2 p2. rewrite lookup_insert. case_decide; [|apply T].
      intros [= <- <-]. subst. split; [done|]. pose proof (proj2 (tr_label _ _ _ T _ _ _ Ht)). lia.
    - intros t2 x i2. rewrite lookup_insert. case_decide as E.
      + intros _ Hi2. subst. by rewrite Hz.
      + intros H2 Hi2. destruct (decide (entry_at t2 i2 = entry_at t i)) as [->|]; [by rewrite Hti|].
        erewrite Hold by done. by eapply tr_word.
    - intros t2 l2 p2 i2. rewrite lookup_insert. case_decide as E.
      + intros [= El <-] Hi2. subst. by rewrite Hz.
      + intros H2 Hi2. destruct (decide (entry_at t2 i2 = entry_at t i)) as [Heq|Hne].
        * rewrite Heq, Hti. intros _. right. split; [done|]. rewrite FM, lookup_insert_eq.
          apply entry_inj in Heq as [-> ->]; [|by eapply tr_label|done..]. congruence.
        * erewrite Hold by done. intros HP2.
          destruct (tr_child _ _ _ T t2 l2 p2 i2 H2 Hi2 HP2) as [?|[Hs Hc]]; [by left|]. right. split; [done|].
          rewrite lookup_insert_ne; [done|]. congruence.
    - intros t2 l2 p2. rewrite lookup_insert. case_decide as E.
      + intros [= <- <-] _. subst t2. exists t, p, i. rewrite lookup_insert_ne, Hti by congruence. by split_and!; try apply Hi.
      + intros H2 Hl2. destruct (tr_parent _ _ _ T _ _ _ H2 Hl2) as (t' & p' & i' & Ht' & Hi' & Hp & HP' & HS' & HM').
        assert (entry_at t' i' <> entry_at t i) by (intros E2; congruence).
        exists t', p', i'. rewrite lookup_insert_ne by congruence.
        rewrite !(Hold t' _ i' Ht') by done. by split_and!; try apply Hi'.
    - intros t1 t2 x. rewrite !lookup_insert. repeat case_decide; subst; try done.
      + intros [= <-] H2. by apply Hfresh in H2.
      + intros H2 [= <-]. by apply Hfresh in H2.
      + apply T. }
  split; [exact T'|]. split; [exact Hold|]. intros va.
  destruct (decide (p = vprefix (S (S l)) va /\ i = vindex (S (S l)) va)) as [[-> ->]|Hoff].
  - destruct (walk_reaches m root G va (S (S l)) t T Ht) as (u1 & _ & ->).
    assert (Htp' : on_path (<[tp := (S l, vprefix (S (S l)) va * 512 + vindex (S (S l)) va)]> G) va tp (S l)).
    { unfold on_path. rewrite lookup_insert_eq, (prefix_step (S l)); [done|].
      pose proof (proj2 (tr_label _ _ _ T _ _ _ Ht)). lia. }
    destruct (walk_reaches m' root _ va (S l) tp T' Htp') as (u2 & _ & ->).
    cbn [hw_walk]. rewrite HP, Hz by apply vindex_range. done.
  - apply same_mapping_strict. apply (walk_kept true m m' root G); try done.
    + unfold on_path. rewrite prefix_top. apply T.
    + intros t' l' Hp' _. unfold on_path in Hp'. right. left.
      eapply Hold; [exact Hp' | apply vindex_range|].
      intros E. apply entry_inj in E as [-> Ei]; [|by eapply (tr_label _ _ _ T)|done|apply vindex_range|done].
      apply Hoff. rewrite Ht in Hp'. by injection Hp' as <- ->.
Qed.

(** Adding the user bit to the entry of a child table. *)
Lemma promote_entry m root G t l p i :
  tree m root G -> G !! t = Some (S (S l), p) -> 0 <= i < 512 ->
  has (m (entry_at t i)) PTE_PRESENT = true -> has (m (entry_at t i)) PTE_PAGE_SIZE = false ->
  tables_kept false m (store m (entry_at t i) (Z.lor (m (entry_at t i)) PTE_USER)) G.
Proof.
  intros T Ht Hi HP HS t2 l2 p2 i2 H2 Hi2. unfold store.
  destruct (Z.eqb_spec (entry_at t2 i2) (entry_at t i)) as [E|Hne].
  - apply entry_inj in E as [-> ->]; [|by eapply tr_label|by eapply tr_label|done..].
    assert (l2 = S (S l)) as -> by congruence. split.
    + right. right. split_and!; try done. lia.
    + apply lor_u64; [by eapply tr_word | by vm_compute].
  - split; [by right; left | by eapply tr_word].
Qed.

(** Writing a leaf-level entry. *)
Lemma write_leaf m root G t p i v :
  tree m root G -> G !! t = Some (1%nat, p) -> 0 <= i < 512 -> is_u64 v ->
  let m' := store m (entry_at t i) v in
  tree m' root G /\
  (forall va, ~ (vprefix 1 va = p /\ vindex 1 va = i) -> translate m' root va = translate m root va) /\
  (forall va, vprefix 1 va = p -> vindex 1 va = i ->
     exists u, (user_path m G va 1 -> u = true) /\
       translate m root va = hw_walk m 1 t va u /\ translate m' root va = hw_walk m' 1 t va u).
Proof.
  intros T Ht Hi Hv m'.
  assert (Hft : frame t) by by eapply tr_label.
  assert (Hold : forall t2 l2 p2 i2, G !! t2 = Some (l2, p2) -> 0 <= i2 < 512 ->
    ~ (l2 = 1%nat /\ p2 = p /\ i2 = i) -> m' (entry_at t2 i2) = m (entry_at t2 i2)).
  { intros t2 l2 p2 i2 H2 Hi2 Hne. unfold m'. apply store_ne. intros E.
    apply entry_inj in E as [-> ->]; [|by eapply tr_label|done..]. apply Hne.
    rewrite Ht in H2. by injection H2 as <- <-. }
  assert (T' : tree m' root G).
  { split; try apply T.
    - intros t2 [l2 p2] i2 H2 Hi2. unfold m', store. case_match; [done|]. by eapply tr_word.
    - intros t2 l2 p2 i2 H2 Hi2. erewrite Hold by (done || lia). by apply (tr_child _ _ _ T).
    - intros t2 l2 p2 H2 Hl2.
      destruct (tr_parent _ _ _ T _ _ _ H2 Hl2) as (t' & p' & i' & Ht' & Hi' & Hp & HP & HS & HM).
      assert (Hl2' : (1 <= l2)%nat) by (pose proof (proj2 (tr_label _ _ _ T _ _ _ H2)); lia).
      exists t', p', i'. erewrite Hold by (done || lia). by split_and!; try apply Hi'. }
  split; [exact T'|]. split.
  - intros va Hoff. apply same_mapping_strict. apply (walk_kept true m m' root G); try done.
    { unfold on_path. rewrite prefix_top. apply T. }
    intros t' l' Hp' _. unfold on_path in Hp'. right. left.
    eapply Hold; [exact Hp' | apply vindex_range|]. intros (-> & E1 & E2). by apply Hoff.
  - intros va Hpre Hidx. assert (Hon : on_path G va t 1) by (unfold on_path; congruence).
    apply (walks_reach m m' root G va 1 t T Hon).
    intros t' l' Hl' Hp'. eapply Hold; [exact Hp' | apply vindex_range | lia].
Qed.

(** ** The undo log *)

Section map_page.
Context `{PageAllocatorLaws P}.
Implicit Type s : machine P.

Definition new_frames (w : setup (P:=P)) : list Z := TablePhys <$> newTables w.
Definition new_parents (w : setup (P:=P)) : list Z := ParentEntry <$> newTables w.
Definition promoted (w : setup (P:=P)) : list Z := Entry <$> promotions w.

(** No table of the tree is a free frame of the page allocator. *)
Definition tables_used (G : tables) (p : P) : Prop :=
  forall t x, G !! t = Some x -> frame_state p t <> PMM_PAGE_FREE.

(** The setup [w] grew from memory [m0], allocator [p0] and tree [G0] and can
    be undone: its log lists the frames taken, the holes filled and the
    entries promoted. *)
Record undo_ok (root : Z) (s0 : machine P) (G0 : tables) (w : setup (P:=P)) (G : tables) : Prop := mkUndo {
  un_tree : tree (mem (machine_of w)) root G;
  un_frames : frames_ok (pmm (machine_of w));
  un_sub : G0 ⊆ G;
  un_new t : is_Some (G !! t) -> is_Some (G0 !! t) \/ t ∈ new_frames w;
  un_logged t : t ∈ new_frames w -> is_Some (G !! t);
  un_nodup : NoDup (new_frames w);
  un_fresh t : t ∈ new_frames w -> frame t /\ frame_state (pmm s0) t = PMM_PAGE_FREE;
  un_state b : b mod PAGE_4KB = 0 ->
    frame_state (pmm (machine_of w)) b =
      if decide (b ∈ new_frames w) then PMM_PAGE_ALLOCATED else frame_state (pmm s0) b;
  un_flags pr : pr ∈ promotions w -> AddedFlags pr = PTE_USER;
  un_mem t l p i : G0 !! t = Some (l, p) -> 0 <= i < 512 ->
    let a := entry_at t i in
    if decide (a ∈ new_parents w) then has (mem s0 a) PTE_PRESENT = false
    else if decide (a ∈ promoted w)
    then mem (machine_of w) a = Z.lor (mem s0 a) PTE_USER /\ has (mem s0 a) PTE_USER = false
    else mem (machine_of w) a = mem s0 a;
  un_trans va : same_mapping false (translate (mem s0) root va) (translate (mem (machine_of w)) root va);
  un_outside a : (forall t x, G !! t = Some x -> ~ t <= a < t + PAGE_4KB) ->
    mem (machine_of w) a = mem s0 a;
  un_log a : a ∈ new_parents w \/ a ∈ promoted w -> exists t x, G !! t = Some x /\ t <= a < t + PAGE_4KB;
  un_cpu : cr3 (machine_of w) = cr3 s0 /\ invalidated (machine_of w) = invalidated s0
}.

Lemma frame_in_one a b : a mod PAGE_4KB = 0 -> b mod PAGE_4KB = 0 ->
  frame_in a 1 b = bool_decide (b = a).
Proof.
  intros Ha Hb. unfold frame_in. apply eq_true_iff_eq.
  rewrite andb_true_iff, Z.leb_le, Z.ltb_lt, bool_decide_eq_true. unfold PAGE_4KB in *. div_lia.
Qed.

(** Undoing the new tables: their parents become holes, their frames free. *)
Lemma rollback_tables ts s :
  frames_ok (pmm s) -> NoDup (TablePhys <$> ts) ->
  (forall t, t ∈ TablePhys <$> ts -> frame t /\ frame_state (pmm s) t = PMM_PAGE_ALLOCATED) ->
  exists s', KiRollbackNewTables ts s = Ok s' /\ frames_ok (pmm s') /\
    (forall b, b mod PAGE_4KB = 0 -> frame_state (pmm s') b =
       if decide (b ∈ TablePhys <$> ts) then PMM_PAGE_FREE else frame_state (pmm s) b) /\
    (forall a, mem s' a = if decide (a ∈ ParentEntry <$> ts) then 0 else mem s a) /\
    cr3 s' = cr3 s /\ invalidated s' = invalidated s.
Proof.
  revert s. induction ts as [|t ts IH]; intros s Hf Hnd Hin; cbn [KiRollbackNewTables fmap list_fmap].
  { exists s. split_and!; try done; intros; by rewrite decide_False by apply not_elem_of_nil. }
  cbn [fmap list_fmap] in Hnd, Hin. apply NoDup_cons in Hnd as [Hn Hnd].
  destruct (Hin (TablePhys t)) as [[Hal Hr] Hst]; [by apply list_elem_of_here|].
  destruct (pmm_free_law (pmm s) (TablePhys t) 1) as (st & p' & E & Hf' & Hcase); [done | done | done | lia |].
  cbn [pmm set_mem]. rewrite E. cbn [res_bind].
  destruct Hcase as [(-> & _ & Hfree)|(_ & _ & Hbad)].
  2: { exfalso. apply Hbad. intros b Hb Hfr. rewrite frame_in_one in Hfr by done.
       apply bool_decide_eq_true_1 in Hfr as ->. done. }
  set (s1 := set_pmm (set_mem s (store (mem s) (ParentEntry t) 0)) p').
  assert (Hfree1 : forall b, b mod PAGE_4KB = 0 -> frame_state (pmm s1) b =
    if decide (b = TablePhys t) then PMM_PAGE_FREE else frame_state (pmm s) b).
  { intros b Hb. change (pmm s1) with p'. rewrite Hfree, frame_in_one by done.
    repeat case_decide; case_bool_decide; done. }
  destruct (IH s1) as (s' & E' & Hok' & Hst' & Hm' & Hc1 & Hc2); [done | done | |].
  { intros t2 Ht2. destruct (Hin t2) as [Hfr Hs2]; [by apply list_elem_of_further|]. split; [done|].
    rewrite Hfree1 by apply Hfr. rewrite decide_False; [done|]. by intros ->. }
  exists s'. split; [done|]. split; [done|]. split_and!; try done.
  - intros b Hb. rewrite Hst', Hfree1 by done. repeat case_decide; set_solver.
  - intros a. rewrite Hm'. cbn [mem s1 set_pmm set_mem]. unfold s1. cbn [mem set_pmm set_mem]. unfold store.
    destruct (Z.eqb_spec a (ParentEntry t)); repeat case_decide; set_solver.
Qed.

Lemma rollback_promotions ps s :
  (forall pr, pr ∈ ps -> AddedFlags pr = PTE_USER) ->
  let s' := KiRollbackEntryPromotions ps s in
  (forall a, mem s' a = if decide (a ∈ Entry <$> ps) then Z.land (mem s a) (not64 PTE_USER) else mem s a) /\
  pmm s' = pmm s /\ cr3 s' = cr3 s /\ invalidated s' = invalidated s.
Proof.
  revert s. induction ps as [|pr ps IH]; intros s Hfl; cbn [KiRollbackEntryPromotions].
  { by split_and!. }
  set (s1 := set_mem s _). cbv zeta in IH.
  destruct (IH s1) as (Hm & -> & -> & ->); [set_solver|]. split_and!; try done.
  intros a. rewrite Hm. unfold s1 at 1 2. cbn [mem set_mem]. unfold store. rewrite (Hfl pr) by set_solver.
  assert (Hidem : forall x, Z.land (Z.land x (not64 PTE_USER)) (not64 PTE_USER) = Z.land x (not64 PTE_USER))
    by (intros x; by rewrite <- Z.land_assoc, Z.land_diag).
  cbn [fmap list_fmap].
  destruct (Z.eqb_spec a (Entry pr)) as [->|]; repeat case_decide; rewrite ?Hidem; set_solver.
Qed.

(** [s'] is what a refused mapping leaves: every table entry as it was (a
    hole may have been zeroed), every frame in its former state, every word
    outside the tables and the free frames unchanged. *)
Record undone (s0 s' : machine P) (G0 : tables) : Prop := mkUndone {
  ud_frames : frames_ok (pmm s');
  ud_state b : b mod PAGE_4KB = 0 -> frame_state (pmm s') b = frame_state (pmm s0) b;
  ud_tables : tables_kept true (mem s0) (mem s') G0;
  ud_outside a : (forall t x, G0 !! t = Some x -> ~ t <= a < t + PAGE_4KB) ->
    frame_state (pmm s0) (a - a mod PAGE_4KB) <> PMM_PAGE_FREE -> mem s' a = mem s0 a;
  ud_cpu : cr3 s' = cr3 s0 /\ invalidated s' = invalidated s0
}.

Lemma rollback_setup root s0 G0 w G :
  tree (mem s0) root G0 -> undo_ok root s0 G0 w G ->
  exists s', KiRollbackMapSetup (newTables w) (promotions w) (machine_of w) = Ok s' /\ undone s0 s' G0.
Proof.
  intros T0 U. destruct (rollback_tables (newTables w) (machine_of w)) as (s1 & E1 & Hf1 & Hst1 & Hm1 & Hc1 & Hi1).
  - apply U.
  - apply U.
  - intros t Ht. destruct (un_fresh _ _ _ _ _ U t Ht) as [Hfr _]. split; [done|].
    rewrite (un_state _ _ _ _ _ U) by apply Hfr. by rewrite decide_True.
  - pose proof (rollback_promotions (promotions w) s1 (un_flags _ _ _ _ _ U)) as (Hm2 & Hp2 & Hc2 & Hi2).
    unfold KiRollbackMapSetup. rewrite E1. cbn [res_bind]. eexists. split; [done|].
    set (s2 := KiRollbackEntryPromotions (promotions w) s1) in *. cbv zeta in *. split.
    + by rewrite Hp2.
    + intros b Hb. rewrite Hp2, Hst1, (un_state _ _ _ _ _ U) by done. unfold new_frames.
      case_decide as Hin; [|done]. symmetry. by apply (un_fresh _ _ _ _ _ U).
    + intros t l p i Ht Hi. pose proof (un_mem _ _ _ _ _ U t l p i Ht Hi) as Hu. cbv zeta in Hu.
      unfold new_parents, promoted in Hu. rewrite Hm2, Hm1. set (a := entry_at t i) in *.
      assert (Hw : is_u64 (mem s0 a)) by (by eapply tr_word).
      destruct (decide (a ∈ ParentEntry <$> newTables w)).
      * rewrite Z.land_0_l. replace (if decide _ then 0 else 0) with 0 by (by case_decide).
        split; [left; split; [done|by vm_compute]|by vm_compute].
      * destruct (decide (a ∈ Entry <$> promotions w)); [|split; [right; left; done|congruence]].
        destruct Hu as [-> Hnu]. destruct (user_undo (mem s0 a) Hw Hnu) as [-> _]. split; [right; by left|done].
    + intros a Hout Hused. assert (HoutG : forall t x, G !! t = Some x -> ~ t <= a < t + PAGE_4KB).
      { intros t x Ht Ha. destruct (un_new _ _ _ _ _ U t) as [[y Hy]|Hin]; [by rewrite Ht | by apply (Hout t y Hy)|].
        destruct (un_fresh _ _ _ _ _ U t Hin) as [[Hal _] Hfree]. apply Hused.
        replace (a - a mod PAGE_4KB) with t; [done|]. unfold PAGE_4KB in *. div_lia. }
      assert (Hlog : ~ (a ∈ new_parents w \/ a ∈ promoted w)).
      { intros (t & x & Ht & Ha)%(un_log _ _ _ _ _ U). by apply (HoutG t x Ht). }
      unfold new_parents, promoted in Hlog. rewrite Hm2, Hm1, !decide_False by tauto. by apply (un_outside _ _ _ _ _ U).
    + pose proof (un_cpu _ _ _ _ _ U) as [? ?]. split; congruence.
Qed.

Lemma same_mapping_trans o1 o2 o3 :
  same_mapping false o1 o2 -> same_mapping false o2 o3 -> same_mapping false o1 o3.
Proof.
  destruct o1 as [[]|], o2 as [[]|], o3 as [[]|]; simpl; try done.
  intros (E1 & H1 & _) (E2 & H2 & _). injection E1 as -> -> -> -> -> ->.
  injection E2 as -> -> -> -> -> ->. split; [done|]. split; [tauto|done].
Qed.

Lemma word_in_page t i : 0 <= i < 512 -> t <= entry_at t i < t + PAGE_4KB.
Proof. unfold entry_at, PAGE_4KB. lia. Qed.

(** Logging a promotion. *)
Lemma undo_promote root s0 G0 w G t l p i :
  undo_ok root s0 G0 w G -> tree (mem s0) root G0 -> G !! t = Some (S (S l), p) -> 0 <= i < 512 ->
  let a := entry_at t i in
  let s := machine_of w in
  has (mem s a) PTE_PRESENT = true -> has (mem s a) PTE_PAGE_SIZE = false ->
  has (mem s a) PTE_USER = false ->
  undo_ok root s0 G0
    (mkSetup (set_mem s (store (mem s) a (Z.lor (mem s a) PTE_USER))) (newTables w)
       (mkPromotion a PTE_USER :: promotions w)) G.
Proof.
  intros U T0 Ht Hi a s HP HS HU. pose proof (un_tree _ _ _ _ _ U) as T.
  pose proof (promote_entry _ _ _ _ _ _ _ T Ht Hi HP HS) as Hk.
  split; try apply U; cbn [machine_of mem set_mem newTables promotions].
  - by eapply kept_tree.
  - intros pr [->|Hpr]%elem_of_cons; [done|]. by apply (un_flags _ _ _ _ _ U).
  - intros t2 l2 p2 i2 H2 Hi2. pose proof (un_mem _ _ _ _ _ U t2 l2 p2 i2 H2 Hi2) as Hu. cbv zeta in *.
    unfold new_parents, promoted in *. cbn [newTables promotions fmap list_fmap Entry].
    set (a2 := entry_at t2 i2) in *. case_decide; [done|]. unfold store.
    destruct (Z.eqb_spec a2 a) as [->|Hne].
    + rewrite decide_True by (by left). case_decide as Hin; [|by rewrite <- Hu].
      destruct Hu as [Hu _]. fold s in Hu. rewrite Hu, has_U, Z.lor_spec in HU.
      change (Z.testbit PTE_USER 2) with true in HU. by rewrite orb_true_r in HU.
    + repeat case_decide; set_solver.
  - intros va. eapply same_mapping_trans; [apply (un_trans _ _ _ _ _ U)|]. by eapply kept_translate.
  - intros x Hx. rewrite store_ne; [by apply (un_outside _ _ _ _ _ U)|].
    intros ->. eapply Hx; [exact Ht | by apply word_in_page].
  - unfold new_parents, promoted. cbn [newTables promotions fmap list_fmap Entry].
    intros x [Hx|[->|Hx]%elem_of_cons]; [| |]; [apply (un_log _ _ _ _ _ U); by left | | apply (un_log _ _ _ _ _ U); by right].
    exists t. eexists. split; [exact Ht | by apply word_in_page].
Qed.

(** Logging a new table. *)
Lemma undo_hang root s0 G0 w G t l p i tp attrs p' :
  undo_ok root s0 G0 w G -> tables_used G0 (pmm s0) -> G !! t = Some (S (S l), p) -> 0 <= i < 512 ->
  let a := entry_at t i in
  let s := machine_of w in
  has (mem s a) PTE_PRESENT = false -> frame tp -> frame_state (pmm s) tp = PMM_PAGE_FREE ->
  frames_ok p' ->
  (forall b, b mod PAGE_4KB = 0 ->
     frame_state p' b = if decide (b = tp) then PMM_PAGE_ALLOCATED else frame_state (pmm s) b) ->
  undo_ok root s0 G0
    (mkSetup (set_mem (set_pmm s p') (store (clear_page (mem s) tp) a (child_entry tp attrs)))
       (mkNewTable a tp :: newTables w) (promotions w)) (<[tp := (S l, p * 512 + i)]> G) /\
  G !! tp = None.
Proof.
  intros U Used Ht Hi a s HP Htp Hfree Hp' Hst'. pose proof (un_tree _ _ _ _ _ U) as T.
  pose proof (un_state _ _ _ _ _ U tp (proj1 Htp)) as Hs0. fold s in Hs0. rewrite Hfree in Hs0.
  case_decide as Hin; [done|].
  assert (Hnew : G !! tp = None).
  { destruct (G !! tp) as [x|] eqn:E; [|done]. exfalso.
    destruct (un_new _ _ _ _ _ U tp) as [[y Hy]|]; [by rewrite E| |done]. by apply (Used tp y Hy). }
  destruct (hang_table _ _ _ _ _ _ _ tp attrs T Ht Hi HP Htp Hnew) as (T' & Hold & Htr).
  split; [|done]. split; try apply U; try done; cbn [machine_of mem set_mem set_pmm newTables promotions pmm].
  - etrans; [apply U|]. by apply insert_subseteq.
  - intros t2. unfold new_frames. cbn [newTables fmap list_fmap TablePhys]. rewrite lookup_insert.
    case_decide as E2; [intros _; right; subst; by left|].
    intros Hs2. destruct (un_new _ _ _ _ _ U t2 Hs2); [by left | right; by right].
  - intros t2. unfold new_frames. cbn [newTables fmap list_fmap TablePhys]. rewrite lookup_insert.
    case_decide; [by eexists|]. intros [->|Ht2]%elem_of_cons; [done|]. by apply (un_logged _ _ _ _ _ U).
  - unfold new_frames. cbn [newTables fmap list_fmap TablePhys]. apply NoDup_cons. split; [done | apply U].
  - intros t2. unfold new_frames. cbn [newTables fmap list_fmap TablePhys].
    intros [->|Ht2]%elem_of_cons; [done|]. by apply (un_fresh _ _ _ _ _ U).
  - intros b Hb. rewrite Hst' by done. unfold s. rewrite (un_state _ _ _ _ _ U) by done.
    unfold new_frames. cbn [newTables fmap list_fmap TablePhys]. repeat case_decide; set_solver.
  - intros t2 l2 p2 i2 H2 Hi2. pose proof (un_mem _ _ _ _ _ U t2 l2 p2 i2 H2 Hi2) as Hu. cbv zeta in *.
    unfold new_parents, promoted in *. cbn [newTables promotions fmap list_fmap ParentEntry].
    set (a2 := entry_at t2 i2) in *. destruct (decide (a2 = a)) as [E2|Hne].
    + rewrite decide_True by (rewrite E2; by left). rewrite E2 in *. fold s in Hu. repeat case_decide; [done| |by rewrite <- Hu].
      destruct Hu as [Hu _]. rewrite Hu, has_P, user_bit in HP by done. by rewrite has_P.
    + assert (H2' : G !! t2 = Some (l2, p2)) by (by eapply lookup_weaken; [|apply U]).
      pose proof (Hold t2 _ i2 H2' Hi2 Hne) as Ho. fold a2 a s in Ho. rewrite Ho.
      repeat case_decide; set_solver.
  - intros va. rewrite Htr. apply U.
  - intros x Hx. rewrite store_ne.
    2: { intros ->. eapply (Hx t); [|by apply word_in_page]. rewrite lookup_insert_ne; [done|]. congruence. }
    unfold clear_page. destruct (Z.leb_spec tp x), (Z.ltb_spec x (tp + PAGE_4KB)); simpl.
    { exfalso. eapply (Hx tp); [by rewrite lookup_insert_eq | lia]. }
    all: apply (un_outside _ _ _ _ _ U); intros t2 y Hy; eapply Hx; rewrite lookup_insert_ne; [done | congruence].
  - unfold new_parents, promoted. cbn [newTables promotions fmap list_fmap ParentEntry]. intros x Hx.
    assert (Hor : x = a \/ x ∈ new_parents w \/ x ∈ promoted w) by (unfold new_parents, promoted; set_solver).
    destruct Hor as [->|Hor].
    + exists t. eexists. rewrite lookup_insert_ne by congruence. split; [exact Ht | by apply word_in_page].
    + destruct (un_log _ _ _ _ _ U x Hor) as (t2 & y & Hy & Hin2). exists t2, y.
      rewrite lookup_insert_ne by congruence. done.
Qed.

(** One [KiEnsureChildTable] step on the way down. *)
Lemma ensure_run root s0 G0 w G t l p i attrs :
  tree (mem s0) root G0 -> tables_used G0 (pmm s0) -> undo_ok root s0 G0 w G ->
  G !! t = Some (S (S l), p) -> 0 <= i < 512 ->
  (length (newTables w) < 3)%nat -> (length (promotions w) < 3)%nat ->
  exists st w' out, KiEnsureChildTable (entry_at t i) attrs w = Ok (st, w', out) /\
    match out with
    | None => st <> EC_SUCCESS /\ w' = w
    | Some t' => st = EC_SUCCESS /\ exists G', undo_ok root s0 G0 w' G' /\ G ⊆ G' /\
        G' !! t' = Some (S l, p * 512 + i) /\
        (length (newTables w') <= S (length (newTables w)))%nat /\
        (length (promotions w') <= S (length (promotions w)))%nat /\
        (forall t2 x i2, G !! t2 = Some x -> 0 <= i2 < 512 ->
           has (mem (machine_of w) (entry_at t2 i2)) PTE_PRESENT = true ->
           has (mem (machine_of w) (entry_at t2 i2)) PTE_USER = true ->
           has (mem (machine_of w') (entry_at t2 i2)) PTE_USER = true /\
           has (mem (machine_of w') (entry_at t2 i2)) PTE_PRESENT = true) /\
        has (mem (machine_of w') (entry_at t i)) PTE_PRESENT = true /\
        (has attrs PTE_USER = true -> has (mem (machine_of w') (entry_at t i)) PTE_USER = true)
    end.
Proof.
  intros T0 Used U Ht Hi Hln Hlp. pose proof (un_tree _ _ _ _ _ U) as T.
  unfold KiEnsureChildTable. set (s := machine_of w) in *. set (a := entry_at t i) in *.
  destruct (has (mem s a) PTE_PRESENT) eqn:HP; cbn [negb].
  - destruct (has (mem s a) PTE_PAGE_SIZE) eqn:HS; [by do 3 eexists|].
    destruct (tree_child_frame _ _ _ _ _ _ _ T Ht Hi HP HS) as [_ Hc]. fold a in Hc.
    destruct (has attrs PTE_USER && negb (has (mem s a) PTE_USER)) eqn:HU.
    + apply andb_true_iff in HU as [HU1 HU2]. apply negb_true_iff in HU2.
      rewrite (proj2 (Z.leb_gt _ _)) by lia. do 3 eexists. split; [done|]. split; [done|]. exists G.
      split; [by eapply undo_promote|]. rewrite store_eq, user_page_mask.
      cbn [newTables promotions machine_of mem set_mem length]. split_and!; try done; try lia.
      * intros t2 x i2 _ _ HP2 HU3. unfold store. case_match; [|done].
        rewrite has_U, has_P, (user_bit _ 0), Z.lor_spec by done. rewrite has_P in HP.
        split; [apply orb_true_r | done].
      * by rewrite store_eq, has_P, user_bit, <- has_P by done.
      * intros _. by rewrite store_eq, has_U, Z.lor_spec, orb_true_r.
    + do 3 eexists. split; [done|]. split; [done|]. exists G. split_and!; try done; try lia.
      intros Ha. rewrite Ha in HU. simpl in HU. by apply negb_false_iff in HU.
  - destruct (pmm_alloc_law (pmm s) 1) as (st & p' & out & E & Hf' & Hcase); [apply U | lia |].
    rewrite E. cbn [res_bind]. destruct Hcase as [(-> & tp & -> & Hal & Hr1 & Hr2 & Hfree & Hst)|(Hne & -> & ->)].
    + assert (Htp : frame tp) by (split; [done|unfold PAGE_4KB in *; lia]).
      rewrite (proj2 (Z.leb_gt _ _)) by lia. do 3 eexists. split; [done|]. split; [done|].
      destruct (child_entry_fields tp attrs Htp) as (FP & _ & FU & _).
      destruct (undo_hang root s0 G0 w G t l p i tp attrs p' U Used Ht Hi HP Htp) as [U' Hnew]; [|done| |].
      { apply Hfree; [done|]. rewrite frame_in_one by done. by apply bool_decide_eq_true_2. }
      { intros b Hb. rewrite Hst, frame_in_one by done. repeat case_decide; case_bool_decide; done. }
      eexists. split; [exact U'|]. cbn [newTables promotions machine_of mem set_mem set_pmm length].
      split_and!; try lia.
      * by apply insert_subseteq.
      * by rewrite lookup_insert_eq.
      * intros t2 [l2 p2] i2 H2 Hi2 HP2 HU2. fold s in HP2, HU2.
        rewrite store_ne by (fold a; congruence).
        rewrite clear_other; [done | done | by eapply tr_label | congruence | done].
      * by rewrite store_eq.
      * intros Ha. rewrite store_eq. unfold child_entry in FU. congruence.
    + do 3 eexists. split; [by destruct st|]. split; [done|].
      by destruct w as [[m0 p0 c0 i0] nt pr].
Qed.

(** ** Mapping a page *)

Definition leaf_value (physAddr attributes : Z) : Z :=
  Z.lor (Z.lor (Z.land physAddr PAGE_MASK) (Z.land attributes KE_PT_ALLOWED_LEAF_FLAGS)) PTE_PRESENT.

Lemma allowed_middle i : 12 <= i < 52 -> Z.testbit KE_PT_ALLOWED_LEAF_FLAGS i = false.
Proof.
  intros Hi. assert (Hc : (i <? 12) || negb (Z.testbit KE_PT_ALLOWED_LEAF_FLAGS i) = true).
  { apply (forall_below 52 (fun i => (i <? 12) || negb (Z.testbit KE_PT_ALLOWED_LEAF_FLAGS i))); [by vm_compute|lia]. }
  rewrite (proj2 (Z.ltb_ge i 12)) in Hc by lia. by apply negb_true_iff in Hc.
Qed.

Lemma land_u64 a b : is_u64 b -> is_u64 (Z.land a b).
Proof.
  intros Hb. unfold is_u64 in *. split; [apply Z.land_nonneg; lia|].
  destruct (Z.eq_dec (Z.land a b) 0) as [->|Hne]; [lia|].
  assert (Hnn : 0 <= Z.land a b) by (apply Z.land_nonneg; lia).
  apply Z.log2_lt_pow2; [lia|]. destruct (Z.lt_ge_cases (Z.log2 (Z.land a b)) 64) as [|Hge]; [done|].
  assert (Hbit : Z.testbit (Z.land a b) (Z.log2 (Z.land a b)) = true) by (apply Z.bit_log2; lia).
  rewrite Z.land_spec in Hbit. apply andb_true_iff in Hbit as [_ Hbit].
  assert (Hlog : Z.log2 b < 64).
  { destruct (Z.eq_dec b 0) as [->|]; [done|]. apply Z.log2_lt_pow2; lia. }
  rewrite Z.bits_above_log2 in Hbit by lia. done.
Qed.

Lemma leaf_value_fields pa attrs : frame pa ->
  has (leaf_value pa attrs) PTE_PRESENT = true /\ has (leaf_value pa attrs) PTE_USER = has attrs PTE_USER /\
  Z.land (leaf_value pa attrs) KE_PT_PHYS_ADDR_MASK = pa /\ is_u64 (leaf_value pa attrs).
Proof.
  intros Hf. unfold leaf_value. rewrite has_P, !has_U, !Z.lor_spec, !Z.land_spec.
  assert (Hpa : Z.land pa PAGE_MASK = pa).
  { rewrite <- (Z.lor_0_r pa) at 1. apply frame_flags_mask; [done|lia]. }
  rewrite Hpa. change (Z.testbit PTE_PRESENT 0) with true. change (Z.testbit PTE_PRESENT 2) with false.
  change (Z.testbit KE_PT_ALLOWED_LEAF_FLAGS 2) with true. rewrite (frame_bit pa 2 Hf) by lia. simpl.
  rewrite orb_true_r, andb_true_r, orb_false_r. split_and!; try done.
  - apply Z.bits_inj'. intros i Hi.
    rewrite !Z.land_spec, !Z.lor_spec, Z.land_spec, phys_mask_bit, (frame_bit pa i Hf) by done.
    destruct (Z.leb_spec 12 i), (Z.ltb_spec i 52); simpl; rewrite ?andb_false_r; try done.
    rewrite allowed_middle, andb_false_r, orb_false_r, andb_true_r by done.
    assert (Z.testbit PTE_PRESENT i = false) as -> by (apply Z.pow2_bits_false; lia). by rewrite orb_false_r.
  - apply lor_u64; [apply lor_u64|]; [destruct Hf; word_lia | by apply land_u64 | done].
Qed.

(** What a successful mapping of [va] at [pa] does. *)
Record mapped (root : Z) (s s' : machine P) (G G' : tables) (va pa attrs : Z) : Prop := mkMapped {
  mp_before : translate (mem s) root va = None;
  mp_after : translate (mem s') root va =
    Some (mkMapping true false (has attrs PTE_USER) 1 PAGE_4KB pa (leaf_value pa attrs));
  mp_others va' : vprefix 0 va' <> vprefix 0 va ->
    same_mapping false (translate (mem s) root va') (translate (mem s') root va');
  mp_tree : tree (mem s') root G';
  mp_sub : G ⊆ G';
  mp_new t : is_Some (G' !! t) -> is_Some (G !! t) \/ frame_state (pmm s) t = PMM_PAGE_FREE;
  mp_state b : b mod PAGE_4KB = 0 -> frame_state (pmm s') b =
    if decide (is_Some (G' !! b) /\ G !! b = None) then PMM_PAGE_ALLOCATED else frame_state (pmm s) b;
  mp_used : tables_used G' (pmm s');
  mp_frames : frames_ok (pmm s');
  mp_outside a : (forall t x, G' !! t = Some x -> ~ t <= a < t + PAGE_4KB) -> mem s' a = mem s a;
  mp_tlb : invalidated s' = if KiReadCr3 s =? root then va :: invalidated s else invalidated s
}.

Lemma undo_used root s0 G0 w G : tree (mem s0) root G0 -> tables_used G0 (pmm s0) ->
  undo_ok root s0 G0 w G -> tables_used G (pmm (machine_of w)).
Proof.
  intros T0 Used U t x Ht. assert (Hf : frame t) by (destruct x; by eapply (tr_label _ _ _ (un_tree _ _ _ _ _ U))).
  rewrite (un_state _ _ _ _ _ U) by apply Hf. case_decide as Hin; [done|].
  destruct (un_new _ _ _ _ _ U t) as [[y Hy]|]; [by rewrite Ht| |done]. by apply (Used t y).
Qed.

Lemma undo_start root s G : tree (mem s) root G -> frames_ok (pmm s) -> undo_ok root s G (mkSetup s [] []) G.
Proof.
  intros T Hf. split; try done; cbn [machine_of new_frames newTables promotions fmap list_fmap].
  - by left.
  - intros t. by intros ?%elem_of_nil.
  - apply NoDup_nil_2.
  - intros t. by intros ?%elem_of_nil.
  - intros pr. by intros ?%elem_of_nil.
  - intros va. apply same_mapping_refl.
  - unfold new_parents, promoted. cbn. intros a [Ha|Ha]; by apply elem_of_nil in Ha.
Qed.

(** The last step: the leaf is a hole and is filled. *)
Lemma fill_leaf root s0 G0 w G t va pa attrs :
  tree (mem s0) root G0 -> tables_used G0 (pmm s0) -> undo_ok root s0 G0 w G ->
  on_path G va t 1 -> has (mem (machine_of w) (entry_at t (vindex 1 va))) PTE_PRESENT = false ->
  (has attrs PTE_USER = true -> user_path (mem (machine_of w)) G va 1) ->
  frame pa -> is_u64 va -> va mod PAGE_4KB = 0 ->
  let s := machine_of w in
  let s1 := set_mem s (store (mem s) (entry_at t (vindex 1 va)) (leaf_value pa attrs)) in
  mapped root s0 (if KiReadCr3 s1 =? root then KiInvalidatePage s1 va else s1) G0 G va pa attrs.
Proof.
  intros T0 Used U Ht HP Hup Hpa Hva Hal s s1. pose proof (un_tree _ _ _ _ _ U) as T.
  destruct (leaf_value_fields pa attrs Hpa) as (FP & FU & FA & FW).
  destruct (write_leaf _ _ _ t _ (vindex 1 va) (leaf_value pa attrs) T Ht (vindex_range 1 va) FW)
    as (T' & Hoff & Hon).
  destruct (Hon va eq_refl eq_refl) as (u & Hu & Eb & Ea).
  set (s2 := if KiReadCr3 s1 =? root then _ else s1).
  assert (Hm : mem s2 = mem s1) by (unfold s2; by case_match).
  assert (Hp : pmm s2 = pmm s) by (unfold s2; by case_match).
  change (store _ _ _) with (mem s1) in T', Hoff, Ea.
  split; rewrite ?Hm, ?Hp.
  - pose proof (un_trans _ _ _ _ _ U va) as Hs. rewrite Eb in Hs. cbn [hw_walk] in Hs. fold s in Hs, HP.
    rewrite HP in Hs. simpl in Hs. by destruct (translate (mem s0) root va).
  - rewrite Ea. cbn [hw_walk]. unfold s1. cbn [mem set_mem]. rewrite store_eq, FP. cbn [negb].
    rewrite bool_decide_eq_true_2 by done. cbn [orb]. rewrite FU, FA. change (span 1) with PAGE_4KB.
    rewrite Hal, Z.add_0_r. do 2 f_equal.
    + destruct (has attrs PTE_USER); [by rewrite Hu by auto | by rewrite andb_false_r].
    + destruct Hpa as [Hpa _]. unfold PAGE_4KB in *. div_lia.
  - intros va' Hne. rewrite Hoff; [apply U|]. intros [E1 E2]. apply Hne.
    rewrite !(prefix_step 0) by lia. congruence.
  - exact T'.
  - apply U.
  - intros t2 Ht2. destruct (un_new _ _ _ _ _ U t2 Ht2) as [?|Hin]; [by left | right].
    by apply (un_fresh _ _ _ _ _ U).
  - intros b Hb. unfold s. rewrite (un_state _ _ _ _ _ U) by done. destruct (decide (b ∈ new_frames w)) as [Hin|Hin].
    + rewrite decide_True; [done|]. destruct (un_fresh _ _ _ _ _ U b Hin) as [_ Hfree].
      split; [by apply (un_logged _ _ _ _ _ U)|]. destruct (G0 !! b) as [x|] eqn:E; [|done]. by destruct (Used b x E).
    + rewrite decide_False; [done|]. intros [Hs Hn]. destruct (un_new _ _ _ _ _ U b Hs) as [[x Hx]|?]; [congruence | done].
  - exact (undo_used root s0 G0 w G T0 Used U).
  - apply U.
  - intros a Hout. unfold s1. cbn [mem set_mem]. rewrite store_ne; [by apply (un_outside _ _ _ _ _ U)|].
    intros ->. eapply Hout; [exact Ht | apply word_in_page, vindex_range].
  - destruct (un_cpu _ _ _ _ _ U) as [Ec Ei]. unfold s2, KiReadCr3, s1. cbn [cr3 set_mem].
    fold s in Ec, Ei. rewrite Ec. case_match; simpl; congruence.
Qed.

Lemma fail_undone root s0 G0 w G st :
  tree (mem s0) root G0 -> undo_ok root s0 G0 w G ->
  exists s', map_fail st w = Ok (st, s') /\ undone s0 s' G0.
Proof.
  intros T0 U. destruct (rollback_setup root s0 G0 w G T0 U) as (s' & E & Hs).
  exists s'. split; [|done]. unfold map_fail. by rewrite E.
Qed.

(** The user bit of the entries above [l] after one more step down. *)
Lemma user_path_step (m m' : memory) root G G' va t l attrs :
  tree m root G -> tree m' root G' -> G ⊆ G' -> on_path G va t (S l) -> (1 <= l < 4)%nat ->
  (forall t2 x i2, G !! t2 = Some x -> 0 <= i2 < 512 ->
     has (m (entry_at t2 i2)) PTE_PRESENT = true -> has (m (entry_at t2 i2)) PTE_USER = true ->
     has (m' (entry_at t2 i2)) PTE_USER = true /\ has (m' (entry_at t2 i2)) PTE_PRESENT = true) ->
  (has attrs PTE_USER = true -> has (m' (entry_at t (vindex (S l) va))) PTE_USER = true) ->
  (has attrs PTE_USER = true -> user_path m G va (S l)) ->
  has attrs PTE_USER = true -> user_path m' G' va l.
Proof.
  intros T T' Hsub Ht Hl Hmono Hhere Hup Ha t' l' Hl' Hp'.
  destruct (decide (l' = S l)) as [->|Hne].
  - assert (t' = t) as ->; [|by apply Hhere]. eapply tr_unique; [exact T' | exact Hp' |].
    by eapply lookup_weaken.
  - (* tables above [t] on the path were already there *)
    assert (Hl4 : (l' <= 4)%nat) by (by eapply (tr_label _ _ _ T')).
    assert (Hex : forall d k, (k = S l + d)%nat -> (k <= 4)%nat ->
      exists t0, on_path G va t0 k /\ ((S l < k)%nat -> has (m (entry_at t0 (vindex k va))) PTE_PRESENT = true)).
    { induction d as [|d IH]; intros k Hk Hk4; [exists t; replace k with (S l) by lia; split; [done|lia]|].
      destruct (IH (k - 1)%nat ltac:(lia) ltac:(lia)) as (t0 & Ht0 & _).
      destruct (tr_parent _ _ _ T t0 _ _ Ht0) as (t1 & p1 & i1 & Ht1 & Hi1 & Hp1 & HP1 & _); [lia|].
      replace (S (k - 1)) with k in * by lia.
      assert (Hpre := prefix_step (k - 1) va ltac:(lia)). replace (S (k - 1)) with k in Hpre by lia.
      pose proof (vindex_range k va). assert (p1 = vprefix k va) as -> by lia.
      assert (i1 = vindex k va) as -> by lia. by exists t1. }
    destruct (Hex (l' - S l)%nat l') as (t0 & Ht0 & HP0); [lia..|].
    assert (t' = t0) as ->.
    { eapply tr_unique; [exact T' | exact Hp' |]. by eapply lookup_weaken. }
    eapply Hmono; [exact Ht0 | apply vindex_range | apply HP0; lia |].
    apply Hup; [done|lia|done].
Qed.

(** The outcome of a mapping request. *)
Definition map_outcome (root : Z) (G : tables) (va pa attrs : Z) s (st : HO_STATUS) (s' : machine P) : Prop :=
  (st = EC_SUCCESS /\ exists G', mapped root s s' G G' va pa attrs) \/
  (st <> EC_SUCCESS /\
   (undone s s' G /\ tree (mem s') root G /\
    forall va', translate (mem s') root va' = translate (mem s) root va')).

Lemma undone_outcome root G va pa attrs s st s' :
  tree (mem s) root G -> st <> EC_SUCCESS -> undone s s' G -> map_outcome root G va pa attrs s st s'.
Proof.
  intros T Hst Hu. right. split; [done|]. split; [done|]. split.
  - eapply kept_tree; [exact T | apply Hu].
  - intros va'. apply same_mapping_strict. eapply kept_translate; [exact T | apply Hu].
Qed.

Lemma undone_refl root G s : tree (mem s) root G -> frames_ok (pmm s) -> undone s s G.
Proof.
  intros T Hf. split; try done. intros t l p i Ht Hi. split; [by right; left | by eapply tr_word].
Qed.

Lemma map_page_run space s G va pa attrs :
  space_ok space (mem s) G -> frames_ok (pmm s) -> tables_used G (pmm s) ->
  is_u64 va -> va mod PAGE_4KB = 0 -> frame pa ->
  exists st s', KePtMapPage (Some space) va pa attrs s = Ok (st, s') /\
    map_outcome (RootPageTablePhys space) G va pa attrs s st s'.
Proof.
  intros [Hi T] Hf Used Hva Hal Hpa. set (root := RootPageTablePhys space) in *.
  destruct (index_levels va) as (I4 & I3 & I2 & I1); [word_lia|].
  unfold KePtMapPage. rewrite Hi, !is_aligned_4k, Hal, (proj1 Hpa), I4, I3, I2, I1. simpl negb. cbn [orb].
  fold root. pose proof (tr_root _ _ _ T) as R4. rewrite <- (prefix_top va) in R4.
  destruct (ensure_run root s G (mkSetup s [] []) G root 2 _ _ attrs T Used (undo_start root s G T Hf)
    R4 (vindex_range 4 va)) as (st1 & w1 & [t3|] & E1 & H1); [simpl; lia..| |]; rewrite E1; cbn [res_bind].
  2: { destruct H1 as [Hne ->]. exists st1, s. split; [done|].
       apply undone_outcome; [done | done | by eapply undone_refl]. }
  destruct H1 as (_ & G1 & U1 & S1 & R3 & L1 & L1' & M1 & P1 & Us1). rewrite <- prefix_step in R3 by lia.
  cbn [newTables promotions length] in L1, L1'.
  destruct (ensure_run root s G w1 G1 t3 1 _ _ attrs T Used U1 R3 (vindex_range 3 va))
    as (st2 & w2 & [t2|] & E2 & H2); [lia..| |]; rewrite E2; cbn [res_bind].
  2: { destruct H2 as [Hne ->]. destruct (fail_undone root s G w1 G1 st2 T U1) as (s' & E & Hu).
       exists st2, s'. split; [done|]. by apply undone_outcome. }
  destruct H2 as (_ & G2 & U2 & S2 & R2 & L2 & L2' & M2 & P2 & Us2). rewrite <- prefix_step in R2 by lia.
  destruct (ensure_run root s G w2 G2 t2 0 _ _ attrs T Used U2 R2 (vindex_range 2 va))
    as (st3 & w3 & [t1|] & E3 & H3); [lia..| |]; rewrite E3; cbn [res_bind].
  2: { destruct H3 as [Hne ->]. destruct (fail_undone root s G w2 G2 st3 T U2) as (s' & E & Hu).
       exists st3, s'. split; [done|]. by apply undone_outcome. }
  destruct H3 as (_ & G3 & U3 & S3 & R1 & L3 & L3' & M3 & P3 & Us3). rewrite <- prefix_step in R1 by lia.
  destruct (has (mem (machine_of w3) (entry_at t1 (vindex 1 va))) PTE_PRESENT) eqn:HP.
  { destruct (fail_undone root s G w3 G3 EC_INVALID_STATE T U3) as (s' & E & Hu).
    exists EC_INVALID_STATE, s'. split; [done|]. by apply undone_outcome. }
  eexists EC_SUCCESS, _. split; [done|]. left. split; [done|]. exists G3.
  apply (fill_leaf root s G w3 G3 t1 va pa attrs); try done.
  pose proof (un_tree _ _ _ _ _ U1) as T1. pose proof (un_tree _ _ _ _ _ U2) as T2.
  pose proof (un_tree _ _ _ _ _ U3) as T3. change s with (machine_of (mkSetup s [] [])) in T at 1.
  eapply (user_path_step _ _ root G2 G3 va t2 1); [exact T2 | exact T3 | done | done | lia | exact M3 | exact Us3 |].
  eapply (user_path_step _ _ root G1 G2 va t3 2); [exact T1 | exact T2 | done | done | lia | exact M2 | exact Us2 |].
  eapply (user_path_step _ _ root G G1 va root 3); [exact T | exact T1 | done | done | lia | exact M1 | exact Us1 |].
  intros _ t' l' Hl' Hp'. exfalso. pose proof (proj2 (tr_label _ _ _ T _ _ _ Hp')). lia.
Qed.

(** ** The properties *)

(** C10: the software walk of [KePtQueryPage] is the processor's four-level
    translation: for every page it reports what the hardware would do, large
    leaves and ring-3 reachability included, and "not present" exactly when
    the hardware would fault. *)
Theorem query_is_hardware_translation space s G va :
  space_ok space (mem s) G -> is_u64 va -> va mod PAGE_4KB = 0 ->
  KePtQueryPage (Some space) (mem s) va true =
    (EC_SUCCESS, Some (default no_mapping (translate (mem s) (RootPageTablePhys space) va))).
Proof. apply query_page_run. Qed.

(** C6: [KePtMapPage] is all or nothing.  When it succeeds the page was a hole
    and now translates to the requested frame with the requested leaf value,
    reachable from ring 3 exactly when that was asked for; every other page
    keeps its translation (it may only have gained ring-3 reachability on its
    upper levels), no word outside the tables changes, and the page is
    invalidated when the root is live.  When it fails, for whatever reason and
    after whatever partial work, every translation, every table entry and
    every page frame is back as before. *)
Theorem map_page_all_or_nothing space s G va pa attrs :
  space_ok space (mem s) G -> frames_ok (pmm s) -> tables_used G (pmm s) ->
  is_u64 va -> va mod PAGE_4KB = 0 -> frame pa ->
  exists st s', KePtMapPage (Some space) va pa attrs s = Ok (st, s') /\
    map_outcome (RootPageTablePhys space) G va pa attrs s st s'.
Proof. apply map_page_run. Qed.

Definition flushed (root : Z) s va : list Z :=
  if KiReadCr3 s =? root then va :: invalidated s else invalidated s.

Lemma unmap_page_run space s G va :
  space_ok space (mem s) G -> is_u64 va -> va mod PAGE_4KB = 0 ->
  let root := RootPageTablePhys space in
  let '(st, s') := KePtUnmapPage (Some space) va s in
  match translate (mem s) root va with
  | None => st = EC_INVALID_STATE /\ s' = s
  | Some mp =>
      if Level mp =? 1 then
        st = EC_SUCCESS /\ translate (mem s') root va = None /\
        (forall va', vprefix 0 va' <> vprefix 0 va -> translate (mem s') root va' = translate (mem s) root va') /\
        tree (mem s') root G /\ pmm s' = pmm s /\ invalidated s' = flushed root s va /\
        (forall a, (forall t x, G !! t = Some x -> ~ t <= a < t + PAGE_4KB) -> mem s' a = mem s a)
      else st = EC_NOT_SUPPORTED /\ s' = s
  end.
Proof.
  intros Hs Hv Hal. cbv zeta. destruct (walk_translate space (mem s) G va Hs Hv Hal) as (w & E & Hw).
  unfold KePtUnmapPage. rewrite E. destruct Hs as [_ T]. set (root := RootPageTablePhys space) in *.
  destruct (translate (mem s) root va) as [mp|] eqn:Et; simpl in Hw; [|by rewrite Hw].
  destruct Hw as (leaf & -> & _ & -> & Hleaf). cbn [Level].
  destruct (Z.eqb_spec (WalkLevel w) 1) as [H1|H1]; [|done].
  destruct (Hleaf H1) as (t & Ht & ->). simpl negb. cbn iota.
  destruct (write_leaf _ _ _ t _ (vindex 1 va) 0 T Ht (vindex_range 1 va) ltac:(done)) as (T' & Hoff & Hon).
  destruct (Hon va eq_refl eq_refl) as (u & _ & _ & Ea).
  set (s1 := set_mem s _). set (s2 := if KiReadCr3 s1 =? root then _ else _).
  assert (Hm : mem s2 = mem s1) by (unfold s2; by case_match). rewrite Hm.
  split; [done|]. change (store _ _ _) with (mem s1) in T', Hoff, Ea. split_and!.
  - rewrite Ea. cbn [hw_walk]. unfold s1. cbn [mem set_mem]. by rewrite store_eq.
  - intros va' Hne. apply Hoff. intros [E1 E2]. apply Hne. rewrite !(prefix_step 0) by lia. congruence.
  - exact T'.
  - unfold s2. by case_match.
  - unfold s2, flushed, KiReadCr3, s1. cbn [cr3 set_mem]. by case_match.
  - intros a Hout. unfold s1. cbn [mem set_mem]. rewrite store_ne; [done|]. intros ->.
    eapply Hout; [exact Ht | apply word_in_page, vindex_range].
Qed.

(** [KePtUnmapPage] removes exactly one 4 KB translation: the page faults
    afterwards, every other page translates as before, the tables stay a tree
    and the page is invalidated when the root is live; a hole is refused with
    [EC_INVALID_STATE] and a page inside a large leaf with
    [EC_NOT_SUPPORTED], both without effect. *)
Theorem unmap_page_removes_one space s G va :
  space_ok space (mem s) G -> is_u64 va -> va mod PAGE_4KB = 0 ->
  let root := RootPageTablePhys space in
  let '(st, s') := KePtUnmapPage (Some space) va s in
  match translate (mem s) root va with
  | None => st = EC_INVALID_STATE /\ s' = s
  | Some mp =>
      if Level mp =? 1 then
        st = EC_SUCCESS /\ translate (mem s') root va = None /\
        (forall va', vprefix 0 va' <> vprefix 0 va -> translate (mem s') root va' = translate (mem s) root va') /\
        tree (mem s') root G /\ pmm s' = pmm s /\ invalidated s' = flushed root s va /\
        (forall a, (forall t x, G !! t = Some x -> ~ t <= a < t + PAGE_4KB) -> mem s' a = mem s a)
      else st = EC_NOT_SUPPORTED /\ s' = s
  end.
Proof. apply unmap_page_run. Qed.

Definition protected_value (old attrs : Z) : Z :=
  Z.lor (Z.lor (Z.lor (Z.land old KE_PT_PHYS_ADDR_MASK) (Z.land old (Z.lor PTE_ACCESSED PTE_DIRTY)))
           (Z.land attrs KE_PT_ALLOWED_LEAF_FLAGS)) PTE_PRESENT.

Lemma protected_fields old attrs :
  has (protected_value old attrs) PTE_PRESENT = true /\
  has (protected_value old attrs) PTE_USER = has attrs PTE_USER /\
  has (protected_value old attrs) PTE_WRITABLE = has attrs PTE_WRITABLE /\
  Z.land (protected_value old attrs) KE_PT_PHYS_ADDR_MASK = Z.land old KE_PT_PHYS_ADDR_MASK /\
  is_u64 (protected_value old attrs).
Proof.
  unfold protected_value. rewrite has_P, !has_U. unfold PTE_WRITABLE. rewrite !has_bit by lia.
  rewrite !Z.lor_spec, !Z.land_spec, !phys_mask_bit.
  change (Z.testbit PTE_PRESENT 0) with true. change (Z.testbit PTE_PRESENT 2) with false.
  change (Z.testbit PTE_PRESENT 1) with false.
  change (Z.testbit KE_PT_ALLOWED_LEAF_FLAGS 2) with true. change (Z.testbit KE_PT_ALLOWED_LEAF_FLAGS 1) with true.
  change (Z.testbit (Z.lor PTE_ACCESSED PTE_DIRTY) 2) with false.
  change (Z.testbit (Z.lor PTE_ACCESSED PTE_DIRTY) 1) with false.
  simpl (_ <=? _). simpl (_ && _). rewrite !andb_false_r, !andb_true_r, !orb_false_r, orb_true_r. simpl.
  split_and!; try done.
  - apply Z.bits_inj'. intros i Hi.
    rewrite !Z.land_spec, !Z.lor_spec, !Z.land_spec, phys_mask_bit.
    destruct (Z.leb_spec 12 i), (Z.ltb_spec i 52); simpl; rewrite ?andb_false_r; try done.
    rewrite allowed_middle by done. unfold PTE_ACCESSED, PTE_DIRTY, PTE_PRESENT.
    rewrite Z.lor_spec, !Z.pow2_bits_false by lia. simpl. by rewrite !andb_false_r, !orb_false_r, !andb_true_r.
  - repeat apply lor_u64; try (by apply land_u64); done.
Qed.

(** [KePtProtectPage] changes the rights of one 4 KB page and nothing
    else: the page keeps its frame and its level, becomes writable exactly as
    asked, is reachable from ring 3 only if asked and then if its upper levels
    allow, and every other page is untouched; holes and large leaves are
    refused without effect. *)
Theorem protect_page_keeps_frame space s G va attrs :
  space_ok space (mem s) G -> is_u64 va -> va mod PAGE_4KB = 0 ->
  let root := RootPageTablePhys space in
  let '(st, s') := KePtProtectPage (Some space) va attrs s in
  match translate (mem s) root va with
  | None => st = EC_INVALID_STATE /\ s' = s
  | Some mp =>
      if Level mp =? 1 then
        st = EC_SUCCESS /\
        (exists user, translate (mem s') root va =
           Some (mkMapping true false user 1 PAGE_4KB (PhysicalBase mp) (protected_value (Attributes mp) attrs)) /\
           (user = true -> has attrs PTE_USER = true) /\
           (UserAccessible mp = true -> has attrs PTE_USER = true -> user = true)) /\
        has (protected_value (Attributes mp) attrs) PTE_WRITABLE = has attrs PTE_WRITABLE /\
        (forall va', vprefix 0 va' <> vprefix 0 va -> translate (mem s') root va' = translate (mem s) root va') /\
        tree (mem s') root G /\ pmm s' = pmm s /\ invalidated s' = flushed root s va
      else st = EC_NOT_SUPPORTED /\ s' = s
  end.
Proof.
  intros Hs Hv Hal. cbv zeta. destruct (walk_translate space (mem s) G va Hs Hv Hal) as (w & E & Hw).
  unfold KePtProtectPage. rewrite E. destruct Hs as [_ T]. set (root := RootPageTablePhys space) in *.
  destruct (translate (mem s) root va) as [mp|] eqn:Et; simpl in Hw; [|by rewrite Hw].
  destruct Hw as (leaf & -> & Hval & -> & Hleaf). cbn [Level PhysicalBase UserAccessible Attributes].
  destruct (Z.eqb_spec (WalkLevel w) 1) as [H1|H1]; [|done].
  destruct (Hleaf H1) as (t & Ht & ->). simpl negb. cbn iota.
  fold (protected_value (LeafValue w) attrs).
  destruct (protected_fields (LeafValue w) attrs) as (FP & FU & FW & FA & Fw).
  destruct (write_leaf _ _ _ t _ (vindex 1 va) _ T Ht (vindex_range 1 va) Fw) as (T' & Hoff & Hon).
  destruct (Hon va eq_refl eq_refl) as (u & _ & Eb & Ea).
  set (s1 := set_mem s _). set (s2 := if KiReadCr3 s1 =? root then _ else _).
  assert (Hm : mem s2 = mem s1) by (unfold s2; by case_match). rewrite Hm.
  split; [done|]. change (store _ _ _) with (mem s1) in T', Hoff, Ea. split_and!.
  - exists (u && has attrs PTE_USER). rewrite Eb in Et. cbn [hw_walk] in Et. rewrite Hval in Et.
    destruct (has (LeafValue w) PTE_PRESENT); [|done]. simpl in Et.
    injection Et as _ Eu _ _ Ephys. rewrite Ea. cbn [hw_walk]. unfold s1. cbn [mem set_mem].
    rewrite store_eq, FP, FU, FA. simpl. rewrite Ephys. split; [done|]. split.
    + by intros [_ ?]%andb_true_iff.
    + rewrite <- Eu. intros [-> _]%andb_true_iff. done.
  - done.
  - intros va' Hne. apply Hoff. intros [E1 E2]. apply Hne. rewrite !(prefix_step 0) by lia. congruence.
  - exact T'.
  - unfold s2. by case_match.
  - unfold s2, flushed, KiReadCr3, s1. cbn [cr3 set_mem]. by case_match.
Qed.

(** [KeCreateProcessAddressSpace] makes a private root out of a free
    frame: every low-half address faults in it, every high-half address
    translates as in the kernel's root, and the kernel's root itself
    translates as before. *)
Theorem create_process_space_shares_high_half kernel s G :
  space_ok kernel (mem s) G -> frames_ok (pmm s) -> tables_used G (pmm s) ->
  exists st s' out, KeCreateProcessAddressSpace kernel true s = Ok (st, s', out) /\ frames_ok (pmm s') /\
    match out with
    | None => st <> EC_SUCCESS /\ s' = s
    | Some ps => st = EC_SUCCESS /\ PsInitialized ps = true /\ G !! PsRootPageTablePhys ps = None /\
        frame_state (pmm s') (PsRootPageTablePhys ps) = PMM_PAGE_ALLOCATED /\
        forall va, is_u64 va ->
          translate (mem s') (RootPageTablePhys kernel) va = translate (mem s) (RootPageTablePhys kernel) va /\
          translate (mem s') (PsRootPageTablePhys ps) va =
            if vindex 4 va <? 256 then None else translate (mem s) (RootPageTablePhys kernel) va
    end.
Proof.
  intros [Hi T] Hf Used. unfold KeCreateProcessAddressSpace. rewrite Hi. simpl negb. cbn iota.
  destruct (pmm_alloc_law (pmm s) 1) as (st & p' & out & -> & Hf' & Hcase); [done | lia |]. cbn [res_bind].
  destruct Hcase as [(-> & tp & -> & Hal & Hr1 & Hr2 & Hfree & Hst)|(Hne & -> & ->)].
  2: { exists st, s, None. split; [by destruct s, st|]. by split_and!. }
  do 3 eexists. split; [done|]. split; [done|]. cbn [pmm set_mem set_pmm PsInitialized PsRootPageTablePhys].
  assert (Htp : frame tp) by (split; [done|unfold PAGE_4KB in *; lia]).
  assert (Hone : frame_in tp 1 tp = true) by (rewrite frame_in_one by done; by apply bool_decide_eq_true_2).
  assert (Hnew : G !! tp = None).
  { destruct (G !! tp) as [x|] eqn:E; [|done]. exfalso. by apply (Used tp x E), Hfree. }
  split; [done|]. split; [done|]. split; [done|]. split; [by rewrite Hst, Hone|]. intros va Hv.
  set (root := RootPageTablePhys kernel) in *. cbn [mem set_mem set_pmm].
  set (m' := KiCopyImportedKernelHighHalfMappings _ _ _).
  assert (Hold : forall t x i, G !! t = Some x -> 0 <= i < 512 -> m' (entry_at t i) = mem s (entry_at t i)).
  { intros t [l p] i Ht Hi'. assert (Hft : frame t) by (by eapply tr_label). unfold m', KiCopyImportedKernelHighHalfMappings.
    assert (t <> tp) by congruence. rewrite clear_other by done.
    destruct (Z.leb_spec (entry_at tp (ENTRIES_PER_TABLE / 2)) (entry_at t i)),
      (Z.ltb_spec (entry_at t i) (entry_at tp ENTRIES_PER_TABLE)); simpl; try done. exfalso.
    destruct Hft as [Hta _]. unfold entry_at, ENTRIES_PER_TABLE, PAGE_4KB in *. change (512 / 2) with 256 in *. div_lia. }
  assert (Hwalk : forall l t, on_path G va t l -> forall u, hw_walk m' l t va u = hw_walk (mem s) l t va u).
  { intros l t Ht u. apply same_mapping_strict. apply (walk_kept true (mem s) m' root G); try done.
    intros t' l' Hp' _. right. left. eapply Hold; [exact Hp' | apply vindex_range]. }
  assert (Ron : on_path G va root 4) by (unfold on_path; rewrite prefix_top; apply T).
  split; [by apply Hwalk|].
  pose proof (vindex_range 4 va) as Hx. set (x := vindex 4 va) in *.
  assert (Hroot : m' (entry_at tp x) = if x <? 256 then 0 else mem s (entry_at root x)).
  { unfold m', KiCopyImportedKernelHighHalfMappings, entry_at, ENTRIES_PER_TABLE. change (512 / 2) with 256.
    destruct (Z.ltb_spec x 256).
    - rewrite (proj2 (Z.leb_gt _ _)) by lia. simpl. by apply clear_same.
    - rewrite (proj2 (Z.leb_le _ _)), (proj2 (Z.ltb_lt _ _)) by lia. simpl.
      replace (root + (tp + 8 * x - tp)) with (entry_at root x) by (unfold entry_at; lia).
      apply clear_other; [done | by eapply (tr_label _ _ _ T), T | | done].
      intros ->. pose proof (tr_root _ _ _ T). congruence. }
  unfold translate. cbn [hw_walk]. fold x. rewrite Hroot. destruct (x <? 256) eqn:Ex; [done|].
  destruct (has (mem s (entry_at root x)) PTE_PRESENT) eqn:HP; simpl; [|done].
  
  destruct (tr_child _ _ _ T _ _ _ x (tr_root _ _ _ T) Hx HP) as [[_ ?]|[HS Hc]]; [lia|].
  destruct (tree_child_frame _ _ _ _ _ _ _ T (tr_root _ _ _ T) Hx HP HS) as [Ha _]. rewrite Ha.
  apply (Hwalk 3%nat). unfold on_path. rewrite Hc, (prefix_step 3), prefix_top by lia. done.
Qed.
End map_page.

(** ** Witnesses: a root with one 4 KB page, over the sample PMM *)

Lemma empty_root_tree root : frame root -> tree (fun _ => 0) root {[root := (4%nat, 0)]}.
Proof.
  intros Hf. assert (Hin : forall t x, ({[root := (4%nat, 0)]} : tables) !! t = Some x -> t = root /\ x = (4%nat, 0)).
  { intros t x [<- <-]%lookup_singleton_Some. done. }
  split.
  - apply lookup_singleton_eq.
  - intros t l p [-> [= -> ->]]%Hin. split; [done|lia].
  - done.
  - intros t l p i _ _. done.
  - intros t l p [-> [= -> ->]]%Hin. lia.
  - intros t1 t2 x [-> ->]%Hin [-> _]%Hin. done.
Qed.

Definition sample_root : Z := 0x8000.
Definition sample_va : Z := 0xFFFF900000003000.

(** One page of user data mapped through three tables. *)
Definition sample_mem : memory :=
  let hang m t i tp := store (clear_page m tp) (entry_at t i) (child_entry tp PTE_USER) in
  let m := hang (fun _ => 0) 0x8000 (vindex 4 sample_va) 0x9000 in
  let m := hang m 0x9000 (vindex 3 sample_va) 0xA000 in
  let m := hang m 0xA000 (vindex 2 sample_va) 0xB000 in
  store m (entry_at 0xB000 (vindex 1 sample_va)) 0x5067.

Definition sample_tables : tables :=
  <[0xB000 := (1%nat, vprefix 1 sample_va)]> (<[0xA000 := (2%nat, vprefix 2 sample_va)]>
    (<[0x9000 := (3%nat, vprefix 3 sample_va)]> {[0x8000 := (4%nat, 0)]})).

Definition sample_space : KE_KERNEL_ADDRESS_SPACE := mkKernelSpace sample_root [] 0 0 true.

Lemma sample_frame t : (t =? 0x8000) || (t =? 0x9000) || (t =? 0xA000) || (t =? 0xB000) = true -> frame t.
Proof.
  rewrite !orb_true_iff, !Z.eqb_eq. intros [[[->| ->]| ->]| ->]; by split.
Qed.

Lemma sample_space_ok : space_ok sample_space sample_mem sample_tables.
Proof.
  split; [done|]. change (RootPageTablePhys sample_space) with 0x8000.
  pose proof (empty_root_tree 0x8000 (sample_frame 0x8000 eq_refl)) as T4.
  destruct (hang_table _ _ _ 0x8000 2 0 (vindex 4 sample_va) 0x9000 PTE_USER T4) as [T3 _];
    [by vm_compute.. | by apply sample_frame | by vm_compute |].
  destruct (hang_table _ _ _ 0x9000 1 (vprefix 3 sample_va) (vindex 3 sample_va) 0xA000 PTE_USER T3) as [T2 _];
    [by vm_compute.. | by apply sample_frame | by vm_compute |].
  destruct (hang_table _ _ _ 0xA000 0 (vprefix 2 sample_va) (vindex 2 sample_va) 0xB000 PTE_USER T2) as [T1 _];
    [by vm_compute.. | by apply sample_frame | by vm_compute |].
  destruct (write_leaf _ _ _ 0xB000 (vprefix 1 sample_va) (vindex 1 sample_va) 0x5067 T1) as [T0 _];
    [by vm_compute.. |].
  exact T0.
Qed.

Import BitmapDevice.

Definition sample_device : device := Device.mkDevice Device.gBitmapSink Bitmap.sample true.

Lemma sample_device_ok : frames_ok (pmm (mkMachine sample_mem sample_device 0x8000 [])).
Proof. split_and!; [done | done | apply Bitmap.sample_ok | by vm_compute]. Qed.

Definition sample_machine : machine device := mkMachine sample_mem sample_device 0x8000 [].

Lemma sample_used : tables_used sample_tables (pmm (mkMachine sample_mem sample_device 0x8000 [])).
Proof.
  intros t x. unfold sample_tables. rewrite !lookup_insert, lookup_singleton.
  repeat case_decide; subst; intros; try done; by vm_compute.
Qed.

Lemma query_is_hardware_translation_witness :
  space_ok sample_space (mem sample_machine) sample_tables /\
  KePtQueryPage (Some sample_space) sample_mem sample_va true =
    (EC_SUCCESS, Some (mkMapping true false true 1 PAGE_4KB 0x5000 0x5067)).
Proof.
  split; [exact sample_space_ok|].
  etrans; [apply (query_is_hardware_translation sample_space sample_machine sample_tables sample_va
             sample_space_ok); by vm_compute|]. by vm_compute.
Defined.

(** The page next to the mapped one: the leaf table is there already. *)
Lemma map_page_all_or_nothing_witness :
  exists st s',
    KePtMapPage (Some sample_space) (sample_va + 0x1000) 0x7000 PTE_WRITABLE sample_machine = Ok (st, s') /\
    map_outcome sample_root sample_tables (sample_va + 0x1000) 0x7000 PTE_WRITABLE sample_machine st s' /\
    st = EC_SUCCESS /\ invalidated s' = [sample_va + 0x1000].
Proof.
  destruct (map_page_all_or_nothing sample_space sample_machine sample_tables (sample_va + 0x1000) 0x7000
    PTE_WRITABLE sample_space_ok sample_device_ok sample_used) as (st & s' & E & Ho);
    [by vm_compute.. | by split |].
  exists st, s'. split; [exact E|]. split; [exact Ho|].
  assert (Hr : match KePtMapPage (Some sample_space) (sample_va + 0x1000) 0x7000 PTE_WRITABLE sample_machine with
               | Ok (st, s') => st = EC_SUCCESS /\ invalidated s' = [sample_va + 0x1000]
               | _ => False
               end) by (vm_compute; split; reflexivity).
  rewrite E in Hr. exact Hr.
Defined.

Lemma sample_translation :
  translate sample_mem sample_root sample_va = Some (mkMapping true false true 1 PAGE_4KB 0x5000 0x5067).
Proof. vm_compute. reflexivity. Qed.

Lemma unmap_page_removes_one_witness :
  space_ok sample_space (mem sample_machine) sample_tables /\
  translate (mem (snd (KePtUnmapPage (Some sample_space) sample_va sample_machine))) sample_root sample_va = None.
Proof.
  split; [exact sample_space_ok|].
  pose proof (unmap_page_removes_one sample_space sample_machine sample_tables sample_va sample_space_ok
    ltac:(vm_compute; split; congruence) eq_refl) as Hu. cbv zeta in Hu.
  destruct (KePtUnmapPage (Some sample_space) sample_va sample_machine) as [st s'].
  change (RootPageTablePhys sample_space) with sample_root in Hu.
  change (mem sample_machine) with sample_mem in Hu. rewrite sample_translation in Hu.
  cbn [Level Z.eqb Pos.eqb] in Hu. exact (proj1 (proj2 Hu)).
Defined.

Lemma protect_page_keeps_frame_witness :
  space_ok sample_space (mem sample_machine) sample_tables /\
  exists user, translate (mem (snd (KePtProtectPage (Some sample_space) sample_va PTE_NO_EXECUTE sample_machine)))
      sample_root sample_va =
    Some (mkMapping true false user 1 PAGE_4KB 0x5000 (protected_value 0x5067 PTE_NO_EXECUTE)).
Proof.
  split; [exact sample_space_ok|].
  pose proof (protect_page_keeps_frame sample_space sample_machine sample_tables sample_va PTE_NO_EXECUTE
    sample_space_ok ltac:(vm_compute; split; congruence) eq_refl) as Hu. cbv zeta in Hu.
  destruct (KePtProtectPage (Some sample_space) sample_va PTE_NO_EXECUTE sample_machine) as [st s'].
  change (RootPageTablePhys sample_space) with sample_root in Hu.
  change (mem sample_machine) with sample_mem in Hu. rewrite sample_translation in Hu.
  cbn [Level Z.eqb Pos.eqb PhysicalBase Attributes] in Hu.
  destruct Hu as (_ & (user & Hu & _) & _). exists user. exact Hu.
Defined.

Lemma create_process_space_shares_high_half_witness :
  space_ok sample_space (mem sample_machine) sample_tables /\
  exists s' ps, KeCreateProcessAddressSpace sample_space true sample_machine = Ok (EC_SUCCESS, s', Some ps) /\
    translate (mem s') (PsRootPageTablePhys ps) sample_va =
      Some (mkMapping true false true 1 PAGE_4KB 0x5000 0x5067).
Proof.
  split; [exact sample_space_ok|].
  destruct (create_process_space_shares_high_half sample_space sample_machine sample_tables sample_space_ok
    sample_device_ok sample_used) as (st & s' & out & E & _ & Hout).
  destruct out as [ps|].
  - destruct Hout as (-> & _ & _ & _ & Ht). exists s', ps. split; [exact E|].
    destruct (Ht sample_va) as [_ Hv]; [vm_compute; split; congruence|]. rewrite Hv.
    vm_compute. reflexivity.
  - exfalso. destruct Hout as [Hst _]. apply Hst.
    assert (Hr : match KeCreateProcessAddressSpace sample_space true sample_machine with
                 | Ok (st, _, _) => st = EC_SUCCESS
                 | _ => False
                 end) by (vm_compute; reflexivity).
    rewrite E in Hr. exact Hr.
Defined.

End PageTable.
