(* ===== verification/Sched.v ===== *)
(** * Threads, dispatcher objects and the scheduler ([ke/thread/], [ke/thread/scheduler/])

    The state is the kernel's globals and its thread and dispatcher objects.  An
    intrusive ring is the list of its elements in [Flink] order, which the
    refinement theorem of [LinkedList] justifies; an insertion of a link that is
    already on a ring, and a [LinkedListInit] of one, would corrupt that ring in
    C and is [Oob] here.  A thread is its [KTHREAD]'s address (0 is NULL); its wait block, ready
    link and IRQL state are identified by that address, and its completion event
    is the object [Completion t].

    A context switch suspends the caller: [KiSchedule] takes the frames its
    callers leave on the kernel stack, saves them as the thread's context and
    returns [Switched]; [resume] runs the frames of the thread switched to.

    What the scheduler calls in other components (address space, pool, stacks,
    clock, user-runtime hooks) is the interface [Services].  The finalize hook
    calls back: it signals completion events with [KeSetEvent] in the middle of
    [KiFinalizeThread], and when the idle thread reaps, such a call can switch to
    the thread it wakes.  The hook is therefore a list of stages, each up to its
    next [KeSetEvent], and what is left of it a frame ([InFinalize]). *)

From S2P Require Import Prelude Irql.

Local Open Scope Z_scope.
Import Irql.

(** ** The interface to the other components *)

(** The user-runtime hooks are [option]s: a hook may not be registered.  A stage
    of the finalize hook ends with a status and possibly the address of an event
    that the hook sets then. *)
Class Services (W : Type) := {
  OwnsThreadHook : W -> option (Z -> bool);
  EnterHook : W -> option (Z -> W -> W);
  ResolveRootHook : W -> option (Z -> HO_STATUS * Z);
  FinalizeThreadHook : W -> option (Z -> list (W -> HO_STATUS * option Z * W));
  ObserveTimerHook : W -> option (Z -> W -> W);
  SwitchAddressSpace : Z -> W -> HO_STATUS * W;
  ReleaseStack : Z -> W -> HO_STATUS * W;          (* KeKvaReleaseRangeHandle *)
  AllocStack : W -> HO_STATUS * (Z * Z * Z) * W;     (* handle, usable base, range base *)
  MapStack : Z -> W -> HO_STATUS * W;              (* KeKvaMapOwnedPages *)
  PoolAlloc : W -> res (Z * W);
  PoolFree : Z -> W -> res W;
  SystemUpRealTime : W -> Z * W;                   (* microseconds *)
  MinDeltaNs : W -> Z;
  MaxDeltaNs : W -> Z;
  SetNextEvent : Z -> W -> HO_STATUS * W;
  OnClockInterrupt : W -> W;
  RegisterTimerISR : W -> HO_STATUS * W;
  BootStackTop : W -> Z
}.

Module Sched.

(** ** Data ([kthread.h], [dispatcher.h], [scheduler.h]) *)

Inductive KTHREAD_STATE :=
| KTHREAD_STATE_NEW
| KTHREAD_STATE_READY
| KTHREAD_STATE_RUNNING
| KTHREAD_STATE_BLOCKED
| KTHREAD_STATE_TERMINATED.

Inductive KTHREAD_TERMINATION_MODE :=
| KTHREAD_TERMINATION_MODE_DETACHED
| KTHREAD_TERMINATION_MODE_JOINABLE.

Inductive KTHREAD_TERMINATION_CLAIM_STATE :=
| CLAIM_UNCLAIMED
| CLAIM_JOIN_IN_PROGRESS
| CLAIM_CONSUMED.

#[export] Instance KTHREAD_STATE_eq_dec : EqDecision KTHREAD_STATE.
Proof. solve_decision. Defined.
#[export] Instance TERMINATION_MODE_eq_dec : EqDecision KTHREAD_TERMINATION_MODE.
Proof. solve_decision. Defined.
#[export] Instance CLAIM_STATE_eq_dec : EqDecision KTHREAD_TERMINATION_CLAIM_STATE.
Proof. solve_decision. Defined.

Definition KTHREAD_PRIORITY_COUNT : Z := 3.
Definition KTHREAD_DEFAULT_PRIORITY : Z := 1.
Definition KTHREAD_FLAG_IDLE : Z := 1.
Definition KDISPATCHER_SIGNATURE : Z := 0x4B444953.
Definition KE_WAIT_INFINITE : Z := 0xFFFFFFFFFFFFFFFF.
Definition KE_DEFAULT_QUANTUM_NS : Z := 10000000.
Definition KE_THREAD_STACK_SIZE : Z := 4 * 0x1000.
Definition HO_STACK_SIZE : Z := 16384.

Definition DISPATCHER_TYPE_EVENT : Z := 0.
Definition DISPATCHER_TYPE_SEMAPHORE : Z := 1.
Definition DISPATCHER_TYPE_MUTEX : Z := 2.

(** The address of a dispatcher object. *)
Inductive OBJ := Standalone (a : Z) | Completion (t : Z).

#[export] Instance OBJ_eq_dec : EqDecision OBJ.
Proof. solve_decision. Defined.
#[export] Instance OBJ_countable : Countable OBJ.
Proof.
  refine (inj_countable'
    (fun o => match o with Standalone a => inl a | Completion t => inr t end)
    (fun x => match x with inl a => Standalone a | inr t => Completion t end) _).
  by intros [].
Defined.

(** The two links of a wait block are its membership in the object's wait list
    and in the timeout queue. *)
Record KWAIT_BLOCK := mkWaitBlock {
  Dispatcher : option OBJ;
  DeadlineNs : Z;
  CompletionStatus : HO_STATUS;
  Completed : bool
}.

(** [KDISPATCHER_HEADER] and the fields that follow it in a [KSEMAPHORE]
    ([Limit]) and in a [KMUTEX] ([OwnerThread]); an event has neither. *)
Record DISPATCHER := mkDispatcher {
  Signature : Z;
  DType : Z;
  SignalState : Z;
  WaitList : list Z;
  Limit : Z;
  OwnerThread : Z
}.

Record KTHREAD := mkThread {
  ThreadId : Z;
  State : KTHREAD_STATE;
  StackBase : Z;
  StackSize : Z;
  StackGuardBase : Z;
  StackOwnedByKva : bool;
  StackRange : Z;
  Priority : Z;
  Quantum : Z;
  OwnedMutexCount : Z;
  WaitBlock : KWAIT_BLOCK;
  TerminationMode : KTHREAD_TERMINATION_MODE;
  TerminationClaimState : KTHREAD_TERMINATION_CLAIM_STATE;
  EntryPoint : Z;
  EntryArg : Z;
  Flags : Z
}.

Record KE_SCHEDULER_STATS := mkStats {
  ActiveThreadCount : Z;
  ContextSwitchCount : Z;
  PreemptionCount : Z;
  YieldCount : Z;
  SleepWakeCount : Z;
  TotalThreadsCreated : Z
}.

(** What a suspended routine still has to do, with the locals it needs: the
    return addresses on a thread's kernel stack. *)
Inductive FRAME :=
| InTrampoline
| InYield (g : KE_IRQL_GUARD)
| InSleep (g : KE_IRQL_GUARD)
| InWait (g : KE_IRQL_GUARD)
| InSetEvent (g : KE_IRQL_GUARD)
| InReleaseSemaphore (g : KE_IRQL_GUARD)
| InJoin (thread : Z)
| InFinalize (thread : Z) (stage : nat)
| InReap
| InExitAfterSet (thread : Z) (cs : KE_CRITICAL_SECTION)
| InExitAfterSchedule
| InTimerInterrupt.

Record SCHED (W : Type) := mkSched {
  threads : gmap Z KTHREAD;
  objects : gmap OBJ DISPATCHER;
  SavedContext : gmap Z (list FRAME);
  gReadyQueues : list (list Z);
  gTimeoutQueue : list Z;
  gTerminatedList : list Z;
  gCurrentThread : Z;
  gIdleThread : Z;
  gSchedulerEnabled : bool;
  gQuantumDeadlineNs : Z;
  gNextProgrammedDeadlineNs : Z;
  gStats : KE_SCHEDULER_STATS;
  gNextThreadId : Z;
  TssRSP0 : Z;
  Cpu : cpu;
  Svc : W
}.
Arguments mkSched {W}.
Arguments threads {W}.
Arguments objects {W}.
Arguments SavedContext {W}.
Arguments gReadyQueues {W}.
Arguments gTimeoutQueue {W}.
Arguments gTerminatedList {W}.
Arguments gCurrentThread {W}.
Arguments gIdleThread {W}.
Arguments gSchedulerEnabled {W}.
Arguments gQuantumDeadlineNs {W}.
Arguments gNextProgrammedDeadlineNs {W}.
Arguments gStats {W}.
Arguments gNextThreadId {W}.
Arguments TssRSP0 {W}.
Arguments Cpu {W}.
Arguments Svc {W}.

(** How a kernel call ends: it returns to its caller, or the processor has been
    switched to another thread, whose frames are to be resumed. *)
Inductive outcome (W A : Type) :=
| Done (a : A) (s : SCHED W)
| Switched (s : SCHED W).
Arguments Done {W A}.
Arguments Switched {W A}.

(** *** Field updates *)

Definition set_State (x : KTHREAD_STATE) (t : KTHREAD) : KTHREAD :=
  mkThread (ThreadId t) x (StackBase t) (StackSize t) (StackGuardBase t) (StackOwnedByKva t)
    (StackRange t) (Priority t) (Quantum t) (OwnedMutexCount t) (WaitBlock t) (TerminationMode t)
    (TerminationClaimState t) (EntryPoint t) (EntryArg t) (Flags t).
Definition set_Quantum (x : Z) (t : KTHREAD) : KTHREAD :=
  mkThread (ThreadId t) (State t) (StackBase t) (StackSize t) (StackGuardBase t) (StackOwnedByKva t)
    (StackRange t) (Priority t) x (OwnedMutexCount t) (WaitBlock t) (TerminationMode t)
    (TerminationClaimState t) (EntryPoint t) (EntryArg t) (Flags t).
Definition set_OwnedMutexCount (x : Z) (t : KTHREAD) : KTHREAD :=
  mkThread (ThreadId t) (State t) (StackBase t) (StackSize t) (StackGuardBase t) (StackOwnedByKva t)
    (StackRange t) (Priority t) (Quantum t) x (WaitBlock t) (TerminationMode t)
    (TerminationClaimState t) (EntryPoint t) (EntryArg t) (Flags t).
Definition set_WaitBlock (x : KWAIT_BLOCK) (t : KTHREAD) : KTHREAD :=
  mkThread (ThreadId t) (State t) (StackBase t) (StackSize t) (StackGuardBase t) (StackOwnedByKva t)
    (StackRange t) (Priority t) (Quantum t) (OwnedMutexCount t) x (TerminationMode t)
    (TerminationClaimState t) (EntryPoint t) (EntryArg t) (Flags t).
Definition set_TerminationMode (x : KTHREAD_TERMINATION_MODE) (t : KTHREAD) : KTHREAD :=
  mkThread (ThreadId t) (State t) (StackBase t) (StackSize t) (StackGuardBase t) (StackOwnedByKva t)
    (StackRange t) (Priority t) (Quantum t) (OwnedMutexCount t) (WaitBlock t) x
    (TerminationClaimState t) (EntryPoint t) (EntryArg t) (Flags t).
Definition set_Claim (x : KTHREAD_TERMINATION_CLAIM_STATE) (t : KTHREAD) : KTHREAD :=
  mkThread (ThreadId t) (State t) (StackBase t) (StackSize t) (StackGuardBase t) (StackOwnedByKva t)
    (StackRange t) (Priority t) (Quantum t) (OwnedMutexCount t) (WaitBlock t) (TerminationMode t)
    x (EntryPoint t) (EntryArg t) (Flags t).

Definition set_SignalState (x : Z) (d : DISPATCHER) : DISPATCHER :=
  mkDispatcher (Signature d) (DType d) x (WaitList d) (Limit d) (OwnerThread d).
Definition set_WaitList (x : list Z) (d : DISPATCHER) : DISPATCHER :=
  mkDispatcher (Signature d) (DType d) (SignalState d) x (Limit d) (OwnerThread d).
Definition set_Owner (x : Z) (d : DISPATCHER) : DISPATCHER :=
  mkDispatcher (Signature d) (DType d) (SignalState d) (WaitList d) (Limit d) x.

Definition set_threads {W} (x : gmap Z KTHREAD) (s : SCHED W) : SCHED W :=
  mkSched x (objects s) (SavedContext s) (gReadyQueues s) (gTimeoutQueue s) (gTerminatedList s)
    (gCurrentThread s) (gIdleThread s) (gSchedulerEnabled s) (gQuantumDeadlineNs s)
    (gNextProgrammedDeadlineNs s) (gStats s) (gNextThreadId s) (TssRSP0 s) (Cpu s) (Svc s).
Definition set_objects {W} (x : gmap OBJ DISPATCHER) (s : SCHED W) : SCHED W :=
  mkSched (threads s) x (SavedContext s) (gReadyQueues s) (gTimeoutQueue s) (gTerminatedList s)
    (gCurrentThread s) (gIdleThread s) (gSchedulerEnabled s) (gQuantumDeadlineNs s)
    (gNextProgrammedDeadlineNs s) (gStats s) (gNextThreadId s) (TssRSP0 s) (Cpu s) (Svc s).
Definition set_SavedContext {W} (x : gmap Z (list FRAME)) (s : SCHED W) : SCHED W :=
  mkSched (threads s) (objects s) x (gReadyQueues s) (gTimeoutQueue s) (gTerminatedList s)
    (gCurrentThread s) (gIdleThread s) (gSchedulerEnabled s) (gQuantumDeadlineNs s)
    (gNextProgrammedDeadlineNs s) (gStats s) (gNextThreadId s) (TssRSP0 s) (Cpu s) (Svc s).
Definition set_ReadyQueues {W} (x : list (list Z)) (s : SCHED W) : SCHED W :=
  mkSched (threads s) (objects s) (SavedContext s) x (gTimeoutQueue s) (gTerminatedList s)
    (gCurrentThread s) (gIdleThread s) (gSchedulerEnabled s) (gQuantumDeadlineNs s)
    (gNextProgrammedDeadlineNs s) (gStats s) (gNextThreadId s) (TssRSP0 s) (Cpu s) (Svc s).
Definition set_TimeoutQueue {W} (x : list Z) (s : SCHED W) : SCHED W :=
  mkSched (threads s) (objects s) (SavedContext s) (gReadyQueues s) x (gTerminatedList s)
    (gCurrentThread s) (gIdleThread s) (gSchedulerEnabled s) (gQuantumDeadlineNs s)
    (gNextProgrammedDeadlineNs s) (gStats s) (gNextThreadId s) (TssRSP0 s) (Cpu s) (Svc s).
Definition set_TerminatedList {W} (x : list Z) (s : SCHED W) : SCHED W :=
  mkSched (threads s) (objects s) (SavedContext s) (gReadyQueues s) (gTimeoutQueue s) x
    (gCurrentThread s) (gIdleThread s) (gSchedulerEnabled s) (gQuantumDeadlineNs s)
    (gNextProgrammedDeadlineNs s) (gStats s) (gNextThreadId s) (TssRSP0 s) (Cpu s) (Svc s).
Definition set_CurrentThread {W} (x : Z) (s : SCHED W) : SCHED W :=
  mkSched (threads s) (objects s) (SavedContext s) (gReadyQueues s) (gTimeoutQueue s) (gTerminatedList s)
    x (gIdleThread s) (gSchedulerEnabled s) (gQuantumDeadlineNs s)
    (gNextProgrammedDeadlineNs s) (gStats s) (gNextThreadId s) (TssRSP0 s) (Cpu s) (Svc s).
Definition set_Deadlines {W} (q n : Z) (s : SCHED W) : SCHED W :=
  mkSched (threads s) (objects s) (SavedContext s) (gReadyQueues s) (gTimeoutQueue s) (gTerminatedList s)
    (gCurrentThread s) (gIdleThread s) (gSchedulerEnabled s) q
    n (gStats s) (gNextThreadId s) (TssRSP0 s) (Cpu s) (Svc s).
Definition set_Stats {W} (x : KE_SCHEDULER_STATS) (s : SCHED W) : SCHED W :=
  mkSched (threads s) (objects s) (SavedContext s) (gReadyQueues s) (gTimeoutQueue s) (gTerminatedList s)
    (gCurrentThread s) (gIdleThread s) (gSchedulerEnabled s) (gQuantumDeadlineNs s)
    (gNextProgrammedDeadlineNs s) x (gNextThreadId s) (TssRSP0 s) (Cpu s) (Svc s).
Definition set_NextThreadId {W} (x : Z) (s : SCHED W) : SCHED W :=
  mkSched (threads s) (objects s) (SavedContext s) (gReadyQueues s) (gTimeoutQueue s) (gTerminatedList s)
    (gCurrentThread s) (gIdleThread s) (gSchedulerEnabled s) (gQuantumDeadlineNs s)
    (gNextProgrammedDeadlineNs s) (gStats s) x (TssRSP0 s) (Cpu s) (Svc s).
Definition set_RSP0 {W} (x : Z) (s : SCHED W) : SCHED W :=
  mkSched (threads s) (objects s) (SavedContext s) (gReadyQueues s) (gTimeoutQueue s) (gTerminatedList s)
    (gCurrentThread s) (gIdleThread s) (gSchedulerEnabled s) (gQuantumDeadlineNs s)
    (gNextProgrammedDeadlineNs s) (gStats s) (gNextThreadId s) x (Cpu s) (Svc s).
Definition set_Cpu {W} (x : cpu) (s : SCHED W) : SCHED W :=
  mkSched (threads s) (objects s) (SavedContext s) (gReadyQueues s) (gTimeoutQueue s) (gTerminatedList s)
    (gCurrentThread s) (gIdleThread s) (gSchedulerEnabled s) (gQuantumDeadlineNs s)
    (gNextProgrammedDeadlineNs s) (gStats s) (gNextThreadId s) (TssRSP0 s) x (Svc s).
Definition set_Svc {W} (x : W) (s : SCHED W) : SCHED W :=
  mkSched (threads s) (objects s) (SavedContext s) (gReadyQueues s) (gTimeoutQueue s) (gTerminatedList s)
    (gCurrentThread s) (gIdleThread s) (gSchedulerEnabled s) (gQuantumDeadlineNs s)
    (gNextProgrammedDeadlineNs s) (gStats s) (gNextThreadId s) (TssRSP0 s) (Cpu s) x.

Section operations.
Context {W : Type} {SV : Services W}.
Implicit Types (s : SCHED W) (t : Z) (k : list FRAME).

(** ** Memory accesses *)

Definition get_thread t s : res KTHREAD :=
  match threads s !! t with Some th => Ok th | None => Oob end.
Definition put_thread t (th : KTHREAD) s : SCHED W := set_threads (<[t := th]> (threads s)) s.
Definition upd_thread t (f : KTHREAD -> KTHREAD) s : res (SCHED W) :=
  let* th := get_thread t s in Ok (put_thread t (f th) s).

Definition get_object (o : OBJ) s : res DISPATCHER :=
  match objects s !! o with Some d => Ok d | None => Oob end.
Definition put_object (o : OBJ) (d : DISPATCHER) s : SCHED W := set_objects (<[o := d]> (objects s)) s.

(** ** IRQL guards and critical sections on the scheduler's processor *)

Definition acquire_irql s : res (KE_IRQL_GUARD * SCHED W) :=
  let* (g, c) := KeAcquireIrqlGuard (Some fresh_guard) KE_IRQL_DISPATCH_LEVEL (Cpu s) in
  Ok (g, set_Cpu c s).
Definition release_irql (g : KE_IRQL_GUARD) s : res (SCHED W) :=
  let* (_, c) := KeReleaseIrqlGuard (Some g) (Cpu s) in Ok (set_Cpu c s).
Definition enter_critical (cs : KE_CRITICAL_SECTION) s : res (KE_CRITICAL_SECTION * SCHED W) :=
  let* (cs, c) := KeEnterCriticalSection (Some cs) (Cpu s) in Ok (cs, set_Cpu c s).
Definition leave_critical (cs : KE_CRITICAL_SECTION) s : res (KE_CRITICAL_SECTION * SCHED W) :=
  let* (cs, c) := KeLeaveCriticalSection (Some cs) (Cpu s) in Ok (cs, set_Cpu c s).

Definition KiAssertBlockingAllowed s : res unit :=
  let* b := KeIsBlockingAllowed (Cpu s) in HO_KASSERT b EC_INVALID_STATE.
Definition KiAssertDispatchLevel s : res unit :=
  let* l := KeGetCurrentIrql (Cpu s) in
  HO_KASSERT (bool_decide (l = KE_IRQL_DISPATCH_LEVEL)) EC_INVALID_STATE.

(** ** Statistics (the 32- and 64-bit counters wrap around) *)

Definition count_switch s : SCHED W :=
  let g := gStats s in
  set_Stats (mkStats (ActiveThreadCount g) (u64 (ContextSwitchCount g + 1)) (PreemptionCount g)
    (YieldCount g) (SleepWakeCount g) (TotalThreadsCreated g)) s.
Definition count_preemption s : SCHED W :=
  let g := gStats s in
  set_Stats (mkStats (ActiveThreadCount g) (ContextSwitchCount g) (u64 (PreemptionCount g + 1))
    (YieldCount g) (SleepWakeCount g) (TotalThreadsCreated g)) s.
Definition count_yield s : SCHED W :=
  let g := gStats s in
  set_Stats (mkStats (ActiveThreadCount g) (ContextSwitchCount g) (PreemptionCount g)
    (u64 (YieldCount g + 1)) (SleepWakeCount g) (TotalThreadsCreated g)) s.
Definition count_sleep_wake s : SCHED W :=
  let g := gStats s in
  set_Stats (mkStats (ActiveThreadCount g) (ContextSwitchCount g) (PreemptionCount g)
    (YieldCount g) (u64 (SleepWakeCount g + 1)) (TotalThreadsCreated g)) s.
Definition count_started s : SCHED W :=
  let g := gStats s in
  set_Stats (mkStats (u32 (ActiveThreadCount g + 1)) (ContextSwitchCount g) (PreemptionCount g)
    (YieldCount g) (SleepWakeCount g) (u64 (TotalThreadsCreated g + 1))) s.
Definition count_exit s : SCHED W :=
  let g := gStats s in
  set_Stats (mkStats (u32 (ActiveThreadCount g - 1)) (ContextSwitchCount g) (PreemptionCount g)
    (YieldCount g) (SleepWakeCount g) (TotalThreadsCreated g)) s.

(** ** Ready queues ([scheduler_internal.h]) *)

Definition KiIsValidThreadPriority (priority : Z) : bool := priority <? KTHREAD_PRIORITY_COUNT.

(** The queue is designated by its index. *)
Definition KiGetReadyQueueForPriority (priority : Z) : res Z :=
  let* _ := HO_KASSERT (KiIsValidThreadPriority priority) EC_ILLEGAL_ARGUMENT in
  Ok priority.

Definition KiGetReadyQueueForThread t s : res Z :=
  let* _ := HO_KASSERT (negb (t =? 0)) EC_ILLEGAL_ARGUMENT in
  let* th := get_thread t s in
  KiGetReadyQueueForPriority (Priority th).

Definition nonempty {A} (l : list A) : bool := match l with [] => false | _ => true end.

Definition KiHasAnyReadyThread s : bool := existsb nonempty (gReadyQueues s).

(** [priority] counts down from the highest; [n] is the number of queues left. *)
Fixpoint highest_from (n : nat) (qs : list (list Z)) : res (option Z) :=
  match n with
  | O => Ok None
  | S n' =>
      let* q := rd qs (Z.of_nat n') in
      if nonempty q then Ok (Some (Z.of_nat n')) else highest_from n' qs
  end.

Definition KiGetHighestPriorityReadyQueue s : res (option Z) :=
  highest_from (Z.to_nat KTHREAD_PRIORITY_COUNT) (gReadyQueues s).

Definition KiCountAllReadyThreads s : Z :=
  fold_left (fun count q => u32 (count + Z.of_nat (length q))) (gReadyQueues s) 0.

(** Is the thread's [ReadyLink] on a ring? *)
Definition ready_linked t s : bool :=
  existsb (fun q => bool_decide (t ∈ q)) (gReadyQueues s) || bool_decide (t ∈ gTerminatedList s).

(** [LinkedListInsertTail(&gReadyQueues[p], &thread->ReadyLink)]. *)
Definition insert_ready (p : Z) t s : res (SCHED W) :=
  if ready_linked t s then Oob else
  let* q := rd (gReadyQueues s) p in
  let* qs := wr (gReadyQueues s) p (q ++ [t]) in
  Ok (set_ReadyQueues qs s).

(** Set a thread ready and queue it: the pair of statements that every wake-up,
    start, yield and preemption consists of. *)
Definition make_ready t s : res (SCHED W) :=
  let* s := upd_thread t (set_State KTHREAD_STATE_READY) s in
  let* p := KiGetReadyQueueForThread t s in
  insert_ready p t s.

(** ** Clock events ([timer.c]) *)

Definition KiNowNs s : Z * SCHED W :=
  let '(us, w) := SystemUpRealTime (Svc s) in (u64 (us * 1000), set_Svc w s).

Definition KiArmClockEvent (deltaNs : Z) s : SCHED W :=
  if deltaNs =? 0 then s else
  let minDelta := MinDeltaNs (Svc s) in
  let maxDelta := MaxDeltaNs (Svc s) in
  let deltaNs := if (0 <? minDelta) && (deltaNs <? minDelta) then minDelta else deltaNs in
  let deltaNs := if (0 <? maxDelta) && (maxDelta <? deltaNs) then maxDelta else deltaNs in
  let '(_, w) := SetNextEvent deltaNs (Svc s) in
  set_Svc w s.

Definition KiArmForNextEvent (nowNs : Z) (next : Z) s : res (SCHED W) :=
  if next =? gIdleThread s then
    match gTimeoutQueue s with
    | b :: _ =>
        let* block := get_thread b s in
        let deadline := DeadlineNs (WaitBlock block) in
        let delta := if nowNs <? deadline then deadline - nowNs else 1 in
        let s := set_Deadlines (gQuantumDeadlineNs s) deadline s in
        Ok (KiArmClockEvent delta s)
    | [] => Ok (set_Deadlines (gQuantumDeadlineNs s) 0 s)
    end
  else
    let* s := upd_thread next (set_Quantum KE_DEFAULT_QUANTUM_NS) s in
    let quantum := u64 (nowNs + KE_DEFAULT_QUANTUM_NS) in
    let* targetDeadline :=
      match gTimeoutQueue s with
      | b :: _ =>
          let* block := get_thread b s in
          Ok (if DeadlineNs (WaitBlock block) <? quantum then DeadlineNs (WaitBlock block) else quantum)
      | [] => Ok quantum
      end in
    let delta := if nowNs <? targetDeadline then targetDeadline - nowNs else 1 in
    Ok (KiArmClockEvent delta (set_Deadlines quantum targetDeadline s)).

(** ** The timeout queue ([timer.c]) *)

(** The walk to the first block with a later deadline, and the splice there. *)
Fixpoint insert_by_deadline t (deadline : Z) (q : list Z) s : res (list Z) :=
  match q with
  | [] => Ok [t]
  | x :: r =>
      let* existing := get_thread x s in
      if deadline <? DeadlineNs (WaitBlock existing) then Ok (t :: x :: r)
      else let* r := insert_by_deadline t deadline r s in Ok (x :: r)
  end.

Definition KiInsertTimeoutQueue t s : res (SCHED W) :=
  if bool_decide (t ∈ gTimeoutQueue s) then Oob else
  let* th := get_thread t s in
  let* q := insert_by_deadline t (DeadlineNs (WaitBlock th)) (gTimeoutQueue s) s in
  Ok (set_TimeoutQueue q s).

(** ** Wait blocks ([wait.c]) *)

(** [KiInitWaitBlock]: initialising a link that is on a ring would corrupt it. *)
Definition KiInitWaitBlock t s : res (SCHED W) :=
  if bool_decide (map_Exists (fun _ d => t ∈ WaitList d) (objects s)) ||
     bool_decide (t ∈ gTimeoutQueue s)
  then Oob
  else upd_thread t (set_WaitBlock (mkWaitBlock None 0 EC_SUCCESS false)) s.

Definition KiValidateDispatcherHeader (header : option OBJ) s : res HO_STATUS :=
  match header with
  | None => Ok EC_ILLEGAL_ARGUMENT
  | Some o =>
      let* d := get_object o s in
      if negb (Signature d =? KDISPATCHER_SIGNATURE) then Ok EC_INVALID_STATE
      else if (DType d =? DISPATCHER_TYPE_EVENT) || (DType d =? DISPATCHER_TYPE_SEMAPHORE) ||
              (DType d =? DISPATCHER_TYPE_MUTEX)
      then Ok EC_SUCCESS
      else Ok EC_NOT_SUPPORTED
  end.

Definition KiCompleteWait t (status : HO_STATUS) s : res (SCHED W) :=
  let* th := get_thread t s in
  let block := WaitBlock th in
  if Completed block then Ok s else
  let s := put_thread t (set_WaitBlock (mkWaitBlock (Dispatcher block) (DeadlineNs block) status true) th) s in
  let* s :=
    match Dispatcher block with
    | None => Ok s
    | Some o =>
        let* d := get_object o s in
        Ok (put_object o (set_WaitList (filter (.≠ t) (WaitList d)) d) s)
    end in
  let s :=
    if negb (DeadlineNs block =? 0)
    then set_TimeoutQueue (filter (.≠ t) (gTimeoutQueue s)) s else s in
  let* s := make_ready t s in
  Ok (if bool_decide (status = EC_TIMEOUT) then count_sleep_wake s else s).

Fixpoint wake_timeouts (fuel : nat) (nowNs : Z) s : res (SCHED W) :=
  match fuel with
  | O => NoFuel
  | S fuel =>
      match gTimeoutQueue s with
      | [] => Ok s
      | b :: _ =>
          let* block := get_thread b s in
          if nowNs <? DeadlineNs (WaitBlock block) then Ok s
          else let* s := KiCompleteWait b EC_TIMEOUT s in wake_timeouts fuel nowNs s
      end
  end.

Definition KiWakeTimeouts (nowNs : Z) s : res (SCHED W) :=
  wake_timeouts (S (length (gTimeoutQueue s))) nowNs s.

(** ** Mutexes and semaphores ([sync.c]) *)

Definition KiAssertMutexState (d : DISPATCHER) : res unit :=
  let* _ := HO_KASSERT (Signature d =? KDISPATCHER_SIGNATURE) EC_INVALID_STATE in
  let* _ := HO_KASSERT (DType d =? DISPATCHER_TYPE_MUTEX) EC_NOT_SUPPORTED in
  let* _ := HO_KASSERT ((SignalState d =? 0) || (SignalState d =? 1)) EC_INVALID_STATE in
  if negb (SignalState d =? 0)
  then HO_KASSERT (OwnerThread d =? 0) EC_INVALID_STATE
  else HO_KASSERT (negb (OwnerThread d =? 0)) EC_INVALID_STATE.

Definition KiAssertSemaphoreState (d : DISPATCHER) : res unit :=
  let* _ := HO_KASSERT (Signature d =? KDISPATCHER_SIGNATURE) EC_INVALID_STATE in
  let* _ := HO_KASSERT (DType d =? DISPATCHER_TYPE_SEMAPHORE) EC_NOT_SUPPORTED in
  let* _ := HO_KASSERT (0 <? Limit d) EC_INVALID_STATE in
  let* _ := HO_KASSERT (0 <=? SignalState d) EC_INVALID_STATE in
  HO_KASSERT (SignalState d <=? Limit d) EC_INVALID_STATE.

Definition KiIncrementOwnedMutexCount t s : res (SCHED W) :=
  let* _ := HO_KASSERT (negb (t =? 0)) EC_ILLEGAL_ARGUMENT in
  let* th := get_thread t s in
  let* _ := HO_KASSERT (negb (OwnedMutexCount th =? 0xFFFFFFFF)) EC_OUT_OF_RESOURCE in
  Ok (put_thread t (set_OwnedMutexCount (u32 (OwnedMutexCount th + 1)) th) s).

Definition KiDecrementOwnedMutexCount t s : res (SCHED W) :=
  let* _ := HO_KASSERT (negb (t =? 0)) EC_ILLEGAL_ARGUMENT in
  let* th := get_thread t s in
  let* _ := HO_KASSERT (negb (OwnedMutexCount th =? 0)) EC_INVALID_STATE in
  Ok (put_thread t (set_OwnedMutexCount (u32 (OwnedMutexCount th - 1)) th) s).

Definition KiAcquireMutexOwnership (o : OBJ) t s : res (SCHED W) :=
  let* _ := HO_KASSERT (negb (t =? 0)) EC_ILLEGAL_ARGUMENT in
  let* d := get_object o s in
  let* _ := KiAssertMutexState d in
  let* _ := HO_KASSERT (SignalState d =? 1) EC_INVALID_STATE in
  let* _ := HO_KASSERT (OwnerThread d =? 0) EC_INVALID_STATE in
  let d := set_SignalState 0 (set_Owner t d) in
  let* s := KiIncrementOwnedMutexCount t (put_object o d s) in
  let* _ := KiAssertMutexState d in
  Ok s.

Definition KiReleaseMutexOwnership (o : OBJ) s : res (SCHED W) :=
  let* d := get_object o s in
  let* _ := KiAssertMutexState d in
  let owner := OwnerThread d in
  let* _ := HO_KASSERT (negb (owner =? 0)) EC_INVALID_STATE in
  let* s := KiDecrementOwnedMutexCount owner s in
  let d := set_SignalState 1 (set_Owner 0 d) in
  let* _ := KiAssertMutexState d in
  Ok (put_object o d s).

Definition KiHandOffMutexOwnership (o : OBJ) t s : res (SCHED W) :=
  let* _ := HO_KASSERT (negb (t =? 0)) EC_ILLEGAL_ARGUMENT in
  let* d := get_object o s in
  let* _ := KiAssertMutexState d in
  let owner := OwnerThread d in
  let* _ := HO_KASSERT (negb (owner =? 0)) EC_INVALID_STATE in
  let* _ := HO_KASSERT (negb (owner =? t)) EC_INVALID_STATE in
  let* s := KiDecrementOwnedMutexCount owner s in
  let d := set_SignalState 0 (set_Owner t d) in
  let* s := KiIncrementOwnedMutexCount t (put_object o d s) in
  let* _ := KiAssertMutexState d in
  Ok s.

Definition KeInitializeEvent (o : OBJ) (initialState : bool) s : SCHED W :=
  put_object o (mkDispatcher KDISPATCHER_SIGNATURE DISPATCHER_TYPE_EVENT
                  (if initialState then 1 else 0) [] 0 0) s.

(** [semaphore] is [None] for NULL; the counts are 32-bit signed. *)
Definition KeInitializeSemaphore (semaphore : option OBJ) (initialCount limit : Z) s
  : HO_STATUS * SCHED W :=
  match semaphore with
  | None => (EC_ILLEGAL_ARGUMENT, s)
  | Some o =>
      if (initialCount <? 0) || (limit <=? 0) || (limit <? initialCount)
      then (EC_ILLEGAL_ARGUMENT, s)
      else (EC_SUCCESS, put_object o (mkDispatcher KDISPATCHER_SIGNATURE DISPATCHER_TYPE_SEMAPHORE
                                        initialCount [] limit 0) s)
  end.

Definition KeInitializeMutex (mutex : option OBJ) s : res (SCHED W) :=
  match mutex with
  | None => Panic EC_ILLEGAL_ARGUMENT
  | Some o =>
      let d := mkDispatcher KDISPATCHER_SIGNATURE DISPATCHER_TYPE_MUTEX 1 [] 0 0 in
      let* _ := KiAssertMutexState d in
      Ok (put_object o d s)
  end.

(** ** Acquiring without blocking ([wait.c]) *)

Definition KiTryAcquireDispatcherObject (o : OBJ) t s : res (HO_STATUS * bool * SCHED W) :=
  let* d := get_object o s in
  if DType d =? DISPATCHER_TYPE_EVENT then
    Ok (EC_SUCCESS, negb (SignalState d =? 0), s)
  else if DType d =? DISPATCHER_TYPE_SEMAPHORE then
    let* _ := KiAssertSemaphoreState d in
    if SignalState d =? 0 then Ok (EC_SUCCESS, false, s) else
    let d := set_SignalState (SignalState d - 1) d in
    let* _ := HO_KASSERT (0 <=? SignalState d) EC_INVALID_STATE in
    Ok (EC_SUCCESS, true, put_object o d s)
  else if DType d =? DISPATCHER_TYPE_MUTEX then
    let* _ := KiAssertMutexState d in
    if OwnerThread d =? t then Ok (EC_INVALID_STATE, false, s)
    else if SignalState d =? 0 then Ok (EC_SUCCESS, false, s)
    else
      let* s := KiAcquireMutexOwnership o t s in
      Ok (EC_SUCCESS, true, s)
  else Ok (EC_NOT_SUPPORTED, false, s).

(** ** The scheduling decision ([scheduler.c]) *)

Definition KiResolveDispatchRoot t s : res Z :=
  let* _ := HO_KASSERT (negb (t =? 0)) EC_ILLEGAL_ARGUMENT in
  match ResolveRootHook (Svc s) with
  | None => Panic EC_INVALID_STATE
  | Some resolveRootFn =>
      let '(status, root) := resolveRootFn t in
      if bool_decide (status = EC_SUCCESS)
      then if root =? 0 then Panic EC_INVALID_STATE else Ok root
      else Panic status
  end.

(** The thread to run next, taken off its queue. *)
Definition pick_next s : res (Z * SCHED W) :=
  let* readyQueue := KiGetHighestPriorityReadyQueue s in
  match readyQueue with
  | None => Ok (gIdleThread s, s)
  | Some p =>
      let* q := rd (gReadyQueues s) p in
      match q with
      | [] => Panic EC_INVALID_STATE
      | entry :: rest =>
          let* qs := wr (gReadyQueues s) p rest in
          Ok (entry, set_ReadyQueues qs s)
      end
  end.

(** [k] is what is on the caller's stack when [KiSwitchContext] saves it. *)
Definition KiSchedule k s : res (outcome W unit) :=
  let* _ := KiAssertDispatchLevel s in
  let prev := gCurrentThread s in
  let* (next, s) := pick_next s in
  if next =? prev then
    let* s := upd_thread next (set_State KTHREAD_STATE_RUNNING) s in
    let '(nowNs, s) := KiNowNs s in
    let* s := KiArmForNextEvent nowNs next s in
    Ok (Done tt s)
  else
    let* root := KiResolveDispatchRoot next s in
    let* s := upd_thread next (set_State KTHREAD_STATE_RUNNING) s in
    let s := count_switch s in
    let* th := get_thread next s in
    let s := set_RSP0 (u64 (StackBase th + StackSize th)) s in
    let '(nowNs, s) := KiNowNs s in
    let* s := KiArmForNextEvent nowNs next s in
    let '(switchStatus, w) := SwitchAddressSpace root (Svc s) in
    let s := set_Svc w s in
    if negb (bool_decide (switchStatus = EC_SUCCESS)) then Panic switchStatus else
    let s := set_CurrentThread next s in
    let* c := KeSetCurrentIrqlState next (Cpu s) in
    let s := set_Cpu c s in
    Ok (Switched (set_SavedContext (<[prev := k]> (SavedContext s)) s)).

(** A call in the middle of a routine: what follows it runs only if the call
    returns without a context switch. *)
Definition and_then {A B} (m : res (outcome W A)) (f : A -> SCHED W -> res (outcome W B))
  : res (outcome W B) :=
  let* r := m in
  match r with
  | Done a s => f a s
  | Switched s => Ok (Switched s)
  end.

(** The common tail of the calls that reschedule under an IRQL guard. *)
Definition schedule_then_release (g : KE_IRQL_GUARD) (frame : FRAME) k (status : HO_STATUS) s
  : res (outcome W HO_STATUS) :=
  and_then (KiSchedule (frame :: k) s) (fun _ s =>
    let* s := release_irql g s in Ok (Done status s)).

(** ** Signalling ([sync.c]) *)

(** The releasing loops: [limit] is the number of permits, [None] for an event. *)
Fixpoint release_waiters (fuel : nat) (o : OBJ) (permits : option Z) s : res (option Z * SCHED W) :=
  match fuel with
  | O => NoFuel
  | S fuel =>
      let more := match permits with None => true | Some n => 0 <? n end in
      let* d := get_object o s in
      match WaitList d with
      | b :: _ =>
          if more then
            let* s := KiCompleteWait b EC_SUCCESS s in
            release_waiters fuel o (option_map (fun n => n - 1) permits) s
          else Ok (permits, s)
      | [] => Ok (permits, s)
      end
  end.

Definition need_schedule s : bool :=
  (gCurrentThread s =? gIdleThread s) && KiHasAnyReadyThread s.

Definition KeSetEvent (event : option OBJ) k s : res (outcome W HO_STATUS) :=
  match event with
  | None => Panic EC_ILLEGAL_ARGUMENT
  | Some o =>
      let* d := get_object o s in
      let* _ := HO_KASSERT (Signature d =? KDISPATCHER_SIGNATURE) EC_INVALID_STATE in
      let* _ := HO_KASSERT (DType d =? DISPATCHER_TYPE_EVENT) EC_NOT_SUPPORTED in
      let* (g, s) := acquire_irql s in
      let* (cs, s) := enter_critical fresh_critical s in
      let s := put_object o (set_SignalState 1 d) s in
      let* (_, s) := release_waiters (S (length (WaitList d))) o None s in
      let needSchedule := need_schedule s in
      let* (_, s) := leave_critical cs s in
      if needSchedule then schedule_then_release g (InSetEvent g) k EC_SUCCESS s
      else let* s := release_irql g s in Ok (Done EC_SUCCESS s)
  end.

Definition KeResetEvent (event : option OBJ) s : res (SCHED W) :=
  match event with
  | None => Panic EC_ILLEGAL_ARGUMENT
  | Some o =>
      let* d := get_object o s in
      let* _ := HO_KASSERT (Signature d =? KDISPATCHER_SIGNATURE) EC_INVALID_STATE in
      let* _ := HO_KASSERT (DType d =? DISPATCHER_TYPE_EVENT) EC_NOT_SUPPORTED in
      let* (cs, s) := enter_critical fresh_critical s in
      let s := put_object o (set_SignalState 0 d) s in
      let* (_, s) := leave_critical cs s in
      Ok s
  end.

Definition i32 (x : Z) : Z := (x + 2 ^ 31) mod 2 ^ 32 - 2 ^ 31.

Definition KeReleaseSemaphore (semaphore : option OBJ) (releaseCount : Z) k s
  : res (outcome W HO_STATUS) :=
  match semaphore with
  | None => Ok (Done EC_ILLEGAL_ARGUMENT s)
  | Some o =>
      if releaseCount <=? 0 then Ok (Done EC_ILLEGAL_ARGUMENT s) else
      let* (g, s) := acquire_irql s in
      let* (cs, s) := enter_critical fresh_critical s in
      let* d := get_object o s in
      let* _ := KiAssertSemaphoreState d in
      let waiterCount := u32 (Z.of_nat (length (WaitList d))) in
      let remainingPermitCount :=
        if i32 waiterCount <? releaseCount then releaseCount - waiterCount else 0 in
      let resultingCount := SignalState d + remainingPermitCount in
      if Limit d <? resultingCount then
        let* (_, s) := leave_critical cs s in
        let* s := release_irql g s in
        Ok (Done EC_ILLEGAL_ARGUMENT s)
      else
        let* (permits, s) := release_waiters (S (length (WaitList d))) o (Some releaseCount) s in
        let permitsToDispatch := match permits with Some n => n | None => 0 end in
        let* d := get_object o s in
        let d := set_SignalState (i32 (SignalState d + permitsToDispatch)) d in
        let* _ := KiAssertSemaphoreState d in
        let s := put_object o d s in
        let needSchedule := need_schedule s in
        let* (_, s) := leave_critical cs s in
        if needSchedule then schedule_then_release g (InReleaseSemaphore g) k EC_SUCCESS s
        else let* s := release_irql g s in Ok (Done EC_SUCCESS s)
  end.

Definition KeReleaseMutex (mutex : option OBJ) s : res (HO_STATUS * SCHED W) :=
  match mutex with
  | None => Ok (EC_ILLEGAL_ARGUMENT, s)
  | Some o =>
      let* (g, s) := acquire_irql s in
      let* (cs, s) := enter_critical fresh_critical s in
      let* d := get_object o s in
      let* _ := KiAssertMutexState d in
      if negb (OwnerThread d =? gCurrentThread s) then
        let* (_, s) := leave_critical cs s in
        let* s := release_irql g s in
        Ok (EC_INVALID_STATE, s)
      else
        let* s :=
          match WaitList d with
          | [] => KiReleaseMutexOwnership o s
          | nextOwner :: _ =>
              let* s := KiHandOffMutexOwnership o nextOwner s in
              KiCompleteWait nextOwner EC_SUCCESS s
          end in
        let* (_, s) := leave_critical cs s in
        let* s := release_irql g s in
        Ok (EC_SUCCESS, s)
  end.

(** ** Starting, yielding, sleeping ([scheduler.c]) *)

Definition KeThreadStart t s : res (HO_STATUS * SCHED W) :=
  if t =? 0 then Ok (EC_ILLEGAL_ARGUMENT, s) else
  let* th := get_thread t s in
  if negb (bool_decide (State th = KTHREAD_STATE_NEW)) then Ok (EC_INVALID_STATE, s) else
  let* (cs, s) := enter_critical fresh_critical s in
  let* s := make_ready t s in
  let s := count_started s in
  let s :=
    if (gCurrentThread s =? gIdleThread s) && (gNextProgrammedDeadlineNs s =? 0)
    then KiArmClockEvent (MinDeltaNs (Svc s)) s else s in
  let* (_, s) := leave_critical cs s in
  Ok (EC_SUCCESS, s).

Definition KeYield k s : res (outcome W HO_STATUS) :=
  let* _ := KiAssertBlockingAllowed s in
  let* (g, s) := acquire_irql s in
  let* (cs, s) := enter_critical fresh_critical s in
  let s := count_yield s in
  if negb (KiHasAnyReadyThread s) then
    let* (_, s) := leave_critical cs s in
    let* s := release_irql g s in
    Ok (Done EC_SUCCESS s)
  else
    let* s := make_ready (gCurrentThread s) s in
    let* (_, s) := leave_critical cs s in
    schedule_then_release g (InYield g) k EC_SUCCESS s.

Definition KeSleep (durationNs : Z) k s : res (outcome W HO_STATUS) :=
  let* _ := KiAssertBlockingAllowed s in
  if durationNs =? 0 then KeYield k s else
  let* _ := HO_KASSERT (negb (gCurrentThread s =? gIdleThread s)) EC_INVALID_STATE in
  let* (g, s) := acquire_irql s in
  let* (cs, s) := enter_critical fresh_critical s in
  let '(nowNs, s) := KiNowNs s in
  let* s := KiInitWaitBlock (gCurrentThread s) s in
  let wb := mkWaitBlock None (u64 (nowNs + durationNs)) EC_SUCCESS false in
  let* s := upd_thread (gCurrentThread s)
              (fun th => set_State KTHREAD_STATE_BLOCKED (set_WaitBlock wb th)) s in
  let* s := KiInsertTimeoutQueue (gCurrentThread s) s in
  let* (_, s) := leave_critical cs s in
  schedule_then_release g (InSleep g) k EC_SUCCESS s.

(** ** Waiting ([wait.c]) *)

(** The end of a blocking wait, run by the thread once it is resumed. *)
Definition wait_completed (g : KE_IRQL_GUARD) s : res (HO_STATUS * SCHED W) :=
  let* th := get_thread (gCurrentThread s) s in
  let completionStatus := CompletionStatus (WaitBlock th) in
  let* s := release_irql g s in
  Ok (completionStatus, s).

(** Path 3: attach the wait block, set the deadline, block. *)
Definition block_on (o : OBJ) (timeoutNs : Z) s : res (SCHED W) :=
  let t := gCurrentThread s in
  let* s := KiInitWaitBlock t s in
  let* s := upd_thread t (set_WaitBlock (mkWaitBlock (Some o) 0 EC_SUCCESS false)) s in
  let* d := get_object o s in
  let s := put_object o (set_WaitList (WaitList d ++ [t]) d) s in
  let* s :=
    if timeoutNs =? KE_WAIT_INFINITE then Ok s else
    let '(nowNs, s) := KiNowNs s in
    let* s := upd_thread t
                (set_WaitBlock (mkWaitBlock (Some o) (u64 (nowNs + timeoutNs)) EC_SUCCESS false)) s in
    KiInsertTimeoutQueue t s in
  upd_thread t (set_State KTHREAD_STATE_BLOCKED) s.

Definition KeWaitForSingleObject (object : option OBJ) (timeoutNs : Z) k s
  : res (outcome W HO_STATUS) :=
  let* _ := KiAssertBlockingAllowed s in
  match object with
  | None => Ok (Done EC_ILLEGAL_ARGUMENT s)
  | Some o =>
      let* _ := HO_KASSERT (negb (gCurrentThread s =? gIdleThread s)) EC_INVALID_STATE in
      let* validationStatus := KiValidateDispatcherHeader object s in
      if negb (bool_decide (validationStatus = EC_SUCCESS)) then Ok (Done validationStatus s) else
      let* (g, s) := acquire_irql s in
      let* (cs, s) := enter_critical fresh_critical s in
      let* (acquireStatus, acquired, s) := KiTryAcquireDispatcherObject o (gCurrentThread s) s in
      if negb (bool_decide (acquireStatus = EC_SUCCESS)) then
        let* (_, s) := leave_critical cs s in
        let* s := release_irql g s in
        Ok (Done acquireStatus s)
      else if (acquired : bool) then
        let* (_, s) := leave_critical cs s in
        let* s := release_irql g s in
        Ok (Done EC_SUCCESS s)
      else if timeoutNs =? 0 then
        let* (_, s) := leave_critical cs s in
        let* s := release_irql g s in
        Ok (Done EC_TIMEOUT s)
      else
        let* s := block_on o timeoutNs s in
        let* (_, s) := leave_critical cs s in
        and_then (KiSchedule (InWait g :: k) s) (fun _ s =>
          let* (v, s) := wait_completed g s in
          Ok (Done v s))
  end.

(** ** Termination, join, detach ([scheduler.c]) *)

Definition KiIsThreadTerminationCompletionPublished t s : res bool :=
  let* _ := HO_KASSERT (negb (t =? 0)) EC_ILLEGAL_ARGUMENT in
  let* d := get_object (Completion t) s in
  Ok (negb (SignalState d =? 0)).

Definition KiIsThreadQueuedForReaper t s : res bool :=
  let* _ := HO_KASSERT (negb (t =? 0)) EC_ILLEGAL_ARGUMENT in
  Ok (ready_linked t s).

Definition KiQueueDetachedThreadForReaper t s : res (SCHED W) :=
  let* _ := HO_KASSERT (negb (t =? 0)) EC_ILLEGAL_ARGUMENT in
  let* _ := HO_KASSERT (negb (t =? gIdleThread s)) EC_INVALID_STATE in
  let* th := get_thread t s in
  let* _ := HO_KASSERT (bool_decide (State th = KTHREAD_STATE_TERMINATED)) EC_INVALID_STATE in
  let* _ := HO_KASSERT (bool_decide (TerminationMode th = KTHREAD_TERMINATION_MODE_DETACHED))
                       EC_INVALID_STATE in
  let* _ := HO_KASSERT (negb (bool_decide (TerminationClaimState th = CLAIM_JOIN_IN_PROGRESS)))
                       EC_INVALID_STATE in
  let* _ := HO_KASSERT (negb (bool_decide (TerminationClaimState th = CLAIM_CONSUMED)))
                       EC_INVALID_STATE in
  let* published := KiIsThreadTerminationCompletionPublished t s in
  let* _ := HO_KASSERT published EC_INVALID_STATE in
  let* queued := KiIsThreadQueuedForReaper t s in
  if (queued : bool) then Ok s else Ok (set_TerminatedList (gTerminatedList s ++ [t]) s).

(** [KiRejectThreadLifecycleAction] only logs. *)
Definition KiRejectThreadLifecycleAction : HO_STATUS := EC_INVALID_STATE.

Definition KiMarkThreadTerminationConsumed t s : res (SCHED W) :=
  let* _ := HO_KASSERT (negb (t =? 0)) EC_ILLEGAL_ARGUMENT in
  let* th := get_thread t s in
  let* _ := HO_KASSERT (negb (bool_decide (TerminationClaimState th = CLAIM_CONSUMED)))
                       EC_INVALID_STATE in
  Ok (put_thread t (set_Claim CLAIM_CONSUMED th) s).

Definition KiReleaseThreadJoinClaim t s : res (SCHED W) :=
  let* _ := HO_KASSERT (negb (t =? 0)) EC_ILLEGAL_ARGUMENT in
  let* th := get_thread t s in
  let* _ := HO_KASSERT (bool_decide (TerminationClaimState th = CLAIM_JOIN_IN_PROGRESS))
                       EC_INVALID_STATE in
  Ok (put_thread t (set_Claim CLAIM_UNCLAIMED th) s).

Definition KiIsUserRuntimeOwnedThread t s : bool :=
  match OwnsThreadHook (Svc s) with
  | Some ownsThreadFn => if t =? 0 then false else ownsThreadFn t
  | None => false
  end.

(** The thread object's memory goes back to the pool: its thread, completion
    event, IRQL state and context exist no more. *)
Definition forget_thread t s : SCHED W :=
  let c := Cpu s in
  set_Cpu (mkCpu (MaskableInterruptEnabled c) (delete t (IrqlStates c)) (gCurrentIrqlState c)
             (gCriticalSectionDepth c))
    (set_SavedContext (delete t (SavedContext s))
      (set_objects (delete (Completion t) (objects s)) (set_threads (delete t (threads s)) s))).

(** The finalize hook from its [n]th stage on.  Hooks are registered once, so the
    stages left are the same when a switched-away hook is resumed. *)
Fixpoint run_hook t (n : nat) (stages : list (W -> HO_STATUS * option Z * W)) k s : res (outcome W unit) :=
  match stages with
  | [] => Ok (Done tt s)
  | stage :: stages =>
      let '(status, event, w) := stage (Svc s) in
      let s := set_Svc w s in
      if negb (bool_decide (status = EC_SUCCESS)) then Panic status else
      match event with
      | None => run_hook t (S n) stages k s
      | Some a =>
          and_then (KeSetEvent (Some (Standalone a)) (InFinalize t (S n) :: k) s) (fun _ s =>
            run_hook t (S n) stages k s)
      end
  end.

(** [KiFinalizeThread] after the hook. *)
Definition release_thread t s : res (SCHED W) :=
  let* th := get_thread t s in
  let* s :=
    if StackOwnedByKva th then
      let '(status, w) := ReleaseStack (StackRange th) (Svc s) in
      if bool_decide (status = EC_SUCCESS) then Ok (set_Svc w s) else Panic status
    else Ok s in
  let* w := PoolFree t (Svc s) in
  Ok (forget_thread t (set_Svc w s)).

Definition finalize_from t (n : nat) k s : res (outcome W unit) :=
  and_then (match FinalizeThreadHook (Svc s) with
            | None => Panic EC_INVALID_STATE
            | Some finalizeFn => run_hook t n (drop n (finalizeFn t)) k s
            end)
    (fun _ s => let* s := release_thread t s in Ok (Done tt s)).

Definition KiFinalizeThread t k s : res (outcome W unit) :=
  let* _ := HO_KASSERT (negb (t =? 0)) EC_ILLEGAL_ARGUMENT in
  let* _ := HO_KASSERT (negb (t =? gIdleThread s)) EC_INVALID_STATE in
  let* th := get_thread t s in
  let* _ := HO_KASSERT (bool_decide (State th = KTHREAD_STATE_TERMINATED)) EC_INVALID_STATE in
  let* _ := HO_KASSERT (bool_decide (TerminationClaimState th = CLAIM_CONSUMED)) EC_INVALID_STATE in
  if KiIsUserRuntimeOwnedThread t s then finalize_from t 0 k s
  else let* s := release_thread t s in Ok (Done tt s).

(** The part of [KeThreadExit] after the completion has been published. *)
Definition exit_tail t (cs : KE_CRITICAL_SECTION) s : res (outcome W HO_STATUS) :=
  let* (cs, s) := enter_critical cs s in
  let* th := get_thread t s in
  let* s :=
    if bool_decide (TerminationMode th = KTHREAD_TERMINATION_MODE_DETACHED)
    then KiQueueDetachedThreadForReaper t s else Ok s in
  let* (_, s) := leave_critical cs s in
  and_then (KiSchedule [InExitAfterSchedule] s) (fun _ _ => Oob).

Definition KeThreadExit s : res (outcome W HO_STATUS) :=
  let* _ := KiAssertBlockingAllowed s in
  let* _ := HO_KASSERT (negb (gCurrentThread s =? gIdleThread s)) EC_INVALID_STATE in
  let t := gCurrentThread s in
  let* th := get_thread t s in
  let* _ := HO_KASSERT (OwnedMutexCount th =? 0) EC_INVALID_STATE in
  let* (_, s) := acquire_irql s in
  let* (cs, s) := enter_critical fresh_critical s in
  let* s := upd_thread t (set_State KTHREAD_STATE_TERMINATED) s in
  let s := count_exit s in
  let* (cs, s) := leave_critical cs s in
  and_then (KeSetEvent (Some (Completion t)) [InExitAfterSet t cs] s) (fun _ s => exit_tail t cs s).

(** The end of a blocking [KeThreadJoin], given the status of its wait. *)
Definition join_completed t (waitStatus : HO_STATUS) k s : res (outcome W HO_STATUS) :=
  if negb (bool_decide (waitStatus = EC_SUCCESS)) then
    let* (g, s) := acquire_irql s in
    let* (cs, s) := enter_critical fresh_critical s in
    let* th := get_thread t s in
    let* s :=
      if bool_decide (TerminationClaimState th = CLAIM_JOIN_IN_PROGRESS)
      then KiReleaseThreadJoinClaim t s else Ok s in
    let* (_, s) := leave_critical cs s in
    let* s := release_irql g s in
    Ok (Done waitStatus s)
  else
    let* (g, s) := acquire_irql s in
    let* (cs, s) := enter_critical fresh_critical s in
    let* th := get_thread t s in
    let* _ := HO_KASSERT (bool_decide (TerminationMode th = KTHREAD_TERMINATION_MODE_JOINABLE))
                         EC_INVALID_STATE in
    let* _ := HO_KASSERT (bool_decide (State th = KTHREAD_STATE_TERMINATED)) EC_INVALID_STATE in
    let* published := KiIsThreadTerminationCompletionPublished t s in
    let* _ := HO_KASSERT published EC_INVALID_STATE in
    let* _ := HO_KASSERT (bool_decide (TerminationClaimState th = CLAIM_JOIN_IN_PROGRESS))
                         EC_INVALID_STATE in
    let* s := KiMarkThreadTerminationConsumed t s in
    let* (_, s) := leave_critical cs s in
    let* s := release_irql g s in
    and_then (KiFinalizeThread t k s) (fun _ s => Ok (Done EC_SUCCESS s)).

(** What the first part of a join decides. *)
Inductive join_step := JoinRejected | JoinReap | JoinTimeout | JoinWait.

Definition join_claim t (timeoutNs : Z) s : res (join_step * SCHED W) :=
  if t =? gIdleThread s then Ok (JoinRejected, s) else
  let* th := get_thread t s in
  if bool_decide (TerminationMode th = KTHREAD_TERMINATION_MODE_DETACHED) then Ok (JoinRejected, s)
  else if bool_decide (TerminationClaimState th = CLAIM_CONSUMED) then Ok (JoinRejected, s)
  else if bool_decide (TerminationClaimState th = CLAIM_JOIN_IN_PROGRESS) then Ok (JoinRejected, s)
  else
    let s := put_thread t (set_Claim CLAIM_JOIN_IN_PROGRESS th) s in
    let* published :=
      if bool_decide (State th = KTHREAD_STATE_TERMINATED)
      then KiIsThreadTerminationCompletionPublished t s else Ok false in
    if (published : bool) then
      let* s := KiMarkThreadTerminationConsumed t s in Ok (JoinReap, s)
    else if timeoutNs =? 0 then
      let* s := KiReleaseThreadJoinClaim t s in Ok (JoinTimeout, s)
    else Ok (JoinWait, s).

Definition KeThreadJoin t (timeoutNs : Z) k s : res (outcome W HO_STATUS) :=
  let* _ := KiAssertBlockingAllowed s in
  if t =? 0 then Ok (Done EC_ILLEGAL_ARGUMENT s)
  else if t =? gCurrentThread s then Ok (Done KiRejectThreadLifecycleAction s)
  else if gCurrentThread s =? gIdleThread s then Ok (Done KiRejectThreadLifecycleAction s)
  else
    let* (g, s) := acquire_irql s in
    let* (cs, s) := enter_critical fresh_critical s in
    let* (next, s) := join_claim t timeoutNs s in
    let* (_, s) := leave_critical cs s in
    let* s := release_irql g s in
    match next with
    | JoinRejected => Ok (Done KiRejectThreadLifecycleAction s)
    | JoinReap => and_then (KiFinalizeThread t k s) (fun _ s => Ok (Done EC_SUCCESS s))
    | JoinTimeout => Ok (Done EC_TIMEOUT s)
    | JoinWait =>
        and_then (KeWaitForSingleObject (Some (Completion t)) timeoutNs (InJoin t :: k) s)
          (fun waitStatus s => join_completed t waitStatus k s)
    end.

(** The part of [KeThreadDetach] inside its critical section. *)
Definition detach_claim t s : res (HO_STATUS * SCHED W) :=
  if t =? gIdleThread s then Ok (KiRejectThreadLifecycleAction, s) else
  let* th := get_thread t s in
  if bool_decide (TerminationMode th = KTHREAD_TERMINATION_MODE_DETACHED)
  then Ok (KiRejectThreadLifecycleAction, s)
  else if bool_decide (TerminationClaimState th = CLAIM_CONSUMED)
  then Ok (KiRejectThreadLifecycleAction, s)
  else if bool_decide (TerminationClaimState th = CLAIM_JOIN_IN_PROGRESS)
  then Ok (KiRejectThreadLifecycleAction, s)
  else
    let s := put_thread t (set_TerminationMode KTHREAD_TERMINATION_MODE_DETACHED th) s in
    let* published :=
      if bool_decide (State th = KTHREAD_STATE_TERMINATED)
      then KiIsThreadTerminationCompletionPublished t s else Ok false in
    let* s := if (published : bool) then KiQueueDetachedThreadForReaper t s else Ok s in
    Ok (EC_SUCCESS, s).

Definition KeThreadDetach t s : res (HO_STATUS * SCHED W) :=
  if t =? 0 then Ok (EC_ILLEGAL_ARGUMENT, s) else
  let* (g, s) := acquire_irql s in
  let* (cs, s) := enter_critical fresh_critical s in
  let* (status, s) := detach_claim t s in
  let* (_, s) := leave_critical cs s in
  let* s := release_irql g s in
  Ok (status, s).

(** ** The idle thread's reaper *)

Fixpoint reap (fuel : nat) k s : res (outcome W unit) :=
  match fuel with
  | O => NoFuel
  | S fuel =>
      let* (cs, s) := enter_critical fresh_critical s in
      let* (thread, s) :=
        match gTerminatedList s with
        | t :: rest =>
            let* s := KiMarkThreadTerminationConsumed t (set_TerminatedList rest s) in Ok (t, s)
        | [] => Ok (0, s)
        end in
      let* (_, s) := leave_critical cs s in
      if thread =? 0 then Ok (Done tt s) else
      and_then (KiFinalizeThread thread (InReap :: k) s) (fun _ s => reap fuel k s)
  end.

Definition KiReapTerminatedThreads k s : res (outcome W unit) := reap (S (length (gTerminatedList s))) k s.

(** ** The timer interrupt ([timer.c]) *)

Definition KiSchedulerTimerISR (interruptedFromUserMode : bool) k s : res (outcome W unit) :=
  let s := set_Svc (OnClockInterrupt (Svc s)) s in
  if negb (gSchedulerEnabled s) then Ok (Done tt s) else
  let* _ := KiAssertDispatchLevel s in
  let s :=
    if interruptedFromUserMode then
      match ObserveTimerHook (Svc s), OwnsThreadHook (Svc s) with
      | Some observeTimerFn, Some ownsThreadFn =>
          let current := gCurrentThread s in
          if negb (current =? 0) && ownsThreadFn current
          then set_Svc (observeTimerFn current (Svc s)) s else s
      | _, _ => s
      end
    else s in
  let '(nowNs, s) := KiNowNs s in
  if negb (gNextProgrammedDeadlineNs s =? 0) && (nowNs <? gNextProgrammedDeadlineNs s)
  then Ok (Done tt (KiArmClockEvent (gNextProgrammedDeadlineNs s - nowNs) s))
  else
    let* s := KiWakeTimeouts nowNs s in
    let idle := gCurrentThread s =? gIdleThread s in
    let* (needReschedule, s) :=
      if idle && KiHasAnyReadyThread s then Ok (true, s)
      else if negb idle && (gQuantumDeadlineNs s <=? nowNs) then
        let* s := make_ready (gCurrentThread s) s in
        Ok (true, count_preemption s)
      else Ok (false, s) in
    if (needReschedule : bool) then KiSchedule k s
    else
      let* s := KiArmForNextEvent nowNs (gCurrentThread s) s in
      Ok (Done tt s).

Definition on_cpu (f : cpu -> res cpu) s : res (SCHED W) :=
  let* c := f (Cpu s) in Ok (set_Cpu c s).

(** Leaving the interrupt: [IdtExceptionHandler] after the handler, then [iretq]. *)
Definition end_of_interrupt s : res (SCHED W) :=
  let* s := on_cpu KeLeaveInterruptContext s in
  Ok (set_Cpu (set_IF true (Cpu s)) s).

(** A timer interrupt, delivered only if the interrupt flag is set. *)
Definition timer_interrupt (fromUser : bool) s : res (outcome W HO_STATUS) :=
  if negb (MaskableInterruptEnabled (Cpu s)) then Ok (Done EC_SUCCESS s) else
  let s := set_Cpu (set_IF false (Cpu s)) s in
  let* s := on_cpu KeEnterInterruptContext s in
  and_then (KiSchedulerTimerISR fromUser [InTimerInterrupt] s) (fun _ s =>
    let* s := end_of_interrupt s in Ok (Done EC_SUCCESS s)).

(** ** Resuming a suspended thread *)

(** [KiThreadTrampoline] up to the call of the thread's entry point. *)
Definition KiThreadTrampoline s : res (SCHED W) :=
  let self := gCurrentThread s in
  let* s :=
    match OwnsThreadHook (Svc s) with
    | Some ownsThreadFn =>
        if ownsThreadFn self then
          match EnterHook (Svc s) with
          | None => Panic EC_INVALID_STATE
          | Some enterFn => Ok (set_Svc (enterFn self (Svc s)) s)
          end
        else Ok s
    | None => Ok s
    end in
  Ok (set_Cpu (ArchRestoreInterruptState true (Cpu s)) s).

(** Return [v] to the innermost frame and on outwards. *)
Fixpoint return_to k (v : HO_STATUS) s : res (outcome W HO_STATUS) :=
  match k with
  | [] => Ok (Done v s)
  | f :: k =>
      match f with
      | InTrampoline => let* s := KiThreadTrampoline s in Ok (Done EC_SUCCESS s)
      | InYield g | InSleep g | InSetEvent g | InReleaseSemaphore g =>
          let* s := release_irql g s in return_to k EC_SUCCESS s
      | InWait g => let* (v, s) := wait_completed g s in return_to k v s
      | InJoin t => and_then (join_completed t v k s) (fun v s => return_to k v s)
      | InFinalize t n => and_then (finalize_from t n k s) (fun _ s => return_to k EC_SUCCESS s)
      | InReap => and_then (KiReapTerminatedThreads k s) (fun _ s => return_to k EC_SUCCESS s)
      | InExitAfterSet t cs => exit_tail t cs s
      | InExitAfterSchedule => Oob
      | InTimerInterrupt => let* s := end_of_interrupt s in return_to k EC_SUCCESS s
      end
  end.

(** What [KiSwitchContext] continues with: the saved frames of the thread that
    is current now. *)
Definition resume s : res (outcome W HO_STATUS) :=
  let t := gCurrentThread s in
  match SavedContext s !! t with
  | None => Oob
  | Some k => return_to k EC_SUCCESS (set_SavedContext (delete t (SavedContext s)) s)
  end.

(** ** Creating threads ([kthread.c]) *)

Definition KiAllocateThreadId s : res (Z * SCHED W) :=
  let* (cs, s) := enter_critical fresh_critical s in
  let* _ := HO_KASSERT (negb (gNextThreadId s =? 0)) EC_OUT_OF_RESOURCE in
  let threadId := gNextThreadId s in
  let s := set_NextThreadId (u32 (gNextThreadId s + 1)) s in
  let* (_, s) := leave_critical cs s in
  Ok (threadId, s).

(** The two words pushed on the new stack are the saved context [InTrampoline].
    The result is the status and the new thread (0 for NULL). *)
Definition KiThreadCreateInternal (outThreadGiven : bool) (entryPoint arg : Z)
    (terminationMode : KTHREAD_TERMINATION_MODE) s : res (HO_STATUS * Z * SCHED W) :=
  if negb outThreadGiven || (entryPoint =? 0) then Ok (EC_ILLEGAL_ARGUMENT, 0, s) else
  let* (t, w) := PoolAlloc (Svc s) in
  let s := set_Svc w s in
  if t =? 0 then Ok (EC_OUT_OF_RESOURCE, 0, s) else
  let '(status, (stackRange, usableBase, baseAddress), w) := AllocStack (Svc s) in
  let s := set_Svc w s in
  if negb (bool_decide (status = EC_SUCCESS)) then
    let* w := PoolFree t (Svc s) in Ok (status, 0, set_Svc w s)
  else
  let '(status, w) := MapStack stackRange (Svc s) in
  let s := set_Svc w s in
  if negb (bool_decide (status = EC_SUCCESS)) then
    let* w := PoolFree t (Svc s) in Ok (status, 0, set_Svc w s)
  else
  let* (threadId, s) := KiAllocateThreadId s in
  let* s := on_cpu (KeInitializeIrqlState t) s in
  let s := KeInitializeEvent (Completion t) false s in
  let s := set_SavedContext (<[t := [InTrampoline]]> (SavedContext s)) s in
  let th := mkThread threadId KTHREAD_STATE_NEW usableBase KE_THREAD_STACK_SIZE baseAddress true
              stackRange KTHREAD_DEFAULT_PRIORITY KE_DEFAULT_QUANTUM_NS 0
              (mkWaitBlock None 0 EC_SUCCESS false) terminationMode CLAIM_UNCLAIMED
              entryPoint arg 0 in
  Ok (EC_SUCCESS, t, put_thread t th s).

Definition KeThreadCreate (outThreadGiven : bool) (entryPoint arg : Z) s :=
  KiThreadCreateInternal outThreadGiven entryPoint arg KTHREAD_TERMINATION_MODE_DETACHED s.
Definition KeThreadCreateJoinable (outThreadGiven : bool) (entryPoint arg : Z) s :=
  KiThreadCreateInternal outThreadGiven entryPoint arg KTHREAD_TERMINATION_MODE_JOINABLE s.

(** [KeSchedulerInit], from the processor state and the services at boot.  The
    boot thread becomes the idle thread. *)
Definition KeSchedulerInit s : res (HO_STATUS * SCHED W) :=
  let s := set_TerminatedList [] (set_TimeoutQueue [] (set_ReadyQueues [[]; []; []] s)) in
  let s := set_Stats (mkStats 0 0 0 0 0 0) s in
  let* (idle, w) := PoolAlloc (Svc s) in
  let s := set_Svc w s in
  if idle =? 0 then Ok (EC_OUT_OF_RESOURCE, s) else
  let bootStackTop := BootStackTop (Svc s) in
  let th := mkThread 0 KTHREAD_STATE_RUNNING (u64 (bootStackTop - HO_STACK_SIZE)) HO_STACK_SIZE 0 false
              0 KTHREAD_DEFAULT_PRIORITY 0 0 (mkWaitBlock None 0 EC_SUCCESS false)
              KTHREAD_TERMINATION_MODE_DETACHED CLAIM_UNCLAIMED 0 0 KTHREAD_FLAG_IDLE in
  let* s := on_cpu (KeInitializeIrqlState idle) (put_thread idle th s) in
  let s := KeInitializeEvent (Completion idle) false s in
  let s := mkSched (threads s) (objects s) (SavedContext s) (gReadyQueues s) (gTimeoutQueue s)
             (gTerminatedList s) idle idle (gSchedulerEnabled s) (gQuantumDeadlineNs s)
             (gNextProgrammedDeadlineNs s) (mkStats 1 0 0 0 0 1) (gNextThreadId s) (TssRSP0 s)
             (Cpu s) (Svc s) in
  let* s := on_cpu (KeSetCurrentIrqlState idle) s in
  let '(status, w) := RegisterTimerISR (Svc s) in
  let s := set_Svc w s in
  if negb (bool_decide (status = EC_SUCCESS)) then Ok (status, s) else
  Ok (EC_SUCCESS,
      mkSched (threads s) (objects s) (SavedContext s) (gReadyQueues s) (gTimeoutQueue s)
        (gTerminatedList s) (gCurrentThread s) (gIdleThread s) true (gQuantumDeadlineNs s)
        (gNextProgrammedDeadlineNs s) (gStats s) (gNextThreadId s) (TssRSP0 s) (Cpu s) (Svc s)).

(** ** Kernel calls as steps of the running thread *)

Inductive call :=
| CallStart (t : Z)
| CallYield
| CallSleep (durationNs : Z)
| CallWait (o : OBJ) (timeoutNs : Z)
| CallSetEvent (o : OBJ)
| CallResetEvent (o : OBJ)
| CallReleaseSemaphore (o : OBJ) (count : Z)
| CallReleaseMutex (o : OBJ)
| CallExit
| CallJoin (t : Z) (timeoutNs : Z)
| CallDetach (t : Z)
| CallReap
| TimerInterrupt (fromUser : bool).

Definition returned (m : res (HO_STATUS * SCHED W)) : res (outcome W HO_STATUS) :=
  let* (v, s) := m in Ok (Done v s).
Definition returned_void (m : res (SCHED W)) : res (outcome W HO_STATUS) :=
  let* s := m in Ok (Done EC_SUCCESS s).

Definition kernel_call (c : call) s : res (outcome W HO_STATUS) :=
  match c with
  | CallStart t => returned (KeThreadStart t s)
  | CallYield => KeYield [] s
  | CallSleep d => KeSleep d [] s
  | CallWait o timeoutNs => KeWaitForSingleObject (Some o) timeoutNs [] s
  | CallSetEvent o => KeSetEvent (Some o) [] s
  | CallResetEvent o => returned_void (KeResetEvent (Some o) s)
  | CallReleaseSemaphore o n => KeReleaseSemaphore (Some o) n [] s
  | CallReleaseMutex o => returned (KeReleaseMutex (Some o) s)
  | CallExit => KeThreadExit s
  | CallJoin t timeoutNs => KeThreadJoin t timeoutNs [] s
  | CallDetach t => returned (KeThreadDetach t s)
  | CallReap => and_then (KiReapTerminatedThreads [] s) (fun _ s => Ok (Done EC_SUCCESS s))
  | TimerInterrupt fromUser => timer_interrupt fromUser s
  end.

(** Resuming goes on until a thread runs its own code: only the idle thread,
    resumed in the middle of reaping, can switch again before it does, and the
    thread it switches to does not, so two rounds are enough. *)
Fixpoint settle (fuel : nat) s : res (HO_STATUS * SCHED W) :=
  match fuel with
  | O => NoFuel
  | S fuel =>
      let* r := resume s in
      match r with
      | Done v s => Ok (v, s)
      | Switched s => settle fuel s
      end
  end.

(** A step: the running thread's call, and if it switched, the resumption of the
    thread switched to, up to the point where a thread runs its own code. *)
Definition step (c : call) s : res (HO_STATUS * SCHED W) :=
  let* r := kernel_call c s in
  match r with
  | Done v s => Ok (v, s)
  | Switched s => settle 2 s
  end.

End operations.
End Sched.
