(* ===== verification/SchedInv.v ===== *)
(** * The scheduler's invariant and its operations' contracts

    The queues are characterised by the threads' own fields: a thread is on the
    ready queue of its priority exactly when it is READY, on the timeout queue
    exactly when it is BLOCKED with a deadline, on an object's wait list exactly
    when it is BLOCKED on that object. *)

From S2P Require Import Prelude Irql Sched.

Local Open Scope Z_scope.
Import Irql Sched.

Module SchedInv.

(** ** Lists indexed by a key of their elements *)

Section lists_by.
Context {K : Type} {K_dec : EqDecision K}.
Implicit Types (key : Z -> option K) (L : K -> option (list Z)).

Definition lists_by key L : Prop :=
  forall x l, L x = Some l -> NoDup l /\ forall t, t ∈ l <-> key t = Some x.

Lemma lists_by_ext key L key' L' :
  lists_by key L -> (forall t, key' t = key t) -> (forall x, L' x = L x) -> lists_by key' L'.
Proof.
  intros H Hk HL x l Hl. rewrite HL in Hl. destruct (H x l Hl) as [Hn Ht].
  split; [done|]. intros t. by rewrite Hk.
Qed.

Lemma lists_by_none key L x l t : lists_by key L -> L x = Some l -> key t = None -> t ∉ l.
Proof. intros H Hl Hk Ht. destruct (H x l Hl) as [_ Hi]. apply Hi in Ht. congruence. Qed.

Lemma lists_by_add key L key' L' t x l :
  lists_by key L -> key t = None -> L x = Some l ->
  key' t = Some x -> (forall y, y <> t -> key' y = key y) ->
  L' x = Some (l ++ [t]) -> (forall y, y <> x -> L' y = L y) ->
  lists_by key' L'.
Proof.
  intros H Hk Hl Hk' Hko HL' HLo y m Hm.
  assert (Hnew : forall y m, L y = Some m -> t ∉ m) by (intros; by eapply lists_by_none).
  destruct (H x l Hl) as [Hn Ht]. destruct (decide (y = x)) as [->|Hy].
  - rewrite HL' in Hm. injection Hm as <-. split.
    + apply NoDup_app. split_and!; [done | | apply NoDup_singleton].
      intros z Hz ->%list_elem_of_singleton. by eapply Hnew.
    + intros z. rewrite elem_of_app, list_elem_of_singleton.
      destruct (decide (z = t)) as [->|Hz]; [by intuition|]. rewrite Hko by done. rewrite Ht. tauto.
  - rewrite HLo in Hm by done. destruct (H y m Hm) as [Hn' Ht']. split; [done|]. intros z.
    destruct (decide (z = t)) as [->|Hz]; [|by rewrite Hko].
    rewrite Ht', Hk, Hk'. split; congruence.
Qed.

Lemma lists_by_remove key L key' L' t x l :
  lists_by key L -> key t = Some x -> L x = Some l ->
  key' t = None -> (forall y, y <> t -> key' y = key y) ->
  L' x = Some (filter (.≠ t) l) -> (forall y, y <> x -> L' y = L y) ->
  lists_by key' L'.
Proof.
  intros H Hk Hl Hk' Hko HL' HLo y m Hm. destruct (decide (y = x)) as [->|Hy].
  - rewrite HL' in Hm. injection Hm as <-. destruct (H x l Hl) as [Hn Ht]. split.
    { by apply NoDup_filter. }
    intros z. rewrite list_elem_of_filter, Ht.
    destruct (decide (z = t)) as [->|Hz]; [by rewrite Hk'; intuition|]. rewrite Hko by done. tauto.
  - rewrite HLo in Hm by done. destruct (H y m Hm) as [Hn' Ht']. split; [done|]. intros z.
    destruct (decide (z = t)) as [->|Hz]; [|by rewrite Hko].
    rewrite Ht', Hk, Hk'. split; congruence.
Qed.

(** An element leaves its list without being looked for in it. *)
Lemma lists_by_gone key L t : lists_by key L -> key t = None ->
  forall x l, L x = Some l -> filter (.≠ t) l = l.
Proof.
  intros H Hk x l Hl. pose proof (lists_by_none key L x l t H Hl Hk) as Hn.
  clear - Hn. induction l as [|a l IH]; [done|]. apply not_elem_of_cons in Hn as [Ha Hn].
  rewrite filter_cons_True by congruence. by rewrite IH.
Qed.
End lists_by.

(** ** Keys of threads and the invariant of the queues *)

Definition kview {K} (f : KTHREAD -> option K) (T : gmap Z KTHREAD) (t : Z) : option K := T !! t ≫= f.

Definition rkey (th : KTHREAD) : option nat :=
  if decide (State th = KTHREAD_STATE_READY) then Some (Z.to_nat (Priority th)) else None.
Definition tkey (th : KTHREAD) : option Z :=
  if decide (State th = KTHREAD_STATE_BLOCKED /\ DeadlineNs (WaitBlock th) <> 0)
  then Some (DeadlineNs (WaitBlock th)) else None.
Definition wkey (th : KTHREAD) : option OBJ :=
  if decide (State th = KTHREAD_STATE_BLOCKED) then Dispatcher (WaitBlock th) else None.

Definition ready_ok (T : gmap Z KTHREAD) (R : list (list Z)) : Prop :=
  length R = 3%nat /\ lists_by (kview rkey T) (fun p => R !! p).

Definition earlier (T : gmap Z KTHREAD) (a b : Z) : Prop :=
  default 0 (kview tkey T a) <= default 0 (kview tkey T b).
Definition timeout_ok (T : gmap Z KTHREAD) (Q : list Z) : Prop :=
  NoDup Q /\ (forall t, t ∈ Q <-> is_Some (kview tkey T t)) /\ StronglySorted (earlier T) Q.

Definition wait_ok (T : gmap Z KTHREAD) (O : gmap OBJ DISPATCHER) : Prop :=
  lists_by (kview wkey T) (fun o => WaitList <$> O !! o) /\
  forall t o, kview wkey T t = Some o -> is_Some (O !! o).

(** A detached thread is never claimed by a join, and only a terminated thread's
    termination is consumed. *)
Definition claim_ok (th : KTHREAD) : Prop :=
  (TerminationMode th = KTHREAD_TERMINATION_MODE_DETACHED ->
     TerminationClaimState th <> CLAIM_JOIN_IN_PROGRESS) /\
  (TerminationClaimState th = CLAIM_CONSUMED -> State th = KTHREAD_STATE_TERMINATED).

(** What a thread's own fields satisfy. *)
Definition thread_ok (th : KTHREAD) : Prop :=
  0 <= Priority th < KTHREAD_PRIORITY_COUNT /\
  (State th = KTHREAD_STATE_BLOCKED ->
     Completed (WaitBlock th) = false /\
     (Dispatcher (WaitBlock th) = None -> DeadlineNs (WaitBlock th) <> 0)) /\
  claim_ok th.

(** A change of state that leaves the claim alone. *)
Lemma claim_state th th' : claim_ok th -> TerminationMode th' = TerminationMode th ->
  TerminationClaimState th' = TerminationClaimState th ->
  (State th' = KTHREAD_STATE_TERMINATED \/ State th <> KTHREAD_STATE_TERMINATED) -> claim_ok th'.
Proof. intros [H1 H2] E1 E2 Hs. split; rewrite E2; [by rewrite E1|]. intros Hc. destruct Hs as [|Hs]; [done|]. by apply H2 in Hc. Qed.
Definition threads_ok (T : gmap Z KTHREAD) : Prop :=
  T !! 0 = None /\ map_Forall (fun _ => thread_ok) T.

Definition published (O : gmap OBJ DISPATCHER) (t : Z) : Prop :=
  exists d, O !! Completion t = Some d /\ SignalState d <> 0.

(** The threads the reaper is to free. *)
Definition term_ok (T : gmap Z KTHREAD) (O : gmap OBJ DISPATCHER) (D : list Z) : Prop :=
  NoDup D /\ forall t, t ∈ D -> exists th, T !! t = Some th /\
    State th = KTHREAD_STATE_TERMINATED /\ TerminationMode th = KTHREAD_TERMINATION_MODE_DETACHED /\
    TerminationClaimState th = CLAIM_UNCLAIMED /\ published O t.

Record qok (T : gmap Z KTHREAD) (O : gmap OBJ DISPATCHER) (R : list (list Z)) (Q D : list Z) : Prop := {
  q_threads : threads_ok T;
  q_ready : ready_ok T R;
  q_timeout : timeout_ok T Q;
  q_wait : wait_ok T O;
  q_term : term_ok T O D
}.

Definition queues_ok {W} (s : SCHED W) : Prop :=
  qok (threads s) (objects s) (gReadyQueues s) (gTimeoutQueue s) (gTerminatedList s).

(** *** Updating one thread *)

Lemma kview_other {K} (f : KTHREAD -> option K) T t th y :
  y <> t -> kview f (<[t := th]> T) y = kview f T y.
Proof. intros Hy. unfold kview. by rewrite lookup_insert_ne. Qed.
Lemma kview_self {K} (f : KTHREAD -> option K) T t th : kview f (<[t := th]> T) t = f th.
Proof. unfold kview. by rewrite lookup_insert_eq. Qed.
Lemma kview_at {K} (f : KTHREAD -> option K) T t th : T !! t = Some th -> kview f T t = f th.
Proof. intros H. unfold kview. by rewrite H. Qed.
Lemma kview_same {K} (f : KTHREAD -> option K) T t th th' :
  T !! t = Some th -> f th' = f th -> forall y, kview f (<[t := th']> T) y = kview f T y.
Proof.
  intros H Hf y. destruct (decide (y = t)) as [->|Hy]; [|by apply kview_other].
  by rewrite kview_self, (kview_at f T t th).
Qed.

Lemma ready_keep T R t th th' :
  ready_ok T R -> T !! t = Some th -> rkey th' = rkey th -> ready_ok (<[t := th']> T) R.
Proof. intros [Hl H] Ht Hk. split; [done|]. eapply lists_by_ext; [done | | done]. by eapply kview_same. Qed.

Lemma timeout_ext T T' Q :
  (forall y, kview tkey T' y = kview tkey T y) -> timeout_ok T Q -> timeout_ok T' Q.
Proof.
  intros Hk (Hn & Hi & Hs). split_and!; [done | |].
  - intros t. by rewrite Hk.
  - eapply sorted_weaken; [|exact Hs]. intros a b _ _. unfold earlier. by rewrite !Hk.
Qed.

Lemma timeout_keep T Q t th th' :
  timeout_ok T Q -> T !! t = Some th -> tkey th' = tkey th -> timeout_ok (<[t := th']> T) Q.
Proof. intros H Ht Hk. eapply timeout_ext; [|done]. by eapply kview_same. Qed.

Lemma wait_keep T O t th th' :
  wait_ok T O -> T !! t = Some th -> wkey th' = wkey th -> wait_ok (<[t := th']> T) O.
Proof.
  intros [H Hs] Ht Hk. split.
  - eapply lists_by_ext; [done | | done]. by eapply kview_same.
  - intros y o. rewrite (kview_same wkey T t th th') by done. apply Hs.
Qed.

Lemma threads_keep T t th' :
  threads_ok T -> t <> 0 -> thread_ok th' -> threads_ok (<[t := th']> T).
Proof.
  intros [H0 H] Ht Hok. split; [by rewrite lookup_insert_ne|]. by apply map_Forall_insert_2.
Qed.

Lemma thread_at T t th : threads_ok T -> T !! t = Some th -> thread_ok th /\ t <> 0.
Proof.
  intros [H0 H] Ht. split; [|congruence]. exact (map_Forall_lookup_1 _ _ _ _ H Ht).
Qed.

(** *** Readying a thread *)

Definition enq (p : nat) (t : Z) (R : list (list Z)) : list (list Z) :=
  <[p := default [] (R !! p) ++ [t]]> R.

Definition readied {W} (t : Z) (th : KTHREAD) (s : SCHED W) : SCHED W :=
  set_ReadyQueues (enq (Z.to_nat (Priority th)) t (gReadyQueues s))
    (put_thread t (set_State KTHREAD_STATE_READY th) s).

Lemma ready_queue_at T R (p : Z) :
  ready_ok T R -> 0 <= p < KTHREAD_PRIORITY_COUNT -> exists q, R !! Z.to_nat p = Some q.
Proof.
  intros [Hl _] Hp. unfold KTHREAD_PRIORITY_COUNT in Hp.
  apply lookup_lt_is_Some_2. rewrite Hl. lia.
Qed.

Lemma not_ready_unlinked T R (D : list Z) t :
  ready_ok T R -> kview rkey T t = None -> t ∉ D ->
  existsb (fun q => bool_decide (t ∈ q)) R || bool_decide (t ∈ D) = false.
Proof.
  intros [_ H] Hk HD. apply orb_false_iff. split; [|by apply bool_decide_eq_false_2].
  apply not_true_iff_false. rewrite existsb_exists. intros (q & Hq & Hin%bool_decide_eq_true).
  apply list_elem_of_In, list_elem_of_lookup in Hq as [p Hp].
  exact (lists_by_none _ _ p q t H Hp Hk Hin).
Qed.

Lemma set_State_key t T th x :
  T !! t = Some th -> x <> KTHREAD_STATE_READY ->
  kview rkey (<[t := set_State x th]> T) t = None.
Proof. intros Ht Hx. rewrite kview_self. unfold rkey. by rewrite decide_False. Qed.

Lemma ready_add T R t th th' :
  ready_ok T R -> T !! t = Some th -> State th <> KTHREAD_STATE_READY ->
  State th' = KTHREAD_STATE_READY -> 0 <= Priority th' < KTHREAD_PRIORITY_COUNT ->
  ready_ok (<[t := th']> T) (enq (Z.to_nat (Priority th')) t R).
Proof.
  intros Hr Ht Hn Hr' Hp. destruct (ready_queue_at T R (Priority th')) as [q Hq]; [done..|].
  destruct Hr as [Hl H]. unfold enq. rewrite Hq. split; [by rewrite length_insert|].
  assert (Hlt : (Z.to_nat (Priority th') < length R)%nat) by (by eapply lookup_lt_Some).
  eapply (lists_by_add _ _ _ _ t); [exact H | | exact Hq | | | |].
  - rewrite (kview_at rkey T t th) by done. unfold rkey. by rewrite decide_False.
  - rewrite kview_self. unfold rkey. by rewrite decide_True.
  - intros y Hy. by apply kview_other.
  - by apply list_lookup_insert_eq.
  - intros y Hy. by apply list_lookup_insert_ne.
Qed.

Lemma make_ready_run {W} t th (s : SCHED W) :
  threads s !! t = Some th -> t <> 0 -> 0 <= Priority th < KTHREAD_PRIORITY_COUNT ->
  ready_ok (threads s) (gReadyQueues s) -> State th <> KTHREAD_STATE_READY ->
  t ∉ gTerminatedList s ->
  make_ready t s = Ok (readied t th s).
Proof.
  intros Ht H0 Hp Hr Hs HD. unfold make_ready, upd_thread, get_thread. rewrite Ht. cbn [res_bind].
  unfold KiGetReadyQueueForThread. rewrite (proj2 (Z.eqb_neq t 0)) by done. cbn [negb HO_KASSERT res_bind].
  unfold get_thread. replace (threads (put_thread t (set_State KTHREAD_STATE_READY th) s) !! t)
    with (Some (set_State KTHREAD_STATE_READY th)) by (symmetry; apply lookup_insert_eq).
  cbn [res_bind]. unfold KiGetReadyQueueForPriority, KiIsValidThreadPriority.
  replace (Priority (set_State KTHREAD_STATE_READY th)) with (Priority th) by done.
  rewrite (proj2 (Z.ltb_lt _ _)) by lia. cbn [HO_KASSERT res_bind]. unfold insert_ready.
  replace (ready_linked t (put_thread t (set_State KTHREAD_STATE_READY th) s)) with false.
  2: { symmetry. eapply not_ready_unlinked; [done | | done].
       rewrite (kview_at rkey _ t th) by done. unfold rkey. by rewrite decide_False. }
  destruct (ready_queue_at _ _ (Priority th) Hr Hp) as [q Hq].
  change (gReadyQueues (put_thread t (set_State KTHREAD_STATE_READY th) s)) with (gReadyQueues s).
  assert (Hrd : rd (gReadyQueues s) (Priority th) = Ok q) by (apply rd_ok; split; [lia | done]).
  rewrite Hrd. cbn [res_bind]. rewrite wr_in.
  2: { apply lookup_lt_Some in Hq. lia. }
  cbn [res_bind]. unfold readied, enq. by rewrite Hq.
Qed.

(** *** Completing a wait *)

Lemma alter_at {A} (f : A -> A) (O : gmap OBJ A) o d : O !! o = Some d -> alter f o O = <[o := f d]> O.
Proof.
  intros Ho. apply map_eq. intros x. destruct (decide (x = o)) as [->|Hx].
  - by rewrite lookup_alter_eq, lookup_insert_eq, Ho.
  - by rewrite lookup_alter_ne, lookup_insert_ne.
Qed.

Definition unwait (t : Z) (th : KTHREAD) (O : gmap OBJ DISPATCHER) : gmap OBJ DISPATCHER :=
  match Dispatcher (WaitBlock th) with
  | None => O
  | Some o => alter (fun d => set_WaitList (filter (.≠ t) (WaitList d)) d) o O
  end.

Definition woken_thread (status : HO_STATUS) (th : KTHREAD) : KTHREAD :=
  let b := WaitBlock th in
  set_State KTHREAD_STATE_READY
    (set_WaitBlock (mkWaitBlock (Dispatcher b) (DeadlineNs b) status true) th).

Definition woken {W} (t : Z) (th : KTHREAD) (status : HO_STATUS) (s : SCHED W) : SCHED W :=
  let s' := set_ReadyQueues (enq (Z.to_nat (Priority th)) t (gReadyQueues s))
    (set_TimeoutQueue (filter (.≠ t) (gTimeoutQueue s))
      (set_objects (unwait t th (objects s)) (put_thread t (woken_thread status th) s))) in
  if bool_decide (status = EC_TIMEOUT) then count_sleep_wake s' else s'.

Lemma filter_ne_id (t : Z) (l : list Z) : t ∉ l -> filter (.≠ t) l = l.
Proof.
  induction l as [|a l IH]; [done|]. intros [Ha Hn]%not_elem_of_cons.
  rewrite filter_cons_True by congruence. by rewrite IH.
Qed.

Lemma no_deadline_not_queued T Q t th :
  timeout_ok T Q -> T !! t = Some th -> DeadlineNs (WaitBlock th) = 0 -> t ∉ Q.
Proof.
  intros (_ & Hi & _) Ht Hd Hin. apply Hi in Hin as [x Hx].
  rewrite (kview_at tkey T t th) in Hx by done. unfold tkey in Hx. rewrite decide_False in Hx; [done|]. tauto.
Qed.

Lemma blocked_not_term T O D t th :
  term_ok T O D -> T !! t = Some th -> State th <> KTHREAD_STATE_TERMINATED -> t ∉ D.
Proof. intros [_ H] Ht Hs Hin. apply H in Hin as (th' & Ht' & Hs' & _). congruence. Qed.

Lemma KiCompleteWait_run {W} t th status (s : SCHED W) :
  queues_ok s -> threads s !! t = Some th -> State th = KTHREAD_STATE_BLOCKED ->
  KiCompleteWait t status s = Ok (woken t th status s).
Proof.
  intros [Hth Hr Ht Hw HD] Et Hs. destruct (thread_at _ t th Hth Et) as [[Hp [Hb _]] H0]. destruct (Hb Hs) as [Hc _].
  unfold KiCompleteWait, get_thread. rewrite Et. cbn [res_bind]. rewrite Hc.
  set (wb := mkWaitBlock _ _ status true). set (s1 := put_thread t (set_WaitBlock wb th) s).
  assert (E2 : (match Dispatcher (WaitBlock th) with
                | None => Ok s1
                | Some o => let* d := get_object o s1 in
                    Ok (put_object o (set_WaitList (filter (.≠ t) (WaitList d)) d) s1)
                end) = Ok (set_objects (unwait t th (objects s)) s1)).
  { unfold unwait. destruct (Dispatcher (WaitBlock th)) as [o|] eqn:Ed.
    - destruct Hw as [_ Hw]. destruct (Hw t o) as [d Hd].
      { rewrite (kview_at wkey _ t th) by done. unfold wkey. by rewrite decide_True. }
      unfold get_object. change (objects s1) with (objects s). rewrite Hd. cbn [res_bind].
      by rewrite (alter_at _ _ o d Hd).
    - by destruct s. }
  rewrite E2. cbn [res_bind]. clear E2. set (s2 := set_objects _ s1).
  match goal with |- context [make_ready t ?x] => set (s3 := x) end.
  assert (E3 : s3 = set_TimeoutQueue (filter (.≠ t) (gTimeoutQueue s)) s2).
  { subst s3. destruct (Z.eqb_spec (DeadlineNs (WaitBlock th)) 0) as [Hd|Hd]; simpl; [|done].
    rewrite filter_ne_id; [by destruct s|]. by eapply no_deadline_not_queued. }
  rewrite E3. clear E3 s3.
  rewrite (make_ready_run t (set_WaitBlock wb th)).
  - cbn [res_bind]. f_equal. unfold woken. destruct s as [T O C R Q D cu id en qd nd st ni rs cp sv].
    unfold readied, put_thread. simpl. rewrite insert_insert_eq. done.
  - simpl. by rewrite lookup_insert_eq.
  - done.
  - done.
  - simpl. eapply ready_keep; [exact Hr | exact Et |]. done.
  - simpl. congruence.
  - simpl. eapply blocked_not_term; [exact HD | exact Et | congruence].
Qed.

Lemma timeout_drop T Q t th' :
  timeout_ok T Q -> tkey th' = None -> timeout_ok (<[t := th']> T) (filter (.≠ t) Q).
Proof.
  intros (Hn & Hi & Hs) Hk. split_and!.
  - by apply NoDup_filter.
  - intros y. rewrite list_elem_of_filter, Hi. destruct (decide (y = t)) as [->|Hy].
    + rewrite kview_self, Hk. split; [tauto|]. by intros [].
    + rewrite kview_other by done. tauto.
  - eapply sorted_weaken; [|by apply sorted_filter]. intros a b [Ha _]%list_elem_of_filter [Hb _]%list_elem_of_filter.
    unfold earlier. by rewrite !kview_other.
Qed.

Lemma unwait_lookup t th O x :
  unwait t th O !! x =
    (if decide (Dispatcher (WaitBlock th) = Some x)
     then (fun d => set_WaitList (filter (.≠ t) (WaitList d)) d) <$> O !! x else O !! x).
Proof.
  unfold unwait. destruct (Dispatcher (WaitBlock th)) as [o|] eqn:Ed.
  - destruct (decide (Some o = Some x)) as [Heq|Hne].
    + injection Heq as ->. by rewrite lookup_alter_eq.
    + rewrite lookup_alter_ne; [done | congruence].
  - by rewrite decide_False.
Qed.

Lemma wait_drop T O t th th' :
  wait_ok T O -> T !! t = Some th -> State th = KTHREAD_STATE_BLOCKED -> wkey th' = None ->
  wait_ok (<[t := th']> T) (unwait t th O).
Proof.
  intros [H Hs] Ht Hb Hk.
  assert (Hkt : kview wkey T t = Dispatcher (WaitBlock th)).
  { rewrite (kview_at wkey T t th) by done. unfold wkey. by rewrite decide_True. }
  split.
  - destruct (Dispatcher (WaitBlock th)) as [o|] eqn:Ed.
    + destruct (Hs t o Hkt) as [d Hd].
      eapply (lists_by_remove _ _ _ _ t o (WaitList d)); [exact H | done | simpl; by rewrite Hd | | | |].
      * by rewrite kview_self.
      * intros y Hy. by apply kview_other.
      * simpl. by rewrite unwait_lookup, decide_True, Hd.
      * intros y Hy. simpl. rewrite unwait_lookup, decide_False by congruence. done.
    + eapply lists_by_ext; [exact H | |].
      * apply kview_same with th; [done|]. rewrite Hk. unfold wkey. by rewrite decide_True.
      * intros x. unfold unwait. by rewrite Ed.
  - intros y o Hy. destruct (decide (y = t)) as [->|Hne]; [rewrite kview_self in Hy; congruence|].
    rewrite kview_other in Hy by done. rewrite unwait_lookup.
    destruct (Hs y o Hy) as [d ->]. destruct (decide _); simpl; eauto.
Qed.

(** Changes to the objects that keep every completion event's state. *)
Lemma term_keep T T' O O' D :
  term_ok T O D -> (forall t, t ∈ D -> T' !! t = T !! t) ->
  (forall t, t ∈ D -> published O t -> published O' t) -> term_ok T' O' D.
Proof.
  intros [Hn H] HT HO. split; [done|]. intros t Ht. destruct (H t Ht) as (th & E & H1 & H2 & H3 & H4).
  exists th. rewrite HT by done. split_and!; auto.
Qed.

Lemma unwait_published t th O x : published O x -> published (unwait t th O) x.
Proof.
  intros (d & Hd & Hp). unfold published. rewrite unwait_lookup, Hd.
  destruct (decide _); simpl; eauto.
Qed.

Lemma woken_fields {W} t th status (s : SCHED W) :
  threads (woken t th status s) = <[t := woken_thread status th]> (threads s) /\
  objects (woken t th status s) = unwait t th (objects s) /\
  gReadyQueues (woken t th status s) = enq (Z.to_nat (Priority th)) t (gReadyQueues s) /\
  gTimeoutQueue (woken t th status s) = filter (.≠ t) (gTimeoutQueue s) /\
  gTerminatedList (woken t th status s) = gTerminatedList s /\
  gCurrentThread (woken t th status s) = gCurrentThread s /\
  gIdleThread (woken t th status s) = gIdleThread s /\
  Cpu (woken t th status s) = Cpu s /\ Svc (woken t th status s) = Svc s /\
  SavedContext (woken t th status s) = SavedContext s /\
  gSchedulerEnabled (woken t th status s) = gSchedulerEnabled s.
Proof. unfold woken. by destruct (bool_decide _). Qed.

Lemma woken_queues {W} t th status (s : SCHED W) :
  queues_ok s -> threads s !! t = Some th -> State th = KTHREAD_STATE_BLOCKED ->
  queues_ok (woken t th status s).
Proof.
  intros [Hth Hr Hq Hw HD] Et Hs. unfold queues_ok.
  destruct (woken_fields t th status s) as (-> & -> & -> & -> & -> & _).
  destruct (thread_at _ t th Hth Et) as [Hok H0].
  assert (HD' : t ∉ gTerminatedList s) by (eapply blocked_not_term; [done | done | congruence]).
  split.
  - apply threads_keep; [done..|]. destruct Hok as (Hp & _ & Hcl). split; [exact Hp|split; [done|]].
    apply (claim_state th); try done. right. congruence.
  - apply (ready_add _ _ t th (woken_thread status th)); [done | done | congruence | done | apply Hok].
  - by apply timeout_drop.
  - by apply wait_drop.
  - eapply term_keep; [exact HD | |].
    + intros x Hx. apply lookup_insert_ne. congruence.
    + intros x _. apply unwait_published.
Qed.

(** ** Waking a list of blocked threads, in order *)

Definition prio_of (T : gmap Z KTHREAD) (t : Z) : nat :=
  match T !! t with Some th => Z.to_nat (Priority th) | None => 0%nat end.

Definition blocked (T : gmap Z KTHREAD) (t : Z) : Prop :=
  exists th, T !! t = Some th /\ State th = KTHREAD_STATE_BLOCKED.

(** The globals no wake-up touches. *)
Definition same_rest {W} (s s' : SCHED W) : Prop :=
  gTerminatedList s' = gTerminatedList s /\ gCurrentThread s' = gCurrentThread s /\
  gIdleThread s' = gIdleThread s /\ Cpu s' = Cpu s /\ Svc s' = Svc s /\
  SavedContext s' = SavedContext s /\ gSchedulerEnabled s' = gSchedulerEnabled s.

(** [woke l status s s']: between [s] and [s'] the threads of [l] were completed
    with [status], left every list they waited on and were queued, in the order
    of [l], behind the ready threads of their priority; nothing else changed. *)
Record woke {W} (l : list Z) (status : HO_STATUS) (s s' : SCHED W) : Prop := {
  wk_threads : forall x, threads s' !! x =
    (if decide (x ∈ l) then woken_thread status <$> threads s !! x else threads s !! x);
  wk_ready : forall p q, gReadyQueues s !! p = Some q ->
    gReadyQueues s' !! p = Some (q ++ filter (fun t => prio_of (threads s) t = p) l);
  wk_timeout : gTimeoutQueue s' = filter (fun t => t ∉ l) (gTimeoutQueue s);
  wk_objects : forall o, objects s' !! o =
    (fun d => set_WaitList (filter (fun t => t ∉ l) (WaitList d)) d) <$> objects s !! o;
  wk_rest : same_rest s s';
  wk_blocked : forall t, t ∈ l -> blocked (threads s) t;
  wk_queues : queues_ok s'
}.

Lemma set_WaitList_id d : set_WaitList (WaitList d) d = d.
Proof. by destruct d. Qed.

Lemma filter_not_in_nil (l : list Z) : filter (fun t => t ∉ []) l = l.
Proof.
  induction l as [|a l IH]; [done|]. rewrite filter_cons_True; [by rewrite IH | apply not_elem_of_nil].
Qed.

Lemma filter_not_in_cons (t : Z) (l q : list Z) :
  filter (fun x => x ∉ l) (filter (.≠ t) q) = filter (fun x => x ∉ t :: l) q.
Proof.
  induction q as [|a q IH]; [done|].
  destruct (decide (a = t)) as [->|Ha].
  - rewrite (filter_cons_False (.≠ t)) by congruence. rewrite filter_cons_False; [done|].
    intros Hn. apply Hn. by left.
  - rewrite (filter_cons_True (.≠ t)) by done. destruct (decide (a ∈ l)).
    + rewrite !filter_cons_False; [done | | tauto]. intros Hn. apply Hn. by right.
    + rewrite !filter_cons_True; [by rewrite IH | | done]. by apply not_elem_of_cons.
Qed.

Lemma woke_nil {W} status (s : SCHED W) : queues_ok s -> woke [] status s s.
Proof.
  intros Hq. split; try done; [| | |by intros t ?%not_elem_of_nil].
  - intros p q Hp. by rewrite filter_nil, app_nil_r.
  - by rewrite filter_not_in_nil.
  - intros o. destruct (objects s !! o); [|done]. simpl. by rewrite filter_not_in_nil, set_WaitList_id.
Qed.

Lemma woke_cons {W} t th l status (s s' : SCHED W) :
  queues_ok s -> threads s !! t = Some th -> State th = KTHREAD_STATE_BLOCKED -> t ∉ l ->
  woke l status (woken t th status s) s' -> woke (t :: l) status s s'.
Proof.
  intros Hq Et Hs Hl [H1 H2 H3 H4 H5 Hb H6].
  destruct (woken_fields t th status s) as (F1 & F2 & F3 & F4 & F5 & F6 & F7 & F8 & F9 & F10 & F11).
  rewrite F1 in H1. rewrite F1, F3 in H2. rewrite F4 in H3. rewrite F2 in H4.
  split; [| | | | | |done].
  - intros x. rewrite H1. destruct (decide (x = t)) as [->|Hx].
    + rewrite decide_False by done. rewrite decide_True by (by left).
      by rewrite lookup_insert_eq, Et.
    + rewrite lookup_insert_ne by congruence. destruct (decide (x ∈ l)).
      * by rewrite decide_True by (by right).
      * by rewrite decide_False by (by apply not_elem_of_cons).
  - intros p q Hp. assert (Hpt : prio_of (threads s) t = Z.to_nat (Priority th)).
    { unfold prio_of. by rewrite Et. }
    assert (Hf : filter (fun x => prio_of (<[t:=woken_thread status th]> (threads s)) x = p) l =
                 filter (fun x => prio_of (threads s) x = p) l).
    { apply filter_iff_in. intros x _. unfold prio_of.
      destruct (decide (x = t)) as [->|Hx]; [by rewrite lookup_insert_eq, Et | by rewrite lookup_insert_ne]. }
    assert (H2' : forall q', enq (Z.to_nat (Priority th)) t (gReadyQueues s) !! p = Some q' ->
      gReadyQueues s' !! p = Some (q' ++ filter (fun x => prio_of (threads s) x = p) l)).
    { intros q' Hq'. rewrite <- Hf. by apply H2. }
    clear H2 Hf. unfold enq in H2'. destruct (decide (Z.to_nat (Priority th) = p)) as [<-|Hne].
    + rewrite filter_cons_True by done. rewrite (H2' (q ++ [t])); [by rewrite <- app_assoc|].
      rewrite Hp. apply list_lookup_insert_eq. by eapply lookup_lt_Some.
    + rewrite filter_cons_False by congruence. apply H2'. by rewrite list_lookup_insert_ne.
  - by rewrite H3, filter_not_in_cons.
  - intros o. rewrite H4, unwait_lookup.
    destruct (objects s !! o) as [d|] eqn:Ed; [|by destruct (decide _)].
    destruct (decide (Dispatcher (WaitBlock th) = Some o)) as [|Hne]; simpl.
    + by rewrite filter_not_in_cons.
    + rewrite <- filter_not_in_cons, (filter_ne_id t); [done|].
      destruct Hq as [_ _ _ [Hw _] _]. intros Hin. destruct (Hw o (WaitList d)) as [_ Hi].
      { simpl. by rewrite Ed. }
      apply Hi in Hin. rewrite (kview_at wkey _ t th) in Hin by done. unfold wkey in Hin.
      by rewrite decide_True in Hin.
  - unfold same_rest in *. by rewrite F5, F6, F7, F8, F9, F10, F11 in H5.
  - intros x [->|Hx]%elem_of_cons; [by exists th|]. rewrite F1 in Hb. destruct (Hb x Hx) as (thx & E & Hsx).
    exists thx. rewrite lookup_insert_ne in E by congruence. done.
Qed.

Lemma woken_blocked {W} t th status (s : SCHED W) x :
  blocked (threads s) x -> x <> t -> blocked (threads (woken t th status s)) x.
Proof.
  intros (thx & Hx & Hs) Hne. exists thx. destruct (woken_fields t th status s) as (-> & _).
  by rewrite lookup_insert_ne.
Qed.

(** The timeout loop wakes the expired prefix of the queue. *)
Lemma wake_timeouts_run {W} fuel nowNs (s : SCHED W) :
  queues_ok s -> (length (gTimeoutQueue s) < fuel)%nat ->
  exists s', wake_timeouts fuel nowNs s = Ok s' /\
    woke (filter (fun t => default 0 (kview tkey (threads s) t) <= nowNs) (gTimeoutQueue s))
         EC_TIMEOUT s s'.
Proof.
  revert s. induction fuel as [|fuel IH]; intros s Hq Hf; [lia|]. cbn [wake_timeouts].
  destruct (gTimeoutQueue s) as [|t Q] eqn:EQ.
  { exists s. split; [done|]. by apply woke_nil. }
  assert (Hqt := q_timeout _ _ _ _ _ Hq). rewrite EQ in Hqt. destruct Hqt as (Hn & Hi & Hsort).
  destruct (proj1 (Hi t) ltac:(by left)) as [dl Hdl].
  assert (Hex : exists th, threads s !! t = Some th /\ State th = KTHREAD_STATE_BLOCKED /\
                DeadlineNs (WaitBlock th) = dl).
  { unfold kview, tkey in Hdl. destruct (threads s !! t) as [th|]; [|done]. simpl in Hdl. exists th.
    destruct (decide _) as [[? ?]|]; [|done]. by injection Hdl. }
  destruct Hex as (th & Et & Hs & Ed). unfold get_thread. rewrite Et. cbn [res_bind]. rewrite Ed.
  inversion_clear Hsort as [|? ? Hsort' Hall]. apply NoDup_cons in Hn as [Hnt Hn].
  rewrite Forall_forall in Hall.
  destruct (Z.ltb_spec nowNs dl) as [Hlt|Hge].
  - exists s. split; [done|].
    assert (filter (fun x => default 0 (kview tkey (threads s) x) <= nowNs) (t :: Q) = []) as ->.
    { apply elem_of_nil_inv. intros x [Hx Hin]%list_elem_of_filter.
      apply elem_of_cons in Hin as [->|Hin]; [rewrite Hdl in Hx; simpl in Hx; lia|].
      pose proof (Hall x Hin) as He. unfold earlier in He. rewrite Hdl in He. simpl in He. lia. }
    by apply woke_nil.
  - rewrite (KiCompleteWait_run t th) by done. cbn [res_bind].
    destruct (IH (woken t th EC_TIMEOUT s)) as (s' & E & Hw).
    { by apply woken_queues. }
    { destruct (woken_fields t th EC_TIMEOUT s) as (_ & _ & _ & -> & _). rewrite EQ.
      rewrite filter_cons_False by congruence. pose proof (length_filter (.≠ t) Q). simpl in Hf. lia. }
    exists s'. split; [done|]. rewrite filter_cons_True by (rewrite Hdl; simpl; lia).
    destruct (woken_fields t th EC_TIMEOUT s) as (F1 & _ & _ & F4 & _). rewrite F1, F4, EQ in Hw.
    rewrite filter_cons_False in Hw by congruence. rewrite (filter_ne_id t Q) in Hw by done.
    eapply woke_cons; [done.. | |].
    { intros [_ Hin]%list_elem_of_filter. done. }
    erewrite filter_iff_in; [exact Hw|]. intros x Hx.
    cbn beta. rewrite kview_other; [done | congruence].
Qed.

Lemma waiter_blocked {W} (s : SCHED W) o d t :
  queues_ok s -> objects s !! o = Some d -> t ∈ WaitList d ->
  exists th, threads s !! t = Some th /\ State th = KTHREAD_STATE_BLOCKED /\
    Dispatcher (WaitBlock th) = Some o.
Proof.
  intros Hq Ho Ht. destruct Hq as [_ _ _ [Hw _] _].
  destruct (Hw o (WaitList d)) as [_ Hi]; [simpl; by rewrite Ho|].
  apply Hi in Ht. unfold kview, wkey in Ht. destruct (threads s !! t) as [th|]; [|done].
  simpl in Ht. exists th. destruct (decide _); done.
Qed.

(** The waiters a release of [permits] wakes ([None] is an event's broadcast). *)
Definition granted (permits : option Z) (l : list Z) : list Z :=
  match permits with None => l | Some n => take (Z.to_nat n) l end.

Lemma release_waiters_run {W} fuel o permits (s : SCHED W) d :
  queues_ok s -> objects s !! o = Some d -> (length (WaitList d) < fuel)%nat ->
  exists s', release_waiters fuel o permits s =
      Ok (option_map (fun n => n - Z.of_nat (length (granted permits (WaitList d)))) permits, s') /\
    woke (granted permits (WaitList d)) EC_SUCCESS s s'.
Proof.
  revert s d permits. induction fuel as [|fuel IH]; intros s d permits Hq Ho Hf; [lia|].
  cbn [release_waiters]. unfold get_object. rewrite Ho. cbn [res_bind].
  destruct (WaitList d) as [|t l] eqn:El.
  { exists s. split; [|destruct permits; simpl; rewrite ?take_nil; by apply woke_nil].
    destruct permits as [n|]; simpl; [|done]. by rewrite take_nil, Z.sub_0_r. }
  destruct (match permits with None => true | Some n => 0 <? n end) eqn:Emore.
  2: { destruct permits as [n|]; [|done]. exists s. apply Z.ltb_ge in Emore.
       simpl. replace (Z.to_nat n) with 0%nat by lia. simpl. rewrite Z.sub_0_r.
       split; [done|]. by apply woke_nil. }
  assert (Htl : t ∈ WaitList d) by (rewrite El; by left).
  destruct (waiter_blocked s o d t) as (th & Et & Hs & Hd); [done..|].
  assert (Hn : NoDup (t :: l)).
  { destruct Hq as [_ _ _ [Hw _] _]. rewrite <- El. apply (Hw o). simpl. by rewrite Ho. }
  apply NoDup_cons in Hn as [Hnt Hn].
  rewrite (KiCompleteWait_run t th) by done. cbn [res_bind].
  destruct (woken_fields t th EC_SUCCESS s) as (_ & F2 & _).
  set (d1 := set_WaitList l d).
  assert (Ho1 : objects (woken t th EC_SUCCESS s) !! o = Some d1).
  { rewrite F2, unwait_lookup, decide_True, Ho by done. simpl.
    by rewrite El, filter_cons_False, filter_ne_id by congruence. }
  destruct (IH (woken t th EC_SUCCESS s) d1 (option_map (fun n => n - 1) permits))
    as (s' & E & Hw); [by apply woken_queues | done | simpl in *; lia |].
  change (WaitList d1) with l in E, Hw.
  exists s'. rewrite E. assert (Hg : granted permits (t :: l) = t :: granted (option_map (fun n => n - 1) permits) l).
  { destruct permits as [n|]; [|done]. apply Z.ltb_lt in Emore. simpl.
    replace (Z.to_nat n) with (S (Z.to_nat (n - 1))) by lia. done. }
  rewrite Hg. split.
  - do 2 f_equal. destruct permits as [n|]; [|done]. simpl. f_equal. lia.
  - eapply woke_cons; try done. intros Hin. apply Hnt. destruct permits as [n|]; simpl in Hin; [|done].
    rewrite <- (take_drop (Z.to_nat (n - 1)) l). apply elem_of_app. by left.
Qed.

End SchedInv.
