(* ===== verification/SchedSafe.v ===== *)
(** * The system invariant of the scheduler and its preservation

    [sinv] is the invariant of the threads, objects, queues and suspended
    contexts.  It is stated with every thread suspended: a thread that runs its
    own code has the empty context, the thread inside a kernel call has the
    frames that call has still to return through.  [boundary] is the state
    between two kernel calls of the running thread. *)

From S2P Require Import Prelude Irql Sched SchedInv.

Local Open Scope Z_scope.
Import Irql Sched SchedInv.

(** ** What the other components promise *)

Class ServicesLaws (W : Type) {SV : Services W} := {
  svc_ok : W -> Prop;
  thread_live : W -> Z -> Z -> Prop;    (* a pool slot and its stack's handle *)
  root_ok : W -> Z -> Prop;             (* a root table that can be installed *)
  runtime_event : W -> Z -> Prop;       (* an event the finalize hook may set *)
  (** [w'] is as usable as [w]. *)
  quiet : W -> W -> Prop;
  quiet_law : forall w w', quiet w w' -> svc_ok w -> svc_ok w' /\
    (forall t h, thread_live w t h -> thread_live w' t h) /\ (forall r, root_ok w r -> root_ok w' r) /\
    (is_Some (FinalizeThreadHook w) -> is_Some (FinalizeThreadHook w')) /\
    (forall a, runtime_event w' a -> runtime_event w a);
  resolve_law : forall w t, svc_ok w -> t <> 0 -> exists f root,
    ResolveRootHook w = Some f /\ f t = (EC_SUCCESS, root) /\ root <> 0 /\ root_ok w root;
  switch_law : forall w root, svc_ok w -> root_ok w root ->
    exists w', SwitchAddressSpace root w = (EC_SUCCESS, w') /\ quiet w w';
  clock_law : forall w, svc_ok w -> quiet w (snd (SystemUpRealTime w));
  arm_law : forall w d, svc_ok w -> quiet w (snd (SetNextEvent d w));
  interrupt_law : forall w, svc_ok w -> quiet w (OnClockInterrupt w);
  observe_law : forall w f t, svc_ok w -> ObserveTimerHook w = Some f -> quiet w (f t w);
  enter_law : forall w owns t, svc_ok w -> OwnsThreadHook w = Some owns -> owns t = true ->
    exists f, EnterHook w = Some f /\ quiet w (f t w);
  finalize_law : forall w owns t, svc_ok w -> OwnsThreadHook w = Some owns -> owns t = true ->
    is_Some (FinalizeThreadHook w);
  (** A stage of the hook succeeds and sets only a runtime event; the root tables
      may go. *)
  stage_law : forall w0 f t stage w, svc_ok w0 -> FinalizeThreadHook w0 = Some f -> stage ∈ f t -> svc_ok w ->
    exists ev w', stage w = (EC_SUCCESS, ev, w') /\ svc_ok w' /\
      (forall t' h, thread_live w t' h -> thread_live w' t' h) /\
      (is_Some (FinalizeThreadHook w) -> is_Some (FinalizeThreadHook w')) /\
      (forall a, runtime_event w' a -> runtime_event w a) /\ (forall a, ev = Some a -> runtime_event w' a);
  release_law : forall w t h, svc_ok w -> thread_live w t h ->
    exists w1 w2, ReleaseStack h w = (EC_SUCCESS, w1) /\ PoolFree t w1 = Ok w2 /\ svc_ok w2 /\
      (forall t' h', t' <> t -> thread_live w t' h' -> thread_live w2 t' h') /\
      (is_Some (FinalizeThreadHook w) -> is_Some (FinalizeThreadHook w2)) /\
      (forall a, runtime_event w2 a -> runtime_event w a)
}.

Module SchedSafe.

(** ** Contexts *)

Definition PASSIVE0 : KE_IRQL_STATE := mkIrqlState KE_IRQL_PASSIVE_LEVEL 0 0.
Definition DISPATCH1 : KE_IRQL_STATE := mkIrqlState KE_IRQL_DISPATCH_LEVEL 1 0.
Definition INTERRUPT1 : KE_IRQL_STATE := mkIrqlState KE_IRQL_DISPATCH_LEVEL 1 1.

(** The guard a kernel call entered from passive level holds. *)
Definition held (b : bool) : KE_IRQL_GUARD :=
  mkIrqlGuard true true b KE_IRQL_PASSIVE_LEVEL KE_IRQL_DISPATCH_LEVEL 1.

(** The contexts a thread can have, with the IRQL state it has then. *)
Inductive frames_irql : list FRAME -> KE_IRQL_STATE -> Prop :=
| fi_user : frames_irql [] PASSIVE0
| fi_new : frames_irql [InTrampoline] PASSIVE0
| fi_yield b : frames_irql [InYield (held b)] DISPATCH1
| fi_sleep b : frames_irql [InSleep (held b)] DISPATCH1
| fi_set_event b : frames_irql [InSetEvent (held b)] DISPATCH1
| fi_semaphore b : frames_irql [InReleaseSemaphore (held b)] DISPATCH1
| fi_wait b : frames_irql [InWait (held b)] DISPATCH1
| fi_join b t : frames_irql [InWait (held b); InJoin t] DISPATCH1
| fi_interrupt : frames_irql [InTimerInterrupt] INTERRUPT1
| fi_exit : frames_irql [InExitAfterSchedule] DISPATCH1
| fi_finalize b t n : frames_irql [InSetEvent (held b); InFinalize t n; InReap] DISPATCH1.

(** Thread [j] is suspended in a join of thread [t]. *)
Definition joins (C : gmap Z (list FRAME)) (j t : Z) : Prop :=
  exists g, C !! j = Some [InWait g; InJoin t].

(** Thread [j] is suspended in the reaper, in the finalize hook of thread [t]. *)
Definition finalizes (C : gmap Z (list FRAME)) (j t : Z) : Prop :=
  exists g n, C !! j = Some [InSetEvent g; InFinalize t n; InReap].

(** ** The invariant *)

Definition obj_ok (d : DISPATCHER) : Prop :=
  Signature d = KDISPATCHER_SIGNATURE /\
  ((DType d = DISPATCHER_TYPE_EVENT /\ OwnerThread d = 0 /\ (SignalState d <> 0 -> WaitList d = [])) \/
   (DType d = DISPATCHER_TYPE_SEMAPHORE /\ OwnerThread d = 0 /\ 0 < Limit d < 2 ^ 31 /\
    0 <= SignalState d <= Limit d /\ (SignalState d <> 0 -> WaitList d = [])) \/
   (DType d = DISPATCHER_TYPE_MUTEX /\
    ((SignalState d = 1 /\ OwnerThread d = 0 /\ WaitList d = []) \/
     (SignalState d = 0 /\ OwnerThread d <> 0 /\ OwnerThread d ∉ WaitList d)))).

Definition owned (O : gmap OBJ DISPATCHER) (t : Z) : Z :=
  Z.of_nat (size (filter (fun x => OwnerThread x.2 = t) O)).

Definition owners_ok (T : gmap Z KTHREAD) (O : gmap OBJ DISPATCHER) : Prop :=
  (forall o d, O !! o = Some d -> OwnerThread d <> 0 ->
     exists th, T !! OwnerThread d = Some th /\ State th <> KTHREAD_STATE_TERMINATED) /\
  (forall t th, T !! t = Some th -> OwnedMutexCount th = owned O t).

Definition completions_ok (T : gmap Z KTHREAD) (O : gmap OBJ DISPATCHER) : Prop :=
  forall t, (is_Some (O !! Completion t) <-> is_Some (T !! t)) /\
    forall d, O !! Completion t = Some d -> DType d = DISPATCHER_TYPE_EVENT /\
      (SignalState d <> 0 -> exists th, T !! t = Some th /\ State th = KTHREAD_STATE_TERMINATED).

Definition contexts_ok (T : gmap Z KTHREAD) (C : gmap Z (list FRAME)) (I : gmap Z KE_IRQL_STATE) : Prop :=
  forall t th, T !! t = Some th -> exists k st, C !! t = Some k /\ frames_irql k st /\
    I !! t = Some st /\ (State th = KTHREAD_STATE_TERMINATED <-> k = [InExitAfterSchedule]).

Definition terminated (T : gmap Z KTHREAD) (t : Z) : Prop :=
  exists th, T !! t = Some th /\ State th = KTHREAD_STATE_TERMINATED.

(** What the wait of a thread joining [t] relies on. *)
Definition join_wait (T : gmap Z KTHREAD) (O : gmap OBJ DISPATCHER) (thj : KTHREAD) (t : Z) : Prop :=
  (State thj = KTHREAD_STATE_BLOCKED -> Dispatcher (WaitBlock thj) = Some (Completion t)) /\
  (State thj <> KTHREAD_STATE_BLOCKED -> CompletionStatus (WaitBlock thj) = EC_SUCCESS ->
     terminated T t /\ published O t).

(** What a pending join relies on. *)
Definition join_ok (T : gmap Z KTHREAD) (O : gmap OBJ DISPATCHER) (idle j t : Z) : Prop :=
  exists thj th, T !! j = Some thj /\ T !! t = Some th /\ t <> j /\ t <> idle /\
    TerminationMode th = KTHREAD_TERMINATION_MODE_JOINABLE /\
    TerminationClaimState th = CLAIM_JOIN_IN_PROGRESS /\
    join_wait T O thj t.

Definition joins_ok (T : gmap Z KTHREAD) (O : gmap OBJ DISPATCHER) (C : gmap Z (list FRAME)) (idle : Z) : Prop :=
  (forall j t, joins C j t -> join_ok T O idle j t) /\
  (forall i j t, joins C i t -> joins C j t -> i = j) /\
  (forall w t, kview wkey T w = Some (Completion t) -> joins C w t).

Definition idle_ok (T : gmap Z KTHREAD) (idle : Z) : Prop :=
  exists th, T !! idle = Some th /\ StackOwnedByKva th = false /\
    (State th = KTHREAD_STATE_RUNNING \/ State th = KTHREAD_STATE_READY).

Section invariant.
Context {W : Type} {SV : Services W} {SL : ServicesLaws W}.
Implicit Types (s : SCHED W).

Definition stacks_ok (T : gmap Z KTHREAD) (idle : Z) (w : W) : Prop :=
  svc_ok w /\ forall t th, T !! t = Some th -> t <> idle ->
    StackOwnedByKva th = true /\ thread_live w t (StackRange th).

(** A thread whose finalisation was begun. *)
Definition condemned (T : gmap Z KTHREAD) (t : Z) : Prop :=
  exists th, T !! t = Some th /\ State th = KTHREAD_STATE_TERMINATED /\ TerminationClaimState th = CLAIM_CONSUMED.

(** The events the finalize hook may set exist, only the idle thread is suspended
    in a finalisation, whose thread still exists, and it is not joining. *)
Definition runtime_ok (T : gmap Z KTHREAD) (O : gmap OBJ DISPATCHER) (C : gmap Z (list FRAME)) (idle : Z) (w : W) : Prop :=
  (forall a, runtime_event w a -> exists d, O !! Standalone a = Some d /\ DType d = DISPATCHER_TYPE_EVENT) /\
  (forall j t, finalizes C j t -> j = idle /\ is_Some (FinalizeThreadHook w) /\ condemned T t) /\
  (forall t, ~ joins C idle t).

(** At most the current and the idle thread are marked running. *)
Definition running_ok (T : gmap Z KTHREAD) (cur idle : Z) : Prop :=
  forall t th, T !! t = Some th -> State th = KTHREAD_STATE_RUNNING -> t = cur \/ t = idle.

Record sinv (C : gmap Z (list FRAME)) s : Prop := {
  s_queues : queues_ok s;
  s_objects : map_Forall (fun _ => obj_ok) (objects s);
  s_owners : owners_ok (threads s) (objects s);
  s_completions : completions_ok (threads s) (objects s);
  s_contexts : contexts_ok (threads s) C (IrqlStates (Cpu s));
  s_joins : joins_ok (threads s) (objects s) C (gIdleThread s);
  s_idle : idle_ok (threads s) (gIdleThread s);
  s_running : running_ok (threads s) (gCurrentThread s) (gIdleThread s);
  s_stacks : stacks_ok (threads s) (gIdleThread s) (Svc s);
  s_runtime : runtime_ok (threads s) (objects s) C (gIdleThread s) (Svc s)
}.

(** The invariant without the objects' own: it holds inside a signalling loop. *)
Record sinv_weak (C : gmap Z (list FRAME)) s : Prop := {
  w_queues : queues_ok s;
  w_owners : owners_ok (threads s) (objects s);
  w_completions : completions_ok (threads s) (objects s);
  w_contexts : contexts_ok (threads s) C (IrqlStates (Cpu s));
  w_joins : joins_ok (threads s) (objects s) C (gIdleThread s);
  w_idle : idle_ok (threads s) (gIdleThread s);
  w_running : running_ok (threads s) (gCurrentThread s) (gIdleThread s);
  w_stacks : stacks_ok (threads s) (gIdleThread s) (Svc s);
  w_runtime : runtime_ok (threads s) (objects s) C (gIdleThread s) (Svc s)
}.

Lemma sinv_weaken C s : sinv C s -> sinv_weak C s.
Proof. intros []. by split. Qed.
Lemma sinv_strengthen C s : sinv_weak C s -> map_Forall (fun _ => obj_ok) (objects s) -> sinv C s.
Proof. intros [] ?. by split. Qed.

(** The processor runs the current thread, whose IRQL state is [st]. *)
Definition cpu_at s (st : KE_IRQL_STATE) : Prop :=
  gCurrentIrqlState (Cpu s) = gCurrentThread s /\ gCurrentThread s <> 0 /\
  gCriticalSectionDepth (Cpu s) = 0 /\
  IrqlStates (Cpu s) !! gCurrentThread s = Some st /\
  (0 < DispatchDepth st -> MaskableInterruptEnabled (Cpu s) = false).

Definition current_running s : Prop :=
  exists th, threads s !! gCurrentThread s = Some th /\ State th = KTHREAD_STATE_RUNNING.

(** Inside a kernel call of the current thread that still has to return through [k]. *)
Definition inside (k : list FRAME) (st : KE_IRQL_STATE) s : Prop :=
  sinv (<[gCurrentThread s := k]> (SavedContext s)) s /\ frames_irql k st /\ cpu_at s st.

(** Between two kernel calls: the current thread runs its own code. *)
Definition boundary s : Prop := inside [] PASSIVE0 s /\ current_running s.

(** Just switched to: the current thread has still to return through its context. *)
Definition switched s : Prop :=
  sinv (SavedContext s) s /\ current_running s /\
  exists k st, SavedContext s !! gCurrentThread s = Some k /\ frames_irql k st /\ cpu_at s st.

(** ** Updating one thread *)

(** The fields the invariant reads outside the queues. *)
Record static_same (th th' : KTHREAD) : Prop := {
  ss_mode : TerminationMode th' = TerminationMode th;
  ss_claim : TerminationClaimState th' = TerminationClaimState th;
  ss_kva : StackOwnedByKva th' = StackOwnedByKva th;
  ss_range : StackRange th' = StackRange th;
  ss_term : State th' = KTHREAD_STATE_TERMINATED <-> State th = KTHREAD_STATE_TERMINATED
}.

(** Two thread maps whose threads differ at most in their queueing fields. *)
Definition statics (T T' : gmap Z KTHREAD) : Prop :=
  forall t, match T !! t, T' !! t with
            | Some th, Some th' => static_same th th'
            | None, None => True
            | _, _ => False
            end.

Lemma static_refl th : static_same th th.
Proof. by split. Qed.

Lemma statics_insert T t th th' : T !! t = Some th -> static_same th th' -> statics T (<[t := th']> T).
Proof.
  intros Ht Hs x. destruct (decide (x = t)) as [->|Hx].
  - by rewrite lookup_insert_eq, Ht.
  - rewrite lookup_insert_ne by congruence. destruct (T !! x); [|done]. apply static_refl.
Qed.

Lemma statics_fwd T T' t th : statics T T' -> T !! t = Some th -> exists th', T' !! t = Some th' /\ static_same th th'.
Proof. intros H Ht. specialize (H t). rewrite Ht in H. destruct (T' !! t); [eauto | done]. Qed.
Lemma statics_bwd T T' t th' : statics T T' -> T' !! t = Some th' -> exists th, T !! t = Some th /\ static_same th th'.
Proof. intros H Ht. specialize (H t). rewrite Ht in H. destruct (T !! t); [eauto | done]. Qed.

(** Objects that differ at most in their wait lists. *)
Definition relisted (O O' : gmap OBJ DISPATCHER) : Prop :=
  forall o, match O !! o, O' !! o with
            | Some d, Some d' => d' = set_WaitList (WaitList d') d
            | None, None => True
            | _, _ => False
            end.

Lemma relisted_fwd O O' o d : relisted O O' -> O !! o = Some d ->
  exists l, O' !! o = Some (set_WaitList l d).
Proof. intros H Ho. specialize (H o). rewrite Ho in H. destruct (O' !! o) as [d'|]; [|done]. exists (WaitList d'). by rewrite <- H. Qed.
Lemma relisted_bwd O O' o d' : relisted O O' -> O' !! o = Some d' ->
  exists d l, O !! o = Some d /\ d' = set_WaitList l d.
Proof. intros H Ho. specialize (H o). rewrite Ho in H. destruct (O !! o) as [d|]; [|done]. eauto. Qed.
Lemma relisted_refl O : relisted O O.
Proof. intros o. destruct (O !! o); [|done]. by rewrite set_WaitList_id. Qed.

Lemma owned_ext O O' t :
  (forall o, OwnerThread <$> O' !! o = OwnerThread <$> O !! o) -> owned O' t = owned O t.
Proof.
  intros H. unfold owned. f_equal. rewrite <- !size_dom. f_equal. apply set_eq. intros o.
  rewrite !elem_of_dom. specialize (H o).
  assert (Hi : forall Q : gmap OBJ DISPATCHER, is_Some (filter (fun x => OwnerThread x.2 = t) Q !! o) <->
             OwnerThread <$> Q !! o = Some t).
  { intros Q. split.
    - intros [d [Hd Ht]%map_lookup_filter_Some]. rewrite Hd. simpl in *. by f_equal.
    - intros Hd. destruct (Q !! o) as [d|] eqn:E; [|done]. exists d. apply map_lookup_filter_Some.
      split; [done|]. simpl in *. congruence. }
  rewrite !Hi, H. done.
Qed.

Lemma relisted_owned O O' t : relisted O O' -> owned O' t = owned O t.
Proof.
  intros H. apply owned_ext. intros o. specialize (H o). destruct (O !! o), (O' !! o); try done.
  simpl. by rewrite H.
Qed.

(** No thread's mutex count changes. *)
Definition counts_same (T T' : gmap Z KTHREAD) : Prop :=
  forall t, OwnedMutexCount <$> T' !! t = OwnedMutexCount <$> T !! t.

Lemma counts_insert T t th th' : T !! t = Some th -> OwnedMutexCount th' = OwnedMutexCount th ->
  counts_same T (<[t := th']> T).
Proof.
  intros Ht Hc x. destruct (decide (x = t)) as [->|Hx].
  - rewrite lookup_insert_eq, Ht. simpl. by rewrite Hc.
  - by rewrite lookup_insert_ne by congruence.
Qed.

Lemma owners_keep T T' O O' :
  statics T T' -> counts_same T T' -> relisted O O' -> owners_ok T O -> owners_ok T' O'.
Proof.
  intros HT Hcs HO [H1 H2]. split.
  - intros o d' Ho Hn. destruct (relisted_bwd _ _ _ _ HO Ho) as (d & l & Hd & ->).
    destruct (H1 o d Hd Hn) as (th & Ht & Hs). destruct (statics_fwd _ _ _ _ HT Ht) as (th' & Ht' & Hss).
    exists th'. split; [done|]. by rewrite (ss_term _ _ Hss).
  - intros t th' Ht. destruct (statics_bwd _ _ _ _ HT Ht) as (th & Ht' & Hss).
    rewrite (relisted_owned O O') by done. specialize (Hcs t). rewrite Ht, Ht' in Hcs.
    injection Hcs as ->. by apply H2.
Qed.

Lemma statics_is_some T T' t : statics T T' -> is_Some (T' !! t) <-> is_Some (T !! t).
Proof. intros H. specialize (H t). destruct (T !! t), (T' !! t); try done; split; eauto. Qed.
Lemma relisted_is_some O O' o : relisted O O' -> is_Some (O' !! o) <-> is_Some (O !! o).
Proof. intros H. specialize (H o). destruct (O !! o), (O' !! o); try done; split; eauto. Qed.

Lemma completions_keep T T' O O' :
  statics T T' -> relisted O O' -> completions_ok T O -> completions_ok T' O'.
Proof.
  intros HT HO H t. destruct (H t) as [H1 H2]. split.
  - by rewrite (relisted_is_some O O'), (statics_is_some T T').
  - intros d' Ho. destruct (relisted_bwd _ _ _ _ HO Ho) as (d & l & Hd & ->).
    destruct (H2 d Hd) as [Hty Hp]. split; [done|]. intros Hs. destruct (Hp Hs) as (th & Ht & Hst).
    destruct (statics_fwd _ _ _ _ HT Ht) as (th' & Ht' & Hss). exists th'. split; [done|].
    by apply (ss_term _ _ Hss).
Qed.

Lemma contexts_keep T T' C I : statics T T' -> contexts_ok T C I -> contexts_ok T' C I.
Proof.
  intros HT H t th' Ht. destruct (statics_bwd _ _ _ _ HT Ht) as (th & Ht' & Hss).
  destruct (H t th Ht') as (k & st & ? & ? & ? & ?). exists k, st. by rewrite (ss_term _ _ Hss).
Qed.

(** What a later state of the services keeps of an earlier one. *)
Definition carries (w w' : W) : Prop :=
  (svc_ok w -> svc_ok w') /\ (forall t h, thread_live w t h -> thread_live w' t h) /\
  (is_Some (FinalizeThreadHook w) -> is_Some (FinalizeThreadHook w')) /\
  (forall a, runtime_event w' a -> runtime_event w a).

(** A later state of the services that is as usable as an earlier one. *)
Definition as_good (w w' : W) : Prop := carries w w' /\ (forall r, root_ok w r -> root_ok w' r).

#[export] Instance carries_preorder : PreOrder carries.
Proof.
  split; [by intros w|]. intros w1 w2 w3 (A1 & A2 & A3 & A4) (B1 & B2 & B3 & B4). split_and!; eauto.
Qed.
Lemma as_good_refl w : as_good w w.
Proof. by split. Qed.
Lemma as_good_trans w1 w2 w3 : as_good w1 w2 -> as_good w2 w3 -> as_good w1 w3.
Proof. intros [A ?] [B ?]. split; [by etransitivity | eauto]. Qed.
Lemma quiet_good w w' : svc_ok w -> quiet w w' -> as_good w w'.
Proof. intros Hw Hq. apply quiet_law in Hq as (? & ? & ? & ? & ?); [|done]. by split. Qed.

Lemma stacks_keep T T' idle w w' :
  statics T T' -> carries w w' -> stacks_ok T idle w -> stacks_ok T' idle w'.
Proof.
  intros HT (Hw1 & Hw2 & _) [Hok H]. split; [by apply Hw1|].
  intros t th' Ht Hi. destruct (statics_bwd _ _ _ _ HT Ht) as (th & Ht' & Hss).
  rewrite (ss_kva _ _ Hss), (ss_range _ _ Hss). destruct (H t th Ht' Hi). split; [done|]. by apply Hw2.
Qed.

(** No standalone object disappears or changes its type. *)
Definition typed (O O' : gmap OBJ DISPATCHER) : Prop :=
  forall a d, O !! Standalone a = Some d -> exists d', O' !! Standalone a = Some d' /\ DType d' = DType d.
Lemma typed_refl O : typed O O.
Proof. intros a d Hd. by exists d. Qed.
Lemma relisted_typed O O' : relisted O O' -> typed O O'.
Proof. intros H a d Hd. destruct (relisted_fwd _ _ _ _ H Hd) as [l Hl]. by exists (set_WaitList l d). Qed.
Lemma typed_insert O o d d' : O !! o = Some d -> DType d' = DType d -> typed O (<[o := d']> O).
Proof.
  intros Ho Hd a x Hx. destruct (decide (o = Standalone a)) as [->|Hne].
  - exists d'. rewrite lookup_insert_eq. split; [done|]. congruence.
  - exists x. by rewrite lookup_insert_ne.
Qed.

Lemma runtime_keep T T' O O' C C' idle w w' :
  (forall t, condemned T t -> (exists j, finalizes C j t) -> condemned T' t) -> typed O O' -> carries w w' ->
  (forall j t, finalizes C' j t -> finalizes C j t) -> (forall t, joins C' idle t -> joins C idle t) ->
  runtime_ok T O C idle w -> runtime_ok T' O' C' idle w'.
Proof.
  intros HT HO (_ & _ & Hh & He) HC HJ (H1 & H2 & H3). split_and!.
  - intros a Ha. destruct (H1 a (He a Ha)) as (d & Hd & Hty). destruct (HO a d Hd) as (d' & Hd' & E). exists d'. split; [done|]. congruence.
  - intros j t Hj%HC. destruct (H2 j t Hj) as (-> & Hs & Hc). split; [done|]. split; [by apply Hh|]. apply HT; [done|]. by exists idle.
  - intros t Hj%HJ. by eapply H3.
Qed.

Lemma statics_condemned T T' t : statics T T' -> condemned T t -> condemned T' t.
Proof.
  intros HT (th & Et & Hs & Hc). destruct (statics_fwd _ _ _ _ HT Et) as (th' & Et' & Hss). exists th'.
  split; [done|]. rewrite (ss_claim _ _ Hss). split; [by apply (ss_term _ _ Hss) | done].
Qed.
Lemma runtime_statics T T' O O' C idle w w' :
  statics T T' -> typed O O' -> carries w w' -> runtime_ok T O C idle w -> runtime_ok T' O' C idle w'.
Proof. intros HT HO Hw. apply runtime_keep; try done. intros t Hc _. by eapply statics_condemned. Qed.

Lemma relisted_published O O' t : relisted O O' -> published O t -> published O' t.
Proof.
  intros H (d & Hd & Hs). destruct (relisted_fwd _ _ _ _ H Hd) as [l Hl]. by exists (set_WaitList l d).
Qed.

Lemma statics_terminated T T' t : statics T T' -> terminated T t -> terminated T' t.
Proof.
  intros H (th & Ht & Hs). destruct (statics_fwd _ _ _ _ H Ht) as (th' & Ht' & Hss). exists th'.
  split; [done|]. by apply (ss_term _ _ Hss).
Qed.

Lemma joins_keep T T' O O' C idle :
  statics T T' -> relisted O O' -> joins_ok T O C idle ->
  (forall j t thj thj', joins C j t -> T !! j = Some thj -> T' !! j = Some thj' ->
     join_wait T O thj t -> join_wait T O thj' t) ->
  (forall w t, kview wkey T' w = Some (Completion t) -> joins C w t) ->
  joins_ok T' O' C idle.
Proof.
  intros HT HO (H1 & H2 & H3) Hj Hw. split_and!; [|done|done]. intros j t Hjt.
  destruct (H1 j t Hjt) as (thj & th & Ej & Et & Hne & Hni & Hm & Hc & Hwait).
  destruct (statics_fwd _ _ _ _ HT Ej) as (thj' & Ej' & _).
  destruct (statics_fwd _ _ _ _ HT Et) as (th' & Et' & Hss).
  exists thj', th'. split_and!; try done.
  - by rewrite (ss_mode _ _ Hss).
  - by rewrite (ss_claim _ _ Hss).
  - destruct (Hj j t thj thj' Hjt Ej Ej' Hwait) as [Ha Hb]. split; [done|]. intros Hs Hst.
    destruct (Hb Hs Hst) as [Hte Hp]. split; [by eapply statics_terminated | by eapply relisted_published].
Qed.

(** ** Wake-ups preserve the invariant *)

Lemma woken_static status th : State th = KTHREAD_STATE_BLOCKED -> static_same th (woken_thread status th).
Proof. intros Hs. split; try done. simpl. rewrite Hs. done. Qed.

Lemma woke_statics l status s s' : woke l status s s' -> statics (threads s) (threads s').
Proof.
  intros Hw t. rewrite (wk_threads _ _ _ _ Hw). destruct (decide (t ∈ l)) as [Hl|].
  - destruct (wk_blocked _ _ _ _ Hw t Hl) as (th & -> & Hs). simpl. by apply woken_static.
  - destruct (threads s !! t); [apply static_refl | done].
Qed.

Lemma woke_counts l status s s' : woke l status s s' -> counts_same (threads s) (threads s').
Proof.
  intros Hw t. rewrite (wk_threads _ _ _ _ Hw). destruct (decide (t ∈ l)); [|done]. by destruct (threads s !! t).
Qed.

Lemma woke_relisted l status s s' : woke l status s s' -> relisted (objects s) (objects s').
Proof. intros Hw o. rewrite (wk_objects _ _ _ _ Hw). by destruct (objects s !! o). Qed.

Lemma obj_ok_shrink P `{forall x : Z, Decision (P x)} d :
  obj_ok d -> obj_ok (set_WaitList (filter P (WaitList d)) d).
Proof.
  intros [Hs H']. split; [done|]. simpl.
  destruct H' as [(?&?&Hw)|[(?&?&?&?&Hw)|(?&[(?&?&Hw)|(?&?&Hw)])]].
  - left. split_and!; try done. intros Hs0. by rewrite Hw by done.
  - right; left. split_and!; try done; try lia. intros Hs0. by rewrite Hw by done.
  - right; right. split; [done|]. left. by rewrite Hw.
  - right; right. split; [done|]. right. split_and!; try done. rewrite list_elem_of_filter. tauto.
Qed.

Lemma woke_weak l status s s' C :
  sinv_weak C s -> woke l status s s' ->
  (forall j t, j ∈ l -> joins C j t -> status = EC_SUCCESS ->
     terminated (threads s) t /\ published (objects s) t) ->
  sinv_weak C s'.
Proof.
  intros [Hq Hown Hcp Hcx Hj Hi Hr Hst Hrt] Hw Hlj.
  pose proof (woke_statics _ _ _ _ Hw) as HT. pose proof (woke_relisted _ _ _ _ Hw) as HO.
  destruct (wk_rest _ _ _ _ Hw) as (F1 & F2 & F3 & F4 & F5 & F6 & F7).
  split; rewrite ?F2, ?F3, ?F4, ?F5.
  - apply Hw.
  - eapply owners_keep; [exact HT | by eapply woke_counts | done | done].
  - by eapply completions_keep.
  - by eapply contexts_keep.
  - eapply joins_keep; try done.
    + intros j t thj thj' Hjt Ej Ej' [Ha Hb]. rewrite (wk_threads _ _ _ _ Hw), Ej in Ej'.
      destruct (decide (j ∈ l)) as [Hl|]; [|injection Ej' as <-; done].
      simpl in Ej'. injection Ej' as <-. split; [done|]. simpl. intros _ Hss. by eapply Hlj.
    + intros w t Hwk. apply Hj. unfold kview in *. rewrite (wk_threads _ _ _ _ Hw) in Hwk.
      destruct (decide (w ∈ l)) as [Hl|]; [|done]. by destruct (threads s !! w).
  - destruct Hi as (th & Et & Hk & Hsx). exists th. rewrite (wk_threads _ _ _ _ Hw), decide_False; [done|].
    intros Hl. destruct (wk_blocked _ _ _ _ Hw _ Hl) as (th' & Et' & Hs'). destruct Hsx; congruence.
  - intros t th' Et Hs. rewrite (wk_threads _ _ _ _ Hw) in Et.
    destruct (decide (t ∈ l)); [|by eapply Hr]. destruct (threads s !! t); [|done].
    simpl in Et. injection Et as <-. done.
  - eapply stacks_keep; [exact HT | reflexivity | exact Hst].
  - eapply runtime_statics; [exact HT | by apply relisted_typed | reflexivity | exact Hrt].
Qed.

Lemma woke_objects_ok l status s s' :
  map_Forall (fun _ => obj_ok) (objects s) -> woke l status s s' -> map_Forall (fun _ => obj_ok) (objects s').
Proof.
  intros Ho Hw o d Hd. rewrite (wk_objects _ _ _ _ Hw) in Hd.
  destruct (objects s !! o) as [d0|] eqn:E; [|done]. simpl in Hd. injection Hd as <-.
  apply obj_ok_shrink. exact (map_Forall_lookup_1 _ _ _ _ Ho E).
Qed.

Lemma woke_sinv l status s s' C :
  sinv C s -> woke l status s s' ->
  (forall j t, j ∈ l -> joins C j t -> status = EC_SUCCESS ->
     terminated (threads s) t /\ published (objects s) t) ->
  sinv C s'.
Proof.
  intros Hinv Hw Hlj. apply sinv_strengthen.
  - eapply woke_weak; [by apply sinv_weaken | done | done].
  - eapply woke_objects_ok; [apply Hinv | done].
Qed.

(** ** Statements that touch neither queues nor objects *)

Definition requantumed (T T' : gmap Z KTHREAD) : Prop :=
  forall t, match T !! t, T' !! t with
            | Some th, Some th' => th' = set_Quantum (Quantum th') th
            | None, None => True
            | _, _ => False
            end.

Lemma set_Quantum_id th : set_Quantum (Quantum th) th = th.
Proof. by destruct th. Qed.

Lemma requantumed_refl T : requantumed T T.
Proof. intros t. destruct (T !! t); [|done]. by rewrite set_Quantum_id. Qed.

Lemma requantumed_trans T1 T2 T3 : requantumed T1 T2 -> requantumed T2 T3 -> requantumed T1 T3.
Proof.
  intros H1 H2 t. specialize (H1 t). specialize (H2 t).
  destruct (T1 !! t), (T2 !! t), (T3 !! t); try done. rewrite H2. rewrite H1. done.
Qed.

Lemma requantumed_insert T t th q : T !! t = Some th -> requantumed T (<[t := set_Quantum q th]> T).
Proof.
  intros Ht x. destruct (decide (x = t)) as [->|Hx]; [by rewrite lookup_insert_eq, Ht|].
  rewrite lookup_insert_ne by congruence. apply requantumed_refl.
Qed.

Lemma requantumed_statics T T' : requantumed T T' -> statics T T'.
Proof. intros H t. specialize (H t). destruct (T !! t), (T' !! t); try done. by rewrite H. Qed.

Lemma requantumed_counts T T' : requantumed T T' -> counts_same T T'.
Proof. intros H t. specialize (H t). destruct (T !! t), (T' !! t); try done. by rewrite H. Qed.

Lemma requantumed_kview {K} (f : KTHREAD -> option K) T T' t :
  (forall th q, f (set_Quantum q th) = f th) -> requantumed T T' -> kview f T' t = kview f T t.
Proof.
  intros Hf H. unfold kview. specialize (H t). destruct (T !! t), (T' !! t); try done.
  simpl. by rewrite H.
Qed.

Lemma requantumed_fwd T T' t th : requantumed T T' -> T !! t = Some th ->
  exists q, T' !! t = Some (set_Quantum q th).
Proof. intros H Ht. specialize (H t). rewrite Ht in H. destruct (T' !! t) as [th'|]; [|done]. exists (Quantum th'). by rewrite <- H. Qed.
Lemma requantumed_bwd T T' t th' : requantumed T T' -> T' !! t = Some th' ->
  exists th q, T !! t = Some th /\ th' = set_Quantum q th.
Proof. intros H Ht. specialize (H t). rewrite Ht in H. destruct (T !! t); [eauto | done]. Qed.

(** Time, deadlines, quanta, statistics and services may change. *)
Record soft s s' : Prop := {
  so_threads : requantumed (threads s) (threads s');
  so_objects : objects s' = objects s;
  so_ready : gReadyQueues s' = gReadyQueues s;
  so_timeout : gTimeoutQueue s' = gTimeoutQueue s;
  so_rest : gTerminatedList s' = gTerminatedList s /\ gCurrentThread s' = gCurrentThread s /\
    gIdleThread s' = gIdleThread s /\ Cpu s' = Cpu s /\ SavedContext s' = SavedContext s /\
    gSchedulerEnabled s' = gSchedulerEnabled s;
  so_svc : as_good (Svc s) (Svc s')
}.

Lemma soft_refl s : soft s s.
Proof. split; done || apply requantumed_refl || apply as_good_refl. Qed.

Lemma soft_trans s1 s2 s3 : soft s1 s2 -> soft s2 s3 -> soft s1 s3.
Proof.
  intros [A1 A2 A3 A4 (A5 & A6 & A7 & A8 & A9 & A10) A11] [B1 B2 B3 B4 (B5 & B6 & B7 & B8 & B9 & B10) B11].
  split; try congruence.
  - by eapply requantumed_trans.
  - split_and!; congruence.
  - by eapply as_good_trans.
Qed.

Lemma soft_same s s' :
  threads s' = threads s -> objects s' = objects s -> gReadyQueues s' = gReadyQueues s ->
  gTimeoutQueue s' = gTimeoutQueue s -> gTerminatedList s' = gTerminatedList s ->
  gCurrentThread s' = gCurrentThread s -> gIdleThread s' = gIdleThread s -> Cpu s' = Cpu s ->
  SavedContext s' = SavedContext s -> gSchedulerEnabled s' = gSchedulerEnabled s ->
  as_good (Svc s) (Svc s') -> soft s s'.
Proof. intros HT **. split; try done. rewrite HT. apply requantumed_refl. Qed.

Lemma soft_queues s s' : queues_ok s -> soft s s' -> queues_ok s'.
Proof.
  intros [[H0 Hth] [Hrl Hr] Hq [Hw Hws] [HDn HD]] [HT HO HR HQ (HDD & _) _]. unfold queues_ok.
  rewrite HO, HR, HQ, HDD.
  assert (Hk : forall K (f : KTHREAD -> option K), (forall th q, f (set_Quantum q th) = f th) ->
    forall t, kview f (threads s') t = kview f (threads s) t).
  { intros K f Hf t. by apply requantumed_kview. }
  split.
  - split; [specialize (HT 0); rewrite H0 in HT; by destruct (threads s' !! 0)|].
    intros t th' Et. destruct (requantumed_bwd _ _ _ _ HT Et) as (th & q & Et' & ->).
    exact (map_Forall_lookup_1 _ _ _ _ Hth Et').
  - split; [done|]. eapply lists_by_ext; [exact Hr | | done]. by apply Hk.
  - eapply timeout_ext; [|exact Hq]. by apply Hk.
  - split.
    + eapply lists_by_ext; [exact Hw | | done]. by apply Hk.
    + intros t o. rewrite Hk by done. apply Hws.
  - split; [done|]. intros t Ht. destruct (HD t Ht) as (th & Et & H1 & H2 & H3 & H4).
    destruct (requantumed_fwd _ _ _ _ HT Et) as (q & Et'). eexists. by split_and!.
Qed.

Lemma sinv_soft C s s' : sinv C s -> soft s s' -> sinv C s'.
Proof.
  intros [Hq Ho Hown Hcp Hcx Hj Hi Hr Hst Hrt] Hs. pose proof (soft_queues s s' Hq Hs) as Hq'.
  destruct Hs as [HT HO HR HQ (HDD & Hc & Hid & Hcpu & HC & _) Hw].
  pose proof (requantumed_statics _ _ HT) as HS.
  split; rewrite ?HO, ?Hc, ?Hid, ?Hcpu; try done.
  - eapply owners_keep; [exact HS | by apply requantumed_counts | apply relisted_refl | done].
  - eapply completions_keep; [exact HS | apply relisted_refl | done].
  - by eapply contexts_keep.
  - eapply joins_keep; [exact HS | apply relisted_refl | done | |].
    + intros j t thj thj' _ Ej Ej'. destruct (requantumed_fwd _ _ _ _ HT Ej) as (q & Ej'').
      rewrite Ej'' in Ej'. by injection Ej' as <-.
    + intros w t. rewrite (requantumed_kview wkey (threads s)) by done. apply Hj.
  - destruct Hi as (th & Et & Hth). destruct (requantumed_fwd _ _ _ _ HT Et) as (q & Et'). by eexists.
  - intros t th' Et Hrun. destruct (requantumed_bwd _ _ _ _ HT Et) as (th & q & Et' & ->). by eapply Hr.
  - eapply stacks_keep; [exact HS | apply Hw | done].
  - eapply runtime_statics; [exact HS | apply typed_refl | apply Hw | done].
Qed.

Lemma arm_clock_soft d s : svc_ok (Svc s) -> soft s (KiArmClockEvent d s).
Proof.
  intros Hw. unfold KiArmClockEvent. destruct (d =? 0); [apply soft_refl|].
  match goal with |- context [SetNextEvent ?x ?y] => pose proof (arm_law y x Hw) as Hq;
    destruct (SetNextEvent x y) as [st w] end.
  apply soft_same; try done. by apply quiet_good.
Qed.

Definition now_of (w : W) : Z := u64 (fst (SystemUpRealTime w) * 1000).

Lemma KiNowNs_run s : svc_ok (Svc s) -> exists s', KiNowNs s = (now_of (Svc s), s') /\ soft s s' /\
  s' = set_Svc (snd (SystemUpRealTime (Svc s))) s.
Proof.
  intros Hw. unfold KiNowNs, now_of. pose proof (clock_law _ Hw) as Hq.
  destruct (SystemUpRealTime (Svc s)) as [us w]. eexists. split_and!; try done.
  apply soft_same; try done. by apply quiet_good.
Qed.

Lemma soft_svc s s' : soft s s' -> svc_ok (Svc s) -> svc_ok (Svc s').
Proof. intros H. apply (so_svc _ _ H). Qed.

Lemma head_timeout s t Q : queues_ok s -> gTimeoutQueue s = t :: Q -> exists th, threads s !! t = Some th.
Proof.
  intros [_ _ (_ & Hi & _) _ _] HQ. destruct (proj1 (Hi t)) as [x Hx]; [rewrite HQ; by left|].
  unfold kview in Hx. destruct (threads s !! t); [eauto | done].
Qed.

Lemma KiArmForNextEvent_run nowNs next th s :
  queues_ok s -> svc_ok (Svc s) -> threads s !! next = Some th ->
  exists s', KiArmForNextEvent nowNs next s = Ok s' /\ soft s s'.
Proof.
  intros Hq Hw Et. unfold KiArmForNextEvent.
  assert (Hd : forall x q n, svc_ok (Svc x) -> soft x (set_Deadlines q n x)).
  { intros. apply soft_same; done || apply as_good_refl. }
  destruct (next =? gIdleThread s).
  - destruct (gTimeoutQueue s) as [|b Q] eqn:EQ; [eexists; split; [done | by apply Hd]|].
    destruct (head_timeout s b Q Hq EQ) as [thb Eb]. unfold get_thread. rewrite Eb. cbn [res_bind].
    eexists. split; [done|]. eapply soft_trans; [by apply Hd|]. by apply arm_clock_soft.
  - unfold upd_thread, get_thread. rewrite Et. cbn [res_bind].
    set (s1 := put_thread next _ s).
    assert (H1 : soft s s1).
    { split; done || (by apply requantumed_insert) || apply as_good_refl. }
    assert (Hq1 : queues_ok s1) by (by eapply soft_queues).
    destruct (gTimeoutQueue s1) as [|b Q] eqn:EQ; cbn [res_bind].
    + eexists. split; [done|]. eapply soft_trans; [exact H1|]. eapply soft_trans; [by apply Hd|].
      by apply arm_clock_soft.
    + destruct (head_timeout s1 b Q Hq1 EQ) as [thb Eb]. rewrite Eb. cbn [res_bind].
      eexists. split; [done|]. eapply soft_trans; [exact H1|]. eapply soft_trans; [by apply Hd|].
      by apply arm_clock_soft.
Qed.

(** ** The scheduling decision *)

Lemma highest_from_run n (R : list (list Z)) : (n <= length R)%nat ->
  (exists p x q, (p < n)%nat /\ highest_from n R = Ok (Some (Z.of_nat p)) /\ R !! p = Some (x :: q) /\
     forall p', (p < p' < n)%nat -> R !! p' = Some []) \/
  (highest_from n R = Ok None /\ forall p, (p < n)%nat -> R !! p = Some []).
Proof.
  induction n as [|n IH]; intros Hn; [right; split; [done | lia]|]. cbn [highest_from].
  destruct (lookup_lt_is_Some_2 R n) as [q Hq]; [lia|].
  assert (Hrd : rd R (Z.of_nat n) = Ok q) by (apply rd_ok; rewrite Nat2Z.id; split; [lia | done]).
  rewrite Hrd. cbn [res_bind]. destruct q as [|x q]; simpl.
  - destruct IH as [(p & x & q & Hp & E & Hx & Hhi)|[E Hall]]; [lia | left | right].
    + exists p, x, q. split_and!; [lia | done | done |]. intros p' Hp'.
      destruct (decide (p' = n)) as [->|]; [done|]. apply Hhi. lia.
    + split; [done|]. intros p Hp. destruct (decide (p = n)) as [->|]; [done|]. apply Hall. lia.
  - left. exists n, x, q. split_and!; [lia | done | done | lia].
Qed.

(** The choice: the first thread of the highest non-empty queue, else idle. *)
Lemma pick_next_run s : ready_ok (threads s) (gReadyQueues s) ->
  (exists p x q, gReadyQueues s !! p = Some (x :: q) /\
     (forall p', (p < p' < 3)%nat -> gReadyQueues s !! p' = Some []) /\
     pick_next s = Ok (x, set_ReadyQueues (<[p := q]> (gReadyQueues s)) s)) \/
  ((forall p, (p < 3)%nat -> gReadyQueues s !! p = Some []) /\ pick_next s = Ok (gIdleThread s, s)).
Proof.
  intros [Hl _]. unfold pick_next, KiGetHighestPriorityReadyQueue.
  change (Z.to_nat KTHREAD_PRIORITY_COUNT) with 3%nat.
  destruct (highest_from_run 3 (gReadyQueues s)) as [(p & x & q & Hp & E & Hx & Hhi)|[E Hall]]; [lia | |].
  - left. exists p, x, q. split_and!; [done | done |]. rewrite E. cbn [res_bind].
    assert (Hrd : rd (gReadyQueues s) (Z.of_nat p) = Ok (x :: q)).
    { apply rd_ok. rewrite Nat2Z.id. split; [lia | done]. }
    rewrite Hrd. cbn [res_bind]. rewrite wr_in by lia. cbn [res_bind]. by rewrite Nat2Z.id.
  - right. split; [done|]. by rewrite E.
Qed.

Lemma ready_dequeue T R p x q th' :
  ready_ok T R -> R !! p = Some (x :: q) -> State th' <> KTHREAD_STATE_READY ->
  ready_ok (<[x := th']> T) (<[p := q]> R).
Proof.
  intros [Hl H] Hp Hs. split; [by rewrite length_insert|].
  destruct (H p (x :: q) Hp) as [Hn Hi]. apply NoDup_cons in Hn as [Hnx Hn].
  eapply (lists_by_remove _ _ _ _ x p (x :: q)); [exact H | | done | | | |].
  - apply Hi. by left.
  - rewrite kview_self. unfold rkey. by rewrite decide_False.
  - intros y Hy. by apply kview_other.
  - rewrite filter_cons_False, filter_ne_id by (done || congruence).
    apply list_lookup_insert_eq. by eapply lookup_lt_Some.
  - intros y Hy. by apply list_lookup_insert_ne.
Qed.

Definition dispatched (next : Z) (th : KTHREAD) (R : list (list Z)) s : SCHED W :=
  put_thread next (set_State KTHREAD_STATE_RUNNING th) (set_ReadyQueues R s).

Lemma set_State_id th : set_State (State th) th = th.
Proof. by destruct th. Qed.

(** A ready thread, or the idle thread when it is not queued, starts running. *)
Lemma dispatch_queues next th R s :
  queues_ok s -> threads s !! next = Some th ->
  State th = KTHREAD_STATE_READY \/ State th = KTHREAD_STATE_RUNNING ->
  ready_ok (<[next := set_State KTHREAD_STATE_RUNNING th]> (threads s)) R ->
  queues_ok (dispatched next th R s).
Proof.
  intros [Hth Hr Hq Hw HD] Et Hs HR. destruct (thread_at _ _ _ Hth Et) as [[Hp [_ Hcl]] H0].
  assert (Hnb : State th <> KTHREAD_STATE_BLOCKED) by (destruct Hs; congruence).
  split; try done.
  - apply threads_keep; [done..|]. split; [exact Hp|split; [done|]].
    apply (claim_state th); try done. right. destruct Hs; congruence.
  - eapply timeout_keep; [done | exact Et |]. unfold tkey. rewrite !decide_False; [done | tauto | simpl; intros [? _]; done].
  - eapply wait_keep; [done | exact Et |]. unfold wkey. by rewrite !decide_False.
  - eapply term_keep; [exact HD | | done]. intros x Hx. apply lookup_insert_ne. intros <-.
    destruct HD as [_ HD]. destruct (HD _ Hx) as (th' & Et' & Hs' & _). destruct Hs; congruence.
Qed.

Lemma dispatch_sinv C next th R s :
  sinv C s -> threads s !! next = Some th ->
  State th = KTHREAD_STATE_READY \/ State th = KTHREAD_STATE_RUNNING ->
  ready_ok (<[next := set_State KTHREAD_STATE_RUNNING th]> (threads s)) R ->
  (forall th0, threads s !! gCurrentThread s = Some th0 -> State th0 = KTHREAD_STATE_RUNNING ->
     gCurrentThread s = gIdleThread s) ->
  sinv C (set_CurrentThread next (dispatched next th R s)).
Proof.
  intros [Hq Ho Hown Hcp Hcx Hj Hi Hr Hst Hrt] Et Hs HR Hcur.
  assert (HS : statics (threads s) (<[next := set_State KTHREAD_STATE_RUNNING th]> (threads s))).
  { apply (statics_insert _ _ th); [done|]. split; try done. simpl. destruct Hs as [-> | ->]; done. }
  assert (Hnb : State th <> KTHREAD_STATE_BLOCKED) by (destruct Hs; congruence).
  split; try done.
  - exact (dispatch_queues _ _ _ _ Hq Et Hs HR).
  - eapply owners_keep; [exact HS | by eapply counts_insert | apply relisted_refl | done].
  - eapply completions_keep; [exact HS | apply relisted_refl | done].
  - by eapply contexts_keep.
  - eapply joins_keep; [exact HS | apply relisted_refl | done | |].
    + intros j t thj thj' _ Ej Ej' [Ha Hb]. simpl in Ej'. apply lookup_insert_Some in Ej' as [[<- <-]|[_ Ej']]; [|rewrite Ej in Ej'; injection Ej' as <-; by split].
      assert (thj = th) as -> by congruence. split; simpl; [done|]. intros _. by apply Hb.
    + intros w t Hw. apply Hj. revert Hw. simpl. rewrite (kview_same wkey _ _ th) by (done || unfold wkey; by rewrite !decide_False).
      done.
  - destruct Hi as (thi & Ei & Hk & Hsi). destruct (decide (gIdleThread s = next)) as [E|Hne].
    + exists (set_State KTHREAD_STATE_RUNNING th). simpl. rewrite E, lookup_insert_eq.
      split_and!; [done | | by left]. simpl. congruence.
    + exists thi. simpl. by rewrite lookup_insert_ne by congruence.
  - intros t th' Ht Hrun. simpl in *. apply lookup_insert_Some in Ht as [[<- <-]|[Hne Ht]]; [by left|].
    right. destruct (Hr t th' Ht Hrun) as [->|]; [|done]. by eapply Hcur.
  - eapply stacks_keep; [exact HS | reflexivity | done].
  - eapply runtime_statics; [exact HS | apply typed_refl | reflexivity | done].
Qed.

Lemma soft_current n s s' : soft s s' -> soft (set_CurrentThread n s) (set_CurrentThread n s').
Proof. intros [? ? ? ? (?&?&?&?&?&?) ?]. by split. Qed.

Lemma set_current_id s : set_CurrentThread (gCurrentThread s) s = s.
Proof. by destruct s. Qed.

Lemma sinv_cpu C c s : IrqlStates c = IrqlStates (Cpu s) -> sinv C s -> sinv C (set_Cpu c s).
Proof. intros Hc []. split; try done. simpl. by rewrite Hc. Qed.

Lemma sinv_saved C C' s : sinv C s -> sinv C (set_SavedContext C' s).
Proof. intros []. by split. Qed.

Lemma frames_irql_ok k st : frames_irql k st -> irql_ok st /\ 0 <= DispatchDepth st <= 1.
Proof. by destruct 1; unfold irql_ok; simpl; split_and!. Qed.

Lemma cpu_at_ok s st k : frames_irql k st -> cpu_at s st -> cpu_ok (Cpu s) (DispatchDepth st).
Proof.
  intros [Hok _]%frames_irql_ok (E & H0 & Hcs & Hst & Hif). unfold cpu_ok. rewrite E, Hcs.
  split_and!; try done. by exists st.
Qed.

Lemma resolve_run t s : svc_ok (Svc s) -> t <> 0 ->
  exists root, KiResolveDispatchRoot t s = Ok root /\ root_ok (Svc s) root.
Proof.
  intros Hw Ht. destruct (resolve_law _ t Hw Ht) as (f & root & Hf & Hft & Hr & Hrok).
  exists root. split; [|done]. unfold KiResolveDispatchRoot. rewrite (proj2 (Z.eqb_neq t 0)) by done.
  cbn [negb HO_KASSERT res_bind]. rewrite Hf, Hft. rewrite bool_decide_eq_true_2 by done.
  by rewrite (proj2 (Z.eqb_neq root 0)).
Qed.

Lemma set_current_irql_run t c st : t <> 0 -> IrqlStates c !! t = Some st -> irql_ok st ->
  KeSetCurrentIrqlState t c =
    Ok (mkCpu (MaskableInterruptEnabled c) (IrqlStates c) t (gCriticalSectionDepth c)).
Proof.
  intros Ht Hst Hok. unfold KeSetCurrentIrqlState. rewrite (proj2 (Z.eqb_neq t 0)) by done.
  cbn [negb HO_KASSERT res_bind]. rewrite Hst. by rewrite assert_ok.
Qed.

(** The processor switches from the current thread to [next], already dispatched. *)
Lemma switch_run C next k s1 th root st :
  sinv C (set_CurrentThread next s1) ->
  threads s1 !! next = Some th -> root_ok (Svc s1) root -> next <> 0 ->
  IrqlStates (Cpu s1) !! next = Some st -> irql_ok st ->
  exists s2, (let s := count_switch s1 in
     let* th := get_thread next s in
     let s := set_RSP0 (u64 (StackBase th + StackSize th)) s in
     let '(nowNs, s) := KiNowNs s in
     let* s := KiArmForNextEvent nowNs next s in
     let '(switchStatus, w) := SwitchAddressSpace root (Svc s) in
     let s := set_Svc w s in
     if negb (bool_decide (switchStatus = EC_SUCCESS)) then Panic switchStatus else
     let s := set_CurrentThread next s in
     let* c := KeSetCurrentIrqlState next (Cpu s) in
     let s := set_Cpu c s in
     Ok (Switched (A := unit) (set_SavedContext (<[gCurrentThread s1 := k]> (SavedContext s)) s))) = Ok (Switched s2) /\
   exists s3, soft s1 s3 /\ s2 = set_SavedContext (<[gCurrentThread s1 := k]> (SavedContext s1))
      (set_Cpu (mkCpu (MaskableInterruptEnabled (Cpu s1)) (IrqlStates (Cpu s1)) next
                  (gCriticalSectionDepth (Cpu s1))) (set_CurrentThread next s3)).
Proof.
  intros Hinv Et Hroot H0 Hst Hok. cbv zeta.
  assert (Hw : svc_ok (Svc s1)) by apply Hinv.
  assert (Hq : queues_ok s1) by apply Hinv.
  set (sa := count_switch s1).
  assert (Hsa : soft s1 sa) by (apply soft_same; done || apply as_good_refl).
  unfold get_thread at 1. change (threads sa) with (threads s1). rewrite Et. cbn [res_bind].
  set (sb := set_RSP0 _ sa).
  assert (Hsb : soft s1 sb) by (apply soft_same; done || apply as_good_refl).
  destruct (KiNowNs_run sb) as (sc & -> & Hsc & _); [done|].
  assert (Hs1c : soft s1 sc) by (by eapply soft_trans).
  destruct (requantumed_fwd _ _ _ _ (so_threads _ _ Hs1c) Et) as [q Eq].
  destruct (KiArmForNextEvent_run (now_of (Svc sb)) next (set_Quantum q th) sc) as (sd & -> & Hsd);
    [by eapply soft_queues | by eapply soft_svc | exact Eq |]. cbn [res_bind].
  assert (Hs1d : soft s1 sd) by (by eapply soft_trans).
  destruct (switch_law (Svc sd) root) as (w & -> & Hqw);
    [by eapply soft_svc | by apply (so_svc _ _ Hs1d) |].
  rewrite bool_decide_eq_true_2 by done. cbn [negb].
  destruct (so_rest _ _ Hs1d) as (_ & _ & _ & Hcpu & HC & _).
  change (Cpu (set_CurrentThread next (set_Svc w sd))) with (Cpu sd).
  rewrite (set_current_irql_run next _ st); [|done | by rewrite Hcpu | done]. cbn [res_bind].
  eexists. split; [done|]. exists (set_Svc w sd). split.
  - eapply soft_trans; [exact Hs1d|]. apply soft_same; try done.
    apply quiet_good; [by eapply soft_svc | done].
  - simpl. rewrite Hcpu, HC. done.
Qed.

(** [next] is at the head of the highest-priority non-empty ready queue, or it is
    the idle thread and no thread is ready; [R] is what is left of the queues. *)
Definition chosen s (next : Z) (R : list (list Z)) : Prop :=
  (exists p q, gReadyQueues s !! p = Some (next :: q) /\
     (forall p', (p < p' < 3)%nat -> gReadyQueues s !! p' = Some []) /\
     R = <[p := q]> (gReadyQueues s)) \/
  ((forall p, (p < 3)%nat -> gReadyQueues s !! p = Some []) /\ next = gIdleThread s /\
   R = gReadyQueues s).

(** The choice is a thread that can run. *)
Lemma chosen_thread C s next R :
  sinv C s -> chosen s next R -> exists th, threads s !! next = Some th /\ next <> 0 /\
    (State th = KTHREAD_STATE_READY \/ State th = KTHREAD_STATE_RUNNING) /\
    ready_ok (<[next := set_State KTHREAD_STATE_RUNNING th]> (threads s)) R.
Proof.
  intros Hinv Hc. pose proof (s_queues _ _ Hinv) as [Hth Hr _ _ _].
  destruct Hc as [(p & q & Hp & _ & ->)|(Hall & -> & ->)].
  - assert (Hk : kview rkey (threads s) next = Some p).
    { destruct Hr as [_ Hr]. apply (Hr p (next :: q) Hp). by left. }
    unfold kview, rkey in Hk. destruct (threads s !! next) as [th|] eqn:Et; [|done].
    simpl in Hk. exists th. destruct (thread_at _ _ _ Hth Et) as [_ H0].
    split_and!; [done | done | left; by destruct (decide _) | by eapply ready_dequeue].
  - destruct (s_idle _ _ Hinv) as (th & Et & _ & Hs). exists th.
    destruct (thread_at _ _ _ Hth Et) as [[Hp _] H0].
    split_and!; [done | done | by destruct Hs; [right | left] |].
    destruct Hs as [Hs|Hs].
    + rewrite <- Hs, set_State_id, insert_id; done.
    + exfalso. destruct Hr as [Hl Hr].
      destruct (Hr (Z.to_nat (Priority th)) []) as [_ Hi].
      { apply Hall. unfold KTHREAD_PRIORITY_COUNT in Hp. lia. }
      apply (not_elem_of_nil (gIdleThread s)), Hi. rewrite (kview_at rkey _ _ th) by done.
      unfold rkey. by rewrite decide_True.
Qed.

Lemma pick_chosen s : ready_ok (threads s) (gReadyQueues s) ->
  exists next R, pick_next s = Ok (next, set_ReadyQueues R s) /\ chosen s next R.
Proof.
  intros Hr. destruct (pick_next_run s Hr) as [(p & x & q & Hp & Hhi & E)|[Hall E]].
  - exists x, (<[p := q]> (gReadyQueues s)). split; [done|]. left. by exists p, q.
  - exists (gIdleThread s), (gReadyQueues s). split; [|by right]. rewrite E. by destruct s.
Qed.

Lemma KiSchedule_run k st s :
  inside k st s -> st <> PASSIVE0 ->
  (forall th, threads s !! gCurrentThread s = Some th -> State th = KTHREAD_STATE_RUNNING ->
     gCurrentThread s = gIdleThread s) ->
  exists next R, chosen s next R /\
    ((next = gCurrentThread s /\ exists s', KiSchedule k s = Ok (Done tt s') /\
       inside k st s' /\ current_running s' /\ gCurrentThread s' = next /\ gReadyQueues s' = R) \/
     (next <> gCurrentThread s /\ exists s', KiSchedule k s = Ok (Switched s') /\
       switched s' /\ gCurrentThread s' = next /\ gReadyQueues s' = R /\ gIdleThread s' = gIdleThread s)).
Proof.
  intros (Hinv & Hk & Hcpu) Hst Hcur. set (C := <[gCurrentThread s := k]> (SavedContext s)) in *.
  assert (Hlev : KiAssertDispatchLevel s = Ok tt).
  { unfold KiAssertDispatchLevel. rewrite (current_level _ _ (cpu_at_ok _ _ _ Hk Hcpu)). cbn [res_bind].
    destruct Hk; done. }
  pose proof (s_queues _ _ Hinv) as Hq. destruct (pick_chosen s (q_ready _ _ _ _ _ Hq)) as (next & R & Epick & Hch).
  exists next, R. split; [done|].
  destruct (chosen_thread _ _ _ _ Hinv Hch) as (th & Et & H0 & Hs & HR).
  pose proof (dispatch_sinv C next th R s Hinv Et Hs HR Hcur) as Hd.
  pose proof (dispatch_queues next th R s Hq Et Hs HR) as Hdq.
  set (s1 := dispatched next th R s) in *.
  assert (Et1 : threads s1 !! next = Some (set_State KTHREAD_STATE_RUNNING th)) by apply lookup_insert_eq.
  assert (Eup : upd_thread next (set_State KTHREAD_STATE_RUNNING) (set_ReadyQueues R s) = Ok s1).
  { unfold upd_thread, get_thread. simpl. by rewrite Et. }
  assert (Hw : svc_ok (Svc s1)) by apply Hinv.
  unfold KiSchedule. rewrite Hlev. cbn [res_bind]. rewrite Epick. cbn [res_bind].
  destruct (Z.eqb_spec next (gCurrentThread s)) as [->|Hne].
  - left. split; [done|]. rewrite Eup. cbn [res_bind].
    destruct (KiNowNs_run s1 Hw) as (s2 & -> & Hs2 & _).
    destruct (requantumed_fwd _ _ _ _ (so_threads _ _ Hs2) Et1) as [q2 Eq2].
    destruct (KiArmForNextEvent_run (now_of (Svc s1)) (gCurrentThread s) _ s2
                (soft_queues _ _ Hdq Hs2) (soft_svc _ _ Hs2 Hw) Eq2) as (s3 & -> & Hs3).
    cbn [res_bind]. exists s3. assert (Hs13 : soft s1 s3) by (by eapply soft_trans).
    destruct (so_rest _ _ Hs13) as (_ & Ec & _ & Ecpu & EC & _).
    change (gCurrentThread s1) with (gCurrentThread s) in Ec.
    change (Cpu s1) with (Cpu s) in Ecpu. change (SavedContext s1) with (SavedContext s) in EC.
    assert (Hs1inv : sinv C s1).
    { replace s1 with (set_CurrentThread (gCurrentThread s) s1) by (by destruct s). done. }
    unfold inside. split_and!; try done.
    + rewrite Ec, EC. by eapply sinv_soft.
    + unfold cpu_at. by rewrite Ecpu, Ec.
    + destruct (requantumed_fwd _ _ _ _ (so_threads _ _ Hs13) Et1) as [q3 Eq3].
      eexists. by rewrite Ec.
    + exact (so_ready _ _ Hs13).
  - right. split; [done|].
    destruct (resolve_run next (set_ReadyQueues R s)) as (root & -> & Hroot); [done | done |].
    cbn [res_bind]. rewrite Eup. cbn [res_bind].
    destruct (s_contexts _ _ Hinv next th Et) as (kn & stn & Hkn & Hfn & Hin & _).
    destruct (switch_run C next k s1 _ root stn Hd Et1 Hroot H0 Hin (proj1 (frames_irql_ok _ _ Hfn)))
      as (s2 & E & s3 & Hs3 & ->).
    change (gCurrentThread s1) with (gCurrentThread s) in E.
    change (gCurrentThread s1) with (gCurrentThread s).
    change (Cpu s1) with (Cpu s). change (SavedContext s1) with (SavedContext s).
    exists (set_SavedContext C (set_Cpu (mkCpu (MaskableInterruptEnabled (Cpu s)) (IrqlStates (Cpu s)) next
                  (gCriticalSectionDepth (Cpu s))) (set_CurrentThread next s3))).
    destruct (so_rest _ _ Hs3) as (_ & _ & Eidle & Ecpu & _ & _).
    split; [exact E|]. split; [|split; [done | split; [exact (so_ready _ _ Hs3) | exact Eidle]]].
    split_and!.
    + apply sinv_saved, sinv_cpu; [simpl; by rewrite Ecpu|]. eapply sinv_soft; [exact Hd|]. by apply soft_current.
    + destruct (requantumed_fwd _ _ _ _ (so_threads _ _ Hs3) Et1) as [q3 Eq3]. eexists. by split.
    + exists kn, stn. split_and!; [done | done |].
      destruct Hcpu as (_ & _ & Hcs & _ & Hif). unfold cpu_at. simpl. split_and!; try done.
      intros _. apply Hif. destruct Hk; done.
Qed.

(** ** Guards and critical sections around a call *)

Definition raised (c : cpu) : cpu :=
  mkCpu false (<[gCurrentIrqlState c := DISPATCH1]> (IrqlStates c)) (gCurrentIrqlState c)
    (gCriticalSectionDepth c).
Definition lowered (b : bool) (c : cpu) : cpu :=
  mkCpu b (<[gCurrentIrqlState c := PASSIVE0]> (IrqlStates c)) (gCurrentIrqlState c)
    (gCriticalSectionDepth c).

Lemma acquire_passive s : cpu_at s PASSIVE0 ->
  acquire_irql s = Ok (held (MaskableInterruptEnabled (Cpu s)), set_Cpu (raised (Cpu s)) s).
Proof.
  intros (E & H0 & _ & Hst & _). unfold acquire_irql, KeAcquireIrqlGuard.
  rewrite (get_state _ PASSIVE0) by congruence. by vm_compute.
Qed.

Lemma release_held b s : cpu_at s DISPATCH1 ->
  release_irql (held b) s = Ok (set_Cpu (lowered b (Cpu s)) s).
Proof.
  intros (E & H0 & _ & Hst & _). unfold release_irql, KeReleaseIrqlGuard.
  rewrite (get_state _ DISPATCH1) by congruence. by destruct b.
Qed.

Lemma lower_raise s : cpu_at s PASSIVE0 ->
  lowered (MaskableInterruptEnabled (Cpu s)) (raised (Cpu s)) = Cpu s.
Proof.
  intros (E & _ & _ & Hst & _). destruct (Cpu s) as [b m c d] eqn:Ec. unfold lowered, raised. simpl in *.
  rewrite insert_insert_eq, insert_id; [done | congruence].
Qed.

Definition inactive (cs : KE_CRITICAL_SECTION) : Prop :=
  CsActive cs = false /\ Active (IrqlGuard cs) = false.

Lemma fresh_inactive : inactive fresh_critical.
Proof. done. Qed.

(** Entering a critical section changes only the processor, and leaving it puts
    the processor back whatever the body did to the rest. *)
Lemma critical_run_at cs d s : cpu_ok (Cpu s) d -> d < MAX_DEPTH -> gCriticalSectionDepth (Cpu s) < MAX_DEPTH ->
  inactive cs ->
  exists cs' c, enter_critical cs s = Ok (cs', set_Cpu c s) /\
    forall s', Cpu s' = c -> exists cs'', leave_critical cs' s' = Ok (cs'', set_Cpu (Cpu s) s') /\ inactive cs''.
Proof.
  intros Hok Hd Hg [H1 H2].
  destruct (critical_bracket (Cpu s) d cs) as (cs' & c & E & _ & _ & _ & cs'' & E' & H3); [done..|].
  exists cs', c. split; [unfold enter_critical; by rewrite E|]. intros s' <-. exists cs''.
  split; [|done]. unfold leave_critical. by rewrite E'.
Qed.

Lemma critical_run cs k st s : frames_irql k st -> cpu_at s st -> inactive cs ->
  exists cs' c, enter_critical cs s = Ok (cs', set_Cpu c s) /\
    forall s', Cpu s' = c -> exists cs'', leave_critical cs' s' = Ok (cs'', set_Cpu (Cpu s) s') /\ inactive cs''.
Proof.
  intros Hk Hcpu Hin. pose proof (frames_irql_ok _ _ Hk) as [_ Hd].
  apply critical_run_at with (DispatchDepth st).
  - by eapply cpu_at_ok.
  - unfold MAX_DEPTH. lia.
  - destruct Hcpu as (_ & _ & -> & _). done.
  - done.
Qed.

(** A guard taken inside another one. *)
Lemma acquire_nested k st s : frames_irql k st -> cpu_at s st ->
  exists g c, acquire_irql s = Ok (g, set_Cpu c s) /\ cpu_ok c (DispatchDepth st + 1) /\
    gCriticalSectionDepth c = 0 /\
    forall s', Cpu s' = c -> release_irql g s' = Ok (set_Cpu (Cpu s) s').
Proof.
  intros Hk Hcpu. pose proof (frames_irql_ok _ _ Hk) as [_ Hd].
  destruct (guard_bracket (Cpu s) (DispatchDepth st) fresh_guard) as (g & c & E & Hok & _ & Hcs & g2 & E' & _).
  - by eapply cpu_at_ok.
  - unfold MAX_DEPTH. lia.
  - done.
  - exists g, c. unfold acquire_irql. rewrite E. split_and!; try done.
    + rewrite Hcs. apply Hcpu.
    + intros s' <-. unfold release_irql. by rewrite E'.
Qed.

(** A context whose thread may return from its kernel call. *)
Definition plain (k : list FRAME) : Prop :=
  k <> [InExitAfterSchedule] /\ (forall g t, k <> [InWait g; InJoin t]) /\
  (forall g t n, k <> [InSetEvent g; InFinalize t n; InReap]).

(** Or the idle thread's, in the middle of reaping a thread. *)
Definition returnable s (k : list FRAME) : Prop :=
  k <> [InExitAfterSchedule] /\ (forall g t, k <> [InWait g; InJoin t]) /\
  (forall g t n, k = [InSetEvent g; InFinalize t n; InReap] ->
     gCurrentThread s = gIdleThread s /\ is_Some (FinalizeThreadHook (Svc s)) /\ condemned (threads s) t).

Lemma plain_returnable s k : plain k -> returnable s k.
Proof. intros (H1 & H2 & H3). split_and!; [done | done |]. intros g t n Hk. by apply H3 in Hk. Qed.

(** The current thread's context changes, with its IRQL state. *)
Lemma recontext C k st c th s :
  sinv C s -> threads s !! gCurrentThread s = Some th ->
  State th <> KTHREAD_STATE_BLOCKED -> State th <> KTHREAD_STATE_TERMINATED ->
  frames_irql k st -> returnable s k ->
  IrqlStates c = <[gCurrentThread s := st]> (IrqlStates (Cpu s)) ->
  sinv (<[gCurrentThread s := k]> C) (set_Cpu c s).
Proof.
  intros [Hq Ho Hown Hcp Hcx (J1 & J2 & J3) Hi Hr Hst Hrt] Et Hnb Hnt Hk (Hne & Hnj & Hnf) Hc.
  set (cur := gCurrentThread s) in *.
  assert (Hjoin : forall j t, joins (<[cur := k]> C) j t -> joins C j t).
  { intros j t [g Hg]. apply lookup_insert_Some in Hg as [[_ Hg]|[_ Hg]]; [by destruct (Hnj g t) | by exists g]. }
  split; try done.
  - intros t th' Et'. simpl. rewrite Hc. destruct (decide (t = cur)) as [->|Hd].
    + exists k, st. rewrite !lookup_insert_eq. split_and!; try done.
      assert (th' = th) as -> by (simpl in Et'; congruence). done.
    + rewrite !lookup_insert_ne by congruence. by apply Hcx.
  - split_and!.
    + intros j t Hj. by apply J1, Hjoin.
    + intros i j t Hi' Hj. by eapply J2; apply Hjoin.
    + intros w t Hw. destruct (J3 w t Hw) as [g Hg]. exists g. rewrite lookup_insert_ne; [done|].
      intros <-. revert Hw. simpl. rewrite (kview_at wkey _ _ th) by done. unfold wkey. by rewrite decide_False.
  - destruct Hrt as (R1 & R2 & R3). split_and!; [exact R1| |intros t Hj%Hjoin; by eapply R3]. intros j t (g & n & Hg).
    apply lookup_insert_Some in Hg as [[<- Hg]|[_ Hg]]; [exact (Hnf g t n Hg) | apply R2; by exists g, n].
Qed.

Lemma recontext_inside k k' st' c th s :
  inside k DISPATCH1 s \/ inside k PASSIVE0 s \/ inside k INTERRUPT1 s ->
  threads s !! gCurrentThread s = Some th ->
  State th <> KTHREAD_STATE_BLOCKED -> State th <> KTHREAD_STATE_TERMINATED ->
  frames_irql k' st' -> returnable s k' ->
  gCurrentIrqlState c = gCurrentThread s -> gCriticalSectionDepth c = 0 ->
  IrqlStates c = <[gCurrentThread s := st']> (IrqlStates (Cpu s)) ->
  (0 < DispatchDepth st' -> MaskableInterruptEnabled c = false) ->
  inside k' st' (set_Cpu c s).
Proof.
  intros Hin Et Hnb Hnt Hk' Hret Hc1 Hc2 Hc3 Hif.
  assert (Hinv : sinv (<[gCurrentThread s := k]> (SavedContext s)) s /\ gCurrentThread s <> 0).
  { by destruct Hin as [(?&_&_&?&_)|[(?&_&_&?&_)|(?&_&_&?&_)]]. }
  destruct Hinv as [Hinv H0]. split_and!; try done.
  - pose proof (recontext _ k' st' c th s Hinv Et Hnb Hnt Hk' Hret Hc3) as H.
    rewrite insert_insert_eq in H. done.
  - unfold cpu_at. simpl. rewrite Hc3, lookup_insert_eq. done.
Qed.

Lemma running_states s : current_running s -> exists th, threads s !! gCurrentThread s = Some th /\
  State th = KTHREAD_STATE_RUNNING /\ State th <> KTHREAD_STATE_BLOCKED /\ State th <> KTHREAD_STATE_TERMINATED.
Proof. intros (th & Et & Hs). exists th. rewrite Hs. done. Qed.

(** The frame a call in progress is accounted for under, until it is known
    where it will block. *)
Definition calling (b : bool) : list FRAME := [InYield (held b)].

Lemma enter_call s : boundary s ->
  exists b, acquire_irql s = Ok (held b, set_Cpu (raised (Cpu s)) s) /\
    b = MaskableInterruptEnabled (Cpu s) /\
    inside (calling b) DISPATCH1 (set_Cpu (raised (Cpu s)) s) /\
    current_running (set_Cpu (raised (Cpu s)) s).
Proof.
  intros [Hin Hrun]. exists (MaskableInterruptEnabled (Cpu s)).
  pose proof Hin as (_ & _ & Hcpu). split; [by apply acquire_passive|]. split; [done|].
  split; [|done]. destruct (running_states s Hrun) as (th & Et & _ & Hnb & Hnt).
  destruct Hcpu as (E & H0 & Hcs & _). eapply (recontext_inside []); eauto.
  - constructor.
  - done.
  - simpl. by rewrite E.
Qed.

Lemma leave_call k b s : inside k DISPATCH1 s -> current_running s ->
  release_irql (held b) s = Ok (set_Cpu (lowered b (Cpu s)) s) /\
  boundary (set_Cpu (lowered b (Cpu s)) s).
Proof.
  intros Hin Hrun. pose proof Hin as (_ & _ & Hcpu). split; [by apply release_held|].
  split; [|done]. destruct (running_states s Hrun) as (th & Et & _ & Hnb & Hnt).
  destruct Hcpu as (E & H0 & Hcs & _). eapply (recontext_inside k); eauto.
  - constructor.
  - done.
  - simpl. by rewrite E.
  - simpl. lia.
Qed.

(** ** Termination claims *)

(** Only the termination mode and claim differ. *)
Definition reclaimed (th th' : KTHREAD) : Prop :=
  th' = set_TerminationMode (TerminationMode th') (set_Claim (TerminationClaimState th') th).

Lemma kview_reclaimed {K} (f : KTHREAD -> option K) T t th th' y :
  (forall x m c, f (set_TerminationMode m (set_Claim c x)) = f x) ->
  T !! t = Some th -> reclaimed th th' -> kview f (<[t := th']> T) y = kview f T y.
Proof. intros Hf Et Hr. apply (kview_same f _ _ th); [done|]. rewrite Hr. apply Hf. Qed.

Lemma lifecycle_queues t th th' s :
  queues_ok s -> threads s !! t = Some th -> reclaimed th th' -> claim_ok th' -> t ∉ gTerminatedList s ->
  queues_ok (put_thread t th' s).
Proof.
  intros [Hth [Hrl Hr] Hq [Hw Hws] HD] Et Hre Hclm Hnd. destruct (thread_at _ _ _ Hth Et) as [Hok H0].
  assert (Hk : forall K (f : KTHREAD -> option K),
    (forall x m c, f (set_TerminationMode m (set_Claim c x)) = f x) ->
    forall y, kview f (<[t := th']> (threads s)) y = kview f (threads s) y).
  { intros K f Hf y. by eapply kview_reclaimed. }
  split; simpl; try done.
  - apply threads_keep; [done | done |]. rewrite Hre. destruct Hok as (? & ? & _). rewrite Hre in Hclm. split; [done|by split].
  - split; [done|]. eapply lists_by_ext; [exact Hr | by apply Hk | done].
  - eapply timeout_ext; [by apply Hk | done].
  - split; [eapply lists_by_ext; [exact Hw | by apply Hk | done]|].
    intros y o. rewrite Hk by done. apply Hws.
  - eapply term_keep; [exact HD | | done]. intros x Hx. apply lookup_insert_ne. congruence.
Qed.

Lemma lifecycle_sinv C t th th' s :
  sinv C s -> threads s !! t = Some th -> reclaimed th th' -> claim_ok th' -> t ∉ gTerminatedList s ->
  (forall j, ~ joins C j t) -> TerminationClaimState th <> CLAIM_CONSUMED -> sinv C (put_thread t th' s).
Proof.
  intros [Hq Ho [Hown Hcnt] Hcp Hcx (J1 & J2 & J3) Hi Hr [Hsv Hst] Hrt] Et Hre Hclm Hnd Hnj Hncl.
  assert (Hterm : forall x, terminated (threads s) x -> terminated (<[t := th']> (threads s)) x).
  { intros x (thx & Ex & Hs). destruct (decide (x = t)) as [->|Hx].
    - exists th'. rewrite lookup_insert_eq. split; [done|]. rewrite Hre. simpl. congruence.
    - exists thx. by rewrite lookup_insert_ne by congruence. }
  assert (Hl : forall x thx', <[t := th']> (threads s) !! x = Some thx' ->
    exists thx, threads s !! x = Some thx /\ reclaimed thx thx').
  { intros x thx' [[<- <-]|[_ E]]%lookup_insert_Some; [by exists th|]. exists thx'. split; [done|].
    unfold reclaimed. by destruct thx'. }
  split; simpl; try done.
  - by eapply lifecycle_queues.
  - split.
    + intros o d Hd Hn. destruct (Hown o d Hd Hn) as (thx & Ex & Hs).
      destruct (decide (OwnerThread d = t)) as [E|Hx].
      * exists th'. rewrite E, lookup_insert_eq. split; [done|]. rewrite Hre. simpl. congruence.
      * exists thx. by rewrite lookup_insert_ne by congruence.
    + intros x thx' (thx & Ex & Hrx)%Hl. rewrite Hrx. exact (Hcnt x thx Ex).
  - intros x. destruct (Hcp x) as [H1 H2]. split.
    + rewrite H1. destruct (decide (x = t)) as [->|Hx]; [|by rewrite lookup_insert_ne by congruence].
      rewrite lookup_insert_eq, Et. split; eauto.
    + intros d Hd. destruct (H2 d Hd) as [Hty Hp]. split; [done|]. intros Hs. by apply Hterm, Hp.
  - intros x thx' (thx & Ex & Hrx)%Hl. destruct (Hcx x thx Ex) as (k & st & ? & ? & ? & ?).
    exists k, st. by rewrite Hrx.
  - split_and!; [|done|].
    + intros j x Hj. destruct (J1 j x Hj) as (thj & thx & Ej & Ex & Hne & Hni & Hm & Hc & Hw1 & Hw2).
      assert (x <> t) by (intros ->; by eapply Hnj).
      assert (Hex : exists thj', <[t := th']> (threads s) !! j = Some thj' /\ State thj' = State thj /\
                 WaitBlock thj' = WaitBlock thj).
      { destruct (decide (j = t)) as [->|]; [|exists thj; by rewrite lookup_insert_ne by congruence].
        exists th'. rewrite lookup_insert_eq, Hre. simpl. by replace th with thj by congruence. }
      destruct Hex as (thj' & Ej' & E1 & E2). exists thj', thx.
      split_and!; try done; [by rewrite lookup_insert_ne by congruence|]. split; rewrite E1, E2; [done|].
      intros Hs1 Hs2. destruct (Hw2 Hs1 Hs2). split; [by apply Hterm | done].
    + intros w x. rewrite (kview_reclaimed wkey _ _ th) by done. apply J3.
  - destruct Hi as (thi & Ei & Hk & Hs). destruct (decide (gIdleThread s = t)) as [E|Hx].
    + exists th'. rewrite E, lookup_insert_eq, Hre. simpl. replace th with thi by congruence. done.
    + exists thi. by rewrite lookup_insert_ne by congruence.
  - intros x thx' (thx & Ex & Hrx)%Hl Hs. rewrite Hrx in Hs. by eapply Hr.
  - split; [done|]. intros x thx' (thx & Ex & Hrx)%Hl Hx. rewrite Hrx. exact (Hst x thx Ex Hx).
  - eapply (runtime_keep (threads s) _ (objects s)); [| apply typed_refl | reflexivity | done | done | exact Hrt].
    intros x (thx & Ex & Hsx & Hcx') _. exists thx. rewrite lookup_insert_ne; [done|]. intros <-. congruence.
Qed.

(** ** Freeing a terminated thread *)

Lemma owned_delete O o d t : O !! o = Some d -> OwnerThread d <> t -> owned (delete o O) t = owned O t.
Proof.
  intros Ho Hd. unfold owned. f_equal. rewrite map_filter_delete, delete_id; [done|].
  apply map_lookup_filter_None. right. intros d' E. simpl. congruence.
Qed.

(** No pending join designates [t]. *)
Definition unjoined (C : gmap Z (list FRAME)) (t : Z) : Prop := forall j, ~ joins C j t.
(** No suspended finalisation designates [t]. *)
Definition unfinalized (C : gmap Z (list FRAME)) (t : Z) : Prop := forall j, ~ finalizes C j t.

(** A thread to be finalised is on no list, no one joins it and it is not idle. *)
Lemma condemned_apart C t s : sinv C s -> condemned (threads s) t ->
  t ∉ gTerminatedList s /\ unjoined C t /\ t <> gIdleThread s /\ t <> 0.
Proof.
  intros Hinv (th & Et & Hs & Hc). pose proof (s_joins _ _ Hinv) as (J1 & _ & _).
  destruct (s_queues _ _ Hinv) as [Hth _ _ _ [_ HD]]. destruct (thread_at _ _ _ Hth Et) as [_ H0].
  split_and!; [| | |done].
  - intros Hin. destruct (HD t Hin) as (th' & Et' & _ & _ & Hu & _). congruence.
  - intros j Hj. destruct (J1 j t Hj) as (thj & th' & _ & Et' & _ & _ & _ & Hp & _). congruence.
  - intros ->. destruct (s_idle _ _ Hinv) as (thi & Ei & _ & [Hsi|Hsi]); congruence.
Qed.

Lemma forget_queues C t th s :
  sinv C s -> threads s !! t = Some th -> State th = KTHREAD_STATE_TERMINATED ->
  t ∉ gTerminatedList s -> unjoined C t -> queues_ok (forget_thread t s).
Proof.
  intros Hinv Et Hs Hnd Hnj. pose proof (s_joins _ _ Hinv) as (_ & _ & J3).
  destruct (s_queues _ _ Hinv) as [[Hth0 Hth] [Hrl Hr] Hq [Hw Hws] [HDn HD]].
  assert (Hk : forall K (f : KTHREAD -> option K), f th = None ->
    forall y, kview f (delete t (threads s)) y = kview f (threads s) y).
  { intros K f Hf y. unfold kview. destruct (decide (y = t)) as [->|Hy].
    - by rewrite lookup_delete_eq, Et.
    - by rewrite lookup_delete_ne by congruence. }
  assert (Hko : forall y, y <> t -> delete (Completion t) (objects s) !! Completion y = objects s !! Completion y).
  { intros y Hy. apply lookup_delete_ne. congruence. }
  split; simpl.
  - split; [destruct (decide (t = 0)) as [->|]; [apply lookup_delete_eq | by rewrite lookup_delete_ne]|].
    by apply map_Forall_delete.
  - split; [done|]. eapply lists_by_ext; [exact Hr | | done]. apply Hk. unfold rkey. rewrite decide_False by congruence. done.
  - eapply timeout_ext; [|done]. apply Hk. unfold tkey. rewrite decide_False by (intros [? _]; congruence). done.
  - assert (Hkw : forall y, kview wkey (delete t (threads s)) y = kview wkey (threads s) y).
    { apply Hk. unfold wkey. rewrite decide_False by congruence. done. }
    split.
    + intros o l Hl. destruct (decide (o = Completion t)) as [->|Ho]; [by rewrite lookup_delete_eq in Hl|].
      rewrite lookup_delete_ne in Hl by congruence. destruct (Hw o l Hl) as [Hn Hi]. split; [done|].
      intros y. by rewrite Hkw.
    + intros y o Hy. rewrite Hkw in Hy. rewrite lookup_delete_ne; [by eapply Hws|].
      intros <-. by eapply Hnj, J3.
  - split; [done|]. intros y Hy. assert (y <> t) by congruence.
    destruct (HD y Hy) as (thy & Ey & H1 & H2 & H3 & d & Hd & Hp). exists thy.
    rewrite lookup_delete_ne by congruence. split_and!; try done. exists d. by rewrite Hko.
Qed.

Lemma forget_sinv C t th w s :
  sinv C s -> threads s !! t = Some th -> State th = KTHREAD_STATE_TERMINATED ->
  t ∉ gTerminatedList s -> unjoined C t -> t <> gIdleThread s -> unfinalized C t ->
  svc_ok w -> (forall t' h, t' <> t -> thread_live (Svc s) t' h -> thread_live w t' h) ->
  (is_Some (FinalizeThreadHook (Svc s)) -> is_Some (FinalizeThreadHook w)) ->
  (forall a, runtime_event w a -> runtime_event (Svc s) a) ->
  sinv C (forget_thread t (set_Svc w s)).
Proof.
  intros Hinv Et Hs Hnd Hnj Hni Hnf Hw Hlive Hhk Hev.
  assert (Hq' : queues_ok (forget_thread t (set_Svc w s))).
  { exact (forget_queues C t th s Hinv Et Hs Hnd Hnj). }
  destruct Hinv as [Hq Ho [Hown Hcnt] Hcp Hcx (J1 & J2 & J3) Hi Hr [Hsv Hst] Hrt].
  destruct (proj2 (proj1 (Hcp t))) as [dt Hdt]; [by exists th|].
  assert (Howt : OwnerThread dt = 0).
  { destruct (Hcp t) as [_ Hc]. destruct (Hc dt Hdt) as [Hty _].
    pose proof (map_Forall_lookup_1 _ _ _ _ Ho Hdt) as [_ [(_ & ? & _)|[(E & _)|(E & _)]]]; [done | |];
      rewrite Hty in E; discriminate E. }
  assert (Hterm : forall x, x <> t -> terminated (threads s) x -> terminated (delete t (threads s)) x).
  { intros x Hx (thx & Ex & Hsx). exists thx. by rewrite lookup_delete_ne by congruence. }
  assert (Hpub : forall x, x <> t -> published (objects s) x -> published (delete (Completion t) (objects s)) x).
  { intros x Hx (d & Hd & Hp). exists d. by rewrite lookup_delete_ne by congruence. }
  split; simpl; try done.
  - by apply map_Forall_delete.
  - split.
    + intros o d [_ Hd]%lookup_delete_Some Hn. destruct (Hown o d Hd Hn) as (thx & Ex & Hsx).
      exists thx. rewrite lookup_delete_ne by congruence. done.
    + intros x thx [Hx Ex]%lookup_delete_Some. rewrite (Hcnt x thx Ex). symmetry.
      eapply owned_delete; [exact Hdt|]. rewrite Howt. intros <-.
      destruct Hq as [[H0 _] _ _ _ _]. congruence.
  - intros x. destruct (decide (x = t)) as [->|Hx].
    { rewrite !lookup_delete_eq. split; [done|]. done. }
    rewrite !lookup_delete_ne by congruence. exact (Hcp x).
  - intros x thx [Hx Ex]%lookup_delete_Some. rewrite lookup_delete_ne by done. by apply Hcx.
  - split_and!; [|done|].
    + intros j x Hj. destruct (J1 j x Hj) as (thj & thx & Ej & Ex & Hne & Hnx & Hm & Hc & Hw1 & Hw2).
      assert (x <> t) by (intros ->; by eapply Hnj).
      assert (j <> t).
      { intros ->. destruct (Hcx t th Et) as (k & st & Hk & _ & _ & Hsk). destruct Hj as [g Hg].
        rewrite Hg in Hk. injection Hk as <-. by apply Hsk in Hs. }
      exists thj, thx. rewrite !lookup_delete_ne by congruence. split_and!; try done. split; [done|].
      intros Hs1 Hs2. destruct (Hw2 Hs1 Hs2). split; [by apply Hterm | by apply Hpub].
    + intros y x Hy. apply J3. unfold kview in *. destruct (decide (y = t)) as [->|Hyt].
      * by rewrite lookup_delete_eq in Hy.
      * by rewrite lookup_delete_ne in Hy by congruence.
  - destruct Hi as (thi & Ei & Hk). exists thi. by rewrite lookup_delete_ne by congruence.
  - intros x thx [Hx Ex]%lookup_delete_Some. by apply Hr.
  - split; [done|]. intros x thx [Hx Ex]%lookup_delete_Some Hxi. destruct (Hst x thx Ex Hxi) as [? Hl].
    split; [done|]. by apply Hlive.
  - destruct Hrt as (R1 & R2 & R3). split_and!; [| |exact R3].
    + intros a Ha. destruct (R1 a (Hev a Ha)) as (d & Hd & Hty). exists d. by rewrite lookup_delete_ne by congruence.
    + intros j x Hj. destruct (R2 j x Hj) as (-> & Hh & thx & Ex & Hc). split; [done|]. split; [by apply Hhk|].
      exists thx. rewrite lookup_delete_ne; [done|]. intros <-. by eapply Hnf.
Qed.

(** [KiFinalizeThread] after the hook. *)
Lemma release_condemned C t s :
  sinv C s -> condemned (threads s) t -> unfinalized C t ->
  exists w, release_thread t s = Ok (forget_thread t (set_Svc w s)) /\ sinv C (forget_thread t (set_Svc w s)).
Proof.
  intros Hinv Hct Hnf. destruct (condemned_apart _ _ _ Hinv Hct) as (Hnd & Hnj & Hni & _).
  destruct Hct as (th & Et & Hs & _). destruct (s_stacks _ _ Hinv) as [Hw Hst].
  destruct (Hst t th Et Hni) as [Hkva Hlive]. unfold release_thread, get_thread. rewrite Et. cbn [res_bind]. rewrite Hkva.
  destruct (release_law (Svc s) t (StackRange th) Hw Hlive) as (w1 & w2 & -> & Hpf & Hok2 & Hlive2 & Hh & He).
  rewrite bool_decide_eq_true_2 by done. cbn [res_bind]. simpl. rewrite Hpf. cbn [res_bind].
  exists w2. split; [by destruct s|]. by eapply forget_sinv.
Qed.

(** Contexts of threads that do not exist are irrelevant. *)
Lemma sinv_context C C' s :
  sinv C s -> (forall x, is_Some (threads s !! x) -> C' !! x = C !! x) ->
  (forall j k, C' !! j = Some k -> C !! j = Some k) -> sinv C' s.
Proof.
  intros [Hq Ho Hown Hcp Hcx (J1 & J2 & J3) Hi Hr Hst Hrt] H1 H2.
  assert (Hj : forall j t, joins C' j t -> joins C j t) by (intros j t [g Hg]; exists g; by apply H2).
  split; try done.
  - intros t th Et. rewrite H1 by (by exists th). by apply Hcx.
  - split_and!.
    + intros j t Hjt. by apply J1, Hj.
    + intros i j t Hit Hjt. by eapply J2; apply Hj.
    + intros w t Hw. destruct (J3 w t Hw) as [g Hg]. exists g. rewrite H1; [done|].
      unfold kview in Hw. destruct (threads s !! w) as [th|]; [by exists th | done].
  - destruct Hrt as (R1 & R2 & R3). split_and!; [done| |intros t Hjt%Hj; by eapply R3]. intros j t (g & n & Hg). apply R2. exists g, n. by apply H2.
Qed.

Lemma release_boundary t s :
  boundary s -> condemned (threads s) t -> unfinalized (<[gCurrentThread s := []]> (SavedContext s)) t ->
  exists w, release_thread t s = Ok (forget_thread t (set_Svc w s)) /\ boundary (forget_thread t (set_Svc w s)).
Proof.
  intros [(Hinv & Hk & Hcpu) Hrun] Hct Hnf. destruct (release_condemned _ t s Hinv Hct Hnf) as (w & E & Hinv').
  exists w. split; [done|]. destruct Hrun as (thc & Ec & Hsc).
  assert (Hne : t <> gCurrentThread s) by (intros ->; destruct Hct as (th & Et & Hs & _); congruence).
  destruct Hcpu as (H1 & H2 & H3 & H4 & H5). split; [split_and!|].
  - eapply sinv_context; [exact Hinv' | |]; simpl.
    + intros x [thx Hx]. apply lookup_delete_Some in Hx as [Hx _].
      destruct (decide (x = gCurrentThread s)) as [->|]; [by rewrite !lookup_insert_eq|].
      by rewrite !lookup_insert_ne, lookup_delete_ne by congruence.
    + intros j k. rewrite !lookup_insert_Some, lookup_delete_Some. tauto.
  - done.
  - unfold cpu_at. simpl. by rewrite lookup_delete_ne by congruence.
  - exists thc. simpl. by rewrite lookup_delete_ne by congruence.
Qed.

End invariant.

(** Enter a critical section in a goal, with the lemma to leave it. *)
Ltac enter_cs cs Hk Hcpu Hleave :=
  let c := fresh "c" in let E := fresh "Ecs" in
  destruct (critical_run fresh_critical _ _ _ Hk Hcpu fresh_inactive) as (cs & c & E & Hleave);
  rewrite E; clear E; cbn [res_bind].

Ltac leave_cs Hleave X :=
  let cs := fresh "cs" in let E := fresh "E" in
  destruct (Hleave X eq_refl) as (cs & E & _); rewrite E; clear E; cbn [res_bind].

Section returns.
Context {W : Type} {SV : Services W} {SL : ServicesLaws W}.
Implicit Types (s : SCHED W).

Lemma inside_put k st t th s : inside k st s ->
  sinv (<[gCurrentThread s := k]> (SavedContext s)) (put_thread t th s) ->
  inside k st (put_thread t th s).
Proof. intros (_ & Hk & Hcpu) H. by split_and!. Qed.

Lemma unjoined_plain C c k k' t : unjoined (<[c := k]> C) t -> plain k' -> unjoined (<[c := k']> C) t.
Proof.
  intros H (_ & Hp & _) j [g Hg]. apply lookup_insert_Some in Hg as [[_ Hg]|[Hne Hg]]; [by eapply Hp|].
  apply (H j). exists g. by rewrite lookup_insert_ne.
Qed.

Lemma plain_calling b : plain (calling b).
Proof. done. Qed.
Lemma plain_user : plain [].
Proof. done. Qed.

Lemma current_running_put t th th' s : threads s !! t = Some th -> State th' = State th ->
  current_running s -> current_running (put_thread t th' s).
Proof.
  intros Et Hs (thc & Ec & Hc). destruct (decide (gCurrentThread s = t)) as [E|Hne].
  - exists th'. simpl. rewrite E, lookup_insert_eq. split; [done|]. congruence.
  - exists thc. simpl. by rewrite lookup_insert_ne by congruence.
Qed.

Lemma joinable_not_reaped s t th : queues_ok s -> threads s !! t = Some th ->
  TerminationMode th = KTHREAD_TERMINATION_MODE_JOINABLE -> t ∉ gTerminatedList s.
Proof. intros [_ _ _ _ [_ HD]] Et Hm Hin. destruct (HD t Hin) as (th' & Et' & _ & Hm' & _). congruence. Qed.

Lemma published_run t s : t <> 0 -> published (objects s) t ->
  KiIsThreadTerminationCompletionPublished t s = Ok true.
Proof.
  intros Ht (d & Hd & Hs). unfold KiIsThreadTerminationCompletionPublished.
  rewrite (proj2 (Z.eqb_neq t 0)) by done. cbn [negb HO_KASSERT res_bind]. unfold get_object. rewrite Hd.
  cbn [res_bind]. by rewrite (proj2 (Z.eqb_neq _ 0)).
Qed.

(** ** Returning from a context switch *)

Lemma leave_interrupt_run s : cpu_at s INTERRUPT1 ->
  end_of_interrupt s = Ok (set_Cpu (lowered true (Cpu s)) s).
Proof.
  intros (E & H0 & _ & Hst & _). unfold end_of_interrupt, on_cpu, KeLeaveInterruptContext.
  rewrite (get_state _ INTERRUPT1) by congruence. done.
Qed.

Lemma end_of_interrupt_run s : inside [InTimerInterrupt] INTERRUPT1 s -> current_running s ->
  exists s', end_of_interrupt s = Ok s' /\ boundary s'.
Proof.
  intros Hin Hrun. pose proof Hin as (_ & _ & Hcpu). rewrite leave_interrupt_run by done. eexists. split; [done|].
  split; [|done]. destruct (running_states s Hrun) as (th & Et & _ & Hnb & Hnt).
  destruct Hcpu as (E & H0 & Hcs & _). eapply (recontext_inside [InTimerInterrupt]); eauto.
  - constructor.
  - done.
  - simpl. by rewrite E.
  - simpl. lia.
Qed.

Lemma wait_completed_run b k th s : inside k DISPATCH1 s -> current_running s ->
  threads s !! gCurrentThread s = Some th ->
  wait_completed (held b) s =
    Ok (CompletionStatus (WaitBlock th), set_Cpu (lowered b (Cpu s)) s) /\
  boundary (set_Cpu (lowered b (Cpu s)) s).
Proof.
  intros Hin Hrun Et. destruct (leave_call k b s Hin Hrun) as [E Hb]. split; [|done].
  unfold wait_completed, get_thread. rewrite Et. cbn [res_bind]. by rewrite E.
Qed.

Lemma trampoline_run s : inside [InTrampoline] PASSIVE0 s -> current_running s ->
  exists s', KiThreadTrampoline s = Ok s' /\ boundary s'.
Proof.
  intros Hin Hrun. pose proof Hin as (Hinv & _ & Hcpu).
  destruct (s_stacks _ _ Hinv) as [Hw _].
  assert (Hr : exists s1, (match OwnsThreadHook (Svc s) with
    | Some ownsThreadFn =>
        if ownsThreadFn (gCurrentThread s) then
          match EnterHook (Svc s) with
          | None => Panic EC_INVALID_STATE
          | Some enterFn => Ok (set_Svc (enterFn (gCurrentThread s) (Svc s)) s)
          end
        else Ok s
    | None => Ok s
    end) = Ok s1 /\ soft s s1).
  { destruct (OwnsThreadHook (Svc s)) as [owns|] eqn:Eo; [|exists s; split; [done | apply soft_refl]].
    destruct (owns (gCurrentThread s)) eqn:Eot; [|exists s; split; [done | apply soft_refl]].
    destruct (enter_law _ owns _ Hw Eo Eot) as (f & -> & Hq). eexists. split; [done|].
    apply soft_same; try done. by apply quiet_good. }
  destruct Hr as (s1 & E & Hs1). unfold KiThreadTrampoline. rewrite E. cbn [res_bind].
  eexists. split; [done|]. destruct (so_rest _ _ Hs1) as (_ & Ec & _ & Ecpu & EC & _).
  destruct Hrun as (th & Et & Hst). destruct (requantumed_fwd _ _ _ _ (so_threads _ _ Hs1) Et) as [q Eq].
  destruct Hcpu as (H1 & H2 & H3 & H4 & _).
  assert (Hin1 : inside [InTrampoline] PASSIVE0 s1).
  { split_and!; [|constructor|].
    - rewrite Ec, EC. by eapply sinv_soft.
    - unfold cpu_at. rewrite Ec, Ecpu. simpl. by split_and!. }
  assert (Hid : IrqlStates (Cpu s1) = <[gCurrentThread s1 := PASSIVE0]> (IrqlStates (Cpu s1))).
  { rewrite insert_id; [done|]. by rewrite Ec, Ecpu. }
  split.
  - eapply (recontext_inside [InTrampoline] [] PASSIVE0 _ (set_Quantum q th) s1); simpl.
    + tauto.
    + by rewrite Ec.
    + congruence.
    + congruence.
    + constructor.
    + done.
    + congruence.
    + congruence.
    + done.
    + lia.
  - exists (set_Quantum q th). simpl. by rewrite Ec.
Qed.

(** ** Readying a thread that is not waiting *)

Lemma readied_sinv C t th s :
  sinv C s -> threads s !! t = Some th ->
  State th = KTHREAD_STATE_NEW \/ State th = KTHREAD_STATE_RUNNING ->
  make_ready t s = Ok (readied t th s) /\ sinv C (readied t th s).
Proof.
  intros [Hq Ho Hown Hcp Hcx Hj Hi Hr Hst Hrt] Et Hs. pose proof Hq as [Hth Hrd Hqt Hw HD].
  destruct (thread_at _ _ _ Hth Et) as [[Hp [_ Hcl]] H0].
  assert (Hns : State th <> KTHREAD_STATE_READY /\ State th <> KTHREAD_STATE_BLOCKED /\
                State th <> KTHREAD_STATE_TERMINATED) by (destruct Hs as [-> | ->]; done).
  destruct Hns as (Hnr & Hnb & Hnt).
  assert (Hnd : t ∉ gTerminatedList s) by (by eapply blocked_not_term).
  split; [by apply make_ready_run|].
  assert (HS : statics (threads s) (<[t := set_State KTHREAD_STATE_READY th]> (threads s))).
  { apply (statics_insert _ _ th); [done|]. split; try done. }
  split; try done.
  - split.
    + apply threads_keep; [done..|]. split; [exact Hp|split; [done|]].
      apply (claim_state th); try done. by right.
    + by apply (ready_add _ _ t th (set_State KTHREAD_STATE_READY th)).
    + eapply timeout_keep; [done | exact Et |]. unfold tkey. rewrite !decide_False; [done | tauto | by intros [? _]].
    + eapply wait_keep; [done | exact Et |]. unfold wkey. by rewrite !decide_False.
    + eapply term_keep; [exact HD | | done]. intros x Hx. apply lookup_insert_ne. intros <-. exact (Hnd Hx).
  - eapply owners_keep; [exact HS | by eapply counts_insert | apply relisted_refl | done].
  - eapply completions_keep; [exact HS | apply relisted_refl | done].
  - by eapply contexts_keep.
  - eapply joins_keep; [exact HS | apply relisted_refl | done | |].
    + intros j x thj thj' _ Ej Ej' [Ha Hb]. simpl in Ej'.
      apply lookup_insert_Some in Ej' as [[<- <-]|[_ Ej']]; [|rewrite Ej in Ej'; injection Ej' as <-; by split].
      assert (thj = th) as -> by congruence. split; simpl; [done|]. intros _. by apply Hb.
    + intros w x Hwx. apply Hj. revert Hwx. simpl.
      rewrite (kview_same wkey _ _ th) by (done || unfold wkey; by rewrite !decide_False). done.
  - destruct Hi as (thi & Ei & Hk & Hsi). destruct (decide (gIdleThread s = t)) as [E|Hne].
    + exists (set_State KTHREAD_STATE_READY th). simpl. rewrite E, lookup_insert_eq.
      split_and!; [done | | by right]. simpl. congruence.
    + exists thi. simpl. by rewrite lookup_insert_ne by congruence.
  - intros x thx Ex Hrun. simpl in *. apply lookup_insert_Some in Ex as [[<- <-]|[_ Ex]]; [done | by eapply Hr].
  - eapply stacks_keep; [exact HS | reflexivity | done].
  - eapply runtime_statics; [exact HS | apply typed_refl | reflexivity | done].
Qed.

(** ** The timeout queue *)

Definition deadline_of (T : gmap Z KTHREAD) (t : Z) : Z :=
  match T !! t with Some th => DeadlineNs (WaitBlock th) | None => 0 end.

Lemma queued_deadline T Q x : timeout_ok T Q -> x ∈ Q ->
  is_Some (T !! x) /\ kview tkey T x = Some (deadline_of T x).
Proof.
  intros (_ & Hi & _) Hx. apply Hi in Hx as [dl Hdl]. rewrite Hdl. unfold kview, tkey, deadline_of in *.
  destruct (T !! x) as [th|]; [|done]. simpl in Hdl. split; [by exists th|].
  destruct (decide _); [done | discriminate].
Qed.

(** The walk stops at the first later deadline. *)
Lemma insert_by_deadline_run t dl Q s :
  (forall x, x ∈ Q -> is_Some (threads s !! x)) ->
  StronglySorted (fun a b => deadline_of (threads s) a <= deadline_of (threads s) b) Q ->
  exists l1 l2, Q = l1 ++ l2 /\ insert_by_deadline t dl Q s = Ok (l1 ++ t :: l2) /\
    (forall x, x ∈ l1 -> deadline_of (threads s) x <= dl) /\
    (forall x, x ∈ l2 -> dl < deadline_of (threads s) x).
Proof.
  intros Hin Hs. induction Hs as [|a Q Hs IH Hall].
  { exists [], []. split_and!; try done; by intros x ?%not_elem_of_nil. }
  cbn [insert_by_deadline]. unfold get_thread. destruct (Hin a ltac:(by left)) as [th Ea]. rewrite Ea.
  cbn [res_bind]. assert (Hda : deadline_of (threads s) a = DeadlineNs (WaitBlock th)).
  { unfold deadline_of. by rewrite Ea. }
  destruct (Z.ltb_spec dl (DeadlineNs (WaitBlock th))) as [Hlt|Hge].
  - exists [], (a :: Q). split_and!; try done; [by intros x ?%not_elem_of_nil|].
    intros x [->|Hx]%elem_of_cons; [lia|]. rewrite Forall_forall in Hall. specialize (Hall x Hx). lia.
  - destruct IH as (l1 & l2 & -> & -> & H1 & H2); [intros x Hx; apply Hin; by right|].
    exists (a :: l1), l2. split_and!; try done. intros x [->|Hx]%elem_of_cons; [lia | by apply H1].
Qed.

Lemma timeout_add T l1 l2 t th' :
  timeout_ok T (l1 ++ l2) -> kview tkey T t = None ->
  tkey th' = Some (DeadlineNs (WaitBlock th')) ->
  (forall x, x ∈ l1 -> deadline_of T x <= DeadlineNs (WaitBlock th')) ->
  (forall x, x ∈ l2 -> DeadlineNs (WaitBlock th') < deadline_of T x) ->
  timeout_ok (<[t := th']> T) (l1 ++ t :: l2).
Proof.
  intros Hok Hk Hk' H1 H2. pose proof Hok as (Hn & Hi & Hs).
  assert (Hnt : t ∉ l1 ++ l2) by (rewrite Hi, Hk; by intros [? ?]).
  assert (Hkx : forall x, x ∈ l1 ++ l2 -> kview tkey (<[t := th']> T) x = Some (deadline_of T x)).
  { intros x Hx. rewrite kview_other by congruence. by apply (queued_deadline T (l1 ++ l2)). }
  assert (Hkt : kview tkey (<[t := th']> T) t = Some (DeadlineNs (WaitBlock th'))) by (by rewrite kview_self).
  split_and!.
  - rewrite <- Permutation_middle. by apply NoDup_cons.
  - intros x. rewrite elem_of_app, elem_of_cons. destruct (decide (x = t)) as [->|Hx].
    + rewrite Hkt. split; [by eexists | tauto].
    + rewrite kview_other by done. rewrite <- Hi, elem_of_app. tauto.
  - apply StronglySorted_app in Hs as (Hx & Hs1 & Hs2).
    assert (Hold : forall a b, a ∈ l1 ++ l2 -> b ∈ l1 ++ l2 -> earlier T a b -> earlier (<[t := th']> T) a b).
    { intros a b Ha Hb. unfold earlier. rewrite !kview_other by congruence. done. }
    apply StronglySorted_app. split_and!.
    + intros a b Ha Hb. apply elem_of_cons in Hb as [->|Hb].
      * unfold earlier. rewrite Hkt, Hkx by (apply elem_of_app; by left). by apply H1.
      * apply Hold; [apply elem_of_app; by left | apply elem_of_app; by right | by apply Hx].
    + eapply sorted_weaken; [|exact Hs1]. intros a b Ha Hb. apply Hold; apply elem_of_app; by left.
    + constructor.
      * eapply sorted_weaken; [|exact Hs2]. intros a b Ha Hb. apply Hold; apply elem_of_app; by right.
      * apply Forall_forall. intros b Hb. unfold earlier. rewrite Hkt, Hkx by (apply elem_of_app; by right).
        simpl. specialize (H2 b Hb). lia.
Qed.

Lemma deadline_of_agree T T' x : T' !! x = T !! x -> deadline_of T' x = deadline_of T x.
Proof. unfold deadline_of. by intros ->. Qed.

(** Insertion of a thread that has just been given a deadline. *)
Lemma KiInsertTimeoutQueue_run t th' s T :
  timeout_ok T (gTimeoutQueue s) -> kview tkey T t = None -> threads s = <[t := th']> T ->
  exists l1 l2, gTimeoutQueue s = l1 ++ l2 /\
    KiInsertTimeoutQueue t s = Ok (set_TimeoutQueue (l1 ++ t :: l2) s) /\
    (forall x, x ∈ l1 -> deadline_of T x <= DeadlineNs (WaitBlock th')) /\
    (forall x, x ∈ l2 -> DeadlineNs (WaitBlock th') < deadline_of T x).
Proof.
  intros Hok Hk HT. pose proof Hok as (_ & Hi & Hs).
  assert (Hnt : t ∉ gTimeoutQueue s) by (rewrite Hi, Hk; by intros [? ?]).
  assert (Hag : forall x, x ∈ gTimeoutQueue s -> threads s !! x = T !! x).
  { intros x Hx. rewrite HT, lookup_insert_ne by congruence. done. }
  destruct (insert_by_deadline_run t (DeadlineNs (WaitBlock th')) (gTimeoutQueue s) s) as (l1 & l2 & E & E' & H1 & H2).
  - intros x Hx. rewrite Hag by done. by apply (queued_deadline T (gTimeoutQueue s)).
  - eapply sorted_weaken; [|exact Hs]. intros a b Ha Hb He. unfold earlier in He.
    rewrite (proj2 (queued_deadline _ _ a Hok Ha)), (proj2 (queued_deadline _ _ b Hok Hb)) in He.
    rewrite (deadline_of_agree T _ a), (deadline_of_agree T _ b) by auto. exact He.
  - exists l1, l2. split; [done|]. split.
    + unfold KiInsertTimeoutQueue. rewrite bool_decide_eq_false_2 by done. unfold get_thread.
      rewrite HT, lookup_insert_eq. cbn [res_bind]. rewrite E'. done.
    + split.
      * intros x Hx. rewrite <- (deadline_of_agree T (threads s)); [by apply H1|].
        apply Hag. rewrite E. apply elem_of_app. by left.
      * intros x Hx. rewrite <- (deadline_of_agree T (threads s)); [by apply H2|].
        apply Hag. rewrite E. apply elem_of_app. by right.
Qed.

(** ** Blocking the current thread *)

Definition blocked_thread (disp : option OBJ) (dl : Z) (th : KTHREAD) : KTHREAD :=
  set_State KTHREAD_STATE_BLOCKED (set_WaitBlock (mkWaitBlock disp dl EC_SUCCESS false) th).

Definition enlist (t : Z) (disp : option OBJ) (O : gmap OBJ DISPATCHER) : gmap OBJ DISPATCHER :=
  match disp with
  | None => O
  | Some o => alter (fun d => set_WaitList (WaitList d ++ [t]) d) o O
  end.

Lemma enlist_lookup t disp O x :
  enlist t disp O !! x =
    (if decide (disp = Some x) then (fun d => set_WaitList (WaitList d ++ [t]) d) <$> O !! x else O !! x).
Proof.
  unfold enlist. destruct disp as [o|]; [|by rewrite decide_False].
  destruct (decide (Some o = Some x)) as [Heq|Hne].
  - injection Heq as ->. by rewrite lookup_alter_eq.
  - rewrite lookup_alter_ne; [done | congruence].
Qed.

Lemma enlist_relisted t disp O : relisted O (enlist t disp O).
Proof.
  intros x. rewrite enlist_lookup. destruct (O !! x) as [d|]; destruct (decide _); simpl; try done.
  by rewrite set_WaitList_id.
Qed.

(** [Q'] is the timeout queue with [t] inserted if it has a deadline. *)
Definition timed (T : gmap Z KTHREAD) (Q Q' : list Z) (t dl : Z) : Prop :=
  (dl = 0 /\ Q' = Q) \/
  (dl <> 0 /\ exists l1 l2, Q = l1 ++ l2 /\ Q' = l1 ++ t :: l2 /\
     (forall x, x ∈ l1 -> deadline_of T x <= dl) /\ (forall x, x ∈ l2 -> dl < deadline_of T x)).

Definition blocked_state (t : Z) (disp : option OBJ) (dl : Z) (th : KTHREAD) (Q' : list Z) s : SCHED W :=
  set_TimeoutQueue Q' (set_objects (enlist t disp (objects s)) (put_thread t (blocked_thread disp dl th) s)).

Lemma running_keys th : State th = KTHREAD_STATE_RUNNING -> rkey th = None /\ tkey th = None /\ wkey th = None.
Proof.
  intros Hs. unfold rkey, tkey, wkey. rewrite Hs. rewrite !decide_False; try done. by intros [? _].
Qed.

Lemma block_queues t disp dl th Q' s :
  queues_ok s -> threads s !! t = Some th -> State th = KTHREAD_STATE_RUNNING ->
  timed (threads s) (gTimeoutQueue s) Q' t dl ->
  (forall o, disp = Some o -> is_Some (objects s !! o)) -> (disp = None -> dl <> 0) ->
  queues_ok (blocked_state t disp dl th Q' s).
Proof.
  intros [Hth Hr Hq [Hw Hws] HD] Et Hs Hti Hdisp Hdl. destruct (thread_at _ _ _ Hth Et) as [[Hp [_ Hcl]] H0].
  destruct (running_keys th Hs) as (K1 & K2 & K3).
  assert (Hnd : t ∉ gTerminatedList s) by (eapply blocked_not_term; [done | done | congruence]).
  assert (Hkw : wkey (blocked_thread disp dl th) = disp) by done.
  split; simpl.
  - apply threads_keep; [done | done |]. split; [exact Hp|split; [done|]].
    apply (claim_state th); try done. right. congruence.
  - eapply ready_keep; [done | exact Et |]. by rewrite K1.
  - destruct Hti as [[-> ->]|(Hd & l1 & l2 & EQ & -> & H1 & H2)].
    + eapply timeout_keep; [done | exact Et |]. rewrite K2. unfold tkey. by rewrite decide_False by (simpl; tauto).
    + rewrite EQ in Hq. eapply timeout_add; [done | by rewrite (kview_at tkey _ _ th) | | done | done].
      unfold tkey. by rewrite decide_True.
  - split.
    + destruct disp as [o|].
      * destruct (Hdisp o eq_refl) as [d Hd].
        eapply (lists_by_add _ _ _ _ t o (WaitList d)); [exact Hw | | simpl; by rewrite Hd | | | |].
        -- by rewrite (kview_at wkey _ _ th).
        -- by rewrite kview_self.
        -- intros y Hy. by apply kview_other.
        -- simpl. by rewrite lookup_alter_eq, Hd.
        -- intros y Hy. simpl. by rewrite lookup_alter_ne by congruence.
      * eapply lists_by_ext; [exact Hw | | done]. apply (kview_same wkey _ _ th); [done|]. by rewrite K3.
    + intros y o Hy. assert (Hso : is_Some (objects s !! o)).
      { destruct (decide (y = t)) as [->|Hne].
        - rewrite kview_self in Hy. apply Hdisp. congruence.
        - rewrite kview_other in Hy by done. by eapply Hws. }
      rewrite enlist_lookup. destruct Hso as [d ->]. destruct (decide _); by eexists.
  - eapply term_keep; [exact HD | |].
    + intros x Hx. apply lookup_insert_ne. congruence.
    + intros x _. apply relisted_published. apply enlist_relisted.
Qed.

(** The context [k] under which the current thread blocks fits its wait. *)
Definition wait_context (C : gmap Z (list FRAME)) (s : SCHED W) (t : Z) (disp : option OBJ) (k : list FRAME) : Prop :=
  (plain k /\ forall x, disp <> Some (Completion x)) \/
  (exists g x th, k = [InWait g; InJoin x] /\ disp = Some (Completion x) /\
     threads s !! x = Some th /\ x <> t /\ x <> gIdleThread s /\ unjoined C x /\
     TerminationMode th = KTHREAD_TERMINATION_MODE_JOINABLE /\
     TerminationClaimState th = CLAIM_JOIN_IN_PROGRESS).

Lemma block_sinv C k kp st t disp dl th Q' s :
  sinv (<[t := kp]> C) s -> plain kp -> t = gCurrentThread s -> t <> gIdleThread s ->
  threads s !! t = Some th -> State th = KTHREAD_STATE_RUNNING ->
  timed (threads s) (gTimeoutQueue s) Q' t dl ->
  (forall o, disp = Some o -> exists d, objects s !! o = Some d /\ SignalState d = 0 /\ OwnerThread d <> t) ->
  (disp = None -> dl <> 0) ->
  frames_irql k st -> IrqlStates (Cpu s) !! t = Some st -> k <> [InExitAfterSchedule] ->
  wait_context (<[t := kp]> C) s t disp k ->
  sinv (<[t := k]> C) (blocked_state t disp dl th Q' s).
Proof.
  intros [Hq Ho Hown Hcp Hcx (J1 & J2 & J3) Hi Hr Hst Hrt] Hkp Ecur Hni Et Hs Hti Hdisp Hdl Hk HI Hke Hctx.
  assert (HS : statics (threads s) (<[t := blocked_thread disp dl th]> (threads s))).
  { apply (statics_insert _ _ th); [done|]. split; try done. simpl. by rewrite Hs. }
  pose proof (enlist_relisted t disp (objects s)) as HO.
  assert (Hold : forall j x, j <> t -> joins (<[t := k]> C) j x -> joins (<[t := kp]> C) j x).
  { intros j x Hj [g Hg]. exists g. rewrite lookup_insert_ne in * by congruence. done. }
  assert (Hnokp : forall x, ~ joins (<[t := kp]> C) t x).
  { intros x [g Hg]. rewrite lookup_insert_eq in Hg. injection Hg as Hg. by eapply (proj1 (proj2 Hkp)). }
  assert (Hold' : forall j x, finalizes (<[t := k]> C) j x -> finalizes (<[t := kp]> C) j x).
  { intros j x (g & n & Hg). destruct (decide (j = t)) as [->|Hne]; [|exists g, n; by rewrite lookup_insert_ne in * by congruence].
    rewrite lookup_insert_eq in Hg. injection Hg as Ek0. subst k.
    destruct Hctx as [[(_ & _ & Hpl) _]|(g' & x' & thx & Ek & _)]; [by edestruct Hpl | done]. }
  split; simpl.
  - apply block_queues; try done. intros o Hd. destruct (Hdisp o Hd) as (d & -> & _). by eexists.
  - intros o d Hd. rewrite enlist_lookup in Hd. destruct (decide (disp = Some o)) as [E|_]; [|by eapply Ho].
    destruct (Hdisp o E) as (d0 & Hd0 & H1 & H2). rewrite Hd0 in Hd. simpl in Hd. injection Hd as <-.
    pose proof (map_Forall_lookup_1 _ _ _ _ Ho Hd0) as [Hsig Hty]. split; [done|]. simpl.
    destruct Hty as [(?&?&?)|[(?&?&H3&H4&?)|(?&[(?&?&?)|(?&?&Hnw)])]].
    + left. by split_and!.
    + right; left. split_and!; first [done | apply H3 | apply H4].
    + congruence.
    + right; right. split; [done|]. right. split_and!; try done.
      rewrite elem_of_app, list_elem_of_singleton. intros [?|?]; [done | congruence].
  - eapply owners_keep; [exact HS | by eapply counts_insert | done | done].
  - by eapply completions_keep.
  - intros x thx Hx. destruct (decide (x = t)) as [->|Hne].
    + rewrite lookup_insert_eq in Hx. injection Hx as <-. exists k, st. rewrite lookup_insert_eq.
      by split_and!.
    + rewrite lookup_insert_ne in Hx by congruence. destruct (Hcx x thx Hx) as (kx & stx & H1 & H2).
      exists kx, stx. rewrite lookup_insert_ne in * by congruence. done.
  - split_and!.
    + intros j x Hj. destruct (decide (j = t)) as [->|Hne].
      * destruct Hj as [g Hg]. rewrite lookup_insert_eq in Hg. injection Hg as Hg.
        destruct Hctx as [[(_ & Hpl & _) _]|(g' & x' & thx & Ek & Ed & Ex & Hxt & Hxi & Hun & Hm & Hc)].
        { by apply Hpl in Hg. }
        rewrite Hg in Ek. injection Ek as -> <-.
        exists (blocked_thread disp dl th), thx. rewrite lookup_insert_eq, lookup_insert_ne by congruence.
        split_and!; try done.
      * destruct (J1 j x (Hold j x Hne Hj)) as (thj & thx & Ej & Ex & Hnx & Hxi & Hm & Hc & Hw1 & Hw2).
        destruct (statics_fwd _ _ _ _ HS Ex) as (thx' & Ex' & Hss).
        exists thj, thx'. rewrite lookup_insert_ne by congruence.
        rewrite (ss_mode _ _ Hss), (ss_claim _ _ Hss). split_and!; try done. split; [done|].
        intros Hs1 Hs2. destruct (Hw2 Hs1 Hs2).
        split; [by eapply statics_terminated | by eapply relisted_published].
    + assert (Huniq : forall i j x, i = t -> joins (<[t := k]> C) i x -> joins (<[t := k]> C) j x -> i = j).
      { intros i j x -> [g Hg] Hj. destruct (decide (j = t)) as [->|Hne]; [done|].
        rewrite lookup_insert_eq in Hg. injection Hg as Hg.
        destruct Hctx as [[(_ & Hpl & _) _]|(g' & x' & thx & Ek & _ & _ & _ & _ & Hun & _)]; [by apply Hpl in Hg|].
        rewrite Hg in Ek. injection Ek as _ <-. exfalso. by eapply Hun, Hold. }
      intros i j x Hi' Hj. destruct (decide (i = t)) as [Ei|Hne]; [by eapply Huniq|].
      destruct (decide (j = t)) as [Ej|Hne']; [symmetry; by eapply Huniq|].
      eapply J2; by apply Hold.
    + intros w x Hw. destruct (decide (w = t)) as [->|Hne].
      * rewrite kview_self in Hw. assert (Ed : disp = Some (Completion x)) by exact Hw.
        destruct Hctx as [[_ Hnc]|(g & x' & thx & Ek & Ed' & _)]; [by apply Hnc in Ed|].
        exists g. rewrite lookup_insert_eq, Ek. congruence.
      * rewrite kview_other in Hw by done. destruct (J3 w x Hw) as [g Hg]. exists g.
        rewrite lookup_insert_ne in * by congruence. done.
  - destruct Hi as (thi & Ei & Hki). exists thi. by rewrite lookup_insert_ne by congruence.
  - intros x thx Hx Hrun. apply lookup_insert_Some in Hx as [[<- <-]|[_ Hx]]; [done | by eapply Hr].
  - eapply stacks_keep; [exact HS | reflexivity | done].
  - eapply (runtime_keep (threads s) _ (objects s)); [| by apply relisted_typed | reflexivity | exact Hold' | intros x; apply Hold; congruence | exact Hrt].
    intros x Hc _. by eapply statics_condemned.
Qed.

End returns.
End SchedSafe.
