(* ===== verification/SchedCalls.v ===== *)
(** * Every kernel call of the scheduler preserves the system invariant

    For each entry point: from a [boundary] state, under the caller's contract,
    the call succeeds (no assertion fires, no ring is corrupted, no dangling
    thread is touched) and ends either at a boundary or at a context switch. *)

From S2P Require Import Prelude Irql Sched SchedInv SchedSafe.

Local Open Scope Z_scope.
Import Irql Sched SchedInv SchedSafe.

Module SchedCalls.
Section calls.
Context {W : Type} {SV : Services W} {SL : ServicesLaws W}.
Implicit Types (s : SCHED W).

(** How a kernel call may end. *)
Definition settled {A} (r : outcome W A) : Prop :=
  match r with Done _ s => boundary s | Switched s => switched s end.

(** The current thread may be switched away from. *)
Definition may_switch s : Prop :=
  forall th, threads s !! gCurrentThread s = Some th -> State th = KTHREAD_STATE_RUNNING ->
    gCurrentThread s = gIdleThread s.

Lemma DISPATCH1_raised : DISPATCH1 <> PASSIVE0.
Proof. done. Qed.

Lemma schedule_release_run b f v s :
  inside [f] DISPATCH1 s -> may_switch s ->
  exists r, schedule_then_release (held b) f [] v s = Ok r /\ settled r.
Proof.
  intros Hin Hm. unfold schedule_then_release, and_then.
  destruct (KiSchedule_run [f] DISPATCH1 s Hin DISPATCH1_raised Hm)
    as (next & R & _ & [(_ & s' & -> & Hin' & Hrun & _)|(_ & s' & -> & Hsw & _)]); cbn [res_bind].
  - destruct (leave_call [f] b s' Hin' Hrun) as [-> Hb]. cbn [res_bind]. by eexists.
  - by eexists.
Qed.

Lemma blocking_allowed_run s : boundary s -> KiAssertBlockingAllowed s = Ok tt.
Proof.
  intros [(_ & Hk & Hcpu) _]. unfold KiAssertBlockingAllowed, KeIsBlockingAllowed.
  rewrite (current_level _ _ (cpu_at_ok _ _ _ Hk Hcpu)). done.
Qed.

(** Changing the frames a running call is accounted for under. *)
Lemma reframe k k' s : inside k DISPATCH1 s -> current_running s -> frames_irql k' DISPATCH1 -> returnable s k' ->
  inside k' DISPATCH1 s.
Proof.
  intros Hin Hrun Hk' Hp. pose proof Hin as (_ & _ & E & H0 & Hcs & Hst & Hif).
  destruct (running_states s Hrun) as (th & Et & _ & Hnb & Hnt).
  replace s with (set_Cpu (Cpu s) s) by (by destruct s).
  eapply (recontext_inside k); eauto. by rewrite insert_id.
Qed.

(** *** [KeThreadStart] *)

Lemma thread_start_run t s :
  boundary s -> is_Some (threads s !! t) ->
  exists v s', KeThreadStart t s = Ok (v, s') /\ boundary s'.
Proof.
  intros Hb [th Et]. pose proof Hb as [(Hinv & Hk & Hcpu) Hrun]. unfold KeThreadStart.
  destruct (s_queues _ _ Hinv) as [Hth _ _ _ _]. destruct (thread_at _ _ _ Hth Et) as [_ H0].
  rewrite (proj2 (Z.eqb_neq t 0)) by done. unfold get_thread. rewrite Et. cbn [res_bind].
  destruct (decide (State th = KTHREAD_STATE_NEW)) as [Hs|Hs].
  2: { rewrite bool_decide_eq_false_2 by done. by do 2 eexists. }
  rewrite bool_decide_eq_true_2 by done. cbn [negb].
  enter_cs cs Hk Hcpu Hleave.
  destruct (readied_sinv _ t th s Hinv Et (or_introl Hs)) as [_ Hinv1].
  assert (Emr : make_ready t (set_Cpu c s) = Ok (readied t th (set_Cpu c s))).
  { destruct (s_queues _ _ Hinv) as [_ Hr _ _ HD]. apply make_ready_run; try done.
    - by destruct (thread_at _ _ _ Hth Et) as [[? _] _].
    - congruence.
    - eapply blocked_not_term; [exact HD | exact Et | congruence]. }
  rewrite Emr. cbn [res_bind].
  set (s1 := count_started (readied t th s)).
  change (count_started (readied t th (set_Cpu c s))) with (set_Cpu c s1).
  set (s2 := if (gCurrentThread s1 =? gIdleThread s1) && (gNextProgrammedDeadlineNs s1 =? 0)
             then KiArmClockEvent (MinDeltaNs (Svc s1)) s1 else s1).
  assert (Es2 : (if (gCurrentThread (set_Cpu c s1) =? gIdleThread (set_Cpu c s1)) &&
                    (gNextProgrammedDeadlineNs (set_Cpu c s1) =? 0)
                 then KiArmClockEvent (MinDeltaNs (Svc (set_Cpu c s1))) (set_Cpu c s1)
                 else set_Cpu c s1) = set_Cpu c s2).
  { unfold s2. simpl. destruct (_ && _); [|done]. unfold KiArmClockEvent. simpl.
    destruct (MinDeltaNs (Svc s) =? 0); [done|]. by destruct (SetNextEvent _ (Svc s)). }
  rewrite Es2. clear Es2.
  assert (Hs2 : soft (readied t th s) s2).
  { eapply soft_trans with s1; [apply soft_same; done || apply as_good_refl|].
    unfold s2. destruct (_ && _); [|apply soft_refl]. apply arm_clock_soft. apply Hinv1. }
  leave_cs Hleave (set_Cpu c s2).
  destruct (so_rest _ _ Hs2) as (_ & Ec & _ & Ecpu & EC & _). simpl in Ec, Ecpu, EC.
  do 2 eexists. split; [done|]. rewrite <- Ecpu.
  replace (set_Cpu (Cpu s2) (set_Cpu c s2)) with s2 by (by destruct s2).
  split; [split_and!|].
  - rewrite Ec, EC. by eapply sinv_soft.
  - done.
  - unfold cpu_at. by rewrite Ec, Ecpu.
  - destruct Hrun as (thc & Etc & Hsc).
    assert (Hne : t <> gCurrentThread s) by (intros ->; congruence).
    destruct (requantumed_fwd _ _ (gCurrentThread s) thc (so_threads _ _ Hs2)) as [q Eq].
    { simpl. by rewrite lookup_insert_ne by congruence. }
    eexists. by rewrite Ec.
Qed.

(** *** [KeYield] *)

Lemma yield_run s : boundary s -> exists r, KeYield [] s = Ok r /\ settled r.
Proof.
  intros Hb. unfold KeYield. rewrite blocking_allowed_run by done. cbn [res_bind].
  destruct (enter_call s Hb) as (b & -> & _ & Hin & Hrun). cbn [res_bind]. set (s1 := set_Cpu _ s) in *.
  pose proof Hin as (Hinv & Hk & Hcpu). enter_cs cs Hk Hcpu Hleave.
  change (count_yield (set_Cpu c s1)) with (set_Cpu c (count_yield s1)).
  set (s2 := count_yield s1).
  assert (Hs2 : soft s1 s2) by (apply soft_same; done || apply as_good_refl).
  assert (Hinv2 : sinv (<[gCurrentThread s2 := calling b]> (SavedContext s2)) s2) by (by eapply sinv_soft).
  assert (Hin2 : inside (calling b) DISPATCH1 s2) by (by split_and!).
  destruct (KiHasAnyReadyThread (set_Cpu c s2)); cbn [negb].
  - destruct Hrun as (th & Et & Hs).
    destruct (readied_sinv _ (gCurrentThread s2) th s2 Hinv2 Et (or_intror Hs)) as [_ Hinv3].
    assert (Emr : make_ready (gCurrentThread (set_Cpu c s2)) (set_Cpu c s2) =
                  Ok (readied (gCurrentThread s2) th (set_Cpu c s2))).
    { destruct (s_queues _ _ Hinv2) as [Hth Hr _ _ HD]. destruct (thread_at _ _ _ Hth Et) as [[? _] ?].
      apply make_ready_run; try done; [simpl; congruence|].
      eapply blocked_not_term; [exact HD | exact Et | congruence]. }
    rewrite Emr. cbn [res_bind]. leave_cs Hleave (readied (gCurrentThread s2) th (set_Cpu c s2)).
    change (set_Cpu (Cpu s1) (readied (gCurrentThread s2) th (set_Cpu c s2)))
      with (readied (gCurrentThread s2) th s2).
    apply schedule_release_run.
    + split_and!; done.
    + intros th' Et' Hs'. simpl in Et'. rewrite lookup_insert_eq in Et'. injection Et' as <-. done.
  - leave_cs Hleave (set_Cpu c s2). change (set_Cpu (Cpu s1) (set_Cpu c s2)) with s2.
    destruct (leave_call (calling b) b s2 Hin2) as [-> Hb2]; [done|]. cbn [res_bind]. by eexists.
Qed.

(** *** [KeSleep] *)

Lemma init_wait_block_run t th s :
  queues_ok s -> threads s !! t = Some th -> State th = KTHREAD_STATE_RUNNING ->
  KiInitWaitBlock t s = Ok (put_thread t (set_WaitBlock (mkWaitBlock None 0 EC_SUCCESS false) th) s).
Proof.
  intros [_ _ (_ & Hi & _) [Hw _] _] Et Hs. destruct (running_keys th Hs) as (_ & K2 & K3).
  unfold KiInitWaitBlock. rewrite (bool_decide_eq_false_2 (map_Exists _ _)).
  2: { intros (o & d & Ho & Hin). apply (lists_by_none _ _ o (WaitList d) t Hw) in Hin; [done | | ].
       - simpl. by rewrite Ho.
       - by rewrite (kview_at wkey _ _ th). }
  rewrite bool_decide_eq_false_2.
  2: { rewrite Hi, (kview_at tkey _ _ th), K2 by done. by intros [? ?]. }
  cbn [orb]. unfold upd_thread, get_thread. by rewrite Et.
Qed.

Lemma KiNowNs_cpu c s : KiNowNs (set_Cpu c s) = (now_of (Svc s), set_Cpu c (snd (KiNowNs s))).
Proof. unfold KiNowNs, now_of. simpl. by destruct (SystemUpRealTime (Svc s)). Qed.

Lemma KiNowNs_soft s : svc_ok (Svc s) -> soft s (snd (KiNowNs s)) /\ threads (snd (KiNowNs s)) = threads s.
Proof.
  intros Hw. destruct (KiNowNs_run s Hw) as (s' & E & Hs & ->). rewrite E. done.
Qed.

(** The queue insertion of a thread whose block has just got its deadline. *)
Lemma insert_timeout_run t th0 th s :
  queues_ok s -> threads s !! t = Some th0 -> State th0 = KTHREAD_STATE_RUNNING ->
  DeadlineNs (WaitBlock th) <> 0 ->
  exists Q', KiInsertTimeoutQueue t (put_thread t th s) = Ok (set_TimeoutQueue Q' (put_thread t th s)) /\
    timed (threads s) (gTimeoutQueue s) Q' t (DeadlineNs (WaitBlock th)).
Proof.
  intros [_ _ Hq _ _] Et Hs Hd. destruct (running_keys th0 Hs) as (_ & K2 & _).
  destruct (KiInsertTimeoutQueue_run t th (put_thread t th s) (threads s)) as (l1 & l2 & E & E' & H1 & H2);
    [done | by rewrite (kview_at tkey _ _ th0) | done |].
  exists (l1 ++ t :: l2). split; [exact E'|]. right. split; [done|]. by exists l1, l2.
Qed.

(** The contract of a timed call: the deadline does not wrap around. *)
Definition deadline_fits s (d : Z) : Prop := 0 < d /\ now_of (Svc s) + d < 2 ^ 64.

Lemma now_of_u64 w : 0 <= now_of w < 2 ^ 64.
Proof. apply (u64_range _). Qed.

Lemma sleep_run d s : boundary s -> (d <> 0 -> gCurrentThread s <> gIdleThread s /\ deadline_fits s d) ->
  exists r, KeSleep d [] s = Ok r /\ settled r.
Proof.
  intros Hb Hd. unfold KeSleep. rewrite blocking_allowed_run by done. cbn [res_bind].
  destruct (Z.eqb_spec d 0) as [->|Hd0]; [by apply yield_run|].
  destruct (Hd Hd0) as (Hni & Hpos & Hfit). clear Hd. rewrite (proj2 (Z.eqb_neq _ _) Hni).
  cbn [negb HO_KASSERT res_bind].
  destruct (enter_call s Hb) as (b & -> & _ & Hin & Hrun). cbn [res_bind]. set (s1 := set_Cpu _ s) in *.
  pose proof Hin as (Hinv & Hk & Hcpu). enter_cs cs Hk Hcpu Hleave. rewrite KiNowNs_cpu.
  destruct (KiNowNs_soft s1) as [Hs2 ET]; [apply Hinv|]. set (s2 := snd (KiNowNs s1)) in *.
  destruct (so_rest _ _ Hs2) as (_ & Ec & Ei & Ecpu & EC & _).
  assert (Hinv2 : sinv (<[gCurrentThread s2 := calling b]> (SavedContext s2)) s2)
    by (rewrite Ec, EC; by eapply sinv_soft).
  destruct Hrun as (th & Et & Hs). rewrite <- ET, <- Ec in Et.
  set (t := gCurrentThread s2) in *. pose proof (s_queues _ _ Hinv2) as Hq2.
  change (gCurrentThread (set_Cpu c s2)) with t.
  rewrite (init_wait_block_run t th (set_Cpu c s2)) by done. cbn [res_bind].
  change (now_of (Svc s1)) with (now_of (Svc s)). pose proof (now_of_u64 (Svc s)).
  rewrite (u64_small (now_of (Svc s) + d)) by word_lia. set (dl := now_of (Svc s) + d).
  unfold upd_thread, get_thread. simpl (gCurrentThread _). fold t. simpl (threads _).
  rewrite lookup_insert_eq. cbn [res_bind].
  match goal with |- context [KiInsertTimeoutQueue ?a ?x] => change a with t;
    replace x with (put_thread t (blocked_thread None dl th) (set_Cpu c s2))
  end.
  2: { unfold put_thread. simpl. by rewrite insert_insert_eq. }
  destruct (insert_timeout_run t th (blocked_thread None dl th) (set_Cpu c s2)) as (Q' & -> & Hti);
    [done | done | done | simpl; lia |]. cbn [res_bind].
  leave_cs Hleave (set_TimeoutQueue Q' (put_thread t (blocked_thread None dl th) (set_Cpu c s2))).
  change (set_Cpu (Cpu s1) (set_TimeoutQueue Q' (put_thread t (blocked_thread None dl th) (set_Cpu c s2))))
    with (set_Cpu (Cpu s1) (blocked_state t None dl th Q' s2)).
  rewrite <- Ecpu. change (set_Cpu (Cpu s2) (blocked_state t None dl th Q' s2)) with (blocked_state t None dl th Q' s2).
  apply schedule_release_run.
  - split_and!; [|constructor|].
    + change (gCurrentThread (blocked_state t None dl th Q' s2)) with t.
      change (SavedContext (blocked_state t None dl th Q' s2)) with (SavedContext s2).
      eapply (block_sinv _ [InSleep (held b)] (calling b) DISPATCH1); try done.
      * by rewrite Ei, Ec.
      * intros _. lia.
      * constructor.
      * rewrite Ecpu, Ec. apply Hcpu.
      * by left.
    + unfold cpu_at. simpl. fold t. rewrite Ecpu, Ec. exact Hcpu.
  - intros th' Et' Hs'. simpl in Et'. fold t in Et'. rewrite lookup_insert_eq in Et'. by injection Et' as <-.
Qed.

(** *** [KeWaitForSingleObject] *)

Definition wait_timeout_ok s (timeoutNs : Z) : Prop :=
  timeoutNs = 0 \/ timeoutNs = KE_WAIT_INFINITE \/ deadline_fits s timeoutNs.

Lemma block_on_run o timeoutNs th d s :
  queues_ok s -> svc_ok (Svc s) -> threads s !! gCurrentThread s = Some th ->
  State th = KTHREAD_STATE_RUNNING -> objects s !! o = Some d ->
  timeoutNs <> 0 -> wait_timeout_ok s timeoutNs ->
  exists dl Q' s', block_on o timeoutNs s = Ok (blocked_state (gCurrentThread s) (Some o) dl th Q' s') /\
    soft s s' /\ threads s' = threads s /\ timed (threads s) (gTimeoutQueue s) Q' (gCurrentThread s) dl /\
    (timeoutNs = KE_WAIT_INFINITE -> dl = 0 /\ s' = s) /\
    (timeoutNs <> KE_WAIT_INFINITE -> dl = now_of (Svc s) + timeoutNs /\ s' = snd (KiNowNs s)).
Proof.
  intros Hq Hw Et Hs Ho Ht0 Hto. set (t := gCurrentThread s) in *. unfold block_on. fold t.
  rewrite (init_wait_block_run t th) by done. cbn [res_bind]. unfold upd_thread, get_thread. simpl (threads _).
  rewrite lookup_insert_eq. cbn [res_bind]. unfold get_object. simpl (objects _). rewrite Ho. cbn [res_bind].
  set (wb := mkWaitBlock (Some o) 0 EC_SUCCESS false).
  match goal with |- context [put_object o _ ?x] => set (s1 := x) end.
  assert (Es1 : s1 = put_thread t (set_WaitBlock wb th) s).
  { unfold s1, put_thread. simpl. by rewrite insert_insert_eq. }
  rewrite Es1. clear Es1 s1.
  set (O' := <[o := set_WaitList (WaitList d ++ [t]) d]> (objects s)).
  change (put_object o (set_WaitList (WaitList d ++ [t]) d) (put_thread t (set_WaitBlock wb th) s))
    with (set_objects O' (put_thread t (set_WaitBlock wb th) s)).
  assert (EO : O' = enlist t (Some o) (objects s)) by (unfold enlist; by rewrite (alter_at _ _ o d)).
  destruct (Z.eqb_spec timeoutNs KE_WAIT_INFINITE) as [Hinf|Hninf]; cbn [res_bind].
  - simpl (threads _). rewrite lookup_insert_eq. cbn [res_bind]. exists 0, (gTimeoutQueue s), s.
    split_and!; try done; [|apply soft_refl | by left].
    unfold blocked_state, put_thread, blocked_thread. simpl. rewrite insert_insert_eq, EO. done.
  - destruct Hto as [|[|[Hpos Hfit]]]; [done | done |].
    destruct (KiNowNs_soft s Hw) as [Hs' ET].
    set (s2 := set_objects O' (put_thread t (set_WaitBlock wb th) s)).
    assert (E2 : KiNowNs s2 = (now_of (Svc s), set_objects O' (put_thread t (set_WaitBlock wb th) (snd (KiNowNs s))))).
    { unfold KiNowNs, now_of. simpl. by destruct (SystemUpRealTime (Svc s)). }
    rewrite E2. clear E2 s2. simpl (threads _). rewrite ?ET, lookup_insert_eq. cbn [res_bind].
    pose proof (now_of_u64 (Svc s)). rewrite (u64_small (now_of (Svc s) + timeoutNs)) by word_lia.
    set (dl := now_of (Svc s) + timeoutNs). set (s' := snd (KiNowNs s)) in *.
    set (th1 := set_WaitBlock (mkWaitBlock (Some o) dl EC_SUCCESS false) th).
    match goal with |- context [KiInsertTimeoutQueue t ?x] =>
      replace x with (set_objects O' (put_thread t th1 s')) by
        (unfold put_thread, th1; simpl; by rewrite insert_insert_eq)
    end.
    destruct (KiInsertTimeoutQueue_run t th1 (set_objects O' (put_thread t th1 s')) (threads s'))
      as (l1 & l2 & EQ & EQ' & H1 & H2).
    { rewrite ET. simpl (gTimeoutQueue _). rewrite (so_timeout _ _ Hs') . by destruct Hq. }
    { rewrite ET, (kview_at tkey _ _ th) by done. apply (running_keys th Hs). }
    { done. }
    rewrite EQ'. cbn [res_bind]. simpl (threads _). rewrite lookup_insert_eq. cbn [res_bind].
    exists dl, (l1 ++ t :: l2), s'. split_and!; try done.
    + unfold blocked_state. rewrite (so_objects _ _ Hs'), <- EO.
      unfold put_thread, blocked_thread, th1. simpl. by rewrite insert_insert_eq.
    + right. split; [lia|]. exists l1, l2. rewrite ET in H1, H2.
      split_and!; try done. rewrite <- EQ. symmetry. exact (so_timeout _ _ Hs').
Qed.

(** ** Changing one object *)

Lemma object_weak C o d d' s :
  sinv_weak C s -> objects s !! o = Some d ->
  DType d' = DType d -> OwnerThread d' = OwnerThread d -> WaitList d' = WaitList d ->
  (forall t, o = Completion t -> SignalState d <> 0 -> SignalState d' <> 0) ->
  (forall t, o = Completion t -> SignalState d' <> 0 -> terminated (threads s) t) ->
  sinv_weak C (put_object o d' s).
Proof.
  intros [[Hth Hr Hq [Hw Hws] HD] [Hown Hcnt] Hcp Hcx (J1 & J2 & J3) Hi Hru Hst Hrt] Eo Hty How Hwl Hp1 Hp2.
  assert (Hpub : forall t, published (objects s) t -> published (<[o := d']> (objects s)) t).
  { intros t (dt & Hdt & Hs). destruct (decide (o = Completion t)) as [->|Hne].
    - exists d'. rewrite lookup_insert_eq. split; [done|]. apply (Hp1 t eq_refl). congruence.
    - exists dt. by rewrite lookup_insert_ne. }
  assert (Hwl' : forall x, WaitList <$> <[o := d']> (objects s) !! x = WaitList <$> objects s !! x).
  { intros x. destruct (decide (x = o)) as [->|Hne].
    - rewrite lookup_insert_eq, Eo. simpl. by rewrite Hwl.
    - by rewrite lookup_insert_ne by congruence. }
  split; simpl; try done.
  - split; simpl; try done.
    + split; [by eapply lists_by_ext|]. intros t x Hx. destruct (Hws t x Hx) as [dx Hdx].
      destruct (decide (x = o)) as [->|Hne]; [rewrite lookup_insert_eq | rewrite lookup_insert_ne by congruence]; eauto.
    + eapply term_keep; [exact HD | done | by intros; apply Hpub].
  - split.
    + intros x dx [[<- <-]|[Hne Hx]]%lookup_insert_Some Hn; [rewrite How in *; by eapply Hown | by eapply Hown].
    + intros t th Et. rewrite (Hcnt t th Et). symmetry. apply owned_ext. intros x.
      destruct (decide (x = o)) as [->|Hne].
      * rewrite lookup_insert_eq, Eo. simpl. by rewrite How.
      * by rewrite lookup_insert_ne by congruence.
  - intros t. destruct (Hcp t) as [H1 H2]. destruct (decide (o = Completion t)) as [->|Hne].
    + rewrite lookup_insert_eq. split; [rewrite <- H1, Eo; split; eauto|].
      intros dx [= <-]. rewrite Hty. split; [by apply (H2 d)|]. by apply Hp2.
    + rewrite lookup_insert_ne by congruence. done.
  - split_and!; [|done|done]. intros j t Hj.
    destruct (J1 j t Hj) as (thj & th & Ej & Et & ? & ? & ? & ? & Hw1 & Hw2).
    exists thj, th. split_and!; try done. split; [done|]. intros Hs1 Hs2. destruct (Hw2 Hs1 Hs2). by auto.
  - eapply runtime_statics; [apply requantumed_statics, requantumed_refl | by eapply typed_insert | reflexivity | done].
Qed.

Lemma object_sinv C o d d' s :
  sinv C s -> objects s !! o = Some d -> obj_ok d' ->
  DType d' = DType d -> OwnerThread d' = OwnerThread d -> WaitList d' = WaitList d ->
  (forall t, o = Completion t -> SignalState d <> 0 -> SignalState d' <> 0) ->
  (forall t, o = Completion t -> SignalState d' <> 0 -> terminated (threads s) t) ->
  sinv C (put_object o d' s).
Proof.
  intros Hinv Eo Hok Hty How Hwl H1 H2. apply sinv_strengthen.
  - by apply (object_weak C o d); [apply sinv_weaken|..].
  - apply map_Forall_insert_2; [done | apply Hinv].
Qed.

Lemma owned_add O o d x : O !! o = None ->
  owned (<[o := d]> O) x = owned O x + (if decide (OwnerThread d = x) then 1 else 0).
Proof.
  intros Ho. unfold owned. destruct (decide (OwnerThread d = x)) as [Hx|Hx].
  - rewrite map_filter_insert_True by done. rewrite map_size_insert_None; [lia|].
    apply map_lookup_filter_None. by left.
  - rewrite map_filter_insert_not' by (simpl; intros; congruence). lia.
Qed.

Lemma owned_change O o d d' x : O !! o = Some d ->
  owned (<[o := d']> O) x = owned O x - (if decide (OwnerThread d = x) then 1 else 0)
                            + (if decide (OwnerThread d' = x) then 1 else 0).
Proof.
  intros Ho. rewrite <- (insert_delete_eq O), owned_add by apply lookup_delete_eq.
  rewrite <- (insert_delete_id O o d Ho) at 2. rewrite owned_add by apply lookup_delete_eq. lia.
Qed.

(** A mutex changes hands: the owners' counts are recomputed. *)
Definition recount (T : gmap Z KTHREAD) (O : gmap OBJ DISPATCHER) (T' : gmap Z KTHREAD) : Prop :=
  forall x, T' !! x = set_OwnedMutexCount (owned O x) <$> T !! x.

Lemma recount_kview {K} (f : KTHREAD -> option K) T O T' y :
  (forall n th, f (set_OwnedMutexCount n th) = f th) -> recount T O T' -> kview f T' y = kview f T y.
Proof. intros Hf H. unfold kview. rewrite H. destruct (T !! y); [apply Hf | done]. Qed.

Lemma recount_statics T O T' : recount T O T' -> statics T T'.
Proof. intros H t. rewrite H. destruct (T !! t); [by split | done]. Qed.

Lemma recount_bwd T O T' x th' : recount T O T' -> T' !! x = Some th' ->
  exists th, T !! x = Some th /\ th' = set_OwnedMutexCount (owned O x) th.
Proof. intros H Hx. rewrite H in Hx. destruct (T !! x) as [th|]; [|done]. exists th. by injection Hx as <-. Qed.

Lemma owner_weak C o d d' T' s :
  sinv_weak C s -> objects s !! o = Some d -> DType d = DISPATCHER_TYPE_MUTEX ->
  DType d' = DISPATCHER_TYPE_MUTEX -> WaitList d' = WaitList d ->
  (OwnerThread d' <> 0 -> exists th, threads s !! OwnerThread d' = Some th /\
     State th <> KTHREAD_STATE_TERMINATED) ->
  recount (threads s) (<[o := d']> (objects s)) T' ->
  sinv_weak C (set_objects (<[o := d']> (objects s)) (set_threads T' s)).
Proof.
  intros [[[H0 Hth] [Hrl Hr] Hq [Hw Hws] [HDn HD]] [Hown Hcnt] Hcp Hcx Hj Hi Hru Hst Hrt] Eo Hty Hty' Hwl Hol Hre.
  set (O' := <[o := d']> (objects s)) in *.
  pose proof (recount_statics _ _ _ Hre) as HS.
  assert (Hk : forall K (f : KTHREAD -> option K), (forall n th, f (set_OwnedMutexCount n th) = f th) ->
    forall y, kview f T' y = kview f (threads s) y) by (intros; by eapply recount_kview).
  assert (Hnc : forall t, o <> Completion t).
  { intros t ->. destruct (Hcp t) as [_ Hc]. destruct (Hc d Eo) as [E _]. rewrite Hty in E. discriminate E. }
  assert (Hoc : forall t, O' !! Completion t = objects s !! Completion t) by (intros t; by apply lookup_insert_ne).
  assert (Hpub : forall t, published (objects s) t -> published O' t).
  { intros t (dt & Hdt & Hs). exists dt. by rewrite Hoc. }
  assert (Hwl' : forall x, WaitList <$> O' !! x = WaitList <$> objects s !! x).
  { intros x. destruct (decide (x = o)) as [->|Hne].
    - unfold O'. rewrite lookup_insert_eq, Eo. simpl. by rewrite Hwl.
    - unfold O'. by rewrite lookup_insert_ne by congruence. }
  split; simpl; try done.
  - split; simpl.
    + split; [by rewrite Hre, H0|]. intros x th' Hx. destruct (recount_bwd _ _ _ _ _ Hre Hx) as (th & Et & ->).
      exact (map_Forall_lookup_1 _ _ _ _ Hth Et).
    + split; [done|]. eapply lists_by_ext; [exact Hr | by apply Hk | done].
    + eapply timeout_ext; [by apply Hk | done].
    + split; [eapply lists_by_ext; [exact Hw | by apply Hk | done]|].
      intros t x. rewrite Hk by done. intros Hx. destruct (Hws t x Hx) as [dx Hdx].
      specialize (Hwl' x). rewrite Hdx in Hwl'. destruct (O' !! x); [by eexists | done].
    + split; [done|]. intros t Ht. destruct (HD t Ht) as (th & Et & ? & ? & ? & ?).
      eexists. rewrite Hre, Et. split_and!; [done | done | done | done | by apply Hpub].
  - split.
    + intros x dx Hx Hn.
      assert (Hex : exists th, threads s !! OwnerThread dx = Some th /\ State th <> KTHREAD_STATE_TERMINATED).
      { apply lookup_insert_Some in Hx as [[<- <-]|[_ Hx]]; [by apply Hol | by eapply Hown]. }
      destruct Hex as (th & Et & Hs). destruct (statics_fwd _ _ _ _ HS Et) as (th' & Et' & Hss).
      exists th'. split; [done|]. by rewrite (ss_term _ _ Hss).
    + intros t th' Et. by destruct (recount_bwd _ _ _ _ _ Hre Et) as (th & _ & ->).
  - intros t. destruct (Hcp t) as [H1 H2]. rewrite Hoc. split; [by rewrite (statics_is_some (threads s) T')|].
    intros dt Hdt. destruct (H2 dt Hdt) as [Hdty Hp]. split; [done|]. intros Hs.
    apply (statics_terminated _ _ _ HS). by apply Hp.
  - by eapply contexts_keep.
  - destruct Hj as (J1 & J2 & J3). split_and!; [|done|].
    + intros j t Hjt. destruct (J1 j t Hjt) as (thj & th & Ej & Et & ? & ? & ? & ? & Hw1 & Hw2).
      eexists _, _. rewrite !Hre, Ej, Et. split_and!; try done. split; [done|].
      intros Hs1 Hs2. destruct (Hw2 Hs1 Hs2). split; [by eapply statics_terminated | by apply Hpub].
    + intros w t. rewrite Hk by done. apply J3.
  - destruct Hi as (th & Et & Hkv). eexists. by rewrite Hre, Et.
  - intros t th' Et Hs. destruct (recount_bwd _ _ _ _ _ Hre Et) as (th & Et' & ->). by eapply Hru.
  - eapply stacks_keep; [exact HS | reflexivity | done].
  - eapply runtime_statics; [exact HS | eapply typed_insert; [done | congruence] | reflexivity | done].
Qed.

Lemma owner_sinv C o d d' T' s :
  sinv C s -> objects s !! o = Some d -> DType d = DISPATCHER_TYPE_MUTEX ->
  obj_ok d' -> DType d' = DISPATCHER_TYPE_MUTEX -> WaitList d' = WaitList d ->
  (OwnerThread d' <> 0 -> exists th, threads s !! OwnerThread d' = Some th /\
     State th <> KTHREAD_STATE_TERMINATED) ->
  recount (threads s) (<[o := d']> (objects s)) T' ->
  sinv C (set_objects (<[o := d']> (objects s)) (set_threads T' s)).
Proof.
  intros Hinv Eo Hty Hok Hty' Hwl Hol Hre. apply sinv_strengthen.
  - apply (owner_weak C o d); try done. by apply sinv_weaken.
  - apply map_Forall_insert_2; [done | apply Hinv].
Qed.

Lemma owned_bound O t : 0 <= owned O t <= Z.of_nat (size O).
Proof.
  unfold owned. split; [lia|]. apply Nat2Z.inj_le, map_subseteq_size, map_filter_subseteq.
Qed.

(** The 32-bit ownership counts cannot overflow. *)
Definition few_objects s : Prop := Z.of_nat (size (objects s)) < 0xFFFFFFFF.

Lemma set_Owned_id th : set_OwnedMutexCount (OwnedMutexCount th) th = th.
Proof. by destruct th. Qed.

Lemma recount_id (T : gmap Z KTHREAD) O O' x th :
  (forall t th, T !! t = Some th -> OwnedMutexCount th = owned O t) ->
  T !! x = Some th -> owned O' x = owned O x -> set_OwnedMutexCount (owned O' x) th = th.
Proof. intros Hc Hx ->. rewrite <- (Hc x th Hx). apply set_Owned_id. Qed.

Lemma mutex_assert_free d : Signature d = KDISPATCHER_SIGNATURE -> DType d = DISPATCHER_TYPE_MUTEX ->
  SignalState d = 1 -> OwnerThread d = 0 -> KiAssertMutexState d = Ok tt.
Proof. intros H1 H2 H3 H4. unfold KiAssertMutexState. by rewrite H1, H2, H3, H4. Qed.
Lemma mutex_assert_owned d : Signature d = KDISPATCHER_SIGNATURE -> DType d = DISPATCHER_TYPE_MUTEX ->
  SignalState d = 0 -> OwnerThread d <> 0 -> KiAssertMutexState d = Ok tt.
Proof.
  intros H1 H2 H3 H4. unfold KiAssertMutexState. rewrite H1, H2, H3. simpl.
  by rewrite (proj2 (Z.eqb_neq _ 0)).
Qed.

Definition acquired_mutex (t : Z) (d : DISPATCHER) : DISPATCHER := set_SignalState 0 (set_Owner t d).
Definition owned_up (th : KTHREAD) : KTHREAD := set_OwnedMutexCount (OwnedMutexCount th + 1) th.
Definition owned_down (th : KTHREAD) : KTHREAD := set_OwnedMutexCount (OwnedMutexCount th - 1) th.

Lemma acquire_mutex_run C c o t th d s :
  sinv C s -> few_objects s -> objects s !! o = Some d -> DType d = DISPATCHER_TYPE_MUTEX ->
  SignalState d <> 0 -> threads s !! t = Some th -> State th <> KTHREAD_STATE_TERMINATED ->
  let s' := put_thread t (owned_up th) (put_object o (acquired_mutex t d) s) in
  KiAcquireMutexOwnership o t (set_Cpu c s) = Ok (set_Cpu c s') /\ sinv C s'.
Proof.
  intros Hinv Hfew Eo Hty Hss Et Hs s'.
  destruct (s_queues _ _ Hinv) as [Hth _ _ _ _]. destruct (thread_at _ _ _ Hth Et) as [_ H0].
  destruct (map_Forall_lookup_1 _ _ _ _ (s_objects _ _ Hinv) Eo) as [Hsig Hk].
  assert (Hfree : SignalState d = 1 /\ OwnerThread d = 0 /\ WaitList d = []).
  { destruct Hk as [(E & _)|[(E & _)|(_ & [?|(? & _)])]]; [rewrite Hty in E; discriminate E.. | done | congruence]. }
  destruct Hfree as (H1 & Ho & Hwl). pose proof (s_owners _ _ Hinv) as [_ Hcnt].
  pose proof (Hcnt t th Et) as Hn. pose proof (owned_bound (objects s) t) as Hb. unfold few_objects in Hfew.
  split.
  - unfold KiAcquireMutexOwnership. rewrite (proj2 (Z.eqb_neq t 0)) by done. cbn [negb HO_KASSERT res_bind].
    unfold get_object. simpl (objects _). rewrite Eo. cbn [res_bind].
    rewrite mutex_assert_free by done. cbn [res_bind]. rewrite H1, Ho. cbn [HO_KASSERT res_bind Z.eqb].
    unfold KiIncrementOwnedMutexCount. rewrite (proj2 (Z.eqb_neq t 0)) by done. cbn [negb HO_KASSERT res_bind].
    unfold get_thread. simpl (threads _). rewrite Et. cbn [res_bind].
    rewrite (proj2 (Z.eqb_neq _ 0xFFFFFFFF)) by lia. cbn [negb HO_KASSERT res_bind].
    rewrite (mutex_assert_owned (set_SignalState 0 (set_Owner t d))) by done. cbn [res_bind].
    rewrite u32_small by word_lia. done.
  - change (sinv C (set_objects (<[o := acquired_mutex t d]> (objects s))
                      (set_threads (<[t := owned_up th]> (threads s)) s))).
    eapply (owner_sinv C o d (acquired_mutex t d)); try done.
    + split; [done|]. right; right. split; [done|]. right. simpl. rewrite Hwl.
      split_and!; [done | done | apply not_elem_of_nil].
    + intros _. by exists th.
    + intros x. destruct (decide (x = t)) as [->|Hne].
      * rewrite lookup_insert_eq, Et. simpl. unfold owned_up. do 2 f_equal.
        rewrite (owned_change _ o d) by done. simpl. rewrite decide_False, decide_True by congruence. lia.
      * rewrite lookup_insert_ne by congruence. destruct (threads s !! x) as [thx|] eqn:Ex; [|done].
        simpl. f_equal. symmetry. eapply recount_id; [exact Hcnt | done |].
        assert (x <> 0) by (apply (thread_at _ x thx Hth Ex)).
        rewrite (owned_change _ o d) by done. simpl. rewrite !decide_False by congruence. lia.
Qed.

(** What an immediate acquisition did. *)
Inductive acquisition C (o : OBJ) (t : Z) (d : DISPATCHER) s : HO_STATUS -> bool -> SCHED W -> Prop :=
| acq_granted s' T' O' : sinv C s' -> s' = set_objects O' (set_threads T' s) ->
    (forall x, State <$> T' !! x = State <$> threads s !! x) ->
    (DType d = DISPATCHER_TYPE_EVENT -> s' = s /\ SignalState d <> 0) ->
    acquisition C o t d s EC_SUCCESS true s'
| acq_unavailable : SignalState d = 0 -> OwnerThread d <> t ->
    acquisition C o t d s EC_SUCCESS false s
| acq_recursive : acquisition C o t d s EC_INVALID_STATE false s.

Lemma try_acquire_run C c o t th d s :
  sinv C s -> few_objects s -> objects s !! o = Some d ->
  threads s !! t = Some th -> State th <> KTHREAD_STATE_TERMINATED ->
  exists st acq s', KiTryAcquireDispatcherObject o t (set_Cpu c s) = Ok (st, acq, set_Cpu c s') /\
    acquisition C o t d s st acq s'.
Proof.
  intros Hinv Hfew Eo Et Hs.
  destruct (s_queues _ _ Hinv) as [Hth _ _ _ _]. destruct (thread_at _ _ _ Hth Et) as [_ H0].
  destruct (map_Forall_lookup_1 _ _ _ _ (s_objects _ _ Hinv) Eo) as [Hsig Hk].
  assert (Hself : s = set_objects (objects s) (set_threads (threads s) s)) by (by destruct s).
  unfold KiTryAcquireDispatcherObject, get_object. simpl (objects _). rewrite Eo. cbn [res_bind].
  destruct Hk as [(Hty & How & Hwl)|[(Hty & How & Hl & Hss & Hwl)|(Hty & Hm)]]; rewrite Hty; cbn [Z.eqb].
  - exists EC_SUCCESS, (negb (SignalState d =? 0)), s. split; [done|].
    destruct (Z.eqb_spec (SignalState d) 0) as [E|E]; simpl.
    + apply acq_unavailable; congruence.
    + by eapply acq_granted.
  - assert (Ha : forall n, 0 <= n <= Limit d -> KiAssertSemaphoreState (set_SignalState n d) = Ok tt).
    { intros n Hn. unfold KiAssertSemaphoreState. simpl. rewrite Hsig, Hty.
      rewrite (proj2 (Z.ltb_lt 0 _)), (proj2 (Z.leb_le 0 n)), (proj2 (Z.leb_le n _)) by lia. done. }
    assert (Ha0 : KiAssertSemaphoreState d = Ok tt).
    { pose proof (Ha (SignalState d) Hss) as H. by destruct d. }
    rewrite Ha0. cbn [res_bind].
    destruct (Z.eqb_spec (SignalState d) 0) as [E|E].
    + exists EC_SUCCESS, false, s. split; [done|]. apply acq_unavailable; congruence.
    + simpl. rewrite (proj2 (Z.leb_le 0 _)) by lia. cbn [HO_KASSERT res_bind].
      set (d' := set_SignalState (SignalState d - 1) d).
      exists EC_SUCCESS, true, (put_object o d' s). split; [done|].
      assert (Hnc : forall x, o <> Completion x).
      { intros x ->. destruct (s_completions _ _ Hinv x) as [_ Hc]. destruct (Hc d Eo) as [E' _].
        rewrite Hty in E'. discriminate E'. }
      eapply (acq_granted _ _ _ _ _ _ (threads s) (<[o := d']> (objects s))); [|by destruct s | done | by rewrite Hty].
      eapply object_sinv; try done.
      * split; [done|]. right; left. split_and!; try done; simpl; try lia. intros _. by apply Hwl.
      * intros x Hx. by apply Hnc in Hx.
      * intros x Hx. by apply Hnc in Hx.
  - simpl. destruct (decide (SignalState d = 0)) as [E|E].
    + assert (How : OwnerThread d <> 0) by (destruct Hm as [(? & _)|(_ & ? & _)]; congruence).
      rewrite mutex_assert_owned by done. cbn [res_bind].
      destruct (Z.eqb_spec (OwnerThread d) t) as [Eq|Hne].
      * exists EC_INVALID_STATE, false, s. split; [done|]. constructor.
      * rewrite E. simpl. exists EC_SUCCESS, false, s. split; [done|]. by constructor.
    + assert (How : SignalState d = 1 /\ OwnerThread d = 0) by (destruct Hm as [(? & ? & _)|(? & _)]; [done | congruence]).
      destruct How as [H1 How].
      rewrite mutex_assert_free by done. cbn [res_bind]. rewrite How, (proj2 (Z.eqb_neq 0 t)) by congruence.
      rewrite H1. cbn [Z.eqb].
      destruct (acquire_mutex_run C c o t th d s) as [-> Hinv']; try done. cbn [res_bind].
      do 3 eexists. split; [done|].
      eapply (acq_granted _ _ _ _ _ _ (<[t := owned_up th]> (threads s)) (<[o := acquired_mutex t d]> (objects s)));
        [exact Hinv' | by destruct s | | by rewrite Hty].
      intros x. destruct (decide (x = t)) as [->|Hne]; [by rewrite lookup_insert_eq, Et | by rewrite lookup_insert_ne].
Qed.

Lemma validate_run o d s : objects s !! o = Some d -> obj_ok d ->
  KiValidateDispatcherHeader (Some o) s = Ok EC_SUCCESS.
Proof.
  intros Eo [Hsig Hk]. unfold KiValidateDispatcherHeader, get_object. rewrite Eo. cbn [res_bind].
  rewrite Hsig. by destruct Hk as [(-> & _)|[(-> & _)|(-> & _)]].
Qed.

(** The thread waits for an object of its own choice, or joins a thread whose
    termination it has claimed. *)
Definition wait_purpose s (o : OBJ) (k : list FRAME) : Prop :=
  (k = [] /\ exists a, o = Standalone a) \/
  (exists x th, k = [InJoin x] /\ o = Completion x /\ threads s !! x = Some th /\
     x <> gCurrentThread s /\ x <> gIdleThread s /\
     unjoined (<[gCurrentThread s := []]> (SavedContext s)) x /\
     TerminationMode th = KTHREAD_TERMINATION_MODE_JOINABLE /\
     TerminationClaimState th = CLAIM_JOIN_IN_PROGRESS).

(** The call returned without blocking; a wait on a completion event that did so
    changed nothing, and succeeded only if the thread has terminated. *)
Definition wait_result s (o : OBJ) (r : outcome W HO_STATUS) : Prop :=
  settled r /\ forall v s', r = Done v s' ->
    forall x, o = Completion x -> s' = s /\ (v = EC_SUCCESS -> terminated (threads s) x /\ published (objects s) x).

Lemma blocks_and_switches k st s th :
  inside k st s -> st <> PASSIVE0 -> threads s !! gCurrentThread s = Some th ->
  State th = KTHREAD_STATE_BLOCKED \/ State th = KTHREAD_STATE_TERMINATED ->
  exists s', KiSchedule k s = Ok (Switched s') /\ switched s'.
Proof.
  intros Hin Hst Et Hs.
  destruct (KiSchedule_run k st s Hin Hst) as (next & R & Hch & [(-> & _)|(_ & s' & E & Hsw & _)]).
  - intros th' Et' Hr. assert (th' = th) as -> by congruence. destruct Hs; congruence.
  - exfalso. destruct (chosen_thread _ _ _ _ (proj1 Hin) Hch) as (th' & Et' & _ & Hs' & _).
    assert (th' = th) as -> by congruence. destruct Hs, Hs'; congruence.
  - by exists s'.
Qed.

Lemma wait_run o timeoutNs k d s :
  boundary s -> gCurrentThread s <> gIdleThread s -> few_objects s -> objects s !! o = Some d ->
  wait_timeout_ok s timeoutNs -> wait_purpose s o k ->
  exists r, KeWaitForSingleObject (Some o) timeoutNs k s = Ok r /\ wait_result s o r.
Proof.
  intros Hb Hni Hfew Eo Hto Hpur. unfold KeWaitForSingleObject.
  rewrite blocking_allowed_run by done. cbn [res_bind].
  rewrite (proj2 (Z.eqb_neq _ _) Hni). cbn [negb HO_KASSERT res_bind].
  pose proof Hb as [(Hinv0 & _ & Hcpu0) _].
  pose proof (map_Forall_lookup_1 _ _ _ _ (s_objects _ _ Hinv0) Eo) as Hod.
  rewrite (validate_run o d) by done. cbn [res_bind]. rewrite bool_decide_eq_true_2 by done. cbn [negb].
  destruct (enter_call s Hb) as (b & -> & Eb & Hin & Hrun). cbn [res_bind]. set (s1 := set_Cpu _ s) in *.
  pose proof Hin as (Hinv & Hk & Hcpu). enter_cs cs Hk Hcpu Hleave.
  destruct (running_states s1 Hrun) as (th & Et & Hs & Hnb & Hnt).
  destruct (try_acquire_run _ c o (gCurrentThread s1) th d s1 Hinv Hfew Eo Et Hnt) as (st & acq & s2 & E & Hacq).
  change (gCurrentThread (set_Cpu c s1)) with (gCurrentThread s1). rewrite E. cbn [res_bind].
  assert (Hback : set_Cpu (lowered b (Cpu s1)) s1 = s).
  { unfold s1. simpl. rewrite Eb, lower_raise by done. by destruct s. }
  destruct Hacq as [s2 T' O' Hinv2 Es2 Hst' Hev|Hss How|].
  - (* granted *)
    rewrite bool_decide_eq_true_2 by done. cbn [negb].
    leave_cs Hleave (set_Cpu c s2). change (set_Cpu (Cpu s1) (set_Cpu c s2)) with (set_Cpu (Cpu s1) s2).
    replace (set_Cpu (Cpu s1) s2) with s2 by (by rewrite Es2; destruct s).
    destruct (leave_call (calling b) b s2) as [-> Hb2].
    + rewrite Es2 in Hinv2 |- *. by split_and!.
    + rewrite Es2. destruct Hrun as (thr & Er & Hr). specialize (Hst' (gCurrentThread s1)).
      rewrite Er in Hst'. destruct (T' !! gCurrentThread s1) as [th'|] eqn:E'; [|done].
      exists th'. split; [exact E'|]. simpl in Hst'. congruence.
    + cbn [res_bind]. eexists. split; [done|]. split; [done|]. intros v s' [= <- <-] x ->.
      destruct (s_completions _ _ Hinv0 x) as [_ Hc]. destruct (Hc d Eo) as [Hty Hp].
      destruct (Hev Hty) as [-> Hss]. split; [exact Hback|]. intros _.
      split; [by apply Hp | by exists d].
  - rewrite bool_decide_eq_true_2 by done. cbn [negb].
    destruct (Z.eqb_spec timeoutNs 0) as [Ht0|Ht0].
    + leave_cs Hleave (set_Cpu c s1). change (set_Cpu (Cpu s1) (set_Cpu c s1)) with (set_Cpu (Cpu s1) s1).
      change (set_Cpu (Cpu s1) s1) with s1.
      destruct (leave_call (calling b) b s1 Hin Hrun) as [-> Hb2]. cbn [res_bind].
      eexists. split; [done|]. split; [done|]. by intros v s' [= <- <-] x _.
    + destruct (block_on_run o timeoutNs th d (set_Cpu c s1)) as (dl & Q' & s3 & -> & Hs3 & ET & Hti & _);
        [apply Hinv | apply Hinv | done..|]. cbn [res_bind].
      change (gCurrentThread (set_Cpu c s1)) with (gCurrentThread s1).
      set (t := gCurrentThread s1) in *.
      destruct (so_rest _ _ Hs3) as (_ & Ec & Ei & Ecpu & EC & _). simpl in Ec, Ei, Ecpu, EC.
      destruct (Hleave (blocked_state t (Some o) dl th Q' s3)) as (cs' & -> & _); [exact Ecpu|].
      cbn [res_bind].
      set (s4 := set_Cpu (Cpu s1) s3).
      change (set_Cpu (Cpu s1) (blocked_state t (Some o) dl th Q' s3)) with (blocked_state t (Some o) dl th Q' s4).
      assert (Hs14 : soft s1 s4) by (destruct Hs3 as [? ? ? ? (?&?&?&?&?&?) ?]; by split).
      assert (Hinv4 : sinv (<[t := calling b]> (SavedContext s1)) s4) by (by eapply sinv_soft).
      assert (Hsw : exists s', KiSchedule (InWait (held b) :: k) (blocked_state t (Some o) dl th Q' s4) =
                Ok (Switched s') /\ switched s').
      { apply (blocks_and_switches _ DISPATCH1 _ (blocked_thread (Some o) dl th)); [|done| |by left].
        2: { simpl. rewrite Ec. apply lookup_insert_eq. }
        assert (Hfr : frames_irql (InWait (held b) :: k) DISPATCH1).
        { destruct Hpur as [[-> _]|(x & thx & -> & _)]; constructor. }
        split_and!; [|done|].
        - simpl. rewrite Ec, EC. change (gCurrentThread s) with t. change (SavedContext s) with (SavedContext s1).
          eapply (block_sinv _ _ (calling b) DISPATCH1); [exact Hinv4 | apply plain_calling | | | | done | | | done | exact Hfr | | |].
          + simpl. by rewrite Ec.
          + simpl. by rewrite Ei.
          + simpl. by rewrite ET.
          + simpl. rewrite ET. rewrite (so_timeout _ _ Hs3). exact Hti.
          + intros o' [= <-]. exists d. simpl. rewrite (so_objects _ _ Hs3). done.
          + apply Hcpu.
          + by destruct Hpur as [[-> _]|(x & thx & -> & _)].
          + destruct Hpur as [[-> [a ->]]|(x & thx & -> & -> & Ex & Hxc & Hxi & Hun & Hm & Hc)].
            * left. by split.
            * right. exists (held b), x, thx. simpl. rewrite ET, Ei. split_and!; try done.
              exact (unjoined_plain _ _ _ _ _ Hun (plain_calling b)).
        - unfold cpu_at. simpl. rewrite Ec. exact Hcpu. }
      destruct Hsw as (s' & E' & Hsw'). unfold and_then. rewrite E'. cbn [res_bind].
      eexists. split; [done|]. by split.
  - rewrite bool_decide_eq_false_2 by done. cbn [negb].
    leave_cs Hleave (set_Cpu c s1). change (set_Cpu (Cpu s1) (set_Cpu c s1)) with s1.
    destruct (leave_call (calling b) b s1 Hin Hrun) as [-> Hb2]. cbn [res_bind].
    eexists. split; [done|]. split; [done|]. intros v s' [= <- <-] x _. by split.
Qed.

(** ** Signalling *)

Lemma woke_cpu l st c s s' : woke l st (set_Cpu c s) s' -> woke l st s (set_Cpu (Cpu s) s') /\ Cpu s' = c.
Proof.
  intros [H1 H2 H3 H4 (R1 & R2 & R3 & R4 & R5 & R6 & R7) Hb H6]. split; [|done]. split; try done.
Qed.

Lemma release_waiters_cpu fuel o permits c s d :
  queues_ok s -> objects s !! o = Some d -> (length (WaitList d) < fuel)%nat ->
  exists s', release_waiters fuel o permits (set_Cpu c s) =
      Ok (option_map (fun n => n - Z.of_nat (length (granted permits (WaitList d)))) permits, set_Cpu c s') /\
    woke (granted permits (WaitList d)) EC_SUCCESS s s'.
Proof.
  intros Hq Eo Hf. destruct (release_waiters_run fuel o permits (set_Cpu c s) d) as (s2 & E & Hw); [done..|].
  apply woke_cpu in Hw as [Hw Hc]. exists (set_Cpu (Cpu s) s2). split; [|done]. rewrite E.
  do 2 f_equal. destruct s2. simpl in *. by subst.
Qed.

(** The signalling loop of an event. *)
Lemma signal_event_run C c o d s :
  sinv C s -> objects s !! o = Some d -> DType d = DISPATCHER_TYPE_EVENT ->
  (forall t, o = Completion t -> terminated (threads s) t) ->
  let s0 := put_object o (set_SignalState 1 d) s in
  exists s', release_waiters (S (length (WaitList d))) o None (set_Cpu c s0) = Ok (None, set_Cpu c s') /\
    woke (WaitList d) EC_SUCCESS s0 s' /\ sinv C s'.
Proof.
  intros Hinv Eo Hty Hterm s0. assert (Hw0 : sinv_weak C s0).
  { apply (object_weak C o d); try done; [by apply sinv_weaken|]. intros t Ht _. by apply Hterm. }
  assert (Eo0 : objects s0 !! o = Some (set_SignalState 1 d)) by apply lookup_insert_eq.
  destruct (release_waiters_cpu (S (length (WaitList d))) o None c s0 (set_SignalState 1 d)) as (s' & E & Hw);
    [apply Hw0 | done | simpl; lia |].
  exists s'. split; [exact E|]. split; [exact Hw|]. apply sinv_strengthen.
  - eapply woke_weak; [exact Hw0 | exact Hw |]. intros j t Hj Hjt _.
    destruct (waiter_blocked s o d j) as (thj & Ej & Hs & Hd); [apply Hinv | done | exact Hj |].
    destruct (s_joins _ _ Hinv) as (J1 & _ & _). destruct (J1 j t Hjt) as (thj' & th & Ej' & _ & _ & _ & _ & _ & Hw1 & _).
    assert (thj' = thj) as -> by congruence. rewrite (Hw1 Hs) in Hd. injection Hd as <-.
    split; [by apply Hterm|]. eexists. split; [exact Eo0|]. done.
  - intros x dx Hx. rewrite (wk_objects _ _ _ _ Hw) in Hx. simpl in Hx.
    destruct (decide (x = o)) as [->|Hne].
    + rewrite lookup_insert_eq in Hx. simpl in Hx. injection Hx as <-.
      destruct (map_Forall_lookup_1 _ _ _ _ (s_objects _ _ Hinv) Eo) as [Hsig Hk]. split; [done|].
      destruct Hk as [(_ & How & _)|[(E' & _)|(E' & _)]]; [|rewrite Hty in E'; discriminate E'..].
      left. split_and!; [done | done |]. intros _. simpl. apply elem_of_nil_inv.
      intros y [Hny Hy]%list_elem_of_filter. done.
    + rewrite lookup_insert_ne in Hx by congruence. destruct (objects s !! x) as [d0|] eqn:E0; [|done].
      simpl in Hx. injection Hx as <-. apply obj_ok_shrink.
      exact (map_Forall_lookup_1 _ _ _ _ (s_objects _ _ Hinv) E0).
Qed.

(** How a signalling call ends: it returns, or it was made by the idle thread,
    which has been switched away from. *)
Definition settles {A} s (r : outcome W A) : Prop :=
  match r with
  | Done _ s' => boundary s'
  | Switched s' => gCurrentThread s = gIdleThread s /\ switched s' /\ gCurrentThread s' <> gIdleThread s'
  end.

Lemma settles_settled {A} s (r : outcome W A) : settles s r -> settled r.
Proof. destruct r; [done | by intros (_ & ? & _)]. Qed.

Lemma need_schedule_switches k s : inside k DISPATCH1 s -> current_running s -> need_schedule s = true ->
  exists s', KiSchedule k s = Ok (Switched s') /\ switched s' /\ gCurrentThread s' <> gIdleThread s'.
Proof.
  intros Hin (th & Et & Hs) [Hi Hr]%andb_true_iff. apply Z.eqb_eq in Hi.
  destruct (KiSchedule_run k DISPATCH1 s Hin DISPATCH1_raised)
    as (next & R & Hch & [(-> & _)|(Hne & s' & E & Hsw & Ec & _ & Ei)]); [by intros _ _ _ | |].
  - exfalso. pose proof (s_queues _ _ (proj1 Hin)) as [_ [Hl Hrq] _ _ _].
    destruct Hch as [(p & q & Hp & _)|(Hall & _)].
    + assert (Hk : kview rkey (threads s) (gCurrentThread s) = Some p) by (apply (Hrq p _ Hp); by left).
      rewrite (kview_at rkey _ _ th), (proj1 (running_keys th Hs)) in Hk by done. done.
    + unfold KiHasAnyReadyThread in Hr. apply existsb_exists in Hr as (q & Hq & Hn).
      apply list_elem_of_In, list_elem_of_lookup in Hq as [p Hp].
      assert (Hp3 : (p < 3)%nat) by (apply lookup_lt_Some in Hp; lia).
      rewrite (Hall p Hp3) in Hp. injection Hp as <-. done.
  - exists s'. split; [done|]. split; [done|]. congruence.
Qed.

(** A call whose body has finished reschedules if the processor was idle. *)
Lemma finish_signal_run b f k s :
  inside (calling b) DISPATCH1 s -> current_running s ->
  (gCurrentThread s = gIdleThread s -> frames_irql (f :: k) DISPATCH1 /\ returnable s (f :: k)) ->
  exists r, (if need_schedule s then schedule_then_release (held b) f k EC_SUCCESS s
             else let* s := release_irql (held b) s in Ok (Done EC_SUCCESS s)) = Ok r /\ settles s r /\
    forall v s', r = Done v s' -> v = EC_SUCCESS /\ s' = set_Cpu (lowered b (Cpu s)) s.
Proof.
  intros Hin Hrun Hf. destruct (need_schedule s) eqn:Hn.
  - pose proof Hn as [Hi _]%andb_true_iff. apply Z.eqb_eq in Hi. destruct (Hf Hi) as [Hfr Hret].
    assert (Hin' : inside (f :: k) DISPATCH1 s) by (by eapply reframe).
    destruct (need_schedule_switches _ _ Hin' Hrun Hn) as (s' & E & Hsw & Hc).
    unfold schedule_then_release, and_then. rewrite E. cbn [res_bind]. by eexists.
  - destruct (leave_call (calling b) b s Hin Hrun) as [-> Hb]. cbn [res_bind]. eexists. split; [done|].
    split; [done|]. by intros v s' [= <- <-].
Qed.

(** The processor is as it was before the call once the guard is released. *)
Lemma after_call s s2 : boundary s -> Cpu s2 = raised (Cpu s) ->
  set_Cpu (lowered (MaskableInterruptEnabled (Cpu s)) (Cpu s2)) s2 = set_Cpu (Cpu s) s2.
Proof. intros [(_ & _ & Hcpu) _] ->. by rewrite lower_raise. Qed.

Lemma woke_running l st s s' : woke l st s s' -> current_running s -> current_running s'.
Proof.
  intros Hw (th & Et & Hs). exists th. destruct (wk_rest _ _ _ _ Hw) as (_ & -> & _).
  rewrite (wk_threads _ _ _ _ Hw), decide_False; [done|]. intros Hl.
  destruct (wk_blocked _ _ _ _ Hw _ Hl) as (th' & Et' & Hs'). congruence.
Qed.

(** What [KeSetEvent] returns through: nothing, or the finalisation of a thread
    by the reaper. *)
Definition event_return s (k : list FRAME) : Prop :=
  k = [] \/ exists t n, k = [InFinalize t n; InReap] /\ is_Some (FinalizeThreadHook (Svc s)) /\ condemned (threads s) t.

Lemma event_return_frames b k s : event_return s k -> gCurrentThread s = gIdleThread s ->
  frames_irql (InSetEvent (held b) :: k) DISPATCH1 /\ returnable s (InSetEvent (held b) :: k).
Proof.
  intros [->|(t & n & -> & Hh & Hc)] Hi.
  - split; [constructor|]. by apply plain_returnable.
  - split; [constructor|]. split_and!; [done | done |]. intros g t' n' [= _ <- _]. done.
Qed.

(** Unless the idle thread is switched away from, the call has woken all the waiters. *)
Lemma set_event_run a d k s :
  boundary s -> objects s !! Standalone a = Some d -> DType d = DISPATCHER_TYPE_EVENT ->
  (gCurrentThread s = gIdleThread s -> event_return s k) ->
  exists r, KeSetEvent (Some (Standalone a)) k s = Ok r /\ settles s r /\
    forall v s', r = Done v s' -> v = EC_SUCCESS /\
       woke (WaitList d) EC_SUCCESS (put_object (Standalone a) (set_SignalState 1 d) s) s'.
Proof.
  intros Hb Eo Hty Hret. unfold KeSetEvent, get_object. rewrite Eo. cbn [res_bind].
  pose proof Hb as [(Hinv0 & _ & _) _].
  destruct (map_Forall_lookup_1 _ _ _ _ (s_objects _ _ Hinv0) Eo) as [Hsig _]. rewrite Hsig, Hty.
  cbn [Z.eqb Pos.eqb HO_KASSERT res_bind].
  change (KDISPATCHER_SIGNATURE =? KDISPATCHER_SIGNATURE) with true.
  change (DISPATCHER_TYPE_EVENT =? DISPATCHER_TYPE_EVENT) with true. cbn [HO_KASSERT res_bind].
  destruct (enter_call s Hb) as (b & -> & Eb & Hin & Hrun). cbn [res_bind]. set (s1 := set_Cpu _ s) in *.
  pose proof Hin as (Hinv & Hk & Hcpu). enter_cs cs Hk Hcpu Hleave.
  set (s0 := put_object (Standalone a) (set_SignalState 1 d) s1).
  change (put_object (Standalone a) (set_SignalState 1 d) (set_Cpu c s1)) with (set_Cpu c s0).
  destruct (signal_event_run _ c (Standalone a) d s1 Hinv Eo Hty) as (s2 & E & Hw & Hinv2); [done|].
  fold s0 in E, Hw. rewrite E. cbn [res_bind]. change (need_schedule (set_Cpu c s2)) with (need_schedule s2).
  leave_cs Hleave (set_Cpu c s2). change (set_Cpu (Cpu s1) (set_Cpu c s2)) with (set_Cpu (Cpu s1) s2).
  destruct (wk_rest _ _ _ _ Hw) as (_ & Ec & Ei & Ecpu & Esvc & EC & _). simpl in Ec, Ei, Ecpu, Esvc, EC.
  replace (set_Cpu (Cpu s1) s2) with s2 by (unfold s1; simpl; rewrite <- Ecpu; by destruct s2).
  destruct (finish_signal_run b (InSetEvent (held b)) k s2) as (r & E2 & Hr & Hd).
  - split_and!; [|done|].
    + rewrite Ec, EC. exact Hinv2.
    + unfold cpu_at. rewrite Ec, Ecpu. exact Hcpu.
  - eapply woke_running; [exact Hw|]. exact Hrun.
  - intros Hi. apply event_return_frames; [|done]. rewrite Ec, Ei in Hi.
    destruct (Hret Hi) as [->|(t & n & -> & Hh & Hc)]; [by left|]. right. exists t, n. rewrite Esvc.
    split_and!; [done | done|]. eapply statics_condemned; [by eapply woke_statics | done].
  - exists r. split; [exact E2|]. split; [|].
    + destruct r as [v s'|s']; [done|]. destruct Hr as [Hi Hr]. rewrite Ec, Ei in Hi. done.
    + intros v s' [-> ->]%Hd. split; [done|]. rewrite Eb, after_call by done.
      by destruct (woke_cpu _ _ _ (put_object (Standalone a) (set_SignalState 1 d) s) _ Hw).
Qed.

Lemma reset_event_run a d s :
  boundary s -> objects s !! Standalone a = Some d -> DType d = DISPATCHER_TYPE_EVENT ->
  KeResetEvent (Some (Standalone a)) s = Ok (put_object (Standalone a) (set_SignalState 0 d) s) /\
  boundary (put_object (Standalone a) (set_SignalState 0 d) s).
Proof.
  intros Hb Eo Hty. pose proof Hb as [(Hinv & Hk & Hcpu) Hrun].
  destruct (map_Forall_lookup_1 _ _ _ _ (s_objects _ _ Hinv) Eo) as [Hsig Hok]. split.
  - unfold KeResetEvent, get_object. rewrite Eo. cbn [res_bind]. rewrite Hsig, Hty.
    change (KDISPATCHER_SIGNATURE =? KDISPATCHER_SIGNATURE) with true.
    change (DISPATCHER_TYPE_EVENT =? DISPATCHER_TYPE_EVENT) with true. cbn [HO_KASSERT res_bind].
    enter_cs cs Hk Hcpu Hleave.
    leave_cs Hleave (put_object (Standalone a) (set_SignalState 0 d) (set_Cpu c s)). by destruct s.
  - split; [split_and!|]; try done. eapply object_sinv; try done.
    split; [done|]. left. destruct Hok as [(_ & ? & _)|[(E & _)|(E & _)]]; [|rewrite Hty in E; discriminate E..].
    by split_and!.
Qed.

(** *** [KeReleaseSemaphore] *)

Definition few_threads s : Prop := Z.of_nat (size (threads s)) < 2 ^ 31.

Lemma wait_list_length o d s : queues_ok s -> objects s !! o = Some d ->
  Z.of_nat (length (WaitList d)) <= Z.of_nat (size (threads s)).
Proof.
  intros Hq Eo. assert (Hn : NoDup (WaitList d)).
  { destruct Hq as [_ _ _ [Hw _] _]. apply (Hw o). simpl. by rewrite Eo. }
  apply Nat2Z.inj_le. rewrite <- size_dom, <- (size_list_to_set (C := gset Z) (WaitList d)) by done.
  apply subseteq_size. intros t Ht. apply elem_of_list_to_set in Ht.
  destruct (waiter_blocked s o d t Hq Eo Ht) as (th & Et & _). apply elem_of_dom. by exists th.
Qed.

Lemma i32_small x : - 2 ^ 31 <= x < 2 ^ 31 -> i32 x = x.
Proof. intros Hx. unfold i32. rewrite Z.mod_small by lia. lia. Qed.

Lemma semaphore_assert_run d : Signature d = KDISPATCHER_SIGNATURE -> DType d = DISPATCHER_TYPE_SEMAPHORE ->
  0 < Limit d -> 0 <= SignalState d <= Limit d -> KiAssertSemaphoreState d = Ok tt.
Proof.
  intros Hsig Hty Hl Hss. unfold KiAssertSemaphoreState. rewrite Hsig, Hty.
  by rewrite (proj2 (Z.ltb_lt 0 _)), (proj2 (Z.leb_le 0 _)), (proj2 (Z.leb_le _ (Limit d))) by lia.
Qed.

(** The semaphore's count after a release of [n] permits. *)
Definition permits_after (n : Z) (d : DISPATCHER) : Z :=
  SignalState d + Z.max 0 (n - Z.of_nat (length (WaitList d))).

Definition released_semaphore (n : Z) (d : DISPATCHER) : DISPATCHER :=
  set_SignalState (permits_after n d) (set_WaitList (drop (Z.to_nat n) (WaitList d)) d).

Lemma granted_rest n (l : list Z) : NoDup l ->
  filter (fun t => t ∉ take n l) l = drop n l.
Proof.
  revert n. induction l as [|a l IH]; intros n Hn; [by destruct n|]. apply NoDup_cons in Hn as [Ha Hn].
  destruct n as [|n]; [by rewrite filter_not_in_nil|]. simpl.
  rewrite filter_cons_False by (rewrite elem_of_cons; tauto). rewrite <- IH by done.
  apply filter_iff_in. intros x Hx. rewrite not_elem_of_cons. split; [tauto|]. intros ?. split; [congruence | done].
Qed.

Lemma release_semaphore_body C c o n d s :
  sinv C s -> objects s !! o = Some d -> DType d = DISPATCHER_TYPE_SEMAPHORE -> 0 < n < 2 ^ 31 ->
  permits_after n d <= Limit d ->
  exists s1, release_waiters (S (length (WaitList d))) o (Some n) (set_Cpu c s) =
      Ok (Some (n - Z.of_nat (length (take (Z.to_nat n) (WaitList d)))), set_Cpu c s1) /\
    woke (take (Z.to_nat n) (WaitList d)) EC_SUCCESS s s1 /\
    objects s1 !! o = Some (set_WaitList (drop (Z.to_nat n) (WaitList d)) d) /\
    obj_ok (released_semaphore n d) /\ sinv C (put_object o (released_semaphore n d) s1).
Proof.
  intros Hinv Eo Hty Hn Hlim. pose proof (s_queues _ _ Hinv) as Hq.
  destruct (release_waiters_cpu (S (length (WaitList d))) o (Some n) c s d Hq Eo) as (s1 & E & Hw); [lia|].
  exists s1. split; [exact E|]. split; [exact Hw|]. simpl in Hw.
  assert (Hnd : NoDup (WaitList d)).
  { destruct Hq as [_ _ _ [Hwt _] _]. apply (Hwt o). simpl. by rewrite Eo. }
  assert (Eo1 : objects s1 !! o = Some (set_WaitList (drop (Z.to_nat n) (WaitList d)) d)).
  { rewrite (wk_objects _ _ _ _ Hw), Eo. simpl. by rewrite granted_rest. }
  split; [exact Eo1|].
  destruct (map_Forall_lookup_1 _ _ _ _ (s_objects _ _ Hinv) Eo) as [Hsig Hk].
  destruct Hk as [(E' & _)|[(_ & How & Hl & Hss & Hwl)|(E' & _)]]; [rewrite Hty in E'; discriminate E' | | rewrite Hty in E'; discriminate E'].
  assert (Hok : obj_ok (released_semaphore n d)).
  { split; [done|]. right; left. unfold released_semaphore. simpl. unfold permits_after in *.
    split_and!; try done; try lia. intros Hp. apply drop_ge.
    destruct (decide (SignalState d = 0)) as [E0|E0]; [lia|]. rewrite Hwl by done. simpl. lia. }
  split; [exact Hok|].
  assert (Hnc : forall x, o <> Completion x).
  { intros x ->. destruct (s_completions _ _ Hinv x) as [_ Hc]. destruct (Hc d Eo) as [E' _].
    rewrite Hty in E'. discriminate E'. }
  eapply object_sinv; [|exact Eo1 | exact Hok | done | done | done | |]; [|intros x Hx; by apply Hnc in Hx..].
  eapply woke_sinv; [exact Hinv | exact Hw |]. intros j t Hj Hjt _. exfalso.
  assert (Hj' : j ∈ WaitList d).
  { rewrite <- (take_drop (Z.to_nat n) (WaitList d)). apply elem_of_app. by left. }
  destruct (waiter_blocked s o d j Hq Eo Hj') as (thj & Ej & Hs & Hd).
  destruct (s_joins _ _ Hinv) as (J1 & _ & _). destruct (J1 j t Hjt) as (thj' & th & Ej' & _ & _ & _ & _ & _ & Hw1 & _).
  assert (thj' = thj) as -> by congruence. rewrite (Hw1 Hs) in Hd. injection Hd as Hd. by apply (Hnc t).
Qed.

Lemma release_semaphore_run a n d s :
  boundary s -> few_threads s -> objects s !! Standalone a = Some d ->
  DType d = DISPATCHER_TYPE_SEMAPHORE -> n < 2 ^ 31 ->
  exists r, KeReleaseSemaphore (Some (Standalone a)) n [] s = Ok r /\ settled r /\
    if decide (n <= 0 \/ Limit d < permits_after n d) then r = Done EC_ILLEGAL_ARGUMENT s
    else gCurrentThread s <> gIdleThread s -> exists s',
      r = Done EC_SUCCESS (put_object (Standalone a) (released_semaphore n d) s') /\
      woke (take (Z.to_nat n) (WaitList d)) EC_SUCCESS s s'.
Proof.
  intros Hb Hfew Eo Hty Hn. unfold KeReleaseSemaphore.
  destruct (Z.leb_spec n 0) as [Hn0|Hn0].
  { eexists. split; [done|]. split; [done|]. by rewrite decide_True by (by left). }
  destruct (enter_call s Hb) as (b & -> & Eb & Hin & Hrun). cbn [res_bind]. set (s1 := set_Cpu _ s) in *.
  pose proof Hin as (Hinv & Hk & Hcpu). enter_cs cs Hk Hcpu Hleave.
  unfold get_object. simpl (objects _). rewrite Eo. cbn [res_bind].
  destruct (map_Forall_lookup_1 _ _ _ _ (s_objects _ _ Hinv) Eo) as [Hsig Hok].
  destruct Hok as [(E' & _)|[(_ & How & Hl & Hss & Hwl)|(E' & _)]]; [rewrite Hty in E'; discriminate E' | | rewrite Hty in E'; discriminate E'].
  rewrite semaphore_assert_run by (done || lia). cbn [res_bind].
  pose proof (wait_list_length (Standalone a) d s1 (s_queues _ _ Hinv) Eo) as Hlen.
  unfold few_threads in Hfew. change (threads s1) with (threads s) in Hlen.
  rewrite u32_small by word_lia. rewrite i32_small by lia.
  set (len := Z.of_nat (length (WaitList d))) in *.
  assert (Hrem : SignalState d + (if len <? n then n - len else 0) = permits_after n d).
  { unfold permits_after. fold len. destruct (Z.ltb_spec len n); lia. }
  rewrite Hrem. destruct (Z.ltb_spec (Limit d) (permits_after n d)) as [Hover|Hfits].
  - leave_cs Hleave (set_Cpu c s1). change (set_Cpu (Cpu s1) (set_Cpu c s1)) with s1.
    destruct (leave_call (calling b) b s1 Hin Hrun) as [-> Hb2]. cbn [res_bind].
    eexists. split; [done|]. split; [done|]. rewrite decide_True by (by right).
    rewrite Eb, after_call by done. by destruct s.
  - destruct (release_semaphore_body _ c (Standalone a) n d s1 Hinv Eo Hty) as (s2 & -> & Hw & Eo2 & Hok2 & Hinv2); [lia | done |].
    cbn [res_bind]. simpl (objects _). rewrite Eo2. cbn [res_bind].
    assert (Hleft : SignalState d + (n - Z.of_nat (length (take (Z.to_nat n) (WaitList d)))) = permits_after n d).
    { rewrite length_take. unfold permits_after. lia. }
    simpl (SignalState _). rewrite Hleft, i32_small.
    2: { unfold permits_after in *. lia. }
    fold (released_semaphore n d). rewrite semaphore_assert_run; [|done | done | simpl; lia | simpl; unfold permits_after in *; lia].
    cbn [res_bind]. set (s3 := put_object (Standalone a) (released_semaphore n d) s2).
    change (put_object (Standalone a) (released_semaphore n d) (set_Cpu c s2)) with (set_Cpu c s3).
    change (need_schedule (set_Cpu c s3)) with (need_schedule s3).
    leave_cs Hleave (set_Cpu c s3).
    destruct (wk_rest _ _ _ _ Hw) as (_ & Ec & Ei & Ecpu & _ & EC & _).
    replace (set_Cpu (Cpu s1) (set_Cpu c s3)) with s3 by (rewrite <- Ecpu; by destruct s2).
    destruct (finish_signal_run b (InReleaseSemaphore (held b)) [] s3) as (r & E2 & Hr & Hd).
    + split_and!; [|done|].
      * simpl. rewrite Ec, EC. exact Hinv2.
      * unfold cpu_at. simpl. rewrite Ec, Ecpu. exact Hcpu.
    + destruct (woke_running _ _ _ _ Hw Hrun) as (th & Et & Hs). by exists th.
    + intros _. split; [constructor | by apply plain_returnable].
    + exists r. split; [exact E2|]. split; [by eapply settles_settled|]. rewrite decide_False by lia. intros Hni.
      destruct r as [v s'|s']; [|destruct Hr as [Hi _]; simpl in Hi; rewrite Ec, Ei in Hi; done].
      destruct (Hd v s' eq_refl) as [-> ->]. rewrite Eb, after_call by done.
      exists (set_Cpu (Cpu s) s2). split; [done|]. by destruct (woke_cpu _ _ _ s _ Hw).
Qed.

(** *** [KeReleaseMutex] *)

Definition freed_mutex (d : DISPATCHER) : DISPATCHER := set_SignalState 1 (set_Owner 0 d).

Lemma release_mutex_free_run C c o t th d s :
  sinv C s -> few_objects s -> objects s !! o = Some d -> DType d = DISPATCHER_TYPE_MUTEX -> WaitList d = [] ->
  OwnerThread d = t -> t <> 0 -> threads s !! t = Some th ->
  let s' := put_object o (freed_mutex d) (put_thread t (owned_down th) s) in
  KiReleaseMutexOwnership o (set_Cpu c s) = Ok (set_Cpu c s') /\ sinv C s'.
Proof.
  intros Hinv Hfew Eo Hty Hwl Eow Ho Et s'.
  destruct (map_Forall_lookup_1 _ _ _ _ (s_objects _ _ Hinv) Eo) as [Hsig Hk].
  assert (H1 : SignalState d = 0).
  { destruct Hk as [(E & _)|[(E & _)|(_ & [(? & ? & _)|(? & _)])]]; [rewrite Hty in E; discriminate E.. | congruence | done]. }
  pose proof (s_owners _ _ Hinv) as [_ Hcnt]. pose proof (Hcnt t th Et) as Hn.
  pose proof (owned_bound (objects s) t) as Hb. unfold few_objects in Hfew.
  assert (Hpos : 1 <= OwnedMutexCount th).
  { rewrite Hn. pose proof (owned_change (objects s) o d (freed_mutex d) t Eo) as Hch. simpl in Hch.
    rewrite decide_True, decide_False in Hch by congruence.
    pose proof (owned_bound (<[o:=freed_mutex d]> (objects s)) t). lia. }
  split.
  - unfold KiReleaseMutexOwnership, get_object. simpl (objects _). rewrite Eo. cbn [res_bind].
    rewrite mutex_assert_owned by (done || congruence). cbn [res_bind]. rewrite Eow. rewrite (proj2 (Z.eqb_neq t 0)) by done.
    cbn [negb HO_KASSERT res_bind]. unfold KiDecrementOwnedMutexCount. rewrite (proj2 (Z.eqb_neq t 0)) by done.
    cbn [negb HO_KASSERT res_bind]. unfold get_thread. simpl (threads _). rewrite Et. cbn [res_bind].
    rewrite (proj2 (Z.eqb_neq _ 0)) by lia. cbn [negb HO_KASSERT res_bind].
    rewrite (mutex_assert_free (set_SignalState 1 (set_Owner 0 d))) by done. cbn [res_bind].
    rewrite u32_small by word_lia. done.
  - change (sinv C (set_objects (<[o := freed_mutex d]> (objects s))
                      (set_threads (<[t := owned_down th]> (threads s)) s))).
    eapply (owner_sinv C o d (freed_mutex d)); try done.
    + split; [done|]. right; right. split; [done|]. left. by split_and!.
    + intros x. destruct (decide (x = t)) as [->|Hne].
      * rewrite lookup_insert_eq, Et. simpl. unfold owned_down. do 2 f_equal.
        rewrite (owned_change _ o d) by done. simpl. rewrite decide_True, decide_False by congruence. lia.
      * rewrite lookup_insert_ne by congruence. destruct (threads s !! x) as [thx|] eqn:Ex; [|done].
        simpl. f_equal. symmetry. eapply recount_id; [exact Hcnt | done |].
        assert (x <> 0) by (apply (thread_at _ x thx (q_threads _ _ _ _ _ (s_queues _ _ Hinv)) Ex)).
        rewrite (owned_change _ o d) by done. simpl. rewrite !decide_False by congruence. lia.
Qed.

(** The hand-over to the first waiter, and its wake-up. *)
Lemma hand_off_run C c o ow t q th thn d s :
  sinv C s -> few_objects s -> objects s !! o = Some d -> DType d = DISPATCHER_TYPE_MUTEX ->
  WaitList d = t :: q -> OwnerThread d = ow -> threads s !! ow = Some th -> threads s !! t = Some thn ->
  let s1 := put_thread t (owned_up thn) (put_object o (acquired_mutex t d)
              (put_thread ow (owned_down th) s)) in
  KiHandOffMutexOwnership o t (set_Cpu c s) = Ok (set_Cpu c s1) /\
  KiCompleteWait t EC_SUCCESS (set_Cpu c s1) = Ok (set_Cpu c (woken t (owned_up thn) EC_SUCCESS s1)) /\
  woke [t] EC_SUCCESS s1 (woken t (owned_up thn) EC_SUCCESS s1) /\
  sinv C (woken t (owned_up thn) EC_SUCCESS s1).
Proof.
  intros Hinv Hfew Eo Hty Hwl Eow Et Etn s1.
  pose proof (s_queues _ _ Hinv) as Hq. pose proof (q_threads _ _ _ _ _ Hq) as Hth.
  destruct (map_Forall_lookup_1 _ _ _ _ (s_objects _ _ Hinv) Eo) as [Hsig Hk].
  assert (H1 : SignalState d = 0 /\ ow ∉ WaitList d).
  { destruct Hk as [(E & _)|[(E & _)|(_ & [(? & ? & ?)|(? & _ & ?)])]]; [rewrite Hty in E; discriminate E.. | congruence | by rewrite Eow in *]. }
  destruct H1 as [Hss Hnw]. destruct (thread_at _ _ _ Hth Et) as [_ How0]. destruct (thread_at _ _ _ Hth Etn) as [_ Ht0].
  assert (Htin : t ∈ WaitList d) by (rewrite Hwl; by left).
  assert (Hne : ow <> t) by (intros ->; by apply Hnw).
  pose proof (s_owners _ _ Hinv) as [_ Hcnt]. pose proof (Hcnt ow th Et) as Hn. pose proof (Hcnt t thn Etn) as Hnn.
  pose proof (owned_bound (objects s) t) as Hb1. pose proof (owned_bound (objects s) ow) as Hb2. unfold few_objects in Hfew.
  set (d' := acquired_mutex t d) in *.
  assert (Hpos : 1 <= OwnedMutexCount th).
  { rewrite Hn. pose proof (owned_change (objects s) o d d' ow Eo) as Hch. simpl in Hch.
    rewrite decide_True, decide_False in Hch by congruence.
    pose proof (owned_bound (<[o:=d']> (objects s)) ow). lia. }
  assert (Hstep1 : KiHandOffMutexOwnership o t (set_Cpu c s) = Ok (set_Cpu c s1)).
  { unfold KiHandOffMutexOwnership. rewrite (proj2 (Z.eqb_neq t 0)) by done. cbn [negb HO_KASSERT res_bind].
    unfold get_object. simpl (objects _). rewrite Eo. cbn [res_bind].
    rewrite mutex_assert_owned by (done || congruence). cbn [res_bind]. rewrite Eow. rewrite (proj2 (Z.eqb_neq ow 0)), (proj2 (Z.eqb_neq ow t)) by done.
    cbn [negb HO_KASSERT res_bind]. unfold KiDecrementOwnedMutexCount. rewrite (proj2 (Z.eqb_neq ow 0)) by done.
    cbn [negb HO_KASSERT res_bind]. unfold get_thread. simpl (threads _). rewrite Et. cbn [res_bind].
    rewrite (proj2 (Z.eqb_neq _ 0)) by lia. cbn [negb HO_KASSERT res_bind]. rewrite u32_small by word_lia.
    unfold KiIncrementOwnedMutexCount. rewrite (proj2 (Z.eqb_neq t 0)) by done. cbn [negb HO_KASSERT res_bind].
    unfold get_thread. simpl (threads _). rewrite lookup_insert_ne, Etn by done. cbn [res_bind].
    rewrite (proj2 (Z.eqb_neq _ 0xFFFFFFFF)) by lia. cbn [negb HO_KASSERT res_bind].
    rewrite (mutex_assert_owned (set_SignalState 0 (set_Owner t d))) by done. cbn [res_bind].
    rewrite u32_small by word_lia. done. }
  destruct (waiter_blocked s o d t Hq Eo Htin) as (thn' & E' & Hsn & Hdn).
  assert (thn' = thn) as -> by congruence.
  assert (Hw1 : sinv_weak C s1).
  { set (T' := <[t := owned_up thn]> (<[ow := owned_down th]> (threads s))).
    change (sinv_weak C (set_objects (<[o := d']> (objects s)) (set_threads T' s))).
    eapply (owner_weak C o d d'); try done; [by apply sinv_weaken | |].
    - intros _. exists thn. split; [done|]. congruence.
    - intros x. unfold T'. destruct (decide (x = t)) as [->|Hxt].
      + rewrite lookup_insert_eq, Etn. simpl. unfold owned_up. do 2 f_equal.
        rewrite (owned_change _ o d) by done. simpl. rewrite decide_False, decide_True by congruence. lia.
      + rewrite lookup_insert_ne by congruence. destruct (decide (x = ow)) as [->|Hxo].
        * rewrite lookup_insert_eq, Et. simpl. unfold owned_down. do 2 f_equal.
          rewrite (owned_change _ o d) by done. simpl. rewrite decide_True, decide_False by congruence. lia.
        * rewrite lookup_insert_ne by congruence. destruct (threads s !! x) as [thx|] eqn:Ex; [|done].
          simpl. f_equal. symmetry. eapply recount_id; [exact Hcnt | done |].
          rewrite (owned_change _ o d) by done. simpl. rewrite !decide_False by congruence. lia. }
  assert (Et1 : threads s1 !! t = Some (owned_up thn)) by apply lookup_insert_eq.
  assert (Eo1 : objects s1 !! o = Some d') by apply lookup_insert_eq.
  assert (Hwk : woke [t] EC_SUCCESS s1 (woken t (owned_up thn) EC_SUCCESS s1)).
  { eapply woke_cons; [apply Hw1 | exact Et1 | exact Hsn | apply not_elem_of_nil |].
    apply woke_nil, woken_queues; [apply Hw1 | exact Et1 | exact Hsn]. }
  split; [exact Hstep1|]. split; [|split; [exact Hwk|]].
  - rewrite (KiCompleteWait_run t (owned_up thn)); [by destruct s | apply Hw1 | exact Et1 | exact Hsn].
  - apply sinv_strengthen.
    + eapply woke_weak; [exact Hw1 | exact Hwk |]. intros j x ->%list_elem_of_singleton Hjx _. exfalso.
      destruct (s_joins _ _ Hinv) as (J1 & _ & _).
      destruct (J1 t x Hjx) as (thj' & thx & Ej' & _ & _ & _ & _ & _ & Hw1' & _).
      assert (thj' = thn) as -> by congruence. rewrite (Hw1' Hsn) in Hdn. injection Hdn as <-.
      destruct (s_completions _ _ Hinv x) as [_ Hc]. destruct (Hc d Eo) as [E _]. rewrite Hty in E. discriminate E.
    + intros x dx Hx. rewrite (wk_objects _ _ _ _ Hwk) in Hx.
      destruct (decide (x = o)) as [->|Hxo].
      * rewrite Eo1 in Hx. simpl in Hx. injection Hx as <-. split; [done|]. right; right. split; [done|].
        right. simpl. split_and!; [done | done |]. intros [Hnt _]%list_elem_of_filter. apply Hnt. by left.
      * simpl in Hx. rewrite lookup_insert_ne in Hx by congruence.
        destruct (objects s !! x) as [d0|] eqn:E0; [|done]. simpl in Hx. injection Hx as <-.
        apply obj_ok_shrink. exact (map_Forall_lookup_1 _ _ _ _ (s_objects _ _ Hinv) E0).
Qed.

(** What releasing a mutex does. *)
Definition mutex_released (a : Z) (d : DISPATCHER) s (v : HO_STATUS) s' : Prop :=
  let cur := gCurrentThread s in
  if decide (OwnerThread d = cur) then
    v = EC_SUCCESS /\ exists th, threads s !! cur = Some th /\
      match WaitList d with
      | [] => s' = put_object (Standalone a) (freed_mutex d) (put_thread cur (owned_down th) s)
      | t :: _ => exists thn, threads s !! t = Some thn /\
          woke [t] EC_SUCCESS (put_thread t (owned_up thn) (put_object (Standalone a) (acquired_mutex t d)
            (put_thread cur (owned_down th) s))) s'
      end
  else v = EC_INVALID_STATE /\ s' = s.

Lemma release_mutex_run a d s :
  boundary s -> few_objects s -> objects s !! Standalone a = Some d -> DType d = DISPATCHER_TYPE_MUTEX ->
  exists v s', KeReleaseMutex (Some (Standalone a)) s = Ok (v, s') /\ boundary s' /\
    mutex_released a d s v s'.
Proof.
  intros Hb Hfew Eo Hty. unfold KeReleaseMutex.
  destruct (enter_call s Hb) as (b & -> & Eb & Hin & Hrun). cbn [res_bind]. set (s1 := set_Cpu _ s) in *.
  pose proof Hin as (Hinv & Hk & Hcpu). enter_cs cs Hk Hcpu Hleave.
  unfold get_object. simpl (objects _). rewrite Eo. cbn [res_bind].
  destruct (map_Forall_lookup_1 _ _ _ _ (s_objects _ _ Hinv) Eo) as [Hsig Hk'].
  assert (Hm : (SignalState d = 1 /\ OwnerThread d = 0 /\ WaitList d = []) \/
               (SignalState d = 0 /\ OwnerThread d <> 0 /\ OwnerThread d ∉ WaitList d)).
  { destruct Hk' as [(E & _)|[(E & _)|(_ & ?)]]; [rewrite Hty in E; discriminate E.. | done]. }
  clear Hk'. assert (Has : KiAssertMutexState d = Ok tt).
  { destruct Hm as [(? & ? & _)|(? & ? & _)]; [by apply mutex_assert_free | by apply mutex_assert_owned]. }
  rewrite Has. cbn [res_bind]. change (gCurrentThread (set_Cpu c s1)) with (gCurrentThread s1).
  destruct (Z.eqb_spec (OwnerThread d) (gCurrentThread s1)) as [Eow|Hne]; cbn [negb].
  2: { leave_cs Hleave (set_Cpu c s1). change (set_Cpu (Cpu s1) (set_Cpu c s1)) with s1.
       destruct (leave_call (calling b) b s1 Hin Hrun) as [-> Hb2]. cbn [res_bind].
       eexists _, _. split; [done|]. split; [done|]. unfold mutex_released. rewrite decide_False by done.
       rewrite Eb, after_call by done. split; [done|]. by destruct s. }
  destruct (running_states s1 Hrun) as (th & Et & Hs & _ & _).
  destruct (thread_at _ _ _ (q_threads _ _ _ _ _ (s_queues _ _ Hinv)) Et) as [_ H0].
  assert (Hbody : exists s2, (match WaitList d with
      | [] => KiReleaseMutexOwnership (Standalone a) (set_Cpu c s1)
      | nextOwner :: _ =>
          let* s := KiHandOffMutexOwnership (Standalone a) nextOwner (set_Cpu c s1) in
          KiCompleteWait nextOwner EC_SUCCESS s
      end) = Ok (set_Cpu c s2) /\ sinv (<[gCurrentThread s1 := calling b]> (SavedContext s1)) s2 /\
      same_rest s1 s2 /\ current_running s2 /\ mutex_released a d s EC_SUCCESS (set_Cpu (Cpu s) s2)).
  { destruct (WaitList d) as [|t q] eqn:Ewl.
    - destruct (release_mutex_free_run _ c (Standalone a) (gCurrentThread s1) th d s1 Hinv Hfew Eo Hty Ewl Eow H0 Et) as [-> Hinv2].
      eexists. split; [done|]. split; [exact Hinv2|]. split; [done|]. split.
      + exists (owned_down th). split; [apply lookup_insert_eq | done].
      + unfold mutex_released. rewrite decide_True, Ewl by done.
        split; [done|]. exists th. split; [exact Et|]. by destruct s.
    - destruct (waiter_blocked s1 (Standalone a) d t (s_queues _ _ Hinv) Eo) as (thn & Etn & Hsn & _); [rewrite Ewl; by left|].
      destruct (hand_off_run _ c (Standalone a) (gCurrentThread s1) t q th thn d s1 Hinv Hfew Eo Hty Ewl Eow Et Etn)
        as (-> & E2 & Hwk & Hinv2). cbn [res_bind]. rewrite E2. eexists. split; [done|]. split; [exact Hinv2|].
      split; [exact (wk_rest _ _ _ _ Hwk)|]. split.
      + eapply woke_running; [exact Hwk|].
        assert (Hne : t <> gCurrentThread s1) by (intros ->; congruence).
        exists (owned_down th). split; [|done]. simpl. rewrite lookup_insert_ne by exact Hne. apply lookup_insert_eq.
      + unfold mutex_released. rewrite decide_True, Ewl by done.
        split; [done|]. exists th. split; [exact Et|]. exists thn. split; [exact Etn|].
        by destruct (woke_cpu _ _ _ (put_thread t (owned_up thn) (put_object (Standalone a) (acquired_mutex t d)
            (put_thread (gCurrentThread s) (owned_down th) s))) _ Hwk). }
  destruct Hbody as (s2 & -> & Hinv2 & (_ & Ec & _ & Ecpu & _ & EC & _) & Hrun2 & Hmr). cbn [res_bind].
  leave_cs Hleave (set_Cpu c s2).
  replace (set_Cpu (Cpu s1) (set_Cpu c s2)) with s2 by (rewrite <- Ecpu; by destruct s2).
  destruct (leave_call (calling b) b s2) as [-> Hb2].
  - split_and!; [|done|].
    + rewrite Ec, EC. exact Hinv2.
    + unfold cpu_at. rewrite Ec, Ecpu. exact Hcpu.
  - done.
  - cbn [res_bind]. eexists _, _. split; [done|]. split; [done|]. by rewrite Eb, after_call.
Qed.

(** ** Termination *)

(** The current thread becomes terminated, under its final context. *)
Lemma terminate_sinv C kp t th s :
  sinv (<[t := kp]> C) s -> plain kp -> t = gCurrentThread s -> t <> gIdleThread s ->
  threads s !! t = Some th -> State th = KTHREAD_STATE_RUNNING -> OwnedMutexCount th = 0 ->
  IrqlStates (Cpu s) !! t = Some DISPATCH1 ->
  sinv (<[t := [InExitAfterSchedule]]> C) (put_thread t (set_State KTHREAD_STATE_TERMINATED th) s).
Proof.
  intros [[Hth Hr Hq Hw HD] Ho [Hown Hcnt] Hcp Hcx (J1 & J2 & J3) Hi Hru [Hsv Hst] Hrt] (_ & Hkp & _) Ecur Hni Et Hs Hcz HI.
  destruct (running_keys th Hs) as (K1 & K2 & K3). destruct (thread_at _ _ _ Hth Et) as [[Hp [_ Hcl]] H0].
  set (th' := set_State KTHREAD_STATE_TERMINATED th).
  assert (Hterm : forall x, terminated (threads s) x -> terminated (<[t := th']> (threads s)) x).
  { intros x (thx & Ex & Hx). exists thx. rewrite lookup_insert_ne; [done|]. intros ->. congruence. }
  assert (Hj : forall j x, joins (<[t := [InExitAfterSchedule]]> C) j x -> j <> t /\ joins (<[t := kp]> C) j x).
  { intros j x [g Hg]. apply lookup_insert_Some in Hg as [[_ Hg]|[Hne Hg]]; [done|].
    split; [done|]. exists g. by rewrite lookup_insert_ne. }
  split; simpl; try done.
  - split; simpl.
    + apply threads_keep; [done | done |]. split; [exact Hp|split; [done|]].
      apply (claim_state th); try done. by left.
    + eapply ready_keep; [done | exact Et | by rewrite K1].
    + eapply timeout_keep; [done | exact Et |]. rewrite K2. unfold tkey. by rewrite decide_False by (by intros [? _]).
    + eapply wait_keep; [done | exact Et | by rewrite K3].
    + eapply term_keep; [exact HD | | done]. intros x Hx. apply lookup_insert_ne. intros <-.
      destruct HD as [_ HD]. destruct (HD t Hx) as (thx & Ex & Hsx & _). congruence.
  - split.
    + intros o d Hd Hn. destruct (Hown o d Hd Hn) as (thx & Ex & Hsx).
      exists thx. split; [|done]. rewrite lookup_insert_ne; [done|]. intros Eow.
      pose proof (owned_change (objects s) o d (set_Owner 0 d) t Hd) as Hch. simpl in Hch.
      rewrite decide_True, decide_False in Hch by congruence. rewrite <- (Hcnt t th Et), Hcz in Hch.
      pose proof (owned_bound (<[o:=set_Owner 0 d]> (objects s)) t). lia.
    + intros x thx [[<- <-]|[_ Ex]]%lookup_insert_Some; [exact (Hcnt t th Et) | by apply Hcnt].
  - intros x. destruct (Hcp x) as [H1 H2]. split.
    + rewrite H1. destruct (decide (x = t)) as [->|]; [rewrite lookup_insert_eq, Et; split; eauto | by rewrite lookup_insert_ne by congruence].
    + intros d Hd. destruct (H2 d Hd) as [Hty Hpb]. split; [done|]. intros Hsd. by apply Hterm, Hpb.
  - intros x thx [[<- <-]|[Hne Ex]]%lookup_insert_Some.
    + exists [InExitAfterSchedule], DISPATCH1. rewrite lookup_insert_eq. split_and!; try done. constructor.
    + destruct (Hcx x thx Ex) as (k & st & Hk & H). exists k, st. rewrite lookup_insert_ne in * by done. done.
  - split_and!.
    + intros j x [Hne Hjx]%Hj. destruct (J1 j x Hjx) as (thj & thx & Ej & Ex & Hnx & Hxi & Hm & Hc & Hw1 & Hw2).
      exists thj. rewrite (lookup_insert_ne _ t j) by congruence.
      exists (if decide (x = t) then th' else thx). split_and!; try done.
      * destruct (decide (x = t)) as [->|]; [apply lookup_insert_eq | by rewrite lookup_insert_ne by congruence].
      * destruct (decide (x = t)) as [->|]; [|done]. assert (thx = th) as -> by congruence. exact Hm.
      * destruct (decide (x = t)) as [->|]; [|done]. assert (thx = th) as -> by congruence. exact Hc.
      * split; [done|]. intros Hs1 Hs2. destruct (Hw2 Hs1 Hs2). split; [by apply Hterm | done].
    + intros i j x [_ Hi']%Hj [_ Hj']%Hj. by eapply J2.
    + intros w x Hwx. assert (Hkk : wkey th' = wkey th) by (by rewrite K3).
      rewrite (kview_same wkey _ _ th th' Et Hkk) in Hwx.
      destruct (J3 w x Hwx) as [g Hg]. exists g. apply lookup_insert_Some in Hg as [[<- ->]|[Hne Hg]].
      * by destruct (Hkp g x).
      * by rewrite lookup_insert_ne.
  - destruct Hi as (thi & Ei & Hki). exists thi. by rewrite lookup_insert_ne by congruence.
  - intros x thx [[<- <-]|[_ Ex]]%lookup_insert_Some Hrun; [done | by eapply Hru].
  - split; [done|]. intros x thx [[<- <-]|[_ Ex]]%lookup_insert_Some Hx; [exact (Hst t th Et Hx) | by apply Hst].
  - eapply (runtime_keep (threads s) _ (objects s)); [| apply typed_refl | reflexivity | | intros x Hjx; by apply Hj | exact Hrt].
    + intros x (thx & Ex & Hsx & Hc) _. exists thx. rewrite lookup_insert_ne; [done|]. intros ->. congruence.
    + intros j x (g & n & Hg). apply lookup_insert_Some in Hg as [[_ Hg]|[Hne Hg]]; [done|]. exists g, n. by rewrite lookup_insert_ne.
Qed.

(** ** The reaper's queue *)

Lemma queue_reaper_run C c t th s :
  sinv C s -> threads s !! t = Some th -> t <> gIdleThread s ->
  State th = KTHREAD_STATE_TERMINATED -> TerminationMode th = KTHREAD_TERMINATION_MODE_DETACHED ->
  TerminationClaimState th = CLAIM_UNCLAIMED -> published (objects s) t -> t ∉ gTerminatedList s ->
  KiQueueDetachedThreadForReaper t (set_Cpu c s) =
    Ok (set_Cpu c (set_TerminatedList (gTerminatedList s ++ [t]) s)) /\
  sinv C (set_TerminatedList (gTerminatedList s ++ [t]) s).
Proof.
  intros Hinv Et Hni Hs Hm Hc Hp Hnd. pose proof (s_queues _ _ Hinv) as Hq.
  destruct Hq as [Hth Hr Hqt Hw [HDn HD]]. destruct (thread_at _ _ _ Hth Et) as [_ H0]. split.
  - unfold KiQueueDetachedThreadForReaper. rewrite (proj2 (Z.eqb_neq t 0)) by done.
    cbn [negb HO_KASSERT res_bind]. change (gIdleThread (set_Cpu c s)) with (gIdleThread s).
    rewrite (proj2 (Z.eqb_neq t _)) by done. cbn [negb HO_KASSERT res_bind].
    unfold get_thread. simpl (threads _). rewrite Et. cbn [res_bind].
    rewrite Hs, Hm, Hc. simpl (bool_decide _). cbn [negb HO_KASSERT res_bind].
    rewrite (published_run t (set_Cpu c s)) by done. cbn [HO_KASSERT res_bind].
    unfold KiIsThreadQueuedForReaper. rewrite (proj2 (Z.eqb_neq t 0)) by done. cbn [negb HO_KASSERT res_bind].
    replace (ready_linked t (set_Cpu c s)) with false; [done|]. symmetry.
    eapply not_ready_unlinked; [exact Hr | | done].
    rewrite (kview_at rkey _ _ th) by done. unfold rkey. by rewrite decide_False by congruence.
  - destruct Hinv as [_ Ho Hown Hcp Hcx Hj Hi Hru Hst Hrt]. split; try done. split; try done. split; simpl.
    + apply NoDup_app. split_and!; [done | | apply NoDup_singleton]. intros x Hx ->%list_elem_of_singleton. done.
    + intros x Hx. apply elem_of_app in Hx as [Hx| ->%list_elem_of_singleton]; [by apply HD | by exists th].
Qed.

(** *** [KeThreadExit] *)

Lemma woke_other l st s s' t th : woke l st s s' -> threads s !! t = Some th ->
  State th <> KTHREAD_STATE_BLOCKED -> threads s' !! t = Some th.
Proof.
  intros Hw Et Hs. rewrite (wk_threads _ _ _ _ Hw), decide_False; [done|]. intros Hl.
  destruct (wk_blocked _ _ _ _ Hw _ Hl) as (th' & Et' & Hs'). congruence.
Qed.

Lemma exit_tail_run t th cs s :
  inside [InExitAfterSchedule] DISPATCH1 s -> t = gCurrentThread s -> t <> gIdleThread s ->
  threads s !! t = Some th -> State th = KTHREAD_STATE_TERMINATED -> t ∉ gTerminatedList s ->
  (TerminationMode th = KTHREAD_TERMINATION_MODE_DETACHED -> TerminationClaimState th = CLAIM_UNCLAIMED) ->
  published (objects s) t -> inactive cs ->
  exists r, exit_tail t cs s = Ok r /\ settled r.
Proof.
  intros Hin Ecur Hni Et Hs Hnd Hcl Hp Hcs. pose proof Hin as (Hinv & Hk & Hcpu). unfold exit_tail.
  destruct (critical_run cs _ _ s Hk Hcpu Hcs) as (cs' & c & -> & Hleave). cbn [res_bind].
  unfold get_thread. simpl (threads _). rewrite Et. cbn [res_bind].
  assert (Hbody : exists s2, (if bool_decide (TerminationMode th = KTHREAD_TERMINATION_MODE_DETACHED)
      then KiQueueDetachedThreadForReaper t (set_Cpu c s) else Ok (set_Cpu c s)) = Ok (set_Cpu c s2) /\
      sinv (<[gCurrentThread s := [InExitAfterSchedule]]> (SavedContext s)) s2 /\ threads s2 = threads s /\
      gCurrentThread s2 = gCurrentThread s /\ Cpu s2 = Cpu s /\ SavedContext s2 = SavedContext s).
  { destruct (decide (TerminationMode th = KTHREAD_TERMINATION_MODE_DETACHED)) as [Hm|Hm].
    - rewrite bool_decide_eq_true_2 by done.
      destruct (queue_reaper_run _ c t th s Hinv Et Hni Hs Hm (Hcl Hm) Hp Hnd) as [-> Hinv2].
      eexists. split; [done|]. by split_and!.
    - rewrite bool_decide_eq_false_2 by done. eexists. split; [done|]. by split_and!. }
  destruct Hbody as (s2 & -> & Hinv2 & ET & Ec & Ecpu & EC). cbn [res_bind].
  leave_cs Hleave (set_Cpu c s2).
  replace (set_Cpu (Cpu s) (set_Cpu c s2)) with s2 by (rewrite <- Ecpu; by destruct s2).
  destruct (blocks_and_switches [InExitAfterSchedule] DISPATCH1 s2 th) as (s' & E & Hsw).
  - split_and!; [|done|].
    + rewrite Ec, EC. exact Hinv2.
    + unfold cpu_at. rewrite Ec, Ecpu. exact Hcpu.
  - done.
  - by rewrite ET, Ec, <- Ecur.
  - by right.
  - unfold and_then. rewrite E. cbn [res_bind]. by eexists.
Qed.

Lemma thread_exit_run s th :
  boundary s -> gCurrentThread s <> gIdleThread s -> threads s !! gCurrentThread s = Some th ->
  OwnedMutexCount th = 0 ->
  exists r, KeThreadExit s = Ok r /\ settled r.
Proof.
  intros Hb Hni Et0 Hz. unfold KeThreadExit. rewrite blocking_allowed_run by done. cbn [res_bind].
  rewrite (proj2 (Z.eqb_neq _ _) Hni). cbn [negb HO_KASSERT res_bind]. unfold get_thread. rewrite Et0.
  cbn [res_bind]. rewrite Hz. cbn [Z.eqb HO_KASSERT res_bind].
  destruct (enter_call s Hb) as (b & -> & Eb & Hin & Hrun). cbn [res_bind]. set (s1 := set_Cpu _ s) in *.
  pose proof Hin as (Hinv & Hk & Hcpu). enter_cs cs Hk Hcpu Hleave.
  set (t := gCurrentThread s) in *. unfold upd_thread, get_thread. simpl (threads _). rewrite Et0. cbn [res_bind].
  destruct (running_states s1 Hrun) as (th1 & Et1 & Hs & _ & Hnt). assert (th1 = th) as -> by (change (threads s !! t = Some th1) in Et1; congruence).
  set (s2 := count_exit (put_thread t (set_State KTHREAD_STATE_TERMINATED th) s1)).
  change (count_exit (put_thread t (set_State KTHREAD_STATE_TERMINATED th) (set_Cpu c s1))) with (set_Cpu c s2).
  destruct (Hleave (set_Cpu c s2) eq_refl) as (cs1 & -> & Hcs1). cbn [res_bind].
  change (set_Cpu (Cpu s1) (set_Cpu c s2)) with s2.
  assert (Hinv2 : sinv (<[t := [InExitAfterSchedule]]> (SavedContext s2)) s2).
  { eapply (sinv_soft _ (put_thread t (set_State KTHREAD_STATE_TERMINATED th) s1));
      [|apply soft_same; done || apply as_good_refl].
    eapply (terminate_sinv _ (calling b)); try done. apply Hcpu. }
  assert (Hin2 : inside [InExitAfterSchedule] DISPATCH1 s2).
  { split_and!; [exact Hinv2 | constructor | exact Hcpu]. }
  assert (Et2 : threads s2 !! t = Some (set_State KTHREAD_STATE_TERMINATED th)) by apply lookup_insert_eq.
  pose proof (s_queues _ _ Hinv) as Hq1.
  assert (Hnd : t ∉ gTerminatedList s2).
  { destruct Hq1 as [_ _ _ _ HD]. eapply (blocked_not_term (threads s1)); [exact HD | exact Et1 | done]. }
  assert (Hcl : TerminationMode th = KTHREAD_TERMINATION_MODE_DETACHED -> TerminationClaimState th = CLAIM_UNCLAIMED).
  { destruct (thread_at _ _ _ (q_threads _ _ _ _ _ Hq1) Et1) as [(_ & _ & H1 & H2) _]. intros Hm.
    specialize (H1 Hm). destruct (TerminationClaimState th); [done | done |]. by specialize (H2 eq_refl). }
  clear Hinv Hk Hcpu Hleave. pose proof Hin2 as (_ & Hk & Hcpu).
  unfold and_then at 1. unfold KeSetEvent, get_object.
  destruct (proj2 (proj1 (s_completions _ _ Hinv2 t))) as [d Ed]; [by eexists|]. rewrite Ed. cbn [res_bind].
  destruct (s_completions _ _ Hinv2 t) as [_ Hcomp]. destruct (Hcomp d Ed) as [Hty _].
  destruct (map_Forall_lookup_1 _ _ _ _ (s_objects _ _ Hinv2) Ed) as [Hsig _]. rewrite Hsig, Hty.
  change (KDISPATCHER_SIGNATURE =? KDISPATCHER_SIGNATURE) with true.
  change (DISPATCHER_TYPE_EVENT =? DISPATCHER_TYPE_EVENT) with true. cbn [HO_KASSERT res_bind].
  destruct (acquire_nested _ _ s2 Hk Hcpu) as (g & c2 & -> & Hok2 & Hcs2 & Hrel). cbn [res_bind].
  destruct (critical_run_at fresh_critical 2 (set_Cpu c2 s2)) as (cs2 & c3 & -> & Hleave); [done | done | change (gCriticalSectionDepth c2 < MAX_DEPTH); rewrite Hcs2; unfold MAX_DEPTH; lia | done |].
  cbn [res_bind]. change (put_object (Completion t) (set_SignalState 1 d) (set_Cpu c3 (set_Cpu c2 s2)))
    with (set_Cpu c3 (put_object (Completion t) (set_SignalState 1 d) s2)).
  destruct (signal_event_run _ c3 (Completion t) d s2 Hinv2 Ed Hty) as (s3 & E3 & Hw & Hinv3).
  { intros x [= <-]. by eexists. }
  cbv zeta in E3. rewrite E3. cbn [res_bind]. destruct (wk_rest _ _ _ _ Hw) as (ED & Ec & Ei & Ecpu & _ & EC & _).
  simpl in ED, Ec, Ei, Ecpu, EC.
  assert (Hns : need_schedule (set_Cpu c3 s3) = false).
  { unfold need_schedule. change (gCurrentThread (set_Cpu c3 s3)) with (gCurrentThread s3).
    change (gIdleThread (set_Cpu c3 s3)) with (gIdleThread s3). rewrite Ec, Ei. apply andb_false_intro1, Z.eqb_neq. done. }
  rewrite Hns. leave_cs Hleave (set_Cpu c3 s3).
  change (Cpu (set_Cpu c2 s2)) with c2. change (set_Cpu c2 (set_Cpu c3 s3)) with (set_Cpu c2 s3).
  rewrite (Hrel (set_Cpu c2 s3)) by done. cbn [res_bind].
  change (set_Cpu (Cpu s2) (set_Cpu c2 s3)) with (set_Cpu (Cpu s2) s3).
  replace (set_Cpu (Cpu s2) s3) with s3 by (change (Cpu s2) with (Cpu s1); unfold s1; simpl; rewrite <- Ecpu; by destruct s3).
  apply (exit_tail_run t (set_State KTHREAD_STATE_TERMINATED th)); try done.
  - split_and!; [|done|].
    + rewrite Ec, EC. exact Hinv3.
    + unfold cpu_at. rewrite Ec, Ecpu. exact Hcpu.
  - by rewrite Ei.
  - eapply woke_other; [exact Hw | exact Et2 | done].
  - by rewrite ED.
  - eapply relisted_published; [by eapply woke_relisted|]. eexists. split; [apply lookup_insert_eq | done].
Qed.

(** ** Join and detach *)

(** What the first part of a join leaves behind for each decision. *)
Definition joinable (th : KTHREAD) : Prop :=
  TerminationMode th = KTHREAD_TERMINATION_MODE_JOINABLE /\ TerminationClaimState th = CLAIM_UNCLAIMED.
Definition finished t (th : KTHREAD) s : Prop :=
  State th = KTHREAD_STATE_TERMINATED /\ published (objects s) t.

Definition join_claimed t (th : KTHREAD) (timeoutNs : Z) s (next : join_step) s' : Prop :=
  match next with
  | JoinRejected => s' = s /\ (t = gIdleThread s \/ ~ joinable th)
  | JoinTimeout => s' = s /\ timeoutNs = 0 /\ ~ finished t th s
  | JoinReap => finished t th s /\ s' = put_thread t (set_Claim CLAIM_CONSUMED th) s
  | JoinWait => s' = put_thread t (set_Claim CLAIM_JOIN_IN_PROGRESS th) s /\ timeoutNs <> 0 /\ ~ finished t th s
  end.

Lemma claim_back t th s : threads s !! t = Some th -> TerminationClaimState th = CLAIM_UNCLAIMED ->
  put_thread t (set_Claim CLAIM_UNCLAIMED (set_Claim CLAIM_JOIN_IN_PROGRESS th)) s = s.
Proof.
  intros Et Hc. assert (set_Claim CLAIM_UNCLAIMED (set_Claim CLAIM_JOIN_IN_PROGRESS th) = th) as ->.
  { destruct th. simpl in *. by rewrite Hc. }
  unfold put_thread. rewrite insert_id by done. by destruct s.
Qed.

Lemma put_thread_twice t a b s : put_thread t b (put_thread t a s) = put_thread t b s.
Proof. unfold put_thread. simpl. by rewrite insert_insert_eq. Qed.

Lemma completion_flag C t th s : sinv C s -> threads s !! t = Some th ->
  exists d, objects s !! Completion t = Some d /\
    KiIsThreadTerminationCompletionPublished t s = Ok (negb (SignalState d =? 0)).
Proof.
  intros Hinv Et. destruct (proj2 (proj1 (s_completions _ _ Hinv t))) as [d Ed]; [by eexists|].
  exists d. split; [done|]. unfold KiIsThreadTerminationCompletionPublished.
  destruct (thread_at _ _ _ (q_threads _ _ _ _ _ (s_queues _ _ Hinv)) Et) as [_ H0].
  rewrite (proj2 (Z.eqb_neq t 0)) by done. cbn [negb HO_KASSERT res_bind]. unfold get_object. by rewrite Ed.
Qed.

Lemma join_claim_run C c t th timeoutNs s : sinv C s -> threads s !! t = Some th ->
  exists next s', join_claim t timeoutNs (set_Cpu c s) = Ok (next, set_Cpu c s') /\
    join_claimed t th timeoutNs s next s' /\ (next <> JoinRejected -> t <> gIdleThread s /\ joinable th).
Proof.
  intros Hinv Et. unfold join_claim. change (gIdleThread (set_Cpu c s)) with (gIdleThread s).
  destruct (Z.eqb_spec t (gIdleThread s)) as [Hi|Hi].
  { exists JoinRejected, s. split; [done|]. split; [split; [done | by left] | done]. }
  unfold get_thread. simpl (threads _). rewrite Et. cbn [res_bind].
  assert (Hno : ~ joinable th -> exists next s', Ok (JoinRejected, set_Cpu c s) = Ok (next, set_Cpu c s') /\
    join_claimed t th timeoutNs s next s' /\ (next <> JoinRejected -> t <> gIdleThread s /\ joinable th)).
  { intros Hnj. exists JoinRejected, s. split; [done|]. split; [split; [done | by right] | done]. }
  destruct (TerminationMode th) eqn:Hm; [apply Hno; intros [? _]; congruence|].
  change (bool_decide (KTHREAD_TERMINATION_MODE_JOINABLE = KTHREAD_TERMINATION_MODE_DETACHED)) with false.
  destruct (TerminationClaimState th) eqn:Hc; [|apply Hno; intros [_ ?]; congruence..]. clear Hno.
  change (bool_decide (CLAIM_UNCLAIMED = CLAIM_CONSUMED)) with false.
  change (bool_decide (CLAIM_UNCLAIMED = CLAIM_JOIN_IN_PROGRESS)) with false. cbv iota zeta.
  destruct (thread_at _ _ _ (q_threads _ _ _ _ _ (s_queues _ _ Hinv)) Et) as [_ H0].
  assert (Hrest : forall x : bool,
    (if x then finished t th s else ~ finished t th s) ->
    exists next s', (if x then
        let* s := KiMarkThreadTerminationConsumed t (put_thread t (set_Claim CLAIM_JOIN_IN_PROGRESS th) (set_Cpu c s)) in
        Ok (JoinReap, s)
      else if timeoutNs =? 0 then
        let* s := KiReleaseThreadJoinClaim t (put_thread t (set_Claim CLAIM_JOIN_IN_PROGRESS th) (set_Cpu c s)) in
        Ok (JoinTimeout, s)
      else Ok (JoinWait, put_thread t (set_Claim CLAIM_JOIN_IN_PROGRESS th) (set_Cpu c s))) =
      Ok (next, set_Cpu c s') /\ join_claimed t th timeoutNs s next s' /\
      (next <> JoinRejected -> t <> gIdleThread s /\ joinable th)).
  { intros x Hx. unfold KiMarkThreadTerminationConsumed, KiReleaseThreadJoinClaim, get_thread.
    rewrite (proj2 (Z.eqb_neq t 0)) by done. cbn [negb HO_KASSERT res_bind].
    simpl (threads _). rewrite lookup_insert_eq. cbn [res_bind].
    destruct x; [|destruct (Z.eqb_spec timeoutNs 0)]; cbn.
    - exists JoinReap, (put_thread t (set_Claim CLAIM_CONSUMED th) s).
      rewrite put_thread_twice. split; [done|]. split; [by split|]. intros _. split; [done | by split].
    - exists JoinTimeout, s. rewrite put_thread_twice, (claim_back t th (set_Cpu c s)) by done. split; [done|]. split; [by split|].
      intros _. split; [done | by split].
    - exists JoinWait, (put_thread t (set_Claim CLAIM_JOIN_IN_PROGRESS th) s). split; [done|]. split; [by split|].
      intros _. split; [done | by split]. }
  destruct (decide (State th = KTHREAD_STATE_TERMINATED)) as [Hs|Hs].
  - rewrite bool_decide_eq_true_2 by done.
    destruct (completion_flag C t th s Hinv Et) as (d & Ed & Ef).
    assert (Ef' : KiIsThreadTerminationCompletionPublished t (put_thread t (set_Claim CLAIM_JOIN_IN_PROGRESS th) (set_Cpu c s))
              = Ok (negb (SignalState d =? 0))) by exact Ef.
    rewrite Ef'. cbn [res_bind]. apply Hrest. destruct (Z.eqb_spec (SignalState d) 0) as [Hd|Hd]; cbn [negb].
    + intros [_ (d' & Ed' & Hd')]. congruence.
    + split; [done|]. by exists d.
  - rewrite bool_decide_eq_false_2 by done. cbn [res_bind]. apply (Hrest false). by intros [? _].
Qed.

(** A thread nobody has claimed has no pending join. *)
Lemma unclaimed_unjoined C t th s : sinv C s -> threads s !! t = Some th ->
  TerminationClaimState th <> CLAIM_JOIN_IN_PROGRESS -> unjoined C t.
Proof.
  intros Hinv Et Hc j Hj. destruct (s_joins _ _ Hinv) as (J1 & _).
  destruct (J1 j t Hj) as (_ & th' & _ & Et' & _ & _ & _ & Hc' & _). congruence.
Qed.

Lemma reclaimed_claim th c : reclaimed th (set_Claim c th).
Proof. by destruct th. Qed.

(** Claiming a joinable thread inside a call. *)
Lemma claim_inside b t th x s : inside (calling b) DISPATCH1 s -> threads s !! t = Some th -> joinable th ->
  (x = CLAIM_CONSUMED -> State th = KTHREAD_STATE_TERMINATED) ->
  inside (calling b) DISPATCH1 (put_thread t (set_Claim x th) s).
Proof.
  intros Hin Et [Hm Hc] Hx. pose proof Hin as (Hinv & _ & _). apply inside_put; [done|].
  eapply lifecycle_sinv; [exact Hinv | exact Et | apply reclaimed_claim | split; simpl; [congruence | done] | | | congruence].
  - eapply joinable_not_reaped; [apply Hinv | exact Et | done].
  - eapply unclaimed_unjoined; [exact Hinv | exact Et | congruence].
Qed.

Lemma detach_claim_run C c t th s : sinv C s -> threads s !! t = Some th ->
  exists v s', detach_claim t (set_Cpu c s) = Ok (v, set_Cpu c s') /\ sinv C s' /\ Cpu s' = Cpu s /\
    gCurrentThread s' = gCurrentThread s /\ SavedContext s' = SavedContext s /\
    (current_running s -> current_running s').
Proof.
  intros Hinv Et. pose proof (s_queues _ _ Hinv) as Hq.
  assert (Hno : exists v s', Ok (KiRejectThreadLifecycleAction, set_Cpu c s) = Ok (v, set_Cpu c s') /\ sinv C s' /\
    Cpu s' = Cpu s /\ gCurrentThread s' = gCurrentThread s /\ SavedContext s' = SavedContext s /\
    (current_running s -> current_running s')) by (by eexists _, s).
  unfold detach_claim. change (gIdleThread (set_Cpu c s)) with (gIdleThread s).
  destruct (Z.eqb_spec t (gIdleThread s)) as [Hi|Hi]; [done|].
  unfold get_thread. simpl (threads _). rewrite Et. cbn [res_bind].
  destruct (TerminationMode th) eqn:Hm; [done|].
  change (bool_decide (KTHREAD_TERMINATION_MODE_JOINABLE = KTHREAD_TERMINATION_MODE_DETACHED)) with false.
  destruct (TerminationClaimState th) eqn:Hc; [|done..]. clear Hno.
  change (bool_decide (CLAIM_UNCLAIMED = CLAIM_CONSUMED)) with false.
  change (bool_decide (CLAIM_UNCLAIMED = CLAIM_JOIN_IN_PROGRESS)) with false. cbv iota zeta.
  pose proof (joinable_not_reaped s t th Hq Et Hm) as Hnr.
  set (th' := set_TerminationMode KTHREAD_TERMINATION_MODE_DETACHED th).
  change (put_thread t th' (set_Cpu c s)) with (set_Cpu c (put_thread t th' s)).
  assert (Hinv1 : sinv C (put_thread t th' s)).
  { eapply lifecycle_sinv; [exact Hinv | exact Et | by destruct th | | done | | congruence].
    - split; simpl; rewrite Hc; done.
    - eapply unclaimed_unjoined; [exact Hinv | exact Et | congruence]. }
  assert (Et1 : threads (put_thread t th' s) !! t = Some th') by apply lookup_insert_eq.
  assert (Hrun : current_running s -> current_running (put_thread t th' s)) by (intros; by eapply current_running_put).
  assert (Hplain : exists v s', Ok (EC_SUCCESS, set_Cpu c (put_thread t th' s)) = Ok (v, set_Cpu c s') /\ sinv C s' /\
    Cpu s' = Cpu s /\ gCurrentThread s' = gCurrentThread s /\ SavedContext s' = SavedContext s /\
    (current_running s -> current_running s')) by (by eexists _, (put_thread t th' s)).
  destruct (decide (State th = KTHREAD_STATE_TERMINATED)) as [Hs|Hs].
  2: { by rewrite bool_decide_eq_false_2 by done. }
  rewrite bool_decide_eq_true_2 by done.
  destruct (completion_flag C t th' _ Hinv1 Et1) as (d & Ed & Ef).
  assert (Ef' : KiIsThreadTerminationCompletionPublished t (set_Cpu c (put_thread t th' s)) =
            Ok (negb (SignalState d =? 0))) by exact Ef.
  rewrite Ef'. cbn [res_bind]. destruct (Z.eqb_spec (SignalState d) 0) as [|Hd]; cbn [negb]; [done|].
  destruct (queue_reaper_run C c t th' _ Hinv1 Et1 Hi Hs eq_refl Hc) as [-> Hinv2]; [by exists d | done |].
  cbn [res_bind]. eexists _, _. split; [done|]. by split_and!.
Qed.

Lemma detach_run t s : boundary s -> is_Some (threads s !! t) ->
  exists v s', KeThreadDetach t s = Ok (v, s') /\ boundary s'.
Proof.
  intros Hb [th Et]. unfold KeThreadDetach. pose proof Hb as [(Hinv0 & _ & _) _].
  destruct (thread_at _ _ _ (q_threads _ _ _ _ _ (s_queues _ _ Hinv0)) Et) as [_ H0].
  rewrite (proj2 (Z.eqb_neq t 0)) by done.
  destruct (enter_call s Hb) as (b & -> & _ & Hin & Hrun). cbn [res_bind]. set (s1 := set_Cpu _ s) in *.
  pose proof Hin as (Hinv & Hk & Hcpu). enter_cs cs Hk Hcpu Hleave.
  destruct (detach_claim_run _ c t th s1 Hinv Et) as (v & s2 & -> & Hinv2 & Ecpu & Ec & EC & Hrun2). cbn [res_bind].
  leave_cs Hleave (set_Cpu c s2). change (set_Cpu (Cpu s1) (set_Cpu c s2)) with (set_Cpu (Cpu s1) s2).
  replace (set_Cpu (Cpu s1) s2) with s2 by (rewrite <- Ecpu; by destruct s2).
  destruct (leave_call (calling b) b s2) as [-> Hb2].
  - split_and!; [by rewrite Ec, EC | done | unfold cpu_at; by rewrite Ecpu, Ec].
  - by apply Hrun2.
  - cbn [res_bind]. by eexists _, _.
Qed.

(** ** The timer interrupt *)

Lemma soft_inside k st s s' : inside k st s -> soft s s' -> inside k st s'.
Proof.
  intros (Hinv & Hk & Hcpu) Hs. destruct (so_rest _ _ Hs) as (_ & Ec & _ & Ecpu & EC & _).
  split_and!; [|done|].
  - rewrite Ec, EC. by eapply sinv_soft.
  - unfold cpu_at. by rewrite Ec, Ecpu.
Qed.

Lemma soft_running s s' : current_running s -> soft s s' -> current_running s'.
Proof.
  intros (th & Et & Hs) Hso. destruct (so_rest _ _ Hso) as (_ & Ec & _).
  destruct (requantumed_fwd _ _ _ _ (so_threads _ _ Hso) Et) as [q Eq]. eexists. by rewrite Ec.
Qed.

Lemma woke_inside k st l s s' : inside k st s -> woke l EC_TIMEOUT s s' -> inside k st s'.
Proof.
  intros (Hinv & Hk & Hcpu) Hw. destruct (wk_rest _ _ _ _ Hw) as (_ & Ec & _ & Ecpu & _ & EC & _).
  split_and!; [|done|].
  - rewrite Ec, EC. eapply woke_sinv; [exact Hinv | exact Hw | done].
  - unfold cpu_at. by rewrite Ec, Ecpu.
Qed.

(** The interrupted thread is accounted for under the interrupt's frame. *)
Lemma enter_interrupt_run s : boundary s ->
  exists c, on_cpu KeEnterInterruptContext (set_Cpu (set_IF false (Cpu s)) s) = Ok (set_Cpu c s) /\
    inside [InTimerInterrupt] INTERRUPT1 (set_Cpu c s) /\ current_running (set_Cpu c s).
Proof.
  intros [Hin Hrun]. pose proof Hin as (_ & _ & E & H0 & Hcs & Hst & _).
  unfold on_cpu, KeEnterInterruptContext.
  rewrite (get_state _ PASSIVE0) by (simpl; congruence). cbn [res_bind].
  change (KiAssertIrqlState PASSIVE0) with (@Ok unit tt). cbn [res_bind].
  change (DispatchDepth PASSIVE0 =? MAX_DEPTH) with false. change (InterruptDepth PASSIVE0 =? MAX_DEPTH) with false.
  cbn [negb HO_KASSERT res_bind].
  change (mkIrqlState KE_IRQL_DISPATCH_LEVEL (u32 (DispatchDepth PASSIVE0 + 1)) (u32 (InterruptDepth PASSIVE0 + 1)))
    with INTERRUPT1.
  change (KiAssertIrqlState INTERRUPT1) with (@Ok unit tt). cbn [res_bind].
  eexists. split; [done|]. split; [|done].
  destruct (running_states s Hrun) as (th & Et & _ & Hnb & Hnt).
  eapply (recontext_inside []); eauto.
  - constructor.
  - done.
  - simpl. by rewrite E.
Qed.

(** What the interrupt handler leaves: the interrupted thread's interrupt
    context, or another thread. *)
Definition handled {A} (r : outcome W A) : Prop :=
  match r with
  | Done _ s => inside [InTimerInterrupt] INTERRUPT1 s /\ current_running s
  | Switched s => switched s
  end.

Lemma isr_reschedule_run now s : inside [InTimerInterrupt] INTERRUPT1 s -> current_running s ->
  exists r, (let idle := gCurrentThread s =? gIdleThread s in
    let* (needReschedule, s) :=
      if idle && KiHasAnyReadyThread s then Ok (true, s)
      else if negb idle && (gQuantumDeadlineNs s <=? now) then
        let* s := make_ready (gCurrentThread s) s in
        Ok (true, count_preemption s)
      else Ok (false, s) in
    if (needReschedule : bool) then KiSchedule [InTimerInterrupt] s
    else
      let* s := KiArmForNextEvent now (gCurrentThread s) s in
      Ok (Done tt s)) = Ok r /\ handled r.
Proof.
  intros Hin Hrun. cbv zeta.
  assert (Hsched : forall s0, inside [InTimerInterrupt] INTERRUPT1 s0 -> may_switch s0 ->
    exists r, KiSchedule [InTimerInterrupt] s0 = Ok r /\ handled r).
  { intros s0 Hin0 Hm.
    destruct (KiSchedule_run _ INTERRUPT1 s0 Hin0 ltac:(done) Hm)
      as (next & R & _ & [(_ & s' & E & Hin' & Hrun' & _)|(_ & s' & E & Hsw & _)]); by eexists. }
  pose proof Hin as (Hinv & Hk & Hcpu). destruct Hrun as (th & Et & Hs).
  destruct (Z.eqb_spec (gCurrentThread s) (gIdleThread s)) as [Hi|Hi]; cbn [negb andb].
  - destruct (KiHasAnyReadyThread s); cbn [res_bind].
    + apply Hsched; [done|]. by intros _ _ _.
    + destruct (KiArmForNextEvent_run now (gCurrentThread s) th s) as (s' & -> & Hso);
        [apply Hinv | apply (s_stacks _ _ Hinv) | done |].
      cbn [res_bind]. eexists. split; [done|]. split; [by eapply soft_inside|].
      eapply soft_running; [by exists th | done].
  - destruct (gQuantumDeadlineNs s <=? now).
    + destruct (readied_sinv _ (gCurrentThread s) th s Hinv Et (or_intror Hs)) as [-> Hinv1]. cbn [res_bind].
      apply Hsched.
      * apply (soft_inside _ _ (readied (gCurrentThread s) th s)); [split; [exact Hinv1 | by split]|].
        apply soft_same; done || apply as_good_refl.
      * intros th' Et' Hr. simpl in Et'. rewrite lookup_insert_eq in Et'. injection Et' as <-. done.
    + cbn [res_bind].
      destruct (KiArmForNextEvent_run now (gCurrentThread s) th s) as (s' & -> & Hso);
        [apply Hinv | apply (s_stacks _ _ Hinv) | done |].
      cbn [res_bind]. eexists. split; [done|]. split; [by eapply soft_inside|].
      eapply soft_running; [by exists th | done].
Qed.

Lemma isr_run fromUser s : inside [InTimerInterrupt] INTERRUPT1 s -> current_running s ->
  exists r, KiSchedulerTimerISR fromUser [InTimerInterrupt] s = Ok r /\ handled r.
Proof.
  intros Hin Hrun. unfold KiSchedulerTimerISR.
  assert (Hok : forall s0, soft s s0 -> svc_ok (Svc s0)).
  { intros s0 Hs0. eapply soft_svc; [exact Hs0|]. apply (s_stacks _ _ (proj1 Hin)). }
  set (s1 := set_Svc (OnClockInterrupt (Svc s)) s).
  assert (H1 : soft s s1).
  { apply soft_same; try done. apply quiet_good, interrupt_law; apply (Hok s), soft_refl. }
  destruct (gSchedulerEnabled s1); cbn [negb].
  2: { eexists. split; [done|]. split; [by eapply soft_inside | by eapply soft_running]. }
  assert (KiAssertDispatchLevel s1 = Ok tt) as ->.
  { unfold KiAssertDispatchLevel. destruct (soft_inside _ _ _ _ Hin H1) as (_ & Hk & Hcpu).
    rewrite (current_level _ _ (cpu_at_ok _ _ _ Hk Hcpu)). done. }
  cbn [res_bind].
  match goal with |- context [KiNowNs ?x] => set (s2 := x) end.
  assert (H2 : soft s s2).
  { unfold s2. destruct fromUser; [|done]. destruct (ObserveTimerHook (Svc s1)) as [f|] eqn:Ef; [|done].
    destruct (OwnsThreadHook (Svc s1)) as [owns|]; [|done]. destruct (_ && _); [|done].
    eapply soft_trans; [exact H1|]. apply soft_same; try done.
    apply quiet_good; [exact (Hok s1 H1)|]. exact (observe_law (Svc s1) f _ (Hok s1 H1) Ef). }
  destruct (KiNowNs_run s2 (Hok _ H2)) as (s3 & -> & H23 & _).
  assert (H3 : soft s s3) by (by eapply soft_trans).
  destruct (negb (gNextProgrammedDeadlineNs s3 =? 0) && (now_of (Svc s2) <? gNextProgrammedDeadlineNs s3)).
  { eexists. split; [done|]. assert (H4 := arm_clock_soft (gNextProgrammedDeadlineNs s3 - now_of (Svc s2)) s3 (Hok _ H3)).
    pose proof (soft_trans _ _ _ H3 H4) as H5. split; [by eapply soft_inside | by eapply soft_running]. }
  pose proof (soft_inside _ _ _ _ Hin H3) as Hin3. pose proof (soft_running _ _ Hrun H3) as Hrun3.
  unfold KiWakeTimeouts.
  destruct (wake_timeouts_run (S (length (gTimeoutQueue s3))) (now_of (Svc s2)) s3) as (s4 & -> & Hw);
    [apply Hin3 | lia |]. cbn [res_bind].
  apply isr_reschedule_run; [by eapply woke_inside | by eapply woke_running].
Qed.

Lemma timer_run fromUser s : boundary s ->
  exists r, timer_interrupt fromUser s = Ok r /\ settled r.
Proof.
  intros Hb. unfold timer_interrupt. destruct (MaskableInterruptEnabled (Cpu s)); cbn [negb]; [|by eexists].
  destruct (enter_interrupt_run s Hb) as (c & -> & Hin & Hrun). cbn [res_bind].
  destruct (isr_run fromUser _ Hin Hrun) as (r & E & Hr). unfold and_then. rewrite E. cbn [res_bind].
  destruct r as [[] s'|s']; [|by eexists]. destruct Hr as [Hin' Hrun'].
  destruct (end_of_interrupt_run s' Hin' Hrun') as (s2 & -> & Hb2). cbn [res_bind]. by eexists.
Qed.

End calls.
End SchedCalls.
