(* ===== verification/SchedReap.v ===== *)
(** * Freeing threads, and resuming them

    A thread's finalisation calls the registered hook, whose stages set events in
    the middle of it.  A thread other than the idle thread always gets through; the
    idle thread may be switched away from after each event, and then goes on with
    the stages left when it is resumed.  On this rest the calls that finalise - the
    join and the reaper - and the resumption of any suspended thread. *)

From S2P Require Import Prelude Irql Sched SchedInv SchedSafe SchedCalls.

Local Open Scope Z_scope.
Import Irql Sched SchedInv SchedSafe SchedCalls.

Module SchedReap.
Section reaping.
Context {W : Type} {SV : Services W} {SL : ServicesLaws W}.
Implicit Types (s : SCHED W).

(** ** The hook *)

Lemma carries_boundary w s : boundary s -> carries (Svc s) w -> boundary (set_Svc w s).
Proof.
  intros [(Hinv & Hk & Hcpu) Hrun] Hw. split; [split_and!|]; try done.
  destruct Hinv as [Hq Ho Hown Hcp Hcx Hj Hi Hr Hst Hrt]. split; try done.
  - eapply stacks_keep; [apply requantumed_statics, requantumed_refl | exact Hw | done].
  - eapply runtime_statics; [apply requantumed_statics, requantumed_refl | apply typed_refl | exact Hw | done].
Qed.

(** What a stretch of the hook that is not switched away from leaves as it was. *)
Record hooked s s' : Prop := {
  hk_threads : statics (threads s) (threads s');
  hk_rest : gTerminatedList s' = gTerminatedList s /\ gCurrentThread s' = gCurrentThread s /\
    gIdleThread s' = gIdleThread s /\ SavedContext s' = SavedContext s;
  hk_svc : carries (Svc s) (Svc s')
}.

#[export] Instance hooked_preorder : PreOrder hooked.
Proof.
  split.
  - intros s. split; [apply requantumed_statics, requantumed_refl | done | reflexivity].
  - intros s1 s2 s3 [A1 (A2 & A3 & A4 & A5) A6] [B1 (B2 & B3 & B4 & B5) B6]. split.
    + intros t. specialize (A1 t). specialize (B1 t). destruct (threads s1 !! t), (threads s2 !! t), (threads s3 !! t); try done.
      destruct A1 as [C1 C2 C3 C4 C5], B1 as [D1 D2 D3 D4 D5]. split; congruence || by rewrite D5.
    + split_and!; congruence.
    + by etransitivity.
Qed.

(** How a routine that may finalise threads ends, [P] being what it achieves if it
    was not switched away from. *)
Definition finishes {A} (P : A -> SCHED W -> Prop) s (m : res (outcome W A)) : Prop :=
  exists r, m = Ok r /\ settles s r /\ forall a s', r = Done a s' -> P a s'.

Lemma finishes_bind {A B} (P : A -> SCHED W -> Prop) (Q : B -> SCHED W -> Prop) s m f :
  finishes P s m ->
  (forall a s', boundary s' -> P a s' -> finishes Q s' (f a s') /\ gCurrentThread s' = gCurrentThread s /\ gIdleThread s' = gIdleThread s) ->
  finishes Q s (and_then m f).
Proof.
  intros (r & -> & Hr & Hd) Hf. unfold and_then. cbn [res_bind]. destruct r as [a s'|s'].
  - destruct (Hf a s' Hr (Hd a s' eq_refl)) as ((r & E & Hr' & Hd') & Ec & Ei). exists r. split; [done|]. split; [|done].
    destruct r; [done|]. destruct Hr' as [Hi Hr']. rewrite Ec, Ei in Hi. done.
  - eexists. split; [done|]. split; [done|]. by intros a s'' [=].
Qed.

Lemma finishes_settled {A} (P : A -> SCHED W -> Prop) s m : finishes P s m -> exists r, m = Ok r /\ settled r.
Proof. intros (r & E & Hr & _). exists r. split; [done | by eapply settles_settled]. Qed.

Lemma finishes_done {A} (P : A -> SCHED W -> Prop) s a s' : boundary s' -> P a s' -> finishes P s (Ok (Done a s')).
Proof. intros Hb HP. eexists. split; [done|]. split; [done|]. by intros ? ? [= <- <-]. Qed.

Section hook.
Context (t : Z) (k : list FRAME).

(** Thread [t] is being finalised by the current thread: by the idle thread only
    in the reaper. *)
Record finalizing s : Prop := {
  fz_boundary : boundary s;
  fz_condemned : condemned (threads s) t;
  fz_alone : unfinalized (<[gCurrentThread s := []]> (SavedContext s)) t;
  fz_return : gCurrentThread s = gIdleThread s -> k = [InReap]
}.

Lemma finalizing_hooked s s' : finalizing s -> boundary s' -> hooked s s' -> finalizing s'.
Proof.
  intros [_ Hc Hu Hk] Hb [HT (_ & Ec & Ei & EC) _]. split; [done | | |].
  - by eapply statics_condemned.
  - by rewrite Ec, EC.
  - by rewrite Ec, Ei.
Qed.

Lemma woke_hooked l st o d d' s s' : woke l st (put_object o d' s) s' -> objects s !! o = Some d -> hooked s s'.
Proof.
  intros Hw Eo. destruct (wk_rest _ _ _ _ Hw) as (ED & Ec & Ei & _ & Es & EC & _). split.
  - by eapply (woke_statics l st (put_object o d' s)).
  - done.
  - rewrite Es. reflexivity.
Qed.

Lemma run_hook_finishes w0 f stages : svc_ok w0 -> FinalizeThreadHook w0 = Some f -> (forall x, x ∈ stages -> x ∈ f t) ->
  forall n s, finalizing s -> is_Some (FinalizeThreadHook (Svc s)) ->
  finishes (fun _ => hooked s) s (run_hook t n stages k s).
Proof.
  intros Hw0 Hf. induction stages as [|stage stages IH]; intros Hin n s Hz Hh; cbn [run_hook].
  { apply finishes_done; [apply Hz | reflexivity]. }
  pose proof (fz_boundary _ Hz) as Hb. destruct (s_stacks _ _ (proj1 (proj1 Hb))) as [Hw _].
  destruct (stage_law w0 f t stage (Svc s) Hw0 Hf (Hin stage ltac:(by left)) Hw)
    as (ev & w & -> & Hw' & Hlive & Hhk & Hev & Hset).
  rewrite bool_decide_eq_true_2 by done. cbn [negb].
  assert (Hcar : carries (Svc s) w) by (by split_and!).
  set (s1 := set_Svc w s). assert (H1 : hooked s s1).
  { split; [apply requantumed_statics, requantumed_refl | done | done]. }
  assert (Hb1 : boundary s1) by (by apply carries_boundary).
  pose proof (finalizing_hooked _ _ Hz Hb1 H1) as Hz1.
  assert (Hrest : forall s2, finalizing s2 -> hooked s s2 ->
    finishes (fun _ => hooked s) s2 (run_hook t (S n) stages k s2)).
  { intros s2 Hz2 H2. destruct (IH (fun x Hx => Hin x ltac:(by right)) (S n) s2 Hz2) as (r & E & Hr & Hd).
    - by apply (hk_svc _ _ H2).
    - exists r. split; [done|]. split; [done|]. intros [] s3 E3. etransitivity; [exact H2 | by apply (Hd tt)]. }
  destruct ev as [a|].
  - destruct (s_runtime _ _ (proj1 (proj1 Hb1))) as (Hrt & _).
    destruct (Hrt a (Hset a eq_refl)) as (d & Ed & Hty).
    destruct (set_event_run a d (InFinalize t (S n) :: k) s1 Hb1 Ed Hty) as (r & E & Hr & Hd).
    { intros Hi. right. exists t, (S n). rewrite (fz_return _ Hz1 Hi). split; [done|]. split; [by apply Hhk | apply Hz1]. }
    change (finishes (fun _ => hooked s) s) with (finishes (fun _ : unit => hooked s) s1).
    apply (finishes_bind (fun _ => hooked s1)).
    + exists r. split; [done|]. split; [done|]. intros v s' E'. destruct (Hd v s' E') as [_ Hwk]. by eapply woke_hooked.
    + intros _ s2 Hb2 H2. pose proof (hk_rest _ _ H2) as (_ & Ec & Ei & _). split; [|done].
      apply Hrest; [by eapply finalizing_hooked | by etransitivity].
  - exact (Hrest s1 Hz1 H1).
Qed.

(** The thread, and no other, is gone. *)
Definition freed s s' : Prop :=
  threads s' !! t = None /\ (forall x, x <> t -> is_Some (threads s' !! x) <-> is_Some (threads s !! x)) /\
  gTerminatedList s' = gTerminatedList s /\ gCurrentThread s' = gCurrentThread s /\ gIdleThread s' = gIdleThread s.

Lemma release_finishes s s1 : finalizing s1 -> hooked s s1 ->
  finishes (fun _ => freed s) s1 (let* s := release_thread t s1 in Ok (Done tt s)).
Proof.
  intros [Hb Hc Hu _] [HT (ED & Ec & Ei & _) _]. destruct (release_boundary t s1 Hb Hc Hu) as (w & -> & Hb').
  cbn [res_bind]. apply finishes_done; [done|]. split_and!; simpl; try done.
  - apply lookup_delete_eq.
  - intros x Hx. rewrite lookup_delete_ne by congruence. by apply statics_is_some.
Qed.

Lemma finalize_from_finishes n s : finalizing s -> is_Some (FinalizeThreadHook (Svc s)) ->
  finishes (fun _ => freed s) s (finalize_from t n k s).
Proof.
  intros Hz Hh. unfold finalize_from. pose proof (fz_boundary _ Hz) as Hb.
  destruct (s_stacks _ _ (proj1 (proj1 Hb))) as [Hw _]. destruct (FinalizeThreadHook (Svc s)) as [f|] eqn:Ef; [|by destruct Hh].
  apply (finishes_bind (fun _ => hooked s)).
  - eapply run_hook_finishes; [exact Hw | exact Ef | | done | by rewrite Ef]. intros x Hx. revert Hx. apply subseteq_drop.
  - intros _ s1 Hb1 H1. pose proof (hk_rest _ _ H1) as (_ & Ec & Ei & _). split; [|done].
    apply release_finishes; [by eapply finalizing_hooked | done].
Qed.

Lemma KiFinalizeThread_finishes s : finalizing s -> finishes (fun _ => freed s) s (KiFinalizeThread t k s).
Proof.
  intros Hz. pose proof Hz as [Hb Hc _ _]. pose proof (proj1 (proj1 Hb)) as Hinv.
  destruct (condemned_apart _ _ _ Hinv Hc) as (_ & _ & Hni & H0). destruct Hc as (th & Et & Hs & Hcl).
  unfold KiFinalizeThread. rewrite (proj2 (Z.eqb_neq t 0)), (proj2 (Z.eqb_neq t _)) by done.
  cbn [negb HO_KASSERT res_bind]. unfold get_thread. rewrite Et. cbn [res_bind].
  rewrite !bool_decide_eq_true_2 by done. cbn [HO_KASSERT res_bind].
  unfold KiIsUserRuntimeOwnedThread. rewrite (proj2 (Z.eqb_neq t 0)) by done.
  destruct (OwnsThreadHook (Svc s)) as [owns|] eqn:Eo; [|apply release_finishes; [done | reflexivity]].
  destruct (owns t) eqn:Eot; [|apply release_finishes; [done | reflexivity]].
  apply finalize_from_finishes; [done|]. destruct (s_stacks _ _ Hinv) as [Hw _]. by eapply finalize_law.
Qed.

End hook.

(** A thread whose end nobody has consumed is not being finalised. *)
Lemma unconsumed_unfinalized C t th s : sinv C s -> threads s !! t = Some th ->
  TerminationClaimState th <> CLAIM_CONSUMED -> unfinalized C t.
Proof.
  intros Hinv Et Hc j Hj. destruct (s_runtime _ _ Hinv) as (_ & H & _). destruct (H j t Hj) as (_ & _ & th' & Et' & _ & Hc').
  congruence.
Qed.


(** ** The end of a join *)

Lemma consumed_finalizing t th k s : boundary s -> threads s !! t = Some th ->
  TerminationClaimState th <> CLAIM_CONSUMED -> State th = KTHREAD_STATE_TERMINATED ->
  (gCurrentThread s = gIdleThread s -> k = [InReap]) ->
  forall s', threads s' = <[t := set_Claim CLAIM_CONSUMED th]> (threads s) -> SavedContext s' = SavedContext s ->
  gCurrentThread s' = gCurrentThread s -> gIdleThread s' = gIdleThread s -> boundary s' -> finalizing t k s'.
Proof.
  intros Hb Et Hnc Hs Hk s' ET EC Ec Ei Hb'. split; [done | | | by rewrite Ec, Ei].
  - exists (set_Claim CLAIM_CONSUMED th). by rewrite ET, lookup_insert_eq.
  - rewrite EC, Ec. eapply unconsumed_unfinalized; [apply Hb | exact Et | done].
Qed.

Lemma join_completed_finishes v t th k s :
  boundary s -> threads s !! t = Some th -> gCurrentThread s <> gIdleThread s ->
  TerminationMode th = KTHREAD_TERMINATION_MODE_JOINABLE ->
  TerminationClaimState th = CLAIM_JOIN_IN_PROGRESS ->
  unjoined (<[gCurrentThread s := []]> (SavedContext s)) t ->
  (v = EC_SUCCESS -> State th = KTHREAD_STATE_TERMINATED /\ published (objects s) t) ->
  finishes (fun v' _ => v' = v) s (join_completed t v k s).
Proof.
  intros Hb Et Hni Hm Hc Hnj Hv.
  destruct (enter_call s Hb) as (b & Eacq & _ & Hin & Hrun). set (s1 := set_Cpu _ s) in *.
  pose proof Hin as (Hinv & Hk & Hcpu).
  assert (Hq : queues_ok s1) by apply Hinv.
  assert (Hnd : t ∉ gTerminatedList s1) by (by eapply joinable_not_reaped).
  destruct (thread_at _ t th (q_threads _ _ _ _ _ Hq) Et) as [_ H0].
  assert (Hput : forall c, (c = CLAIM_CONSUMED -> State th = KTHREAD_STATE_TERMINATED) ->
    inside (calling b) DISPATCH1 (put_thread t (set_Claim c th) s1)).
  { intros c Hc'. apply inside_put; [done|].
    eapply lifecycle_sinv; [exact Hinv | exact Et | apply reclaimed_claim | split; simpl; [congruence | done] | done | | congruence].
    exact (unjoined_plain _ _ _ _ _ Hnj (plain_calling b)). }
  assert (Hrun' : forall c, current_running (put_thread t (set_Claim c th) s1)).
  { intros c. by eapply current_running_put. }
  unfold join_completed. destruct (decide (v = EC_SUCCESS)) as [->|Hnv].
  - destruct (Hv eq_refl) as [Hs Hp]. rewrite bool_decide_eq_true_2 by done. cbn [negb].
    rewrite Eacq. cbn [res_bind]. enter_cs cs Hk Hcpu Hleave.
    unfold get_thread. simpl (threads _). rewrite Et. cbn [res_bind].
    rewrite !bool_decide_eq_true_2 by done. cbn [HO_KASSERT res_bind].
    rewrite published_run by done. cbn [HO_KASSERT res_bind].
    unfold KiMarkThreadTerminationConsumed. rewrite (proj2 (Z.eqb_neq t 0)) by done.
    cbn [negb HO_KASSERT res_bind]. unfold get_thread. simpl (threads _). rewrite Et. cbn [res_bind].
    rewrite bool_decide_eq_false_2 by congruence. cbn [negb HO_KASSERT res_bind].
    leave_cs Hleave (put_thread t (set_Claim CLAIM_CONSUMED th) (set_Cpu c s1)).
    change (set_Cpu (Cpu s1) (put_thread t (set_Claim CLAIM_CONSUMED th) (set_Cpu c s1)))
      with (put_thread t (set_Claim CLAIM_CONSUMED th) s1).
    destruct (leave_call _ b _ (Hput CLAIM_CONSUMED (fun _ => Hs)) (Hrun' _)) as [-> Hb']. cbn [res_bind].
    match type of Hb' with boundary ?x => set (s2 := x) in * end.
    change (finishes (fun v' (_ : SCHED W) => v' = EC_SUCCESS) s) with (finishes (fun v' (_ : SCHED W) => v' = EC_SUCCESS) s2).
    apply (finishes_bind (fun _ => freed t s2)).
    + apply KiFinalizeThread_finishes, (consumed_finalizing t th k s); done || congruence.
    + intros _ s3 Hb3 (_ & _ & _ & Ec & Ei). split; [by apply finishes_done | done].
  - rewrite bool_decide_eq_false_2 by done. cbn [negb].
    rewrite Eacq. cbn [res_bind]. enter_cs cs Hk Hcpu Hleave.
    unfold get_thread. simpl (threads _). rewrite Et. cbn [res_bind].
    rewrite bool_decide_eq_true_2 by done.
    unfold KiReleaseThreadJoinClaim. rewrite (proj2 (Z.eqb_neq t 0)) by done.
    cbn [negb HO_KASSERT res_bind]. unfold get_thread. simpl (threads _). rewrite Et. cbn [res_bind].
    rewrite bool_decide_eq_true_2 by done. cbn [HO_KASSERT res_bind].
    leave_cs Hleave (put_thread t (set_Claim CLAIM_UNCLAIMED th) (set_Cpu c s1)).
    change (set_Cpu (Cpu s1) (put_thread t (set_Claim CLAIM_UNCLAIMED th) (set_Cpu c s1)))
      with (put_thread t (set_Claim CLAIM_UNCLAIMED th) s1).
    destruct (leave_call _ b _ (Hput CLAIM_UNCLAIMED ltac:(done)) (Hrun' _)) as [-> Hb']. cbn [res_bind].
    by apply finishes_done.
Qed.

(** What a join decides without blocking. *)
Definition joined t (th : KTHREAD) (timeoutNs : Z) s (r : outcome W HO_STATUS) : Prop :=
  if decide (t = gCurrentThread s \/ gCurrentThread s = gIdleThread s \/ t = gIdleThread s)
  then r = Done EC_INVALID_STATE s
  else (~ joinable th -> r = Done EC_INVALID_STATE s) /\
    (joinable th -> finished t th s -> exists s', r = Done EC_SUCCESS s' /\ threads s' !! t = None /\
       forall x, x <> t -> is_Some (threads s' !! x) <-> is_Some (threads s !! x)) /\
    (joinable th -> ~ finished t th s -> timeoutNs = 0 -> r = Done EC_TIMEOUT s).

Lemma join_run t th timeoutNs s :
  boundary s -> threads s !! t = Some th -> few_objects s -> wait_timeout_ok s timeoutNs ->
  exists r, KeThreadJoin t timeoutNs [] s = Ok r /\ settled r /\ joined t th timeoutNs s r.
Proof.
  intros Hb Et Hfew Hto. unfold KeThreadJoin. rewrite blocking_allowed_run by done. cbn [res_bind].
  pose proof Hb as [(Hinv0 & _ & _) _].
  destruct (thread_at _ _ _ (q_threads _ _ _ _ _ (s_queues _ _ Hinv0)) Et) as [_ H0].
  rewrite (proj2 (Z.eqb_neq t 0)) by done.
  unfold joined. destruct (Z.eqb_spec t (gCurrentThread s)) as [|Hnc].
  { eexists. split; [done|]. split; [done|]. by rewrite decide_True by (by left). }
  destruct (Z.eqb_spec (gCurrentThread s) (gIdleThread s)) as [|Hni].
  { eexists. split; [done|]. split; [done|]. by rewrite decide_True by (right; by left). }
  assert (Hun : TerminationClaimState th <> CLAIM_JOIN_IN_PROGRESS -> unjoined (<[gCurrentThread s := []]> (SavedContext s)) t)
    by (intros; by eapply unclaimed_unjoined).
  destruct (enter_call s Hb) as (b & -> & Eb & Hin & Hrun). cbn [res_bind]. set (s1 := set_Cpu _ s) in *.
  pose proof Hin as (Hinv & Hk & Hcpu). enter_cs cs Hk Hcpu Hleave.
  destruct (join_claim_run _ c t th timeoutNs s1 Hinv Et) as (next & s2 & -> & Hcl & Hj). cbn [res_bind].
  assert (Ecpu : Cpu s2 = Cpu s1) by (by destruct next; simpl in Hcl; [destruct Hcl as [-> _] | destruct Hcl as [_ ->] | destruct Hcl as [-> _]..]).
  leave_cs Hleave (set_Cpu c s2). change (set_Cpu (Cpu s1) (set_Cpu c s2)) with (set_Cpu (Cpu s1) s2).
  replace (set_Cpu (Cpu s1) s2) with s2 by (rewrite <- Ecpu; by destruct s2).
  assert (Hin2 : inside (calling b) DISPATCH1 s2 /\ current_running s2).
  { destruct next; simpl in Hcl; [by destruct Hcl as [-> _] | destruct Hcl as [[Hs _] ->] | by destruct Hcl as [-> _] | destruct Hcl as [-> _]];
      (split; [apply claim_inside; [done | done | by apply Hj | done] | by eapply current_running_put]). }
  destruct Hin2 as [Hin2 Hrun2]. destruct (leave_call (calling b) b s2 Hin2 Hrun2) as [-> Hb2]. cbn [res_bind].
  assert (Hback : set_Cpu (lowered b (Cpu s1)) s1 = s) by (rewrite Eb, after_call by done; by destruct s).
  destruct next; simpl in Hcl.
  - destruct Hcl as (-> & Hrej). rewrite Hback. eexists. split; [done|]. rewrite Hback in Hb2. split; [done|].
    destruct (decide _) as [|Hx]; [done|]. destruct Hrej as [Hrej|Hrej]; [exfalso; apply Hx; by auto|]. split; [done|].
    by split.
  - destruct Hcl as [[Hs Hp] ->]. destruct Hj as (Hti & Hm & Hc); [done|].
    match type of Hb2 with boundary ?x => set (s3 := x) in * end.
    assert (Hz : finalizing t [] s3).
    { apply (consumed_finalizing t th [] s); done || congruence. }
    destruct (KiFinalizeThread_finishes t [] s3 Hz) as (r & E & Hr & Hd). unfold and_then. rewrite E. cbn [res_bind].
    destruct r as [[] s4|s4]; [|by destruct Hr].
    destruct (Hd tt s4 eq_refl) as (HN & HO & _). eexists. split; [done|]. split; [done|].
    rewrite decide_False by (intros [|[|]]; done). split; [by intros []|]. split; [|by intros _ []].
    intros _ _. exists s4. split; [done|]. split; [done|]. intros x Hx. rewrite HO by done. simpl.
    by rewrite lookup_insert_ne by congruence.
  - destruct Hcl as (-> & -> & Hnf). destruct Hj as (Hti & Hm & Hc); [done|].
    rewrite Hback. rewrite Hback in Hb2. eexists. split; [done|]. split; [done|].
    rewrite decide_False by (intros [|[|]]; done). split; [by intros []|]. by split.
  - destruct Hcl as (-> & Hnz & Hnf). destruct Hj as (Hti & Hm & Hc); [done|].
    assert (Hjoined : forall r, joined t th timeoutNs s r).
    { intros r. unfold joined. rewrite decide_False by (intros [|[|]]; done).
      split; [by intros []|]. split; [by intros _ ?|]. by intros _ _ ?. }
    match type of Hb2 with boundary ?x => set (s3 := x) in * end.
    assert (Et3 : threads s3 !! t = Some (set_Claim CLAIM_JOIN_IN_PROGRESS th)) by apply lookup_insert_eq.
    destruct (proj2 (proj1 (s_completions _ _ Hinv0 t))) as [d Ed]; [by eexists|].
    destruct (wait_run (Completion t) timeoutNs [InJoin t] d s3 Hb2) as (r & E & Hset & Hdone); try done.
    { right. exists t, (set_Claim CLAIM_JOIN_IN_PROGRESS th). split_and!; try done. apply Hun. congruence. }
    unfold and_then. rewrite E. cbn [res_bind]. destruct r as [v s4|s4]; [|eexists; split; [done|]; split; [done | apply Hjoined]].
    destruct (Hdone v s4 eq_refl t eq_refl) as [-> Hv].
    assert (Hf : finishes (fun v' _ => v' = v) s3 (join_completed t v [] s3)).
    { apply (join_completed_finishes v t _ [] s3 Hset Et3); try done.
      - apply Hun. congruence.
      - intros Hsv. destruct (Hv Hsv) as [(th' & Et' & Hs') Hp]. split; [congruence | done]. }
    destruct (finishes_settled _ _ _ Hf) as (r & E' & Hr). exists r. split; [exact E'|]. split; [done | apply Hjoined].
Qed.

(** ** The reaper *)

Lemma reap_finishes n : forall s, boundary s -> (length (gTerminatedList s) < n)%nat ->
  finishes (fun _ s' => gTerminatedList s' = [] /\ gCurrentThread s' = gCurrentThread s /\
    gIdleThread s' = gIdleThread s /\ forall t, is_Some (threads s' !! t) <-> is_Some (threads s !! t) /\ t ∉ gTerminatedList s) s (reap n [] s).
Proof.
  induction n as [|n IH]; intros s Hb Hn; [lia|]. cbn [reap].
  pose proof Hb as [(Hinv & Hk & Hcpu) Hrun]. enter_cs cs Hk Hcpu Hleave.
  change (gTerminatedList (set_Cpu c s)) with (gTerminatedList s).
  destruct (gTerminatedList s) as [|t rest] eqn:El.
  { cbn [res_bind]. leave_cs Hleave (set_Cpu c s). replace (set_Cpu (Cpu s) (set_Cpu c s)) with s by (by destruct s).
    apply finishes_done; [done|]. split_and!; [done..|]. intros t. split; [|tauto]. intros ?. split; [done | apply not_elem_of_nil]. }
  pose proof (s_queues _ _ Hinv) as Hq. pose proof (q_term _ _ _ _ _ Hq) as [HDn HD]. rewrite El in HDn, HD.
  destruct (HD t) as (th & Et & Hs & Hm & Hc & Hp); [by left|].
  apply NoDup_cons in HDn as [Hnt HDn].
  destruct (thread_at _ _ _ (q_threads _ _ _ _ _ Hq) Et) as [_ H0].
  set (s1 := set_TerminatedList rest s).
  assert (Hinv1 : sinv (<[gCurrentThread s := []]> (SavedContext s)) s1).
  { destruct Hinv as [[? ? ? ? _] ? ? ? ? ? ? ? ? ?]. split; try done. split; try done. split; [done|].
    intros x Hx. apply HD. by right. }
  unfold KiMarkThreadTerminationConsumed. rewrite (proj2 (Z.eqb_neq t 0)) by done.
  cbn [negb HO_KASSERT res_bind]. unfold get_thread. simpl (threads _). rewrite Et. cbn [res_bind].
  rewrite Hc. change (bool_decide (CLAIM_UNCLAIMED = CLAIM_CONSUMED)) with false. cbn [negb HO_KASSERT res_bind].
  change (put_thread t (set_Claim CLAIM_CONSUMED th) (set_TerminatedList rest (set_Cpu c s)))
    with (set_Cpu c (put_thread t (set_Claim CLAIM_CONSUMED th) s1)).
  set (s2 := put_thread t (set_Claim CLAIM_CONSUMED th) s1).
  leave_cs Hleave (set_Cpu c s2). change (set_Cpu (Cpu s) (set_Cpu c s2)) with s2.
  rewrite (proj2 (Z.eqb_neq t 0)) by done.
  assert (Hb1 : boundary s1) by (by split; [split_and!|]).
  assert (Hb2 : boundary s2).
  { split; [split_and!; [|done|done]|by eapply current_running_put].
    eapply lifecycle_sinv; [exact Hinv1 | exact Et | apply reclaimed_claim | | done | | congruence].
    - split; simpl; [congruence | done].
    - eapply unclaimed_unjoined; [exact Hinv | exact Et | congruence]. }
  change (finishes ?P s) with (finishes P s2).
  apply (finishes_bind (fun _ => freed t s2)).
  - apply KiFinalizeThread_finishes, (consumed_finalizing t th [InReap] s1); done || congruence.
  - intros _ s3 Hb3 (HN & HO & El3 & Ec & Ei). split; [|done].
    destruct (IH s3 Hb3) as (r & E & Hr & Hd); [rewrite El3; simpl in *; lia|].
    exists r. split; [done|]. split; [done|]. intros [] s4 E4. destruct (Hd tt s4 E4) as (Hl & Ec4 & Ei4 & HT). simpl in Ec, Ei. split_and!; [done | congruence | congruence |].
    intros x. rewrite HT, El3, not_elem_of_cons. destruct (decide (x = t)) as [->|Hx].
    + rewrite HN. split; [by intros [[? ?] _] | tauto].
    + rewrite HO by done. simpl. rewrite lookup_insert_ne by congruence. tauto.
Qed.

(** ** Returning from a context switch *)

(** The thread waiting for [t] in a join returns from the join. *)
Lemma join_return_finishes b t s : inside [InWait (held b); InJoin t] DISPATCH1 s -> current_running s ->
  exists th, threads s !! gCurrentThread s = Some th /\ gCurrentThread s <> gIdleThread s /\
    finishes (fun _ _ => True) s (join_completed t (CompletionStatus (WaitBlock th)) [] (set_Cpu (lowered b (Cpu s)) s)).
Proof.
  intros Hin Hrun. pose proof Hin as (Hinv & _ & _).
  destruct (s_joins _ _ Hinv) as (J1 & J2 & _). destruct (s_runtime _ _ Hinv) as (_ & _ & R3).
  assert (Hj : joins (<[gCurrentThread s := [InWait (held b); InJoin t]]> (SavedContext s)) (gCurrentThread s) t).
  { exists (held b). apply lookup_insert_eq. }
  destruct (J1 _ _ Hj) as (thj & th & Ej & Et & Hne & Hni & Hm & Hc & _ & Hw).
  exists thj. split; [done|]. assert (Hnidle : gCurrentThread s <> gIdleThread s).
  { intros E. rewrite E in Hj at 2. by eapply R3. }
  split; [done|]. destruct (running_states s Hrun) as (th0 & E0 & _ & Hnb & _).
  assert (th0 = thj) as -> by congruence.
  destruct (leave_call _ b s Hin Hrun) as [_ Hb].
  destruct (join_completed_finishes (CompletionStatus (WaitBlock thj)) t th [] _ Hb Et) as (r & E & Hr & _); try done.
  - intros j [g Hg]. apply lookup_insert_Some in Hg as [[_ Hg]|[Hne' Hg]]; [done|].
    apply Hne'. eapply J2; [exact Hj|]. exists g. by rewrite lookup_insert_ne.
  - intros Hv. destruct (Hw Hnb Hv) as [(th' & Et' & Hs') Hp]. split; [congruence | done].
  - exists r. split; [done|]. by split.
Qed.

(** The idle thread goes on with the finalisation it was switched away from, and
    with the reaping. *)
Lemma reaper_return_finishes b t n s : inside [InSetEvent (held b); InFinalize t n; InReap] DISPATCH1 s -> current_running s ->
  finishes (fun _ _ => True) s (return_to [InSetEvent (held b); InFinalize t n; InReap] EC_SUCCESS s).
Proof.
  intros Hin Hrun. pose proof Hin as (Hinv & _ & _). destruct (s_runtime _ _ Hinv) as (_ & R2 & _).
  destruct (R2 (gCurrentThread s) t) as (Hi & Hh & Hc); [exists (held b), n; apply lookup_insert_eq|].
  cbn [return_to]. destruct (leave_call _ b s Hin Hrun) as [-> Hb]. cbn [res_bind].
  match type of Hb with boundary ?x => set (s1 := x) in * end.
  assert (Hz : finalizing t [InReap] s1).
  { split; [done | done | | done]. intros j Hj. destruct (s_runtime _ _ (proj1 (proj1 Hb))) as (_ & R2' & _).
    destruct (R2' j t Hj) as (-> & _). destruct Hj as (g & m & Hg). simpl in Hg. rewrite Hi, lookup_insert_eq in Hg. done. }
  change (finishes (fun (_ : HO_STATUS) (_ : SCHED W) => True) s) with (finishes (fun (_ : HO_STATUS) (_ : SCHED W) => True) s1).
  apply (finishes_bind (fun _ => freed t s1)); [by apply finalize_from_finishes|].
  intros _ s2 Hb2 (_ & _ & _ & Ec & Ei). split; [|done].
  eapply finishes_bind; [apply reap_finishes; [done | lia]|].
  intros _ s3 Hb3 (_ & Ec3 & Ei3 & _). split; [|done]. by apply finishes_done.
Qed.

Lemma return_finishes k st s : inside k st s -> current_running s ->
  finishes (fun _ _ => True) s (return_to k EC_SUCCESS s).
Proof.
  intros Hin Hrun. pose proof Hin as (Hinv & Hk & Hcpu).
  destruct Hk; try (by eapply reaper_return_finishes); cbn [return_to].
  all: try (destruct (leave_call _ b s Hin Hrun) as [-> Hb]; cbn [res_bind]; by apply finishes_done).
  - by apply finishes_done.
  - destruct (trampoline_run s Hin Hrun) as (s' & -> & Hb). by apply finishes_done.
  - destruct Hrun as (th & Et & Hs) eqn:E. clear E.
    destruct (wait_completed_run b _ th s Hin Hrun Et) as [-> Hb]. by apply finishes_done.
  - destruct (join_return_finishes b t s Hin Hrun) as (th & Et & Hni & Hf).
    destruct (wait_completed_run b _ th s Hin Hrun Et) as [-> _]. cbn [res_bind].
    destruct Hf as (r & E & Hr & _). unfold and_then. rewrite E. cbn [res_bind].
    destruct r as [v s'|s']; [by apply finishes_done | by destruct Hr].
  - destruct (end_of_interrupt_run s Hin Hrun) as (s' & -> & Hb). by apply finishes_done.
  - exfalso. destruct Hrun as (th & Et & Hs).
    destruct (s_contexts _ _ Hinv _ th Et) as (k & st & Hk & _ & _ & Ht).
    rewrite lookup_insert_eq in Hk. injection Hk as <-. rewrite Hs in Ht. by destruct Ht as [_ Ht]; specialize (Ht eq_refl).
Qed.

Lemma resume_finishes s : switched s -> finishes (fun _ _ => True) s (resume s).
Proof.
  intros (Hinv & Hrun & k & st & Hk & Hf & Hcpu). unfold resume. rewrite Hk.
  match goal with |- context [return_to k EC_SUCCESS ?x] => set (s1 := x) end.
  change (finishes (fun (_ : HO_STATUS) (_ : SCHED W) => True) s) with (finishes (fun (_ : HO_STATUS) (_ : SCHED W) => True) s1).
  apply (return_finishes k st); [|done]. split_and!; [|done|done]. simpl.
  rewrite insert_delete_id by done. by apply sinv_saved.
Qed.

(** Two resumptions are enough: only the idle thread switches again, and never to
    itself. *)
Lemma settle_run s : switched s -> exists v s', settle 2 s = Ok (v, s') /\ boundary s'.
Proof.
  intros Hs. destruct (resume_finishes s Hs) as (r & E & Hr & _). cbn [settle]. rewrite E. cbn [res_bind].
  destruct r as [v s1|s1]; [by exists v, s1|]. destruct Hr as (_ & Hs1 & Hne).
  destruct (resume_finishes s1 Hs1) as (r & E1 & Hr & _). rewrite E1. cbn [res_bind].
  destruct r as [v s2|s2]; [by exists v, s2|]. by destruct Hr.
Qed.
End reaping.
End SchedReap.
