(* ===== verification/SchedInit.v ===== *)
(** * Bringing up the scheduler and creating objects and threads

    [init_run]: [KeSchedulerInit] establishes the system invariant; [create_run]
    and [new_object_run]: creating threads and dispatcher objects preserves it.
    The module [Toy] is a concrete instance of the services the scheduler uses,
    on which the theorems about the scheduler are instantiated. *)

From S2P Require Import Prelude Irql Sched SchedInv SchedSafe SchedCalls.

Local Open Scope Z_scope.
Import Irql Sched SchedInv SchedSafe SchedCalls.

(** ** What thread creation needs of the pool and the address allocator *)

Class CreationLaws (W : Type) {SV : Services W} {SL : ServicesLaws W} := {
  fresh_slot : W -> Z -> Prop;           (* an allocated slot without a stack *)
  fresh_stack : W -> Z -> Z -> Prop;     (* with a reserved, unmapped stack range *)
  pool_alloc_law : forall w, svc_ok w -> exists t w', PoolAlloc w = Ok (t, w') /\ quiet w w' /\
    (t <> 0 -> fresh_slot w' t);
  stack_law : forall w t, svc_ok w -> fresh_slot w t -> exists st h ub ba w',
    AllocStack w = (st, (h, ub, ba), w') /\ quiet w w' /\
    (if decide (st = EC_SUCCESS) then fresh_stack w' t h else fresh_slot w' t);
  map_law : forall w t h, svc_ok w -> fresh_stack w t h -> exists st w',
    MapStack h w = (st, w') /\ quiet w w' /\
    (if decide (st = EC_SUCCESS) then thread_live w' t h else fresh_slot w' t);
  undo_law : forall w t, svc_ok w -> fresh_slot w t -> exists w', PoolFree t w = Ok w' /\ quiet w w'
}.

Module SchedInit.
Section creation.
Context {W : Type} {SV : Services W} {SL : ServicesLaws W}.
Implicit Types (s : SCHED W).

(** ** Adding to the maps *)

Lemma kview_new {K} (f : KTHREAD -> option K) T t th y : T !! t = None -> f th = None ->
  kview f (<[t := th]> T) y = kview f T y.
Proof.
  intros Et Hf. unfold kview. destruct (decide (y = t)) as [->|Hy].
  - by rewrite lookup_insert_eq, Et.
  - by rewrite lookup_insert_ne by congruence.
Qed.

Lemma wait_new_object T O o d : wait_ok T O -> O !! o = None -> WaitList d = [] ->
  wait_ok T (<[o := d]> O).
Proof.
  intros [Hw Hs] Eo Hl. split.
  - intros x l Hx. destruct (decide (x = o)) as [->|Hne].
    + rewrite lookup_insert_eq in Hx. simpl in Hx. rewrite Hl in Hx. injection Hx as <-.
      split; [apply NoDup_nil_2|]. intros t. split; [by intros ?%not_elem_of_nil|].
      intros Hk. destruct (Hs t o Hk) as [d' Hd']. congruence.
    + rewrite lookup_insert_ne in Hx by congruence. by apply Hw.
  - intros t x Hk. destruct (decide (x = o)) as [->|Hne].
    + rewrite lookup_insert_eq. eauto.
    + rewrite lookup_insert_ne by congruence. by eapply Hs.
Qed.

Lemma published_new_object O o d t : O !! o = None -> published O t -> published (<[o := d]> O) t.
Proof.
  intros Eo (x & Ex & Hx). exists x. rewrite lookup_insert_ne; [done | congruence].
Qed.

Lemma owned_new_object O o d x : O !! o = None -> OwnerThread d = 0 -> x <> 0 ->
  owned (<[o := d]> O) x = owned O x.
Proof. intros Eo Hd Hx. rewrite owned_add by done. rewrite decide_False by congruence. lia. Qed.

Lemma typed_new O o d : O !! o = None -> typed O (<[o := d]> O).
Proof. intros Eo a x Hx. exists x. rewrite lookup_insert_ne; [done | congruence]. Qed.

(** A new object of its creator's own. *)
Lemma new_object_sinv C a d s :
  sinv C s -> objects s !! Standalone a = None -> obj_ok d -> WaitList d = [] -> OwnerThread d = 0 ->
  sinv C (put_object (Standalone a) d s).
Proof.
  intros [[Hth Hr Hq Hw HD] Ho [Hown Hcnt] Hcp Hcx (J1 & J2 & J3) Hi Hru Hst Hrt] Eo Hok Hl Hz. split; simpl; try done.
  - split; simpl; try done; [by apply wait_new_object|].
    eapply term_keep; [exact HD | done |]. intros t _. by apply published_new_object.
  - by apply map_Forall_insert_2.
  - split.
    + intros o x [[<- <-]|[_ Ex]]%lookup_insert_Some Hn; [done | by eapply Hown].
    + intros t th Et. rewrite owned_new_object by (done || by eapply thread_at). by apply Hcnt.
  - intros t. rewrite lookup_insert_ne by done. apply Hcp.
  - split_and!; [|done|done]. intros j t Hj.
    destruct (J1 j t Hj) as (thj & th & Ej & Et & ? & ? & ? & ? & Hw1 & Hw2).
    exists thj, th. split_and!; try done. split; [done|]. intros Hs1 Hs2. destruct (Hw2 Hs1 Hs2).
    split; [done | by apply published_new_object].
  - eapply runtime_statics; [apply requantumed_statics, requantumed_refl | by apply typed_new | reflexivity | done].
Qed.

Lemma new_object_run a d s : boundary s -> objects s !! Standalone a = None -> obj_ok d -> WaitList d = [] ->
  OwnerThread d = 0 -> boundary (put_object (Standalone a) d s).
Proof.
  intros [(Hinv & Hk & Hcpu) Hrun] Eo Hok Hl Hz. split; [|done]. split_and!; [|done|done].
  by apply new_object_sinv.
Qed.

(** ** A new thread *)

Definition inert (th : KTHREAD) : Prop :=
  State th = KTHREAD_STATE_NEW /\ 0 <= Priority th < KTHREAD_PRIORITY_COUNT /\
  OwnedMutexCount th = 0 /\ TerminationClaimState th = CLAIM_UNCLAIMED.

Definition completion_event : DISPATCHER :=
  mkDispatcher KDISPATCHER_SIGNATURE DISPATCHER_TYPE_EVENT 0 [] 0 0.

Lemma unowned C s t : sinv C s -> threads s !! t = None -> owned (objects s) t = 0 \/ t = 0.
Proof.
  intros Hinv Et. destruct (decide (t = 0)) as [|H0]; [by right|]. left. unfold owned.
  enough (filter (fun x => OwnerThread x.2 = t) (objects s) = ∅) as -> by (by rewrite map_size_empty).
  apply map_eq. intros o. rewrite lookup_empty. apply map_lookup_filter_None. right. intros d Eo Hd.
  simpl in Hd. destruct (s_owners _ _ Hinv) as [Hown _].
  destruct (Hown o d Eo) as (th' & Et' & _); congruence.
Qed.

Definition with_thread t (th : KTHREAD) (c : cpu) s : SCHED W :=
  put_thread t th (set_SavedContext (<[t := [InTrampoline]]> (SavedContext s))
    (put_object (Completion t) completion_event (set_Cpu c s))).

Lemma new_thread_sinv C t th c s :
  sinv C s -> threads s !! t = None -> t <> 0 -> inert th ->
  StackOwnedByKva th = true -> thread_live (Svc s) t (StackRange th) ->
  IrqlStates c = <[t := PASSIVE0]> (IrqlStates (Cpu s)) ->
  sinv (<[t := [InTrampoline]]> C) (with_thread t th c s).
Proof.
  intros Hinv Et H0 (Hs & Hp & Hom & Hcl) Hkva Hlive Hc. pose proof Hinv as
    [[Hth [Hrl Hr] Hq Hw HD] Ho [Hown Hcnt] Hcp Hcx (J1 & J2 & J3) Hi Hru [Hsv Hst] Hrt].
  assert (Eo : objects s !! Completion t = None).
  { apply eq_None_not_Some. intros Hx. apply Hcp in Hx. rewrite Et in Hx. by destruct Hx. }
  assert (Hkv : forall K (f : KTHREAD -> option K), f th = None ->
    forall y, kview f (<[t := th]> (threads s)) y = kview f (threads s) y) by (intros; by apply kview_new).
  assert (Hrk : rkey th = None) by (unfold rkey; by rewrite decide_False by congruence).
  assert (Htk : tkey th = None) by (unfold tkey; rewrite decide_False; [done | intros [? _]; congruence]).
  assert (Hwk : wkey th = None) by (unfold wkey; by rewrite decide_False by congruence).
  assert (Hother : forall x thx, threads s !! x = Some thx -> <[t := th]> (threads s) !! x = Some thx).
  { intros x thx Ex. rewrite lookup_insert_ne; [done | congruence]. }
  split; simpl.
  - split; simpl.
    + apply threads_keep; [done | done |]. split; [done|]. split; [congruence|]. split; [rewrite Hcl; done|]. by rewrite Hcl.
    + split; [done|]. eapply lists_by_ext; [exact Hr | by apply Hkv | done].
    + eapply timeout_ext; [by apply Hkv | done].
    + apply wait_new_object; [|done|done]. destruct Hw as [Hw Hws]. split.
      * eapply lists_by_ext; [exact Hw | by apply Hkv | done].
      * intros x o. rewrite Hkv by done. apply Hws.
    + destruct HD as [HDn HD]. eapply term_keep; [by split | |].
      * intros x Hx. destruct (HD x Hx) as (thx & Ex & _). rewrite (Hother x thx) by done. done.
      * intros x _. by apply published_new_object.
  - apply map_Forall_insert_2; [|done]. split; [done|]. left. by split_and!.
  - split.
    + intros o d [[<- <-]|[_ Ex]]%lookup_insert_Some Hn; [done|]. destruct (Hown o d Ex Hn) as (thx & Ex' & ?).
      exists thx. split; [by apply Hother | done].
    + intros x thx Ex. assert (Hx0 : x <> 0).
      { intros ->. apply lookup_insert_Some in Ex as [[-> _]|[_ Ex]]; [done|]. destruct Hth. congruence. }
      rewrite owned_new_object by done. apply lookup_insert_Some in Ex as [[<- <-]|[_ Ex]].
      * rewrite Hom. by destruct (unowned C s t Hinv Et).
      * by apply Hcnt.
  - intros x. destruct (decide (x = t)) as [->|Hx].
    + rewrite !lookup_insert_eq. split; [split; eauto|]. by intros d [= <-].
    + rewrite !lookup_insert_ne by congruence. destruct (Hcp x) as [H1 H2]. split; [done|].
      intros d Hd. destruct (H2 d Hd) as [Hty Hsg]. split; [done|]. intros Hne.
      destruct (Hsg Hne) as (thx & Ex & ?). by exists thx.
  - intros x thx [[<- <-]|[Hne Ex]]%lookup_insert_Some.
    + exists [InTrampoline], PASSIVE0. rewrite Hc, !lookup_insert_eq, Hs. split_and!; try done. constructor.
    + rewrite Hc, !lookup_insert_ne by done. by apply Hcx.
  - split_and!.
    + intros j x [g Hg]. apply lookup_insert_Some in Hg as [[_ Hg]|[Hne Hg]]; [done|].
      destruct (J1 j x (ex_intro _ g Hg)) as (thj & thx & Ej & Ex & ? & ? & ? & ? & Hw1 & Hw2).
      exists thj, thx. split_and!; try done; [by apply Hother..|]. split; [done|].
      intros Hs1 Hs2. destruct (Hw2 Hs1 Hs2) as [(thx' & Ex' & ?) Hpb].
      split; [|by apply published_new_object]. exists thx'. split; [by apply Hother | done].
    + intros i j x [g Hg] [g' Hg']. apply lookup_insert_Some in Hg as [[_ Hg]|[_ Hg]]; [done|].
      apply lookup_insert_Some in Hg' as [[_ Hg']|[_ Hg']]; [done|]. eapply J2; by eexists.
    + intros w x. rewrite Hkv by done. intros Hx. destruct (J3 w x Hx) as [g Hg]. exists g.
      rewrite lookup_insert_ne; [done|]. intros <-. unfold kview in Hx. by rewrite Et in Hx.
  - destruct Hi as (thi & Ei & ?). exists thi. split; [by apply Hother | done].
  - intros x thx [[<- <-]|[_ Ex]]%lookup_insert_Some Hrun; [congruence | by eapply Hru].
  - split; [done|]. intros x thx [[<- <-]|[_ Ex]]%lookup_insert_Some Hx; [done | by apply Hst].
  - eapply (runtime_keep (threads s) _ (objects s)); [| by apply typed_new | reflexivity | | | exact Hrt].
    + intros x (thx & Ex & ?) _. exists thx. split; [by apply Hother | done].
    + intros j x (g & n & Hg). apply lookup_insert_Some in Hg as [[_ Hg]|[_ Hg]]; [done | by exists g, n].
    + intros x [g Hg]. apply lookup_insert_Some in Hg as [[_ Hg]|[_ Hg]]; [done | by exists g].
Qed.

(** ** [KeThreadCreate] *)

Lemma soft_boundary s s' : boundary s -> soft s s' -> boundary s'.
Proof. intros [Hin Hrun] Hs. split; [by eapply soft_inside | by eapply soft_running]. Qed.

Lemma quiet_soft w s : svc_ok (Svc s) -> quiet (Svc s) w -> soft s (set_Svc w s).
Proof. intros Hw Hq. apply soft_same; try done. by apply quiet_good. Qed.

Lemma quiet_boundary w s : boundary s -> quiet (Svc s) w -> boundary (set_Svc w s).
Proof.
  intros Hb Hq. eapply soft_boundary; [exact Hb|]. apply quiet_soft; [|done]. apply (s_stacks _ _ (proj1 (proj1 Hb))).
Qed.

Lemma boundary_svc s : boundary s -> svc_ok (Svc s).
Proof. intros Hb. apply (s_stacks _ _ (proj1 (proj1 Hb))). Qed.

Lemma allocate_id_run s : boundary s -> gNextThreadId s <> 0 ->
  KiAllocateThreadId s = Ok (gNextThreadId s, set_NextThreadId (u32 (gNextThreadId s + 1)) s).
Proof.
  intros [(Hinv & Hk & Hcpu) _] Hid. unfold KiAllocateThreadId. enter_cs cs Hk Hcpu Hleave.
  change (gNextThreadId (set_Cpu c s)) with (gNextThreadId s).
  rewrite (proj2 (Z.eqb_neq _ 0)) by done. cbn [negb HO_KASSERT res_bind].
  leave_cs Hleave (set_NextThreadId (u32 (gNextThreadId s + 1)) (set_Cpu c s)). by destruct s.
Qed.

(** The thread [KiThreadCreateInternal] builds. *)
Definition new_thread (id entryPoint arg h ub ba : Z) (mode : KTHREAD_TERMINATION_MODE) : KTHREAD :=
  mkThread id KTHREAD_STATE_NEW ub KE_THREAD_STACK_SIZE ba true h KTHREAD_DEFAULT_PRIORITY
    KE_DEFAULT_QUANTUM_NS 0 (mkWaitBlock None 0 EC_SUCCESS false) mode CLAIM_UNCLAIMED entryPoint arg 0.

(** The result of creating a thread: a thread that has not started, or a failure
    that leaves the threads as they were. *)
Definition created (mode : KTHREAD_TERMINATION_MODE) (entryPoint arg : Z) s (v : HO_STATUS) t s' : Prop :=
  boundary s' /\ gReadyQueues s' = gReadyQueues s /\
  if decide (v = EC_SUCCESS) then
    t <> 0 /\ threads s !! t = None /\ SavedContext s' !! t = Some [InTrampoline] /\
    exists h ub ba, threads s' = <[t := new_thread (gNextThreadId s) entryPoint arg h ub ba mode]> (threads s)
  else t = 0 /\ threads s' = threads s /\ objects s' = objects s.

Lemma create_run {CL : CreationLaws W} mode entryPoint arg s :
  boundary s -> entryPoint <> 0 -> gNextThreadId s <> 0 ->
  (forall t w, PoolAlloc (Svc s) = Ok (t, w) -> threads s !! t = None) ->
  exists v t s', KiThreadCreateInternal true entryPoint arg mode s = Ok (v, t, s') /\
    created mode entryPoint arg s v t s'.
Proof.
  intros Hb He Hid Hfree. unfold KiThreadCreateInternal. cbn [negb orb].
  rewrite (proj2 (Z.eqb_neq entryPoint 0)) by done.
  destruct (pool_alloc_law _ (boundary_svc s Hb)) as (t & w1 & Epa & Hq1 & Hfs). rewrite Epa. cbn [res_bind].
  specialize (Hfree t w1 Epa). pose proof (quiet_boundary w1 s Hb Hq1) as Hb1.
  destruct (Z.eqb_spec t 0) as [->|H0].
  { exists EC_OUT_OF_RESOURCE, 0. eexists. split; [done|]. by split_and!. }
  change (Svc (set_Svc w1 s)) with w1.
  destruct (stack_law w1 t (boundary_svc _ Hb1) (Hfs H0)) as (st & h & ub & ba & w2 & -> & Hq2 & Hst).
  cbv beta iota. pose proof (quiet_boundary w2 _ Hb1 Hq2) as Hb2.
  change (set_Svc w2 (set_Svc w1 s)) with (set_Svc w2 s) in *.
  assert (Hundo : forall st w, st <> EC_SUCCESS -> boundary (set_Svc w s) -> fresh_slot w t ->
    exists v t' s', (let* w' := PoolFree t (Svc (set_Svc w s)) in Ok (st, 0, set_Svc w' (set_Svc w s))) = Ok (v, t', s') /\
      created mode entryPoint arg s v t' s').
  { intros st' w Hst' Hbw Hf. destruct (undo_law w t (boundary_svc _ Hbw) Hf) as (w' & E & Hq').
    change (Svc (set_Svc w s)) with w. rewrite E. cbn [res_bind]. exists st', 0. eexists. split; [done|].
    split; [by apply (quiet_boundary w' (set_Svc w s))|]. split; [done|]. by rewrite decide_False. }
  destruct (decide (st = EC_SUCCESS)) as [->|Hns].
  2: { rewrite bool_decide_eq_false_2 by done. cbn [negb]. by apply Hundo. }
  rewrite bool_decide_eq_true_2 by done. cbn [negb]. change (Svc (set_Svc w2 s)) with w2.
  destruct (map_law w2 t h (boundary_svc _ Hb2) Hst) as (st & w3 & -> & Hq3 & Hst3).
  cbv beta iota. pose proof (quiet_boundary w3 _ Hb2 Hq3) as Hb3.
  change (set_Svc w3 (set_Svc w2 s)) with (set_Svc w3 s) in *.
  destruct (decide (st = EC_SUCCESS)) as [->|Hns].
  2: { rewrite bool_decide_eq_false_2 by done. cbn [negb]. by apply Hundo. }
  rewrite bool_decide_eq_true_2 by done. cbn [negb].
  rewrite (allocate_id_run (set_Svc w3 s)) by done. cbn [res_bind].
  unfold on_cpu, KeInitializeIrqlState. rewrite (proj2 (Z.eqb_neq t 0)) by done. cbn [negb HO_KASSERT res_bind].
  exists EC_SUCCESS, t. eexists. split; [done|]. unfold created. rewrite decide_True by done.
  set (s3 := set_NextThreadId (u32 (gNextThreadId (set_Svc w3 s) + 1)) (set_Svc w3 s)).
  assert (Hb4 : boundary s3) by (eapply soft_boundary; [exact Hb3|]; apply soft_same; done || apply as_good_refl).
  destruct Hb4 as [(Hinv4 & Hk4 & Hcpu4) Hrun4].
  assert (Hcur : t <> gCurrentThread s).
  { intros ->. destruct Hrun4 as (th & Et & _). simpl in Et. congruence. }
  split.
  - split; [split_and!|].
    + simpl. rewrite insert_insert_ne by done.
      eapply (new_thread_sinv _ t (new_thread _ _ _ h ub ba mode) _ s3); try done.
    + done.
    + destruct Hcpu4 as (? & ? & ? & ? & ?). unfold cpu_at. simpl. by rewrite lookup_insert_ne by congruence.
    + destruct Hrun4 as (th & Et & Hs). exists th. simpl. by rewrite lookup_insert_ne by congruence.
  - split; [done|]. split_and!; [done | done | simpl; apply lookup_insert_eq |]. by exists h, ub, ba.
Qed.

(** ** [KeSchedulerInit] *)

Lemma init_run idle w w' s :
  PoolAlloc (Svc s) = Ok (idle, w) -> idle <> 0 -> RegisterTimerISR w = (EC_SUCCESS, w') -> svc_ok w' ->
  (forall a, ~ runtime_event w' a) ->
  threads s = ∅ -> objects s = ∅ -> SavedContext s = ∅ -> gCriticalSectionDepth (Cpu s) = 0 ->
  exists s', KeSchedulerInit s = Ok (EC_SUCCESS, s') /\ boundary s' /\ gCurrentThread s' = idle /\
    gIdleThread s' = idle /\ gSchedulerEnabled s' = true /\ dom (threads s') = {[idle]}.
Proof.
  intros Hp H0 Hr Hw Hnev HT HO HC Hcs. destruct s as [T O C R Q D cur idl en qd npd st nid rsp c v].
  simpl in Hp, HT, HO, HC, Hcs. subst T O C. unfold KeSchedulerInit. simpl (Svc _). rewrite Hp. cbn [res_bind].
  rewrite (proj2 (Z.eqb_neq idle 0)) by done.
  unfold on_cpu, KeInitializeIrqlState. rewrite (proj2 (Z.eqb_neq idle 0)) by done. cbn [negb HO_KASSERT res_bind].
  unfold KeSetCurrentIrqlState. rewrite (proj2 (Z.eqb_neq idle 0)) by done. cbn [negb HO_KASSERT res_bind].
  simpl (IrqlStates _). rewrite lookup_insert_eq. change (KiAssertIrqlState _) with (@Ok unit tt). cbn [res_bind].
  simpl (Svc _). rewrite Hr. rewrite bool_decide_eq_true_2 by done. cbn [negb].
  eexists. split; [done|]. simpl.
  set (th := mkThread _ _ _ _ _ _ _ _ _ _ _ _ _ _ _ _). set (d := mkDispatcher _ _ _ _ _ _).
  assert (Hk : forall K (f : KTHREAD -> option K), f th = None -> forall y, kview f (<[idle := th]> ∅) y = None).
  { intros K f Hf y. unfold kview. destruct (decide (y = idle)) as [->|]; [by rewrite lookup_insert_eq|].
    by rewrite lookup_insert_ne by congruence. }
  assert (Hone : forall x thx, <[idle := th]> (∅ : gmap Z KTHREAD) !! x = Some thx -> x = idle /\ thx = th).
  { intros x thx [[<- <-]|[_ Ex]]%lookup_insert_Some; [done|]. by rewrite lookup_empty in Ex. }
  assert (Hobj : forall o x, <[Completion idle := d]> (∅ : gmap OBJ DISPATCHER) !! o = Some x -> o = Completion idle /\ x = d).
  { intros o x [[<- <-]|[_ Ex]]%lookup_insert_Some; [done|]. by rewrite lookup_empty in Ex. }
  split; [|split_and!; try done; simpl; set_solver]. split; [split_and!|].
  - split; simpl.
    + split; simpl.
      * split; [rewrite lookup_insert_ne by done; apply lookup_empty|].
        apply map_Forall_insert_2; [|apply map_Forall_empty]. by split_and!.
      * split; [done|]. intros p l Hl. assert (l = []) as ->.
        { destruct p as [|[|[|p]]]; simpl in Hl; [by injection Hl.. | done]. }
        split; [apply NoDup_nil_2|]. intros t. rewrite Hk by done. split; [by intros ?%not_elem_of_nil | done].
      * split; [apply NoDup_nil_2|]. split; [|constructor]. intros t. rewrite Hk by done.
        split; [by intros ?%not_elem_of_nil | by intros []].
      * split.
        -- intros o l Hl. destruct (<[Completion idle := d]> ∅ !! o) as [x|] eqn:Eo; [|done].
           destruct (Hobj o x Eo) as [_ ->]. simpl in Hl. injection Hl as <-.
           split; [apply NoDup_nil_2|]. intros t. rewrite Hk by done. split; [by intros ?%not_elem_of_nil | done].
        -- intros t o. by rewrite Hk.
      * split; [apply NoDup_nil_2|]. by intros t ?%not_elem_of_nil.
    + apply map_Forall_insert_2; [|apply map_Forall_empty]. split; [done|]. left. by split_and!.
    + split.
      * intros o x Ex. by destruct (Hobj o x Ex) as [_ ->].
      * intros t thx Ex. destruct (Hone t thx Ex) as [-> ->]. rewrite owned_new_object by done. done.
    + intros t. destruct (decide (t = idle)) as [->|Ht].
      * rewrite !lookup_insert_eq. split; [split; eauto|]. by intros x [= <-].
      * rewrite !lookup_insert_ne, !lookup_empty by congruence. split; [split; by intros []|done].
    + intros t thx Ex. destruct (Hone t thx Ex) as [-> ->]. exists [], PASSIVE0.
      rewrite !lookup_insert_eq. split_and!; try done. constructor.
    + split_and!.
      * intros j t [g Hg]. apply lookup_insert_Some in Hg as [[_ Hg]|[_ Hg]]; [done|]. by rewrite lookup_empty in Hg.
      * intros i j t [g Hg]. apply lookup_insert_Some in Hg as [[_ Hg]|[_ Hg]]; [done|]. by rewrite lookup_empty in Hg.
      * intros x t. by rewrite Hk.
    + exists th. rewrite lookup_insert_eq. split_and!; try done. by left.
    + intros t thx Ex _. left. by destruct (Hone t thx Ex).
    + split; [done|]. intros t thx Ex Hne. by destruct (Hone t thx Ex).
    + split_and!; [by intros a ?%Hnev | |].
      * intros j t (g & n & Hg). apply lookup_insert_Some in Hg as [[_ Hg]|[_ Hg]]; [done|]. by rewrite lookup_empty in Hg.
      * intros t [g Hg]. rewrite lookup_insert_eq in Hg. done.
  - constructor.
  - unfold cpu_at. simpl. rewrite lookup_insert_eq. split_and!; try done.
  - exists th. simpl. by rewrite lookup_insert_eq.
Qed.

End creation.
End SchedInit.
