(* ===== verification/SchedThms.v ===== *)
(** * Properties of the scheduler

    The reachable states of a running scheduler and the theorems about them:
    every permitted kernel call returns and keeps the system invariant, no
    wake-up is lost, the choice of the next thread, the timeout queue, events,
    semaphores, mutexes, joins and the reaper.  The witnesses instantiate them
    on [Toy], a small set of services with a user runtime whose finalize hook
    signals an event. *)

From S2P Require Import Prelude Irql Sched SchedInv SchedSafe SchedCalls SchedReap SchedInit.

Local Open Scope Z_scope.
Import Irql Sched SchedInv SchedSafe SchedCalls SchedReap SchedInit.

(** ** A concrete set of services

    A clock in microseconds that each timer interrupt moves on, the next thread
    object the pool hands out, and a user runtime that owns some threads and whose
    finalize hook first sets the first event it has, and then disowns the thread. *)

Record world := mkWorld {
  ToyClock : Z;
  ToySlot : Z;
  ToyOwned : list Z;
  ToyEvents : list Z
}.

Definition toy_stages (t : Z) : list (world -> HO_STATUS * option Z * world) :=
  [fun w => (EC_SUCCESS, head (ToyEvents w), w);
   fun w => (EC_SUCCESS, None, mkWorld (ToyClock w) (ToySlot w) (filter (.≠ t) (ToyOwned w)) (ToyEvents w))].

#[export] Instance Toy : Services world := {
  OwnsThreadHook w := Some (fun t => bool_decide (t ∈ ToyOwned w));
  EnterHook _ := Some (fun _ w => w);
  ResolveRootHook _ := Some (fun _ => (EC_SUCCESS, 0x1000));
  FinalizeThreadHook _ := Some toy_stages;
  ObserveTimerHook _ := None;
  SwitchAddressSpace _ w := (EC_SUCCESS, w);
  ReleaseStack _ w := (EC_SUCCESS, w);
  AllocStack w := (EC_SUCCESS, (ToySlot w, 0x10000 * ToySlot w + 0x1000, 0x10000 * ToySlot w), w);
  MapStack _ w := (EC_SUCCESS, w);
  PoolAlloc w := Ok (ToySlot w, mkWorld (ToyClock w) (ToySlot w + 1) (ToyOwned w) (ToyEvents w));
  PoolFree _ w := Ok w;
  SystemUpRealTime w := (ToyClock w, w);
  MinDeltaNs _ := 1000;
  MaxDeltaNs _ := 1000000000;
  SetNextEvent _ w := (EC_SUCCESS, w);
  OnClockInterrupt w := mkWorld (ToyClock w + 20000) (ToySlot w) (ToyOwned w) (ToyEvents w);
  RegisterTimerISR w := (EC_SUCCESS, w);
  BootStackTop _ := 0x80000
}.

#[export] Program Instance ToyLaws : ServicesLaws world := {
  svc_ok _ := True;
  thread_live _ _ _ := True;
  root_ok _ _ := True;
  runtime_event w a := a ∈ ToyEvents w;
  quiet w w' := ToyEvents w' = ToyEvents w
}.
Next Obligation. intros w w' Hq _. split_and!; try done. by intros a; rewrite Hq. Qed.
Next Obligation. intros. by eexists _, _. Qed.
Next Obligation. intros. by eexists. Qed.
Next Obligation. done. Qed.
Next Obligation. done. Qed.
Next Obligation. done. Qed.
Next Obligation. by intros ? ? ? _ [=]. Qed.
Next Obligation. intros. by eexists. Qed.
Next Obligation. intros. by eexists. Qed.
Next Obligation.
  intros w0 f t stage w _ [= <-] [->|[->|[]%not_elem_of_nil]%elem_of_cons]%elem_of_cons _; simpl;
    eexists _, _; (split; [done|]); (split_and!; try done).
  intros a Ha. by apply head_Some_elem_of.
Qed.
Next Obligation. intros. eexists _, _. by split_and!. Qed.

#[export] Program Instance ToyCreation : CreationLaws world := {
  fresh_slot _ _ := True;
  fresh_stack _ _ _ := True
}.
Next Obligation. intros. eexists _, _. by split_and!. Qed.
Next Obligation. intros. by eexists _, _, _, _, _. Qed.
Next Obligation. intros. by eexists _, _. Qed.
Next Obligation. intros. by eexists. Qed.

(** ** The running system *)

Section system.
Context {W : Type} {SV : Services W} {SL : ServicesLaws W}.
Implicit Types (s : SCHED W).

Definition kind_of s (o : OBJ) (kind : Z) : Prop :=
  exists a d, o = Standalone a /\ objects s !! o = Some d /\ DType d = kind.

(** The caller's side of the contract of each call: objects that exist and have
    the right type, threads that have not been freed, deadlines that do not pass
    the end of the 64-bit clock; the idle thread never blocks and a thread that
    exits owns no mutex. *)
Definition call_ok s (c : call) : Prop :=
  few_objects s /\ few_threads s /\
  match c with
  | CallStart t | CallDetach t => is_Some (threads s !! t)
  | CallYield | CallReap | TimerInterrupt _ => True
  | CallSleep d => d = 0 \/ (gCurrentThread s <> gIdleThread s /\ deadline_fits s d)
  | CallWait o timeoutNs => gCurrentThread s <> gIdleThread s /\ wait_timeout_ok s timeoutNs /\
      exists a, o = Standalone a /\ is_Some (objects s !! o)
  | CallSetEvent o | CallResetEvent o => kind_of s o DISPATCHER_TYPE_EVENT
  | CallReleaseSemaphore o n => kind_of s o DISPATCHER_TYPE_SEMAPHORE /\ n < 2 ^ 31
  | CallReleaseMutex o => kind_of s o DISPATCHER_TYPE_MUTEX
  | CallExit => gCurrentThread s <> gIdleThread s /\
      exists th, threads s !! gCurrentThread s = Some th /\ OwnedMutexCount th = 0
  | CallJoin t timeoutNs => is_Some (threads s !! t) /\ wait_timeout_ok s timeoutNs
  end.

Lemma kernel_call_run c s : boundary s -> call_ok s c ->
  exists r, kernel_call c s = Ok r /\ settled r.
Proof.
  intros Hb (Hfo & Hft & Hc). destruct c; cbn [kernel_call]; cbn beta iota in Hc.
  - destruct (thread_start_run t s Hb Hc) as (v & s' & -> & Hb'). by eexists.
  - by apply yield_run.
  - apply sleep_run; [done|]. intros Hd. by destruct Hc.
  - destruct Hc as (Hni & Hto & a & -> & d & Ed).
    destruct (wait_run (Standalone a) timeoutNs [] d s) as (r & E & Hr & _); try done; [|by exists r].
    left. split; [done | by exists a].
  - destruct Hc as (a & d & -> & Ed & Hty). destruct (set_event_run a d [] s) as (r & E & Hr & _); try done; [by left|].
    exists r. split; [done | by eapply settles_settled].
  - destruct Hc as (a & d & -> & Ed & Hty). destruct (reset_event_run a d s) as [-> Hb']; try done. by eexists.
  - destruct Hc as [(a & d & -> & Ed & Hty) Hn].
    destruct (release_semaphore_run a count d s) as (r & E & Hr & _); try done. by exists r.
  - destruct Hc as (a & d & -> & Ed & Hty).
    destruct (release_mutex_run a d s) as (v & s' & -> & Hb' & _); try done. by eexists.
  - destruct Hc as (Hni & th & Et & Hz). by apply (thread_exit_run s th).
  - destruct Hc as [[th Et] Hto]. destruct (join_run t th timeoutNs s) as (r & E & Hr & _); try done. by exists r.
  - destruct (detach_run t s Hb Hc) as (v & s' & -> & Hb'). by eexists.
  - unfold KiReapTerminatedThreads.
    destruct (reap_finishes (S (length (gTerminatedList s))) s) as (r & E & Hr & _); [done | lia |].
    unfold and_then. rewrite E. cbn [res_bind]. destruct r as [[] s'|s']; [by eexists|]. destruct Hr as (_ & Hs & _). by eexists.
  - by apply timer_run.
Qed.

Lemma step_run c s : boundary s -> call_ok s c -> exists v s', step c s = Ok (v, s') /\ boundary s'.
Proof.
  intros Hb Hc. destruct (kernel_call_run c s Hb Hc) as (r & E & Hr). unfold step. rewrite E. cbn [res_bind].
  destruct r as [v s'|s']; [by exists v, s' | by apply settle_run].
Qed.

(** What the services may do on their own between two kernel calls: the user
    runtime registers its hooks and takes events into use that exist. *)
Definition service_change s (w : W) : Prop :=
  svc_ok w /\ (forall t h, thread_live (Svc s) t h -> thread_live w t h) /\
  (is_Some (FinalizeThreadHook (Svc s)) -> is_Some (FinalizeThreadHook w)) /\
  (forall a, runtime_event w a -> runtime_event (Svc s) a \/ kind_of s (Standalone a) DISPATCHER_TYPE_EVENT).

Lemma service_boundary w s : boundary s -> service_change s w -> boundary (set_Svc w s).
Proof.
  intros [(Hinv & Hk & Hcpu) Hrun] (H1 & H2 & H3 & H4). split; [split_and!|]; try done.
  destruct Hinv as [Hq Ho Hown Hcp Hcx Hj Hi Hr [_ Hst] (R1 & R2 & R3)]. split; try done.
  - split; [done|]. intros t th Et Ht. destruct (Hst t th Et Ht). split; [done | by apply H2].
  - split_and!; [| |done].
    + intros a [Ha|(a' & d & [= <-] & Ed & Hty)]%H4; [by apply R1 | by exists d].
    + intros j t Hf. destruct (R2 j t Hf) as (? & ? & ?). split_and!; [done | by apply H3 | done].
Qed.

(** What the running thread, the clock or the services can do: a permitted kernel
    call, the creation of a thread in a free pool slot, the initialisation of a new
    dispatcher object, a change of the services. *)
Inductive sched_step s : SCHED W -> Prop :=
| step_call c v s' : call_ok s c -> step c s = Ok (v, s') -> sched_step s s'
| step_create mode entryPoint arg v t s' :
    entryPoint <> 0 -> gNextThreadId s <> 0 ->
    (forall t w, PoolAlloc (Svc s) = Ok (t, w) -> threads s !! t = None) ->
    KiThreadCreateInternal true entryPoint arg mode s = Ok (v, t, s') -> sched_step s s'
| step_event a initialState : objects s !! Standalone a = None ->
    sched_step s (KeInitializeEvent (Standalone a) initialState s)
| step_semaphore a initialCount limit v s' : objects s !! Standalone a = None -> limit < 2 ^ 31 ->
    KeInitializeSemaphore (Some (Standalone a)) initialCount limit s = (v, s') -> sched_step s s'
| step_mutex a s' : objects s !! Standalone a = None ->
    KeInitializeMutex (Some (Standalone a)) s = Ok s' -> sched_step s s'
| step_service w : service_change s w -> sched_step s (set_Svc w s).

(** [KeSchedulerInit] has run successfully from the state at boot, when the user
    runtime has no event in use. *)
Definition booted s : Prop :=
  exists s0 idle w w', PoolAlloc (Svc s0) = Ok (idle, w) /\ idle <> 0 /\
    RegisterTimerISR w = (EC_SUCCESS, w') /\ svc_ok w' /\ (forall a, ~ runtime_event w' a) /\ threads s0 = ∅ /\ objects s0 = ∅ /\
    SavedContext s0 = ∅ /\ gCriticalSectionDepth (Cpu s0) = 0 /\ KeSchedulerInit s0 = Ok (EC_SUCCESS, s).

Inductive reachable : SCHED W -> Prop :=
| reach_boot s : booted s -> reachable s
| reach_step s s' : reachable s -> sched_step s s' -> reachable s'.

Lemma booted_boundary s : booted s -> boundary s.
Proof.
  intros (s0 & idle & w & w' & Hp & H0 & Hr & Hw & Hev & HT & HO & HC & Hcs & E).
  destruct (init_run idle w w' s0) as (s' & E' & Hb & _); try done. rewrite E in E'. by injection E' as <-.
Qed.

Lemma event_boundary a init s : boundary s -> objects s !! Standalone a = None ->
  boundary (KeInitializeEvent (Standalone a) init s).
Proof. intros Hb Ho. apply new_object_run; try done. split; [done|]. left. by destruct init. Qed.

Lemma semaphore_boundary a n limit v s s' : boundary s -> objects s !! Standalone a = None -> limit < 2 ^ 31 ->
  KeInitializeSemaphore (Some (Standalone a)) n limit s = (v, s') -> boundary s'.
Proof.
  intros Hb Ho Hl E. unfold KeInitializeSemaphore in E.
  destruct ((n <? 0) || (limit <=? 0) || (limit <? n)) eqn:Ec; injection E as <- <-; [done|].
  apply orb_false_iff in Ec as [[H1%Z.ltb_ge H2%Z.leb_gt]%orb_false_iff H3%Z.ltb_ge].
  apply new_object_run; try done. split; [done|]. right; left. simpl. by split_and!; try lia.
Qed.

Lemma mutex_boundary a s s' : boundary s -> objects s !! Standalone a = None ->
  KeInitializeMutex (Some (Standalone a)) s = Ok s' -> boundary s'.
Proof.
  intros Hb Ho E. injection E as <-. apply new_object_run; try done. split; [done|]. right; right.
  split; [done|]. by left.
Qed.

Lemma sched_step_boundary {CL : CreationLaws W} s s' : boundary s -> sched_step s s' -> boundary s'.
Proof.
  intros Hb Hs. destruct Hs as [c v s' Hc E|mode e arg v t s' He Hid Hf E|a i Ho|a n l v s' Ho Hl E|a s' Ho E|w Hw].
  - destruct (step_run c s Hb Hc) as (v' & s2 & E2 & Hb2). rewrite E in E2. by injection E2 as _ <-.
  - destruct (create_run mode e arg s Hb He Hid Hf) as (v' & t' & s2 & E2 & Hb2 & _). rewrite E in E2. by injection E2 as _ _ <-.
  - by apply event_boundary.
  - by eapply semaphore_boundary.
  - by eapply mutex_boundary.
  - by apply service_boundary.
Qed.

Lemma reachable_boundary {CL : CreationLaws W} s : reachable s -> boundary s.
Proof.
  induction 1 as [s Hb|s s' _ IH Hs]; [by apply booted_boundary | by eapply sched_step_boundary].
Qed.

End system.

(** ** The properties *)

Section properties.
Context {W : Type} {SV : Services W} {SL : ServicesLaws W}.
Implicit Types (s : SCHED W).

(** C1: in every reachable state every permitted kernel call of the running
    thread, and every timer interrupt, returns: no kernel assertion fires, no
    thread or object that was freed is touched, no link of a queue is corrupted
    and no loop runs on; afterwards the running thread is again between two
    calls and the system invariant holds.  This includes the joins and the reaping
    that run the user runtime's finalize hook, which signals events in the middle
    of it: the idle thread may be switched away from there, and is resumed in the
    hook, with the thread it was freeing still there. *)
Theorem kernel_calls_are_safe {CL : CreationLaws W} s c :
  reachable s -> call_ok s c -> exists v s', step c s = Ok (v, s') /\ boundary s' /\ reachable s'.
Proof.
  intros Hr Hc. destruct (step_run c s (reachable_boundary s Hr) Hc) as (v & s' & E & Hb).
  exists v, s'. split; [done|]. split; [done|]. eapply reach_step; [exact Hr|]. by eapply step_call.
Qed.

(** C26: in every reachable state each thread is in the queues its state calls for
    and in no other: a ready thread exactly in the ready queue of its priority, a
    thread blocked with a deadline exactly in the timeout queue, a thread blocked
    on an object exactly in that object's wait list, and only the current and the
    idle thread are marked running. *)
Theorem threads_are_in_their_queues {CL : CreationLaws W} s t th :
  reachable s -> threads s !! t = Some th ->
  (forall p q, gReadyQueues s !! p = Some q ->
     NoDup q /\ (t ∈ q <-> State th = KTHREAD_STATE_READY /\ p = Z.to_nat (Priority th))) /\
  (t ∈ gTimeoutQueue s <-> State th = KTHREAD_STATE_BLOCKED /\ DeadlineNs (WaitBlock th) <> 0) /\
  (forall o d, objects s !! o = Some d ->
     NoDup (WaitList d) /\
     (t ∈ WaitList d <-> State th = KTHREAD_STATE_BLOCKED /\ Dispatcher (WaitBlock th) = Some o)) /\
  (State th = KTHREAD_STATE_RUNNING -> t = gCurrentThread s \/ t = gIdleThread s).
Proof.
  intros Hr Et. pose proof (reachable_boundary s Hr) as [(Hinv & _ & _) _].
  destruct (s_queues _ _ Hinv) as [_ [_ Hrd] (_ & Hi & _) [Hw _] _]. split_and!.
  - intros p q Hq. destruct (Hrd p q Hq) as [Hn Hin]. split; [done|]. rewrite Hin.
    rewrite (kview_at rkey _ _ th) by done. unfold rkey. destruct (decide _); naive_solver.
  - rewrite Hi, (kview_at tkey _ _ th) by done. unfold tkey.
    destruct (decide _) as [Hd|Hd]; [split; [done | by eexists] | split; [by intros [] | done]].
  - intros o d Ho. destruct (Hw o (WaitList d)) as [Hn Hin]; [by rewrite Ho|]. split; [done|]. rewrite Hin.
    rewrite (kview_at wkey _ _ th) by done. unfold wkey. destruct (decide _); naive_solver.
  - intros Hs. by eapply (s_running _ _ Hinv).
Qed.

(** C29: no wake-up is lost: in every reachable state an event that is signalled,
    or a semaphore that has permits left, has no waiter, and a mutex with waiters
    has an owner that is not itself waiting for it. *)
Theorem no_lost_wakeup {CL : CreationLaws W} s o d :
  reachable s -> objects s !! o = Some d -> WaitList d <> [] ->
  SignalState d = 0 /\
  (DType d = DISPATCHER_TYPE_MUTEX -> OwnerThread d <> 0 /\ OwnerThread d ∉ WaitList d).
Proof.
  intros Hr Eo Hne. pose proof (reachable_boundary s Hr) as [(Hinv & _ & _) _].
  destruct (map_Forall_lookup_1 _ _ _ _ (s_objects _ _ Hinv) Eo) as [_ Hk].
  destruct Hk as [(Hty & _ & Hw)|[(Hty & _ & _ & _ & Hw)|(Hty & [(_ & _ & Hw)|(Hz & Ho & Hw)])]].
  - split; [destruct (decide (SignalState d = 0)); [done | by apply Hw in n]|]. rewrite Hty. discriminate.
  - split; [destruct (decide (SignalState d = 0)); [done | by apply Hw in n]|]. rewrite Hty. discriminate.
  - done.
  - done.
Qed.

(** ownership of mutexes is consistent in every reachable state: an owner is
    a thread that exists and has not terminated, a mutex without owner is free,
    and the count kept in a thread is the number of mutexes it owns. *)
Theorem mutex_ownership_is_consistent {CL : CreationLaws W} s o d :
  reachable s -> objects s !! o = Some d -> DType d = DISPATCHER_TYPE_MUTEX ->
  (SignalState d = 1 <-> OwnerThread d = 0) /\
  (OwnerThread d <> 0 -> exists th, threads s !! OwnerThread d = Some th /\
     State th <> KTHREAD_STATE_TERMINATED /\
     OwnedMutexCount th = Z.of_nat (size (filter (fun x => OwnerThread x.2 = OwnerThread d) (objects s))) /\
     1 <= OwnedMutexCount th).
Proof.
  intros Hr Eo Hty. pose proof (reachable_boundary s Hr) as [(Hinv & _ & _) _].
  destruct (map_Forall_lookup_1 _ _ _ _ (s_objects _ _ Hinv) Eo) as [_ Hk].
  destruct Hk as [(E & _)|[(E & _)|(_ & Hm)]]; [rewrite Hty in E; discriminate E.. |].
  split; [destruct Hm as [(? & ? & _)|(? & ? & _)]; split; congruence|].
  intros Hn. destruct (s_owners _ _ Hinv) as [Hown Hcnt]. destruct (Hown o d Eo Hn) as (th & Et & Hs).
  exists th. split_and!; [done | done | by apply Hcnt |].
  rewrite (Hcnt _ _ Et). unfold owned.
  enough (size (filter (fun x => OwnerThread x.2 = OwnerThread d) (objects s)) <> 0%nat) by lia.
  intros Hz%map_size_empty_inv. apply (f_equal (fun m => m !! o)) in Hz. rewrite lookup_empty in Hz.
  apply map_lookup_filter_None in Hz as [Hz|Hz]; [congruence|]. by apply (Hz d Eo).
Qed.

(** in every reachable state at most one thread is suspended in a join of a
    given thread, the joined thread has not been freed, is joinable and is claimed
    by that join, and the wait of the joiner that returns success finds it
    terminated with its completion published. *)
Theorem pending_join_is_exclusive {CL : CreationLaws W} s i j g g' t :
  reachable s -> i <> gCurrentThread s -> j <> gCurrentThread s ->
  SavedContext s !! i = Some [InWait g; InJoin t] -> SavedContext s !! j = Some [InWait g'; InJoin t] ->
  i = j /\ exists thi th, threads s !! i = Some thi /\ threads s !! t = Some th /\
    TerminationMode th = KTHREAD_TERMINATION_MODE_JOINABLE /\
    TerminationClaimState th = CLAIM_JOIN_IN_PROGRESS /\
    (State thi <> KTHREAD_STATE_BLOCKED -> CompletionStatus (WaitBlock thi) = EC_SUCCESS ->
       State th = KTHREAD_STATE_TERMINATED).
Proof.
  intros Hr Hi Hj Ei Ej. pose proof (reachable_boundary s Hr) as [(Hinv & _ & _) _].
  destruct (s_joins _ _ Hinv) as (J1 & J2 & _).
  assert (H1 : joins (<[gCurrentThread s:=[]]> (SavedContext s)) i t) by (exists g; by rewrite lookup_insert_ne).
  assert (H2 : joins (<[gCurrentThread s:=[]]> (SavedContext s)) j t) by (exists g'; by rewrite lookup_insert_ne).
  split; [by eapply J2|]. destruct (J1 i t H1) as (thi & th & E1 & E2 & _ & _ & Hm & Hc & _ & Hw).
  exists thi, th. split_and!; try done. intros Hs Hv. destruct (Hw Hs Hv) as [(th' & E' & Hs') _]. congruence.
Qed.

(** [KeSchedulerInit] from the state at boot makes the boot thread the running
    idle thread, enables the scheduler and establishes the system invariant. *)
Theorem scheduler_comes_up idle w w' s :
  PoolAlloc (Svc s) = Ok (idle, w) -> idle <> 0 -> RegisterTimerISR w = (EC_SUCCESS, w') -> svc_ok w' ->
  (forall a, ~ runtime_event w' a) -> threads s = ∅ -> objects s = ∅ -> SavedContext s = ∅ -> gCriticalSectionDepth (Cpu s) = 0 ->
  exists s', KeSchedulerInit s = Ok (EC_SUCCESS, s') /\ boundary s' /\ gCurrentThread s' = idle /\
    gIdleThread s' = idle /\ gSchedulerEnabled s' = true /\ dom (threads s') = {[idle]}.
Proof. apply init_run. Qed.

(** creating a thread either succeeds with a thread that has not started,
    whose saved context is the trampoline and whose identifier is the next one,
    or fails and leaves threads and objects as they were; the ready queues do not
    change and the system invariant is kept. *)
Theorem thread_creation_is_all_or_nothing {CL : CreationLaws W} mode entryPoint arg s :
  boundary s -> entryPoint <> 0 -> gNextThreadId s <> 0 ->
  (forall t w, PoolAlloc (Svc s) = Ok (t, w) -> threads s !! t = None) ->
  exists v t s', KiThreadCreateInternal true entryPoint arg mode s = Ok (v, t, s') /\
    created mode entryPoint arg s v t s'.
Proof. apply create_run. Qed.

(** C27: [KiSchedule] gives the processor to the thread at the head of the
    highest-priority non-empty ready queue, which it takes off that queue, or to
    the idle thread when no thread is ready; it switches exactly when that is not
    the current thread, and the thread that runs then is marked running. *)
Theorem schedule_picks_highest_priority_head k st s :
  inside k st s -> st <> PASSIVE0 ->
  (forall th, threads s !! gCurrentThread s = Some th -> State th = KTHREAD_STATE_RUNNING ->
     gCurrentThread s = gIdleThread s) ->
  exists next s',
    ((exists p q, gReadyQueues s !! p = Some (next :: q) /\
        (forall p', (p < p' < 3)%nat -> gReadyQueues s !! p' = Some []) /\
        gReadyQueues s' = <[p := q]> (gReadyQueues s)) \/
     ((forall p, (p < 3)%nat -> gReadyQueues s !! p = Some []) /\ next = gIdleThread s /\
        gReadyQueues s' = gReadyQueues s)) /\
    KiSchedule k s = Ok (if decide (next = gCurrentThread s) then Done tt s' else Switched s') /\
    gCurrentThread s' = next /\ current_running s'.
Proof.
  intros Hin Hst Hcur.
  destruct (KiSchedule_run k st s Hin Hst Hcur)
    as (next & R & Hch & [(Hn & s' & E & _ & Hrun & Hc & HR)|(Hn & s' & E & Hsw & Hc & HR & _)]);
    exists next, s'; (split; [by rewrite HR|]); rewrite E.
  - by rewrite decide_True.
  - rewrite decide_False by done. split_and!; [done | done |]. by destruct Hsw as (_ & ? & _).
Qed.

(** [KiInsertTimeoutQueue] puts a thread with a deadline behind the threads
    with an earlier or the same deadline and in front of those with a later one,
    so that equal deadlines expire in the order of insertion. *)
Theorem timeout_insertion_is_sorted_and_stable t th T s :
  timeout_ok T (gTimeoutQueue s) -> kview tkey T t = None -> threads s = <[t := th]> T ->
  exists l1 l2, gTimeoutQueue s = l1 ++ l2 /\
    KiInsertTimeoutQueue t s = Ok (set_TimeoutQueue (l1 ++ t :: l2) s) /\
    (forall x, x ∈ l1 -> deadline_of T x <= DeadlineNs (WaitBlock th)) /\
    (forall x, x ∈ l2 -> DeadlineNs (WaitBlock th) < deadline_of T x).
Proof. apply KiInsertTimeoutQueue_run. Qed.

(** C28: [KiWakeTimeouts] terminates having woken with [EC_TIMEOUT] exactly the
    threads of the timeout queue whose deadline has passed: each goes, in queue
    order, to the tail of its ready queue and leaves the timeout queue and the
    wait list of its object; every other thread is unchanged. *)
Theorem wake_timeouts_wakes_the_expired nowNs s :
  queues_ok s -> exists s', KiWakeTimeouts nowNs s = Ok s' /\
    let expired := filter (fun t => default 0 (kview tkey (threads s) t) <= nowNs) (gTimeoutQueue s) in
    gTimeoutQueue s' = filter (fun t => t ∉ expired) (gTimeoutQueue s) /\
    (forall t, threads s' !! t = if decide (t ∈ expired) then woken_thread EC_TIMEOUT <$> threads s !! t
                                 else threads s !! t) /\
    (forall p q, gReadyQueues s !! p = Some q ->
       gReadyQueues s' !! p = Some (q ++ filter (fun t => prio_of (threads s) t = p) expired)) /\
    (forall o d, objects s !! o = Some d ->
       objects s' !! o = Some (set_WaitList (filter (fun t => t ∉ expired) (WaitList d)) d)) /\
    queues_ok s'.
Proof.
  intros Hq. unfold KiWakeTimeouts.
  destruct (wake_timeouts_run (S (length (gTimeoutQueue s))) nowNs s Hq) as (s' & E & Hw); [lia|].
  exists s'. split; [done|]. cbv zeta. split_and!; try apply Hw.
  intros o d Ho. rewrite (wk_objects _ _ _ _ Hw), Ho. done.
Qed.

(** [KeSetEvent] by a thread other than the idle thread leaves the event
    signalled and wakes all its waiters, each once and in the order they began to
    wait; it touches no other thread and no other object's signal state. *)
Theorem set_event_wakes_every_waiter a d s :
  boundary s -> objects s !! Standalone a = Some d -> DType d = DISPATCHER_TYPE_EVENT ->
  gCurrentThread s <> gIdleThread s ->
  exists s', KeSetEvent (Some (Standalone a)) [] s = Ok (Done EC_SUCCESS s') /\
    objects s' !! Standalone a = Some (set_WaitList [] (set_SignalState 1 d)) /\
    (forall t, threads s' !! t = if decide (t ∈ WaitList d) then woken_thread EC_SUCCESS <$> threads s !! t
                                 else threads s !! t) /\
    (forall p q, gReadyQueues s !! p = Some q ->
       gReadyQueues s' !! p = Some (q ++ filter (fun t => prio_of (threads s) t = p) (WaitList d))) /\
    boundary s'.
Proof.
  intros Hb Eo Hty Hni. destruct (set_event_run a d [] s Hb Eo Hty) as (r & E & Hr & Hd); [done|].
  destruct r as [v s'|s']; [|by destruct Hr]. destruct (Hd v s' eq_refl) as [-> Hw]. exists s'. split; [done|]. split_and!; [ | apply Hw | apply Hw | done].
  rewrite (wk_objects _ _ _ _ Hw). simpl. rewrite lookup_insert_eq. simpl. do 2 f_equal.
  apply elem_of_nil_inv. by intros x [Hx Hx']%list_elem_of_filter.
Qed.

(** [KeReleaseSemaphore] of [n] permits by a thread other than the idle thread
    wakes the first [n] waiters in order and adds what is left of the permits to
    the count, which stays within the limit; a release of no permits, or of more
    than the limit allows, is rejected with nothing changed. *)
Theorem semaphore_release_conserves_permits a n d s :
  boundary s -> few_threads s -> objects s !! Standalone a = Some d -> DType d = DISPATCHER_TYPE_SEMAPHORE ->
  n < 2 ^ 31 -> gCurrentThread s <> gIdleThread s ->
  let left := SignalState d + Z.max 0 (n - Z.of_nat (length (WaitList d))) in
  if decide (n <= 0 \/ Limit d < left)
  then KeReleaseSemaphore (Some (Standalone a)) n [] s = Ok (Done EC_ILLEGAL_ARGUMENT s)
  else exists s', KeReleaseSemaphore (Some (Standalone a)) n [] s = Ok (Done EC_SUCCESS s') /\
    objects s' !! Standalone a = Some (set_SignalState left (set_WaitList (drop (Z.to_nat n) (WaitList d)) d)) /\
    (forall t, threads s' !! t = if decide (t ∈ take (Z.to_nat n) (WaitList d))
       then woken_thread EC_SUCCESS <$> threads s !! t else threads s !! t) /\
    0 <= left <= Limit d /\ boundary s'.
Proof.
  intros Hb Hf Eo Hty Hn Hni left.
  destruct (release_semaphore_run a n d s Hb Hf Eo Hty Hn) as (r & E & Hr & Hd).
  change (permits_after n d) with left in Hd. destruct (decide _) as [Hx|Hx]; [by rewrite E, Hd|].
  destruct (Hd Hni) as (s' & -> & Hw). eexists. split; [exact E|].
  destruct (map_Forall_lookup_1 _ _ _ _ (s_objects _ _ (proj1 (proj1 Hb))) Eo) as [_ Hk].
  destruct Hk as [(E' & _)|[(_ & _ & Hl & Hss & _)|(E' & _)]]; [rewrite Hty in E'; discriminate E' | | rewrite Hty in E'; discriminate E'].
  split; [apply lookup_insert_eq|]. split; [apply Hw|]. split; [|done]. unfold left in *. lia.
Qed.

(** [KeReleaseMutex] by the owner frees a mutex nobody waits for, and hands a
    mutex with waiters over to the one that has waited longest, which is the only
    thread it wakes; a thread that does not own the mutex is refused and nothing
    changes. *)
Theorem mutex_release_hands_over_in_order a d s :
  boundary s -> few_objects s -> objects s !! Standalone a = Some d -> DType d = DISPATCHER_TYPE_MUTEX ->
  exists v s', KeReleaseMutex (Some (Standalone a)) s = Ok (v, s') /\ boundary s' /\
    if decide (OwnerThread d = gCurrentThread s) then
      v = EC_SUCCESS /\
      match WaitList d with
      | [] => objects s' = <[Standalone a := set_SignalState 1 (set_Owner 0 d)]> (objects s) /\
              gReadyQueues s' = gReadyQueues s
      | t :: q => exists th, threads s !! t = Some th /\
          objects s' !! Standalone a = Some (set_WaitList q (set_SignalState 0 (set_Owner t d))) /\
          threads s' !! t = Some (woken_thread EC_SUCCESS (set_OwnedMutexCount (OwnedMutexCount th + 1) th)) /\
          forall x, x <> t -> State <$> threads s' !! x = State <$> threads s !! x
      end
    else v = EC_INVALID_STATE /\ s' = s.
Proof.
  intros Hb Hf Eo Hty. destruct (release_mutex_run a d s Hb Hf Eo Hty) as (v & s' & E & Hb' & Hm).
  exists v, s'. split; [done|]. split; [done|]. unfold mutex_released in Hm.
  destruct (decide (OwnerThread d = gCurrentThread s)) as [Eow|]; [|done].
  destruct Hm as (-> & thc & Ec & Hm). split; [done|]. destruct (WaitList d) as [|t q] eqn:Ewl; [by subst s'|].
  destruct Hm as (th & Et & Hw). exists th.
  assert (Hn : NoDup (t :: q)).
  { destruct (s_queues _ _ (proj1 (proj1 Hb))) as [_ _ _ [Hwl _] _]. rewrite <- Ewl. apply (Hwl (Standalone a)). by rewrite Eo. }
  apply NoDup_cons in Hn as [Hnt _]. split; [done|]. split_and!.
  - rewrite (wk_objects _ _ _ _ Hw). simpl. rewrite lookup_insert_eq. simpl. rewrite Ewl. do 2 f_equal.
    rewrite filter_cons_False by (intros Hx; apply Hx; by left).
    rewrite <- (filter_ne_id t q) at 2 by done. apply filter_iff_in. intros x _.
    by rewrite list_elem_of_singleton.
  - rewrite (wk_threads _ _ _ _ Hw), decide_True by (by left). simpl. by rewrite lookup_insert_eq.
  - intros x Hx. rewrite (wk_threads _ _ _ _ Hw), decide_False by (by rewrite list_elem_of_singleton).
    simpl. rewrite lookup_insert_ne by congruence. destruct (decide (x = gCurrentThread s)) as [->|Hxc].
    + by rewrite lookup_insert_eq, Ec.
    + by rewrite lookup_insert_ne.
Qed.

(** the reaper terminates: either it has freed exactly the threads of its
    queue and no other and left the queue empty, or the idle thread has been
    switched away from in the middle of it. *)
Theorem reaper_frees_the_terminated_list s :
  boundary s -> exists r, KiReapTerminatedThreads [] s = Ok r /\
    match r with
    | Done _ s' => gTerminatedList s' = [] /\ boundary s' /\
        forall t, is_Some (threads s' !! t) <-> is_Some (threads s !! t) /\ t ∉ gTerminatedList s
    | Switched s' => gCurrentThread s = gIdleThread s /\ switched s' /\ gCurrentThread s' <> gIdleThread s'
    end.
Proof.
  intros Hb. unfold KiReapTerminatedThreads.
  destruct (reap_finishes (S (length (gTerminatedList s))) s) as (r & E & Hr & Hd); [done | lia |].
  exists r. split; [done|]. destruct r as [[] s'|s']; [|done]. destruct (Hd tt s' eq_refl) as (? & _ & _ & ?). done.
Qed.

(** [KeThreadJoin] of another live thread: a detached thread, one whose
    termination another join has claimed or consumed, and the idle thread are
    refused with nothing changed; a joinable thread that has terminated is freed
    at once, and is the only thread freed; a zero timeout on a thread that still
    runs leaves it unclaimed. *)
Theorem join_outcomes t th timeoutNs s :
  boundary s -> threads s !! t = Some th -> few_objects s -> wait_timeout_ok s timeoutNs ->
  exists r, KeThreadJoin t timeoutNs [] s = Ok r /\ settled r /\
    if decide (t = gCurrentThread s \/ gCurrentThread s = gIdleThread s \/ t = gIdleThread s)
    then r = Done EC_INVALID_STATE s
    else (~ joinable th -> r = Done EC_INVALID_STATE s) /\
      (joinable th -> finished t th s -> exists s', r = Done EC_SUCCESS s' /\ threads s' !! t = None /\
         forall x, x <> t -> is_Some (threads s' !! x) <-> is_Some (threads s !! x)) /\
      (joinable th -> ~ finished t th s -> timeoutNs = 0 -> r = Done EC_TIMEOUT s).
Proof. apply join_run. Qed.

End properties.

(** ** A concrete system for the witnesses *)

Definition boot_world : SCHED world :=
  mkSched ∅ ∅ ∅ [] [] [] 0 0 false 0 0 (mkStats 0 0 0 0 0 0) 1 0 (mkCpu true ∅ 0 0) (mkWorld 1000000 1 [] []).

Definition after {A} (m : res (A * SCHED world)) : SCHED world :=
  match m with Ok (_, s) => s | _ => boot_world end.
Definition calls (cs : list call) (s : SCHED world) : SCHED world :=
  foldl (fun s c => after (step c s)) s cs.

(** The idle thread 1, a joinable thread 2 and a detached thread 3 that have not
    started, an event 100, a semaphore 101 with 0 of 2 permits, a mutex 102. *)
Definition demo : SCHED world :=
  let s := after (KeSchedulerInit boot_world) in
  let s := after (KeThreadCreateJoinable true 0x4000 7 s) in
  let s := after (KeThreadCreate true 0x5000 8 s) in
  let s := KeInitializeEvent (Standalone 100) false s in
  let s := snd (KeInitializeSemaphore (Some (Standalone 101)) 0 2 s) in
  match KeInitializeMutex (Some (Standalone 102)) s with Ok s => s | _ => boot_world end.

(** Boolean decision of the contract, for evaluation. *)
Definition kind_ofb (s : SCHED world) (o : OBJ) (kind : Z) : bool :=
  match o with
  | Standalone _ => match objects s !! o with Some d => DType d =? kind | None => false end
  | Completion _ => false
  end.
Definition fits (s : SCHED world) (d : Z) : bool := (0 <? d) && (now_of (Svc s) + d <? 2 ^ 64).
Definition timeout_okb (s : SCHED world) (d : Z) : bool := (d =? 0) || (d =? KE_WAIT_INFINITE) || fits s d.
Definition call_okb (s : SCHED world) (c : call) : bool :=
  let busy := negb (gCurrentThread s =? gIdleThread s) in
  (Z.of_nat (size (objects s)) <? 0xFFFFFFFF) && (Z.of_nat (size (threads s)) <? 2 ^ 31) &&
  match c with
  | CallStart t | CallDetach t => bool_decide (is_Some (threads s !! t))
  | CallYield | CallReap | TimerInterrupt _ => true
  | CallSleep d => (d =? 0) || (busy && fits s d)
  | CallWait o timeoutNs => busy && timeout_okb s timeoutNs &&
      match o with Standalone _ => bool_decide (is_Some (objects s !! o)) | Completion _ => false end
  | CallSetEvent o | CallResetEvent o => kind_ofb s o DISPATCHER_TYPE_EVENT
  | CallReleaseSemaphore o n => kind_ofb s o DISPATCHER_TYPE_SEMAPHORE && (n <? 2 ^ 31)
  | CallReleaseMutex o => kind_ofb s o DISPATCHER_TYPE_MUTEX
  | CallExit => busy && match threads s !! gCurrentThread s with
                        | Some th => OwnedMutexCount th =? 0 | None => false end
  | CallJoin t timeoutNs => bool_decide (is_Some (threads s !! t)) && timeout_okb s timeoutNs
  end.

Lemma kind_ofb_sound s o kind : kind_ofb s o kind = true -> kind_of s o kind.
Proof.
  destruct o as [a|t]; simpl; [|done]. destruct (objects s !! Standalone a) as [d|] eqn:Eo; [|done].
  intros Hd%Z.eqb_eq. by exists a, d.
Qed.
Lemma fits_sound s d : fits s d = true -> deadline_fits s d.
Proof. intros [H1%Z.ltb_lt H2%Z.ltb_lt]%andb_true_iff. by split. Qed.
Lemma timeout_okb_sound s d : timeout_okb s d = true -> wait_timeout_ok s d.
Proof.
  unfold timeout_okb, wait_timeout_ok. intros [[H%Z.eqb_eq|H%Z.eqb_eq]%orb_true_iff|H%fits_sound]%orb_true_iff; auto.
Qed.
Lemma call_okb_sound s c : call_okb s c = true -> call_ok s c.
Proof.
  intros [[H1%Z.ltb_lt H2%Z.ltb_lt]%andb_true_iff H]%andb_true_iff. split; [done|]. split; [done|].
  assert (Hbusy : negb (gCurrentThread s =? gIdleThread s) = true -> gCurrentThread s <> gIdleThread s).
  { by intros Hb%negb_true_iff%Z.eqb_neq. }
  destruct c; try done.
  - by apply bool_decide_eq_true in H.
  - apply orb_true_iff in H as [H%Z.eqb_eq|[Hb Hf%fits_sound]%andb_true_iff]; [by left | right; auto].
  - apply andb_true_iff in H as [[Hb Ht%timeout_okb_sound]%andb_true_iff H]. split; [auto|]. split; [done|].
    destruct o as [a|t]; [|done]. exists a. by apply bool_decide_eq_true in H.
  - by apply kind_ofb_sound.
  - by apply kind_ofb_sound.
  - apply andb_true_iff in H as [H%kind_ofb_sound Hn%Z.ltb_lt]. by split.
  - by apply kind_ofb_sound.
  - apply andb_true_iff in H as [Hb H]. split; [auto|]. destruct (threads s !! gCurrentThread s) as [th|]; [|done].
    exists th. split; [done|]. by apply Z.eqb_eq in H.
  - apply andb_true_iff in H as [H%bool_decide_eq_true Ht%timeout_okb_sound]. by split.
  - by apply bool_decide_eq_true in H.
Qed.

Fixpoint calls_okb (cs : list call) (s : SCHED world) : bool :=
  match cs with
  | [] => true
  | c :: cs => call_okb s c && calls_okb cs (after (step c s))
  end.

Lemma calls_reachable cs : forall s, reachable s -> calls_okb cs s = true -> reachable (calls cs s).
Proof.
  induction cs as [|c cs IH]; intros s Hr H; [done|]. simpl in H. apply andb_true_iff in H as [Hc%call_okb_sound H].
  apply IH; [|done]. destruct (step_run c s (reachable_boundary s Hr) Hc) as (v & s' & E & _).
  eapply reach_step; [exact Hr|]. apply (step_call s c v); [done|]. unfold after. by rewrite E.
Qed.

Lemma toy_pool_fresh (s : SCHED world) : threads s !! ToySlot (Svc s) = None ->
  forall t w, PoolAlloc (Svc s) = Ok (t, w) -> threads s !! t = None.
Proof. by intros Hf t w [= <- _]. Qed.

Lemma create_reachable mode e a s : reachable s -> e <> 0 -> gNextThreadId s <> 0 ->
  threads s !! ToySlot (Svc s) = None ->
  reachable (after (KiThreadCreateInternal true e a mode s)).
Proof.
  intros Hr He Hid Hf.
  destruct (create_run mode e a s (reachable_boundary s Hr) He Hid) as (v & t & s' & E & _).
  { intros t w [= <- _]. done. }
  eapply reach_step; [exact Hr|]. eapply (step_create s mode e a v t); [done | done | | ].
  { intros t' w [= <- _]. done. }
  unfold after. by rewrite E.
Qed.

Lemma event_reachable a b (s : SCHED world) : reachable s -> objects s !! Standalone a = None ->
  reachable (KeInitializeEvent (Standalone a) b s).
Proof. intros Hr Ho. eapply reach_step; [exact Hr|]. by apply step_event. Qed.

Lemma semaphore_reachable a n l (s : SCHED world) : reachable s -> objects s !! Standalone a = None -> l < 2 ^ 31 ->
  reachable (snd (KeInitializeSemaphore (Some (Standalone a)) n l s)).
Proof.
  intros Hr Ho Hl. destruct (KeInitializeSemaphore _ n l s) as [v s'] eqn:E.
  eapply reach_step; [exact Hr|]. by eapply step_semaphore.
Qed.

Lemma mutex_reachable a (s : SCHED world) : reachable s -> objects s !! Standalone a = None ->
  reachable (match KeInitializeMutex (Some (Standalone a)) s with Ok s => s | _ => boot_world end).
Proof. intros Hr Ho. eapply reach_step; [exact Hr|]. by eapply step_mutex. Qed.

Lemma after_ok {A} (m : res (A * SCHED world)) v s : m = Ok (v, s) -> after m = s.
Proof. by intros ->. Qed.

Lemma boot_reachable : reachable (after (KeSchedulerInit boot_world)).
Proof.
  apply reach_boot.
  destruct (init_run (W := world) 1 (mkWorld 1000000 2 [] []) (mkWorld 1000000 2 [] []) boot_world) as (s' & E & _); try done;
    [by intros a ?%not_elem_of_nil|].
  exists boot_world, 1, (mkWorld 1000000 2 [] []), (mkWorld 1000000 2 [] []). do 4 (split; [done|]). split; [by intros a ?%not_elem_of_nil|]. do 4 (split; [done|]). by rewrite (after_ok _ _ _ E).
Qed.

Lemma demo_reachable : reachable demo.
Proof.
  unfold demo. apply mutex_reachable; [|vm_compute; reflexivity].
  apply semaphore_reachable; [|vm_compute; reflexivity | done].
  apply event_reachable; [|vm_compute; reflexivity].
  apply create_reachable; [| done | vm_compute; discriminate | vm_compute; reflexivity].
  apply create_reachable; [| done | vm_compute; discriminate | vm_compute; reflexivity].
  apply boot_reachable.
Qed.

Lemma demo_calls cs : calls_okb cs demo = true -> reachable (calls cs demo).
Proof. apply calls_reachable, demo_reachable. Qed.
Lemma demo_boundary cs : calls_okb cs demo = true -> boundary (calls cs demo).
Proof. intros H. by apply reachable_boundary, demo_calls. Qed.

(** Threads 2 and 3 started, thread 2 running. *)
Definition demo_two : list call := [CallStart 2; CallStart 3; CallYield].
(** Thread 2 waits for the semaphore with a timeout, 3 for the event; idle. *)
Definition demo_waiting : list call :=
  demo_two ++ [CallWait (Standalone 101) 500000; CallWait (Standalone 100) KE_WAIT_INFINITE].
(** The timeout has expired; thread 2 runs, thread 3 still waits. *)
Definition demo_expired : list call := demo_waiting ++ [TimerInterrupt false].
(** Thread 2 owns the mutex, thread 3 waits for it. *)
Definition demo_mutex : list call :=
  demo_expired ++ [CallSetEvent (Standalone 100); CallWait (Standalone 102) 0; CallSleep 0;
                   CallWait (Standalone 102) KE_WAIT_INFINITE].
(** Thread 3 joins thread 2, and thread 2 runs. *)
Definition demo_join : list call := demo_two ++ [CallSleep 0; CallJoin 2 KE_WAIT_INFINITE].
(** Thread 2 is detached by thread 3 and exits; the idle thread runs. *)
Definition demo_exited : list call := demo_two ++ [CallSleep 0; CallDetach 2; CallSleep 0; CallSleep 0; CallExit].
(** Thread 2 has exited and thread 3 runs. *)
Definition demo_finished : list call := demo_two ++ [CallExit].

(** The user runtime owns thread 2 and has the event 100 in use, on which thread 3
    waits; thread 2, detached, has exited, and the idle thread runs. *)
Definition demo_owned : SCHED world :=
  set_Svc (mkWorld (ToyClock (Svc demo)) (ToySlot (Svc demo)) [2] [100]) demo.
Definition owned_exited : list call :=
  demo_two ++ [CallSleep 0; CallDetach 2; CallWait (Standalone 100) KE_WAIT_INFINITE; CallYield; CallExit].

Lemma demo_owned_reachable : reachable demo_owned.
Proof.
  eapply reach_step; [apply demo_reachable|]. apply step_service. split_and!; try done.
  intros a ->%list_elem_of_singleton. right. apply kind_ofb_sound. vm_compute. reflexivity.
Qed.

Lemma kernel_calls_are_safe_witness :
  let s := calls owned_exited demo_owned in
  call_ok s CallReap /\ gCurrentThread s = gIdleThread s /\ gTerminatedList s = [2] /\
  exists v s', step CallReap s = Ok (v, s') /\ boundary s' /\ reachable s' /\
    gCurrentThread s' = 3 /\ is_Some (threads s' !! 2) /\
    (exists g, SavedContext s' !! 1 = Some [InSetEvent g; InFinalize 2 1; InReap]) /\
    exists v2 s2, step CallExit s' = Ok (v2, s2) /\ boundary s2 /\ gCurrentThread s2 = 1 /\
      threads s2 !! 2 = None /\ threads s2 !! 3 = None /\ ToyOwned (Svc s2) = [].
Proof.
  intros s. assert (Hr : reachable s).
  { apply calls_reachable; [apply demo_owned_reachable | vm_compute; reflexivity]. }
  assert (Hc : call_ok s CallReap) by (apply call_okb_sound; vm_compute; reflexivity).
  split; [exact Hc|]. split; [vm_compute; reflexivity|]. split; [vm_compute; reflexivity|].
  destruct (kernel_calls_are_safe s CallReap Hr Hc) as (v & s' & E & Hb & Hr').
  exists v, s'. split; [exact E|]. split; [exact Hb|]. split; [exact Hr'|].
  assert (Es : after (step CallReap s) = s') by (rewrite E; reflexivity).
  assert (Hc' : call_ok s' CallExit) by (rewrite <- Es; apply call_okb_sound; vm_compute; reflexivity).
  destruct (kernel_calls_are_safe s' CallExit Hr' Hc') as (v2 & s2 & E2 & Hb2 & _).
  assert (Es2 : after (step CallExit s') = s2) by (rewrite E2; reflexivity).
  rewrite <- Es in Es2.
  split; [rewrite <- Es; vm_compute; reflexivity|]. split; [rewrite <- Es; vm_compute; eexists; reflexivity|].
  split; [rewrite <- Es; vm_compute; eexists; reflexivity|].
  exists v2, s2. split; [exact E2|]. split; [exact Hb2|]. rewrite <- Es2. vm_compute. repeat split; reflexivity.
Defined.

Lemma threads_are_in_their_queues_witness :
  gTimeoutQueue (calls demo_waiting demo) = [2] /\
  exists th, threads (calls demo_waiting demo) !! 2 = Some th /\
    (2 ∈ gTimeoutQueue (calls demo_waiting demo) <->
       State th = KTHREAD_STATE_BLOCKED /\ DeadlineNs (WaitBlock th) <> 0).
Proof.
  split; [vm_compute; reflexivity|].
  destruct (threads (calls demo_waiting demo) !! 2) as [th|] eqn:E; [|vm_compute in E; discriminate E].
  exists th. split; [reflexivity|].
  assert (Hr : reachable (calls demo_waiting demo)) by (apply demo_calls; vm_compute; reflexivity).
  exact (proj1 (proj2 (threads_are_in_their_queues _ 2 th Hr E))).
Defined.

Lemma no_lost_wakeup_witness :
  exists d, objects (calls demo_waiting demo) !! Standalone 100 = Some d /\ WaitList d = [3] /\ SignalState d = 0.
Proof.
  destruct (objects (calls demo_waiting demo) !! Standalone 100) as [d|] eqn:E; [|vm_compute in E; discriminate E].
  assert (Hr : reachable (calls demo_waiting demo)) by (apply demo_calls; vm_compute; reflexivity).
  assert (Hw : WaitList d = [3]) by (vm_compute in E; injection E as <-; reflexivity).
  exists d. split; [reflexivity|]. split; [exact Hw|].
  apply (no_lost_wakeup _ (Standalone 100) d Hr E). rewrite Hw. discriminate.
Defined.

Lemma mutex_ownership_is_consistent_witness :
  exists d, objects (calls demo_mutex demo) !! Standalone 102 = Some d /\ OwnerThread d = 2 /\
    (SignalState d = 1 <-> OwnerThread d = 0).
Proof.
  destruct (objects (calls demo_mutex demo) !! Standalone 102) as [d|] eqn:E; [|vm_compute in E; discriminate E].
  assert (Hr : reachable (calls demo_mutex demo)) by (apply demo_calls; vm_compute; reflexivity).
  assert (Hw : DType d = DISPATCHER_TYPE_MUTEX /\ OwnerThread d = 2) by (vm_compute in E; injection E as <-; split; reflexivity).
  destruct Hw as [Hty How]. exists d. split; [reflexivity|]. split; [exact How|].
  exact (proj1 (mutex_ownership_is_consistent _ (Standalone 102) d Hr E Hty)).
Defined.

Lemma pending_join_is_exclusive_witness :
  exists g, SavedContext (calls demo_join demo) !! 3 = Some [InWait g; InJoin 2] /\
    exists th, threads (calls demo_join demo) !! 2 = Some th /\ TerminationClaimState th = CLAIM_JOIN_IN_PROGRESS.
Proof.
  assert (Hr : reachable (calls demo_join demo)) by (apply demo_calls; vm_compute; reflexivity).
  assert (Hg : exists g, SavedContext (calls demo_join demo) !! 3 = Some [InWait g; InJoin 2])
    by (eexists; vm_compute; reflexivity).
  assert (Hn : 3 <> gCurrentThread (calls demo_join demo)) by (vm_compute; discriminate).
  destruct Hg as [g Hg]. exists g. split; [exact Hg|].
  destruct (pending_join_is_exclusive _ 3 3 g g 2 Hr Hn Hn Hg Hg) as (_ & thi & th & _ & Et & _ & Hc & _).
  exists th. split; [exact Et | exact Hc].
Defined.

Lemma scheduler_comes_up_witness :
  exists s', KeSchedulerInit boot_world = Ok (EC_SUCCESS, s') /\ boundary s' /\ gCurrentThread s' = 1 /\
    gIdleThread s' = 1 /\ gSchedulerEnabled s' = true /\ dom (threads s') = {[1]}.
Proof.
  apply (scheduler_comes_up (W := world) 1 (mkWorld 1000000 2 [] []) (mkWorld 1000000 2 [] []) boot_world);
    first [reflexivity | discriminate | exact I | by intros a ?%not_elem_of_nil].
Defined.

Lemma thread_creation_is_all_or_nothing_witness :
  exists v t s', KiThreadCreateInternal true 0x4000 7 KTHREAD_TERMINATION_MODE_JOINABLE demo = Ok (v, t, s') /\
    created KTHREAD_TERMINATION_MODE_JOINABLE 0x4000 7 demo v t s'.
Proof.
  apply thread_creation_is_all_or_nothing.
  - apply (demo_boundary []). reflexivity.
  - discriminate.
  - vm_compute. discriminate.
  - apply toy_pool_fresh. vm_compute. reflexivity.
Defined.

(** The idle thread, between two calls, raised to dispatch level. *)
Definition demo_raised : SCHED world :=
  let s := calls [CallStart 2; CallStart 3] demo in set_Cpu (raised (Cpu s)) s.

Lemma demo_raised_inside : exists b, inside (calling b) DISPATCH1 demo_raised.
Proof.
  destruct (enter_call (calls [CallStart 2; CallStart 3] demo)) as (b & _ & _ & Hin & _).
  - apply demo_boundary. vm_compute. reflexivity.
  - by exists b.
Qed.

Lemma schedule_picks_highest_priority_head_witness :
  exists b next s', KiSchedule (calling b) demo_raised =
      Ok (if decide (next = gCurrentThread demo_raised) then Done tt s' else Switched s') /\
    gCurrentThread s' = next /\ next = 2.
Proof.
  destruct demo_raised_inside as [b Hin]. exists b.
  destruct (schedule_picks_highest_priority_head (calling b) DISPATCH1 demo_raised Hin) as (next & s' & Hch & E & Hc & _).
  - discriminate.
  - intros th _ _. vm_compute. reflexivity.
  - exists next, s'. split; [exact E|]. split; [exact Hc|].
    assert (Hq : gReadyQueues demo_raised = [[]; [2; 3]; []]) by (vm_compute; reflexivity).
    rewrite Hq in Hch. destruct Hch as [(p & q & Hp & _)|(Hall & _)].
    + destruct p as [|[|[|p]]]; simpl in Hp; try discriminate Hp. by injection Hp.
    + specialize (Hall 1%nat (ltac:(lia))). discriminate Hall.
Defined.

Lemma demo_one_sleeper : exists s : SCHED world, boundary s /\ kview tkey (threads s) 3 = None /\ gTimeoutQueue s = [2].
Proof.
  exists (calls demo_waiting demo). split; [apply demo_boundary; vm_compute; reflexivity|].
  split; vm_compute; reflexivity.
Qed.

Lemma timeout_insertion_is_sorted_and_stable_witness :
  exists (s : SCHED world) th T l1 l2, gTimeoutQueue s = [2] /\ threads (put_thread 3 th s) = <[3 := th]> T /\
    gTimeoutQueue s = l1 ++ l2 /\
    KiInsertTimeoutQueue 3 (put_thread 3 th s) = Ok (set_TimeoutQueue (l1 ++ 3 :: l2) (put_thread 3 th s)).
Proof.
  destruct demo_one_sleeper as (s & Hb & Hk & HQ).
  pose (th := blocked_thread None 7 (new_thread 0 0 0 0 0 0 KTHREAD_TERMINATION_MODE_DETACHED)).
  destruct (timeout_insertion_is_sorted_and_stable 3 th (threads s) (put_thread 3 th s)) as (l1 & l2 & E & E' & _).
  - exact (q_timeout _ _ _ _ _ (s_queues _ _ (proj1 (proj1 Hb)))).
  - exact Hk.
  - reflexivity.
  - exists s, th, (threads s), l1, l2. split; [exact HQ|]. split; [reflexivity|]. split; [exact E | exact E'].
Defined.

Lemma wake_timeouts_wakes_the_expired_witness :
  exists s', KiWakeTimeouts 2000000000 (calls demo_waiting demo) = Ok s' /\ gTimeoutQueue s' = [] /\ queues_ok s'.
Proof.
  assert (Hb : boundary (calls demo_waiting demo)) by (apply demo_boundary; vm_compute; reflexivity).
  destruct (wake_timeouts_wakes_the_expired 2000000000 (calls demo_waiting demo)) as (s' & E & HQ & _ & _ & _ & Hq).
  - exact (s_queues _ _ (proj1 (proj1 Hb))).
  - exists s'. split; [exact E|]. split; [|exact Hq]. rewrite HQ. vm_compute. reflexivity.
Defined.

Lemma set_event_wakes_every_waiter_witness :
  exists s', KeSetEvent (Some (Standalone 100)) [] (calls demo_expired demo) = Ok (Done EC_SUCCESS s') /\
    gReadyQueues s' !! 1%nat = Some [3].
Proof.
  assert (Hb : boundary (calls demo_expired demo)) by (apply demo_boundary; vm_compute; reflexivity).
  destruct (objects (calls demo_expired demo) !! Standalone 100) as [d|] eqn:Eo; [|vm_compute in Eo; discriminate Eo].
  assert (Hd : DType d = DISPATCHER_TYPE_EVENT /\ WaitList d = [3]) by (vm_compute in Eo; injection Eo as <-; split; reflexivity).
  destruct Hd as [Hty Hwl].
  destruct (set_event_wakes_every_waiter 100 d (calls demo_expired demo) Hb Eo Hty) as (s' & E & _ & _ & HR & _).
  - vm_compute. discriminate.
  - exists s'. split; [exact E|]. rewrite (HR 1%nat [] (ltac:(vm_compute; reflexivity))), Hwl. vm_compute. reflexivity.
Defined.

Lemma semaphore_release_conserves_permits_witness :
  exists d, objects (calls demo_two demo) !! Standalone 101 = Some d /\
  if decide (2 <= 0 \/ Limit d < SignalState d + Z.max 0 (2 - Z.of_nat (length (WaitList d))))
  then KeReleaseSemaphore (Some (Standalone 101)) 2 [] (calls demo_two demo) =
         Ok (Done EC_ILLEGAL_ARGUMENT (calls demo_two demo))
  else exists s', KeReleaseSemaphore (Some (Standalone 101)) 2 [] (calls demo_two demo) = Ok (Done EC_SUCCESS s').
Proof.
  assert (Hb : boundary (calls demo_two demo)) by (apply demo_boundary; vm_compute; reflexivity).
  destruct (objects (calls demo_two demo) !! Standalone 101) as [d|] eqn:Eo; [|vm_compute in Eo; discriminate Eo].
  assert (Hty : DType d = DISPATCHER_TYPE_SEMAPHORE) by (vm_compute in Eo; injection Eo as <-; reflexivity).
  exists d. split; [reflexivity|].
  pose proof (semaphore_release_conserves_permits 101 2 d (calls demo_two demo) Hb) as H. cbv zeta in H.
  destruct (decide _) as [Hx|Hx].
  - apply H; try assumption; [vm_compute; reflexivity | lia | vm_compute; discriminate].
  - destruct H as (s' & E & _); try assumption; [vm_compute; reflexivity | lia | vm_compute; discriminate|].
    exists s'. exact E.
Defined.

Lemma mutex_release_hands_over_in_order_witness :
  exists d v s', objects (calls demo_mutex demo) !! Standalone 102 = Some d /\ WaitList d = [3] /\
    KeReleaseMutex (Some (Standalone 102)) (calls demo_mutex demo) = Ok (v, s') /\
    objects s' !! Standalone 102 = Some (set_WaitList [] (set_SignalState 0 (set_Owner 3 d))).
Proof.
  assert (Hb : boundary (calls demo_mutex demo)) by (apply demo_boundary; vm_compute; reflexivity).
  destruct (objects (calls demo_mutex demo) !! Standalone 102) as [d|] eqn:Eo; [|vm_compute in Eo; discriminate Eo].
  assert (Hd : DType d = DISPATCHER_TYPE_MUTEX /\ WaitList d = [3] /\ OwnerThread d = 2)
    by (vm_compute in Eo; injection Eo as <-; repeat split; reflexivity).
  destruct Hd as (Hty & Hwl & How).
  destruct (mutex_release_hands_over_in_order 102 d (calls demo_mutex demo) Hb) as (v & s' & E & _ & Hm);
    [vm_compute; reflexivity | exact Eo | exact Hty |].
  exists d, v, s'. split; [reflexivity|]. split; [exact Hwl|]. split; [exact E|].
  rewrite decide_True in Hm by (rewrite How; vm_compute; reflexivity). destruct Hm as [_ Hm]. rewrite Hwl in Hm.
  destruct Hm as (th & _ & Ho & _). exact Ho.
Defined.

Lemma reaper_frees_the_terminated_list_witness :
  gTerminatedList (calls demo_exited demo) = [2] /\
  exists s', KiReapTerminatedThreads [] (calls demo_exited demo) = Ok (Done tt s') /\ threads s' !! 2 = None /\ is_Some (threads s' !! 3).
Proof.
  assert (Hb : boundary (calls demo_exited demo)) by (apply demo_boundary; vm_compute; reflexivity).
  assert (Hl : gTerminatedList (calls demo_exited demo) = [2]) by (vm_compute; reflexivity).
  split; [exact Hl|].
  destruct (reaper_frees_the_terminated_list (calls demo_exited demo) Hb) as (r & E & Hr).
  destruct r as [[] s'|s']; [|vm_compute in E; discriminate E].
  exists s'. split; [exact E|]. destruct Hr as (_ & _ & HT). split.
  - apply eq_None_not_Some. intros [_ Hn]%HT. apply Hn. rewrite Hl. by left.
  - apply HT. split; [vm_compute; by eexists|]. rewrite Hl. by rewrite list_elem_of_singleton.
Defined.

Lemma join_outcomes_witness :
  exists th s', threads (calls demo_finished demo) !! 2 = Some th /\
    KeThreadJoin 2 0 [] (calls demo_finished demo) = Ok (Done EC_SUCCESS s') /\ threads s' !! 2 = None.
Proof.
  assert (Hb : boundary (calls demo_finished demo)) by (apply demo_boundary; vm_compute; reflexivity).
  destruct (threads (calls demo_finished demo) !! 2) as [th|] eqn:Et; [|vm_compute in Et; discriminate Et].
  assert (Hj : joinable th /\ State th = KTHREAD_STATE_TERMINATED)
    by (vm_compute in Et; injection Et as <-; repeat split; reflexivity).
  destruct Hj as [Hj Hs].
  destruct (join_outcomes 2 th 0 (calls demo_finished demo) Hb Et) as (r & E & _ & Hr);
    [vm_compute; reflexivity | by left |].
  rewrite decide_False in Hr by (vm_compute; intros [H|[H|H]]; discriminate H).
  destruct Hr as (_ & Hr & _). destruct (Hr Hj) as (s' & -> & HT & _).
  - split; [exact Hs|]. eexists. split; [vm_compute; reflexivity | discriminate].
  - exists th, s'. split; [reflexivity|]. split; [exact E | exact HT].
Defined.

(** ** Deadlines past the end of the clock

    A sleep whose deadline wraps around to 0 leaves a queued thread that looks as
    if it had no deadline: completing its wait does not take it off the timeout
    queue, and the loop over the expired threads never ends. *)

Lemma completed_head_hangs (s : SCHED world) nowNs t Q th :
  gTimeoutQueue s = t :: Q -> threads s !! t = Some th -> Completed (WaitBlock th) = true ->
  DeadlineNs (WaitBlock th) <= nowNs -> forall fuel, wake_timeouts fuel nowNs s = NoFuel.
Proof.
  intros HQ Et Hc Hd fuel. induction fuel as [|fuel IH]; [done|]. cbn [wake_timeouts]. rewrite HQ.
  unfold get_thread. rewrite Et. cbn [res_bind]. rewrite (proj2 (Z.ltb_ge _ _)) by done.
  unfold KiCompleteWait, get_thread. rewrite Et. cbn [res_bind]. rewrite Hc. cbn [res_bind]. exact IH.
Qed.

(** C36: a sleep whose 64-bit deadline wraps around to 0 leaves a thread in the
    timeout queue that no timer interrupt can take off it again: the loop of
    [KiWakeTimeouts] runs on for ever. *)
Theorem wrapped_sleep_hangs_the_timer :
  let s := calls (demo_two ++ [CallSleep (2 ^ 64 - 1000000000)]) demo in
  gTimeoutQueue s = [2] /\ forall fuel, wake_timeouts fuel 1000000000 s = NoFuel.
Proof.
  intros s. split; [vm_compute; reflexivity|]. intros [|fuel]; [done|]. cbn [wake_timeouts].
  assert (HQ : gTimeoutQueue s = [2]) by (vm_compute; reflexivity). rewrite HQ. unfold get_thread.
  destruct (threads s !! 2) as [th|] eqn:Et; [|vm_compute in Et; discriminate Et]. cbn [res_bind].
  assert (Hd : DeadlineNs (WaitBlock th) = 0) by (vm_compute in Et; injection Et as <-; reflexivity).
  rewrite Hd. change (1000000000 <? 0) with false. cbv iota.
  destruct (KiCompleteWait 2 EC_TIMEOUT s) as [s1| | |] eqn:E1; [|vm_compute in E1; discriminate E1..]. cbn [res_bind].
  assert (E2 : match KiCompleteWait 2 EC_TIMEOUT s with Ok x => x | _ => s end = s1) by (by rewrite E1).
  destruct (threads s1 !! 2) as [th1|] eqn:Et1; [|rewrite <- E2 in Et1; vm_compute in Et1; discriminate Et1].
  apply (completed_head_hangs s1 1000000000 2 [] th1); [|exact Et1| |].
  - rewrite <- E2. vm_compute. reflexivity.
  - rewrite <- E2 in Et1. vm_compute in Et1. injection Et1 as <-. reflexivity.
  - rewrite <- E2 in Et1. vm_compute in Et1. injection Et1 as <-. vm_compute. discriminate.
Qed.
