(* ===== verification/Heap.v ===== *)
(** * The kernel heap as its clients see it

    [KeHeapAllocPages]/[KeHeapFreePages] of [ke/mm/kva.c] hand out runs of
    mapped 4 KB pages.  The object pool ([Pool.v]) and the general allocator
    ([Alloc.v]) use nothing else of the virtual-memory layer, so they are
    modelled against this interface: [HeapServices] is what they call and
    [HeapLaws] what they rely on.  [Toy] is a bump allocator that satisfies
    the laws; the theorems of the clients are evaluated on it. *)

From S2P Require Import Prelude.

Local Open Scope Z_scope.

(** Memory is read and written in aligned 64-bit words; [None] is a fault. *)
Class HeapServices (M : Type) := {
  KeHeapAllocPages : Z -> M -> HO_STATUS * Z * M;
  KeHeapFreePages : Z -> M -> HO_STATUS * M;
  load_word : Z -> M -> option Z;
  store_word : Z -> Z -> M -> option M;
}.

(** An access through a pointer the program dereferences. *)
Definition load {M} `{HeapServices M} (a : Z) (m : M) : res Z :=
  if negb (HO_IS_ALIGNED a 8) then Oob else
  match load_word a m with Some v => Ok v | None => Oob end.

Definition store {M} `{HeapServices M} (a v : Z) (m : M) : res M :=
  if negb (HO_IS_ALIGNED a 8) then Oob else
  match store_word a v m with Some m' => Ok m' | None => Oob end.

(** [memset(p, 0, n)] on an aligned buffer of whole words. *)
Definition memset0 {M} `{HeapServices M} (p n : Z) (m : M) : res M :=
  for_loop (Z.to_nat (n / 8)) 0 (fun i m => store (u64 (p + i * 8)) 0 m) m.

Definition in_block (b : Z * Z) (a : Z) : Prop := b.1 <= a < b.1 + b.2 * PAGE_4KB.

(** [a] is the address of a word of a live block. *)
Definition live_word (bs : list (Z * Z)) (a : Z) : Prop :=
  a mod 8 = 0 /\ exists b, b ∈ bs /\ in_block b a.

(** The words of [ws] read the same in [m] and [m']. *)
Definition agree {M} `{HeapServices M} (P : Z -> Prop) (m m' : M) : Prop :=
  forall a, P a -> load_word a m' = load_word a m.

(** The arena has [64 MB / 4 KB] pages. *)
Definition ARENA_PAGES : Z := 16384.

Class HeapLaws (M : Type) `{HeapServices M} := {
  live : M -> list (Z * Z);
  heap_ok : M -> Prop;
  live_bounds m b : heap_ok m -> b ∈ live m ->
    0 < b.1 /\ b.1 mod PAGE_4KB = 0 /\ 0 < b.2 /\ b.1 + b.2 * PAGE_4KB < 2 ^ 64;
  live_disjoint m b1 b2 a : heap_ok m -> b1 ∈ live m -> b2 ∈ live m ->
    in_block b1 a -> in_block b2 a -> b1 = b2;
  live_nodup m : heap_ok m -> NoDup (live m);
  live_few m : heap_ok m -> Z.of_nat (length (live m)) <= ARENA_PAGES;
  load_live m a : heap_ok m -> live_word (live m) a -> is_Some (load_word a m);
  store_live m a v : heap_ok m -> live_word (live m) a ->
    exists m', store_word a v m = Some m' /\ heap_ok m' /\ live m' = live m /\
      load_word a m' = Some v /\
      agree (fun b => b <> a /\ live_word (live m) b) m m';
  alloc_law m n s b m' : heap_ok m -> 0 < n ->
    KeHeapAllocPages n m = (s, b, m') ->
    heap_ok m' /\ agree (live_word (live m)) m m' /\
    (if decide (s = EC_SUCCESS) then Permutation (live m') ((b, n) :: live m) else live m' = live m);
  free_law m b n : heap_ok m -> (b, n) ∈ live m ->
    exists m', KeHeapFreePages b m = (EC_SUCCESS, m') /\ heap_ok m' /\
      Permutation (live m) ((b, n) :: live m') /\
      agree (live_word (live m')) m m';
}.

Section client.
Context {M : Type} `{HeapLaws M}.
Implicit Types (m : M) (a b v : Z).

Lemma aligned8 a : HO_IS_ALIGNED a 8 = (a mod 8 =? 0).
Proof. apply (is_aligned_pow2 a 3). lia. Qed.

Lemma load_ok m a : heap_ok m -> live_word (live m) a -> exists v, load a m = Ok v /\ load_word a m = Some v.
Proof.
  intros Hm Ha. destruct (load_live m a Hm Ha) as [v Hv]. exists v. split; [|done].
  unfold load. rewrite aligned8, (proj1 Ha). cbn. by rewrite Hv.
Qed.

Lemma load_some m a v : a mod 8 = 0 -> load_word a m = Some v -> load a m = Ok v.
Proof. intros Ha Hv. unfold load. rewrite aligned8, Ha. cbn. by rewrite Hv. Qed.

Lemma store_ok m a v : heap_ok m -> live_word (live m) a ->
  exists m', store a v m = Ok m' /\ heap_ok m' /\ live m' = live m /\ load_word a m' = Some v /\
    agree (fun b => b <> a /\ live_word (live m) b) m m'.
Proof.
  intros Hm Ha. destruct (store_live m a v Hm Ha) as (m' & E & Hr). exists m'. split; [|done].
  unfold store. rewrite aligned8, (proj1 Ha). cbn. by rewrite E.
Qed.

Lemma agree_refl P m : agree P m m.
Proof. by intros a. Qed.

Lemma agree_trans P Q m1 m2 m3 :
  (forall a, Q a -> P a) -> agree P m1 m2 -> agree Q m2 m3 -> agree Q m1 m3.
Proof. intros HPQ H1 H2 a Ha. rewrite H2 by done. by apply H1, HPQ. Qed.

Lemma agree_weaken P Q m1 m2 : (forall a, Q a -> P a) -> agree P m1 m2 -> agree Q m1 m2.
Proof. intros HPQ H1 a Ha. by apply H1, HPQ. Qed.

(** [memset] zeroes the buffer and nothing else. *)
Lemma memset0_ok m p n : heap_ok m -> 0 <= n -> n mod 8 = 0 -> 0 <= p -> p + n < 2 ^ 64 ->
  (forall a, p <= a < p + n -> a mod 8 = 0 -> live_word (live m) a) -> p mod 8 = 0 ->
  exists m', memset0 p n m = Ok m' /\ heap_ok m' /\ live m' = live m /\
    (forall a, p <= a < p + n -> a mod 8 = 0 -> load_word a m' = Some 0) /\
    agree (fun a => live_word (live m) a /\ ~ (p <= a < p + n)) m m'.
Proof.
  intros Hm Hn Hn8 Hp Hpn Hl Hp8. unfold memset0.
  destruct (for_loop_rule (fun i m' => heap_ok m' /\ live m' = live m /\
      (forall a, p <= a < p + i * 8 -> a mod 8 = 0 -> load_word a m' = Some 0) /\
      agree (fun a => live_word (live m) a /\ ~ (p <= a < p + n)) m m')
    (Z.to_nat (n / 8)) 0 (fun i m => store (u64 (p + i * 8)) 0 m) m) as (m' & E & H1 & H2 & H3 & H4).
  - split_and!; try done. intros. lia.
  - intros j t Hj (Ht & Hlv & Hz & Hag). assert (j < n / 8) by lia.
    assert (p + j * 8 + 8 <= p + n) by (pose proof (Z.div_mod n 8); lia).
    rewrite u64_small by word_lia.
    assert (Hlw : live_word (live t) (p + j * 8)).
    { rewrite Hlv. apply Hl; [lia|]. rewrite Z.mod_add; lia. }
    destruct (store_ok t (p + j * 8) 0 Ht Hlw) as (t' & Et & Hok & Hlt & Hv & Hag').
    exists t'. split; [done|]. split_and!; [done | congruence | | ].
    + intros a Ha Ha8. destruct (decide (a = p + j * 8)) as [->|Hne]; [done|].
      rewrite Hag'; [apply Hz; [|done] | split; [done | rewrite Hlv; apply Hl; [lia | done]]].
      assert (a <> p + j * 8 + 1 /\ a <> p + j * 8 + 2 /\ a <> p + j*8+3 /\ a <> p+j*8+4 /\ a<>p+j*8+5
        /\ a<>p+j*8+6 /\ a<>p+j*8+7) by (Z.to_euclidean_division_equations; lia). lia.
    + intros a [Ha Hout]. rewrite Hag'; [by apply Hag|].
      rewrite Hlv. split; [lia | done].
  - exists m'. split_and!; [done..| |done]. intros a Ha Ha8. apply H3; [|done].
    pose proof (Z.div_mod n 8). rewrite Z2Nat.id by (apply Z.div_pos; lia). lia.
Qed.
End client.

(** ** A bump allocator that satisfies the laws *)

Module Toy.

Record HEAP : Type := { quota : Z; next : Z; blocks : list (Z * Z); cells : gmap Z Z }.

Definition in_blockb (a : Z) (b : Z * Z) : bool := (b.1 <=? a) && (a <? b.1 + b.2 * PAGE_4KB).

Definition alloc (n : Z) (h : HEAP) : HO_STATUS * Z * HEAP :=
  if (n <=? 0) || (quota h <? next h + n) then (EC_OUT_OF_RESOURCE, 0, h)
  else (EC_SUCCESS, (1 + next h) * PAGE_4KB,
        {| quota := quota h; next := next h + n;
           blocks := ((1 + next h) * PAGE_4KB, n) :: blocks h; cells := cells h |}).

Fixpoint remove_block (a : Z) (bs : list (Z * Z)) : option (list (Z * Z)) :=
  match bs with
  | [] => None
  | b :: bs => if b.1 =? a then Some bs else option_map (cons b) (remove_block a bs)
  end.

Definition free (a : Z) (h : HEAP) : HO_STATUS * HEAP :=
  match remove_block a (blocks h) with
  | None => (EC_INVALID_STATE, h)
  | Some bs => (EC_SUCCESS, {| quota := quota h; next := next h; blocks := bs; cells := cells h |})
  end.

Definition load_cell (a : Z) (h : HEAP) : option Z :=
  if existsb (in_blockb a) (blocks h) then Some (default 0 (cells h !! a)) else None.

Definition store_cell (a v : Z) (h : HEAP) : option HEAP :=
  if existsb (in_blockb a) (blocks h)
  then Some {| quota := quota h; next := next h; blocks := blocks h; cells := <[a := v]> (cells h) |}
  else None.

#[global] Instance services : HeapServices HEAP :=
  {| KeHeapAllocPages := alloc; KeHeapFreePages := free; load_word := load_cell; store_word := store_cell |}.

Definition empty (q : Z) : HEAP := {| quota := q; next := 0; blocks := []; cells := ∅ |}.

Record toy_ok (h : HEAP) : Prop := {
  toy_range : 0 <= next h /\ next h <= quota h <= ARENA_PAGES;
  toy_blocks : Forall (fun b => 4096 <= b.1 /\ b.1 mod PAGE_4KB = 0 /\ 0 < b.2 /\
                 b.1 + b.2 * PAGE_4KB <= (1 + next h) * PAGE_4KB) (blocks h);
  toy_disjoint : forall b1 b2 a, b1 ∈ blocks h -> b2 ∈ blocks h ->
    in_block b1 a -> in_block b2 a -> b1 = b2;
  toy_nodup : NoDup (blocks h);
  toy_few : Z.of_nat (length (blocks h)) <= next h;
}.

Lemma in_blockb_spec a b : in_blockb a b = true <-> in_block b a.
Proof. unfold in_blockb, in_block. rewrite andb_true_iff, Z.leb_le, Z.ltb_lt. done. Qed.

Lemma existsb_in a bs : (exists b, b ∈ bs /\ in_block b a) -> existsb (in_blockb a) bs = true.
Proof.
  intros (b & Hb & Ha). apply existsb_exists. exists b. split; [by apply list_elem_of_In|].
  by apply in_blockb_spec.
Qed.

Lemma remove_block_ok a n bs :
  NoDup bs -> (forall b1 b2, b1 ∈ bs -> b2 ∈ bs -> b1.1 = b2.1 -> b1 = b2) -> (a, n) ∈ bs ->
  exists bs', remove_block a bs = Some bs' /\ Permutation bs ((a, n) :: bs') /\
    (forall b, b ∈ bs' -> b ∈ bs).
Proof.
  induction bs as [|b bs IH]; intros Hnd Hd Hin; [by apply not_elem_of_nil in Hin|].
  simpl. destruct (Z.eqb_spec b.1 a) as [E|E].
  - assert (b = (a, n)) as -> by (apply Hd; [by left | done | done]).
    exists bs. split_and!; [done | done|]. intros. by right.
  - apply elem_of_cons in Hin as [<-|Hin]; [done|]. apply NoDup_cons in Hnd as [_ Hnd].
    destruct IH as (bs' & -> & Hp & Hs); [done | intros b1 b2 H1 H2; apply Hd; by right | done |].
    exists (b :: bs'). split_and!; [done | rewrite Hp; apply Permutation_swap |].
    intros c [->|Hc]%elem_of_cons; [by left | right; by apply Hs].
Qed.

#[global] Program Instance laws : HeapLaws HEAP := {| live := blocks; heap_ok := toy_ok |}.
Next Obligation.
  intros m b [Hr Hb _ _ _] Hin. rewrite Forall_forall in Hb. specialize (Hb b Hin).
  unfold PAGE_4KB, ARENA_PAGES in *. lia.
Qed.
Next Obligation. intros m b1 b2 a Hm. apply (toy_disjoint m Hm). Qed.
Next Obligation. intros m Hm. apply (toy_nodup m Hm). Qed.
Next Obligation. intros m Hm. pose proof (toy_few m Hm). destruct (toy_range m Hm). lia. Qed.
Next Obligation.
  intros m a Hm [_ Ha]. simpl. unfold load_cell. rewrite existsb_in by done. by eexists.
Qed.
Next Obligation.
  intros m a v [H1 H2 H3 H4 H5] [_ Ha]. simpl. unfold store_cell. rewrite existsb_in by done.
  eexists. split; [done|]. split; [by constructor|]. split; [done|].
  unfold agree, load_word. simpl. unfold load_cell. simpl.
  rewrite existsb_in by done. rewrite lookup_insert_eq. split; [done|].
  intros b [Hb _]. by rewrite lookup_insert_ne.
Qed.
Next Obligation.
  intros m n s b m' [Hr Hb Hd Hn Hf] Hpos E. simpl in E. unfold alloc in E.
  destruct ((n <=? 0) || (quota m <? next m + n)) eqn:G.
  { injection E as <- <- <-. split_and!; [by constructor | done |]. by rewrite decide_False. }
  apply orb_false_iff in G as [_ G%Z.ltb_ge]. injection E as <- <- <-.
  assert (Hfresh : forall c a, c ∈ blocks m -> in_block c a -> in_block ((1 + next m) * PAGE_4KB, n) a -> False).
  { intros c a Hc Ha Ha'. rewrite Forall_forall in Hb. specialize (Hb c Hc).
    unfold in_block in *. simpl in *. lia. }
  split_and!.
  - constructor; simpl.
    + lia.
    + constructor; [|eapply Forall_impl; [exact Hb|]; simpl; unfold PAGE_4KB; lia].
      simpl. rewrite Z.mod_mul by (unfold PAGE_4KB; lia). unfold PAGE_4KB. lia.
    + intros b1 b2 a [->|H1]%elem_of_cons [->|H2]%elem_of_cons G1 G2; [done | | |by eapply Hd];
        exfalso; eapply Hfresh; eauto.
    + constructor; [|done]. intros Hin.
      apply (Hfresh _ ((1 + next m) * PAGE_4KB) Hin); unfold in_block, PAGE_4KB; simpl; lia.
    + lia.
  - intros a (_ & c & Hc & Ha). simpl. unfold load_cell. simpl.
    rewrite (existsb_in a (blocks m)), orb_true_r by eauto. done.
  - by rewrite decide_True.
Qed.
Next Obligation.
  intros m b n [Hr Hb Hd Hn Hf] Hin. simpl. unfold free.
  destruct (remove_block_ok b n (blocks m)) as (bs & -> & Hp & Hs); [done | | done |].
  { intros b1 b2 H1 H2 E. apply (Hd b1 b2 b1.1); [done..| |]; rewrite Forall_forall in Hb;
      [pose proof (Hb b1 H1)|pose proof (Hb b2 H2)]; unfold in_block, PAGE_4KB in *; lia. }
  eexists. split; [done|]. split_and!; [|done|].
  - constructor; simpl; [done | | | |].
    + rewrite Forall_forall in *. intros c Hc. apply Hb, Hs, Hc.
    + intros b1 b2 a H1 H2. apply Hd; by apply Hs.
    + rewrite Hp in Hn. by apply NoDup_cons in Hn as [_ Hn].
    + rewrite Hp in Hf. simpl in Hf. lia.
  - intros a (_ & c & Hc & Ha). simpl. unfold load_cell. simpl.
    rewrite (existsb_in a bs), (existsb_in a (blocks m)); eauto.
Qed.

Lemma empty_ok q : 0 <= q <= ARENA_PAGES -> heap_ok (empty q).
Proof. intros Hq. constructor; simpl; [lia | constructor | intros ??? H%not_elem_of_nil; done | constructor | done]. Qed.

End Toy.
