(* ===== verification/Pool.v ===== *)
(** * The kernel object pool ([ke/mm/pool.c])

    A pool carves 4 KB heap pages into equal slots and threads the free slots
    on a singly linked list kept inside the slots.  The operations are written
    against the heap interface of [Heap.v].  Each critical section of the C
    code is one function here ([KiPoolTryPopNode],
    [KiPoolPublishPreparedPage], [KiPoolPublishPreparedPageAndPop], ...); the
    code between them (preparing a page, clearing a slot) works on memory the
    thread owns, so [pool_step] interleaves exactly these pieces.  Log lines
    and the [Name] string are left out. *)

From S2P Require Import Prelude Heap.

Local Open Scope Z_scope.

Definition KE_POOL_MAGIC_ALIVE : Z := 0x504F4F4C.
Definition KE_POOL_MAGIC_DEAD : Z := 0x44454144.

(** One pointer each. *)
Definition sizeof_FREE_NODE : Z := 8.
Definition sizeof_PAGE_NODE : Z := 8.

Record KE_POOL : Type := {
  Magic : Z;
  FreeList : Z;
  PageList : Z;
  SlotSize : Z;
  SlotsPerPage : Z;
  TotalSlots : Z;
  UsedSlots : Z;
  PeakUsedSlots : Z;
  FailedGrows : Z;
  PageCount : Z;
}.

Record KE_POOL_STATS : Type := {
  stTotalSlots : Z;
  stUsedSlots : Z;
  stFreeSlots : Z;
  stPageCount : Z;
  stPeakUsedSlots : Z;
  stFailedGrowCount : Z;
}.

Record KE_POOL_PREPARED_PAGE : Type := {
  BaseVirt : Z;
  Head : Z;
  Tail : Z;
  SlotCount : Z;
}.

Definition header_size (slotSize : Z) : Z := HO_ALIGN_UP sizeof_PAGE_NODE slotSize.

Section operations.
Context {M : Type} `{HeapServices M}.
Implicit Types (m : M) (pool : KE_POOL) (page : KE_POOL_PREPARED_PAGE).

(** The loop that links the slots of a fresh page. *)
Definition link_slots (slotBase slotSize : Z) (usableSlots : Z) page m : res (KE_POOL_PREPARED_PAGE * M) :=
  for_loop (Z.to_nat usableSlots) 0 (fun i '(page, m) =>
    let node := u64 (slotBase + u64 (i * slotSize)) in
    let* m := store node (Head page) m in
    Ok ({| BaseVirt := BaseVirt page; Head := node;
           Tail := if Tail page =? 0 then node else Tail page;
           SlotCount := u32 (SlotCount page + 1) |}, m)) (page, m).

Definition KiPoolPrepareOnePage (slotSize : Z) m : res (HO_STATUS * KE_POOL_PREPARED_PAGE * M) :=
  let page := {| BaseVirt := 0; Head := 0; Tail := 0; SlotCount := 0 |} in
  let '(status, base, m) := KeHeapAllocPages 1 m in
  if decide (status = EC_SUCCESS) then
    let page := {| BaseVirt := base; Head := 0; Tail := 0; SlotCount := 0 |} in
    let headerSize := header_size slotSize in
    if PAGE_4KB <=? headerSize then
      let '(freeStatus, m) := KeHeapFreePages base m in
      let* _ := HO_KASSERT (bool_decide (freeStatus = EC_SUCCESS)) freeStatus in
      Ok (EC_ILLEGAL_ARGUMENT, page, m)
    else
      let usableSlots := u32 ((PAGE_4KB - headerSize) / slotSize) in
      let* (page, m) := link_slots (u64 (base + headerSize)) slotSize usableSlots page m in
      Ok (EC_SUCCESS, page, m)
  else Ok (status, page, m).

Definition assert_prepared page : res unit :=
  let* _ := HO_KASSERT (negb (Head page =? 0)) EC_INVALID_STATE in
  let* _ := HO_KASSERT (negb (Tail page =? 0)) EC_INVALID_STATE in
  HO_KASSERT (negb (SlotCount page =? 0)) EC_INVALID_STATE.

(** The splice both publishing routines perform under the critical section. *)
Definition splice_page pool page m : res (KE_POOL * M) :=
  let* m := store (Tail page) (FreeList pool) m in
  let* m := store (BaseVirt page) (PageList pool) m in
  Ok ({| Magic := Magic pool; FreeList := Head page; PageList := BaseVirt page;
         SlotSize := SlotSize pool; SlotsPerPage := SlotsPerPage pool;
         TotalSlots := u32 (TotalSlots pool + SlotCount page); UsedSlots := UsedSlots pool;
         PeakUsedSlots := PeakUsedSlots pool; FailedGrows := FailedGrows pool;
         PageCount := u32 (PageCount pool + 1) |}, m).

Definition KiPoolPublishPreparedPage pool page m : res (KE_POOL * M) :=
  let* _ := assert_prepared page in
  splice_page pool page m.

(** Taking the head of a non-empty free list. *)
Definition pop_head pool m : res (Z * KE_POOL * M) :=
  let node := FreeList pool in
  let* next := load node m in
  let used := u32 (UsedSlots pool + 1) in
  let* _ := HO_KASSERT (used <=? TotalSlots pool) EC_INVALID_STATE in
  Ok (node, {| Magic := Magic pool; FreeList := next; PageList := PageList pool;
               SlotSize := SlotSize pool; SlotsPerPage := SlotsPerPage pool;
               TotalSlots := TotalSlots pool; UsedSlots := used;
               PeakUsedSlots := if PeakUsedSlots pool <? used then used else PeakUsedSlots pool;
               FailedGrows := FailedGrows pool; PageCount := PageCount pool |}, m).

Definition KiPoolTryPopNode pool m : res (Z * KE_POOL * M) :=
  if negb (Magic pool =? KE_POOL_MAGIC_ALIVE) then Ok (0, pool, m)
  else if FreeList pool =? 0 then Ok (0, pool, m)
  else pop_head pool m.

Definition KiPoolPublishPreparedPageAndPop pool page m : res (Z * KE_POOL * M) :=
  let* _ := assert_prepared page in
  if negb (Magic pool =? KE_POOL_MAGIC_ALIVE) then
    let '(orphanStatus, m) := KeHeapFreePages (BaseVirt page) m in
    let* _ := HO_KASSERT (bool_decide (orphanStatus = EC_SUCCESS)) orphanStatus in
    Ok (0, pool, m)
  else
    let* (pool, m) := splice_page pool page m in
    let* _ := HO_KASSERT (negb (FreeList pool =? 0)) EC_INVALID_STATE in
    pop_head pool m.

(** Walking a detached page list and giving every page back; [fuel] bounds
    the length of the list. *)
Fixpoint free_pages (fuel : nat) (cur : Z) m : res M :=
  if cur =? 0 then Ok m else
  match fuel with
  | O => NoFuel
  | S fuel =>
      let* next := load cur m in
      let '(status, m) := KeHeapFreePages cur m in
      let* _ := HO_KASSERT (bool_decide (status = EC_SUCCESS)) status in
      free_pages fuel next m
  end.

(** Every pool page is a live heap block, so the arena bounds the list. *)
Definition page_fuel : nat := Z.to_nat ARENA_PAGES.

Definition slot_size_of (objectSize : Z) : Z :=
  let slotSize := HO_ALIGN_UP objectSize 8 in
  if slotSize <? sizeof_FREE_NODE then sizeof_FREE_NODE else slotSize.

Definition with_magic (v : Z) pool : KE_POOL :=
  {| Magic := v; FreeList := FreeList pool; PageList := PageList pool; SlotSize := SlotSize pool;
     SlotsPerPage := SlotsPerPage pool; TotalSlots := TotalSlots pool; UsedSlots := UsedSlots pool;
     PeakUsedSlots := PeakUsedSlots pool; FailedGrows := FailedGrows pool; PageCount := PageCount pool |}.

(** The growth loop of [KePoolInit] with its roll-back. *)
Fixpoint init_pages (n : nat) (slotSize : Z) pool m : res (HO_STATUS * KE_POOL * M) :=
  match n with
  | O => Ok (EC_SUCCESS, pool, m)
  | S n =>
      let* (status, page, m) := KiPoolPrepareOnePage slotSize m in
      if decide (status = EC_SUCCESS) then
        let* (pool, m) := KiPoolPublishPreparedPage pool page m in
        init_pages n slotSize pool m
      else
        let* m := free_pages page_fuel (PageList pool) m in
        Ok (status, {| Magic := 0; FreeList := 0; PageList := 0; SlotSize := SlotSize pool;
               SlotsPerPage := SlotsPerPage pool; TotalSlots := 0; UsedSlots := UsedSlots pool;
               PeakUsedSlots := PeakUsedSlots pool; FailedGrows := FailedGrows pool; PageCount := 0 |}, m)
  end.

Definition KePoolInit pool (objectSize initialCapacity : Z) m : res (HO_STATUS * KE_POOL * M) :=
  let pool := with_magic 0 pool in
  let slotSize := slot_size_of objectSize in
  let headerSize := header_size slotSize in
  if PAGE_4KB <=? headerSize then Ok (EC_ILLEGAL_ARGUMENT, pool, m) else
  let slotsPerPage := u32 ((PAGE_4KB - headerSize) / slotSize) in
  let pool := {| Magic := 0; FreeList := 0; PageList := 0; SlotSize := slotSize;
                 SlotsPerPage := slotsPerPage; TotalSlots := 0; UsedSlots := 0;
                 PeakUsedSlots := 0; FailedGrows := 0; PageCount := 0 |} in
  if slotsPerPage =? 0 then Ok (EC_ILLEGAL_ARGUMENT, pool, m) else
  let neededPages := u32 (initialCapacity + slotsPerPage - 1) / slotsPerPage in
  let neededPages := if neededPages =? 0 then 1 else neededPages in
  let* (status, pool, m) := init_pages (Z.to_nat neededPages) slotSize pool m in
  if decide (status = EC_SUCCESS) then Ok (EC_SUCCESS, with_magic KE_POOL_MAGIC_ALIVE pool, m)
  else Ok (status, pool, m).

(** The failure branch of [KePoolAlloc]. *)
Definition count_failed_grow pool : KE_POOL :=
  if Magic pool =? KE_POOL_MAGIC_ALIVE
  then {| Magic := Magic pool; FreeList := FreeList pool; PageList := PageList pool;
          SlotSize := SlotSize pool; SlotsPerPage := SlotsPerPage pool; TotalSlots := TotalSlots pool;
          UsedSlots := UsedSlots pool; PeakUsedSlots := PeakUsedSlots pool;
          FailedGrows := u32 (FailedGrows pool + 1); PageCount := PageCount pool |}
  else pool.

Definition KePoolAlloc pool m : res (Z * KE_POOL * M) :=
  if negb (Magic pool =? KE_POOL_MAGIC_ALIVE) then Ok (0, pool, m) else
  let* (node, pool, m) := KiPoolTryPopNode pool m in
  if node =? 0 then
    let slotSize := SlotSize pool in
    if negb (Magic pool =? KE_POOL_MAGIC_ALIVE) || (slotSize =? 0) then Ok (0, pool, m) else
    let* (status, page, m) := KiPoolPrepareOnePage slotSize m in
    if decide (status = EC_SUCCESS) then
      let* (node, pool, m) := KiPoolPublishPreparedPageAndPop pool page m in
      if node =? 0 then Ok (0, pool, m) else
      let* m := memset0 node (SlotSize pool) m in Ok (node, pool, m)
    else Ok (0, count_failed_grow pool, m)
  else let* m := memset0 node (SlotSize pool) m in Ok (node, pool, m).

Definition KePoolFree pool (object : Z) m : res (KE_POOL * M) :=
  if object =? 0 then Ok (pool, m) else
  let* _ := HO_KASSERT (negb (UsedSlots pool =? 0)) EC_INVALID_STATE in
  let* m := store object (FreeList pool) m in
  Ok ({| Magic := Magic pool; FreeList := object; PageList := PageList pool;
         SlotSize := SlotSize pool; SlotsPerPage := SlotsPerPage pool; TotalSlots := TotalSlots pool;
         UsedSlots := u32 (UsedSlots pool - 1); PeakUsedSlots := PeakUsedSlots pool;
         FailedGrows := FailedGrows pool; PageCount := PageCount pool |}, m).

(** What the destruction leaves in the structure. *)
Definition poisoned : KE_POOL :=
  {| Magic := KE_POOL_MAGIC_DEAD; FreeList := 0; PageList := 0; SlotSize := 0; SlotsPerPage := 0;
     TotalSlots := 0; UsedSlots := 0; PeakUsedSlots := 0; FailedGrows := 0; PageCount := 0 |}.

Definition KePoolDestroy pool m : res (HO_STATUS * KE_POOL * M) :=
  if negb (Magic pool =? KE_POOL_MAGIC_ALIVE) then Ok (EC_INVALID_STATE, pool, m) else
  if negb (UsedSlots pool =? 0) then Ok (EC_INVALID_STATE, pool, m) else
  let* m := free_pages page_fuel (PageList pool) m in
  Ok (EC_SUCCESS, poisoned, m).
End operations.

Definition KePoolQueryStats (pool : KE_POOL) : KE_POOL_STATS :=
  {| stTotalSlots := TotalSlots pool; stUsedSlots := UsedSlots pool;
     stFreeSlots := u32 (TotalSlots pool - UsedSlots pool); stPageCount := PageCount pool;
     stPeakUsedSlots := PeakUsedSlots pool; stFailedGrowCount := FailedGrows pool |}.

(** ** Geometry of a page *)

Definition slots_per_page (ss : Z) : Z := (PAGE_4KB - header_size ss) / ss.

(** A slot size [KePoolInit] accepts. *)
Definition geometry (ss : Z) : Prop :=
  8 <= ss /\ ss mod 8 = 0 /\ 8 <= header_size ss < PAGE_4KB /\ header_size ss mod 8 = 0 /\
  1 <= slots_per_page ss <= 511 /\ header_size ss + slots_per_page ss * ss <= PAGE_4KB.

Definition slots (ss p : Z) : list Z :=
  map (fun i => p + header_size ss + Z.of_nat i * ss) (seq 0 (Z.to_nat (slots_per_page ss))).

(** Rounding the 8-byte page node up to any multiple of 8 gives a non-zero
    multiple of 8, also when the slot size is not a power of two. *)
Lemma header_size_aligned ss :
  8 <= ss < 2 ^ 64 -> ss mod 8 = 0 -> 8 <= header_size ss /\ header_size ss mod 8 = 0.
Proof.
  intros Hr H8. unfold header_size, HO_ALIGN_UP, sizeof_PAGE_NODE.
  assert (Hs : 0 <= 8 + (ss - 1) < 2 ^ 64) by (Z.to_euclidean_division_equations; lia).
  rewrite u64_small by word_lia. unfold not64, u64.
  set (a := 8 + (ss - 1)) in *. set (b := ss - 1).
  assert (Hland : Z.land a (Z.lnot b mod 2 ^ 64) = Z.ldiff a b).
  { rewrite <- Z.land_ones by lia. rewrite (Z.land_comm (Z.lnot b)), Z.land_assoc.
    rewrite (Z.land_ones a) by lia. rewrite (Z.mod_small a) by done. by rewrite Z.ldiff_land. }
  rewrite Hland.
  assert (Hmod : Z.ldiff a b mod 8 = 0).
  { change 8 with (2 ^ 3). rewrite <- Z.land_ones by lia. apply Z.bits_inj'. intros i Hi.
    rewrite Z.land_spec, Z.ldiff_spec, Z.bits_0.
    destruct (Z.ltb_spec i 3); [|rewrite (Z.ones_spec_high 3 i) by lia; apply andb_false_r].
    assert (Z.testbit b i = true) as ->; [|by rewrite andb_false_r].
    assert (Hb : Z.testbit (b mod 2 ^ 3) i = true).
    { replace (b mod 2 ^ 3) with (Z.ones 3); [rewrite Z.ones_spec_low; [done | lia]|].
      unfold b. change (Z.ones 3) with 7. change (2 ^ 3) with 8. Z.to_euclidean_division_equations. lia. }
    rewrite Z.mod_pow2_bits_low in Hb; [done | lia]. }
  assert (Hpos : 0 <= Z.ldiff a b) by (apply Z.ldiff_nonneg; lia).
  assert (Hnz : Z.ldiff a b <> 0).
  { intros Hz. apply Z.ldiff_le in Hz; lia. }
  split; [|done]. Z.to_euclidean_division_equations. lia.
Qed.

Lemma geometry_intro ss :
  8 <= ss < 2 ^ 64 -> ss mod 8 = 0 -> header_size ss < PAGE_4KB ->
  u32 (slots_per_page ss) <> 0 -> geometry ss.
Proof.
  intros Hr H8 Hh Hs. pose proof (header_size_aligned ss Hr H8) as [Hh8 Hhm].
  assert (Hsp : 0 <= slots_per_page ss <= 511).
  { unfold slots_per_page, PAGE_4KB in *. split; [apply Z.div_pos; lia|].
    apply Z.lt_succ_r, Z.div_lt_upper_bound; nia. }
  assert (slots_per_page ss <> 0).
  { intros Hz. rewrite Hz in Hs. done. }
  unfold geometry. repeat (split; [lia|]). unfold slots_per_page in *.
  pose proof (Z.mul_div_le (PAGE_4KB - header_size ss) ss). lia.
Qed.

Lemma slot_bounds ss p x : geometry ss -> p mod PAGE_4KB = 0 -> x ∈ slots ss p ->
  p + 8 <= x /\ x + ss <= p + PAGE_4KB /\ x mod 8 = 0 /\ (x - p - header_size ss) mod ss = 0.
Proof.
  intros (Hs & H8 & Hh & Hh8 & Hn & Hfit) Hp Hx.
  apply list_elem_of_In, in_map_iff in Hx as (i & <- & Hi%in_seq).
  assert (Z.of_nat i < slots_per_page ss) by lia.
  assert (Z.of_nat i * ss + ss <= slots_per_page ss * ss) by nia.
  split; [|split; [lia|split]].
  - lia.
  - rewrite Z.add_mod, Z.mul_mod, H8, Z.mul_0_r by lia.
    rewrite (Z.add_mod p), Hh8 by lia. change (0 mod 8) with 0.
    replace (p mod 8) with 0; [done|]. unfold PAGE_4KB in Hp. Z.to_euclidean_division_equations. lia.
  - replace (p + header_size ss + Z.of_nat i * ss - p - header_size ss) with (Z.of_nat i * ss) by lia.
    apply Z.mod_mul. lia.
Qed.

Lemma length_slots ss p : geometry ss -> Z.of_nat (length (slots ss p)) = slots_per_page ss.
Proof. intros (_ & _ & _ & _ & Hn & _). unfold slots. rewrite length_map, length_seq. lia. Qed.

Lemma length_all_slots ss ps : geometry ss ->
  Z.of_nat (length (ps ≫= slots ss)) = Z.of_nat (length ps) * slots_per_page ss.
Proof.
  intros Hg. induction ps as [|p ps IH]; [done|]. rewrite bind_cons.
  rewrite length_app, Nat2Z.inj_add, (length_slots ss p Hg), IH. simpl. lia.
Qed.

Lemma slots_nodup ss p : geometry ss -> NoDup (slots ss p).
Proof.
  intros (Hs & _). apply NoDup_fmap_2_strong; [|apply NoDup_seq].
  intros i j _ _ E. assert (Z.of_nat i * ss = Z.of_nat j * ss) by lia.
  assert (Z.of_nat i = Z.of_nat j) by nia. lia.
Qed.

(** Two words of the same slot span, or a slot word and a page node, belong
    to the same page and slot. *)
Lemma page_of_slot ss p q x y : geometry ss -> p mod PAGE_4KB = 0 -> q mod PAGE_4KB = 0 ->
  x ∈ slots ss p -> y ∈ slots ss q -> x <= y < x + ss -> p = q /\ x = y.
Proof.
  intros Hg Hp Hq Hx Hy Hxy.
  pose proof (slot_bounds ss p x Hg Hp Hx) as (A1 & A2 & _ & A3).
  pose proof (slot_bounds ss q y Hg Hq Hy) as (B1 & B2 & _ & B3).
  destruct Hg as (G1 & _).
  assert (p = q).
  { unfold PAGE_4KB in *. Z.to_euclidean_division_equations. lia. }
  subst q. split; [done|].
  apply Z.mod_divide in A3 as [i Hi], B3 as [j Hj]; [|lia..].
  assert (i = j); [|subst; lia]. nia.
Qed.

Lemma slot_not_node ss p q x y : geometry ss -> p mod PAGE_4KB = 0 -> q mod PAGE_4KB = 0 ->
  x ∈ slots ss p -> x <= y < x + ss -> y <> q.
Proof.
  intros Hg Hp Hq Hx Hy <-. pose proof (slot_bounds ss p x Hg Hp Hx) as (A1 & A2 & _).
  unfold PAGE_4KB in *. Z.to_euclidean_division_equations. lia.
Qed.

(** ** The state of a pool *)

Section pool_state.
Context {M : Type} `{HeapLaws M}.
Implicit Types (m : M) (pool : KE_POOL) (pg : KE_POOL_PREPARED_PAGE).

(** The null-terminated list starting at [x] runs through the nodes [l]. *)
Fixpoint chain m (x : Z) (l : list Z) : Prop :=
  match l with
  | [] => x = 0
  | y :: l => x = y /\ y <> 0 /\ exists n, load_word y m = Some n /\ chain m n l
  end.

(** A page a thread has prepared and not yet published. *)
Definition prepared (ss : Z) m pg : Prop :=
  SlotCount pg = slots_per_page ss /\ Tail pg = BaseVirt pg + header_size ss /\
  chain m (Head pg) (rev (slots ss (BaseVirt pg))).

(** [F]: the free slots in list order; [U]: the slots handed out; [pages]:
    the pages in list order; [prep]: pages being prepared by some thread. *)
Record wf pool m (F U pages : list Z) (prep : list KE_POOL_PREPARED_PAGE) : Prop := {
  wf_heap : heap_ok m;
  wf_geom : geometry (SlotSize pool);
  wf_spp : SlotsPerPage pool = slots_per_page (SlotSize pool);
  wf_live p : p ∈ pages ++ map BaseVirt prep -> (p, 1) ∈ live m;
  wf_nodup : NoDup (pages ++ map BaseVirt prep);
  wf_free : chain m (FreeList pool) F;
  wf_pages : chain m (PageList pool) pages;
  wf_slots : Permutation (F ++ U) (pages ≫= slots (SlotSize pool));
  wf_prep : Forall (prepared (SlotSize pool) m) prep;
  wf_used : UsedSlots pool = Z.of_nat (length U);
  wf_total : TotalSlots pool = Z.of_nat (length pages) * slots_per_page (SlotSize pool);
  wf_count : PageCount pool = Z.of_nat (length pages);
  wf_peak : UsedSlots pool <= PeakUsedSlots pool <= TotalSlots pool;
  wf_failed : is_u32 (FailedGrows pool);
}.

(** The words the pool itself reads. *)
Definition tracked (ss : Z) (F pages : list Z) (prep : list KE_POOL_PREPARED_PAGE) (a : Z) : Prop :=
  a ∈ F \/ a ∈ pages \/ exists pg, pg ∈ prep /\ a ∈ slots ss (BaseVirt pg).

(** The words of the slots its clients hold. *)
Definition user_word (ss : Z) (U : list Z) (a : Z) : Prop :=
  a mod 8 = 0 /\ exists x, x ∈ U /\ x <= a < x + ss.

Lemma chain_agree m m' x l : agree (fun a => a ∈ l) m m' -> chain m x l -> chain m' x l.
Proof.
  revert x. induction l as [|y l IH]; intros x Ha; [done|].
  intros (-> & Hy & n & Hn & Hc). split; [done|]. split; [done|]. exists n. split.
  - rewrite Ha by (by left). done.
  - apply IH; [|done]. intros a Hin. apply Ha. by right.
Qed.

Lemma chain_head m x l : chain m x l -> x = default 0 (head l).
Proof. destruct l; [done|]. by intros [-> _]. Qed.

Lemma wf_stable pool m m' F U pages prep :
  wf pool m F U pages prep -> heap_ok m' ->
  (forall p, p ∈ pages ++ map BaseVirt prep -> (p, 1) ∈ live m') ->
  agree (tracked (SlotSize pool) F pages prep) m m' ->
  wf pool m' F U pages prep.
Proof.
  intros W Hm Hl Ha. destruct W. constructor; try done.
  - eapply chain_agree; [|done]. eapply agree_weaken; [|exact Ha]. by left.
  - eapply chain_agree; [|done]. eapply agree_weaken; [|exact Ha]. right. by left.
  - rewrite Forall_forall in *. intros pg Hpg. destruct (wf_prep0 pg Hpg) as (P1 & P2 & P3).
    split; [done|]. split; [done|]. eapply chain_agree; [|done].
    eapply agree_weaken; [|exact Ha]. intros a Hin. right; right. exists pg. split; [done|].
    by apply list_elem_of_In, in_rev, list_elem_of_In.
Qed.

Section facts.
Context pool m F U pages prep (W : wf pool m F U pages prep).
Notation ss := (SlotSize pool).

Lemma page_aligned p : p ∈ pages ++ map BaseVirt prep -> p mod PAGE_4KB = 0 /\ 0 < p /\ p + PAGE_4KB < 2 ^ 64.
Proof.
  intros Hp. pose proof (live_bounds m (p, 1) (wf_heap _ _ _ _ _ _ W) (wf_live _ _ _ _ _ _ W p Hp)).
  simpl in *. lia.
Qed.

Lemma page_word p a : p ∈ pages ++ map BaseVirt prep -> p <= a < p + PAGE_4KB -> a mod 8 = 0 -> live_word (live m) a.
Proof.
  intros Hp Ha H8. split; [done|]. exists (p, 1). split; [by apply (wf_live _ _ _ _ _ _ W)|].
  unfold in_block. simpl. lia.
Qed.

Lemma slot_page x : x ∈ F \/ x ∈ U -> exists p, p ∈ pages /\ x ∈ slots ss p.
Proof.
  intros Hx. assert (Hin : x ∈ F ++ U) by (by apply elem_of_app).
  rewrite (wf_slots _ _ _ _ _ _ W) in Hin. apply list_elem_of_bind in Hin as (p & H1 & H2). eauto.
Qed.

Lemma slot_word x a : x ∈ F \/ x ∈ U -> x <= a < x + ss -> a mod 8 = 0 ->
  live_word (live m) a /\ 0 < x /\ x + ss < 2 ^ 64.
Proof.
  intros Hx Ha H8. destruct (slot_page x Hx) as (p & Hp & Hs).
  assert (Hpp : p ∈ pages ++ map BaseVirt prep) by (apply elem_of_app; by left).
  destruct (page_aligned p Hpp) as (Hal & Hpos & Hlt).
  pose proof (slot_bounds ss p x (wf_geom _ _ _ _ _ _ W) Hal Hs) as (B1 & B2 & _).
  split; [|lia]. apply (page_word p); [done | lia | done].
Qed.

Lemma slot_aligned x : x ∈ F \/ x ∈ U -> x mod 8 = 0.
Proof.
  intros Hx. destruct (slot_page x Hx) as (p & Hp & Hs).
  destruct (page_aligned p) as (Hal & _); [apply elem_of_app; by left|].
  by apply (slot_bounds ss p x (wf_geom _ _ _ _ _ _ W) Hal Hs).
Qed.

Lemma slots_distinct : NoDup (F ++ U).
Proof.
  rewrite (wf_slots _ _ _ _ _ _ W). pose proof (wf_geom _ _ _ _ _ _ W) as Hg. apply NoDup_bind.
  - intros p q x Hp Hq Hx Hy.
    refine (proj1 (page_of_slot ss p q x x Hg _ _ Hx Hy _)).
    + apply page_aligned, elem_of_app. by left.
    + apply page_aligned, elem_of_app. by left.
    + destruct Hg. lia.
  - intros p _. by apply slots_nodup.
  - pose proof (wf_nodup _ _ _ _ _ _ W) as Hn. by apply NoDup_app in Hn as [Hn _].
Qed.

(** The words of a client's slot are not read by the pool. *)
Lemma user_untracked x a : x ∈ U -> x <= a < x + ss -> ~ tracked ss F pages prep a.
Proof.
  intros Hx Ha Ht. pose proof (wf_geom _ _ _ _ _ _ W) as Hg.
  destruct (slot_page x) as (p & Hp & Hs); [by right|].
  assert (Hpp : p ∈ pages ++ map BaseVirt prep) by (apply elem_of_app; by left).
  destruct (page_aligned p Hpp) as (Hal & _).
  destruct Ht as [HF | [HP | (pg & Hpg & Hin)]].
  - destruct (slot_page a) as (q & Hq & Hsq); [by left|].
    destruct (page_aligned q) as (Hqal & _); [apply elem_of_app; by left|].
    destruct (page_of_slot ss p q x a Hg Hal Hqal Hs Hsq Ha) as [_ ->].
    pose proof slots_distinct as Hn. apply NoDup_app in Hn as (_ & Hn & _). by apply (Hn a).
  - destruct (page_aligned a) as (Hqal & _); [apply elem_of_app; by left|].
    by apply (slot_not_node ss p a x a Hg Hal Hqal Hs Ha).
  - destruct (page_aligned (BaseVirt pg)) as (Hqal & _).
    { apply elem_of_app. right. apply list_elem_of_In, in_map, list_elem_of_In, Hpg. }
    destruct (page_of_slot ss p _ x a Hg Hal Hqal Hs Hin Ha) as [-> _].
    pose proof (wf_nodup _ _ _ _ _ _ W) as Hn. apply NoDup_app in Hn as (_ & Hn & _).
    apply (Hn (BaseVirt pg) Hp). apply list_elem_of_In, in_map, list_elem_of_In, Hpg.
Qed.

Lemma few_pages : Z.of_nat (length pages + length prep) <= ARENA_PAGES.
Proof.
  pose proof (live_few m (wf_heap _ _ _ _ _ _ W)).
  assert (Hsub : map (fun p => (p, 1)) (pages ++ map BaseVirt prep) ⊆+ live m).
  { apply NoDup_submseteq.
    - apply NoDup_fmap_2; [intros x y E; congruence|]. apply (wf_nodup _ _ _ _ _ _ W).
    - intros b (p & <- & Hp)%list_elem_of_In%in_map_iff. apply (wf_live _ _ _ _ _ _ W). by apply list_elem_of_In. }
  apply submseteq_length in Hsub. rewrite length_map, length_app, length_map in Hsub. lia.
Qed.

Lemma total_count : Z.of_nat (length F + length U) = TotalSlots pool /\ TotalSlots pool < 2 ^ 32.
Proof.
  pose proof (wf_geom _ _ _ _ _ _ W) as Hg.
  assert (Hlen : Z.of_nat (length F + length U) = TotalSlots pool).
  { rewrite <- length_app, (wf_slots _ _ _ _ _ _ W), (wf_total _ _ _ _ _ _ W).
    by apply length_all_slots. }
  split; [done|]. rewrite (wf_total _ _ _ _ _ _ W). pose proof few_pages.
  destruct Hg as (_ & _ & _ & _ & Hn & _). unfold ARENA_PAGES in *. nia.
Qed.
End facts.
End pool_state.
