(* ===== verification/PoolThms.v ===== *)
(** * The object pool: its operations are correct

    Run lemmas for every piece of code of [Pool.v] on a well-formed pool, the
    interleaving semantics [pool_step], and the theorems: initialisation,
    allocation, destruction, statistics, and safety under every interleaving.
    [demo_alive] is a pool of 24-byte objects on the bump allocator of
    [Heap.v], on which the theorems are evaluated. *)

From S2P Require Import Prelude Heap Pool.

Local Open Scope Z_scope.

(** ** Each piece of code on a well-formed pool *)

Section pieces.
Context {M : Type} `{HeapLaws M}.
Implicit Types (m : M) (pool : KE_POOL) (pg : KE_POOL_PREPARED_PAGE).

Definition first_slots (ss p : Z) (n : nat) : list Z :=
  map (fun i => p + header_size ss + Z.of_nat i * ss) (seq 0 n).

Lemma first_slots_S ss p n :
  rev (first_slots ss p (S n)) = p + header_size ss + Z.of_nat n * ss :: rev (first_slots ss p n).
Proof. unfold first_slots. by rewrite seq_S, map_app, rev_app_distr. Qed.

(** Writing a fresh node in front of a list extends the list. *)
Lemma chain_cons m m' x y l : chain m x l -> y <> 0 -> load_word y m' = Some x ->
  agree (fun a => a ∈ l) m m' -> chain m' y (y :: l).
Proof.
  intros Hc Hy Hl Ha. split; [done|]. split; [done|]. exists x. split; [done|].
  by eapply chain_agree.
Qed.

Lemma link_slots_run ss p m : heap_ok m -> (p, 1) ∈ live m -> geometry ss ->
  exists pg m', link_slots (u64 (p + header_size ss)) ss (slots_per_page ss)
      {| BaseVirt := p; Head := 0; Tail := 0; SlotCount := 0 |} m = Ok (pg, m') /\
    BaseVirt pg = p /\ prepared ss m' pg /\ heap_ok m' /\ live m' = live m /\
    agree (fun a => live_word (live m) a /\ ~ in_block (p, 1) a) m m'.
Proof.
  intros Hm Hp Hg. pose proof (live_bounds m _ Hm Hp) as (B1 & B2 & _ & B3). simpl in *.
  pose proof Hg as (G1 & G2 & G3 & G4 & G5 & G6).
  assert (Hp8 : p mod 8 = 0) by (unfold PAGE_4KB in *; Z.to_euclidean_division_equations; lia).
  rewrite (u64_small (p + header_size ss)) by (unfold PAGE_4KB in *; word_lia).
  unfold link_slots.
  set (body := fun (i : Z) '(page, m) => _).
  destruct (for_loop_rule (fun i '(pg, t) =>
      BaseVirt pg = p /\ SlotCount pg = i /\
      Tail pg = (if i =? 0 then 0 else p + header_size ss) /\
      chain t (Head pg) (rev (first_slots ss p (Z.to_nat i))) /\
      heap_ok t /\ live t = live m /\
      agree (fun a => live_word (live m) a /\ ~ in_block (p, 1) a) m t)
    (Z.to_nat (slots_per_page ss)) 0 body
    ({| BaseVirt := p; Head := 0; Tail := 0; SlotCount := 0 |}, m)) as ([pg t] & E & R).
  - simpl. split_and!; try done.
  - intros j [pg t] Hj (E1 & E2 & E3 & E4 & E5 & E6 & E7). subst j.
    set (i := SlotCount pg) in *.
    assert (i < slots_per_page ss) by lia.
    assert (i * ss + ss <= slots_per_page ss * ss) by nia.
    unfold body. rewrite (u64_small (i * ss)) by (unfold PAGE_4KB in *; word_lia).
    set (node := p + header_size ss + i * ss).
    rewrite (u64_small node) by (unfold node, PAGE_4KB in *; word_lia).
    assert (Hn8 : node mod 8 = 0).
    { unfold node. rewrite Z.add_mod, Z.mul_mod, G2, Z.mul_0_r by lia.
      rewrite (Z.add_mod p), Hp8, G4 by lia. done. }
    destruct (store_ok t node (Head pg)) as (t' & -> & F1 & F2 & F3 & F4); [done | |].
    { rewrite E6. split; [done|]. exists (p, 1). split; [done|]. unfold in_block, node. simpl. lia. }
    assert (Hch : chain t' (Head pg) (rev (first_slots ss p (Z.to_nat i)))).
    { eapply chain_agree; [|exact E4]. intros a Ha%list_elem_of_In%in_rev. apply F4.
      apply in_map_iff in Ha as (k & <- & Hk%in_seq).
      assert (Z.of_nat k * ss + ss <= i * ss) by nia. split; [unfold node; lia|].
      rewrite E6. split.
      - rewrite Z.add_mod, Z.mul_mod, G2, Z.mul_0_r by lia.
        rewrite (Z.add_mod p), Hp8, G4 by lia. done.
      - exists (p, 1). split; [done|]. unfold in_block. simpl. nia. }
    cbn [res_bind]. eexists (_, t'). split; [done|]. cbn.
    rewrite Z2Nat.inj_add, Nat.add_1_r, first_slots_S, Z2Nat.id by lia. fold node.
    split_and!; try done.
    + unfold u32. apply Z.mod_small. lia.
    + rewrite E3. destruct (Z.eqb_spec i 0) as [Hz|Hz].
      * simpl. destruct (Z.eqb_spec (i + 1) 0); [lia|]. unfold node. rewrite Hz. lia.
      * destruct (Z.eqb_spec (p + header_size ss) 0); [unfold PAGE_4KB in *; lia|].
        destruct (Z.eqb_spec (i + 1) 0); [lia | done].
    + split; [done|]. split; [unfold node; lia|]. by exists (Head pg).
    + congruence.
    + intros a [Ha Hout]. rewrite F4; [by apply E7|]. split; [|by rewrite E6].
      intros ->. apply Hout. unfold in_block, node. simpl. lia.
  - rewrite Z.add_0_l, Z2Nat.id in R by lia. destruct R as (R1 & R2 & R3 & R4 & R5).
    exists pg, t. split; [exact E|]. split; [done|]. split; [|done].
    split; [done|]. rewrite R1. split; [|done]. rewrite R3.
    destruct (Z.eqb_spec (slots_per_page ss) 0); [lia | done].
Qed.

(** Preparing a page touches nothing but the new block. *)
Lemma prepare_run ss m : heap_ok m -> geometry ss ->
  exists st pg m', KiPoolPrepareOnePage ss m = Ok (st, pg, m') /\ heap_ok m' /\
    agree (live_word (live m)) m m' /\
    (if decide (st = EC_SUCCESS)
     then prepared ss m' pg /\ Permutation (live m') ((BaseVirt pg, 1) :: live m)
     else live m' = live m).
Proof.
  intros Hm Hg. unfold KiPoolPrepareOnePage.
  destruct (KeHeapAllocPages 1 m) as [[st p] m1] eqn:EA.
  destruct (alloc_law m 1 st p m1 Hm ltac:(lia) EA) as (H1 & H2 & H3).
  destruct (decide (st = EC_SUCCESS)) as [->|Hne].
  - destruct (Z.leb_spec PAGE_4KB (header_size ss)); [destruct Hg; lia|].
    unfold slots_per_page in *.
    replace (u32 ((PAGE_4KB - header_size ss) / ss)) with (slots_per_page ss).
    2: { symmetry. apply u32_small. destruct Hg as (_ & _ & _ & _ & G & _). unfold slots_per_page in *. word_lia. }
    destruct (link_slots_run ss p m1) as (pg & m2 & -> & R1 & R2 & R3 & R4 & R5); [done | rewrite H3; by left | done |].
    cbn [res_bind]. exists EC_SUCCESS, pg, m2. rewrite decide_True by done.
    split_and!; try done.
    + intros a Ha. rewrite R5; [by apply H2|]. destruct Ha as [Ha8 (b & Hb & Hin)]. split.
      * split; [done|]. exists b. rewrite H3. split; [by right | done].
      * intros Hp. assert (Hd : b = (p, 1)).
        { eapply (live_disjoint m1); [done | | | exact Hin | exact Hp]; rewrite H3; [by right | by left]. }
        pose proof (live_nodup m1 H1) as Hn. rewrite H3 in Hn. apply NoDup_cons in Hn as [Hn _]. by subst.
    + by rewrite R1, R4.
  - exists st, {| BaseVirt := 0; Head := 0; Tail := 0; SlotCount := 0 |}, m1. by rewrite decide_False.
Qed.

Section on_pool.
Context pool m F U pages prep (W : wf pool m F U pages prep).
Notation ss := (SlotSize pool).

Lemma user_agree m' : agree (fun a => ~ tracked ss F pages prep a /\ live_word (live m) a) m m' ->
  agree (user_word ss U) m m'.
Proof.
  intros Ha. eapply agree_weaken; [|exact Ha]. intros a (H8 & x & Hx & Hr). split.
  - by apply (user_untracked pool m F U pages prep W x).
  - apply (slot_word pool m F U pages prep W x a); [by right | done..].
Qed.

Lemma tracked_live a : tracked ss F pages prep a -> live_word (live m) a.
Proof.
  intros Ht. destruct Ht as [Ht|[Ht|(q & Hq & Ht)]].
  - eapply (slot_word pool m F U pages prep W a a); [by left | | ].
    + destruct (wf_geom _ _ _ _ _ _ W); lia.
    + by apply (slot_aligned pool m F U pages prep W); left.
  - eapply (page_word pool m F U pages prep W a a); [apply elem_of_app; by left | unfold PAGE_4KB; lia |].
    destruct (page_aligned pool m F U pages prep W a) as (E & _); [apply elem_of_app; by left|].
    unfold PAGE_4KB in E. Z.to_euclidean_division_equations. lia.
  - assert (Hq' : BaseVirt q ∈ pages ++ map BaseVirt prep).
    { apply elem_of_app. right. apply list_elem_of_In, in_map, list_elem_of_In, Hq. }
    destruct (page_aligned pool m F U pages prep W _ Hq') as (E & _).
    pose proof (slot_bounds ss _ a (wf_geom _ _ _ _ _ _ W) E Ht) as (S1 & S2 & S3 & _).
    apply (page_word pool m F U pages prep W (BaseVirt q)); [done | destruct (wf_geom _ _ _ _ _ _ W); lia | done].
Qed.

(** A thread starts to grow the pool. *)
Lemma wf_prepared pg m' : heap_ok m' -> agree (live_word (live m)) m m' ->
  prepared ss m' pg -> Permutation (live m') ((BaseVirt pg, 1) :: live m) ->
  wf pool m' F U pages (pg :: prep).
Proof.
  intros Hm' Ha Hp Hl. destruct W. pose proof (live_nodup m' Hm') as Hnd. rewrite Hl in Hnd.
  apply NoDup_cons in Hnd as [Hfresh _].
  assert (Hnew : BaseVirt pg ∉ pages ++ map BaseVirt prep) by (intros Hin; by apply Hfresh, wf_live).
  assert (Htr : agree (tracked ss F pages prep) m m').
  { eapply agree_weaken; [|exact Ha]. apply tracked_live. }
  constructor; try done.
  - intros p Hp'. rewrite Hl. cbn [map] in Hp'. rewrite elem_of_app, elem_of_cons in Hp'.
    destruct (decide (p = BaseVirt pg)) as [->|Hne]; [by left|].
    right. apply wf_live, elem_of_app. tauto.
  - cbn [map]. rewrite <- Permutation_middle. by constructor.
  - eapply chain_agree; [|done]. eapply agree_weaken; [|exact Htr]. by left.
  - eapply chain_agree; [|done]. eapply agree_weaken; [|exact Htr]. right. by left.
  - constructor; [done|]. rewrite Forall_forall in *. intros q Hq. destruct (wf_prep q Hq) as (P1 & P2 & P3).
    split; [done|]. split; [done|]. eapply chain_agree; [|done].
    eapply agree_weaken; [|exact Htr]. intros a Hin. right; right. exists q. split; [done|].
    by apply list_elem_of_In, in_rev, list_elem_of_In.
Qed.

(** A store into a word the pool does not read, or into a client's slot. *)
Lemma wf_untracked a v : live_word (live m) a -> ~ tracked ss F pages prep a ->
  exists m', store a v m = Ok m' /\ wf pool m' F U pages prep /\ live m' = live m /\
    load_word a m' = Some v /\ agree (fun b => b <> a /\ live_word (live m) b) m m'.
Proof.
  intros Ha Ht. destruct (store_ok m a v (wf_heap _ _ _ _ _ _ W) Ha) as (m' & E & S1 & S2 & S3 & S4).
  exists m'. split; [done|]. split; [|done]. eapply wf_stable; [exact W | done | |].
  - intros p Hp. rewrite S2. by apply (wf_live _ _ _ _ _ _ W).
  - intros b Hb. apply S4. split; [by intros ->|]. by apply tracked_live.
Qed.

(** [pop_head] hands out the first free slot. *)
Lemma pop_run x F' : F = x :: F' ->
  exists pool', pop_head pool m = Ok (x, pool', m) /\ wf pool' m F' (x :: U) pages prep /\
    SlotSize pool' = ss /\ Magic pool' = Magic pool /\ FailedGrows pool' = FailedGrows pool.
Proof.
  intros HF. pose proof (total_count pool m F U pages prep W) as [Ht Ht32]. pose proof W as W0. destruct W0.
  rewrite HF in *. simpl in Ht. destruct wf_free as (Hx & Hx0 & n & Hn & Hc).
  unfold pop_head. rewrite Hx, (load_some m x n); [|by apply (slot_aligned pool m _ U pages prep W); left; left|done].
  cbn [res_bind]. rewrite u32_small by (rewrite wf_used; unfold is_u32; simpl in Ht; lia).
  destruct (Z.leb_spec (UsedSlots pool + 1) (TotalSlots pool)); [|lia]. cbn [HO_KASSERT res_bind].
  eexists. split; [done|]. split; [|done]. constructor; cbn -[mbind]; try done.
  - by rewrite <- wf_slots, <- Permutation_middle.
  - lia.
  - destruct (Z.ltb_spec (PeakUsedSlots pool) (UsedSlots pool + 1)); lia.
Qed.

Lemma failed_grow_run : wf (count_failed_grow pool) m F U pages prep.
Proof.
  unfold count_failed_grow. destruct (Magic pool =? KE_POOL_MAGIC_ALIVE); [|exact W].
  destruct W. constructor; cbn -[mbind]; try done. apply u32_range.
Qed.

(** [KePoolFree] of a slot that is handed out. *)
Lemma free_run x U' : Permutation U (x :: U') ->
  exists pool' m', KePoolFree pool x m = Ok (pool', m') /\ wf pool' m' (x :: F) U' pages prep /\
    live m' = live m /\ SlotSize pool' = ss /\ Magic pool' = Magic pool /\
    PeakUsedSlots pool' = PeakUsedSlots pool /\
    agree (user_word ss U') m m'.
Proof.
  intros HU. assert (HxU : x ∈ U) by (rewrite HU; by left).
  pose proof (wf_geom _ _ _ _ _ _ W) as Hg.
  pose proof (slot_aligned pool m F U pages prep W x (or_intror HxU)) as Hx8.
  destruct (slot_word pool m F U pages prep W x x) as (Hlw & Hx0 & _); [by right | destruct Hg; lia | done |].
  pose proof (total_count pool m F U pages prep W) as [Ht Ht32].
  assert (Hlen : length U = S (length U')) by (by rewrite HU).
  destruct (wf_untracked x (FreeList pool) Hlw) as (m' & E & W' & S2 & S3 & S4).
  { apply (user_untracked pool m F U pages prep W x); [done | destruct Hg; lia]. }
  destruct W'. unfold KePoolFree. destruct (Z.eqb_spec x 0); [lia|].
  destruct (Z.eqb_spec (UsedSlots pool) 0); [lia|]. cbn [negb HO_KASSERT res_bind].
  rewrite E. cbn [res_bind]. eexists _, m'. split; [done|]. split; [|split; [done|split; [done|split; [done|split; [done|]]]]].
  - constructor; cbn -[mbind]; try done.
    + split; [done|]. split; [lia|]. by exists (FreeList pool).
    + rewrite <- wf_slots, HU. by rewrite <- Permutation_middle.
    + unfold u32. rewrite Z.mod_small by lia. lia.
    + unfold u32. rewrite Z.mod_small by lia. lia.
  - intros a (H8 & y & Hy & Hr). apply S4. split.
    + intros ->. assert (Hy' : y ∈ U) by (rewrite HU; by right).
      pose proof (slots_distinct pool m F U pages prep W) as Hn. rewrite HU in Hn.
      apply NoDup_app in Hn as (_ & _ & Hn). apply NoDup_cons in Hn as [Hn _]. apply Hn.
      destruct (slot_page pool m F U pages prep W y (or_intror Hy')) as (p & Hp & Hps).
      destruct (slot_page pool m F U pages prep W x (or_intror HxU)) as (q & Hq & Hqs).
      destruct (page_of_slot ss p q y x Hg) as [_ <-]; try done;
        apply (page_aligned pool m F U pages prep W), elem_of_app; by left.
    + apply (slot_word pool m F U pages prep W y); [|done..]. right. rewrite HU. by right.
Qed.
End on_pool.

Lemma wf_prep_perm pool m F U pages prep prep' : Permutation prep prep' ->
  wf pool m F U pages prep -> wf pool m F U pages prep'.
Proof.
  intros Hp W. destruct W. constructor; try done.
  - intros p. rewrite <- Hp. apply wf_live.
  - by rewrite <- Hp.
  - by rewrite <- Hp.
Qed.

Lemma wf_held_perm pool m F U U' pages prep : Permutation U U' ->
  wf pool m F U pages prep -> wf pool m F U' pages prep.
Proof.
  intros Hp W. destruct W. constructor; try done.
  - by rewrite <- Hp.
  - by rewrite <- Hp.
Qed.

Lemma chain_splice m m' h l t x G : chain m h (l ++ [t]) -> t <> 0 -> load_word t m' = Some x ->
  agree (fun a => a ∈ l) m m' -> chain m' x G -> chain m' h ((l ++ [t]) ++ G).
Proof.
  revert h. induction l as [|y l IH]; intros h Hc Ht Hl Ha HG.
  - destruct Hc as (-> & _). split; [done|]. split; [done|]. by exists x.
  - destruct Hc as (-> & Hy & n & Hn & Hc). split; [done|]. split; [done|]. exists n. split.
    + rewrite Ha; [done | by left].
    + apply IH; try done. intros a Hin. apply Ha. by right.
Qed.

Lemma slots_first ss p : geometry ss -> exists r, slots ss p = p + header_size ss :: r.
Proof.
  intros (_ & _ & _ & _ & Hn & _). unfold slots.
  destruct (Z.to_nat (slots_per_page ss)) as [|k] eqn:E; [lia|]. cbn [seq map].
  rewrite Z.mul_0_l, Z.add_0_r. eauto.
Qed.

(** Publishing a prepared page makes its slots free ones. *)
Lemma splice_run pool m F U pages pg prep : wf pool m F U pages (pg :: prep) ->
  exists pool' m', assert_prepared pg = Ok tt /\ splice_page pool pg m = Ok (pool', m') /\
    wf pool' m' (rev (slots (SlotSize pool) (BaseVirt pg)) ++ F) U (BaseVirt pg :: pages) prep /\
    live m' = live m /\ SlotSize pool' = SlotSize pool /\ Magic pool' = Magic pool /\
    FailedGrows pool' = FailedGrows pool /\ agree (user_word (SlotSize pool) U) m m' /\
    agree (fun a => live_word (live m) a /\ ~ in_block (BaseVirt pg, 1) a) m m'.
Proof.
  intros W. set (ss := SlotSize pool). set (p := BaseVirt pg).
  pose proof (wf_geom _ _ _ _ _ _ W) as Hg. pose proof (wf_nodup _ _ _ _ _ _ W) as Hnd.
  cbn [map] in Hnd. fold p in Hnd. rewrite <- Permutation_middle in Hnd.
  apply NoDup_cons in Hnd as [Hfresh Hnd].
  assert (Hpin : p ∈ pages ++ map BaseVirt (pg :: prep)) by (apply elem_of_app; right; by left).
  destruct (page_aligned pool m F U pages _ W p Hpin) as (Hal & Hp0 & Hp64).
  pose proof (wf_prep _ _ _ _ _ _ W) as Hprep. apply Forall_cons in Hprep as [(P1 & P2 & P3) Hprep].
  fold p ss in P1, P2, P3. destruct (slots_first ss p Hg) as (r & Er). set (t := p + header_size ss) in *.
  assert (Htin : t ∈ slots ss p) by (rewrite Er; by left).
  pose proof (slot_bounds ss p t Hg Hal Htin) as (T1 & T2 & T3 & _).
  pose proof (few_pages pool m F U pages _ W) as Hfew. cbn [length] in Hfew.
  assert (Hss : 8 <= ss) by (destruct Hg; lia).
  assert (Hsp : 1 <= slots_per_page ss <= 511) by (destruct Hg as (_ & _ & _ & _ & Hg5 & _); exact Hg5).
  assert (Hp8 : p mod 8 = 0) by (unfold PAGE_4KB in Hal; Z.to_euclidean_division_equations; lia).
  assert (Hslot : forall q y, q ∈ pages ++ map BaseVirt (pg :: prep) -> y ∈ slots ss q ->
            live_word (live m) y /\ y <> p /\ (y = t -> q = p)).
  { intros q y Hq Hy. destruct (page_aligned pool m F U pages _ W q Hq) as (Hqal & _).
    pose proof (slot_bounds ss q y Hg Hqal Hy) as (B1 & B2 & B3 & _). split_and!.
    - apply (page_word pool m F U pages _ W q); [done | lia | done].
    - intros ->. unfold PAGE_4KB in *. Z.to_euclidean_division_equations. lia.
    - intros ->. refine (proj1 (page_of_slot ss q p t t Hg Hqal Hal Hy Htin _)). lia. }
  assert (Hnode : forall q, q ∈ pages ++ map BaseVirt prep -> live_word (live m) q /\ q <> p /\ q <> t).
  { intros q Hq. assert (Hq' : q ∈ pages ++ map BaseVirt (pg :: prep)).
    { cbn [map]. rewrite elem_of_app, elem_of_cons. rewrite elem_of_app in Hq. tauto. }
    destruct (page_aligned pool m F U pages _ W q Hq') as (Hqal & _). split_and!.
    - apply (page_word pool m F U pages _ W q); [done | unfold PAGE_4KB; lia |].
      unfold PAGE_4KB in Hqal. Z.to_euclidean_division_equations. lia.
    - by intros ->.
    - intros ->. unfold PAGE_4KB in *. Z.to_euclidean_division_equations. lia. }
  assert (Hchn : chain m (Head pg) (rev r ++ [t])) by (rewrite Er in P3; exact P3).
  destruct (store_ok m t (FreeList pool)) as (m1 & E1 & A1 & A2 & A3 & A4).
  { apply (wf_heap _ _ _ _ _ _ W). } { by apply (Hslot p). }
  destruct (store_ok m1 p (PageList pool)) as (m2 & E2 & B1 & B2 & B3 & B4); [done | |].
  { rewrite A2. apply (page_word pool m F U pages _ W p); [done | unfold PAGE_4KB; lia | done]. }
  assert (Hag : agree (fun a => a <> t /\ a <> p /\ live_word (live m) a) m m2).
  { intros a (N1 & N2 & Hl). rewrite B4; [by apply A4|]. by rewrite A2. }
  assert (Ht2 : load_word t m2 = Some (FreeList pool)).
  { rewrite B4; [done|]. split; [unfold PAGE_4KB in *; lia|]. rewrite A2. by apply (Hslot p). }
  assert (HF : forall a, a ∈ F -> a <> t /\ a <> p /\ live_word (live m) a).
  { intros a Ha. destruct (slot_page pool m F U pages _ W a (or_introl Ha)) as (q & Hq & Hqs).
    assert (Hq' : q ∈ pages ++ map BaseVirt (pg :: prep)) by (apply elem_of_app; by left).
    destruct (Hslot q a Hq' Hqs) as (L1 & L2 & L3). split_and!; [|done..].
    intros ->. apply Hfresh, elem_of_app. left. by rewrite <- (L3 eq_refl). }
  assert (Hnil : Head pg <> 0 /\ SlotCount pg <> 0).
  { split; [|lia]. destruct (rev r) as [|y l]; simpl in Hchn.
    - destruct Hchn as (-> & ? & _). done.
    - destruct Hchn as (-> & ? & _). done. }
  unfold assert_prepared, splice_page. rewrite P2.
  destruct (Z.eqb_spec (Head pg) 0) as [|_]; [tauto|].
  destruct (Z.eqb_spec t 0) as [|_]; [lia|].
  destruct (Z.eqb_spec (SlotCount pg) 0) as [|_]; [tauto|].
  rewrite E1. cbn [res_bind]. fold p. rewrite E2. cbn [res_bind]. eexists _, m2. split; [done|]. split; [reflexivity|].
  split; [|split; [congruence|split; [done|split; [done|split; [done|split]]]]].
  - pose proof W as W0. destruct W0. constructor; cbn -[mbind]; try done.
    + intros q Hq. rewrite B2, A2. apply wf_live. cbn [map]. fold p.
      rewrite elem_of_cons in Hq. rewrite elem_of_app in *. rewrite elem_of_cons. tauto.
    + by constructor.
    + fold ss. rewrite Er. cbn [rev]. eapply chain_splice; [exact Hchn | lia | done | |].
      * intros a Ha%list_elem_of_In%in_rev%list_elem_of_In. apply Hag.
        assert (Has : a ∈ slots ss p) by (rewrite Er; by right). destruct (Hslot p a Hpin Has) as (L1 & L2 & _).
        split; [|done]. intros ->. pose proof (slots_nodup ss p Hg) as Hn. rewrite Er in Hn.
        by apply NoDup_cons in Hn as [Hn _].
      * eapply chain_agree; [|exact wf_free]. eapply agree_weaken; [exact HF | exact Hag].
    + split; [done|]. split; [lia|]. exists (PageList pool). split; [done|].
      eapply chain_agree; [|exact wf_pages]. eapply agree_weaken; [|exact Hag].
      intros a Ha. destruct (Hnode a) as (N1 & N2 & N3); [apply elem_of_app; by left | done].
    + rewrite bind_cons, <- wf_slots. fold ss. by rewrite <- Permutation_rev, app_assoc.
    + fold ss. rewrite Forall_forall in *. intros q Hq. destruct (Hprep q Hq) as (Q1 & Q2 & Q3).
      split; [done|]. split; [done|]. eapply chain_agree; [|exact Q3].
      intros a Ha%list_elem_of_In%in_rev%list_elem_of_In. apply Hag.
      assert (Hb : BaseVirt q ∈ pages ++ map BaseVirt prep).
      { apply elem_of_app. right. by apply list_elem_of_In, in_map, list_elem_of_In. }
      destruct (Hslot (BaseVirt q) a) as (L1 & L2 & L3); [|done|].
      { cbn [map]. rewrite elem_of_app, elem_of_cons. rewrite elem_of_app in Hb. tauto. }
      split; [|done]. intros ->. apply Hfresh. rewrite <- (L3 eq_refl). done.
    + unfold ss in *. rewrite P1, u32_small by (rewrite wf_total; unfold ARENA_PAGES in *; split; nia). lia.
    + unfold u32. rewrite Z.mod_small by (unfold ARENA_PAGES in *; lia). lia.
    + unfold ss in *. rewrite P1, u32_small by (rewrite wf_total; unfold ARENA_PAGES in *; split; nia). lia.
  - eapply agree_weaken; [|exact Hag]. intros a (H8 & x & Hx & Hr).
    assert (Hlw : live_word (live m) a) by (apply (slot_word pool m F U pages _ W x a); [by right | done | done]).
    pose proof (user_untracked pool m F U pages _ W x a Hx Hr) as Hun. split_and!; [| |done].
    + intros ->. apply Hun. right; right. exists pg. split; [by left | done].
    + intros ->. destruct (slot_page pool m F U pages _ W x (or_intror Hx)) as (q & Hq & Hqs).
      destruct (page_aligned pool m F U pages _ W q) as (Hqal & _); [apply elem_of_app; by left|].
      by apply (slot_not_node ss q p x p Hg Hqal Hal Hqs Hr).
  - eapply agree_weaken; [|exact Hag]. intros a [Hl Hout]. unfold in_block in Hout. cbn in Hout. fold p in Hout.
    unfold PAGE_4KB in *. split_and!; [| |done]; intros ->; apply Hout; lia.
Qed.
End pieces.

(** ** Whole operations *)

Lemma align_up_8 x : is_u64 x -> HO_ALIGN_UP x 8 = u64 (x + 7) - u64 (x + 7) mod 8.
Proof.
  intros Hx. unfold HO_ALIGN_UP. change (8 - 1) with 7.
  change (not64 7) with (2 ^ 64 - 2 ^ 3). apply land_align_mask; [lia | apply u64_range].
Qed.

Lemma slot_size_range os : is_u64 os ->
  8 <= slot_size_of os < 2 ^ 64 /\ slot_size_of os mod 8 = 0 /\ (os <= 2 ^ 64 - 8 -> os <= slot_size_of os).
Proof.
  intros Hos. unfold slot_size_of, sizeof_FREE_NODE. rewrite align_up_8 by done.
  pose proof (u64_range (os + 7)) as Hr. unfold is_u64 in *.
  assert (os <= 2 ^ 64 - 8 -> u64 (os + 7) = os + 7) by (intros; apply u64_small; word_lia).
  destruct (Z.ltb_spec (u64 (os + 7) - u64 (os + 7) mod 8) 8);
    Z.to_euclidean_division_equations; lia.
Qed.

Lemma page_fuel_val : Z.of_nat page_fuel = ARENA_PAGES.
Proof. unfold page_fuel. by apply Z2Nat.id. Qed.
#[local] Opaque page_fuel.

Section whole.
Context {M : Type} `{HeapLaws M}.
Implicit Types (m : M) (pool : KE_POOL) (pg : KE_POOL_PREPARED_PAGE).

(** Every page of a detached list goes back to the heap. *)
Lemma free_list_run fuel m cur ps : heap_ok m -> chain m cur ps -> (forall p, p ∈ ps -> (p, 1) ∈ live m) ->
  NoDup ps -> (length ps <= fuel)%nat ->
  exists m', free_pages fuel cur m = Ok m' /\ heap_ok m' /\
    Permutation (live m) (map (fun p => (p, 1)) ps ++ live m') /\ agree (live_word (live m')) m m'.
Proof.
  revert m cur fuel. induction ps as [|p ps IH]; intros m cur fuel Hm Hc Hl Hn Hf.
  { simpl in Hc. subst cur. exists m. destruct fuel; split_and!; try done. }
  destruct Hc as (-> & Hp0 & n & Hload & Hc). destruct fuel as [|fuel]; [simpl in Hf; lia|].
  apply NoDup_cons in Hn as [Hfresh Hn]. assert (Hp : (p, 1) ∈ live m) by (apply Hl; by left).
  pose proof (live_bounds m _ Hm Hp) as (_ & Hal & _). simpl in Hal.
  assert (Hp8 : p mod 8 = 0) by (unfold PAGE_4KB in Hal; Z.to_euclidean_division_equations; lia).
  simpl. rewrite (proj2 (Z.eqb_neq p 0) Hp0), (load_some m p n) by done. cbn [res_bind].
  destruct (free_law m p 1 Hm Hp) as (m1 & -> & Hm1 & Hperm & Hag). cbn [HO_KASSERT].
  rewrite bool_decide_true by done. cbn [HO_KASSERT res_bind].
  assert (Hl1 : forall q, q ∈ ps -> (q, 1) ∈ live m1).
  { intros q Hq. assert (Hin : (q, 1) ∈ live m) by (apply Hl; by right).
    rewrite Hperm in Hin. apply elem_of_cons in Hin as [E|Hin]; [|done]. injection E as ->. done. }
  destruct (IH m1 n fuel Hm1) as (m2 & E & Hm2 & Hperm2 & Hag2); [| done | done | simpl in Hf; lia |].
  { eapply chain_agree; [|exact Hc]. eapply agree_weaken; [|exact Hag]. intros a Ha.
    pose proof (live_bounds m1 _ Hm1 (Hl1 a Ha)) as (_ & Hal' & _). simpl in Hal'. split.
    - unfold PAGE_4KB in Hal'. Z.to_euclidean_division_equations. lia.
    - exists (a, 1). split; [by apply Hl1|]. unfold in_block, PAGE_4KB. simpl. lia. }
  exists m2. split; [done|]. split; [done|]. split.
  - simpl. by rewrite Hperm, Hperm2.
  - eapply agree_trans; [|exact Hag|exact Hag2]. intros a (H8 & b & Hb & Hin). split; [done|].
    exists b. split; [|done]. rewrite Hperm2. apply elem_of_app. by right.
Qed.

Lemma fuel_enough pool m F U pages prep : wf pool m F U pages prep -> (length pages <= page_fuel)%nat.
Proof. intros W. pose proof (few_pages pool m F U pages prep W). pose proof page_fuel_val. lia. Qed.

(** [KePoolDestroy] with nothing handed out. *)
Lemma destroy_run pool m F pages prep : wf pool m F [] pages prep -> Magic pool = KE_POOL_MAGIC_ALIVE ->
  exists m', KePoolDestroy pool m = Ok (EC_SUCCESS, poisoned, m') /\ heap_ok m' /\
    Permutation (live m) (map (fun p => (p, 1)) pages ++ live m') /\ agree (live_word (live m')) m m'.
Proof.
  intros W HM. pose proof (fuel_enough pool m F [] pages prep W) as Hfew.
  unfold KePoolDestroy. rewrite HM, Z.eqb_refl. cbn [negb].
  rewrite (wf_used _ _ _ _ _ _ W). cbn [length Z.of_nat Z.eqb negb].
  destruct (free_list_run page_fuel m (PageList pool) pages) as (m' & -> & R); try (by destruct W).
  - intros p Hp. apply (wf_live _ _ _ _ _ _ W), elem_of_app. by left.
  - pose proof (wf_nodup _ _ _ _ _ _ W) as Hn. by apply NoDup_app in Hn as [Hn _].
  - exists m'. done.
Qed.

Lemma publish_run pool m F U pages pg prep : wf pool m F U pages (pg :: prep) ->
  exists pool' m', KiPoolPublishPreparedPage pool pg m = Ok (pool', m') /\
    wf pool' m' (rev (slots (SlotSize pool) (BaseVirt pg)) ++ F) U (BaseVirt pg :: pages) prep /\
    live m' = live m /\ SlotSize pool' = SlotSize pool /\ Magic pool' = Magic pool /\
    FailedGrows pool' = FailedGrows pool /\ agree (user_word (SlotSize pool) U) m m' /\
    agree (fun a => live_word (live m) a /\ ~ in_block (BaseVirt pg, 1) a) m m'.
Proof.
  intros W. destruct (splice_run pool m F U pages pg prep W) as (pool' & m' & E1 & E2 & R1 & R2 & R3 & R4 & R5 & R6 & R7).
  exists pool', m'. unfold KiPoolPublishPreparedPage. rewrite E1. cbn [res_bind]. done.
Qed.

Lemma publish_pop_run pool m F U pages pg prep : Magic pool = KE_POOL_MAGIC_ALIVE ->
  wf pool m F U pages (pg :: prep) ->
  exists x pool' m' F', KiPoolPublishPreparedPageAndPop pool pg m = Ok (x, pool', m') /\ x <> 0 /\
    rev (slots (SlotSize pool) (BaseVirt pg)) ++ F = x :: F' /\
    wf pool' m' F' (x :: U) (BaseVirt pg :: pages) prep /\
    live m' = live m /\ SlotSize pool' = SlotSize pool /\ Magic pool' = Magic pool /\
    FailedGrows pool' = FailedGrows pool /\ agree (user_word (SlotSize pool) U) m m' /\
    agree (fun a => live_word (live m) a /\ ~ in_block (BaseVirt pg, 1) a) m m'.
Proof.
  intros HM W. destruct (splice_run pool m F U pages pg prep W) as (p1 & m1 & E1 & E2 & W1 & R2 & R3 & R4 & R5 & R6 & R7).
  unfold KiPoolPublishPreparedPageAndPop. rewrite E1, HM, Z.eqb_refl. cbn [negb res_bind]. rewrite E2. cbn [res_bind].
  destruct (slots_first (SlotSize pool) (BaseVirt pg) (wf_geom _ _ _ _ _ _ W)) as (r & Er).
  destruct (rev (slots (SlotSize pool) (BaseVirt pg)) ++ F) as [|x F'] eqn:EF.
  { rewrite Er in EF. cbn [rev] in EF. destruct (rev r); discriminate. }
  pose proof (wf_free _ _ _ _ _ _ W1) as (Hx & Hx0 & _). rewrite Hx.
  destruct (Z.eqb_spec x 0); [done|]. cbn [negb HO_KASSERT res_bind].
  destruct (pop_run p1 m1 (x :: F') U _ prep W1 x F' eq_refl) as (p2 & E3 & W2 & S1 & S2 & S3).
  exists x, p2, m1, F'. rewrite E3. split_and!; try done; congruence.
Qed.

Lemma orphan_run pool m pg : assert_prepared pg = Ok tt -> Magic pool <> KE_POOL_MAGIC_ALIVE ->
  heap_ok m -> (BaseVirt pg, 1) ∈ live m ->
  exists m', KiPoolPublishPreparedPageAndPop pool pg m = Ok (0, pool, m') /\ heap_ok m' /\
    Permutation (live m) ((BaseVirt pg, 1) :: live m') /\ agree (live_word (live m')) m m'.
Proof.
  intros E HM Hm Hin. unfold KiPoolPublishPreparedPageAndPop. rewrite E. cbn [res_bind].
  rewrite (proj2 (Z.eqb_neq _ _) HM). cbn [negb].
  destruct (free_law m (BaseVirt pg) 1 Hm Hin) as (m' & -> & R). exists m'.
  rewrite bool_decide_true by done. done.
Qed.

(** Clearing a slot that is handed out. *)
Lemma clear_run pool m F U pages prep x : wf pool m F (x :: U) pages prep ->
  exists m', memset0 x (SlotSize pool) m = Ok m' /\ wf pool m' F (x :: U) pages prep /\ live m' = live m /\
    (forall a, x <= a < x + SlotSize pool -> a mod 8 = 0 -> load_word a m' = Some 0) /\
    agree (fun a => live_word (live m) a /\ ~ (x <= a < x + SlotSize pool)) m m' /\
    agree (user_word (SlotSize pool) U) m m'.
Proof.
  intros W. pose proof (wf_geom _ _ _ _ _ _ W) as Hg. pose proof Hg as (G1 & G2 & _).
  assert (HxU : x ∈ F \/ x ∈ x :: U) by (right; by left).
  pose proof (slot_aligned pool m F _ pages prep W x HxU) as Hx8.
  destruct (slot_word pool m F _ pages prep W x x HxU) as (_ & Hx0 & Hx64); [lia | done |].
  destruct (memset0_ok m x (SlotSize pool)) as (m' & E & A1 & A2 & A3 & A4); try done; try lia.
  { apply (wf_heap _ _ _ _ _ _ W). }
  { intros a Ha H8. by apply (slot_word pool m F _ pages prep W x a). }
  exists m'. split; [done|]. split; [|split; [done|split; [done|split; [done|]]]].
  - eapply wf_stable; [exact W | done | |].
    + intros p Hp. rewrite A2. by apply (wf_live _ _ _ _ _ _ W).
    + intros a Ha. apply A4. split; [by apply (tracked_live pool m F (x :: U) pages prep W)|].
      intros Hin. by apply (user_untracked pool m F (x :: U) pages prep W x a (list_elem_of_here _ _)).
  - intros a (H8 & y & Hy & Hr). apply A4. split.
    + apply (slot_word pool m F _ pages prep W y a); [right; by right | done..].
    + intros Hin. assert (Hy' : y ∈ F \/ y ∈ x :: U) by (right; by right).
      assert (Hdis : x = y).
      { destruct (slot_page pool m F _ pages prep W x HxU) as (p & Hp & Hxs).
        destruct (slot_page pool m F _ pages prep W y Hy') as (q & Hq & Hys).
        assert (Hpa : p mod PAGE_4KB = 0) by (apply (page_aligned pool m F _ pages prep W), elem_of_app; by left).
        assert (Hqa : q mod PAGE_4KB = 0) by (apply (page_aligned pool m F _ pages prep W), elem_of_app; by left).
        destruct (Z.le_gt_cases x y) as [Hle|Hgt].
        - apply (page_of_slot _ p q x y Hg Hpa Hqa Hxs Hys). lia.
        - symmetry. apply (page_of_slot _ q p y x Hg Hqa Hpa Hys Hxs). lia. }
      subst y. pose proof (slots_distinct pool m F _ pages prep W) as Hn.
      apply NoDup_app in Hn as (_ & _ & Hn). by apply NoDup_cons in Hn as [Hn _].
Qed.
End whole.

(** ** Initialisation and allocation *)

Section calls.
Context {M : Type} `{HeapLaws M}.
Implicit Types (m : M) (pool : KE_POOL) (pg : KE_POOL_PREPARED_PAGE).

(** A pool in use. *)
Definition alive pool m (F U pages : list Z) (prep : list KE_POOL_PREPARED_PAGE) : Prop :=
  Magic pool = KE_POOL_MAGIC_ALIVE /\ wf pool m F U pages prep.

(** A word of an old block is not in a new one. *)
Lemma old_word m m' b a : heap_ok m' -> Permutation (live m') (b :: live m) -> live_word (live m) a ->
  live_word (live m') a /\ ~ in_block b a.
Proof.
  intros Hm' Hl (H8 & c & Hc & Hin). split.
  - split; [done|]. exists c. rewrite Hl. split; [by right | done].
  - intros Hb. assert (c = b) as ->.
    { eapply (live_disjoint m'); [done | | | exact Hin | exact Hb]; rewrite Hl; [by right | by left]. }
    pose proof (live_nodup m' Hm') as Hn. rewrite Hl in Hn. by apply NoDup_cons in Hn as [Hn _].
Qed.

(** Growing by one page, as the initialisation does it. *)
Lemma grow_run pool m F pages : wf pool m F [] pages [] ->
  exists st pg m1, KiPoolPrepareOnePage (SlotSize pool) m = Ok (st, pg, m1) /\ heap_ok m1 /\
    agree (live_word (live m)) m m1 /\
    (if decide (st = EC_SUCCESS)
     then exists pool2 m2 F2, KiPoolPublishPreparedPage pool pg m1 = Ok (pool2, m2) /\
            wf pool2 m2 F2 [] (BaseVirt pg :: pages) [] /\ Permutation (live m2) ((BaseVirt pg, 1) :: live m) /\
            agree (live_word (live m)) m m2 /\
            SlotSize pool2 = SlotSize pool /\ FailedGrows pool2 = FailedGrows pool
     else live m1 = live m).
Proof.
  intros W. destruct (prepare_run (SlotSize pool) m (wf_heap _ _ _ _ _ _ W) (wf_geom _ _ _ _ _ _ W))
    as (st & pg & m1 & E & Hm1 & Hag & Hst). exists st, pg, m1. split_and!; [done..|].
  destruct (decide (st = EC_SUCCESS)) as [->|Hne]; [|done]. destruct Hst as [Hp Hl].
  pose proof (wf_prepared pool m F [] pages [] W pg m1 Hm1 Hag Hp Hl) as W1.
  destruct (publish_run pool m1 F [] pages pg [] W1) as (pool2 & m2 & E2 & W2 & L2 & S2 & _ & F2 & _ & A2).
  exists pool2, m2. eexists. split_and!; [done | exact W2 | congruence | | done | done].
  eapply agree_trans; [|exact Hag|]; [done|]. eapply agree_weaken; [|exact A2].
  intros a Ha. by apply (old_word m m1).
Qed.

Lemma live_word_sub bs bs' a : (forall b, b ∈ bs -> b ∈ bs') -> live_word bs a -> live_word bs' a.
Proof. intros Hs (H8 & b & Hb & Hin). split; [done|]. eauto. Qed.

Lemma init_pages_run n pool m F pages : wf pool m F [] pages [] ->
  exists st pool' m', init_pages n (SlotSize pool) pool m = Ok (st, pool', m') /\
    (if decide (st = EC_SUCCESS)
     then agree (live_word (live m)) m m' /\ SlotSize pool' = SlotSize pool /\
          exists F' new, wf pool' m' F' [] (new ++ pages) [] /\ length new = n /\
            Permutation (live m') (map (fun p => (p, 1)) new ++ live m)
     else Magic pool' = 0 /\ heap_ok m' /\
          Permutation (live m) (map (fun p => (p, 1)) pages ++ live m') /\
          agree (live_word (live m')) m m').
Proof.
  revert pool m F pages. induction n as [|n IH]; intros pool m F pages W.
  { exists EC_SUCCESS, pool, m. split; [done|]. rewrite decide_True by done.
    split_and!; try done. by exists F, []. }
  cbn [init_pages]. destruct (grow_run pool m F pages W) as (st & pg & m1 & -> & Hm1 & Hag & Hst).
  cbn [res_bind]. destruct (decide (st = EC_SUCCESS)) as [->|Hne].
  - destruct Hst as (pool2 & m2 & F2 & -> & W2 & L2 & A2 & S2 & _). cbn [res_bind].
    destruct (IH pool2 m2 _ _ W2) as (st & pool3 & m3 & E & R). rewrite S2 in E. rewrite E. exists st, pool3, m3. split; [done|].
    destruct (decide (st = EC_SUCCESS)).
    + destruct R as (R1 & R2 & F' & new & R3 & R4 & R5). split; [|split; [congruence|]].
      * eapply agree_trans; [|exact A2|]; [done|]. eapply agree_weaken; [|exact R1].
        intros a. apply live_word_sub. intros b Hb. rewrite L2. by right.
      * exists F', (new ++ [BaseVirt pg]). split_and!.
        -- by rewrite <- app_assoc.
        -- rewrite length_app. simpl. lia.
        -- by rewrite R5, L2, map_app, <- app_assoc.
    + destruct R as (R1 & R2 & R3 & R4). split; [done|]. split; [done|].
      rewrite L2 in R3. cbn [map app] in R3. apply Permutation_cons_inv in R3. split; [done|].
      eapply agree_trans; [|exact A2|exact R4].
      intros a. apply live_word_sub. intros b Hb. rewrite R3. apply elem_of_app. by right.
  - assert (W1 : wf pool m1 F [] pages []).
    { eapply wf_stable; [exact W | done | |].
      - intros p Hp. rewrite Hst. by apply (wf_live _ _ _ _ _ _ W).
      - eapply agree_weaken; [|exact Hag]. apply (tracked_live pool m F [] pages [] W). }
    pose proof (fuel_enough pool m1 F [] pages [] W1) as Hfew.
    destruct (free_list_run page_fuel m1 (PageList pool) pages) as (m2 & -> & R1 & R2 & R3); [by destruct W1..| | | |].
    + intros p Hp. apply (wf_live _ _ _ _ _ _ W1), elem_of_app. by left.
    + pose proof (wf_nodup _ _ _ _ _ _ W1) as Hn. by apply NoDup_app in Hn as [Hn _].
    + done.
    + cbn [res_bind]. eexists st, _, m2. split; [done|]. rewrite decide_False by done.
      rewrite Hst in R2. split_and!; try done. eapply agree_trans; [|exact Hag|exact R3].
      intros a. apply live_word_sub. intros b Hb. rewrite R2. apply elem_of_app. by right.
Qed.

(** [KePoolInit] on any structure and any arguments. *)
Lemma pool_init_run pool os cap m : heap_ok m -> is_u64 os -> is_u32 cap ->
  exists st pool' m', KePoolInit pool os cap m = Ok (st, pool', m') /\
    (if decide (st = EC_SUCCESS)
     then exists F pages, alive pool' m' F [] pages [] /\ pages <> [] /\
          Permutation (live m') (map (fun p => (p, 1)) pages ++ live m) /\ agree (live_word (live m)) m m' /\
          (os <= 2 ^ 64 - 8 -> os <= SlotSize pool') /\
          (cap + 511 < 2 ^ 32 -> cap <= TotalSlots pool')
     else Magic pool' = 0 /\ heap_ok m' /\ Permutation (live m) (live m') /\
          agree (live_word (live m)) m m').
Proof.
  intros Hm Hos Hcap. unfold KePoolInit. pose proof (slot_size_range os Hos) as (S1 & S2 & S3).
  set (ss := slot_size_of os) in *.
  destruct (Z.leb_spec PAGE_4KB (header_size ss)) as [|Hh].
  { eexists _, _, m. split; [done|]. rewrite decide_False by done. done. }
  fold (slots_per_page ss). destruct (Z.eqb_spec (u32 (slots_per_page ss)) 0) as [|Hn].
  { eexists _, _, m. split; [done|]. rewrite decide_False by done. done. }
  pose proof (geometry_intro ss S1 S2 Hh Hn) as Hg. pose proof Hg as (_ & _ & _ & _ & Hsp & _).
  rewrite (u32_small (slots_per_page ss)) by word_lia.
  set (p0 := Build_KE_POOL _ _ _ _ _ _ _ _ _ _).
  assert (W0 : wf p0 m [] [] [] []).
  { constructor; cbn; try done; try apply NoDup_nil_2; try lia. by intros p Hp%not_elem_of_nil. }
  set (np := u32 (cap + slots_per_page ss - 1) / slots_per_page ss).
  destruct (init_pages_run (Z.to_nat (if np =? 0 then 1 else np)) p0 m [] [] W0) as (st & p1 & m1 & E & R).
  change (SlotSize p0) with ss in *. rewrite E. cbn [res_bind].
  destruct (decide (st = EC_SUCCESS)) as [->|Hne].
  - destruct R as (R1 & R2 & F & new & R3 & R4 & R5). rewrite app_nil_r in R3.
    eexists _, _, m1. split; [done|]. rewrite decide_True by done. exists F, new.
    assert (Hnp : 0 <= np) by (apply Z.div_pos; [apply u32_range | lia]).
    split; [split; [done | by destruct R3]|]. split_and!.
    + intros ->. simpl in R4. destruct (Z.eqb_spec np 0); lia.
    + done.
    + done.
    + cbn. by rewrite R2.
    + cbn. intros Hc. rewrite (wf_total _ _ _ _ _ _ R3), R2, R4. fold ss.
      assert (Hu : u32 (cap + slots_per_page ss - 1) = cap + slots_per_page ss - 1).
      { apply u32_small. unfold is_u32 in *. destruct (decide (cap = 0)); lia. }
      rewrite Z2Nat.id by (destruct (Z.eqb_spec np 0); lia).
      assert (cap <= np * slots_per_page ss).
      { unfold np. rewrite Hu. pose proof (Z.div_mod (cap + slots_per_page ss - 1) (slots_per_page ss) ltac:(lia)).
        pose proof (Z.mod_pos_bound (cap + slots_per_page ss - 1) (slots_per_page ss) ltac:(lia)). lia. }
      destruct (Z.eqb_spec np 0); nia.
  - destruct R as (R1 & R2 & R3 & R4). eexists st, _, m1. split; [done|]. rewrite decide_False by done.
    split_and!; try done. eapply agree_weaken; [|exact R4]. intros a. apply live_word_sub.
    intros b. by rewrite R3.
Qed.

Lemma clear_popped pool m F U pages prep x : wf pool m F (x :: U) pages prep -> Magic pool = KE_POOL_MAGIC_ALIVE ->
  exists m', (let* m' := memset0 x (SlotSize pool) m in Ok (x, pool, m')) = Ok (x, pool, m') /\
    alive pool m' F (x :: U) pages prep /\
    (forall a, x <= a < x + SlotSize pool -> a mod 8 = 0 -> load_word a m' = Some 0) /\
    agree (user_word (SlotSize pool) U) m m'.
Proof.
  intros W HM. destruct (clear_run pool m F U pages prep x W) as (m' & E & W' & _ & Z1 & _ & A1).
  exists m'. rewrite E. split; [done|]. split; [|done]. by split.
Qed.

(** [KePoolAlloc] on a pool in use. *)
Lemma alloc_run pool m F U pages prep : alive pool m F U pages prep ->
  exists node pool' m', KePoolAlloc pool m = Ok (node, pool', m') /\
    ((node <> 0 /\ SlotSize pool' = SlotSize pool /\
      (exists F' pages', alive pool' m' F' (node :: U) pages' prep) /\
      (forall a, node <= a < node + SlotSize pool -> a mod 8 = 0 -> load_word a m' = Some 0) /\
      agree (user_word (SlotSize pool) U) m m')
     \/ (node = 0 /\ F = [] /\ pool' = count_failed_grow pool /\ live m' = live m /\
         alive pool' m' [] U pages prep /\ agree (live_word (live m)) m m')).
Proof.
  intros [HM W]. unfold KePoolAlloc, KiPoolTryPopNode. rewrite HM, Z.eqb_refl. cbn [negb].
  destruct F as [|x F].
  - pose proof (wf_free _ _ _ _ _ _ W) as Hfl. simpl in Hfl. rewrite Hfl, Z.eqb_refl. cbn [res_bind].
    rewrite Z.eqb_refl, HM, Z.eqb_refl. cbn [negb orb].
    pose proof (wf_geom _ _ _ _ _ _ W) as Hg. destruct (Z.eqb_spec (SlotSize pool) 0); [destruct Hg; lia|].
    destruct (prepare_run (SlotSize pool) m (wf_heap _ _ _ _ _ _ W) Hg) as (st & pg & m1 & -> & Hm1 & Hag & Hst).
    cbn [res_bind]. destruct (decide (st = EC_SUCCESS)) as [->|Hne].
    + destruct Hst as [Hp Hl]. pose proof (wf_prepared pool m [] U pages prep W pg m1 Hm1 Hag Hp Hl) as W1.
      destruct (publish_pop_run pool m1 [] U pages pg prep HM W1) as (y & p2 & m2 & F2 & -> & Hy & _ & W2 & _ & S2 & M2 & _ & A2 & _).
      cbn [res_bind]. destruct (Z.eqb_spec y 0); [done|].
      destruct (clear_popped p2 m2 F2 U _ prep y W2) as (m3 & E3 & W3 & Z3 & A3); [congruence|].
      exists y, p2, m3. split; [done|]. left. split; [done|]. split; [done|]. split; [by eauto|].
      rewrite S2 in Z3, A3. split; [done|]. eapply agree_trans; [done | | exact A3].
      eapply agree_trans; [done | | exact A2]. eapply agree_weaken; [|exact Hag].
      intros a (H8 & z & Hz & Hr). apply (slot_word pool m [] U pages prep W z a); [by right | done..].
    + exists 0, (count_failed_grow pool), m1. split; [done|]. right.
      repeat (split; [done|]). split; [split|done].
      * unfold count_failed_grow. by rewrite HM, Z.eqb_refl.
      * apply failed_grow_run. eapply wf_stable; [exact W | done | |].
        -- intros p Hp. rewrite Hst. by apply (wf_live _ _ _ _ _ _ W).
        -- eapply agree_weaken; [|exact Hag]. apply (tracked_live pool m [] U pages prep W).
  - pose proof (wf_free _ _ _ _ _ _ W) as (Hfl & Hx0 & _). rewrite Hfl.
    destruct (Z.eqb_spec x 0); [done|].
    destruct (pop_run pool m (x :: F) U pages prep W x F eq_refl) as (p2 & -> & W2 & S2 & M2 & _).
    cbn [res_bind]. destruct (Z.eqb_spec x 0); [done|].
    destruct (clear_popped p2 m F U pages prep x W2) as (m3 & E3 & W3 & Z3 & A3); [congruence|].
    exists x, p2, m3. split; [done|]. left. rewrite S2 in Z3, A3. split_and!; eauto.
Qed.

(** ** Interleaving

    [sPrep] are the pages some thread is preparing, [sHeld] the slots handed
    out, [sSize] the slot size of the pool (a thread may still hold it after
    the pool was destroyed).  Every rule is one critical section, or code that
    runs on memory its thread owns. *)

Record POOL_WORLD : Type := {
  sPool : KE_POOL;
  sMem : M;
  sPrep : list KE_POOL_PREPARED_PAGE;
  sHeld : list Z;
  sSize : Z;
}.

Inductive pool_step : POOL_WORLD -> POOL_WORLD -> Prop :=
| step_try_pop pool m prep held ss node pool' m' :
    KiPoolTryPopNode pool m = Ok (node, pool', m') ->
    pool_step (Build_POOL_WORLD pool m prep held ss)
              (Build_POOL_WORLD pool' m' prep (if node =? 0 then held else node :: held) ss)
| step_prepare pool m prep held ss page m' :
    KiPoolPrepareOnePage ss m = Ok (EC_SUCCESS, page, m') ->
    pool_step (Build_POOL_WORLD pool m prep held ss) (Build_POOL_WORLD pool m' (page :: prep) held ss)
| step_prepare_failed pool m prep held ss st page m' :
    KiPoolPrepareOnePage ss m = Ok (st, page, m') -> st <> EC_SUCCESS ->
    pool_step (Build_POOL_WORLD pool m prep held ss) (Build_POOL_WORLD (count_failed_grow pool) m' prep held ss)
| step_publish_and_pop pool m prep prep' held ss page node pool' m' :
    Permutation prep (page :: prep') ->
    KiPoolPublishPreparedPageAndPop pool page m = Ok (node, pool', m') ->
    pool_step (Build_POOL_WORLD pool m prep held ss)
              (Build_POOL_WORLD pool' m' prep' (if node =? 0 then held else node :: held) ss)
| step_clear pool m prep held ss node m' :
    node ∈ held -> memset0 node (SlotSize pool) m = Ok m' ->
    pool_step (Build_POOL_WORLD pool m prep held ss) (Build_POOL_WORLD pool m' prep held ss)
| step_use pool m prep held ss node a v m' :
    node ∈ held -> node <= a < node + ss -> a mod 8 = 0 -> store a v m = Ok m' ->
    pool_step (Build_POOL_WORLD pool m prep held ss) (Build_POOL_WORLD pool m' prep held ss)
| step_free pool m prep held held' ss node pool' m' :
    Permutation held (node :: held') -> KePoolFree pool node m = Ok (pool', m') ->
    pool_step (Build_POOL_WORLD pool m prep held ss) (Build_POOL_WORLD pool' m' prep held' ss)
| step_destroy pool m prep held ss st pool' m' :
    KePoolDestroy pool m = Ok (st, pool', m') ->
    pool_step (Build_POOL_WORLD pool m prep held ss) (Build_POOL_WORLD pool' m' prep held ss).

(** The pool is in use, or has been destroyed with nothing handed out and
    prepared pages still to be given back. *)
Definition pool_inv (w : POOL_WORLD) : Prop :=
  (exists F pages, alive (sPool w) (sMem w) F (sHeld w) pages (sPrep w) /\ SlotSize (sPool w) = sSize w)
  \/ (sPool w = poisoned /\ sHeld w = [] /\ heap_ok (sMem w) /\ geometry (sSize w) /\
      NoDup (map BaseVirt (sPrep w)) /\
      Forall (fun pg => assert_prepared pg = Ok tt /\ (BaseVirt pg, 1) ∈ live (sMem w)) (sPrep w)).

Lemma prepared_asserts ss m pg : geometry ss -> 0 < BaseVirt pg -> prepared ss m pg -> assert_prepared pg = Ok tt.
Proof.
  intros Hg Hb (P1 & P2 & P3). destruct (slots_first ss (BaseVirt pg) Hg) as (r & Er).
  destruct Hg as (_ & _ & G3 & _ & G5 & _).
  assert (Head pg <> 0).
  { rewrite Er in P3. cbn [rev] in P3. destruct (rev r); destruct P3 as (-> & ? & _); done. }
  unfold assert_prepared. rewrite P2, P1.
  rewrite (proj2 (Z.eqb_neq _ _)) by done. cbn.
  rewrite (proj2 (Z.eqb_neq _ _)) by lia. cbn. by rewrite (proj2 (Z.eqb_neq _ _)) by lia.
Qed.

Lemma inv_heap w : pool_inv w -> heap_ok (sMem w) /\ geometry (sSize w).
Proof. intros [(F & pages & [_ W] & <-)|(_ & _ & H1 & H2 & _)]; [by destruct W | done]. Qed.

(** Memory changes of a thread that is not touching the pool's words. *)
Lemma inv_prepare_failed w st pg m' : pool_inv w ->
  KiPoolPrepareOnePage (sSize w) (sMem w) = Ok (st, pg, m') -> st <> EC_SUCCESS ->
  pool_inv {| sPool := count_failed_grow (sPool w); sMem := m'; sPrep := sPrep w; sHeld := sHeld w; sSize := sSize w |}.
Proof.
  intros Hi E Hne. destruct (inv_heap w Hi) as [Hm Hg].
  destruct (prepare_run (sSize w) (sMem w) Hm Hg) as (st' & pg' & m1 & E' & Hm1 & Hag & Hst).
  rewrite E in E'. injection E' as <- <- <-. rewrite decide_False in Hst by done.
  destruct Hi as [(F & pages & [HM W] & Hs)|(Hp & Hh & H1 & H2 & H3 & H4)].
  - left. exists F, pages. cbn. split; [split|].
    + unfold count_failed_grow. by rewrite HM, Z.eqb_refl.
    + apply failed_grow_run. eapply wf_stable; [exact W | done | |].
      * intros p Hp. rewrite Hst. by apply (wf_live _ _ _ _ _ _ W).
      * eapply agree_weaken; [|exact Hag]. apply (tracked_live _ _ _ _ _ _ W).
    + unfold count_failed_grow. by rewrite HM, Z.eqb_refl.
  - right. cbn. rewrite Hp. split_and!; try done. by rewrite Hst.
Qed.

Lemma inv_prepare w pg m' : pool_inv w -> KiPoolPrepareOnePage (sSize w) (sMem w) = Ok (EC_SUCCESS, pg, m') ->
  pool_inv {| sPool := sPool w; sMem := m'; sPrep := pg :: sPrep w; sHeld := sHeld w; sSize := sSize w |}.
Proof.
  intros Hi E. destruct (inv_heap w Hi) as [Hm Hg].
  destruct (prepare_run (sSize w) (sMem w) Hm Hg) as (st' & pg' & m1 & E' & Hm1 & Hag & Hst).
  rewrite E in E'. injection E' as <- <- <-. rewrite decide_True in Hst by done. destruct Hst as [Hp Hl].
  destruct Hi as [(F & pages & [HM W] & Hs)|(Hp0 & Hh & H1 & H2 & H3 & H4)].
  - left. exists F, pages. cbn. split; [split; [done|]|done].
    eapply wf_prepared; [exact W | done | done | by rewrite Hs | done].
  - right. cbn. pose proof (live_nodup m' Hm1) as Hn. rewrite Hl in Hn. apply NoDup_cons in Hn as [Hn _].
    split_and!; try done.
    + constructor; [|done]. intros (q & Eq & Hq)%list_elem_of_In%in_map_iff.
      rewrite Forall_forall in H4. apply Hn. rewrite <- Eq. by apply H4, list_elem_of_In.
    + constructor.
      * split; [|rewrite Hl; by left]. apply (prepared_asserts (sSize w) m'); [done | | done].
        apply (live_bounds m' (BaseVirt pg, 1) Hm1). rewrite Hl. by left.
      * eapply Forall_impl; [exact H4|]. intros q [Q1 Q2]. split; [done|]. rewrite Hl. by right.
Qed.

Lemma inv_dead_destroy m' pool m F pages prep ss : wf pool m F [] pages prep ->
  SlotSize pool = ss -> heap_ok m' ->
  Permutation (live m) (map (fun p => (p, 1)) pages ++ live m') ->
  pool_inv {| sPool := poisoned; sMem := m'; sPrep := prep; sHeld := []; sSize := ss |}.
Proof.
  intros W <- Hm' Hp. right. cbn. pose proof (wf_nodup _ _ _ _ _ _ W) as Hnd.
  split_and!; try done.
  - by destruct W.
  - by apply NoDup_app in Hnd as (_ & _ & Hnd).
  - pose proof (wf_prep _ _ _ _ _ _ W) as Hprep. rewrite Forall_forall in *. intros pg Hpg.
    assert (Hb : BaseVirt pg ∈ map BaseVirt prep) by (by apply list_elem_of_In, in_map, list_elem_of_In).
    assert (Hb' : BaseVirt pg ∈ pages ++ map BaseVirt prep) by (apply elem_of_app; by right). split.
    + apply (prepared_asserts (SlotSize pool) m); [by destruct W | | by apply Hprep].
      by apply (page_aligned pool m F [] pages prep W).
    + pose proof (wf_live _ _ _ _ _ _ W _ Hb') as Hin. rewrite Hp in Hin.
      apply elem_of_app in Hin as [Hin|Hin]; [|done]. exfalso.
      apply list_elem_of_In, in_map_iff in Hin as (p & E & Hin). injection E as ->.
      apply NoDup_app in Hnd as (_ & Hnd & _). by apply (Hnd (BaseVirt pg)); [apply list_elem_of_In|].
Qed.

Lemma alive_magic pool m F U pages prep : alive pool m F U pages prep -> (Magic pool =? KE_POOL_MAGIC_ALIVE) = true.
Proof. intros [-> _]. apply Z.eqb_refl. Qed.

(** The pop of the interleaved semantics. *)
Lemma try_pop_run pool m F U pages prep : alive pool m F U pages prep ->
  exists node pool' F', KiPoolTryPopNode pool m = Ok (node, pool', m) /\
    alive pool' m F' (if node =? 0 then U else node :: U) pages prep /\ SlotSize pool' = SlotSize pool.
Proof.
  intros Ha. pose proof Ha as [HM W]. unfold KiPoolTryPopNode. rewrite (alive_magic _ _ _ _ _ _ Ha). cbn [negb].
  destruct F as [|x F].
  - pose proof (wf_free _ _ _ _ _ _ W) as Hf. simpl in Hf. rewrite Hf, Z.eqb_refl. by exists 0, pool, [].
  - pose proof (wf_free _ _ _ _ _ _ W) as (Hf & Hx & _). rewrite Hf, (proj2 (Z.eqb_neq x 0)) by done.
    destruct (pop_run pool m (x :: F) U pages prep W x F eq_refl) as (p2 & -> & W2 & S2 & M2 & _).
    exists x, p2, F. rewrite (proj2 (Z.eqb_neq x 0)) by done. split; [done|]. split; [|done]. split; [congruence | done].
Qed.

Lemma use_run pool m F U pages prep node a v : wf pool m F U pages prep -> node ∈ U ->
  node <= a < node + SlotSize pool -> a mod 8 = 0 ->
  exists m', store a v m = Ok m' /\ wf pool m' F U pages prep.
Proof.
  intros W Hn Ha H8. destruct (wf_untracked pool m F U pages prep W a v) as (m' & E & W' & _); eauto.
  - by apply (slot_word pool m F U pages prep W node a); [right|..].
  - by apply (user_untracked pool m F U pages prep W node a).
Qed.

(** What a destroy attempt does in either state of the pool. *)
Lemma destroy_step w : pool_inv w ->
  exists st pool' m', KePoolDestroy (sPool w) (sMem w) = Ok (st, pool', m') /\
    (st = EC_SUCCESS <-> Magic (sPool w) = KE_POOL_MAGIC_ALIVE /\ sHeld w = []) /\
    pool_inv {| sPool := pool'; sMem := m'; sPrep := sPrep w; sHeld := sHeld w; sSize := sSize w |}.
Proof.
  intros Hi. pose proof Hi as [(F & pages & Ha & Hs)|(Hp & Hh & Hr)].
  - pose proof Ha as [HM W]. destruct (sHeld w) as [|x U] eqn:EU.
    + destruct (destroy_run _ _ F pages _ W HM) as (m' & E & R1 & R2 & R3). eexists _, _, m'. split; [done|].
      split; [done|]. by eapply inv_dead_destroy.
    + exists EC_INVALID_STATE, (sPool w), (sMem w). unfold KePoolDestroy. rewrite HM, Z.eqb_refl. cbn [negb].
      rewrite (wf_used _ _ _ _ _ _ W). cbn [length]. rewrite (proj2 (Z.eqb_neq _ 0)) by lia.
      split; [done|]. split; [split; [done | by intros []]|]. left. exists F, pages. done.
  - exists EC_INVALID_STATE, (sPool w), (sMem w). unfold KePoolDestroy. rewrite Hp. cbn.
    split; [done|]. split; [split; [done | by intros []]|]. right. cbn. rewrite Hh. by destruct Hr.
Qed.

Lemma publish_step w pg prep' : pool_inv w -> Permutation (sPrep w) (pg :: prep') ->
  exists node pool' m', KiPoolPublishPreparedPageAndPop (sPool w) pg (sMem w) = Ok (node, pool', m') /\
    pool_inv {| sPool := pool'; sMem := m'; sPrep := prep';
                sHeld := if node =? 0 then sHeld w else node :: sHeld w; sSize := sSize w |}.
Proof.
  intros Hi Hperm. destruct Hi as [(F & pages & [HM W] & Hs)|(Hp & Hh & H1 & H2 & H3 & H4)].
  - apply (wf_prep_perm _ _ _ _ _ _ _ Hperm) in W.
    destruct (publish_pop_run _ _ F _ pages pg prep' HM W) as (x & p2 & m2 & F2 & E & Hx & _ & W2 & _ & S2 & M2 & _).
    exists x, p2, m2. split; [done|]. left. exists F2, (BaseVirt pg :: pages). cbn.
    rewrite (proj2 (Z.eqb_neq x 0)) by done. split; [|congruence]. split; [congruence | done].
  - rewrite Hperm in H3, H4. apply Forall_cons in H4 as [[A1 A2] H4]. cbn [map] in H3.
    apply NoDup_cons in H3 as [Hfresh H3].
    destruct (orphan_run (sPool w) (sMem w) pg A1) as (m' & E & R1 & R2 & R3); [by rewrite Hp | done..|].
    exists 0, (sPool w), m'. split; [done|]. right. cbn. rewrite Hp, Hh. split_and!; try done.
    rewrite Forall_forall in *. intros q Hq. destruct (H4 q Hq) as [Q1 Q2]. split; [done|].
    rewrite R2 in Q2. apply elem_of_cons in Q2 as [E2|Q2]; [|done]. exfalso. injection E2 as E2.
    apply Hfresh. rewrite <- E2. by apply list_elem_of_In, in_map, list_elem_of_In.
Qed.

Lemma pool_step_inv w w' : pool_step w w' -> pool_inv w -> pool_inv w'.
Proof.
  destruct 1 as [pool m prep held ss node pool' m' E | pool m prep held ss page m' E
    | pool m prep held ss st page m' E Hne | pool m prep prep' held ss page node pool' m' Hp E
    | pool m prep held ss node m' Hn E | pool m prep held ss node a v m' Hn Ha H8 E
    | pool m prep held held' ss node pool' m' Hp E | pool m prep held ss st pool' m' E]; intros Hi.
  - destruct Hi as [(F & pages & Ha & Hs)|Hd].
    + destruct (try_pop_run _ _ _ _ _ _ Ha) as (x & p2 & F2 & E2 & Ha2 & S2). cbn in E2. rewrite E in E2.
      injection E2 as <- <- <-. left. exists F2, pages. cbn in *. split; [done | congruence].
    + pose proof Hd as (Hp & _). cbn in Hp. subst pool. cbn in E. injection E as <- <- <-. right. exact Hd.
  - by apply (inv_prepare (Build_POOL_WORLD pool m prep held ss)).
  - by apply (inv_prepare_failed (Build_POOL_WORLD pool m prep held ss) st page).
  - destruct (publish_step _ page prep' Hi Hp) as (x & p2 & m2 & E2 & Hi2). cbn in E2. rewrite E in E2.
    injection E2 as <- <- <-. exact Hi2.
  - destruct Hi as [(F & pages & [HM W] & Hs)|(_ & Hh & _)]; [|cbn in Hh; subst; by apply not_elem_of_nil in Hn].
    cbn in *. apply elem_of_Permutation in Hn as [held' Hp].
    assert (W1 : wf pool m F (node :: held') pages prep) by (eapply wf_held_perm; [exact Hp | exact W]).
    destruct (clear_run pool m F held' pages prep node W1) as (m2 & E2 & W2 & _). rewrite E in E2. injection E2 as <-.
    left. exists F, pages. cbn. split; [|done]. split; [done|]. eapply wf_held_perm; [symmetry; exact Hp | exact W2].
  - destruct Hi as [(F & pages & [HM W] & Hs)|(_ & Hh & _)]; [|cbn in Hh; subst; by apply not_elem_of_nil in Hn].
    cbn in *. subst ss. destruct (use_run pool m F held pages prep node a v W Hn Ha H8) as (m2 & E2 & W2).
    rewrite E in E2. injection E2 as <-. left. exists F, pages. done.
  - destruct Hi as [(F & pages & [HM W] & Hs)|(_ & Hh & _)]; [|cbn in Hh; subst; by apply Permutation_nil_cons in Hp].
    cbn in *. destruct (free_run pool m F held pages prep W node held' Hp) as (p2 & m2 & E2 & W2 & _ & S2 & M2 & _).
    rewrite E in E2. injection E2 as <- <-. left. exists (node :: F), pages. cbn. split; [|congruence]. split; [congruence | done].
  - destruct (destroy_step _ Hi) as (st2 & p2 & m2 & E2 & _ & Hi2). cbn in E2. rewrite E in E2.
    injection E2 as <- <- <-. exact Hi2.
Qed.

(** Everything a thread may do next returns. *)
Definition pool_ready (w : POOL_WORLD) : Prop :=
  (exists r, KiPoolTryPopNode (sPool w) (sMem w) = Ok r) /\
  (exists r, KiPoolPrepareOnePage (sSize w) (sMem w) = Ok r) /\
  (forall pg, pg ∈ sPrep w -> exists r, KiPoolPublishPreparedPageAndPop (sPool w) pg (sMem w) = Ok r) /\
  (forall x, x ∈ sHeld w -> (exists r, KePoolFree (sPool w) x (sMem w) = Ok r) /\
                            (exists r, memset0 x (SlotSize (sPool w)) (sMem w) = Ok r)) /\
  (exists r, KePoolDestroy (sPool w) (sMem w) = Ok r).

(** The slots handed out are distinct, do not overlap, and are what the
    counter says; a destroyed pool has none. *)
Definition pool_accounted (w : POOL_WORLD) : Prop :=
  NoDup (sHeld w) /\ UsedSlots (sPool w) = Z.of_nat (length (sHeld w)) /\
  (forall x y a, x ∈ sHeld w -> y ∈ sHeld w -> x <= a < x + sSize w -> y <= a < y + sSize w -> x = y) /\
  UsedSlots (sPool w) <= PeakUsedSlots (sPool w) <= TotalSlots (sPool w).

Lemma held_apart pool m F U pages prep x y : wf pool m F U pages prep -> x ∈ U -> y ∈ U ->
  x <= y < x + SlotSize pool -> x = y.
Proof.
  intros W Hx Hy Hxy. pose proof (wf_geom _ _ _ _ _ _ W) as Hg.
  destruct (slot_page pool m F U pages prep W x (or_intror Hx)) as (p & Hp & Hxs).
  destruct (slot_page pool m F U pages prep W y (or_intror Hy)) as (q & Hq & Hys).
  apply (page_of_slot _ p q x y Hg); try done; apply (page_aligned pool m F U pages prep W), elem_of_app; by left.
Qed.

Lemma inv_accounted w : pool_inv w -> pool_accounted w.
Proof.
  intros [(F & pages & [HM W] & Hs)|(Hp & Hh & _)]; unfold pool_accounted.
  - rewrite <- Hs. split; [|split; [by destruct W | split; [|by destruct W]]].
    + pose proof (slots_distinct _ _ _ _ _ _ W) as Hn. by apply NoDup_app in Hn as (_ & _ & Hn).
    + intros x y a Hx Hy Hxa Hya. destruct (Z.le_gt_cases x y).
      * apply (held_apart _ _ _ _ _ _ x y W); [done..|lia].
      * symmetry. apply (held_apart _ _ _ _ _ _ y x W); [done..|lia].
  - rewrite Hp, Hh. cbn. split; [constructor|]. split; [done|]. split; [|done].
    by intros x y a Hx%not_elem_of_nil.
Qed.

Lemma inv_ready w : pool_inv w -> pool_ready w.
Proof.
  intros Hi. destruct (inv_heap w Hi) as [Hm Hg]. split; [|split; [|split; [|split]]].
  - destruct Hi as [(F & pages & Ha & _)|(Hp & _)].
    + destruct (try_pop_run _ _ _ _ _ _ Ha) as (x & p2 & F2 & -> & _). eauto.
    + rewrite Hp. cbn. eauto.
  - destruct (prepare_run (sSize w) (sMem w) Hm Hg) as (st & pg & m1 & -> & _). eauto.
  - intros pg [prep' Hp]%elem_of_Permutation. destruct (publish_step w pg prep' Hi Hp) as (x & p2 & m2 & -> & _). eauto.
  - intros x Hx. destruct Hi as [(F & pages & [HM W] & _)|(_ & Hh & _)]; [|rewrite Hh in Hx; by apply not_elem_of_nil in Hx].
    apply elem_of_Permutation in Hx as [held' Hp]. split.
    + destruct (free_run _ _ F _ pages _ W x held' Hp) as (p2 & m2 & -> & _). eauto.
    + apply (wf_held_perm _ _ _ _ _ _ _ Hp) in W. destruct (clear_run _ _ F held' pages _ x W) as (m2 & -> & _). eauto.
  - destruct (destroy_step w Hi) as (st & p2 & m2 & -> & _). eauto.
Qed.

Lemma pool_steps_inv w w' : rtc pool_step w w' -> pool_inv w -> pool_inv w'.
Proof. induction 1; [done|]. intros Hi. by eapply IHrtc, pool_step_inv. Qed.

(** The world right after a successful initialisation. *)
Definition fresh_world pool m : POOL_WORLD :=
  {| sPool := pool; sMem := m; sPrep := []; sHeld := []; sSize := SlotSize pool |}.

(** C9: However the critical sections of threads allocating, growing, using,
    freeing and destroying one pool interleave after its initialisation, every
    step returns (no assertion fails, no access leaves mapped memory, no list
    walk runs away), no two slots handed out coincide or overlap, and the
    usage counters stay exact. *)
Theorem pool_safe_under_interleaving pool os cap m pool' m' w :
  heap_ok m -> is_u64 os -> is_u32 cap ->
  KePoolInit pool os cap m = Ok (EC_SUCCESS, pool', m') ->
  rtc pool_step (fresh_world pool' m') w ->
  pool_ready w /\ pool_accounted w.
Proof.
  intros Hm Hos Hcap E Hs. destruct (pool_init_run pool os cap m Hm Hos Hcap) as (st & p1 & m1 & E1 & R).
  rewrite E in E1. injection E1 as <- <- <-. rewrite decide_True in R by done.
  destruct R as (F & pages & Ha & _).
  assert (Hi : pool_inv w).
  { eapply pool_steps_inv; [exact Hs|]. left. exists F, pages. done. }
  split; [by apply inv_ready | by apply inv_accounted].
Qed.

(** Initialisation either attaches enough pages for the requested
    capacity, each a heap block of its own, with slots at least as large as
    the object, or leaves the heap exactly as it was and the pool unusable. *)
Theorem pool_init_all_or_nothing pool os cap m :
  heap_ok m -> is_u64 os -> is_u32 cap ->
  exists st pool' m', KePoolInit pool os cap m = Ok (st, pool', m') /\
    (if decide (st = EC_SUCCESS)
     then exists F pages, alive pool' m' F [] pages [] /\ pages <> [] /\
          Permutation (live m') (map (fun p => (p, 1)) pages ++ live m) /\ agree (live_word (live m)) m m' /\
          (os <= 2 ^ 64 - 8 -> os <= SlotSize pool') /\
          (cap + 511 < 2 ^ 32 -> cap <= TotalSlots pool')
     else Magic pool' = 0 /\ Permutation (live m) (live m') /\ agree (live_word (live m)) m m').
Proof.
  intros Hm Hos Hcap. destruct (pool_init_run pool os cap m Hm Hos Hcap) as (st & p1 & m1 & E & R).
  exists st, p1, m1. split; [done|]. destruct (decide (st = EC_SUCCESS)); [done|]. by destruct R as (? & _ & ?).
Qed.

(** An allocation returns a zeroed slot that overlaps no slot handed out
    before, keeping the contents of those; it returns NULL only when no slot
    was free and the heap refused a page, and then only the failure counter
    has changed. *)
Theorem pool_alloc_fresh_zeroed pool m F U pages prep : alive pool m F U pages prep ->
  exists node pool' m', KePoolAlloc pool m = Ok (node, pool', m') /\
    if node =? 0
    then F = [] /\ pool' = count_failed_grow pool /\ live m' = live m /\ alive pool' m' [] U pages prep
    else (exists F' pages', alive pool' m' F' (node :: U) pages' prep) /\
         (forall x a, x ∈ U -> x <= a < x + SlotSize pool -> ~ (node <= a < node + SlotSize pool)) /\
         (forall a, node <= a < node + SlotSize pool -> a mod 8 = 0 -> load_word a m' = Some 0) /\
         agree (user_word (SlotSize pool) U) m m'.
Proof.
  intros Ha. destruct (alloc_run pool m F U pages prep Ha) as (node & p' & m' & E & R).
  exists node, p', m'. split; [done|]. destruct R as [(Hn & Hs & (F' & pages' & Ha') & Hz & Hag)|(-> & HF & -> & Hl & Ha' & _)].
  - rewrite (proj2 (Z.eqb_neq node 0)) by done. split; [eauto|]. split; [|done].
    intros x a Hx Hxa Hna. rewrite <- Hs in *.
    assert (Hi : pool_inv {| sPool := p'; sMem := m'; sPrep := prep; sHeld := node :: U; sSize := SlotSize p' |}).
    { left. exists F', pages'. done. }
    destruct (inv_accounted _ Hi) as (Hn' & _ & Hap & _). cbn in *.
    assert (x = node) as -> by (apply (Hap x node a); [by right | by left | done | done]).
    by apply NoDup_cons in Hn' as [Hn' _].
  - rewrite Z.eqb_refl. done.
Qed.

(** A pool with slots handed out refuses to be destroyed and is left
    alone; otherwise every page it ever took goes back to the heap, other
    blocks keep their contents, and later allocations return NULL. *)
Theorem pool_destroy_returns_every_page pool m F U pages prep : alive pool m F U pages prep ->
  if decide (U = [])
  then exists m', KePoolDestroy pool m = Ok (EC_SUCCESS, poisoned, m') /\
         Permutation (live m) (map (fun p => (p, 1)) pages ++ live m') /\
         agree (live_word (live m')) m m' /\ KePoolAlloc poisoned m' = Ok (0, poisoned, m')
  else KePoolDestroy pool m = Ok (EC_INVALID_STATE, pool, m).
Proof.
  intros [HM W]. destruct (decide (U = [])) as [->|Hne].
  - destruct (destroy_run pool m F pages prep W HM) as (m' & E & _ & R1 & R2). exists m'. done.
  - unfold KePoolDestroy. rewrite HM, Z.eqb_refl. cbn [negb]. rewrite (wf_used _ _ _ _ _ _ W).
    destruct U; [done|]. cbn [length]. by rewrite (proj2 (Z.eqb_neq _ 0)) by lia.
Qed.
End calls.

(** The statistics of a pool in use add up: free and used slots partition
    the slots of its pages, without wrap-around. *)
Theorem pool_stats_add_up {M : Type} `{HeapLaws M} pool (m : M) F U pages prep :
  alive pool m F U pages prep ->
  let st := KePoolQueryStats pool in
  stUsedSlots st = Z.of_nat (length U) /\ stFreeSlots st = Z.of_nat (length F) /\
  stTotalSlots st = stUsedSlots st + stFreeSlots st /\ stPageCount st = Z.of_nat (length pages) /\
  stUsedSlots st <= stPeakUsedSlots st <= stTotalSlots st.
Proof.
  intros [HM W]. destruct (total_count pool m F U pages prep W) as [Ht Ht32].
  pose proof (wf_used _ _ _ _ _ _ W) as Hu. cbn. rewrite u32_small by (unfold is_u32; lia).
  pose proof (wf_peak _ _ _ _ _ _ W). pose proof (wf_count _ _ _ _ _ _ W). lia.
Qed.

(** ** The theorems on a concrete pool of 24-byte objects *)

Definition blank_pool : KE_POOL :=
  {| Magic := 0; FreeList := 0; PageList := 0; SlotSize := 0; SlotsPerPage := 0; TotalSlots := 0;
     UsedSlots := 0; PeakUsedSlots := 0; FailedGrows := 0; PageCount := 0 |}.

Lemma demo_inits : exists pool m, KePoolInit blank_pool 24 10 (Toy.empty 3) = Ok (EC_SUCCESS, pool, m).
Proof. eexists _, _. vm_compute. reflexivity. Qed.

Lemma demo_alive : exists pool (m : Toy.HEAP) F pages,
  KePoolInit blank_pool 24 10 (Toy.empty 3) = Ok (EC_SUCCESS, pool, m) /\ alive pool m F [] pages [].
Proof.
  assert (H0 : heap_ok (Toy.empty 3)) by (by apply Toy.empty_ok).
  destruct (pool_init_run blank_pool 24 10 (Toy.empty 3)) as (st & p1 & m1 & E1 & R); [exact H0 | done | done |].
  destruct demo_inits as (p & m & E). rewrite E in E1. injection E1 as <- <- <-. rewrite decide_True in R by done.
  destruct R as (F & pages & Ha & _). eauto 6.
Qed.

Lemma pool_safe_under_interleaving_witness :
  exists pool m w, KePoolInit blank_pool 24 10 (Toy.empty 3) = Ok (EC_SUCCESS, pool, m) /\
    rtc pool_step (fresh_world pool m) w /\ pool_ready w /\ pool_accounted w.
Proof.
  assert (H0 : heap_ok (Toy.empty 3)) by (by apply Toy.empty_ok).
  assert (H1 : is_u64 24) by done. assert (H2 : is_u32 10) by done.
  destruct demo_alive as (p & m & F & pages & E & Ha).
  destruct (try_pop_run p m F [] pages [] Ha) as (x & p2 & F2 & Ep & _).
  eexists p, m, _.
  assert (Hs : rtc pool_step (fresh_world p m)
    (Build_POOL_WORLD p2 m [] (if x =? 0 then [] else [x]) (SlotSize p))) by (apply rtc_once; by constructor).
  split; [exact E|]. split; [exact Hs|].
  exact (pool_safe_under_interleaving blank_pool 24 10 (Toy.empty 3) p m _ H0 H1 H2 E Hs).
Defined.

Lemma pool_init_all_or_nothing_witness :
  exists st pool' m', KePoolInit blank_pool 24 400 (Toy.empty 1) = Ok (st, pool', m') /\ st = EC_OUT_OF_RESOURCE /\
    Magic pool' = 0.
Proof.
  destruct (pool_init_all_or_nothing blank_pool 24 400 (Toy.empty 1)) as (st & p' & m' & E & R);
    [by apply Toy.empty_ok | done | done |].
  exists st, p', m'. split; [exact E|].
  assert (Hst : match KePoolInit blank_pool 24 400 (Toy.empty 1) with Ok (EC_OUT_OF_RESOURCE, _, _) => True | _ => False end)
    by (vm_compute; exact I).
  rewrite E in Hst. clear E. destruct st; try done. rewrite decide_False in R by done. by destruct R.
Defined.

Lemma pool_alloc_fresh_zeroed_witness : exists pool m node pool' m',
  KePoolAlloc (M := Toy.HEAP) pool m = Ok (node, pool', m').
Proof.
  destruct demo_alive as (p & m & F & pages & _ & Ha).
  destruct (pool_alloc_fresh_zeroed p m F [] pages [] Ha) as (x & p' & m' & E & _). eauto 6.
Defined.

Lemma pool_destroy_returns_every_page_witness : exists pool m m',
  KePoolDestroy (M := Toy.HEAP) pool m = Ok (EC_SUCCESS, poisoned, m').
Proof.
  destruct demo_alive as (p & m & F & pages & _ & Ha).
  pose proof (pool_destroy_returns_every_page p m F [] pages [] Ha) as R. rewrite decide_True in R by done.
  destruct R as (m' & E & _). eauto.
Defined.

Lemma pool_stats_add_up_witness : exists pool, stUsedSlots (KePoolQueryStats pool) = 0 /\ PageCount pool = 1.
Proof.
  destruct demo_alive as (p & m & F & pages & E & Ha).
  exists p. split; [by apply (pool_stats_add_up p m F [] pages [] Ha)|].
  assert (H1 : match KePoolInit blank_pool 24 10 (Toy.empty 3) with Ok (_, q, _) => PageCount q = 1 | _ => False end)
    by (vm_compute; done).
  by rewrite E in H1.
Defined.
