(* ===== verification/Kva.v ===== *)
(** * The kernel virtual-address allocator ([ke/mm/kva.c])

    Three arenas of the kernel half are handed out in page ranges: thread
    stacks (with guard pages), the fixmap (one-page aliases of physical pages)
    and the heap.  The state is the static data of the file over the machine
    of [PageTable.v]; a pointer to a range record or to an arena is its index.
    Every critical section is one piece of sequential code here, log lines and
    arena names are left out, and so is [KeKvaSelfTest]. *)

From S2P Require Import Prelude Pmm PageTable.

Local Open Scope Z_scope.

Module Kva.
Import PageTable.

Definition KRNL_STACK_VA : Z := 0xFFFF808000000000.
Definition HO_STACK_SIZE : Z := 0x4000.
Definition KRNL_IST1_STACK_VA : Z := KRNL_STACK_VA + HO_STACK_SIZE + PAGE_4KB.
Definition KRNL_IST2_STACK_VA : Z := KRNL_IST1_STACK_VA + HO_STACK_SIZE + PAGE_4KB.
Definition HHDM_BASE_VA : Z := 0xFFFF900000000000.

Definition KE_KVA_STACK_ARENA_BASE : Z := HO_ALIGN_UP (KRNL_IST2_STACK_VA + HO_STACK_SIZE + PAGE_4KB) PAGE_2MB.
Definition KE_KVA_STACK_ARENA_SIZE : Z := 32 * 1024 * 1024.
Definition KE_KVA_HEAP_ARENA_BASE : Z := HO_ALIGN_UP (KE_KVA_STACK_ARENA_BASE + KE_KVA_STACK_ARENA_SIZE) PAGE_2MB.
Definition KE_KVA_HEAP_ARENA_SIZE : Z := 64 * 1024 * 1024.
Definition KE_KVA_FIXMAP_ARENA_SIZE : Z := 64 * PAGE_4KB.
Definition KE_KVA_FIXMAP_ARENA_BASE : Z := HHDM_BASE_VA - KE_KVA_FIXMAP_ARENA_SIZE.

Definition KE_KVA_STACK_ARENA_PAGES : Z := KE_KVA_STACK_ARENA_SIZE / PAGE_4KB.
Definition KE_KVA_FIXMAP_ARENA_PAGES : Z := KE_KVA_FIXMAP_ARENA_SIZE / PAGE_4KB.
Definition KE_KVA_HEAP_ARENA_PAGES : Z := KE_KVA_HEAP_ARENA_SIZE / PAGE_4KB.

Definition KE_KVA_MAX_RANGES : Z := 512.
Definition KE_KVA_PAGE_STATE_FREE : Z := 0.
Definition KE_KVA_PAGE_STATE_ALLOC : Z := 1.
Definition KE_KVA_PAGE_STATE_GUARD : Z := 2.
Definition KE_KVA_PAGE_STATE_RETIRED : Z := 3.
Definition KE_KVA_DEFAULT_PAGE_ATTRS : Z := Z.lor (Z.lor PTE_WRITABLE PTE_GLOBAL) PTE_NO_EXECUTE.
Definition KE_TEMP_MAP_TOKEN_SLOT_BITS : Z := 6.
Definition KE_TEMP_MAP_TOKEN_SLOT_MASK : Z := Z.shiftl 1 KE_TEMP_MAP_TOKEN_SLOT_BITS - 1.
Definition KE_TEMP_MAP_TOKEN_GENERATION_MASK : Z := Z.shiftl 1 (64 - KE_TEMP_MAP_TOKEN_SLOT_BITS) - 1.
Definition UINT64_MAX : Z := 0xFFFFFFFFFFFFFFFF.

(** [KE_KVA_ARENA_TYPE]: any value of the enumeration's width may be passed. *)
Definition KE_KVA_ARENA_STACK : Z := 0.
Definition KE_KVA_ARENA_FIXMAP : Z := 1.
Definition KE_KVA_ARENA_HEAP : Z := 2.
Definition KE_KVA_ARENA_MAX : Z := 3.

Inductive KE_KVA_ADDRESS_KIND : Type :=
| KE_KVA_ADDRESS_OUTSIDE
| KE_KVA_ADDRESS_FREE_HOLE
| KE_KVA_ADDRESS_GUARD_PAGE
| KE_KVA_ADDRESS_ACTIVE_STACK
| KE_KVA_ADDRESS_ACTIVE_FIXMAP
| KE_KVA_ADDRESS_ACTIVE_HEAP
| KE_KVA_ADDRESS_UNKNOWN.

#[export] Instance KE_KVA_ADDRESS_KIND_eq_dec : EqDecision KE_KVA_ADDRESS_KIND.
Proof. solve_decision. Defined.

(** The array a [PageStates] pointer designates is part of its arena. *)
Record KE_KVA_ARENA_STATE : Type := mkArena {
  BaseAddress : Z;
  SizeBytes : Z;
  PageCount : Z;
  PageStates : list Z
}.

Record KE_KVA_RANGE_RECORD : Type := mkRecord {
  InUse : bool;
  OwnsPhysicalBacking : bool;
  Arena : Z;
  RecordId : Z;
  Generation : Z;
  BasePageIndex : Z;
  TotalPages : Z;
  UsablePages : Z;
  GuardLowerPages : Z;
  GuardUpperPages : Z
}.

Record KE_KVA_RANGE : Type := mkRange {
  RgArena : Z;
  RgRecordId : Z;
  RgGeneration : Z;
  RgBaseAddress : Z;
  RgUsableBase : Z;
  RgTotalPages : Z;
  RgUsablePages : Z;
  RgGuardLowerPages : Z;
  RgGuardUpperPages : Z
}.

Record KE_KVA_ARENA_INFO : Type := mkArenaInfo {
  AiArena : Z;
  AiBaseAddress : Z;
  AiEndAddressExclusive : Z;
  AiTotalPages : Z;
  AiFreePages : Z;
  AiActiveAllocations : Z;
  AiOverlapsImportedRegions : bool
}.

Record KE_KVA_USAGE_INFO : Type := mkUsageInfo {
  ActiveRangeCount : Z;
  FixmapTotalSlots : Z;
  FixmapActiveSlots : Z
}.

Definition KE_KVA_ACTIVE_RANGE_SNAPSHOT_MAX : Z := 16.

Record KE_KVA_ACTIVE_RANGE_ENTRY : Type := mkActiveEntry {
  AeArena : Z;
  AeRecordId : Z;
  AeGeneration : Z;
  AeBaseAddress : Z;
  AeEndAddressExclusive : Z;
  AeUsableBase : Z;
  AeUsableEndExclusive : Z;
  AeTotalPages : Z;
  AeUsablePages : Z;
  AeGuardLowerPages : Z;
  AeGuardUpperPages : Z
}.

(** [SnRanges] holds the entries written, in order; the rest is zero. *)
Record KE_KVA_ACTIVE_RANGE_SNAPSHOT : Type := mkSnapshot {
  TotalActiveRangeCount : Z;
  ReturnedRangeCount : Z;
  Truncated : bool;
  SnRanges : list KE_KVA_ACTIVE_RANGE_ENTRY
}.

(** [None] in [InfoRange] is the zeroed structure. *)
Record KE_KVA_ADDRESS_INFO : Type := mkAddressInfo {
  Kind : KE_KVA_ADDRESS_KIND;
  InKvaArena : bool;
  InfoArena : Z;
  ArenaBase : Z;
  ArenaEndExclusive : Z;
  ArenaPageIndex : Z;
  HasRange : bool;
  InfoRange : option KE_KVA_RANGE
}.

(** The static data of the file, the kernel's address space and the machine. *)
Record KE_KVA_STATE (P : Type) : Type := mkKva {
  mach : machine P;
  gKernelAddressSpace : KE_KERNEL_ADDRESS_SPACE;
  gKvaArenas : list KE_KVA_ARENA_STATE;
  gKvaRanges : list KE_KVA_RANGE_RECORD;
  gFixmapSlotGenerations : list Z;
  gKvaRangeGenerationCounter : Z;
  gKvaInitialized : bool
}.
Arguments mkKva {P}.
Arguments mach {P}.
Arguments gKernelAddressSpace {P}.
Arguments gKvaArenas {P}.
Arguments gKvaRanges {P}.
Arguments gFixmapSlotGenerations {P}.
Arguments gKvaRangeGenerationCounter {P}.
Arguments gKvaInitialized {P}.

Definition succeeded (status : HO_STATUS) : bool := bool_decide (status = EC_SUCCESS).

Definition empty_arena : KE_KVA_ARENA_STATE := mkArena 0 0 0 [].
Definition zero_record : KE_KVA_RANGE_RECORD := mkRecord false false 0 0 0 0 0 0 0 0.

(** [memset(record, 0, ...)] and the record's own number. *)
Definition blank_record (idx : Z) : KE_KVA_RANGE_RECORD :=
  mkRecord false false 0 (u32 (u32 idx + 1)) 0 0 0 0 0 0.

Definition with_states (arena : KE_KVA_ARENA_STATE) (states : list Z) : KE_KVA_ARENA_STATE :=
  mkArena (BaseAddress arena) (SizeBytes arena) (PageCount arena) states.

(** The index of the first element that satisfies a test. *)
Fixpoint find_index {A} (f : A -> res bool) (idx : Z) (l : list A) : res (option Z) :=
  match l with
  | [] => Ok None
  | x :: l => let* found := f x in if found then Ok (Some idx) else find_index f (idx + 1) l
  end.

Section setters.
Context {P : Type}.
Implicit Type s : KE_KVA_STATE P.

Definition set_mach s (m : machine P) : KE_KVA_STATE P :=
  mkKva m (gKernelAddressSpace s) (gKvaArenas s) (gKvaRanges s) (gFixmapSlotGenerations s)
    (gKvaRangeGenerationCounter s) (gKvaInitialized s).
Definition set_arenas s (arenas : list KE_KVA_ARENA_STATE) : KE_KVA_STATE P :=
  mkKva (mach s) (gKernelAddressSpace s) arenas (gKvaRanges s) (gFixmapSlotGenerations s)
    (gKvaRangeGenerationCounter s) (gKvaInitialized s).
Definition set_ranges s (ranges : list KE_KVA_RANGE_RECORD) : KE_KVA_STATE P :=
  mkKva (mach s) (gKernelAddressSpace s) (gKvaArenas s) ranges (gFixmapSlotGenerations s)
    (gKvaRangeGenerationCounter s) (gKvaInitialized s).
Definition set_slots s (slots : list Z) : KE_KVA_STATE P :=
  mkKva (mach s) (gKernelAddressSpace s) (gKvaArenas s) (gKvaRanges s) slots
    (gKvaRangeGenerationCounter s) (gKvaInitialized s).
Definition set_counter s (counter : Z) : KE_KVA_STATE P :=
  mkKva (mach s) (gKernelAddressSpace s) (gKvaArenas s) (gKvaRanges s) (gFixmapSlotGenerations s)
    counter (gKvaInitialized s).
Definition set_initialized s (initialized : bool) : KE_KVA_STATE P :=
  mkKva (mach s) (gKernelAddressSpace s) (gKvaArenas s) (gKvaRanges s) (gFixmapSlotGenerations s)
    (gKvaRangeGenerationCounter s) initialized.

(** A write to one record, or to the page states of one arena. *)
Definition set_record s (idx : Z) (record : KE_KVA_RANGE_RECORD) : res (KE_KVA_STATE P) :=
  let* ranges := wr (gKvaRanges s) idx record in Ok (set_ranges s ranges).
Definition set_states s (a : Z) (states : list Z) : res (KE_KVA_STATE P) :=
  let* arena := rd (gKvaArenas s) a in
  let* arenas := wr (gKvaArenas s) a (with_states arena states) in
  Ok (set_arenas s arenas).
Definition set_page_state s (a page state : Z) : res (KE_KVA_STATE P) :=
  let* arena := rd (gKvaArenas s) a in
  let* states := wr (PageStates arena) page state in
  set_states s a states.
End setters.

(** ** Records, arenas and tokens *)

Definition KiKvaArenaState (arena : Z) : option Z :=
  if KE_KVA_ARENA_MAX <=? arena then None else Some arena.

Definition KiKvaRecordUsableBase (arena : KE_KVA_ARENA_STATE) (record : KE_KVA_RANGE_RECORD) : Z :=
  u64 (BaseAddress arena + u64 (u64 (BasePageIndex record + GuardLowerPages record) * PAGE_4KB)).

Definition KiKvaAddressKindFromArena (arenaType : Z) : KE_KVA_ADDRESS_KIND :=
  if arenaType =? KE_KVA_ARENA_STACK then KE_KVA_ADDRESS_ACTIVE_STACK
  else if arenaType =? KE_KVA_ARENA_FIXMAP then KE_KVA_ADDRESS_ACTIVE_FIXMAP
  else if arenaType =? KE_KVA_ARENA_HEAP then KE_KVA_ADDRESS_ACTIVE_HEAP
  else KE_KVA_ADDRESS_UNKNOWN.

(** A handle is its [Token]; [None] is a null pointer. *)
Definition KiDecodeTempMapHandle (handle : option Z) : HO_STATUS * option (Z * Z) :=
  match handle with
  | None => (EC_ILLEGAL_ARGUMENT, None)
  | Some token =>
      if token =? 0 then (EC_INVALID_STATE, None) else
      let slot := u32 (Z.land token KE_TEMP_MAP_TOKEN_SLOT_MASK) in
      let generation := Z.shiftr token KE_TEMP_MAP_TOKEN_SLOT_BITS in
      if (KE_KVA_FIXMAP_ARENA_PAGES <=? slot) || (generation =? 0)
         || (KE_TEMP_MAP_TOKEN_GENERATION_MASK <? generation)
      then (EC_ILLEGAL_ARGUMENT, None)
      else (EC_SUCCESS, Some (slot, generation))
  end.

Definition KiEncodeTempMapToken (slot generation : Z) : Z :=
  if KE_KVA_FIXMAP_ARENA_PAGES <=? slot then 0 else
  if (generation =? 0) || (KE_TEMP_MAP_TOKEN_GENERATION_MASK <? generation) then 0 else
  Z.lor (u64 (Z.shiftl generation KE_TEMP_MAP_TOKEN_SLOT_BITS)) slot.

Section operations.
Context `{PageAllocator P}.
Implicit Type s : KE_KVA_STATE P.

Definition KeGetKernelAddressSpace s : option KE_KERNEL_ADDRESS_SPACE :=
  if Initialized (gKernelAddressSpace s) then Some (gKernelAddressSpace s) else None.

Definition KiKvaFixmapSlotRetired s (pageIndex : Z) : res bool :=
  if negb (pageIndex <? KE_KVA_FIXMAP_ARENA_PAGES) then Ok false else
  let* generation := rd (gFixmapSlotGenerations s) pageIndex in
  Ok (KE_TEMP_MAP_TOKEN_GENERATION_MASK <=? generation).

Definition KiKvaNextRangeGeneration s : Z * KE_KVA_STATE P :=
  if gKvaRangeGenerationCounter s =? 0 then (0, s) else
  let generation := gKvaRangeGenerationCounter s in
  (generation,
   set_counter s (if generation =? UINT64_MAX then 0 else u64 (gKvaRangeGenerationCounter s + 1))).

(** The structures are filled through non-null pointers at every call site. *)
Definition KiKvaFillRangeFromRecord (record : KE_KVA_RANGE_RECORD) s : res (HO_STATUS * option KE_KVA_RANGE) :=
  match KiKvaArenaState (Arena record) with
  | None => Ok (EC_ILLEGAL_ARGUMENT, None)
  | Some a =>
      let* arena := rd (gKvaArenas s) a in
      Ok (EC_SUCCESS,
          Some (mkRange (Arena record) (RecordId record) (Generation record)
            (u64 (BaseAddress arena + u64 (BasePageIndex record * PAGE_4KB)))
            (KiKvaRecordUsableBase arena record)
            (TotalPages record) (UsablePages record) (GuardLowerPages record) (GuardUpperPages record)))
  end.

Definition KiKvaFillActiveRangeEntry (record : KE_KVA_RANGE_RECORD) s
  : res (HO_STATUS * option KE_KVA_ACTIVE_RANGE_ENTRY) :=
  let* (status, range) := KiKvaFillRangeFromRecord record s in
  match range with
  | None => Ok (status, None)
  | Some range =>
      Ok (EC_SUCCESS,
          Some (mkActiveEntry (RgArena range) (RgRecordId range) (RgGeneration range) (RgBaseAddress range)
            (u64 (RgBaseAddress range + u64 (RgTotalPages range * PAGE_4KB)))
            (RgUsableBase range)
            (u64 (RgUsableBase range + u64 (RgUsablePages range * PAGE_4KB)))
            (RgTotalPages range) (RgUsablePages range) (RgGuardLowerPages range) (RgGuardUpperPages range)))
  end.

Definition KiKvaFindRecordByUsableBase s (usableBase : Z) : res (option Z) :=
  find_index (fun record =>
    if negb (InUse record) then Ok false else
    match KiKvaArenaState (Arena record) with
    | None => Ok false
    | Some a =>
        let* arena := rd (gKvaArenas s) a in
        Ok (KiKvaRecordUsableBase arena record =? usableBase)
    end) 0 (gKvaRanges s).

Definition KiKvaFindRecordByAddress s (arenaType virtAddr : Z) : res (option Z) :=
  find_index (fun record =>
    if negb (InUse record) || negb (Arena record =? arenaType) then Ok false else
    match KiKvaArenaState (Arena record) with
    | None => Ok false
    | Some a =>
        let* arena := rd (gKvaArenas s) a in
        let baseAddress := u64 (BaseAddress arena + u64 (BasePageIndex record * PAGE_4KB)) in
        let endExclusive := u64 (baseAddress + u64 (TotalPages record * PAGE_4KB)) in
        Ok ((baseAddress <=? virtAddr) && (virtAddr <? endExclusive))
    end) 0 (gKvaRanges s).

(** The loop over the arenas: the arena's type and the page index. *)
Fixpoint KiKvaLocateArenaByAddress (virtAddr idx : Z) (arenas : list KE_KVA_ARENA_STATE)
  : option (Z * KE_KVA_ARENA_STATE * Z) :=
  match arenas with
  | [] => None
  | arena :: arenas =>
      let endExclusive := u64 (BaseAddress arena + SizeBytes arena) in
      if (virtAddr <? BaseAddress arena) || (endExclusive <=? virtAddr)
      then KiKvaLocateArenaByAddress virtAddr (idx + 1) arenas
      else Some (idx, arena, Z.shiftr (virtAddr - BaseAddress arena) PAGE_SHIFT)
  end.

Definition KiNextFixmapSlotGeneration s (slot : Z) : res (Z * KE_KVA_STATE P) :=
  if KE_KVA_FIXMAP_ARENA_PAGES <=? slot then Ok (0, s) else
  let* generation := rd (gFixmapSlotGenerations s) slot in
  if KE_TEMP_MAP_TOKEN_GENERATION_MASK <=? generation then Ok (0, s) else
  let* slots := wr (gFixmapSlotGenerations s) slot (u64 (generation + 1)) in
  Ok (u64 (generation + 1), set_slots s slots).

Definition KiKvaFindRecordById s (range : option KE_KVA_RANGE) : res (option Z) :=
  match range with
  | None => Ok None
  | Some range =>
  if (RgRecordId range =? 0) || (KE_KVA_MAX_RANGES <? RgRecordId range) then Ok None else
  if RgGeneration range =? 0 then Ok None else
  let* record := rd (gKvaRanges s) (RgRecordId range - 1) in
  if negb (InUse record) then Ok None else
  if negb (Arena record =? RgArena range) then Ok None else
  if negb (Generation record =? RgGeneration range) then Ok None else
  match KiKvaArenaState (Arena record) with
  | None => Ok None
  | Some a =>
  let* arena := rd (gKvaArenas s) a in
  let baseAddress := u64 (BaseAddress arena + u64 (BasePageIndex record * PAGE_4KB)) in
  if negb (baseAddress =? RgBaseAddress range) then Ok None else
  if negb (KiKvaRecordUsableBase arena record =? RgUsableBase range) then Ok None else
  if negb (TotalPages record =? RgTotalPages range) || negb (UsablePages record =? RgUsablePages range)
     || negb (GuardLowerPages record =? RgGuardLowerPages range)
     || negb (GuardUpperPages record =? RgGuardUpperPages range)
  then Ok None
  else Ok (Some (RgRecordId range - 1))
  end
  end.

(** ** Teardown *)

(** The loop over the usable pages; [n] pages are left. *)
Fixpoint teardown (n : nat) (pageIdx : Z) (owns : bool) (usableBase : Z) (teardownStarted : bool) s
  : res (HO_STATUS * KE_KVA_STATE P) :=
  match n with
  | O => Ok (EC_SUCCESS, s)
  | S n =>
      let virtAddr := u64 (usableBase + u64 (pageIdx * PAGE_4KB)) in
      let '(status, mapping) := KePtQueryPage (KeGetKernelAddressSpace s) (mem (mach s)) virtAddr true in
      match mapping with
      | None => if teardownStarted then Panic status else Ok (status, s)
      | Some mapping =>
      if negb (Present mapping) then teardown n (pageIdx + 1) owns usableBase teardownStarted s else
      if negb (Level mapping =? 1)
      then if teardownStarted then Panic EC_NOT_SUPPORTED else Ok (EC_NOT_SUPPORTED, s) else
      let '(status, m) := KePtUnmapPage (KeGetKernelAddressSpace s) virtAddr (mach s) in
      let s := set_mach s m in
      if negb (succeeded status) then Panic status else
      let* s :=
        if owns then
          let* (status, p) := pmm_free (pmm (mach s)) (PhysicalBase mapping) 1 in
          if negb (succeeded status) then Panic status else Ok (set_mach s (set_pmm (mach s) p))
        else Ok s in
      teardown n (pageIdx + 1) owns usableBase true s
      end
  end.

Definition KiKvaReleaseRecord (record : option Z) (arena : option Z) s : res (HO_STATUS * KE_KVA_STATE P) :=
  match record, arena with
  | Some idx, Some a =>
      let* r := rd (gKvaRanges s) idx in
      let* ar := rd (gKvaArenas s) a in
      let usableBase := KiKvaRecordUsableBase ar r in
      let* retired := if (Arena r =? KE_KVA_ARENA_FIXMAP) && (TotalPages r =? 1)
                      then KiKvaFixmapSlotRetired s (BasePageIndex r) else Ok false in
      let releasedPageState := if retired then KE_KVA_PAGE_STATE_RETIRED else KE_KVA_PAGE_STATE_FREE in
      let* (status, s) := teardown (Z.to_nat (UsablePages r)) 0 (OwnsPhysicalBacking r) usableBase false s in
      if negb (succeeded status) then Ok (status, s) else
      let* states := for_loop (Z.to_nat (TotalPages r)) 0
        (fun pageIdx states => wr states (u64 (BasePageIndex r + pageIdx)) releasedPageState) (PageStates ar) in
      let* s := set_states s a states in
      let* s := set_record s idx (blank_record idx) in
      Ok (EC_SUCCESS, s)
  | _, _ => Ok (EC_ILLEGAL_ARGUMENT, s)
  end.

(** ** Initialization *)

Definition KiKvaArenaOverlapsImportedRegions (space : option KE_KERNEL_ADDRESS_SPACE)
    (start endExclusive : Z) : bool :=
  match space with
  | None => true
  | Some space =>
      existsb (fun region => negb ((endExclusive <=? VirtualStart region) || (VirtualEndExclusive region <=? start)))
        (Regions space)
  end.

(** The loop that looks for a page already mapped; [n] pages are left. *)
Fixpoint pages_unmapped (n : nat) (pageIdx base : Z) (space : option KE_KERNEL_ADDRESS_SPACE) (m : memory)
  : HO_STATUS :=
  match n with
  | O => EC_SUCCESS
  | S n =>
      match KePtQueryPage space m (u64 (base + u64 (pageIdx * PAGE_4KB))) true with
      | (EC_SUCCESS, Some mapping) =>
          if Present mapping then EC_INVALID_STATE else pages_unmapped n (pageIdx + 1) base space m
      | (status, _) => status
      end
  end.

Definition KiKvaValidateArena (arena : KE_KVA_ARENA_STATE) (requireUnmapped : bool) s : HO_STATUS :=
  match KeGetKernelAddressSpace s with
  | None => EC_INVALID_STATE
  | Some space =>
  if negb (Initialized space) then EC_INVALID_STATE else
  let endExclusive := u64 (BaseAddress arena + SizeBytes arena) in
  if KiKvaArenaOverlapsImportedRegions (Some space) (BaseAddress arena) endExclusive then EC_INVALID_STATE else
  if negb requireUnmapped then EC_SUCCESS else
  pages_unmapped (Z.to_nat (PageCount arena)) 0 (BaseAddress arena) (Some space) (mem (mach s))
  end.

(** The loop that validates the arenas, up to the first failure. *)
Fixpoint validate_arenas (arenas : list KE_KVA_ARENA_STATE) (requireUnmapped : bool) s : HO_STATUS :=
  match arenas with
  | [] => EC_SUCCESS
  | arena :: arenas =>
      let status := KiKvaValidateArena arena requireUnmapped s in
      if succeeded status then validate_arenas arenas requireUnmapped s else status
  end.

Definition zeroes (n : Z) : list Z := replicate (Z.to_nat n) 0.

Definition stack_arena : KE_KVA_ARENA_STATE :=
  mkArena KE_KVA_STACK_ARENA_BASE KE_KVA_STACK_ARENA_SIZE KE_KVA_STACK_ARENA_PAGES (zeroes KE_KVA_STACK_ARENA_PAGES).
Definition fixmap_arena : KE_KVA_ARENA_STATE :=
  mkArena KE_KVA_FIXMAP_ARENA_BASE KE_KVA_FIXMAP_ARENA_SIZE KE_KVA_FIXMAP_ARENA_PAGES (zeroes KE_KVA_FIXMAP_ARENA_PAGES).
Definition heap_arena : KE_KVA_ARENA_STATE :=
  mkArena KE_KVA_HEAP_ARENA_BASE KE_KVA_HEAP_ARENA_SIZE KE_KVA_HEAP_ARENA_PAGES (zeroes KE_KVA_HEAP_ARENA_PAGES).

Definition KeKvaInit s : HO_STATUS * KE_KVA_STATE P :=
  if gKvaInitialized s then (EC_INVALID_STATE, s) else
  let s := set_ranges s (replicate (Z.to_nat KE_KVA_MAX_RANGES) zero_record) in
  let s := set_arenas s [stack_arena; fixmap_arena; heap_arena] in
  let status := validate_arenas (gKvaArenas s) true s in
  if negb (succeeded status) then (status, s) else
  let s := set_ranges s (map (fun idx => mkRecord false false 0 (Z.of_nat idx + 1) 0 0 0 0 0 0)
                           (seq 0 (Z.to_nat KE_KVA_MAX_RANGES))) in
  let s := set_slots s (zeroes KE_KVA_FIXMAP_ARENA_PAGES) in
  let s := set_counter s 1 in
  (EC_SUCCESS, set_initialized s true).

(** ** Ranges *)

(** [!gKvaRanges[idx].InUse] *)
Definition find_free_record s : res (option Z) :=
  find_index (fun record => Ok (negb (InUse record))) 0 (gKvaRanges s).

(** Are the [n] pages from [page] on all free? *)
Fixpoint pages_free (n : nat) (page : Z) (states : list Z) : res bool :=
  match n with
  | O => Ok true
  | S n =>
      let* state := rd states page in
      if negb (state =? KE_KVA_PAGE_STATE_FREE) then Ok false else pages_free n (page + 1) states
  end.

(** The first [basePage] of the [n] candidates left whose pages are free. *)
Fixpoint find_run (n : nat) (basePage totalPages : Z) (states : list Z) : res (option Z) :=
  match n with
  | O => Ok None
  | S n =>
      let* available := pages_free (Z.to_nat totalPages) basePage states in
      if available then Ok (Some basePage) else find_run n (basePage + 1) totalPages states
  end.

Definition mark_pages (basePage totalPages guardLowerPages usablePages : Z) (states : list Z) : res (list Z) :=
  for_loop (Z.to_nat totalPages) 0 (fun offset states =>
    let isGuard := (offset <? guardLowerPages) || (u64 (guardLowerPages + usablePages) <=? offset) in
    wr states (u64 (basePage + offset)) (if isGuard then KE_KVA_PAGE_STATE_GUARD else KE_KVA_PAGE_STATE_ALLOC)) states.

(** [out] is false for a null [outRange]. *)
Definition KeKvaAllocRange (arenaType usablePages guardLowerPages guardUpperPages : Z)
    (ownsPhysicalBacking out : bool) s : res (HO_STATUS * option KE_KVA_RANGE * KE_KVA_STATE P) :=
  if negb (gKvaInitialized s) then Ok (EC_INVALID_STATE, None, s) else
  if negb out || (usablePages =? 0) then Ok (EC_ILLEGAL_ARGUMENT, None, s) else
  match KiKvaArenaState arenaType with
  | None => Ok (EC_ILLEGAL_ARGUMENT, None, s)
  | Some a =>
  let* arena := rd (gKvaArenas s) a in
  if UINT64_MAX - usablePages <? guardLowerPages then Ok (EC_OUT_OF_RESOURCE, None, s) else
  let totalPages := u64 (guardLowerPages + usablePages) in
  if UINT64_MAX - totalPages <? guardUpperPages then Ok (EC_OUT_OF_RESOURCE, None, s) else
  let totalPages := u64 (totalPages + guardUpperPages) in
  if (totalPages =? 0) || (PageCount arena <? totalPages) then Ok (EC_OUT_OF_RESOURCE, None, s) else
  let* record := find_free_record s in
  match record with
  | None => Ok (EC_OUT_OF_RESOURCE, None, s)
  | Some idx =>
  let* base := find_run (Z.to_nat (PageCount arena - totalPages + 1)) 0 totalPages (PageStates arena) in
  match base with
  | None => Ok (EC_OUT_OF_RESOURCE, None, s)
  | Some basePage =>
  let '(generation, s) := KiKvaNextRangeGeneration s in
  if generation =? 0 then Ok (EC_OUT_OF_RESOURCE, None, s) else
  let* states := mark_pages basePage totalPages guardLowerPages usablePages (PageStates arena) in
  let* s := set_states s a states in
  let r := mkRecord true ownsPhysicalBacking arenaType (u32 (u32 idx + 1)) generation basePage totalPages
             usablePages guardLowerPages guardUpperPages in
  let* s := set_record s idx r in
  let* (status, range) := KiKvaFillRangeFromRecord r s in
  Ok (status, range, s)
  end
  end
  end.

Definition KeKvaMapPage (range : option KE_KVA_RANGE) (usablePageIndex physAddr attributes : Z) s
  : res (HO_STATUS * KE_KVA_STATE P) :=
  if negb (gKvaInitialized s) then Ok (EC_INVALID_STATE, s) else
  match range with
  | None => Ok (EC_ILLEGAL_ARGUMENT, s)
  | Some rg =>
  let* record := KiKvaFindRecordById s range in
  match record with
  | None => Ok (EC_INVALID_STATE, s)
  | Some idx =>
  let* r := rd (gKvaRanges s) idx in
  if UsablePages r <=? usablePageIndex then Ok (EC_ILLEGAL_ARGUMENT, s) else
  let virtAddr := u64 (RgUsableBase rg + u64 (usablePageIndex * PAGE_4KB)) in
  let* (status, m) := KePtMapPage (KeGetKernelAddressSpace s) virtAddr physAddr attributes (mach s) in
  Ok (status, set_mach s m)
  end
  end.

Definition KeKvaReleaseRangeHandle (range : option KE_KVA_RANGE) s : res (HO_STATUS * KE_KVA_STATE P) :=
  if negb (gKvaInitialized s) then Ok (EC_INVALID_STATE, s) else
  match range with
  | None => Ok (EC_ILLEGAL_ARGUMENT, s)
  | Some _ =>
  let* record := KiKvaFindRecordById s range in
  match record with
  | None => Ok (EC_INVALID_STATE, s)
  | Some idx =>
  let* r := rd (gKvaRanges s) idx in
  match KiKvaArenaState (Arena r) with
  | None => Ok (EC_INVALID_STATE, s)
  | Some a => KiKvaReleaseRecord (Some idx) (Some a) s
  end
  end
  end.

(** The loop of [KeKvaMapOwnedPages]; [n] pages are left. *)
Fixpoint map_owned_pages (n : nat) (pageIdx : Z) (range : option KE_KVA_RANGE) (attributes : Z) s
  : res (HO_STATUS * KE_KVA_STATE P) :=
  match n with
  | O => Ok (EC_SUCCESS, s)
  | S n =>
      let* (status, p, physAddr) := pmm_alloc (pmm (mach s)) 1 None in
      let s := set_mach s (set_pmm (mach s) p) in
      if negb (succeeded status) then
        let* (cleanupStatus, s) := KeKvaReleaseRangeHandle range s in
        Ok (if succeeded cleanupStatus then status else cleanupStatus, s)
      else
      match physAddr with
      | None => Oob
      | Some physAddr =>
      let* (status, s) := KeKvaMapPage range pageIdx physAddr attributes s in
      if negb (succeeded status) then
        let* (_, p) := pmm_free (pmm (mach s)) physAddr 1 in
        let s := set_mach s (set_pmm (mach s) p) in
        let* (cleanupStatus, s) := KeKvaReleaseRangeHandle range s in
        Ok (if succeeded cleanupStatus then status else cleanupStatus, s)
      else map_owned_pages n (pageIdx + 1) range attributes s
      end
  end.

Definition KeKvaMapOwnedPages (range : option KE_KVA_RANGE) (attributes : Z) s
  : res (HO_STATUS * KE_KVA_STATE P) :=
  if negb (gKvaInitialized s) then Ok (EC_INVALID_STATE, s) else
  match range with
  | None => Ok (EC_ILLEGAL_ARGUMENT, s)
  | Some _ =>
  let* record := KiKvaFindRecordById s range in
  match record with
  | None => Ok (EC_INVALID_STATE, s)
  | Some idx =>
  let* r := rd (gKvaRanges s) idx in
  if negb (OwnsPhysicalBacking r) then Ok (EC_INVALID_STATE, s) else
  map_owned_pages (Z.to_nat (UsablePages r)) 0 range attributes s
  end
  end.

Definition KeKvaReleaseRange (usableBase : Z) s : res (HO_STATUS * KE_KVA_STATE P) :=
  if negb (gKvaInitialized s) then Ok (EC_INVALID_STATE, s) else
  if negb (HO_IS_ALIGNED usableBase PAGE_4KB) then Ok (EC_ILLEGAL_ARGUMENT, s) else
  let* record := KiKvaFindRecordByUsableBase s usableBase in
  match record with
  | None => Ok (EC_INVALID_STATE, s)
  | Some idx =>
  let* r := rd (gKvaRanges s) idx in
  match KiKvaArenaState (Arena r) with
  | None => Ok (EC_INVALID_STATE, s)
  | Some a => KiKvaReleaseRecord (Some idx) (Some a) s
  end
  end.

(** ** Queries *)

Definition KeKvaQueryRange (usableBase : Z) (out : bool) s : res (HO_STATUS * option KE_KVA_RANGE) :=
  if negb (gKvaInitialized s) then Ok (EC_INVALID_STATE, None) else
  if negb out then Ok (EC_ILLEGAL_ARGUMENT, None) else
  let* record := KiKvaFindRecordByUsableBase s usableBase in
  match record with
  | None => Ok (EC_INVALID_STATE, None)
  | Some idx =>
      let* r := rd (gKvaRanges s) idx in
      KiKvaFillRangeFromRecord r s
  end.

Definition KiKvaCountFreePages (arena : KE_KVA_ARENA_STATE) : res Z :=
  for_loop (Z.to_nat (PageCount arena)) 0 (fun pageIdx freePages =>
    let* state := rd (PageStates arena) pageIdx in
    Ok (if state =? KE_KVA_PAGE_STATE_FREE then freePages + 1 else freePages)) 0.

(** The counting loops over the records. *)
Definition KiKvaCountActiveRanges s (arenaType : Z) : Z :=
  fold_left (fun active r => if InUse r && (Arena r =? arenaType) then active + 1 else active) (gKvaRanges s) 0.
Definition KiKvaCountAllActiveRanges s : Z :=
  fold_left (fun active r => if InUse r then active + 1 else active) (gKvaRanges s) 0.

Definition KeKvaQueryArenaInfo (arenaType : Z) (out : bool) s : res (HO_STATUS * option KE_KVA_ARENA_INFO) :=
  if negb (gKvaInitialized s) then Ok (EC_INVALID_STATE, None) else
  if negb out then Ok (EC_ILLEGAL_ARGUMENT, None) else
  match KiKvaArenaState arenaType with
  | None => Ok (EC_ILLEGAL_ARGUMENT, None)
  | Some a =>
      let* arena := rd (gKvaArenas s) a in
      let endExclusive := u64 (BaseAddress arena + SizeBytes arena) in
      let* freePages := KiKvaCountFreePages arena in
      Ok (EC_SUCCESS,
          Some (mkArenaInfo arenaType (BaseAddress arena) endExclusive (PageCount arena) freePages
            (KiKvaCountActiveRanges s arenaType)
            (KiKvaArenaOverlapsImportedRegions (KeGetKernelAddressSpace s) (BaseAddress arena) endExclusive)))
  end.

Definition KeKvaQueryUsageInfo (out : bool) s : res (HO_STATUS * option KE_KVA_USAGE_INFO) :=
  if negb (gKvaInitialized s) then Ok (EC_INVALID_STATE, None) else
  if negb out then Ok (EC_ILLEGAL_ARGUMENT, None) else
  let* fixmap := rd (gKvaArenas s) KE_KVA_ARENA_FIXMAP in
  Ok (EC_SUCCESS,
      Some (mkUsageInfo (KiKvaCountAllActiveRanges s) (PageCount fixmap)
        (KiKvaCountActiveRanges s KE_KVA_ARENA_FIXMAP))).

(** The loop over the records: the status that ends it, the entries written
    and whether it stopped on a full snapshot. *)
Fixpoint snapshot_ranges (records : list KE_KVA_RANGE_RECORD) (entries : list KE_KVA_ACTIVE_RANGE_ENTRY) s
  : res (HO_STATUS * list KE_KVA_ACTIVE_RANGE_ENTRY * bool) :=
  match records with
  | [] => Ok (EC_SUCCESS, entries, false)
  | r :: records =>
      if negb (InUse r) then snapshot_ranges records entries s else
      if KE_KVA_ACTIVE_RANGE_SNAPSHOT_MAX <=? Z.of_nat (length entries) then Ok (EC_SUCCESS, entries, true) else
      let* (status, entry) := KiKvaFillActiveRangeEntry r s in
      match entry with
      | None => Ok (status, entries, false)
      | Some entry => snapshot_ranges records (entries ++ [entry]) s
      end
  end.

Definition KeKvaQueryActiveRanges (out : bool) s : res (HO_STATUS * option KE_KVA_ACTIVE_RANGE_SNAPSHOT) :=
  if negb (gKvaInitialized s) then Ok (EC_INVALID_STATE, None) else
  if negb out then Ok (EC_ILLEGAL_ARGUMENT, None) else
  let total := KiKvaCountAllActiveRanges s in
  let* (status, entries, truncated) := snapshot_ranges (gKvaRanges s) [] s in
  if negb (succeeded status) then Ok (status, Some (mkSnapshot total 0 truncated entries)) else
  let returned := Z.of_nat (length entries) in
  Ok (EC_SUCCESS, Some (mkSnapshot total returned (truncated || (returned <? total)) entries)).

Definition KeKvaClassifyAddress (virtAddr : Z) (out : bool) s : res (HO_STATUS * option KE_KVA_ADDRESS_INFO) :=
  if negb (gKvaInitialized s) then Ok (EC_INVALID_STATE, None) else
  if negb out then Ok (EC_ILLEGAL_ARGUMENT, None) else
  match KiKvaLocateArenaByAddress virtAddr 0 (gKvaArenas s) with
  | None =>
      Ok (EC_SUCCESS, Some (mkAddressInfo KE_KVA_ADDRESS_OUTSIDE false KE_KVA_ARENA_MAX 0 0 0 false None))
  | Some (arenaType, arena, pageIndex) =>
      let info kind range :=
        Some (mkAddressInfo kind true arenaType (BaseAddress arena)
                (u64 (BaseAddress arena + SizeBytes arena)) pageIndex (bool_decide (is_Some range)) range) in
      let* pageState := rd (PageStates arena) pageIndex in
      if pageState =? KE_KVA_PAGE_STATE_FREE then Ok (EC_SUCCESS, info KE_KVA_ADDRESS_FREE_HOLE None) else
      let* record := KiKvaFindRecordByAddress s arenaType virtAddr in
      match record with
      | None =>
          Ok (EC_INVALID_STATE,
              info (if pageState =? KE_KVA_PAGE_STATE_GUARD then KE_KVA_ADDRESS_GUARD_PAGE
                    else if pageState =? KE_KVA_PAGE_STATE_ALLOC then KiKvaAddressKindFromArena arenaType
                    else KE_KVA_ADDRESS_UNKNOWN) None)
      | Some idx =>
          let* r := rd (gKvaRanges s) idx in
          let* (status, range) := KiKvaFillRangeFromRecord r s in
          if negb (succeeded status) then Ok (status, info KE_KVA_ADDRESS_OUTSIDE None) else
          if pageState =? KE_KVA_PAGE_STATE_GUARD then Ok (EC_SUCCESS, info KE_KVA_ADDRESS_GUARD_PAGE range) else
          if pageState =? KE_KVA_PAGE_STATE_ALLOC then
            let kind := KiKvaAddressKindFromArena arenaType in
            Ok (if bool_decide (kind = KE_KVA_ADDRESS_UNKNOWN) then EC_INVALID_STATE else EC_SUCCESS,
                info kind range)
          else Ok (EC_INVALID_STATE, info KE_KVA_ADDRESS_UNKNOWN range)
      end
  end.

Definition KeKvaValidateLayout s : HO_STATUS :=
  if negb (gKvaInitialized s) then EC_INVALID_STATE else validate_arenas (gKvaArenas s) false s.

(** ** Fixmap *)

(** The loop over the slots from [slot] on, [n] being left, with a free record
    [idx] at hand: status, token, address. *)
Fixpoint fixmap_slots (n : nat) (slot idx physAddr attributes : Z) s
  : res (HO_STATUS * Z * Z * KE_KVA_STATE P) :=
  match n with
  | O => Ok (EC_OUT_OF_RESOURCE, 0, 0, s)
  | S n =>
      let* arena := rd (gKvaArenas s) KE_KVA_ARENA_FIXMAP in
      let* state := rd (PageStates arena) slot in
      if negb (state =? KE_KVA_PAGE_STATE_FREE) then fixmap_slots n (slot + 1) idx physAddr attributes s else
      let* retired := KiKvaFixmapSlotRetired s slot in
      if retired then
        let* s := set_page_state s KE_KVA_ARENA_FIXMAP slot KE_KVA_PAGE_STATE_RETIRED in
        fixmap_slots n (slot + 1) idx physAddr attributes s
      else
      let* (generation, s) := KiNextFixmapSlotGeneration s slot in
      if generation =? 0 then
        let* s := set_page_state s KE_KVA_ARENA_FIXMAP slot KE_KVA_PAGE_STATE_RETIRED in
        fixmap_slots n (slot + 1) idx physAddr attributes s
      else
      let* s := set_page_state s KE_KVA_ARENA_FIXMAP slot KE_KVA_PAGE_STATE_ALLOC in
      let r := mkRecord true false KE_KVA_ARENA_FIXMAP (u32 (u32 idx + 1)) generation slot 1 1 0 0 in
      let* s := set_record s idx r in
      let* (status, range) := KiKvaFillRangeFromRecord r s in
      match range with
      | None =>
          let* s := set_page_state s KE_KVA_ARENA_FIXMAP slot KE_KVA_PAGE_STATE_FREE in
          let* s := set_record s idx (blank_record idx) in
          Ok (status, 0, 0, s)
      | Some range =>
      let token := KiEncodeTempMapToken slot generation in
      if token =? 0 then
        let* s := set_page_state s KE_KVA_ARENA_FIXMAP slot KE_KVA_PAGE_STATE_FREE in
        let* s := set_record s idx (blank_record idx) in
        Ok (EC_INVALID_STATE, 0, 0, s)
      else
      let* (status, m) := KePtMapPage (KeGetKernelAddressSpace s) (RgUsableBase range) physAddr attributes (mach s) in
      let s := set_mach s m in
      if negb (succeeded status) then
        let* s := set_page_state s KE_KVA_ARENA_FIXMAP slot KE_KVA_PAGE_STATE_FREE in
        let* s := set_record s idx (blank_record idx) in
        Ok (status, 0, 0, s)
      else Ok (EC_SUCCESS, token, RgUsableBase range, s)
      end
  end.

(** [out] is false when [outHandle] or [outVirtAddr] is null; [None] means
    that neither was written. *)
Definition KeFixmapAcquire (physAddr attributes : Z) (out : bool) s
  : res (HO_STATUS * option (Z * Z) * KE_KVA_STATE P) :=
  if negb (gKvaInitialized s) then Ok (EC_INVALID_STATE, None, s) else
  if negb out || negb (HO_IS_ALIGNED physAddr PAGE_4KB) then Ok (EC_ILLEGAL_ARGUMENT, None, s) else
  let* record := find_free_record s in
  match record with
  | None => Ok (EC_OUT_OF_RESOURCE, Some (0, 0), s)
  | Some idx =>
      let* arena := rd (gKvaArenas s) KE_KVA_ARENA_FIXMAP in
      let* (status, token, virtAddr, s) :=
        fixmap_slots (Z.to_nat (PageCount arena)) 0 idx physAddr attributes s in
      Ok (status, Some (token, virtAddr), s)
  end.

Definition KeTempPhysMapAcquire (physAddr attributes : Z) (out : bool) s
  : res (HO_STATUS * option (Z * Z) * KE_KVA_STATE P) :=
  if negb out || negb (HO_IS_ALIGNED physAddr PAGE_4KB) then Ok (EC_ILLEGAL_ARGUMENT, None, s) else
  let* (status, written, s) := KeFixmapAcquire physAddr attributes out s in
  Ok (status, Some (default (0, 0) written), s).

(** The handle afterwards is the second result. *)
Definition KeTempPhysMapRelease (handle : option Z) s : res (HO_STATUS * option Z * KE_KVA_STATE P) :=
  match handle with
  | None => Ok (EC_ILLEGAL_ARGUMENT, None, s)
  | Some token =>
  match KiDecodeTempMapHandle handle with
  | (status, None) => Ok (status, handle, s)
  | (_, Some (slot, generation)) =>
  let usableBase := u64 (KE_KVA_FIXMAP_ARENA_BASE + u64 (slot * PAGE_4KB)) in
  let* record := KiKvaFindRecordByUsableBase s usableBase in
  match record with
  | None => Ok (EC_INVALID_STATE, handle, s)
  | Some idx =>
  let* r := rd (gKvaRanges s) idx in
  if negb (Arena r =? KE_KVA_ARENA_FIXMAP) then Ok (EC_INVALID_STATE, handle, s) else
  let* current := rd (gFixmapSlotGenerations s) slot in
  if negb (current =? generation) then Ok (EC_INVALID_STATE, handle, s) else
  let* (status, s) := KiKvaReleaseRecord (Some idx) (KiKvaArenaState (Arena r)) s in
  Ok (status, if succeeded status then Some 0 else handle, s)
  end
  end
  end.

Definition KeFixmapRelease (handle : option Z) s : res (HO_STATUS * option Z * KE_KVA_STATE P) :=
  KeTempPhysMapRelease handle s.

(** ** Heap pages *)

Definition KeHeapAllocPages (pageCount : Z) (out : bool) s : res (HO_STATUS * option Z * KE_KVA_STATE P) :=
  if negb (gKvaInitialized s) then Ok (EC_INVALID_STATE, None, s) else
  if negb out || (pageCount =? 0) then Ok (EC_ILLEGAL_ARGUMENT, None, s) else
  let* (status, range, s) := KeKvaAllocRange KE_KVA_ARENA_HEAP pageCount 0 0 true true s in
  match range with
  | None => Ok (status, None, s)
  | Some rg =>
      let* (status, s) := KeKvaMapOwnedPages range KE_KVA_DEFAULT_PAGE_ATTRS s in
      if negb (succeeded status) then Ok (status, None, s) else
      Ok (EC_SUCCESS, Some (RgUsableBase rg), s)
  end.

Definition KeHeapFreePages (baseVirt : Z) s : res (HO_STATUS * KE_KVA_STATE P) :=
  KeKvaReleaseRange baseVirt s.
End operations.
End Kva.
