(* ===== verification/KvaInv.v ===== *)
(** * The invariant of the kernel virtual-address allocator

    The page states of an arena say exactly what the records say; a page of
    an arena is mapped only if a record in use owns it and it is not one of
    its guards; and the frames behind the ranges that own their backing are
    allocated, private and no page tables. *)

From S2P Require Import Prelude Pmm PageTable Kva.

Local Open Scope Z_scope.

Module KvaInv.
Import PageTable Kva.

(** ** The arenas *)

Definition arena_base (a : Z) : Z :=
  if a =? KE_KVA_ARENA_STACK then KE_KVA_STACK_ARENA_BASE
  else if a =? KE_KVA_ARENA_FIXMAP then KE_KVA_FIXMAP_ARENA_BASE else KE_KVA_HEAP_ARENA_BASE.

Definition arena_pages (a : Z) : Z :=
  if a =? KE_KVA_ARENA_STACK then KE_KVA_STACK_ARENA_PAGES
  else if a =? KE_KVA_ARENA_FIXMAP then KE_KVA_FIXMAP_ARENA_PAGES else KE_KVA_HEAP_ARENA_PAGES.

(** [p] is a page of arena [a]. *)
Definition arena_page (a p : Z) : Prop := 0 <= a < KE_KVA_ARENA_MAX /\ 0 <= p < arena_pages a.

Definition page_va (a p : Z) : Z := arena_base a + p * PAGE_4KB.

Lemma arena_values a : 0 <= a < KE_KVA_ARENA_MAX ->
  (a = 0 /\ arena_base a = 0xFFFF808000200000 /\ arena_pages a = 8192) \/
  (a = 1 /\ arena_base a = 0xFFFF8FFFFFFC0000 /\ arena_pages a = 64) \/
  (a = 2 /\ arena_base a = 0xFFFF808002200000 /\ arena_pages a = 16384).
Proof.
  unfold KE_KVA_ARENA_MAX. intros Ha.
  assert (a = 0 \/ a = 1 \/ a = 2) as [E | [E | E]] by lia; subst a; [left | right; left | right; right]; done.
Qed.

(** Decide a linear fact about pages of arenas. *)
Ltac arena_lia :=
  repeat match goal with
  | H : 0 <= ?a < KE_KVA_ARENA_MAX |- _ =>
      lazymatch goal with
      | _ : arena_base a = _ |- _ => fail
      | _ => let E1 := fresh in let E2 := fresh in let E3 := fresh in
             destruct (arena_values a H) as [(E1 & E2 & E3)|[(E1 & E2 & E3)|(E1 & E2 & E3)]];
             clear H; rewrite ?E2, ?E3 in *
      end
  end; unfold PAGE_4KB, is_u64 in *; lia.

Lemma page_va_range a p : arena_page a p ->
  0xFFFF808000200000 <= page_va a p /\ page_va a p + PAGE_4KB <= 0xFFFF900000000000.
Proof. intros [Ha Hp]. unfold page_va. arena_lia. Qed.

Lemma page_va_u64 a p : arena_page a p -> is_u64 (page_va a p).
Proof. intros H%page_va_range. unfold is_u64, PAGE_4KB in *. lia. Qed.

Lemma page_va_aligned a p : arena_page a p -> page_va a p mod PAGE_4KB = 0.
Proof.
  intros [Ha Hp]. unfold page_va. rewrite Z.mod_add by done.
  by destruct (arena_values a Ha) as [(_ & -> & _)|[(_ & -> & _)|(_ & -> & _)]].
Qed.

Lemma u64_add_r x y : u64 (x + u64 y) = u64 (x + y).
Proof. apply Zplus_mod_idemp_r. Qed.

Lemma u64_mul_l x y : u64 (u64 x * y) = u64 (x * y).
Proof. apply Zmult_mod_idemp_l. Qed.

(** Address arithmetic inside an arena does not wrap. *)
Lemma page_va_offset a p k : arena_page a (p + k) ->
  u64 (page_va a p + u64 (k * PAGE_4KB)) = page_va a (p + k).
Proof.
  intros Hp. rewrite u64_add_r. replace (page_va a p + k * PAGE_4KB) with (page_va a (p + k)).
  - apply u64_small. by apply page_va_u64.
  - unfold page_va. lia.
Qed.

Lemma page_va_base a p : arena_page a p -> u64 (arena_base a + u64 (p * PAGE_4KB)) = page_va a p.
Proof. intros Hp. rewrite u64_add_r. apply u64_small. by apply (page_va_u64 a p). Qed.

(** Two addresses lie in the same page of an arena exactly when their page
    numbers below the canonical half agree. *)
Lemma page_va_inj a p b q : arena_page a p -> arena_page b q -> page_va a p = page_va b q -> a = b /\ p = q.
Proof. intros [Ha Hp] [Hb Hq]. unfold page_va. arena_lia. Qed.

Lemma vprefix_window x : 0xFFFF000000000000 <= x < 2 ^ 64 -> vprefix 0 x = (x - 0xFFFF000000000000) / PAGE_4KB.
Proof.
  intros Hx. unfold vprefix. change (span 1) with PAGE_4KB. f_equal.
  replace x with ((x - 0xFFFF000000000000) + 65535 * 2 ^ 48) at 1 by lia.
  rewrite Z.mod_add, Z.mod_small by lia. lia.
Qed.

Lemma vprefix_page a p b q : arena_page a p -> arena_page b q ->
  vprefix 0 (page_va a p) = vprefix 0 (page_va b q) -> a = b /\ p = q.
Proof.
  intros Hp Hq. pose proof (page_va_range a p Hp). pose proof (page_va_range b q Hq).
  pose proof (page_va_aligned a p Hp). pose proof (page_va_aligned b q Hq).
  unfold PAGE_4KB in *. rewrite !vprefix_window by lia. intros E. apply (page_va_inj a p b q); [done..|].
  unfold PAGE_4KB in *. div_lia.
Qed.

(** ** Translations, as far as the allocator depends on them *)

(** Level and physical address of a translation: what survives a change of
    the ring-3 reachability. *)
Definition leaf_of (o : option KE_PT_MAPPING) : option (Z * Z) := (fun mp => (Level mp, PhysicalBase mp)) <$> o.

Lemma same_leaf strict o o' : same_mapping strict o o' -> leaf_of o' = leaf_of o.
Proof. destruct o, o'; simpl; try done. by intros (-> & _). Qed.

Section invariant.
Context `{PageAllocatorLaws P}.
Implicit Type s : KE_KVA_STATE P.

Definition root s : Z := RootPageTablePhys (gKernelAddressSpace s).
Definition leaf s (va : Z) : option (Z * Z) := leaf_of (translate (mem (mach s)) (root s) va).

(** ** Records and page states *)

Definition covers (r : KE_KVA_RANGE_RECORD) (a p : Z) : Prop :=
  InUse r = true /\ Arena r = a /\ BasePageIndex r <= p < BasePageIndex r + TotalPages r.

Definition first_usable (r : KE_KVA_RANGE_RECORD) : Z := BasePageIndex r + GuardLowerPages r.

Definition usable (r : KE_KVA_RANGE_RECORD) (p : Z) : Prop :=
  first_usable r <= p < first_usable r + UsablePages r.

#[export] Instance usable_dec r p : Decision (usable r p).
Proof. unfold usable. apply _. Defined.

Record record_ok (r : KE_KVA_RANGE_RECORD) : Prop := mkRecordOk {
  rk_arena : 0 <= Arena r < KE_KVA_ARENA_MAX;
  rk_usable : 0 < UsablePages r;
  rk_guards : 0 <= GuardLowerPages r /\ 0 <= GuardUpperPages r;
  rk_total : TotalPages r = GuardLowerPages r + UsablePages r + GuardUpperPages r;
  rk_range : 0 <= BasePageIndex r /\ BasePageIndex r + TotalPages r <= arena_pages (Arena r);
  rk_generation : 0 < Generation r < 2 ^ 64
}.

Definition state_at (arenas : list KE_KVA_ARENA_STATE) (a p : Z) : option Z :=
  arenas !! Z.to_nat a ≫= fun arena => PageStates arena !! Z.to_nat p.

Definition arena_ok (a : Z) (arena : KE_KVA_ARENA_STATE) : Prop :=
  BaseAddress arena = arena_base a /\ SizeBytes arena = arena_pages a * PAGE_4KB /\
  PageCount arena = arena_pages a /\ Z.of_nat (length (PageStates arena)) = arena_pages a.

(** A record in use at index [i]. *)
Definition active (ranges : list KE_KVA_RANGE_RECORD) (i : nat) (r : KE_KVA_RANGE_RECORD) : Prop :=
  ranges !! i = Some r /\ InUse r = true.

(** The generations the counter has handed out. *)
Definition generation_spent (counter g : Z) : Prop := 0 < g < 2 ^ 64 /\ (counter = 0 \/ g < counter).

Record layout_ok (arenas : list KE_KVA_ARENA_STATE) (ranges : list KE_KVA_RANGE_RECORD)
    (slots : list Z) (counter : Z) : Prop := mkLayout {
  lo_arenas : length arenas = 3%nat;
  lo_arena a arena : 0 <= a -> arenas !! Z.to_nat a = Some arena -> arena_ok a arena;
  lo_ranges : Z.of_nat (length ranges) = KE_KVA_MAX_RANGES;
  lo_ids i r : ranges !! i = Some r -> RecordId r = Z.of_nat i + 1;
  lo_record i r : active ranges i r -> record_ok r;
  lo_disjoint i j r r' p : active ranges i r -> active ranges j r' ->
    covers r (Arena r') p -> covers r' (Arena r') p -> i = j;
  lo_covered i r p : active ranges i r -> covers r (Arena r) p ->
    state_at arenas (Arena r) p =
      Some (if decide (usable r p) then KE_KVA_PAGE_STATE_ALLOC else KE_KVA_PAGE_STATE_GUARD);
  lo_free a p : arena_page a p -> (forall i r, active ranges i r -> ~ covers r a p) ->
    state_at arenas a p = Some KE_KVA_PAGE_STATE_FREE \/
    (a = KE_KVA_ARENA_FIXMAP /\ state_at arenas a p = Some KE_KVA_PAGE_STATE_RETIRED /\
     slots !! Z.to_nat p = Some KE_TEMP_MAP_TOKEN_GENERATION_MASK);
  lo_slots : Z.of_nat (length slots) = KE_KVA_FIXMAP_ARENA_PAGES /\
    Forall (fun g => 0 <= g <= KE_TEMP_MAP_TOKEN_GENERATION_MASK) slots;
  lo_counter : 0 <= counter < 2 ^ 64;
  lo_spent i r : active ranges i r -> Arena r <> KE_KVA_ARENA_FIXMAP -> generation_spent counter (Generation r)
}.

(** ** Mappings *)

(** The page [p] of arena [a] is backed by the frame [pa] of an owning range. *)
Definition owns s (a p pa : Z) : Prop :=
  exists i r, active (gKvaRanges s) i r /\ OwnsPhysicalBacking r = true /\ Arena r = a /\ usable r p /\
    leaf s (page_va a p) = Some (1, pa).

Record kva_ok s (G : tables) : Prop := mkKvaOk {
  kv_init : gKvaInitialized s = true;
  kv_layout : layout_ok (gKvaArenas s) (gKvaRanges s) (gFixmapSlotGenerations s) (gKvaRangeGenerationCounter s);
  kv_space : space_ok (gKernelAddressSpace s) (mem (mach s)) G;
  kv_frames : frames_ok (pmm (mach s));
  kv_used : tables_used G (pmm (mach s));
  kv_mapped a p l pa : arena_page a p -> leaf s (page_va a p) = Some (l, pa) ->
    l = 1 /\ exists i r, active (gKvaRanges s) i r /\ Arena r = a /\ usable r p;
  kv_owned a p pa : owns s a p pa -> frame pa /\ frame_state (pmm (mach s)) pa = PMM_PAGE_ALLOCATED /\ G !! pa = None;
  kv_private a p b q pa : owns s a p pa -> owns s b q pa -> a = b /\ p = q
}.

(** ** First consequences *)

Lemma usable_page r p : record_ok r -> usable r p ->
  arena_page (Arena r) p /\ BasePageIndex r <= p < BasePageIndex r + TotalPages r.
Proof.
  intros [Ha Hu [Hg1 Hg2] Ht [Hr1 Hr2] _] Hp. unfold usable, first_usable, arena_page in *. lia.
Qed.
End invariant.
End KvaInv.
