(* ===== verification/KvaLayout.v ===== *)
(** * Page states and records

    The scans and fills of the page-state arrays, and the four ways the
    operations change the layout: a record takes free pages, a record is
    released, a fixmap page is retired, and a slot generation grows. *)

From S2P Require Import Prelude Pmm PageTable Kva KvaInv.

Local Open Scope Z_scope.

Module KvaLayout.
Import PageTable Kva KvaInv.

(** ** Loops over the arrays *)

Lemma find_index_run {A} (f : A -> res bool) (g : A -> bool) (l : list A) k :
  (forall x, x ∈ l -> f x = Ok (g x)) ->
  exists o, find_index f k l = Ok o /\
    match o with
    | None => forall x, x ∈ l -> g x = false
    | Some i => exists n x, i = k + Z.of_nat n /\ l !! n = Some x /\ g x = true /\
                  forall m y, (m < n)%nat -> l !! m = Some y -> g y = false
    end.
Proof.
  revert k. induction l as [|x l IH]; intros k Hf.
  { exists None. split; [done|]. by intros x Hx%not_elem_of_nil. }
  cbn [find_index]. rewrite (Hf x) by (by left). cbn [res_bind]. destruct (g x) eqn:Eg.
  - exists (Some k). split; [done|]. exists 0%nat, x. split; [lia|]. split; [done|]. split; [done|]. lia.
  - destruct (IH (k + 1)) as (o & -> & Ho); [intros y Hy; apply Hf; by right|]. exists o. split; [done|].
    destruct o as [i|].
    + destruct Ho as (n & y & -> & Hn & Hy & Hbefore). exists (S n), y.
      split; [lia|]. split; [done|]. split; [done|]. intros [|m] z Hm Hz.
      * simpl in Hz. congruence.
      * apply (Hbefore m); [lia | done].
    + intros y [->|Hy]%elem_of_cons; [done | by apply Ho].
Qed.

(** [n] pages from [page] on have state [v]. *)
Definition all_in_state (v : Z) (states : list Z) (page n : Z) : Prop :=
  forall p, page <= p < page + n -> states !! Z.to_nat p = Some v.

Lemma pages_free_run n page states :
  0 <= page -> page + Z.of_nat n <= Z.of_nat (length states) ->
  exists b, pages_free n page states = Ok b /\
    (b = true <-> all_in_state KE_KVA_PAGE_STATE_FREE states page (Z.of_nat n)).
Proof.
  revert page. induction n as [|n IH]; intros page Hp Hn.
  { exists true. split; [done|]. split; [|done]. intros _ p. lia. }
  cbn [pages_free]. destruct (rd_in states page) as [v Hv]; [lia|]. rewrite Hv. cbn [res_bind].
  apply rd_ok in Hv as [_ Hv]. destruct (Z.eqb_spec v KE_KVA_PAGE_STATE_FREE) as [E|E]; cbn [negb].
  - destruct (IH (page + 1)) as (b & -> & Hb); [lia..|]. exists b. split; [done|]. rewrite Hb. split.
    + intros Ha p Hpp. destruct (decide (p = page)) as [->|]; [by rewrite Hv, E | apply Ha; lia].
    + intros Ha p Hpp. apply Ha. lia.
  - exists false. split; [done|]. split; [done|]. intros Ha. rewrite (Ha page) in Hv by lia. congruence.
Qed.

Lemma find_run_run n base total states :
  0 <= base -> 0 < total -> base + Z.of_nat n + total - 1 <= Z.of_nat (length states) ->
  exists o, find_run n base total states = Ok o /\
    match o with
    | None => forall b, base <= b < base + Z.of_nat n -> ~ all_in_state KE_KVA_PAGE_STATE_FREE states b total
    | Some b => base <= b < base + Z.of_nat n /\ all_in_state KE_KVA_PAGE_STATE_FREE states b total /\
                forall b', base <= b' < b -> ~ all_in_state KE_KVA_PAGE_STATE_FREE states b' total
    end.
Proof.
  revert base. induction n as [|n IH]; intros base Hb Ht Hn.
  { exists None. split; [done|]. lia. }
  cbn [find_run]. destruct (pages_free_run (Z.to_nat total) base states) as (ok & -> & Hok); [lia..|].
  rewrite Z2Nat.id in Hok by lia. cbn [res_bind]. destruct ok.
  - exists (Some base). split; [done|]. split; [lia|]. split; [by apply Hok | lia].
  - assert (Hno : ~ all_in_state KE_KVA_PAGE_STATE_FREE states base total) by (intros Ha; by apply Hok in Ha).
    destruct (IH (base + 1)) as (o & -> & Ho); [lia..|]. exists o. split; [done|].
    destruct o as [b|].
    + destruct Ho as (H1 & H2 & H3). split; [lia|]. split; [done|]. intros b' Hb'.
      destruct (decide (b' = base)) as [->|]; [done | apply H3; lia].
    + intros b' Hb'. destruct (decide (b' = base)) as [->|]; [done | apply Ho; lia].
Qed.

(** Writing a run of the array. *)
Lemma fill_run (v : Z -> Z) n base states :
  0 <= base -> base + Z.of_nat n <= Z.of_nat (length states) -> base + Z.of_nat n < 2 ^ 64 ->
  exists states', for_loop n 0 (fun offset states => wr states (u64 (base + offset)) (v offset)) states = Ok states' /\
    length states' = length states /\
    forall p, 0 <= p -> states' !! Z.to_nat p =
      if decide (base <= p < base + Z.of_nat n) then Some (v (p - base)) else states !! Z.to_nat p.
Proof.
  intros Hb Hn Hw.
  destruct (for_loop_rule (fun k states' => length states' = length states /\
      forall p, 0 <= p -> states' !! Z.to_nat p =
        if decide (base <= p < base + k) then Some (v (p - base)) else states !! Z.to_nat p)
    n 0 (fun offset states => wr states (u64 (base + offset)) (v offset)) states) as (st & -> & H1 & H2).
  - split; [done|]. intros p Hp. by rewrite decide_False by lia.
  - intros j t Hj [Hl Ht]. rewrite u64_small by word_lia. rewrite wr_in by lia. eexists. split; [done|].
    split; [by rewrite length_insert|]. intros p Hp. destruct (decide (p = base + j)) as [->|Hne].
    + rewrite list_lookup_insert_eq by lia. rewrite decide_True by lia. f_equal. f_equal. lia.
    + rewrite list_lookup_insert_ne by lia. rewrite Ht by done.
      destruct (decide (base <= p < base + j)), (decide (base <= p < base + (j + 1))); done || lia.
  - exists st. split; [done|]. split; [done|]. intros p Hp. rewrite Z.add_0_l in H2. by apply H2.
Qed.

(** ** Reading the layout *)

Lemma active_insert ranges idx r i r' : (idx < length ranges)%nat ->
  active (<[idx := r]> ranges) i r' <-> (i = idx /\ r' = r /\ InUse r = true) \/ (i <> idx /\ active ranges i r').
Proof.
  intros Hl. unfold active. destruct (decide (i = idx)) as [->|Hne].
  - rewrite list_lookup_insert_eq by done. split.
    + intros [[= <-] Hu]. by left.
    + intros [(_ & -> & Hu)|[? _]]; done.
  - rewrite list_lookup_insert_ne by done. split; [intros Ha; by right|]. by intros [(-> & _)|[_ Ha]].
Qed.

Lemma active_fun ranges i r r' : active ranges i r -> active ranges i r' -> r = r'.
Proof. intros [E _] [E' _]. congruence. Qed.

Lemma state_at_set arenas a arena states b q : 0 <= a -> 0 <= b -> (Z.to_nat a < length arenas)%nat ->
  state_at (<[Z.to_nat a := with_states arena states]> arenas) b q =
    if decide (b = a) then states !! Z.to_nat q else state_at arenas b q.
Proof.
  intros Ha Hb Hl. unfold state_at. destruct (decide (b = a)) as [->|Hne].
  - by rewrite list_lookup_insert_eq.
  - by rewrite list_lookup_insert_ne by lia.
Qed.

Lemma covers_page r a p : record_ok r -> covers r a p -> arena_page a p /\ Arena r = a.
Proof. intros R (_ & <- & Hp). destruct R as [Ha Hu [Hg1 Hg2] Ht [Hr1 Hr2] Hg]. unfold arena_page. split; [lia | done]. Qed.

Lemma covers_intro r a p : InUse r = true -> Arena r = a ->
  BasePageIndex r <= p < BasePageIndex r + TotalPages r -> covers r a p.
Proof. by split. Qed.

Section layout.
Context (arenas : list KE_KVA_ARENA_STATE) (ranges : list KE_KVA_RANGE_RECORD) (slots : list Z) (counter : Z).
Hypothesis L : layout_ok arenas ranges slots counter.

Lemma layout_arena a : 0 <= a < KE_KVA_ARENA_MAX ->
  exists arena, rd arenas a = Ok arena /\ arenas !! Z.to_nat a = Some arena /\ arena_ok a arena.
Proof.
  intros Ha. pose proof (lo_arenas _ _ _ _ L) as Hl. unfold KE_KVA_ARENA_MAX in Ha.
  destruct (lookup_lt_is_Some_2 arenas (Z.to_nat a)) as [arena E]; [lia|]. exists arena.
  split; [by apply rd_ok; split; [lia|]|]. split; [done|]. apply (lo_arena _ _ _ _ L); [lia | done].
Qed.

(** A free page belongs to no record. *)
Lemma free_uncovered a p i r : arena_page a p -> state_at arenas a p = Some KE_KVA_PAGE_STATE_FREE ->
  active ranges i r -> ~ covers r a p.
Proof.
  intros _ Hs Ha (Hu & <- & Hp). rewrite (lo_covered _ _ _ _ L i r p Ha) in Hs by done.
  destruct (decide (usable r p)); discriminate.
Qed.

(** Which slot generations may change, and how. *)
Definition slots_grow (slots' : list Z) : Prop :=
  Z.of_nat (length slots') = KE_KVA_FIXMAP_ARENA_PAGES /\
  Forall (fun g => 0 <= g <= KE_TEMP_MAP_TOKEN_GENERATION_MASK) slots' /\
  forall i, slots !! i = Some KE_TEMP_MAP_TOKEN_GENERATION_MASK ->
    slots' !! i = Some KE_TEMP_MAP_TOKEN_GENERATION_MASK.

Lemma slots_grow_refl : slots_grow slots.
Proof. destruct (lo_slots _ _ _ _ L) as [Hl Hf]. by split. Qed.

Lemma layout_slots slots' : slots_grow slots' -> layout_ok arenas ranges slots' counter.
Proof.
  intros (Hl & Hf & Hm). destruct L. constructor; try done.
  intros a p Hp Hn. destruct (lo_free0 a p Hp Hn) as [Hs|(E & Hs & Hg)]; [by left | right].
  split; [done|]. split; [done|]. by apply Hm.
Qed.

Lemma layout_set_arena a arena states : arenas !! Z.to_nat a = Some arena -> 0 <= a ->
  length states = length (PageStates arena) ->
  forall b arena', 0 <= b -> <[Z.to_nat a := with_states arena states]> arenas !! Z.to_nat b = Some arena' ->
  arena_ok b arena'.
Proof.
  intros Ea Ha Hl b arena' Hb E. destruct (decide (b = a)) as [->|Hne].
  - rewrite list_lookup_insert_eq in E by (by eapply lookup_lt_Some). injection E as <-.
    destruct (lo_arena _ _ _ _ L a arena Ha Ea) as (H1 & H2 & H3 & H4). split; [done|]. split; [done|].
    split; [done|]. simpl. by rewrite Hl.
  - rewrite list_lookup_insert_ne in E by lia. by apply (lo_arena _ _ _ _ L).
Qed.

(** A record takes free pages. *)
Lemma layout_take a arena states' idx r0 r counter' :
  0 <= a < KE_KVA_ARENA_MAX -> arenas !! Z.to_nat a = Some arena ->
  ranges !! idx = Some r0 -> InUse r0 = false ->
  InUse r = true -> Arena r = a -> RecordId r = Z.of_nat idx + 1 -> record_ok r ->
  all_in_state KE_KVA_PAGE_STATE_FREE (PageStates arena) (BasePageIndex r) (TotalPages r) ->
  length states' = length (PageStates arena) ->
  (forall p, 0 <= p -> states' !! Z.to_nat p =
     if decide (BasePageIndex r <= p < BasePageIndex r + TotalPages r)
     then Some (if decide (usable r p) then KE_KVA_PAGE_STATE_ALLOC else KE_KVA_PAGE_STATE_GUARD)
     else PageStates arena !! Z.to_nat p) ->
  0 <= counter' < 2 ^ 64 -> (forall g, generation_spent counter g -> generation_spent counter' g) ->
  (a <> KE_KVA_ARENA_FIXMAP -> generation_spent counter' (Generation r)) ->
  layout_ok (<[Z.to_nat a := with_states arena states']> arenas) (<[idx := r]> ranges) slots counter'.
Proof.
  intros Ha Ea Er0 Hu0 Hu Hra Hid R Hfree Hlen Hst Hc Hmono Hsp.
  pose proof (lookup_lt_Some _ _ _ Er0) as Hidx. pose proof (lookup_lt_Some _ _ _ Ea) as Hal.
  assert (Hnew : forall j r', active ranges j r' -> forall p, covers r a p -> covers r' a p -> False).
  { intros j r' Hj p Hp Hp'. destruct (covers_page r a p R Hp) as [Hpage _].
    apply (free_uncovered a p j r' Hpage); [|done|done]. unfold state_at. rewrite Ea. cbn.
    apply Hfree. apply Hp. }
  pose proof (layout_set_arena a arena states' Ea ltac:(lia) Hlen) as Hset.
  assert (Hat : forall b q, 0 <= b -> 0 <= q ->
    state_at (<[Z.to_nat a := with_states arena states']> arenas) b q =
      if decide (b = a /\ BasePageIndex r <= q < BasePageIndex r + TotalPages r)
      then Some (if decide (usable r q) then KE_KVA_PAGE_STATE_ALLOC else KE_KVA_PAGE_STATE_GUARD)
      else state_at arenas b q).
  { intros b q Hb Hq. rewrite state_at_set by lia. destruct (decide (b = a)) as [->|].
    - rewrite Hst by done. unfold state_at. rewrite Ea. cbn [mbind option_bind].
      destruct (decide (BasePageIndex r <= q < BasePageIndex r + TotalPages r)),
        (decide (a = a /\ BasePageIndex r <= q < BasePageIndex r + TotalPages r)); done || tauto.
    - by rewrite decide_False by (by intros [? _]). }
  destruct L as [l1 l2 l3 l4 l5 l6 l7 l8 l9 l10 l11]. constructor.
  - by rewrite length_insert.
  - exact Hset.
  - by rewrite length_insert.
  - intros i r' E. destruct (decide (i = idx)) as [->|].
    + rewrite list_lookup_insert_eq in E by done. congruence.
    + rewrite list_lookup_insert_ne in E by done. by apply l4.
  - intros i r'. rewrite active_insert by done. intros [(_ & -> & _)|[_ ?]]; [done | by eapply l5].
  - intros i j r1 r2 p. rewrite !active_insert by done.
    intros [(-> & -> & _)|[_ H1]] [(-> & -> & _)|[_ H2]] C1 C2; [done| | |by eapply l6].
    + exfalso. assert (E : Arena r2 = a) by (rewrite <- Hra; symmetry; apply C1).
      rewrite E in C1, C2. by apply (Hnew j r2 H2 p).
    + exfalso. rewrite Hra in C1, C2. by apply (Hnew i r1 H1 p).
  - intros i r' p. rewrite active_insert by done. intros [(-> & -> & _)|[Hne Ha']] C.
    + destruct (covers_page r _ p R C) as [[Hp1 Hp2] _]. rewrite Hat by lia. rewrite decide_True; [done|].
      split; [done | apply C].
    + destruct (covers_page r' _ p (l5 i r' Ha') C) as [[Hp1 Hp2] _]. rewrite Hat by lia.
      rewrite decide_False; [by eapply l7|]. intros [E Hin]. rewrite E in C.
      by apply (Hnew i r' Ha' p); [apply covers_intro|].
  - intros b p [Hb Hp] Hno. rewrite Hat by lia. rewrite decide_False.
    + apply l8; [done|]. intros i r' Ha' C. destruct (decide (i = idx)) as [->|Hne].
      * destruct Ha' as [E Ha']. congruence.
      * apply (Hno i r'); [|done]. rewrite active_insert by done. by right.
    + intros [-> Hin]. apply (Hno idx r); [rewrite active_insert by done; by left | by apply covers_intro].
  - done.
  - done.
  - intros i r'. rewrite active_insert by done. intros [(-> & -> & _)|[Hne Ha']] Hn.
    + apply Hsp. congruence.
    + by apply Hmono, (l11 i r').
Qed.

(** A record is released: its pages become free, or retired. *)
Lemma layout_drop arena states' idx r v :
  active ranges idx r -> arenas !! Z.to_nat (Arena r) = Some arena ->
  length states' = length (PageStates arena) ->
  (forall p, 0 <= p -> states' !! Z.to_nat p =
     if decide (BasePageIndex r <= p < BasePageIndex r + TotalPages r) then Some v else PageStates arena !! Z.to_nat p) ->
  (v = KE_KVA_PAGE_STATE_FREE \/
   (v = KE_KVA_PAGE_STATE_RETIRED /\ Arena r = KE_KVA_ARENA_FIXMAP /\ TotalPages r = 1 /\
    slots !! Z.to_nat (BasePageIndex r) = Some KE_TEMP_MAP_TOKEN_GENERATION_MASK)) ->
  layout_ok (<[Z.to_nat (Arena r) := with_states arena states']> arenas)
    (<[idx := blank_record (Z.of_nat idx)]> ranges) slots counter.
Proof.
  intros Hact Ea Hlen Hst Hv. pose proof (lookup_lt_Some _ _ _ Ea) as Hal.
  assert (Hidx : (idx < length ranges)%nat) by (destruct Hact as [E _]; by eapply lookup_lt_Some).
  pose proof (lo_record _ _ _ _ L idx r Hact) as R. pose proof (rk_arena r R) as Hra.
  pose proof (layout_set_arena (Arena r) arena states' Ea ltac:(lia) Hlen) as Hset.
  assert (Hact' : forall i r', active (<[idx := blank_record (Z.of_nat idx)]> ranges) i r' <->
    i <> idx /\ active ranges i r').
  { intros i r'. rewrite active_insert by done. split; [intros [(_ & _ & ?)|?]; done | by right]. }
  destruct L as [l1 l2 l3 l4 l5 l6 l7 l8 l9 l10 l11].
  assert (Hat : forall b q, 0 <= b -> 0 <= q ->
    state_at (<[Z.to_nat (Arena r) := with_states arena states']> arenas) b q =
      if decide (covers r b q) then Some v else state_at arenas b q).
  { intros b q Hb Hq. rewrite state_at_set by lia. destruct (decide (b = Arena r)) as [->|].
    - rewrite Hst by done. unfold state_at. rewrite Ea. cbn [mbind option_bind].
      destruct (decide (BasePageIndex r <= q < BasePageIndex r + TotalPages r)).
      + rewrite decide_True; [done|]. split; [apply Hact | done].
      + rewrite decide_False; [done|]. by intros (_ & _ & ?).
    - rewrite decide_False; [done|]. by intros (_ & ? & _). }
  constructor.
  - by rewrite length_insert.
  - exact Hset.
  - by rewrite length_insert.
  - intros i r' E. destruct (decide (i = idx)) as [->|].
    + rewrite list_lookup_insert_eq in E by done. injection E as <-. simpl.
      unfold KE_KVA_MAX_RANGES in l3. unwrap. done.
    + rewrite list_lookup_insert_ne in E by done. by apply l4.
  - intros i r' [_ Ha]%Hact'. by eapply l5.
  - intros i j r1 r2 p [_ H1]%Hact' [_ H2]%Hact'. by apply l6.
  - intros i r' p [Hne Ha]%Hact' C. destruct (covers_page r' _ p (l5 i r' Ha) C) as [[Hp1 Hp2] _].
    rewrite Hat by lia. rewrite decide_False; [by eapply l7|]. intros C'. apply Hne.
    assert (E : Arena r = Arena r') by apply C'. apply (l6 i idx r' r p Ha Hact); [by rewrite E|].
    by rewrite E.
  - intros b p [Hb Hp] Hno. rewrite Hat by lia. destruct (decide (covers r b p)) as [C|C].
    + destruct Hv as [->|(-> & E1 & E2 & E3)]; [by left | right]. destruct C as (_ & Eb & C).
      split; [congruence|]. split; [done|]. by replace p with (BasePageIndex r) by lia.
    + apply l8; [done|]. intros i r' Ha C'. apply (Hno i r'); [|done]. apply Hact'. split; [|done].
      intros ->. by rewrite (active_fun _ _ _ _ Ha Hact) in C'.
  - done.
  - done.
  - intros i r' [_ Ha]%Hact'. by eapply l11.
Qed.

(** A free fixmap page whose generations are used up is retired. *)
Lemma layout_retire arena p : arena_page KE_KVA_ARENA_FIXMAP p ->
  arenas !! Z.to_nat KE_KVA_ARENA_FIXMAP = Some arena ->
  PageStates arena !! Z.to_nat p = Some KE_KVA_PAGE_STATE_FREE ->
  slots !! Z.to_nat p = Some KE_TEMP_MAP_TOKEN_GENERATION_MASK ->
  layout_ok (<[Z.to_nat KE_KVA_ARENA_FIXMAP :=
      with_states arena (<[Z.to_nat p := KE_KVA_PAGE_STATE_RETIRED]> (PageStates arena))]> arenas) ranges slots counter.
Proof.
  intros Hp Ea Es Hg. pose proof (lookup_lt_Some _ _ _ Ea) as Hal.
  pose proof (layout_set_arena _ arena (<[Z.to_nat p := KE_KVA_PAGE_STATE_RETIRED]> (PageStates arena)) Ea
    ltac:(done) ltac:(by rewrite length_insert)) as Hset.
  assert (Hfree : state_at arenas KE_KVA_ARENA_FIXMAP p = Some KE_KVA_PAGE_STATE_FREE)
    by (unfold state_at; by rewrite Ea).
  pose proof (fun i r => free_uncovered _ p i r Hp Hfree) as Hno.
  assert (Hat : forall b q, 0 <= b -> 0 <= q ->
    state_at (<[Z.to_nat KE_KVA_ARENA_FIXMAP :=
      with_states arena (<[Z.to_nat p := KE_KVA_PAGE_STATE_RETIRED]> (PageStates arena))]> arenas) b q =
      if decide (b = KE_KVA_ARENA_FIXMAP /\ q = p) then Some KE_KVA_PAGE_STATE_RETIRED else state_at arenas b q).
  { intros b q Hb Hq. rewrite state_at_set by (done || lia). destruct (decide (b = KE_KVA_ARENA_FIXMAP)) as [->|].
    - unfold state_at. rewrite Ea. cbn [mbind option_bind]. destruct (decide (q = p)) as [->|].
      + rewrite decide_True by done. apply list_lookup_insert_eq. by eapply lookup_lt_Some.
      + rewrite decide_False by (by intros [_ ?]). destruct Hp as [_ Hp]. apply list_lookup_insert_ne. lia.
    - by rewrite decide_False by (by intros [? _]). }
  destruct L as [l1 l2 l3 l4 l5 l6 l7 l8 l9 l10 l11]. constructor; try done.
  - by rewrite length_insert.
  - intros i r q Ha C. destruct (covers_page r _ q (l5 i r Ha) C) as [[Hp1 Hp2] _].
    rewrite Hat by lia. rewrite decide_False; [by eapply l7|]. intros [E ->]. rewrite E in C. by apply (Hno i r Ha).
  - intros b q [Hb Hq] Hn. rewrite Hat by lia. destruct (decide (b = KE_KVA_ARENA_FIXMAP /\ q = p)) as [[-> ->]|].
    + right. by split_and!.
    + by apply l8.
Qed.
End layout.
End KvaLayout.
