(* ===== verification/KvaMach.v ===== *)
(** * How the allocator's calls change mappings and frames

    The invariant under a change of the machine, the teardown of the pages of
    a range, and the mapping of one page. *)

From S2P Require Import Prelude Pmm PageTable Kva KvaInv KvaLayout.

Local Open Scope Z_scope.

Module KvaMach.
Import PageTable Kva KvaInv KvaLayout.

Section machine.
Context `{PageAllocatorLaws P}.
Implicit Type s : KE_KVA_STATE P.

Lemma kernel_space s G : kva_ok s G -> KeGetKernelAddressSpace s = Some (gKernelAddressSpace s).
Proof. intros K. unfold KeGetKernelAddressSpace. by rewrite (proj1 (kv_space _ _ K)). Qed.

Lemma query_at s G va : kva_ok s G -> is_u64 va -> va mod PAGE_4KB = 0 ->
  KePtQueryPage (KeGetKernelAddressSpace s) (mem (mach s)) va true =
    (EC_SUCCESS, Some (default no_mapping (translate (mem (mach s)) (root s) va))).
Proof. intros K Hv Ha. rewrite (kernel_space s G K). apply (query_page_run _ _ G); [apply K | done..]. Qed.

Lemma state_set_mach s : set_mach s (mach s) = s.
Proof. by destruct s. Qed.

(** What is still mapped was mapped, and the owned frames are still taken. *)
Lemma kva_ok_mach s m G G' :
  kva_ok s G -> space_ok (gKernelAddressSpace s) (mem m) G' -> frames_ok (pmm m) -> tables_used G' (pmm m) ->
  (forall a p lp, arena_page a p -> leaf (set_mach s m) (page_va a p) = Some lp -> leaf s (page_va a p) = Some lp) ->
  (forall a p pa, owns s a p pa -> leaf (set_mach s m) (page_va a p) = Some (1, pa) ->
     frame_state (pmm m) pa = PMM_PAGE_ALLOCATED /\ G' !! pa = None) ->
  kva_ok (set_mach s m) G'.
Proof.
  intros K Hs Hf Hu Hl Ho.
  assert (Hown : forall a p pa, owns (set_mach s m) a p pa -> owns s a p pa).
  { intros a p pa (i & r & Ha & Hb & <- & Hp & E). exists i, r. split_and!; try done. apply Hl; [|done].
    by apply usable_page; [apply (lo_record _ _ _ _ (kv_layout _ _ K) i)|]. }
  constructor; try done; try apply K.
  - intros a p l pa Hp E. by apply (kv_mapped _ _ K a p l pa); [|apply Hl].
  - intros a p pa Hp. pose proof (Hown a p pa Hp) as Hp'. destruct Hp as (i & r & _ & _ & _ & _ & E).
    destruct (Ho a p pa Hp' E). by destruct (kv_owned _ _ K a p pa Hp').
  - intros a p b q pa H1%Hown H2%Hown. by apply (kv_private _ _ K a p b q pa).
Qed.

(** ** Teardown *)

Record torn s s' (G : tables) (a lo hi : Z) (own : bool) : Prop := mkTorn {
  to_same : s' = set_mach s (mach s');
  to_ok : kva_ok s' G;
  to_pages p : lo <= p < hi -> arena_page a p;
  to_gone p : lo <= p < hi -> leaf s' (page_va a p) = None;
  to_others va : (forall p, lo <= p < hi -> vprefix 0 va <> vprefix 0 (page_va a p)) ->
    translate (mem (mach s')) (root s) va = translate (mem (mach s)) (root s) va;
  to_outside x : (forall t y, G !! t = Some y -> ~ t <= x < t + PAGE_4KB) -> mem (mach s') x = mem (mach s) x;
  to_freed p pa : own = true -> lo <= p < hi -> leaf s (page_va a p) = Some (1, pa) ->
    frame_state (pmm (mach s')) pa = PMM_PAGE_FREE;
  to_frames b : b mod PAGE_4KB = 0 ->
    (own = false \/ forall p, lo <= p < hi -> leaf s (page_va a p) <> Some (1, b)) ->
    frame_state (pmm (mach s')) b = frame_state (pmm (mach s)) b
}.

Lemma torn_nil s G a lo own : kva_ok s G -> torn s s G a lo lo own.
Proof.
  intros K. constructor; try done; try (intros; lia). by rewrite state_set_mach.
Qed.

Lemma torn_root s s' G a lo hi own : torn s s' G a lo hi own -> root s' = root s.
Proof. intros T. by rewrite (to_same _ _ _ _ _ _ _ T). Qed.

(** What is owned after a teardown was owned before, and is not a page torn down. *)
Lemma torn_owns s s' G a lo hi own b q pa : kva_ok s G -> torn s s' G a lo hi own -> owns s' b q pa ->
  owns s b q pa /\ forall p, lo <= p < hi -> ~ (b = a /\ q = p).
Proof.
  intros K T (i & r & Ha & Hb & <- & Hq & E).
  assert (Hne : forall p, lo <= p < hi -> ~ (Arena r = a /\ q = p)).
  { intros p Hp [Ea ->]. rewrite Ea in E. by rewrite (to_gone _ _ _ _ _ _ _ T) in E. }
  split; [|done]. rewrite (to_same _ _ _ _ _ _ _ T) in Ha. exists i, r. split_and!; try done.
  assert (Hpage : arena_page (Arena r) q).
  { apply usable_page; [|done]. by apply (lo_record _ _ _ _ (kv_layout _ _ K) i). }
  rewrite <- E. unfold leaf. rewrite (torn_root _ _ _ _ _ _ _ T). f_equal. symmetry.
  apply (to_others _ _ _ _ _ _ _ T). intros p Hp Ev.
  destruct (vprefix_page _ _ _ _ Hpage (to_pages _ _ _ _ _ _ _ T p Hp) Ev). by apply (Hne p).
Qed.

Lemma torn_trans s s1 s2 G i r lo mid hi :
  active (gKvaRanges s) i r -> kva_ok s G ->
  first_usable r <= lo <= mid -> mid <= hi <= first_usable r + UsablePages r ->
  torn s s1 G (Arena r) lo mid (OwnsPhysicalBacking r) ->
  torn s1 s2 G (Arena r) mid hi (OwnsPhysicalBacking r) ->
  torn s s2 G (Arena r) lo hi (OwnsPhysicalBacking r).
Proof.
  intros Ha K Hlo Hhi T1 T2. pose proof (torn_root _ _ _ _ _ _ _ T1) as Hr1.
  pose proof (lo_record _ _ _ _ (kv_layout _ _ K) i r Ha) as R.
  assert (Hpage : forall p, lo <= p < hi -> arena_page (Arena r) p)
    by (intros p Hp; apply usable_page; [done | unfold usable; lia]).
  assert (Hne : forall p q, lo <= p < hi -> lo <= q < hi -> p <> q ->
    vprefix 0 (page_va (Arena r) p) <> vprefix 0 (page_va (Arena r) q)).
  { intros p q Hp Hq Hpq E. by destruct (vprefix_page _ _ _ _ (Hpage p Hp) (Hpage q Hq) E). }
  assert (Hl1 : forall p, mid <= p < hi -> leaf s1 (page_va (Arena r) p) = leaf s (page_va (Arena r) p)).
  { intros p Hp. unfold leaf. rewrite Hr1. f_equal. apply (to_others _ _ _ _ _ _ _ T1).
    intros q Hq. apply Hne; lia. }
  assert (Hl2 : forall p, lo <= p < mid -> leaf s2 (page_va (Arena r) p) = leaf s1 (page_va (Arena r) p)).
  { intros p Hp. unfold leaf. rewrite (torn_root _ _ _ _ _ _ _ T2). f_equal. apply (to_others _ _ _ _ _ _ _ T2).
    intros q Hq. apply Hne; lia. }
  constructor.
  - rewrite (to_same _ _ _ _ _ _ _ T2). by rewrite (to_same _ _ _ _ _ _ _ T1).
  - apply T2.
  - exact Hpage.
  - intros p Hp. destruct (Z.lt_ge_cases p mid).
    + rewrite Hl2 by lia. apply (to_gone _ _ _ _ _ _ _ T1). lia.
    + apply (to_gone _ _ _ _ _ _ _ T2). lia.
  - intros va Hva. rewrite <- (to_others _ _ _ _ _ _ _ T1) by (intros; apply Hva; lia).
    rewrite <- Hr1. apply (to_others _ _ _ _ _ _ _ T2). intros. apply Hva. lia.
  - intros x Hx. rewrite (to_outside _ _ _ _ _ _ _ T2), (to_outside _ _ _ _ _ _ _ T1); done.
  - intros p pa Hown Hp E. destruct (Z.lt_ge_cases p mid).
    + assert (O : owns s (Arena r) p pa).
      { exists i, r. split_and!; try done; unfold usable; lia. }
      destruct (kv_owned _ _ K _ _ _ O) as ([Hal _] & _ & _).
      assert (Hf : frame_state (pmm (mach s1)) pa = PMM_PAGE_FREE)
        by (apply (to_freed _ _ _ _ _ _ _ T1 p); [done | lia | done]).
      rewrite (to_frames _ _ _ _ _ _ _ T2 pa Hal); [done|]. right. intros q Hq E'. rewrite Hl1 in E' by done.
      assert (O' : owns s (Arena r) q pa).
      { exists i, r. split_and!; try done; unfold usable; lia. }
      destruct (kv_private _ _ K _ _ _ _ _ O O'). lia.
    + apply (to_freed _ _ _ _ _ _ _ T2 p); [done | lia | by rewrite Hl1 by lia].
  - intros b Hb Hno. rewrite (to_frames _ _ _ _ _ _ _ T2 b Hb), (to_frames _ _ _ _ _ _ _ T1 b Hb); [done| |];
      (destruct Hno as [|Hno]; [by left | right; intros p Hp]).
    + apply Hno. lia.
    + rewrite Hl1 by done. apply Hno. lia.
Qed.

(** Freeing a frame that nothing the allocator knows of uses. *)
Lemma free_unowned s G pa :
  kva_ok s G -> frame pa -> frame_state (pmm (mach s)) pa = PMM_PAGE_ALLOCATED -> G !! pa = None ->
  (forall a p, ~ owns s a p pa) ->
  exists p', pmm_free (pmm (mach s)) pa 1 = Ok (EC_SUCCESS, p') /\
    kva_ok (set_mach s (set_pmm (mach s) p')) G /\
    (forall b, b mod PAGE_4KB = 0 -> frame_state p' b =
       if decide (b = pa) then PMM_PAGE_FREE else frame_state (pmm (mach s)) b).
Proof.
  intros K [Hal Hrange] Hst HG Hno.
  destruct (pmm_free_law (pmm (mach s)) pa 1) as (st & p' & Ef & Hfo & Hfree); [apply K | done | done | lia |].
  destruct Hfree as [(-> & _ & Hstate)|(_ & _ & Hnot)].
  2: { exfalso. apply Hnot. intros b Hb. rewrite frame_in_one by done. by rewrite bool_decide_eq_true; intros ->. }
  assert (Hfs : forall b, b mod PAGE_4KB = 0 -> frame_state p' b =
    if decide (b = pa) then PMM_PAGE_FREE else frame_state (pmm (mach s)) b).
  { intros b Hb. rewrite Hstate, frame_in_one by done. destruct (decide (b = pa)).
    - by rewrite bool_decide_true.
    - by rewrite bool_decide_false. }
  exists p'. split; [done|]. split; [|done]. apply (kva_ok_mach _ _ G); [done | apply K | done | | done |].
  - intros t [l pre] Ht. destruct (tr_label _ _ _ (proj2 (kv_space _ _ K)) t l pre Ht) as [[Hta _] _].
    simpl. rewrite Hfs by done. rewrite decide_False; [by apply (kv_used _ _ K t (l, pre))|].
    intros ->. congruence.
  - intros a q pb Oq _. destruct (kv_owned _ _ K _ _ _ Oq) as ([Hqa _] & Hq1 & Hq2). split; [|done].
    simpl. rewrite Hfs by done. rewrite decide_False; [done|]. intros ->. by apply (Hno a q).
Qed.

(** Unmapping one page of a range. *)
Lemma unmap_range_page s G i r p mp :
  kva_ok s G -> active (gKvaRanges s) i r -> usable r p ->
  translate (mem (mach s)) (root s) (page_va (Arena r) p) = Some mp ->
  Level mp = 1 /\
  exists m, KePtUnmapPage (KeGetKernelAddressSpace s) (page_va (Arena r) p) (mach s) = (EC_SUCCESS, m) /\
    torn s (set_mach s m) G (Arena r) p (p + 1) false.
Proof.
  intros K Ha Hp Et.
  destruct (usable_page r p) as [Hpage _]; [by apply (lo_record _ _ _ _ (kv_layout _ _ K) i) | done |].
  set (va := page_va (Arena r) p) in *.
  assert (El : leaf s va = Some (Level mp, PhysicalBase mp)) by (unfold leaf; by rewrite Et).
  destruct (kv_mapped _ _ K (Arena r) p _ _ Hpage El) as [Hlev _]. split; [done|]. rewrite Hlev in El.
  pose proof (unmap_page_run (gKernelAddressSpace s) (mach s) G va (kv_space _ _ K)
    (page_va_u64 _ _ Hpage) (page_va_aligned _ _ Hpage)) as Hu. cbv zeta in Hu.
  rewrite (kernel_space s G K). destruct (KePtUnmapPage _ va (mach s)) as [st m] eqn:Eu.
  change (RootPageTablePhys (gKernelAddressSpace s)) with (root s) in Hu.
  rewrite Et, Hlev, Z.eqb_refl in Hu. destruct Hu as (-> & Hgone & Hoth & Htree & Hpmm & _ & Hout).
  exists m. split; [done|].
  constructor; simpl; try done.
  2: { intros q Hq. by replace q with p by lia. }
  - apply (kva_ok_mach _ _ G); [done | split; [apply K | done] | rewrite Hpmm; apply K | rewrite Hpmm; apply K | |].
    + intros a q lp Hq E. unfold leaf in *. simpl in E. change (root (set_mach s m)) with (root s) in E.
      destruct (decide (a = Arena r /\ q = p)) as [[-> ->]|Hne].
      * fold va in E. by rewrite Hgone in E.
      * rewrite Hoth in E; [done|]. intros E'. apply Hne. by apply vprefix_page.
    + intros a q pa Oq _. rewrite Hpmm. by destruct (kv_owned _ _ K _ _ _ Oq) as (_ & ? & ?).
  - intros q Hq. replace q with p by lia. unfold leaf. simpl. fold va.
    change (root (set_mach s m)) with (root s). by rewrite Hgone.
  - intros va' Hne. apply Hoth. apply Hne. lia.
  - intros b Hb _. by rewrite Hpmm.
Qed.

(** ... and freeing its frame when the range owns it. *)
Lemma unmap_step s G i r p mp :
  kva_ok s G -> active (gKvaRanges s) i r -> usable r p ->
  translate (mem (mach s)) (root s) (page_va (Arena r) p) = Some mp ->
  Level mp = 1 /\
  exists m s', KePtUnmapPage (KeGetKernelAddressSpace s) (page_va (Arena r) p) (mach s) = (EC_SUCCESS, m) /\
    (if OwnsPhysicalBacking r then
       let* (status, p) := pmm_free (pmm m) (PhysicalBase mp) 1 in
       if negb (succeeded status) then Panic status else Ok (set_mach (set_mach s m) (set_pmm m p))
     else Ok (set_mach s m)) = Ok s' /\
    torn s s' G (Arena r) p (p + 1) (OwnsPhysicalBacking r).
Proof.
  intros K Ha Hp Et. destruct (unmap_range_page s G i r p mp K Ha Hp Et) as (Hlev & m & Eu & T).
  split; [done|]. exists m. destruct (OwnsPhysicalBacking r) eqn:Eo; [|by exists (set_mach s m)].
  assert (El : leaf s (page_va (Arena r) p) = Some (1, PhysicalBase mp)) by (unfold leaf; by rewrite Et, <- Hlev).
  assert (O : owns s (Arena r) p (PhysicalBase mp)) by (by exists i, r).
  destruct (kv_owned _ _ K _ _ _ O) as (Hfr & Hst & HG).
  pose proof (fun b Hb => to_frames _ _ _ _ _ _ _ T b Hb (or_introl eq_refl)) as Hsame. simpl in Hsame.
  destruct (free_unowned (set_mach s m) G (PhysicalBase mp) (to_ok _ _ _ _ _ _ _ T)) as (p' & Ef & K' & Hfs);
    [done | simpl; rewrite Hsame; [done | apply Hfr] | done | |].
  { intros a q Oq. destruct (torn_owns _ _ _ _ _ _ _ _ _ _ K T Oq) as [Oq' Hne].
    destruct (kv_private _ _ K _ _ _ _ _ O Oq') as [<- <-]. apply (Hne p); [lia | done]. }
  exists (set_mach (set_mach s m) (set_pmm m p')). simpl in Ef. rewrite Ef. split; [done|]. split; [done|].
  constructor; simpl; try done.
  - apply (to_pages _ _ _ _ _ _ _ T).
  - intros q Hq. by apply (to_gone _ _ _ _ _ _ _ T).
  - intros va Hva. by apply (to_others _ _ _ _ _ _ _ T).
  - intros x Hx. by apply (to_outside _ _ _ _ _ _ _ T).
  - intros q pa _ Hq E. replace q with p in E by lia. rewrite El in E. injection E as <-.
    rewrite Hfs by apply Hfr. by rewrite decide_True.
  - intros b Hb [|Hno]; [done|]. rewrite Hfs by done. rewrite decide_False; [by apply Hsame|].
    intros ->. apply (Hno p); [lia | done].
Qed.

Lemma translate_present m r va mp : translate m r va = Some mp -> Present mp = true.
Proof.
  unfold translate. generalize 4%nat. intros l. revert r. generalize true at 1. intros u.
  revert u. induction l as [|l IH]; intros u t E; [done|].
  cbn [hw_walk] in E. cbv zeta in E. destruct (has _ PTE_PRESENT); [|done]. cbn [negb] in E.
  destruct (bool_decide _ || _); [by injection E as <- | by eapply IH].
Qed.

(** The teardown loop never fails on a record of a consistent state. *)
Lemma teardown_run n lo started s G i r :
  kva_ok s G -> active (gKvaRanges s) i r ->
  first_usable r <= lo -> lo + Z.of_nat n = first_usable r + UsablePages r ->
  exists s', teardown n (lo - first_usable r) (OwnsPhysicalBacking r) (page_va (Arena r) (first_usable r)) started s
      = Ok (EC_SUCCESS, s') /\
    torn s s' G (Arena r) lo (lo + Z.of_nat n) (OwnsPhysicalBacking r).
Proof.
  revert lo started s. induction n as [|n IH]; intros lo started s K Ha Hlo Hn.
  { exists s. split; [done|]. rewrite Z.add_0_r. by apply torn_nil. }
  pose proof (lo_record _ _ _ _ (kv_layout _ _ K) i r Ha) as R.
  assert (Hu : usable r lo) by (unfold usable; lia).
  destruct (usable_page r lo R Hu) as [Hpage _].
  assert (Hva : u64 (page_va (Arena r) (first_usable r) + u64 ((lo - first_usable r) * PAGE_4KB)) =
    page_va (Arena r) lo).
  { rewrite page_va_offset; [f_equal; lia|]. by replace (first_usable r + (lo - first_usable r)) with lo by lia. }
  cbn [teardown]. cbv zeta. rewrite Hva, (query_at s G) by (done || by apply page_va_u64 || by apply page_va_aligned).
  replace (lo - first_usable r + 1) with (lo + 1 - first_usable r) by lia.
  replace (lo + Z.of_nat (S n)) with (lo + 1 + Z.of_nat n) by lia.
  destruct (translate (mem (mach s)) (root s) (page_va (Arena r) lo)) as [mp|] eqn:Et; cbn [default].
  - cbn [from_option id]. rewrite (translate_present _ _ _ _ Et). cbn [negb].
    destruct (unmap_step s G i r lo mp K Ha Hu Et) as (Hlev & m & s1 & Eu & Ef & T1).
    rewrite Hlev, Z.eqb_refl. cbn [negb]. rewrite Eu. cbv beta iota zeta.
    change (succeeded EC_SUCCESS) with true. cbn [negb]. 
    change (pmm (mach (set_mach s m))) with (pmm m). change (mach (set_mach s m)) with m.
    rewrite Ef. cbn [res_bind].
    assert (Ha1 : active (gKvaRanges s1) i r) by (by rewrite (to_same _ _ _ _ _ _ _ T1)).
    destruct (IH (lo + 1) true s1 (to_ok _ _ _ _ _ _ _ T1) Ha1) as (s2 & E2 & T2); [lia..|].
    exists s2. split; [done|]. apply (torn_trans s s1 s2 G i r lo (lo + 1)); try done; lia.
  - cbn [from_option negb Present no_mapping]. destruct (IH (lo + 1) started s K Ha) as (s2 & E2 & T2); [lia..|].
    exists s2. split; [done|]. apply (torn_trans s s s2 G i r lo (lo + 1)); try done; try lia.
    constructor; try done.
    + by rewrite state_set_mach.
    + intros p Hp. by replace p with lo by lia.
    + intros p Hp. replace p with lo by lia. unfold leaf. by rewrite Et.
    + intros p pa _ Hp. replace p with lo by lia. unfold leaf. by rewrite Et.
Qed.

End machine.
End KvaMach.
