(* ===== verification/KvaOps.v ===== *)
(** * The operations of the kernel virtual-address allocator

    Every operation returns on a consistent state, keeps it consistent, and
    does to the records, the page states, the mappings and the frames exactly
    what its lemma says. *)

From S2P Require Import Prelude Pmm PageTable Kva KvaInv KvaLayout KvaMach.

Local Open Scope Z_scope.

Module KvaOps.
Import PageTable Kva KvaInv KvaLayout KvaMach.

(** The handle that describes a record. *)
Definition range_of (r : KE_KVA_RANGE_RECORD) : KE_KVA_RANGE :=
  mkRange (Arena r) (RecordId r) (Generation r) (page_va (Arena r) (BasePageIndex r))
    (page_va (Arena r) (first_usable r)) (TotalPages r) (UsablePages r) (GuardLowerPages r) (GuardUpperPages r).

Lemma usable_base arena r : arena_ok (Arena r) arena -> record_ok r ->
  KiKvaRecordUsableBase arena r = page_va (Arena r) (first_usable r).
Proof.
  intros (Hb & _) R. unfold KiKvaRecordUsableBase. rewrite Hb, u64_mul_l. apply page_va_base.
  apply usable_page; [done|]. unfold usable. destruct R. lia.
Qed.

Lemma record_base arena r : arena_ok (Arena r) arena -> record_ok r ->
  u64 (BaseAddress arena + u64 (BasePageIndex r * PAGE_4KB)) = page_va (Arena r) (BasePageIndex r).
Proof.
  intros (Hb & _) R. rewrite Hb. apply page_va_base. destruct R as [? ? [? ?] ? [? ?] ?].
  unfold arena_page. lia.
Qed.

Lemma arena_state_small a : 0 <= a < KE_KVA_ARENA_MAX -> KiKvaArenaState a = Some a.
Proof. intros Ha. unfold KiKvaArenaState. by rewrite (proj2 (Z.leb_gt _ _)) by lia. Qed.

Section operations.
Context `{PageAllocatorLaws P}.
Implicit Type s : KE_KVA_STATE P.

Lemma kva_arena s G a : kva_ok s G -> 0 <= a < KE_KVA_ARENA_MAX ->
  exists arena, rd (gKvaArenas s) a = Ok arena /\ gKvaArenas s !! Z.to_nat a = Some arena /\ arena_ok a arena.
Proof. intros K. apply (layout_arena _ _ _ _ (kv_layout _ _ K)). Qed.

Lemma kva_record s G i r : kva_ok s G -> active (gKvaRanges s) i r -> record_ok r.
Proof. intros K. apply (lo_record _ _ _ _ (kv_layout _ _ K)). Qed.

Lemma kva_record_id s G i r : kva_ok s G -> active (gKvaRanges s) i r -> RecordId r = Z.of_nat i + 1.
Proof. intros K [E _]. by apply (lo_ids _ _ _ _ (kv_layout _ _ K)). Qed.

Lemma kva_index s G i (r : KE_KVA_RANGE_RECORD) : kva_ok s G -> gKvaRanges s !! i = Some r -> Z.of_nat i < KE_KVA_MAX_RANGES.
Proof. intros K E. rewrite <- (lo_ranges _ _ _ _ (kv_layout _ _ K)). apply lookup_lt_Some in E. lia. Qed.

Lemma read_record s i r : gKvaRanges s !! i = Some r -> rd (gKvaRanges s) (Z.of_nat i) = Ok r.
Proof. intros E. apply rd_ok. split; [lia|]. by rewrite Nat2Z.id. Qed.

(** ** Finding records *)

Lemma find_free_record_run s :
  exists o, find_free_record s = Ok o /\
    match o with
    | None => forall i r, gKvaRanges s !! i = Some r -> InUse r = true
    | Some k => exists i r, k = Z.of_nat i /\ gKvaRanges s !! i = Some r /\ InUse r = false /\
                  forall j r', (j < i)%nat -> gKvaRanges s !! j = Some r' -> InUse r' = true
    end.
Proof.
  unfold find_free_record.
  destruct (find_index_run (fun r => Ok (negb (InUse r))) (fun r => negb (InUse r)) (gKvaRanges s) 0) as (o & -> & Ho);
    [done|]. exists o. split; [done|]. destruct o as [k|].
  - destruct Ho as (n & r & -> & E & Hu & Hb). exists n, r. rewrite negb_true_iff in Hu. split_and!; try done.
    intros j r' Hj Er. apply negb_false_iff. by apply (Hb j).
  - intros i r E. apply negb_false_iff, Ho. by apply list_elem_of_lookup_2 in E.
Qed.

Lemma find_by_base_run s G va : kva_ok s G ->
  exists o, KiKvaFindRecordByUsableBase s va = Ok o /\
    match o with
    | None => forall i r, active (gKvaRanges s) i r -> page_va (Arena r) (first_usable r) <> va
    | Some k => exists i r, k = Z.of_nat i /\ active (gKvaRanges s) i r /\ page_va (Arena r) (first_usable r) = va
    end.
Proof.
  intros K. unfold KiKvaFindRecordByUsableBase.
  destruct (find_index_run (fun record =>
    if negb (InUse record) then Ok false else
    match KiKvaArenaState (Arena record) with
    | None => Ok false
    | Some a =>
        let* arena := rd (gKvaArenas s) a in
        Ok (KiKvaRecordUsableBase arena record =? va)
    end) (fun r => InUse r && (page_va (Arena r) (first_usable r) =? va)) (gKvaRanges s) 0) as (o & -> & Ho).
  { intros r Hr. apply list_elem_of_lookup in Hr as [i Hr]. destruct (InUse r) eqn:Hu; cbn [negb andb]; [|done].
    assert (Ha : active (gKvaRanges s) i r) by done. pose proof (kva_record s G i r K Ha) as R.
    rewrite arena_state_small by apply R.
    destruct (kva_arena s G (Arena r) K) as (arena & -> & _ & Hok); [apply R|].
    cbn [res_bind]. by rewrite usable_base. }
  exists o. split; [done|]. destruct o as [k|].
  - destruct Ho as (n & r & -> & E & (Hu & Hv%Z.eqb_eq)%andb_true_iff & _). by exists n, r.
  - intros i r [E Hu] Hv. assert (Hr : r ∈ gKvaRanges s) by (by apply list_elem_of_lookup_2 in E).
    specialize (Ho r Hr). simpl in Ho. rewrite Hu, (proj2 (Z.eqb_eq _ _) Hv) in Ho. done.
Qed.

Lemma find_by_id_run s G rg : kva_ok s G -> is_u32 (RgRecordId rg) ->
  exists o, KiKvaFindRecordById s (Some rg) = Ok o /\
    match o with
    | None => forall i r, active (gKvaRanges s) i r -> range_of r <> rg
    | Some k => exists i r, k = Z.of_nat i /\ active (gKvaRanges s) i r /\ range_of r = rg
    end.
Proof.
  intros K Hid. unfold KiKvaFindRecordById.
  pose proof (lo_ranges _ _ _ _ (kv_layout _ _ K)) as Hlen.
  destruct (Z.eqb_spec (RgRecordId rg) 0) as [E0|E0]; cbn [orb].
  { exists None. split; [done|]. intros i r Ha <-. simpl in E0. rewrite (kva_record_id s G i r K Ha) in E0. lia. }
  destruct (Z.ltb_spec KE_KVA_MAX_RANGES (RgRecordId rg)) as [E1|E1].
  { exists None. split; [done|]. intros i r Ha <-. simpl in E1. rewrite (kva_record_id s G i r K Ha) in E1.
    pose proof (kva_index s G i r K (proj1 Ha)). lia. }
  destruct (Z.eqb_spec (RgGeneration rg) 0) as [Eg|Eg].
  { exists None. split; [done|]. intros i r Ha <-. simpl in Eg.
    destruct (rk_generation r (kva_record s G i r K Ha)). lia. }
  destruct (rd_in (gKvaRanges s) (RgRecordId rg - 1)) as [r Er]; [unfold is_u32 in *; lia|].
  rewrite Er. cbn [res_bind]. apply rd_ok in Er as [_ Er]. set (k := Z.to_nat (RgRecordId rg - 1)) in *.
  assert (Honly : forall i r', active (gKvaRanges s) i r' -> range_of r' = rg -> i = k /\ r' = r /\ InUse r = true).
  { intros i r' Ha Hr. assert (E : RgRecordId rg = Z.of_nat i + 1) by (rewrite <- Hr; by apply (kva_record_id s G)).
    assert (i = k) as -> by (unfold k; lia). destruct Ha as [Ea Hu]. rewrite Er in Ea. injection Ea as ->. done. }
  assert (Hnone : (InUse r = true -> range_of r <> rg) ->
    exists o, Ok (A:=option Z) None = Ok o /\
    match o with
    | None => forall i r, active (gKvaRanges s) i r -> range_of r <> rg
    | Some k => exists i r, k = Z.of_nat i /\ active (gKvaRanges s) i r /\ range_of r = rg
    end).
  { intros Hn. exists None. split; [done|]. intros i r' Ha Hr. destruct (Honly i r' Ha Hr) as (_ & -> & Hu).
    by apply Hn. }
  destruct (InUse r) eqn:Hu; cbn [negb]; [|by apply Hnone].
  assert (Ha : active (gKvaRanges s) k r) by done. pose proof (kva_record s G k r K Ha) as R.
  destruct (Z.eqb_spec (Arena r) (RgArena rg)) as [Ea|Ea]; cbn [negb]; [|apply Hnone; by intros _ <-].
  destruct (Z.eqb_spec (Generation r) (RgGeneration rg)) as [Ege|Ege]; cbn [negb]; [|apply Hnone; by intros _ <-].
  rewrite arena_state_small by apply R. destruct (kva_arena s G (Arena r) K) as (arena & -> & _ & Hok); [apply R|].
  cbn [res_bind]. rewrite record_base, usable_base by done.
  destruct (Z.eqb_spec (page_va (Arena r) (BasePageIndex r)) (RgBaseAddress rg)) as [Eb|Eb]; cbn [negb];
    [|apply Hnone; by intros _ <-].
  destruct (Z.eqb_spec (page_va (Arena r) (first_usable r)) (RgUsableBase rg)) as [Ev|Ev]; cbn [negb];
    [|apply Hnone; by intros _ <-].
  destruct (Z.eqb_spec (TotalPages r) (RgTotalPages rg)) as [Et|Et]; cbn [negb orb]; [|apply Hnone; by intros _ <-].
  destruct (Z.eqb_spec (UsablePages r) (RgUsablePages rg)) as [Eu|Eu]; cbn [negb orb]; [|apply Hnone; by intros _ <-].
  destruct (Z.eqb_spec (GuardLowerPages r) (RgGuardLowerPages rg)) as [El|El]; cbn [negb orb];
    [|apply Hnone; by intros _ <-].
  destruct (Z.eqb_spec (GuardUpperPages r) (RgGuardUpperPages rg)) as [Ep|Ep]; cbn [negb orb];
    [|apply Hnone; by intros _ <-].
  eexists. split; [done|]. exists k, r. split; [unfold k; unfold is_u32 in *; lia|]. split; [done|].
  destruct rg. unfold range_of. simpl in *. f_equal; try congruence.
  rewrite (kva_record_id s G k r K Ha). unfold k, is_u32 in *. simpl. lia.
Qed.

(** Two records in use never have the same first usable page. *)
Lemma base_unique s G i j r r' : kva_ok s G -> active (gKvaRanges s) i r -> active (gKvaRanges s) j r' ->
  page_va (Arena r) (first_usable r) = page_va (Arena r') (first_usable r') -> i = j.
Proof.
  intros K Hi Hj E. pose proof (kva_record s G i r K Hi) as R. pose proof (kva_record s G j r' K Hj) as R'.
  assert (U : usable r (first_usable r)) by (unfold usable; destruct R; lia).
  assert (U' : usable r' (first_usable r')) by (unfold usable; destruct R'; lia).
  destruct (usable_page r _ R U) as [H1 H2]. destruct (usable_page r' _ R' U') as [H1' H2'].
  destruct (page_va_inj _ _ _ _ H1 H1' E) as [Ea Ep].
  apply (lo_disjoint _ _ _ _ (kv_layout _ _ K) i j r r' (first_usable r) Hi Hj).
  - apply covers_intro; [apply Hi | done | done].
  - apply covers_intro; [apply Hj | done | by rewrite Ep].
Qed.

(** ** Changing the layout *)

(** The mappings stay what they are when the records of the mapped pages do. *)
Lemma kva_ok_relayout s G arenas' ranges' slots' counter' :
  kva_ok s G -> layout_ok arenas' ranges' slots' counter' ->
  (forall i r p lp, arena_page (Arena r) p -> usable r p -> leaf s (page_va (Arena r) p) = Some lp ->
     active (gKvaRanges s) i r <-> active ranges' i r) ->
  kva_ok (mkKva (mach s) (gKernelAddressSpace s) arenas' ranges' slots' counter' true) G.
Proof.
  intros K L Hsame. set (s' := mkKva _ _ _ _ _ _ _).
  assert (Hown : forall a p pa, owns s' a p pa -> owns s a p pa).
  { intros a p pa (i & r & Ha & Hb & <- & Hp & E).
    destruct (usable_page r p (lo_record _ _ _ _ L i r Ha) Hp) as [Hpage _].
    exists i, r. split_and!; try done. by apply (Hsame i r p (1, pa)). }
  constructor; try done; try apply K.
  - intros a p l pa Hp E. destruct (kv_mapped _ _ K a p l pa Hp E) as [-> (i & r & Ha & <- & Hu)].
    split; [done|]. exists i, r. split_and!; try done. by apply (Hsame i r p (1, pa)).
  - intros a p pa Ho%Hown. by apply (kv_owned _ _ K a p).
  - intros a p b q pa H1%Hown H2%Hown. by apply (kv_private _ _ K a p b q pa).
Qed.

Lemma set_states_ok s a arena states : 0 <= a -> gKvaArenas s !! Z.to_nat a = Some arena ->
  set_states s a states = Ok (set_arenas s (<[Z.to_nat a := with_states arena states]> (gKvaArenas s))).
Proof.
  intros Ha E. unfold set_states. rewrite (proj2 (rd_ok _ _ _) (conj Ha E)). cbn [res_bind].
  rewrite wr_in; [done|]. apply lookup_lt_Some in E. lia.
Qed.

Lemma set_record_ok s i r0 r : gKvaRanges s !! i = Some r0 ->
  set_record s (Z.of_nat i) r = Ok (set_ranges s (<[i := r]> (gKvaRanges s))).
Proof.
  intros E. unfold set_record. rewrite wr_in; [|apply lookup_lt_Some in E; lia]. by rewrite Nat2Z.id.
Qed.

(** ** Releasing a record *)

(** The state the pages of [r] get. *)
Definition release_state s (r : KE_KVA_RANGE_RECORD) : Z :=
  if bool_decide (Arena r = KE_KVA_ARENA_FIXMAP /\ TotalPages r = 1 /\
    gFixmapSlotGenerations s !! Z.to_nat (BasePageIndex r) = Some KE_TEMP_MAP_TOKEN_GENERATION_MASK)
  then KE_KVA_PAGE_STATE_RETIRED else KE_KVA_PAGE_STATE_FREE.

Record released s s' (G : tables) (i : nat) (r : KE_KVA_RANGE_RECORD) : Prop := mkReleased {
  rl_ok : kva_ok s' G;
  rl_ranges : gKvaRanges s' = <[i := blank_record (Z.of_nat i)]> (gKvaRanges s);
  rl_states a p : 0 <= a -> 0 <= p -> state_at (gKvaArenas s') a p =
    if decide (covers r a p) then Some (release_state s r) else state_at (gKvaArenas s) a p;
  rl_slots : gFixmapSlotGenerations s' = gFixmapSlotGenerations s;
  rl_counter : gKvaRangeGenerationCounter s' = gKvaRangeGenerationCounter s;
  rl_space : gKernelAddressSpace s' = gKernelAddressSpace s;
  rl_torn : torn s (set_mach s (mach s')) G (Arena r) (first_usable r) (first_usable r + UsablePages r)
              (OwnsPhysicalBacking r)
}.

Lemma slot_retired_run s G p : kva_ok s G -> 0 <= p < KE_KVA_FIXMAP_ARENA_PAGES ->
  KiKvaFixmapSlotRetired s p =
    Ok (bool_decide (gFixmapSlotGenerations s !! Z.to_nat p = Some KE_TEMP_MAP_TOKEN_GENERATION_MASK)).
Proof.
  intros K Hp. unfold KiKvaFixmapSlotRetired. rewrite (proj2 (Z.ltb_lt _ _)) by lia. cbn [negb].
  destruct (lo_slots _ _ _ _ (kv_layout _ _ K)) as [Hl Hf].
  destruct (rd_in (gFixmapSlotGenerations s) p) as [g Hg]; [lia|]. rewrite Hg. cbn [res_bind]. f_equal.
  apply rd_ok in Hg as [_ Hg]. rewrite Hg. rewrite Forall_lookup in Hf. specialize (Hf _ _ Hg).
  destruct (Z.leb_spec KE_TEMP_MAP_TOKEN_GENERATION_MASK g); symmetry.
  - apply bool_decide_eq_true. f_equal. lia.
  - apply bool_decide_eq_false. intros [= ->]. lia.
Qed.

Lemma release_record_run s G i r : kva_ok s G -> active (gKvaRanges s) i r ->
  exists s', KiKvaReleaseRecord (Some (Z.of_nat i)) (Some (Arena r)) s = Ok (EC_SUCCESS, s') /\ released s s' G i r.
Proof.
  intros K Ha. pose proof (kva_record s G i r K Ha) as R. pose proof (rk_arena r R) as Hra.
  unfold KiKvaReleaseRecord. rewrite (read_record s i r (proj1 Ha)). cbn [res_bind].
  destruct (kva_arena s G (Arena r) K Hra) as (arena & -> & Ea & Hok). cbn [res_bind].
  rewrite usable_base by done. destruct R as [_ Ru [Rg1 Rg2] Rt [Rb Rr] Rgen].
  assert (Hret : (if (Arena r =? KE_KVA_ARENA_FIXMAP) && (TotalPages r =? 1)
                  then KiKvaFixmapSlotRetired s (BasePageIndex r) else Ok false) =
    Ok (bool_decide (Arena r = KE_KVA_ARENA_FIXMAP /\ TotalPages r = 1 /\
      gFixmapSlotGenerations s !! Z.to_nat (BasePageIndex r) = Some KE_TEMP_MAP_TOKEN_GENERATION_MASK))).
  { destruct (Z.eqb_spec (Arena r) KE_KVA_ARENA_FIXMAP) as [E1|E1]; cbn [andb].
    2: { f_equal. symmetry. apply bool_decide_eq_false. by intros [? _]. }
    destruct (Z.eqb_spec (TotalPages r) 1) as [E2|E2].
    2: { f_equal. symmetry. apply bool_decide_eq_false. by intros (_ & ? & _). }
    rewrite (slot_retired_run s G) by (done || (rewrite E1 in Rr; change (arena_pages KE_KVA_ARENA_FIXMAP) with KE_KVA_FIXMAP_ARENA_PAGES in Rr; lia)).
    f_equal. apply bool_decide_ext. tauto. }
  rewrite Hret. cbn [res_bind]. fold (release_state s r). set (v := release_state s r).
  destruct (teardown_run (Z.to_nat (UsablePages r)) (first_usable r) false s G i r K Ha) as (s1 & Et & T); [lia..|].
  rewrite Z.sub_diag in Et. rewrite Et. cbn [res_bind]. change (succeeded EC_SUCCESS) with true. cbn [negb].
  rewrite Z2Nat.id in T by lia. pose proof (to_same _ _ _ _ _ _ _ T) as Es1.
  destruct Hok as (_ & _ & _ & Hlen).
  destruct (fill_run (fun _ => v) (Z.to_nat (TotalPages r)) (BasePageIndex r) (PageStates arena))
    as (states & Ef & Hfl & Hfs); [lia | lia | |].
  { destruct (arena_values _ Hra) as [(_ & _ & E)|[(_ & _ & E)|(_ & _ & E)]]; lia. }
  cbv beta in Ef. rewrite Ef. cbn [res_bind]. rewrite Z2Nat.id in Hfs by lia.
  rewrite (set_states_ok s1 (Arena r) arena) by (lia || by rewrite Es1). cbn [res_bind].
  rewrite (set_record_ok _ i r) by (rewrite Es1; apply Ha). cbn [res_bind].
  eexists. split; [done|]. rewrite Es1. unfold set_ranges, set_arenas, set_mach. simpl.
  assert (Hv : v = KE_KVA_PAGE_STATE_FREE \/
    (v = KE_KVA_PAGE_STATE_RETIRED /\ Arena r = KE_KVA_ARENA_FIXMAP /\ TotalPages r = 1 /\
     gFixmapSlotGenerations s !! Z.to_nat (BasePageIndex r) = Some KE_TEMP_MAP_TOKEN_GENERATION_MASK)).
  { unfold v, release_state. case_bool_decide; [by right | by left]. }
  pose proof (layout_drop _ _ _ _ (kv_layout _ _ K) arena states i r v Ha Ea Hfl Hfs Hv) as L'.
  pose proof (to_ok _ _ _ _ _ _ _ T) as K1.
  constructor; simpl; try done.
  - rewrite (kv_init _ _ K). rewrite Es1 in K1.
    apply (kva_ok_relayout (set_mach s (mach s1)) G _ _ _ _ K1 L').
    intros j r' p lp Hp Hu E. simpl. rewrite active_insert by (eapply lookup_lt_Some; apply Ha).
    split; [|by intros [(_ & -> & ?)|[_ ?]]]. intros Hj. right. split; [|done]. intros ->.
    rewrite (active_fun _ _ _ _ Hj Ha) in *. rewrite <- Es1 in E.
    by rewrite (to_gone _ _ _ _ _ _ _ T p Hu) in E.
  - intros a p Hap Hpp. rewrite state_at_set by (lia || by eapply lookup_lt_Some).
    destruct (decide (a = Arena r)) as [->|Hne].
    + rewrite Hfs by done. unfold state_at. rewrite Ea. cbn [mbind option_bind].
      destruct (decide (BasePageIndex r <= p < BasePageIndex r + TotalPages r)), (decide (covers r (Arena r) p)) as [C|C];
        try done.
      * exfalso. apply C, covers_intro; [apply Ha | done | done].
      * by destruct C as (_ & _ & ?).
    + rewrite decide_False; [done|]. by intros (_ & ? & _).
  - fold (set_mach s (mach s1)). by rewrite <- Es1.
Qed.
End operations.
End KvaOps.
