(* ===== verification/KvaCalls.v ===== *)
(** * Allocating, mapping and releasing ranges *)

From S2P Require Import Prelude Pmm PageTable Kva KvaInv KvaLayout KvaMach KvaOps.

Local Open Scope Z_scope.

Module KvaCalls.
Import PageTable Kva KvaInv KvaLayout KvaMach KvaOps.

Section calls.
Context `{PageAllocatorLaws P}.
Implicit Type s : KE_KVA_STATE P.

(** ** One page of a range *)

(** A frame that may back a page of an owning range. *)
Definition backing s (G : tables) (pa : Z) : Prop :=
  frame_state (pmm (mach s)) pa = PMM_PAGE_ALLOCATED /\ G !! pa = None /\ forall b q, ~ owns s b q pa.

Lemma tables_extend s G m G' va pa attrs t : kva_ok s G ->
  mapped (root s) (mach s) m G G' va pa attrs -> frame t ->
  frame_state (pmm (mach s)) t = PMM_PAGE_ALLOCATED -> G !! t = None ->
  frame_state (pmm m) t = PMM_PAGE_ALLOCATED /\ G' !! t = None.
Proof.
  intros K M [Hal _] Hst HG.
  assert (HG' : G' !! t = None).
  { apply eq_None_not_Some. intros Hs. destruct (mp_new _ _ _ _ _ _ _ _ M t Hs) as [[x E]|E]; [congruence|].
    rewrite Hst in E. discriminate. }
  split; [|done]. rewrite (mp_state _ _ _ _ _ _ _ _ M t Hal). by case_decide.
Qed.

Lemma map_range_page s G i r p pa attrs :
  kva_ok s G -> active (gKvaRanges s) i r -> usable r p -> frame pa ->
  (OwnsPhysicalBacking r = true -> backing s G pa) ->
  exists st m, KePtMapPage (KeGetKernelAddressSpace s) (page_va (Arena r) p) pa attrs (mach s) = Ok (st, m) /\
    ((st = EC_SUCCESS /\ exists G', mapped (root s) (mach s) m G G' (page_va (Arena r) p) pa attrs /\
        kva_ok (set_mach s m) G') \/
     (st <> EC_SUCCESS /\ undone (mach s) m G /\
      (forall va, translate (mem m) (root s) va = translate (mem (mach s)) (root s) va) /\
      kva_ok (set_mach s m) G)).
Proof.
  intros K Ha Hp Hfr Hb. destruct (usable_page r p (kva_record s G i r K Ha) Hp) as [Hpage Hcov].
  rewrite (kernel_space s G K).
  destruct (map_page_run (gKernelAddressSpace s) (mach s) G (page_va (Arena r) p) pa attrs) as (st & m & -> & O);
    [apply K | apply K | apply K | by apply page_va_u64 | by apply page_va_aligned | done |].
  exists st, m. split; [done|].
  destruct O as [(-> & G' & M)|(Hne & U & Htree & Htr)].
  - left. split; [done|]. exists G'. split; [done|]. change (RootPageTablePhys (gKernelAddressSpace s)) with (root s) in M.
    assert (Hleaf : forall a q, arena_page a q -> ~ (a = Arena r /\ q = p) ->
      leaf (set_mach s m) (page_va a q) = leaf s (page_va a q)).
    { intros a q Hq Hne. apply (same_leaf false), (mp_others _ _ _ _ _ _ _ _ M). intros E.
      apply Hne. by apply vprefix_page. }
    assert (Hthis : leaf (set_mach s m) (page_va (Arena r) p) = Some (1, pa))
      by (unfold leaf; simpl; change (root (set_mach s m)) with (root s); by rewrite (mp_after _ _ _ _ _ _ _ _ M)).
    assert (Hown : forall a q pb, owns (set_mach s m) a q pb ->
      (a = Arena r /\ q = p /\ pb = pa /\ OwnsPhysicalBacking r = true) \/ owns s a q pb).
    { intros a q pb (j & r' & Hj & Hbk & <- & Hq & E). simpl in Hj.
      destruct (usable_page r' q (kva_record s G j r' K Hj) Hq) as [Hpq Hcq].
      destruct (decide (Arena r' = Arena r /\ q = p)) as [[Ea ->]|Hne].
      - left. rewrite Ea in *. rewrite Hthis in E. injection E as <-. split_and!; try done.
        assert (j = i) as ->.
        { apply (lo_disjoint _ _ _ _ (kv_layout _ _ K) j i r' r p Hj Ha); apply covers_intro;
            try done; [apply Hj | apply Ha]. }
        by rewrite (active_fun _ _ _ _ Ha Hj).
      - right. exists j, r'. rewrite <- Hleaf; [by split_and! | done | done]. }
    assert (Htab : forall a q pb, owns (set_mach s m) a q pb ->
      frame pb /\ frame_state (pmm (mach s)) pb = PMM_PAGE_ALLOCATED /\ G !! pb = None).
    { intros a q pb [(-> & -> & -> & Ho)|Ho]%Hown; [|by apply (kv_owned _ _ K a q)].
      by destruct (Hb Ho) as (? & ? & _). }
    constructor; simpl; try apply K.
    + split; [apply K | apply M].
    + apply M.
    + apply M.
    + intros a q l pb Hq E. destruct (decide (a = Arena r /\ q = p)) as [[-> ->]|Hne].
      * rewrite Hthis in E. injection E as <- <-. split; [done|]. by exists i, r.
      * rewrite Hleaf in E by done. by apply (kv_mapped _ _ K a q l pb).
    + intros a q pb Ho. destruct (Htab a q pb Ho) as (H1 & H2 & H3). split; [done|].
      by apply (tables_extend s G m G' (page_va (Arena r) p) pa attrs).
    + intros a1 p1 a2 p2 pb [(-> & -> & -> & Ho1)|Ho1]%Hown [(-> & -> & E2 & Ho2)|Ho2]%Hown; [done| | |].
      * exfalso. destruct (Hb Ho1) as (_ & _ & Hno). by apply (Hno a2 p2).
      * exfalso. subst pb. destruct (Hb Ho2) as (_ & _ & Hno). by apply (Hno a1 p1).
      * by apply (kv_private _ _ K a1 p1 a2 p2 pb).
  - right. split; [done|]. split; [done|]. split; [done|].
    apply (kva_ok_mach s m G G K); [split; [apply K | done] | apply U | | |].
    + intros t [l pre] Ht. destruct (tr_label _ _ _ (proj2 (kv_space _ _ K)) t l pre Ht) as [[Hta _] _].
      rewrite (ud_state _ _ _ U t Hta). by apply (kv_used _ _ K t (l, pre)).
    + intros a q lp _. unfold leaf. simpl. change (root (set_mach s m)) with (root s). by rewrite Htr.
    + intros a q pb Ho _. destruct (kv_owned _ _ K a q pb Ho) as ([Hal _] & Hs & HG).
      by rewrite (ud_state _ _ _ U pb Hal).
Qed.

(** [KeKvaMapPage] is [KePtMapPage] on the page the handle and the index name. *)
Lemma map_page_call s G i r k pa attrs :
  kva_ok s G -> active (gKvaRanges s) i r -> 0 <= k < UsablePages r ->
  KeKvaMapPage (Some (range_of r)) k pa attrs s =
    let* (status, m) := KePtMapPage (KeGetKernelAddressSpace s) (page_va (Arena r) (first_usable r + k)) pa attrs (mach s) in
    Ok (status, set_mach s m).
Proof.
  intros K Ha Hk. pose proof (kva_record s G i r K Ha) as R. unfold KeKvaMapPage. rewrite (kv_init _ _ K). cbn [negb].
  destruct (find_by_id_run s G (range_of r) K) as (o & -> & Ho).
  { simpl. rewrite (kva_record_id s G i r K Ha). pose proof (kva_index s G i r K (proj1 Ha)).
    unfold KE_KVA_MAX_RANGES, is_u32 in *. lia. }
  cbn [res_bind]. destruct o as [z|]; [|by destruct (Ho i r Ha)].
  destruct Ho as (j & r' & -> & Hj & E). rewrite (read_record s j r' (proj1 Hj)). cbn [res_bind].
  assert (Eu : UsablePages r' = UsablePages r) by (by injection E).
  rewrite Eu, (proj2 (Z.leb_gt _ _)) by lia. cbn [RgUsableBase range_of].
  rewrite page_va_offset; [done|]. apply usable_page; [done|]. unfold usable. lia.
Qed.
(** ** Backing a range with owned frames *)

(** [s1] is [s] with more pages of [r] mapped, each to a frame that was free:
    records, other translations and the contents of every frame in use but
    the tables are as before. *)
Record backed s s1 (G G1 : tables) (r : KE_KVA_RANGE_RECORD) : Prop := mkBacked {
  bk_same : s1 = set_mach s (mach s1);
  bk_ok : kva_ok s1 G1;
  bk_page p : usable r p -> leaf s1 (page_va (Arena r) p) = leaf s (page_va (Arena r) p) \/
    (leaf s (page_va (Arena r) p) = None /\ exists pa, leaf s1 (page_va (Arena r) p) = Some (1, pa) /\
       pa mod PAGE_4KB = 0 /\ frame_state (pmm (mach s)) pa = PMM_PAGE_FREE);
  bk_others va : (forall p, usable r p -> vprefix 0 va <> vprefix 0 (page_va (Arena r) p)) ->
    same_mapping false (translate (mem (mach s)) (root s) va) (translate (mem (mach s1)) (root s) va);
  bk_tables t : is_Some (G1 !! t) -> is_Some (G !! t) \/ frame_state (pmm (mach s)) t = PMM_PAGE_FREE;
  bk_state b : b mod PAGE_4KB = 0 -> frame_state (pmm (mach s)) b <> PMM_PAGE_FREE ->
    frame_state (pmm (mach s1)) b = frame_state (pmm (mach s)) b;
  bk_mem b x : b mod PAGE_4KB = 0 -> frame_state (pmm (mach s)) b <> PMM_PAGE_FREE -> G !! b = None ->
    b <= x < b + PAGE_4KB -> mem (mach s1) x = mem (mach s) x
}.

Lemma backed_refl s G r : kva_ok s G -> backed s s G G r.
Proof.
  intros K. constructor; try done; try by left.
  - by rewrite state_set_mach.
  - intros va _. apply same_mapping_refl.
Qed.

Lemma backed_trans s s1 s2 G G1 G2 r : backed s s1 G G1 r -> backed s1 s2 G1 G2 r -> backed s s2 G G2 r.
Proof.
  intros B1 B2. assert (Hr : root s1 = root s) by (by rewrite (bk_same _ _ _ _ _ B1)).
  assert (Hst : forall b, b mod PAGE_4KB = 0 -> frame_state (pmm (mach s1)) b = PMM_PAGE_FREE ->
    frame_state (pmm (mach s)) b = PMM_PAGE_FREE).
  { intros b Hb E. destruct (decide (frame_state (pmm (mach s)) b = PMM_PAGE_FREE)) as [|Hne]; [done|].
    by rewrite <- (bk_state _ _ _ _ _ B1 b Hb Hne). }
  constructor.
  - rewrite (bk_same _ _ _ _ _ B2). by rewrite (bk_same _ _ _ _ _ B1).
  - apply B2.
  - intros p Hp. destruct (bk_page _ _ _ _ _ B1 p Hp) as [E1|(E1 & pa & E1' & Hal & Hf)],
      (bk_page _ _ _ _ _ B2 p Hp) as [E2|(E2 & pb & E2' & Hal2 & Hf2)].
    + left. congruence.
    + right. split; [congruence|]. exists pb. split_and!; try done. by apply Hst.
    + right. split; [done|]. exists pa. split_and!; try done. congruence.
    + congruence.
  - intros va Hva. eapply same_mapping_trans; [by apply (bk_others _ _ _ _ _ B1)|].
    rewrite <- Hr. by apply (bk_others _ _ _ _ _ B2).
  - intros t Ht. destruct (bk_tables _ _ _ _ _ B2 t Ht) as [Ht1|Ht1]; [by apply (bk_tables _ _ _ _ _ B1)|].
    destruct (decide (is_Some (G !! t))) as [|Hn]; [by left | right].
    destruct (decide (t mod PAGE_4KB = 0)) as [Hal|Hal]; [by apply Hst|]. exfalso. apply Hal.
    destruct Ht as [[l pre] Ht]. apply (tr_label _ _ _ (proj2 (kv_space _ _ (bk_ok _ _ _ _ _ B2))) t l pre Ht).
  - intros b Hb Hne. rewrite (bk_state _ _ _ _ _ B2), (bk_state _ _ _ _ _ B1); try done.
    by rewrite (bk_state _ _ _ _ _ B1).
  - intros b x Hb Hne HG Hx. rewrite (bk_mem _ _ _ _ _ B2 b x Hb), (bk_mem _ _ _ _ _ B1 b x Hb); try done.
    + by rewrite (bk_state _ _ _ _ _ B1).
    + apply eq_None_not_Some. intros [x1|E]%(bk_tables _ _ _ _ _ B1); [|done].
      by rewrite HG in x1; destruct x1.
Qed.

(** The page of memory of a frame in use that is no table is not a table's. *)
Lemma frame_not_table s G b x t y : kva_ok s G -> b mod PAGE_4KB = 0 -> G !! b = None ->
  b <= x < b + PAGE_4KB -> G !! t = Some y -> ~ t <= x < t + PAGE_4KB.
Proof.
  intros K Hb HG Hx Ht Htx. destruct y as [l pre].
  destruct (tr_label _ _ _ (proj2 (kv_space _ _ K)) t l pre Ht) as [[Hta _] _].
  assert (t = b) by (unfold PAGE_4KB in *; div_lia). congruence.
Qed.

(** Taking a frame from the page allocator. *)
Lemma take_frame s G : kva_ok s G ->
  exists st p out, pmm_alloc (pmm (mach s)) 1 None = Ok (st, p, out) /\
    ((st = EC_SUCCESS /\ exists pa, out = Some pa /\ frame pa /\ frame_state (pmm (mach s)) pa = PMM_PAGE_FREE /\
        (forall b, b mod PAGE_4KB = 0 -> frame_state p b =
           if decide (b = pa) then PMM_PAGE_ALLOCATED else frame_state (pmm (mach s)) b) /\
        kva_ok (set_mach s (set_pmm (mach s) p)) G /\ backing (set_mach s (set_pmm (mach s) p)) G pa) \/
     (st <> EC_SUCCESS /\ set_mach s (set_pmm (mach s) p) = s)).
Proof.
  intros K. destruct (pmm_alloc_law (pmm (mach s)) 1) as (st & p & out & E & Hfo & O); [apply K | lia |].
  exists st, p, out. split; [done|]. destruct O as [(-> & pa & -> & Hal & Hpos & Htop & Hwas & Hnow)|(Hne & -> & _)].
  2: { right. split; [done|]. by destruct s as [[]]. }
  left. split; [done|]. exists pa. split; [done|].
  assert (Hfr : frame pa) by (unfold frame, PAGE_4KB in *; lia).
  assert (Hfree : frame_state (pmm (mach s)) pa = PMM_PAGE_FREE)
    by (apply Hwas; [done|]; rewrite frame_in_one by done; by rewrite bool_decide_true).
  assert (Hst : forall b, b mod PAGE_4KB = 0 -> frame_state p b =
    if decide (b = pa) then PMM_PAGE_ALLOCATED else frame_state (pmm (mach s)) b).
  { intros b Hb. rewrite Hnow, frame_in_one by done. destruct (decide (b = pa)).
    - by rewrite bool_decide_true.
    - by rewrite bool_decide_false. }
  assert (HG : G !! pa = None).
  { apply eq_None_not_Some. intros [x Hx]. by apply (kv_used _ _ K pa x). }
  assert (Hno : forall b q, ~ owns s b q pa).
  { intros b q Ho. destruct (kv_owned _ _ K b q pa Ho) as (_ & Ha & _). rewrite Hfree in Ha. discriminate. }
  split; [done|]. split; [done|]. split; [done|]. split.
  - apply (kva_ok_mach s _ G G K); [apply K | done | | done |].
    + intros t [l pre] Ht. destruct (tr_label _ _ _ (proj2 (kv_space _ _ K)) t l pre Ht) as [[Hta _] _].
      simpl. rewrite Hst by done. case_decide; [done|]. by apply (kv_used _ _ K t (l, pre)).
    + intros a q pb Ho _. destruct (kv_owned _ _ K a q pb Ho) as ([Hb _] & Ha & Hn). split; [|done].
      simpl. rewrite Hst by done. by case_decide.
  - split_and!; [|done|].
    + simpl. rewrite Hst by done. by rewrite decide_True.
    + intros b q (j & r & Hj & Hr). apply (Hno b q). by exists j, r.
Qed.

(** One round of the loop of [KeKvaMapOwnedPages]. *)
Lemma back_page s G i r k attrs :
  kva_ok s G -> active (gKvaRanges s) i r -> OwnsPhysicalBacking r = true -> 0 <= k < UsablePages r ->
  exists st p out, pmm_alloc (pmm (mach s)) 1 None = Ok (st, p, out) /\
    let sa := set_mach s (set_pmm (mach s) p) in
    ((st <> EC_SUCCESS /\ sa = s) \/
     (st = EC_SUCCESS /\ exists pa st2 sb, out = Some pa /\
        KeKvaMapPage (Some (range_of r)) k pa attrs sa = Ok (st2, sb) /\
        ((st2 = EC_SUCCESS /\ exists G', backed s sb G G' r /\
            leaf sb (page_va (Arena r) (first_usable r + k)) = Some (1, pa)) \/
         (st2 <> EC_SUCCESS /\ exists p2, pmm_free (pmm (mach sb)) pa 1 = Ok (EC_SUCCESS, p2) /\
            backed s (set_mach sb (set_pmm (mach sb) p2)) G G r)))).
Proof.
  intros K Ha Hown Hk. destruct (take_frame s G K) as (st & p & out & -> & O). exists st, p, out. split; [done|].
  cbv zeta. set (sa := set_mach s (set_pmm (mach s) p)) in *.
  destruct O as [(-> & pa & -> & Hfr & Hfree & Hst & Ka & Hb)|(Hne & E)]; [right | by left].
  split; [done|].
  assert (Hu : usable r (first_usable r + k)) by (unfold usable; lia).
  destruct (map_range_page sa G i r (first_usable r + k) pa attrs Ka Ha Hu Hfr) as (st2 & m & Em & O); [done|].
  exists pa, st2, (set_mach sa m). split; [done|].
  split; [rewrite (map_page_call sa G i r k) by done; by rewrite Em|].
  assert (Hoth : forall b, b mod PAGE_4KB = 0 -> frame_state (pmm (mach s)) b <> PMM_PAGE_FREE ->
    frame_state p b = frame_state (pmm (mach s)) b).
  { intros b Hb2 Hne. rewrite Hst by done. case_decide; [congruence | done]. }
  destruct O as [(-> & G' & M & K')|(Hne & U & Htr & K')].
  - left. split; [done|]. exists G'. split.
    2: { unfold leaf. simpl. change (root (set_mach sa m)) with (root s).
         change (root sa) with (root s) in M. by rewrite (mp_after _ _ _ _ _ _ _ _ M). }
    change (root sa) with (root s) in M. constructor; simpl; try done.
    + intros q Hq. destruct (decide (q = first_usable r + k)) as [->|Hne].
      * right. split; [unfold leaf; change (mem (mach s)) with (mem (mach sa)); by rewrite (mp_before _ _ _ _ _ _ _ _ M)|].
        exists pa. split; [|split; [apply Hfr | done]]. unfold leaf. simpl.
        change (root (set_mach sa m)) with (root s). by rewrite (mp_after _ _ _ _ _ _ _ _ M).
      * left. apply (same_leaf false). apply (mp_others _ _ _ _ _ _ _ _ M).
        intros E%vprefix_page; [by destruct E | |]; apply usable_page; try done; by apply (kva_record s G i).
    + intros va Hva. apply (mp_others _ _ _ _ _ _ _ _ M). by apply Hva.
    + intros t Ht. destruct (mp_new _ _ _ _ _ _ _ _ M t Ht) as [|E]; [by left | right]. simpl in E.
      destruct (decide (t mod PAGE_4KB = 0)) as [Hal|Hal].
      * rewrite Hst in E by done. by destruct (decide (t = pa)).
      * exfalso. apply Hal. destruct Ht as [[l pre] Ht]. apply (tr_label _ _ _ (mp_tree _ _ _ _ _ _ _ _ M) t l pre Ht).
    + intros b Hb2 Hne. rewrite (mp_state _ _ _ _ _ _ _ _ M b Hb2). simpl. case_decide as Hd; [|by apply Hoth].
      destruct Hd as [[x Hx] HG]. destruct (mp_new _ _ _ _ _ _ _ _ M b) as [[y Hy]|E]; [by exists x | congruence|].
      simpl in E. rewrite Hoth in E by done. congruence.
    + intros b x Hb2 Hne HG Hx. apply (mp_outside _ _ _ _ _ _ _ _ M). intros t y Ht.
      apply (frame_not_table (set_mach sa m) G' b x t y K' Hb2); [|done|done].
      apply eq_None_not_Some. intros Hs. destruct (mp_new _ _ _ _ _ _ _ _ M b Hs) as [[z Hz]|E]; [congruence|].
      simpl in E. rewrite Hoth in E by done. congruence.
  - right. split; [done|].
    assert (Hpa : frame_state (pmm m) pa = PMM_PAGE_ALLOCATED).
    { rewrite (ud_state _ _ _ U pa) by apply Hfr. apply Hb. }
    destruct (free_unowned (set_mach sa m) G pa K' Hfr Hpa) as (p2 & Ef & K2 & Hst2); [apply Hb | |].
    { intros a q (j & r' & Hj & Hbk & Ea & Hq & E). destruct Hb as (_ & _ & Hno). apply (Hno a q).
      exists j, r'. split_and!; try done. rewrite <- E. unfold leaf. simpl.
      change (root (set_mach sa m)) with (root sa). by rewrite Htr. }
    exists p2. split; [done|]. constructor; simpl; try done.
    + intros q Hq. left. unfold leaf. simpl. 
      change (root (set_mach (set_mach sa m) (set_pmm m p2))) with (root sa). by rewrite Htr.
    + intros va _. change (root s) with (root sa). rewrite Htr. apply same_mapping_refl.
    + by left.
    + intros b Hb2 Hne2. rewrite Hst2 by done. case_decide; [subst; congruence|]. simpl.
      rewrite (ud_state _ _ _ U b Hb2). simpl. by apply Hoth.
    + intros b x Hb2 Hne2 HG Hx. apply (ud_outside _ _ _ U).
      * intros t y. by apply (frame_not_table s G b x t y K).
      * replace (x - x mod PAGE_4KB) with b by (unfold PAGE_4KB in *; div_lia). simpl.
        by rewrite Hoth.
Qed.
(** ** Releasing by handle and by address *)

Lemma handle_u32 s G i r : kva_ok s G -> active (gKvaRanges s) i r -> is_u32 (RgRecordId (range_of r)).
Proof.
  intros K Ha. simpl. rewrite (kva_record_id s G i r K Ha). pose proof (kva_index s G i r K (proj1 Ha)).
  unfold KE_KVA_MAX_RANGES, is_u32 in *. lia.
Qed.

Lemma release_handle_run s G rg : kva_ok s G -> is_u32 (RgRecordId rg) ->
  exists st s', KeKvaReleaseRangeHandle (Some rg) s = Ok (st, s') /\
    ((st = EC_SUCCESS /\ exists i r, active (gKvaRanges s) i r /\ range_of r = rg /\ released s s' G i r) \/
     (st = EC_INVALID_STATE /\ s' = s /\ forall i r, active (gKvaRanges s) i r -> range_of r <> rg)).
Proof.
  intros K Hid. unfold KeKvaReleaseRangeHandle. rewrite (kv_init _ _ K). cbn [negb].
  destruct (find_by_id_run s G rg K Hid) as (o & -> & Ho). cbn [res_bind]. destruct o as [z|].
  - destruct Ho as (i & r & -> & Ha & E). rewrite (read_record s i r (proj1 Ha)). cbn [res_bind].
    rewrite arena_state_small by apply (kva_record s G i r K Ha).
    destruct (release_record_run s G i r K Ha) as (s' & -> & R). exists EC_SUCCESS, s'. split; [done|]. left.
    split; [done|]. by exists i, r.
  - exists EC_INVALID_STATE, s. split; [done|]. by right.
Qed.

(** The handle of a record in use releases that record. *)
Lemma release_active s G i r : kva_ok s G -> active (gKvaRanges s) i r ->
  exists s', KeKvaReleaseRangeHandle (Some (range_of r)) s = Ok (EC_SUCCESS, s') /\ released s s' G i r.
Proof.
  intros K Ha. destruct (release_handle_run s G (range_of r) K (handle_u32 s G i r K Ha)) as (st & s' & -> & O).
  destruct O as [(-> & j & r' & Hj & E & R)|(_ & _ & Hn)]; [|by destruct (Hn i r Ha)].
  exists s'. split; [done|]. assert (Eid : RecordId r' = RecordId r) by (by injection E).
  rewrite (kva_record_id s G j r' K Hj), (kva_record_id s G i r K Ha) in Eid.
  assert (j = i) as -> by lia. by rewrite (active_fun _ _ _ _ Ha Hj).
Qed.

Lemma release_range_run s G va : kva_ok s G ->
  exists st s', KeKvaReleaseRange va s = Ok (st, s') /\
    ((st = EC_SUCCESS /\ exists i r, active (gKvaRanges s) i r /\ page_va (Arena r) (first_usable r) = va /\
        released s s' G i r) \/
     (st <> EC_SUCCESS /\ s' = s /\ forall i r, active (gKvaRanges s) i r -> page_va (Arena r) (first_usable r) <> va)).
Proof.
  intros K. unfold KeKvaReleaseRange. rewrite (kv_init _ _ K). cbn [negb]. rewrite is_aligned_4k.
  destruct (Z.eqb_spec (va mod PAGE_4KB) 0) as [Hal|Hal]; cbn [negb].
  2: { exists EC_ILLEGAL_ARGUMENT, s. split; [done|]. right. split; [done|]. split; [done|].
       intros i r Ha <-. apply Hal. pose proof (kva_record s G i r K Ha) as R. apply page_va_aligned, usable_page; [done|].
       unfold usable. destruct R. lia. }
  destruct (find_by_base_run s G va K) as (o & -> & Ho). cbn [res_bind]. destruct o as [z|].
  - destruct Ho as (i & r & -> & Ha & E). rewrite (read_record s i r (proj1 Ha)). cbn [res_bind].
    rewrite arena_state_small by apply (kva_record s G i r K Ha).
    destruct (release_record_run s G i r K Ha) as (s' & -> & R). exists EC_SUCCESS, s'. split; [done|]. left.
    split; [done|]. by exists i, r.
  - exists EC_INVALID_STATE, s. split; [done|]. by right.
Qed.

(** ** The loop of [KeKvaMapOwnedPages] *)

Lemma map_owned_run n k s G i r attrs :
  kva_ok s G -> active (gKvaRanges s) i r -> OwnsPhysicalBacking r = true ->
  0 <= k -> k + Z.of_nat n = UsablePages r ->
  exists st s', map_owned_pages n k (Some (range_of r)) attrs s = Ok (st, s') /\
    exists s1 G1, backed s s1 G G1 r /\
      ((st = EC_SUCCESS /\ s' = s1 /\
        forall p, first_usable r + k <= p < first_usable r + UsablePages r -> is_Some (leaf s1 (page_va (Arena r) p))) \/
       (st <> EC_SUCCESS /\ released s1 s' G1 i r)).
Proof.
  revert k s G. induction n as [|n IH]; intros k s G K Ha Hown Hk Hn.
  { exists EC_SUCCESS, s. split; [done|]. exists s, G. split; [by apply backed_refl|]. left.
    split; [done|]. split; [done|]. lia. }
  cbn [map_owned_pages].
  destruct (back_page s G i r k attrs K Ha Hown) as (st & p & out & -> & O); [lia|]. cbn [res_bind]. cbv zeta in *.
  set (sa := set_mach s (set_pmm (mach s) p)) in *.
  assert (Hrel : forall st1 s1, st1 <> EC_SUCCESS -> backed s s1 G G r ->
    exists st s', (let* (cleanupStatus, s) := KeKvaReleaseRangeHandle (Some (range_of r)) s1 in
        Ok (if succeeded cleanupStatus then st1 else cleanupStatus, s)) = Ok (st, s') /\
    exists s1 G1, backed s s1 G G1 r /\
      ((st = EC_SUCCESS /\ s' = s1 /\
        forall p, first_usable r + k <= p < first_usable r + UsablePages r -> is_Some (leaf s1 (page_va (Arena r) p))) \/
       (st <> EC_SUCCESS /\ released s1 s' G1 i r))).
  { intros st1 s1 Hne B.
    assert (Ha1 : active (gKvaRanges s1) i r) by (by rewrite (bk_same _ _ _ _ _ B)).
    destruct (release_active s1 G i r (bk_ok _ _ _ _ _ B) Ha1) as (s2 & -> & R). cbn [res_bind].
    exists st1, s2. split; [done|]. exists s1, G. split; [done|]. by right. }
  destruct O as [(Hne & E)|(-> & pa & st2 & sb & -> & Em & O)].
  - unfold succeeded at 1. rewrite bool_decide_false by done. cbn [negb].
    apply (Hrel st sa Hne). rewrite E. by apply backed_refl.
  - change (succeeded EC_SUCCESS) with true. cbn [negb]. rewrite Em. cbn [res_bind].
    destruct O as [(-> & G' & B & Hleaf)|(Hne & p2 & Ef & B)].
    + change (succeeded EC_SUCCESS) with true. cbn [negb].
      assert (Ha1 : active (gKvaRanges sb) i r) by (by rewrite (bk_same _ _ _ _ _ B)).
      destruct (IH (k + 1) sb G' (bk_ok _ _ _ _ _ B) Ha1) as (st & s' & -> & s1 & G1 & B1 & O); [done | lia | lia |].
      exists st, s'. split; [done|]. exists s1, G1. split; [by eapply backed_trans|].
      destruct O as [(-> & -> & Hall)|O]; [left | by right]. split; [done|]. split; [done|].
      intros q Hq. destruct (decide (q = first_usable r + k)) as [->|Hne]; [|apply Hall; lia].
      destruct (bk_page _ _ _ _ _ B1 (first_usable r + k)) as [E|(E & _)]; [unfold usable; lia | by rewrite E, Hleaf|].
      by rewrite Hleaf in E.
    + unfold succeeded at 1. rewrite bool_decide_false by done. cbn [negb]. rewrite Ef. cbn [res_bind].
      by apply (Hrel st2).
Qed.

Lemma map_owned_call s G rg attrs : kva_ok s G -> is_u32 (RgRecordId rg) ->
  exists st s', KeKvaMapOwnedPages (Some rg) attrs s = Ok (st, s') /\
    ((st = EC_INVALID_STATE /\ s' = s /\
      forall i r, active (gKvaRanges s) i r -> range_of r = rg -> OwnsPhysicalBacking r = false) \/
     exists i r s1 G1, active (gKvaRanges s) i r /\ range_of r = rg /\ OwnsPhysicalBacking r = true /\
      backed s s1 G G1 r /\
      ((st = EC_SUCCESS /\ s' = s1 /\ forall p, usable r p -> is_Some (leaf s1 (page_va (Arena r) p))) \/
       (st <> EC_SUCCESS /\ released s1 s' G1 i r))).
Proof.
  intros K Hid. unfold KeKvaMapOwnedPages. rewrite (kv_init _ _ K). cbn [negb].
  destruct (find_by_id_run s G rg K Hid) as (o & -> & Ho). cbn [res_bind]. destruct o as [z|].
  2: { exists EC_INVALID_STATE, s. split; [done|]. left. split; [done|]. split; [done|].
       intros i r Ha E. by destruct (Ho i r Ha). }
  destruct Ho as (i & r & -> & Ha & E). rewrite (read_record s i r (proj1 Ha)). cbn [res_bind].
  destruct (OwnsPhysicalBacking r) eqn:Hown; cbn [negb].
  - rewrite <- E. pose proof (kva_record s G i r K Ha) as R.
    destruct (map_owned_run (Z.to_nat (UsablePages r)) 0 s G i r attrs K Ha Hown) as (st & s' & -> & s1 & G1 & B & O);
      [lia | destruct R; lia |].
    exists st, s'. split; [done|]. right. exists i, r, s1, G1. split_and!; try done.
    destruct O as [(-> & -> & Hall)|O]; [left | by right]. split_and!; try done.
    intros p Hp. apply Hall. unfold usable in Hp. lia.
  - exists EC_INVALID_STATE, s. split; [done|]. left. split; [done|]. split; [done|].
    intros j r' Hj E'. assert (Eid : RecordId r' = RecordId r) by (rewrite <- E in E'; by injection E').
    rewrite (kva_record_id s G j r' K Hj), (kva_record_id s G i r K Ha) in Eid.
    assert (j = i) as -> by lia. by rewrite (active_fun _ _ _ _ Hj Ha).
Qed.

(** ** [KeKvaAllocRange] *)

(** The record a successful allocation publishes. *)
Definition new_record (i : nat) (own : bool) (a generation base usablePages guardLower guardUpper : Z) : KE_KVA_RANGE_RECORD :=
  mkRecord true own a (Z.of_nat i + 1) generation base (guardLower + usablePages + guardUpper) usablePages guardLower guardUpper.

(** [base] is the lowest page of arena [a] from which [n] pages are free. *)
Definition first_fit s (a n base : Z) : Prop :=
  0 <= base /\ base + n <= arena_pages a /\
  (forall p, base <= p < base + n -> state_at (gKvaArenas s) a p = Some KE_KVA_PAGE_STATE_FREE) /\
  (forall base', 0 <= base' < base ->
     ~ forall p, base' <= p < base' + n -> state_at (gKvaArenas s) a p = Some KE_KVA_PAGE_STATE_FREE).

Record reserved s s' (G : tables) (i : nat) (r : KE_KVA_RANGE_RECORD) : Prop := mkReserved {
  rs_ok : kva_ok s' G;
  rs_unused : exists r0, gKvaRanges s !! i = Some r0 /\ InUse r0 = false;
  rs_ranges : gKvaRanges s' = <[i := r]> (gKvaRanges s);
  rs_states a p : 0 <= a -> 0 <= p -> state_at (gKvaArenas s') a p =
    if decide (covers r a p)
    then Some (if decide (usable r p) then KE_KVA_PAGE_STATE_ALLOC else KE_KVA_PAGE_STATE_GUARD)
    else state_at (gKvaArenas s) a p;
  rs_mach : mach s' = mach s;
  rs_space : gKernelAddressSpace s' = gKernelAddressSpace s;
  rs_unmapped p : covers r (Arena r) p -> leaf s (page_va (Arena r) p) = None
}.

(** Free pages are not mapped. *)
Lemma free_unmapped s G a p : kva_ok s G -> arena_page a p ->
  state_at (gKvaArenas s) a p = Some KE_KVA_PAGE_STATE_FREE -> leaf s (page_va a p) = None.
Proof.
  intros K Hp E. destruct (leaf s (page_va a p)) as [[l pa]|] eqn:El; [|done].
  destruct (kv_mapped _ _ K a p l pa Hp El) as (_ & i & r & Ha & <- & Hu). exfalso.
  apply (free_uncovered _ _ _ _ (kv_layout _ _ K) (Arena r) p i r Hp E Ha).
  apply covers_intro; [apply Ha | done | by apply usable_page; [apply (kva_record s G i)|]].
Qed.

(** Writing the record and its page states, with [slots] and [counter] moved
    on. *)
Lemma reserve_run s G i r0 r a arena states slots counter :
  kva_ok s G -> 0 <= a < KE_KVA_ARENA_MAX -> gKvaArenas s !! Z.to_nat a = Some arena ->
  gKvaRanges s !! i = Some r0 -> InUse r0 = false ->
  InUse r = true -> Arena r = a -> RecordId r = Z.of_nat i + 1 -> record_ok r ->
  all_in_state KE_KVA_PAGE_STATE_FREE (PageStates arena) (BasePageIndex r) (TotalPages r) ->
  length states = length (PageStates arena) ->
  (forall p, 0 <= p -> states !! Z.to_nat p =
     if decide (BasePageIndex r <= p < BasePageIndex r + TotalPages r)
     then Some (if decide (usable r p) then KE_KVA_PAGE_STATE_ALLOC else KE_KVA_PAGE_STATE_GUARD)
     else PageStates arena !! Z.to_nat p) ->
  slots_grow (gFixmapSlotGenerations s) slots -> 0 <= counter < 2 ^ 64 ->
  (forall g, generation_spent (gKvaRangeGenerationCounter s) g -> generation_spent counter g) ->
  (a <> KE_KVA_ARENA_FIXMAP -> generation_spent counter (Generation r)) ->
  reserved s (mkKva (mach s) (gKernelAddressSpace s) (<[Z.to_nat a := with_states arena states]> (gKvaArenas s))
    (<[i := r]> (gKvaRanges s)) slots counter true) G i r.
Proof.
  intros K Ha Ea Er0 Hu0 Hu Hra Hid R Hfree Hlen Hst Hsl Hc Hmono Hsp.
  assert (Hun : forall p, covers r a p -> arena_page a p /\ state_at (gKvaArenas s) a p = Some KE_KVA_PAGE_STATE_FREE).
  { intros p Hp. split; [by apply (covers_page r)|]. unfold state_at. rewrite Ea. cbn. apply Hfree, Hp. }
  constructor; simpl; try done.
  - apply (kva_ok_relayout s G _ _ _ _ K).
    + apply (layout_take _ _ _ _ (layout_slots _ _ _ _ (kv_layout _ _ K) slots Hsl) a arena states i r0 r counter); done.
    + intros j r' p lp Hp Hus E. rewrite active_insert by (by eapply lookup_lt_Some). split.
      * intros Hj. right. split; [|done]. intros ->. destruct Hj as [Ej Hj]. congruence.
      * intros [(-> & -> & _)|[_ Hj]]; [|done]. exfalso.
        destruct (usable_page r p R Hus) as [_ Hin].
        destruct (Hun p) as [_ Hf]; [by apply covers_intro|]. rewrite Hra in Hp, E.
        by rewrite (free_unmapped s G a p K Hp Hf) in E.
  - by exists r0.
  - intros b p Hb Hp. rewrite state_at_set by (lia || by eapply lookup_lt_Some).
    destruct (decide (b = a)) as [->|Hne].
    + rewrite Hst by done. unfold state_at. rewrite Ea. cbn [mbind option_bind].
      destruct (decide (BasePageIndex r <= p < BasePageIndex r + TotalPages r)), (decide (covers r a p)) as [C|C];
        try done.
      * exfalso. by apply C, covers_intro.
      * by destruct C as (_ & _ & ?).
    + destruct (decide (covers r b p)) as [(_ & E & _)|]; [congruence | done].
  - rewrite Hra. intros p Hp. destruct (Hun p Hp). by apply (free_unmapped s G).
Qed.

(** Filling the handle of a well-formed record. *)
Lemma fill_range_run s r arena : record_ok r -> gKvaArenas s !! Z.to_nat (Arena r) = Some arena ->
  arena_ok (Arena r) arena -> KiKvaFillRangeFromRecord r s = Ok (EC_SUCCESS, Some (range_of r)).
Proof.
  intros R E Hok. unfold KiKvaFillRangeFromRecord. rewrite arena_state_small by apply R.
  pose proof (rk_arena r R) as Ha. rewrite (proj2 (rd_ok _ _ _) (conj (proj1 Ha) E)). cbn [res_bind].
  by rewrite usable_base, record_base.
Qed.
Lemma next_generation_run s : 0 <= gKvaRangeGenerationCounter s < 2 ^ 64 ->
  let '(g, s1) := KiKvaNextRangeGeneration s in
  g = gKvaRangeGenerationCounter s /\
  (if g =? 0 then s1 = s else exists counter, s1 = set_counter s counter /\ 0 <= counter < 2 ^ 64 /\
     generation_spent counter g /\
     forall h, generation_spent (gKvaRangeGenerationCounter s) h -> generation_spent counter h).
Proof.
  intros Hc. unfold KiKvaNextRangeGeneration. destruct (Z.eqb_spec (gKvaRangeGenerationCounter s) 0) as [E|E].
  { by rewrite E. }
  split; [done|]. rewrite (proj2 (Z.eqb_neq _ _) E). eexists. split; [done|].
  unfold generation_spent, UINT64_MAX. destruct (Z.eqb_spec (gKvaRangeGenerationCounter s) 0xFFFFFFFFFFFFFFFF).
  - split_and!; try lia.
  - rewrite u64_small by (unfold is_u64; lia). split_and!; try lia.
Qed.

(** The page count of a request, when it does not overflow. *)
Definition request_pages (usablePages guardLower guardUpper : Z) : Z := guardLower + usablePages + guardUpper.

(** A request that cannot be served. *)
Definition no_room s (a usablePages guardLower guardUpper : Z) : Prop :=
  (forall base, ~ first_fit s a (request_pages usablePages guardLower guardUpper) base) \/
  (forall i r, gKvaRanges s !! i = Some r -> InUse r = true) \/
  gKvaRangeGenerationCounter s = 0.

Lemma scan_arena s G a arena n : kva_ok s G -> 0 <= a < KE_KVA_ARENA_MAX -> gKvaArenas s !! Z.to_nat a = Some arena ->
  arena_ok a arena -> 0 < n <= arena_pages a ->
  exists o, find_run (Z.to_nat (PageCount arena - n + 1)) 0 n (PageStates arena) = Ok o /\
    match o with
    | None => forall base, ~ first_fit s a n base
    | Some base => first_fit s a n base /\ all_in_state KE_KVA_PAGE_STATE_FREE (PageStates arena) base n
    end.
Proof.
  intros K Ha Ea (_ & _ & Hc & Hl) Hn.
  assert (Hst : forall p, state_at (gKvaArenas s) a p = PageStates arena !! Z.to_nat p)
    by (intros p; unfold state_at; by rewrite Ea).
  destruct (find_run_run (Z.to_nat (PageCount arena - n + 1)) 0 n (PageStates arena)) as (o & -> & Ho); [lia..|].
  exists o. split; [done|]. rewrite Z2Nat.id in Ho by lia. destruct o as [base|].
  - destruct Ho as (Hb & Hall & Hbefore). split; [|done]. split; [lia|]. split; [lia|]. split.
    + intros p Hp. rewrite Hst. by apply Hall.
    + intros b Hb2 Hf. apply (Hbefore b Hb2). intros p Hp. rewrite <- Hst. by apply Hf.
  - intros base (Hb1 & Hb2 & Hf & _). apply (Ho base); [lia|]. intros p Hp. rewrite <- Hst. by apply Hf.
Qed.

Lemma first_fit_bound s a n base : 0 < n -> first_fit s a n base -> n <= arena_pages a.
Proof. intros Hn (H1 & H2 & _). lia. Qed.

(** The outcome of a request for [u] pages with [gl] and [gu] guards. *)
Definition alloc_outcome s (G : tables) (a u gl gu : Z) (own : bool)
    (st : HO_STATUS) (o : option KE_KVA_RANGE) s' : Prop :=
  match o with
  | Some rg => st = EC_SUCCESS /\ 0 <= a < KE_KVA_ARENA_MAX /\ u <> 0 /\ exists i base,
      let r := new_record i own a (gKvaRangeGenerationCounter s) base u gl gu in
      rg = range_of r /\ record_ok r /\ first_fit s a (request_pages u gl gu) base /\ reserved s s' G i r /\
      gFixmapSlotGenerations s' = gFixmapSlotGenerations s /\
      (forall h, generation_spent (gKvaRangeGenerationCounter s) h -> generation_spent (gKvaRangeGenerationCounter s') h)
  | None => s' = s /\
      ((st = EC_ILLEGAL_ARGUMENT /\ (u = 0 \/ KE_KVA_ARENA_MAX <= a)) \/
       (st = EC_OUT_OF_RESOURCE /\ u <> 0 /\ a < KE_KVA_ARENA_MAX /\ no_room s a u gl gu))
  end.

Lemma alloc_range_run s G a u gl gu own :
  kva_ok s G -> 0 <= a -> is_u64 u -> is_u64 gl -> is_u64 gu ->
  exists st o s', KeKvaAllocRange a u gl gu own true s = Ok (st, o, s') /\
    alloc_outcome s G a u gl gu own st o s'.
Proof.
  intros K Ha Hu Hgl Hgu. unfold KeKvaAllocRange. rewrite (kv_init _ _ K). cbn [negb orb].
  destruct (Z.eqb_spec u 0) as [->|Hu0].
  { exists EC_ILLEGAL_ARGUMENT, None, s. split; [done|]. split; [done|]. left. split; [done|]. by left. }
  unfold KiKvaArenaState. destruct (Z.leb_spec KE_KVA_ARENA_MAX a) as [Ham|Ham].
  { exists EC_ILLEGAL_ARGUMENT, None, s. split; [done|]. split; [done|]. left. split; [done|]. by right. }
  destruct (kva_arena s G a K) as (arena & -> & Ea & Hok); [lia|]. cbn [res_bind].
  assert (Hpages : arena_pages a <= 16384).
  { destruct (arena_values a) as [(_ & _ & E)|[(_ & _ & E)|(_ & _ & E)]]; lia. }
  assert (Hfail : no_room s a u gl gu ->
    exists st o s', Ok (EC_OUT_OF_RESOURCE, @None KE_KVA_RANGE, s) = Ok (st, o, s') /\
    alloc_outcome s G a u gl gu own st o s').
  { intros Hn. exists EC_OUT_OF_RESOURCE, None, s. split; [done|]. split; [done|]. by right. }
  assert (Hbig : arena_pages a < request_pages u gl gu -> no_room s a u gl gu).
  { intros Hb. left. intros base Hf. apply first_fit_bound in Hf; unfold request_pages, is_u64 in *; lia. }
  unfold request_pages in Hbig. pose proof (proj1 (proj2 (proj2 Hok))) as Hc.
  destruct (Z.ltb_spec (UINT64_MAX - u) gl) as [Ho|Ho].
  { apply Hfail, Hbig. unfold UINT64_MAX, is_u64 in *. lia. }
  rewrite (u64_small (gl + u)) by (unfold UINT64_MAX, is_u64 in *; lia).
  destruct (Z.ltb_spec (UINT64_MAX - (gl + u)) gu) as [Ho2|Ho2].
  { apply Hfail, Hbig. unfold UINT64_MAX, is_u64 in *. lia. }
  rewrite (u64_small (gl + u + gu)) by (unfold UINT64_MAX, is_u64 in *; lia).
  destruct (Z.eqb_spec (gl + u + gu) 0) as [|Hn0]; [unfold is_u64 in *; lia|]. cbn [orb]. rewrite Hc.
  destruct (Z.ltb_spec (arena_pages a) (gl + u + gu)) as [Hbg|Hsm]; [by apply Hfail, Hbig|].
  destruct (find_free_record_run s) as (o & -> & Hfr). cbn [res_bind].
  destruct o as [z|]; [|by apply Hfail; right; left].
  destruct Hfr as (i & r0 & -> & Er0 & Hu0' & _). rewrite <- Hc.
  destruct (scan_arena s G a arena (gl + u + gu) K) as (o & -> & Hscan); [lia | done | done | unfold is_u64 in *; lia|].
  cbn [res_bind]. destruct o as [base|]; [|by apply Hfail; left].
  destruct Hscan as [Hff Hall]. pose proof (lo_counter _ _ _ _ (kv_layout _ _ K)) as Hcnt.
  pose proof (next_generation_run s Hcnt) as Hg. destruct (KiKvaNextRangeGeneration s) as [g s1].
  destruct Hg as [-> Hg]. destruct (Z.eqb_spec (gKvaRangeGenerationCounter s) 0) as [E0|E0]; [subst s1; by apply Hfail; right; right|].
  destruct Hg as (counter & -> & Hcr & Hsp & Hmono).
  unfold request_pages in Hff.
  pose proof (kva_index s G i r0 K Er0) as Hi. destruct Hff as (Hb0 & Hbn & Hbf & Hbm).
  set (r := new_record i own a (gKvaRangeGenerationCounter s) base u gl gu).
  assert (R : record_ok r).
  { constructor; simpl; unfold is_u64 in *; lia. }
  unfold mark_pages.
  destruct (fill_run (fun offset => if (offset <? gl) || (u64 (gl + u) <=? offset) then KE_KVA_PAGE_STATE_GUARD
    else KE_KVA_PAGE_STATE_ALLOC) (Z.to_nat (gl + u + gu)) base (PageStates arena)) as (states & Ef & Hfl & Hfs);
    [lia | destruct Hok as (_ & _ & _ & Hl); unfold is_u64 in *; lia | unfold is_u64 in *; lia |].
  cbv zeta. cbv beta in Ef. rewrite Ef. cbn [res_bind].
  rewrite (set_states_ok _ a arena) by (lia || done). cbn [res_bind].
  rewrite (set_record_ok _ i r0) by done. cbn [res_bind].
  assert (Eid : u32 (u32 (Z.of_nat i) + 1) = Z.of_nat i + 1) by (unfold KE_KVA_MAX_RANGES in Hi; by unwrap).
  rewrite Eid. change (mkRecord true own a (Z.of_nat i + 1) (gKvaRangeGenerationCounter s) base (gl + u + gu) u gl gu) with r.
  set (s2 := set_ranges _ _).
  assert (Res : reserved s s2 G i r).
  { unfold s2, set_ranges, set_arenas, set_counter. simpl. rewrite (kv_init _ _ K).
    apply (reserve_run s G i r0 r a arena states); try done; [|by apply slots_grow_refl with (1 := kv_layout _ _ K)].
    intros p Hp. rewrite Hfs by done. rewrite Z2Nat.id by (unfold is_u64 in *; lia).
    change (BasePageIndex r) with base. change (TotalPages r) with (gl + u + gu).
    destruct (decide (base <= p < base + (gl + u + gu))); [|done]. f_equal.
    rewrite (u64_small (gl + u)) by (unfold UINT64_MAX, is_u64 in *; lia).
    destruct (decide (usable r p)) as [Hus|Hus]; unfold usable, first_usable in Hus; simpl in Hus;
      destruct (Z.ltb_spec (p - base) gl), (Z.leb_spec (gl + u) (p - base)); simpl; done || lia. }
  assert (Ea2 : gKvaArenas s2 !! Z.to_nat a = Some (with_states arena states)).
  { unfold s2. simpl. apply list_lookup_insert_eq. by eapply lookup_lt_Some. }
  rewrite (fill_range_run s2 r (with_states arena states)); [|done|done|].
  2: { apply (lo_arena _ _ _ _ (kv_layout _ _ (rs_ok _ _ _ _ _ Res))); [exact Ha | exact Ea2]. }
  cbn [res_bind]. exists EC_SUCCESS, (Some (range_of r)), s2. split; [done|].
  split; [done|]. split; [done|]. split; [done|]. exists i, base. by split_and!.
Qed.
End calls.
End KvaCalls.
