(* ===== verification/KvaFixmap.v ===== *)
(** * Fixmap slots and temporary mappings *)

From S2P Require Import Prelude Pmm PageTable Kva KvaInv KvaLayout KvaMach KvaOps KvaCalls.

Local Open Scope Z_scope.

Module KvaFixmap.
Import PageTable Kva KvaInv KvaLayout KvaMach KvaOps KvaCalls.

(** ** Tokens *)

Lemma token_value q g : 0 <= q < KE_KVA_FIXMAP_ARENA_PAGES -> 0 < g <= KE_TEMP_MAP_TOKEN_GENERATION_MASK ->
  KiEncodeTempMapToken q g = g * 64 + q.
Proof.
  change KE_KVA_FIXMAP_ARENA_PAGES with 64. change KE_TEMP_MAP_TOKEN_GENERATION_MASK with (2 ^ 58 - 1).
  intros Hq Hg. unfold KiEncodeTempMapToken. change KE_KVA_FIXMAP_ARENA_PAGES with 64.
  change KE_TEMP_MAP_TOKEN_GENERATION_MASK with (2 ^ 58 - 1). change KE_TEMP_MAP_TOKEN_SLOT_BITS with 6.
  rewrite (proj2 (Z.leb_gt _ _)), (proj2 (Z.eqb_neq g 0)), (proj2 (Z.ltb_ge _ _)) by lia. cbn [orb].
  rewrite Z.shiftl_mul_pow2 by lia. change (2 ^ 6) with 64. rewrite u64_small by (unfold is_u64; lia).
  symmetry. apply Z.add_nocarry_lor. apply Z.bits_inj'. intros k Hk. rewrite Z.land_spec, Z.bits_0.
  change 64 with (2 ^ 6). destruct (Z.ltb_spec k 6).
  - by rewrite Z.mul_pow2_bits_low.
  - rewrite andb_comm. destruct (Z.eq_dec q 0) as [->|]; [by rewrite Z.bits_0|].
    rewrite Z.bits_above_log2; [done | lia|]. apply Z.log2_lt_pow2; [lia|].
    pose proof (Z.pow_le_mono_r 2 6 k). lia.
Qed.

Lemma token_decode q g : 0 <= q < KE_KVA_FIXMAP_ARENA_PAGES -> 0 < g <= KE_TEMP_MAP_TOKEN_GENERATION_MASK ->
  KiEncodeTempMapToken q g <> 0 /\
  KiDecodeTempMapHandle (Some (KiEncodeTempMapToken q g)) = (EC_SUCCESS, Some (q, g)).
Proof.
  intros Hq Hg. rewrite token_value by done. unfold KiDecodeTempMapHandle.
  change KE_KVA_FIXMAP_ARENA_PAGES with 64 in *. change KE_TEMP_MAP_TOKEN_GENERATION_MASK with (2 ^ 58 - 1) in *.
  split; [lia|]. rewrite (proj2 (Z.eqb_neq _ 0)) by lia.
  change KE_TEMP_MAP_TOKEN_SLOT_MASK with (Z.ones 6). change KE_TEMP_MAP_TOKEN_SLOT_BITS with 6.
  rewrite Z.land_ones, Z.shiftr_div_pow2 by lia. change (2 ^ 6) with 64. cbv zeta.
  rewrite Z.add_comm, Z.mod_add, Z.mod_small, u32_small by (unfold is_u32; lia).
  rewrite Z.div_add, Z.div_small, Z.add_0_l by lia.
  by rewrite (proj2 (Z.leb_gt _ _)), (proj2 (Z.eqb_neq g 0)), (proj2 (Z.ltb_ge _ _)) by lia.
Qed.

Lemma decode_fields token q g : 0 <= token -> KiDecodeTempMapHandle (Some token) = (EC_SUCCESS, Some (q, g)) ->
  0 <= q < KE_KVA_FIXMAP_ARENA_PAGES /\ 0 < g <= KE_TEMP_MAP_TOKEN_GENERATION_MASK /\
  KiEncodeTempMapToken q g = token.
Proof.
  intros Ht. unfold KiDecodeTempMapHandle. destruct (Z.eqb_spec token 0); [done|]. cbv zeta.
  change KE_TEMP_MAP_TOKEN_SLOT_MASK with (Z.ones 6). change KE_TEMP_MAP_TOKEN_SLOT_BITS with 6.
  rewrite Z.land_ones, Z.shiftr_div_pow2 by lia. change (2 ^ 6) with 64.
  pose proof (Z.mod_pos_bound token 64 ltac:(lia)) as Hm. rewrite u32_small by (unfold is_u32; lia).
  destruct (Z.leb_spec KE_KVA_FIXMAP_ARENA_PAGES (token mod 64)); [done|].
  destruct (Z.eqb_spec (token / 64) 0); [done|].
  destruct (Z.ltb_spec KE_TEMP_MAP_TOKEN_GENERATION_MASK (token / 64)); [done|]. cbn [orb].
  intros [= <- <-]. pose proof (Z.div_pos token 64 Ht ltac:(lia)). split; [lia|]. split; [lia|].
  rewrite token_value by lia. pose proof (Z.div_mod token 64). lia.
Qed.

Section fixmap.
Context `{PageAllocatorLaws P}.
Implicit Type s : KE_KVA_STATE P.

Lemma set_page_state_ok s a p v arena : 0 <= a -> gKvaArenas s !! Z.to_nat a = Some arena ->
  0 <= p < Z.of_nat (length (PageStates arena)) ->
  set_page_state s a p v =
    Ok (set_arenas s (<[Z.to_nat a := with_states arena (<[Z.to_nat p := v]> (PageStates arena))]> (gKvaArenas s))).
Proof.
  intros Ha E Hp. unfold set_page_state. rewrite (proj2 (rd_ok _ _ _) (conj Ha E)). cbn [res_bind].
  rewrite wr_in by done. cbn [res_bind]. by apply set_states_ok.
Qed.

Definition fixmap_record (i : nat) (q g : Z) : KE_KVA_RANGE_RECORD :=
  mkRecord true false KE_KVA_ARENA_FIXMAP (Z.of_nat i + 1) g q 1 1 0 0.

(** What an acquisition that starts at slot [slot] does. *)
Definition fixmap_outcome s (G : tables) (i : nat) (slot pa attrs : Z) (st : HO_STATUS) (token va : Z) s' : Prop :=
  gKvaRangeGenerationCounter s' = gKvaRangeGenerationCounter s /\
  gKernelAddressSpace s' = gKernelAddressSpace s /\
  ((st = EC_SUCCESS /\ exists q g G', slot <= q < KE_KVA_FIXMAP_ARENA_PAGES /\
      gFixmapSlotGenerations s !! Z.to_nat q = Some (g - 1) /\ 0 < g <= KE_TEMP_MAP_TOKEN_GENERATION_MASK /\
      state_at (gKvaArenas s) KE_KVA_ARENA_FIXMAP q = Some KE_KVA_PAGE_STATE_FREE /\
      token = KiEncodeTempMapToken q g /\ va = page_va KE_KVA_ARENA_FIXMAP q /\
      gKvaRanges s' = <[i := fixmap_record i q g]> (gKvaRanges s) /\
      gFixmapSlotGenerations s' = <[Z.to_nat q := g]> (gFixmapSlotGenerations s) /\
      mapped (root s) (mach s) (mach s') G G' va pa attrs /\ kva_ok s' G') \/
   (st <> EC_SUCCESS /\ token = 0 /\ va = 0 /\ kva_ok s' G /\
      (forall j r, active (gKvaRanges s') j r <-> active (gKvaRanges s) j r) /\
      (mach s' = mach s \/ undone (mach s) (mach s') G) /\
      (forall va', translate (mem (mach s')) (root s) va' = translate (mem (mach s)) (root s) va'))).

Lemma set_initialized_same s : gKvaInitialized s = true ->
  s = mkKva (mach s) (gKernelAddressSpace s) (gKvaArenas s) (gKvaRanges s) (gFixmapSlotGenerations s)
        (gKvaRangeGenerationCounter s) true.
Proof. destruct s. simpl. by intros ->. Qed.

(** A slot whose generations are used up is retired and passed over. *)
Lemma retire_slot s G slot arena : kva_ok s G -> 0 <= slot < KE_KVA_FIXMAP_ARENA_PAGES ->
  gKvaArenas s !! Z.to_nat KE_KVA_ARENA_FIXMAP = Some arena ->
  PageStates arena !! Z.to_nat slot = Some KE_KVA_PAGE_STATE_FREE ->
  gFixmapSlotGenerations s !! Z.to_nat slot = Some KE_TEMP_MAP_TOKEN_GENERATION_MASK ->
  exists s1, set_page_state s KE_KVA_ARENA_FIXMAP slot KE_KVA_PAGE_STATE_RETIRED = Ok s1 /\ kva_ok s1 G /\
    mach s1 = mach s /\ gKvaRanges s1 = gKvaRanges s /\ gFixmapSlotGenerations s1 = gFixmapSlotGenerations s /\
    gKvaRangeGenerationCounter s1 = gKvaRangeGenerationCounter s /\ gKernelAddressSpace s1 = gKernelAddressSpace s /\
    (forall q, slot < q -> state_at (gKvaArenas s1) KE_KVA_ARENA_FIXMAP q = state_at (gKvaArenas s) KE_KVA_ARENA_FIXMAP q).
Proof.
  intros K Hs Ea Es Hg.
  assert (Hp : arena_page KE_KVA_ARENA_FIXMAP slot) by done.
  rewrite (set_page_state_ok s _ slot _ arena) by (done || (apply lookup_lt_Some in Es; lia)).
  eexists. split; [done|]. split.
  - unfold set_arenas. rewrite (kv_init _ _ K). apply (kva_ok_relayout s G _ _ _ _ K); [|done].
    apply (layout_retire _ _ _ _ (kv_layout _ _ K) arena slot Hp Ea Es Hg).
  - split_and!; try done. intros q Hq. simpl. rewrite state_at_set by (done || by eapply lookup_lt_Some).
    rewrite decide_True by done. unfold state_at. rewrite Ea. cbn. apply list_lookup_insert_ne. lia.
Qed.

(** A failed mapping gives the slot and the record back. *)
Lemma unreserve s G i r arena : kva_ok s G -> active (gKvaRanges s) i r -> Arena r = KE_KVA_ARENA_FIXMAP ->
  TotalPages r = 1 -> (forall p, usable r p -> leaf s (page_va (Arena r) p) = None) ->
  gKvaArenas s !! Z.to_nat KE_KVA_ARENA_FIXMAP = Some arena ->
  exists s1, (let* s := set_page_state s KE_KVA_ARENA_FIXMAP (BasePageIndex r) KE_KVA_PAGE_STATE_FREE in
      set_record s (Z.of_nat i) (blank_record (Z.of_nat i))) = Ok s1 /\ kva_ok s1 G /\ mach s1 = mach s /\
    gKvaRanges s1 = <[i := blank_record (Z.of_nat i)]> (gKvaRanges s) /\
    gKvaRangeGenerationCounter s1 = gKvaRangeGenerationCounter s /\ gKernelAddressSpace s1 = gKernelAddressSpace s.
Proof.
  intros K Ha Er Ht Hun Ea. pose proof (kva_record s G i r K Ha) as R.
  destruct (kva_arena s G (Arena r) K) as (arena' & _ & Ea' & Hok); [apply R|]. rewrite Er, Ea in Ea'.
  injection Ea' as <-. destruct Hok as (_ & _ & _ & Hlen). destruct R as [Ra Ru [Rg1 Rg2] Rt [Rb Rr] Rgen].
  rewrite (set_page_state_ok s _ _ _ arena) by (done || lia). cbn [res_bind].
  rewrite (set_record_ok _ i r) by apply Ha. eexists. split; [done|]. split; [|done].
  unfold set_ranges, set_arenas. simpl. rewrite (kv_init _ _ K). apply (kva_ok_relayout s G _ _ _ _ K).
  - rewrite <- Er. apply (layout_drop _ _ _ _ (kv_layout _ _ K) arena _ i r KE_KVA_PAGE_STATE_FREE Ha); [by rewrite Er | by rewrite length_insert | | by left].
    intros p Hp. destruct (decide (BasePageIndex r <= p < BasePageIndex r + TotalPages r)).
    + replace p with (BasePageIndex r) by lia. apply list_lookup_insert_eq. lia.
    + apply list_lookup_insert_ne. lia.
  - intros j r' p lp Hp Hu E. rewrite active_insert by (eapply lookup_lt_Some; apply Ha).
    split; [|by intros [(_ & -> & ?)|[_ ?]]]. intros Hj. right. split; [|done]. intros ->.
    rewrite (active_fun _ _ _ _ Hj Ha) in *. by rewrite Hun in E.
Qed.

(** Taking a free slot: its page, its next generation and a record. *)
Lemma reserve_slot s G i r0 slot arena g : kva_ok s G -> gKvaRanges s !! i = Some r0 -> InUse r0 = false ->
  0 <= slot < KE_KVA_FIXMAP_ARENA_PAGES -> gKvaArenas s !! Z.to_nat KE_KVA_ARENA_FIXMAP = Some arena ->
  PageStates arena !! Z.to_nat slot = Some KE_KVA_PAGE_STATE_FREE ->
  gFixmapSlotGenerations s !! Z.to_nat slot = Some g -> 0 <= g < KE_TEMP_MAP_TOKEN_GENERATION_MASK ->
  exists s1, KiNextFixmapSlotGeneration s slot = Ok (g + 1, s1) /\
    exists s3, (let* s := set_page_state s1 KE_KVA_ARENA_FIXMAP slot KE_KVA_PAGE_STATE_ALLOC in
      set_record s (Z.of_nat i) (fixmap_record i slot (g + 1))) = Ok s3 /\
    reserved s s3 G i (fixmap_record i slot (g + 1)) /\
    gFixmapSlotGenerations s3 = <[Z.to_nat slot := g + 1]> (gFixmapSlotGenerations s) /\
    gKvaRangeGenerationCounter s3 = gKvaRangeGenerationCounter s.
Proof.
  intros K Er0 Hu0 Hs Ea Es Eg Hg. unfold KiNextFixmapSlotGeneration.
  rewrite (proj2 (Z.leb_gt _ slot)) by lia.
  destruct (lo_slots _ _ _ _ (kv_layout _ _ K)) as [Hl Hf].
  rewrite (proj2 (rd_ok _ _ _) (conj (proj1 Hs) Eg)). cbn [res_bind]. rewrite (proj2 (Z.leb_gt _ g)) by lia.
  rewrite wr_in by lia. cbn [res_bind].
  change KE_TEMP_MAP_TOKEN_GENERATION_MASK with (2 ^ 58 - 1) in *. rewrite u64_small by (unfold is_u64; lia).
  eexists. split; [done|]. 
  rewrite (set_page_state_ok _ _ slot _ arena) by (done || (apply lookup_lt_Some in Es; lia)). cbn [res_bind].
  rewrite (set_record_ok _ i r0) by done. eexists. split; [done|]. split; [|done].
  unfold set_ranges, set_arenas, set_slots. simpl. rewrite (kv_init _ _ K).
  pose proof (kva_index s G i r0 K Er0) as Hi. 
  apply (reserve_run s G i r0 (fixmap_record i slot (g + 1)) KE_KVA_ARENA_FIXMAP arena); try done; simpl.
  - constructor; simpl; try done; change (arena_pages KE_KVA_ARENA_FIXMAP) with KE_KVA_FIXMAP_ARENA_PAGES; lia.
  - intros p Hp. by replace p with slot by lia.
  - by rewrite length_insert.
  - intros p Hp. unfold usable, first_usable. simpl. destruct (decide (slot <= p < slot + 1)).
    + replace p with slot by lia. rewrite decide_True by lia. apply list_lookup_insert_eq. by eapply lookup_lt_Some.
    + apply list_lookup_insert_ne. lia.
  - split; [by rewrite length_insert|]. split.
    + apply Forall_insert; [done|]. change KE_TEMP_MAP_TOKEN_GENERATION_MASK with (2 ^ 58 - 1). lia.
    + intros j Hj. destruct (decide (j = Z.to_nat slot)) as [->|]; [|by rewrite list_lookup_insert_ne].
      rewrite Eg in Hj. injection Hj as ->. change KE_TEMP_MAP_TOKEN_GENERATION_MASK with (2 ^ 58 - 1) in Hg. lia.
  - apply (lo_counter _ _ _ _ (kv_layout _ _ K)).
Qed.
(** An acquisition that passes over slots acts like one on the state after. *)
Lemma outcome_skip s s1 G i slot pa attrs st token va s' :
  mach s1 = mach s -> gKvaRanges s1 = gKvaRanges s -> gFixmapSlotGenerations s1 = gFixmapSlotGenerations s ->
  gKvaRangeGenerationCounter s1 = gKvaRangeGenerationCounter s -> gKernelAddressSpace s1 = gKernelAddressSpace s ->
  (forall q, slot < q -> state_at (gKvaArenas s1) KE_KVA_ARENA_FIXMAP q = state_at (gKvaArenas s) KE_KVA_ARENA_FIXMAP q) ->
  fixmap_outcome s1 G i (slot + 1) pa attrs st token va s' -> fixmap_outcome s G i slot pa attrs st token va s'.
Proof.
  intros E1 E2 E3 E4 E5 E6. unfold fixmap_outcome, root. rewrite E1, E2, E3, E4, E5.
  intros (Hc & Hsp & O). split; [done|]. split; [done|]. destruct O as [(-> & q & g & G' & Hq & O)|O]; [left | by right].
  split; [done|]. exists q, g, G'. split; [lia|]. by rewrite <- E6 by lia.
Qed.

Lemma blank_active ranges i r0 r j r' : ranges !! i = Some r0 -> InUse r0 = false ->
  active (<[i := blank_record (Z.of_nat i)]> (<[i := r]> ranges)) j r' <-> active ranges j r'.
Proof.
  intros E Hu. pose proof (lookup_lt_Some _ _ _ E). rewrite active_insert by (by rewrite length_insert).
  rewrite active_insert by done. split.
  - intros [(_ & -> & ?)|[? [(? & _)|[_ ?]]]]; done.
  - intros Ha. right. assert (j <> i) by (intros ->; destruct Ha as [E' Hu']; congruence). split; [done|]. by right.
Qed.

(** The loop over the slots. *)
Lemma fixmap_slots_run n slot s G i r0 pa attrs :
  kva_ok s G -> gKvaRanges s !! i = Some r0 -> InUse r0 = false -> frame pa ->
  0 <= slot -> slot + Z.of_nat n = KE_KVA_FIXMAP_ARENA_PAGES ->
  exists st token va s', fixmap_slots n slot (Z.of_nat i) pa attrs s = Ok (st, token, va, s') /\
    fixmap_outcome s G i slot pa attrs st token va s'.
Proof.
  revert slot s. induction n as [|n IH]; intros slot s K Er0 Hu0 Hfr Hs Hn.
  { exists EC_OUT_OF_RESOURCE, 0, 0, s. split; [done|]. split; [done|]. split; [done|]. right.
    split_and!; try done. by left. }
  cbn [fixmap_slots]. destruct (kva_arena s G KE_KVA_ARENA_FIXMAP K) as (arena & -> & Ea & Hok); [done|].
  cbn [res_bind]. destruct Hok as (_ & _ & _ & Hlen).
  change (arena_pages KE_KVA_ARENA_FIXMAP) with KE_KVA_FIXMAP_ARENA_PAGES in Hlen.
  destruct (rd_in (PageStates arena) slot) as [v Ev]; [lia|]. rewrite Ev. cbn [res_bind]. apply rd_ok in Ev as [_ Ev].
  destruct (Z.eqb_spec v KE_KVA_PAGE_STATE_FREE) as [->|Hv]; cbn [negb].
  2: { destruct (IH (slot + 1) s) as (st & tok & va & s' & -> & O); try done; [lia | lia|].
       exists st, tok, va, s'. split; [done|]. by apply (outcome_skip s s). }
  rewrite (slot_retired_run s G) by (done || lia). cbn [res_bind].
  destruct (lo_slots _ _ _ _ (kv_layout _ _ K)) as [Hsl Hsf].
  destruct (lookup_lt_is_Some_2 (gFixmapSlotGenerations s) (Z.to_nat slot)) as [g Eg]; [lia|].
  rewrite Forall_lookup in Hsf. pose proof (Hsf _ _ Eg) as Hg.
  case_bool_decide as Hret.
  { destruct (retire_slot s G slot arena K) as (s1 & -> & K1 & E1 & E2 & E3 & E4 & E5 & E6); [lia | done..|].
    cbn [res_bind]. destruct (IH (slot + 1) s1) as (st & tok & va & s' & -> & O); [done | by rewrite E2 | done | done | lia | lia|].
    exists st, tok, va, s'. split; [done|]. by apply (outcome_skip s s1). }
  assert (Hg2 : g <> KE_TEMP_MAP_TOKEN_GENERATION_MASK) by congruence.
  destruct (reserve_slot s G i r0 slot arena g K Er0 Hu0) as (s1 & -> & s3 & E3 & Res & Esl & Ecn); [lia | done | done | done | lia|].
  cbn [res_bind]. rewrite (proj2 (Z.eqb_neq (g + 1) 0)) by lia.
  apply res_bind_ok in E3 as (s2 & E2 & E3). rewrite E2. cbn [res_bind].
  pose proof (kva_index s G i r0 K Er0) as Hi.
  assert (Eid : u32 (u32 (Z.of_nat i) + 1) = Z.of_nat i + 1) by (unfold KE_KVA_MAX_RANGES in Hi; by unwrap).
  rewrite Eid. fold (fixmap_record i slot (g + 1)). rewrite E3. cbn [res_bind].
  set (r := fixmap_record i slot (g + 1)) in *. pose proof (rs_ok _ _ _ _ _ Res) as K3.
  assert (Ha3 : active (gKvaRanges s3) i r).
  { rewrite (rs_ranges _ _ _ _ _ Res). apply active_insert; [by eapply lookup_lt_Some|]. by left. }
  destruct (kva_arena s3 G KE_KVA_ARENA_FIXMAP K3) as (arena3 & _ & Ea3 & Hok3); [done|].
  rewrite (fill_range_run s3 r arena3 (kva_record s3 G i r K3 Ha3) Ea3 Hok3). cbn [res_bind].
  destruct (token_decode slot (g + 1)) as [Htok _]; [lia | lia|]. rewrite (proj2 (Z.eqb_neq _ _) Htok).
  change (RgUsableBase (range_of r)) with (page_va (Arena r) (first_usable r)).
  assert (Hus : forall p, usable r p <-> p = slot) by (intros p; unfold usable, first_usable; simpl; lia).
  assert (Efu : first_usable r = slot) by (unfold first_usable; simpl; lia).
  destruct (map_range_page s3 G i r (first_usable r) pa attrs K3 Ha3) as (st & m & -> & O); [by apply Hus | done | done|].
  assert (Hroot : root s3 = root s) by (unfold root; by rewrite (rs_space _ _ _ _ _ Res)).
  cbn [res_bind]. rewrite Efu in *. rewrite (rs_mach _ _ _ _ _ Res), Hroot in O.
  destruct O as [(-> & G' & M & K')|(Hne & U & Htr & K')].
  - change (succeeded EC_SUCCESS) with true. cbn [negb]. do 4 eexists. split; [done|].
    split; [done|]. split; [apply Res|]. left. split; [done|]. exists slot, (g + 1), G'. simpl.
    split; [lia|]. split; [by replace (g + 1 - 1) with g by lia|]. split; [lia|].
    split; [unfold state_at; by rewrite Ea|]. split; [done|]. split; [done|].
    split; [apply Res|]. split; [done|]. split; [exact M | done].
  - unfold succeeded. rewrite bool_decide_false by done. cbn [negb].
    destruct (unreserve (set_mach s3 m) G i r arena3 K' Ha3) as (s4 & E4 & K4 & Em & Er & Ec & Es); [done | done | | done|].
    { intros p ->%Hus. unfold leaf. simpl. change (root (set_mach s3 m)) with (root s3). rewrite Hroot, Htr.
      rewrite <- (rs_unmapped _ _ _ _ _ Res slot); [done|]. apply covers_intro; simpl; [done | done | lia]. }
    change (BasePageIndex r) with slot in E4. apply res_bind_ok in E4 as (s5 & E5 & E4).
    rewrite E5. cbn [res_bind]. rewrite E4. cbn [res_bind]. do 4 eexists. split; [done|].
    split; [by rewrite Ec|]. split; [rewrite Es; apply Res|]. right. split; [done|]. split; [done|]. split; [done|].
    split; [done|]. split.
    + intros j r'. rewrite Er. simpl. rewrite (rs_ranges _ _ _ _ _ Res). by apply (blank_active _ i r0).
    + rewrite Em. split; [by right | done].
Qed.

(** [KeFixmapAcquire] on a page frame. *)
Lemma fixmap_acquire_run s G pa attrs : kva_ok s G -> frame pa ->
  exists st token va s', KeFixmapAcquire pa attrs true s = Ok (st, Some (token, va), s') /\
    exists i, (exists r0, gKvaRanges s !! i = Some r0 /\ (st = EC_SUCCESS -> InUse r0 = false)) /\
      fixmap_outcome s G i 0 pa attrs st token va s'.
Proof.
  intros K Hfr. unfold KeFixmapAcquire. rewrite (kv_init _ _ K). cbn [negb orb].
  rewrite is_aligned_4k, (proj2 (Z.eqb_eq _ _) (proj1 Hfr)). cbn [negb].
  destruct (find_free_record_run s) as (o & -> & Ho). cbn [res_bind]. destruct o as [z|].
  - destruct Ho as (i & r0 & -> & Er0 & Hu0 & _).
    destruct (kva_arena s G KE_KVA_ARENA_FIXMAP K) as (arena & -> & Ea & Hok); [done|]. cbn [res_bind].
    destruct Hok as (_ & _ & Hc & _). rewrite Hc.
    destruct (fixmap_slots_run (Z.to_nat (arena_pages KE_KVA_ARENA_FIXMAP)) 0 s G i r0 pa attrs K Er0 Hu0 Hfr)
      as (st & tok & va & s' & -> & O); [done | done|].
    cbn [res_bind]. do 4 eexists. split; [done|]. exists i. split; [by exists r0 | done].
  - do 4 eexists. split; [done|]. 
    pose proof (lo_ranges _ _ _ _ (kv_layout _ _ K)) as Hl. unfold KE_KVA_MAX_RANGES in Hl.
    destruct (lookup_lt_is_Some_2 (gKvaRanges s) 0) as [r0 E0]; [lia|].
    exists 0%nat. split; [by exists r0|]. split; [done|]. split; [done|]. right. split_and!; try done. by left.
Qed.

(** ** [KeTempPhysMapRelease] *)

Lemma temp_release_run s G token : kva_ok s G -> is_u64 token ->
  exists st h' s', KeTempPhysMapRelease (Some token) s = Ok (st, h', s') /\
    ((st = EC_SUCCESS /\ h' = Some 0 /\ exists i r q g,
        KiDecodeTempMapHandle (Some token) = (EC_SUCCESS, Some (q, g)) /\
        active (gKvaRanges s) i r /\ Arena r = KE_KVA_ARENA_FIXMAP /\ first_usable r = q /\
        gFixmapSlotGenerations s !! Z.to_nat q = Some g /\ released s s' G i r) \/
     (st <> EC_SUCCESS /\ h' = Some token /\ s' = s /\
      forall i r q g, KiDecodeTempMapHandle (Some token) = (EC_SUCCESS, Some (q, g)) ->
        active (gKvaRanges s) i r -> Arena r = KE_KVA_ARENA_FIXMAP -> first_usable r = q ->
        gFixmapSlotGenerations s !! Z.to_nat q = Some g -> False)).
Proof.
  intros K Ht. unfold KeTempPhysMapRelease.
  destruct (KiDecodeTempMapHandle (Some token)) as [st o] eqn:Ed.
  assert (Hst : match o with Some _ => st = EC_SUCCESS | None => st <> EC_SUCCESS end).
  { unfold KiDecodeTempMapHandle in Ed. destruct (token =? 0); [by injection Ed as <- <-|]. cbv zeta in Ed.
    destruct (_ || _ || _); by injection Ed as <- <-. }
  destruct o as [[q g]|].
  2: { exists st, (Some token), s. split; [done|]. right. by split_and!. }
  subst st. destruct (decode_fields token q g) as (Hq & Hg & _); [apply Ht | done|].
  assert (Hp : arena_page KE_KVA_ARENA_FIXMAP q) by done.
  change KE_KVA_FIXMAP_ARENA_BASE with (arena_base KE_KVA_ARENA_FIXMAP). rewrite page_va_base by done. cbv zeta.
  destruct (find_by_base_run s G (page_va KE_KVA_ARENA_FIXMAP q) K) as (o & -> & Ho). cbn [res_bind].
  assert (Hfound : forall i r, active (gKvaRanges s) i r -> Arena r = KE_KVA_ARENA_FIXMAP -> first_usable r = q ->
    page_va (Arena r) (first_usable r) = page_va KE_KVA_ARENA_FIXMAP q) by (by intros i r _ -> ->).
  destruct o as [z|].
  2: { do 3 eexists. split; [done|]. right. split_and!; try done. intros i r q' g' [= <- <-] Ha Er Ef _.
       by apply (Ho i r Ha), (Hfound i). }
  destruct Ho as (i & r & -> & Ha & Eb). rewrite (read_record s i r (proj1 Ha)). cbn [res_bind].
  assert (Er : Arena r = KE_KVA_ARENA_FIXMAP /\ first_usable r = q).
  { apply page_va_inj; [|done|done]. pose proof (kva_record s G i r K Ha) as R.
    apply usable_page; [done|]. unfold usable. destruct R. lia. }
  destruct Er as [Er Ef]. rewrite Er, Z.eqb_refl. cbn [negb].
  destruct (lo_slots _ _ _ _ (kv_layout _ _ K)) as [Hsl _].
  destruct (rd_in (gFixmapSlotGenerations s) q) as [g0 Eg]; [lia|]. rewrite Eg. cbn [res_bind]. apply rd_ok in Eg as [_ Eg].
  destruct (Z.eqb_spec g0 g) as [->|Hne]; cbn [negb].
  - rewrite <- Er, arena_state_small by apply (kva_record s G i r K Ha).
    destruct (release_record_run s G i r K Ha) as (s' & -> & R). cbn [res_bind]. change (succeeded EC_SUCCESS) with true.
    do 3 eexists. split; [done|]. left. split; [done|]. split; [done|]. by exists i, r, q, g.
  - do 3 eexists. split; [done|]. right. split_and!; try done. intros i' r' q' g' [= <- <-] _ _ _ E. congruence.
Qed.
End fixmap.
End KvaFixmap.
