(* ===== verification/KvaHeap.v ===== *)
(** * The page heap is a heap

    [KeHeapAllocPages] and [KeHeapFreePages] of [ke/mm/kva.c] over the page
    tables and the page allocator keep the contract [HeapLaws] that the object
    pool ([Pool.v]) and the byte allocator rely on.  A word of memory is read
    and written through the processor's translation. *)

From S2P Require Import Prelude Pmm PageTable Heap Kva KvaInv KvaLayout KvaMach KvaOps KvaCalls.

Local Open Scope Z_scope.

Module KvaHeap.
Import PageTable Kva KvaInv KvaLayout KvaMach KvaOps KvaCalls.

(** ** Translation inside a page *)

Definition shift_mapping (o : Z) (mp : KE_PT_MAPPING) : KE_PT_MAPPING :=
  mkMapping (Present mp) (LargeLeaf mp) (UserAccessible mp) (Level mp) (PageSize mp) (PhysicalBase mp + o) (Attributes mp).

Lemma page_word_split l va : (1 <= l)%nat ->
  let b := va - va mod PAGE_4KB in
  vindex l va = vindex l b /\ va mod span l = b mod span l + va mod PAGE_4KB.
Proof.
  intros Hl b. assert (Hs : exists k, span l = PAGE_4KB * k /\ 0 < k).
  { exists (2 ^ (9 * (Z.of_nat l - 1))). unfold span, PAGE_4KB. change 4096 with (2 ^ 12).
    rewrite <- Z.pow_add_r by lia. split; [done | apply Z.pow_pos_nonneg; lia]. }
  destruct Hs as (k & Es & Hk). unfold vindex. rewrite Es, <- !Z.div_div, !Z.rem_mul_r by (unfold PAGE_4KB; lia).
  assert (Hb : b / PAGE_4KB = va / PAGE_4KB /\ b mod PAGE_4KB = 0) by (unfold b, PAGE_4KB; div_lia).
  destruct Hb as [-> ->]. split; [done | lia].
Qed.

Lemma translate_offset m r va :
  translate m r va = shift_mapping (va mod PAGE_4KB) <$> translate m r (va - va mod PAGE_4KB).
Proof.
  unfold translate. generalize 4%nat. intros l. revert r. generalize true at 1 2. intros u. revert u.
  induction l as [|l IH]; intros u t; [done|]. cbn [hw_walk]. cbv zeta.
  destruct (page_word_split (S l) va) as [<- Eo]; [lia|]. set (e := m (entry_at t (vindex (S l) va))).
  destruct (has e PTE_PRESENT); [|done]. cbn [negb]. destruct (bool_decide _ || _); [|apply IH].
  cbn. unfold shift_mapping. simpl. rewrite Eo. do 2 f_equal. lia.
Qed.

(** ** Blocks *)

(** The block a record stands for. *)
Definition heap_block (r : KE_KVA_RANGE_RECORD) : option (Z * Z) :=
  if InUse r && (Arena r =? KE_KVA_ARENA_HEAP)
  then Some (page_va (Arena r) (first_usable r), UsablePages r) else None.

Lemma omap_insert_none {A B} (f : A -> option B) (l : list A) i x y :
  l !! i = Some x -> f x = None -> f y = None -> omap f (<[i := y]> l) = omap f l.
Proof.
  intros E Hx Hy. pose proof (lookup_lt_Some _ _ _ E). rewrite insert_take_drop by done.
  rewrite <- (take_drop_middle l i x E) at 3. rewrite !omap_app. cbn. by rewrite Hx, Hy.
Qed.

Lemma omap_insert_some {A B} (f : A -> option B) (l : list A) i x y z :
  l !! i = Some x -> f x = None -> f y = Some z -> Permutation (omap f (<[i := y]> l)) (z :: omap f l).
Proof.
  intros E Hx Hy. pose proof (lookup_lt_Some _ _ _ E). rewrite insert_take_drop by done.
  rewrite <- (take_drop_middle l i x E) at 3. rewrite !omap_app. cbn. rewrite Hx, Hy.
  symmetry. apply Permutation_middle.
Qed.

Lemma NoDup_omap_index {A B} (f : A -> option B) (l : list A) :
  (forall i j x y z, l !! i = Some x -> l !! j = Some y -> f x = Some z -> f y = Some z -> i = j) -> NoDup (omap f l).
Proof.
  induction l as [|a l IH]; intros Hinj; [constructor|]. cbn. 
  assert (IH' : NoDup (omap f l)).
  { apply IH. intros i j x y z Hi Hj Hx Hy. assert (S i = S j) by (eapply Hinj; done). lia. }
  destruct (f a) as [z|] eqn:Ea; [|done]. constructor; [|done].
  intros (y & Hy & Ey)%list_elem_of_omap. apply list_elem_of_lookup in Hy as [j Hj].
  assert (0%nat = S j) by (eapply Hinj; done). lia.
Qed.

Section heap.
Context `{PageAllocatorLaws P}.
Implicit Type s : KE_KVA_STATE P.

Definition kva_live s : list (Z * Z) := omap heap_block (gKvaRanges s).

(** A range as [KeHeapAllocPages] makes it: it owns its pages, has no guards
    and is fully mapped. *)
Definition heap_range s (r : KE_KVA_RANGE_RECORD) : Prop :=
  OwnsPhysicalBacking r = true /\ GuardLowerPages r = 0 /\
  forall p, usable r p -> is_Some (leaf s (page_va (Arena r) p)).

Definition kva_heap_ok s : Prop :=
  exists G, kva_ok s G /\
    forall i r, active (gKvaRanges s) i r -> Arena r = KE_KVA_ARENA_HEAP -> heap_range s r.

Definition kva_load (a : Z) s : option Z :=
  (fun mp => mem (mach s) (PhysicalBase mp)) <$> translate (mem (mach s)) (root s) a.

Definition kva_store (a v : Z) s : option (KE_KVA_STATE P) :=
  (fun mp => set_mach s (set_mem (mach s) (PageTable.store (mem (mach s)) (PhysicalBase mp) v)))
    <$> translate (mem (mach s)) (root s) a.

(** The calls as their clients see them: the pointer is 0 when none was
    written.  The last case of each never happens on a consistent state. *)
Definition kva_alloc (n : Z) s : HO_STATUS * Z * KE_KVA_STATE P :=
  match Kva.KeHeapAllocPages n true s with
  | Ok (status, va, s') => (status, default 0 va, s')
  | _ => (EC_FAILURE, 0, s)
  end.

Definition kva_free (a : Z) s : HO_STATUS * KE_KVA_STATE P :=
  match Kva.KeHeapFreePages a s with
  | Ok (status, s') => (status, s')
  | _ => (EC_FAILURE, s)
  end.

#[global] Instance kva_services : HeapServices (KE_KVA_STATE P) :=
  {| Heap.KeHeapAllocPages := kva_alloc; Heap.KeHeapFreePages := kva_free;
     load_word := kva_load; store_word := kva_store |}.

(** ** Live words and the frames behind them *)

Lemma live_record s b : b ∈ kva_live s <->
  exists i r, active (gKvaRanges s) i r /\ Arena r = KE_KVA_ARENA_HEAP /\
    b = (page_va (Arena r) (first_usable r), UsablePages r).
Proof.
  unfold kva_live. rewrite list_elem_of_omap. split.
  - intros (r & Hr & E). apply list_elem_of_lookup in Hr as [i Hi]. unfold heap_block in E.
    destruct (InUse r) eqn:Hu; [|done]. destruct (Z.eqb_spec (Arena r) KE_KVA_ARENA_HEAP); [|done].
    injection E as <-. by exists i, r.
  - intros (i & r & [Hi Hu] & Ha & ->). exists r. split; [by apply list_elem_of_lookup_2 in Hi|].
    unfold heap_block. by rewrite Hu, Ha.
Qed.

(** The page of a live word, the frame behind it, and what a load returns. *)
Definition word_at s (a : Z) (i : nat) (r : KE_KVA_RANGE_RECORD) (p pa : Z) : Prop :=
  active (gKvaRanges s) i r /\ Arena r = KE_KVA_ARENA_HEAP /\ usable r p /\
  page_va (Arena r) p = a - a mod PAGE_4KB /\ owns s (Arena r) p pa.

Lemma in_block_page r a : record_ok r ->
  in_block (page_va (Arena r) (first_usable r), UsablePages r) a ->
  exists p, usable r p /\ page_va (Arena r) p = a - a mod PAGE_4KB.
Proof.
  intros R [H1 H2]. simpl in *.
  assert (Hp : arena_page (Arena r) (first_usable r)).
  { apply usable_page; [done|]. unfold usable. destruct R. lia. }
  pose proof (page_va_aligned _ _ Hp) as Hal. unfold page_va, usable in *.
  exists ((a - arena_base (Arena r)) / PAGE_4KB).
  assert (Hb : arena_base (Arena r) mod PAGE_4KB = 0) by (by rewrite Z.mod_add in Hal).
  revert H1 H2 Hb. generalize (arena_base (Arena r)), (first_usable r), (UsablePages r). unfold PAGE_4KB.
  intros base f u H1 H2 Hb. div_lia.
Qed.

Lemma record_word s G i r a : kva_ok s G -> active (gKvaRanges s) i r -> Arena r = KE_KVA_ARENA_HEAP ->
  heap_range s r -> in_block (page_va (Arena r) (first_usable r), UsablePages r) a ->
  exists p pa, word_at s a i r p pa.
Proof.
  intros K Ha Er (Ho & _ & Hm) Hin. pose proof (kva_record s G i r K Ha) as R.
  destruct (in_block_page r a R Hin) as (p & Hp & Ev). destruct (Hm p Hp) as [[l pa] E].
  destruct (usable_page r p R Hp) as [Hpage _].
  destruct (kv_mapped _ _ K (Arena r) p l pa Hpage E) as [-> _].
  exists p, pa. split_and!; try done. by exists i, r.
Qed.

Lemma live_word_at s a : kva_heap_ok s -> live_word (kva_live s) a -> exists i r p pa, word_at s a i r p pa.
Proof.
  intros (G & K & Hh) (_ & b & Hb & Hin). apply live_record in Hb as (i & r & Ha & Er & ->).
  destruct (record_word s G i r a K Ha Er (Hh i r Ha Er) Hin) as (p & pa & W). by exists i, r, p, pa.
Qed.

(** The word's translation is its place in the frame. *)
Lemma word_translate s a i r p pa : word_at s a i r p pa ->
  exists mp, translate (mem (mach s)) (root s) a = Some mp /\ PhysicalBase mp = pa + a mod PAGE_4KB.
Proof.
  intros (_ & _ & _ & Ev & (j & r' & _ & _ & _ & _ & E)). rewrite Ev in E. unfold leaf, leaf_of in E.
  rewrite translate_offset. destruct (translate (mem (mach s)) (root s) (a - a mod PAGE_4KB)) as [mp|]; [|done].
  cbn in E. injection E as _ <-. by exists (shift_mapping (a mod PAGE_4KB) mp).
Qed.

Lemma word_load s a i r p pa : word_at s a i r p pa -> kva_load a s = Some (mem (mach s) (pa + a mod PAGE_4KB)).
Proof. intros W. destruct (word_translate s a i r p pa W) as (mp & E & <-). unfold kva_load. by rewrite E. Qed.

(** Two live words at the same physical place are the same word. *)
Lemma word_inj s G a b i r p pa j r' q pb : kva_ok s G -> word_at s a i r p pa -> word_at s b j r' q pb ->
  pa + a mod PAGE_4KB = pb + b mod PAGE_4KB -> a = b.
Proof.
  intros K (_ & _ & _ & Ea & Oa) (_ & _ & _ & Eb & Ob) E.
  destruct (kv_owned _ _ K _ _ _ Oa) as ([Hala _] & _). destruct (kv_owned _ _ K _ _ _ Ob) as ([Halb _] & _).
  assert (pa = pb /\ a mod PAGE_4KB = b mod PAGE_4KB) as [-> Em] by (unfold PAGE_4KB in *; div_lia).
  destruct (kv_private _ _ K _ _ _ _ _ Oa Ob) as [Er <-]. rewrite Er in Ea. lia.
Qed.

(** A word reads the same when its translation and its frame are kept. *)
Lemma load_kept s s' a i r p pa : word_at s a i r p pa -> root s' = root s ->
  leaf_of (translate (mem (mach s')) (root s) (a - a mod PAGE_4KB)) = leaf s (a - a mod PAGE_4KB) ->
  (forall x, pa <= x < pa + PAGE_4KB -> mem (mach s') x = mem (mach s) x) ->
  kva_load a s' = kva_load a s.
Proof.
  intros W Hr El Hm. rewrite (word_load s a i r p pa W).
  destruct W as (_ & _ & _ & Ev & (j & r' & _ & _ & _ & _ & E)). rewrite Ev in E. rewrite E in El.
  unfold kva_load. rewrite Hr, translate_offset. destruct (translate _ _ _) as [mp|]; [|done].
  cbn in El. injection El as _ <-. cbn. f_equal. apply Hm.
  pose proof (Z.mod_pos_bound a PAGE_4KB ltac:(done)). lia.
Qed.
(** ** Loads and stores *)

Lemma kva_load_live s a : kva_heap_ok s -> live_word (kva_live s) a -> is_Some (kva_load a s).
Proof. intros K Ha. destruct (live_word_at s a K Ha) as (i & r & p & pa & W). by rewrite (word_load s a i r p pa W). Qed.

(** Writing a word of an owned frame changes no table. *)
Lemma kva_ok_store s G b q pa x v : kva_ok s G -> owns s b q pa -> pa <= x < pa + PAGE_4KB ->
  kva_ok (set_mach s (set_mem (mach s) (PageTable.store (mem (mach s)) x v))) G /\
  forall va, translate (PageTable.store (mem (mach s)) x v) (root s) va = translate (mem (mach s)) (root s) va.
Proof.
  intros K O Hx. destruct (kv_owned _ _ K _ _ _ O) as ([Hal _] & _ & HG).
  destruct (kv_space _ _ K) as [Hi T].
  assert (Hk : tables_kept true (mem (mach s)) (PageTable.store (mem (mach s)) x v) G).
  { intros t l pre i Ht Hir. unfold PageTable.store. destruct (Z.eqb_spec (entry_at t i) x) as [E|E].
    - exfalso. apply (frame_not_table s G pa x t (l, pre) K Hal HG Hx Ht). rewrite <- E. unfold entry_at, PAGE_4KB. lia.
    - split; [by right; left | by apply (tr_word _ _ _ T t (l, pre))]. }
  assert (Htr : forall va, translate (PageTable.store (mem (mach s)) x v) (root s) va = translate (mem (mach s)) (root s) va).
  { intros va. by apply same_mapping_strict, (kept_translate true _ _ _ G). }
  split; [|done]. apply (kva_ok_mach s _ G G K); simpl; [split; [done|] | apply K | apply K | |].
  - by apply (kept_tree true (mem (mach s))).
  - intros a p lp _. unfold leaf. simpl. change (root (set_mach s _)) with (root s). by rewrite Htr.
  - intros a p pb Ho _. by destruct (kv_owned _ _ K _ _ _ Ho) as (_ & ? & ?).
Qed.

Lemma kva_store_live s a v : kva_heap_ok s -> live_word (kva_live s) a ->
  exists s', kva_store a v s = Some s' /\ kva_heap_ok s' /\ kva_live s' = kva_live s /\ kva_load a s' = Some v /\
    agree (fun b => b <> a /\ live_word (kva_live s) b) s s'.
Proof.
  intros Hok Ha. destruct (live_word_at s a Hok Ha) as (i & r & p & pa & W). pose proof Hok as (G & K & Hh).
  destruct (word_translate s a i r p pa W) as (mp & Et & Ep). unfold kva_store. rewrite Et. cbn [fmap option_fmap option_map].
  set (x := PhysicalBase mp) in *. eexists. split; [done|].
  assert (Hx : pa <= x < pa + PAGE_4KB) by (rewrite Ep; pose proof (Z.mod_pos_bound a PAGE_4KB ltac:(done)); lia).
  destruct (kva_ok_store s G (Arena r) p pa x v K) as [K' Htr]; [apply W | done|].
  split; [|split; [done|split]].
  - exists G. split; [done|]. intros j r' Hj Er. destruct (Hh j r' Hj Er) as (H1 & H2 & H3). split_and!; try done.
    intros q Hq. unfold leaf. simpl. change (root (set_mach s _)) with (root s). rewrite Htr. by apply H3.
  - unfold kva_load. simpl. change (root (set_mach s _)) with (root s). rewrite Htr, Et. cbn. fold x. f_equal.
    apply PageTable.store_eq.
  - intros b [Hne Hb]. destruct (live_word_at s b Hok Hb) as (j & r' & q & pb & W').
    destruct (word_translate s b j r' q pb W') as (mp' & Et' & Ep'). change (kva_load b (set_mach s (set_mem (mach s) (PageTable.store (mem (mach s)) x v))) = kva_load b s).
    unfold kva_load. simpl. change (root (set_mach s _)) with (root s). rewrite Htr, Et'. cbn. f_equal.
    apply PageTable.store_ne. intros E. apply Hne. apply (word_inj s G b a j r' q pb i r p pa K W' W). lia.
Qed.

(** ** Blocks are apart *)

Lemma kva_live_bounds s b : kva_heap_ok s -> b ∈ kva_live s ->
  0 < b.1 /\ b.1 mod PAGE_4KB = 0 /\ 0 < b.2 /\ b.1 + b.2 * PAGE_4KB < 2 ^ 64.
Proof.
  intros (G & K & _) (i & r & Ha & Er & ->)%live_record. pose proof (kva_record s G i r K Ha) as R. simpl.
  assert (Hl : arena_page (Arena r) (first_usable r)) by (apply usable_page; [done | unfold usable; destruct R; lia]).
  assert (Hh : arena_page (Arena r) (first_usable r + UsablePages r - 1))
    by (apply usable_page; [done | unfold usable; destruct R; lia]).
  pose proof (page_va_range _ _ Hl). pose proof (page_va_range _ _ Hh). pose proof (page_va_aligned _ _ Hl).
  destruct R. unfold page_va, PAGE_4KB in *. lia.
Qed.

Lemma kva_live_disjoint s b1 b2 a : kva_heap_ok s -> b1 ∈ kva_live s -> b2 ∈ kva_live s ->
  in_block b1 a -> in_block b2 a -> b1 = b2.
Proof.
  intros (G & K & _) (i & r & Ha & Er & ->)%live_record (j & r' & Hj & Er' & ->)%live_record H1 H2.
  pose proof (kva_record s G i r K Ha) as R. pose proof (kva_record s G j r' K Hj) as R'.
  destruct (in_block_page r a R H1) as (p & Hp & Ep). destruct (in_block_page r' a R' H2) as (q & Hq & Eq).
  destruct (usable_page r p R Hp) as [Hpp Hpc]. destruct (usable_page r' q R' Hq) as [Hqp Hqc].
  destruct (page_va_inj (Arena r) p (Arena r') q Hpp Hqp) as [_ <-]; [congruence|].
  assert (i = j) as ->.
  { apply (lo_disjoint _ _ _ _ (kv_layout _ _ K) i j r r' p Ha Hj); apply covers_intro; try done;
      [apply Ha | congruence | apply Hj]. }
  by rewrite (active_fun _ _ _ _ Ha Hj).
Qed.

Lemma heap_block_some r z : heap_block r = Some z -> InUse r = true /\ z.1 = page_va (Arena r) (first_usable r).
Proof.
  unfold heap_block. destruct (InUse r); [|done]. destruct (Arena r =? KE_KVA_ARENA_HEAP); [|done]. by intros [= <-].
Qed.

Lemma kva_live_nodup s : kva_heap_ok s -> NoDup (kva_live s).
Proof.
  intros (G & K & _). apply NoDup_omap_index. intros i j r r' z Hi Hj Ez Ez'.
  apply heap_block_some in Ez as [Hu Ev]. apply heap_block_some in Ez' as [Hu' Ev'].
  apply (base_unique s G i j r r' K); [done | done | congruence].
Qed.

Lemma kva_live_few s : kva_heap_ok s -> Z.of_nat (length (kva_live s)) <= ARENA_PAGES.
Proof.
  intros (G & K & _). assert (Hl : (length (kva_live s) <= length (gKvaRanges s))%nat).
  { unfold kva_live. induction (gKvaRanges s) as [|x l IH]; [done|]. cbn. destruct (heap_block x); simpl; lia. }
  pose proof (lo_ranges _ _ _ _ (kv_layout _ _ K)). unfold KE_KVA_MAX_RANGES, ARENA_PAGES in *. lia.
Qed.

(** ** Freeing *)

(** Pages of different records are different pages. *)
Lemma pages_apart s G j i r' r p : kva_ok s G -> active (gKvaRanges s) i r -> j <> i ->
  active (gKvaRanges s) j r' -> usable r' p ->
  forall q, usable r q -> vprefix 0 (page_va (Arena r') p) <> vprefix 0 (page_va (Arena r) q).
Proof.
  intros K Ha Hji Hj Hp q Hq E.
  destruct (usable_page r' p (kva_record s G j r' K Hj) Hp) as [H1 H2].
  destruct (usable_page r q (kva_record s G i r K Ha) Hq) as [H3 H4].
  destruct (vprefix_page _ _ _ _ H1 H3 E) as [Er <-]. apply Hji.
  apply (lo_disjoint _ _ _ _ (kv_layout _ _ K) j i r' r p Hj Ha); apply covers_intro; try done; [apply Hj | apply Ha].
Qed.

(** Releasing a record keeps the words of all the other heap records. *)
Lemma released_heap s s' G i r : kva_ok s G -> active (gKvaRanges s) i r -> released s s' G i r ->
  (forall j r', j <> i -> active (gKvaRanges s) j r' -> Arena r' = KE_KVA_ARENA_HEAP -> heap_range s r') ->
  kva_heap_ok s' /\ agree (live_word (kva_live s')) s s' /\
  kva_live s' = omap heap_block (<[i := blank_record (Z.of_nat i)]> (gKvaRanges s)).
Proof.
  intros K Ha R Hh. assert (Hlive : kva_live s' = omap heap_block (<[i := blank_record (Z.of_nat i)]> (gKvaRanges s)))
    by (unfold kva_live; by rewrite (rl_ranges _ _ _ _ _ R)).
  assert (Hact : forall j r', active (gKvaRanges s') j r' -> j <> i /\ active (gKvaRanges s) j r').
  { intros j r'. rewrite (rl_ranges _ _ _ _ _ R), active_insert by (eapply lookup_lt_Some; apply Ha).
    by intros [(_ & -> & ?)|?]. }
  assert (Hroot : root s' = root s) by (unfold root; by rewrite (rl_space _ _ _ _ _ R)).
  pose proof (rl_torn _ _ _ _ _ R) as T.
  assert (Htr : forall j r' p, j <> i -> active (gKvaRanges s) j r' -> usable r' p ->
    translate (mem (mach s')) (root s) (page_va (Arena r') p) = translate (mem (mach s)) (root s) (page_va (Arena r') p)).
  { intros j r' p Hji Hj Hp. apply (to_others _ _ _ _ _ _ _ T). by apply (pages_apart s G j i). }
  split; [|split; [|done]].
  - exists G. split; [apply R|]. intros j r' [Hji Hj]%Hact Er.
    destruct (Hh j r' Hji Hj Er) as (H1 & H2 & H3). split_and!; try done. intros p Hp. unfold leaf.
    rewrite Hroot, (Htr j r' p Hji Hj Hp). by apply H3.
  - intros a (Hal & b & Hb & Hin). apply live_record in Hb as (j & r' & [Hji Hj]%Hact & Er & ->).
    destruct (record_word s G j r' a K Hj Er (Hh j r' Hji Hj Er) Hin) as (p & pa & W).
    apply (load_kept s s' a j r' p pa W Hroot).
    + destruct W as (_ & _ & Hp & <- & _). unfold leaf. by rewrite (Htr j r' p).
    + intros x Hx. apply (to_outside _ _ _ _ _ _ _ T). destruct W as (_ & _ & _ & _ & O).
      destruct (kv_owned _ _ K _ _ _ O) as ([Hpa _] & _ & HG).
      intros t y. by apply (frame_not_table s G pa x t y K).
Qed.

Lemma kva_free_live s b n : kva_heap_ok s -> (b, n) ∈ kva_live s ->
  exists s', kva_free b s = (EC_SUCCESS, s') /\ kva_heap_ok s' /\
    Permutation (kva_live s) ((b, n) :: kva_live s') /\ agree (live_word (kva_live s')) s s'.
Proof.
  intros Hok Hb. pose proof Hok as (G & K & Hh). apply live_record in Hb as (i & r & Ha & Er & E).
  injection E as -> ->. unfold kva_free, Kva.KeHeapFreePages.
  destruct (release_range_run s G (page_va (Arena r) (first_usable r)) K) as (st & s' & -> & O).
  destruct O as [(-> & j & r' & Hj & Ej & R)|(_ & _ & Hn)]; [|by destruct (Hn i r Ha)].
  assert (j = i) as -> by (by apply (base_unique s G j i r' r K)). rewrite (active_fun _ _ _ _ Hj Ha) in R.
  destruct (released_heap s s' G i r K Ha R) as (H1 & H2 & H3).
  { intros j' r0 _. apply Hh. }
  exists s'. split; [done|]. split; [done|]. split; [|done]. rewrite H3.
  assert (Hi : (i < length (gKvaRanges s))%nat) by (eapply lookup_lt_Some; apply Ha).
  rewrite <- (omap_insert_some heap_block (<[i := blank_record (Z.of_nat i)]> (gKvaRanges s)) i
    (blank_record (Z.of_nat i)) r); [| by apply list_lookup_insert_eq | done |].
  - rewrite list_insert_insert_eq, list_insert_id by apply Ha. done.
  - unfold heap_block. by rewrite (proj2 Ha), Er.
Qed.

(** ** Allocating *)

(** The state between the reservation of the record [r] and its backing, and
    the backed state, keep the words of the heap records of [s]. *)
Lemma backed_heap s s1 s2 G G2 i r : kva_heap_ok s -> kva_ok s G -> Arena r = KE_KVA_ARENA_HEAP ->
  reserved s s1 G i r -> InUse r = true -> backed s1 s2 G G2 r ->
  (forall j r', j <> i -> active (gKvaRanges s2) j r' -> Arena r' = KE_KVA_ARENA_HEAP -> heap_range s2 r') /\
  agree (live_word (kva_live s)) s s2.
Proof.
  intros (G0 & K0 & Hh) K Er Res Hu B. destruct (rs_unused _ _ _ _ _ Res) as (r0 & E0 & Hu0).
  assert (Ha1 : active (gKvaRanges s1) i r).
  { rewrite (rs_ranges _ _ _ _ _ Res). apply active_insert; [by eapply lookup_lt_Some|]. by left. }
  assert (Hroot : root s2 = root s).
  { rewrite (bk_same _ _ _ _ _ B). unfold root. simpl. by rewrite (rs_space _ _ _ _ _ Res). }
  assert (Hleaf : forall j r' p, j <> i -> active (gKvaRanges s) j r' -> usable r' p ->
    leaf_of (translate (mem (mach s2)) (root s) (page_va (Arena r') p)) = leaf s (page_va (Arena r') p)).
  { intros j r' p Hji Hj Hp. unfold leaf. rewrite <- (rs_mach _ _ _ _ _ Res).
    assert (Hr1 : root s1 = root s) by (unfold root; by rewrite (rs_space _ _ _ _ _ Res)). rewrite <- Hr1.
    apply (same_leaf false), (bk_others _ _ _ _ _ B). apply (pages_apart s1 G j i r' r p (rs_ok _ _ _ _ _ Res)); try done.
    rewrite (rs_ranges _ _ _ _ _ Res). apply active_insert; [by eapply lookup_lt_Some|]. by right. }
  split.
  - intros j r' Hji Hj Er'. rewrite (bk_same _ _ _ _ _ B) in Hj. simpl in Hj.
    rewrite (rs_ranges _ _ _ _ _ Res), active_insert in Hj by (by eapply lookup_lt_Some).
    destruct Hj as [(? & _)|[_ Hj]]; [done|]. destruct (Hh j r' Hj Er') as (H1 & H2 & H3). split_and!; try done.
    intros p Hp. unfold leaf. rewrite Hroot, (Hleaf j r' p Hji Hj Hp). by apply H3.
  - intros a (Hal & b & Hb & Hin). apply live_record in Hb as (j & r' & Hj & Er' & ->).
    assert (Hji : j <> i) by (intros ->; destruct Hj as [Ej Hj]; congruence).
    destruct (record_word s G j r' a K Hj Er' (Hh j r' Hj Er') Hin) as (p & pa & W).
    apply (load_kept s s2 a j r' p pa W Hroot).
    + destruct W as (_ & _ & Hp & <- & _). by apply (Hleaf j r' p).
    + intros x Hx. destruct W as (_ & _ & _ & _ & O). destruct (kv_owned _ _ K _ _ _ O) as ([Hpa _] & Hst & HG).
      rewrite (bk_mem _ _ _ _ _ B pa x Hpa); [by rewrite (rs_mach _ _ _ _ _ Res) | | done | done].
      rewrite (rs_mach _ _ _ _ _ Res), Hst. done.
Qed.

(** [KeHeapAllocPages] always returns, and either hands out a fresh block or
    changes nothing a client can see. *)
Lemma heap_alloc_run s n : kva_heap_ok s -> 0 < n ->
  exists st va s', Kva.KeHeapAllocPages n true s = Ok (st, va, s') /\ kva_heap_ok s' /\
    agree (live_word (kva_live s)) s s' /\
    match va with
    | Some b => st = EC_SUCCESS /\ Permutation (kva_live s') ((b, n) :: kva_live s)
    | None => st <> EC_SUCCESS /\ kva_live s' = kva_live s
    end.
Proof.
  intros Hok Hn. pose proof Hok as (G & K & Hh). unfold Kva.KeHeapAllocPages. rewrite (kv_init _ _ K). cbn [negb orb].
  rewrite (proj2 (Z.eqb_neq n 0)) by lia.
  destruct (decide (n < 2 ^ 64)) as [Hn64|Hn64].
  2: { exists EC_OUT_OF_RESOURCE, None, s. split; [|by split_and!]. unfold KeKvaAllocRange.
       rewrite (kv_init _ _ K). cbn [negb orb]. rewrite (proj2 (Z.eqb_neq n 0)) by lia.
       rewrite arena_state_small by done.
       destruct (kva_arena s G KE_KVA_ARENA_HEAP K) as (arena & -> & _); [done|]. cbn [res_bind].
       by rewrite (proj2 (Z.ltb_lt _ 0)) by (unfold UINT64_MAX; lia). }
  destruct (alloc_range_run s G KE_KVA_ARENA_HEAP n 0 0 true K) as (st & o & s1 & -> & O);
    [done | unfold is_u64; lia | done | done|]. cbn [res_bind].
  destruct o as [rg|]; cycle 1.
  { destruct O as (-> & O). exists st, None, s. split; [done|]. split; [done|]. split; [done|].
    split; [|done]. by destruct O as [[-> _]|[-> _]]. }
  destruct O as (-> & _ & _ & i & base & -> & R & _ & Res & _ & _). set (r := new_record _ _ _ _ _ _ _ _) in *.
  destruct (rs_unused _ _ _ _ _ Res) as (r0 & E0 & Hu0). pose proof (lookup_lt_Some _ _ _ E0) as Hi.
  assert (Ha1 : active (gKvaRanges s1) i r) by (rewrite (rs_ranges _ _ _ _ _ Res); apply active_insert; [done | by left]).
  pose proof (rs_ok _ _ _ _ _ Res) as K1.
  destruct (map_owned_call s1 G (range_of r) KE_KVA_DEFAULT_PAGE_ATTRS K1 (handle_u32 s1 G i r K1 Ha1)) as (st & s2 & -> & O).
  cbn [res_bind]. destruct O as [(_ & _ & Hno)|(j & r' & s1' & G1 & Hj & Ej & Hown & B & O)];
    [by specialize (Hno i r Ha1 eq_refl)|].
  assert (Eid : RecordId r' = RecordId r) by (by injection Ej).
  rewrite (kva_record_id s1 G j r' K1 Hj), (kva_record_id s1 G i r K1 Ha1) in Eid.
  assert (j = i) as -> by lia. rewrite (active_fun _ _ _ _ Hj Ha1) in *. clear Eid Ej Hj r'.
  destruct (backed_heap s s1 s1' G G1 i r Hok K eq_refl Res eq_refl B) as [Hrest Hag].
  assert (Er : gKvaRanges s1' = <[i := r]> (gKvaRanges s)).
  { rewrite (bk_same _ _ _ _ _ B). simpl. apply Res. }
  assert (Hb0 : heap_block r0 = None) by (unfold heap_block; by rewrite Hu0).
  destruct O as [(-> & -> & Hall)|(Hne & Rel)].
  - change (succeeded EC_SUCCESS) with true. cbn [negb]. do 3 eexists. split; [done|]. split; [|split; [done|]].
    + exists G1. split; [apply B|]. intros j r' Hj Er'. destruct (decide (j = i)) as [->|Hji]; [|by apply (Hrest j)].
      assert (Ha2 : active (gKvaRanges s1') i r) by (rewrite Er; apply active_insert; [done | by left]).
      rewrite (active_fun _ _ _ _ Hj Ha2). split_and!; try done.
    + split; [done|]. unfold kva_live. rewrite Er.
      by apply (omap_insert_some heap_block (gKvaRanges s) i r0 r).
  - unfold succeeded. rewrite bool_decide_false by done. cbn [negb]. do 3 eexists. split; [done|].
    assert (Ha2 : active (gKvaRanges s1') i r) by (rewrite Er; apply active_insert; [done | by left]).
    destruct (released_heap s1' s2 G1 i r (bk_ok _ _ _ _ _ B) Ha2 Rel Hrest) as (H1 & H2 & H3).
    assert (Hl : kva_live s2 = kva_live s).
    { rewrite H3, Er, list_insert_insert_eq. by apply (omap_insert_none heap_block (gKvaRanges s) i r0). }
    split; [done|]. split; [|by split]. eapply agree_trans; [|exact Hag|]; [done|]. by rewrite <- Hl.
Qed.

Lemma kva_alloc_live s n st b s' : kva_heap_ok s -> 0 < n -> kva_alloc n s = (st, b, s') ->
  kva_heap_ok s' /\ agree (live_word (kva_live s)) s s' /\
  (if decide (st = EC_SUCCESS) then Permutation (kva_live s') ((b, n) :: kva_live s) else kva_live s' = kva_live s).
Proof.
  intros Hok Hn. unfold kva_alloc. destruct (heap_alloc_run s n Hok Hn) as (st1 & va & s1 & -> & H1 & H2 & H3).
  intros [= <- <- <-]. split; [done|]. split; [done|].
  destruct va as [b'|]; destruct H3 as [E H3]; [by rewrite decide_True | by rewrite decide_False].
Qed.

(** The page heap implements the interface of its clients. *)
#[global] Instance kva_heap_laws : HeapLaws (KE_KVA_STATE P) := {|
  live := kva_live; heap_ok := kva_heap_ok;
  live_bounds := kva_live_bounds; live_disjoint := kva_live_disjoint;
  live_nodup := kva_live_nodup; live_few := kva_live_few;
  load_live := kva_load_live; store_live := kva_store_live;
  alloc_law := kva_alloc_live; free_law := kva_free_live
|}.
End heap.
End KvaHeap.
