(* ===== verification/KvaRun.v ===== *)
(** * Runs of the kernel virtual-address allocator

    Initialization, the calls of the interface as data, and what a sequence
    of calls preserves. *)

From S2P Require Import Prelude Pmm PageTable Kva KvaInv KvaLayout KvaMach KvaOps KvaCalls KvaFixmap.

Local Open Scope Z_scope.

Module KvaRun.
Import PageTable Kva KvaInv KvaLayout KvaMach KvaOps KvaCalls KvaFixmap.

Section run.
Context `{PageAllocatorLaws P}.
Implicit Type s : KE_KVA_STATE P.

(** ** Initialization *)

(** No imported region meets an arena, and no page of one is mapped. *)
Definition arenas_clear s : Prop :=
  forall a, 0 <= a < KE_KVA_ARENA_MAX ->
    KiKvaArenaOverlapsImportedRegions (Some (gKernelAddressSpace s)) (arena_base a)
      (u64 (arena_base a + arena_pages a * PAGE_4KB)) = false /\
    forall p, 0 <= p < arena_pages a -> leaf s (page_va a p) = None.

Lemma pages_unmapped_run n p a sp m G : space_ok sp m G -> 0 <= a < KE_KVA_ARENA_MAX ->
  0 <= p -> p + Z.of_nat n <= arena_pages a ->
  (pages_unmapped n p (arena_base a) (Some sp) m = EC_SUCCESS /\
     forall q, p <= q < p + Z.of_nat n -> translate m (RootPageTablePhys sp) (page_va a q) = None) \/
  (pages_unmapped n p (arena_base a) (Some sp) m = EC_INVALID_STATE /\
     exists q, p <= q < p + Z.of_nat n /\ translate m (RootPageTablePhys sp) (page_va a q) <> None).
Proof.
  intros S Ha. revert p. induction n as [|n IH]; intros p Hp Hn.
  { left. split; [done|]. lia. }
  assert (Hpage : arena_page a p) by (unfold arena_page; lia).
  cbn [pages_unmapped]. rewrite page_va_base, (query_page_run sp m G) by
    (done || by apply page_va_u64 || by apply page_va_aligned).
  destruct (translate m (RootPageTablePhys sp) (page_va a p)) as [mp|] eqn:E; cbn [from_option id].
  - rewrite (translate_present _ _ _ _ E). right. split; [done|]. exists p. split; [lia | by rewrite E].
  - cbn [Present no_mapping]. destruct (IH (p + 1)) as [[Eu Hq]|[Eu (q & Hq & Hne)]]; [lia | lia | left | right].
    + split; [done|]. intros q Hq'. destruct (decide (q = p)) as [->|]; [done|]. apply Hq. lia.
    + split; [done|]. exists q. split; [lia | done].
Qed.

(** The arena descriptors [KeKvaInit] publishes. *)
Definition fresh_arenas : list KE_KVA_ARENA_STATE := [stack_arena; fixmap_arena; heap_arena].

Definition fresh_arena (a : Z) : KE_KVA_ARENA_STATE :=
  mkArena (arena_base a) (arena_pages a * PAGE_4KB) (arena_pages a) (zeroes (arena_pages a)).

Lemma fresh_arenas_at a : 0 <= a < KE_KVA_ARENA_MAX -> fresh_arenas !! Z.to_nat a = Some (fresh_arena a).
Proof.
  unfold KE_KVA_ARENA_MAX. intros Ha. assert (a = 0 \/ a = 1 \/ a = 2) as [E|[E|E]] by lia; subst a; done.
Qed.

Lemma validate_fresh s G a : space_ok (gKernelAddressSpace s) (mem (mach s)) G -> 0 <= a < KE_KVA_ARENA_MAX ->
  let ok := KiKvaArenaOverlapsImportedRegions (Some (gKernelAddressSpace s)) (arena_base a)
      (u64 (arena_base a + arena_pages a * PAGE_4KB)) = false /\
    forall p, 0 <= p < arena_pages a -> leaf s (page_va a p) = None in
  (KiKvaValidateArena (fresh_arena a) true s = EC_SUCCESS /\ ok) \/
  (KiKvaValidateArena (fresh_arena a) true s = EC_INVALID_STATE /\ ~ ok).
Proof.
  intros S Ha ok. unfold KiKvaValidateArena, KeGetKernelAddressSpace. rewrite (proj1 S). cbn [negb].
  change (BaseAddress (fresh_arena a)) with (arena_base a).
  change (SizeBytes (fresh_arena a)) with (arena_pages a * PAGE_4KB).
  change (PageCount (fresh_arena a)) with (arena_pages a). unfold ok. rewrite (proj1 S). cbn [negb].
  destruct (KiKvaArenaOverlapsImportedRegions _ _ _) eqn:Eo.
  { right. split; [done|]. by intros [? _]. }
  assert (Hpos : 0 <= arena_pages a)
    by (destruct (arena_values a Ha) as [(_ & _ & ->)|[(_ & _ & ->)|(_ & _ & ->)]]; lia).
  destruct (pages_unmapped_run (Z.to_nat (arena_pages a)) 0 a (gKernelAddressSpace s) (mem (mach s)) G S Ha)
    as [[-> Hq]|[-> (q & Hq & Hne)]]; [lia | lia | left | right]; rewrite Z2Nat.id in Hq by lia.
  - split; [done|]. split; [done|]. intros p Hp. unfold leaf, root. rewrite Hq; [done | lia].
  - split; [done|]. intros [_ Hn]. apply Hne. specialize (Hn q ltac:(lia)). unfold leaf, root in Hn.
    by destruct (translate _ _ _).
Qed.

(** The records [KeKvaInit] publishes. *)
Definition fresh_ranges : list KE_KVA_RANGE_RECORD :=
  map (fun idx => mkRecord false false 0 (Z.of_nat idx + 1) 0 0 0 0 0 0) (seq 0 (Z.to_nat KE_KVA_MAX_RANGES)).

Lemma fresh_range_at i r : fresh_ranges !! i = Some r -> InUse r = false /\ RecordId r = Z.of_nat i + 1.
Proof.
  unfold fresh_ranges. rewrite list_lookup_fmap. destruct (seq _ _ !! i) as [k|] eqn:E; [|done].
  apply lookup_seq in E as [-> _]. by intros [= <-].
Qed.

Lemma fresh_layout : layout_ok fresh_arenas fresh_ranges (zeroes KE_KVA_FIXMAP_ARENA_PAGES) 1.
Proof.
  assert (Hno : forall i r, ~ active fresh_ranges i r) by (intros i r [[E _]%fresh_range_at Hu]; congruence).
  constructor; try done; try (by intros; exfalso; eapply Hno).
  - intros a arena Ha E. assert (Hm : a < KE_KVA_ARENA_MAX).
    { apply lookup_lt_Some in E. change (length fresh_arenas) with 3%nat in E. unfold KE_KVA_ARENA_MAX. lia. }
    rewrite fresh_arenas_at in E by done. injection E as <-. split; [done|]. split; [done|]. split; [done|].
    simpl. unfold zeroes. rewrite length_replicate.
    assert (a = 0 \/ a = 1 \/ a = 2) as [E|[E|E]] by (unfold KE_KVA_ARENA_MAX in Hm; lia); subst a; done.
  - intros i r E. by apply fresh_range_at.
  - intros a p [Ha Hp] _. left. unfold state_at. rewrite fresh_arenas_at by done. cbn.
    apply lookup_replicate_2. lia.
  - split; [done|]. apply Forall_replicate. vm_compute. by split.
Qed.

(** The state after a successful initialization. *)
Definition fresh_state s : KE_KVA_STATE P :=
  mkKva (mach s) (gKernelAddressSpace s) fresh_arenas fresh_ranges (zeroes KE_KVA_FIXMAP_ARENA_PAGES) 1 true.

Lemma fresh_unused i r : ~ active fresh_ranges i r.
Proof. intros [[E _]%fresh_range_at Hu]. congruence. Qed.

Lemma kva_init_run s G :
  gKvaInitialized s = false -> space_ok (gKernelAddressSpace s) (mem (mach s)) G -> frames_ok (pmm (mach s)) ->
  tables_used G (pmm (mach s)) ->
  let '(st, s') := KeKvaInit s in
  mach s' = mach s /\ gKernelAddressSpace s' = gKernelAddressSpace s /\
  ((st = EC_SUCCESS /\ arenas_clear s /\ kva_ok s' G /\ s' = fresh_state s) \/
   (st = EC_INVALID_STATE /\ ~ arenas_clear s /\ gKvaInitialized s' = false)).
Proof.
  intros Hi S Hf Hu. unfold KeKvaInit. rewrite Hi. cbv zeta.
  set (s0 := set_arenas (set_ranges s _) _).
  assert (E : forall a, 0 <= a < KE_KVA_ARENA_MAX ->
    (KiKvaValidateArena (fresh_arena a) true s0 = EC_SUCCESS /\
      KiKvaArenaOverlapsImportedRegions (Some (gKernelAddressSpace s)) (arena_base a)
        (u64 (arena_base a + arena_pages a * PAGE_4KB)) = false /\
      forall p, 0 <= p < arena_pages a -> leaf s (page_va a p) = None) \/
    (KiKvaValidateArena (fresh_arena a) true s0 = EC_INVALID_STATE /\ ~ arenas_clear s)).
  { intros a Ha. destruct (validate_fresh s0 G a S Ha) as [[E1 E2]|[E1 E2]]; [left; by split | right].
    split; [done|]. intros C. apply E2. apply (C a Ha). }
  change (gKvaArenas s0) with [fresh_arena 0; fresh_arena 1; fresh_arena 2]. cbn [validate_arenas].
  destruct (E 0) as [[-> E0]|[-> E0]]; [done | | by (split_and!; try done; right)].
  change (succeeded EC_SUCCESS) with true. cbv iota.
  destruct (E 1) as [[-> E1]|[-> E1]]; [done | | by (split_and!; try done; right)].
  change (succeeded EC_SUCCESS) with true. cbv iota.
  destruct (E 2) as [[-> E2]|[-> E2]]; [done | | by (split_and!; try done; right)].
  change (succeeded EC_SUCCESS) with true. cbv iota. cbn [negb].
  split; [done|]. split; [done|]. left. split; [done|].
  assert (C : arenas_clear s).
  { intros a Ha. unfold KE_KVA_ARENA_MAX in Ha. assert (a = 0 \/ a = 1 \/ a = 2) as [Ea|[Ea|Ea]] by lia; by subst a. }
  split; [done|]. split; [|done].
  constructor; simpl; try done.
  - exact fresh_layout.
  - intros a p l pa [Ha Hp] El. change (leaf s (page_va a p) = Some (l, pa)) in El. by rewrite (proj2 (C a Ha)) in El.
  - intros a p pa (i & r & Ha & _). by destruct (fresh_unused i r).
  - intros a p b q pa (i & r & Ha & _). by destruct (fresh_unused i r).
Qed.

(** ** Calls *)

Inductive kva_call : Type :=
| CAllocRange (arena usablePages guardLower guardUpper : Z) (owns out : bool)
| CMapPage (range : KE_KVA_RANGE) (page pa attrs : Z)
| CMapOwnedPages (range : KE_KVA_RANGE) (attrs : Z)
| CReleaseRangeHandle (range : KE_KVA_RANGE)
| CReleaseRange (va : Z)
| CFixmapAcquire (pa attrs : Z)
| CTempPhysMapRelease (token : Z)
| CHeapAllocPages (pages : Z)
| COthers (m : machine P).

(** The state after a call; [COthers] is anything else the kernel does to
    memory, page tables and frames. *)
Definition run_call (c : kva_call) s : res (KE_KVA_STATE P) :=
  match c with
  | CAllocRange a u gl gu own out => let* (_, _, s) := KeKvaAllocRange a u gl gu own out s in Ok s
  | CMapPage rg k pa attrs => let* (_, s) := KeKvaMapPage (Some rg) k pa attrs s in Ok s
  | CMapOwnedPages rg attrs => let* (_, s) := KeKvaMapOwnedPages (Some rg) attrs s in Ok s
  | CReleaseRangeHandle rg => let* (_, s) := KeKvaReleaseRangeHandle (Some rg) s in Ok s
  | CReleaseRange va => let* (_, s) := KeKvaReleaseRange va s in Ok s
  | CFixmapAcquire pa attrs => let* (_, _, s) := KeFixmapAcquire pa attrs true s in Ok s
  | CTempPhysMapRelease token => let* (_, _, s) := KeTempPhysMapRelease (Some token) s in Ok s
  | CHeapAllocPages n => let* (_, _, s) := KeHeapAllocPages n true s in Ok s
  | COthers m => Ok (set_mach s m)
  end.

(** What a caller has to respect: the widths of the arguments, page frames
    where physical addresses are passed, [KeKvaMapPage] only on ranges that do
    not own their backing, and nobody else touching the pages of the arenas. *)
Definition call_ok s (c : kva_call) : Prop :=
  match c with
  | CAllocRange a u gl gu _ _ => 0 <= a /\ is_u64 u /\ is_u64 gl /\ is_u64 gu
  | CMapPage rg k pa _ => is_u32 (RgRecordId rg) /\ 0 <= k /\ frame pa /\
      forall i r, active (gKvaRanges s) i r -> range_of r = rg -> OwnsPhysicalBacking r = false
  | CMapOwnedPages rg _ => is_u32 (RgRecordId rg)
  | CReleaseRangeHandle rg => is_u32 (RgRecordId rg)
  | CReleaseRange va => is_u64 va
  | CFixmapAcquire pa _ => frame pa
  | CTempPhysMapRelease token => is_u64 token
  | CHeapAllocPages n => is_u64 n
  | COthers m => exists G, kva_ok (set_mach s m) G
  end.

Fixpoint run_calls (cs : list kva_call) s : res (KE_KVA_STATE P) :=
  match cs with
  | [] => Ok s
  | c :: cs => let* s := run_call c s in run_calls cs s
  end.

Fixpoint calls_ok s (cs : list kva_call) : Prop :=
  match cs with
  | [] => True
  | c :: cs => call_ok s c /\ forall s', run_call c s = Ok s' -> calls_ok s' cs
  end.

(** What every call does to the records: those in use afterwards were in use
    before, or are fixmap records, or carry the generation the counter stood
    at; and no generation is ever handed out twice. *)
Record steady s s' : Prop := mkSteady {
  sd_active i r : active (gKvaRanges s') i r -> active (gKvaRanges s) i r \/
    Arena r = KE_KVA_ARENA_FIXMAP \/ (Generation r = gKvaRangeGenerationCounter s /\ Generation r <> 0);
  sd_spent g : generation_spent (gKvaRangeGenerationCounter s) g -> generation_spent (gKvaRangeGenerationCounter s') g
}.

Lemma steady_same s s' : gKvaRanges s' = gKvaRanges s -> gKvaRangeGenerationCounter s' = gKvaRangeGenerationCounter s ->
  steady s s'.
Proof. intros E1 E2. constructor; [rewrite E1; by left | by rewrite E2]. Qed.

Lemma kva_steady_trans s s1 s2 : gKvaRangeGenerationCounter s1 = gKvaRangeGenerationCounter s \/
    (forall i r, active (gKvaRanges s2) i r -> active (gKvaRanges s1) i r) ->
  steady s s1 -> steady s1 s2 -> steady s s2.
Proof.
  intros Hor [A1 S1] [A2 S2]. constructor.
  - intros i r Ha. destruct Hor as [E|Hsub]; [|by apply A1, Hsub].
    destruct (A2 i r Ha) as [Ha1|[?|[Eg ?]]]; [by apply A1 | by right; left | right; right]. by rewrite <- E.
  - intros g Hg. by apply S2, S1.
Qed.

Lemma released_active s s' G i r : active (gKvaRanges s) i r -> released s s' G i r ->
  forall j r', active (gKvaRanges s') j r' <-> j <> i /\ active (gKvaRanges s) j r'.
Proof.
  intros Ha R j r'. rewrite (rl_ranges _ _ _ _ _ R), active_insert by (eapply lookup_lt_Some; apply Ha).
  split; [by intros [(_ & -> & ?)|?] | by right].
Qed.

Lemma steady_released s s' G i r : active (gKvaRanges s) i r -> released s s' G i r -> steady s s'.
Proof.
  intros Ha R. constructor.
  - intros j r' Hj. left. by apply (released_active s s' G i r Ha R) in Hj as [_ ?].
  - by rewrite (rl_counter _ _ _ _ _ R).
Qed.

Lemma steady_backed s s1 s2 G G1 r i : backed s s1 G G1 r -> active (gKvaRanges s) i r ->
  s2 = s1 \/ released s1 s2 G1 i r -> steady s s2.
Proof.
  intros B Ha Hor. assert (E : gKvaRanges s1 = gKvaRanges s /\ gKvaRangeGenerationCounter s1 = gKvaRangeGenerationCounter s)
    by (by rewrite (bk_same _ _ _ _ _ B)). destruct E as [E1 E2].
  destruct Hor as [->|R]; [by apply steady_same|].
  apply (kva_steady_trans s s1 s2); [by left | by apply steady_same|].
  apply (steady_released s1 s2 G1 i r); [by rewrite E1 | done].
Qed.

Lemma alloc_steady s G a u gl gu own st o s' : kva_ok s G -> alloc_outcome s G a u gl gu own st o s' ->
  kva_ok s' G /\ steady s s' /\ (forall i r, active (gKvaRanges s) i r -> active (gKvaRanges s') i r).
Proof.
  intros K O. unfold alloc_outcome in O. destruct o as [rg|];
    [|destruct O as [-> _]; split; [done|]; split; [by apply steady_same | done]].
  destruct O as (_ & _ & _ & i & base & _ & R & _ & Res & _ & Hm). split; [apply Res|].
  destruct (rs_unused _ _ _ _ _ Res) as (r0 & E0 & Hu0). pose proof (lookup_lt_Some _ _ _ E0) as Hi. split.
  - constructor; [|done]. intros j r'. rewrite (rs_ranges _ _ _ _ _ Res), active_insert by done.
    intros [(_ & -> & _)|[_ ?]]; [right; right | by left]. split; [done|]. destruct (rk_generation _ R). lia.
  - intros j r' Hj. rewrite (rs_ranges _ _ _ _ _ Res). apply active_insert; [done|]. right. split; [|done].
    intros ->. destruct Hj as [Ej Hj]. congruence.
Qed.

(** The page allocation call, whatever the state of the heap ranges. *)
Lemma heap_call_run s G n : kva_ok s G -> is_u64 n ->
  exists st o s', KeHeapAllocPages n true s = Ok (st, o, s') /\ (exists G', kva_ok s' G') /\ steady s s'.
Proof.
  intros K Hn. unfold KeHeapAllocPages. rewrite (kv_init _ _ K). cbn [negb orb].
  destruct (Z.eqb_spec n 0); [by exists EC_ILLEGAL_ARGUMENT, None, s; split; [|split; [exists G | apply steady_same]]|].
  destruct (alloc_range_run s G KE_KVA_ARENA_HEAP n 0 0 true K) as (st & o & s1 & -> & O); [done..|].
  cbn [res_bind]. destruct (alloc_steady s G _ _ _ _ _ _ _ _ K O) as (K1 & S1 & _).
  destruct o as [rg|]; [|by exists st, None, s1; split; [|split; [exists G|]]].
  destruct O as (_ & _ & _ & i & base & -> & R & _ & Res & _ & Hm). set (r := new_record _ _ _ _ _ _ _ _) in *.
  destruct (rs_unused _ _ _ _ _ Res) as (r0 & E0 & Hu0). pose proof (lookup_lt_Some _ _ _ E0) as Hi.
  assert (Ha1 : active (gKvaRanges s1) i r) by (rewrite (rs_ranges _ _ _ _ _ Res); apply active_insert; [done | by left]).
  destruct (map_owned_call s1 G (range_of r) KE_KVA_DEFAULT_PAGE_ATTRS K1 (handle_u32 s1 G i r K1 Ha1)) as (st2 & s2 & -> & O).
  cbn [res_bind].
  assert (Hall : (exists G', kva_ok s2 G') /\ steady s1 s2 /\
    (forall j r', active (gKvaRanges s2) j r' -> active (gKvaRanges s1) j r')).
  { destruct O as [(_ & -> & _)|(j & r' & sb & G1 & Hj & Ej & _ & B & O)]; [by split; [exists G | split; [apply steady_same|]]|].
    assert (Hsame : gKvaRanges sb = gKvaRanges s1) by (by rewrite (bk_same _ _ _ _ _ B)).
    destruct O as [(_ & -> & _)|(_ & Rel)].
    - split; [exists G1; apply B|]. split; [by apply steady_same; rewrite (bk_same _ _ _ _ _ B)|].
      intros j' r''. by rewrite Hsame.
    - split; [exists G1; apply Rel|]. split; [apply (steady_backed s1 sb s2 G G1 r' j B Hj); by right|].
      intros j' r'' Hj'. apply (released_active sb s2 G1 j r') in Hj' as [_ Hj']; [by rewrite Hsame in Hj' | by rewrite Hsame | done]. }
  destruct Hall as (K2 & S2 & Hsub).
  assert (S : steady s s2) by (apply (kva_steady_trans s s1 s2); [by right | done | done]).
  destruct (negb (succeeded st2)); by do 3 eexists.
Qed.

(** Every call returns, whatever happens, and leaves a consistent state. *)
Lemma call_run s G c : kva_ok s G -> call_ok s c ->
  exists s', run_call c s = Ok s' /\ (exists G', kva_ok s' G') /\ steady s s'.
Proof.
  intros K C. destruct c as [a u gl gu own out|rg k pa attrs|rg attrs|rg|va|pa attrs|token|n|m]; cbn [call_ok run_call] in C |- *.
  - destruct C as (Ha & Hu & Hgl & Hgu). destruct out.
    + destruct (alloc_range_run s G a u gl gu own K Ha Hu Hgl Hgu) as (st & o & s' & -> & O). cbn [res_bind].
      destruct (alloc_steady s G _ _ _ _ _ _ _ _ K O) as (K' & S & _). exists s'. split; [done|]. split; [by exists G | done].
    + unfold KeKvaAllocRange. rewrite (kv_init _ _ K). cbn. exists s. split; [done|]. split; [by exists G | by apply steady_same].
  - destruct C as (Hid & Hk & Hfr & Hno). unfold KeKvaMapPage. rewrite (kv_init _ _ K). cbn [negb].
    destruct (find_by_id_run s G rg K Hid) as (o & -> & Ho). cbn [res_bind].
    destruct o as [z|]; [|by exists s; split; [|split; [exists G | apply steady_same]]].
    destruct Ho as (i & r & -> & Ha & <-). rewrite (read_record s i r (proj1 Ha)). cbn [res_bind].
    destruct (Z.leb_spec (UsablePages r) k); [by exists s; split; [|split; [exists G | apply steady_same]]|].
    cbn [RgUsableBase range_of]. pose proof (kva_record s G i r K Ha) as R.
    assert (Hus : usable r (first_usable r + k)) by (unfold usable; lia).
    rewrite page_va_offset by (by apply usable_page).
    destruct (map_range_page s G i r (first_usable r + k) pa attrs K Ha Hus Hfr) as (st & m & -> & O).
    { rewrite (Hno i r Ha eq_refl). done. }
    cbn [res_bind]. exists (set_mach s m). split; [done|]. split; [|by apply steady_same].
    destruct O as [(_ & G' & _ & K')|(_ & _ & _ & K')]; [by exists G' | by exists G].
  - destruct (map_owned_call s G rg attrs K C) as (st & s' & -> & O). cbn [res_bind]. exists s'. split; [done|].
    destruct O as [(_ & -> & _)|(i & r & s1 & G1 & Ha & _ & _ & B & O)]; [split; [by exists G | by apply steady_same]|].
    destruct O as [(_ & -> & _)|(_ & Rel)].
    + split; [exists G1; apply B | apply (steady_backed s s1 s1 G G1 r i B Ha); by left].
    + split; [exists G1; apply Rel | apply (steady_backed s s1 s' G G1 r i B Ha); by right].
  - destruct (release_handle_run s G rg K C) as (st & s' & -> & O). cbn [res_bind]. exists s'. split; [done|].
    destruct O as [(_ & i & r & Ha & _ & R)|(_ & -> & _)]; [|by split; [exists G | apply steady_same]].
    split; [exists G; apply R | by apply (steady_released s s' G i r)].
  - destruct (release_range_run s G va K) as (st & s' & -> & O). cbn [res_bind]. exists s'. split; [done|].
    destruct O as [(_ & i & r & Ha & _ & R)|(_ & -> & _)]; [|by split; [exists G | apply steady_same]].
    split; [exists G; apply R | by apply (steady_released s s' G i r)].
  - destruct (fixmap_acquire_run s G pa attrs K C) as (st & tok & va & s' & -> & i & (r0 & E0 & _) & Ec & _ & O).
    cbn [res_bind]. exists s'. split; [done|].
    destruct O as [(_ & q & g & G' & _ & _ & _ & _ & _ & _ & Er & _ & _ & K')|(_ & _ & _ & K' & Hact & _)].
    + split; [by exists G'|]. constructor; [|by rewrite Ec]. intros j r. rewrite Er, active_insert by (by eapply lookup_lt_Some).
      intros [(_ & -> & _)|[_ ?]]; [by right; left | by left].
    + split; [by exists G|]. constructor; [intros j r Hj; left; by apply Hact | by rewrite Ec].
  - destruct (temp_release_run s G token K C) as (st & h & s' & -> & O). cbn [res_bind]. exists s'. split; [done|].
    destruct O as [(_ & _ & i & r & q & g & _ & Ha & _ & _ & _ & R)|(_ & _ & -> & _)];
      [|by split; [exists G | apply steady_same]].
    split; [exists G; apply R | by apply (steady_released s s' G i r)].
  - destruct (heap_call_run s G n K C) as (st & o & s' & -> & K' & S). cbn [res_bind]. by exists s'.
  - exists (set_mach s m). split; [done|]. split; [done | by apply steady_same].
Qed.

Lemma calls_run cs s G : kva_ok s G -> calls_ok s cs ->
  exists s', run_calls cs s = Ok s' /\ exists G', kva_ok s' G'.
Proof.
  revert s G. induction cs as [|c cs IH]; intros s G K C; [by exists s; split; [|exists G]|].
  destruct C as [Cc Cs]. destruct (call_run s G c K Cc) as (s1 & E & (G1 & K1) & _). cbn [run_calls]. rewrite E.
  cbn [res_bind]. apply (IH s1 G1 K1). by apply Cs.
Qed.

(** ** Stale range handles *)

(** [rg] has been released: nothing in use carries it, and its generation will
    not come again. *)
Definition stale s (rg : KE_KVA_RANGE) : Prop :=
  RgArena rg <> KE_KVA_ARENA_FIXMAP /\
  generation_spent (gKvaRangeGenerationCounter s) (RgGeneration rg) /\
  forall i r, active (gKvaRanges s) i r -> range_of r <> rg.

Lemma stale_steady s s' rg : stale s rg -> steady s s' -> stale s' rg.
Proof.
  intros (Ha & Hsp & Hno) [S1 S2]. split; [done|]. split; [by apply S2|].
  intros i r Hr E. destruct (S1 i r Hr) as [Hold|[Hf|[Hg Hnz]]].
  - by apply (Hno i r).
  - apply Ha. by rewrite <- E.
  - assert (Eg : RgGeneration rg = Generation r) by (by rewrite <- E). unfold generation_spent in Hsp. lia.
Qed.

Lemma stale_calls cs s G rg s' : kva_ok s G -> calls_ok s cs -> stale s rg -> run_calls cs s = Ok s' ->
  stale s' rg /\ exists G', kva_ok s' G'.
Proof.
  revert s G. induction cs as [|c cs IH]; intros s G K C St E.
  { injection E as <-. split; [done | by exists G]. }
  destruct C as [Cc Cs]. destruct (call_run s G c K Cc) as (s1 & E1 & (G1 & K1) & S1).
  cbn [run_calls] in E. rewrite E1 in E. cbn [res_bind] in E.
  apply (IH s1 G1 K1); [by apply Cs | by apply (stale_steady s) | done].
Qed.

(** Releasing a range makes its handle stale. *)
Lemma released_stale s s' G i r : kva_ok s G -> active (gKvaRanges s) i r -> Arena r <> KE_KVA_ARENA_FIXMAP ->
  released s s' G i r -> stale s' (range_of r).
Proof.
  intros K Ha Hne R. split; [done|]. split.
  - rewrite (rl_counter _ _ _ _ _ R). by apply (lo_spent _ _ _ _ (kv_layout _ _ K) i r).
  - intros j r' Hj E. apply (released_active s s' G i r Ha R) in Hj as [Hji Hj].
    assert (Eid : RecordId r' = RecordId r) by (by injection E).
    rewrite (kva_record_id s G j r' K Hj), (kva_record_id s G i r K Ha) in Eid. lia.
Qed.
End run.
End KvaRun.
