(* ===== verification/KvaQuery.v ===== *)
(** * Classifying addresses *)

From S2P Require Import Prelude Pmm PageTable Kva KvaInv KvaLayout KvaMach KvaOps KvaCalls.

Local Open Scope Z_scope.

Module KvaQuery.
Import PageTable Kva KvaInv KvaLayout KvaMach KvaOps KvaCalls.

(** [va] lies in page [p] of arena [a]. *)
Definition in_page (va a p : Z) : Prop := page_va a p <= va < page_va a p + PAGE_4KB.

Lemma in_page_index va a p : 0 <= a < KE_KVA_ARENA_MAX -> in_page va a p -> (va - arena_base a) / PAGE_4KB = p.
Proof. intros Ha [H1 H2]. unfold page_va, PAGE_4KB in *. div_lia. Qed.

Lemma in_page_arena va a : 0 <= a < KE_KVA_ARENA_MAX ->
  arena_base a <= va < arena_base a + arena_pages a * PAGE_4KB ->
  arena_page a ((va - arena_base a) / PAGE_4KB) /\ in_page va a ((va - arena_base a) / PAGE_4KB).
Proof.
  intros Ha Hv. unfold arena_page, in_page, page_va, PAGE_4KB in *. split; [split; [done|]|]; div_lia.
Qed.

Lemma arena_end a : 0 <= a < KE_KVA_ARENA_MAX ->
  u64 (arena_base a + arena_pages a * PAGE_4KB) = arena_base a + arena_pages a * PAGE_4KB.
Proof. intros Ha. apply u64_small. arena_lia. Qed.

Definition coversb (r : KE_KVA_RANGE_RECORD) (a p : Z) : bool :=
  InUse r && (Arena r =? a) && (BasePageIndex r <=? p) && (p <? BasePageIndex r + TotalPages r).

Lemma coversb_spec r a p : coversb r a p = true <-> covers r a p.
Proof. unfold coversb, covers. rewrite !andb_true_iff, Z.eqb_eq, Z.leb_le, Z.ltb_lt. tauto. Qed.

Section query.
Context `{PageAllocatorLaws P}.
Implicit Type s : KE_KVA_STATE P.

(** The loop over the arenas from [a] on. *)
Lemma locate_run arenas a va : 0 <= a -> a + Z.of_nat (length arenas) = KE_KVA_ARENA_MAX -> is_u64 va ->
  (forall i arena, arenas !! i = Some arena -> arena_ok (a + Z.of_nat i) arena) ->
  match KiKvaLocateArenaByAddress va a arenas with
  | None => forall b p, a <= b < KE_KVA_ARENA_MAX -> arena_page b p -> ~ in_page va b p
  | Some (b, arena, p) => a <= b /\ arena_page b p /\ in_page va b p /\ arenas !! Z.to_nat (b - a) = Some arena
  end.
Proof.
  revert a. induction arenas as [|arena arenas IH]; intros a Ha Hl Hv Hok.
  { intros b p Hb. simpl in Hl. lia. }
  cbn [KiKvaLocateArenaByAddress]. destruct (Hok 0%nat arena eq_refl) as (Eb & Es & Ec & _).
  rewrite Z.add_0_r in Eb, Es, Ec. simpl in Hl.
  assert (Hr : 0 <= a < KE_KVA_ARENA_MAX) by lia. rewrite Eb, Es, arena_end by done.
  destruct (Z.ltb_spec va (arena_base a)) as [H1|H1], (Z.leb_spec (arena_base a + arena_pages a * PAGE_4KB) va) as [H2|H2];
    cbn [orb].
  4: { rewrite Z.shiftr_div_pow2 by done. change (2 ^ PAGE_SHIFT) with PAGE_4KB.
       destruct (in_page_arena va a Hr) as [Hp Hin]; [lia|]. rewrite Z.sub_diag. split_and!; try done; lia. }
  all: specialize (IH (a + 1)); destruct (KiKvaLocateArenaByAddress va (a + 1) arenas) as [[[b x] p]|];
    [ destruct IH as (I1 & I2 & I3 & I4); [lia | lia | done | | ];
      [ intros i y Hy; specialize (Hok (S i) y Hy); by replace (a + 1 + Z.of_nat i) with (a + Z.of_nat (S i)) by lia
      | split_and!; try done; [lia | by replace (Z.to_nat (b - a)) with (S (Z.to_nat (b - (a + 1)))) by lia] ]
    | intros b p Hb Hp Hin; destruct (decide (b = a)) as [->|Hne];
      [ destruct Hp as [_ Hp]; unfold in_page, page_va, PAGE_4KB in *; lia
      | apply (IH ltac:(lia) ltac:(lia) Hv) with (b := b) (p := p); [| lia | done | done];
        intros i y Hy; specialize (Hok (S i) y Hy); by replace (a + 1 + Z.of_nat i) with (a + Z.of_nat (S i)) by lia ] ].
Qed.

Lemma find_by_address_run s G a va p : kva_ok s G -> arena_page a p -> in_page va a p ->
  exists o, KiKvaFindRecordByAddress s a va = Ok o /\
    match o with
    | None => forall i r, active (gKvaRanges s) i r -> ~ covers r a p
    | Some k => exists i r, k = Z.of_nat i /\ active (gKvaRanges s) i r /\ covers r a p
    end.
Proof.
  intros K Hp Hin. unfold KiKvaFindRecordByAddress. cbv zeta.
  destruct (find_index_run (fun record =>
    if negb (InUse record) || negb (Arena record =? a) then Ok false else
    match KiKvaArenaState (Arena record) with
    | None => Ok false
    | Some a =>
        let* arena := rd (gKvaArenas s) a in
        Ok ((u64 (BaseAddress arena + u64 (BasePageIndex record * PAGE_4KB)) <=? va) &&
            (va <? u64 (u64 (BaseAddress arena + u64 (BasePageIndex record * PAGE_4KB)) + u64 (TotalPages record * PAGE_4KB))))
    end) (fun r => coversb r a p) (gKvaRanges s) 0) as (o & -> & Ho).
  { intros r Hr. apply list_elem_of_lookup in Hr as [i Hr]. destruct (InUse r) eqn:Hu; cbn [negb orb].
    2: { unfold coversb. by rewrite Hu. }
    destruct (Z.eqb_spec (Arena r) a) as [Ea|Ea]; cbn [negb].
    2: { unfold coversb. by rewrite (proj2 (Z.eqb_neq _ _) Ea), andb_false_r. }
    assert (Ha : active (gKvaRanges s) i r) by done. pose proof (kva_record s G i r K Ha) as R.
    rewrite arena_state_small by apply R.
    destruct (kva_arena s G (Arena r) K) as (arena & -> & _ & Hok); [apply R|]. cbn [res_bind]. cbv zeta.
    rewrite record_base by done. f_equal. rewrite Ea. destruct R as [Ra Ru [Rg1 Rg2] Rt [Rb Rr] _]. rewrite Ea in *.
    destruct Hp as [Hp1 Hp2].
    assert (Eend : u64 (page_va a (BasePageIndex r) + u64 (TotalPages r * PAGE_4KB)) =
      page_va a (BasePageIndex r + TotalPages r)).
    { rewrite u64_add_r. unfold page_va. rewrite u64_small; [unfold PAGE_4KB; lia|]. arena_lia. }
    rewrite Eend. apply eq_true_iff_eq. rewrite andb_true_iff, Z.leb_le, Z.ltb_lt, coversb_spec.
    unfold in_page, covers, page_va, PAGE_4KB in *. split.
    - intros [? ?]. split_and!; try done; lia.
    - intros (_ & _ & ?). lia. }
  exists o. split; [done|]. destruct o as [k|].
  - destruct Ho as (n & r & -> & E & C%coversb_spec & _). exists n, r. split_and!; try done. split; [done | apply C].
  - intros i r [E Hu] C. specialize (Ho r ltac:(by apply list_elem_of_lookup_2 in E)). simpl in Ho.
    by rewrite (proj2 (coversb_spec r a p) C) in Ho.
Qed.

Definition page_info (kind : KE_KVA_ADDRESS_KIND) (a p : Z) (range : option KE_KVA_RANGE) : KE_KVA_ADDRESS_INFO :=
  mkAddressInfo kind true a (arena_base a) (arena_base a + arena_pages a * PAGE_4KB) p
    (bool_decide (is_Some range)) range.

(** The five answers, and what each means for the page. *)
Inductive classification s (va : Z) : HO_STATUS -> KE_KVA_ADDRESS_INFO -> Prop :=
| cl_outside : (forall a p, arena_page a p -> ~ in_page va a p) ->
    classification s va EC_SUCCESS (mkAddressInfo KE_KVA_ADDRESS_OUTSIDE false KE_KVA_ARENA_MAX 0 0 0 false None)
| cl_hole a p : arena_page a p -> in_page va a p -> (forall i r, active (gKvaRanges s) i r -> ~ covers r a p) ->
    leaf s (page_va a p) = None ->
    classification s va EC_SUCCESS (page_info KE_KVA_ADDRESS_FREE_HOLE a p None)
| cl_guard i r p : arena_page (Arena r) p -> in_page va (Arena r) p -> active (gKvaRanges s) i r ->
    covers r (Arena r) p -> ~ usable r p -> leaf s (page_va (Arena r) p) = None ->
    classification s va EC_SUCCESS (page_info KE_KVA_ADDRESS_GUARD_PAGE (Arena r) p (Some (range_of r)))
| cl_active i r p : arena_page (Arena r) p -> in_page va (Arena r) p -> active (gKvaRanges s) i r -> usable r p ->
    classification s va EC_SUCCESS
      (page_info (KiKvaAddressKindFromArena (Arena r)) (Arena r) p (Some (range_of r)))
| cl_retired p : arena_page KE_KVA_ARENA_FIXMAP p -> in_page va KE_KVA_ARENA_FIXMAP p ->
    gFixmapSlotGenerations s !! Z.to_nat p = Some KE_TEMP_MAP_TOKEN_GENERATION_MASK ->
    leaf s (page_va KE_KVA_ARENA_FIXMAP p) = None ->
    classification s va EC_INVALID_STATE (page_info KE_KVA_ADDRESS_UNKNOWN KE_KVA_ARENA_FIXMAP p None).

(** Pages that no record's usable part holds are not mapped. *)
Lemma uncovered_unmapped s G a p : kva_ok s G -> arena_page a p ->
  (forall i r, active (gKvaRanges s) i r -> Arena r = a -> ~ usable r p) -> leaf s (page_va a p) = None.
Proof.
  intros K Hp Hno. destruct (leaf s (page_va a p)) as [[l pa]|] eqn:E; [|done].
  destruct (kv_mapped _ _ K a p l pa Hp E) as (_ & i & r & Ha & Er & Hu). by destruct (Hno i r).
Qed.

Lemma arena_kind a : 0 <= a < KE_KVA_ARENA_MAX -> KiKvaAddressKindFromArena a <> KE_KVA_ADDRESS_UNKNOWN.
Proof. unfold KE_KVA_ARENA_MAX. intros Ha. assert (a = 0 \/ a = 1 \/ a = 2) as [E|[E|E]] by lia; by subst a. Qed.

Lemma classify_run s G va : kva_ok s G -> is_u64 va ->
  exists st info, KeKvaClassifyAddress va true s = Ok (st, Some info) /\ classification s va st info.
Proof.
  intros K Hv. unfold KeKvaClassifyAddress. rewrite (kv_init _ _ K). cbn [negb].
  pose proof (kv_layout _ _ K) as L.
  pose proof (locate_run (gKvaArenas s) 0 va ltac:(done)) as Hloc.
  destruct (KiKvaLocateArenaByAddress va 0 (gKvaArenas s)) as [[[a arena] p]|].
  2: { do 2 eexists. split; [done|]. apply cl_outside. intros a p Hp. apply Hloc; [by rewrite (lo_arenas _ _ _ _ L) | done | | apply Hp | done].
       intros i x Hx. apply (lo_arena _ _ _ _ L); [lia | by rewrite Z.add_0_l, Nat2Z.id]. }
  destruct Hloc as (_ & Hp & Hin & Ea); [by rewrite (lo_arenas _ _ _ _ L) | done | |].
  { intros i x Hx. apply (lo_arena _ _ _ _ L); [lia | by rewrite Z.add_0_l, Nat2Z.id]. }
  rewrite Z.sub_0_r in Ea. pose proof (proj1 Hp) as Har.
  pose proof (lo_arena _ _ _ _ L a arena (proj1 Har) Ea) as Hok. destruct Hok as (Eb & Es & Ec & El).
  assert (Epi : forall kind range, mkAddressInfo kind true a (BaseAddress arena)
      (u64 (BaseAddress arena + SizeBytes arena)) p (bool_decide (is_Some range)) range = page_info kind a p range)
    by (intros kind range; unfold page_info; by rewrite Eb, Es, arena_end).
  destruct (rd_in (PageStates arena) p) as [v Ev]; [destruct Hp; lia|]. rewrite Ev. cbn [res_bind].
  apply rd_ok in Ev as [_ Ev]. assert (Est : state_at (gKvaArenas s) a p = Some v) by (unfold state_at; by rewrite Ea).
  destruct (find_by_address_run s G a va p K Hp Hin) as (o & -> & Ho).
  destruct (Z.eqb_spec v KE_KVA_PAGE_STATE_FREE) as [->|Hnf].
  { do 2 eexists. rewrite Epi. split; [done|]. apply cl_hole; try done.
    - intros i r Ha. by apply (free_uncovered _ _ _ _ L a p i r).
    - by apply (free_unmapped s G). }
  cbn [res_bind]. destruct o as [k|].
  - destruct Ho as (i & r & -> & Ha & C). rewrite (read_record s i r (proj1 Ha)). cbn [res_bind].
    pose proof (kva_record s G i r K Ha) as R. assert (Er : Arena r = a) by apply C. subst a.
    rewrite (fill_range_run s r arena R Ea) by done. cbn [res_bind]. change (succeeded EC_SUCCESS) with true. cbn [negb].
    pose proof (lo_covered _ _ _ _ L i r p Ha C) as Hs. rewrite Est in Hs.
    destruct (decide (usable r p)) as [Hu|Hu]; injection Hs as ->.
    + rewrite (proj2 (Z.eqb_neq KE_KVA_PAGE_STATE_ALLOC KE_KVA_PAGE_STATE_GUARD)), Z.eqb_refl by done.
      rewrite bool_decide_false by (by apply arena_kind). do 2 eexists. rewrite Epi. split; [done|]. by apply (cl_active s va i).
    + rewrite Z.eqb_refl. do 2 eexists. rewrite Epi. split; [done|]. apply (cl_guard s va i); try done.
      apply (uncovered_unmapped s G); [done | done|]. intros j r' Hj Er' Hu'. apply Hu.
      assert (j = i) as ->.
      { apply (lo_disjoint _ _ _ _ L j i r' r p Hj Ha); [|done].
        apply covers_intro; [apply Hj | done|]. apply usable_page; [by apply (kva_record s G j) | done]. }
      by rewrite (active_fun _ _ _ _ Ha Hj).
  - destruct (lo_free _ _ _ _ L a p Hp Ho) as [Hs|(-> & Hs & Hg)]; rewrite Est in Hs; [congruence|].
    injection Hs as ->. rewrite !(proj2 (Z.eqb_neq KE_KVA_PAGE_STATE_RETIRED _)) by done.
    do 2 eexists. rewrite Epi. split; [done|]. apply cl_retired; try done.
    apply (uncovered_unmapped s G); [done | done|]. intros i r Ha Er Hu. apply (Ho i r Ha).
    apply covers_intro; [apply Ha | done|]. apply usable_page; [by apply (kva_record s G i) | done].
Qed.
End query.
End KvaQuery.
