(* ===== verification/KvaThms.v ===== *)
(** * The properties of the kernel virtual-address allocator *)

From S2P Require Import Prelude Pmm PageTable Heap Pool PoolThms.
From S2P Require Import Kva KvaInv KvaLayout KvaMach KvaOps KvaCalls KvaFixmap KvaRun KvaQuery KvaHeap.

Local Open Scope Z_scope.

Import PageTable Kva KvaInv KvaLayout KvaMach KvaOps KvaCalls KvaFixmap KvaRun KvaQuery KvaHeap.

Section properties.
Context `{PageAllocatorLaws P}.
Implicit Type s : KE_KVA_STATE P.

(** C8: [KeKvaInit] succeeds exactly when no imported region meets an arena
    and no page of an arena is mapped.  Then the invariant holds, and every
    call, whatever sequence of calls and outside changes that leave the arenas
    alone came before, returns (no panic of the teardown, no access outside an
    array, no endless loop) and keeps it: page states say what the records
    say, only usable pages of records in use are mapped, guard and free pages
    never are, and the frames behind owning ranges are allocated, private and
    no page tables. *)
Theorem kva_calls_keep_layout s G cs :
  gKvaInitialized s = false -> space_ok (gKernelAddressSpace s) (mem (mach s)) G -> frames_ok (pmm (mach s)) ->
  tables_used G (pmm (mach s)) ->
  (fst (KeKvaInit s) = EC_SUCCESS <-> arenas_clear s) /\
  (fst (KeKvaInit s) = EC_SUCCESS -> calls_ok (snd (KeKvaInit s)) cs ->
   exists s' G', run_calls cs (snd (KeKvaInit s)) = Ok s' /\ kva_ok s' G' /\
     forall a p, arena_page a p -> state_at (gKvaArenas s') a p <> Some KE_KVA_PAGE_STATE_ALLOC ->
       leaf s' (page_va a p) = None).
Proof.
  intros Hi S Hf Hu. pose proof (kva_init_run s G Hi S Hf Hu) as R. destruct (KeKvaInit s) as [st s0]. simpl.
  destruct R as (_ & _ & [(-> & C & K & _)|(-> & C & _)]); [|by split].
  split; [done|]. intros _ Hcs. destruct (calls_run cs s0 G K Hcs) as (s' & E & G' & K'). exists s', G'.
  split; [done|]. split; [done|]. intros a p Hp Hne. apply (uncovered_unmapped s' G' a p K' Hp).
  intros i r Ha <- Hus. apply Hne. pose proof (kva_record s' G' i r K' Ha) as Rk.
  rewrite (lo_covered _ _ _ _ (kv_layout _ _ K') i r p Ha); [by rewrite decide_True|].
  apply covers_intro; [apply Ha | done | by apply usable_page].
Qed.

(** [KeKvaAllocRange] reserves the lowest run of free pages of the arena
    that holds the usable pages and both guards, in an unused record with a
    generation never handed out before, marks exactly those pages and maps
    nothing; it fails only for an unknown arena or an empty request, or when
    there is no such run (however large the request), no unused record or no
    generation left, and then changes nothing. *)
Theorem alloc_range_takes_first_fit s G a u gl gu own :
  kva_ok s G -> 0 <= a -> is_u64 u -> is_u64 gl -> is_u64 gu ->
  exists st o s', KeKvaAllocRange a u gl gu own true s = Ok (st, o, s') /\ alloc_outcome s G a u gl gu own st o s'.
Proof. apply alloc_range_run. Qed.

(** a released range handle of the stack or heap arena is refused for
    ever: after any further calls, although its record and its pages may be in
    use again, [KeKvaReleaseRangeHandle] answers [EC_INVALID_STATE] and
    changes nothing. *)
Theorem stale_range_handle_is_refused s G i r s1 cs s2 :
  kva_ok s G -> active (gKvaRanges s) i r -> Arena r <> KE_KVA_ARENA_FIXMAP ->
  KeKvaReleaseRangeHandle (Some (range_of r)) s = Ok (EC_SUCCESS, s1) ->
  calls_ok s1 cs -> run_calls cs s1 = Ok s2 ->
  KeKvaReleaseRangeHandle (Some (range_of r)) s2 = Ok (EC_INVALID_STATE, s2).
Proof.
  intros K Ha Hne E1 C E2. destruct (release_active s G i r K Ha) as (s1' & E1' & R). rewrite E1 in E1'.
  injection E1' as <-. pose proof (released_stale s s1 G i r K Ha Hne R) as St.
  destruct (stale_calls cs s1 G (range_of r) s2 (rl_ok _ _ _ _ _ R) C St E2) as [St2 (G2 & K2)].
  destruct (release_handle_run s2 G2 (range_of r) K2 (handle_u32 s G i r K Ha)) as (st & s3 & -> & O).
  destruct O as [(_ & j & r' & Hj & E & _)|(-> & -> & _)]; [|done]. by destruct (proj2 (proj2 St2) j r' Hj).
Qed.

(** C11: releasing a range unmaps all its pages and no other address, frees
    exactly the frames it owns, makes its pages free again (a fixmap slot out
    of generations is retired instead) and its record unused, and touches no
    other record, page state or word of memory. *)
Theorem release_gives_everything_back s G i r :
  kva_ok s G -> active (gKvaRanges s) i r ->
  exists s', KeKvaReleaseRangeHandle (Some (range_of r)) s = Ok (EC_SUCCESS, s') /\ kva_ok s' G /\
    (forall j r', active (gKvaRanges s') j r' <-> j <> i /\ active (gKvaRanges s) j r') /\
    (forall a p, 0 <= a -> 0 <= p -> state_at (gKvaArenas s') a p =
       if decide (covers r a p) then Some (release_state s r) else state_at (gKvaArenas s) a p) /\
    (forall p, usable r p -> leaf s' (page_va (Arena r) p) = None) /\
    (forall va, (forall p, usable r p -> vprefix 0 va <> vprefix 0 (page_va (Arena r) p)) ->
       translate (mem (mach s')) (root s) va = translate (mem (mach s)) (root s) va) /\
    (forall p pa, OwnsPhysicalBacking r = true -> usable r p -> leaf s (page_va (Arena r) p) = Some (1, pa) ->
       frame_state (pmm (mach s')) pa = PMM_PAGE_FREE) /\
    (forall b, b mod PAGE_4KB = 0 ->
       (OwnsPhysicalBacking r = false \/ forall p, usable r p -> leaf s (page_va (Arena r) p) <> Some (1, b)) ->
       frame_state (pmm (mach s')) b = frame_state (pmm (mach s)) b) /\
    (forall x, (forall t y, G !! t = Some y -> ~ t <= x < t + PAGE_4KB) -> mem (mach s') x = mem (mach s) x).
Proof.
  intros K Ha. destruct (release_active s G i r K Ha) as (s' & E & R). exists s'. split; [done|].
  pose proof (rl_torn _ _ _ _ _ R) as T. split; [apply R|]. split; [exact (released_active s s' G i r Ha R)|].
  split; [apply (rl_states _ _ _ _ _ R)|]. split.
  { intros p Hp. pose proof (to_gone _ _ _ _ _ _ _ T p Hp) as El. unfold leaf in *. simpl in El.
    unfold root in *. simpl in El. by rewrite (rl_space _ _ _ _ _ R). }
  split; [exact (to_others _ _ _ _ _ _ _ T)|]. split; [exact (to_freed _ _ _ _ _ _ _ T)|].
  split; [exact (to_frames _ _ _ _ _ _ _ T) | exact (to_outside _ _ _ _ _ _ _ T)].
Qed.

(** a temporary mapping is an alias of the frame until it is released, and
    its token works once.  After [KeFixmapAcquire] every word of the page reads
    the frame; [KeTempPhysMapRelease] with the token then unmaps the page,
    clears the handle and leaves the records in use as they were before; and
    presenting the token again is refused without effect. *)
Theorem temp_map_round_trip s G pa attrs token va s1 :
  kva_ok s G -> frame pa ->
  KeFixmapAcquire pa attrs true s = Ok (EC_SUCCESS, Some (token, va), s1) ->
  (forall o, 0 <= o < PAGE_4KB -> kva_load (va + o) s1 = Some (mem (mach s1) (pa + o))) /\
  exists s2 st, KeTempPhysMapRelease (Some token) s1 = Ok (EC_SUCCESS, Some 0, s2) /\
    leaf s2 va = None /\ (forall i r, active (gKvaRanges s2) i r <-> active (gKvaRanges s) i r) /\
    st <> EC_SUCCESS /\ KeTempPhysMapRelease (Some token) s2 = Ok (st, Some token, s2).
Proof.
  intros K Hfr E. destruct (fixmap_acquire_run s G pa attrs K Hfr) as (st & tok & va' & s1' & E' & i & (r0 & E0 & Hu0) & Ec & Es & O).
  rewrite E in E'. injection E' as <- <- <- <-.
  destruct O as [(_ & q & g & G1 & Hq & Eg & Hg & Hfree & -> & -> & Er & Esl & M & K1)|(Hne & _)]; [|done].
  assert (Hp : arena_page KE_KVA_ARENA_FIXMAP q) by (split; [done | exact Hq]).
  pose proof (lookup_lt_Some _ _ _ E0) as Hi. set (r := fixmap_record i q g) in *.
  assert (Ha1 : active (gKvaRanges s1) i r) by (rewrite Er; apply active_insert; [done | by left]).
  assert (Hroot : root s1 = root s) by (unfold root; by rewrite Es).
  split.
  { intros o Ho. unfold kva_load. rewrite translate_offset, Hroot.
    assert (Em : (page_va KE_KVA_ARENA_FIXMAP q + o) mod PAGE_4KB = o).
    { pose proof (page_va_aligned _ _ Hp). unfold PAGE_4KB in *. div_lia. }
    rewrite Em. replace (page_va KE_KVA_ARENA_FIXMAP q + o - o) with (page_va KE_KVA_ARENA_FIXMAP q) by lia.
    by rewrite (mp_after _ _ _ _ _ _ _ _ M). }
  destruct (token_decode q g) as [_ Hd]; [exact Hq | done|].
  assert (Htok : is_u64 (KiEncodeTempMapToken q g)).
  { rewrite token_value by done. change KE_KVA_FIXMAP_ARENA_PAGES with 64 in Hq.
    change KE_TEMP_MAP_TOKEN_GENERATION_MASK with (2 ^ 58 - 1) in Hg. unfold is_u64. lia. }
  assert (Efu : first_usable r = q) by (unfold first_usable; simpl; lia).
  assert (Hgen : gFixmapSlotGenerations s1 !! Z.to_nat q = Some g).
  { rewrite Esl. apply list_lookup_insert_eq. by eapply lookup_lt_Some. }
  destruct (temp_release_run s1 G1 (KiEncodeTempMapToken q g) K1 Htok) as (st & h & s2 & -> & O).
  destruct O as [(-> & -> & j & r' & q' & g' & Ed & Hj & Ea & Ef & _ & R)|(_ & _ & _ & Hno)].
  2: { by destruct (Hno i r q g Hd Ha1). }
  rewrite Hd in Ed. injection Ed as <- <-.
  assert (j = i) as ->.
  { apply (base_unique s1 G1 j i r' r K1 Hj Ha1). by rewrite Ea, Ef, Efu. }
  rewrite (active_fun _ _ _ _ Hj Ha1) in R. clear r' Hj Ea Ef.
  assert (Hact : forall k r', active (gKvaRanges s2) k r' <-> active (gKvaRanges s) k r').
  { intros k r'. rewrite (released_active s1 s2 G1 i r Ha1 R), Er, active_insert by done. split.
    - by intros [? [(? & _)|[_ ?]]].
    - intros Hk. assert (k <> i) by (intros ->; destruct Hk as [Ek Hk]; rewrite E0 in Ek; injection Ek as ->; by rewrite Hu0 in Hk).
      split; [done | by right]. }
  destruct (temp_release_run s2 G1 (KiEncodeTempMapToken q g) (rl_ok _ _ _ _ _ R) Htok) as (st2 & h2 & s3 & E3 & O).
  exists s2, st2. split; [done|]. split.
  { pose proof (to_gone _ _ _ _ _ _ _ (rl_torn _ _ _ _ _ R) q) as Hgone. rewrite Efu in Hgone.
    unfold leaf, root in *. simpl in Hgone. rewrite (rl_space _ _ _ _ _ R). apply Hgone. lia. }
  split; [done|].
  destruct O as [(_ & _ & j & r' & q' & g' & Ed & Hj & Ea & Ef & _ & _)|(Hne & -> & -> & _)]; [|by rewrite E3].
  exfalso. rewrite Hd in Ed. injection Ed as <- <-. apply Hact in Hj.
  apply (free_uncovered _ _ _ _ (kv_layout _ _ K) KE_KVA_ARENA_FIXMAP q j r' Hp Hfree Hj).
  pose proof (kva_record s G j r' K Hj) as R'. apply covers_intro; [apply Hj | done|].
  rewrite <- Ef. apply usable_page; [done|]. unfold usable. destruct R'. lia.
Qed.

(** [KeKvaClassifyAddress] answers for every address, and truly: outside
    the arenas; a free hole, unmapped and of no range; a guard page, unmapped,
    with the range it guards; an active page with its range; or a retired
    fixmap slot, the only case that is reported as an error. *)
Theorem classification_is_true s G va :
  kva_ok s G -> is_u64 va ->
  exists st info, KeKvaClassifyAddress va true s = Ok (st, Some info) /\ classification s va st info.
Proof. apply classify_run. Qed.

(** C5: the page heap keeps the contract its clients are proved against.  In a
    state where every heap range is owned and fully mapped,
    [KeHeapAllocPages] either hands out a block apart from all live ones, or
    fails having changed nothing a client can see (a partly mapped range is
    torn down again); [KeHeapFreePages] takes back any live block; every word
    of a live block can be read and written, through the page tables, without
    changing another; and each of them keeps that state. *)
Theorem page_heap_refines_heap s :
  kva_heap_ok s ->
  (forall n, 0 < n -> exists st va s', KeHeapAllocPages n true s = Ok (st, va, s') /\ kva_heap_ok s' /\
     agree (live_word (kva_live s)) s s' /\
     match va with
     | Some b => st = EC_SUCCESS /\ Permutation (kva_live s') ((b, n) :: kva_live s)
     | None => st <> EC_SUCCESS /\ kva_live s' = kva_live s
     end) /\
  (forall b n, (b, n) ∈ kva_live s -> exists s', kva_free b s = (EC_SUCCESS, s') /\ kva_heap_ok s' /\
     Permutation (kva_live s) ((b, n) :: kva_live s') /\ agree (live_word (kva_live s')) s s') /\
  (forall b c x, b ∈ kva_live s -> c ∈ kva_live s -> in_block b x -> in_block c x -> b = c) /\
  (forall x v, live_word (kva_live s) x -> is_Some (kva_load x s) /\
     exists s', kva_store x v s = Some s' /\ kva_heap_ok s' /\ kva_live s' = kva_live s /\ kva_load x s' = Some v /\
       agree (fun y => y <> x /\ live_word (kva_live s) y) s s').
Proof.
  intros Hok. split; [intros n Hn; by apply heap_alloc_run|]. split; [intros b n; by apply kva_free_live|].
  split; [intros b c x; by apply kva_live_disjoint|]. intros x v Hx. split; [by apply kva_load_live | by apply kva_store_live].
Qed.

(** C25: the object pool on the page heap: a slot [KePoolAlloc] returns is
    memory.  Each of its words translates, through the page tables, to a place
    in an allocated frame, and that place holds zero. *)
Theorem pool_slots_are_zeroed_frames s pool F U pages prep :
  PoolThms.alive pool s F U pages prep ->
  exists node pool' s', KePoolAlloc pool s = Ok (node, pool', s') /\
    (node <> 0 -> forall a, node <= a < node + SlotSize pool -> a mod 8 = 0 ->
       exists mp, translate (mem (mach s')) (root s') a = Some mp /\ Level mp = 1 /\
         mem (mach s') (PhysicalBase mp) = 0 /\
         frame_state (pmm (mach s')) (PhysicalBase mp - PhysicalBase mp mod PAGE_4KB) = PMM_PAGE_ALLOCATED).
Proof.
  intros HA. destruct (PoolThms.alloc_run pool s F U pages prep HA) as (node & pool' & s' & E & O).
  exists node, pool', s'. split; [done|]. intros Hne a Ha H8.
  destruct O as [(_ & Ess & (F' & pages' & HA') & Hz & _)|(-> & _)]; [|done].
  destruct HA' as [_ W]. assert (Hl : live_word (live s') a).
  { apply (slot_word pool' s' F' (node :: U) pages' prep W node a); [right; by left | by rewrite Ess | done]. }
  destruct (live_word_at s' a (wf_heap _ _ _ _ _ _ W) Hl) as (i & r & p & pa & Wd).
  destruct (word_translate s' a i r p pa Wd) as (mp & Et & Ep). exists mp. split; [done|].
  specialize (Hz a Ha H8). change (kva_load a s' = Some 0) in Hz. unfold kva_load in Hz. rewrite Et in Hz. cbn in Hz.
  injection Hz as Hz. destruct Wd as (Hact & _ & Hu & Ev & O). pose proof (wf_heap _ _ _ _ _ _ W) as (G & K & _).
  destruct (kv_owned _ _ K _ _ _ O) as ([Hal _] & Hst & _). split; [|split; [done|]].
  - destruct O as (j & r' & _ & _ & _ & _ & El). rewrite Ev in El. unfold leaf in El. rewrite translate_offset in Et.
    destruct (translate _ _ (a - a mod PAGE_4KB)) as [mp0|]; [|done]. cbn in Et, El. injection El as El _.
    by injection Et as <-.
  - rewrite Ep. replace (pa + a mod PAGE_4KB - (pa + a mod PAGE_4KB) mod PAGE_4KB) with pa; [done|].
    pose proof (Z.mod_pos_bound a PAGE_4KB ltac:(done)) as Hm. revert Hal Hm. generalize (a mod PAGE_4KB). unfold PAGE_4KB.
    intros o Hal Ho. div_lia.
Qed.
End properties.

(** ** Witnesses: the sample machine of [PageTable.v] *)

Import BitmapDevice.

Definition sample_kva : KE_KVA_STATE device := mkKva sample_machine sample_space [] [] [] 0 false.

(** The arenas lie under two entries of the root that the sample leaves empty. *)
Lemma sample_clear : arenas_clear sample_kva.
Proof.
  intros a Ha. split; [done|]. intros p Hp. unfold leaf, translate. cbn [hw_walk]. cbv zeta.
  assert (Hi : vindex 4 (page_va a p) = 257 \/ vindex 4 (page_va a p) = 287).
  { unfold vindex, span, page_va. change (2 ^ (12 + 9 * (Z.of_nat 4 - 1))) with (2 ^ 39).
    destruct (arena_values a Ha) as [(_ & E1 & E2)|[(_ & E1 & E2)|(_ & E1 & E2)]]; rewrite E1, E2 in *; unfold PAGE_4KB;
      [left | right | left]; div_lia. }
  change (mem (mach sample_kva)) with sample_mem. change (root sample_kva) with 0x8000.
  by destruct Hi as [-> | ->]; vm_compute.
Qed.

Definition kva0 : KE_KVA_STATE device := fresh_state sample_kva.

Lemma sample_init : KeKvaInit sample_kva = (EC_SUCCESS, kva0) /\ kva_ok kva0 sample_tables.
Proof.
  pose proof (kva_init_run sample_kva sample_tables eq_refl sample_space_ok sample_device_ok sample_used) as R.
  destruct (KeKvaInit sample_kva) as [st s']. destruct R as (_ & _ & [(-> & _ & K & ->)|(_ & C & _)]); [done|].
  by destruct (C sample_clear).
Qed.

Lemma kva0_heap_ok : kva_heap_ok kva0.
Proof. exists sample_tables. split; [apply sample_init|]. intros i r Ha. by apply fresh_unused in Ha. Qed.

(** A stack of four pages and a guard below. *)
Lemma demo_range : exists s i r, kva_ok s sample_tables /\ active (gKvaRanges s) i r /\ Arena r = KE_KVA_ARENA_STACK /\
  KeKvaAllocRange KE_KVA_ARENA_STACK 4 1 0 true true kva0 = Ok (EC_SUCCESS, Some (range_of r), s).
Proof.
  destruct (alloc_range_run kva0 sample_tables KE_KVA_ARENA_STACK 4 1 0 true (proj2 sample_init)) as (st & o & s & E & O);
    [done..|].
  assert (Hs : match KeKvaAllocRange KE_KVA_ARENA_STACK 4 1 0 true true kva0 with Ok (_, Some _, _) => True | _ => False end)
    by (vm_compute; exact I).
  rewrite E in Hs. destruct o as [rg|]; [|destruct Hs]. destruct O as (-> & _ & _ & i & base & -> & _ & _ & Res & _).
  exists s, i, (new_record i true KE_KVA_ARENA_STACK 1 base 4 1 0).
  split; [apply Res|]. split; [|split; [reflexivity | exact E]].
  destruct (rs_unused _ _ _ _ _ Res) as (r0 & E0 & _). rewrite (rs_ranges _ _ _ _ _ Res).
  apply active_insert; [exact (lookup_lt_Some _ _ _ E0) | left; split; [reflexivity | split; reflexivity]].
Qed.

Definition demo_calls : list (kva_call (P:=device)) :=
  [CAllocRange KE_KVA_ARENA_STACK 4 1 0 true true; CHeapAllocPages 1; CFixmapAcquire 0x5000 PTE_WRITABLE;
   CTempPhysMapRelease 64; CReleaseRange KE_KVA_HEAP_ARENA_BASE].

Lemma demo_calls_ok s : calls_ok s demo_calls.
Proof. unfold demo_calls. cbn [calls_ok call_ok]. repeat split; done. Qed.

Lemma kva_calls_keep_layout_witness :
  arenas_clear sample_kva /\
  exists s' G', run_calls demo_calls (snd (KeKvaInit sample_kva)) = Ok s' /\ kva_ok s' G'.
Proof.
  destruct (kva_calls_keep_layout sample_kva sample_tables demo_calls eq_refl sample_space_ok sample_device_ok sample_used)
    as [Hiff Hrun].
  split; [exact sample_clear|].
  destruct Hrun as (s' & G' & E & K & _); [apply Hiff, sample_clear | apply demo_calls_ok |].
  exists s', G'. split; [exact E | exact K].
Defined.

Lemma alloc_range_takes_first_fit_witness :
  exists s', KeKvaAllocRange KE_KVA_ARENA_STACK 8193 1 0 true true kva0 = Ok (EC_OUT_OF_RESOURCE, None, s') /\ s' = kva0.
Proof.
  destruct (alloc_range_takes_first_fit kva0 sample_tables KE_KVA_ARENA_STACK 8193 1 0 true (proj2 sample_init))
    as (st & o & s' & E & O); [done..|].
  assert (Hs : match KeKvaAllocRange KE_KVA_ARENA_STACK 8193 1 0 true true kva0 with
    Ok (EC_OUT_OF_RESOURCE, None, _) => True | _ => False end) by (vm_compute; exact I).
  rewrite E in Hs. exists s'. destruct st; try (destruct Hs; fail). destruct o; [destruct Hs|]. split; [exact E | apply O].
Defined.

Lemma stale_range_handle_is_refused_witness : exists s i r s1 s2,
  KeKvaReleaseRangeHandle (Some (range_of r)) s = Ok (EC_SUCCESS, s1) /\ active (gKvaRanges s) i r /\
  run_calls demo_calls s1 = Ok s2 /\
  KeKvaReleaseRangeHandle (Some (range_of r)) s2 = Ok (EC_INVALID_STATE, s2).
Proof.
  destruct demo_range as (s & i & r & K & Ha & Er & _).
  destruct (release_active s sample_tables i r K Ha) as (s1 & E1 & R).
  destruct (calls_run demo_calls s1 sample_tables (rl_ok _ _ _ _ _ R) (demo_calls_ok s1)) as (s2 & E2 & _).
  exists s, i, r, s1, s2. split; [exact E1|]. split; [exact Ha|]. split; [exact E2|].
  apply (stale_range_handle_is_refused s sample_tables i r s1 demo_calls s2 K Ha);
    [rewrite Er; discriminate | exact E1 | apply demo_calls_ok | exact E2].
Defined.

Lemma release_gives_everything_back_witness : exists s i r s',
  active (gKvaRanges s) i r /\ KeKvaReleaseRangeHandle (Some (range_of r)) s = Ok (EC_SUCCESS, s').
Proof.
  destruct demo_range as (s & i & r & K & Ha & _ & _).
  destruct (release_gives_everything_back s sample_tables i r K Ha) as (s' & E & _).
  exists s, i, r, s'. split; [exact Ha | exact E].
Defined.

(** The first slot and its first generation. *)
Lemma demo_fixmap : exists s, KeFixmapAcquire 0x5000 PTE_WRITABLE true kva0 =
  Ok (EC_SUCCESS, Some (64, KE_KVA_FIXMAP_ARENA_BASE), s).
Proof.
  destruct (fixmap_acquire_run kva0 sample_tables 0x5000 PTE_WRITABLE (proj2 sample_init)) as (st & tok & va & s & E & _);
    [done|].
  assert (Hs : match KeFixmapAcquire 0x5000 PTE_WRITABLE true kva0 with
    Ok (st, Some (tok, va), _) => (st, tok, va) = (EC_SUCCESS, 64, KE_KVA_FIXMAP_ARENA_BASE) | _ => False end)
    by (vm_compute; reflexivity).
  rewrite E in Hs. injection Hs as -> -> ->. by exists s.
Qed.

Lemma temp_map_round_trip_witness : exists s1 s2 st,
  kva_load (KE_KVA_FIXMAP_ARENA_BASE + 8) s1 = Some (mem (mach s1) 0x5008) /\
  KeTempPhysMapRelease (Some 64) s1 = Ok (EC_SUCCESS, Some 0, s2) /\
  KeTempPhysMapRelease (Some 64) s2 = Ok (st, Some 64, s2).
Proof.
  destruct demo_fixmap as (s1 & E).
  destruct (temp_map_round_trip kva0 sample_tables 0x5000 PTE_WRITABLE 64 KE_KVA_FIXMAP_ARENA_BASE s1 (proj2 sample_init))
    as (Hl & s2 & st & E2 & _ & _ & _ & E3); [split; [reflexivity | split; [discriminate | reflexivity]] | exact E |].
  exists s1, s2, st. split; [apply (Hl 8); split; [discriminate | reflexivity] | split; [exact E2 | exact E3]].
Defined.

Lemma classification_is_true_witness : exists info,
  KeKvaClassifyAddress KE_KVA_HEAP_ARENA_BASE true kva0 = Ok (EC_SUCCESS, Some info) /\
  Kind info = KE_KVA_ADDRESS_FREE_HOLE /\ classification kva0 KE_KVA_HEAP_ARENA_BASE EC_SUCCESS info.
Proof.
  destruct (classification_is_true kva0 sample_tables KE_KVA_HEAP_ARENA_BASE (proj2 sample_init)) as (st & info & E & C);
    [split; [discriminate | reflexivity]|].
  assert (Hs : match KeKvaClassifyAddress KE_KVA_HEAP_ARENA_BASE true kva0 with
    Ok (st, Some info) => (st, Kind info) = (EC_SUCCESS, KE_KVA_ADDRESS_FREE_HOLE) | _ => False end)
    by (vm_compute; reflexivity).
  rewrite E in Hs. injection Hs as -> Hk. exists info. split; [exact E | split; [exact Hk | exact C]].
Defined.

Lemma page_heap_refines_heap_witness : exists b s',
  KeHeapAllocPages 2 true kva0 = Ok (EC_SUCCESS, Some b, s') /\ Permutation (kva_live s') [(b, 2)].
Proof.
  destruct (page_heap_refines_heap kva0 kva0_heap_ok) as (Ha & _).
  destruct (Ha 2) as (st & va & s' & E & _ & _ & O); [reflexivity|].
  assert (Hs : match KeHeapAllocPages 2 true kva0 with Ok (_, Some _, _) => True | _ => False end)
    by (vm_compute; exact I).
  rewrite E in Hs. destruct va as [b|]; [|destruct Hs]. destruct O as [-> O]. exists b, s'. split; [exact E | exact O].
Defined.

(** A pool of 24-byte objects on the sample machine. *)
Lemma demo_pool : exists pool s F pages, PoolThms.alive (M := KE_KVA_STATE device) pool s F [] pages [] /\ F <> [].
Proof.
  pose proof (kva0_heap_ok : heap_ok kva0) as Hok.
  destruct (PoolThms.pool_init_run blank_pool 24 1 kva0 Hok) as (st & p & s & E & R); [done | done|].
  assert (Hs : match KePoolInit blank_pool 24 1 kva0 with Ok (EC_SUCCESS, q, _) => FreeList q <> 0 | _ => False end)
    by (vm_compute; discriminate).
  rewrite E in Hs. destruct st; try (destruct Hs; fail). rewrite decide_True in R by reflexivity.
  destruct R as (F & pages & HA & _). exists p, s, F, pages. split; [exact HA|]. intros ->.
  destruct HA as [_ W]. apply Hs, (wf_free _ _ _ _ _ _ W).
Qed.

Lemma pool_slots_are_zeroed_frames_witness : exists pool s node pool' s',
  KePoolAlloc (M := KE_KVA_STATE device) pool s = Ok (node, pool', s') /\ node <> 0 /\
  exists mp, translate (mem (mach s')) (root s') node = Some mp /\ Level mp = 1.
Proof.
  destruct demo_pool as (p & s & F & pages & HA & HF).
  destruct (pool_slots_are_zeroed_frames s p F [] pages [] HA) as (node & p' & s' & E & Hn).
  destruct (PoolThms.alloc_run p s F [] pages [] HA) as (node2 & p2 & s2 & E2 & O).
  rewrite E in E2. injection E2 as <- <- <-. destruct O as [(Hne & Ess & (F' & pages' & [_ W]) & _)|(_ & -> & _)]; [|by destruct HF].
  destruct (Hn Hne node) as (mp & Et & El & _).
  - destruct (wf_geom _ _ _ _ _ _ W). lia.
  - apply (slot_aligned p' s' F' [node] pages' [] W). right. by left.
  - exists p, s, node, p', s'. split; [exact E | split; [exact Hne | exists mp; split; [exact Et | exact El]]].
Defined.

(** ** A handle of the fixmap arena is not protected

    The record of a temporary mapping carries the generation of its slot, not
    one of the counter's, so the handle of a released fixmap range can name a
    temporary mapping made afterwards. *)
Lemma stale_fixmap_range_releases_temp_map : exists rg s1 s2 s3 s4,
  KeKvaAllocRange KE_KVA_ARENA_FIXMAP 1 0 0 false true kva0 = Ok (EC_SUCCESS, Some rg, s1) /\
  KeKvaReleaseRangeHandle (Some rg) s1 = Ok (EC_SUCCESS, s2) /\
  KeFixmapAcquire 0x5000 PTE_WRITABLE true s2 = Ok (EC_SUCCESS, Some (64, KE_KVA_FIXMAP_ARENA_BASE), s3) /\
  KeKvaReleaseRangeHandle (Some rg) s3 = Ok (EC_SUCCESS, s4).
Proof.
  pose (run := match KeKvaAllocRange KE_KVA_ARENA_FIXMAP 1 0 0 false true kva0 with
    | Ok (st1, Some rg, s1) =>
        match KeKvaReleaseRangeHandle (Some rg) s1 with
        | Ok (st2, s2) =>
            match KeFixmapAcquire 0x5000 PTE_WRITABLE true s2 with
            | Ok (st3, Some h, s3) =>
                match KeKvaReleaseRangeHandle (Some rg) s3 with
                | Ok (st4, s4) => Some (st1, st2, st3, st4, h)
                | _ => None
                end
            | _ => None
            end
        | _ => None
        end
    | _ => None
    end).
  assert (E : run = Some (EC_SUCCESS, EC_SUCCESS, EC_SUCCESS, EC_SUCCESS, (64, KE_KVA_FIXMAP_ARENA_BASE)))
    by (vm_compute; reflexivity).
  unfold run in E. destruct (KeKvaAllocRange _ _ _ _ _ _ _) as [[[st1 [rg|]] s1]| | |] eqn:E1; try discriminate E.
  destruct (KeKvaReleaseRangeHandle (Some rg) s1) as [[st2 s2]| | |] eqn:E2; try discriminate E.
  destruct (KeFixmapAcquire _ _ _ s2) as [[[st3 [h|]] s3]| | |] eqn:E3; try discriminate E.
  destruct (KeKvaReleaseRangeHandle (Some rg) s3) as [[st4 s4]| | |] eqn:E4; try discriminate E.
  injection E as -> -> -> -> ->. exists rg, s1, s2, s3, s4.
  split; [reflexivity | split; [exact E2 | split; [exact E3 | exact E4]]].
Qed.
