(* ===== verification/Parts.v ===== *)
(** * Fields of words, and heap memories after a few stores

    The byte allocator keeps 16- and 32-bit fields in the words of the heap
    ([load_part], [store_part]).  [patched ws m m'] says that [m'] is [m] with
    the words of the map [ws] written; a sequence of stores builds such a map,
    and what holds afterwards is read off it. *)

From S2P Require Import Prelude Heap.

Local Open Scope Z_scope.

(** Fields narrower than a word: [n] bytes at byte [o] of a little-endian
    word, which they do not leave. *)
Definition get_part (w o n : Z) : Z := Z.land (Z.shiftr w (8 * o)) (Z.ones (8 * n)).
Definition set_part (w o n v : Z) : Z :=
  u64 (w + Z.shiftl (Z.land v (Z.ones (8 * n)) - get_part w o n) (8 * o)).

Definition load_part {M} `{HeapServices M} (a n : Z) (m : M) : res Z :=
  let* w := load (a - a mod 8) m in Ok (get_part w (a mod 8) n).
Definition store_part {M} `{HeapServices M} (a n v : Z) (m : M) : res M :=
  let* w := load (a - a mod 8) m in store (a - a mod 8) (set_part w (a mod 8) n v) m.

(** [memset(p, 0, n)] on an aligned buffer of any length. *)
Definition memset_bytes {M} `{HeapServices M} (p n : Z) (m : M) : res M :=
  let* m := memset0 p n m in
  if n mod 8 =? 0 then Ok m else store_part (p + (n - n mod 8)) (n mod 8) 0 m.


Lemma get_part_div w o n : 0 <= o -> 0 <= n -> get_part w o n = (w / 2 ^ (8 * o)) mod 2 ^ (8 * n).
Proof. intros Ho Hn. unfold get_part. by rewrite Z.land_ones, Z.shiftr_div_pow2 by lia. Qed.

Lemma set_part_div w o n v : 0 <= o -> 0 <= n ->
  set_part w o n v = u64 (w + (v mod 2 ^ (8 * n) - (w / 2 ^ (8 * o)) mod 2 ^ (8 * n)) * 2 ^ (8 * o)).
Proof.
  intros Ho Hn. unfold set_part. by rewrite get_part_div, Z.shiftl_mul_pow2, Z.land_ones by lia.
Qed.

(** The two halves of a word. *)
Definition halves (lo hi : Z) : Z := lo + hi * 2 ^ 32.

Lemma get_lo lo hi : is_u32 lo -> get_part (halves lo hi) 0 4 = lo.
Proof. intros Hl. rewrite get_part_div by lia. unfold halves. change (2 ^ (8 * 0)) with 1. change (8 * 4) with 32. div_lia. Qed.

Lemma get_hi lo hi : is_u32 lo -> is_u32 hi -> get_part (halves lo hi) 4 4 = hi.
Proof. intros Hl Hh. rewrite get_part_div by lia. unfold halves. change (8 * 4) with 32. div_lia. Qed.

Lemma get_hi16 lo hi : is_u32 lo -> 0 <= hi < 2 ^ 16 -> get_part (halves lo hi) 4 2 = hi.
Proof.
  intros Hl Hh. rewrite get_part_div by lia. unfold halves. change (8 * 4) with 32. change (8 * 2) with 16. div_lia.
Qed.

Lemma set_lo lo hi v : is_u32 lo -> is_u32 hi -> is_u32 v -> set_part (halves lo hi) 0 4 v = halves v hi.
Proof.
  intros Hl Hh Hv. rewrite set_part_div by lia. unfold halves, u64. change (2 ^ (8 * 0)) with 1. change (8 * 4) with 32.
  div_lia.
Qed.

Lemma set_hi lo hi v : is_u32 lo -> is_u32 hi -> is_u32 v -> set_part (halves lo hi) 4 4 v = halves lo v.
Proof. intros Hl Hh Hv. rewrite set_part_div by lia. unfold halves, u64. change (8 * 4) with 32. div_lia. Qed.

Lemma set_hi16 lo v : is_u32 lo -> 0 <= v < 2 ^ 16 -> set_part (halves lo 0) 4 2 v = halves lo v.
Proof.
  intros Hl Hv. rewrite set_part_div by lia. unfold halves, u64. change (8 * 4) with 32. change (8 * 2) with 16. div_lia.
Qed.

(** Writing the low half of any word, whatever it held. *)
Lemma set_lo_any w v : is_u32 v -> set_part w 0 4 v = halves v (u32 (w / 2 ^ 32)).
Proof.
  intros Hv. rewrite set_part_div by lia. unfold halves, u64, u32. change (2 ^ (8 * 0)) with 1. change (8 * 4) with 32.
  div_lia.
Qed.

(** Clearing the first [n] bytes of a word clears each of them. *)
Lemma clear_low w n i : 0 <= i < n -> n < 8 -> get_part (set_part w 0 n 0) i 1 = 0.
Proof.
  intros Hi Hn. rewrite set_part_div, get_part_div by lia. change (2 ^ (8 * 0)) with 1. change (2 ^ (8 * 1)) with 256.
  rewrite Z.mod_0_l, Z.div_1_r, Z.mul_1_r by lia. unfold u64.
  assert (Hp : 2 ^ (8 * n) = 2 ^ (8 * (n - i)) * 2 ^ (8 * i)) by (rewrite <- Z.pow_add_r by lia; f_equal; lia).
  assert (H64 : 2 ^ 64 = 2 ^ (64 - 8 * n) * 2 ^ (8 * n)) by (rewrite <- Z.pow_add_r by lia; f_equal; lia).
  assert (H256 : 2 ^ (8 * (n - i)) = 2 ^ (8 * (n - i) - 8) * 256) by (change 256 with (2 ^ 8); rewrite <- Z.pow_add_r by lia; f_equal; lia).
  pose proof (Z.pow_pos_nonneg 2 (8 * n) ltac:(lia) ltac:(lia)). pose proof (Z.pow_pos_nonneg 2 (8 * i) ltac:(lia) ltac:(lia)).
  replace (w + (0 - w mod 2 ^ (8 * n))) with (w / 2 ^ (8 * n) * 2 ^ (8 * n)) by (pose proof (Z.div_mod w (2 ^ (8 * n))); lia).
  rewrite H64. rewrite Z.mul_mod_distr_r by (try lia; apply Z.pow_nonzero; lia).
  rewrite Hp, Z.mul_assoc, Z.div_mul by lia. rewrite H256, Z.mul_assoc. apply Z.mod_mul. lia.
Qed.

(** ** Accesses to fields *)

Section parts.
Context {M : Type} `{HeapLaws M}.
Implicit Types (m : M) (a v : Z).

(** The word [a] of a live block holds [v]. *)
Definition word m a v : Prop := live_word (live m) a /\ load_word a m = Some v.

Lemma load_of_word m a v : word m a v -> load a m = Ok v.
Proof. intros [[Ha _] Hv]. by apply load_some. Qed.

Lemma part_base a o : a mod 8 = 0 -> 0 <= o < 8 -> (a + o) mod 8 = o /\ a + o - (a + o) mod 8 = a.
Proof. intros. div_lia. Qed.

Lemma word_part m a o n v : word m a v -> 0 <= o < 8 -> load_part (a + o) n m = Ok (get_part v o n).
Proof.
  intros Hw Ho. destruct (part_base a o (proj1 (proj1 Hw)) Ho) as [E1 E2].
  unfold load_part. rewrite E2, E1. by rewrite (load_of_word m a v Hw).
Qed.

Lemma store_part_word m a o n v w : word m a v -> 0 <= o < 8 ->
  store_part (a + o) n w m = store a (set_part v o n w) m.
Proof.
  intros Hw Ho. destruct (part_base a o (proj1 (proj1 Hw)) Ho) as [E1 E2].
  unfold store_part. rewrite E2, E1. by rewrite (load_of_word m a v Hw).
Qed.

(** The same with the field's address written the way the code writes it. *)
Lemma word_part_at m x a o n v : word m a v -> x = a + o -> 0 <= o < 8 -> load_part x n m = Ok (get_part v o n).
Proof. intros Hw -> Ho. by apply word_part. Qed.

Lemma store_part_at m x a o n v w : word m a v -> x = a + o -> 0 <= o < 8 ->
  store_part x n w m = store a (set_part v o n w) m.
Proof. intros Hw -> Ho. by apply store_part_word. Qed.

(** ** Patched memories *)

Record patched (ws : gmap Z Z) m m' : Prop := {
  pt_ok : heap_ok m';
  pt_live : live m' = live m;
  pt_words a : live_word (live m) a -> load_word a m' = match ws !! a with Some v => Some v | None => load_word a m end;
}.

Lemma patched_nil m : heap_ok m -> patched ∅ m m.
Proof. intros Hm. split; [done..|]. intros a _. by rewrite lookup_empty. Qed.

Lemma patched_store ws m m1 a v : patched ws m m1 -> live_word (live m) a ->
  exists m2, store a v m1 = Ok m2 /\ patched (<[a := v]> ws) m m2.
Proof.
  intros [Hok Hl Hw] Ha. destruct (store_ok m1 a v Hok) as (m2 & E & Hok2 & Hl2 & Hv & Hag); [by rewrite Hl|].
  exists m2. split; [done|]. split; [done | congruence |].
  intros b Hb. destruct (decide (b = a)) as [->|Hne]; [by rewrite lookup_insert_eq|].
  rewrite lookup_insert_ne by done. rewrite Hag; [by apply Hw | by rewrite Hl].
Qed.

Lemma patched_hit ws m m1 a v : patched ws m m1 -> live_word (live m) a -> ws !! a = Some v -> word m1 a v.
Proof. intros [Hok Hl Hw] Ha E. split; [by rewrite Hl|]. rewrite Hw by done. by rewrite E. Qed.

Lemma patched_miss ws m m1 a v : patched ws m m1 -> ws !! a = None -> word m a v -> word m1 a v.
Proof. intros [Hok Hl Hw] E [Ha Hv]. split; [by rewrite Hl|]. rewrite Hw by done. by rewrite E. Qed.

(** What was not written is as it was. *)
Lemma patched_agree (Q : Z -> Prop) ws m m1 : patched ws m m1 ->
  (forall a, Q a -> live_word (live m) a /\ ws !! a = None) -> agree Q m m1.
Proof. intros [Hok Hl Hw] HQ a Ha. destruct (HQ a Ha) as [Hlw E]. rewrite Hw by done. by rewrite E. Qed.

Lemma patched_trans ws m m1 ws' m2 : patched ws m m1 -> patched ws' m1 m2 -> patched (ws' ∪ ws) m m2.
Proof.
  intros [Hok Hl Hw] [Hok' Hl' Hw']. split; [done | congruence|]. intros a Ha.
  rewrite Hw' by (by rewrite Hl). rewrite lookup_union, (Hw a Ha).
  destruct (ws' !! a), (ws !! a); done.
Qed.

Lemma word_agree (Q : Z -> Prop) m m' a v : agree Q m m' -> Q a -> live_word (live m') a -> word m a v -> word m' a v.
Proof.
  intros Hag HQ Hl [_ Hv]. split; [done|]. by rewrite Hag.
Qed.

(** The buffer-clearing loop of whole words, and the one of any length. *)
Lemma memset_bytes_ok m p n : heap_ok m -> 0 <= n -> 0 <= p -> p + n < 2 ^ 64 -> p mod 8 = 0 ->
  (forall a, p <= a < p + n -> a mod 8 = 0 -> live_word (live m) a) ->
  exists m', memset_bytes p n m = Ok m' /\ heap_ok m' /\ live m' = live m /\
    (forall i, 0 <= i < n -> load_part (p + i) 1 m' = Ok 0) /\
    agree (fun a => live_word (live m) a /\ ~ (p <= a < p + n)) m m'.
Proof.
  intros Hm Hn Hp Hpn Hp8 Hl. unfold memset_bytes.
  set (n0 := n - n mod 8). assert (Hn0 : 0 <= n0 <= n /\ n0 mod 8 = 0) by (subst n0; div_lia).
  assert (E0 : memset0 p n m = memset0 p n0 m).
  { unfold memset0. do 2 f_equal. subst n0. div_lia. }
  destruct (memset0_ok m p n0) as (m1 & E1 & Hok1 & Hl1 & Hz & Hag); [done | lia | lia | lia | lia | | done|].
  { intros a Ha. apply Hl. lia. }
  rewrite E0, E1. cbn [res_bind].
  assert (Hbyte : forall m', (forall a, p <= a < p + n0 -> a mod 8 = 0 -> load_word a m' = Some 0) ->
            live m' = live m -> forall i, 0 <= i < n0 -> load_part (p + i) 1 m' = Ok 0).
  { intros m' Hm' Hlm' i Hi. set (o := i mod 8). replace (p + i) with ((p + (i - o)) + o) by lia.
    assert (Ho : 0 <= o < 8 /\ (i - o) mod 8 = 0 /\ 0 <= i - o) by (subst o; div_lia).
    rewrite (word_part m' (p + (i - o)) o 1 0); [|split; [rewrite Hlm'; apply Hl | apply Hm']|]; try div_lia.
    f_equal. rewrite get_part_div by lia. rewrite Z.div_0_l by (apply Z.pow_nonzero; lia). apply Z.mod_0_l. lia. }
  destruct (Z.eqb_spec (n mod 8) 0) as [E|E].
  { assert (n0 = n) as -> by lia. exists m1. by split_and!; [..|apply Hbyte|]. }
  assert (Hlw : live_word (live m) (p + n0)) by (apply Hl; div_lia).
  destruct (load_live m1 (p + n0) Hok1) as [w Hw]; [by rewrite Hl1|].
  assert (Hword : word m1 (p + n0) w) by (split; [by rewrite Hl1 | done]).
  pose proof (store_part_word m1 (p + n0) 0 (n mod 8) w 0 Hword) as Es. rewrite Z.add_0_r in Es.
  rewrite Es by lia. clear Es.
  destruct (store_ok m1 (p + n0) (set_part w 0 (n mod 8) 0) Hok1) as (m2 & -> & Hok2 & Hl2 & Hv & Hag2); [by rewrite Hl1|].
  exists m2. split; [done|]. split; [done|]. split; [congruence|]. split.
  - intros i Hi. destruct (decide (i < n0)) as [Hlt|Hge].
    + apply Hbyte; [|congruence | lia]. intros a Ha Ha8. rewrite Hag2; [by apply Hz|].
      rewrite Hl1. split; [lia|]. apply Hl; [lia | done].
    + replace (p + i) with (p + n0 + (i - n0)) by lia.
      rewrite (word_part m2 (p + n0) (i - n0) 1 (set_part w 0 (n mod 8) 0)); [|split; [by rewrite Hl2, Hl1 | done] | div_lia].
      f_equal. apply clear_low; div_lia.
  - intros a [Ha Hout]. rewrite Hag2; [apply Hag; split; [done | lia]|]. rewrite Hl1. split; [|done].
    intros ->. lia.
Qed.

(** ** Blocks do not exceed the address space *)

Definition total_pages (bs : list (Z * Z)) : Z := foldr (fun b n => b.2 + n) 0 bs.

Lemma total_pages_perm bs bs' : Permutation bs bs' -> total_pages bs = total_pages bs'.
Proof. induction 1; simpl; lia. Qed.

Lemma total_pages_app bs bs' : total_pages (bs ++ bs') = total_pages bs + total_pages bs'.
Proof. induction bs as [|b bs IH]; simpl; [done | lia]. Qed.

(** The numbers of the pages of a block. *)
Definition page_numbers (b : Z * Z) : list Z := seqZ (b.1 / PAGE_4KB) b.2.

Lemma page_number_in m b q : heap_ok m -> b ∈ live m -> q ∈ page_numbers b ->
  0 < q < 2 ^ 52 /\ in_block b (q * PAGE_4KB).
Proof.
  intros Hm Hb Hq. destruct (live_bounds m b Hm Hb) as (H1 & H2 & H3 & H4).
  apply elem_of_seqZ in Hq. unfold in_block, PAGE_4KB in *. div_lia.
Qed.

Lemma length_page_numbers bs : Forall (fun b => 0 < b.2) bs ->
  Z.of_nat (length (bs ≫= page_numbers)) = total_pages bs.
Proof.
  induction 1 as [|b bs Hb _ IH]; [done|]. rewrite bind_cons, length_app, Nat2Z.inj_add, IH.
  unfold page_numbers. rewrite length_seqZ. unfold total_pages. simpl. lia.
Qed.

Lemma live_total_bound m bs : heap_ok m -> NoDup bs -> (forall b, b ∈ bs -> b ∈ live m) -> 0 <= total_pages bs < 2 ^ 52.
Proof.
  intros Hm Hnd Hl. rewrite <- length_page_numbers. 1: split; [lia|].
  2: { apply Forall_forall. intros b Hb. by destruct (live_bounds m b Hm (Hl b Hb)) as (_ & _ & ? & _). }
  assert (Hsub : bs ≫= page_numbers ⊆+ seqZ 1 (2 ^ 52 - 1)).
  { apply NoDup_submseteq.
    - apply NoDup_bind; [|intros; apply NoDup_seqZ | done].
      intros b1 b2 q H1 H2 Hq1 Hq2. destruct (page_number_in m b1 q Hm (Hl _ H1) Hq1) as [_ Hi1].
      destruct (page_number_in m b2 q Hm (Hl _ H2) Hq2) as [_ Hi2]. by apply (live_disjoint m b1 b2 _ Hm (Hl _ H1) (Hl _ H2)) in Hi1.
    - intros q (b & Hq & Hb)%list_elem_of_bind. apply elem_of_seqZ.
      destruct (page_number_in m b q Hm (Hl _ Hb) Hq). lia. }
  apply submseteq_length in Hsub. rewrite length_seqZ in Hsub. lia.
Qed.
End parts.

(** One store of a sequence: [P] describes the memory so far.  Leaves the goal
    that the word is in a live block. *)
Ltac run_store P :=
  match type of P with
  | patched ?ws ?m ?m1 =>
      match goal with
      | |- context [store ?a ?v m1] =>
          let m2 := fresh "m" in let E := fresh "E" in let P2 := fresh "P" in
          destruct (patched_store ws m m1 a v P) as (m2 & E & P2);
          [|rewrite E; clear E; cbn [res_bind]; clear P; rename P2 into P]
      end
  end.

(** The value of a word in a patched memory: written, or not. *)
Ltac patch_lookup :=
  repeat first [apply lookup_insert_eq | rewrite lookup_insert_ne by lia]; try apply lookup_empty; try reflexivity.
