(* ===== verification/Alloc.v ===== *)
(** * The kernel byte allocator ([ke/mm/allocator.c])

    [kmalloc], [kzalloc] and [kfree].  Sizes up to 1024 bytes come from slots
    of seven size classes: a page of slots is one heap page with a header, and
    every slot carries its own header with the page it belongs to and its
    state.  Larger sizes are whole heap blocks with a record each.  Headers and
    free lists lie in heap memory, read and written through [HeapServices];
    [RangeServices] is the one further routine of [kva.c] the allocator calls.

    As for the pool, each critical section is a function of its own
    ([small_try], [small_publish], [large_record], [free_large_section],
    [free_small_section]) and the calls are their composition with what a
    thread does on memory it owns. *)

From S2P Require Import Prelude Heap Parts Kva.
Import Kva (KE_KVA_RANGE, RgArena, RgUsableBase, RgUsablePages, KE_KVA_ARENA_HEAP, succeeded).

Local Open Scope Z_scope.

(** [KeKvaQueryRange] with a non-null [outRange]: the range whose usable base
    is the address. *)
Class RangeServices (M : Type) := {
  KeKvaQueryRange : Z -> M -> HO_STATUS * option KE_KVA_RANGE;
}.

(** ** Constants and data *)

Definition KE_ALLOC_SMALL_CLASS_COUNT : Z := 7.
Definition KE_ALLOC_LARGE_RECORD_CAPACITY : Z := 128.
Definition KE_ALLOC_SMALL_PAGE_MAGIC : Z := 0x414C534D.
Definition KE_ALLOC_SMALL_PAGE_RETIRED : Z := 0x414C5352.
Definition KE_ALLOC_SLOT_STATE_FREE : Z := 0xA110C0DE.
Definition KE_ALLOC_SLOT_STATE_ALLOCATED : Z := 0xA110CA7E.
Definition gAllocatorClassSizes : list Z := [16; 32; 64; 128; 256; 512; 1024].

(** [struct KE_ALLOC_SMALL_SLOT]: where its fields lie. *)
Definition slot_NextFree : Z := 0.
Definition slot_OwnerPage : Z := 8.
Definition slot_RequestedSize : Z := 16.
Definition slot_State : Z := 20.
Definition sizeof_SMALL_SLOT : Z := 24.

(** [struct KE_ALLOC_SMALL_PAGE]: where its fields lie. *)
Definition page_Magic : Z := 0.
Definition page_ClassIndex : Z := 4.
Definition page_SlotStride : Z := 8.
Definition page_SlotsPerPage : Z := 12.
Definition page_FreeCount : Z := 16.
Definition page_BackingUsableBase : Z := 24.
Definition page_BackingUsablePages : Z := 32.
Definition page_FreeList : Z := 40.
Definition page_Next : Z := 48.
Definition sizeof_SMALL_PAGE : Z := 56.

Record KE_ALLOC_LARGE_RECORD : Type := mkLarge {
  InUse : bool;
  UserPointer : Z;
  RequestedSize : Z;
  BackingUsableBase : Z;
  BackingUsablePages : Z;
}.

Record KE_ALLOCATOR_STATS : Type := mkStats {
  LiveAllocationCount : Z;
  LiveSmallAllocationCount : Z;
  LiveLargeAllocationCount : Z;
  BackingBytes : Z;
  FailedAllocationCount : Z;
}.

Inductive KE_ALLOCATOR_ALLOCATION_KIND : Type :=
| KE_ALLOCATOR_ALLOCATION_UNKNOWN
| KE_ALLOCATOR_ALLOCATION_SMALL
| KE_ALLOCATOR_ALLOCATION_LARGE.

Record KE_ALLOCATOR_ADDRESS_INFO : Type := mkInfo {
  LiveAllocation : bool;
  AllocationKind : KE_ALLOCATOR_ALLOCATION_KIND;
  AllocationBase : Z;
  AllocationEndExclusive : Z;
  InfoRequestedSize : Z;
  InfoBackingUsableBase : Z;
  InfoBackingUsablePages : Z;
  SmallClassIndex : Z;
  SmallClassSize : Z;
}.

(** The allocator's globals. *)
Record KE_ALLOCATOR : Type := mkAllocator {
  gAllocatorInitialized : bool;
  gAllocatorStats : KE_ALLOCATOR_STATS;
  gAllocatorSmallPages : list Z;
  gAllocatorLargeRecords : list KE_ALLOC_LARGE_RECORD;
}.

Definition set_stats (st : KE_ALLOCATOR_STATS) (al : KE_ALLOCATOR) : KE_ALLOCATOR :=
  mkAllocator (gAllocatorInitialized al) st (gAllocatorSmallPages al) (gAllocatorLargeRecords al).
Definition set_small (ps : list Z) (al : KE_ALLOCATOR) : KE_ALLOCATOR :=
  mkAllocator (gAllocatorInitialized al) (gAllocatorStats al) ps (gAllocatorLargeRecords al).
Definition set_large (rs : list KE_ALLOC_LARGE_RECORD) (al : KE_ALLOCATOR) : KE_ALLOCATOR :=
  mkAllocator (gAllocatorInitialized al) (gAllocatorStats al) (gAllocatorSmallPages al) rs.

Definition zero_stats : KE_ALLOCATOR_STATS := mkStats 0 0 0 0 0.
Definition free_record : KE_ALLOC_LARGE_RECORD := mkLarge false 0 0 0 0.

Definition KiAllocatorBackingBytes (pages : Z) : Z := u64 (pages * PAGE_4KB).

Definition KiAllocatorEndFromLength (base length : Z) : Z :=
  let maxU64 := not64 0 in
  if maxU64 - base <? length then maxU64 else u64 (base + length).

Fixpoint first_class (i : Z) (size : Z) (classes : list Z) : Z :=
  match classes with
  | [] => -1
  | c :: classes => if size <=? c then i else first_class (i + 1) size classes
  end.
Definition KiAllocatorFindSmallClass (size : Z) : Z := first_class 0 size gAllocatorClassSizes.

(** The statistics after a change of the counters. *)
Definition count_failure (al : KE_ALLOCATOR) : KE_ALLOCATOR :=
  let st := gAllocatorStats al in
  set_stats (mkStats (LiveAllocationCount st) (LiveSmallAllocationCount st) (LiveLargeAllocationCount st)
    (BackingBytes st) (u64 (FailedAllocationCount st + 1))) al.
Definition count_small (al : KE_ALLOCATOR) : KE_ALLOCATOR :=
  let st := gAllocatorStats al in
  set_stats (mkStats (u64 (LiveAllocationCount st + 1)) (u64 (LiveSmallAllocationCount st + 1))
    (LiveLargeAllocationCount st) (BackingBytes st) (FailedAllocationCount st)) al.
Definition count_large (al : KE_ALLOCATOR) : KE_ALLOCATOR :=
  let st := gAllocatorStats al in
  set_stats (mkStats (u64 (LiveAllocationCount st + 1)) (LiveSmallAllocationCount st)
    (u64 (LiveLargeAllocationCount st + 1)) (BackingBytes st) (FailedAllocationCount st)) al.
Definition add_backing (bytes : Z) (al : KE_ALLOCATOR) : KE_ALLOCATOR :=
  let st := gAllocatorStats al in
  set_stats (mkStats (LiveAllocationCount st) (LiveSmallAllocationCount st) (LiveLargeAllocationCount st)
    (u64 (BackingBytes st + bytes)) (FailedAllocationCount st)) al.
Definition uncount_small (al : KE_ALLOCATOR) : res KE_ALLOCATOR :=
  let st := gAllocatorStats al in
  let* _ := HO_KASSERT (0 <? LiveAllocationCount st) EC_INVALID_STATE in
  let* _ := HO_KASSERT (0 <? LiveSmallAllocationCount st) EC_INVALID_STATE in
  Ok (set_stats (mkStats (u64 (LiveAllocationCount st - 1)) (u64 (LiveSmallAllocationCount st - 1))
    (LiveLargeAllocationCount st) (BackingBytes st) (FailedAllocationCount st)) al).
Definition uncount_large (al : KE_ALLOCATOR) : res KE_ALLOCATOR :=
  let st := gAllocatorStats al in
  let* _ := HO_KASSERT (0 <? LiveAllocationCount st) EC_INVALID_STATE in
  let* _ := HO_KASSERT (0 <? LiveLargeAllocationCount st) EC_INVALID_STATE in
  Ok (set_stats (mkStats (u64 (LiveAllocationCount st - 1)) (LiveSmallAllocationCount st)
    (u64 (LiveLargeAllocationCount st - 1)) (BackingBytes st) (FailedAllocationCount st)) al).
Definition sub_backing (bytes : Z) (al : KE_ALLOCATOR) : res KE_ALLOCATOR :=
  let st := gAllocatorStats al in
  let* _ := HO_KASSERT (bytes <=? BackingBytes st) EC_INVALID_STATE in
  Ok (set_stats (mkStats (LiveAllocationCount st) (LiveSmallAllocationCount st) (LiveLargeAllocationCount st)
    (u64 (BackingBytes st - bytes)) (FailedAllocationCount st)) al).

Definition KiAllocatorCountFailure (al : KE_ALLOCATOR) : KE_ALLOCATOR := count_failure al.

(** Every small page is a live heap block, so the arena bounds the lists. *)
Definition walk_fuel : nat := Z.to_nat ARENA_PAGES.

Section operations.
Context {M : Type} `{HeapServices M} `{RangeServices M}.
Implicit Types (m : M) (al : KE_ALLOCATOR).

(** [KeHeapFreePages(base)] whose failure stops the machine. *)
Definition free_or_panic (base : Z) m : res M :=
  let '(freeStatus, m) := KeHeapFreePages base m in
  let* _ := HO_KASSERT (succeeded freeStatus) freeStatus in
  Ok m.

(** ** Small allocations *)

Definition slot_stride (classSize : Z) : Z := u32 (HO_ALIGN_UP (sizeof_SMALL_SLOT + classSize) 8).
Definition header_bytes : Z := u32 (HO_ALIGN_UP sizeof_SMALL_PAGE 8).

(** The loop that threads the slots of a fresh page on its free list. *)
Definition link_small_slots (page slotStride slotsPerPage : Z) m : res M :=
  let slotBase := u64 (page + header_bytes) in
  for_loop (Z.to_nat slotsPerPage) 0 (fun i m =>
    let slot := u64 (slotBase + u32 (i * slotStride)) in
    let* m := store (slot + slot_OwnerPage) page m in
    let* m := store_part (slot + slot_RequestedSize) 4 0 m in
    let* m := store_part (slot + slot_State) 4 KE_ALLOC_SLOT_STATE_FREE m in
    let* freeList := load (page + page_FreeList) m in
    let* m := store (slot + slot_NextFree) freeList m in
    let* m := store (page + page_FreeList) slot m in
    let* freeCount := load_part (page + page_FreeCount) 4 m in
    store_part (page + page_FreeCount) 4 (u32 (freeCount + 1)) m) m.

Definition KiAllocatorPrepareSmallPage (classIndex : Z) m : res (HO_STATUS * Z * M) :=
  if KE_ALLOC_SMALL_CLASS_COUNT <=? classIndex then Ok (EC_ILLEGAL_ARGUMENT, 0, m) else
  let '(status, pageBase, m) := KeHeapAllocPages 1 m in
  if negb (succeeded status) then Ok (status, 0, m) else
  match KeKvaQueryRange pageBase m with
  | (EC_SUCCESS, Some range) =>
      let page := pageBase in
      let* m := memset0 page sizeof_SMALL_PAGE m in
      let* classSize := rd gAllocatorClassSizes classIndex in
      let slotStride := slot_stride classSize in
      let headerBytes := header_bytes in
      if (PAGE_4KB <=? headerBytes) || (slotStride =? 0) then
        let* m := free_or_panic pageBase m in Ok (EC_INVALID_STATE, 0, m) else
      let usableBytes := u32 (PAGE_4KB - headerBytes) in
      let slotsPerPage := usableBytes / slotStride in
      if slotsPerPage =? 0 then
        let* m := free_or_panic pageBase m in Ok (EC_INVALID_STATE, 0, m) else
      let* m := store_part (page + page_Magic) 4 KE_ALLOC_SMALL_PAGE_MAGIC m in
      let* m := store_part (page + page_ClassIndex) 2 classIndex m in
      let* m := store_part (page + page_SlotStride) 4 slotStride m in
      let* m := store_part (page + page_SlotsPerPage) 4 slotsPerPage m in
      let* m := store_part (page + page_FreeCount) 4 0 m in
      let* m := store (page + page_BackingUsableBase) (RgUsableBase range) m in
      let* m := store (page + page_BackingUsablePages) (RgUsablePages range) m in
      let* m := store (page + page_FreeList) 0 m in
      let* m := store (page + page_Next) 0 m in
      let* m := link_small_slots page slotStride slotsPerPage m in
      Ok (EC_SUCCESS, page, m)
  | (status, _) =>
      let* m := free_or_panic pageBase m in Ok (status, 0, m)
  end.

Definition KiAllocatorAllocFromSmallPage (page requestedSize : Z) (zeroed : bool) m : res (Z * M) :=
  if page =? 0 then Ok (0, m) else
  let* slot := load (page + page_FreeList) m in
  if slot =? 0 then Ok (0, m) else
  let* next := load (slot + slot_NextFree) m in
  let* m := store (page + page_FreeList) next m in
  let* freeCount := load_part (page + page_FreeCount) 4 m in
  let* _ := HO_KASSERT (0 <? freeCount) EC_INVALID_STATE in
  let* m := store_part (page + page_FreeCount) 4 (u32 (freeCount - 1)) m in
  let* m := store (slot + slot_NextFree) 0 m in
  let* m := store_part (slot + slot_State) 4 KE_ALLOC_SLOT_STATE_ALLOCATED m in
  let* m := store_part (slot + slot_RequestedSize) 4
              (if 0xFFFFFFFF <? requestedSize then 0xFFFFFFFF else u32 requestedSize) m in
  let userPointer := slot + sizeof_SMALL_SLOT in
  if zeroed then
    let* classIndex := load_part (page + page_ClassIndex) 2 m in
    let* classSize := rd gAllocatorClassSizes classIndex in
    let* m := memset_bytes userPointer classSize m in
    Ok (userPointer, m)
  else Ok (userPointer, m).

(** [while (page && page->FreeCount == 0) page = page->Next;] *)
Fixpoint first_with_room (fuel : nat) (page : Z) m : res Z :=
  if page =? 0 then Ok 0 else
  match fuel with
  | O => NoFuel
  | S fuel =>
      let* freeCount := load_part (page + page_FreeCount) 4 m in
      if freeCount =? 0 then
        let* next := load (page + page_Next) m in first_with_room fuel next m
      else Ok page
  end.

(** The first critical section of [KiAllocatorAllocSmall]: [None] when no page
    of the class has room. *)
Definition small_try (classIndex requestedSize : Z) (zeroed : bool) al m : res (option Z * KE_ALLOCATOR * M) :=
  let* head := rd (gAllocatorSmallPages al) classIndex in
  let* page := first_with_room walk_fuel head m in
  if page =? 0 then Ok (None, al, m) else
  let* (pointer, m) := KiAllocatorAllocFromSmallPage page requestedSize zeroed m in
  Ok (Some pointer, if negb (pointer =? 0) then count_small al else al, m).

(** The second one: the prepared page becomes the first of its class. *)
Definition small_publish (classIndex preparedPage requestedSize : Z) (zeroed : bool) al m
  : res (Z * KE_ALLOCATOR * M) :=
  let* head := rd (gAllocatorSmallPages al) classIndex in
  let* m := store (preparedPage + page_Next) head m in
  let* heads := wr (gAllocatorSmallPages al) classIndex preparedPage in
  let al := set_small heads al in
  let* backing := load (preparedPage + page_BackingUsablePages) m in
  let al := add_backing (KiAllocatorBackingBytes backing) al in
  let* (pointer, m) := KiAllocatorAllocFromSmallPage preparedPage requestedSize zeroed m in
  Ok (pointer, if negb (pointer =? 0) then count_small al else count_failure al, m).

Definition KiAllocatorAllocSmall (requestedSize : Z) (zeroed : bool) al m : res (Z * KE_ALLOCATOR * M) :=
  let classIndex := KiAllocatorFindSmallClass requestedSize in
  if classIndex <? 0 then Ok (0, al, m) else
  let* (found, al, m) := small_try classIndex requestedSize zeroed al m in
  match found with
  | Some pointer => Ok (pointer, al, m)
  | None =>
      let* (status, preparedPage, m) := KiAllocatorPrepareSmallPage classIndex m in
      if negb (succeeded status) then Ok (0, KiAllocatorCountFailure al, m) else
      small_publish classIndex preparedPage requestedSize zeroed al m
  end.

(** ** Large allocations *)

(** The first unused record. *)
Fixpoint find_unused (i : Z) (rs : list KE_ALLOC_LARGE_RECORD) : option Z :=
  match rs with
  | [] => None
  | r :: rs => if negb (InUse r) then Some i else find_unused (i + 1) rs
  end.

(** The critical section of [KiAllocatorAllocLarge]: whether a record was
    found for the block. *)
Definition large_record (base requestedSize : Z) (range : KE_KVA_RANGE) al : res (bool * KE_ALLOCATOR) :=
  match find_unused 0 (gAllocatorLargeRecords al) with
  | None => Ok (false, count_failure al)
  | Some i =>
      let record := mkLarge true base requestedSize (RgUsableBase range) (RgUsablePages range) in
      let* rs := wr (gAllocatorLargeRecords al) i record in
      Ok (true, add_backing (KiAllocatorBackingBytes (RgUsablePages range)) (count_large (set_large rs al)))
  end.

Definition KiAllocatorAllocLarge (requestedSize : Z) (zeroed : bool) al m : res (Z * KE_ALLOCATOR * M) :=
  let pageCount := HO_ALIGN_UP requestedSize PAGE_4KB / PAGE_4KB in
  if pageCount =? 0 then Ok (0, KiAllocatorCountFailure al, m) else
  let '(status, base, m) := KeHeapAllocPages pageCount m in
  if negb (succeeded status) then Ok (0, KiAllocatorCountFailure al, m) else
  match KeKvaQueryRange base m with
  | (EC_SUCCESS, Some range) =>
      let* (recorded, al) := large_record base requestedSize range al in
      if negb recorded then
        let* m := free_or_panic base m in Ok (0, al, m)
      else
        let* m := if zeroed then memset_bytes base requestedSize m else Ok m in
        Ok (base, al, m)
  | _ =>
      let* m := free_or_panic base m in Ok (0, KiAllocatorCountFailure al, m)
  end.

(** ** Freeing *)

(** The record in use of a pointer. *)
Fixpoint find_large (i pointer : Z) (rs : list KE_ALLOC_LARGE_RECORD) : option (Z * KE_ALLOC_LARGE_RECORD) :=
  match rs with
  | [] => None
  | r :: rs =>
      if negb (InUse r) || negb (UserPointer r =? pointer) then find_large (i + 1) pointer rs else Some (i, r)
  end.

(** The critical section of [KiAllocatorTryFreeLarge]: the block to free. *)
Definition free_large_section (pointer : Z) al : res (option Z * KE_ALLOCATOR) :=
  match find_large 0 pointer (gAllocatorLargeRecords al) with
  | None => Ok (None, al)
  | Some (i, record) =>
      let* rs := wr (gAllocatorLargeRecords al) i free_record in
      let al := set_large rs al in
      let* al := uncount_large al in
      let* al := sub_backing (KiAllocatorBackingBytes (BackingUsablePages record)) al in
      Ok (Some (BackingUsableBase record), al)
  end.

Definition KiAllocatorTryFreeLarge (pointer : Z) al m : res (bool * KE_ALLOCATOR * M) :=
  let* (backingBase, al) := free_large_section pointer al in
  match backingBase with
  | None => Ok (false, al, m)
  | Some backingBase => let* m := free_or_panic backingBase m in Ok (true, al, m)
  end.

(** The page and the slot a pointer designates when it is a small allocation:
    the checks of [KiAllocatorTryFreeSmall] in their order. *)
Definition small_slot_of (pointer : Z) m : res (option (Z * Z)) :=
  let pageBase := HO_ALIGN_DOWN pointer PAGE_4KB in
  match KeKvaQueryRange pageBase m with
  | (EC_SUCCESS, Some range) =>
      if negb (RgArena range =? KE_KVA_ARENA_HEAP) || negb (RgUsableBase range =? pageBase)
         || negb (RgUsablePages range =? 1) then Ok None else
      let page := pageBase in
      let* magic := load_part (page + page_Magic) 4 m in
      let* classIndex := load_part (page + page_ClassIndex) 2 m in
      if negb (magic =? KE_ALLOC_SMALL_PAGE_MAGIC) || (KE_ALLOC_SMALL_CLASS_COUNT <=? classIndex) then Ok None else
      let* slotStride := load_part (page + page_SlotStride) 4 m in
      let* slotsPerPage := load_part (page + page_SlotsPerPage) 4 m in
      if (slotStride =? 0) || (slotsPerPage =? 0) then Ok None else
      let headerBytes := HO_ALIGN_UP sizeof_SMALL_PAGE 8 in
      if (pointer <? u64 (pageBase + headerBytes + sizeof_SMALL_SLOT)) || (u64 (pageBase + PAGE_4KB) <=? pointer)
      then Ok None else
      let relative := u64 (pointer - pageBase - headerBytes) in
      if relative <? sizeof_SMALL_SLOT then Ok None else
      let slotOffset := u64 (relative - sizeof_SMALL_SLOT) in
      if negb (slotOffset mod slotStride =? 0) then Ok None else
      let slot := u64 (pageBase + headerBytes + slotOffset) in
      let* owner := load (slot + slot_OwnerPage) m in
      let* state := load_part (slot + slot_State) 4 m in
      if negb (owner =? page) || negb (state =? KE_ALLOC_SLOT_STATE_ALLOCATED) then Ok None else
      Ok (Some (page, slot))
  | _ => Ok None
  end.

(** The walk for the predecessor of [page] in the list of its class: whether
    [page] is in the list, and its predecessor (0 for none). *)
Fixpoint find_prev (fuel : nat) (prev cursor page : Z) m : res (bool * Z) :=
  if (cursor =? 0) || (cursor =? page) then Ok (cursor =? page, prev) else
  match fuel with
  | O => NoFuel
  | S fuel => let* next := load (cursor + page_Next) m in find_prev fuel cursor next page m
  end.

(** [prev->Next = page->Next], or the head of the class without a [prev]. *)
Definition unlink (prev classIndex next : Z) al m : res (KE_ALLOCATOR * M) :=
  if negb (prev =? 0) then let* m := store (prev + page_Next) next m in Ok (al, m)
  else let* heads := wr (gAllocatorSmallPages al) classIndex next in Ok (set_small heads al, m).

(** Taking a page without allocations out of its class. *)
Definition retire_page (page : Z) al m : res (Z * KE_ALLOCATOR * M) :=
  let* classIndex := load_part (page + page_ClassIndex) 2 m in
  let* head := rd (gAllocatorSmallPages al) classIndex in
  let* (found, prev) := find_prev walk_fuel 0 head page m in
  if negb found then Ok (0, al, m) else
  let* next := load (page + page_Next) m in
  let* (al, m) := unlink prev classIndex next al m in
  let* backing := load (page + page_BackingUsablePages) m in
  let* al := sub_backing (KiAllocatorBackingBytes backing) al in
  let* m := store_part (page + page_Magic) 4 KE_ALLOC_SMALL_PAGE_RETIRED m in
  let* releaseBase := load (page + page_BackingUsableBase) m in
  Ok (releaseBase, al, m).

(** Marking a slot free and putting it in front of the free list of its page. *)
Definition push_slot (page slot : Z) m : res M :=
  let* m := store_part (slot + slot_State) 4 KE_ALLOC_SLOT_STATE_FREE m in
  let* m := store_part (slot + slot_RequestedSize) 4 0 m in
  let* freeList := load (page + page_FreeList) m in
  let* m := store (slot + slot_NextFree) freeList m in
  let* m := store (page + page_FreeList) slot m in
  let* freeCount := load_part (page + page_FreeCount) 4 m in
  store_part (page + page_FreeCount) 4 (u32 (freeCount + 1)) m.

(** The critical section of [KiAllocatorTryFreeSmall]: [None] when the pointer
    is refused, else the page to free (0 for none). *)
Definition free_small_section (pointer : Z) al m : res (option Z * KE_ALLOCATOR * M) :=
  let* found := small_slot_of pointer m in
  match found with
  | None => Ok (None, al, m)
  | Some (page, slot) =>
      let* m := push_slot page slot m in
      let* al := uncount_small al in
      let* freeCount := load_part (page + page_FreeCount) 4 m in
      let* slotsPerPage := load_part (page + page_SlotsPerPage) 4 m in
      let* (releaseBase, al, m) :=
        if freeCount =? slotsPerPage then retire_page page al m else Ok (0, al, m) in
      Ok (Some releaseBase, al, m)
  end.

Definition KiAllocatorTryFreeSmall (pointer : Z) al m : res (bool * KE_ALLOCATOR * M) :=
  let* (released, al, m) := free_small_section pointer al m in
  match released with
  | None => Ok (false, al, m)
  | Some releaseBase =>
      let* m := if negb (releaseBase =? 0) then free_or_panic releaseBase m else Ok m in
      Ok (true, al, m)
  end.

(** ** The calls *)

Definition KeAllocatorInit al : HO_STATUS * KE_ALLOCATOR :=
  if gAllocatorInitialized al then (EC_SUCCESS, al) else
  (EC_SUCCESS, mkAllocator true zero_stats (replicate (Z.to_nat KE_ALLOC_SMALL_CLASS_COUNT) 0)
                 (replicate (Z.to_nat KE_ALLOC_LARGE_RECORD_CAPACITY) free_record)).

(** [out] is false for a null [outStats]. *)
Definition KeAllocatorQueryStats (out : bool) al : HO_STATUS * option KE_ALLOCATOR_STATS :=
  if negb out then (EC_ILLEGAL_ARGUMENT, None) else
  if negb (gAllocatorInitialized al) then (EC_INVALID_STATE, None) else
  (EC_SUCCESS, Some (gAllocatorStats al)).

Definition kmalloc (size : Z) al m : res (Z * KE_ALLOCATOR * M) :=
  if (size =? 0) || negb (gAllocatorInitialized al) then Ok (0, al, m) else
  if 0 <=? KiAllocatorFindSmallClass size then KiAllocatorAllocSmall size false al m
  else KiAllocatorAllocLarge size false al m.

Definition kzalloc (size : Z) al m : res (Z * KE_ALLOCATOR * M) :=
  if (size =? 0) || negb (gAllocatorInitialized al) then Ok (0, al, m) else
  if 0 <=? KiAllocatorFindSmallClass size then KiAllocatorAllocSmall size true al m
  else KiAllocatorAllocLarge size true al m.

Definition kfree (ptr : Z) al m : res (KE_ALLOCATOR * M) :=
  if ptr =? 0 then Ok (al, m) else
  if negb (gAllocatorInitialized al) then Ok (al, m) else
  let* (freed, al, m) := KiAllocatorTryFreeLarge ptr al m in
  if freed then Ok (al, m) else
  let* (_, al, m) := KiAllocatorTryFreeSmall ptr al m in Ok (al, m).

(** ** Diagnosis of an address *)

Definition empty_info : KE_ALLOCATOR_ADDRESS_INFO :=
  mkInfo false KE_ALLOCATOR_ALLOCATION_UNKNOWN 0 0 0 0 0 0 0.

(** The scan of the records; [info] is what the structure holds so far. *)
Fixpoint KiAllocatorDiagnoseLargeLocked (virtAddr : Z) (info : KE_ALLOCATOR_ADDRESS_INFO)
    (rs : list KE_ALLOC_LARGE_RECORD) : KE_ALLOCATOR_ADDRESS_INFO :=
  match rs with
  | [] => info
  | r :: rs =>
      if negb (InUse r) then KiAllocatorDiagnoseLargeLocked virtAddr info rs else
      let allocationEnd := KiAllocatorEndFromLength (UserPointer r) (RequestedSize r) in
      if (virtAddr <? UserPointer r) || (allocationEnd <=? virtAddr)
      then KiAllocatorDiagnoseLargeLocked virtAddr info rs else
      mkInfo true KE_ALLOCATOR_ALLOCATION_LARGE (UserPointer r) allocationEnd (RequestedSize r)
        (BackingUsableBase r) (BackingUsablePages r) 0 0
  end.

Definition KiAllocatorDiagnoseSmallLocked (virtAddr : Z) (info : KE_ALLOCATOR_ADDRESS_INFO) m
  : res KE_ALLOCATOR_ADDRESS_INFO :=
  let pageBase := HO_ALIGN_DOWN virtAddr PAGE_4KB in
  match KeKvaQueryRange pageBase m with
  | (EC_SUCCESS, Some range) =>
      if negb (RgArena range =? KE_KVA_ARENA_HEAP) || negb (RgUsableBase range =? pageBase)
         || negb (RgUsablePages range =? 1) then Ok info else
      let page := pageBase in
      let* magic := load_part (page + page_Magic) 4 m in
      let* classIndex := load_part (page + page_ClassIndex) 2 m in
      if negb (magic =? KE_ALLOC_SMALL_PAGE_MAGIC) || (KE_ALLOC_SMALL_CLASS_COUNT <=? classIndex) then Ok info else
      let* slotStride := load_part (page + page_SlotStride) 4 m in
      let* slotsPerPage := load_part (page + page_SlotsPerPage) 4 m in
      if (slotStride =? 0) || (slotsPerPage =? 0) then Ok info else
      let headerBytes := HO_ALIGN_UP sizeof_SMALL_PAGE 8 in
      if (virtAddr <? u64 (pageBase + headerBytes + sizeof_SMALL_SLOT)) || (u64 (pageBase + PAGE_4KB) <=? virtAddr)
      then Ok info else
      let relative := u64 (virtAddr - pageBase - headerBytes) in
      if relative <? sizeof_SMALL_SLOT then Ok info else
      let slotOffset := u64 (relative - sizeof_SMALL_SLOT) in
      let slotIndex := slotOffset / slotStride in
      if slotsPerPage <=? slotIndex then Ok info else
      let slotBaseOffset := u64 (slotIndex * slotStride) in
      let slot := u64 (pageBase + headerBytes + slotBaseOffset) in
      let* owner := load (slot + slot_OwnerPage) m in
      let* state := load_part (slot + slot_State) 4 m in
      if negb (owner =? page) || negb (state =? KE_ALLOC_SLOT_STATE_ALLOCATED) then Ok info else
      let userBase := u64 (slot + sizeof_SMALL_SLOT) in
      let* size := rd gAllocatorClassSizes classIndex in
      let classSize := u32 size in
      let classEnd := u64 (userBase + classSize) in
      if (virtAddr <? userBase) || (classEnd <=? virtAddr) then Ok info else
      let* requested := load_part (slot + slot_RequestedSize) 4 m in
      let requestedSize := if (requested =? 0) || (classSize <? requested) then classSize else requested in
      let allocationEnd := u64 (userBase + requestedSize) in
      if allocationEnd <=? virtAddr then Ok info else
      let* backingBase := load (page + page_BackingUsableBase) m in
      let* backingPages := load (page + page_BackingUsablePages) m in
      Ok (mkInfo true KE_ALLOCATOR_ALLOCATION_SMALL userBase allocationEnd requestedSize backingBase backingPages
            classIndex classSize)
  | _ => Ok info
  end.

(** [out] is false for a null [outInfo]; both scans always answer
    [EC_SUCCESS]. *)
Definition KeAllocatorDiagnoseAddress (virtAddr : Z) (out : bool) al m
  : res (HO_STATUS * option KE_ALLOCATOR_ADDRESS_INFO) :=
  if negb out then Ok (EC_ILLEGAL_ARGUMENT, None) else
  if negb (gAllocatorInitialized al) then Ok (EC_INVALID_STATE, Some empty_info) else
  let info := KiAllocatorDiagnoseLargeLocked virtAddr empty_info (gAllocatorLargeRecords al) in
  if LiveAllocation info then Ok (EC_SUCCESS, Some info) else
  let* info := KiAllocatorDiagnoseSmallLocked virtAddr info m in
  Ok (EC_SUCCESS, Some info).
End operations.
