(* ===== verification/AllocInv.v ===== *)
(** * The byte allocator: what its state means

    The geometry of the size classes, the representation of a page of slots in
    memory ([page_rep]), and the invariant [alloc_ok]: the pages of every class
    hang on its list, every record names a block of its own, and the counters
    are exact.  [prep] are pages some thread has prepared and not yet
    published, [flight] all other heap blocks, those a thread holds between two
    critical sections among them. *)

From S2P Require Import Prelude Heap Parts Kva Alloc.

Local Open Scope Z_scope.

(** ** Size classes *)

Definition csize (c : Z) : Z := nth (Z.to_nat c) gAllocatorClassSizes 0.
Definition stride (c : Z) : Z := slot_stride (csize c).
Definition per (c : Z) : Z := u32 (PAGE_4KB - header_bytes) / stride c.

Lemma class_cases c : 0 <= c < 7 -> c = 0 \/ c = 1 \/ c = 2 \/ c = 3 \/ c = 4 \/ c = 5 \/ c = 6.
Proof. lia. Qed.

Record class_facts (c : Z) : Prop := {
  cf_size : 16 <= csize c <= 1024;
  cf_size8 : csize c mod 8 = 0;
  cf_stride : stride c = 24 + csize c;
  cf_per : 3 <= per c <= 101;
  cf_fits : 56 + per c * stride c <= 4096;
  cf_read : rd gAllocatorClassSizes c = Ok (csize c);
}.

Lemma class_ok c : 0 <= c < 7 -> class_facts c.
Proof. intros Hc. destruct (class_cases c Hc) as [-> | [-> | [-> | [-> | [-> | [-> | ->]]]]]]; split; vm_compute;
    first [reflexivity | discriminate | split; discriminate]. Qed.

(** The class of a size is the smallest one that holds it. *)
Lemma class_of_size size : 0 < size ->
  (size <= 1024 /\ 0 <= KiAllocatorFindSmallClass size < 7 /\ size <= csize (KiAllocatorFindSmallClass size) /\
   forall c, 0 <= c < KiAllocatorFindSmallClass size -> csize c < size)
  \/ (1024 < size /\ KiAllocatorFindSmallClass size = -1).
Proof.
  intros Hs. unfold KiAllocatorFindSmallClass, gAllocatorClassSizes. cbn [first_class].
  repeat match goal with |- context [size <=? ?k] => destruct (Z.leb_spec size k) end;
    try (right; split; [lia | done]); left;
    (split; [lia|]; split; [lia|]; split; [unfold csize, gAllocatorClassSizes; simpl; lia|]; intros c Hc;
     destruct (class_cases c ltac:(lia)) as [-> | [-> | [-> | [-> | [-> | [-> | ->]]]]]]; try lia;
     unfold csize, gAllocatorClassSizes; simpl; lia).
Qed.

Lemma header_56 : header_bytes = 56.
Proof. reflexivity. Qed.

(** ** Slots *)

Definition small_slots (c b : Z) : list Z := (fun i => b + 56 + i * stride c) <$> seqZ 0 (per c).

Lemma small_slot_iff c b x : x ∈ small_slots c b <-> exists i, 0 <= i < per c /\ x = b + 56 + i * stride c.
Proof.
  unfold small_slots. rewrite list_elem_of_fmap. split; intros (i & H1 & H2).
  - exists i. apply elem_of_seqZ in H2. split; [lia | done].
  - exists i. split; [done|]. apply elem_of_seqZ. lia.
Qed.

Lemma stride_pos c : 0 <= c < 7 -> 40 <= stride c /\ stride c mod 8 = 0.
Proof. intros Hc. destruct (class_ok c Hc) as [H1 H2 H3 _ _ _]. rewrite H3. div_lia. Qed.

Lemma small_slot_bounds c b x : 0 <= c < 7 -> b mod PAGE_4KB = 0 -> x ∈ small_slots c b ->
  b + 56 <= x /\ x + stride c <= b + PAGE_4KB /\ x mod 8 = 0.
Proof.
  intros Hc Hb (i & Hi & ->)%small_slot_iff. destruct (class_ok c Hc) as [H1 H2 H3 H4 H5 _].
  destruct (stride_pos c Hc) as [Hs Hs8]. assert (i * stride c + stride c <= per c * stride c) by nia.
  unfold PAGE_4KB in *. split_and!; [nia | lia|].
  assert (Hb8 : b mod 8 = 0) by div_lia. replace (b + 56 + i * stride c) with ((b / 8 + 7 + i * (stride c / 8)) * 8).
  - apply Z.mod_mul. lia.
  - pose proof (Z.div_mod b 8). pose proof (Z.div_mod (stride c) 8). nia.
Qed.

Lemma small_slot_apart c b x y : 0 <= c < 7 -> x ∈ small_slots c b -> y ∈ small_slots c b ->
  x < y + stride c -> y < x + stride c -> x = y.
Proof.
  intros Hc (i & Hi & ->)%small_slot_iff (j & Hj & ->)%small_slot_iff H1 H2.
  destruct (stride_pos c Hc) as [Hs _]. assert (i = j) by nia. by subst.
Qed.

Lemma small_slots_nodup c b : 0 <= c < 7 -> NoDup (small_slots c b).
Proof.
  intros Hc. apply NoDup_fmap_2_strong; [|apply NoDup_seqZ]. intros i j _ _ E.
  destruct (stride_pos c Hc) as [Hs _]. nia.
Qed.

Lemma length_small_slots c b : 0 <= c < 7 -> Z.of_nat (length (small_slots c b)) = per c.
Proof.
  intros Hc. unfold small_slots. rewrite length_fmap, length_seqZ. destruct (class_ok c Hc). lia.
Qed.

(** ** Pages of slots *)

(** A page: its free slots in list order, and the slots handed out with the
    sizes asked for. *)
Record SPAGE : Type := mkPage { spBase : Z; spClass : Z; spFree : list Z; spUsed : list (Z * Z) }.

Definition page_block (p : SPAGE) : Z * Z := (spBase p, 1).

(** What the allocator relies on from [KeKvaQueryRange]: it finds every heap
    block, and a heap range it finds is one. *)
Class RangeLaws (M : Type) `{HeapLaws M} `{RangeServices M} := {
  query_live m b n : heap_ok m -> (b, n) ∈ live m -> exists rg,
    KeKvaQueryRange b m = (EC_SUCCESS, Some rg) /\ Kva.RgArena rg = Kva.KE_KVA_ARENA_HEAP /\
    Kva.RgUsableBase rg = b /\ Kva.RgUsablePages rg = n;
  query_sound m b rg : heap_ok m -> KeKvaQueryRange b m = (EC_SUCCESS, Some rg) ->
    Kva.RgArena rg = Kva.KE_KVA_ARENA_HEAP -> (b, Kva.RgUsablePages rg) ∈ live m;
}.

Section representation.
Context {M : Type} `{HeapLaws M}.
Implicit Types (m : M) (p : SPAGE).

(** The list from [x] on runs through the nodes [l], linked at offset [off]. *)
Fixpoint linked m (off x : Z) (l : list Z) : Prop :=
  match l with
  | [] => x = 0
  | y :: l => x = y /\ y <> 0 /\ exists n, word m (y + off) n /\ linked m off n l
  end.

Lemma linked_agree (Q : Z -> Prop) m m' off x l : agree Q m m' ->
  (forall y, y ∈ l -> Q (y + off) /\ live_word (live m') (y + off)) -> linked m off x l -> linked m' off x l.
Proof.
  intros Hag. revert x. induction l as [|y l IH]; intros x HQ; simpl; [done|].
  intros (-> & Hne & n & Hw & Hc). split_and!; [done | done|]. exists n. split.
  - eapply word_agree; [exact Hag | apply HQ; by left.. | done].
  - apply IH; [|done]. intros z Hz. apply HQ. by right.
Qed.

Lemma linked_head m off x l : linked m off x l -> x = default 0 (head l).
Proof. destruct l; simpl; [done | by intros (-> & _)]. Qed.

Record page_rep m p : Prop := {
  pr_live : page_block p ∈ live m;
  pr_class : 0 <= spClass p < 7;
  pr_magic : word m (spBase p) (halves KE_ALLOC_SMALL_PAGE_MAGIC (spClass p));
  pr_sizes : word m (spBase p + 8) (halves (stride (spClass p)) (per (spClass p)));
  pr_count : word m (spBase p + 16) (halves (Z.of_nat (length (spFree p))) 0);
  pr_base : word m (spBase p + 24) (spBase p);
  pr_pages : word m (spBase p + 32) 1;
  pr_list : word m (spBase p + 40) (default 0 (head (spFree p)));
  pr_chain : linked m 0 (default 0 (head (spFree p))) (spFree p);
  pr_perm : Permutation (spFree p ++ (spUsed p).*1) (small_slots (spClass p) (spBase p));
  pr_free x : x ∈ spFree p -> word m (x + 8) (spBase p) /\ word m (x + 16) (halves 0 KE_ALLOC_SLOT_STATE_FREE);
  pr_used x r : (x, r) ∈ spUsed p ->
    word m (x + 8) (spBase p) /\ word m (x + 16) (halves r KE_ALLOC_SLOT_STATE_ALLOCATED) /\
    1 <= r <= csize (spClass p);
}.

(** The words of a page that describe it: header and slot headers, without the
    link to the next page. *)
Definition page_word p (a : Z) : Prop :=
  a mod 8 = 0 /\
  (spBase p <= a < spBase p + 48 \/ exists x, x ∈ small_slots (spClass p) (spBase p) /\ x <= a < x + 24).

Section facts.
Context m p (Hm : heap_ok m) (R : page_rep m p).

Lemma page_base_facts : 0 < spBase p /\ spBase p mod PAGE_4KB = 0 /\ spBase p + PAGE_4KB < 2 ^ 64.
Proof. destruct (live_bounds m _ Hm (pr_live m p R)) as (? & ? & _ & ?). simpl in *. lia. Qed.

Lemma in_page_live a : spBase p <= a < spBase p + PAGE_4KB -> a mod 8 = 0 -> live_word (live m) a.
Proof.
  intros Ha H8. split; [done|]. exists (page_block p). split; [apply R|].
  unfold in_block, page_block. simpl. lia.
Qed.

Lemma page_slot x : x ∈ spFree p \/ x ∈ (spUsed p).*1 -> x ∈ small_slots (spClass p) (spBase p).
Proof. intros Hx. rewrite <- (pr_perm m p R). by apply elem_of_app. Qed.

Lemma page_slot_bounds x : x ∈ spFree p \/ x ∈ (spUsed p).*1 ->
  spBase p + 56 <= x /\ x + stride (spClass p) <= spBase p + PAGE_4KB /\ x mod 8 = 0.
Proof. intros Hx. apply small_slot_bounds; [apply R | apply page_base_facts | by apply page_slot]. Qed.

Lemma page_word_in a : page_word p a -> spBase p <= a < spBase p + PAGE_4KB.
Proof.
  destruct page_base_facts as (? & Hb & ?). unfold PAGE_4KB in *. intros [_ [Ha|(x & Hx & Ha)]]; [lia|].
  destruct (small_slot_bounds _ _ _ (pr_class m p R) Hb Hx) as (? & ? & _).
  destruct (stride_pos _ (pr_class m p R)). unfold PAGE_4KB in *. lia.
Qed.

Lemma page_slots_nodup : NoDup (spFree p ++ (spUsed p).*1).
Proof. rewrite (pr_perm m p R). apply small_slots_nodup, R. Qed.

Lemma page_counts : Z.of_nat (length (spFree p)) + Z.of_nat (length (spUsed p)) = per (spClass p).
Proof.
  rewrite <- (length_small_slots (spClass p) (spBase p)) by apply R.
  rewrite <- (Permutation_length (pr_perm m p R)), length_app, length_fmap. lia.
Qed.

Lemma free_few : is_u32 (Z.of_nat (length (spFree p))).
Proof. pose proof page_counts. destruct (class_ok _ (pr_class m p R)). word_lia. Qed.
End facts.

Lemma page_rep_agree m m' p : heap_ok m -> page_block p ∈ live m' -> agree (page_word p) m m' ->
  page_rep m p -> page_rep m' p.
Proof.
  intros Hm Hl Hag R.
  assert (Hw : forall a v, page_word p a -> word m a v -> word m' a v).
  { intros a v Ha W. eapply word_agree; [exact Hag | done | | done]. split; [apply W|]. exists (page_block p).
    split; [done|]. pose proof (page_word_in m p Hm R a Ha). unfold in_block, page_block. simpl. lia. }
  assert (Hh : forall a v, spBase p <= a < spBase p + 48 -> word m a v -> word m' a v).
  { intros a v Ha W. apply Hw; [|done]. split; [apply W | by left]. }
  assert (Hs : forall x o v, x ∈ spFree p \/ x ∈ (spUsed p).*1 -> 0 <= o < 24 -> word m (x + o) v -> word m' (x + o) v).
  { intros x o v Hx Ho W. apply Hw; [|done]. split; [apply W|]. right. exists x. split; [by apply (page_slot m) | lia]. }
  assert (Hpw : forall y, y ∈ spFree p -> page_word p (y + 0)).
  { intros y Hy. destruct (page_slot_bounds m p Hm R y (or_introl Hy)) as (_ & _ & Hy8). rewrite Z.add_0_r.
    split; [done|]. right. exists y. split; [apply (page_slot m p R); by left | lia]. }
  pose proof (page_word_in m p Hm R) as Hin.
  destruct R as [R1 R2 R3 R4 R5 R6 R7 R8 R9 R10 R11 R12]. split; try done.
  - apply Hh; [lia | done].
  - apply Hh; [lia | done].
  - apply Hh; [lia | done].
  - apply Hh; [lia | done].
  - apply Hh; [lia | done].
  - apply Hh; [lia | done].
  - apply (linked_agree (page_word p) m); [done | | done]. intros y Hy. specialize (Hpw y Hy).
    split; [done|]. split; [apply Hpw|]. exists (page_block p). split; [done|].
    specialize (Hin _ Hpw). unfold in_block, page_block. simpl. lia.
  - intros x Hx. destruct (R11 x Hx). split; (apply Hs; [by left | lia | done]).
  - intros x r Hx. destruct (R12 x r Hx) as (? & ? & ?).
    assert (x ∈ (spUsed p).*1) by (apply list_elem_of_fmap; by exists (x, r)).
    split_and!; [apply Hs; [by right | lia | done].. | lia | lia].
Qed.
End representation.

(** ** The whole allocator *)

Definition class_pages (c : Z) (pgs : list SPAGE) : list SPAGE := filter (fun p => spClass p = c) pgs.

Definition active (rs : list KE_ALLOC_LARGE_RECORD) : list KE_ALLOC_LARGE_RECORD := filter (fun r => InUse r = true) rs.
Definition large_block (r : KE_ALLOC_LARGE_RECORD) : Z * Z := (BackingUsableBase r, BackingUsablePages r).
Definition page_count (size : Z) : Z := HO_ALIGN_UP size PAGE_4KB / PAGE_4KB.

(** A record in use: a whole block for a size no class holds. *)
Definition large_ok (r : KE_ALLOC_LARGE_RECORD) : Prop :=
  UserPointer r = BackingUsableBase r /\ 1024 < RequestedSize r < 2 ^ 64 /\
  BackingUsablePages r = page_count (RequestedSize r).

(** All the heap blocks: pages of slots, blocks of records, the others. *)
Definition owned (rs : list KE_ALLOC_LARGE_RECORD) (pgs prep : list SPAGE) (flight : list (Z * Z)) : list (Z * Z) :=
  (page_block <$> pgs ++ prep) ++ (large_block <$> active rs) ++ flight.

(** The allocations of a page and of the records: address and size. *)
Definition page_allocs (p : SPAGE) : list (Z * Z) := (fun u => (u.1 + 24, u.2)) <$> spUsed p.
Definition large_alloc (r : KE_ALLOC_LARGE_RECORD) : Z * Z := (UserPointer r, RequestedSize r).
Definition allocs (rs : list KE_ALLOC_LARGE_RECORD) (pgs : list SPAGE) : list (Z * Z) :=
  (pgs ≫= page_allocs) ++ (large_alloc <$> active rs).

(** [a] is a word of one of the allocations. *)
Definition alloc_word (als : list (Z * Z)) (a : Z) : Prop :=
  a mod 8 = 0 /\ exists q, q ∈ als /\ q.1 <= a < q.1 + q.2.

(** Between critical sections no page is kept that hands out nothing. *)
Definition busy (pgs : list SPAGE) : Prop := forall p, p ∈ pgs -> spUsed p <> [].

(** What a call that neither frees nor hands out the word leaves alone: the
    allocations and the other blocks. *)
Definition kept_word (rs : list KE_ALLOC_LARGE_RECORD) (pgs : list SPAGE) (flight : list (Z * Z)) (a : Z) : Prop :=
  alloc_word (allocs rs pgs) a \/ live_word flight a.

Section state.
Context {M : Type} `{HeapLaws M}.
Implicit Types (m : M) (p : SPAGE).

Record layout (heads : list Z) (rs : list KE_ALLOC_LARGE_RECORD) m (pgs prep : list SPAGE) (flight : list (Z * Z))
  : Prop := {
  ly_heap : heap_ok m;
  ly_heads : length heads = 7%nat;
  ly_records : length rs = 128%nat;
  ly_pages p : p ∈ pgs ++ prep -> page_rep m p;
  ly_prep p : p ∈ prep -> spUsed p = [];
  ly_class c : 0 <= c < 7 -> exists h, heads !! Z.to_nat c = Some h /\ linked m 48 h (spBase <$> class_pages c pgs);
  ly_large r : r ∈ active rs -> large_ok r;
  ly_perm : Permutation (live m) (owned rs pgs prep flight);
}.

Lemma ly_nodup heads rs m pgs prep flight : layout heads rs m pgs prep flight -> NoDup (owned rs pgs prep flight).
Proof. intros L. rewrite <- (ly_perm _ _ _ _ _ _ L). apply live_nodup, L. Qed.

Lemma ly_live heads rs m pgs prep flight b : layout heads rs m pgs prep flight -> b ∈ owned rs pgs prep flight -> b ∈ live m.
Proof. intros L. by rewrite (ly_perm _ _ _ _ _ _ L). Qed.

Record stats_ok (st : KE_ALLOCATOR_STATS) (rs : list KE_ALLOC_LARGE_RECORD) (pgs : list SPAGE) : Prop := {
  so_small : LiveSmallAllocationCount st = Z.of_nat (length (pgs ≫= spUsed));
  so_large : LiveLargeAllocationCount st = Z.of_nat (length (active rs));
  so_live : LiveAllocationCount st = LiveSmallAllocationCount st + LiveLargeAllocationCount st;
  so_bytes : BackingBytes st = (Z.of_nat (length pgs) + total_pages (large_block <$> active rs)) * PAGE_4KB;
  so_failed : is_u64 (FailedAllocationCount st);
}.

Definition alloc_ok (al : KE_ALLOCATOR) m (pgs prep : list SPAGE) (flight : list (Z * Z)) : Prop :=
  gAllocatorInitialized al = true /\
  layout (gAllocatorSmallPages al) (gAllocatorLargeRecords al) m pgs prep flight /\
  stats_ok (gAllocatorStats al) (gAllocatorLargeRecords al) pgs.

Section facts.
Context heads rs m pgs prep flight (L : layout heads rs m pgs prep flight).

Lemma page_owned p : p ∈ pgs ++ prep -> page_block p ∈ owned rs pgs prep flight.
Proof. intros Hp. apply elem_of_app. left. by apply list_elem_of_fmap_2. Qed.

Lemma large_owned r : r ∈ active rs -> large_block r ∈ owned rs pgs prep flight.
Proof. intros Hr. apply elem_of_app. right. apply elem_of_app. left. by apply list_elem_of_fmap_2. Qed.

Lemma flight_owned b : b ∈ flight -> b ∈ owned rs pgs prep flight.
Proof. intros Hb. apply elem_of_app. right. apply elem_of_app. by right. Qed.

(** Blocks that are owned do not meet. *)
Lemma owned_apart b1 b2 a : b1 ∈ owned rs pgs prep flight -> b2 ∈ owned rs pgs prep flight ->
  in_block b1 a -> in_block b2 a -> b1 = b2.
Proof. intros H1 H2. apply (live_disjoint m); [apply L | by apply (ly_live _ _ _ _ _ _ _ L)..]. Qed.

Lemma pages_nodup : NoDup (page_block <$> pgs ++ prep).
Proof. pose proof (ly_nodup _ _ _ _ _ _ L) as Hn. unfold owned in Hn. by apply NoDup_app in Hn as [Hn _]. Qed.

Lemma page_unique p q : p ∈ pgs ++ prep -> q ∈ pgs ++ prep -> spBase p = spBase q -> p = q.
Proof.
  intros [i Hi]%list_elem_of_lookup [j Hj]%list_elem_of_lookup E.
  assert (i = j) as ->; [|congruence]. apply (NoDup_lookup _ _ _ (page_block p) pages_nodup).
  - by rewrite list_lookup_fmap, Hi.
  - rewrite list_lookup_fmap, Hj. simpl. unfold page_block. by rewrite E.
Qed.
End facts.
End state.
