(* ===== verification/AllocOps.v ===== *)
(** * The byte allocator: each piece of code on a page of slots

    Run lemmas for taking a slot ([take_first_run]), giving one back ([push_run]),
    preparing a page ([prepare_small_run]) and the two list walks. *)

From S2P Require Import Prelude Heap Parts Kva Alloc AllocInv.

Local Open Scope Z_scope.

Section pieces.
Context {M : Type} `{RangeLaws M}.
Implicit Types (m : M) (p : SPAGE).

Section on_page.
Context m p (Hm : heap_ok m) (R : page_rep m p).
Notation b := (spBase p).
Notation c := (spClass p).

(** Two slots of a page are the same or far apart. *)
Lemma slots_far x y : x ∈ small_slots c b -> y ∈ small_slots c b -> x = y \/ y + 40 <= x \/ x + 40 <= y.
Proof.
  intros Hx Hy. destruct (stride_pos c (pr_class m p R)) as [Hs _].
  destruct (Z.lt_ge_cases x (y + stride c)); [|lia]. destruct (Z.lt_ge_cases y (x + stride c)); [|lia].
  left. by apply (small_slot_apart c b); [apply R|..].
Qed.

(** The bytes handed out to a caller do not describe the page. *)
Lemma user_not_page_word x a : x ∈ small_slots c b -> x + 24 <= a < x + stride c -> ~ page_word p a.
Proof.
  intros Hx Ha. destruct (page_base_facts m p Hm R) as (_ & Hb & _).
  destruct (small_slot_bounds c b x (pr_class m p R) Hb Hx) as (? & ? & _).
  destruct (stride_pos c (pr_class m p R)) as [Hs _].
  intros [_ [Hh|(y & Hy & Hin)]]; [lia|]. assert (x = y) as ->; [|lia].
  apply (small_slot_apart c b); [apply R | done | done | lia | lia].
Qed.

Lemma slot_live x o : x ∈ small_slots c b -> 0 <= o < stride c -> o mod 8 = 0 -> live_word (live m) (x + o).
Proof.
  intros Hx Ho Ho8. destruct (page_base_facts m p Hm R) as (_ & Hb & _).
  destruct (small_slot_bounds c b x (pr_class m p R) Hb Hx) as (? & ? & Hx8).
  apply (in_page_live m p R); [lia|]. div_lia.
Qed.

Lemma header_live o : 0 <= o < 56 -> o mod 8 = 0 -> live_word (live m) (b + o).
Proof.
  intros Ho Ho8. destruct (page_base_facts m p Hm R) as (_ & Hb & _).
  apply (in_page_live m p R); unfold PAGE_4KB in *; [lia | div_lia].
Qed.

(** Clearing the bytes of a slot that is handed out. *)
Lemma clear_small_slot_run x : x ∈ small_slots c b ->
  exists m', memset_bytes (x + 24) (csize c) m = Ok m' /\ heap_ok m' /\ live m' = live m /\
    (forall i, 0 <= i < csize c -> load_part (x + 24 + i) 1 m' = Ok 0) /\
    agree (fun a => live_word (live m) a /\ ~ (x + 24 <= a < x + stride c)) m m' /\ page_rep m' p.
Proof.
  intros Hx. destruct (page_base_facts m p Hm R) as (Hb0 & Hb & Hb1).
  destruct (small_slot_bounds c b x (pr_class m p R) Hb Hx) as (? & ? & Hx8).
  destruct (class_ok c (pr_class m p R)) as [? ? Est _ _ _].
  destruct (memset_bytes_ok m (x + 24) (csize c)) as (m' & E & Hok & Hl & Hz & Hag);
    [done | lia | lia | lia | div_lia | |].
  { intros a Ha Ha8. apply (in_page_live m p R); [lia | done]. }
  exists m'. rewrite Est in *. assert (Hag' : agree (fun a => live_word (live m) a /\ ~ (x + 24 <= a < x + (24 + csize c))) m m').
  { eapply agree_weaken; [|exact Hag]. intros a [Ha Hn]. split; [done | lia]. }
  split_and!; try done. apply (page_rep_agree m); [done | rewrite Hl; apply R | | done].
  intros a Ha. apply Hag'. split.
  - apply (in_page_live m p R); [by apply (page_word_in m p Hm R) | apply Ha].
  - intros Hin. by apply (user_not_page_word x a Hx); [rewrite Est; lia|].
Qed.

(** The words taking or giving back a slot writes. *)
Definition slot_words x (a : Z) : Prop := a = b + 16 \/ a = b + 40 \/ x <= a < x + stride c.

(** Two facts of a slot of the page, for [lia]. *)
Lemma slot_place x : x ∈ small_slots c b -> b + 56 <= x /\ x + 40 <= x + stride c <= b + 4096 /\ x mod 8 = 0.
Proof.
  intros Hx. destruct (page_base_facts m p Hm R) as (_ & Hb & _).
  destruct (small_slot_bounds c b x (pr_class m p R) Hb Hx) as (? & ? & ?).
  destruct (stride_pos c (pr_class m p R)) as [Hs _]. unfold PAGE_4KB in *. lia.
Qed.

(** Any other slot of the page is out of the way of [x]. *)
Lemma slot_apart x y : x ∈ small_slots c b -> y ∈ small_slots c b -> y <> x ->
  b + 56 <= y /\ y + 40 <= b + 4096 /\ (y + 40 <= x \/ x + stride c <= y).
Proof.
  intros Hx Hy Hne. destruct (slot_place y Hy) as (? & ? & _). destruct (slots_far x y Hx Hy) as [?|[?|?]]; [congruence | lia |].
  split_and!; [lia | lia | right]. destruct (Z.lt_ge_cases y (x + stride c)); [|lia]. exfalso.
  assert (x = y); [|congruence]. apply (small_slot_apart c b); [apply R | done | done | lia | lia].
Qed.

(** The page after a change of its lists: what has to be read back. *)
Lemma page_rep_patched ws m' F U : patched ws m m' ->
  (forall a, is_Some (ws !! a) -> a = b + 16 \/ a = b + 40 \/ exists x, x ∈ small_slots c b /\ x <= a < x + stride c) ->
  word m' (b + 16) (halves (Z.of_nat (length F)) 0) -> word m' (b + 40) (default 0 (head F)) ->
  linked m' 0 (default 0 (head F)) F -> Permutation (F ++ U.*1) (small_slots c b) ->
  (forall x, x ∈ F -> word m' (x + 8) b /\ word m' (x + 16) (halves 0 KE_ALLOC_SLOT_STATE_FREE)) ->
  (forall x r, (x, r) ∈ U -> word m' (x + 8) b /\ word m' (x + 16) (halves r KE_ALLOC_SLOT_STATE_ALLOCATED) /\ 1 <= r <= csize c) ->
  page_rep m' (mkPage b c F U).
Proof.
  intros P Hws H16 H40 Hl Hp HF HU. destruct R as [R1 R2 R3 R4 R5 R6 R7 R8 R9 R10 R11 R12].
  assert (Hmiss : forall o v, (o < 16 \/ 24 <= o < 40) -> word m (b + o) v -> word m' (b + o) v).
  { intros o v Ho W. eapply patched_miss; [exact P| |exact W]. apply eq_None_not_Some. intros Hs.
    destruct (Hws _ Hs) as [E|[E|(x & Hx & Hin)]]; [lia | lia |]. pose proof (slot_place x Hx). lia. }
  split; simpl; try done.
  - unfold page_block. simpl. by rewrite (pt_live _ _ _ P).
  - rewrite <- (Z.add_0_r b) at 1. apply Hmiss; [lia|]. by rewrite Z.add_0_r.
  - apply Hmiss; [lia | done].
  - apply Hmiss; [lia | done].
  - apply Hmiss; [lia | done].
Qed.

(** A free list that none of the written words belongs to. *)
Lemma chain_patched ws m' h F : patched ws m m' -> (forall y, y ∈ F -> ws !! y = None) ->
  linked m 0 h F -> linked m' 0 h F.
Proof.
  intros P. revert h. induction F as [|y F IH]; intros h Hws; simpl; [done|].
  intros (-> & Hne & n & Hw & Hl). rewrite Z.add_0_r in *. split_and!; [done | done|]. exists n. split.
  - eapply patched_miss; [exact P | apply Hws; by left | done].
  - apply IH; [|done]. intros z Hz. apply Hws. by right.
Qed.
End on_page.

(** What taking the slot [x] writes: the links of the list, the count and the
    slot's header. *)
Definition pop_patch (b x next n size : Z) : gmap Z Z :=
  <[x + 16 := halves size KE_ALLOC_SLOT_STATE_ALLOCATED]> (<[x := 0]> (<[b + 16 := halves n 0]> (<[b + 40 := next]> ∅))).

(** [KiAllocatorAllocFromSmallPage] hands out the first free slot. *)
Lemma pop_words_run m p x F' size : heap_ok m -> page_rep m p -> spFree p = x :: F' -> 1 <= size <= csize (spClass p) ->
  exists m', KiAllocatorAllocFromSmallPage (spBase p) size false m = Ok (x + 24, m') /\
    (forall zeroed, KiAllocatorAllocFromSmallPage (spBase p) size zeroed m =
       if zeroed then let* m2 := memset_bytes (x + 24) (csize (spClass p)) m' in Ok (x + 24, m2) else Ok (x + 24, m')) /\
    heap_ok m' /\ live m' = live m /\ page_rep m' (mkPage (spBase p) (spClass p) F' ((x, size) :: spUsed p)) /\
    agree (fun a => live_word (live m) a /\ ~ slot_words p x a) m m'.
Proof.
  intros Hm R EF Hsize. destruct (page_base_facts m p Hm R) as (Hb0 & Hb & Hb1).
  destruct (class_ok _ (pr_class m p R)) as [Hcs _ _ _ _ Hrd].
  assert (Hx : x ∈ small_slots (spClass p) (spBase p)) by (apply (page_slot m p R); left; rewrite EF; by left).
  destruct (slot_place m p Hm R x Hx) as (Hx1 & Hx2 & Hx8).
  pose proof (pr_chain m p R) as Hch. rewrite EF in Hch. simpl in Hch. destruct Hch as (_ & Hx0 & next & Hnext & Hch).
  rewrite Z.add_0_r in Hnext.
  pose proof (pr_list m p R) as Hlist. rewrite EF in Hlist. simpl in Hlist.
  pose proof (pr_count m p R) as Hcount. pose proof (free_few m p R) as Hfew. rewrite EF in Hcount, Hfew.
  destruct (pr_free m p R x) as [Hown Hst]; [rewrite EF; by left|].
  pose proof (slot_apart m p Hm R) as Happ.
  set (b := spBase p) in *. set (c := spClass p) in *.
  assert (Hlen : Z.of_nat (length (x :: F')) = Z.of_nat (length F') + 1) by (simpl; lia).
  assert (Hrun : exists m', patched (pop_patch b x next (Z.of_nat (length F')) size) m m' /\
    forall zeroed, KiAllocatorAllocFromSmallPage b size zeroed m =
       if zeroed then let* m2 := memset_bytes (x + 24) (csize c) m' in Ok (x + 24, m2) else Ok (x + 24, m')).
  { unfold KiAllocatorAllocFromSmallPage. rewrite (proj2 (Z.eqb_neq b 0)) by lia.
    unfold page_FreeList, page_FreeCount, slot_NextFree, slot_State, slot_RequestedSize, page_ClassIndex, sizeof_SMALL_SLOT.
    rewrite (load_of_word _ _ _ Hlist). cbn [res_bind]. rewrite (proj2 (Z.eqb_neq x 0)) by done.
    rewrite !Z.add_0_r, (load_of_word _ _ _ Hnext). cbn [res_bind].
    pose proof (patched_nil m Hm) as P. run_store P; [apply Hlist|].
    assert (W : word m0 (b + 16) (halves (Z.of_nat (length (x :: F'))) 0)) by (eapply patched_miss; [exact P | patch_lookup | done]).
    rewrite (word_part_at _ _ _ 0 _ _ W), get_lo by (done || lia). cbn [res_bind].
    rewrite (proj2 (Z.ltb_lt 0 _)) by lia. cbn [HO_KASSERT res_bind].
    rewrite (store_part_at _ _ _ 0 _ _ _ W), u32_small, set_lo by (word_lia || done). clear W.
    replace (Z.of_nat (length (x :: F')) - 1) with (Z.of_nat (length F')) by lia.
    run_store P; [apply Hcount|]. run_store P; [apply Hnext|].
    assert (W : word m2 (x + 16) (halves 0 KE_ALLOC_SLOT_STATE_FREE)) by (eapply patched_miss; [exact P | patch_lookup | done]).
    rewrite (store_part_at _ _ _ 4 _ _ _ W), set_hi by (word_lia || done || unfold KE_ALLOC_SLOT_STATE_FREE, KE_ALLOC_SLOT_STATE_ALLOCATED; word_lia).
    clear W. run_store P; [apply Hst|].
    assert (W : word m3 (x + 16) (halves 0 KE_ALLOC_SLOT_STATE_ALLOCATED)) by (eapply patched_hit; [exact P | apply Hst | patch_lookup]).
    rewrite (proj2 (Z.ltb_ge _ size)), u32_small by word_lia.
    rewrite (store_part_at _ _ _ 0 _ _ _ W), set_lo by (word_lia || done || unfold KE_ALLOC_SLOT_STATE_FREE, KE_ALLOC_SLOT_STATE_ALLOCATED; word_lia).
    clear W. run_store P; [apply Hst|]. rewrite insert_insert_eq in P.
    exists m4. split; [done|]. intros [|]; [|done].
    assert (W : word m4 b (halves KE_ALLOC_SMALL_PAGE_MAGIC c)).
    { eapply patched_miss; [exact P | patch_lookup | apply R]. }
    rewrite (word_part_at _ _ _ 4 _ _ W), get_hi16 by (done || (pose proof (pr_class m p R); subst c; unfold KE_ALLOC_SMALL_PAGE_MAGIC; word_lia)).
    cbn [res_bind]. by rewrite Hrd. }
  destruct Hrun as (m' & P & Hrun). exists m'. split; [by rewrite Hrun|]. split; [done|].
  split; [apply P|]. split; [apply P|].
  assert (Hmiss : forall a, ~ slot_words p x a -> pop_patch b x next (Z.of_nat (length F')) size !! a = None).
  { intros a Ha. unfold slot_words in Ha. fold b c in Ha. unfold pop_patch. patch_lookup. }
  assert (Hfar : forall y, y ∈ F' \/ y ∈ (spUsed p).*1 -> ~ slot_words p x y /\ ~ slot_words p x (y + 8) /\ ~ slot_words p x (y + 16)).
  { intros y Hy. assert (Hys : y ∈ small_slots c b).
    { apply (page_slot m p R). rewrite EF. destruct Hy; [left; by right | by right]. }
    destruct (Happ x y Hx Hys) as (? & ? & ?); [|unfold slot_words; fold b c; lia].
    intros ->. pose proof (page_slots_nodup m p R) as Hn. rewrite EF in Hn. simpl in Hn.
    apply NoDup_cons in Hn as [Hn _]. apply Hn, elem_of_app. by destruct Hy; [left|right]. }
  split; [|eapply patched_agree; [exact P|]; intros a [Ha Hn]; split; [done | by apply Hmiss]].
  apply (page_rep_patched m p Hm R _ m' F' ((x, size) :: spUsed p) P).
  - intros a Ha. destruct (decide (slot_words p x a)) as [Hs|Hs]; [|rewrite (Hmiss a Hs) in Ha; by destruct Ha].
    destruct Hs as [?|[?|?]]; [by left | by right; left | right; right; by exists x].
  - eapply patched_hit; [exact P | apply Hcount | unfold pop_patch; patch_lookup].
  - rewrite <- (linked_head m 0 next F' Hch). eapply patched_hit; [exact P | apply Hlist | unfold pop_patch; patch_lookup].
  - rewrite <- (linked_head m 0 next F' Hch). eapply chain_patched; [exact P | | done].
    intros y Hy. by apply Hmiss, Hfar; left.
  - simpl. rewrite <- (pr_perm m p R), EF. simpl. symmetry. apply Permutation_middle.
  - intros y Hy. destruct (Hfar y (or_introl Hy)) as (_ & ? & ?).
    destruct (pr_free m p R y) as [W1 W2]; [rewrite EF; by right|].
    split; (eapply patched_miss; [exact P | by apply Hmiss | done]).
  - intros y r [[= -> ->]|Hy]%elem_of_cons.
    + split_and!; [eapply patched_miss; [exact P | unfold pop_patch; patch_lookup | done]
        | eapply patched_hit; [exact P | apply Hst | unfold pop_patch; patch_lookup] | apply Hsize | apply Hsize].
    + assert (Hy1 : y ∈ (spUsed p).*1) by (apply list_elem_of_fmap; by exists (y, r)).
      destruct (Hfar y (or_intror Hy1)) as (_ & ? & ?). destruct (pr_used m p R y r Hy) as (W1 & W2 & W3).
      split_and!; [eapply patched_miss; [exact P | by apply Hmiss | done].. | apply W3 | apply W3].
Qed.

(** ... and clears it for [kzalloc]. *)
Lemma take_first_run m p x F' size zeroed : heap_ok m -> page_rep m p -> spFree p = x :: F' -> 1 <= size <= csize (spClass p) ->
  exists m', KiAllocatorAllocFromSmallPage (spBase p) size zeroed m = Ok (x + 24, m') /\
    heap_ok m' /\ live m' = live m /\ page_rep m' (mkPage (spBase p) (spClass p) F' ((x, size) :: spUsed p)) /\
    (zeroed = true -> forall i, 0 <= i < size -> load_part (x + 24 + i) 1 m' = Ok 0) /\
    agree (fun a => live_word (live m) a /\ ~ slot_words p x a) m m'.
Proof.
  intros Hm R EF Hsize. destruct (pop_words_run m p x F' size Hm R EF Hsize) as (m1 & _ & E & Hok & Hl & R1 & Hag).
  rewrite E. destruct zeroed; [|by exists m1].
  assert (Hx : x ∈ small_slots (spClass p) (spBase p)) by (apply (page_slot m p R); left; rewrite EF; by left).
  destruct (clear_small_slot_run m1 _ Hok R1 x Hx) as (m2 & E2 & Hok2 & Hl2 & Hz & Hag2 & R2). simpl in *.
  rewrite E2. cbn [res_bind]. exists m2. split_and!; [done | done | congruence | done | intros _ i Hi; apply Hz; lia |].
  intros a [Ha Hn]. rewrite Hag2; [by apply Hag | rewrite Hl; split; [done|]]. unfold slot_words in Hn. lia.
Qed.

(** What giving back the slot [x] writes. *)
Definition push_patch (b x hd n : Z) : gmap Z Z :=
  <[b + 16 := halves n 0]> (<[b + 40 := x]> (<[x := hd]> (<[x + 16 := halves 0 KE_ALLOC_SLOT_STATE_FREE]> ∅))).

(** A slot that is given back becomes the first free one. *)
Lemma push_run m p x r U' : heap_ok m -> page_rep m p -> Permutation (spUsed p) ((x, r) :: U') ->
  exists m', push_slot (spBase p) x m = Ok m' /\ heap_ok m' /\ live m' = live m /\
    page_rep m' (mkPage (spBase p) (spClass p) (x :: spFree p) U') /\
    agree (fun a => live_word (live m) a /\ ~ slot_words p x a) m m'.
Proof.
  intros Hm R EU. destruct (page_base_facts m p Hm R) as (Hb0 & Hb & Hb1).
  assert (EU1 : Permutation (spUsed p).*1 (x :: U'.*1)) by (by rewrite EU).
  assert (Hx : x ∈ small_slots (spClass p) (spBase p)) by (apply (page_slot m p R); right; rewrite EU1; by left).
  destruct (slot_place m p Hm R x Hx) as (Hx1 & Hx2 & Hx8). pose proof (slot_apart m p Hm R) as Happ.
  pose proof (pr_list m p R) as Hlist. pose proof (pr_count m p R) as Hcount. pose proof (free_few m p R) as Hfew.
  pose proof (page_counts m p R) as Hcnt. destruct (class_ok _ (pr_class m p R)) as [? _ _ Hper _ _].
  pose proof (slot_live m p Hm R x 0 Hx ltac:(lia) eq_refl) as Hx_live. rewrite Z.add_0_r in Hx_live.
  assert (Hlen : Z.of_nat (length (x :: spFree p)) = Z.of_nat (length (spFree p)) + 1) by (simpl; lia).
  destruct (pr_used m p R x r) as (Hown & Hst & Hr); [rewrite EU; by left|].
  set (b := spBase p) in *. set (c := spClass p) in *.
  assert (Hrun : exists m', patched (push_patch b x (default 0 (head (spFree p))) (Z.of_nat (length (x :: spFree p)))) m m' /\
    push_slot b x m = Ok m').
  { unfold push_slot, page_FreeList, page_FreeCount, slot_NextFree, slot_State, slot_RequestedSize.
    pose proof (patched_nil m Hm) as P.
    rewrite (store_part_at _ _ _ 4 _ _ _ Hst), set_hi by (word_lia || done || unfold KE_ALLOC_SLOT_STATE_FREE, KE_ALLOC_SLOT_STATE_ALLOCATED; word_lia).
    run_store P; [apply Hst|].
    assert (W : word m0 (x + 16) (halves r KE_ALLOC_SLOT_STATE_FREE)) by (eapply patched_hit; [exact P | apply Hst | patch_lookup]).
    rewrite (store_part_at _ _ _ 0 _ _ _ W), set_lo by (word_lia || done || unfold KE_ALLOC_SLOT_STATE_FREE; word_lia).
    clear W. run_store P; [apply Hst|]. rewrite insert_insert_eq in P.
    rewrite (load_of_word _ (b + 40) (default 0 (head (spFree p)))) by (eapply patched_miss; [exact P | patch_lookup | done]).
    cbn [res_bind]. rewrite Z.add_0_r. run_store P; [done|]. run_store P; [apply Hlist|].
    assert (W : word m3 (b + 16) (halves (Z.of_nat (length (spFree p))) 0)) by (eapply patched_miss; [exact P | patch_lookup | done]).
    rewrite (word_part_at _ _ _ 0 _ _ W), get_lo by (done || lia). cbn [res_bind].
    rewrite (store_part_at _ _ _ 0 _ _ _ W), u32_small, set_lo by (word_lia || done). clear W.
    rewrite <- Hlen. destruct (patched_store _ _ _ (b + 16) (halves (Z.of_nat (length (x :: spFree p))) 0) P) as (m4 & E4 & P4); [apply Hcount|].
    by exists m4. }
  destruct Hrun as (m' & P & Hrun). exists m'. split; [done|]. split; [apply P|]. split; [apply P|].
  assert (Hmiss : forall a, ~ slot_words p x a -> push_patch b x (default 0 (head (spFree p))) (Z.of_nat (length (x :: spFree p))) !! a = None).
  { intros a Ha. unfold slot_words in Ha. fold b c in Ha. unfold push_patch. patch_lookup. }
  assert (Hfar : forall y, y ∈ spFree p \/ y ∈ U'.*1 -> ~ slot_words p x y /\ ~ slot_words p x (y + 8) /\ ~ slot_words p x (y + 16)).
  { intros y Hy. assert (Hys : y ∈ small_slots c b).
    { apply (page_slot m p R). destruct Hy; [by left | right; rewrite EU1; by right]. }
    destruct (Happ x y Hx Hys) as (? & ? & ?); [|unfold slot_words; fold b c; lia].
    intros ->. pose proof (page_slots_nodup m p R) as Hn. rewrite EU1, <- Permutation_middle in Hn.
    apply NoDup_cons in Hn as [Hn _]. apply Hn, elem_of_app. by destruct Hy; [left|right]. }
  split; [|eapply patched_agree; [exact P|]; intros a [Ha Hn]; split; [done | by apply Hmiss]].
  apply (page_rep_patched m p Hm R _ m' (x :: spFree p) U' P).
  - intros a Ha. destruct (decide (slot_words p x a)) as [Hs|Hs]; [|rewrite (Hmiss a Hs) in Ha; by destruct Ha].
    destruct Hs as [?|[?|?]]; [by left | by right; left | right; right; by exists x].
  - eapply patched_hit; [exact P | apply Hcount | unfold push_patch; patch_lookup].
  - eapply patched_hit; [exact P | apply Hlist | unfold push_patch; patch_lookup].
  - simpl. split_and!; [done | lia|]. exists (default 0 (head (spFree p))). rewrite Z.add_0_r. split.
    + eapply patched_hit; [exact P | done | unfold push_patch; patch_lookup].
    + eapply chain_patched; [exact P | | apply R]. intros y Hy. by apply Hmiss, Hfar; left.
  - simpl. rewrite <- (pr_perm m p R), EU1. apply Permutation_middle.
  - intros y [->|Hy]%elem_of_cons.
    + split; [eapply patched_miss; [exact P | unfold push_patch; patch_lookup | done]
        | eapply patched_hit; [exact P | apply Hst | unfold push_patch; patch_lookup]].
    + destruct (Hfar y (or_introl Hy)) as (_ & ? & ?). destruct (pr_free m p R y Hy) as [W1 W2].
      split; (eapply patched_miss; [exact P | by apply Hmiss | done]).
  - intros y r' Hy. assert (Hy1 : y ∈ U'.*1) by (apply list_elem_of_fmap; by exists (y, r')).
    destruct (Hfar y (or_intror Hy1)) as (_ & ? & ?). destruct (pr_used m p R y r') as (W1 & W2 & W3); [rewrite EU; by right|].
    split_and!; [eapply patched_miss; [exact P | by apply Hmiss | done].. | apply W3 | apply W3].
Qed.

(** ** A fresh page *)

Definition first_slots (c b i : Z) : list Z := (fun j => b + 56 + j * stride c) <$> seqZ 0 i.

Lemma slots_upto_S c b i : 0 <= i -> first_slots c b (i + 1) = first_slots c b i ++ [b + 56 + i * stride c].
Proof.
  intros Hi. unfold first_slots. replace (i + 1) with (Z.of_nat (S (Z.to_nat i))) by lia.
  rewrite seqZ_S, fmap_app, Z2Nat.id by lia. done.
Qed.

Lemma first_slot_bounds c b i x : 0 <= c < 7 -> x ∈ first_slots c b i ->
  b + 56 <= x /\ x + stride c <= b + 56 + i * stride c.
Proof.
  intros Hc (j & -> & Hj%elem_of_seqZ)%list_elem_of_fmap. destruct (stride_pos c Hc). nia.
Qed.

(** After [i] rounds of the loop. *)
Record linking (c b : Z) m0 (i : Z) m : Prop := {
  lk_ok : heap_ok m;
  lk_live : live m = live m0;
  lk_count : word m (b + 16) (halves i 0);
  lk_list : word m (b + 40) (default 0 (head (rev (first_slots c b i))));
  lk_chain : linked m 0 (default 0 (head (rev (first_slots c b i)))) (rev (first_slots c b i));
  lk_slots x : x ∈ first_slots c b i -> word m (x + 8) b /\ word m (x + 16) (halves 0 KE_ALLOC_SLOT_STATE_FREE);
  lk_agree : agree (fun a => live_word (live m0) a /\ a <> b + 16 /\ a <> b + 40 /\ ~ (b + 56 <= a < b + PAGE_4KB)) m0 m;
}.

(** What one round writes. *)
Definition link_patch (b x hd n : Z) : gmap Z Z :=
  <[b + 16 := halves n 0]> (<[b + 40 := x]> (<[x := hd]> (<[x + 16 := halves 0 KE_ALLOC_SLOT_STATE_FREE]> (<[x + 8 := b]> ∅)))).

Lemma link_round c b m0 i m : 0 <= c < 7 -> heap_ok m0 -> (b, 1) ∈ live m0 -> 0 <= i < per c -> linking c b m0 i m ->
  let x := b + 56 + i * stride c in
  exists m', (let* m := store (x + slot_OwnerPage) b m in
    let* m := store_part (x + slot_RequestedSize) 4 0 m in
    let* m := store_part (x + slot_State) 4 KE_ALLOC_SLOT_STATE_FREE m in
    let* freeList := load (b + page_FreeList) m in
    let* m := store (x + slot_NextFree) freeList m in
    let* m := store (b + page_FreeList) x m in
    let* freeCount := load_part (b + page_FreeCount) 4 m in
    store_part (b + page_FreeCount) 4 (u32 (freeCount + 1)) m) = Ok m' /\
  patched (link_patch b x (default 0 (head (rev (first_slots c b i)))) (i + 1)) m m'.
Proof.
  intros Hc Hm0 Hb Hi L x. destruct (live_bounds m0 _ Hm0 Hb) as (Hb0 & Hb4 & _ & Hb1). simpl in Hb0, Hb4, Hb1.
  destruct (class_ok c Hc) as [? ? Est Hper Hfit _]. destruct (stride_pos c Hc) as [Hs Hs8].
  assert (Hx : x ∈ small_slots c b) by (apply small_slot_iff; by exists i).
  destruct (small_slot_bounds c b x Hc Hb4 Hx) as (Hx1 & Hx2 & Hx8). unfold PAGE_4KB in *.
  assert (Hlive : forall o, 0 <= o < 24 -> o mod 8 = 0 -> live_word (live m) (x + o)).
  { intros o Ho Ho8. rewrite (lk_live _ _ _ _ _ L). split; [div_lia|]. exists (b, 1). split; [done|].
    unfold in_block, PAGE_4KB. simpl. lia. }
  destruct (load_live m (x + 16) (lk_ok _ _ _ _ _ L)) as [w Hw]; [by apply Hlive|].
  assert (Ww : word m (x + 16) w) by (split; [by apply Hlive | done]).
  pose proof (lk_list _ _ _ _ _ L) as Hlist. pose proof (lk_count _ _ _ _ _ L) as Hcount.
  unfold slot_OwnerPage, slot_RequestedSize, slot_State, slot_NextFree, page_FreeList, page_FreeCount.
  pose proof (patched_nil m (lk_ok _ _ _ _ _ L)) as P.
  run_store P; [by apply Hlive|].
  assert (W : word m1 (x + 16) w) by (eapply patched_miss; [exact P | patch_lookup | done]).
  rewrite (store_part_at _ _ _ 0 _ _ _ W), set_lo_any by (word_lia || done). clear W. run_store P; [by apply Hlive|].
  assert (W : word m2 (x + 16) (halves 0 (u32 (w / 2 ^ 32)))) by (eapply patched_hit; [exact P | by apply Hlive | patch_lookup]).
  rewrite (store_part_at _ _ _ 4 _ _ _ W), set_hi
    by (word_lia || done || apply u32_range || (unfold KE_ALLOC_SLOT_STATE_FREE; word_lia)).
  clear W. run_store P; [by apply Hlive|]. rewrite insert_insert_eq in P.
  rewrite (load_of_word _ (b + 40) (default 0 (head (rev (first_slots c b i))))) by (eapply patched_miss; [exact P | patch_lookup | done]).
  cbn [res_bind]. rewrite Z.add_0_r. run_store P; [rewrite <- (Z.add_0_r x); by apply Hlive|]. run_store P; [apply Hlist|].
  assert (W : word m5 (b + 16) (halves i 0)) by (eapply patched_miss; [exact P | patch_lookup | done]).
  rewrite (word_part_at _ _ _ 0 _ _ W), get_lo by (word_lia || done). cbn [res_bind].
  rewrite (store_part_at _ _ _ 0 _ _ _ W), u32_small, set_lo by (word_lia || done). clear W.
  destruct (patched_store _ _ _ (b + 16) (halves (i + 1) 0) P) as (m6 & E6 & P6); [apply Hcount|].
  by exists m6.
Qed.

Lemma link_step c b m0 i m m' : 0 <= c < 7 -> heap_ok m0 -> (b, 1) ∈ live m0 -> 0 <= i < per c -> linking c b m0 i m ->
  patched (link_patch b (b + 56 + i * stride c) (default 0 (head (rev (first_slots c b i)))) (i + 1)) m m' ->
  linking c b m0 (i + 1) m'.
Proof.
  intros Hc Hm0 Hb Hi [Hok Hl Hcount Hlist Hch Hsl Hag] P. set (x := b + 56 + i * stride c) in *.
  destruct (live_bounds m0 _ Hm0 Hb) as (Hb0 & Hb4 & _ & Hb1). simpl in Hb0, Hb4, Hb1.
  destruct (class_ok c Hc) as [? ? Est Hper Hfit _]. destruct (stride_pos c Hc) as [Hs Hs8].
  assert (Hx : x ∈ small_slots c b) by (apply small_slot_iff; by exists i).
  destruct (small_slot_bounds c b x Hc Hb4 Hx) as (Hx1 & Hx2 & Hx8). unfold PAGE_4KB in *.
  assert (Hlive : forall o, 0 <= o < 24 -> o mod 8 = 0 -> live_word (live m) (x + o)).
  { intros o Ho Ho8. rewrite Hl. split; [div_lia|]. exists (b, 1). split; [done|]. unfold in_block, PAGE_4KB. simpl. lia. }
  assert (Hfirst : forall y, y ∈ first_slots c b i -> b + 56 <= y /\ y + stride c <= x) by (intros y Hy; by apply first_slot_bounds).
  split.
  - apply P.
  - by rewrite (pt_live _ _ _ P).
  - eapply patched_hit; [exact P | apply Hcount | unfold link_patch; patch_lookup].
  - rewrite slots_upto_S, rev_app_distr by lia. eapply patched_hit; [exact P | apply Hlist | unfold link_patch; patch_lookup].
  - rewrite slots_upto_S, rev_app_distr by lia. simpl. fold x. split_and!; [done | lia|].
    exists (default 0 (head (rev (first_slots c b i)))). rewrite Z.add_0_r. split.
    + eapply patched_hit; [exact P | rewrite <- (Z.add_0_r x); by apply Hlive | unfold link_patch; patch_lookup].
    + eapply chain_patched; [exact P | | exact Hch]. intros y Hy.
      rewrite list_elem_of_In, <- in_rev, <- list_elem_of_In in Hy. specialize (Hfirst y Hy). unfold link_patch. patch_lookup.
  - rewrite slots_upto_S by lia. intros y [Hy| ->%list_elem_of_singleton]%elem_of_app.
    + destruct (Hsl y Hy) as [W1 W2]. specialize (Hfirst y Hy).
      split; (eapply patched_miss; [exact P | unfold link_patch; patch_lookup | done]).
    + fold x. split; (eapply patched_hit; [exact P | by apply Hlive | unfold link_patch; patch_lookup]).
  - eapply agree_trans; [|exact Hag|]; [done|]. eapply patched_agree; [exact P|].
    intros a (Ha & H16 & H40 & Hout). rewrite Hl. split; [done|]. unfold link_patch. unfold PAGE_4KB in Hout. patch_lookup.
Qed.

Lemma link_small_run c b m : 0 <= c < 7 -> heap_ok m -> (b, 1) ∈ live m ->
  word m (b + 16) (halves 0 0) -> word m (b + 40) 0 ->
  exists m', link_small_slots b (stride c) (per c) m = Ok m' /\ linking c b m (per c) m'.
Proof.
  intros Hc Hm Hb H16 H40. unfold link_small_slots.
  destruct (live_bounds m _ Hm Hb) as (Hb0 & Hb4 & _ & Hb1). simpl in Hb0, Hb4, Hb1.
  destruct (class_ok c Hc) as [? ? Est Hper Hfit _]. destruct (stride_pos c Hc) as [Hs Hs8].
  edestruct (for_loop_rule (linking c b m) (Z.to_nat (per c)) 0) as (m' & E & L); [| |exists m'; split; [exact E|]].
  - split; try done; by intros ? ?%elem_of_nil.
  - intros i t Hi L. rewrite header_56. unfold PAGE_4KB in *.
    assert (0 <= i * stride c <= per c * stride c) by nia.
    rewrite (u32_small (i * stride c)), (u64_small (b + 56)), u64_small by word_lia.
    destruct (link_round c b m i t Hc Hm Hb ltac:(lia) L) as (t' & Et & P). exists t'. split; [exact Et|].
    by eapply link_step; [..|exact L|exact P]; try done; lia.
  - by replace (0 + Z.of_nat (Z.to_nat (per c))) with (per c) in L by lia.
Qed.

(** The header fields, written over the cleared header. *)
Definition header_patch (b c : Z) : gmap Z Z :=
  <[b + 48 := 0]> (<[b + 40 := 0]> (<[b + 32 := 1]> (<[b + 24 := b]> (<[b + 16 := halves 0 0]>
    (<[b + 8 := halves (stride c) (per c)]> (<[b := halves KE_ALLOC_SMALL_PAGE_MAGIC c]> ∅)))))).

Lemma header_run c b m : 0 <= c < 7 -> heap_ok m -> (b, 1) ∈ live m ->
  (forall o, 0 <= o < 56 -> o mod 8 = 0 -> word m (b + o) (halves 0 0)) ->
  exists m', (let* m := store_part (b + page_Magic) 4 KE_ALLOC_SMALL_PAGE_MAGIC m in
      let* m := store_part (b + page_ClassIndex) 2 c m in
      let* m := store_part (b + page_SlotStride) 4 (stride c) m in
      let* m := store_part (b + page_SlotsPerPage) 4 (per c) m in
      let* m := store_part (b + page_FreeCount) 4 0 m in
      let* m := store (b + page_BackingUsableBase) b m in
      let* m := store (b + page_BackingUsablePages) 1 m in
      let* m := store (b + page_FreeList) 0 m in
      store (b + page_Next) 0 m) = Ok m' /\ patched (header_patch b c) m m'.
Proof.
  intros Hc Hm Hb Hz. destruct (class_ok c Hc) as [? _ Est Hper _ _].
  assert (Hzero : word m b (halves 0 0)) by (rewrite <- (Z.add_0_r b); apply Hz; [lia | done]).
  assert (Hst : is_u32 (stride c)) by word_lia.
  unfold page_Magic, page_ClassIndex, page_SlotStride, page_SlotsPerPage, page_FreeCount, page_BackingUsableBase,
    page_BackingUsablePages, page_FreeList, page_Next.
  assert (Hlive : forall o, 0 <= o < 56 -> o mod 8 = 0 -> live_word (live m) (b + o)) by (intros o Ho Ho8; by apply (Hz o)).
  pose proof (patched_nil m Hm) as P.
  rewrite (store_part_at _ _ _ 0 _ _ _ Hzero), set_lo by (word_lia || done || (unfold KE_ALLOC_SMALL_PAGE_MAGIC; word_lia)).
  run_store P; [apply Hzero|].
  assert (W : word m0 b (halves KE_ALLOC_SMALL_PAGE_MAGIC 0)) by (eapply patched_hit; [exact P | apply Hzero | patch_lookup]).
  rewrite (store_part_at _ _ _ 4 _ _ _ W), set_hi16 by (word_lia || done || (unfold KE_ALLOC_SMALL_PAGE_MAGIC; word_lia)).
  clear W. run_store P; [apply Hzero|]. rewrite insert_insert_eq in P.
  assert (W : word m1 (b + 8) (halves 0 0)) by (eapply patched_miss; [exact P | patch_lookup | by apply Hz]).
  rewrite (store_part_at _ _ _ 0 _ _ _ W), set_lo by (word_lia || done). clear W. run_store P; [by apply Hlive|].
  assert (W : word m2 (b + 8) (halves (stride c) 0)) by (eapply patched_hit; [exact P | by apply Hlive | patch_lookup]).
  rewrite (store_part_at _ _ _ 4 _ _ _ W), set_hi by (word_lia || done). clear W. run_store P; [by apply Hlive|].
  rewrite insert_insert_eq in P.
  assert (W : word m3 (b + 16) (halves 0 0)) by (eapply patched_miss; [exact P | patch_lookup | by apply Hz]).
  rewrite (store_part_at _ _ _ 0 _ _ _ W), set_lo by (word_lia || done). clear W.
  run_store P; [by apply Hlive|]. run_store P; [by apply Hlive|]. run_store P; [by apply Hlive|]. run_store P; [by apply Hlive|].
  destruct (patched_store _ _ _ (b + 48) 0 P) as (m8 & E8 & P8); [by apply Hlive|]. by exists m8.
Qed.

(** The loop over a fresh header leaves a page with all its slots free. *)
Lemma linked_page c b m0 m m' : 0 <= c < 7 -> (b, 1) ∈ live m -> heap_ok m -> patched (header_patch b c) m0 m ->
  live_word (live m0) b -> linking c b m (per c) m' -> page_rep m' (mkPage b c (rev (small_slots c b)) []).
Proof.
  intros Hc Hb Hm P Hb' [Hok Hl Hcount Hlist Hch Hsl Hag]. destruct (live_bounds m _ Hm Hb) as (Hb0 & Hb4 & _ & Hb1).
  simpl in Hb0, Hb4, Hb1. unfold PAGE_4KB in *.
  assert (Hword : forall o v, 0 <= o < 48 -> o mod 8 = 0 -> o <> 16 -> o <> 40 -> header_patch b c !! (b + o) = Some v -> word m' (b + o) v).
  { intros o v Ho Ho8 H16 H40 E. assert (Hlv : live_word (live m) (b + o)).
    { split; [div_lia|]. exists (b, 1). split; [done|]. unfold in_block, PAGE_4KB. simpl. lia. }
    eapply word_agree; [exact Hag | split_and!; [done | lia | lia | unfold PAGE_4KB; lia] | by rewrite Hl |].
    eapply patched_hit; [exact P | by rewrite <- (pt_live _ _ _ P) | done]. }
  split; cbn [spBase spClass spFree spUsed].
  - unfold page_block. cbn [spBase]. by rewrite Hl.
  - exact Hc.
  - rewrite <- (Z.add_0_r b) at 1. apply Hword; [lia | reflexivity | lia | lia |]. rewrite Z.add_0_r. unfold header_patch. patch_lookup.
  - apply Hword; [lia | reflexivity | lia | lia |]. unfold header_patch. patch_lookup.
  - rewrite length_rev, length_small_slots by exact Hc. exact Hcount.
  - apply Hword; [lia | reflexivity | lia | lia |]. unfold header_patch. patch_lookup.
  - apply Hword; [lia | reflexivity | lia | lia |]. unfold header_patch. patch_lookup.
  - exact Hlist.
  - exact Hch.
  - rewrite fmap_nil, app_nil_r. symmetry. apply Permutation_rev.
  - intros x Hx. apply Hsl. by rewrite list_elem_of_In, <- in_rev, <- list_elem_of_In in Hx.
  - intros x r Hx. by apply not_elem_of_nil in Hx.
Qed.

(** A word of an old block is none of a new one. *)
Lemma fresh_apart m m' b n a : heap_ok m' -> Permutation (live m') ((b, n) :: live m) -> live_word (live m) a ->
  live_word (live m') a /\ ~ in_block (b, n) a.
Proof.
  intros Hm Hp (Ha & d & Hd & Hin). split.
  - split; [done|]. exists d. split; [|done]. rewrite Hp. by right.
  - intros Hb. assert (d = (b, n)) as ->; [|].
    { apply (live_disjoint m' d (b, n) a Hm); [rewrite Hp; by right | rewrite Hp; by left | done | done]. }
    pose proof (live_nodup m' Hm) as Hn. rewrite Hp in Hn. by apply NoDup_cons in Hn as [Hn _].
Qed.

Lemma prepare_small_run c m : 0 <= c < 7 -> heap_ok m ->
  exists st page m', KiAllocatorPrepareSmallPage c m = Ok (st, page, m') /\ heap_ok m' /\ agree (live_word (live m)) m m' /\
    (if decide (st = EC_SUCCESS)
     then Permutation (live m') ((page, 1) :: live m) /\ page_rep m' (mkPage page c (rev (small_slots c page)) [])
     else live m' = live m /\ exists b, KeHeapAllocPages 1 m = (st, b, m')).
Proof.
  intros Hc Hm. unfold KiAllocatorPrepareSmallPage. rewrite (proj2 (Z.leb_gt _ c)) by (unfold KE_ALLOC_SMALL_CLASS_COUNT; lia).
  destruct (KeHeapAllocPages 1 m) as [[st b] m1] eqn:E.
  destruct (alloc_law m 1 st b m1 Hm ltac:(lia) E) as (Hm1 & Hag1 & Hlive).
  unfold Kva.succeeded. destruct (decide (st = EC_SUCCESS)) as [->|Hst]; cycle 1.
  { rewrite bool_decide_false by done. exists st, 0, m1. cbn [negb]. split_and!; try done. rewrite !decide_False in * by done. split; [done | by exists b]. }
  rewrite bool_decide_true by done. cbn [negb].
  assert (Hb : (b, 1) ∈ live m1) by (rewrite Hlive; by left).
  destruct (query_live m1 b 1 Hm1 Hb) as (rg & -> & _ & Hrb & Hrn). rewrite Hrb, Hrn.
  destruct (live_bounds m1 _ Hm1 Hb) as (Hb0 & Hb4 & _ & Hb1). cbn [fst snd] in Hb0, Hb4, Hb1.
  assert (Hin : forall a, b <= a < b + PAGE_4KB -> a mod 8 = 0 -> live_word (live m1) a).
  { intros a Ha Ha8. split; [done|]. exists (b, 1). split; [done|]. unfold in_block. cbn [fst snd]. lia. }
  unfold PAGE_4KB in *.
  destruct (memset0_ok m1 b sizeof_SMALL_PAGE Hm1) as (m2 & -> & Hm2 & Hl2 & Hz & Hag2);
    unfold sizeof_SMALL_PAGE in *; [lia | reflexivity | lia | lia | intros a Ha Ha8; apply Hin; [lia | exact Ha8] | div_lia |].
  cbn [res_bind]. destruct (class_ok c Hc) as [Hcs _ Est Hper _ ->]. cbn [res_bind].
  change (slot_stride (csize c)) with (stride c). change (u32 (4096 - header_bytes) / stride c) with (per c).
  rewrite header_56, (proj2 (Z.eqb_neq (stride c) 0)), (proj2 (Z.eqb_neq (per c) 0)) by lia. cbn [orb Z.leb].
  change (4096 <=? 56) with false. cbn [orb].
  destruct (header_run c b m2 Hc Hm2) as (m3 & E3 & P3); [by rewrite Hl2 | |].
  { intros o Ho Ho8. split; [rewrite Hl2; apply Hin; [lia | div_lia] | apply Hz; [lia | div_lia]]. }
  destruct (link_small_run c b m3 Hc (pt_ok _ _ _ P3)) as (m4 & E4 & L4).
  - by rewrite (pt_live _ _ _ P3), Hl2.
  - eapply patched_hit; [exact P3 | rewrite Hl2; apply Hin; [lia | div_lia] | unfold header_patch; patch_lookup].
  - eapply patched_hit; [exact P3 | rewrite Hl2; apply Hin; [lia | div_lia] | unfold header_patch; patch_lookup].
  - assert (Hb2 : live_word (live m2) b) by (rewrite Hl2; apply Hin; [lia | div_lia]).
    pose proof (linked_page c b m2 m3 m4 Hc ltac:(by rewrite (pt_live _ _ _ P3), Hl2) (pt_ok _ _ _ P3) P3 Hb2 L4) as R4.
    exists EC_SUCCESS, b, m4. split; [|split; [apply L4|split]].
    + do 8 (match type of E3 with res_bind ?a _ = _ => destruct a; cbn [res_bind] in E3 |- *; try discriminate E3 end).
      rewrite E3. cbn [res_bind]. rewrite E4. reflexivity.
    + intros a Ha. destruct (fresh_apart m m1 b 1 a Hm1 Hlive Ha) as [Ha1 Hout].
      unfold in_block in Hout. cbn [fst snd] in Hout.
      rewrite (lk_agree _ _ _ _ _ L4) by (rewrite (pt_live _ _ _ P3), Hl2; unfold PAGE_4KB in *; split_and!; [done | lia..]).
      rewrite (pt_words _ _ _ P3) by (by rewrite Hl2).
      replace (header_patch b c !! a) with (@None Z) by (unfold header_patch, PAGE_4KB in *; symmetry; patch_lookup).
      rewrite Hag2 by (split; [done | unfold PAGE_4KB in Hout; lia]). by apply Hag1.
    + rewrite decide_True by done. split; [|done]. by rewrite (lk_live _ _ _ _ _ L4), (pt_live _ _ _ P3), Hl2.
Qed.
End pieces.
