(* ===== verification/AllocState.v ===== *)
(** * The byte allocator: the critical sections keep the layout

    How each change of memory, lists and records moves the invariant [layout]
    of [AllocInv.v], and the two walks over the list of a class. *)

From S2P Require Import Prelude Heap Parts Kva Alloc AllocInv AllocOps.

Local Open Scope Z_scope.

Lemma elem_without {A} (q p : A) l1 l2 l3 : q ∈ (l1 ++ l2) ++ l3 -> q ∈ (l1 ++ p :: l2) ++ l3.
Proof. rewrite !elem_of_app, elem_of_cons. tauto. Qed.

Section state.
Context {M : Type} `{RangeLaws M}.
Implicit Types (m : M) (p : SPAGE).

(** ** Walks over the pages of a class *)

Lemma count_run m p : heap_ok m -> page_rep m p ->
  load_part (spBase p + page_FreeCount) 4 m = Ok (Z.of_nat (length (spFree p))).
Proof.
  intros Hm R. unfold page_FreeCount. rewrite (word_part_at _ _ _ 0 _ _ (pr_count m p R)) by lia.
  rewrite get_lo; [done|]. by apply (free_few m).
Qed.

Lemma room_run m l h fuel : heap_ok m -> (forall p, p ∈ l -> page_rep m p) -> linked m 48 h (spBase <$> l) ->
  (length l <= fuel)%nat ->
  exists x, first_with_room fuel h m = Ok x /\
    ((x = 0 /\ forall p, p ∈ l -> spFree p = []) \/ exists p, p ∈ l /\ x = spBase p /\ spFree p <> []).
Proof.
  intros Hm. revert h fuel. induction l as [|p l IH]; intros h fuel HR Hl Hf; simpl in Hl.
  { subst h. exists 0. split; [by destruct fuel|]. left. split; [done|]. by intros q Hq%not_elem_of_nil. }
  destruct Hl as (-> & Hne & n & Hn & Hl). destruct fuel as [|fuel]; simpl in Hf; [lia|].
  cbn [first_with_room]. rewrite (proj2 (Z.eqb_neq _ 0)) by done.
  rewrite count_run by (try apply HR; by left || done). cbn [res_bind].
  destruct (Z.eqb_spec (Z.of_nat (length (spFree p))) 0) as [E|E].
  - unfold page_Next. rewrite (load_of_word _ _ _ Hn). cbn [res_bind].
    destruct (IH n fuel) as (x & Ex & Hx); [intros q Hq; apply HR; by right | done | lia |]. exists x. split; [done|].
    assert (EF : spFree p = []) by (destruct (spFree p); [done | simpl in E; lia]).
    destruct Hx as [[-> Hall]|(q & Hq & Hx)]; [left|right].
    + split; [done|]. intros q [->|Hq]%elem_of_cons; [done | by apply Hall].
    + exists q. split; [by right | done].
  - exists (spBase p). split; [done|]. right. exists p. split_and!; [by left | done|]. intros EF. by rewrite EF in E.
Qed.

Lemma prev_run m l1 b l2 h prev fuel : linked m 48 h (l1 ++ b :: l2) -> b ∉ l1 -> (length l1 <= fuel)%nat ->
  find_prev fuel prev h b m = Ok (true, default prev (last l1)).
Proof.
  revert h prev fuel. induction l1 as [|y l1 IH]; intros h prev fuel Hl Hb Hf; simpl in Hl.
  - destruct Hl as (-> & Hne & _). destruct fuel; simpl; by rewrite Z.eqb_refl, orb_true_r.
  - destruct Hl as (-> & Hne & n & Hn & Hl). destruct fuel as [|fuel]; simpl in Hf; [lia|].
    assert (y <> b) by (intros ->; apply Hb; by left). cbn [find_prev].
    rewrite (proj2 (Z.eqb_neq y 0)), (proj2 (Z.eqb_neq y b)) by done. cbn [orb].
    unfold page_Next. rewrite (load_of_word _ _ _ Hn). cbn [res_bind].
    rewrite (IH n y fuel Hl) by (lia || (intros Hin; apply Hb; by right)).
    rewrite last_cons. by destruct (last l1).
Qed.

Lemma in_class c p pgs : p ∈ class_pages c pgs <-> spClass p = c /\ p ∈ pgs.
Proof. unfold class_pages. by rewrite list_elem_of_filter. Qed.

(** ** Memory changes the layout does not see *)

(** The words that describe the pages. *)
Definition meta (pgs prep : list SPAGE) (a : Z) : Prop :=
  exists p, p ∈ pgs ++ prep /\ (page_word p a \/ a = spBase p + 48).

Section frame.
Context heads rs m pgs prep flight (L : layout heads rs m pgs prep flight).

Lemma next_word_in p m' : p ∈ pgs ++ prep -> page_block p ∈ live m' -> live_word (live m') (spBase p + 48).
Proof.
  intros Hp Hl. destruct (page_base_facts m p (ly_heap _ _ _ _ _ _ L) (ly_pages _ _ _ _ _ _ L p Hp)) as (? & Hb & ?).
  unfold PAGE_4KB in *. split; [div_lia|]. exists (page_block p). split; [done|].
  unfold in_block, page_block, PAGE_4KB. simpl. lia.
Qed.

Lemma layout_frame m' flight' : heap_ok m' -> Permutation (live m') (owned rs pgs prep flight') ->
  agree (meta pgs prep) m m' -> layout heads rs m' pgs prep flight'.
Proof.
  intros Hm' Hl Hag. destruct L as [L1 L2 L3 L4 L5 L6 L7 L8].
  assert (Hpb : forall p, p ∈ pgs ++ prep -> page_block p ∈ live m') by (intros p Hp; rewrite Hl; by apply page_owned).
  split; try done.
  - intros p Hp. apply (page_rep_agree m); [done | by apply Hpb | | by apply L4].
    intros a Ha. apply Hag. exists p. split; [done | by left].
  - intros c Hc. destruct (L6 c Hc) as (h & Eh & Hh). exists h. split; [done|].
    apply (linked_agree (meta pgs prep) m); [done | | done].
    intros y (p & -> & [_ Hp]%in_class)%list_elem_of_fmap.
    assert (Hp' : p ∈ pgs ++ prep) by (apply elem_of_app; by left). split.
    + exists p. split; [done | by right].
    + apply next_word_in; [done | by apply Hpb].
Qed.

(** A word of a page belongs to that page's block. *)
Lemma meta_block a : meta pgs prep a -> exists p, p ∈ pgs ++ prep /\ in_block (page_block p) a /\ live_word (live m) a.
Proof.
  intros (p & Hp & Ha). pose proof (ly_pages _ _ _ _ _ _ L p Hp) as R. pose proof (ly_heap _ _ _ _ _ _ L) as Hm.
  exists p. split; [done|]. destruct Ha as [Ha| ->].
  - pose proof (page_word_in m p Hm R a Ha). split; [unfold in_block, page_block; simpl; lia|].
    apply (in_page_live m p R); [done | apply Ha].
  - split; [|apply next_word_in; [done | apply R]]. unfold in_block, page_block, PAGE_4KB. simpl. lia.
Qed.

(** Words of other owned blocks do not describe pages. *)
Lemma meta_apart b a : b ∈ owned rs pgs prep flight -> (forall p, p ∈ pgs ++ prep -> b <> page_block p) ->
  in_block b a -> ~ meta pgs prep a.
Proof.
  intros Hb Hne Ha (p & Hp & Hin & _)%meta_block. apply (Hne p Hp).
  apply (owned_apart _ _ _ _ _ _ L b (page_block p) a); [done | by eapply page_owned | done | done].
Qed.
End frame.

(** ** One page changes *)

Lemma class_pages_app c l1 l2 : class_pages c (l1 ++ l2) = class_pages c l1 ++ class_pages c l2.
Proof. unfold class_pages. by rewrite filter_app. Qed.

Lemma class_pages_cons c p l : class_pages c (p :: l) = if decide (spClass p = c) then p :: class_pages c l else class_pages c l.
Proof. unfold class_pages. by rewrite filter_cons. Qed.

(** The other pages than [p] have other blocks. *)
Lemma other_page heads rs m l1 p l2 prep flight q : layout heads rs m (l1 ++ p :: l2) prep flight ->
  q ∈ (l1 ++ l2) ++ prep -> page_block q <> page_block p.
Proof.
  intros L Hq E. pose proof (pages_nodup _ _ _ _ _ _ L) as Hn.
  assert (Hp : Permutation ((l1 ++ p :: l2) ++ prep) (p :: (l1 ++ l2) ++ prep)).
  { by rewrite <- Permutation_middle. }
  rewrite Hp, fmap_cons in Hn. apply NoDup_cons in Hn as [Hn _]. apply Hn. rewrite <- E. by apply list_elem_of_fmap_2.
Qed.

Lemma linked_update heads rs m l1 p p' l2 prep flight m' :
  layout heads rs m (l1 ++ p :: l2) prep flight -> spBase p' = spBase p -> spClass p' = spClass p ->
  live m' = live m ->
  (forall q, q ∈ l1 ++ p :: l2 -> load_word (spBase q + 48) m' = load_word (spBase q + 48) m) ->
  forall c, 0 <= c < 7 -> exists h, heads !! Z.to_nat c = Some h /\ linked m' 48 h (spBase <$> class_pages c (l1 ++ p' :: l2)).
Proof.
  intros L Eb Ec Hl Hag c Hc. destruct (ly_class _ _ _ _ _ _ L c Hc) as (h & Eh & Hh). exists h. split; [done|].
  assert (E : spBase <$> class_pages c (l1 ++ p' :: l2) = spBase <$> class_pages c (l1 ++ p :: l2)).
  { rewrite !class_pages_app, !class_pages_cons, Ec. destruct (decide _); rewrite ?fmap_app; [|done]. simpl. by rewrite Eb. }
  rewrite E. apply (linked_agree (fun a => exists q, q ∈ l1 ++ p :: l2 /\ a = spBase q + 48) m); [| |done].
  - intros a (q & Hq & ->). by apply Hag.
  - intros y (q & -> & [_ Hq]%in_class)%list_elem_of_fmap. split; [by exists q|].
    assert (Hq' : q ∈ (l1 ++ p :: l2) ++ prep) by (apply elem_of_app; by left).
    eapply next_word_in; [exact L | done|]. rewrite Hl. by apply (ly_live _ _ _ _ _ _ _ L), page_owned.
Qed.

Lemma layout_update heads rs m l1 p p' l2 prep flight m' :
  layout heads rs m (l1 ++ p :: l2) prep flight -> page_rep m' p' -> spBase p' = spBase p -> spClass p' = spClass p ->
  heap_ok m' -> live m' = live m ->
  agree (fun a => live_word (live m) a /\ (~ in_block (page_block p) a \/ a = spBase p + 48)) m m' ->
  layout heads rs m' (l1 ++ p' :: l2) prep flight.
Proof.
  intros L R' Eb Ec Hm' Hl Hag. pose proof L as [L1 L2 L3 L4 L5 L6 L7 L8].
  assert (Eo : owned rs (l1 ++ p' :: l2) prep flight = owned rs (l1 ++ p :: l2) prep flight).
  { unfold owned. rewrite !fmap_app. simpl. unfold page_block at 2 5. by rewrite Eb. }
  assert (Hin : forall q, q ∈ (l1 ++ l2) ++ prep -> q ∈ (l1 ++ p :: l2) ++ prep).
  { intros q. apply elem_without. }
  assert (Hout : forall q a, q ∈ (l1 ++ l2) ++ prep -> in_block (page_block q) a -> ~ in_block (page_block p) a).
  { intros q a Hq Ha Ha'. apply (other_page _ _ _ _ _ _ _ _ q L Hq).
    apply (owned_apart _ _ _ _ _ _ L _ _ a); [| |done..]; eapply page_owned; [by apply Hin|].
    apply elem_of_app. left. apply elem_of_app. right. by left. }
  split; try done.
  - intros q Hq. assert (Hq' : q = p' \/ q ∈ (l1 ++ l2) ++ prep).
    { rewrite !elem_of_app, elem_of_cons in Hq. rewrite !elem_of_app. tauto. }
    destruct Hq' as [->|Hq']; [done|]. pose proof (L4 q (Hin q Hq')) as Rq.
    apply (page_rep_agree m); [done | rewrite Hl; apply L4, Hin, Hq' | | done].
    intros a Ha. pose proof (page_word_in m q L1 Rq a Ha) as Hr. apply Hag. split.
    + apply (in_page_live m q Rq); [done | apply Ha].
    + left. apply (Hout q); [done|]. unfold in_block, page_block. simpl. lia.
  - eapply linked_update; [exact L | done..|]. intros q Hq. apply Hag.
    assert (Hq' : q ∈ (l1 ++ p :: l2) ++ prep) by (apply elem_of_app; by left). split.
    + eapply next_word_in; [exact L | done | by apply L4].
    + assert (Hcase : q = p \/ q ∈ (l1 ++ l2) ++ prep).
      { rewrite elem_of_app, elem_of_cons in Hq. rewrite !elem_of_app. tauto. }
      destruct Hcase as [->|Hq'']; [by right | left]. apply (Hout q); [done|]. unfold in_block, page_block, PAGE_4KB. simpl. lia.
  - by rewrite Eo, Hl.
Qed.

(** ** Lists of pages *)

(** The node behind [y] in a list. *)
Lemma linked_tail m off h k1 y k2 : linked m off h (k1 ++ y :: k2) ->
  exists n, word m (y + off) n /\ linked m off n k2 /\ y <> 0.
Proof.
  revert h. induction k1 as [|z k1 IH]; intros h; simpl.
  - intros (-> & Hne & n & Hn & Hl). by exists n.
  - intros (_ & _ & n & _ & Hl). by apply (IH n).
Qed.

Lemma linked_keep m m' off h k : (forall x v, x ∈ k -> word m (x + off) v -> word m' (x + off) v) ->
  linked m off h k -> linked m' off h k.
Proof.
  revert h. induction k as [|y k IH]; intros h Hw; simpl; [done|].
  intros (-> & Hne & n & Hn & Hl). split_and!; [done | done|]. exists n.
  split; [apply Hw; [by left | done]|]. apply IH; [|done]. intros x v Hx. apply Hw. by right.
Qed.

(** Unlinking [y] behind [z]. *)
Lemma linked_remove m m' off h k1 z y k2 n : linked m off h (k1 ++ z :: y :: k2) ->
  word m (y + off) n -> word m' (z + off) n ->
  (forall x v, x ∈ k1 \/ x ∈ k2 -> word m (x + off) v -> word m' (x + off) v) ->
  linked m' off h (k1 ++ z :: k2).
Proof.
  intros Hl Hy Hz Hw. revert h Hl. induction k1 as [|x k1 IH]; intros h; simpl.
  - intros (-> & Hne & n' & _ & -> & _ & n2 & Hn2 & Hl). split_and!; [done | done|]. exists n. split; [done|].
    assert (n2 = n) as -> by (destruct Hn2 as [_ E1], Hy as [_ E2]; congruence).
    apply (linked_keep m); [|done]. intros x v Hx. apply Hw. by right.
  - intros (-> & Hne & n' & Hn' & Hl). split_and!; [done | done|]. exists n'. split.
    + apply Hw; [left; by left | done].
    + apply IH; [|done]. intros x' v Hx' W. apply Hw; [|done]. destruct Hx'; [left; by right | by right].
Qed.

Lemma owned_perm rs pgs prep flight pgs' prep' flight' :
  Permutation ((page_block <$> pgs ++ prep) ++ flight) ((page_block <$> pgs' ++ prep') ++ flight') ->
  Permutation (owned rs pgs prep flight) (owned rs pgs' prep' flight').
Proof.
  intros Hp. unfold owned. rewrite (Permutation_app_comm (large_block <$> _) flight), (Permutation_app_comm (large_block <$> _) flight').
  rewrite !app_assoc. by rewrite Hp.
Qed.

(** A prepared page becomes the first of its class. *)
Lemma layout_publish heads rs m p pgs prep flight h m' : layout heads rs m pgs (p :: prep) flight ->
  heads !! Z.to_nat (spClass p) = Some h -> store (spBase p + page_Next) h m = Ok m' ->
  heap_ok m' /\ live m' = live m /\ layout (<[Z.to_nat (spClass p) := spBase p]> heads) rs m' (p :: pgs) prep flight /\
  agree (fun a => live_word (live m) a /\ ~ in_block (page_block p) a) m m'.
Proof.
  intros L Eh Es. pose proof L as [L1 L2 L3 L4 L5 L6 L7 L8]. unfold page_Next in Es.
  assert (Hp : p ∈ pgs ++ p :: prep) by (apply elem_of_app; right; by left).
  pose proof (L4 p Hp) as R. destruct (page_base_facts m p L1 R) as (Hb0 & Hb4 & Hb1).
  assert (Hlw : live_word (live m) (spBase p + 48)) by (eapply next_word_in; [exact L | done | apply R]).
  destruct (store_ok m (spBase p + 48) h L1 Hlw) as (m1 & E & Hm' & Hl & Hv & Hag). rewrite Es in E. injection E as <-.
  assert (Hpp : Permutation (pgs ++ p :: prep) ((p :: pgs) ++ prep)) by (simpl; by rewrite Permutation_middle).
  assert (Hblk : forall q a, q ∈ pgs ++ prep -> in_block (page_block q) a -> ~ in_block (page_block p) a).
  { intros q a Hq Ha Ha'. pose proof (pages_nodup _ _ _ _ _ _ L) as Hn. rewrite Hpp in Hn. simpl in Hn.
    apply NoDup_cons in Hn as [Hn _]. apply Hn. rewrite <- (owned_apart _ _ _ _ _ _ L (page_block q) (page_block p) a);
      [by apply list_elem_of_fmap_2 | | by eapply page_owned | done | done].
    eapply page_owned; [rewrite Hpp]. simpl. by right. }
  assert (Hin48 : forall q, in_block (page_block q) (spBase q + 48)) by (intros q; unfold in_block, page_block, PAGE_4KB; simpl; lia).
  split_and!; [done | done | | ].
  2: { intros a [Ha Hn]. apply Hag. split; [|done]. intros ->. by apply Hn. }
  split; try done.
  - by rewrite length_insert.
  - intros q Hq. rewrite <- Hpp in Hq. pose proof (L4 q Hq) as Rq.
    apply (page_rep_agree m); [done | rewrite Hl; apply Rq | | done].
    intros a Ha. apply Hag. split; [|apply (in_page_live m q Rq); [by apply (page_word_in m q L1 Rq) | apply Ha]].
    intros ->. rewrite Hpp in Hq. apply elem_of_app in Hq. simpl in Hq. rewrite elem_of_cons in Hq.
    assert (Hq' : q = p \/ q ∈ pgs ++ prep) by (rewrite elem_of_app; tauto). destruct Hq' as [->|Hq'].
    + destruct Ha as [_ [?|(x & Hx & ?)]]; [lia|].
      destruct (small_slot_bounds _ _ _ (pr_class m p R) Hb4 Hx) as (? & _). lia.
    + apply (Hblk q (spBase p + 48) Hq'); [|apply Hin48].
      pose proof (page_word_in m q L1 Rq _ Ha). unfold in_block, page_block. simpl. lia.
  - intros q Hq. apply L5. by right.
  - assert (Hold : forall c, 0 <= c < 7 -> exists h', heads !! Z.to_nat c = Some h' /\ linked m' 48 h' (spBase <$> class_pages c pgs)).
    { intros c Hc. destruct (L6 c Hc) as (h' & Eh' & Hl'). exists h'. split; [done|].
      apply (linked_agree (fun a => exists q, q ∈ pgs /\ a = spBase q + 48) m); [| |done].
      - intros a (q & Hq & ->). assert (Hq' : q ∈ pgs ++ prep) by (apply elem_of_app; by left). apply Hag. split.
        + intros E. apply (Hblk q (spBase q + 48) Hq'); [apply Hin48 | rewrite E; apply Hin48].
        + eapply next_word_in; [exact L | apply elem_of_app; by left | apply L4, elem_of_app; by left].
      - intros y (q & -> & [_ Hq]%in_class)%list_elem_of_fmap. split; [by exists q|].
        eapply next_word_in; [exact L | apply elem_of_app; by left | rewrite Hl; apply L4, elem_of_app; by left]. }
    intros c Hc. destruct (Hold c Hc) as (h' & Eh' & Hl'). rewrite class_pages_cons. destruct (decide (spClass p = c)) as [<-|Hne].
    + rewrite list_lookup_insert_eq by (rewrite L2; lia). exists (spBase p). split; [done|]. simpl. split_and!; [done | lia|].
      rewrite Eh in Eh'. injection Eh' as <-. exists h. split; [|done]. split; [by rewrite Hl | done].
    + rewrite list_lookup_insert_ne by (pose proof (pr_class m p R); lia). by exists h'.
  - rewrite Hl, L8. apply owned_perm. by rewrite Hpp.
Qed.

(** A page leaves the lists: its block is held by the thread that frees it. *)
Lemma layout_without heads heads' rs m m' l1 p l2 prep flight : layout heads rs m (l1 ++ p :: l2) prep flight ->
  heap_ok m' -> live m' = live m -> length heads' = 7%nat ->
  (forall q, q ∈ (l1 ++ l2) ++ prep -> agree (page_word q) m m') ->
  (forall c, 0 <= c < 7 -> exists h, heads' !! Z.to_nat c = Some h /\ linked m' 48 h (spBase <$> class_pages c (l1 ++ l2))) ->
  layout heads' rs m' (l1 ++ l2) prep (page_block p :: flight).
Proof.
  intros [L1 L2 L3 L4 L5 L6 L7 L8] Hm' Hl Hlen Hag Hcl.
  assert (Hp : Permutation (owned rs (l1 ++ p :: l2) prep flight) (owned rs (l1 ++ l2) prep (page_block p :: flight))).
  { apply owned_perm. rewrite <- (Permutation_middle l1 l2 p). simpl. by rewrite Permutation_middle. }
  split; try done.
  - intros q Hq. assert (Hq' : q ∈ (l1 ++ p :: l2) ++ prep) by (by apply elem_without).
    apply (page_rep_agree m); [done | rewrite Hl; apply L4, Hq' | by apply Hag | by apply L4].
  - by rewrite Hl, <- Hp.
Qed.

Lemma agree_pages_next heads rs m l1 p l2 prep flight m' q : layout heads rs m (l1 ++ p :: l2) prep flight ->
  q ∈ (l1 ++ p :: l2) ++ prep ->
  agree (fun a => live_word (live m) a /\ forall r, r ∈ (l1 ++ p :: l2) -> a <> spBase r + 48) m m' ->
  agree (page_word q) m m'.
Proof.
  intros L Hq Hag a Ha. pose proof (ly_heap _ _ _ _ _ _ L) as Hm. pose proof (ly_pages _ _ _ _ _ _ L q Hq) as Rq.
  pose proof (page_word_in m q Hm Rq a Ha) as Hin. apply Hag. split; [apply (in_page_live m q Rq); [done | apply Ha]|].
  intros r Hr ->. assert (Hr' : r ∈ (l1 ++ p :: l2) ++ prep) by (apply elem_of_app; by left).
  assert (E : page_block r = page_block q).
  { apply (owned_apart _ _ _ _ _ _ L _ _ (spBase r + 48)); [by eapply page_owned.. | |];
      unfold in_block, page_block, PAGE_4KB in *; simpl; lia. }
  injection E as E. destruct (page_base_facts m q Hm Rq) as (_ & Hb & _).
  destruct Ha as [_ [?|(x & Hx & ?)]]; [lia|]. destruct (small_slot_bounds _ _ _ (pr_class m q Rq) Hb Hx) as (? & _). lia.
Qed.

(** The head of the class when [p] is its first page. *)
Lemma unlink_first heads rs m l1 p l2 prep flight n : layout heads rs m (l1 ++ p :: l2) prep flight ->
  class_pages (spClass p) l1 = [] -> word m (spBase p + 48) n ->
  layout (<[Z.to_nat (spClass p) := n]> heads) rs m (l1 ++ l2) prep (page_block p :: flight).
Proof.
  intros L E1 Hn. pose proof L as [L1 L2 L3 L4 L5 L6 L7 L8].
  assert (R : page_rep m p) by (apply L4, elem_of_app; left; apply elem_of_app; right; by left).
  eapply layout_without; [exact L | done | done | by rewrite length_insert | done |].
  intros c Hc. destruct (L6 c Hc) as (h & Eh & Hl). rewrite class_pages_app, class_pages_cons in Hl.
  rewrite class_pages_app. destruct (decide (spClass p = c)) as [<-|Hne].
  - rewrite E1 in *. simpl in *. destruct Hl as (-> & _ & n' & Hn' & Hl).
    assert (n' = n) as -> by (destruct Hn as [_ ?], Hn' as [_ ?]; congruence).
    exists n. split; [|done]. apply list_lookup_insert_eq. rewrite L2. lia.
  - exists h. split; [|done]. rewrite list_lookup_insert_ne; [done | pose proof (pr_class m p R); lia].
Qed.

(** The link of the page before it otherwise. *)
Lemma unlink_later heads rs m l1 z l2 p l3 prep flight n m' :
  layout heads rs m ((l1 ++ z :: l2) ++ p :: l3) prep flight -> class_pages (spClass p) l2 = [] -> spClass z = spClass p ->
  word m (spBase p + 48) n -> store (spBase z + 48) n m = Ok m' ->
  heap_ok m' /\ live m' = live m /\ agree (fun a => a <> spBase z + 48 /\ live_word (live m) a) m m' /\
  layout heads rs m' ((l1 ++ z :: l2) ++ l3) prep (page_block p :: flight).
Proof.
  intros L E2 Ecz Hn Es. pose proof L as [L1 L2 L3 L4 L5 L6 L7 L8].
  assert (Hz : z ∈ (l1 ++ z :: l2) ++ p :: l3) by (rewrite !elem_of_app, !elem_of_cons; tauto).
  assert (Hz' : z ∈ ((l1 ++ z :: l2) ++ p :: l3) ++ prep) by (apply elem_of_app; by left).
  assert (Hlw : live_word (live m) (spBase z + 48)) by (eapply next_word_in; [exact L | done | apply L4, Hz']).
  destruct (store_ok m _ n L1 Hlw) as (m1 & E & Hm' & Hl & Hv & Hag). rewrite Es in E. injection E as <-.
  split_and!; [done | done | done |].
  eapply layout_without; [exact L | done | done | done | |].
  - intros q Hq. eapply agree_pages_next; [exact L | | ].
    + by apply elem_without.
    + intros a [Ha Hne]. apply Hag. split; [by apply Hne | done].
  - intros c Hc. destruct (L6 c Hc) as (h & Eh & Hlk). exists h. split; [done|].
    assert (Hkeep : forall q v, q ∈ l1 ++ l2 ++ p :: l3 -> word m (spBase q + 48) v -> word m' (spBase q + 48) v).
    { intros q v Hq W. eapply word_agree; [exact Hag | split; [|apply W] | rewrite Hl; apply W | done].
      intros E. rewrite <- app_assoc, <- app_comm_cons in L. apply (other_page _ _ _ _ _ _ _ _ q L).
      - apply elem_of_app. by left.
      - unfold page_block. f_equal. lia. }
    assert (Hkc : forall l x v, (forall q, q ∈ l -> q ∈ l1 ++ l2 ++ p :: l3) -> x ∈ spBase <$> class_pages c l ->
              word m (x + 48) v -> word m' (x + 48) v).
    { intros l x v Hsub (q & -> & [_ Hq]%in_class)%list_elem_of_fmap. by apply Hkeep, Hsub. }
    rewrite <- app_assoc, <- app_comm_cons, class_pages_app, class_pages_cons, class_pages_app, class_pages_cons in Hlk.
    rewrite <- app_assoc, <- app_comm_cons, class_pages_app, class_pages_cons, class_pages_app.
    destruct (decide (spClass z = c)) as [<-|Hne].
    + rewrite decide_True in Hlk by done. rewrite Ecz, E2 in *. simpl in *. rewrite fmap_app, !fmap_cons in Hlk.
      rewrite fmap_app, fmap_cons. eapply linked_remove; [exact Hlk | done | |].
      * split; [by rewrite Hl | done].
      * intros x v [Hx|Hx]; (eapply Hkc; [|exact Hx]); intros q; rewrite !elem_of_app, elem_of_cons; tauto.
    + rewrite decide_False in Hlk by congruence. apply (linked_keep m); [|done]. intros x v.
      rewrite <- !class_pages_app. apply Hkc. intros q. rewrite !elem_of_app, elem_of_cons. tauto.
Qed.
End state.
