(* ===== verification/AllocCalls.v ===== *)
(** * The byte allocator: critical sections and calls

    Where the allocations lie, and a run lemma for every critical section and
    for the calls composed of them. *)

From S2P Require Import Prelude Heap Parts Kva Alloc AllocInv AllocOps AllocState.

Local Open Scope Z_scope.

Section calls.
Context {M : Type} `{RangeLaws M}.
Implicit Types (m : M) (p : SPAGE) (al : KE_ALLOCATOR).

(** ** Where the allocations are *)

Lemma page_count_size size : 1024 < size < 2 ^ 64 -> 0 < page_count size -> size <= page_count size * PAGE_4KB.
Proof.
  intros Hs. unfold page_count, HO_ALIGN_UP.
  change (not64 (PAGE_4KB - 1)) with (2 ^ 64 - 2 ^ 12). rewrite land_align_mask by (try apply u64_range; lia).
  unfold u64, PAGE_4KB. change (2 ^ 12) with 4096. div_lia.
Qed.

Section where_.
Context heads rs m pgs prep flight (L : layout heads rs m pgs prep flight).

Lemma large_bounds r : r ∈ active rs ->
  UserPointer r = BackingUsableBase r /\ 0 < UserPointer r /\ UserPointer r mod PAGE_4KB = 0 /\ 1024 < RequestedSize r /\
  RequestedSize r <= BackingUsablePages r * PAGE_4KB /\ UserPointer r + BackingUsablePages r * PAGE_4KB < 2 ^ 64.
Proof.
  intros Hr. destruct (ly_large _ _ _ _ _ _ L r Hr) as (E & Hs & Ep).
  destruct (live_bounds m (large_block r) (ly_heap _ _ _ _ _ _ L)) as (G1 & G2 & G3 & G4);
    [by apply (ly_live _ _ _ _ _ _ _ L), large_owned|]. unfold large_block in *. cbn [fst snd] in *.
  rewrite E. split_and!; try done; [lia|]. rewrite Ep in *. by apply page_count_size.
Qed.

(** An allocation is a slot in use or the block of a record. *)
Lemma alloc_cases q : q ∈ allocs rs pgs ->
  (exists p x r, p ∈ pgs /\ (x, r) ∈ spUsed p /\ q = (x + 24, r)) \/ (exists r, r ∈ active rs /\ q = large_alloc r).
Proof.
  intros [Hq|Hq]%elem_of_app.
  - apply list_elem_of_bind in Hq as (p & Hq & Hp). apply list_elem_of_fmap in Hq as ([x r] & -> & Hx). left. by exists p, x, r.
  - apply list_elem_of_fmap in Hq as (r & -> & Hr). right. by exists r.
Qed.

Lemma used_place p x r : p ∈ pgs ++ prep -> (x, r) ∈ spUsed p ->
  x ∈ small_slots (spClass p) (spBase p) /\ 1 <= r /\ x + 24 + r <= x + stride (spClass p) /\
  spBase p + 56 <= x /\ x + stride (spClass p) <= spBase p + PAGE_4KB /\ x mod 8 = 0.
Proof.
  intros Hp Hx. pose proof (ly_pages _ _ _ _ _ _ L p Hp) as R. pose proof (ly_heap _ _ _ _ _ _ L) as Hm.
  assert (Hx1 : x ∈ (spUsed p).*1) by (apply list_elem_of_fmap; by exists (x, r)).
  destruct (pr_used m p R x r Hx) as (_ & _ & Hr). destruct (class_ok _ (pr_class m p R)) as [_ _ Est _ _ _].
  destruct (page_slot_bounds m p Hm R x (or_intror Hx1)) as (? & ? & ?).
  split_and!; [apply (page_slot m p R); by right | lia..].
Qed.

(** Where a word of an allocation is. *)
Definition at_slot p x (a : Z) : Prop :=
  p ∈ pgs /\ x ∈ (spUsed p).*1 /\ x + 24 <= a < x + stride (spClass p) /\ in_block (page_block p) a.
Definition at_large (r : KE_ALLOC_LARGE_RECORD) (a : Z) : Prop := r ∈ active rs /\ in_block (large_block r) a.

Lemma alloc_at q a : q ∈ allocs rs pgs -> q.1 <= a < q.1 + q.2 ->
  (exists p x r, q = (x + 24, r) /\ (x, r) ∈ spUsed p /\ at_slot p x a) \/ (exists r, q = large_alloc r /\ at_large r a).
Proof.
  intros [(p & x & r & Hp & Hx & ->)|(r & Hr & ->)]%alloc_cases Ha; simpl in Ha.
  - left. exists p, x, r. destruct (used_place p x r) as (? & ? & ? & ? & ? & ?); [apply elem_of_app; by left | done|].
    split_and!; [done | done|]. split_and!; [done | apply list_elem_of_fmap; by exists (x, r) | lia | lia |].
    unfold in_block, page_block. simpl. lia.
  - right. exists r. destruct (large_bounds r Hr) as (E & ? & ? & ? & ? & ?). split; [done|]. split; [done|].
    unfold in_block, large_block, large_alloc in *. simpl in *. lia.
Qed.

Lemma alloc_word_at a : alloc_word (allocs rs pgs) a ->
  live_word (live m) a /\ ((exists p x, at_slot p x a) \/ exists r, at_large r a).
Proof.
  intros (H8 & q & Hq & Ha). destruct (alloc_at q a Hq Ha) as [(p & x & r & _ & _ & Hat)|(r & _ & Hat)].
  - split; [|left; by exists p, x]. split; [done|]. exists (page_block p). split; [|apply Hat].
    apply (ly_live _ _ _ _ _ _ _ L), page_owned, elem_of_app. left. apply Hat.
  - split; [|right; by exists r]. split; [done|]. exists (large_block r). split; [|apply Hat].
    apply (ly_live _ _ _ _ _ _ _ L), large_owned, Hat.
Qed.

(** Pages and records have different blocks. *)
Lemma page_not_large p r : p ∈ pgs ++ prep -> r ∈ active rs -> page_block p <> large_block r.
Proof.
  intros Hp Hr E. pose proof (ly_nodup _ _ _ _ _ _ L) as Hn. unfold owned in Hn.
  apply NoDup_app in Hn as (_ & Hd & _). apply (Hd (page_block p)); [by apply list_elem_of_fmap_2|].
  apply elem_of_app. left. rewrite E. by apply list_elem_of_fmap_2.
Qed.

Lemma large_unique r r' : r ∈ active rs -> r' ∈ active rs -> large_block r = large_block r' -> large_alloc r = large_alloc r'.
Proof.
  intros Hr Hr' E. pose proof (ly_nodup _ _ _ _ _ _ L) as Hn. unfold owned in Hn.
  apply NoDup_app in Hn as (_ & _ & Hn). apply NoDup_app in Hn as (Hn & _).
  apply list_elem_of_lookup in Hr as [i Hi]. apply list_elem_of_lookup in Hr' as [j Hj].
  assert (i = j) as ->; [|congruence]. apply (NoDup_lookup _ _ _ (large_block r) Hn); rewrite list_lookup_fmap.
  - by rewrite Hi.
  - rewrite Hj. simpl. by rewrite E.
Qed.

(** A byte belongs to at most one allocation. *)
Lemma allocs_apart q1 q2 a : q1 ∈ allocs rs pgs -> q2 ∈ allocs rs pgs ->
  q1.1 <= a < q1.1 + q1.2 -> q2.1 <= a < q2.1 + q2.2 -> q1 = q2.
Proof.
  intros G1 G2 Ha1 Ha2.
  assert (Hpg : forall p, p ∈ pgs -> p ∈ pgs ++ prep) by (intros p Hp; apply elem_of_app; by left).
  destruct (alloc_at q1 a G1 Ha1) as [(p1 & x1 & r1 & -> & U1 & P1 & _ & S1 & B1)|(r1 & -> & R1 & B1)];
    destruct (alloc_at q2 a G2 Ha2) as [(p2 & x2 & r2 & -> & U2 & P2 & _ & S2 & B2)|(r2 & -> & R2 & B2)].
  - assert (page_block p1 = page_block p2) as E.
    { apply (owned_apart _ _ _ _ _ _ L _ _ a); [eapply page_owned; by apply Hpg.. | done | done]. }
    injection E as E. assert (p1 = p2) as -> by (apply (page_unique _ _ _ _ _ _ L); auto).
    destruct (used_place p2 x1 r1 (Hpg _ P2) U1) as (X1 & _). destruct (used_place p2 x2 r2 (Hpg _ P2) U2) as (X2 & _).
    pose proof (ly_pages _ _ _ _ _ _ L p2 (Hpg _ P2)) as R.
    assert (x1 = x2) as -> by (apply (small_slot_apart _ _ _ _ (pr_class m p2 R) X1 X2); lia).
    pose proof (page_slots_nodup m p2 R) as Hn. apply NoDup_app in Hn as (_ & _ & Hn).
    apply list_elem_of_lookup in U1 as [i Hi]. apply list_elem_of_lookup in U2 as [j Hj].
    assert (i = j) as ->; [|congruence].
    apply (NoDup_lookup _ _ _ x2 Hn); rewrite list_lookup_fmap; [by rewrite Hi | by rewrite Hj].
  - exfalso. apply (page_not_large p1 r2 (Hpg _ P1) R2).
    apply (owned_apart _ _ _ _ _ _ L _ _ a); [by eapply page_owned, Hpg | by eapply large_owned | done | done].
  - exfalso. apply (page_not_large p2 r1 (Hpg _ P2) R1).
    apply (owned_apart _ _ _ _ _ _ L _ _ a); [by eapply page_owned, Hpg | by eapply large_owned | done | done].
  - apply large_unique; [done | done|].
    apply (owned_apart _ _ _ _ _ _ L _ _ a); [by eapply large_owned.. | done | done].
Qed.

Lemma page_not_flight p b : p ∈ pgs ++ prep -> b ∈ flight -> page_block p <> b.
Proof.
  intros Hp Hb E. pose proof (ly_nodup _ _ _ _ _ _ L) as Hn. unfold owned in Hn.
  apply NoDup_app in Hn as (_ & Hd & _). apply (Hd (page_block p)); [by apply list_elem_of_fmap_2|].
  apply elem_of_app. right. by rewrite E.
Qed.

(** The words of an allocation describe no page. *)
Lemma alloc_not_meta a : alloc_word (allocs rs pgs) a -> ~ meta pgs prep a.
Proof.
  intros Ha Hmeta. destruct (alloc_word_at a Ha) as [_ [(p & x & Hp & Hx & Hin & Hb)|(r & Hr & Hb)]].
  - destruct Hmeta as (q & Hq & Hqa). pose proof (ly_heap _ _ _ _ _ _ L) as Hm.
    assert (Hp' : p ∈ pgs ++ prep) by (apply elem_of_app; by left).
    pose proof (ly_pages _ _ _ _ _ _ L q Hq) as Rq.
    assert (Hbq : in_block (page_block q) a).
    { unfold in_block, page_block. simpl. destruct Hqa as [Hqa| ->]; [|unfold PAGE_4KB; lia].
      pose proof (page_word_in m q Hm Rq a Hqa). lia. }
    assert (p = q) as ->.
    { apply (page_unique _ _ _ _ _ _ L); [done | done|].
      pose proof (owned_apart _ _ _ _ _ _ L _ _ a (page_owned _ _ _ _ _ Hp') (page_owned _ _ _ _ _ Hq) Hb Hbq) as E.
      by injection E. }
    pose proof (page_slot m q Rq x (or_intror Hx)) as Hxs. destruct Hqa as [Hqa| ->].
    + by apply (user_not_page_word m q Hm Rq x a Hxs).
    + destruct (page_slot_bounds m q Hm Rq x (or_intror Hx)). lia.
  - apply (meta_apart _ _ _ _ _ _ L (large_block r) a); [by eapply large_owned | | done | done].
    intros q Hq E. by apply (page_not_large q r Hq Hr).
Qed.

Lemma kept_not_meta a : kept_word rs pgs flight a -> ~ meta pgs prep a.
Proof.
  intros [Ha|(H8 & b & Hb & Ha)]; [by apply alloc_not_meta|].
  apply (meta_apart _ _ _ _ _ _ L b a); [by apply flight_owned | | done].
  intros p Hp E. by apply (page_not_flight p b Hp Hb).
Qed.

Lemma kept_live a : kept_word rs pgs flight a -> live_word (live m) a.
Proof.
  intros [Ha|(H8 & b & Hb & Ha)]; [by apply alloc_word_at in Ha as [? _]|].
  split; [done|]. exists b. split; [|done]. by apply (ly_live _ _ _ _ _ _ _ L), flight_owned.
Qed.

(** A kept word of a page's block belongs to a slot in use there. *)
Lemma kept_in_page p a : p ∈ pgs ++ prep -> kept_word rs pgs flight a -> in_block (page_block p) a ->
  exists x, at_slot p x a.
Proof.
  intros Hp Ha Hin.
  assert (Hone : forall b, b ∈ owned rs pgs prep flight -> in_block b a -> page_block p = b).
  { intros b Hb Hb'. apply (owned_apart _ _ _ _ _ _ L _ _ a); [by apply page_owned | done..]. }
  destruct Ha as [Ha|(_ & b & Hb & Ha)].
  - destruct (alloc_word_at a Ha) as [_ [(q & x & Hat)|(r & Hr & Hb)]].
    + assert (Hq : q ∈ pgs ++ prep) by (apply elem_of_app; left; apply Hat).
      assert (p = q) as ->; [|by exists x]. apply (page_unique _ _ _ _ _ _ L); [done | done|].
      assert (E : page_block p = page_block q) by (apply Hone; [by apply page_owned | apply Hat]). by injection E.
    + exfalso. apply (page_not_large p r Hp Hr), Hone; [by eapply large_owned | done].
  - exfalso. apply (page_not_flight p b Hp Hb), Hone; [by apply flight_owned | done].
Qed.
End where_.

(** ** Bounds that keep the counters from wrapping *)

Lemma pages_bound heads rs m pgs prep flight : layout heads rs m pgs prep flight ->
  Z.of_nat (length pgs) <= ARENA_PAGES.
Proof.
  intros L. pose proof (live_few m (ly_heap _ _ _ _ _ _ L)).
  pose proof (Permutation_length (ly_perm _ _ _ _ _ _ L)) as Hs. unfold owned in Hs. rewrite !length_app, length_fmap, length_app in Hs. lia.
Qed.

Lemma used_bound heads rs m pgs prep flight : layout heads rs m pgs prep flight ->
  Z.of_nat (length (pgs ≫= spUsed)) <= 101 * ARENA_PAGES.
Proof.
  intros L. pose proof (pages_bound _ _ _ _ _ _ L).
  enough (Z.of_nat (length (pgs ≫= spUsed)) <= 101 * Z.of_nat (length pgs)) by lia.
  assert (HR : forall p, p ∈ pgs -> page_rep m p) by (intros p Hp; apply (ly_pages _ _ _ _ _ _ L), elem_of_app; by left).
  clear L. induction pgs as [|p l IH]; [done|]. rewrite bind_cons, length_app. cbn [length] in *.
  pose proof (page_counts m p (HR p ltac:(by left))). destruct (class_ok _ (pr_class m p (HR p ltac:(by left)))).
  assert (Hl : Z.of_nat (length l) <= ARENA_PAGES) by lia.
  specialize (IH Hl (fun q Hq => HR q ltac:(by right))). lia.
Qed.

Lemma active_bound heads rs m pgs prep flight : layout heads rs m pgs prep flight -> Z.of_nat (length (active rs)) <= 128.
Proof.
  intros L. assert (Hl : (length (active rs) <= length rs)%nat) by apply length_filter.
  rewrite (ly_records _ _ _ _ _ _ L) in Hl. lia.
Qed.

Lemma total_pages_blocks l : total_pages (page_block <$> l) = Z.of_nat (length l).
Proof. induction l as [|p l IH]; [done|]. rewrite fmap_cons. unfold total_pages in *. simpl. rewrite IH. lia. Qed.

Lemma total_pages_nonneg m bs : heap_ok m -> (forall b, b ∈ bs -> b ∈ live m) -> 0 <= total_pages bs.
Proof.
  intros Hm. induction bs as [|b bs IH]; intros Hl; [done|]. destruct (live_bounds m b Hm (Hl b ltac:(by left))) as (_ & _ & ? & _).
  specialize (IH (fun c Hc => Hl c ltac:(by right))). simpl in *. unfold total_pages in *. lia.
Qed.

(** All the blocks the allocator holds fit the address space. *)
Lemma bytes_bound heads rs m pgs prep flight : layout heads rs m pgs prep flight ->
  (Z.of_nat (length pgs + length prep) + total_pages (large_block <$> active rs) + total_pages flight) < 2 ^ 52 /\
  0 <= total_pages (large_block <$> active rs) /\ 0 <= total_pages flight.
Proof.
  intros L. pose proof (ly_heap _ _ _ _ _ _ L) as Hm.
  destruct (live_total_bound m (owned rs pgs prep flight) Hm (ly_nodup _ _ _ _ _ _ L) (fun b => ly_live _ _ _ _ _ _ b L)) as [_ Hb].
  unfold owned in Hb. rewrite !total_pages_app, total_pages_blocks, length_app in Hb. split_and!; [lia | |].
  - apply (total_pages_nonneg m); [done|]. intros b Hb'. apply (ly_live _ _ _ _ _ _ _ L).
    apply elem_of_app. right. apply elem_of_app. by left.
  - apply (total_pages_nonneg m); [done|]. intros b Hb'. apply (ly_live _ _ _ _ _ _ _ L). by apply flight_owned.
Qed.

Lemma counts_small heads rs m pgs prep flight st : layout heads rs m pgs prep flight -> stats_ok st rs pgs ->
  0 <= LiveSmallAllocationCount st < 2 ^ 32 /\ 0 <= LiveLargeAllocationCount st < 2 ^ 32 /\ is_u64 (BackingBytes st).
Proof.
  intros L [S1 S2 S3 S4 S5]. pose proof (used_bound _ _ _ _ _ _ L). pose proof (active_bound _ _ _ _ _ _ L).
  destruct (bytes_bound _ _ _ _ _ _ L) as (? & ? & ?). rewrite S1, S2, S4. unfold ARENA_PAGES, PAGE_4KB in *. word_lia.
Qed.

(** ** Taking a slot *)

(** A request served: the allocations afterwards, what is kept of the others,
    and what the caller gets. *)
Record granted al m (pgs : list SPAGE) (flight : list (Z * Z)) (ptr size : Z) (zeroed : bool) al' m' (pgs' : list SPAGE) : Prop := {
  gr_allocs : Permutation (allocs (gAllocatorLargeRecords al') pgs') ((ptr, size) :: allocs (gAllocatorLargeRecords al) pgs);
  gr_kept : agree (kept_word (gAllocatorLargeRecords al) pgs flight) m m';
  gr_ptr : 0 < ptr /\ ptr mod 8 = 0;
  gr_zero : zeroed = true -> forall i, 0 <= i < size -> load_part (ptr + i) 1 m' = Ok 0;
  gr_busy : busy pgs -> busy pgs';
}.

(** The words a slot's change writes are none of another allocation's. *)
Lemma slot_words_apart heads rs m pgs prep flight p x a : layout heads rs m pgs prep flight -> p ∈ pgs -> x ∈ spFree p ->
  kept_word rs pgs flight a -> live_word (live m) a /\ ~ slot_words p x a.
Proof.
  intros L Hp Hx Ha. split; [by eapply kept_live|]. intros Hs.
  assert (Hp' : p ∈ pgs ++ prep) by (apply elem_of_app; by left).
  pose proof (ly_pages _ _ _ _ _ _ L p Hp') as R. pose proof (ly_heap _ _ _ _ _ _ L) as Hm.
  destruct (page_slot_bounds m p Hm R x (or_introl Hx)) as (B1 & B2 & _).
  assert (Hbp : in_block (page_block p) a).
  { unfold in_block, page_block. simpl. unfold slot_words in Hs. unfold PAGE_4KB in *. lia. }
  destruct (kept_in_page _ _ _ _ _ _ L p a Hp' Ha Hbp) as (y & _ & Hy & Hin & _).
  destruct (page_slot_bounds m p Hm R y (or_intror Hy)) as (B3 & B4 & _).
  destruct Hs as [?|[?|Hs]]; [lia | lia|].
  assert (x = y) as ->.
  { apply (small_slot_apart (spClass p) (spBase p)); [apply R | apply (page_slot m p R); auto.. | lia | lia]. }
  pose proof (page_slots_nodup m p R) as Hn. apply NoDup_app in Hn as (_ & Hd & _). by apply (Hd y).
Qed.

Lemma take_slot_run al m l1 p l2 prep flight x F' size zeroed :
  alloc_ok al m (l1 ++ p :: l2) prep flight -> spFree p = x :: F' -> 1 <= size <= csize (spClass p) ->
  exists m' pgs', KiAllocatorAllocFromSmallPage (spBase p) size zeroed m = Ok (x + 24, m') /\
    alloc_ok (count_small al) m' pgs' prep flight /\ live m' = live m /\
    granted al m (l1 ++ p :: l2) flight (x + 24) size zeroed (count_small al) m' pgs' /\
    (busy (l1 ++ l2) -> busy pgs').
Proof.
  intros (Hi & L & S) EF Hs. assert (Hp : p ∈ l1 ++ p :: l2) by (apply elem_of_app; right; by left).
  assert (R : page_rep m p) by (apply (ly_pages _ _ _ _ _ _ L), elem_of_app; by left).
  pose proof (ly_heap _ _ _ _ _ _ L) as Hm.
  destruct (take_first_run m p x F' size zeroed Hm R EF Hs) as (m' & E & Hm' & Hl & R' & Hz & Hag).
  set (p' := mkPage (spBase p) (spClass p) F' ((x, size) :: spUsed p)) in *.
  destruct (page_slot_bounds m p Hm R x) as (B1 & B2 & B3); [left; rewrite EF; by left|].
  destruct (page_base_facts m p Hm R) as (Hb0 & _ & _).
  assert (Hbusy : busy (l1 ++ l2) -> busy (l1 ++ p' :: l2)).
  { intros Hb q. rewrite elem_of_app, elem_of_cons. intros [Hq|[->|Hq]]; [|done|]; apply Hb, elem_of_app; auto. }
  exists m', (l1 ++ p' :: l2). split; [done|]. split; [|split; [done|split; [|done]]].
  - split; [done|]. split.
    + eapply layout_update; [exact L | exact R' | done | done | done | done |].
      eapply agree_weaken; [|exact Hag]. intros a [Ha Hout]. split; [done|]. unfold slot_words, in_block, page_block, PAGE_4KB in *.
      simpl in Hout. lia.
    + destruct (counts_small _ _ _ _ _ _ _ L S) as (C1 & C2 & _). destruct S as [S1 S2 S3 S4 S5].
      assert (Eu : Z.of_nat (length ((l1 ++ p' :: l2) ≫= spUsed)) = Z.of_nat (length ((l1 ++ p :: l2) ≫= spUsed)) + 1).
      { rewrite !bind_app, !bind_cons, !length_app. simpl. lia. }
      split; simpl; [| done | | | done].
      * rewrite u64_small by word_lia. lia.
      * rewrite !u64_small by word_lia. lia.
      * rewrite S4, !length_app. simpl. done.
  - split; [| |split; [lia | div_lia] | done | ].
    3: { intros Hb. apply Hbusy. intros q Hq. apply Hb. rewrite elem_of_app, elem_of_cons. apply elem_of_app in Hq. tauto. }
    + assert (Ep : page_allocs p' = (x + 24, size) :: page_allocs p) by done.
      unfold allocs. cbn [count_small set_stats gAllocatorLargeRecords]. rewrite !bind_app, !bind_cons, Ep, <- !app_assoc, <- app_comm_cons.
      symmetry. apply Permutation_middle.
    + eapply agree_weaken; [|exact Hag]. intros a Ha.
      eapply slot_words_apart; [exact L | done | rewrite EF; by left | done].
Qed.

(** ** The critical sections of the small allocations *)

Lemma head_run heads rs m pgs prep flight c : layout heads rs m pgs prep flight -> 0 <= c < 7 ->
  exists h, rd heads c = Ok h /\ heads !! Z.to_nat c = Some h /\ linked m 48 h (spBase <$> class_pages c pgs).
Proof.
  intros L Hc. destruct (ly_class _ _ _ _ _ _ L c Hc) as (h & E & Hl). exists h. split; [|done]. apply rd_ok. split; [lia | done].
Qed.

Lemma walk_enough heads rs m pgs prep flight c : layout heads rs m pgs prep flight ->
  (length (class_pages c pgs) <= walk_fuel)%nat.
Proof.
  intros L. pose proof (pages_bound _ _ _ _ _ _ L). assert ((length (class_pages c pgs) <= length pgs)%nat) by apply length_filter.
  unfold walk_fuel. lia.
Qed.

Lemma small_try_run al m pgs prep flight c size zeroed : alloc_ok al m pgs prep flight -> 0 <= c < 7 -> 1 <= size <= csize c ->
  exists o al' m' pgs', small_try c size zeroed al m = Ok (o, al', m') /\ alloc_ok al' m' pgs' prep flight /\ live m' = live m /\
    match o with
    | None => al' = al /\ m' = m /\ pgs' = pgs /\ forall p, p ∈ pgs -> spClass p = c -> spFree p = []
    | Some ptr => granted al m pgs flight ptr size zeroed al' m' pgs' /\ exists p, p ∈ pgs /\ spClass p = c /\ spFree p <> []
    end.
Proof.
  intros A Hc Hs. pose proof A as (_ & L & _). pose proof (ly_heap _ _ _ _ _ _ L) as Hm. unfold small_try.
  destruct (head_run _ _ _ _ _ _ c L Hc) as (h & -> & _ & Hl). cbn [res_bind].
  assert (HR : forall p, p ∈ class_pages c pgs -> page_rep m p).
  { intros p [_ Hp]%in_class. apply (ly_pages _ _ _ _ _ _ L), elem_of_app. by left. }
  destruct (room_run m (class_pages c pgs) h walk_fuel Hm HR Hl) as (x & -> & Hx); [by eapply walk_enough|]. cbn [res_bind].
  destruct Hx as [[-> Hall]|(p & [Hpc Hp]%in_class & -> & Hne)].
  - rewrite Z.eqb_refl. exists None, al, m, pgs. split_and!; try done. intros p Hp Hpc. apply Hall, in_class. done.
  - assert (R : page_rep m p) by (apply HR, in_class; done). destruct (page_base_facts m p Hm R) as (? & _).
    rewrite (proj2 (Z.eqb_neq _ 0)) by lia. pose proof Hp as Hp0. apply list_elem_of_split in Hp as (l1 & l2 & ->).
    destruct (spFree p) as [|y F'] eqn:EF; [done|].
    destruct (take_slot_run al m l1 p l2 prep flight y F' size zeroed A EF) as (m' & pgs' & -> & A' & Hl' & G & _); [by rewrite Hpc|].
    cbn [res_bind]. pose proof (gr_ptr _ _ _ _ _ _ _ _ _ _ G) as [? _]. rewrite (proj2 (Z.eqb_neq (y + 24) 0)) by lia. cbn [negb].
    do 4 eexists. split; [done|]. split; [done|]. split; [done|]. split; [done|]. exists p. by rewrite EF.
Qed.

Lemma stats_backing st rs m heads pgs p prep flight : layout heads rs m pgs (p :: prep) flight -> stats_ok st rs pgs -> spUsed p = [] ->
  stats_ok (mkStats (LiveAllocationCount st) (LiveSmallAllocationCount st) (LiveLargeAllocationCount st)
    (u64 (BackingBytes st + KiAllocatorBackingBytes 1)) (FailedAllocationCount st)) rs (p :: pgs).
Proof.
  intros L [S1 S2 S3 S4 S5] EU. destruct (bytes_bound _ _ _ _ _ _ L) as (B1 & B2 & B3). cbn [length] in B1.
  split; cbn [LiveSmallAllocationCount LiveLargeAllocationCount LiveAllocationCount BackingBytes FailedAllocationCount]; try done.
  - rewrite bind_cons, EU. done.
  - rewrite S4. change (KiAllocatorBackingBytes 1) with PAGE_4KB. cbn [length]. unfold PAGE_4KB in *. rewrite u64_small by word_lia. lia.
Qed.

Lemma small_publish_run al m p pgs prep flight size zeroed : alloc_ok al m pgs (p :: prep) flight -> 1 <= size <= csize (spClass p) ->
  exists ptr al' m' pgs', small_publish (spClass p) (spBase p) size zeroed al m = Ok (ptr, al', m') /\
    alloc_ok al' m' pgs' prep flight /\ live m' = live m /\ granted al m pgs flight ptr size zeroed al' m' pgs'.
Proof.
  intros (Hi & L & S) Hs. assert (Hp : p ∈ pgs ++ p :: prep) by (apply elem_of_app; right; by left).
  assert (R : page_rep m p) by (by apply (ly_pages _ _ _ _ _ _ L)). pose proof (ly_heap _ _ _ _ _ _ L) as Hm.
  assert (EU : spUsed p = []) by (apply (ly_prep _ _ _ _ _ _ L); by left).
  unfold small_publish. destruct (head_run _ _ _ _ _ _ (spClass p) L (pr_class m p R)) as (h & -> & Eh & _). cbn [res_bind].
  assert (Hlw : live_word (live m) (spBase p + 48)) by (eapply next_word_in; [exact L | done | apply R]).
  destruct (store_ok m _ h Hm Hlw) as (m1 & E1 & _). fold (spBase p + page_Next) in E1.
  change (spBase p + 48) with (spBase p + page_Next) in E1. rewrite E1. cbn [res_bind].
  destruct (layout_publish _ _ _ _ _ _ _ _ _ L Eh E1) as (Hm1 & Hl1 & L1 & Hag1).
  rewrite wr_in by (rewrite (ly_heads _ _ _ _ _ _ L); pose proof (pr_class m p R); lia). cbn [res_bind].
  assert (R1 : page_rep m1 p) by (apply (ly_pages _ _ _ _ _ _ L1); simpl; by left).
  unfold page_BackingUsablePages. rewrite (load_of_word _ _ _ (pr_pages m1 p R1)). cbn [res_bind].
  set (al1 := add_backing _ _).
  assert (A1 : alloc_ok al1 m1 (p :: pgs) prep flight).
  { split; [done|]. split; [done|]. eapply stats_backing; [exact L | done | done]. }
  destruct (spFree p) as [|x F'] eqn:EF.
  { pose proof (page_counts m p R) as Hc. rewrite EF, EU in Hc. destruct (class_ok _ (pr_class m p R)). simpl in Hc. lia. }
  destruct (take_slot_run al1 m1 [] p pgs prep flight x F' size zeroed A1 EF Hs) as (m2 & pgs' & -> & A2 & Hl2 & G & Hbusy).
  cbn [res_bind]. pose proof G as [G1 G2 [G3 G3'] G4 _]. rewrite (proj2 (Z.eqb_neq (x + 24) 0)) by lia. cbn [negb].
  do 4 eexists. split; [done|]. split; [done|]. split; [congruence|]. split; [|  |done|done|done].
  - rewrite G1. unfold allocs. cbn [app]. rewrite bind_cons. unfold page_allocs at 1. by rewrite EU.
  - eapply agree_trans; [|eapply agree_weaken; [|exact Hag1]|].
    + intros a Ha. exact Ha.
    + intros a Ha. split; [by eapply kept_live|]. intros Hb.
      destruct (kept_in_page _ _ _ _ _ _ L p a Hp Ha Hb) as (x' & Hp2 & _).
      pose proof (pages_nodup _ _ _ _ _ _ L) as Hn. rewrite <- Permutation_middle, fmap_cons in Hn.
      apply NoDup_cons in Hn as [Hn _]. apply Hn. apply list_elem_of_fmap_2, elem_of_app. by left.
    + eapply agree_weaken; [|exact G2]. intros a Ha. unfold kept_word, allocs in *. cbn [app]. rewrite bind_cons.
      unfold page_allocs at 1. by rewrite EU.
Qed.

(** ** The critical sections of the large allocations *)

Lemma find_unused_run i rs : 
  match find_unused i rs with
  | Some j => exists r, i <= j < i + Z.of_nat (length rs) /\ rs !! Z.to_nat (j - i) = Some r /\ InUse r = false
  | None => forall r, r ∈ rs -> InUse r = true
  end.
Proof.
  revert i. induction rs as [|r rs IH]; intros i; simpl; [by intros r Hr%not_elem_of_nil|].
  destruct (InUse r) eqn:E; simpl.
  - specialize (IH (i + 1)). destruct (find_unused (i + 1) rs) as [j|].
    + destruct IH as (r' & Hj & Hr' & Eu). exists r'. split_and!; [lia | lia | | done].
      replace (Z.to_nat (j - i)) with (S (Z.to_nat (j - (i + 1)))) by lia. done.
    + intros r' [->|Hr']%elem_of_cons; [done | by apply IH].
  - exists r. split_and!; [lia | lia | | done]. by rewrite Z.sub_diag.
Qed.

Lemma find_large_run i ptr rs :
  match find_large i ptr rs with
  | Some (j, r) => i <= j < i + Z.of_nat (length rs) /\ rs !! Z.to_nat (j - i) = Some r /\ InUse r = true /\ UserPointer r = ptr
  | None => forall r, r ∈ active rs -> UserPointer r <> ptr
  end.
Proof.
  revert i. induction rs as [|r rs IH]; intros i; simpl; [by intros r Hr%not_elem_of_nil|].
  destruct (negb (InUse r) || negb (UserPointer r =? ptr)) eqn:E.
  - specialize (IH (i + 1)). destruct (find_large (i + 1) ptr rs) as [[j r']|].
    + destruct IH as (Hj & Hr' & Eu). split_and!; [lia | lia | | apply Eu | apply Eu].
      by replace (Z.to_nat (j - i)) with (S (Z.to_nat (j - (i + 1)))) by lia.
    + unfold active. rewrite filter_cons. destruct (decide (InUse r = true)) as [Hu|Hu]; [|done].
      intros r' [->|Hr']%elem_of_cons; [|by apply IH]. rewrite Hu in E. simpl in E.
      by apply negb_true_iff, Z.eqb_neq in E.
  - apply orb_false_iff in E as [E1%negb_false_iff E2%negb_false_iff%Z.eqb_eq].
    rewrite Z.sub_diag. split_and!; [lia | lia | done..].
Qed.

Lemma active_take rs k r r' : rs !! k = Some r -> InUse r = false -> InUse r' = true ->
  Permutation (active (<[k := r']> rs)) (r' :: active rs).
Proof.
  intros Hk Hu Hu'. apply list_elem_of_split_length in Hk as (l1 & l2 & -> & ->).
  rewrite insert_app_r_alt, Nat.sub_diag by lia. simpl. unfold active. rewrite !filter_app, !filter_cons.
  rewrite decide_True, decide_False by congruence. symmetry. apply Permutation_middle.
Qed.

Lemma active_drop rs k r : rs !! k = Some r -> InUse r = true ->
  Permutation (active rs) (r :: active (<[k := free_record]> rs)).
Proof.
  intros Hk Hu. apply list_elem_of_split_length in Hk as (l1 & l2 & -> & ->).
  rewrite insert_app_r_alt, Nat.sub_diag by lia. simpl. unfold active. rewrite !filter_app, !filter_cons.
  rewrite decide_True, decide_False by (done || congruence). symmetry. apply Permutation_middle.
Qed.

(** What changes when blocks move between records and threads. *)
Lemma layout_records heads rs rs' m pgs prep flight flight' : layout heads rs m pgs prep flight -> length rs' = 128%nat ->
  (forall r, r ∈ active rs' -> large_ok r) ->
  Permutation ((large_block <$> active rs) ++ flight) ((large_block <$> active rs') ++ flight') ->
  layout heads rs' m pgs prep flight'.
Proof.
  intros [L1 L2 L3 L4 L5 L6 L7 L8] Hlen Hok Hp.
  assert (Ho : Permutation (owned rs pgs prep flight) (owned rs' pgs prep flight')) by (unfold owned; by rewrite Hp).
  split; try done. by rewrite <- Ho.
Qed.

Lemma failure_ok al m pgs prep flight : alloc_ok al m pgs prep flight -> alloc_ok (count_failure al) m pgs prep flight.
Proof. intros (Hi & L & [S1 S2 S3 S4 S5]). split; [done|]. split; [done|]. split; try done. simpl. apply u64_range. Qed.

Lemma large_record_run al m base size rg pgs prep flight :
  alloc_ok al m pgs prep ((base, page_count size) :: flight) -> 1024 < size < 2 ^ 64 ->
  Kva.RgUsableBase rg = base -> Kva.RgUsablePages rg = page_count size ->
  exists ok al', large_record base size rg al = Ok (ok, al') /\
    if (ok : bool) then alloc_ok al' m pgs prep flight /\
       Permutation (allocs (gAllocatorLargeRecords al') pgs) ((base, size) :: allocs (gAllocatorLargeRecords al) pgs)
    else al' = count_failure al /\ forall r, r ∈ gAllocatorLargeRecords al -> InUse r = true.
Proof.
  intros (Hi & L & S) Hs Eb En. unfold large_record. pose proof (find_unused_run 0 (gAllocatorLargeRecords al)) as F.
  destruct (find_unused 0 (gAllocatorLargeRecords al)) as [j|]; [|by exists false, (count_failure al)].
  destruct F as (r & Hj & Hr & Hu). rewrite Z.sub_0_r in Hr. rewrite wr_in by lia. cbn [res_bind]. rewrite Eb, En.
  set (rec := mkLarge true base size base (page_count size)). set (rs' := <[Z.to_nat j := rec]> (gAllocatorLargeRecords al)).
  assert (Ha : Permutation (active rs') (rec :: active (gAllocatorLargeRecords al))) by (by eapply active_take).
  assert (L' : layout (gAllocatorSmallPages al) rs' m pgs prep flight).
  { eapply layout_records; [exact L | unfold rs'; rewrite length_insert; apply L | |].
    - intros r'. rewrite Ha. intros [->|Hr']%elem_of_cons; [split; [done|]; by split|]. by apply (ly_large _ _ _ _ _ _ L).
    - rewrite Ha. simpl. symmetry. apply Permutation_middle. }
  exists true. eexists. split; [done|]. split.
  - split; [done|]. split; [done|]. destruct (counts_small _ _ _ _ _ _ _ L S) as (C1 & C2 & C3).
    destruct (bytes_bound _ _ _ _ _ _ L') as (B1 & B2 & B3). destruct S as [S1 S2 S3 S4 S5]. simpl.
    assert (Et : total_pages (large_block <$> active rs') = page_count size + total_pages (large_block <$> active (gAllocatorLargeRecords al))).
    { rewrite (total_pages_perm _ _ (fmap_Permutation large_block _ _ Ha)). done. }
    assert (El : Z.of_nat (length (active rs')) = Z.of_nat (length (active (gAllocatorLargeRecords al))) + 1) by (rewrite Ha; simpl; lia).
    destruct (bytes_bound _ _ _ _ _ _ L) as (B1' & B2' & B3'). unfold total_pages in B1', B3'. cbn [foldr fst snd] in B1', B3'.
    fold (total_pages flight) in B1', B3'.
    assert (0 <= page_count size).
    { unfold page_count, HO_ALIGN_UP. apply Z.div_pos; [|done]. apply Z.land_nonneg. left. apply u64_range. }
    split; simpl; fold rs'.
    + done.
    + rewrite El, u64_small by word_lia. lia.
    + rewrite !u64_small by word_lia. lia.
    + rewrite Et. unfold KiAllocatorBackingBytes. unfold PAGE_4KB in *. rewrite (u64_small (page_count size * 4096)) by word_lia.
      rewrite u64_small by word_lia. lia.
    + done.
  - unfold allocs. simpl. fold rs'. rewrite Ha. simpl. symmetry. apply Permutation_middle.
Qed.

Lemma free_large_run al m ptr pgs prep flight : alloc_ok al m pgs prep flight ->
  exists o al', free_large_section ptr al = Ok (o, al') /\
    match o with
    | None => al' = al /\ forall r, r ∈ active (gAllocatorLargeRecords al) -> UserPointer r <> ptr
    | Some b => b = ptr /\ exists size, (exists r, r ∈ active (gAllocatorLargeRecords al) /\ UserPointer r = ptr /\ RequestedSize r = size) /\
        alloc_ok al' m pgs prep ((b, page_count size) :: flight) /\
        Permutation (allocs (gAllocatorLargeRecords al) pgs) ((ptr, size) :: allocs (gAllocatorLargeRecords al') pgs)
    end.
Proof.
  intros (Hi & L & S). unfold free_large_section. pose proof (find_large_run 0 ptr (gAllocatorLargeRecords al)) as F.
  destruct (find_large 0 ptr (gAllocatorLargeRecords al)) as [[j r]|]; [|by exists None, al].
  destruct F as (Hj & Hr & Hu & Ep). rewrite Z.sub_0_r in Hr. rewrite wr_in by lia. cbn [res_bind].
  set (rs' := <[Z.to_nat j := free_record]> (gAllocatorLargeRecords al)).
  assert (Ha : Permutation (active (gAllocatorLargeRecords al)) (r :: active rs')) by (by apply active_drop).
  assert (Hra : r ∈ active (gAllocatorLargeRecords al)) by (rewrite Ha; by left).
  destruct (ly_large _ _ _ _ _ _ L r Hra) as (Eb & Hs & En).
  assert (L' : layout (gAllocatorSmallPages al) rs' m pgs prep (large_block r :: flight)).
  { eapply layout_records; [exact L | unfold rs'; rewrite length_insert; apply L | |].
    - intros r' Hr'. apply (ly_large _ _ _ _ _ _ L). rewrite Ha. by right.
    - rewrite Ha. simpl. apply Permutation_middle. }
  destruct (counts_small _ _ _ _ _ _ _ L S) as (C1 & C2 & C3).
  destruct (bytes_bound _ _ _ _ _ _ L') as (B1 & B2 & B3).
  assert (Et : total_pages (large_block <$> active (gAllocatorLargeRecords al)) = BackingUsablePages r + total_pages (large_block <$> active rs')).
  { rewrite (total_pages_perm _ _ (fmap_Permutation large_block _ _ Ha)). done. }
  assert (El : Z.of_nat (length (active (gAllocatorLargeRecords al))) = Z.of_nat (length (active rs')) + 1) by (rewrite Ha; simpl; lia).
  destruct (live_bounds m (large_block r) (ly_heap _ _ _ _ _ _ L)) as (_ & _ & Hn & Hnb).
  { by apply (ly_live _ _ _ _ _ _ _ L), large_owned. }
  unfold large_block in Hn, Hnb. cbn [fst snd] in Hn, Hnb. destruct S as [S1 S2 S3 S4 S5].
  unfold uncount_large. cbn [set_large gAllocatorStats]. rewrite (proj2 (Z.ltb_lt 0 _)) by lia. cbn [HO_KASSERT res_bind].
  rewrite (proj2 (Z.ltb_lt 0 _)) by lia. cbn [HO_KASSERT res_bind].
  unfold sub_backing. cbn [set_stats gAllocatorStats BackingBytes]. unfold KiAllocatorBackingBytes, PAGE_4KB in *.
  rewrite (u64_small (BackingUsablePages r * 4096)) by word_lia.
  rewrite (proj2 (Z.leb_le _ _)) by lia. cbn [HO_KASSERT res_bind].
  do 2 eexists. split; [done|]. rewrite <- Eb, Ep. split; [done|]. exists (RequestedSize r). split; [by exists r|]. split.
  - split; [done|]. split.
    + unfold large_block in L'. rewrite <- Eb, Ep, En in L'. exact L'.
    + split; simpl; fold rs'; [done | | | | done].
      * rewrite u64_small by word_lia. lia.
      * rewrite !u64_small by word_lia. lia.
      * unfold PAGE_4KB. rewrite u64_small by word_lia. lia.
  - unfold allocs. simpl. fold rs'. rewrite Ha. simpl. unfold large_alloc at 1. rewrite Ep. symmetry. apply Permutation_middle.
Qed.

(** ** The critical section of freeing a small allocation *)

Lemma page_of b o : b mod PAGE_4KB = 0 -> 0 < b -> b + PAGE_4KB < 2 ^ 64 -> 0 <= o < PAGE_4KB ->
  HO_ALIGN_DOWN (b + o) PAGE_4KB = b.
Proof.
  intros Hb Hp Hlt Ho. unfold PAGE_4KB in *. pose proof (align_down_pow2 (b + o) 12 ltac:(lia) ltac:(word_lia)) as E.
  change (2 ^ 12) with 4096 in E. rewrite E. div_lia.
Qed.

Lemma page_of_slot_address m p x : heap_ok m -> page_rep m p -> x ∈ small_slots (spClass p) (spBase p) ->
  HO_ALIGN_DOWN (x + 24) PAGE_4KB = spBase p.
Proof.
  intros Hm R Hx. destruct (page_base_facts m p Hm R) as (? & ? & ?). destruct (slot_place m p Hm R x Hx) as (? & ? & _).
  replace (x + 24) with (spBase p + (x + 24 - spBase p)) by lia. apply page_of; [done | done | done |]. unfold PAGE_4KB in *. lia.
Qed.

(** What the code reads from the header of a page and of a slot. *)
Lemma page_header m p : page_rep m p ->
  load_part (spBase p + page_Magic) 4 m = Ok KE_ALLOC_SMALL_PAGE_MAGIC /\
  load_part (spBase p + page_ClassIndex) 2 m = Ok (spClass p) /\
  load_part (spBase p + page_SlotStride) 4 m = Ok (stride (spClass p)) /\
  load_part (spBase p + page_SlotsPerPage) 4 m = Ok (per (spClass p)).
Proof.
  intros R. pose proof (pr_class m p R) as Hc. destruct (class_ok _ Hc) as [Hcs _ Est Hper _ _].
  unfold page_Magic, page_ClassIndex, page_SlotStride, page_SlotsPerPage. split_and!.
  - by rewrite (word_part_at _ _ _ 0 _ _ (pr_magic m p R)), get_lo by (lia || (unfold KE_ALLOC_SMALL_PAGE_MAGIC; word_lia)).
  - by rewrite (word_part_at _ _ _ 4 _ _ (pr_magic m p R)), get_hi16 by (lia || (unfold KE_ALLOC_SMALL_PAGE_MAGIC; word_lia)).
  - by rewrite (word_part_at _ _ _ 0 _ _ (pr_sizes m p R)), get_lo by (lia || word_lia).
  - by rewrite (word_part_at _ _ _ 4 _ _ (pr_sizes m p R)), get_hi by (lia || word_lia).
Qed.

Lemma slot_header m p x : page_rep m p -> x ∈ small_slots (spClass p) (spBase p) ->
  load (x + slot_OwnerPage) m = Ok (spBase p) /\
  ((exists r, (x, r) ∈ spUsed p /\ 1 <= r <= csize (spClass p) /\ x ∉ spFree p /\
      load_part (x + slot_State) 4 m = Ok KE_ALLOC_SLOT_STATE_ALLOCATED /\ load_part (x + slot_RequestedSize) 4 m = Ok r) \/
   (x ∈ spFree p /\ x ∉ (spUsed p).*1 /\ load_part (x + slot_State) 4 m = Ok KE_ALLOC_SLOT_STATE_FREE)).
Proof.
  intros R Hx. pose proof (pr_class m p R) as Hc. destruct (class_ok _ Hc) as [Hcs _ _ _ _ _].
  assert (Hcase : x ∈ spFree p \/ x ∈ (spUsed p).*1) by (apply elem_of_app; by rewrite (pr_perm m p R)).
  pose proof (page_slots_nodup m p R) as Hn. apply NoDup_app in Hn as (_ & Hd & _).
  unfold slot_OwnerPage, slot_State, slot_RequestedSize. destruct Hcase as [Hf|Hu].
  - destruct (pr_free m p R x Hf) as [W1 W2]. split; [by rewrite (load_of_word _ _ _ W1)|]. right.
    split_and!; [done | by apply Hd |].
    by rewrite (word_part_at _ _ _ 4 _ _ W2), get_hi by (lia || (unfold KE_ALLOC_SLOT_STATE_FREE; word_lia)).
  - pose proof Hu as Hu'. apply list_elem_of_fmap in Hu' as ([x' r] & E & Hin). simpl in E. subst x'.
    destruct (pr_used m p R x r Hin) as (W1 & W2 & Hr). split; [by rewrite (load_of_word _ _ _ W1)|]. left. exists r.
    split_and!; [done | lia | lia | intros Hf; by apply (Hd x) | |].
    + by rewrite (word_part_at _ _ _ 4 _ _ W2), get_hi by (lia || word_lia || (unfold KE_ALLOC_SLOT_STATE_ALLOCATED; word_lia)).
    + by rewrite (word_part_at _ _ _ 0 _ _ W2), get_lo by (lia || word_lia).
Qed.

(** A slot of a page is recognised by its address, and accepted when it is in
    use. *)
Lemma slot_of_run m p x : heap_ok m -> page_rep m p -> x ∈ small_slots (spClass p) (spBase p) ->
  exists o, small_slot_of (x + 24) m = Ok o /\
    (x ∈ (spUsed p).*1 -> o = Some (spBase p, x)) /\ (x ∈ spFree p -> o = None).
Proof.
  intros Hm R Hx. destruct (page_base_facts m p Hm R) as (Hb0 & Hb4 & Hb1).
  destruct (slot_place m p Hm R x Hx) as (Hx1 & Hx2 & Hx8). pose proof (pr_class m p R) as Hc.
  destruct (class_ok _ Hc) as [Hcs _ Est Hper Hfit _]. pose proof (proj1 (small_slot_iff _ _ _) Hx) as (i & Hi & Ei).
  unfold small_slot_of. rewrite (page_of_slot_address m p x Hm R Hx). destruct (query_live m (spBase p) 1 Hm (pr_live m p R)) as (rg & -> & -> & -> & ->).
  rewrite !Z.eqb_refl. cbn [negb orb]. destruct (page_header m p R) as (-> & -> & -> & ->). cbn [res_bind].
  rewrite Z.eqb_refl, (proj2 (Z.leb_gt _ (spClass p))) by (unfold KE_ALLOC_SMALL_CLASS_COUNT; lia). cbn [negb orb].
  rewrite (proj2 (Z.eqb_neq (stride _) 0)), (proj2 (Z.eqb_neq (per _) 0)) by lia. cbn [orb].
  change (HO_ALIGN_UP sizeof_SMALL_PAGE 8) with 56. unfold sizeof_SMALL_SLOT, PAGE_4KB in *.
  assert (0 <= i * stride (spClass p) < 4096) by nia.
  rewrite (u64_small (spBase p + 56 + 24)), (u64_small (spBase p + 4096)) by word_lia.
  rewrite (proj2 (Z.ltb_ge (x + 24) _)), (proj2 (Z.leb_gt _ (x + 24))) by lia. cbn [orb].
  replace (x + 24 - spBase p - 56) with (24 + i * stride (spClass p)) by lia.
  rewrite (u64_small (24 + _)) by word_lia. rewrite (proj2 (Z.ltb_ge _ 24)) by lia.
  replace (24 + i * stride (spClass p) - 24) with (i * stride (spClass p)) by lia.
  rewrite (u64_small (i * _)), Z.mod_mul, Z.eqb_refl by word_lia. cbn [negb].
  rewrite <- Ei, (u64_small x) by word_lia.
  destruct (slot_header m p x R Hx) as (-> & [(r & Hu & _ & Hf & -> & _)|(Hf & Hu & ->)]); cbn [res_bind]; rewrite !Z.eqb_refl.
  - cbn [negb orb]. by exists (Some (spBase p, x)).
  - change (KE_ALLOC_SLOT_STATE_FREE =? KE_ALLOC_SLOT_STATE_ALLOCATED) with false. cbn [negb orb]. by exists None.
Qed.

(** The base of a block is never taken for a slot, whatever the block holds. *)
Lemma slot_of_block m b n : heap_ok m -> (b, n) ∈ live m -> small_slot_of b m = Ok None.
Proof.
  intros Hm Hb. destruct (live_bounds m _ Hm Hb) as (Hb0 & Hb4 & Hn & Hb1). cbn [fst snd] in *.
  assert (Hlive : forall o, 0 <= o < 16 -> o mod 8 = 0 -> exists w, word m (b + o) w).
  { intros o Ho Ho8. assert (Hlw : live_word (live m) (b + o)).
    { unfold PAGE_4KB in *. split; [div_lia|]. exists (b, n). split; [done|]. unfold in_block, PAGE_4KB. cbn [fst snd]. lia. }
    destruct (load_live m (b + o) Hm Hlw) as [w Hw]. exists w. by split. }
  destruct (Hlive 0 ltac:(lia) eq_refl) as [w0 W0]. destruct (Hlive 8 ltac:(lia) eq_refl) as [w8 W8].
  unfold small_slot_of. replace (HO_ALIGN_DOWN b PAGE_4KB) with b.
  2: { rewrite <- (Z.add_0_r b) at 2. symmetry. apply page_of; unfold PAGE_4KB in *; lia. }
  destruct (query_live m b n Hm Hb) as (rg & -> & -> & -> & ->). rewrite !Z.eqb_refl. cbn [negb orb].
  destruct (n =? 1); [|done]. cbn [negb orb].
  unfold page_Magic, page_ClassIndex, page_SlotStride, page_SlotsPerPage.
  rewrite (word_part_at _ _ _ 0 _ _ W0) by lia. cbn [res_bind].
  rewrite (word_part_at _ _ _ 4 _ _ W0) by lia. cbn [res_bind]. destruct (_ || _); [done|].
  rewrite (word_part_at _ _ _ 0 _ _ W8) by lia. cbn [res_bind]. rewrite (word_part_at _ _ _ 4 _ _ W8) by lia. cbn [res_bind].
  destruct (_ || _); [done|]. change (HO_ALIGN_UP sizeof_SMALL_PAGE 8) with 56. unfold sizeof_SMALL_SLOT, PAGE_4KB in *.
  rewrite (u64_small (b + 56 + 24)) by word_lia. by rewrite (proj2 (Z.ltb_lt b _)) by lia.
Qed.

Lemma last_of_class c l z : last (spBase <$> class_pages c l) = Some z ->
  exists k1 zp k2, l = k1 ++ zp :: k2 /\ spClass zp = c /\ spBase zp = z /\ class_pages c k2 = [].
Proof.
  intros [k Ek]%last_Some. revert k Ek. induction l as [|q l IH]; intros k; [by destruct k|].
  rewrite class_pages_cons. destruct (decide (spClass q = c)) as [E|E].
  - destruct (class_pages c l) as [|q' l'] eqn:Ec.
    + rewrite fmap_cons. intros Ek. exists [], q, l. destruct k as [|? [|]]; by injection Ek.
    + rewrite fmap_cons. destruct k as [|y k]; intros Ek; simplify_eq/=.
      destruct (IH k) as (k1 & zp & k2 & -> & Hk); [done|]. by exists (q :: k1), zp, k2.
  - intros Ek. destruct (IH k Ek) as (k1 & zp & k2 & -> & Hk). by exists (q :: k1), zp, k2.
Qed.

Section retire.
Context al m l1 p l2 prep flight
  (L : layout (gAllocatorSmallPages al) (gAllocatorLargeRecords al) m (l1 ++ p :: l2) prep flight).
Notation prev := (default 0 (last (spBase <$> class_pages (spClass p) l1))).

(** The page and its predecessor are found. *)
Lemma find_page_run : exists h n, rd (gAllocatorSmallPages al) (spClass p) = Ok h /\
  find_prev walk_fuel 0 h (spBase p) m = Ok (true, prev) /\ word m (spBase p + 48) n.
Proof.
  pose proof (ly_heap _ _ _ _ _ _ L) as Hm.
  assert (R : page_rep m p) by (apply (ly_pages _ _ _ _ _ _ L), elem_of_app; left; apply elem_of_app; right; by left).
  destruct (head_run _ _ _ _ _ _ (spClass p) L (pr_class m p R)) as (h & E & Eh & Hl).
  rewrite class_pages_app, class_pages_cons, decide_True, fmap_app, fmap_cons in Hl by done.
  assert (Hnot : spBase p ∉ spBase <$> class_pages (spClass p) l1).
  { intros (q & Eq & [_ Hq]%in_class)%list_elem_of_fmap. apply (other_page _ _ _ _ _ _ _ _ q L).
    - apply elem_of_app. left. apply elem_of_app. by left.
    - unfold page_block. by rewrite Eq. }
  assert (Hlen : (length (spBase <$> class_pages (spClass p) l1) <= walk_fuel)%nat).
  { pose proof (walk_enough _ _ _ _ _ _ (spClass p) L) as Hw. rewrite class_pages_app, length_app in Hw. rewrite length_fmap. lia. }
  destruct (linked_tail _ _ _ _ _ _ Hl) as (n & Hn & _ & _). exists h, n.
  split_and!; [done | by eapply prev_run | done].
Qed.

(** It leaves the list. *)
Lemma unlink_run n : word m (spBase p + 48) n ->
  exists al1 m1, unlink prev (spClass p) n al m = Ok (al1, m1) /\
     layout (gAllocatorSmallPages al1) (gAllocatorLargeRecords al) m1 (l1 ++ l2) prep (page_block p :: flight) /\
     gAllocatorInitialized al1 = gAllocatorInitialized al /\ gAllocatorLargeRecords al1 = gAllocatorLargeRecords al /\
     gAllocatorStats al1 = gAllocatorStats al /\ live m1 = live m /\
     agree (fun a => live_word (live m) a /\ forall q, q ∈ l1 ++ l2 -> a <> spBase q + 48) m m1.
Proof.
  intros Hn. pose proof (ly_heap _ _ _ _ _ _ L) as Hm. unfold unlink.
  assert (R : page_rep m p) by (apply (ly_pages _ _ _ _ _ _ L), elem_of_app; left; apply elem_of_app; right; by left).
  destruct (last (spBase <$> class_pages (spClass p) l1)) as [z|] eqn:El; simpl.
  - apply last_of_class in El as (k1 & zp & k2 & El & Ec & <- & E2). rewrite El in *. clear El.
    assert (Hz : zp ∈ ((k1 ++ zp :: k2) ++ p :: l2) ++ prep).
    { apply elem_of_app. left. apply elem_of_app. left. apply elem_of_app. right. by left. }
    pose proof (ly_pages _ _ _ _ _ _ L zp Hz) as Rz. destruct (page_base_facts m zp Hm Rz) as (Hz0 & _).
    rewrite (proj2 (Z.eqb_neq _ 0)) by lia. cbn [negb].
    destruct (store_ok m (spBase zp + 48) n Hm) as (m1 & E1 & _); [eapply next_word_in; [exact L | done | apply Rz]|].
    destruct (unlink_later _ _ _ _ _ _ _ _ _ _ _ _ L E2 Ec Hn E1) as (Hm1 & Hl1 & Hag & L1).
    unfold page_Next. rewrite E1. exists al, m1. split_and!; try done.
    eapply agree_weaken; [|exact Hag]. intros a [Ha Hq]. split; [|done]. apply Hq.
    apply elem_of_app. left. apply elem_of_app. right. by left.
  - apply last_None, fmap_nil_inv in El.
    rewrite wr_in by (rewrite (ly_heads _ _ _ _ _ _ L); pose proof (pr_class m p R); lia). cbn [res_bind].
    exists (set_small (<[Z.to_nat (spClass p) := n]> (gAllocatorSmallPages al)) al), m.
    split_and!; try done. by apply unlink_first.
Qed.

(** Taking a page without allocations out of its class. *)
Lemma retire_run : PAGE_4KB <= BackingBytes (gAllocatorStats al) -> is_u64 (BackingBytes (gAllocatorStats al)) ->
  exists al' m', retire_page (spBase p) al m = Ok (spBase p, al', m') /\
    layout (gAllocatorSmallPages al') (gAllocatorLargeRecords al') m' (l1 ++ l2) prep (page_block p :: flight) /\
    gAllocatorInitialized al' = gAllocatorInitialized al /\ gAllocatorLargeRecords al' = gAllocatorLargeRecords al /\
    (let st := gAllocatorStats al in gAllocatorStats al' = mkStats (LiveAllocationCount st) (LiveSmallAllocationCount st)
       (LiveLargeAllocationCount st) (BackingBytes st - PAGE_4KB) (FailedAllocationCount st)) /\
    live m' = live m /\
    agree (fun a => live_word (live m) a /\ forall q, q ∈ l1 ++ p :: l2 -> ~ (spBase q <= a < spBase q + 56)) m m'.
Proof.
  intros HB HB'. pose proof (ly_heap _ _ _ _ _ _ L) as Hm.
  assert (Hp : p ∈ (l1 ++ p :: l2) ++ prep) by (apply elem_of_app; left; apply elem_of_app; right; by left).
  pose proof (ly_pages _ _ _ _ _ _ L p Hp) as R. destruct (page_base_facts m p Hm R) as (Hb0 & Hb4 & Hb1).
  pose proof (pr_class m p R) as Hc. unfold retire_page, page_ClassIndex.
  rewrite (word_part_at _ _ _ 4 _ _ (pr_magic m p R)), get_hi16 by (lia || (unfold KE_ALLOC_SMALL_PAGE_MAGIC; word_lia)). cbn [res_bind].
  destruct find_page_run as (h & n & -> & E & Hn). cbn [res_bind]. rewrite E. cbn [res_bind negb]. clear E.
  unfold page_Next at 1. rewrite (load_of_word _ _ _ Hn). cbn [res_bind].
  destruct (unlink_run n Hn) as (al1 & m1 & -> & L1 & I1 & Er1 & Es1 & Hl1 & Hag1). cbn [res_bind].
  pose proof (ly_heap _ _ _ _ _ _ L1) as Hm1.
  assert (Hw : forall o v, 0 <= o < 48 -> word m (spBase p + o) v -> word m1 (spBase p + o) v).
  { intros o v Ho W. eapply word_agree; [exact Hag1 | split; [apply W|] | rewrite Hl1; apply W | done].
    intros q Hq E. assert (Hq' : q ∈ (l1 ++ l2) ++ prep) by (apply elem_of_app; by left).
    apply (other_page _ _ _ _ _ _ _ _ q L Hq'). apply (owned_apart _ _ _ _ _ _ L _ _ (spBase q + 48)).
    - eapply page_owned. by apply elem_without.
    - by eapply page_owned.
    - unfold in_block, page_block, PAGE_4KB. simpl. lia.
    - unfold in_block, page_block, PAGE_4KB. simpl. lia. }
  unfold page_BackingUsablePages. rewrite (load_of_word _ _ _ (Hw 32 _ ltac:(lia) (pr_pages m p R))). cbn [res_bind].
  unfold sub_backing. rewrite Es1. change (KiAllocatorBackingBytes 1) with PAGE_4KB.
  rewrite (proj2 (Z.leb_le _ _)) by done. cbn [HO_KASSERT res_bind].
  assert (Hw0 : word m1 (spBase p) (halves KE_ALLOC_SMALL_PAGE_MAGIC (spClass p))).
  { rewrite <- (Z.add_0_r (spBase p)) at 1. apply Hw; [lia|]. rewrite Z.add_0_r. apply R. }
  unfold page_Magic. rewrite (store_part_at _ _ _ 0 _ _ _ Hw0) by lia.
  destruct (store_ok m1 (spBase p) (set_part (halves KE_ALLOC_SMALL_PAGE_MAGIC (spClass p)) 0 4 KE_ALLOC_SMALL_PAGE_RETIRED) Hm1)
    as (m2 & -> & Hm2 & Hl2 & _ & Hag2); [apply Hw0|]. cbn [res_bind].
  assert (W24 : word m2 (spBase p + 24) (spBase p)).
  { eapply word_agree; [exact Hag2 | split; [lia | apply (Hw 24 _ ltac:(lia) (pr_base m p R))] | | apply (Hw 24 _ ltac:(lia) (pr_base m p R))].
    rewrite Hl2. apply (Hw 24 _ ltac:(lia) (pr_base m p R)). }
  unfold page_BackingUsableBase. rewrite (load_of_word _ _ _ W24). cbn [res_bind].
  do 2 eexists. split; [done|]. cbn [set_stats gAllocatorSmallPages gAllocatorLargeRecords gAllocatorInitialized gAllocatorStats].
  rewrite Er1. split.
  { eapply layout_frame; [exact L1 | done | rewrite Hl2; apply (ly_perm _ _ _ _ _ _ L1) |].
    intros a Ha. apply Hag2. split.
    - intros ->. apply (meta_apart _ _ _ _ _ _ L1 (page_block p) (spBase p)); [| | |done].
      + apply flight_owned. by left.
      + intros q Hq E. by apply (other_page _ _ _ _ _ _ _ _ q L Hq).
      + unfold in_block, page_block, PAGE_4KB. simpl. lia.
    - by destruct (meta_block _ _ _ _ _ _ L1 a Ha) as (_ & _ & _ & Hlw). }
  split; [done|]. split; [done|]. split; [by rewrite u64_small by (unfold PAGE_4KB in *; word_lia)|]. split; [congruence|].
  intros a [Ha Hout]. rewrite Hag2; [apply Hag1; split; [done|]; intros q Hq ->|].
  - apply (Hout q); [|lia]. rewrite elem_of_app, elem_of_cons. apply elem_of_app in Hq. tauto.
  - split; [|by rewrite Hl1]. intros ->. apply (Hout p); [|lia]. apply elem_of_app. right. by left.
Qed.
End retire.

(** Giving back a slot, up to the check for an empty page. *)
Lemma push_slot_run al m l1 p l2 prep flight x r : alloc_ok al m (l1 ++ p :: l2) prep flight -> (x, r) ∈ spUsed p ->
  exists U' m' al', Permutation (spUsed p) ((x, r) :: U') /\ push_slot (spBase p) x m = Ok m' /\ uncount_small al = Ok al' /\
    alloc_ok al' m' (l1 ++ mkPage (spBase p) (spClass p) (x :: spFree p) U' :: l2) prep flight /\ live m' = live m /\
    gAllocatorLargeRecords al' = gAllocatorLargeRecords al /\
    agree (kept_word (gAllocatorLargeRecords al) (l1 ++ mkPage (spBase p) (spClass p) (x :: spFree p) U' :: l2) flight) m m'.
Proof.
  intros (Hi & L & S) Hx. assert (Hp : p ∈ (l1 ++ p :: l2) ++ prep) by (apply elem_of_app; left; apply elem_of_app; right; by left).
  pose proof (ly_pages _ _ _ _ _ _ L p Hp) as R. pose proof (ly_heap _ _ _ _ _ _ L) as Hm.
  apply list_elem_of_split in Hx as (u1 & u2 & EU). assert (HU : Permutation (spUsed p) ((x, r) :: u1 ++ u2)).
  { rewrite EU. symmetry. apply Permutation_middle. }
  destruct (push_run m p x r (u1 ++ u2) Hm R HU) as (m' & E & Hm' & Hl & R' & Hag).
  set (p' := mkPage (spBase p) (spClass p) (x :: spFree p) (u1 ++ u2)) in *.
  assert (L' : layout (gAllocatorSmallPages al) (gAllocatorLargeRecords al) m' (l1 ++ p' :: l2) prep flight).
  { assert (Hxs : x ∈ (spUsed p).*1) by (rewrite HU; by left).
    destruct (page_slot_bounds m p Hm R x (or_intror Hxs)) as (B1 & B2 & _).
    eapply layout_update; [exact L | exact R' | done | done | done | done |].
    eapply agree_weaken; [|exact Hag]. intros a [Ha Hout]. split; [done|].
    unfold slot_words, in_block, page_block, PAGE_4KB in *. simpl in Hout. lia. }
  destruct (counts_small _ _ _ _ _ _ _ L S) as (C1 & C2 & C3). destruct S as [S1 S2 S3 S4 S5].
  assert (Eu : Z.of_nat (length ((l1 ++ p :: l2) ≫= spUsed)) = Z.of_nat (length ((l1 ++ p' :: l2) ≫= spUsed)) + 1).
  { rewrite !bind_app, !bind_cons, !length_app, (Permutation_length HU). simpl. lia. }
  exists (u1 ++ u2), m'. eexists. split; [done|]. split; [done|]. split.
  { unfold uncount_small. rewrite (proj2 (Z.ltb_lt 0 (LiveAllocationCount _))) by lia. cbn [HO_KASSERT res_bind].
    rewrite (proj2 (Z.ltb_lt 0 _)) by lia. cbn [HO_KASSERT res_bind]. done. }
  fold p'. split; [|split; [done|split; [done|]]].
  - split; [done|]. split; [done|]. split; simpl; [| done | | | done].
    + rewrite u64_small by word_lia. lia.
    + rewrite !u64_small by word_lia. lia.
    + rewrite S4, !length_app. done.
  - eapply agree_weaken; [|exact Hag]. intros a Ha.
    assert (Hp' : p' ∈ l1 ++ p' :: l2) by (apply elem_of_app; right; by left).
    destruct (slot_words_apart _ _ _ _ _ _ p' x a L' Hp') as [Hlw Hsw]; [by left | done|].
    rewrite Hl in Hlw. done.
Qed.

(** What a freed allocation leaves. *)
Record freed al m (pgs : list SPAGE) (flight : list (Z * Z)) (ptr size : Z) al' m' (pgs' : list SPAGE) : Prop := {
  fr_allocs : Permutation (allocs (gAllocatorLargeRecords al) pgs) ((ptr, size) :: allocs (gAllocatorLargeRecords al') pgs');
  fr_kept : agree (kept_word (gAllocatorLargeRecords al') pgs' flight) m m';
  fr_busy : busy pgs -> busy pgs';
}.

Lemma free_small_run al m pgs prep flight p x r : alloc_ok al m pgs prep flight -> p ∈ pgs -> (x, r) ∈ spUsed p ->
  exists rb al' m' pgs' flight', free_small_section (x + 24) al m = Ok (Some rb, al', m') /\
    alloc_ok al' m' pgs' prep flight' /\ live m' = live m /\ freed al m pgs flight (x + 24) r al' m' pgs' /\
    ((rb = 0 /\ flight' = flight /\ exists q, q ∈ pgs' /\ x ∈ spFree q) \/
     (0 < rb /\ flight' = (rb, 1) :: flight /\ rb = spBase p)).
Proof.
  intros A Hp Hx. apply list_elem_of_split in Hp as (l1 & l2 & ->). pose proof A as (_ & L & _).
  assert (Hp : p ∈ (l1 ++ p :: l2) ++ prep) by (apply elem_of_app; left; apply elem_of_app; right; by left).
  pose proof (ly_pages _ _ _ _ _ _ L p Hp) as R. pose proof (ly_heap _ _ _ _ _ _ L) as Hm.
  assert (Hx1 : x ∈ (spUsed p).*1) by (apply list_elem_of_fmap; by exists (x, r)).
  destruct (slot_of_run m p x Hm R (page_slot m p R x (or_intror Hx1))) as (o & Eo & Hu & _).
  rewrite (Hu Hx1) in Eo. clear Hu. unfold free_small_section. rewrite Eo. cbn [res_bind].
  destruct (push_slot_run al m l1 p l2 prep flight x r A Hx) as (U' & m1 & al1 & HU & -> & E2 & A1 & Hl1 & Er1 & Hag1).
  cbn [res_bind]. rewrite E2. cbn [res_bind]. clear E2.
  set (p' := mkPage (spBase p) (spClass p) (x :: spFree p) U') in *.
  pose proof A1 as (Hi1 & L1 & S1). pose proof (ly_heap _ _ _ _ _ _ L1) as Hm1.
  assert (Hp1 : p' ∈ (l1 ++ p' :: l2) ++ prep) by (apply elem_of_app; left; apply elem_of_app; right; by left).
  pose proof (ly_pages _ _ _ _ _ _ L1 p' Hp1) as R1. change (spBase p) with (spBase p').
  rewrite (count_run m1 p' Hm1 R1). cbn [res_bind]. destruct (class_ok _ (pr_class m1 p' R1)) as [? _ Est Hper _ _].
  unfold page_SlotsPerPage. rewrite (word_part_at _ _ _ 4 _ _ (pr_sizes m1 p' R1)), get_hi by (lia || word_lia). cbn [res_bind].
  pose proof (page_counts m1 p' R1) as Hcnt.
  assert (Hfr : forall pgs', (pgs' ≫= page_allocs) = ((l1 ++ p' :: l2) ≫= page_allocs) ->
     Permutation (allocs (gAllocatorLargeRecords al) (l1 ++ p :: l2)) ((x + 24, r) :: allocs (gAllocatorLargeRecords al) pgs')).
  { intros pgs' E. unfold allocs. rewrite E, !bind_app, !bind_cons, <- !app_assoc.
    assert (Hpa : Permutation (page_allocs p) ((x + 24, r) :: page_allocs p')) by (unfold page_allocs; by rewrite HU).
    rewrite Hpa. simpl. symmetry. apply Permutation_middle. }
  destruct (Z.eqb_spec (Z.of_nat (length (spFree p'))) (per (spClass p'))) as [Ee|Ee].
  - assert (EU' : U' = []) by (apply nil_length_inv; cbn [p' spUsed] in Hcnt; lia).
    destruct (counts_small _ _ _ _ _ _ _ L1 S1) as (C1 & C2 & C3). destruct (bytes_bound _ _ _ _ _ _ L1) as (B1 & B2 & B3).
    destruct S1 as [S1 S2 S3 S4 S5]. rewrite length_app in B1, S4. cbn [length] in B1, S4.
    destruct (retire_run al1 m1 l1 p' l2 prep flight L1) as (al2 & m2 & -> & L2 & I2 & Er2 & Es2 & Hl2 & Hag2);
      [unfold PAGE_4KB in *; lia | done|]. cbn [res_bind].
    assert (Ea : ((l1 ++ l2) ≫= page_allocs) = ((l1 ++ p' :: l2) ≫= page_allocs)).
    { rewrite !bind_app, bind_cons. unfold page_allocs at 4. cbn [p' spUsed]. by rewrite EU'. }
    assert (Eq : ((l1 ++ l2) ≫= spUsed) = ((l1 ++ p' :: l2) ≫= spUsed)).
    { rewrite !bind_app, bind_cons. cbn [p' spUsed]. by rewrite EU'. }
    exists (spBase p'), al2, m2, (l1 ++ l2), (page_block p' :: flight). split; [done|]. split; [|split; [congruence|split]].
    + split; [congruence|]. split; [done|]. rewrite Es2, Er2. split; simpl.
      * by rewrite Eq.
      * done.
      * done.
      * rewrite S4, length_app. unfold PAGE_4KB. lia.
      * done.
    + assert (Hbusy : busy (l1 ++ p :: l2) -> busy (l1 ++ l2)).
      { intros Hb q Hq. apply Hb. rewrite elem_of_app, elem_of_cons. apply elem_of_app in Hq. tauto. }
      split; [rewrite Er2, Er1; by apply Hfr| |done]. rewrite Er2, Er1.
      assert (Ew : forall a, kept_word (gAllocatorLargeRecords al) (l1 ++ l2) flight a -> kept_word (gAllocatorLargeRecords al) (l1 ++ p' :: l2) flight a).
      { intros a. unfold kept_word, allocs. by rewrite Ea. }
      eapply agree_trans; [|exact Hag1|]; [exact Ew|]. eapply agree_weaken; [|exact Hag2]. intros a Ha. apply Ew in Ha.
      rewrite <- Er1 in Ha. split; [by eapply kept_live|].
      intros q Hq Hin. apply (kept_not_meta _ _ _ _ _ _ L1 a Ha). exists q.
      split; [apply elem_of_app; by left|]. assert (Hq' : q ∈ (l1 ++ p' :: l2) ++ prep) by (apply elem_of_app; by left).
      destruct (page_base_facts m1 q Hm1 (ly_pages _ _ _ _ _ _ L1 q Hq')) as (_ & Hb & _).
      destruct (kept_live _ _ _ _ _ _ L1 a Ha) as [Ha8 _].
      assert (a = spBase q + 48 \/ a < spBase q + 48) as [->|Hlt] by (unfold PAGE_4KB in *; div_lia); [by right | left].
      split; [done|]. left. lia.
    + right. split; [|done]. by destruct (page_base_facts m1 p' Hm1 R1) as (? & _).
  - cbn [res_bind]. exists 0, al1, m1, (l1 ++ p' :: l2), flight. split; [done|]. split; [done|]. split; [done|].
    split.
    2: { left. split; [done|]. split; [done|]. exists p'. split; [apply elem_of_app; right; by left | by left]. }
    split; rewrite ?Er1; [by apply Hfr | done |].
    intros Hb q. rewrite elem_of_app, elem_of_cons. intros [Hq|[->|Hq]].
    + apply Hb, elem_of_app. by left.
    + intros EU'. cbn [p' spUsed] in EU'. subst U'. cbn [p' spUsed length] in Hcnt. lia.
    + apply Hb, elem_of_app. right. by right.
Qed.
End calls.
