(* ===== verification/AllocRun.v ===== *)
(** * The byte allocator: whole calls, and any interleaving of their pieces

    [kmalloc_run], [kfree_run]: a call on any state that satisfies the
    invariant, whatever pages other threads have prepared and whatever blocks
    they hold.  [alloc_step]: threads interleave at the critical sections. *)

From S2P Require Import Prelude Heap Parts Kva Alloc AllocInv AllocOps AllocState AllocCalls.

Local Open Scope Z_scope.

Section runs.
Context {M : Type} `{RangeLaws M}.
Implicit Types (m : M) (p : SPAGE) (al : KE_ALLOCATOR).

(** ** Blocks come and go *)

Lemma alloc_ok_frame al m pgs prep flight m' flight' : alloc_ok al m pgs prep flight -> heap_ok m' ->
  Permutation (live m') (owned (gAllocatorLargeRecords al) pgs prep flight') -> agree (meta pgs prep) m m' ->
  alloc_ok al m' pgs prep flight'.
Proof. intros (Hi & L & S) Hm' Hl Hag. split; [done|]. split; [|done]. by eapply layout_frame. Qed.

Lemma alloc_ok_perm al m pgs prep flight flight' : Permutation flight flight' ->
  alloc_ok al m pgs prep flight -> alloc_ok al m pgs prep flight'.
Proof.
  intros Hp A. pose proof A as (_ & L & _). eapply alloc_ok_frame; [exact A | apply L | | by intros a].
  rewrite (ly_perm _ _ _ _ _ _ L). by apply owned_perm, Permutation_app.
Qed.

Lemma meta_live al m pgs prep flight a : alloc_ok al m pgs prep flight -> meta pgs prep a -> live_word (live m) a.
Proof. intros (_ & L & _) Ha. by destruct (meta_block _ _ _ _ _ _ L a Ha) as (_ & _ & _ & ?). Qed.

Lemma block_alloc_run al m pgs prep flight n st b m' : alloc_ok al m pgs prep flight -> 0 < n ->
  KeHeapAllocPages n m = (st, b, m') ->
  alloc_ok al m' pgs prep (if decide (st = EC_SUCCESS) then (b, n) :: flight else flight) /\
  agree (live_word (live m)) m m' /\ heap_ok m'.
Proof.
  intros A Hn E. pose proof A as (_ & L & _). destruct (alloc_law m n st b m' (ly_heap _ _ _ _ _ _ L) Hn E) as (Hm' & Hag & Hl).
  split_and!; [|done|done]. eapply alloc_ok_frame; [exact A | done | |].
  - destruct (decide (st = EC_SUCCESS)).
    + rewrite Hl, (ly_perm _ _ _ _ _ _ L). unfold owned. rewrite !app_assoc. apply Permutation_middle.
    + rewrite Hl. apply L.
  - eapply agree_weaken; [|exact Hag]. intros a. by eapply meta_live.
Qed.

(** Any block another user or thread holds can be given back. *)
Lemma free_block_run al m pgs prep flight b n : alloc_ok al m pgs prep ((b, n) :: flight) ->
  exists m', free_or_panic b m = Ok m' /\ alloc_ok al m' pgs prep flight /\
    agree (kept_word (gAllocatorLargeRecords al) pgs flight) m m'.
Proof.
  intros A. pose proof A as (_ & L & _). pose proof (ly_heap _ _ _ _ _ _ L) as Hm.
  assert (Hb : (b, n) ∈ live m) by (apply (ly_live _ _ _ _ _ _ _ L), flight_owned; by left).
  destruct (free_law m b n Hm Hb) as (m' & E & Hm' & Hp & Hag). exists m'.
  assert (Hl : Permutation (live m') (owned (gAllocatorLargeRecords al) pgs prep flight)).
  { rewrite (ly_perm _ _ _ _ _ _ L) in Hp. unfold owned in Hp. rewrite !app_assoc, <- Permutation_middle in Hp.
    apply Permutation_cons_inv in Hp. unfold owned. by rewrite !app_assoc. }
  assert (A' : alloc_ok al m' pgs prep flight).
  { eapply alloc_ok_frame; [exact A | done | done|]. eapply agree_weaken; [|exact Hag].
    intros a (p & Hin & Hb' & Ha8 & _)%(meta_block _ _ _ _ _ _ L). split; [done|]. exists (page_block p). split; [|done].
    rewrite Hl. by apply page_owned. }
  unfold free_or_panic. rewrite E. unfold Kva.succeeded. rewrite bool_decide_true by done. cbn [HO_KASSERT res_bind].
  split_and!; [done | done|]. eapply agree_weaken; [|exact Hag]. intros a Ha. eapply kept_live; [apply A' | done].
Qed.

(** A prepared page is a page of the allocator that no list holds yet. *)
Lemma prepared_run al m pgs prep flight c : alloc_ok al m pgs prep flight -> 0 <= c < 7 ->
  exists st page m', KiAllocatorPrepareSmallPage c m = Ok (st, page, m') /\ agree (live_word (live m)) m m' /\
    if decide (st = EC_SUCCESS)
    then exists p, spBase p = page /\ spClass p = c /\ alloc_ok al m' pgs (p :: prep) flight
    else alloc_ok al m' pgs prep flight /\ exists b, KeHeapAllocPages 1 m = (st, b, m').
Proof.
  intros A Hc. pose proof A as (Hi & L & S). pose proof (ly_heap _ _ _ _ _ _ L) as Hm.
  destruct (prepare_small_run c m Hc Hm) as (st & page & m' & E & Hm' & Hag & Hr). exists st, page, m'.
  split; [done|]. split; [done|].
  assert (Hag' : agree (meta pgs prep) m m') by (eapply agree_weaken; [|exact Hag]; intros a; by eapply meta_live).
  destruct (decide (st = EC_SUCCESS)) as [Hst|Hst].
  - destruct Hr as [Hl R']. set (p := mkPage page c (rev (small_slots c page)) []) in *. exists p. split; [done|]. split; [done|].
    assert (L1 : layout (gAllocatorSmallPages al) (gAllocatorLargeRecords al) m' pgs prep ((page, 1) :: flight)).
    { eapply layout_frame; [exact L | done | | done]. rewrite Hl, (ly_perm _ _ _ _ _ _ L). unfold owned. rewrite !app_assoc.
      apply Permutation_middle. }
    split; [done|]. split; [|done]. destruct L1 as [L1 L2 L3 L4 L5 L6 L7 L8]. split; try done.
    + intros q. rewrite elem_of_app, elem_of_cons. intros [Hq|[->|Hq]]; [|done|]; apply L4, elem_of_app; auto.
    + intros q [->|Hq]%elem_of_cons; [done | by apply L5].
    + rewrite L8. apply owned_perm. rewrite <- !Permutation_middle. done.
  - destruct Hr as [Hl Hb]. split; [|done]. eapply alloc_ok_frame; [exact A | done | rewrite Hl; apply L | done].
Qed.

(** ** Allocation *)

(** A request refused: at most the failure counter has changed. *)
Record refused al m (pgs prep : list SPAGE) (flight : list (Z * Z)) al' m' : Prop := {
  rf_state : al' = al \/ al' = count_failure al;
  rf_ok : alloc_ok al' m' pgs prep flight;
  rf_kept : agree (kept_word (gAllocatorLargeRecords al) pgs flight) m m';
}.

Lemma alloc_small_run al m pgs prep flight size zeroed : alloc_ok al m pgs prep flight -> 0 < size <= 1024 ->
  exists ptr al' m', KiAllocatorAllocSmall size zeroed al m = Ok (ptr, al', m') /\
    ((exists pgs', alloc_ok al' m' pgs' prep flight /\ granted al m pgs flight ptr size zeroed al' m' pgs') \/
     (ptr = 0 /\ refused al m pgs prep flight al' m' /\ (exists r, KeHeapAllocPages 1 m = r /\ fst (fst r) <> EC_SUCCESS))).
Proof.
  intros A Hs. destruct (class_of_size size ltac:(lia)) as [(_ & Hc & Hfit & _)|[? _]]; [|lia].
  unfold KiAllocatorAllocSmall. set (c := KiAllocatorFindSmallClass size) in *.
  rewrite (proj2 (Z.ltb_ge c 0)) by lia.
  destruct (small_try_run al m pgs prep flight c size zeroed A Hc ltac:(lia)) as (o & al1 & m1 & pgs1 & -> & A1 & _ & Ho).
  cbn [res_bind]. destruct o as [ptr|].
  { exists ptr, al1, m1. split; [done|]. left. exists pgs1. split; [done | apply Ho]. }
  destruct Ho as (-> & -> & -> & _).
  destruct (prepared_run al m pgs prep flight c A Hc) as (st & page & m2 & E2 & Hag & Hr). rewrite E2. cbn [res_bind].
  unfold Kva.succeeded. destruct (decide (st = EC_SUCCESS)) as [Hst|Hst].
  - rewrite bool_decide_true by done. cbn [negb]. destruct Hr as (p & <- & <- & A2).
    destruct (small_publish_run al m2 p pgs prep flight size zeroed A2 ltac:(lia)) as (ptr & al3 & m3 & pgs3 & -> & A3 & _ & G).
    exists ptr, al3, m3. split; [done|]. left. exists pgs3. split; [done|]. destruct G as [G1 G2 G3 G4 G5]. split; try done.
    eapply agree_trans; [|eapply agree_weaken; [|exact Hag]|exact G2].
    + done.
    + intros a Ha. pose proof A as (_ & L & _). by eapply kept_live.
  - rewrite bool_decide_false by done. cbn [negb]. destruct Hr as [A2 (b & E)]. exists 0, (count_failure al), m2.
    split; [done|]. right. split; [done|]. split; [split; [by right | by apply failure_ok |]|eexists; split; [reflexivity|]; by rewrite E].
    eapply agree_weaken; [|exact Hag]. intros a Ha. pose proof A as (_ & L & _). by eapply kept_live.
Qed.

Lemma page_count_small size : is_u64 size -> 0 <= page_count size.
Proof.
  intros Hs. unfold page_count, HO_ALIGN_UP. apply Z.div_pos; [|done]. apply Z.land_nonneg. left. apply u64_range.
Qed.

(** The block of a record may be cleared, also behind the end of a size that
    is no multiple of 8. *)
Lemma clear_large_run al m pgs prep flight r : alloc_ok al m pgs prep flight -> r ∈ active (gAllocatorLargeRecords al) ->
  exists m', memset_bytes (UserPointer r) (RequestedSize r) m = Ok m' /\ alloc_ok al m' pgs prep flight /\ live m' = live m /\
    (forall i, 0 <= i < RequestedSize r -> load_part (UserPointer r + i) 1 m' = Ok 0) /\
    agree (fun a => live_word (live m) a /\ ~ (UserPointer r <= a < UserPointer r + RequestedSize r)) m m'.
Proof.
  intros A Hr. pose proof A as (_ & L & _). pose proof (ly_heap _ _ _ _ _ _ L) as Hm.
  destruct (large_bounds _ _ _ _ _ _ L r Hr) as (E & B1 & B2 & B3 & B4 & B5). unfold PAGE_4KB in *.
  assert (Hq : large_alloc r ∈ allocs (gAllocatorLargeRecords al) pgs) by (apply elem_of_app; right; by apply list_elem_of_fmap_2).
  assert (Hw : forall a, UserPointer r <= a < UserPointer r + RequestedSize r -> a mod 8 = 0 ->
            alloc_word (allocs (gAllocatorLargeRecords al) pgs) a).
  { intros a Ha Ha8. split; [done|]. by exists (large_alloc r). }
  destruct (memset_bytes_ok m (UserPointer r) (RequestedSize r) Hm) as (m' & Em & Hm' & Hl & Hz & Hag);
    [lia | lia | lia | div_lia | |].
  { intros a Ha Ha8. eapply kept_live; [exact L | left; by apply Hw]. }
  exists m'. split_and!; try done. eapply alloc_ok_frame; [exact A | done | rewrite Hl; apply L|].
  eapply agree_weaken; [|exact Hag]. intros a Ha. pose proof (meta_live _ _ _ _ _ _ A Ha) as Hlw. split; [done|].
  intros Hin. apply (alloc_not_meta _ _ _ _ _ _ L a); [|done]. apply Hw; [done | apply Hlw].
Qed.

(** A page-aligned allocation is that of a record. *)
Lemma record_of_alloc al m pgs prep flight b size : alloc_ok al m pgs prep flight ->
  (b, size) ∈ allocs (gAllocatorLargeRecords al) pgs -> b mod PAGE_4KB = 0 ->
  exists r, r ∈ active (gAllocatorLargeRecords al) /\ UserPointer r = b /\ RequestedSize r = size.
Proof.
  intros (_ & L & _) Hin Hb4. destruct (alloc_cases _ _ _ Hin) as [(p & x & r & Hp & Hx & E)|(r & Hr & E)].
  - exfalso. injection E as -> ->. assert (Hp' : p ∈ pgs ++ prep) by (apply elem_of_app; by left).
    destruct (used_place _ _ _ _ _ _ L p x r Hp' Hx) as (_ & ? & ? & ? & ? & ?).
    destruct (page_base_facts m p (ly_heap _ _ _ _ _ _ L) (ly_pages _ _ _ _ _ _ L p Hp')) as (_ & Hpb & _).
    unfold PAGE_4KB in *. div_lia.
  - injection E as -> ->. by exists r.
Qed.

Lemma alloc_large_run al m pgs prep flight size zeroed : alloc_ok al m pgs prep flight -> 1024 < size < 2 ^ 64 ->
  exists ptr al' m', KiAllocatorAllocLarge size zeroed al m = Ok (ptr, al', m') /\
    ((exists pgs', alloc_ok al' m' pgs' prep flight /\ granted al m pgs flight ptr size zeroed al' m' pgs') \/
     (ptr = 0 /\ refused al m pgs prep flight al' m' /\
      (page_count size = 0 \/ fst (fst (KeHeapAllocPages (page_count size) m)) <> EC_SUCCESS \/
       forall r, r ∈ gAllocatorLargeRecords al -> InUse r = true))).
Proof.
  intros A Hs. pose proof A as (_ & L & _). unfold KiAllocatorAllocLarge. fold (page_count size).
  pose proof (page_count_small size ltac:(word_lia)) as Hpc. destruct (Z.eqb_spec (page_count size) 0) as [E0|E0].
  { exists 0, (count_failure al), m. split; [done|]. right. split; [done|].
    split; [split; [by right | by apply failure_ok | by intros a]|by left]. }
  destruct (KeHeapAllocPages (page_count size) m) as [[st b] m1] eqn:E1.
  destruct (block_alloc_run al m pgs prep flight (page_count size) st b m1 A ltac:(lia) E1) as (A1 & Hag1 & Hm1).
  assert (Hk1 : agree (kept_word (gAllocatorLargeRecords al) pgs flight) m m1).
  { eapply agree_weaken; [|exact Hag1]. intros a. by eapply kept_live. }
  unfold Kva.succeeded. destruct (decide (st = EC_SUCCESS)) as [->|Hst]; cycle 1.
  { rewrite bool_decide_false by done. exists 0, (count_failure al), m1. split; [done|]. right. split; [done|].
    split; [split; [by right | by apply failure_ok | done]|]. right. by left. }
  rewrite bool_decide_true by done. cbn [negb]. pose proof A1 as (_ & L1 & _).
  assert (Hb : (b, page_count size) ∈ live m1) by (apply (ly_live _ _ _ _ _ _ _ L1), flight_owned; by left).
  destruct (query_live m1 b _ Hm1 Hb) as (rg & -> & _ & Hrb & Hrn).
  destruct (large_record_run al m1 b size rg pgs prep flight A1 Hs Hrb Hrn) as (ok & al2 & -> & Hr). cbn [res_bind].
  destruct ok; cbn [negb]; cycle 1.
  { destruct Hr as (-> & Hall). destruct (free_block_run _ _ _ _ _ _ _ A1) as (m2 & -> & A2 & Hag2). cbn [res_bind].
    exists 0, (count_failure al), m2. split; [done|]. right. split; [done|]. split; [|by right; right].
    split; [by right | by apply failure_ok | by eapply agree_trans]. }
  destruct Hr as (A2 & Hp). assert (Hin : (b, size) ∈ allocs (gAllocatorLargeRecords al2) pgs) by (rewrite Hp; by left).
  destruct (live_bounds m1 _ Hm1 Hb) as (Hb0 & Hb4 & _ & _). cbn [fst snd] in *.
  assert (Hb8 : b mod 8 = 0) by (unfold PAGE_4KB in *; div_lia).
  destruct zeroed; cbn [res_bind]; cycle 1.
  { exists b, al2, m1. split; [done|]. left. exists pgs. split; [done|]. by split. }
  pose proof A2 as (_ & L2 & _).
  pose proof (record_of_alloc _ _ _ _ _ b size A2 Hin Hb4) as Hrec.
  destruct Hrec as (r & Hr & <- & <-).
  destruct (clear_large_run al2 m1 pgs prep flight r A2 Hr) as (m3 & -> & A3 & Hl3 & Hz & Hag3). cbn [res_bind].
  do 3 eexists. split; [done|]. left. exists pgs. split; [done|]. split; try done.
  eapply agree_trans; [|exact Hk1|]; [done|]. eapply agree_weaken; [|exact Hag3]. intros a Ha.
  assert (Ha2 : kept_word (gAllocatorLargeRecords al2) pgs flight a).
  { destruct Ha as [(Ha8 & q & Hq & Ha)|Ha]; [left; split; [done|]; exists q; rewrite Hp; split; [by right | done] | by right]. }
  split; [by eapply (kept_live _ _ _ _ _ _ L2)|]. intros Hin'.
  (* the word would belong to the new block and to an old owner *)
  assert (Hblk : in_block (UserPointer r, page_count (RequestedSize r)) a).
  { destruct (large_bounds _ _ _ _ _ _ L2 r Hr) as (E & _ & _ & _ & B4 & _).
    destruct (ly_large _ _ _ _ _ _ L2 r Hr) as (_ & _ & En). rewrite En in B4. unfold in_block. cbn [fst snd]. lia. }
  pose proof (kept_live _ _ _ _ _ _ L a Ha) as Hlw.
  destruct (fresh_apart m m1 (UserPointer r) (page_count (RequestedSize r)) a Hm1) as [_ Hn]; [|done|done].
  destruct (alloc_law m (page_count (RequestedSize r)) _ _ _ (ly_heap _ _ _ _ _ _ L) ltac:(lia) E1) as (_ & _ & Hl). by rewrite decide_True in Hl by done.
Qed.

(** [kmalloc], and [kzalloc]. *)
Definition kmalloc_of (zeroed : bool) : Z -> KE_ALLOCATOR -> M -> res (Z * KE_ALLOCATOR * M) :=
  if zeroed then kzalloc else kmalloc.

(** Why a request is refused. *)
Definition no_room al m (size : Z) : Prop :=
  size = 0 \/ (size <= 1024 /\ fst (fst (KeHeapAllocPages 1 m)) <> EC_SUCCESS) \/
  page_count size = 0 \/ (1024 < size /\ fst (fst (KeHeapAllocPages (page_count size) m)) <> EC_SUCCESS) \/
  (1024 < size /\ forall r, r ∈ gAllocatorLargeRecords al -> InUse r = true).

Lemma kmalloc_run zeroed al m pgs prep flight size : alloc_ok al m pgs prep flight -> is_u64 size ->
  exists ptr al' m', kmalloc_of zeroed size al m = Ok (ptr, al', m') /\
    ((exists pgs', alloc_ok al' m' pgs' prep flight /\ granted al m pgs flight ptr size zeroed al' m' pgs') \/
     (ptr = 0 /\ refused al m pgs prep flight al' m' /\ no_room al m size)).
Proof.
  intros A Hs.
  assert (E : kmalloc_of zeroed size al m =
    if (size =? 0) || negb (gAllocatorInitialized al) then Ok (0, al, m) else
    if 0 <=? KiAllocatorFindSmallClass size then KiAllocatorAllocSmall size zeroed al m
    else KiAllocatorAllocLarge size zeroed al m) by (by destruct zeroed).
  rewrite E, (proj1 A). destruct (Z.eqb_spec size 0) as [->|Hne]; cbn [orb negb].
  { exists 0, al, m. split; [done|]. right. split; [done|]. split; [split; [by left | done | by intros a]|by left]. }
  destruct (class_of_size size ltac:(word_lia)) as [(Hle & Hc & _)|[Hgt ->]].
  - rewrite (proj2 (Z.leb_le 0 _)) by lia.
    destruct (alloc_small_run al m pgs prep flight size zeroed A ltac:(word_lia)) as (ptr & al' & m' & -> & Hr).
    do 3 eexists. split; [done|]. destruct Hr as [Hr|(Ep & Hr & x & <- & Hn)]; [by left|]. right. split; [done|].
    split; [done|]. right. by left.
  - cbn [Z.leb Z.compare]. destruct (alloc_large_run al m pgs prep flight size zeroed A ltac:(word_lia)) as (ptr & al' & m' & Er & Hr).
    change (0 <=? -1) with false. rewrite Er.
    do 3 eexists. split; [done|]. destruct Hr as [Hr|(Ep & Hr & Hn)]; [by left|]. right. split; [done|]. split; [done|].
    right. right. destruct Hn as [Hn|[Hn|Hn]]; [by left | by right; left | by right; right].
Qed.

(** ** Freeing *)

Lemma large_pointer_page al m pgs prep flight p x r : alloc_ok al m pgs prep flight -> p ∈ pgs ->
  x ∈ small_slots (spClass p) (spBase p) -> r ∈ active (gAllocatorLargeRecords al) -> UserPointer r <> x + 24.
Proof.
  intros (_ & L & _) Hp Hx Hr E. pose proof (ly_heap _ _ _ _ _ _ L) as Hm.
  assert (Hp' : p ∈ pgs ++ prep) by (apply elem_of_app; by left). pose proof (ly_pages _ _ _ _ _ _ L p Hp') as R.
  destruct (slot_place m p Hm R x Hx) as (? & ? & _). destruct (page_base_facts m p Hm R) as (_ & Hb & _).
  destruct (large_bounds _ _ _ _ _ _ L r Hr) as (_ & _ & Hb4 & _). rewrite E in Hb4. unfold PAGE_4KB in *. div_lia.
Qed.

(** Nothing is left of a block that was given back. *)
Lemma block_gone al m m' pgs prep flight b n : alloc_ok al m pgs prep ((b, n) :: flight) -> alloc_ok al m' pgs prep flight ->
  forall k, (b, k) ∉ live m'.
Proof.
  intros (_ & L & _) (_ & L' & _) k Hk. rewrite (ly_perm _ _ _ _ _ _ L') in Hk.
  pose proof (ly_nodup _ _ _ _ _ _ L) as Hn. set (o := owned (gAllocatorLargeRecords al) pgs prep) in *.
  assert (Hp : Permutation (o ((b, n) :: flight)) ((b, n) :: o flight)).
  { unfold o, owned. rewrite !app_assoc. symmetry. apply Permutation_middle. }
  assert (Hl : forall c, c ∈ (b, n) :: o flight -> c ∈ live m) by (intros c Hc; apply (ly_live _ _ _ _ _ _ _ L); change (c ∈ o ((b, n) :: flight)); by rewrite Hp).
  rewrite Hp in Hn. apply NoDup_cons in Hn as [Hn _]. pose proof (ly_heap _ _ _ _ _ _ L) as Hm.
  destruct (live_bounds m (b, n) Hm) as (_ & _ & B1 & _); [apply Hl; by left|].
  destruct (live_bounds m (b, k) Hm) as (_ & _ & B2 & _); [apply Hl; by right|]. cbn [fst snd] in *.
  apply Hn. assert ((b, n) = (b, k)) as ->; [|done].
  apply (live_disjoint m _ _ b Hm); [apply Hl; by left | apply Hl; by right | |]; unfold in_block, PAGE_4KB; cbn [fst snd]; lia.
Qed.

(** A pointer that is no allocation of a record and lies in a page that is no
    heap block is ignored. *)
Lemma kfree_gone al m pgs prep flight ptr : alloc_ok al m pgs prep flight ->
  (forall r, r ∈ active (gAllocatorLargeRecords al) -> UserPointer r <> ptr) ->
  (forall n, (HO_ALIGN_DOWN ptr PAGE_4KB, n) ∉ live m) -> kfree ptr al m = Ok (al, m).
Proof.
  intros A Hr Hno. pose proof A as (Hi & L & _). unfold kfree. rewrite Hi. destruct (ptr =? 0); [done|]. cbn [negb].
  unfold KiAllocatorTryFreeLarge. destruct (free_large_run al m ptr pgs prep flight A) as (o & al1 & -> & Ho). cbn [res_bind].
  destruct o as [b|]; [exfalso; destruct Ho as (_ & sz & (r & Hra & Ep & _) & _); by apply (Hr r)|].
  destruct Ho as (-> & _). cbn [res_bind]. unfold KiAllocatorTryFreeSmall, free_small_section, small_slot_of.
  set (b := HO_ALIGN_DOWN ptr PAGE_4KB) in *. destruct (KeKvaQueryRange b m) as [st o] eqn:E.
  destruct st; try done. destruct o as [rg|]; [|done].
  destruct (negb (_ =? _) || negb (_ =? b) || negb (_ =? 1)) eqn:G; [done|]. exfalso.
  apply orb_false_iff in G as [[G1 _]%orb_false_iff G3]. apply negb_false_iff, Z.eqb_eq in G1, G3.
  apply (Hno 1). rewrite <- G3. apply (query_sound m b rg); [apply L | done | done].
Qed.

Lemma kfree_run al m pgs prep flight ptr size : alloc_ok al m pgs prep flight ->
  (ptr, size) ∈ allocs (gAllocatorLargeRecords al) pgs ->
  exists al' m' pgs', kfree ptr al m = Ok (al', m') /\ alloc_ok al' m' pgs' prep flight /\
    freed al m pgs flight ptr size al' m' pgs' /\
    ((exists p x, ptr = x + 24 /\ p ∈ pgs' /\ x ∈ spFree p) \/ forall n, (HO_ALIGN_DOWN ptr PAGE_4KB, n) ∉ live m').
Proof.
  intros A Hin. pose proof A as (Hi & L & _). pose proof (ly_heap _ _ _ _ _ _ L) as Hm. unfold kfree. rewrite Hi. cbn [negb].
  unfold KiAllocatorTryFreeLarge. destruct (free_large_run al m ptr pgs prep flight A) as (o & al1 & -> & Ho). cbn [res_bind].
  destruct (alloc_cases _ _ _ Hin) as [(p & x & r & Hp & Hx & E)|(r & Hr & E)]; injection E as -> ->.
  - assert (Hp' : p ∈ pgs ++ prep) by (apply elem_of_app; by left).
    destruct (used_place _ _ _ _ _ _ L p x r Hp' Hx) as (Hxs & _ & _ & B1 & _).
    destruct (page_base_facts m p Hm (ly_pages _ _ _ _ _ _ L p Hp')) as (Hb0 & _).
    rewrite (proj2 (Z.eqb_neq (x + 24) 0)) by lia. destruct o as [b|].
    { exfalso. destruct Ho as (_ & sz & (r' & Hr' & Ep & _) & _). by apply (large_pointer_page _ _ _ _ _ p x r' A Hp Hxs Hr'). }
    destruct Ho as (-> & _). cbn [res_bind]. unfold KiAllocatorTryFreeSmall.
    destruct (free_small_run al m pgs prep flight p x r A Hp Hx) as (rb & al2 & m2 & pgs2 & flight2 & -> & A2 & _ & F & Hrb).
    cbn [res_bind]. destruct Hrb as [(-> & -> & q & Hq & Hxq)|(Hrb & -> & ->)].
    + rewrite Z.eqb_refl. cbn [negb res_bind]. exists al2, m2, pgs2. split_and!; [done.. |]. left. by exists q, x.
    + rewrite (proj2 (Z.eqb_neq (spBase p) 0)) by lia. cbn [negb].
      destruct (free_block_run _ _ _ _ _ _ _ A2) as (m3 & -> & A3 & Hag). cbn [res_bind].
      exists al2, m3, pgs2. split; [done|]. split; [done|]. split.
      * destruct F as [F1 F2 F3]. split; [done | by eapply agree_trans | done].
      * right. pose proof (page_of_slot_address m p x Hm (ly_pages _ _ _ _ _ _ L p Hp') Hxs) as ->. by eapply block_gone.
  - destruct (large_bounds _ _ _ _ _ _ L r Hr) as (_ & Hb0 & _). rewrite (proj2 (Z.eqb_neq _ 0)) by lia.
    destruct o as [b|]; [|by destruct (proj2 Ho r Hr)]. destruct Ho as (-> & size & (r' & Hr' & Ep & Es) & A1 & Hperm).
    assert (Er : large_alloc r' = large_alloc r).
    { apply (large_unique _ _ _ _ _ _ L); [done | done|]. apply (owned_apart _ _ _ _ _ _ L _ _ (UserPointer r)); [by eapply large_owned.. | |].
      - destruct (large_bounds _ _ _ _ _ _ L r' Hr') as (? & _ & _ & ? & ? & _). unfold in_block, large_block. cbn [fst snd]. lia.
      - destruct (large_bounds _ _ _ _ _ _ L r Hr) as (? & _ & _ & ? & ? & _). unfold in_block, large_block. cbn [fst snd]. lia. }
    unfold large_alloc in Er. injection Er as _ Er. rewrite <- Er, Es. clear Er.
    destruct (free_block_run _ _ _ _ _ _ _ A1) as (m2 & -> & A2 & Hag). cbn [res_bind].
    exists al1, m2, pgs. split; [done|]. split; [done|]. split; [by split|]. right.
    destruct (large_bounds _ _ _ _ _ _ L r Hr) as (_ & B1 & B2 & B3 & B4 & B5).
    pose proof (page_of (UserPointer r) 0) as Epg. rewrite Z.add_0_r in Epg. unfold PAGE_4KB in *. rewrite Epg by lia.
    by eapply block_gone.
Qed.

(** Freeing a slot that is free already changes nothing. *)
Lemma kfree_twice al m pgs prep flight p x : alloc_ok al m pgs prep flight -> p ∈ pgs -> x ∈ spFree p ->
  kfree (x + 24) al m = Ok (al, m).
Proof.
  intros A Hp Hx. pose proof A as (Hi & L & _). pose proof (ly_heap _ _ _ _ _ _ L) as Hm.
  assert (R : page_rep m p) by (apply (ly_pages _ _ _ _ _ _ L), elem_of_app; by left).
  assert (Hxs : x ∈ small_slots (spClass p) (spBase p)) by (apply (page_slot m p R); by left).
  destruct (slot_place m p Hm R x Hxs) as (? & _). destruct (page_base_facts m p Hm R) as (? & _).
  unfold kfree. rewrite (proj2 (Z.eqb_neq (x + 24) 0)), Hi by lia. cbn [negb]. unfold KiAllocatorTryFreeLarge.
  destruct (free_large_run al m (x + 24) pgs prep flight A) as (o & al1 & -> & Ho). cbn [res_bind]. destruct o as [b|].
  { exfalso. destruct Ho as (_ & sz & (r' & Hr' & Ep & _) & _). by apply (large_pointer_page _ _ _ _ _ p x r' A Hp Hxs Hr'). }
  destruct Ho as (-> & _). cbn [res_bind]. unfold KiAllocatorTryFreeSmall, free_small_section.
  destruct (slot_of_run m p x Hm R Hxs) as (o & -> & _ & Ho). by rewrite (Ho Hx).
Qed.
End runs.
