(* ===== verification/AllocSteps.v ===== *)
(** * The byte allocator: threads that interleave at its critical sections

    A thread inside [kmalloc], [kzalloc] or [kfree] performs one [ACTION] after
    another, and actions of different threads interleave freely: the critical
    sections, the calls to the heap between them, and accesses to memory the
    thread owns.  [run_action] is the action as the code performs it, [allowed]
    what a thread that follows the protocol may do. *)

From S2P Require Import Prelude Heap Parts Kva Alloc AllocInv AllocOps AllocState AllocCalls AllocRun.

Local Open Scope Z_scope.

(** What all threads together hold: prepared pages with their class, heap
    blocks, allocations with the size asked for. *)
Record WORLD (M : Type) : Type := mkWorld {
  wAl : KE_ALLOCATOR;
  wMem : M;
  wPrep : list (Z * Z);
  wFlight : list (Z * Z);
  wHeld : list (Z * Z);
}.
#[global] Arguments mkWorld {M}.
#[global] Arguments wAl {M}.
#[global] Arguments wMem {M}.
#[global] Arguments wPrep {M}.
#[global] Arguments wFlight {M}.
#[global] Arguments wHeld {M}.

Inductive ACTION : Type :=
| SmallTry (size : Z) (zeroed : bool)
| SmallPrepare (size : Z)
| SmallPublish (size page : Z) (zeroed : bool)
| BlockAlloc (pages : Z)
| LargeRecord (size base : Z)
| LargeZero (ptr size : Z)
| FreeSection (ptr size : Z)
| BlockFree (base pages : Z)
| Write (a v : Z).

(** [l] without its element [x]. *)
Definition drop_one (x : Z * Z) (l : list (Z * Z)) : list (Z * Z) := filter (fun y => y <> x) l.

Section steps.
Context {M : Type} `{HeapServices M} `{RangeServices M}.
Implicit Types (m : M) (w : WORLD M).

Definition hold (ptr size : Z) (held : list (Z * Z)) : list (Z * Z) := (ptr, size) :: held.

Definition run_action (act : ACTION) (w : WORLD M) : res (WORLD M) :=
  let '(mkWorld al m prep flight held) := w in
  match act with
  | SmallTry size zeroed =>
      let* (found, al, m) := small_try (KiAllocatorFindSmallClass size) size zeroed al m in
      Ok (mkWorld al m prep flight (match found with Some ptr => hold ptr size held | None => held end))
  | SmallPrepare size =>
      let c := KiAllocatorFindSmallClass size in
      let* (status, page, m) := KiAllocatorPrepareSmallPage c m in
      if negb (Kva.succeeded status) then Ok (mkWorld (KiAllocatorCountFailure al) m prep flight held)
      else Ok (mkWorld al m ((c, page) :: prep) flight held)
  | SmallPublish size page zeroed =>
      let c := KiAllocatorFindSmallClass size in
      let* (ptr, al, m) := small_publish c page size zeroed al m in
      Ok (mkWorld al m (drop_one (c, page) prep) flight (hold ptr size held))
  | BlockAlloc pages =>
      let '(status, base, m) := KeHeapAllocPages pages m in
      if negb (Kva.succeeded status) then Ok (mkWorld (KiAllocatorCountFailure al) m prep flight held)
      else Ok (mkWorld al m prep ((base, pages) :: flight) held)
  | LargeRecord size base =>
      match KeKvaQueryRange base m with
      | (EC_SUCCESS, Some range) =>
          let* (recorded, al) := large_record base size range al in
          if (recorded : bool)
          then Ok (mkWorld al m prep (drop_one (base, page_count size) flight) (hold base size held))
          else Ok (mkWorld al m prep flight held)
      | _ => Ok (mkWorld (KiAllocatorCountFailure al) m prep flight held)
      end
  | LargeZero ptr size => let* m := memset_bytes ptr size m in Ok (mkWorld al m prep flight held)
  | FreeSection ptr size =>
      let* (backing, al) := free_large_section ptr al in
      match backing with
      | Some base => Ok (mkWorld al m prep ((base, page_count size) :: flight) (drop_one (ptr, size) held))
      | None =>
          let* (released, al, m) := free_small_section ptr al m in
          match released with
          | None => Ok (mkWorld al m prep flight held)
          | Some base => Ok (mkWorld al m prep (if negb (base =? 0) then (base, 1) :: flight else flight)
                               (drop_one (ptr, size) held))
          end
      end
  | BlockFree base pages =>
      let* m := free_or_panic base m in Ok (mkWorld al m prep (drop_one (base, pages) flight) held)
  | Write a v => let* m := store a v m in Ok (mkWorld al m prep flight held)
  end.

(** A thread asks for sizes that belong to the path it is on, publishes pages
    and frees blocks it holds, frees and writes memory it has been given. *)
Definition allowed (act : ACTION) (w : WORLD M) : Prop :=
  match act with
  | SmallTry size _ | SmallPrepare size => 0 < size <= 1024
  | SmallPublish size page _ => 0 < size <= 1024 /\ (KiAllocatorFindSmallClass size, page) ∈ wPrep w
  | BlockAlloc pages => 0 < pages
  | LargeRecord size base => 1024 < size < 2 ^ 64 /\ (base, page_count size) ∈ wFlight w
  | LargeZero ptr size => 1024 < size /\ (ptr, size) ∈ wHeld w
  | FreeSection ptr size => (ptr, size) ∈ wHeld w
  | BlockFree base pages => (base, pages) ∈ wFlight w
  | Write a _ => alloc_word (wHeld w) a \/ live_word (wFlight w) a
  end.

(** The words an action may change although somebody holds them. *)
Definition written (act : ACTION) (a : Z) : Prop :=
  match act with
  | Write b _ => a = b
  | LargeZero ptr size => ptr <= a < ptr + size
  | _ => False
  end.

Inductive steps : WORLD M -> WORLD M -> Prop :=
| steps_none w : steps w w
| steps_one w w1 act w2 : steps w w1 -> allowed act w1 -> run_action act w1 = Ok w2 -> steps w w2.
End steps.

Lemma drop_one_perm x l l' : NoDup l -> Permutation l (x :: l') -> Permutation (drop_one x l) l'.
Proof.
  intros Hn Hp. unfold drop_one. rewrite Hp, filter_cons_False by tauto. rewrite Hp in Hn.
  apply NoDup_cons in Hn as [Hx _]. clear l Hp. induction l' as [|y l' IH]; [done|].
  rewrite filter_cons_True by (intros ->; apply Hx; by left). rewrite IH; [done|]. intros Hin. apply Hx. by right.
Qed.

Lemma cons_of x (l : list (Z * Z)) : x ∈ l -> exists l', Permutation l (x :: l').
Proof. intros (l1 & l2 & ->)%list_elem_of_split. exists (l1 ++ l2). by rewrite Permutation_middle. Qed.

Lemma drop_one_elem x y l : y ∈ drop_one x l -> y ∈ l.
Proof. unfold drop_one. by rewrite list_elem_of_filter; intros [_ ?]. Qed.

(** ** The invariant *)

Section invariant.
Context {M : Type} `{RangeLaws M}.
Implicit Types (m : M) (w : WORLD M) (p : SPAGE).

Definition class_base (p : SPAGE) : Z * Z := (spClass p, spBase p).

Definition world_ok w : Prop := exists pgs prep,
  alloc_ok (wAl w) (wMem w) pgs prep (wFlight w) /\ Permutation (class_base <$> prep) (wPrep w) /\
  Permutation (allocs (gAllocatorLargeRecords (wAl w)) pgs) (wHeld w) /\ busy pgs.

(** What stays in the same hands from [w] to [w']. *)
Definition kept w w' (a : Z) : Prop :=
  (a mod 8 = 0 /\ exists q, q ∈ wHeld w /\ q ∈ wHeld w' /\ q.1 <= a < q.1 + q.2) \/
  (a mod 8 = 0 /\ exists b, b ∈ wFlight w /\ b ∈ wFlight w' /\ in_block b a).

Lemma kept_old rs pgs al m wp fl hd w' a : Permutation (allocs rs pgs) hd -> kept (mkWorld al m wp fl hd) w' a ->
  kept_word rs pgs fl a.
Proof.
  cbn [kept wHeld wFlight]. intros Hp [(Ha & q & Hq & _ & Hin)|(Ha & b & Hb & _ & Hin)]; [left | right]; (split; [done|]).
  - exists q. by rewrite Hp.
  - by exists b.
Qed.

Lemma kept_new rs pgs al m wp fl hd w' a : Permutation (allocs rs pgs) (wHeld w') -> kept (mkWorld al m wp fl hd) w' a ->
  kept_word rs pgs fl a.
Proof.
  cbn [kept wHeld wFlight]. intros Hp [(Ha & q & _ & Hq & Hin)|(Ha & b & Hb & _ & Hin)]; [left | right]; (split; [done|]).
  - exists q. by rewrite Hp.
  - by exists b.
Qed.

(** The allocations are different ones. *)
Lemma allocs_nodup al m pgs prep flight : alloc_ok al m pgs prep flight -> NoDup (allocs (gAllocatorLargeRecords al) pgs).
Proof.
  intros (_ & L & _). pose proof (ly_heap _ _ _ _ _ _ L) as Hm. pose proof (ly_nodup _ _ _ _ _ _ L) as Hn.
  unfold owned in Hn. apply NoDup_app in Hn as (Hp & Hx & Hr). apply NoDup_app in Hr as (Hr & _).
  unfold allocs. apply NoDup_app. split_and!.
  - apply NoDup_bind.
    + intros p q y Gp Gq G1 G2. unfold page_allocs in G1, G2.
      apply list_elem_of_fmap in G1 as ([x1 r1] & E1 & G1), G2 as ([x2 r2] & E2 & G2). subst y. injection E2 as E2 Er. cbn in *.
      assert (Hp' : p ∈ pgs ++ prep) by (apply elem_of_app; by left). assert (Hq' : q ∈ pgs ++ prep) by (apply elem_of_app; by left).
      destruct (used_place _ _ _ _ _ _ L p x1 r1 Hp' G1) as (_ & ? & ? & B1 & B2 & _).
      destruct (used_place _ _ _ _ _ _ L q x2 r2 Hq' G2) as (_ & ? & ? & B3 & B4 & _).
      apply (page_unique _ _ _ _ _ _ L); [done | done|].
      assert (page_block p = page_block q) as E; [|by injection E].
      apply (owned_apart _ _ _ _ _ _ L _ _ x1); [by apply page_owned | by apply page_owned | |];
        unfold in_block, page_block, PAGE_4KB in *; cbn [fst snd]; lia.
    + intros p Gp. unfold page_allocs. apply NoDup_fmap_2_strong.
      * intros [x1 r1] [x2 r2] _ _ E. cbn in E. injection E as E1 E2. f_equal; lia.
      * assert (Hp' : p ∈ pgs ++ prep) by (apply elem_of_app; by left).
        pose proof (page_slots_nodup m p (ly_pages _ _ _ _ _ _ L p Hp')) as Hs. apply NoDup_app in Hs as (_ & _ & Hs).
        by eapply NoDup_fmap_1.
    + rewrite fmap_app in Hp. apply NoDup_app in Hp as (Hp & _). by eapply NoDup_fmap_1.
  - intros y G1 G2. apply list_elem_of_bind in G1 as (p & G1 & Gp). unfold page_allocs in G1.
    apply list_elem_of_fmap in G1 as ([x1 r1] & E1 & G1), G2 as (r & E2 & G2). subst y. injection E2 as E2 Er. cbn in *.
    assert (Hp' : p ∈ pgs ++ prep) by (apply elem_of_app; by left).
    destruct (used_place _ _ _ _ _ _ L p x1 r1 Hp' G1) as (_ & ? & ? & B1 & B2 & _).
    destruct (large_bounds _ _ _ _ _ _ L r G2) as (? & ? & B3 & _).
    destruct (page_base_facts m p Hm (ly_pages _ _ _ _ _ _ L p Hp')) as (_ & Hpb & _). unfold PAGE_4KB in *. div_lia.
  - eapply NoDup_fmap_1 in Hr as Hr'. apply NoDup_fmap_2_strong; [|done]. intros r r' G1 G2 E.
    assert (E' : large_block r = large_block r').
    { injection E as E1 E2. destruct (ly_large _ _ _ _ _ _ L r G1) as (F1 & _ & F2).
      destruct (ly_large _ _ _ _ _ _ L r' G2) as (F3 & _ & F4). unfold large_block. congruence. }
    apply list_elem_of_lookup in G1 as [i G1], G2 as [j G2].
    assert (i = j) as ->; [|congruence]. apply (NoDup_lookup _ _ _ (large_block r) Hr); rewrite list_lookup_fmap.
    + by rewrite G1.
    + rewrite G2. simpl. by rewrite E'.
Qed.

Lemma flight_nodup al m pgs prep flight : alloc_ok al m pgs prep flight -> NoDup flight.
Proof.
  intros (_ & L & _). pose proof (ly_nodup _ _ _ _ _ _ L) as Hn. unfold owned in Hn.
  apply NoDup_app in Hn as (_ & _ & Hn). by apply NoDup_app in Hn as (_ & _ & Hn).
Qed.

Lemma prep_nodup al m pgs prep flight : alloc_ok al m pgs prep flight -> NoDup (class_base <$> prep).
Proof.
  intros (_ & L & _). pose proof (ly_nodup _ _ _ _ _ _ L) as Hn. unfold owned in Hn.
  apply NoDup_app in Hn as (Hn & _). rewrite fmap_app in Hn. apply NoDup_app in Hn as (_ & _ & Hn).
  apply NoDup_fmap_2_strong; [|by eapply NoDup_fmap_1]. intros p q Gp Gq E.
  apply (page_unique _ _ _ _ _ _ L); [apply elem_of_app; by right.. |]. by injection E.
Qed.

Lemma alloc_ok_prep al m pgs prep prep' flight : Permutation prep prep' ->
  alloc_ok al m pgs prep flight -> alloc_ok al m pgs prep' flight.
Proof.
  intros Hp (Hi & [L1 L2 L3 L4 L5 L6 L7 L8] & S). split; [done|]. split; [|done]. split; try done.
  - intros p. rewrite <- Hp. apply L4.
  - intros p. rewrite <- Hp. apply L5.
  - rewrite L8. apply owned_perm. by rewrite Hp.
Qed.

(** A word that describes no page may be written. *)
Lemma write_run al m pgs prep flight a v : alloc_ok al m pgs prep flight ->
  kept_word (gAllocatorLargeRecords al) pgs flight a ->
  exists m', store a v m = Ok m' /\ alloc_ok al m' pgs prep flight /\
    agree (fun b => kept_word (gAllocatorLargeRecords al) pgs flight b /\ b <> a) m m'.
Proof.
  intros A Ha. pose proof A as (_ & L & _).
  destruct (store_ok m a v (ly_heap _ _ _ _ _ _ L) (kept_live _ _ _ _ _ _ L a Ha)) as (m' & E & Hm' & Hl & _ & Hag).
  exists m'. split_and!; [done | |].
  - eapply alloc_ok_frame; [exact A | done | rewrite Hl; apply L|]. eapply agree_weaken; [|exact Hag].
    intros b Hb. split; [|by eapply meta_live]. intros ->. by apply (kept_not_meta _ _ _ _ _ _ L a).
  - eapply agree_weaken; [|exact Hag]. intros b [Hb Hne]. split; [done|]. by apply (kept_live _ _ _ _ _ _ L).
Qed.

(** ** Every action *)

(** The action returns, whoever keeps a word keeps its value, and what is
    freed is free. *)
Definition runs (act : ACTION) w : Prop :=
  exists w', run_action act w = Ok w' /\
    (world_ok w' /\ agree (fun a => kept w w' a /\ ~ written act a) (wMem w) (wMem w')) /\
    (forall ptr size, act = FreeSection ptr size -> (ptr, size) ∉ wHeld w').

Lemma drop_one_gone x l : x ∉ drop_one x l.
Proof. unfold drop_one. by rewrite list_elem_of_filter; intros [? _]. Qed.

Lemma small_class size : 0 < size <= 1024 ->
  0 <= KiAllocatorFindSmallClass size < 7 /\ 1 <= size <= csize (KiAllocatorFindSmallClass size).
Proof. intros Hs. destruct (class_of_size size ltac:(lia)) as [(_ & Hc & Hf & _)|[? _]]; lia. Qed.

Lemma runs_try w size zeroed : world_ok w -> 0 < size <= 1024 -> runs (SmallTry size zeroed) w.
Proof.
  destruct w as [al m wp fl hd]. intros (pgs & prep & A & Hp & Hh & B) Hs. cbn [wAl wMem wPrep wFlight wHeld] in *.
  destruct (small_class size Hs) as [Hc Hf].
  destruct (small_try_run al m pgs prep fl _ size zeroed A Hc Hf) as (o & al' & m' & pgs' & E & A' & _ & Ho).
  unfold runs, run_action. rewrite E. cbn [res_bind]. eexists. split; [reflexivity|]. split; [|intros ? ? [=]]. destruct o as [ptr|].
  - destruct Ho as ([G1 G2 _ _ G5] & _). split.
    + exists pgs', prep. split_and!; [done | done | by rewrite G1, Hh | by apply G5].
    + eapply agree_weaken; [|exact G2]. intros a [Ha _]. by apply (kept_old _ _ _ _ _ _ _ _ _ Hh Ha).
  - destruct Ho as (-> & -> & -> & _). split; [by exists pgs, prep | by intros a].
Qed.

Lemma runs_prepare w size : world_ok w -> 0 < size <= 1024 -> runs (SmallPrepare size) w.
Proof.
  destruct w as [al m wp fl hd]. intros (pgs & prep & A & Hp & Hh & B) Hs. cbn [wAl wMem wPrep wFlight wHeld] in *.
  destruct (small_class size Hs) as [Hc _].
  destruct (prepared_run al m pgs prep fl _ A Hc) as (st & page & m' & E & Hag & Hr).
  unfold runs, run_action. rewrite E. cbn [res_bind]. unfold Kva.succeeded.
  assert (Hk : forall w', agree (fun a => kept (mkWorld al m wp fl hd) w' a /\ ~ written (SmallPrepare size) a) m m').
  { intros w'. eapply agree_weaken; [|exact Hag]. intros a [Ha _]. pose proof A as (_ & L & _).
    eapply (kept_live _ _ _ _ _ _ L), (kept_old _ _ _ _ _ _ _ _ _ Hh Ha). }
  destruct (decide (st = EC_SUCCESS)) as [Hst|Hst].
  - rewrite bool_decide_true by done. cbn [negb]. destruct Hr as (p & Eb & Ec & A'). eexists. split; [reflexivity|]. split; [|intros ? ? [=]].
    split; [|apply Hk]. exists pgs, (p :: prep). split_and!; [done | | done | done].
    cbn [fmap list_fmap wPrep]. unfold class_base at 1. by rewrite Eb, Ec, Hp.
  - rewrite bool_decide_false by done. cbn [negb]. destruct Hr as [A' _]. eexists. split; [reflexivity|]. split; [|intros ? ? [=]].
    split; [|apply Hk]. exists pgs, prep. split_and!; [by apply failure_ok | done..].
Qed.

Lemma runs_publish w size page zeroed : world_ok w -> 0 < size <= 1024 ->
  (KiAllocatorFindSmallClass size, page) ∈ wPrep w -> runs (SmallPublish size page zeroed) w.
Proof.
  destruct w as [al m wp fl hd]. intros (pgs & prep & A & Hp & Hh & B) Hs Hin. cbn [wAl wMem wPrep wFlight wHeld] in *.
  destruct (small_class size Hs) as [Hc Hf]. set (c := KiAllocatorFindSmallClass size) in *.
  pose proof Hin as Hin'. rewrite <- Hp in Hin'. apply list_elem_of_fmap in Hin' as (p & Ep & Hpin).
  unfold class_base in Ep. injection Ep as Ec Eb. apply list_elem_of_split in Hpin as (l1 & l2 & ->).
  assert (A1 : alloc_ok al m pgs (p :: l1 ++ l2) fl) by (eapply alloc_ok_prep; [|exact A]; by rewrite <- Permutation_middle).
  rewrite Ec in Hf. destruct (small_publish_run al m p pgs (l1 ++ l2) fl size zeroed A1 Hf) as (ptr & al' & m' & pgs' & E & A' & _ & G).
  rewrite <- Ec, <- Eb in E. unfold runs, run_action. fold c. rewrite E. cbn [res_bind]. eexists. split; [reflexivity|]. split; [|intros ? ? [=]].
  destruct G as [G1 G2 _ _ G5]. split.
  - exists pgs', (l1 ++ l2). split_and!; [done | | by cbn [wHeld wAl]; rewrite G1; unfold hold; by rewrite Hh | by apply G5].
    cbn [wPrep]. symmetry. apply drop_one_perm; [rewrite <- Hp; by eapply prep_nodup|].
    rewrite <- Hp, !fmap_app, fmap_cons, <- Permutation_middle. unfold class_base at 1. by rewrite Ec, Eb.
  - eapply agree_weaken; [|exact G2]. intros a [Ha _]. by apply (kept_old _ _ _ _ _ _ _ _ _ Hh Ha).
Qed.

Lemma runs_block w pages : world_ok w -> 0 < pages -> runs (BlockAlloc pages) w.
Proof.
  destruct w as [al m wp fl hd]. intros (pgs & prep & A & Hp & Hh & B) Hn. cbn [wAl wMem wPrep wFlight wHeld] in *.
  unfold runs, run_action. destruct (KeHeapAllocPages pages m) as [[st b] m'] eqn:E.
  destruct (block_alloc_run al m pgs prep fl pages st b m' A Hn E) as (A' & Hag & _). unfold Kva.succeeded.
  assert (Hk : forall w', agree (fun a => kept (mkWorld al m wp fl hd) w' a /\ ~ written (BlockAlloc pages) a) m m').
  { intros w'. eapply agree_weaken; [|exact Hag]. intros a [Ha _]. pose proof A as (_ & L & _).
    eapply (kept_live _ _ _ _ _ _ L), (kept_old _ _ _ _ _ _ _ _ _ Hh Ha). }
  destruct (decide (st = EC_SUCCESS)) as [Hst|Hst].
  - rewrite bool_decide_true by done. cbn [negb]. eexists. split; [reflexivity|]. split; [|intros ? ? [=]]. split; [by exists pgs, prep | apply Hk].
  - rewrite bool_decide_false by done. cbn [negb]. eexists. split; [reflexivity|]. split; [|intros ? ? [=]]. split; [|apply Hk].
    exists pgs, prep. split_and!; [by apply failure_ok | done..].
Qed.

Lemma runs_record w size base : world_ok w -> 1024 < size < 2 ^ 64 -> (base, page_count size) ∈ wFlight w ->
  runs (LargeRecord size base) w.
Proof.
  destruct w as [al m wp fl hd]. intros (pgs & prep & A & Hp & Hh & B) Hs Hin. cbn [wAl wMem wPrep wFlight wHeld] in *.
  pose proof A as (_ & L & _). destruct (cons_of _ _ Hin) as (fl' & Hfl).
  pose proof (alloc_ok_perm _ _ _ _ _ _ Hfl A) as A1.
  assert (Hb : (base, page_count size) ∈ live m) by (apply (ly_live _ _ _ _ _ _ _ L), flight_owned; done).
  destruct (query_live m base _ (ly_heap _ _ _ _ _ _ L) Hb) as (rg & E & _ & Hrb & Hrn).
  destruct (large_record_run al m base size rg pgs prep fl' A1 Hs Hrb Hrn) as (ok & al' & E' & Hr).
  unfold runs, run_action. rewrite E, E'. cbn [res_bind]. destruct ok; (eexists; split; [reflexivity|]; split; [|intros ? ? [=]]; split; [|by intros a]).
  - destruct Hr as [A' Hq]. exists pgs, prep. split_and!; [| done | by cbn [wHeld wAl]; rewrite Hq; unfold hold; by rewrite Hh | done].
    eapply alloc_ok_perm; [|exact A']. symmetry. apply drop_one_perm; [by eapply flight_nodup | done].
  - destruct Hr as [-> _]. exists pgs, prep. split_and!; [by apply failure_ok | done..].
Qed.

Lemma runs_zero w ptr size : world_ok w -> 1024 < size -> (ptr, size) ∈ wHeld w -> runs (LargeZero ptr size) w.
Proof.
  destruct w as [al m wp fl hd]. intros (pgs & prep & A & Hp & Hh & B) Hs Hin. cbn [wAl wMem wPrep wFlight wHeld] in *.
  pose proof A as (_ & L & _). rewrite <- Hh in Hin.
  destruct (alloc_cases _ _ _ Hin) as [(p & x & r & Gp & Hx & E)|(r & Hr & E)].
  { exfalso. injection E as -> ->. assert (Gp' : p ∈ pgs ++ prep) by (apply elem_of_app; by left).
    pose proof (ly_pages _ _ _ _ _ _ L p Gp') as R. destruct (pr_used m p R x r Hx) as (_ & _ & Hr).
    destruct (class_ok _ (pr_class m p R)). lia. }
  injection E as -> ->. destruct (clear_large_run al m pgs prep fl r A Hr) as (m' & E & A' & _ & _ & Hag).
  unfold runs, run_action. rewrite E. cbn [res_bind]. eexists. split; [reflexivity|]. split; [|intros ? ? [=]]. split; [by exists pgs, prep|].
  eapply agree_weaken; [|exact Hag]. intros a [Ha Hn]. split; [|exact Hn].
  eapply (kept_live _ _ _ _ _ _ L), (kept_old _ _ _ _ _ _ _ _ _ Hh Ha).
Qed.

Lemma runs_write w a v : world_ok w -> alloc_word (wHeld w) a \/ live_word (wFlight w) a -> runs (Write a v) w.
Proof.
  destruct w as [al m wp fl hd]. intros (pgs & prep & A & Hp & Hh & B) Ha. cbn [wAl wMem wPrep wFlight wHeld] in *.
  assert (Hk : kept_word (gAllocatorLargeRecords al) pgs fl a).
  { destruct Ha as [(Ha8 & q & Hq & Ha)|Ha]; [left | by right]. split; [done|]. exists q. by rewrite Hh. }
  destruct (write_run al m pgs prep fl a v A Hk) as (m' & E & A' & Hag).
  unfold runs, run_action. rewrite E. cbn [res_bind]. eexists. split; [reflexivity|]. split; [|intros ? ? [=]]. split; [by exists pgs, prep|].
  eapply agree_weaken; [|exact Hag]. intros b [Hb Hn]. split; [|exact Hn]. exact (kept_old _ _ _ _ _ _ _ _ _ Hh Hb).
Qed.

Lemma runs_free_block w base pages : world_ok w -> (base, pages) ∈ wFlight w -> runs (BlockFree base pages) w.
Proof.
  destruct w as [al m wp fl hd]. intros (pgs & prep & A & Hp & Hh & B) Hin. cbn [wAl wMem wPrep wFlight wHeld] in *.
  destruct (cons_of _ _ Hin) as (fl' & Hfl). pose proof (alloc_ok_perm _ _ _ _ _ _ Hfl A) as A1.
  destruct (free_block_run al m pgs prep fl' base pages A1) as (m' & E & A' & Hag).
  pose proof (drop_one_perm _ _ _ (flight_nodup _ _ _ _ _ A) Hfl) as Hd.
  unfold runs, run_action. rewrite E. cbn [res_bind]. eexists. split; [reflexivity|]. split; [|intros ? ? [=]]. split.
  - exists pgs, prep. split_and!; [|done..]. by eapply alloc_ok_perm.
  - eapply agree_weaken; [|exact Hag]. intros a [[(Ha & q & Hq & _ & Hq')|(Ha & b & _ & Hb & Hb')] _]; [left | right]; (split; [done|]).
    + exists q. by rewrite Hh.
    + exists b. by rewrite <- Hd.
Qed.

Lemma alloc_size al m pgs prep flight q : alloc_ok al m pgs prep flight -> q ∈ allocs (gAllocatorLargeRecords al) pgs ->
  0 < q.2.
Proof.
  intros (_ & L & _) Hq. destruct (alloc_cases _ _ _ Hq) as [(p & x & r & Gp & Hx & ->)|(r & Gr & ->)]; cbn [snd large_alloc].
  - assert (Gp' : p ∈ pgs ++ prep) by (apply elem_of_app; by left).
    destruct (used_place _ _ _ _ _ _ L p x r Gp' Hx) as (_ & ? & _). lia.
  - destruct (large_bounds _ _ _ _ _ _ L r Gr) as (_ & _ & _ & ? & _). lia.
Qed.

Lemma runs_free w ptr size : world_ok w -> (ptr, size) ∈ wHeld w -> runs (FreeSection ptr size) w.
Proof.
  destruct w as [al m wp fl hd]. intros (pgs & prep & A & Hp & Hh & B) Hin. cbn [wAl wMem wPrep wFlight wHeld] in *.
  pose proof A as (_ & L & _). pose proof (allocs_nodup _ _ _ _ _ A) as Hnd. rewrite Hh in Hnd.
  assert (Hin' : (ptr, size) ∈ allocs (gAllocatorLargeRecords al) pgs) by (by rewrite Hh).
  destruct (free_large_run al m ptr pgs prep fl A) as (o & al1 & E1 & Ho). unfold runs, run_action. rewrite E1. cbn [res_bind].
  destruct o as [b|].
  - destruct Ho as (-> & size' & (r & Hr & Er & Es) & A1 & Hq).
    assert (Hsz : size' = size).
    { destruct (large_bounds _ _ _ _ _ _ L r Hr) as (_ & B0 & B1 & B2 & _).
      assert (Hr' : (ptr, size') ∈ allocs (gAllocatorLargeRecords al) pgs) by (rewrite Hq; by left).
      pose proof (alloc_size _ _ _ _ _ _ A Hin') as Hs0. cbn [snd] in Hs0.
      pose proof (allocs_apart _ _ _ _ _ _ L (ptr, size') (ptr, size) ptr Hr' Hin') as Ha. cbn [fst snd] in Ha.
      assert ((ptr, size') = (ptr, size)) as E; [apply Ha; lia | by injection E]. }
    clear r Hr Er Es. subst size'. eexists. split; [reflexivity|]. split; [|intros ? ? [= <- <-]; apply drop_one_gone]. split; [|by intros a]. exists pgs, prep. split_and!; [exact A1 | exact Hp | | exact B].
    cbn [wHeld wAl]. symmetry. apply drop_one_perm; [done|]. by rewrite <- Hh.
  - destruct Ho as (-> & Hno). destruct (alloc_cases _ _ _ Hin') as [(p & x & r & Gp & Hx & E)|(r & Gr & E)];
      injection E as -> ->; [|by destruct (Hno r Gr)].
    destruct (free_small_run al m pgs prep fl p x r A Gp Hx) as (rb & al2 & m2 & pgs2 & fl2 & E2 & A2 & _ & [F1 F2 F3] & Hrb).
    rewrite E2. cbn [res_bind]. eexists. split; [reflexivity|]. split; [|intros ? ? [= <- <-]; apply drop_one_gone].
    assert (Hd : Permutation (allocs (gAllocatorLargeRecords al2) pgs2) (drop_one (x + 24, r) hd)).
    { symmetry. apply drop_one_perm; [done|]. by rewrite <- Hh. }
    split.
    + exists pgs2, prep. split_and!; [| done | done | by apply F3]. cbn [wFlight wAl wMem].
      destruct Hrb as [(-> & -> & _)|(Hrb & -> & _)]; [done|]. by rewrite (proj2 (Z.eqb_neq rb 0)) by lia.
    + eapply agree_weaken; [|exact F2]. intros a [Ha _]. eapply kept_new; [|exact Ha]; exact Hd.
Qed.

Lemma action_runs act w : world_ok w -> allowed act w -> runs act w.
Proof.
  intros W. destruct act; cbn [allowed].
  - by apply runs_try.
  - by apply runs_prepare.
  - intros [? ?]. by apply runs_publish.
  - by apply runs_block.
  - intros [? ?]. by apply runs_record.
  - intros [? ?]. by apply runs_zero.
  - by apply runs_free.
  - by apply runs_free_block.
  - by apply runs_write.
Qed.

Lemma steps_ok w w' : world_ok w -> steps w w' -> world_ok w'.
Proof.
  intros W. induction 1 as [|w w1 act w2 _ IH Ha E]; [done|].
  destruct (action_runs act w1 (IH W) Ha) as (w' & E' & [W' _] & _). congruence.
Qed.

(** ** From the start *)

Lemma init_ok al m : gAllocatorInitialized al = false -> heap_ok m ->
  KeAllocatorInit al = (EC_SUCCESS, snd (KeAllocatorInit al)) /\
  world_ok (mkWorld (snd (KeAllocatorInit al)) m [] (live m) []).
Proof.
  intros Hi Hm. unfold KeAllocatorInit. rewrite Hi. cbn [snd]. split; [done|].
  exists [], []. cbn [wAl wMem wPrep wFlight wHeld gAllocatorLargeRecords].
  assert (Ha : active (replicate (Z.to_nat KE_ALLOC_LARGE_RECORD_CAPACITY) free_record) = []) by reflexivity.
  unfold allocs. rewrite Ha. split_and!; [|done | done |].
  - split; [done|]. cbn [gAllocatorSmallPages gAllocatorLargeRecords gAllocatorStats]. split.
    + split; cbn [app]; [done | done | done | | | | |].
      * intros p Hp. by apply elem_of_nil in Hp.
      * intros p Hp. by apply elem_of_nil in Hp.
      * intros c Hc. exists 0. split; [|done]. apply lookup_replicate_2. unfold KE_ALLOC_SMALL_CLASS_COUNT. lia.
      * intros r. rewrite Ha. intros Hr. by apply elem_of_nil in Hr.
      * unfold owned. by rewrite Ha.
    + by split; try rewrite Ha.
  - intros p Hp. by apply elem_of_nil in Hp.
Qed.

Lemma length_page_allocs pgs : length (pgs ≫= page_allocs) = length (pgs ≫= spUsed).
Proof.
  induction pgs as [|p pgs IH]; [done|]. rewrite !bind_cons, !length_app, IH. unfold page_allocs. by rewrite length_fmap.
Qed.

Lemma alloc_place al m pgs prep flight q : alloc_ok al m pgs prep flight -> q ∈ allocs (gAllocatorLargeRecords al) pgs ->
  0 < q.1 /\ q.1 mod 8 = 0.
Proof.
  intros (_ & L & _) Hq. destruct (alloc_cases _ _ _ Hq) as [(p & x & r & Gp & Hx & ->)|(r & Gr & ->)]; cbn [fst large_alloc].
  - assert (Gp' : p ∈ pgs ++ prep) by (apply elem_of_app; by left).
    destruct (used_place _ _ _ _ _ _ L p x r Gp' Hx) as (_ & _ & _ & B & _ & B8).
    destruct (page_base_facts m p (ly_heap _ _ _ _ _ _ L) (ly_pages _ _ _ _ _ _ L p Gp')) as (? & _). div_lia.
  - destruct (large_bounds _ _ _ _ _ _ L r Gr) as (_ & ? & ? & _). unfold PAGE_4KB in *. div_lia.
Qed.

(** What the invariant says in terms of what threads hold: their allocations
    are apart, the counters are exact, and an allocator without allocations
    has kept no page. *)
Lemma world_safe w : world_ok w -> let st := gAllocatorStats (wAl w) in
  (NoDup (wHeld w) /\
   forall q1 q2 a, q1 ∈ wHeld w -> q2 ∈ wHeld w -> q1.1 <= a < q1.1 + q1.2 -> q2.1 <= a < q2.1 + q2.2 -> q1 = q2) /\
  (forall q, q ∈ wHeld w -> 0 < q.1 /\ q.1 mod 8 = 0) /\
  LiveAllocationCount st = Z.of_nat (length (wHeld w)) /\
  (wHeld w = [] -> BackingBytes st = 0 /\
     Permutation (live (wMem w)) (((fun q => (q.2, 1)) <$> wPrep w) ++ wFlight w)).
Proof.
  destruct w as [al m wp fl hd]. intros (pgs & prep & A & Hp & Hh & B). cbn [wAl wMem wPrep wFlight wHeld] in *.
  pose proof A as (_ & L & S). split_and!.
  - rewrite <- Hh. by eapply allocs_nodup.
  - intros q1 q2 a G1 G2. rewrite <- Hh in G1, G2. by apply (allocs_apart _ _ _ _ _ _ L).
  - intros q Hq. rewrite <- Hh in Hq. by eapply alloc_place.
  - destruct S as [S1 S2 S3 _ _]. rewrite S3, S1, S2, <- Hh. unfold allocs.
    rewrite length_app, length_page_allocs, length_fmap. lia.
  - intros ->. apply Permutation_nil_r in Hh. unfold allocs in Hh. apply app_eq_nil in Hh as [G1 G2].
    assert (pgs = []) as ->.
    { destruct pgs as [|p pgs]; [done|]. exfalso. apply (B p); [by left|]. rewrite bind_cons in G1.
      apply app_eq_nil in G1 as [G1 _]. by apply fmap_nil_inv in G1. }
    apply fmap_nil_inv in G2. destruct S as [_ _ _ S4 _]. rewrite G2 in S4. split; [exact S4|].
    rewrite (ly_perm _ _ _ _ _ _ L). unfold owned. rewrite G2. cbn [app fmap list_fmap]. apply Permutation_app_tail.
    rewrite <- Hp, <- list_fmap_compose. done.
Qed.
End invariant.
