(* ===== verification/AllocDiag.v ===== *)
(** * The byte allocator: diagnosis of an address

    [KeAllocatorDiagnoseAddress] finds the allocation an address lies in. *)

From S2P Require Import Prelude Heap Parts Kva Alloc AllocInv AllocOps AllocState AllocCalls.

Local Open Scope Z_scope.

(** What is reported of a slot in use, and of a record. *)
Definition small_info (p : SPAGE) (x r : Z) : KE_ALLOCATOR_ADDRESS_INFO :=
  mkInfo true KE_ALLOCATOR_ALLOCATION_SMALL (x + 24) (x + 24 + r) r (spBase p) 1 (spClass p) (csize (spClass p)).
Definition large_info (r : KE_ALLOC_LARGE_RECORD) : KE_ALLOCATOR_ADDRESS_INFO :=
  mkInfo true KE_ALLOCATOR_ALLOCATION_LARGE (UserPointer r) (UserPointer r + RequestedSize r) (RequestedSize r)
    (BackingUsableBase r) (BackingUsablePages r) 0 0.

Lemma fst_unique (l : list (Z * Z)) x r r' : NoDup l.*1 -> (x, r) ∈ l -> (x, r') ∈ l -> r = r'.
Proof.
  intros Hn [i Hi]%list_elem_of_lookup [j Hj]%list_elem_of_lookup.
  assert (i = j) as ->; [|congruence]. apply (NoDup_lookup _ _ _ x Hn); by rewrite list_lookup_fmap, ?Hi, ?Hj.
Qed.

Section diagnosis.
Context {M : Type} `{RangeLaws M}.
Implicit Types (m : M) (p : SPAGE) (al : KE_ALLOCATOR).

Lemma diagnose_large_run va info rs :
  (forall r, r ∈ active rs -> 0 <= UserPointer r /\ 0 <= RequestedSize r /\ UserPointer r + RequestedSize r < 2 ^ 64) ->
  (exists r, r ∈ active rs /\ UserPointer r <= va < UserPointer r + RequestedSize r /\
     KiAllocatorDiagnoseLargeLocked va info rs = large_info r) \/
  (KiAllocatorDiagnoseLargeLocked va info rs = info /\
   forall r, r ∈ active rs -> ~ (UserPointer r <= va < UserPointer r + RequestedSize r)).
Proof.
  induction rs as [|r rs IH]; intros Hb; cbn [KiAllocatorDiagnoseLargeLocked].
  { right. split; [done|]. intros r Hr. by apply elem_of_nil in Hr. }
  unfold active in *. destruct (InUse r) eqn:Eu; cbn [negb].
  - rewrite filter_cons_True in * by done. destruct (Hb r ltac:(by left)) as (B1 & B2 & B3).
    assert (KiAllocatorEndFromLength (UserPointer r) (RequestedSize r) = UserPointer r + RequestedSize r) as ->.
    { unfold KiAllocatorEndFromLength. change (not64 0) with (2 ^ 64 - 1). rewrite (proj2 (Z.ltb_ge _ _)) by lia.
      apply u64_small. word_lia. }
    destruct (Z.ltb_spec va (UserPointer r)) as [Hlo|Hlo]; [|destruct (Z.leb_spec (UserPointer r + RequestedSize r) va) as [Hhi|Hhi]];
      cbn [orb]; [| |left; exists r; split_and!; [by left | lia | lia | done]];
      (destruct IH as [(r' & Hr' & Hin & E)|(E & Hno)]; [intros r' Hr'; apply Hb; by right | left; exists r'; split_and!; [by right | lia | lia | done] |
        right; split; [done|]; intros r' [->|Hr']%elem_of_cons; [lia | by apply Hno]]).
  - rewrite filter_cons_False in * by congruence. by apply IH.
Qed.

Lemma used_index m p x r va : page_rep m p -> (x, r) ∈ spUsed p -> x + 24 <= va < x + 24 + r ->
  let i := (va - spBase p - 80) / stride (spClass p) in
  0 <= i < per (spClass p) /\ x = spBase p + 56 + i * stride (spClass p) /\ spBase p + 80 <= va.
Proof.
  intros R Hx Hva. destruct (pr_used m p R x r Hx) as (_ & _ & Hr). pose proof (pr_class m p R) as Hc.
  destruct (class_ok _ Hc) as [Hcs _ Est _ _ _]. destruct (stride_pos _ Hc) as [Hs _].
  assert (Hxs : x ∈ small_slots (spClass p) (spBase p)).
  { apply (page_slot m p R). right. apply list_elem_of_fmap. by exists (x, r). }
  apply small_slot_iff in Hxs as (j & Hj & ->).
  assert (E : (va - spBase p - 80) / stride (spClass p) = j).
  { symmetry. apply (Z.div_unique_pos _ _ _ (va - spBase p - 80 - j * stride (spClass p))); lia. }
  rewrite E. nia.
Qed.

Lemma diagnose_small_run m p va info : heap_ok m -> page_rep m p -> in_block (page_block p) va ->
  (exists x r, (x, r) ∈ spUsed p /\ x + 24 <= va < x + 24 + r /\
     KiAllocatorDiagnoseSmallLocked va info m = Ok (small_info p x r)) \/
  (KiAllocatorDiagnoseSmallLocked va info m = Ok info /\
   forall x r, (x, r) ∈ spUsed p -> ~ (x + 24 <= va < x + 24 + r)).
Proof.
  intros Hm R Hva. destruct (page_base_facts m p Hm R) as (Hb0 & Hb4 & Hb1). pose proof (pr_class m p R) as Hc.
  destruct (class_ok _ Hc) as [Hcs _ Est Hper Hfit Hrd]. unfold in_block, page_block, PAGE_4KB in Hva. cbn [fst snd] in Hva.
  pose proof (fun x r Hx Hin => used_index m p x r va R Hx Hin) as Hidx. cbn zeta in Hidx.
  assert (Hnone : (va < spBase p + 80 \/ per (spClass p) <= (va - spBase p - 80) / stride (spClass p)) ->
            forall x r, (x, r) ∈ spUsed p -> ~ (x + 24 <= va < x + 24 + r)).
  { intros Hout x r Hx Hin. specialize (Hidx x r Hx Hin). lia. }
  assert (Hpage : HO_ALIGN_DOWN va PAGE_4KB = spBase p).
  { replace va with (spBase p + (va - spBase p)) by lia. apply page_of; [done | done | done |]. unfold PAGE_4KB. lia. }
  unfold KiAllocatorDiagnoseSmallLocked. rewrite Hpage.
  destruct (query_live m (spBase p) 1 Hm (pr_live m p R)) as (rg & -> & -> & -> & ->). rewrite !Z.eqb_refl. cbn [negb orb].
  destruct (page_header m p R) as (-> & -> & -> & ->). cbn [res_bind].
  rewrite Z.eqb_refl, (proj2 (Z.leb_gt _ (spClass p))) by (unfold KE_ALLOC_SMALL_CLASS_COUNT; lia). cbn [negb orb].
  rewrite (proj2 (Z.eqb_neq (stride _) 0)), (proj2 (Z.eqb_neq (per _) 0)) by lia. cbn [orb].
  change (HO_ALIGN_UP sizeof_SMALL_PAGE 8) with 56. unfold sizeof_SMALL_SLOT, PAGE_4KB in *.
  rewrite (u64_small (spBase p + 56 + 24)), (u64_small (spBase p + 4096)) by word_lia.
  rewrite (proj2 (Z.leb_gt _ va)), orb_false_r by lia. replace (spBase p + 56 + 24) with (spBase p + 80) by lia.
  destruct (Z.ltb_spec va (spBase p + 80)) as [Hlo|Hlo]; [right; split; [done | apply Hnone; by left]|].
  rewrite (u64_small (va - spBase p - 56)), (proj2 (Z.ltb_ge _ 24)) by word_lia.
  replace (va - spBase p - 56 - 24) with (va - spBase p - 80) by lia. rewrite (u64_small (va - spBase p - 80)) by word_lia.
  set (i := (va - spBase p - 80) / stride (spClass p)) in *.
  destruct (Z.leb_spec (per (spClass p)) i) as [Hi|Hi]; [right; split; [done | apply Hnone; by right]|].
  assert (Hi0 : 0 <= i) by (apply Z.div_pos; lia).
  assert (Hik : i * stride (spClass p) <= va - spBase p - 80 < i * stride (spClass p) + stride (spClass p)).
  { unfold i. pose proof (Z.div_mod (va - spBase p - 80) (stride (spClass p)) ltac:(lia)).
    pose proof (Z.mod_pos_bound (va - spBase p - 80) (stride (spClass p)) ltac:(lia)). lia. }
  rewrite (u64_small (i * _)) by word_lia. set (x := spBase p + 56 + i * stride (spClass p)) in *.
  destruct (small_slot_bounds (spClass p) (spBase p) x Hc Hb4) as (Hx1 & Hx2 & _); [apply small_slot_iff; by exists i|].
  unfold PAGE_4KB in Hx2. rewrite (u64_small x) by word_lia.
  assert (Hxs : x ∈ small_slots (spClass p) (spBase p)) by (apply small_slot_iff; by exists i).
  destruct (slot_header m p x R Hxs) as (-> & [(r & Hu & Hr & _ & -> & Hrq)|(_ & Hu & ->)]); cbn [res_bind]; rewrite !Z.eqb_refl.
  - cbn [negb orb]. rewrite Hrd. cbn [res_bind]. rewrite (u64_small (x + 24)), (u32_small (csize _)) by word_lia.
    rewrite (u64_small (x + 24 + csize _)), (proj2 (Z.ltb_ge va (x + 24))) by word_lia. cbn [orb].
    assert (Hsame : forall y r', (y, r') ∈ spUsed p -> y + 24 <= va < y + 24 + r' -> y = x /\ r' = r).
    { intros y r' Hy Hin. destruct (Hidx y r' Hy Hin) as (_ & E & _). split; [done|]. subst y. fold x in Hy.
      pose proof (page_slots_nodup m p R) as Hn. apply NoDup_app in Hn as (_ & _ & Hn).
      by apply (fst_unique (spUsed p) x). }
    destruct (Z.leb_spec (x + 24 + csize (spClass p)) va) as [Hhi|Hhi].
    { right. split; [done|]. intros y r' Hy Hin. destruct (Hsame y r' Hy Hin) as [-> ->]. lia. }
    rewrite Hrq. cbn [res_bind]. rewrite (proj2 (Z.eqb_neq r 0)), (proj2 (Z.ltb_ge _ r)) by lia. cbn [orb].
    rewrite (u64_small (x + 24 + r)) by word_lia.
    destruct (Z.leb_spec (x + 24 + r) va) as [Hhr|Hhr].
    { right. split; [done|]. intros y r' Hy Hin. destruct (Hsame y r' Hy Hin) as [-> ->]. lia. }
    unfold page_BackingUsableBase, page_BackingUsablePages. rewrite (load_of_word _ _ _ (pr_base m p R)), (load_of_word _ _ _ (pr_pages m p R)).
    cbn [res_bind]. left. exists x, r. split_and!; [done | unfold x; lia | lia | done].
  - change (KE_ALLOC_SLOT_STATE_FREE =? KE_ALLOC_SLOT_STATE_ALLOCATED) with false. cbn [negb orb].
    right. split; [done|]. intros y r' Hy Hin. destruct (Hidx y r' Hy Hin) as (_ & E & _). fold x in E.
    apply Hu. rewrite <- E. apply list_elem_of_fmap. by exists (y, r').
Qed.

Lemma diagnose_none m va info : heap_ok m -> is_u64 va -> (forall b, b ∈ live m -> ~ in_block b va) ->
  KiAllocatorDiagnoseSmallLocked va info m = Ok info.
Proof.
  intros Hm Hva Hno. unfold KiAllocatorDiagnoseSmallLocked.
  assert (Hpb : HO_ALIGN_DOWN va PAGE_4KB <= va < HO_ALIGN_DOWN va PAGE_4KB + PAGE_4KB).
  { pose proof (align_down_pow2 va 12 ltac:(lia) ltac:(word_lia)) as E. change (2 ^ 12) with 4096 in E. unfold PAGE_4KB.
    rewrite E. div_lia. }
  set (b := HO_ALIGN_DOWN va PAGE_4KB) in *. destruct (KeKvaQueryRange b m) as [st o] eqn:E.
  destruct st; try done. destruct o as [rg|]; [|done].
  destruct (negb (_ =? _) || negb (_ =? b) || negb (_ =? 1)) eqn:G; [done|]. exfalso.
  apply orb_false_iff in G as [[G1 _]%orb_false_iff G3]. apply negb_false_iff, Z.eqb_eq in G1, G3.
  apply (Hno (b, 1)); [|unfold in_block; cbn [fst snd]; lia]. rewrite <- G3. by apply (query_sound m b rg).
Qed.

(** The page a slot in use lies in is the one its address says. *)
Lemma used_page heads rs m pgs prep flight p q x r va : layout heads rs m pgs prep flight ->
  p ∈ pgs ++ prep -> in_block (page_block p) va -> q ∈ pgs -> (x, r) ∈ spUsed q -> x + 24 <= va < x + 24 + r -> q = p.
Proof.
  intros L Hp Hin Hq Hx Hva. assert (Hq' : q ∈ pgs ++ prep) by (apply elem_of_app; by left).
  destruct (used_place _ _ _ _ _ _ L q x r Hq' Hx) as (_ & ? & ? & B1 & B2 & _).
  apply (page_unique _ _ _ _ _ _ L); [done | done|].
  assert (page_block q = page_block p) as E; [|by injection E].
  apply (owned_apart _ _ _ _ _ _ L _ _ va); [by apply page_owned.. | | done].
  unfold in_block, page_block. cbn [fst snd]. lia.
Qed.

(** The whole diagnosis, of an address in an allocation, in a page of slots, or
    in no block of the heap. *)
Lemma diagnose_run al m pgs prep flight va : alloc_ok al m pgs prep flight -> is_u64 va ->
  (exists q, q ∈ allocs (gAllocatorLargeRecords al) pgs /\ q.1 <= va < q.1 + q.2) \/
  (exists p, p ∈ pgs ++ prep /\ in_block (page_block p) va) \/ (forall b, b ∈ live m -> ~ in_block b va) ->
  exists info, KeAllocatorDiagnoseAddress va true al m = Ok (EC_SUCCESS, Some info) /\
    ((exists p x r, p ∈ pgs /\ (x, r) ∈ spUsed p /\ x + 24 <= va < x + 24 + r /\ info = small_info p x r) \/
     (exists r, r ∈ active (gAllocatorLargeRecords al) /\ UserPointer r <= va < UserPointer r + RequestedSize r /\
        info = large_info r) \/
     (info = empty_info /\ forall q, q ∈ allocs (gAllocatorLargeRecords al) pgs -> ~ (q.1 <= va < q.1 + q.2))).
Proof.
  intros (Hi & L & _) Hva Hwhere. pose proof (ly_heap _ _ _ _ _ _ L) as Hm.
  unfold KeAllocatorDiagnoseAddress. rewrite Hi. cbn [negb].
  destruct (diagnose_large_run va empty_info (gAllocatorLargeRecords al)) as [(r & Hr & Hin & ->)|[-> Hno]].
  { intros r Hr. destruct (large_bounds _ _ _ _ _ _ L r Hr) as (_ & ? & _ & ? & ? & ?). lia. }
  { cbn [LiveAllocation large_info]. exists (large_info r). split; [done|]. right. left. by exists r. }
  cbn [LiveAllocation empty_info].
  assert (Hpage : forall p, p ∈ pgs ++ prep -> in_block (page_block p) va -> exists info,
    (let* info := KiAllocatorDiagnoseSmallLocked va empty_info m in Ok (EC_SUCCESS, Some info)) = Ok (EC_SUCCESS, Some info) /\
    ((exists p x r, p ∈ pgs /\ (x, r) ∈ spUsed p /\ x + 24 <= va < x + 24 + r /\ info = small_info p x r) \/
     (exists r, r ∈ active (gAllocatorLargeRecords al) /\ UserPointer r <= va < UserPointer r + RequestedSize r /\ info = large_info r) \/
     (info = empty_info /\ forall q, q ∈ allocs (gAllocatorLargeRecords al) pgs -> ~ (q.1 <= va < q.1 + q.2)))).
  { intros p Hp Hin.
    destruct (diagnose_small_run m p va empty_info Hm (ly_pages _ _ _ _ _ _ L p Hp) Hin) as [(x & r & Hx & Hxr & ->)|[-> Hn]].
    - eexists. split; [reflexivity|]. left. exists p, x, r. split; [|split; [exact Hx|split; [exact Hxr|reflexivity]]].
      apply elem_of_app in Hp as [Hp|Hp]; [done|]. rewrite (ly_prep _ _ _ _ _ _ L p Hp) in Hx. by apply elem_of_nil in Hx.
    - eexists. split; [reflexivity|]. right. right. split; [done|]. intros q Hq Hvq.
      destruct (alloc_cases _ _ _ Hq) as [(p' & x & r & Hp' & Hx & ->)|(r & Hr & ->)]; cbn [fst snd large_alloc] in Hvq; [|by apply (Hno r)].
      rewrite (used_page _ _ _ _ _ _ _ _ _ _ _ L Hp Hin Hp' Hx Hvq) in Hx. by apply (Hn x r). }
  destruct Hwhere as [(q & Hq & Hvq)|[(p & Hp & Hin)|Hnone]]; [|by apply (Hpage p)|].
  - destruct (alloc_cases _ _ _ Hq) as [(p & x & r & Hp & Hx & ->)|(r & Hr & ->)]; cbn [fst snd large_alloc] in Hvq; [|by destruct (Hno r)].
    assert (Hp' : p ∈ pgs ++ prep) by (apply elem_of_app; by left).
    destruct (used_place _ _ _ _ _ _ L p x r Hp' Hx) as (_ & ? & ? & B1 & B2 & _).
    apply (Hpage p Hp'). unfold in_block, page_block. cbn [fst snd]. lia.
  - rewrite (diagnose_none m va empty_info Hm Hva Hnone). cbn [res_bind]. exists empty_info. split; [done|].
    right. right. split; [done|]. intros q Hq Hvq. pose proof (alloc_at _ _ _ _ _ _ L q va Hq Hvq) as Hat.
    destruct Hat as [(p & x & r & _ & _ & (Hp & _ & _ & Hb))|(r & _ & Hr & Hb)].
    + apply (Hnone (page_block p)); [|done]. apply (ly_live _ _ _ _ _ _ _ L), (page_owned _ _ _ _ p), elem_of_app; by left.
    + apply (Hnone (large_block r)); [|done]. apply (ly_live _ _ _ _ _ _ _ L). by eapply large_owned.
Qed.
End diagnosis.
