(* ===== verification/AllocThms.v ===== *)
(** * The byte allocator: its contract

    What [kmalloc], [kzalloc] and [kfree] promise, safety of any interleaving
    of their critical sections, and truth of the diagnosis; the two heaps the
    theorems are evaluated on: the bump allocator of [Heap.v] and the page heap
    of [kva.c] on the sample machine. *)

From S2P Require Import Prelude Pmm PageTable Heap Parts Kva KvaInv KvaLayout KvaMach KvaOps KvaCalls KvaHeap KvaThms.
From S2P Require Import Alloc AllocInv AllocOps AllocState AllocCalls AllocRun AllocSteps AllocDiag.

Local Open Scope Z_scope.

(** ** The page heap finds its own blocks *)

Module OnKva.
Import PageTable Kva KvaInv KvaLayout KvaMach KvaOps KvaCalls KvaHeap.

Section instance.
Context `{PageAllocatorLaws P}.
Implicit Type s : KE_KVA_STATE P.

(** As for the page heap, the last case never happens on a consistent state. *)
Definition kva_query (a : Z) s : HO_STATUS * option KE_KVA_RANGE :=
  match Kva.KeKvaQueryRange a true s with Ok x => x | _ => (EC_INVALID_STATE, None) end.

#[global] Instance kva_ranges : RangeServices (KE_KVA_STATE P) := {| Alloc.KeKvaQueryRange := kva_query |}.

Lemma query_run s G a : kva_ok s G ->
  (exists i r, active (gKvaRanges s) i r /\ page_va (Arena r) (first_usable r) = a /\
     kva_query a s = (EC_SUCCESS, Some (range_of r))) \/
  (kva_query a s = (EC_INVALID_STATE, None) /\
   forall i r, active (gKvaRanges s) i r -> page_va (Arena r) (first_usable r) <> a).
Proof.
  intros K. unfold kva_query, Kva.KeKvaQueryRange. rewrite (kv_init _ _ K). cbn [negb].
  destruct (find_by_base_run s G a K) as (o & -> & Ho). cbn [res_bind]. destruct o as [k|]; [|by right].
  destruct Ho as (i & r & -> & Ha & Ev). left. exists i, r. split; [done|]. split; [done|].
  rewrite (read_record s i r (proj1 Ha)). cbn [res_bind]. pose proof (kva_record s G i r K Ha) as R.
  destruct (kva_arena s G (Arena r) K (rk_arena r R)) as (arena & _ & Ea & Hok).
  by rewrite (fill_range_run s r arena R Ea Hok).
Qed.

Lemma kva_query_live s b n : kva_heap_ok s -> (b, n) ∈ kva_live s -> exists rg,
  kva_query b s = (EC_SUCCESS, Some rg) /\ RgArena rg = KE_KVA_ARENA_HEAP /\ RgUsableBase rg = b /\ RgUsablePages rg = n.
Proof.
  intros (G & K & _) Hb. apply live_record in Hb as (i & r & Ha & Er & E). injection E as -> ->.
  destruct (query_run s G (page_va (Arena r) (first_usable r)) K) as [(j & r' & Hj & Ej & ->)|[_ Hn]]; [|by destruct (Hn i r Ha)].
  assert (j = i) as -> by (by apply (base_unique s G j i r' r K)). rewrite (active_fun _ _ _ _ Hj Ha).
  by exists (range_of r).
Qed.

Lemma kva_query_sound s b rg : kva_heap_ok s -> kva_query b s = (EC_SUCCESS, Some rg) ->
  RgArena rg = KE_KVA_ARENA_HEAP -> (b, RgUsablePages rg) ∈ kva_live s.
Proof.
  intros (G & K & _) E Er. destruct (query_run s G b K) as [(j & r & Hj & Ej & Eq)|[Eq _]]; [|congruence].
  rewrite Eq in E. injection E as <-. apply live_record. exists j, r. split; [done|]. split; [done|]. by rewrite <- Ej.
Qed.

#[global] Instance kva_range_laws : RangeLaws (KE_KVA_STATE P) :=
  {| query_live := kva_query_live; query_sound := kva_query_sound |}.
End instance.
End OnKva.

(** ** The bump allocator finds them too *)

Module OnToy.
Definition query (a : Z) (h : Toy.HEAP) : HO_STATUS * option Kva.KE_KVA_RANGE :=
  match find (fun b => b.1 =? a) (Toy.blocks h) with
  | Some b => (EC_SUCCESS, Some (Kva.mkRange Kva.KE_KVA_ARENA_HEAP 1 1 a a b.2 b.2 0 0))
  | None => (EC_INVALID_STATE, None)
  end.

#[global] Instance ranges : RangeServices Toy.HEAP := {| KeKvaQueryRange := query |}.

#[global] Program Instance range_laws : RangeLaws Toy.HEAP.
Next Obligation.
  intros m b n Hm Hb. cbn. unfold query. destruct (find _ (Toy.blocks m)) as [[b' n']|] eqn:E.
  - apply find_some in E as [Hin Eb]. cbn in Eb. apply Z.eqb_eq in Eb as ->. apply list_elem_of_In in Hin.
    eexists. split; [done|]. split; [done|]. split; [done|].
    pose proof (Toy.toy_blocks m Hm) as Hr. rewrite Forall_forall in Hr. pose proof (Hr _ Hin). pose proof (Hr _ Hb).
    assert ((b, n') = (b, n)) as E; [|by injection E].
    apply (Toy.toy_disjoint m Hm _ _ b); [done | done | |]; unfold in_block, PAGE_4KB in *; cbn in *; lia.
  - exfalso. apply list_elem_of_In in Hb. apply (find_none _ _ E (b, n)) in Hb. cbn in Hb. by rewrite Z.eqb_refl in Hb.
Qed.
Next Obligation.
  intros m b rg Hm. cbn. unfold query. destruct (find _ (Toy.blocks m)) as [[b' n']|] eqn:E; [|done].
  apply find_some in E as [Hin Eb]. cbn in Eb. apply Z.eqb_eq in Eb as ->. apply list_elem_of_In in Hin.
  intros [= <-] _. done.
Qed.
End OnToy.

(** ** The contract *)

Section properties.
Context {M : Type} `{RangeLaws M}.
Implicit Types (m : M) (al : KE_ALLOCATOR).

(** C14: [kmalloc] and [kzalloc] serve a request or refuse it, in every state
    the allocator can be in.  A pointer they return is 8-byte aligned memory of
    its own: no byte of it belongs to another allocation, every other
    allocation and every other heap block keeps its contents, and after
    [kzalloc] all bytes asked for are zero.  A request is refused only for size
    0, for a size that overflows when rounded to pages, when the heap has no
    pages or when the table of large records is full; then no allocation
    changes and at most the failure counter moves. *)
Theorem kmalloc_serves_or_refuses zeroed al m pgs prep flight size :
  alloc_ok al m pgs prep flight -> is_u64 size ->
  exists ptr al' m', kmalloc_of zeroed size al m = Ok (ptr, al', m') /\
    agree (kept_word (gAllocatorLargeRecords al) pgs flight) m m' /\
    if decide (ptr = 0)
    then no_room al m size /\ alloc_ok al' m' pgs prep flight /\ (al' = al \/ al' = count_failure al)
    else exists pgs', alloc_ok al' m' pgs' prep flight /\ (busy pgs -> busy pgs') /\ ptr mod 8 = 0 /\
      Permutation (allocs (gAllocatorLargeRecords al') pgs') ((ptr, size) :: allocs (gAllocatorLargeRecords al) pgs) /\
      (forall q a, q ∈ allocs (gAllocatorLargeRecords al) pgs -> q.1 <= a < q.1 + q.2 -> ~ (ptr <= a < ptr + size)) /\
      (zeroed = true -> forall i, 0 <= i < size -> load_part (ptr + i) 1 m' = Ok 0).
Proof.
  intros A Hs. destruct (kmalloc_run zeroed al m pgs prep flight size A Hs) as (ptr & al' & m' & E & Hr).
  exists ptr, al', m'. split; [done|]. destruct Hr as [(pgs' & A' & [G1 G2 G3 G4 G5])|(-> & [R1 R2 R3] & Hn)].
  - split; [done|]. rewrite decide_False by lia. exists pgs'. split_and!; [done | done | apply G3 | done | | done].
    intros q a Hq Hqa Ha. pose proof A' as (_ & L & _). pose proof (allocs_nodup _ _ _ _ _ A') as Hnd. rewrite G1 in Hnd.
    apply NoDup_cons in Hnd as [Hnew _]. apply Hnew.
    rewrite <- (allocs_apart _ _ _ _ _ _ L q (ptr, size) a); [done | rewrite G1; by right | rewrite G1; by left | done..].
  - split; [done|]. rewrite decide_True by done. done.
Qed.

(** [kfree] takes back any live allocation, once.  The allocation is gone,
    every other allocation and heap block keeps its contents, a page of slots
    is kept only while it still holds an allocation, and a second [kfree] of
    the same pointer does nothing. *)
Theorem kfree_releases_once al m pgs prep flight ptr size :
  alloc_ok al m pgs prep flight -> (ptr, size) ∈ allocs (gAllocatorLargeRecords al) pgs ->
  exists al' m' pgs', kfree ptr al m = Ok (al', m') /\ alloc_ok al' m' pgs' prep flight /\
    Permutation (allocs (gAllocatorLargeRecords al) pgs) ((ptr, size) :: allocs (gAllocatorLargeRecords al') pgs') /\
    agree (kept_word (gAllocatorLargeRecords al') pgs' flight) m m' /\ (busy pgs -> busy pgs') /\
    kfree ptr al' m' = Ok (al', m').
Proof.
  intros A Hin. destruct (kfree_run al m pgs prep flight ptr size A Hin) as (al' & m' & pgs' & E & A' & [F1 F2 F3] & Hgone).
  exists al', m', pgs'. split_and!; try done. destruct Hgone as [(p & x & -> & Hp & Hx)|Hgone]; [by eapply kfree_twice|].
  eapply kfree_gone; [exact A' | | exact Hgone]. intros r Hr Er. pose proof A as (_ & L & _). pose proof A' as (_ & L' & _).
  pose proof (allocs_nodup _ _ _ _ _ A) as Hnd. rewrite F1 in Hnd. apply NoDup_cons in Hnd as [Hnew _]. apply Hnew.
  assert (Hr' : (ptr, RequestedSize r) ∈ allocs (gAllocatorLargeRecords al') pgs').
  { apply elem_of_app. right. apply list_elem_of_fmap. exists r. split; [|done]. unfold large_alloc. by rewrite Er. }
  destruct (large_bounds _ _ _ _ _ _ L' r Hr) as (_ & B1 & B2 & B3 & _).
  rewrite <- (allocs_apart _ _ _ _ _ _ L (ptr, RequestedSize r) (ptr, size) ptr) at 1; [done | rewrite F1; by right | done | cbn; lia |].
  cbn. pose proof (alloc_size _ _ _ _ _ _ A Hin). cbn in *. lia.
Qed.

(** C13: threads inside the allocator never hurt each other.  From
    initialisation on, whatever critical sections, heap calls, frees and writes
    to memory they own the threads perform and however these interleave:
    everything a thread may do next returns without a failed assertion, takes
    effect (what is freed is no longer held) and leaves the memory of everybody
    else alone; the allocations held at any time share no byte, the counter of
    live allocations is exact, and once everything is freed the allocator has
    no backing left and keeps no heap page. *)
Theorem allocator_safe_under_interleaving al m w :
  gAllocatorInitialized al = false -> heap_ok m ->
  steps (mkWorld (snd (KeAllocatorInit al)) m [] (live m) []) w ->
  let st := gAllocatorStats (wAl w) in
  (forall act, allowed act w -> exists w', run_action act w = Ok w' /\
     agree (fun a => kept w w' a /\ ~ written act a) (wMem w) (wMem w') /\
     (forall ptr size, act = FreeSection ptr size -> (ptr, size) ∉ wHeld w')) /\
  (NoDup (wHeld w) /\
   forall q1 q2 a, q1 ∈ wHeld w -> q2 ∈ wHeld w -> q1.1 <= a < q1.1 + q1.2 -> q2.1 <= a < q2.1 + q2.2 -> q1 = q2) /\
  LiveAllocationCount st = Z.of_nat (length (wHeld w)) /\
  (wHeld w = [] -> BackingBytes st = 0 /\
     Permutation (live (wMem w)) (((fun q => (q.2, 1)) <$> wPrep w) ++ wFlight w)).
Proof.
  intros Hi Hm Hs. assert (W : world_ok w) by (eapply steps_ok; [by apply init_ok | exact Hs]).
  destruct (world_safe w W) as (S1 & _ & S3 & S4). split; [|done]. intros act Ha.
  destruct (action_runs act w W Ha) as (w' & E & [_ Hag] & Hf). by exists w'.
Qed.

(** the diagnosis of an address is true.  For an address in an allocation,
    in a page of slots, or in no heap block at all,
    [KeAllocatorDiagnoseAddress] reports a live allocation exactly when the
    address lies in one, with its base, end, requested size, kind, class and
    the heap block behind it. *)
Theorem allocator_diagnosis_is_true al m pgs prep flight va :
  alloc_ok al m pgs prep flight -> is_u64 va ->
  (exists q, q ∈ allocs (gAllocatorLargeRecords al) pgs /\ q.1 <= va < q.1 + q.2) \/
  (exists p, p ∈ pgs ++ prep /\ in_block (page_block p) va) \/ (forall b, b ∈ live m -> ~ in_block b va) ->
  exists info, KeAllocatorDiagnoseAddress va true al m = Ok (EC_SUCCESS, Some info) /\
    if LiveAllocation info
    then (AllocationBase info, InfoRequestedSize info) ∈ allocs (gAllocatorLargeRecords al) pgs /\
      AllocationBase info <= va < AllocationEndExclusive info /\
      AllocationEndExclusive info = AllocationBase info + InfoRequestedSize info /\
      (let block := (InfoBackingUsableBase info, InfoBackingUsablePages info) in block ∈ live m /\ in_block block va) /\
      match AllocationKind info with
      | KE_ALLOCATOR_ALLOCATION_SMALL => InfoRequestedSize info <= SmallClassSize info /\
          SmallClassSize info = csize (SmallClassIndex info)
      | KE_ALLOCATOR_ALLOCATION_LARGE => 1024 < InfoRequestedSize info
      | KE_ALLOCATOR_ALLOCATION_UNKNOWN => False
      end
    else forall q, q ∈ allocs (gAllocatorLargeRecords al) pgs -> ~ (q.1 <= va < q.1 + q.2).
Proof.
  intros A Hva Hw. destruct (diagnose_run al m pgs prep flight va A Hva Hw) as (info & E & Hr). exists info. split; [done|].
  pose proof A as (_ & L & _). destruct Hr as [(p & x & r & Hp & Hx & Hin & ->)|[(r & Hr & Hin & ->)|[-> Hn]]]; [| |done];
    cbn [LiveAllocation small_info large_info AllocationBase InfoRequestedSize AllocationEndExclusive InfoBackingUsableBase
         InfoBackingUsablePages AllocationKind SmallClassSize SmallClassIndex].
  - assert (Hp' : p ∈ pgs ++ prep) by (apply elem_of_app; by left).
    destruct (used_place _ _ _ _ _ _ L p x r Hp' Hx) as (_ & ? & ? & B1 & B2 & _).
    pose proof (ly_pages _ _ _ _ _ _ L p Hp') as R. destruct (pr_used m p R x r Hx) as (_ & _ & Hr).
    split; [|split; [done | split; [done | split; [split|split; [lia | done]]]]].
    + apply elem_of_app. left. apply list_elem_of_bind. exists p. split; [|done]. apply list_elem_of_fmap. by exists (x, r).
    + apply R.
    + unfold in_block. cbn [fst snd]. lia.
  - destruct (large_bounds _ _ _ _ _ _ L r Hr) as (Eb & B1 & B2 & B3 & B4 & _).
    split; [|split; [done | split; [done | split; [split|done]]]].
    + apply elem_of_app. right. apply list_elem_of_fmap. by exists r.
    + change (large_block r ∈ live m). apply (ly_live _ _ _ _ _ _ _ L). by apply large_owned.
    + unfold in_block. cbn [fst snd]. lia.
Qed.
End properties.

(** ** Witnesses *)

Definition al_start : KE_ALLOCATOR := mkAllocator false zero_stats [] [].
Definition al0 : KE_ALLOCATOR := snd (KeAllocatorInit al_start).

Lemma al0_ok {M} `{RangeLaws M} (m : M) : heap_ok m -> exists pgs prep, alloc_ok al0 m pgs prep (live m) /\
  allocs (gAllocatorLargeRecords al0) pgs = [].
Proof.
  intros Hm. destruct (init_ok al_start m eq_refl Hm) as (_ & pgs & prep & A & _ & Hh & _).
  exists pgs, prep. split; [exact A|]. by apply Permutation_nil_r in Hh.
Qed.

Import BitmapDevice.

Definition served {M} (r : res (Z * KE_ALLOCATOR * M)) : bool :=
  match r with Ok (p, _, _) => negb (p =? 0) | _ => false end.

Lemma served_run {M} ptr al (m : M) : served (Ok (ptr, al, m)) = true -> ptr <> 0.
Proof. intros Hs%negb_true_iff. by apply Z.eqb_neq. Qed.

Lemma kva0_serves : served (kmalloc_of true 100 al0 KvaThms.kva0) = true.
Proof. vm_compute. reflexivity. Qed.

(** 100 zeroed bytes from the page heap of the sample machine. *)
Lemma kmalloc_serves_or_refuses_witness : exists ptr al' m',
  kmalloc_of true 100 al0 KvaThms.kva0 = Ok (ptr, al', m') /\ ptr <> 0 /\
  forall i, 0 <= i < 100 -> load_part (ptr + i) 1 m' = Ok 0.
Proof.
  pose proof (KvaThms.kva0_heap_ok : heap_ok KvaThms.kva0) as Hok. destruct (al0_ok KvaThms.kva0 Hok) as (pgs & prep & A & _).
  destruct (kmalloc_serves_or_refuses true al0 KvaThms.kva0 pgs prep _ 100 A) as (ptr & al' & m' & E & _ & O);
    [split; [discriminate | reflexivity]|].
  pose proof kva0_serves as Hs. rewrite E in Hs. apply served_run in Hs. exists ptr, al', m'. split; [exact E|]. split; [exact Hs|].
  rewrite decide_False in O by exact Hs. destruct O as (_ & _ & _ & _ & _ & _ & Hz). exact (Hz eq_refl).
Defined.

Definition toy0 : Toy.HEAP := Toy.empty 64.

(** 40 bytes and 5000 bytes from the bump allocator. *)
Lemma toy_alloc size : 0 < size < 2 ^ 64 ->
  served (kmalloc size al0 toy0) = true ->
  exists ptr al m pgs prep, kmalloc size al0 toy0 = Ok (ptr, al, m) /\ alloc_ok al m pgs prep [] /\
    (ptr, size) ∈ allocs (gAllocatorLargeRecords al) pgs.
Proof.
  intros Hs Hne. destruct (al0_ok toy0) as (pgs & prep & A & _); [by apply Toy.empty_ok|].
  destruct (kmalloc_run false al0 toy0 pgs prep _ size A ltac:(word_lia)) as (ptr & al & m & E & Hr).
  cbn [kmalloc_of] in E. rewrite E in Hne. apply served_run in Hne.
  destruct Hr as [(pgs' & A' & [G1 _ _ _ _])|(-> & _)]; [|done].
  exists ptr, al, m, pgs', prep. split; [done|]. split; [done|]. rewrite G1. by left.
Qed.

Lemma kfree_releases_once_witness : exists ptr al m al' m',
  kmalloc 5000 al0 toy0 = Ok (ptr, al, m) /\ kfree ptr al m = Ok (al', m') /\ kfree ptr al' m' = Ok (al', m').
Proof.
  destruct (toy_alloc 5000) as (ptr & al & m & pgs & prep & E & A & Hin); [split; reflexivity | vm_compute; reflexivity|].
  destruct (kfree_releases_once al m pgs prep [] ptr 5000 A Hin) as (al' & m' & pgs' & E' & _ & _ & _ & _ & E2).
  exists ptr, al, m, al', m'. split; [exact E | split; [exact E' | exact E2]].
Defined.

Lemma allocator_diagnosis_is_true_witness : exists ptr al m info,
  kmalloc 40 al0 toy0 = Ok (ptr, al, m) /\
  KeAllocatorDiagnoseAddress (ptr + 39) true al m = Ok (EC_SUCCESS, Some info) /\
  LiveAllocation info = true /\ AllocationBase info <= ptr + 39 < AllocationEndExclusive info.
Proof.
  destruct (toy_alloc 40) as (ptr & al & m & pgs & prep & E & A & Hin); [split; reflexivity | vm_compute; reflexivity|].
  assert (Hp : match kmalloc 40 al0 toy0 with Ok (p, _, _) => p =? 8048 | _ => false end = true) by (vm_compute; reflexivity).
  rewrite E in Hp. apply Z.eqb_eq in Hp. subst ptr.
  destruct (allocator_diagnosis_is_true al m pgs prep [] (8048 + 39) A) as (info & E' & O).
  - split; [discriminate | reflexivity].
  - left. exists (8048, 40). split; [exact Hin|]. split; [discriminate | reflexivity].
  - exists 8048, al, m, info. split; [exact E|]. split; [exact E'|]. destruct (LiveAllocation info).
    + split; [reflexivity | apply O].
    + destruct (O _ Hin). split; [discriminate | reflexivity].
Defined.

(** Running actions while a sufficient test of [allowed] succeeds. *)
Definition allowedb {M} (act : ACTION) (w : WORLD M) : bool :=
  match act with
  | SmallTry size _ | SmallPrepare size => (0 <? size) && (size <=? 1024)
  | SmallPublish size page _ =>
      (0 <? size) && (size <=? 1024) && bool_decide ((KiAllocatorFindSmallClass size, page) ∈ wPrep w)
  | BlockAlloc pages => 0 <? pages
  | LargeRecord size base =>
      (1024 <? size) && (size <? 2 ^ 64) && bool_decide ((base, page_count size) ∈ wFlight w)
  | LargeZero ptr size => (1024 <? size) && bool_decide ((ptr, size) ∈ wHeld w)
  | FreeSection ptr size => bool_decide ((ptr, size) ∈ wHeld w)
  | BlockFree base pages => bool_decide ((base, pages) ∈ wFlight w)
  | Write _ _ => false
  end.

Fixpoint run_checked {M} `{HeapServices M} `{RangeServices M} (acts : list ACTION) (w : WORLD M) : option (WORLD M) :=
  match acts with
  | [] => Some w
  | act :: acts =>
      if allowedb act w then match run_action act w with Ok w1 => run_checked acts w1 | _ => None end else None
  end.

Lemma allowedb_sound {M} `{HeapServices M} `{RangeServices M} act (w : WORLD M) : allowedb act w = true -> allowed act w.
Proof.
  destruct act; simpl; rewrite ?andb_true_iff, ?bool_decide_eq_true, ?Z.ltb_lt, ?Z.leb_le; tauto || done.
Qed.

Lemma checked_steps {M} `{HeapServices M} `{RangeServices M} acts (w0 w w' : WORLD M) :
  steps w0 w -> run_checked acts w = Some w' -> steps w0 w'.
Proof.
  revert w. induction acts as [|act acts IH]; intros w S; simpl; [by intros [= <-]|].
  destruct (allowedb act w) eqn:Ea; [|done]. apply allowedb_sound in Ea.
  destruct (run_action act w) as [w1| | |] eqn:E; try done. apply (IH w1). by eapply steps_one.
Qed.

(** Two threads that find no page with room both prepare one; a third one
    allocates 5000 bytes meanwhile; the first allocation is freed. *)
Definition demo_actions : list ACTION :=
  [SmallTry 40 false; SmallTry 40 true; SmallPrepare 40; BlockAlloc 2; SmallPrepare 40;
   SmallPublish 40 4096 false; LargeRecord 5000 8192; SmallPublish 40 16384 true; LargeZero 8192 5000;
   FreeSection 8048 40; BlockFree 4096 1].

Lemma demo_run : exists w, run_checked demo_actions (mkWorld al0 toy0 [] (live toy0) []) = Some w /\ length (wHeld w) = 2%nat.
Proof.
  assert (Hs : match run_checked demo_actions (mkWorld al0 toy0 [] (live toy0) []) with
               | Some w => Nat.eqb (length (wHeld w)) 2 | None => false end = true) by (vm_compute; reflexivity).
  destruct (run_checked _ _) as [w|]; [|done]. exists w. split; [done|]. by apply Nat.eqb_eq.
Qed.

Lemma allocator_safe_under_interleaving_witness : exists w,
  steps (mkWorld al0 toy0 [] (live toy0) []) w /\ LiveAllocationCount (gAllocatorStats (wAl w)) = 2.
Proof.
  destruct demo_run as (w & Hr & Hl). pose proof (checked_steps _ _ _ _ (steps_none _) Hr) as Hs. exists w. split; [exact Hs|].
  assert (Hok : heap_ok toy0) by (apply Toy.empty_ok; split; discriminate).
  destruct (allocator_safe_under_interleaving al_start toy0 w eq_refl Hok Hs) as (_ & _ & C & _).
  rewrite C, Hl. reflexivity.
Defined.
