(* ===== verification/Ex.v ===== *)
(** * Executive objects: headers, handle tables, processes and threads

    The reference-counted objects of [kernel/ex]: [object.c] (headers),
    [handle.c] (the per-process handle table), [process.c] and [thread.c]
    (life cycle), [runtime_table.c] (the published process and thread tables,
    termination and completion), [image.c] (the capability seed), the
    finalisation half of [user_runtime_bridge.c] and the non-blocking halves
    of [process_control.c].

    A header is designated by the object that embeds it ([EX_OBJECT]), so
    [CONTAINING_RECORD] is pattern matching.  Process and thread structures
    live in maps from their address; freeing one removes it, and any later
    access through a stale pointer is [Oob].  Everything below the executive
    (heap, address spaces, staging, kernel threads, input focus, events) is
    the interface [ExServices]. *)

From S2P Require Import Prelude.
From S2P Require PageTable Sched.

Local Open Scope Z_scope.

Notation KE_PROCESS_ADDRESS_SPACE := PageTable.PageTable.KE_PROCESS_ADDRESS_SPACE.
Notation mkProcessSpace := PageTable.PageTable.mkProcessSpace.
Notation PsInitialized := PageTable.PageTable.PsInitialized.
Notation PsRootPageTablePhys := PageTable.PageTable.PsRootPageTablePhys.
Notation KTHREAD_STATE := Sched.Sched.KTHREAD_STATE.
#[export] Existing Instance Sched.Sched.KTHREAD_STATE_eq_dec.

(** ** Data *)

Inductive EX_OBJECT_TYPE :=
| EX_OBJECT_TYPE_INVALID
| EX_OBJECT_TYPE_PROCESS
| EX_OBJECT_TYPE_THREAD
| EX_OBJECT_TYPE_CONSOLE.

#[export] Instance EX_OBJECT_TYPE_eq_dec : EqDecision EX_OBJECT_TYPE.
Proof. solve_decision. Defined.

(** Which structure a header sits in. *)
Inductive EX_OBJECT :=
| ObjProcess (p : Z)
| ObjThread (t : Z)
| ObjStdout (p : Z).

#[export] Instance EX_OBJECT_eq_dec : EqDecision EX_OBJECT.
Proof. solve_decision. Defined.

(** The destroy routines the code installs. *)
Inductive EX_OBJECT_DESTROY_ROUTINE :=
| DestroyProcessRoutine
| DestroyThreadRoutine
| DestroyStdoutRoutine.

Record EX_OBJECT_HEADER : Type := mkHeader {
  Type_ : EX_OBJECT_TYPE;
  ReferenceCount : Z;
  Flags : Z;
  DestroyRoutine : option EX_OBJECT_DESTROY_ROUTINE;
}.

Notation EX_HANDLE := Z (only parsing).

Definition EX_HANDLE_INVALID : EX_HANDLE := 0.
Definition EX_MAX_HANDLES_PER_PROCESS : Z := 32.
Definition EX_HANDLE_RIGHT_NONE : Z := 0.
Definition EX_HANDLE_RIGHT_QUERY : Z := 1.
Definition EX_HANDLE_RIGHT_CLOSE : Z := 2.
Definition EX_HANDLE_RIGHT_PROCESS_SELF : Z := 4.
Definition EX_HANDLE_RIGHT_THREAD_SELF : Z := 8.
Definition EX_HANDLE_RIGHT_WRITE : Z := 16.
Definition EX_HANDLE_RIGHT_WAIT : Z := 32.

Record EX_HANDLE_SLOT : Type := mkSlot {
  Object : option EX_OBJECT;
  Rights : Z;
  Generation : Z;
}.

Inductive EX_PROCESS_STATE :=
| EX_PROCESS_STATE_CREATED
| EX_PROCESS_STATE_READY
| EX_PROCESS_STATE_TERMINATED.

Inductive EX_PROCESS_TERMINATION_REASON :=
| EX_PROCESS_TERMINATION_REASON_NONE
| EX_PROCESS_TERMINATION_REASON_EXIT
| EX_PROCESS_TERMINATION_REASON_KILL
| EX_PROCESS_TERMINATION_REASON_FAULT.

#[export] Instance EX_PROCESS_STATE_eq_dec : EqDecision EX_PROCESS_STATE.
Proof. solve_decision. Defined.
#[export] Instance EX_PROCESS_TERMINATION_REASON_eq_dec : EqDecision EX_PROCESS_TERMINATION_REASON.
Proof. solve_decision. Defined.

(** [StdoutHeader]/[StdoutOwner] are the embedded [StdoutService]. *)
Record EX_PROCESS : Type := mkProcess {
  Header : EX_OBJECT_HEADER;
  AddressSpace : KE_PROCESS_ADDRESS_SPACE;
  Staging : Z;
  SelfHandle : EX_HANDLE;
  StdoutHandle : EX_HANDLE;
  WaitHandle : EX_HANDLE;
  ProcessId : Z;
  ParentProcessId : Z;
  MainThreadId : Z;
  State : EX_PROCESS_STATE;
  ExitStatus : Z;
  TerminationReason : EX_PROCESS_TERMINATION_REASON;
  KillRequested : bool;
  CompletionRetained : bool;
  CompletionSignaled : bool;
  Foreground : bool;
  RestoreForegroundOwnerThreadId : Z;
  ProgramId : Z;
  StdoutHeader : EX_OBJECT_HEADER;
  StdoutOwner : Z;
  HandleTable : list EX_HANDLE_SLOT;
}.

Record EX_THREAD : Type := mkThread {
  tHeader : EX_OBJECT_HEADER;
  Thread : Z;
  Process : Z;
  tSelfHandle : EX_HANDLE;
  ThreadId : Z;
  tCompletionSignaled : bool;
}.

(** An entry of the process or the thread table ([Entry] 0 is NULL). *)
Record TABLE_ENTRY : Type := mkEntry {
  Active : bool;
  Entry : Z;
}.

Definition EX_MAX_PROCESSES : Z := 8.
Definition EX_MAX_THREADS_PER_PROCESS : Z := 1.
Definition EX_RUNTIME_PROCESS_TABLE_CAPACITY : Z := EX_MAX_PROCESSES.
Definition EX_RUNTIME_THREAD_TABLE_CAPACITY : Z := EX_MAX_PROCESSES * EX_MAX_THREADS_PER_PROCESS.

(** The state of the executive over a world [W] of lower-level services. *)
Record EX (W : Type) : Type := mkEX {
  processes : gmap Z EX_PROCESS;
  exthreads : gmap Z EX_THREAD;
  gExRuntimeProcessTable : list TABLE_ENTRY;
  gExRuntimeThreadTable : list TABLE_ENTRY;
  gNextRuntimeProcessId : Z;
  Svc : W;
}.
Arguments mkEX {W}.
Arguments processes {W}.
Arguments exthreads {W}.
Arguments gExRuntimeProcessTable {W}.
Arguments gExRuntimeThreadTable {W}.
Arguments gNextRuntimeProcessId {W}.
Arguments Svc {W}.

(** Field updates. *)

Definition set_ReferenceCount (v : Z) (x : EX_OBJECT_HEADER) : EX_OBJECT_HEADER :=
  mkHeader (Type_ x) v (Flags x) (DestroyRoutine x).
Definition set_Header (v : EX_OBJECT_HEADER) (x : EX_PROCESS) : EX_PROCESS :=
  mkProcess v (AddressSpace x) (Staging x) (SelfHandle x) (StdoutHandle x) (WaitHandle x) (ProcessId x)
    (ParentProcessId x) (MainThreadId x) (State x) (ExitStatus x) (TerminationReason x) (KillRequested x)
    (CompletionRetained x) (CompletionSignaled x) (Foreground x) (RestoreForegroundOwnerThreadId x) (ProgramId
    x) (StdoutHeader x) (StdoutOwner x) (HandleTable x).
Definition set_AddressSpace (v : KE_PROCESS_ADDRESS_SPACE) (x : EX_PROCESS) : EX_PROCESS :=
  mkProcess (Header x) v (Staging x) (SelfHandle x) (StdoutHandle x) (WaitHandle x) (ProcessId x)
    (ParentProcessId x) (MainThreadId x) (State x) (ExitStatus x) (TerminationReason x) (KillRequested x)
    (CompletionRetained x) (CompletionSignaled x) (Foreground x) (RestoreForegroundOwnerThreadId x) (ProgramId
    x) (StdoutHeader x) (StdoutOwner x) (HandleTable x).
Definition set_Staging (v : Z) (x : EX_PROCESS) : EX_PROCESS :=
  mkProcess (Header x) (AddressSpace x) v (SelfHandle x) (StdoutHandle x) (WaitHandle x) (ProcessId x)
    (ParentProcessId x) (MainThreadId x) (State x) (ExitStatus x) (TerminationReason x) (KillRequested x)
    (CompletionRetained x) (CompletionSignaled x) (Foreground x) (RestoreForegroundOwnerThreadId x) (ProgramId
    x) (StdoutHeader x) (StdoutOwner x) (HandleTable x).
Definition set_SelfHandle (v : EX_HANDLE) (x : EX_PROCESS) : EX_PROCESS :=
  mkProcess (Header x) (AddressSpace x) (Staging x) v (StdoutHandle x) (WaitHandle x) (ProcessId x)
    (ParentProcessId x) (MainThreadId x) (State x) (ExitStatus x) (TerminationReason x) (KillRequested x)
    (CompletionRetained x) (CompletionSignaled x) (Foreground x) (RestoreForegroundOwnerThreadId x) (ProgramId
    x) (StdoutHeader x) (StdoutOwner x) (HandleTable x).
Definition set_StdoutHandle (v : EX_HANDLE) (x : EX_PROCESS) : EX_PROCESS :=
  mkProcess (Header x) (AddressSpace x) (Staging x) (SelfHandle x) v (WaitHandle x) (ProcessId x)
    (ParentProcessId x) (MainThreadId x) (State x) (ExitStatus x) (TerminationReason x) (KillRequested x)
    (CompletionRetained x) (CompletionSignaled x) (Foreground x) (RestoreForegroundOwnerThreadId x) (ProgramId
    x) (StdoutHeader x) (StdoutOwner x) (HandleTable x).
Definition set_WaitHandle (v : EX_HANDLE) (x : EX_PROCESS) : EX_PROCESS :=
  mkProcess (Header x) (AddressSpace x) (Staging x) (SelfHandle x) (StdoutHandle x) v (ProcessId x)
    (ParentProcessId x) (MainThreadId x) (State x) (ExitStatus x) (TerminationReason x) (KillRequested x)
    (CompletionRetained x) (CompletionSignaled x) (Foreground x) (RestoreForegroundOwnerThreadId x) (ProgramId
    x) (StdoutHeader x) (StdoutOwner x) (HandleTable x).
Definition set_ProcessId (v : Z) (x : EX_PROCESS) : EX_PROCESS :=
  mkProcess (Header x) (AddressSpace x) (Staging x) (SelfHandle x) (StdoutHandle x) (WaitHandle x) v
    (ParentProcessId x) (MainThreadId x) (State x) (ExitStatus x) (TerminationReason x) (KillRequested x)
    (CompletionRetained x) (CompletionSignaled x) (Foreground x) (RestoreForegroundOwnerThreadId x) (ProgramId
    x) (StdoutHeader x) (StdoutOwner x) (HandleTable x).
Definition set_ParentProcessId (v : Z) (x : EX_PROCESS) : EX_PROCESS :=
  mkProcess (Header x) (AddressSpace x) (Staging x) (SelfHandle x) (StdoutHandle x) (WaitHandle x) (ProcessId
    x) v (MainThreadId x) (State x) (ExitStatus x) (TerminationReason x) (KillRequested x) (CompletionRetained
    x) (CompletionSignaled x) (Foreground x) (RestoreForegroundOwnerThreadId x) (ProgramId x) (StdoutHeader x)
    (StdoutOwner x) (HandleTable x).
Definition set_MainThreadId (v : Z) (x : EX_PROCESS) : EX_PROCESS :=
  mkProcess (Header x) (AddressSpace x) (Staging x) (SelfHandle x) (StdoutHandle x) (WaitHandle x) (ProcessId
    x) (ParentProcessId x) v (State x) (ExitStatus x) (TerminationReason x) (KillRequested x)
    (CompletionRetained x) (CompletionSignaled x) (Foreground x) (RestoreForegroundOwnerThreadId x) (ProgramId
    x) (StdoutHeader x) (StdoutOwner x) (HandleTable x).
Definition set_State (v : EX_PROCESS_STATE) (x : EX_PROCESS) : EX_PROCESS :=
  mkProcess (Header x) (AddressSpace x) (Staging x) (SelfHandle x) (StdoutHandle x) (WaitHandle x) (ProcessId
    x) (ParentProcessId x) (MainThreadId x) v (ExitStatus x) (TerminationReason x) (KillRequested x)
    (CompletionRetained x) (CompletionSignaled x) (Foreground x) (RestoreForegroundOwnerThreadId x) (ProgramId
    x) (StdoutHeader x) (StdoutOwner x) (HandleTable x).
Definition set_ExitStatus (v : Z) (x : EX_PROCESS) : EX_PROCESS :=
  mkProcess (Header x) (AddressSpace x) (Staging x) (SelfHandle x) (StdoutHandle x) (WaitHandle x) (ProcessId
    x) (ParentProcessId x) (MainThreadId x) (State x) v (TerminationReason x) (KillRequested x)
    (CompletionRetained x) (CompletionSignaled x) (Foreground x) (RestoreForegroundOwnerThreadId x) (ProgramId
    x) (StdoutHeader x) (StdoutOwner x) (HandleTable x).
Definition set_TerminationReason (v : EX_PROCESS_TERMINATION_REASON) (x : EX_PROCESS) : EX_PROCESS :=
  mkProcess (Header x) (AddressSpace x) (Staging x) (SelfHandle x) (StdoutHandle x) (WaitHandle x) (ProcessId
    x) (ParentProcessId x) (MainThreadId x) (State x) (ExitStatus x) v (KillRequested x) (CompletionRetained
    x) (CompletionSignaled x) (Foreground x) (RestoreForegroundOwnerThreadId x) (ProgramId x) (StdoutHeader x)
    (StdoutOwner x) (HandleTable x).
Definition set_KillRequested (v : bool) (x : EX_PROCESS) : EX_PROCESS :=
  mkProcess (Header x) (AddressSpace x) (Staging x) (SelfHandle x) (StdoutHandle x) (WaitHandle x) (ProcessId
    x) (ParentProcessId x) (MainThreadId x) (State x) (ExitStatus x) (TerminationReason x) v
    (CompletionRetained x) (CompletionSignaled x) (Foreground x) (RestoreForegroundOwnerThreadId x) (ProgramId
    x) (StdoutHeader x) (StdoutOwner x) (HandleTable x).
Definition set_CompletionRetained (v : bool) (x : EX_PROCESS) : EX_PROCESS :=
  mkProcess (Header x) (AddressSpace x) (Staging x) (SelfHandle x) (StdoutHandle x) (WaitHandle x) (ProcessId
    x) (ParentProcessId x) (MainThreadId x) (State x) (ExitStatus x) (TerminationReason x) (KillRequested x) v
    (CompletionSignaled x) (Foreground x) (RestoreForegroundOwnerThreadId x) (ProgramId x) (StdoutHeader x)
    (StdoutOwner x) (HandleTable x).
Definition set_CompletionSignaled (v : bool) (x : EX_PROCESS) : EX_PROCESS :=
  mkProcess (Header x) (AddressSpace x) (Staging x) (SelfHandle x) (StdoutHandle x) (WaitHandle x) (ProcessId
    x) (ParentProcessId x) (MainThreadId x) (State x) (ExitStatus x) (TerminationReason x) (KillRequested x)
    (CompletionRetained x) v (Foreground x) (RestoreForegroundOwnerThreadId x) (ProgramId x) (StdoutHeader x)
    (StdoutOwner x) (HandleTable x).
Definition set_Foreground (v : bool) (x : EX_PROCESS) : EX_PROCESS :=
  mkProcess (Header x) (AddressSpace x) (Staging x) (SelfHandle x) (StdoutHandle x) (WaitHandle x) (ProcessId
    x) (ParentProcessId x) (MainThreadId x) (State x) (ExitStatus x) (TerminationReason x) (KillRequested x)
    (CompletionRetained x) (CompletionSignaled x) v (RestoreForegroundOwnerThreadId x) (ProgramId x)
    (StdoutHeader x) (StdoutOwner x) (HandleTable x).
Definition set_RestoreForegroundOwnerThreadId (v : Z) (x : EX_PROCESS) : EX_PROCESS :=
  mkProcess (Header x) (AddressSpace x) (Staging x) (SelfHandle x) (StdoutHandle x) (WaitHandle x) (ProcessId
    x) (ParentProcessId x) (MainThreadId x) (State x) (ExitStatus x) (TerminationReason x) (KillRequested x)
    (CompletionRetained x) (CompletionSignaled x) (Foreground x) v (ProgramId x) (StdoutHeader x) (StdoutOwner
    x) (HandleTable x).
Definition set_ProgramId (v : Z) (x : EX_PROCESS) : EX_PROCESS :=
  mkProcess (Header x) (AddressSpace x) (Staging x) (SelfHandle x) (StdoutHandle x) (WaitHandle x) (ProcessId
    x) (ParentProcessId x) (MainThreadId x) (State x) (ExitStatus x) (TerminationReason x) (KillRequested x)
    (CompletionRetained x) (CompletionSignaled x) (Foreground x) (RestoreForegroundOwnerThreadId x) v
    (StdoutHeader x) (StdoutOwner x) (HandleTable x).
Definition set_StdoutHeader (v : EX_OBJECT_HEADER) (x : EX_PROCESS) : EX_PROCESS :=
  mkProcess (Header x) (AddressSpace x) (Staging x) (SelfHandle x) (StdoutHandle x) (WaitHandle x) (ProcessId
    x) (ParentProcessId x) (MainThreadId x) (State x) (ExitStatus x) (TerminationReason x) (KillRequested x)
    (CompletionRetained x) (CompletionSignaled x) (Foreground x) (RestoreForegroundOwnerThreadId x) (ProgramId
    x) v (StdoutOwner x) (HandleTable x).
Definition set_StdoutOwner (v : Z) (x : EX_PROCESS) : EX_PROCESS :=
  mkProcess (Header x) (AddressSpace x) (Staging x) (SelfHandle x) (StdoutHandle x) (WaitHandle x) (ProcessId
    x) (ParentProcessId x) (MainThreadId x) (State x) (ExitStatus x) (TerminationReason x) (KillRequested x)
    (CompletionRetained x) (CompletionSignaled x) (Foreground x) (RestoreForegroundOwnerThreadId x) (ProgramId
    x) (StdoutHeader x) v (HandleTable x).
Definition set_HandleTable (v : list EX_HANDLE_SLOT) (x : EX_PROCESS) : EX_PROCESS :=
  mkProcess (Header x) (AddressSpace x) (Staging x) (SelfHandle x) (StdoutHandle x) (WaitHandle x) (ProcessId
    x) (ParentProcessId x) (MainThreadId x) (State x) (ExitStatus x) (TerminationReason x) (KillRequested x)
    (CompletionRetained x) (CompletionSignaled x) (Foreground x) (RestoreForegroundOwnerThreadId x) (ProgramId
    x) (StdoutHeader x) (StdoutOwner x) v.
Definition set_tHeader (v : EX_OBJECT_HEADER) (x : EX_THREAD) : EX_THREAD :=
  mkThread v (Thread x) (Process x) (tSelfHandle x) (ThreadId x) (tCompletionSignaled x).
Definition set_Thread (v : Z) (x : EX_THREAD) : EX_THREAD :=
  mkThread (tHeader x) v (Process x) (tSelfHandle x) (ThreadId x) (tCompletionSignaled x).
Definition set_Process (v : Z) (x : EX_THREAD) : EX_THREAD :=
  mkThread (tHeader x) (Thread x) v (tSelfHandle x) (ThreadId x) (tCompletionSignaled x).
Definition set_tSelfHandle (v : EX_HANDLE) (x : EX_THREAD) : EX_THREAD :=
  mkThread (tHeader x) (Thread x) (Process x) v (ThreadId x) (tCompletionSignaled x).
Definition set_ThreadId (v : Z) (x : EX_THREAD) : EX_THREAD :=
  mkThread (tHeader x) (Thread x) (Process x) (tSelfHandle x) v (tCompletionSignaled x).
Definition set_tCompletionSignaled (v : bool) (x : EX_THREAD) : EX_THREAD :=
  mkThread (tHeader x) (Thread x) (Process x) (tSelfHandle x) (ThreadId x) v.
Definition set_processes {W} (v : gmap Z EX_PROCESS) (x : EX W) : EX W :=
  mkEX v (exthreads x) (gExRuntimeProcessTable x) (gExRuntimeThreadTable x) (gNextRuntimeProcessId x) (Svc x).
Definition set_exthreads {W} (v : gmap Z EX_THREAD) (x : EX W) : EX W :=
  mkEX (processes x) v (gExRuntimeProcessTable x) (gExRuntimeThreadTable x) (gNextRuntimeProcessId x) (Svc x).
Definition set_gExRuntimeProcessTable {W} (v : list TABLE_ENTRY) (x : EX W) : EX W :=
  mkEX (processes x) (exthreads x) v (gExRuntimeThreadTable x) (gNextRuntimeProcessId x) (Svc x).
Definition set_gExRuntimeThreadTable {W} (v : list TABLE_ENTRY) (x : EX W) : EX W :=
  mkEX (processes x) (exthreads x) (gExRuntimeProcessTable x) v (gNextRuntimeProcessId x) (Svc x).
Definition set_gNextRuntimeProcessId {W} (v : Z) (x : EX W) : EX W :=
  mkEX (processes x) (exthreads x) (gExRuntimeProcessTable x) (gExRuntimeThreadTable x) v (Svc x).
Definition set_Svc {W} (v : W) (x : EX W) : EX W :=
  mkEX (processes x) (exthreads x) (gExRuntimeProcessTable x) (gExRuntimeThreadTable x) (gNextRuntimeProcessId x) v.

(** ** The services below the executive

    Addresses are [Z] with 0 for NULL.  [EVENT] is one of the completion
    events; the wait on it is the dispatcher's ([Sched.v]). *)

Inductive EVENT :=
| ProcessCompletion (p : Z)
| ThreadCompletion (t : Z).

Record EX_RUNTIME_PROCESS_CREATE_PARAMS : Type := mkCreateParams {
  CodeBytes : list Z;
  EntryOffset : Z;
  ConstBytes : option (list Z);
  ConstLength : Z;
  prProgramId : Z;
  prParentProcessId : Z;
}.

Record EX_RUNTIME_THREAD_CREATE_PARAMS : Type := mkThreadParams {
  EntryPoint : Z;
  EntryArg : Z;
  prFlags : Z;
}.

(** What the executive reads of a kernel thread. *)
Record KTHREAD_VIEW : Type := mkView {
  vThreadId : Z;
  vIdle : bool;
  vState : KTHREAD_STATE;
  vStackOwnedByKva : bool;
}.

(** The size a [kzalloc] call asks for. *)
Inductive ALLOC_SIZE :=
| SizeofProcess
| SizeofThread
| SizeInBytes (n : Z).

Class ExServices (W : Type) := {
  kzalloc : ALLOC_SIZE -> W -> Z * W;
  kfree : Z -> W -> W;
  KeCreateProcessAddressSpace : W -> HO_STATUS * KE_PROCESS_ADDRESS_SPACE * W;
  KeDestroyProcessAddressSpace : KE_PROCESS_ADDRESS_SPACE -> W -> HO_STATUS * KE_PROCESS_ADDRESS_SPACE * W;
  KeQueryActiveRootPageTable : W -> HO_STATUS * Z;
  KernelSpaceRoot : W -> option Z;
  KeSwitchAddressSpace : Z -> W -> HO_STATUS * W;
  KeUserModeCreateStaging : list Z -> Z -> list Z -> KE_PROCESS_ADDRESS_SPACE -> W -> HO_STATUS * Z * W;
  KeUserModeDestroyStaging : Z -> W -> HO_STATUS * W;
  KeUserModeAttachThread : Z -> Z -> W -> HO_STATUS * W;
  KeUserModeDetachThread : Z -> Z -> W -> HO_STATUS * W;
  KeUserModePatchConstBytes : Z -> Z -> list Z -> W -> HO_STATUS * W;
  KeThreadCreate : bool -> Z -> Z -> W -> HO_STATUS * Z * W;
  KeThreadStart : Z -> W -> HO_STATUS * W;
  kernel_thread : Z -> W -> option KTHREAD_VIEW;
  KeKvaReleaseStackRange : Z -> W -> HO_STATUS * W;
  KThreadPoolFree : Z -> W -> W;
  KeInputGetForegroundOwnerThreadId : W -> Z;
  KeInputSetForegroundOwnerThreadId : Z -> W -> HO_STATUS * W;
  KeSetCompletionEvent : EVENT -> W -> W;
}.

Section operations.
Context {W : Type} `{ExServices W}.
Implicit Types (s : EX W) (p t kt : Z) (o : EX_OBJECT).

(** ** Access through pointers *)

Definition get_process p s : res EX_PROCESS :=
  match processes s !! p with Some x => Ok x | None => Oob end.
Definition get_thread t s : res EX_THREAD :=
  match exthreads s !! t with Some x => Ok x | None => Oob end.
Definition put_process p (x : EX_PROCESS) s : EX W := set_processes (<[p := x]> (processes s)) s.
Definition put_thread t (x : EX_THREAD) s : EX W := set_exthreads (<[t := x]> (exthreads s)) s.
Definition upd_process p (f : EX_PROCESS -> EX_PROCESS) s : res (EX W) :=
  let* x := get_process p s in Ok (put_process p (f x) s).
Definition upd_thread t (f : EX_THREAD -> EX_THREAD) s : res (EX W) :=
  let* x := get_thread t s in Ok (put_thread t (f x) s).

Definition get_header o s : res EX_OBJECT_HEADER :=
  match o with
  | ObjProcess p => let* x := get_process p s in Ok (Header x)
  | ObjThread t => let* x := get_thread t s in Ok (tHeader x)
  | ObjStdout p => let* x := get_process p s in Ok (StdoutHeader x)
  end.
Definition put_header o (h : EX_OBJECT_HEADER) s : res (EX W) :=
  match o with
  | ObjProcess p => upd_process p (set_Header h) s
  | ObjThread t => upd_thread t (set_tHeader h) s
  | ObjStdout p => upd_process p (set_StdoutHeader h) s
  end.

Definition get_kthread kt s : res KTHREAD_VIEW :=
  match kernel_thread kt (Svc s) with Some v => Ok v | None => Oob end.

(** A service called on the world of [s]. *)
Definition svc {A : Type} (f : W -> A * W) s : A * EX W :=
  let '(a, w) := f (Svc s) in (a, set_Svc w s).

(** ** object.c *)

Definition ExObjectIsValidType (type : EX_OBJECT_TYPE) : bool :=
  match type with
  | EX_OBJECT_TYPE_PROCESS | EX_OBJECT_TYPE_THREAD | EX_OBJECT_TYPE_CONSOLE => true
  | _ => false
  end.

Definition ExObjectInitializeHeader (type : EX_OBJECT_TYPE) (flags : Z)
    (destroyRoutine : option EX_OBJECT_DESTROY_ROUTINE) : EX_OBJECT_HEADER :=
  mkHeader type 1 flags destroyRoutine.

Definition ExObjectRetain (header : option EX_OBJECT) (expectedType : EX_OBJECT_TYPE) s : res (HO_STATUS * EX W) :=
  match header with
  | None => Ok (EC_ILLEGAL_ARGUMENT, s)
  | Some o =>
      if negb (ExObjectIsValidType expectedType) then Ok (EC_INVALID_STATE, s) else
      let* h := get_header o s in
      if negb (bool_decide (Type_ h = expectedType)) || (ReferenceCount h =? 0) then Ok (EC_INVALID_STATE, s) else
      let* s := put_header o (set_ReferenceCount (u32 (ReferenceCount h + 1)) h) s in
      Ok (EC_SUCCESS, s)
  end.

Definition KiDestroyStdoutServiceObject o s : res (HO_STATUS * EX W) :=
  let* h := get_header o s in
  if negb (bool_decide (Type_ h = EX_OBJECT_TYPE_CONSOLE)) then Ok (EC_ILLEGAL_ARGUMENT, s)
  else Ok (EC_SUCCESS, s).

(** The releases that the destroy routines of processes and threads perform
    in turn; [release] is [ExObjectRelease] itself. *)
Section destroy.
Context (release : EX_OBJECT -> EX_OBJECT_TYPE -> EX W -> res (HO_STATUS * Z * EX W)).

Definition ExRuntimeReleaseStdoutServiceOwner_ p s : res (HO_STATUS * EX W) :=
  if p =? 0 then Ok (EC_ILLEGAL_ARGUMENT, s) else
  let* (status, remaining, s) := release (ObjStdout p) EX_OBJECT_TYPE_CONSOLE s in
  if negb (bool_decide (status = EC_SUCCESS)) then Ok (status, s) else
  Ok (if remaining =? 0 then EC_SUCCESS else EC_INVALID_STATE, s).

Definition ExRuntimeReleaseProcess_ p s : res (HO_STATUS * EX W) :=
  if p =? 0 then Ok (EC_ILLEGAL_ARGUMENT, s) else
  let* (status, _, s) := release (ObjProcess p) EX_OBJECT_TYPE_PROCESS s in Ok (status, s).

Definition KiDestroyProcessObject o s : res (HO_STATUS * EX W) :=
  let* h := get_header o s in
  if negb (bool_decide (Type_ h = EX_OBJECT_TYPE_PROCESS)) then Ok (EC_ILLEGAL_ARGUMENT, s) else
  match o with
  | ObjProcess p =>
      let* (status, s) := ExRuntimeReleaseStdoutServiceOwner_ p s in
      if negb (bool_decide (status = EC_SUCCESS)) then Ok (status, s) else
      Ok (EC_SUCCESS, set_Svc (kfree p (Svc s)) (set_processes (delete p (processes s)) s))
  | _ => Oob
  end.

Definition KiDestroyThreadObject o s : res (HO_STATUS * EX W) :=
  let* h := get_header o s in
  if negb (bool_decide (Type_ h = EX_OBJECT_TYPE_THREAD)) then Ok (EC_ILLEGAL_ARGUMENT, s) else
  match o with
  | ObjThread t =>
      let* x := get_thread t s in
      let process := Process x in
      let s := set_Svc (kfree t (Svc s)) (set_exthreads (delete t (exthreads s)) s) in
      if process =? 0 then Ok (EC_SUCCESS, s) else ExRuntimeReleaseProcess_ process s
  | _ => Oob
  end.
End destroy.

(** [ExObjectRelease]; a destroy routine may release again, to depth 3. *)
Fixpoint ExObjectRelease_ (depth : nat) o (expectedType : EX_OBJECT_TYPE) s : res (HO_STATUS * Z * EX W) :=
  match depth with
  | O => NoFuel
  | S depth =>
      if negb (ExObjectIsValidType expectedType) then Ok (EC_INVALID_STATE, 0, s) else
      let* h := get_header o s in
      if negb (bool_decide (Type_ h = expectedType)) || (ReferenceCount h =? 0) then Ok (EC_INVALID_STATE, 0, s) else
      let count := ReferenceCount h - 1 in
      let* s := put_header o (set_ReferenceCount count h) s in
      if count =? 0 then
        match DestroyRoutine h with
        | None => Ok (EC_SUCCESS, count, s)
        | Some DestroyProcessRoutine =>
            let* (status, s) := KiDestroyProcessObject (ExObjectRelease_ depth) o s in Ok (status, count, s)
        | Some DestroyThreadRoutine =>
            let* (status, s) := KiDestroyThreadObject (ExObjectRelease_ depth) o s in Ok (status, count, s)
        | Some DestroyStdoutRoutine =>
            let* (status, s) := KiDestroyStdoutServiceObject o s in Ok (status, count, s)
        end
      else Ok (EC_SUCCESS, count, s)
  end.

(** A thread's destruction releases its process, whose destruction releases
    its console service: three nested releases. *)
Definition release_depth : nat := 3.

Definition ExObjectRelease (header : option EX_OBJECT) (expectedType : EX_OBJECT_TYPE) s : res (HO_STATUS * Z * EX W) :=
  match header with
  | None => Ok (EC_ILLEGAL_ARGUMENT, 0, s)
  | Some o => ExObjectRelease_ release_depth o expectedType s
  end.

Definition ExRuntimeInitializeStdoutServiceObject p (x : EX_PROCESS) : EX_PROCESS :=
  set_StdoutOwner p
    (set_StdoutHeader (ExObjectInitializeHeader EX_OBJECT_TYPE_CONSOLE 0 (Some DestroyStdoutRoutine)) x).

(** ** Releases and retains by structure *)

Definition ExRuntimeRetainProcess p s : res (Z * EX W) :=
  if p =? 0 then Ok (0, s) else
  let* (status, s) := ExObjectRetain (Some (ObjProcess p)) EX_OBJECT_TYPE_PROCESS s in
  Ok (if bool_decide (status = EC_SUCCESS) then p else 0, s).

Definition ExRuntimeReleaseProcess p s : res (HO_STATUS * EX W) :=
  if p =? 0 then Ok (EC_ILLEGAL_ARGUMENT, s) else
  let* (status, _, s) := ExObjectRelease (Some (ObjProcess p)) EX_OBJECT_TYPE_PROCESS s in Ok (status, s).

Definition ExRuntimeReleaseThread t s : res (HO_STATUS * EX W) :=
  if t =? 0 then Ok (EC_ILLEGAL_ARGUMENT, s) else
  let* (status, _, s) := ExObjectRelease (Some (ObjThread t)) EX_OBJECT_TYPE_THREAD s in Ok (status, s).

(** ** runtime_table.c: searching the tables *)

Fixpoint find_slot (i : Z) (es : list TABLE_ENTRY) (f : TABLE_ENTRY -> res bool) : res Z :=
  match es with
  | [] => Ok i
  | e :: es => let* b := f e in if b then Ok i else find_slot (i + 1) es f
  end.

Definition KiFindProcessSlotByProcess p s : res Z :=
  if p =? 0 then Ok EX_RUNTIME_PROCESS_TABLE_CAPACITY else
  find_slot 0 (gExRuntimeProcessTable s) (fun e => Ok (Active e && (Entry e =? p))).

Definition KiFindProcessSlotByPid (processId : Z) s : res Z :=
  if processId =? 0 then Ok EX_RUNTIME_PROCESS_TABLE_CAPACITY else
  find_slot 0 (gExRuntimeProcessTable s) (fun e =>
    if Active e && negb (Entry e =? 0) then
      let* x := get_process (Entry e) s in Ok (ProcessId x =? processId)
    else Ok false).

Definition KiFindFreeProcessSlot s : res Z :=
  find_slot 0 (gExRuntimeProcessTable s) (fun e => Ok (negb (Active e))).

Definition KiFindThreadSlotByThreadObject t s : res Z :=
  if t =? 0 then Ok EX_RUNTIME_THREAD_TABLE_CAPACITY else
  find_slot 0 (gExRuntimeThreadTable s) (fun e => Ok (Active e && (Entry e =? t))).

Definition KiFindThreadSlotByThreadId (threadId : Z) s : res Z :=
  if threadId =? 0 then Ok EX_RUNTIME_THREAD_TABLE_CAPACITY else
  find_slot 0 (gExRuntimeThreadTable s) (fun e =>
    if Active e && negb (Entry e =? 0) then
      let* x := get_thread (Entry e) s in Ok (ThreadId x =? threadId)
    else Ok false).

Definition KiFindThreadSlotByKernelThread kt s : res Z :=
  if kt =? 0 then Ok EX_RUNTIME_THREAD_TABLE_CAPACITY else
  find_slot 0 (gExRuntimeThreadTable s) (fun e =>
    if Active e && negb (Entry e =? 0) then
      let* x := get_thread (Entry e) s in Ok (Thread x =? kt)
    else Ok false).

Definition KiFindFreeThreadSlot s : res Z :=
  find_slot 0 (gExRuntimeThreadTable s) (fun e => Ok (negb (Active e))).

Definition ExRuntimeIsPublishedObject (header : option EX_OBJECT) s : res bool :=
  match header with
  | None => Ok false
  | Some o =>
      let* h := get_header o s in
      match Type_ h, o with
      | EX_OBJECT_TYPE_PROCESS, ObjProcess p =>
          let* i := KiFindProcessSlotByProcess p s in Ok (i <? EX_RUNTIME_PROCESS_TABLE_CAPACITY)
      | EX_OBJECT_TYPE_PROCESS, _ => Oob
      | EX_OBJECT_TYPE_THREAD, ObjThread t =>
          let* i := KiFindThreadSlotByThreadObject t s in Ok (i <? EX_RUNTIME_THREAD_TABLE_CAPACITY)
      | EX_OBJECT_TYPE_THREAD, _ => Oob
      | _, _ => Ok false
      end
  end.

Definition ExRuntimeIsProcessPublished p s : res bool :=
  let* i := KiFindProcessSlotByProcess p s in Ok (i <? EX_RUNTIME_PROCESS_TABLE_CAPACITY).

(** ** handle.c *)

Definition EX_HANDLE_INDEX_BITS : Z := 8.
Definition EX_HANDLE_INDEX_MASK : Z := 0xFF.
Definition EX_HANDLE_GENERATION_MASK : Z := 0xFFFFFF.

Definition KiAdvanceHandleGeneration (generation : Z) : Z :=
  let generation := Z.land (u32 (generation + 1)) EX_HANDLE_GENERATION_MASK in
  if generation =? 0 then 1 else generation.

Definition KiEncodeHandle (slotIndex generation : Z) : EX_HANDLE :=
  if (EX_MAX_HANDLES_PER_PROCESS <=? slotIndex) || (generation =? 0) then EX_HANDLE_INVALID
  else Z.lor (u32 (Z.shiftl generation EX_HANDLE_INDEX_BITS)) (u32 (slotIndex + 1)).

Definition KiDecodeHandle (handle : EX_HANDLE) : option (Z * Z) :=
  if handle =? EX_HANDLE_INVALID then None else
  let encodedIndex := Z.land handle EX_HANDLE_INDEX_MASK in
  let decodedGeneration := Z.land (Z.shiftr handle EX_HANDLE_INDEX_BITS) EX_HANDLE_GENERATION_MASK in
  if (encodedIndex =? 0) || (decodedGeneration =? 0) then None else
  let encodedIndex := encodedIndex - 1 in
  if EX_MAX_HANDLES_PER_PROCESS <=? encodedIndex then None else Some (encodedIndex, decodedGeneration).

(** The slot a handle designates (its index and contents) and the generation
    the handle carries. *)
Definition KiLookupHandleSlot p (handle : EX_HANDLE) s : res (option (Z * EX_HANDLE_SLOT * Z)) :=
  if p =? 0 then Ok None else
  match KiDecodeHandle handle with
  | None => Ok None
  | Some (i, generation) =>
      let* x := get_process p s in
      let* slot := rd (HandleTable x) i in
      Ok (Some (i, slot, generation))
  end.

Definition KiRetainHandleObject (objectHeader : option EX_OBJECT) s : res (HO_STATUS * EX W) :=
  match objectHeader with
  | None => Ok (EC_ILLEGAL_ARGUMENT, s)
  | Some o =>
      let* h := get_header o s in
      if negb (ExObjectIsValidType (Type_ h)) then Ok (EC_INVALID_STATE, s)
      else ExObjectRetain objectHeader (Type_ h) s
  end.

Definition KiReleaseHandleObject (objectHeader : option EX_OBJECT) s : res (HO_STATUS * EX W) :=
  match objectHeader with
  | None => Ok (EC_ILLEGAL_ARGUMENT, s)
  | Some o =>
      let* h := get_header o s in
      match Type_ h, o with
      | EX_OBJECT_TYPE_PROCESS, ObjProcess p => ExRuntimeReleaseProcess p s
      | EX_OBJECT_TYPE_THREAD, ObjThread t => ExRuntimeReleaseThread t s
      | EX_OBJECT_TYPE_CONSOLE, _ =>
          let* (status, _, s) := ExObjectRelease objectHeader EX_OBJECT_TYPE_CONSOLE s in Ok (status, s)
      | EX_OBJECT_TYPE_INVALID, _ => Ok (EC_INVALID_STATE, s)
      | _, _ => Oob
      end
  end.

Definition identityRights : Z := Z.lor EX_HANDLE_RIGHT_PROCESS_SELF EX_HANDLE_RIGHT_THREAD_SELF.

Definition KiValidateCloseHandleSlot (slot : EX_HANDLE_SLOT) (allowPublishedObjectClose : bool) s : res HO_STATUS :=
  match Object slot with
  | None => Ok EC_INVALID_STATE
  | Some o =>
      if negb (Z.land (Rights slot) EX_HANDLE_RIGHT_CLOSE =? EX_HANDLE_RIGHT_CLOSE) then Ok EC_INVALID_STATE else
      let* published := if allowPublishedObjectClose then Ok false else ExRuntimeIsPublishedObject (Some o) s in
      if published && negb (Z.land (Rights slot) identityRights =? EX_HANDLE_RIGHT_NONE) then Ok EC_INVALID_STATE else
      let* h := get_header o s in
      if negb (ExObjectIsValidType (Type_ h)) then Ok EC_INVALID_STATE else Ok EC_SUCCESS
  end.

Definition KiInvalidateObjectSelfHandleIfMatch (objectHeader : option EX_OBJECT) (handle : EX_HANDLE) s : res (EX W) :=
  match objectHeader with
  | None => Ok s
  | Some o =>
      if handle =? EX_HANDLE_INVALID then Ok s else
      let* h := get_header o s in
      match Type_ h, o with
      | EX_OBJECT_TYPE_PROCESS, ObjProcess p =>
          upd_process p (fun x =>
            let x := if SelfHandle x =? handle then set_SelfHandle EX_HANDLE_INVALID x else x in
            if WaitHandle x =? handle then set_WaitHandle EX_HANDLE_INVALID x else x) s
      | EX_OBJECT_TYPE_THREAD, ObjThread t =>
          upd_thread t (fun x => if tSelfHandle x =? handle then set_tSelfHandle EX_HANDLE_INVALID x else x) s
      | EX_OBJECT_TYPE_CONSOLE, ObjStdout p =>
          let* x := get_process p s in
          if StdoutOwner x =? 0 then Ok s else
          upd_process (StdoutOwner x) (fun y =>
            if StdoutHandle y =? handle then set_StdoutHandle EX_HANDLE_INVALID y else y) s
      | EX_OBJECT_TYPE_INVALID, _ => Ok s
      | _, _ => Oob
      end
  end.

Definition KiObjectTypeIsWaitable (type : EX_OBJECT_TYPE) : bool :=
  bool_decide (type = EX_OBJECT_TYPE_PROCESS) || bool_decide (type = EX_OBJECT_TYPE_THREAD).

Definition clear_slot (slot : EX_HANDLE_SLOT) : EX_HANDLE_SLOT :=
  mkSlot None EX_HANDLE_RIGHT_NONE (KiAdvanceHandleGeneration (Generation slot)).

(** [KiClearHandleSlot] on slot [i] of the table of [p]. *)
Definition KiClearHandleSlot p (i : Z) s : res (EX W) :=
  let* x := get_process p s in
  let* slot := rd (HandleTable x) i in
  let* table := wr (HandleTable x) i (clear_slot slot) in
  Ok (put_process p (set_HandleTable table x) s).

Definition ExHandleInitializeTable : list EX_HANDLE_SLOT :=
  replicate (Z.to_nat EX_MAX_HANDLES_PER_PROCESS) (mkSlot None 0 0).

(** The first slot without an object, [EX_MAX_HANDLES_PER_PROCESS] if none. *)
Fixpoint find_free_slot (i : Z) (table : list EX_HANDLE_SLOT) : Z :=
  match table with
  | [] => i
  | slot :: table => match Object slot with None => i | Some _ => find_free_slot (i + 1) table end
  end.

Definition ExHandleInsert p (objectHeader : option EX_OBJECT) (rights : Z) s : res (HO_STATUS * EX_HANDLE * EX W) :=
  if (p =? 0) || bool_decide (objectHeader = None) || (rights =? EX_HANDLE_RIGHT_NONE)
  then Ok (EC_ILLEGAL_ARGUMENT, EX_HANDLE_INVALID, s) else
  let* x := get_process p s in
  let slotIndex := find_free_slot 0 (HandleTable x) in
  if EX_MAX_HANDLES_PER_PROCESS <=? slotIndex then Ok (EC_OUT_OF_RESOURCE, EX_HANDLE_INVALID, s) else
  let* (status, s) := KiRetainHandleObject objectHeader s in
  if negb (bool_decide (status = EC_SUCCESS)) then Ok (status, EX_HANDLE_INVALID, s) else
  let* x := get_process p s in
  let* slot := rd (HandleTable x) slotIndex in
  let generation := if Generation slot =? 0 then KiAdvanceHandleGeneration 0 else Generation slot in
  let* table := wr (HandleTable x) slotIndex (mkSlot objectHeader rights generation) in
  let s := put_process p (set_HandleTable table x) s in
  let handle := KiEncodeHandle slotIndex generation in
  Ok (if handle =? EX_HANDLE_INVALID then EC_INVALID_STATE else EC_SUCCESS, handle, s).

Definition ExHandleResolve p (handle : EX_HANDLE) (expectedType : EX_OBJECT_TYPE) (desiredRights : Z) s
    : res (HO_STATUS * option EX_OBJECT * EX W) :=
  if p =? 0 then Ok (EC_ILLEGAL_ARGUMENT, None, s) else
  if negb (ExObjectIsValidType expectedType) then Ok (EC_ILLEGAL_ARGUMENT, None, s) else
  let* found := KiLookupHandleSlot p handle s in
  match found with
  | None => Ok (EC_ILLEGAL_ARGUMENT, None, s)
  | Some (_, slot, generation) =>
      if bool_decide (Object slot = None) || negb (Generation slot =? generation) then Ok (EC_INVALID_STATE, None, s) else
      if negb (Z.land (Rights slot) desiredRights =? desiredRights) then Ok (EC_INVALID_STATE, None, s) else
      let* (status, s) := ExObjectRetain (Object slot) expectedType s in
      if negb (bool_decide (status = EC_SUCCESS)) then Ok (status, None, s) else Ok (EC_SUCCESS, Object slot, s)
  end.

Definition ExHandleResolveWaitable p (handle : EX_HANDLE) (desiredRights : Z) s
    : res (HO_STATUS * option EX_OBJECT * EX W) :=
  if p =? 0 then Ok (EC_ILLEGAL_ARGUMENT, None, s) else
  let* found := KiLookupHandleSlot p handle s in
  match found with
  | None => Ok (EC_ILLEGAL_ARGUMENT, None, s)
  | Some (_, slot, generation) =>
      match Object slot with
      | None => Ok (EC_INVALID_STATE, None, s)
      | Some o =>
          if negb (Generation slot =? generation) then Ok (EC_INVALID_STATE, None, s) else
          if negb (Z.land (Rights slot) desiredRights =? desiredRights) then Ok (EC_INVALID_STATE, None, s) else
          let* h := get_header o s in
          if negb (KiObjectTypeIsWaitable (Type_ h)) then Ok (EC_INVALID_STATE, None, s) else
          let* (status, s) := ExObjectRetain (Some o) (Type_ h) s in
          if negb (bool_decide (status = EC_SUCCESS)) then Ok (status, None, s) else Ok (EC_SUCCESS, Some o, s)
      end
  end.

Definition ExHandleReleaseResolvedObject (objectHeader : option EX_OBJECT) s : res (HO_STATUS * EX W) :=
  KiReleaseHandleObject objectHeader s.

(** The body of [ExHandleClose] between the retain and the release of the
    owner; the second component is the caller's handle variable. *)
Definition close_body p (localHandle : EX_HANDLE) s : res (HO_STATUS * EX_HANDLE * EX W) :=
  let* found := KiLookupHandleSlot p localHandle s in
  match found with
  | None => Ok (EC_ILLEGAL_ARGUMENT, localHandle, s)
  | Some (i, slot, generation) =>
      if bool_decide (Object slot = None) || negb (Generation slot =? generation)
      then Ok (EC_INVALID_STATE, localHandle, s) else
      let objectHeader := Object slot in
      let* status := KiValidateCloseHandleSlot slot false s in
      if negb (bool_decide (status = EC_SUCCESS)) then Ok (status, localHandle, s) else
      let* s := KiInvalidateObjectSelfHandleIfMatch objectHeader localHandle s in
      let* s := KiClearHandleSlot p i s in
      let* (status, s) := KiReleaseHandleObject objectHeader s in
      Ok (status, EX_HANDLE_INVALID, s)
  end.

Definition ExHandleClose p (handle : EX_HANDLE) s : res (HO_STATUS * EX_HANDLE * EX W) :=
  if p =? 0 then Ok (EC_ILLEGAL_ARGUMENT, handle, s) else
  if handle =? EX_HANDLE_INVALID then Ok (EC_SUCCESS, handle, s) else
  let* (ownerReference, s) := ExRuntimeRetainProcess p s in
  if ownerReference =? 0 then Ok (EC_INVALID_STATE, handle, s) else
  let* (status, handle, s) := close_body p handle s in
  let* (ownerStatus, s) := ExRuntimeReleaseProcess ownerReference s in
  Ok (if bool_decide (status = EC_SUCCESS) then ownerStatus else status, handle, s).

(** The validation pass of [KiHandleCloseAll]: the first failing slot. *)
Fixpoint validate_slots (table : list EX_HANDLE_SLOT) (allow : bool) s : res HO_STATUS :=
  match table with
  | [] => Ok EC_SUCCESS
  | slot :: table =>
      if bool_decide (Object slot = None) then validate_slots table allow s else
      let* status := KiValidateCloseHandleSlot slot allow s in
      if negb (bool_decide (status = EC_SUCCESS)) then Ok status else validate_slots table allow s
  end.

(** One step of its closing pass. *)
Definition close_slot p (slotIndex : Z) (acc : HO_STATUS * EX W) : res (HO_STATUS * EX W) :=
  let '(firstError, s) := acc in
  let* x := get_process p s in
  let* slot := rd (HandleTable x) slotIndex in
  let objectHeader := Object slot in
  let handle := KiEncodeHandle slotIndex (Generation slot) in
  if bool_decide (objectHeader = None) then Ok (firstError, s) else
  let* s := KiInvalidateObjectSelfHandleIfMatch objectHeader handle s in
  let* s := KiClearHandleSlot p slotIndex s in
  let* (status, s) := KiReleaseHandleObject objectHeader s in
  Ok (if bool_decide (firstError = EC_SUCCESS) then status else firstError, s).

Definition KiHandleCloseAll p (allowPublishedObjectClose : bool) s : res (HO_STATUS * EX W) :=
  if p =? 0 then Ok (EC_ILLEGAL_ARGUMENT, s) else
  let* (ownerReference, s) := ExRuntimeRetainProcess p s in
  if ownerReference =? 0 then Ok (EC_INVALID_STATE, s) else
  let* x := get_process p s in
  let* firstError := validate_slots (HandleTable x) allowPublishedObjectClose s in
  let* (firstError, s) :=
    if bool_decide (firstError = EC_SUCCESS)
    then for_loop (Z.to_nat EX_MAX_HANDLES_PER_PROCESS) 0 (close_slot p) (EC_SUCCESS, s)
    else Ok (firstError, s) in
  let* (ownerStatus, s) := ExRuntimeReleaseProcess ownerReference s in
  Ok (if bool_decide (firstError = EC_SUCCESS) then ownerStatus else firstError, s).

Definition ExHandleCloseAll p s : res (HO_STATUS * EX W) := KiHandleCloseAll p false s.
Definition ExHandleCloseAllForTeardown p s : res (HO_STATUS * EX W) := KiHandleCloseAll p true s.

(** ** image.c *)

Definition EX_USER_IMAGE_PAGE_SIZE : Z := 4096.
Definition EX_USER_CAPABILITY_SEED_VERSION : Z := 1.
Definition EX_USER_CAPABILITY_SEED_BLOCK_SIZE : Z := 24.
Definition EX_USER_IMAGE_CONST_PAYLOAD_OFFSET : Z := EX_USER_CAPABILITY_SEED_BLOCK_SIZE.

(** A 32-bit field in memory order. *)
Definition bytes32 (v : Z) : list Z :=
  [v mod 256; Z.shiftr v 8 mod 256; Z.shiftr v 16 mod 256; Z.shiftr v 24 mod 256].

(** The packed [EX_USER_CAPABILITY_SEED_BLOCK]. *)
Definition seed_block (processSelf threadSelf stdout waitObject : EX_HANDLE) : list Z :=
  bytes32 EX_USER_CAPABILITY_SEED_VERSION ++ bytes32 EX_USER_CAPABILITY_SEED_BLOCK_SIZE ++
  bytes32 processSelf ++ bytes32 threadSelf ++ bytes32 stdout ++ bytes32 waitObject.

(** [memcpy] out of a buffer that holds [src]. *)
Definition copy_prefix (n : Z) (src : list Z) : res (list Z) :=
  if Z.of_nat (length src) <? n then Oob else Ok (take (Z.to_nat n) src).

(** The new buffer's address, its contents and its length. *)
Definition ExRuntimeBuildInitialConstBytes (params : EX_RUNTIME_PROCESS_CREATE_PARAMS) s
    : res (HO_STATUS * Z * list Z * EX W) :=
  let none := bool_decide (ConstBytes params = None) in
  if negb (eqb none (ConstLength params =? 0)) then Ok (EC_ILLEGAL_ARGUMENT, 0, [], s) else
  let totalConstLength := u64 (EX_USER_IMAGE_CONST_PAYLOAD_OFFSET + ConstLength params) in
  if (totalConstLength <? ConstLength params) || (EX_USER_IMAGE_PAGE_SIZE <? totalConstLength)
  then Ok (EC_ILLEGAL_ARGUMENT, 0, [], s) else
  let '(constBytes, s) := svc (kzalloc (SizeInBytes totalConstLength)) s in
  if constBytes =? 0 then Ok (EC_OUT_OF_RESOURCE, 0, [], s) else
  let seed := seed_block EX_HANDLE_INVALID EX_HANDLE_INVALID EX_HANDLE_INVALID EX_HANDLE_INVALID in
  let* payload := if ConstLength params =? 0 then Ok []
                  else copy_prefix (ConstLength params) (default [] (ConstBytes params)) in
  Ok (EC_SUCCESS, constBytes, seed ++ payload, s).

Definition ExRuntimePatchCapabilitySeed p t s : res (HO_STATUS * EX W) :=
  if (p =? 0) || (t =? 0) then Ok (EC_ILLEGAL_ARGUMENT, s) else
  let* x := get_process p s in
  let* y := get_thread t s in
  if (Staging x =? 0) || negb (Process y =? p) then Ok (EC_INVALID_STATE, s) else
  if (SelfHandle x =? EX_HANDLE_INVALID) || (StdoutHandle x =? EX_HANDLE_INVALID) ||
     (WaitHandle x =? EX_HANDLE_INVALID) || (tSelfHandle y =? EX_HANDLE_INVALID) then Ok (EC_INVALID_STATE, s) else
  Ok (svc (KeUserModePatchConstBytes (Staging x) 0
         (seed_block (SelfHandle x) (tSelfHandle y) (StdoutHandle x) (WaitHandle x))) s).

(** ** process.c *)

Definition KiAllocateRuntimeProcessId s : res (Z * EX W) :=
  let* _ := HO_KASSERT (negb (gNextRuntimeProcessId s =? 0)) EC_OUT_OF_RESOURCE in
  Ok (gNextRuntimeProcessId s, set_gNextRuntimeProcessId (u32 (gNextRuntimeProcessId s + 1)) s).

Definition KiRestoreImportedRootForProcessTeardown p s : res (HO_STATUS * EX W) :=
  if p =? 0 then Ok (EC_SUCCESS, s) else
  let* x := get_process p s in
  if negb (PsInitialized (AddressSpace x)) then Ok (EC_SUCCESS, s) else
  let '(status, activeRoot) := KeQueryActiveRootPageTable (Svc s) in
  if negb (bool_decide (status = EC_SUCCESS)) || negb (activeRoot =? PsRootPageTablePhys (AddressSpace x))
  then Ok (EC_SUCCESS, s) else
  match KernelSpaceRoot (Svc s) with
  | None => Ok (EC_INVALID_STATE, s)
  | Some root => if root =? 0 then Ok (EC_INVALID_STATE, s) else Ok (svc (KeSwitchAddressSpace root) s)
  end.

(** The structure at [p] after [ExRuntimeInitializeProcessObject]. *)
Definition ExRuntimeInitializeProcessObject p : EX_PROCESS :=
  let header := ExObjectInitializeHeader EX_OBJECT_TYPE_PROCESS 0 (Some DestroyProcessRoutine) in
  ExRuntimeInitializeStdoutServiceObject p
    (mkProcess header (mkProcessSpace 0 false) 0 EX_HANDLE_INVALID EX_HANDLE_INVALID EX_HANDLE_INVALID 0 0 0
       EX_PROCESS_STATE_CREATED 0 EX_PROCESS_TERMINATION_REASON_NONE false false false false 0 0
       (mkHeader EX_OBJECT_TYPE_INVALID 0 0 None) 0 ExHandleInitializeTable).

Definition ExRuntimeTeardownProcessPayload p s : res (HO_STATUS * EX W) :=
  let* (status, s) := KiRestoreImportedRootForProcessTeardown p s in
  if p =? 0 then Ok (status, s) else
  let* x := get_process p s in
  let* (status, s) :=
    if Staging x =? 0 then Ok (status, s) else
    let '(stagingStatus, s) := svc (KeUserModeDestroyStaging (Staging x)) s in
    let* s := upd_process p (set_Staging 0) s in
    Ok (if bool_decide (status = EC_SUCCESS) then stagingStatus else status, s) in
  let* x := get_process p s in
  if PsInitialized (AddressSpace x) then
    let '(addrStatus, space, s) := svc (KeDestroyProcessAddressSpace (AddressSpace x)) s in
    let* s := upd_process p (set_AddressSpace space) s in
    Ok (if bool_decide (status = EC_SUCCESS) then addrStatus else status, s)
  else Ok (status, s).

(** The two clean-up tails of [ExRuntimeCreateProcess]: before and after the
    process holds handles. *)
Definition create_undo_space p (status : HO_STATUS) s : res (HO_STATUS * Z * EX W) :=
  let* x := get_process p s in
  let '(destroyStatus, space, s) := svc (KeDestroyProcessAddressSpace (AddressSpace x)) s in
  let* s := upd_process p (set_AddressSpace space) s in
  let* (releaseStatus, s) := ExRuntimeReleaseProcess p s in
  if negb (bool_decide (destroyStatus = EC_SUCCESS)) then Ok (destroyStatus, 0, s) else
  Ok (if bool_decide (releaseStatus = EC_SUCCESS) then status else releaseStatus, 0, s).

Definition create_undo_handles p (status : HO_STATUS) s : res (HO_STATUS * Z * EX W) :=
  let* (teardownStatus, s) := ExRuntimeTeardownProcessPayload p s in
  let* (closeStatus, s) := ExHandleCloseAll p s in
  let* (releaseStatus, s) := ExRuntimeReleaseProcess p s in
  if negb (bool_decide (teardownStatus = EC_SUCCESS)) then Ok (teardownStatus, 0, s) else
  if negb (bool_decide (closeStatus = EC_SUCCESS)) then Ok (closeStatus, 0, s) else
  Ok (if bool_decide (releaseStatus = EC_SUCCESS) then status else releaseStatus, 0, s).

Definition processSelfRights : Z :=
  Z.lor (Z.lor EX_HANDLE_RIGHT_QUERY EX_HANDLE_RIGHT_CLOSE) EX_HANDLE_RIGHT_PROCESS_SELF.
Definition stdoutRights : Z := Z.lor EX_HANDLE_RIGHT_WRITE EX_HANDLE_RIGHT_CLOSE.
Definition waitRights : Z := Z.lor EX_HANDLE_RIGHT_WAIT EX_HANDLE_RIGHT_CLOSE.
Definition threadSelfRights : Z :=
  Z.lor (Z.lor EX_HANDLE_RIGHT_QUERY EX_HANDLE_RIGHT_CLOSE) EX_HANDLE_RIGHT_THREAD_SELF.

(** The three insertions that give a new process its handles. *)
Definition create_handles p s : res (HO_STATUS * Z * EX W) :=
  let* (status, h, s) := ExHandleInsert p (Some (ObjProcess p)) processSelfRights s in
  let* s := upd_process p (set_SelfHandle h) s in
  if negb (bool_decide (status = EC_SUCCESS)) then create_undo_handles p status s else
  let* (status, h, s) := ExHandleInsert p (Some (ObjStdout p)) stdoutRights s in
  let* s := upd_process p (set_StdoutHandle h) s in
  if negb (bool_decide (status = EC_SUCCESS)) then create_undo_handles p status s else
  let* (status, h, s) := ExHandleInsert p (Some (ObjProcess p)) waitRights s in
  let* s := upd_process p (set_WaitHandle h) s in
  if negb (bool_decide (status = EC_SUCCESS)) then create_undo_handles p status s else
  Ok (EC_SUCCESS, p, s).

(** The seed block, the staging and the handles. *)
Definition create_staged p (params : EX_RUNTIME_PROCESS_CREATE_PARAMS) (space : KE_PROCESS_ADDRESS_SPACE) s
    : res (HO_STATUS * Z * EX W) :=
  let* (status, constBytes, contents, s) := ExRuntimeBuildInitialConstBytes params s in
  if negb (bool_decide (status = EC_SUCCESS)) then create_undo_space p status s else
  let '(status, staging, s) := svc (KeUserModeCreateStaging (CodeBytes params) (EntryOffset params) contents space) s in
  let s := if constBytes =? 0 then s else set_Svc (kfree constBytes (Svc s)) s in
  if negb (bool_decide (status = EC_SUCCESS)) then create_undo_space p status s else
  let* s := upd_process p (set_Staging staging) s in
  create_handles p s.

Definition ExRuntimeCreateProcess (params : option EX_RUNTIME_PROCESS_CREATE_PARAMS) s : res (HO_STATUS * Z * EX W) :=
  match params with
  | None => Ok (EC_ILLEGAL_ARGUMENT, 0, s)
  | Some params =>
      let '(p, s) := svc (kzalloc SizeofProcess) s in
      if p =? 0 then Ok (EC_OUT_OF_RESOURCE, 0, s) else
      let s := put_process p (ExRuntimeInitializeProcessObject p) s in
      let* (processId, s) := KiAllocateRuntimeProcessId s in
      let* s := upd_process p (set_ProcessId processId) s in
      let* s := upd_process p (set_ParentProcessId (prParentProcessId params)) s in
      let* s := upd_process p (set_ProgramId (prProgramId params)) s in
      let '(status, space, s) := svc KeCreateProcessAddressSpace s in
      if negb (bool_decide (status = EC_SUCCESS)) then
        let* (releaseStatus, s) := ExRuntimeReleaseProcess p s in
        Ok (if bool_decide (releaseStatus = EC_SUCCESS) then status else releaseStatus, 0, s)
      else
      let* s := upd_process p (set_AddressSpace space) s in
      create_staged p params space s
  end.

Definition ExRuntimeDestroyProcess p s : res (HO_STATUS * EX W) :=
  if p =? 0 then Ok (EC_ILLEGAL_ARGUMENT, s) else
  let* published := ExRuntimeIsProcessPublished p s in
  if published then Ok (EC_INVALID_STATE, s) else
  let* (status, s) := ExRuntimeTeardownProcessPayload p s in
  let* (closeStatus, s) := ExHandleCloseAll p s in
  let status := if bool_decide (status = EC_SUCCESS) then closeStatus else status in
  let* (releaseStatus, s) := ExRuntimeReleaseProcess p s in
  Ok (if bool_decide (status = EC_SUCCESS) then releaseStatus else status, s).

Definition ExRuntimeQueryProcessId p s : res (HO_STATUS * Z) :=
  if p =? 0 then Ok (EC_ILLEGAL_ARGUMENT, 0) else
  let* x := get_process p s in
  if ProcessId x =? 0 then Ok (EC_INVALID_STATE, 0) else Ok (EC_SUCCESS, ProcessId x).

(** ** runtime_table.c: publication *)

Definition set_entry (table : list TABLE_ENTRY) (i : Z) (e : TABLE_ENTRY) : res (list TABLE_ENTRY) := wr table i e.

(** The five searches that keep processes and threads unique in the tables. *)
Definition already_published p t (x : EX_PROCESS) (y : EX_THREAD) s : res bool :=
  let* i := KiFindProcessSlotByProcess p s in
  if i <? EX_RUNTIME_PROCESS_TABLE_CAPACITY then Ok true else
  let* i := KiFindProcessSlotByPid (ProcessId x) s in
  if i <? EX_RUNTIME_PROCESS_TABLE_CAPACITY then Ok true else
  let* i := KiFindThreadSlotByThreadObject t s in
  if i <? EX_RUNTIME_THREAD_TABLE_CAPACITY then Ok true else
  let* i := KiFindThreadSlotByThreadId (ThreadId y) s in
  if i <? EX_RUNTIME_THREAD_TABLE_CAPACITY then Ok true else
  let* i := KiFindThreadSlotByKernelThread (Thread y) s in
  Ok (i <? EX_RUNTIME_THREAD_TABLE_CAPACITY).

Definition ExRuntimePublishThread p t s : res (HO_STATUS * EX W) :=
  if (p =? 0) || (t =? 0) then Ok (EC_ILLEGAL_ARGUMENT, s) else
  let* y := get_thread t s in
  if (Thread y =? 0) || negb (Process y =? p) then Ok (EC_ILLEGAL_ARGUMENT, s) else
  let* x := get_process p s in
  if (ProcessId x =? 0) || (ThreadId y =? 0) then Ok (EC_ILLEGAL_ARGUMENT, s) else
  let* published := already_published p t x y s in
  if published then Ok (EC_INVALID_STATE, s) else
  let* processSlot := KiFindFreeProcessSlot s in
  let* threadSlot := KiFindFreeThreadSlot s in
  if (EX_RUNTIME_PROCESS_TABLE_CAPACITY <=? processSlot) || (EX_RUNTIME_THREAD_TABLE_CAPACITY <=? threadSlot)
  then Ok (EC_OUT_OF_RESOURCE, s) else
  let* ptab := set_entry (gExRuntimeProcessTable s) processSlot (mkEntry true p) in
  let* ttab := set_entry (gExRuntimeThreadTable s) threadSlot (mkEntry true t) in
  let s := set_gExRuntimeThreadTable ttab (set_gExRuntimeProcessTable ptab s) in
  let* s := upd_process p (set_MainThreadId (ThreadId y)) s in
  Ok (EC_SUCCESS, s).

Definition ExRuntimeLookupThreadByKernelThread kt s : res Z :=
  let* i := KiFindThreadSlotByKernelThread kt s in
  if i <? EX_RUNTIME_THREAD_TABLE_CAPACITY
  then let* e := rd (gExRuntimeThreadTable s) i in Ok (Entry e) else Ok 0.

Definition ExRuntimeLookupProcessByKernelThread kt s : res Z :=
  let* t := ExRuntimeLookupThreadByKernelThread kt s in
  if t =? 0 then Ok 0 else let* y := get_thread t s in Ok (Process y).

Definition ExRuntimeLookupProcessByPid (processId : Z) s : res Z :=
  let* i := KiFindProcessSlotByPid processId s in
  if i <? EX_RUNTIME_PROCESS_TABLE_CAPACITY
  then let* e := rd (gExRuntimeProcessTable s) i in Ok (Entry e) else Ok 0.

Definition KiLookupThreadByTidLocked (threadId : Z) s : res Z :=
  let* i := KiFindThreadSlotByThreadId threadId s in
  if EX_RUNTIME_THREAD_TABLE_CAPACITY <=? i then Ok 0
  else let* e := rd (gExRuntimeThreadTable s) i in Ok (Entry e).

Definition ExRuntimeRetainChildProcess (parentProcessId childProcessId : Z) s : res (HO_STATUS * Z * EX W) :=
  if childProcessId =? 0 then Ok (EC_ILLEGAL_ARGUMENT, 0, s) else
  let* i := KiFindProcessSlotByPid childProcessId s in
  if i <? EX_RUNTIME_PROCESS_TABLE_CAPACITY then
    let* e := rd (gExRuntimeProcessTable s) i in
    if Entry e =? 0 then Ok (EC_INVALID_STATE, 0, s) else
    let* x := get_process (Entry e) s in
    if negb (ParentProcessId x =? parentProcessId) then Ok (EC_INVALID_STATE, 0, s) else
    let* (status, s) := ExObjectRetain (Some (ObjProcess (Entry e))) EX_OBJECT_TYPE_PROCESS s in
    if bool_decide (status = EC_SUCCESS) then Ok (EC_SUCCESS, Entry e, s) else Ok (EC_INVALID_STATE, 0, s)
  else Ok (EC_INVALID_STATE, 0, s).

Definition ExRuntimeUnpublishThreadByKernelThread kt s : res (Z * Z * EX W) :=
  let* i := KiFindThreadSlotByKernelThread kt s in
  if i <? EX_RUNTIME_THREAD_TABLE_CAPACITY then
    let* e := rd (gExRuntimeThreadTable s) i in
    let* ttab := set_entry (gExRuntimeThreadTable s) i (mkEntry false 0) in
    let s := set_gExRuntimeThreadTable ttab s in
    if Entry e =? 0 then Ok (0, 0, s) else
    let* y := get_thread (Entry e) s in Ok (Entry e, Process y, s)
  else Ok (0, 0, s).

Definition ExRuntimeUnpublishByKernelThread kt s : res (Z * Z * EX W) :=
  let* (runtimeThread, process, s) := ExRuntimeUnpublishThreadByKernelThread kt s in
  let* i := KiFindProcessSlotByProcess process s in
  if i <? EX_RUNTIME_PROCESS_TABLE_CAPACITY then
    let* ptab := set_entry (gExRuntimeProcessTable s) i (mkEntry false 0) in
    Ok (runtimeThread, process, set_gExRuntimeProcessTable ptab s)
  else Ok (runtimeThread, process, s).

(** ** runtime_table.c: termination and completion *)

Definition ExRuntimeRequestProcessKill p s : res (HO_STATUS * EX W) :=
  if p =? 0 then Ok (EC_ILLEGAL_ARGUMENT, s) else
  let* x := get_process p s in
  if KillRequested x then Ok (EC_INVALID_STATE, s) else
  let* s := upd_process p (set_KillRequested true) s in Ok (EC_SUCCESS, s).

Definition ExRuntimeShouldTerminateCurrentProcess kt s : res (bool * Z) :=
  if kt =? 0 then Ok (false, 0) else
  let* p := ExRuntimeLookupProcessByKernelThread kt s in
  if p =? 0 then Ok (false, 0) else
  let* x := get_process p s in
  Ok (KillRequested x, if KillRequested x then ProgramId x else 0).

Definition ExRuntimeMarkProcessControl p (foreground : bool) (restoreForegroundOwnerThreadId : Z) s
    : res (HO_STATUS * EX W) :=
  if p =? 0 then Ok (EC_ILLEGAL_ARGUMENT, s) else
  let* s := upd_process p (fun x => set_RestoreForegroundOwnerThreadId restoreForegroundOwnerThreadId
                                      (set_Foreground foreground x)) s in
  Ok (EC_SUCCESS, s).

(** The main thread can still own the foreground. *)
Definition foreground_eligible (x : EX_PROCESS) s : res bool :=
  let* mainThread := KiLookupThreadByTidLocked (MainThreadId x) s in
  if bool_decide (State x = EX_PROCESS_STATE_TERMINATED) || (mainThread =? 0) then Ok false else
  let* y := get_thread mainThread s in
  if Thread y =? 0 then Ok false else
  let* v := get_kthread (Thread y) s in
  Ok (negb (bool_decide (vState v = Sched.Sched.KTHREAD_STATE_TERMINATED))).

Definition ExRuntimeSetProcessForeground p (restoreForegroundOwnerThreadId : Z) s : res (HO_STATUS * EX W) :=
  if p =? 0 then Ok (EC_ILLEGAL_ARGUMENT, s) else
  let currentForegroundOwnerThreadId := KeInputGetForegroundOwnerThreadId (Svc s) in
  let* x := get_process p s in
  let* eligible := foreground_eligible x s in
  if (MainThreadId x =? 0) || negb eligible then Ok (EC_INVALID_STATE, s) else
  let foregroundOwnerThreadId := MainThreadId x in
  if Foreground x || (currentForegroundOwnerThreadId =? foregroundOwnerThreadId) then Ok (EC_SUCCESS, s) else
  let '(status, s) := svc (KeInputSetForegroundOwnerThreadId foregroundOwnerThreadId) s in
  if negb (bool_decide (status = EC_SUCCESS)) then Ok (status, s) else
  let* x := get_process p s in
  let* eligible := foreground_eligible x s in
  if negb eligible then
    let '(_, s) := svc (KeInputSetForegroundOwnerThreadId restoreForegroundOwnerThreadId) s in
    Ok (EC_INVALID_STATE, s)
  else if Foreground x then Ok (EC_SUCCESS, s) else
  let* s := upd_process p (fun x => set_RestoreForegroundOwnerThreadId restoreForegroundOwnerThreadId
                                      (set_Foreground true x)) s in
  Ok (EC_SUCCESS, s).

Definition ExRuntimeMarkProcessTerminating p (reason : EX_PROCESS_TERMINATION_REASON) (exitStatus : Z) s
    : res (HO_STATUS * EX W) :=
  if (p =? 0) || bool_decide (reason = EX_PROCESS_TERMINATION_REASON_NONE) then Ok (EC_ILLEGAL_ARGUMENT, s) else
  let* s := upd_process p (fun x =>
    if bool_decide (TerminationReason x = EX_PROCESS_TERMINATION_REASON_NONE)
    then set_ExitStatus exitStatus (set_TerminationReason reason x) else x) s in
  Ok (EC_SUCCESS, s).

Definition ExRuntimeMarkCurrentProcessTerminating kt (reason : EX_PROCESS_TERMINATION_REASON) (exitStatus : Z) s
    : res (HO_STATUS * EX W) :=
  if (kt =? 0) || bool_decide (reason = EX_PROCESS_TERMINATION_REASON_NONE) then Ok (EC_ILLEGAL_ARGUMENT, s) else
  let* p := ExRuntimeLookupProcessByKernelThread kt s in
  if p =? 0 then Ok (EC_INVALID_STATE, s) else ExRuntimeMarkProcessTerminating p reason exitStatus s.

(** The field updates of [ExRuntimeMarkProcessTerminated]. *)
Definition mark_terminated (x : EX_PROCESS) : EX_PROCESS :=
  let x := if bool_decide (TerminationReason x = EX_PROCESS_TERMINATION_REASON_NONE)
           then set_ExitStatus 0 (set_TerminationReason EX_PROCESS_TERMINATION_REASON_EXIT x) else x in
  set_State EX_PROCESS_STATE_TERMINATED x.

Definition ExRuntimeMarkProcessTerminated p s : res (HO_STATUS * EX W) :=
  if p =? 0 then Ok (EC_ILLEGAL_ARGUMENT, s) else
  let* s := upd_process p mark_terminated s in
  let* x := get_process p s in
  if CompletionRetained x then Ok (EC_SUCCESS, s) else
  let* (status, s) := ExObjectRetain (Some (ObjProcess p)) EX_OBJECT_TYPE_PROCESS s in
  if bool_decide (status = EC_SUCCESS)
  then let* s := upd_process p (set_CompletionRetained true) s in Ok (status, s)
  else Ok (status, s).

Definition ExRuntimeSignalProcessCompletion p s : res (HO_STATUS * EX W) :=
  if p =? 0 then Ok (EC_ILLEGAL_ARGUMENT, s) else
  let* x := get_process p s in
  if negb (bool_decide (State x = EX_PROCESS_STATE_TERMINATED)) || negb (CompletionRetained x)
  then Ok (EC_INVALID_STATE, s) else
  if CompletionSignaled x then Ok (EC_SUCCESS, s) else
  let* s := upd_process p (set_CompletionSignaled true) s in
  Ok (EC_SUCCESS, set_Svc (KeSetCompletionEvent (ProcessCompletion p) (Svc s)) s).

Definition ExRuntimeSignalThreadCompletion t s : res (HO_STATUS * EX W) :=
  if t =? 0 then Ok (EC_ILLEGAL_ARGUMENT, s) else
  let* y := get_thread t s in
  if tCompletionSignaled y then Ok (EC_SUCCESS, s) else
  let* s := upd_thread t (set_tCompletionSignaled true) s in
  Ok (EC_SUCCESS, set_Svc (KeSetCompletionEvent (ThreadCompletion t) (Svc s)) s).

Definition ExRuntimeConsumeCompletedProcess p s : res (HO_STATUS * EX W) :=
  if p =? 0 then Ok (EC_ILLEGAL_ARGUMENT, s) else
  let* x := get_process p s in
  if negb (bool_decide (State x = EX_PROCESS_STATE_TERMINATED)) || negb (CompletionSignaled x) ||
     negb (CompletionRetained x) then Ok (EC_INVALID_STATE, s) else
  let* i := KiFindProcessSlotByProcess p s in
  if EX_RUNTIME_PROCESS_TABLE_CAPACITY <=? i then Ok (EC_INVALID_STATE, s) else
  let* ptab := set_entry (gExRuntimeProcessTable s) i (mkEntry false 0) in
  let s := set_gExRuntimeProcessTable ptab s in
  let* s := upd_process p (set_CompletionRetained false) s in
  ExRuntimeReleaseProcess p s.

(** ** thread.c *)

Definition ExRuntimeDestroyNewKernelThread kt s : res (HO_STATUS * EX W) :=
  if kt =? 0 then Ok (EC_ILLEGAL_ARGUMENT, s) else
  let* v := get_kthread kt s in
  if vIdle v || negb (bool_decide (vState v = Sched.Sched.KTHREAD_STATE_NEW)) then Ok (EC_INVALID_STATE, s) else
  let '(status, s) := if vStackOwnedByKva v then svc (KeKvaReleaseStackRange kt) s else (EC_SUCCESS, s) in
  if negb (bool_decide (status = EC_SUCCESS)) then Ok (status, s) else
  Ok (EC_SUCCESS, set_Svc (KThreadPoolFree kt (Svc s)) s).

(** The structure after [ExRuntimeInitializeThreadObject]. *)
Definition ExRuntimeInitializeThreadObject : EX_THREAD :=
  mkThread (ExObjectInitializeHeader EX_OBJECT_TYPE_THREAD 0 (Some DestroyThreadRoutine)) 0 0 EX_HANDLE_INVALID 0 false.

(** [FailThreadRuntimeSetup]. *)
Definition fail_thread_setup p t kt (status : HO_STATUS) s : res (HO_STATUS * Z * Z * EX W) :=
  let* x := get_process p s in
  let '(detachStatus, s) := svc (KeUserModeDetachThread kt (Staging x)) s in
  let* (destroyStatus, s) := ExRuntimeDestroyNewKernelThread kt s in
  let* y := get_thread t s in
  let* (closeStatus, h, s) := ExHandleClose p (tSelfHandle y) s in
  let* s := upd_thread t (set_tSelfHandle h) s in
  let* s := upd_thread t (fun y => set_Process 0 (set_Thread 0 y)) s in
  let* (releaseStatus, s) := ExRuntimeReleaseThread t s in
  let result := if negb (bool_decide (detachStatus = EC_SUCCESS)) then detachStatus
                else if negb (bool_decide (destroyStatus = EC_SUCCESS)) then destroyStatus
                else if negb (bool_decide (closeStatus = EC_SUCCESS)) then closeStatus
                else if bool_decide (releaseStatus = EC_SUCCESS) then status else releaseStatus in
  Ok (result, p, 0, s).

(** From the handle of the new thread to its publication. *)
Definition finish_thread p t kt s : res (HO_STATUS * Z * Z * EX W) :=
  let* (status, h, s) := ExHandleInsert p (Some (ObjThread t)) threadSelfRights s in
  let* s := upd_thread t (set_tSelfHandle h) s in
  if negb (bool_decide (status = EC_SUCCESS)) then fail_thread_setup p t kt status s else
  let* (status, s) := ExRuntimePatchCapabilitySeed p t s in
  if negb (bool_decide (status = EC_SUCCESS)) then fail_thread_setup p t kt status s else
  let* (status, s) := ExRuntimePublishThread p t s in
  if negb (bool_decide (status = EC_SUCCESS)) then fail_thread_setup p t kt status s else
  Ok (EC_SUCCESS, 0, t, s).

Definition EX_RUNTIME_THREAD_CREATE_FLAG_JOINABLE : Z := 1.

(** [*processHandle] comes in as [p] and goes out as the second component;
    the third is [*outThread]. *)
Definition ExRuntimeCreateThread p (params : option EX_RUNTIME_THREAD_CREATE_PARAMS) s
    : res (HO_STATUS * Z * Z * EX W) :=
  match params with
  | None => Ok (EC_ILLEGAL_ARGUMENT, p, 0, s)
  | Some params =>
      if (p =? 0) || (EntryPoint params =? 0) then Ok (EC_ILLEGAL_ARGUMENT, p, 0, s) else
      let* x := get_process p s in
      if Staging x =? 0 then Ok (EC_ILLEGAL_ARGUMENT, p, 0, s) else
      if negb (Z.ldiff (prFlags params) EX_RUNTIME_THREAD_CREATE_FLAG_JOINABLE =? 0)
      then Ok (EC_ILLEGAL_ARGUMENT, p, 0, s) else
      let '(t, s) := svc (kzalloc SizeofThread) s in
      if t =? 0 then Ok (EC_OUT_OF_RESOURCE, p, 0, s) else
      let s := put_thread t ExRuntimeInitializeThreadObject s in
      let joinable := negb (Z.land (prFlags params) EX_RUNTIME_THREAD_CREATE_FLAG_JOINABLE =? 0) in
      let '(status, kt, s) := svc (KeThreadCreate joinable (EntryPoint params) (EntryArg params)) s in
      if negb (bool_decide (status = EC_SUCCESS)) then
        let* (releaseStatus, s) := ExRuntimeReleaseThread t s in
        Ok (if bool_decide (releaseStatus = EC_SUCCESS) then status else releaseStatus, p, 0, s)
      else
      let '(status, s) := svc (KeUserModeAttachThread kt (Staging x)) s in
      if negb (bool_decide (status = EC_SUCCESS)) then
        let* (destroyStatus, s) := ExRuntimeDestroyNewKernelThread kt s in
        let* (releaseStatus, s) := ExRuntimeReleaseThread t s in
        Ok (if negb (bool_decide (destroyStatus = EC_SUCCESS)) then destroyStatus
            else if bool_decide (releaseStatus = EC_SUCCESS) then status else releaseStatus, p, 0, s)
      else
      let* v := get_kthread kt s in
      let* s := upd_thread t (fun y => set_ThreadId (vThreadId v) (set_Process p (set_Thread kt y))) s in
      finish_thread p t kt s
  end.

(** [*threadHandle] comes in as [t] and goes out as the second component. *)
Definition ExRuntimeStartThread t s : res (HO_STATUS * Z * EX W) :=
  if t =? 0 then Ok (EC_ILLEGAL_ARGUMENT, t, s) else
  let* y := get_thread t s in
  if Thread y =? 0 then Ok (EC_ILLEGAL_ARGUMENT, t, s) else
  let '(status, s) := svc (KeThreadStart (Thread y)) s in
  if negb (bool_decide (status = EC_SUCCESS)) then Ok (status, t, s) else
  let* s := if Process y =? 0 then Ok s else upd_process (Process y) (set_State EX_PROCESS_STATE_READY) s in
  Ok (EC_SUCCESS, 0, s).

Definition ExRuntimeQueryThreadId t s : res (HO_STATUS * Z) :=
  if t =? 0 then Ok (EC_ILLEGAL_ARGUMENT, 0) else
  let* y := get_thread t s in
  if Thread y =? 0 then Ok (EC_INVALID_STATE, 0) else Ok (EC_SUCCESS, ThreadId y).

Definition ExRuntimeTeardownThread t s : res (HO_STATUS * EX W) :=
  if t =? 0 then Ok (EC_ILLEGAL_ARGUMENT, s) else
  let* y := get_thread t s in
  if Thread y =? 0 then Ok (EC_ILLEGAL_ARGUMENT, s) else
  let* found := ExRuntimeLookupThreadByKernelThread (Thread y) s in
  if negb (found =? t) then Ok (EC_INVALID_STATE, s) else
  let* v := get_kthread (Thread y) s in
  if negb (bool_decide (vState v = Sched.Sched.KTHREAD_STATE_NEW)) then Ok (EC_INVALID_STATE, s) else
  let* process := ExRuntimeLookupProcessByKernelThread (Thread y) s in
  let* (firstError, s) := ExRuntimeTeardownProcessPayload process s in
  let* s := if process =? 0 then Ok s else upd_process process (set_State EX_PROCESS_STATE_TERMINATED) s in
  let* (_, _, s) := ExRuntimeUnpublishByKernelThread (Thread y) s in
  let* (threadStatus, s) := ExRuntimeDestroyNewKernelThread (Thread y) s in
  let firstError := if bool_decide (firstError = EC_SUCCESS) then threadStatus else firstError in
  let* (closeStatus, s) := ExHandleCloseAll process s in
  let firstError := if bool_decide (firstError = EC_SUCCESS) then closeStatus else firstError in
  let* (releaseStatus, s) := ExRuntimeReleaseThread t s in
  Ok (if bool_decide (firstError = EC_SUCCESS) then releaseStatus else firstError, s).

(** ** user_runtime_bridge.c: finalisation of an exited thread *)

Definition KiDestroyUserRuntimeWrapperObjects kt s : res (HO_STATUS * EX W) :=
  let* (exThread, process, s) := ExRuntimeUnpublishThreadByKernelThread kt s in
  let* process :=
    if negb (exThread =? 0) && (process =? 0)
    then let* y := get_thread exThread s in Ok (Process y) else Ok process in
  let* (status, s) := if process =? 0 then Ok (EC_SUCCESS, s) else ExHandleCloseAllForTeardown process s in
  if negb (exThread =? 0) then
    let* (releaseStatus, s) := ExRuntimeReleaseThread exThread s in
    Ok (if bool_decide (status = EC_SUCCESS) then releaseStatus else status, s)
  else if negb (process =? 0) then
    let* (releaseStatus, s) := ExRuntimeReleaseProcess process s in
    Ok (if bool_decide (status = EC_SUCCESS) then releaseStatus else status, s)
  else Ok (status, s).

Definition ExUserRuntimeFinalizeThread kt s : res (HO_STATUS * EX W) :=
  let* runtimeThread := ExRuntimeLookupThreadByKernelThread kt s in
  if runtimeThread =? 0 then Ok (EC_SUCCESS, s) else
  let* y := get_thread runtimeThread s in
  let process := Process y in
  let* (markStatus, s) := if process =? 0 then Ok (EC_SUCCESS, s) else ExRuntimeMarkProcessTerminated process s in
  if negb (bool_decide (markStatus = EC_SUCCESS)) then Ok (markStatus, s) else
  let* (threadSignalStatus, s) := ExRuntimeSignalThreadCompletion runtimeThread s in
  if negb (bool_decide (threadSignalStatus = EC_SUCCESS)) then Ok (threadSignalStatus, s) else
  let* (status, s) := ExRuntimeTeardownProcessPayload process s in
  let* (releaseStatus, s) := KiDestroyUserRuntimeWrapperObjects kt s in
  let status := if bool_decide (status = EC_SUCCESS) then releaseStatus else status in
  if bool_decide (status = EC_SUCCESS) && negb (process =? 0)
  then ExRuntimeSignalProcessCompletion process s else Ok (status, s).

(** ** process_control.c: around the blocking waits *)

Definition KiResolveCallerParentProcessId kt s : res (HO_STATUS * Z) :=
  if kt =? 0 then Ok (EC_INVALID_STATE, 0) else
  let* p := ExRuntimeLookupProcessByKernelThread kt s in
  if p =? 0 then Ok (EC_SUCCESS, 0) else ExRuntimeQueryProcessId p s.

Definition KiRestoreForegroundOwner p s : res (HO_STATUS * EX W) :=
  if p =? 0 then Ok (EC_ILLEGAL_ARGUMENT, s) else
  let* x := get_process p s in
  if negb (Foreground x) then Ok (EC_SUCCESS, s)
  else Ok (svc (KeInputSetForegroundOwnerThreadId (RestoreForegroundOwnerThreadId x)) s).

(** [ExWaitProcess] up to its wait: the child, retained. *)
Definition ExWaitProcess_begin kt (pid : Z) s : res (HO_STATUS * Z * EX W) :=
  if (kt =? 0) || (pid =? 0) then Ok (EC_ILLEGAL_ARGUMENT, 0, s) else
  let* (status, parentProcessId) := KiResolveCallerParentProcessId kt s in
  if negb (bool_decide (status = EC_SUCCESS)) then Ok (status, 0, s) else
  ExRuntimeRetainChildProcess parentProcessId pid s.

(** [ExWaitProcess] and [ExKillProcess] after the wait returned [status]. *)
Definition ExWaitProcess_end p (status : HO_STATUS) s : res (HO_STATUS * EX W) :=
  let* (status, s) :=
    if negb (bool_decide (status = EC_SUCCESS)) then Ok (status, s) else
    let* (status, s) := KiRestoreForegroundOwner p s in
    let* (consumeStatus, s) := ExRuntimeConsumeCompletedProcess p s in
    Ok (if bool_decide (status = EC_SUCCESS) then consumeStatus else status, s) in
  let* (releaseStatus, s) := ExRuntimeReleaseProcess p s in
  Ok (if bool_decide (status = EC_SUCCESS) then releaseStatus else status, s).

(** [ExKillProcess] up to its wait; on a refused kill the reference is given
    back and no wait follows. *)
Definition ExKillProcess_begin kt (pid : Z) s : res (HO_STATUS * Z * EX W) :=
  let* (status, p, s) := ExWaitProcess_begin kt pid s in
  if negb (bool_decide (status = EC_SUCCESS)) then Ok (status, 0, s) else
  let* (status, s) := ExRuntimeRequestProcessKill p s in
  if bool_decide (status = EC_SUCCESS) then Ok (EC_SUCCESS, p, s) else
  let* (_, s) := ExRuntimeReleaseProcess p s in Ok (status, 0, s).

Definition ExSetForegroundProcess kt (pid : Z) s : res (HO_STATUS * EX W) :=
  let* (status, p, s) := ExWaitProcess_begin kt pid s in
  if negb (bool_decide (status = EC_SUCCESS)) then Ok (status, s) else
  let* (status, s) := ExRuntimeSetProcessForeground p (KeInputGetForegroundOwnerThreadId (Svc s)) s in
  let* (releaseStatus, s) := ExRuntimeReleaseProcess p s in
  Ok (if bool_decide (status = EC_SUCCESS) then releaseStatus else status, s).

Definition EX_USER_SPAWN_FLAG_FOREGROUND : Z := 1.

(** [Cleanup] of [KiExCreateAndStartProcessImage]. *)
Definition spawn_cleanup (foregroundOwnerChanged : bool) (previousForegroundOwnerThreadId : Z) p t
    (status : HO_STATUS) s : res (HO_STATUS * Z * Z * EX W) :=
  let '(status, s) :=
    if foregroundOwnerChanged then
      let '(restoreStatus, s) := svc (KeInputSetForegroundOwnerThreadId previousForegroundOwnerThreadId) s in
      (if bool_decide (status = EC_SUCCESS) then restoreStatus else status, s)
    else (status, s) in
  if negb (t =? 0) then
    let* (teardownStatus, s) := ExRuntimeTeardownThread t s in
    Ok (if bool_decide (status = EC_SUCCESS) then teardownStatus else status, 0, 0, s)
  else if negb (p =? 0) then
    let* (destroyStatus, s) := ExRuntimeDestroyProcess p s in
    Ok (if bool_decide (status = EC_SUCCESS) then destroyStatus else status, 0, 0, s)
  else Ok (status, 0, 0, s).

(** The spawn once its thread is published: focus, control marks, start. *)
Definition start_child (flags previousForegroundOwnerThreadId childProcessId : Z) (process thread : Z) s
    : res (HO_STATUS * Z * Z * EX W) :=
  let cleanup := fun changed p t status s => spawn_cleanup changed previousForegroundOwnerThreadId p t status s in
  let foregroundRequested := negb (Z.land flags EX_USER_SPAWN_FLAG_FOREGROUND =? 0) in
  let* y := get_thread thread s in
  let runtimeProcess := Process y in
  if runtimeProcess =? 0 then cleanup false process thread EC_INVALID_STATE s else
  let* (status, childThreadId) := ExRuntimeQueryThreadId thread s in
  if negb (bool_decide (status = EC_SUCCESS)) then cleanup false process thread status s else
  let '(status, s) := if foregroundRequested then svc (KeInputSetForegroundOwnerThreadId childThreadId) s
                      else (EC_SUCCESS, s) in
  if negb (bool_decide (status = EC_SUCCESS)) then cleanup false process thread status s else
  let* (status, s) := ExRuntimeMarkProcessControl runtimeProcess foregroundRequested previousForegroundOwnerThreadId s in
  if negb (bool_decide (status = EC_SUCCESS)) then cleanup foregroundRequested process thread status s else
  let* (status, thread, s) := ExRuntimeStartThread thread s in
  if negb (bool_decide (status = EC_SUCCESS)) then cleanup foregroundRequested process thread status s else
  Ok (EC_SUCCESS, childProcessId, childThreadId, s).

(** [params] is what [ExProgramBuildRuntimeCreateParams] makes of the image,
    with its status; the result is the status, the pid and the thread id. *)
Definition KiExCreateAndStartProcessImage (params : HO_STATUS * EX_RUNTIME_PROCESS_CREATE_PARAMS) (entry : Z)
    (flags previousForegroundOwnerThreadId : Z) s : res (HO_STATUS * Z * Z * EX W) :=
  let '(status, createParams) := params in
  let cleanup := fun changed p t status s => spawn_cleanup changed previousForegroundOwnerThreadId p t status s in
  if negb (bool_decide (status = EC_SUCCESS)) then cleanup false 0 0 status s else
  let* (status, process, s) := ExRuntimeCreateProcess (Some createParams) s in
  if negb (bool_decide (status = EC_SUCCESS)) then cleanup false process 0 status s else
  let* (status, childProcessId) := ExRuntimeQueryProcessId process s in
  if negb (bool_decide (status = EC_SUCCESS)) then cleanup false process 0 status s else
  let* (status, process, thread, s) := ExRuntimeCreateThread process (Some (mkThreadParams entry 0 0)) s in
  if negb (bool_decide (status = EC_SUCCESS)) then cleanup false process thread status s else
  start_child flags previousForegroundOwnerThreadId childProcessId process thread s.
End operations.
