(* ===== verification/ExInv.v ===== *)
(** * The invariant of the executive's objects

    Every reference to an object is accounted for: a handle slot, a thread
    object holding its process, the completion reference of a terminated
    process, the runtime's own reference to a thread ([own]), and the
    references held by code that is running or waiting ([ext]).  The lemmas
    here are the moves between these accounts that the code performs. *)

From S2P Require Import Prelude Ex.

Local Open Scope Z_scope.

(** The service calls that free nothing the executive points to. *)
Inductive quiet_call {W : Type} `{ExServices W} : W -> W -> Prop :=
| q_create_space r w w' : KeCreateProcessAddressSpace w = (r, w') -> quiet_call w w'
| q_destroy_space a r w w' : KeDestroyProcessAddressSpace a w = (r, w') -> quiet_call w w'
| q_switch a r w w' : KeSwitchAddressSpace a w = (r, w') -> quiet_call w w'
| q_create_staging a b c d r w w' : KeUserModeCreateStaging a b c d w = (r, w') -> quiet_call w w'
| q_destroy_staging a r w w' : KeUserModeDestroyStaging a w = (r, w') -> quiet_call w w'
| q_attach a b r w w' : KeUserModeAttachThread a b w = (r, w') -> quiet_call w w'
| q_detach a b r w w' : KeUserModeDetachThread a b w = (r, w') -> quiet_call w w'
| q_patch a b c r w w' : KeUserModePatchConstBytes a b c w = (r, w') -> quiet_call w w'
| q_thread_create a b c r w w' : KeThreadCreate a b c w = (r, w') -> quiet_call w w'
| q_thread_start a r w w' : KeThreadStart a w = (r, w') -> quiet_call w w'
| q_release_stack a r w w' : KeKvaReleaseStackRange a w = (r, w') -> quiet_call w w'
| q_foreground a r w w' : KeInputSetForegroundOwnerThreadId a w = (r, w') -> quiet_call w w'
| q_event e w : quiet_call w (KeSetCompletionEvent e w).

(** What the executive relies on of the services below it: fresh memory is
    not in use, and nothing but [kfree] and the thread pool frees. *)
Class ExLaws (W : Type) `{ExServices W} := {
  allocated : W -> Z -> Prop;
  kzalloc_law n w a w' : kzalloc n w = (a, w') ->
    (a <> 0 -> ~ allocated w a /\ allocated w' a) /\
    (forall b, allocated w b -> allocated w' b) /\
    (forall kt, is_Some (kernel_thread kt w) -> is_Some (kernel_thread kt w'));
  kfree_law a w : (forall b, b <> a -> allocated w b -> allocated (kfree a w) b) /\
    (forall kt, is_Some (kernel_thread kt w) -> is_Some (kernel_thread kt (kfree a w)));
  quiet_law w w' : quiet_call w w' ->
    (forall b, allocated w b -> allocated w' b) /\
    (forall kt, is_Some (kernel_thread kt w) -> is_Some (kernel_thread kt w'));
  thread_create_law a b c w kt w' : KeThreadCreate a b c w = (EC_SUCCESS, kt, w') ->
    kt <> 0 /\ kernel_thread kt w = None /\ is_Some (kernel_thread kt w');
  pool_free_law a w : (forall b, allocated w b -> allocated (KThreadPoolFree a w) b) /\
    (forall kt, kt <> a -> is_Some (kernel_thread kt w) -> is_Some (kernel_thread kt (KThreadPoolFree a w)));
}.

(** The world moved on without freeing anything. *)
Definition evolves {W} `{ExLaws W} (w w' : W) : Prop :=
  (forall b, allocated w b -> allocated w' b) /\
  (forall kt, is_Some (kernel_thread kt w) -> is_Some (kernel_thread kt w')).

(** ** Counting references *)

(** The handles of process structure [x] that name [o]. *)
Definition handles (o : EX_OBJECT) (x : EX_PROCESS) : Z :=
  Z.of_nat (length (filter (fun sl => Object sl = Some o) (HandleTable x))).

(** The thread objects that hold process [p]. *)
Definition owners (p : Z) (ts : gmap Z EX_THREAD) : Z :=
  Z.of_nat (size (filter (fun ty => Process ty.2 = p) ts)).

Definition type_of (o : EX_OBJECT) : EX_OBJECT_TYPE :=
  match o with
  | ObjProcess _ => EX_OBJECT_TYPE_PROCESS
  | ObjThread _ => EX_OBJECT_TYPE_THREAD
  | ObjStdout _ => EX_OBJECT_TYPE_CONSOLE
  end.

Definition move (o : EX_OBJECT) (d : Z) (ext : EX_OBJECT -> Z) : EX_OBJECT -> Z :=
  fun o' => if decide (o' = o) then ext o' + d else ext o'.

Lemma move_here o d ext : move o d ext o = ext o + d.
Proof. unfold move. by rewrite decide_True. Qed.
Lemma move_other o o' d ext : o' <> o -> move o d ext o' = ext o'.
Proof. intros. unfold move. by rewrite decide_False. Qed.

Section owners.
Implicit Types (ts : gmap Z EX_THREAD) (t p : Z) (y : EX_THREAD).

Lemma owners_nonneg p ts : 0 <= owners p ts.
Proof. unfold owners. lia. Qed.

Lemma owners_insert p t y ts : ts !! t = None ->
  owners p (<[t := y]> ts) = owners p ts + (if decide (Process y = p) then 1 else 0).
Proof.
  intros Ht. unfold owners. destruct (decide (Process y = p)).
  - rewrite map_filter_insert_True by done. rewrite map_size_insert_None; [lia|].
    by apply map_lookup_filter_None_2; left.
  - rewrite map_filter_insert_not' by (try done; intros ? E; congruence). lia.
Qed.

Lemma owners_delete p t y ts : ts !! t = Some y ->
  owners p (delete t ts) = owners p ts - (if decide (Process y = p) then 1 else 0).
Proof.
  intros Ht. rewrite <- (insert_delete_id ts t y Ht) at 2.
  rewrite owners_insert by apply lookup_delete_eq. lia.
Qed.

Lemma owners_update p t y y' ts : ts !! t = Some y ->
  owners p (<[t := y']> ts) =
  owners p ts - (if decide (Process y = p) then 1 else 0) + (if decide (Process y' = p) then 1 else 0).
Proof.
  intros Ht. rewrite <- insert_delete_eq, owners_insert by apply lookup_delete_eq.
  by rewrite (owners_delete p t y).
Qed.

Lemma owners_pos p t y ts : ts !! t = Some y -> Process y = p -> 0 < owners p ts.
Proof.
  intros Ht Hp. pose proof (owners_delete p t y ts Ht) as E. rewrite decide_True in E by done.
  pose proof (owners_nonneg p (delete t ts)). lia.
Qed.
End owners.

Lemma handles_nonneg o x : 0 <= handles o x.
Proof. unfold handles. lia. Qed.

Lemma handles_pos o x sl : sl ∈ HandleTable x -> Object sl = Some o -> 0 < handles o x.
Proof.
  intros Hin Ho. unfold handles.
  assert (Hf : sl ∈ filter (fun sl => Object sl = Some o) (HandleTable x)) by (by apply list_elem_of_filter).
  destruct (filter _ (HandleTable x)); [by apply not_elem_of_nil in Hf|]. simpl. lia.
Qed.

Lemma handles_zero o x : handles o x = 0 -> forall sl, sl ∈ HandleTable x -> Object sl <> Some o.
Proof. intros Hz sl Hin Ho. pose proof (handles_pos o x sl Hin Ho). lia. Qed.

(** Replacing slot [i]. *)
Lemma handles_update o x (i : nat) sl sl' : HandleTable x !! i = Some sl ->
  handles o (set_HandleTable (<[i := sl']> (HandleTable x)) x) =
  handles o x - (if decide (Object sl = Some o) then 1 else 0) + (if decide (Object sl' = Some o) then 1 else 0).
Proof.
  intros Hi. unfold handles. cbn [HandleTable set_HandleTable].
  rewrite (insert_take_drop _ i) by (by eapply lookup_lt_Some).
  rewrite <- (take_drop_middle (HandleTable x) i sl Hi) at 3.
  rewrite !filter_app, !filter_cons, !length_app.
  destruct (decide (Object sl = Some o)), (decide (Object sl' = Some o)); cbn [length]; lia.
Qed.

(** ** The invariant *)

Section invariant.
Context {W : Type} `{ExLaws W}.
Implicit Types (s : EX W) (p t kt : Z) (o : EX_OBJECT) (x : EX_PROCESS) (y : EX_THREAD)
  (own : gset Z) (ext : EX_OBJECT -> Z).

Definition alive s o : Prop :=
  match o with
  | ObjProcess p | ObjStdout p => is_Some (processes s !! p)
  | ObjThread t => is_Some (exthreads s !! t)
  end.

(** A slot in the table of [p]: a process holds handles only to itself, its
    console service and its own thread. *)
Definition slot_ok s p (sl : EX_HANDLE_SLOT) : Prop :=
  0 <= Generation sl <= EX_HANDLE_GENERATION_MASK /\
  match Object sl with
  | None => True
  | Some o => Generation sl <> 0 /\ Z.land (Rights sl) EX_HANDLE_RIGHT_CLOSE = EX_HANDLE_RIGHT_CLOSE /\
      match o with
      | ObjProcess q | ObjStdout q => q = p
      | ObjThread t => exists y, exthreads s !! t = Some y /\ Process y = p
      end
  end.

Record process_ok s ext p x : Prop := {
  pk_nz : p <> 0;
  pk_type : Type_ (Header x) = EX_OBJECT_TYPE_PROCESS;
  pk_destroy : DestroyRoutine (Header x) = Some DestroyProcessRoutine;
  pk_ctype : Type_ (StdoutHeader x) = EX_OBJECT_TYPE_CONSOLE;
  pk_cdestroy : DestroyRoutine (StdoutHeader x) = Some DestroyStdoutRoutine;
  pk_owner : StdoutOwner x = p;
  pk_len : length (HandleTable x) = Z.to_nat EX_MAX_HANDLES_PER_PROCESS;
  pk_refs : ReferenceCount (Header x) = handles (ObjProcess p) x + owners p (exthreads s) +
              Z.b2z (CompletionRetained x) + ext (ObjProcess p);
  pk_crefs : ReferenceCount (StdoutHeader x) = handles (ObjStdout p) x +
              Z.b2z (negb (ReferenceCount (Header x) =? 0)) + ext (ObjStdout p);
  pk_slots : Forall (slot_ok s p) (HandleTable x);
}.

(** The handles that name thread [t] are in the table of its process. *)
Definition thread_handles s t y : Z :=
  match processes s !! Process y with Some x => handles (ObjThread t) x | None => 0 end.

Record thread_ok s own ext t y : Prop := {
  tk_nz : t <> 0;
  tk_type : Type_ (tHeader y) = EX_OBJECT_TYPE_THREAD;
  tk_destroy : DestroyRoutine (tHeader y) = Some DestroyThreadRoutine;
  tk_proc : Process y = 0 \/ is_Some (processes s !! Process y);
  tk_refs : ReferenceCount (tHeader y) =
              thread_handles s t y + (if decide (t ∈ own) then 1 else 0) + ext (ObjThread t);
  tk_pos : 0 < ReferenceCount (tHeader y);
}.

(** An entry of the thread table. *)
Definition tentry_ok s own (e : TABLE_ENTRY) : Prop :=
  Active e = true -> Entry e ∈ own /\
    exists y, exthreads s !! Entry e = Some y /\ Thread y <> 0 /\ Process y <> 0 /\
      is_Some (kernel_thread (Thread y) (Svc s)).

(** Process [p] has a published thread. *)
Definition has_published_thread s p : Prop :=
  exists e y, e ∈ gExRuntimeThreadTable s /\ Active e = true /\ exthreads s !! Entry e = Some y /\ Process y = p.

(** A published process is kept alive by its published thread or by its
    completion reference. *)
Definition pentry_ok s (e : TABLE_ENTRY) : Prop :=
  Active e = true -> exists x, processes s !! Entry e = Some x /\
    (CompletionRetained x = true \/ has_published_thread s (Entry e)).

(** No kernel thread is published twice. *)
Definition threads_distinct s : Prop :=
  forall i j e1 e2 y1 y2, gExRuntimeThreadTable s !! i = Some e1 -> gExRuntimeThreadTable s !! j = Some e2 ->
    Active e1 = true -> Active e2 = true ->
    exthreads s !! Entry e1 = Some y1 -> exthreads s !! Entry e2 = Some y2 ->
    Thread y1 = Thread y2 -> i = j.

(** No process is published twice. *)
Definition processes_distinct s : Prop :=
  forall i j e1 e2, gExRuntimeProcessTable s !! i = Some e1 -> gExRuntimeProcessTable s !! j = Some e2 ->
    Active e1 = true -> Active e2 = true -> Entry e1 = Entry e2 -> i = j.

(** Thread [t] stands in the thread table. *)
Definition published_thread_object s t : Prop := exists e, e ∈ gExRuntimeThreadTable s /\ Active e = true /\ Entry e = t.

Record ex_inv s own ext : Prop := {
  ei_processes p x : processes s !! p = Some x -> process_ok s ext p x;
  ei_threads t y : exthreads s !! t = Some y -> thread_ok s own ext t y;
  ei_nonneg o : 0 <= ext o;
  ei_ext o : 0 < ext o -> alive s o;
  ei_own t : t ∈ own -> is_Some (exthreads s !! t);
  ei_published t : t ∈ own -> published_thread_object s t;
  ei_plen : length (gExRuntimeProcessTable s) = Z.to_nat EX_RUNTIME_PROCESS_TABLE_CAPACITY;
  ei_tlen : length (gExRuntimeThreadTable s) = Z.to_nat EX_RUNTIME_THREAD_TABLE_CAPACITY;
  ei_ptab : Forall (pentry_ok s) (gExRuntimeProcessTable s);
  ei_ttab : Forall (tentry_ok s own) (gExRuntimeThreadTable s);
  ei_distinct : threads_distinct s;
  ei_pdistinct : processes_distinct s;
  ei_apart a x : processes s !! a = Some x -> exthreads s !! a = None;
  ei_allocated a : is_Some (processes s !! a) \/ is_Some (exthreads s !! a) -> allocated (Svc s) a;
}.

(** All reference counts are at most [n]. *)
Definition capped (n : Z) s : Prop :=
  forall o h, get_header o s = Ok h -> ReferenceCount h <= n.

(** ** Reading a well-formed state *)

Lemma get_process_ok s p x : get_process p s = Ok x <-> processes s !! p = Some x.
Proof. unfold get_process. destruct (processes s !! p); split; congruence. Qed.
Lemma get_thread_ok s t y : get_thread t s = Ok y <-> exthreads s !! t = Some y.
Proof. unfold get_thread. destruct (exthreads s !! t); split; congruence. Qed.

Lemma alive_header s o : alive s o -> exists h, get_header o s = Ok h.
Proof.
  destruct o; cbn; intros [x Hx].
  - rewrite (proj2 (get_process_ok s _ x) Hx). by eexists.
  - rewrite (proj2 (get_thread_ok s _ x) Hx). by eexists.
  - rewrite (proj2 (get_process_ok s _ x) Hx). by eexists.
Qed.

Lemma header_alive s o h : get_header o s = Ok h -> alive s o.
Proof.
  destruct o; cbn; unfold get_process, get_thread.
  - destruct (processes s !! p); [by eexists | done].
  - destruct (exthreads s !! t); [by eexists | done].
  - destruct (processes s !! p); [by eexists | done].
Qed.

Lemma header_type s own ext o h : ex_inv s own ext -> get_header o s = Ok h -> Type_ h = type_of o.
Proof.
  intros I. destruct o; cbn; unfold get_process, get_thread.
  - destruct (processes s !! p) as [x|] eqn:E; [|done]. intros [= <-]. by destruct (ei_processes _ _ _ I p x E).
  - destruct (exthreads s !! t) as [y|] eqn:E; [|done]. intros [= <-]. by destruct (ei_threads _ _ _ I t y E).
  - destruct (processes s !! p) as [x|] eqn:E; [|done]. intros [= <-]. by destruct (ei_processes _ _ _ I p x E).
Qed.

Lemma valid_type o : ExObjectIsValidType (type_of o) = true.
Proof. by destruct o. Qed.

(** A counted reference keeps the count above zero. *)
Lemma ext_refs s own ext o h : ex_inv s own ext -> get_header o s = Ok h -> ext o <= ReferenceCount h.
Proof.
  intros I. destruct o; cbn; unfold get_process, get_thread.
  - destruct (processes s !! p) as [x|] eqn:E; [|done]. intros [= <-]. destruct (ei_processes _ _ _ I p x E).
    rewrite pk_refs0. pose proof (handles_nonneg (ObjProcess p) x). pose proof (owners_nonneg p (exthreads s)).
    destruct (CompletionRetained x); simpl; lia.
  - destruct (exthreads s !! t) as [y|] eqn:E; [|done]. intros [= <-]. destruct (ei_threads _ _ _ I t y E).
    rewrite tk_refs0. unfold thread_handles. destruct (decide (t ∈ own)), (processes s !! Process y) as [x|];
      try pose proof (handles_nonneg (ObjThread t) x); lia.
  - destruct (processes s !! p) as [x|] eqn:E; [|done]. intros [= <-]. destruct (ei_processes _ _ _ I p x E).
    rewrite pk_crefs0. pose proof (handles_nonneg (ObjStdout p) x).
    destruct (negb (ReferenceCount (Header x) =? 0)); simpl; lia.
Qed.

(** ** Moves between the accounts *)

(** Replacing a live process structure. *)
Lemma inv_put_process s own ext ext' p x x' :
  ex_inv s own ext -> processes s !! p = Some x -> process_ok s ext' p x' ->
  (forall o, match o with ObjProcess q | ObjStdout q => q <> p | ObjThread _ => False end -> ext' o = ext o) ->
  (forall t y, exthreads s !! t = Some y -> Process y = p ->
     handles (ObjThread t) x' + ext' (ObjThread t) = handles (ObjThread t) x + ext (ObjThread t)) ->
  (forall t, (forall y, exthreads s !! t = Some y -> Process y <> p) -> ext' (ObjThread t) = ext (ObjThread t)) ->
  (forall o, 0 <= ext' o) ->
  (CompletionRetained x = true -> CompletionRetained x' = true \/
     (forall e, e ∈ gExRuntimeProcessTable s -> Active e = true -> Entry e <> p)) ->
  ex_inv (put_process p x' s) own ext'.
Proof.
  intros I Hx Hok Hext Hth Hth' Hnn Hret. destruct I.
  constructor; cbn [put_process set_processes processes exthreads gExRuntimeProcessTable gExRuntimeThreadTable Svc]; try done.
  - intros q z. rewrite lookup_insert. destruct (decide (p = q)) as [Hq|Hq].
    + intros [= <-]. subst q. destruct Hok. constructor; done.
    + intros Hz. specialize (ei_processes0 q z Hz). destruct ei_processes0. constructor; try done.
      * rewrite Hext by done. done.
      * rewrite Hext by done. done.
  - intros t y Hy. specialize (ei_threads0 t y Hy). destruct ei_threads0. constructor; try done.
    + destruct tk_proc0 as [|Hs]; [by left|]. right. cbn. rewrite lookup_insert. destruct (decide (p = Process y)); [by exists x' | exact Hs].
    + rewrite tk_refs0. unfold thread_handles. cbn. rewrite lookup_insert. destruct (decide (p = Process y)) as [Hq|Hq].
      * rewrite <- Hq, Hx. pose proof (Hth t y Hy (eq_sym Hq)). lia.
      * rewrite Hth'; [done|]. intros y' Hy'. congruence.
  - intros o Ho. assert (Hal : alive s o).
    { destruct o as [q|t|q]; cbn.
      - destruct (decide (q = p)) as [->|Hq]; [by eexists|]. apply (ei_ext0 (ObjProcess q)). by rewrite <- Hext.
      - destruct (exthreads s !! t) as [y|] eqn:E; [by eexists|].
        assert (Ht : 0 < ext (ObjThread t)) by (rewrite <- Hth'; [done | by intros y Hy; congruence]).
        apply ei_ext0 in Ht. cbn in Ht. rewrite E in Ht. done.
      - destruct (decide (q = p)) as [->|Hq]; [by eexists|]. apply (ei_ext0 (ObjStdout q)). by rewrite <- Hext. }
    destruct o; cbn in *; try done; rewrite lookup_insert; (destruct (decide (p = p0)); [by exists x' | done]).
  - rewrite Forall_forall in *. intros e He Hact. destruct (ei_ptab0 e He Hact) as (z & Hz & Hr). cbn.
    rewrite lookup_insert. destruct (decide (p = Entry e)) as [Hq|Hq].
    + subst p. exists x'. split; [done|]. rewrite Hx in Hz. injection Hz as <-.
      destruct Hr as [Hr|Hr]; [|by right]. destruct (Hret Hr) as [Hc|Hc]; [by left|]. by destruct (Hc e He Hact).
    + exists z. split; [done|]. done.
  - intros a z. rewrite lookup_insert. destruct (decide (p = a)) as [<-|]; [|apply ei_apart0].
    intros _. by apply (ei_apart0 p x).
  - intros a [Ha|Ha]; apply ei_allocated0; [|by right]. left. revert Ha. rewrite lookup_insert. destruct (decide (p = a)) as [Hq|Hq]; [|done].
    intros _. subst. by exists x.
Qed.

(** Replacing a live thread structure, its owner account included. *)
Lemma inv_put_thread s own own' ext ext' t y y' :
  ex_inv s own ext -> exthreads s !! t = Some y -> Process y' = Process y -> thread_ok s own' ext' t y' ->
  (forall o, o <> ObjThread t -> ext' o = ext o) -> (forall u, u ∈ own' <-> u ∈ own) ->
  0 <= ext' (ObjThread t) ->
  (forall e, e ∈ gExRuntimeThreadTable s -> Active e = true -> Entry e = t -> t ∈ own' /\ Thread y' = Thread y) ->
  ex_inv (put_thread t y' s) own' ext'.
Proof.
  intros I Hy Hpr Hok Hext Hown Hnn Htab. destruct I.
  assert (How : forall p, owners p (<[t := y']> (exthreads s)) = owners p (exthreads s)).
  { intros p. rewrite (owners_update p t y) by done. rewrite Hpr. lia. }
  assert (Hslot : forall p sl, slot_ok s p sl -> slot_ok (put_thread t y' s) p sl).
  { intros p sl [H1 H2]. split; [done|]. destruct (Object sl) as [[q|u|q]|]; try done.
    destruct H2 as (G & C & z & Hz & Hzp). split; [done|]. split; [done|]. cbn.
    destruct (decide (u = t)) as [->|Hu].
    - exists y'. rewrite lookup_insert_eq. rewrite Hy in Hz. injection Hz as <-. by rewrite Hpr.
    - exists z. by rewrite lookup_insert_ne. }
  constructor; cbn [put_thread set_exthreads processes exthreads gExRuntimeProcessTable gExRuntimeThreadTable Svc]; try done.
  - intros p x Hx. destruct (ei_processes0 p x Hx). constructor; try done.
    + cbn. by rewrite How, Hext.
    + by rewrite Hext.
    + eapply Forall_impl; [exact pk_slots0|]. intros sl. apply Hslot.
  - intros u z. rewrite lookup_insert. destruct (decide (t = u)) as [Hu|Hu].
    + intros [= <-]. subst u. destruct Hok. constructor; done.
    + intros Hz. specialize (ei_threads0 u z Hz). destruct ei_threads0. constructor; try done.
      rewrite tk_refs0, Hext by congruence. unfold thread_handles. cbn.
      destruct (decide (u ∈ own)) as [Hi|Hi], (decide (u ∈ own')) as [Hj|Hj]; try done;
        exfalso; [apply Hj, Hown | apply Hi, Hown]; done.
  - intros o. destruct (decide (o = ObjThread t)) as [->|Ho]; [done|]. by rewrite Hext.
  - intros o Ho. assert (Hal : alive s o).
    { destruct (decide (o = ObjThread t)) as [->|Hne]; [by eexists|]. apply ei_ext0. by rewrite <- Hext. }
    destruct o as [q|u|q]; cbn in *; try done. rewrite lookup_insert.
    destruct (decide (t = u)); [by exists y' | done].
  - intros u Hu. rewrite lookup_insert. destruct (decide (t = u)) as [|Hne]; [by exists y'|].
    apply ei_own0. by apply Hown.
  - intros u Hu. apply (ei_published0 u). by apply Hown.
  - rewrite Forall_forall in *. intros e He Hact. destruct (ei_ptab0 e He Hact) as (x & Hx & Hr). exists x.
    split; [done|]. destruct Hr as [|(e2 & z & H1 & H2 & H3 & H4)]; [by left|]. right.
    exists e2. cbn. destruct (decide (Entry e2 = t)) as [Heq|Hne].
    + exists y'. rewrite Heq, lookup_insert_eq. split_and!; try done. rewrite Hpr.
      rewrite Heq, Hy in H3. by injection H3 as ->.
    + exists z. by rewrite lookup_insert_ne.
  - rewrite Forall_forall in *. intros e He Hact. destruct (ei_ttab0 e He Hact) as (Ho & z & Hz & H1 & H2 & H3). cbn.
    destruct (decide (Entry e = t)) as [Heq|Hne].
    + destruct (Htab e He Hact Heq) as [Hin Hth]. rewrite Heq in *. split; [done|]. exists y'.
      rewrite lookup_insert_eq, Hpr, Hth. rewrite Hy in Hz. injection Hz as <-. done.
    + split; [by apply Hown|]. exists z. by rewrite lookup_insert_ne.
  - intros i j e1 e2 y1 y2 H1 H2 H3 H4. cbn in *. rewrite !lookup_insert.
    assert (Hth : forall e z, e ∈ gExRuntimeThreadTable s -> Active e = true ->
      (if decide (t = Entry e) then Some y' else exthreads s !! Entry e) = Some z ->
      exists z', exthreads s !! Entry e = Some z' /\ Thread z' = Thread z).
    { intros e z He Hact. destruct (decide (t = Entry e)) as [Heq|]; [|by eauto].
      intros [= <-]. exists y. rewrite <- Heq. split; [done|]. symmetry. by apply (Htab e). }
    intros G1%Hth G2%Hth; [|by eapply list_elem_of_lookup_2|done|by eapply list_elem_of_lookup_2|done].
    destruct G1 as (z1 & Z1 & <-), G2 as (z2 & Z2 & <-). by apply (ei_distinct0 i j e1 e2 z1 z2).
  - intros a z Hz. pose proof (ei_apart0 a z Hz). rewrite lookup_insert_ne; [done|]. intros <-. congruence.
  - intros a [Ha|Ha]; apply ei_allocated0; [by left|]. right. revert Ha. rewrite lookup_insert.
    destruct (decide (t = a)) as [<-|]; [|done]. intros _. by exists y.
Qed.

(** A world that moved on. *)
Lemma inv_svc s own ext w : ex_inv s own ext -> evolves (Svc s) w -> ex_inv (set_Svc w s) own ext.
Proof.
  intros I [E1 E2]. destruct I. constructor; cbn; try done.
  - intros p x Hx. destruct (ei_processes0 p x Hx). by constructor.
  - intros t y Hy. destruct (ei_threads0 t y Hy). by constructor.
  - eapply Forall_impl; [exact ei_ttab0|]. intros e He Hact. destruct (He Hact) as (H1 & y & H2 & H3 & H4 & H5).
    split; [done|]. exists y. split_and!; try done. by apply E2.
  - intros a Ha. by apply E1, ei_allocated0.
Qed.

(** Freeing a process nobody refers to any more. *)
Lemma inv_delete_process s own ext p x w :
  ex_inv s own ext -> processes s !! p = Some x -> ReferenceCount (Header x) = 0 -> ReferenceCount (StdoutHeader x) = 0 ->
  (forall b, b <> p -> allocated (Svc s) b -> allocated w b) ->
  (forall kt, is_Some (kernel_thread kt (Svc s)) -> is_Some (kernel_thread kt w)) ->
  ex_inv (set_Svc w (set_processes (delete p (processes s)) s)) own ext.
Proof.
  intros I Hx Hr Hc Ha Hk. destruct I. pose proof (ei_processes0 p x Hx) as Hok. destruct Hok.
  pose proof (handles_nonneg (ObjProcess p) x). pose proof (owners_nonneg p (exthreads s)).
  pose proof (handles_nonneg (ObjStdout p) x). pose proof (ei_nonneg0 (ObjProcess p)). pose proof (ei_nonneg0 (ObjStdout p)).
  assert (Hcr : CompletionRetained x = false) by (destruct (CompletionRetained x); simpl in *; [lia | done]).
  rewrite Hcr in pk_refs0. rewrite Hr in pk_refs0, pk_crefs0. simpl in pk_refs0, pk_crefs0.
  assert (Hnown : forall t y, exthreads s !! t = Some y -> Process y <> p).
  { intros t y Hy Hp. pose proof (owners_pos p t y _ Hy Hp). lia. }
  constructor; cbn; try done.
  - intros q z. rewrite lookup_delete. destruct (decide (p = q)); [done|]. intros Hz.
    destruct (ei_processes0 q z Hz). by constructor.
  - intros t y Hy. pose proof (Hnown t y Hy). destruct (ei_threads0 t y Hy). constructor; try done.
    + destruct tk_proc0 as [|Hs]; [by left|]. right. cbn. by rewrite lookup_delete_ne.
    + rewrite tk_refs0. unfold thread_handles. cbn. by rewrite lookup_delete_ne.
  - intros o Ho. pose proof (ei_ext0 o Ho) as Hal. destruct o as [q|t|q]; cbn in *; try done;
      (rewrite lookup_delete_ne; [done|]; intros <-; lia).
  - rewrite Forall_forall in *. intros e He Hact. destruct (ei_ptab0 e He Hact) as (z & Hz & Hret).
    exists z. cbn. rewrite lookup_delete_ne; [done|]. intros E. rewrite <- E in *. rewrite Hx in Hz. injection Hz as <-.
    destruct Hret as [|(e2 & y & _ & _ & Hy2 & Hp2)]; [congruence|]. by apply (Hnown _ y Hy2).
  - eapply Forall_impl; [exact ei_ttab0|]. intros e He Hact. destruct (He Hact) as (T1 & y & T2 & T3 & T4 & T5).
    split; [done|]. exists y. split_and!; try done. by apply Hk.
  - intros a z. rewrite lookup_delete. destruct (decide (p = a)); [done | apply ei_apart0].
  - intros a Hal. rewrite lookup_delete in Hal. destruct (decide (p = a)) as [<-|Hne].
    + pose proof (ei_apart0 p x Hx). destruct Hal as [[? ?]|[? ?]]; congruence.
    + apply Ha; [done|]. by apply ei_allocated0.
Qed.

(** Freeing a thread nobody refers to any more; it drops its process. *)
Lemma inv_delete_thread s own ext t y w :
  ex_inv s own ext -> exthreads s !! t = Some y -> thread_handles s t y = 0 -> t ∉ own ->
  (forall b, b <> t -> allocated (Svc s) b -> allocated w b) ->
  (forall kt, is_Some (kernel_thread kt (Svc s)) -> is_Some (kernel_thread kt w)) ->
  (forall ext', (forall o, ext' o = if decide (o = ObjThread t) then 0 else
      if decide (o = ObjProcess (Process y) /\ Process y <> 0) then ext o + 1 else ext o) ->
  ex_inv (set_Svc w (set_exthreads (delete t (exthreads s)) s)) own ext').
Proof.
  intros I Hy Hh Hown Ha Hk ext' Hext. destruct I. pose proof (ei_threads0 t y Hy) as Hok. destruct Hok.
  assert (Hslot : forall p x sl, processes s !! p = Some x -> sl ∈ HandleTable x -> slot_ok s p sl ->
            slot_ok (set_Svc w (set_exthreads (delete t (exthreads s)) s)) p sl).
  { intros p x sl Hx Hin [H1 H2]. split; [done|]. destruct (Object sl) as [[q|u|q]|] eqn:Eo; try done.
    destruct H2 as (G & C & z & Hz & Hzp). split; [done|]. split; [done|]. cbn. exists z.
    rewrite lookup_delete_ne; [done|]. intros <-. rewrite Hy in Hz. injection Hz as <-. subst p.
    unfold thread_handles in Hh. rewrite Hx in Hh. by apply (handles_zero _ _ Hh sl Hin). }
  assert (Hntab : forall e, e ∈ gExRuntimeThreadTable s -> Active e = true -> Entry e <> t).
  { intros e He Hact <-. rewrite Forall_forall in ei_ttab0. destruct (ei_ttab0 e He Hact) as [? _]. done. }
  constructor; cbn; try done.
  - intros p x Hx. pose proof (ei_processes0 p x Hx) as Hp. destruct Hp. constructor; try done.
    + cbn. rewrite (owners_delete p t y) by done. destruct (decide (Process y = p)) as [Hp|Hp].
      * rewrite Hext, decide_False, decide_True by (try split; congruence). lia.
      * rewrite Hext, !decide_False by (try congruence; intros [? ?]; congruence). lia.
    + rewrite Hext, !decide_False by (try congruence; intros [? ?]; congruence). done.
    + rewrite Forall_forall in *. intros sl Hin. apply (Hslot p x); [done | done | by apply pk_slots0].
  - intros u z. rewrite lookup_delete. destruct (decide (t = u)) as [|Hu]; [done|]. intros Hz.
    destruct (ei_threads0 u z Hz). constructor; try done.
    assert (Hu' : ext' (ObjThread u) = ext (ObjThread u)).
    { rewrite Hext, !decide_False; [done | intros [? ?]; congruence | congruence]. }
    by rewrite Hu'.
  - intros o. rewrite Hext. pose proof (ei_nonneg0 o). destruct (decide (o = ObjThread t)); [lia|].
    destruct (decide (o = ObjProcess (Process y) /\ Process y <> 0)); lia.
  - intros o. rewrite Hext. destruct (decide (o = ObjThread t)) as [|Ho]; [lia|].
    destruct (decide (o = ObjProcess (Process y) /\ Process y <> 0)) as [[-> Hpz]|].
    + intros _. cbn. destruct tk_proc0; done.
    + intros Hpos. pose proof (ei_ext0 o Hpos) as Hal. destruct o as [q|u|q]; cbn in *; try done.
      rewrite lookup_delete_ne; [done | congruence].
  - intros u Hu. rewrite lookup_delete_ne; [by apply ei_own0 | by intros ->].
  - rewrite Forall_forall in *. intros e He Hact. destruct (ei_ptab0 e He Hact) as (x & Hx & Hr). exists x.
    split; [done|]. destruct Hr as [|(e2 & z & H1' & H2' & H3 & H4)]; [by left|]. right.
    exists e2, z. cbn. rewrite lookup_delete_ne; [done|]. intros E. by apply (Hntab e2).
  - rewrite Forall_forall in *. intros e He Hact. destruct (ei_ttab0 e He Hact) as (H1' & z & H2' & H3 & H4 & H5).
    split; [done|]. exists z. cbn. rewrite lookup_delete_ne by (intros E; by apply (Hntab e)).
    split_and!; try done. by apply Hk.
  - intros i j e1 e2 y1 y2 G1 G2 G3 G4. cbn in *. rewrite !lookup_delete.
    destruct (decide (t = Entry e1)); [done|]. destruct (decide (t = Entry e2)); [done|].
    by apply (ei_distinct0 i j e1 e2 y1 y2).
  - intros a z Hz. rewrite lookup_delete. destruct (decide (t = a)); [done|]. by apply (ei_apart0 a z).
  - intros a Hal. rewrite lookup_delete in Hal. destruct (decide (t = a)) as [<-|Hne].
    + destruct Hal as [[? E]|[? ?]]; [|congruence]. pose proof (ei_apart0 _ _ E). congruence.
    + apply Ha; [done|]. by apply ei_allocated0.
Qed.
End invariant.
