(* ===== verification/ExRefs.v ===== *)
(** * Taking and dropping references

    [ExObjectRetain], [ExObjectRelease] with its destroy routines, and the
    handle-slot updates, each as a move between the accounts of [ExInv.v]. *)

From S2P Require Import Prelude Ex ExInv.

Local Open Scope Z_scope.

Section refs.
Context {W : Type} `{ExLaws W}.
Implicit Types (s : EX W) (p t kt : Z) (o : EX_OBJECT) (x : EX_PROCESS) (y : EX_THREAD)
  (own : gset Z) (ext : EX_OBJECT -> Z).

(** A process whose completion is retained is not freed. *)
Definition survivors s s' : Prop :=
  forall p x, processes s !! p = Some x -> CompletionRetained x = true -> is_Some (processes s' !! p).

(** From [s] to [s'] only reference counts moved and structures died. *)
Definition refs_only s s' : Prop :=
  (forall p x', processes s' !! p = Some x' -> exists x, processes s !! p = Some x /\
     x' = set_Header (Header x') (set_StdoutHeader (StdoutHeader x') x)) /\
  (forall t y', exthreads s' !! t = Some y' -> exists y, exthreads s !! t = Some y /\
     y' = set_tHeader (tHeader y') y) /\
  gExRuntimeProcessTable s' = gExRuntimeProcessTable s /\
  gExRuntimeThreadTable s' = gExRuntimeThreadTable s /\
  gNextRuntimeProcessId s' = gNextRuntimeProcessId s /\
  survivors s s' /\
  (forall kt, is_Some (kernel_thread kt (Svc s)) -> is_Some (kernel_thread kt (Svc s'))).

Lemma refs_only_refl s : refs_only s s.
Proof.
  split; [|split; [|split_and!; try done]].
  - intros p x Hx. exists x. split; [done|]. by destruct x.
  - intros t y Hy. exists y. split; [done|]. by destruct y.
  - intros p x Hx _. by exists x.
Qed.

Lemma refs_only_trans s1 s2 s3 : refs_only s1 s2 -> refs_only s2 s3 -> refs_only s1 s3.
Proof.
  intros (A1 & A2 & A3 & A4 & A5 & A6 & A7) (B1 & B2 & B3 & B4 & B5 & B6 & B7).
  split; [|split; [|split_and!; try congruence]].
  - intros p x3 H3. destruct (B1 p x3 H3) as (x2 & H2 & E2). destruct (A1 p x2 H2) as (x1 & H1' & E1).
    exists x1. split; [done|]. rewrite E2, E1. by destruct x1.
  - intros t y3 H3. destruct (B2 t y3 H3) as (y2 & H2 & E2). destruct (A2 t y2 H2) as (y1 & H1' & E1).
    exists y1. split; [done|]. rewrite E2, E1. by destruct y1.
  - intros p x1 Hx Hr. destruct (A6 p x1 Hx Hr) as [x2 Hx2]. apply (B6 p x2 Hx2).
    destruct (A1 p x2 Hx2) as (z & Hz & ->). rewrite Hx in Hz. by injection Hz as <-.
  - intros kt Hk. by apply B7, A7.
Qed.

(** Fields that reference counting does not touch. *)
Lemma refs_only_process s s' p x' : refs_only s s' -> processes s' !! p = Some x' ->
  exists x, processes s !! p = Some x /\ HandleTable x' = HandleTable x /\
    CompletionRetained x' = CompletionRetained x /\ State x' = State x /\ ProcessId x' = ProcessId x.
Proof. intros (A & _) Hx. destruct (A p x' Hx) as (x & Hx0 & ->). by exists x. Qed.

Lemma survivors_put s p x : survivors s (put_process p x s).
Proof. intros q z Hz _. cbn. rewrite lookup_insert. destruct (decide (p = q)); by eexists. Qed.

Lemma survivors_same s s' : processes s' = processes s -> survivors s s'.
Proof. intros E p x Hx _. rewrite E. by exists x. Qed.

Lemma refs_only_put_header s o h : alive s o -> exists s', put_header o h s = Ok s' /\ refs_only s s'.
Proof.
  destruct o as [p|t|p]; intros [x Hx]; cbn; unfold upd_process, upd_thread, get_process, get_thread; rewrite Hx;
    eexists; (split; [done|]); cbn.
  - split; [|split; [|split; [done|split; [done|split; [done|split; [apply survivors_put|done]]]]]]; cbn.
    + intros q z. rewrite lookup_insert. destruct (decide (p = q)) as [<-|].
      * intros [= <-]. exists x. split; [done|]. by destruct x.
      * intros Hz. exists z. split; [done|]. by destruct z.
    + intros u z Hz. exists z. split; [done|]. by destruct z.
  - split; [|split; [|split; [done|split; [done|split; [done|split; [by apply survivors_same|done]]]]]]; cbn.
    + intros q z Hz. exists z. split; [done|]. by destruct z.
    + intros q z. rewrite lookup_insert. destruct (decide (t = q)) as [<-|].
      * intros [= <-]. exists x. split; [done|]. by destruct x.
      * intros Hz. exists z. split; [done|]. by destruct z.
  - split; [|split; [|split; [done|split; [done|split; [done|split; [apply survivors_put|done]]]]]]; cbn.
    + intros q z. rewrite lookup_insert. destruct (decide (p = q)) as [<-|].
      * intros [= <-]. exists x. split; [done|]. by destruct x.
      * intros Hz. exists z. split; [done|]. by destruct z.
    + intros u z Hz. exists z. split; [done|]. by destruct z.
Qed.

Lemma get_put_header s o h s' : put_header o h s = Ok s' -> forall o', alive s o' ->
  get_header o' s' = if decide (o' = o) then Ok h else get_header o' s.
Proof.
  intros E o' Hal. destruct o as [p|t|p]; cbn in E; unfold upd_process, upd_thread, get_process, get_thread in E.
  - destruct (processes s !! p) as [x|] eqn:Ex; [|done]. cbn in E. injection E as <-.
    destruct o' as [q|u|q]; cbn; unfold get_process, get_thread; cbn; [| by rewrite decide_False | ];
      rewrite lookup_insert; destruct (decide (p = q)) as [<-|Hq].
    + by rewrite decide_True.
    + by rewrite decide_False by congruence.
    + by rewrite Ex, decide_False by congruence.
    + by rewrite decide_False by congruence.
  - destruct (exthreads s !! t) as [x|] eqn:Ex; [|done]. cbn in E. injection E as <-.
    destruct o' as [q|u|q]; cbn; unfold get_process, get_thread; cbn; [by rewrite decide_False | | by rewrite decide_False].
    rewrite lookup_insert. destruct (decide (t = u)) as [<-|Hq].
    + by rewrite decide_True.
    + by rewrite decide_False by congruence.
  - destruct (processes s !! p) as [x|] eqn:Ex; [|done]. cbn in E. injection E as <-.
    destruct o' as [q|u|q]; cbn; unfold get_process, get_thread; cbn; [| by rewrite decide_False | ];
      rewrite lookup_insert; destruct (decide (p = q)) as [<-|Hq].
    + by rewrite Ex, decide_False by congruence.
    + by rewrite decide_False by congruence.
    + by rewrite decide_True.
    + by rewrite decide_False by congruence.
Qed.

Lemma put_header_alive s o h s' o' : put_header o h s = Ok s' -> alive s' o' -> alive s o'.
Proof.
  intros E. destruct o as [p|t|p]; cbn in E; unfold upd_process, upd_thread, get_process, get_thread in E.
  - destruct (processes s !! p) as [x|] eqn:Ex; [|done]. cbn in E. injection E as <-.
    destruct o' as [q|u|q]; cbn; try done; rewrite lookup_insert; destruct (decide (p = q)) as [<-|]; try done; by eexists.
  - destruct (exthreads s !! t) as [x|] eqn:Ex; [|done]. cbn in E. injection E as <-.
    destruct o' as [q|u|q]; cbn; try done; rewrite lookup_insert; destruct (decide (t = u)) as [<-|]; try done; by eexists.
  - destruct (processes s !! p) as [x|] eqn:Ex; [|done]. cbn in E. injection E as <-.
    destruct o' as [q|u|q]; cbn; try done; rewrite lookup_insert; destruct (decide (p = q)) as [<-|]; try done; by eexists.
Qed.

Lemma capped_put_header n s o h s' : capped n s -> put_header o h s = Ok s' -> ReferenceCount h <= n -> capped n s'.
Proof.
  intros Hc E Hh o' h' E'. pose proof (put_header_alive s o h s' o' E (header_alive s' o' h' E')) as Hal.
  rewrite (get_put_header s o h s' E o' Hal) in E'. destruct (decide (o' = o)).
  - by injection E' as <-.
  - by apply (Hc o').
Qed.

Lemma capped_weaken n n' s : n <= n' -> capped n s -> capped n' s.
Proof. intros Hn Hc o h E. specialize (Hc o h E). lia. Qed.

(** Changing the count of a header by [d] together with the outside account. *)
Lemma inv_count s own ext o h d s' : ex_inv s own ext -> get_header o s = Ok h ->
  put_header o (set_ReferenceCount (ReferenceCount h + d) h) s = Ok s' ->
  0 <= ext o + d -> ReferenceCount h <> 0 ->
  match o with ObjStdout _ => True | _ => 0 < ReferenceCount h + d end ->
  ex_inv s' own (move o d ext).
Proof.
  intros I Eh E Hd Hnz Hpos. destruct o as [p|t|p]; cbn in Eh, E; unfold upd_process, upd_thread, get_process, get_thread in *.
  - destruct (processes s !! p) as [x|] eqn:Ex; [|done]. cbn in Eh, E. injection Eh as <-. injection E as <-.
    eapply inv_put_process; [exact I | exact Ex | | | | | |].
    + pose proof (ei_processes _ _ _ I p x Ex) as Hok. destruct Hok. constructor; try done; cbn.
      * rewrite move_here. unfold handles in *. cbn. lia.
      * rewrite move_other by congruence. unfold handles in *. cbn. rewrite pk_crefs.
        rewrite (proj2 (Z.eqb_neq (ReferenceCount (Header x)) 0)) by done.
        rewrite (proj2 (Z.eqb_neq (ReferenceCount (Header x) + d) 0)) by lia. done.
    + intros [q|u|q] Hq; try done; apply move_other; congruence.
    + intros u z Hz Hp. rewrite move_other by congruence. unfold handles. cbn. lia.
    + intros u _. apply move_other; congruence.
    + intros o. unfold move. pose proof (ei_nonneg _ _ _ I o). destruct (decide _) as [->|]; lia.
    + cbn. by left.
  - destruct (exthreads s !! t) as [y|] eqn:Ey; [|done]. cbn in Eh, E. injection Eh as <-. injection E as <-.
    eapply inv_put_thread; [exact I | exact Ey | done | | | done | |].
    + pose proof (ei_threads _ _ _ I t y Ey) as Hok. destruct Hok. constructor; try done; cbn.
      rewrite move_here, tk_refs. unfold thread_handles. cbn. lia.
    + intros o Ho. apply move_other; congruence.
    + rewrite move_here. lia.
    + intros e He Hact Ht. split; [|done]. pose proof (ei_ttab _ _ _ I) as Htt. rewrite Forall_forall in Htt.
      destruct (Htt e He Hact) as [Hin _]. by rewrite <- Ht.
  - destruct (processes s !! p) as [x|] eqn:Ex; [|done]. cbn in Eh, E. injection Eh as <-. injection E as <-.
    eapply inv_put_process; [exact I | exact Ex | | | | | |].
    + pose proof (ei_processes _ _ _ I p x Ex) as Hok. destruct Hok. constructor; try done; cbn.
      rewrite move_here. unfold handles in *. cbn. lia.
    + intros [q|u|q] Hq; try done; apply move_other; congruence.
    + intros u z Hz Hp. rewrite move_other by congruence. unfold handles. cbn. lia.
    + intros u _. apply move_other; congruence.
    + intros o. unfold move. pose proof (ei_nonneg _ _ _ I o). destruct (decide _) as [->|]; lia.
    + cbn. by left.
Qed.

(** ** Retain *)

Lemma retain_run s own ext n o : ex_inv s own ext -> capped n s -> n + 1 < 2 ^ 32 -> alive s o ->
  exists st s', ExObjectRetain (Some o) (type_of o) s = Ok (st, s') /\
    ((st = EC_SUCCESS /\ ex_inv s' own (move o 1 ext) /\ capped (n + 1) s' /\ refs_only s s')
     \/ (st = EC_INVALID_STATE /\ s' = s /\ ext o = 0)).
Proof.
  intros I Hc Hn Hal. destruct (alive_header s o Hal) as (h & Eh). unfold ExObjectRetain.
  rewrite valid_type, Eh. cbn [negb res_bind]. rewrite (header_type s own ext o h I Eh), bool_decide_true by done.
  cbn [negb orb]. pose proof (ext_refs s own ext o h I Eh) as He. pose proof (ei_nonneg _ _ _ I o) as H0'.
  destruct (Z.eqb_spec (ReferenceCount h) 0) as [Hz|Hz].
  - eexists _, s. split; [done|]. right. split_and!; try done. lia.
  - pose proof (Hc o h Eh). rewrite u32_small by (unfold is_u32; lia).
    destruct (refs_only_put_header s o (set_ReferenceCount (ReferenceCount h + 1) h) Hal) as (s' & E & R).
    rewrite E. cbn [res_bind]. eexists _, s'. split; [done|]. left. split; [done|]. split; [|split; [|done]].
    + eapply inv_count; [exact I | exact Eh | exact E | lia | done |]. destruct o; [lia | lia | done].
    + eapply capped_put_header; [eapply capped_weaken; [|exact Hc]; lia | exact E | cbn; lia].
Qed.

(** With a reference in hand a retain succeeds. *)
Lemma retain_held s own ext n o : ex_inv s own ext -> capped n s -> n + 1 < 2 ^ 32 -> 0 < ext o ->
  exists s', ExObjectRetain (Some o) (type_of o) s = Ok (EC_SUCCESS, s') /\
    ex_inv s' own (move o 1 ext) /\ capped (n + 1) s' /\ refs_only s s'.
Proof.
  intros I Hc Hn He. destruct (retain_run s own ext n o I Hc Hn (ei_ext _ _ _ I o He)) as (st & s' & E & R).
  exists s'. destruct R as [(-> & R)|(_ & _ & Hz)]; [done | lia].
Qed.

(** ** Release *)

Lemma inv_ext_eq s own ext ext' : (forall o, ext' o = ext o) -> ex_inv s own ext -> ex_inv s own ext'.
Proof.
  intros E I. destruct I. constructor; try done.
  - intros p x Hx. destruct (ei_processes p x Hx). constructor; try done; by rewrite E.
  - intros t y Hy. destruct (ei_threads t y Hy). constructor; try done; by rewrite E.
  - intros o. by rewrite E.
  - intros o. rewrite E. apply ei_ext.
Qed.

Lemma move_cancel o d ext o' : move o (- d) (move o d ext) o' = ext o'.
Proof. unfold move. destruct (decide (o' = o)); lia. Qed.

Lemma move_comm o1 o2 d1 d2 ext o : move o1 d1 (move o2 d2 ext) o = move o2 d2 (move o1 d1 ext) o.
Proof. unfold move. destruct (decide (o = o1)), (decide (o = o2)); lia. Qed.

Lemma release_unfold d o ty s : ExObjectRelease_ (S d) o ty s =
  if negb (ExObjectIsValidType ty) then Ok (EC_INVALID_STATE, 0, s) else
  let* h := get_header o s in
  if negb (bool_decide (Type_ h = ty)) || (ReferenceCount h =? 0) then Ok (EC_INVALID_STATE, 0, s) else
  let* s := put_header o (set_ReferenceCount (ReferenceCount h - 1) h) s in
  if ReferenceCount h - 1 =? 0 then
    match DestroyRoutine h with
    | None => Ok (EC_SUCCESS, ReferenceCount h - 1, s)
    | Some DestroyProcessRoutine =>
        let* (status, s) := KiDestroyProcessObject (ExObjectRelease_ d) o s in Ok (status, ReferenceCount h - 1, s)
    | Some DestroyThreadRoutine =>
        let* (status, s) := KiDestroyThreadObject (ExObjectRelease_ d) o s in Ok (status, ReferenceCount h - 1, s)
    | Some DestroyStdoutRoutine =>
        let* (status, s) := KiDestroyStdoutServiceObject o s in Ok (status, ReferenceCount h - 1, s)
    end
  else Ok (EC_SUCCESS, ReferenceCount h - 1, s).
Proof. done. Qed.

Lemma release_stdout_run d s own ext n p : ex_inv s own ext -> capped n s -> 0 < ext (ObjStdout p) ->
  exists rem s' x x', ExObjectRelease_ (S d) (ObjStdout p) EX_OBJECT_TYPE_CONSOLE s = Ok (EC_SUCCESS, rem, s') /\
    ex_inv s' own (move (ObjStdout p) (-1) ext) /\ capped n s' /\ refs_only s s' /\
    processes s !! p = Some x /\ processes s' = <[p := x']> (processes s) /\ exthreads s' = exthreads s /\
    Svc s' = Svc s /\ Header x' = Header x /\ ReferenceCount (StdoutHeader x') = rem.
Proof.
  intros I Hc He. destruct (ei_ext _ _ _ I _ He) as [x Hx].
  assert (Eh : get_header (ObjStdout p) s = Ok (StdoutHeader x)) by (cbn; unfold get_process; by rewrite Hx).
  pose proof (ext_refs s own ext _ _ I Eh) as Hr. pose proof (ei_processes _ _ _ I p x Hx) as Hok. destruct Hok.
  rewrite release_unfold. cbn [ExObjectIsValidType negb]. rewrite Eh. cbn [res_bind].
  rewrite pk_ctype, bool_decide_true by done. rewrite (proj2 (Z.eqb_neq _ 0)) by lia. cbn [negb orb].
  replace (ReferenceCount (StdoutHeader x) - 1) with (ReferenceCount (StdoutHeader x) + -1) by lia.
  set (h' := set_ReferenceCount _ _). set (s' := put_process p (set_StdoutHeader h' x) s).
  assert (E : put_header (ObjStdout p) h' s = Ok s') by (cbn; unfold upd_process, get_process; by rewrite Hx).
  assert (I' : ex_inv s' own (move (ObjStdout p) (-1) ext)).
  { eapply inv_count; [exact I | exact Eh | exact E | lia | lia | done]. }
  assert (C' : capped n s').
  { eapply capped_put_header; [exact Hc | exact E |]. cbn. specialize (Hc _ _ Eh). lia. }
  destruct (refs_only_put_header s (ObjStdout p) h') as (s2 & E2 & R); [by exists x|]. rewrite E in E2. injection E2 as <-.
  rewrite E. cbn [res_bind]. exists (ReferenceCount (StdoutHeader x) + -1), s', x, (set_StdoutHeader h' x).
  split; [|split_and!; done].
  destruct (ReferenceCount (StdoutHeader x) + -1 =? 0); [|done]. rewrite pk_cdestroy.
  unfold KiDestroyStdoutServiceObject. cbn. unfold get_process. cbn. rewrite lookup_insert_eq. cbn.
  by rewrite pk_ctype, bool_decide_true.
Qed.

(** The last reference to a process also gives up its console service. *)
Lemma inv_last_process s own ext p x : ex_inv s own ext -> processes s !! p = Some x ->
  0 < ext (ObjProcess p) -> ReferenceCount (Header x) = 1 ->
  ex_inv (put_process p (set_Header (set_ReferenceCount 0 (Header x)) x) s) own
    (move (ObjStdout p) 1 (move (ObjProcess p) (-1) ext)).
Proof.
  intros I Hx He H1. eapply inv_put_process; [exact I | exact Hx | | | | | |].
  - pose proof (ei_processes _ _ _ I p x Hx) as Hok. destruct Hok. constructor; try done; cbn.
    + rewrite move_other, move_here by congruence. unfold handles in *. cbn. lia.
    + rewrite move_here, move_other by congruence. rewrite pk_crefs, H1. unfold handles. cbn. lia.
  - intros [q|u|q] Hq; try done; rewrite !move_other by congruence; done.
  - intros u z Hz Hp. rewrite !move_other by congruence. unfold handles. cbn. lia.
  - intros u _. by rewrite !move_other by congruence.
  - intros o. pose proof (ei_nonneg _ _ _ I o). unfold move.
    destruct (decide (o = ObjStdout p)) as [->|]; [rewrite decide_False by congruence; lia|].
    destruct (decide (o = ObjProcess p)) as [->|]; lia.
  - cbn. by left.
Qed.

Lemma release_process_run d s own ext n p : ex_inv s own ext -> capped n s -> 0 < ext (ObjProcess p) ->
  exists st rem s' x, ExObjectRelease_ (S (S d)) (ObjProcess p) EX_OBJECT_TYPE_PROCESS s = Ok (st, rem, s') /\
    ex_inv s' own (move (ObjProcess p) (-1) ext) /\ capped n s' /\ refs_only s s' /\
    exthreads s' = exthreads s /\ (forall q, q <> p -> processes s' !! q = processes s !! q) /\
    processes s !! p = Some x /\ rem = ReferenceCount (Header x) - 1 /\
    (if rem =? 0
     then (st = EC_SUCCESS /\ processes s' !! p = None /\ handles (ObjStdout p) x = 0)
          \/ (st = EC_INVALID_STATE /\ is_Some (processes s' !! p) /\ 0 < handles (ObjStdout p) x + ext (ObjStdout p))
     else st = EC_SUCCESS /\ is_Some (processes s' !! p)).
Proof.
  intros I Hc He. destruct (ei_ext _ _ _ I _ He) as [x Hx].
  assert (Eh : get_header (ObjProcess p) s = Ok (Header x)) by (cbn; unfold get_process; by rewrite Hx).
  pose proof (ext_refs s own ext _ _ I Eh) as Hr. pose proof (ei_processes _ _ _ I p x Hx) as Hok. destruct Hok.
  rewrite release_unfold. cbn [ExObjectIsValidType negb]. rewrite Eh. cbn [res_bind].
  rewrite pk_type, bool_decide_true by done. rewrite (proj2 (Z.eqb_neq _ 0)) by lia. cbn [negb orb].
  set (rem := ReferenceCount (Header x) - 1). set (h' := set_ReferenceCount rem (Header x)).
  set (s1 := put_process p (set_Header h' x) s).
  assert (E : put_header (ObjProcess p) h' s = Ok s1) by (cbn; unfold upd_process, get_process; by rewrite Hx).
  assert (C1 : capped n s1).
  { eapply capped_put_header; [exact Hc | exact E |]. cbn. specialize (Hc _ _ Eh). lia. }
  destruct (refs_only_put_header s (ObjProcess p) h') as (s2 & E2 & R1); [by exists x|]. rewrite E in E2. injection E2 as <-.
  rewrite E. cbn [res_bind]. rewrite pk_destroy.
  destruct (Z.eqb_spec rem 0) as [Hz|Hz].
  - assert (I1 : ex_inv s1 own (move (ObjStdout p) 1 (move (ObjProcess p) (-1) ext))).
    { unfold s1, h'. rewrite Hz. apply inv_last_process; [done | done | done | lia]. }
    unfold KiDestroyProcessObject. assert (Eh1 : get_header (ObjProcess p) s1 = Ok h').
    { cbn. unfold get_process, s1. cbn. by rewrite lookup_insert_eq. }
    rewrite Eh1. cbn [res_bind]. rewrite (bool_decide_true (Type_ h' = _)) by done.
    cbn [negb]. unfold ExRuntimeReleaseStdoutServiceOwner_. rewrite (proj2 (Z.eqb_neq p 0)) by done.
    destruct (release_stdout_run d s1 own _ n p I1 C1) as (rem2 & s2 & x1 & x2 & -> & I2 & C2 & R2 & G1 & G2 & G3 & G4 & G5 & G6).
    { rewrite move_here. pose proof (ei_nonneg _ _ _ I (ObjStdout p)). rewrite move_other by congruence. lia. }
    cbn [res_bind]. rewrite bool_decide_true by done. cbn [negb].
    assert (Hx1 : x1 = set_Header h' x).
    { unfold s1 in G1. cbn in G1. rewrite lookup_insert_eq in G1. by injection G1. }
    assert (I2' : ex_inv s2 own (move (ObjProcess p) (-1) ext)).
    { eapply inv_ext_eq; [|exact I2]. intros o. symmetry. apply (move_cancel (ObjStdout p) 1). }
    assert (Hx2 : processes s2 !! p = Some x2) by (by rewrite G2, lookup_insert_eq).
    assert (H2h : Header x2 = h') by (by rewrite G5, Hx1).
    assert (Hrem2 : rem2 = handles (ObjStdout p) x + ext (ObjStdout p)).
    { pose proof (ei_processes _ _ _ I2' p x2 Hx2) as [_ _ _ _ _ _ _ _ Hcr _]. rewrite G6, H2h in Hcr. rewrite Hcr.
      unfold h'. cbn [ReferenceCount set_ReferenceCount]. rewrite Hz. rewrite move_other by congruence.
      destruct (refs_only_process s1 s2 p x2 R2 Hx2) as (z & Hz' & HT & _). rewrite G1 in Hz'. injection Hz' as <-.
      unfold handles. rewrite HT, Hx1. cbn. lia. }
    assert (Hq2 : forall q, q <> p -> processes s2 !! q = processes s !! q).
    { intros q Hq. rewrite G2. unfold s1. cbn. by rewrite !lookup_insert_ne. }
    pose proof (handles_nonneg (ObjStdout p) x). pose proof (ei_nonneg _ _ _ I (ObjStdout p)).
    destruct (Z.eqb_spec rem2 0) as [Hz2|Hz2].
    + cbn [negb res_bind bool_decide].
      eexists EC_SUCCESS, rem, _, x. split; [done|].
      destruct (kfree_law p (Svc s2)) as [K1 K2].
      split; [|split; [|split; [|split; [|split; [|split; [done|split; [done|]]]]]]].
      * eapply inv_delete_process; [exact I2' | exact Hx2 | by rewrite H2h | by rewrite G6 | done | done].
      * intros o h Eo. apply (C2 o h). revert Eo. destruct o as [q|u|q]; cbn; unfold get_process, get_thread; cbn;
          try done; rewrite lookup_delete; by destruct (decide (p = q)).
      * eapply refs_only_trans; [exact R1|]. eapply refs_only_trans; [exact R2|].
        split; [|split; [|split; [done|split; [done|split; [done|split; [|done]]]]]]; cbn.
        -- intros q z. rewrite lookup_delete. destruct (decide (p = q)); [done|]. intros Hzq. exists z. split; [done|]. by destruct z.
        -- intros u z Hzu. exists z. split; [done|]. by destruct z.
        -- intros q z Hzq Hret. cbn. rewrite lookup_delete. destruct (decide (p = q)) as [<-|]; [|by exists z].
           pose proof (ei_processes _ _ _ I2' p x2 Hx2) as [_ _ _ _ _ _ _ Hp2 _ _].
           rewrite Hx2 in Hzq. injection Hzq as <-. rewrite Hret in Hp2. rewrite H2h in Hp2. cbn in Hp2.
           pose proof (handles_nonneg (ObjProcess p) x2). pose proof (owners_nonneg p (exthreads s2)).
           pose proof (ei_nonneg _ _ _ I2' (ObjProcess p)). lia.
      * cbn. rewrite G3. done.
      * intros q Hq. cbn. rewrite lookup_delete_ne by done. by apply Hq2.
      * rewrite (proj2 (Z.eqb_eq rem 0) Hz). left. split_and!; [done | cbn; apply lookup_delete_eq | lia].
    + cbn [negb res_bind bool_decide].
      eexists EC_INVALID_STATE, rem, s2, x. split; [done|]. split_and!; try done.
      * by eapply refs_only_trans.
      * rewrite (proj2 (Z.eqb_eq rem 0) Hz). right. split_and!; [done | by exists x2 | lia].
  - exists EC_SUCCESS, rem, s1, x. split; [done|]. split_and!; try done.
    + eapply inv_count; [exact I | exact Eh | | lia | lia |].
      * replace (ReferenceCount (Header x) + -1) with rem by lia. exact E.
      * unfold rem in *. lia.
    + intros q Hq. unfold s1. cbn. by rewrite lookup_insert_ne.
    + rewrite (proj2 (Z.eqb_neq rem 0) Hz). split; [done|]. unfold s1. cbn. rewrite lookup_insert_eq. by eexists.
Qed.

Lemma refs_only_delete_thread s t w :
  (forall kt, is_Some (kernel_thread kt (Svc s)) -> is_Some (kernel_thread kt w)) ->
  refs_only s (set_Svc w (set_exthreads (delete t (exthreads s)) s)).
Proof.
  intros Hk. split; [|split; [|split; [done|split; [done|split; [done|split; [by apply survivors_same|done]]]]]]; cbn.
  - intros q z Hz. exists z. split; [done|]. by destruct z.
  - intros u z. rewrite lookup_delete. destruct (decide (t = u)); [done|]. intros Hz. exists z.
    split; [done|]. by destruct z.
Qed.

Lemma capped_delete_thread n s t w : capped n s -> capped n (set_Svc w (set_exthreads (delete t (exthreads s)) s)).
Proof.
  intros Hc o h Eo. apply (Hc o h). revert Eo.
  destruct o as [q|u|q]; cbn; unfold get_process, get_thread; cbn; try done.
  rewrite lookup_delete. by destruct (decide (t = u)).
Qed.

Lemma release_thread_run d s own ext n t : ex_inv s own ext -> capped n s -> 0 < ext (ObjThread t) ->
  exists st rem s', ExObjectRelease_ (S (S (S d))) (ObjThread t) EX_OBJECT_TYPE_THREAD s = Ok (st, rem, s') /\
    ex_inv s' own (move (ObjThread t) (-1) ext) /\ capped n s' /\ refs_only s s'.
Proof.
  intros I Hc He. destruct (ei_ext _ _ _ I _ He) as [y Hy].
  assert (Eh : get_header (ObjThread t) s = Ok (tHeader y)) by (cbn; unfold get_thread; by rewrite Hy).
  pose proof (ext_refs s own ext _ _ I Eh) as Hr. pose proof (ei_threads _ _ _ I t y Hy) as Hok. destruct Hok.
  rewrite release_unfold. cbn [ExObjectIsValidType negb]. rewrite Eh. cbn [res_bind].
  rewrite tk_type, bool_decide_true by done. rewrite (proj2 (Z.eqb_neq _ 0)) by lia. cbn [negb orb].
  set (rem := ReferenceCount (tHeader y) - 1). set (h' := set_ReferenceCount rem (tHeader y)).
  set (s1 := put_thread t (set_tHeader h' y) s).
  assert (E : put_header (ObjThread t) h' s = Ok s1) by (cbn; unfold upd_thread, get_thread; by rewrite Hy).
  assert (C1 : capped n s1).
  { eapply capped_put_header; [exact Hc | exact E |]. cbn. specialize (Hc _ _ Eh). lia. }
  destruct (refs_only_put_header s (ObjThread t) h') as (s2 & E2 & R1); [by exists y|]. rewrite E in E2. injection E2 as <-.
  rewrite E. cbn [res_bind]. rewrite tk_destroy.
  destruct (Z.eqb_spec rem 0) as [Hz|Hz].
  2: { exists EC_SUCCESS, rem, s1. split; [done|]. split; [|split; done].
       eapply inv_count; [exact I | exact Eh | | lia | lia | unfold rem in *; lia].
       by replace (ReferenceCount (tHeader y) + -1) with rem by lia. }
  unfold KiDestroyThreadObject. assert (Eh1 : get_header (ObjThread t) s1 = Ok h').
  { cbn. unfold get_thread, s1. cbn. by rewrite lookup_insert_eq. }
  rewrite Eh1. cbn [res_bind]. rewrite (bool_decide_true (Type_ h' = _)) by done. cbn [negb].
  unfold get_thread. assert (Ey1 : exthreads s1 !! t = Some (set_tHeader h' y)) by (apply lookup_insert_eq).
  rewrite Ey1. cbn [res_bind Process set_tHeader].
  destruct (kfree_law t (Svc s)) as [K1 K2].
  assert (Es : set_Svc (kfree t (Svc s1)) (set_exthreads (delete t (exthreads s1)) s1) =
               set_Svc (kfree t (Svc s)) (set_exthreads (delete t (exthreads s)) s)).
  { unfold s1. cbn. unfold set_Svc, set_exthreads. cbn. by rewrite delete_insert_eq. }
  rewrite Es. set (s3 := set_Svc _ (set_exthreads _ s)).
  pose proof (ei_nonneg _ _ _ I (ObjThread t)).
  assert (Hth : thread_handles s t y = 0 /\ t ∉ own /\ ext (ObjThread t) = 1).
  { unfold thread_handles in *. destruct (decide (t ∈ own)), (processes s !! Process y) as [z|];
      try pose proof (handles_nonneg (ObjThread t) z); unfold rem in Hz; (split; [lia | split; [done || lia | lia]]). }
  destruct Hth as (Hth & Hown & Hone).
  set (ext' := fun o => if decide (o = ObjThread t) then 0 else
      if decide (o = ObjProcess (Process y) /\ Process y <> 0) then ext o + 1 else ext o).
  assert (I3 : ex_inv s3 own ext').
  { apply (inv_delete_thread s own ext t y); try done. }
  assert (C3 : capped n s3) by (by apply capped_delete_thread).
  assert (R3 : refs_only s s3) by (by apply refs_only_delete_thread).
  destruct (Z.eqb_spec (Process y) 0) as [Hp|Hp].
  - exists EC_SUCCESS, rem, s3. split; [done|]. split; [|done]. eapply inv_ext_eq; [|exact I3].
    intros o. unfold ext', move. destruct (decide (o = ObjThread t)) as [->|]; [lia|].
    by rewrite decide_False by (intros [? ?]; done).
  - unfold ExRuntimeReleaseProcess_. rewrite (proj2 (Z.eqb_neq _ 0) Hp).
    destruct (release_process_run d s3 own ext' n (Process y) I3 C3) as (st & rem2 & s4 & x & -> & I4 & C4 & R4 & _).
    { unfold ext'. rewrite decide_False, decide_True by (try split; congruence).
      pose proof (ei_nonneg _ _ _ I (ObjProcess (Process y))). lia. }
    cbn [res_bind]. exists st, rem, s4. split; [done|]. split; [|split; [done | by eapply refs_only_trans]].
    eapply inv_ext_eq; [|exact I4]. intros o. unfold ext', move.
    destruct (decide (o = ObjProcess (Process y))) as [->|].
    + rewrite decide_False, decide_False by congruence. rewrite decide_True by done. lia.
    + destruct (decide (o = ObjThread t)) as [->|]; [lia|]. by rewrite decide_False by (intros [? ?]; done).
Qed.

(** Giving back one counted reference always returns and frees nothing that
    is still referred to. *)
Lemma release_run s own ext n o : ex_inv s own ext -> capped n s -> 0 < ext o ->
  exists st rem s', ExObjectRelease (Some o) (type_of o) s = Ok (st, rem, s') /\
    ex_inv s' own (move o (-1) ext) /\ capped n s' /\ refs_only s s'.
Proof.
  intros I Hc He. unfold ExObjectRelease, release_depth. destruct o as [p|t|p]; cbn [type_of].
  - destruct (release_process_run 1 s own ext n p I Hc He) as (st & rem & s' & x & E & I' & C' & R' & _). eauto 10.
  - by apply release_thread_run.
  - destruct (release_stdout_run 2 s own ext n p I Hc He) as (rem & s' & x & x' & E & I' & C' & R' & _). eauto 10.
Qed.

Lemma held_nonzero s own ext o : ex_inv s own ext -> alive s o ->
  match o with ObjProcess p | ObjStdout p => p <> 0 | ObjThread t => t <> 0 end.
Proof.
  intros I. destruct o; intros [x Hx].
  - by destruct (ei_processes _ _ _ I _ x Hx).
  - by destruct (ei_threads _ _ _ I _ x Hx).
  - by destruct (ei_processes _ _ _ I _ x Hx).
Qed.

Lemma release_process_api s own ext n p : ex_inv s own ext -> capped n s -> 0 < ext (ObjProcess p) ->
  exists st s', ExRuntimeReleaseProcess p s = Ok (st, s') /\
    ex_inv s' own (move (ObjProcess p) (-1) ext) /\ capped n s' /\ refs_only s s'.
Proof.
  intros I Hc He. destruct (release_run s own ext n _ I Hc He) as (st & rem & s' & E & R).
  pose proof (held_nonzero s own ext _ I (ei_ext _ _ _ I _ He)) as Hp. cbn in Hp.
  unfold ExRuntimeReleaseProcess. rewrite (proj2 (Z.eqb_neq p 0) Hp). cbn [type_of] in E. rewrite E. by exists st, s'.
Qed.

Lemma release_thread_api s own ext n t : ex_inv s own ext -> capped n s -> 0 < ext (ObjThread t) ->
  exists st s', ExRuntimeReleaseThread t s = Ok (st, s') /\
    ex_inv s' own (move (ObjThread t) (-1) ext) /\ capped n s' /\ refs_only s s'.
Proof.
  intros I Hc He. destruct (release_run s own ext n _ I Hc He) as (st & rem & s' & E & R).
  pose proof (held_nonzero s own ext _ I (ei_ext _ _ _ I _ He)) as Hp. cbn in Hp.
  unfold ExRuntimeReleaseThread. rewrite (proj2 (Z.eqb_neq t 0) Hp). cbn [type_of] in E. rewrite E. by exists st, s'.
Qed.

(** The handle table's release dispatches on the header's type. *)
Lemma release_handle_object s own ext n o : ex_inv s own ext -> capped n s -> 0 < ext o ->
  exists st s', KiReleaseHandleObject (Some o) s = Ok (st, s') /\
    ex_inv s' own (move o (-1) ext) /\ capped n s' /\ refs_only s s'.
Proof.
  intros I Hc He. destruct (alive_header s o (ei_ext _ _ _ I _ He)) as (h & Eh).
  unfold KiReleaseHandleObject. rewrite Eh. cbn [res_bind]. rewrite (header_type s own ext o h I Eh).
  destruct o as [p|t|p]; cbn [type_of].
  - by apply release_process_api.
  - by apply release_thread_api.
  - destruct (release_run s own ext n _ I Hc He) as (st & rem & s' & E & R). cbn [type_of] in E. rewrite E. by exists st, s'.
Qed.

Lemma retain_process_api s own ext n p : ex_inv s own ext -> capped n s -> n + 1 < 2 ^ 32 ->
  (p <> 0 -> is_Some (processes s !! p)) ->
  exists r s', ExRuntimeRetainProcess p s = Ok (r, s') /\
    ((r = p /\ p <> 0 /\ ex_inv s' own (move (ObjProcess p) 1 ext) /\ capped (n + 1) s' /\ refs_only s s')
     \/ (r = 0 /\ s' = s)).
Proof.
  intros I Hc Hn Hal. unfold ExRuntimeRetainProcess. destruct (Z.eqb_spec p 0) as [Hp|Hp].
  { exists 0, s. split; [done | by right]. }
  destruct (retain_run s own ext n (ObjProcess p) I Hc Hn (Hal Hp)) as (st & s' & E & R).
  cbn [type_of] in E. rewrite E. cbn [res_bind]. eexists _, s'. split; [done|].
  destruct R as [(-> & R)|(-> & -> & _)]; [by left | by right].
Qed.
End refs.
