(* ===== verification/ExHandles.v ===== *)
(** * Handle tables of the executive

    [handle.c] on a well-formed state: inserting, resolving and closing
    handles returns, moves references between the accounts of [ExInv.v] and
    leaves everything else alone ([calm]). *)

From S2P Require Import Prelude Ex ExInv ExRefs.

Local Open Scope Z_scope.

(** A field update leaves the other fields alone. *)
Ltac fields := intros ?; repeat case_match; repeat split.

Section handles.
Context {W : Type} `{ExLaws W}.
Implicit Types (s : EX W) (p t kt : Z) (o : EX_OBJECT) (x : EX_PROCESS) (y : EX_THREAD)
  (own : gset Z) (ext : EX_OBJECT -> Z).

(** Two versions of a process that differ in nothing the tables look at. *)
Definition same_process x x' : Prop :=
  CompletionRetained x' = CompletionRetained x.

Definition same_thread y y' : Prop :=
  Thread y' = Thread y /\ Process y' = Process y /\ ThreadId y' = ThreadId y.

(** From [s] to [s'] counts and handles moved and structures died. *)
Definition calm s s' : Prop :=
  (forall p x', processes s' !! p = Some x' -> exists x, processes s !! p = Some x /\ same_process x x') /\
  (forall t y', exthreads s' !! t = Some y' -> exists y, exthreads s !! t = Some y /\ same_thread y y') /\
  gExRuntimeProcessTable s' = gExRuntimeProcessTable s /\
  gExRuntimeThreadTable s' = gExRuntimeThreadTable s /\
  survivors s s' /\
  (forall kt, is_Some (kernel_thread kt (Svc s)) -> is_Some (kernel_thread kt (Svc s'))).

#[global] Instance same_process_pre : PreOrder same_process.
Proof. split; unfold same_process; red; intros; intuition congruence. Qed.
#[global] Instance same_thread_pre : PreOrder same_thread.
Proof. split; unfold same_thread; red; intros; intuition congruence. Qed.

#[global] Instance calm_pre : PreOrder calm.
Proof.
  split.
  - intros s. split; [|split; [|split; [done|split; [done|split; [by apply survivors_same|done]]]]].
    + intros p x Hx. exists x. by split.
    + intros t y Hy. exists y. by split.
  - intros s1 s2 s3 (A1 & A2 & A3 & A4 & A5 & A6) (B1 & B2 & B3 & B4 & B5 & B6).
    split; [|split; [|split_and!; try congruence]].
    + intros p x3 H3. destruct (B1 p x3 H3) as (x2 & H2 & E2). destruct (A1 p x2 H2) as (x1 & H1' & E1).
      exists x1. split; [done|]. by etrans.
    + intros t y3 H3. destruct (B2 t y3 H3) as (y2 & H2 & E2). destruct (A2 t y2 H2) as (y1 & H1' & E1).
      exists y1. split; [done|]. by etrans.
    + intros p x1 Hx Hr. destruct (A5 p x1 Hx Hr) as [x2 Hx2]. apply (B5 p x2 Hx2).
      destruct (A1 p x2 Hx2) as (z & Hz & ->). rewrite Hx in Hz. by injection Hz as <-.
    + intros kt Hk. by apply B6, A6.
Qed.

Lemma refs_only_calm s s' : refs_only s s' -> calm s s'.
Proof.
  intros (A1 & A2 & A3 & A4 & A5 & A6 & A7). split; [|split; [|done]].
  - intros p x' Hx. destruct (A1 p x' Hx) as (x & Hx0 & ->). exists x. by split.
  - intros t y' Hy. destruct (A2 t y' Hy) as (y & Hy0 & ->). exists y. by split.
Qed.

Lemma calm_put_process s p x x' : processes s !! p = Some x -> same_process x x' -> calm s (put_process p x' s).
Proof.
  intros Hx Hs. split; [|split; [|split; [done|split; [done|split; [apply survivors_put|done]]]]]; cbn.
  - intros q z. rewrite lookup_insert. destruct (decide (p = q)) as [<-|].
    + intros [= <-]. by exists x.
    + intros Hz. by exists z.
  - intros t y Hy. by exists y.
Qed.

Lemma calm_put_thread s t y y' : exthreads s !! t = Some y -> same_thread y y' -> calm s (put_thread t y' s).
Proof.
  intros Hy Hs. split; [|split; [|split; [done|split; [done|split; [by apply survivors_same|done]]]]]; cbn.
  - intros p x Hx. by exists x.
  - intros u z. rewrite lookup_insert. destruct (decide (t = u)) as [<-|].
    + intros [= <-]. by exists y.
    + intros Hz. by exists z.
Qed.

(** ** Updates that the accounts do not see *)

Definition same_accounts x x' : Prop :=
  Header x' = Header x /\ StdoutHeader x' = StdoutHeader x /\ StdoutOwner x' = StdoutOwner x /\
  HandleTable x' = HandleTable x /\ CompletionRetained x' = CompletionRetained x.

Lemma handles_same o x x' : HandleTable x' = HandleTable x -> handles o x' = handles o x.
Proof. unfold handles. by intros ->. Qed.

Lemma inv_upd_process s own ext p x x' : ex_inv s own ext -> processes s !! p = Some x -> same_accounts x x' ->
  ex_inv (put_process p x' s) own ext.
Proof.
  intros I Hx (E1 & E2 & E3 & E4 & E5). eapply inv_put_process; [exact I | exact Hx | | | | | |]; try done.
  - pose proof (ei_processes _ _ _ I p x Hx) as Hok. destruct Hok.
    constructor; rewrite ?E1, ?E2, ?E3, ?E4, ?E5, ?(handles_same _ x x' E4); done.
  - intros t y _ _. by rewrite (handles_same _ x x' E4).
  - intros o. apply (ei_nonneg _ _ _ I).
  - rewrite E5. by left.
Qed.

Lemma inv_upd_thread s own ext t y y' : ex_inv s own ext -> exthreads s !! t = Some y ->
  tHeader y' = tHeader y -> Thread y' = Thread y -> Process y' = Process y -> ex_inv (put_thread t y' s) own ext.
Proof.
  intros I Hy E1 E2 E3. eapply inv_put_thread; [exact I | exact Hy | done | | done | done | apply (ei_nonneg _ _ _ I) |].
  - pose proof (ei_threads _ _ _ I t y Hy) as Hok. destruct Hok.
    constructor; unfold thread_handles; rewrite ?E1, ?E3; done.
  - intros e He Hact Ht. split; [|done]. pose proof (ei_ttab _ _ _ I) as Htt. rewrite Forall_forall in Htt.
    destruct (Htt e He Hact) as [Hin _]. by rewrite <- Ht.
Qed.

Lemma capped_put_process n s p x x' : capped n s -> processes s !! p = Some x ->
  Header x' = Header x -> StdoutHeader x' = StdoutHeader x -> capped n (put_process p x' s).
Proof.
  intros Hc Hx E1 E2 o h Eo. destruct o as [q|t|q]; cbn in Eo; unfold get_process, get_thread in Eo; cbn in Eo.
  - rewrite lookup_insert in Eo. apply (Hc (ObjProcess q)). cbn. unfold get_process.
    destruct (decide (p = q)) as [<-|]; [|done]. rewrite Hx. cbn in *. congruence.
  - by apply (Hc (ObjThread t)).
  - rewrite lookup_insert in Eo. apply (Hc (ObjStdout q)). cbn. unfold get_process.
    destruct (decide (p = q)) as [<-|]; [|done]. rewrite Hx. cbn in *. congruence.
Qed.

Lemma capped_put_thread n s t y y' : capped n s -> exthreads s !! t = Some y -> tHeader y' = tHeader y ->
  capped n (put_thread t y' s).
Proof.
  intros Hc Hy E1 o h Eo. destruct o as [q|u|q]; cbn in Eo; unfold get_process, get_thread in Eo; cbn in Eo.
  - by apply (Hc (ObjProcess q)).
  - rewrite lookup_insert in Eo. apply (Hc (ObjThread u)). cbn. unfold get_thread.
    destruct (decide (t = u)) as [<-|]; [|done]. rewrite Hy. cbn in *. congruence.
  - by apply (Hc (ObjStdout q)).
Qed.

(** A state keeps the invariant, the counts' bound and the frame. *)
Definition keeps own ext n s s' : Prop := ex_inv s' own ext /\ capped n s' /\ calm s s'.

Lemma upd_process_run s own ext n p f : ex_inv s own ext -> capped n s -> is_Some (processes s !! p) ->
  (forall x, same_accounts x (f x)) -> (forall x, same_process x (f x)) ->
  exists x, processes s !! p = Some x /\ upd_process p f s = Ok (put_process p (f x) s) /\
    keeps own ext n s (put_process p (f x) s).
Proof.
  intros I Hc [x Hx] Ha Hs. exists x. split; [done|]. unfold upd_process, get_process. rewrite Hx. split; [done|].
  split; [|split].
  - by apply (inv_upd_process s own ext p x).
  - destruct (Ha x) as (E1 & E2 & _). by apply (capped_put_process n s p x).
  - by apply (calm_put_process s p x).
Qed.

(** ** One slot of a table *)

(** What a slot of [p] may refer to. *)
Definition owned_object s p o : Prop :=
  match o with
  | ObjProcess q | ObjStdout q => q = p
  | ObjThread t => exists y, exthreads s !! t = Some y /\ Process y = p
  end.

Lemma owned_alive s p o : is_Some (processes s !! p) -> owned_object s p o -> alive s o.
Proof. intros Hp. destruct o; cbn; [by intros -> | intros (y & Hy & _); by exists y | by intros ->]. Qed.

Definition holds (sl : EX_HANDLE_SLOT) o : Z := if decide (Object sl = Some o) then 1 else 0.

Lemma inv_put_slot s own ext ext' p x (i : nat) sl sl' :
  ex_inv s own ext -> processes s !! p = Some x -> HandleTable x !! i = Some sl -> slot_ok s p sl' ->
  (forall o, ext' o = ext o + holds sl o - holds sl' o) -> (forall o, 0 <= ext' o) ->
  ex_inv (put_process p (set_HandleTable (<[i := sl']> (HandleTable x)) x) s) own ext'.
Proof.
  intros I Hx Hi Hok' Hext Hnn. pose proof (ei_processes _ _ _ I p x Hx) as Hok. destruct Hok.
  assert (Hok : slot_ok s p sl).
  { rewrite Forall_forall in pk_slots. apply pk_slots. by eapply list_elem_of_lookup_2. }
  assert (Hq : forall (sl0 : EX_HANDLE_SLOT) o, slot_ok s p sl0 -> Object sl0 = Some o -> owned_object s p o).
  { intros sl0 o [_ Ho] E. rewrite E in Ho. destruct Ho as (_ & _ & Ho). by destruct o. }
  assert (Hn : forall o, ~ owned_object s p o -> ext' o = ext o).
  { intros o Hno. rewrite Hext. unfold holds.
    rewrite !decide_False; [lia | intros E; by apply Hno, (Hq sl') | intros E; by apply Hno, (Hq sl)]. }
  eapply inv_put_process; [exact I | exact Hx | | | | | done | by left].
  - constructor; try done; cbn.
    + rewrite length_insert. done.
    + rewrite (handles_update _ x i sl sl' Hi), pk_refs, Hext. unfold holds. lia.
    + rewrite (handles_update _ x i sl sl' Hi), pk_crefs, Hext. unfold holds. lia.
    + by apply Forall_insert.
  - intros [q|u|q] Hne; try done; apply Hn; done.
  - intros t y Hy Hp. rewrite (handles_update _ x i sl sl' Hi), Hext. unfold holds. lia.
  - intros t Hp. apply Hn. intros (y & Hy & Hpy). by apply (Hp y).
Qed.

Lemma capped_put_table n s p x l : capped n s -> processes s !! p = Some x -> capped n (put_process p (set_HandleTable l x) s).
Proof. intros. by eapply capped_put_process. Qed.

Lemma generation_range g : 0 <= g <= EX_HANDLE_GENERATION_MASK -> 1 <= KiAdvanceHandleGeneration g <= EX_HANDLE_GENERATION_MASK.
Proof.
  unfold KiAdvanceHandleGeneration, EX_HANDLE_GENERATION_MASK. intros Hg.
  rewrite u32_small by word_lia. change 16777215 with (Z.ones 24). rewrite Z.land_ones by lia.
  destruct (Z.eqb_spec ((g + 1) mod 2 ^ 24) 0); [change (Z.ones 24) with 16777215; lia|].
  change (Z.ones 24) with 16777215 in *. div_lia.
Qed.

(** ** Searching the tables *)

Lemma find_slot_run f (es : list TABLE_ENTRY) k : (forall e, e ∈ es -> exists b, f e = Ok b) ->
  exists i : nat, find_slot k es f = Ok (k + Z.of_nat i) /\ (i <= length es)%nat /\
    (forall e, es !! i = Some e -> f e = Ok true) /\
    (forall j e, (j < i)%nat -> es !! j = Some e -> f e = Ok false).
Proof.
  revert k. induction es as [|e es IH]; intros k Hf.
  - exists 0%nat. split; [cbn; f_equal; lia|]. split_and!; [done | done | lia].
  - destruct (Hf e) as [b Hb]; [by left|]. cbn [find_slot]. rewrite Hb. cbn [res_bind]. destruct b.
    + exists 0%nat. split; [f_equal; lia|]. split_and!; [cbn; lia | by intros ? [= <-] | lia].
    + destruct (IH (k + 1)) as (i & E & Hl & H1' & H2'); [intros; apply Hf; by right|].
      exists (S i). rewrite E. split; [f_equal; lia|]. split_and!; [cbn; lia | done |].
      intros [|j] e' Hj; [by intros [= <-]|]. apply H2'. lia.
Qed.

Lemma find_process_slot s own ext f : ex_inv s own ext ->
  (forall e x, Active e = true -> processes s !! Entry e = Some x -> exists b, f e = Ok b) ->
  (forall e, Active e = false -> exists b, f e = Ok b) ->
  exists i : nat, find_slot 0 (gExRuntimeProcessTable s) f = Ok (Z.of_nat i) /\
    (Z.of_nat i <= EX_RUNTIME_PROCESS_TABLE_CAPACITY) /\
    (forall e, gExRuntimeProcessTable s !! i = Some e -> f e = Ok true) /\
    (forall j e, (j < i)%nat -> gExRuntimeProcessTable s !! j = Some e -> f e = Ok false).
Proof.
  intros I Ha Hd. destruct (find_slot_run f (gExRuntimeProcessTable s) 0) as (i & E & Hl & R).
  - intros e He. destruct (Active e) eqn:Eact; [|by apply Hd].
    pose proof (ei_ptab _ _ _ I) as Hp. rewrite Forall_forall in Hp. destruct (Hp e He Eact) as (x & Hx & _). by eapply Ha.
  - exists i. rewrite (ei_plen _ _ _ I) in Hl. unfold EX_RUNTIME_PROCESS_TABLE_CAPACITY, EX_MAX_PROCESSES in *.
    split; [done|]. split; [lia|]. done.
Qed.

Lemma find_thread_slot s own ext f : ex_inv s own ext ->
  (forall e y, Active e = true -> exthreads s !! Entry e = Some y -> exists b, f e = Ok b) ->
  (forall e, Active e = false -> exists b, f e = Ok b) ->
  exists i : nat, find_slot 0 (gExRuntimeThreadTable s) f = Ok (Z.of_nat i) /\
    (Z.of_nat i <= EX_RUNTIME_THREAD_TABLE_CAPACITY) /\
    (forall e, gExRuntimeThreadTable s !! i = Some e -> f e = Ok true) /\
    (forall j e, (j < i)%nat -> gExRuntimeThreadTable s !! j = Some e -> f e = Ok false).
Proof.
  intros I Ha Hd. destruct (find_slot_run f (gExRuntimeThreadTable s) 0) as (i & E & Hl & R).
  - intros e He. destruct (Active e) eqn:Eact; [|by apply Hd].
    pose proof (ei_ttab _ _ _ I) as Hp. rewrite Forall_forall in Hp. destruct (Hp e He Eact) as (_ & y & Hy & _). by eapply Ha.
  - exists i. rewrite (ei_tlen _ _ _ I) in Hl.
    unfold EX_RUNTIME_THREAD_TABLE_CAPACITY, EX_MAX_PROCESSES, EX_MAX_THREADS_PER_PROCESS in *.
    split; [done|]. split; [lia|]. done.
Qed.

Lemma published_total s own ext o : ex_inv s own ext -> alive s o ->
  exists b, ExRuntimeIsPublishedObject (Some o) s = Ok b.
Proof.
  intros I Hal. destruct (alive_header s o Hal) as (h & Eh). unfold ExRuntimeIsPublishedObject. rewrite Eh. cbn [res_bind].
  rewrite (header_type s own ext o h I Eh). pose proof (held_nonzero s own ext o I Hal) as Hz. destruct o as [p|t|p]; cbn [type_of].
  - unfold KiFindProcessSlotByProcess. rewrite (proj2 (Z.eqb_neq p 0) Hz).
    destruct (find_process_slot s own ext (fun e => Ok (Active e && (Entry e =? p))) I) as (i & -> & _); eauto.
  - unfold KiFindThreadSlotByThreadObject. rewrite (proj2 (Z.eqb_neq t 0) Hz).
    destruct (find_thread_slot s own ext (fun e => Ok (Active e && (Entry e =? t))) I) as (i & -> & _); eauto.
  - by eexists.
Qed.

(** ** Closing handles *)

Lemma validate_slot_run s own ext (sl : EX_HANDLE_SLOT) allow : ex_inv s own ext ->
  (forall o, Object sl = Some o -> alive s o) -> exists st, KiValidateCloseHandleSlot sl allow s = Ok st.
Proof.
  intros I Hal. unfold KiValidateCloseHandleSlot. destruct (Object sl) as [o|]; [|by eexists].
  specialize (Hal o eq_refl). destruct (negb _); [by eexists|].
  assert (exists b, (if allow then Ok false else ExRuntimeIsPublishedObject (Some o) s) = Ok b) as [b ->].
  { destruct allow; [by eexists | by eapply published_total]. }
  cbn [res_bind]. destruct (b && _); [by eexists|].
  destruct (alive_header s o Hal) as (h & ->). cbn [res_bind]. destruct (negb _); by eexists.
Qed.

Lemma slot_alive s own ext p x sl o : ex_inv s own ext -> processes s !! p = Some x -> sl ∈ HandleTable x ->
  Object sl = Some o -> alive s o /\ owned_object s p o.
Proof.
  intros I Hx Hin Ho. pose proof (ei_processes _ _ _ I p x Hx) as Hok. destruct Hok. rewrite Forall_forall in pk_slots.
  destruct (pk_slots sl Hin) as [_ Hs]. rewrite Ho in Hs. destruct Hs as (_ & _ & Hs).
  assert (Hoo : owned_object s p o) by (by destruct o). split; [|done]. eapply owned_alive; [by exists x | done].
Qed.

Lemma validate_slots_run s own ext (table : list EX_HANDLE_SLOT) allow : ex_inv s own ext ->
  (forall sl o, sl ∈ table -> Object sl = Some o -> alive s o) -> exists st, validate_slots table allow s = Ok st.
Proof.
  intros I. induction table as [|sl table IH]; intros Hal; cbn [validate_slots]; [by eexists|].
  destruct (bool_decide _); [apply IH; intros; eapply Hal; [by right | done]|].
  destruct (validate_slot_run s own ext sl allow I) as [st ->]; [intros; eapply Hal; [by left | done]|].
  cbn [res_bind]. destruct (negb _); [by eexists | apply IH; intros; eapply Hal; [by right | done]].
Qed.

Lemma invalidate_run s own ext n p o h : ex_inv s own ext -> capped n s -> is_Some (processes s !! p) -> owned_object s p o ->
  exists s', KiInvalidateObjectSelfHandleIfMatch (Some o) h s = Ok s' /\ keeps own ext n s s' /\
    (forall o, alive s o -> alive s' o) /\
    (forall x, processes s !! p = Some x -> exists x', processes s' !! p = Some x' /\ HandleTable x' = HandleTable x) /\
    (forall t y, exthreads s !! t = Some y -> exists y', exthreads s' !! t = Some y' /\ Process y' = Process y).
Proof.
  intros I Hc Hp Hoo. pose proof (owned_alive s p o Hp Hoo) as Hal. unfold KiInvalidateObjectSelfHandleIfMatch.
  destruct (h =? EX_HANDLE_INVALID).
  { exists s. split; [done|]. split; [by split|]. split_and!; eauto. }
  destruct (alive_header s o Hal) as (hd & Eh). rewrite Eh. cbn [res_bind]. rewrite (header_type s own ext o hd I Eh).
  assert (Hkeep : forall f, (forall x, same_accounts x (f x)) -> (forall x, same_process x (f x)) ->
    exists s', upd_process p f s = Ok s' /\ keeps own ext n s s' /\ (forall o, alive s o -> alive s' o) /\
    (forall x, processes s !! p = Some x -> exists x', processes s' !! p = Some x' /\ HandleTable x' = HandleTable x) /\
    (forall t y, exthreads s !! t = Some y -> exists y', exthreads s' !! t = Some y' /\ Process y' = Process y)).
  { intros f Hf1 Hf2. destruct (upd_process_run s own ext n p f I Hc Hp Hf1 Hf2) as (x & Hx & E & K).
    exists (put_process p (f x) s). split; [done|]. split; [done|]. split; [|split].
    - intros [q|u|q]; cbn; try done; rewrite lookup_insert; destruct (decide (p = q)); done || by eexists.
    - intros x0. rewrite Hx. intros [= <-]. exists (f x). cbn. rewrite lookup_insert_eq. split; [done|].
      by destruct (Hf1 x) as (_ & _ & _ & -> & _).
    - intros t y Hy. by exists y. }
  destruct o as [q|t|q]; cbn [type_of].
  - cbn in Hoo. subst q. apply Hkeep; fields.
  - destruct Hoo as (y & Hy & Hpy). unfold upd_thread, get_thread. rewrite Hy. cbn [res_bind].
    set (y' := if tSelfHandle y =? h then set_tSelfHandle EX_HANDLE_INVALID y else y). assert (Ey : tHeader y' = tHeader y /\ same_thread y y').
    { unfold y'. destruct (tSelfHandle y =? h); repeat split. }
    destruct Ey as (Ey1 & Ey2). exists (put_thread t y' s). split; [done|]. split; [|split; [|split]].
    + destruct Ey2 as (T1 & T2 & T3). split; [by apply (inv_upd_thread s own ext t y)|].
      split; [by apply (capped_put_thread n s t y) | by apply (calm_put_thread s t y)].
    + intros [q|u|q]; cbn; try done. rewrite lookup_insert. destruct (decide (t = u)); done || by eexists.
    + intros x Hx. by exists x.
    + intros u z Hz. cbn. rewrite lookup_insert. destruct (decide (t = u)) as [<-|]; [|by exists z].
      exists y'. split; [done|]. destruct Ey2 as (_ & E2 & _). congruence.
  - cbn in Hoo. subst q. destruct Hp as [x Hx].
    rewrite (proj2 (get_process_ok s p x) Hx). cbn [res_bind].
    rewrite (pk_owner _ _ _ _ (ei_processes _ _ _ I p x Hx)). destruct (p =? 0).
    { exists s. split; [done|]. split; [by split|]. split; [done|]. split; [|by eauto].
      intros x0 Hx0. by exists x0. }
    apply Hkeep; fields.
Qed.

(** Clearing slot [i] hands its reference to the caller. *)
Lemma clear_slot_run s own ext n p x (i : nat) sl : ex_inv s own ext -> capped n s -> processes s !! p = Some x ->
  HandleTable x !! i = Some sl ->
  exists s', KiClearHandleSlot p (Z.of_nat i) s = Ok s' /\
    keeps own (match Object sl with Some o => move o 1 ext | None => ext end) n s s' /\
    s' = put_process p (set_HandleTable (<[i := clear_slot sl]> (HandleTable x)) x) s.
Proof.
  intros I Hc Hx Hi. unfold KiClearHandleSlot, get_process. rewrite Hx. cbn [res_bind].
  rewrite (proj2 (rd_ok _ _ sl)) by (split; [lia | by rewrite Nat2Z.id]). cbn [res_bind].
  pose proof (lookup_lt_Some _ _ _ Hi). rewrite wr_in by lia. cbn [res_bind]. rewrite Nat2Z.id.
  eexists. split; [done|]. split; [|done]. split; [|split].
  - eapply inv_put_slot; [exact I | exact Hx | exact Hi | | |].
    + split; [|done]. cbn [Generation clear_slot].
      pose proof (ei_processes _ _ _ I p x Hx) as Hok. destruct Hok. rewrite Forall_forall in pk_slots.
      destruct (pk_slots sl) as [G _]; [by eapply list_elem_of_lookup_2|]. pose proof (generation_range _ G). lia.
    + intros o. unfold holds. cbn [Object clear_slot]. rewrite (decide_False (P := None = Some o)) by done.
      destruct (Object sl) as [o'|]; [|rewrite decide_False by done; lia]. unfold move.
      destruct (decide (o = o')) as [->|]; [by rewrite decide_True by done; lia|]. rewrite decide_False by congruence. lia.
    + intros o. pose proof (ei_nonneg _ _ _ I o). destruct (Object sl); [|done]. unfold move. destruct (decide _); lia.
  - by apply capped_put_table.
  - by apply (calm_put_process s p x).
Qed.

(** Invalidating, clearing and releasing one slot of a process that is held. *)
Lemma close_one_run s own ext n p x (i : nat) sl o h : ex_inv s own ext -> capped n s -> 0 < ext (ObjProcess p) ->
  processes s !! p = Some x -> HandleTable x !! i = Some sl -> Object sl = Some o ->
  exists st s1 s2 s3, KiInvalidateObjectSelfHandleIfMatch (Some o) h s = Ok s1 /\
    KiClearHandleSlot p (Z.of_nat i) s1 = Ok s2 /\ KiReleaseHandleObject (Some o) s2 = Ok (st, s3) /\
    keeps own ext n s s3 /\
    (forall x3, processes s3 !! p = Some x3 -> HandleTable x3 = <[i := clear_slot sl]> (HandleTable x)).
Proof.
  intros I Hc He Hx Hi Ho.
  destruct (slot_alive s own ext p x sl o I Hx) as [Hal Hoo]; [by eapply list_elem_of_lookup_2 | done |].
  destruct (invalidate_run s own ext n p o h I Hc) as (s1 & E1 & (I1 & C1 & K1) & A1 & T1 & _); [by exists x | done |].
  destruct (T1 x Hx) as (x1 & Hx1 & Ht1). rewrite <- Ht1 in Hi.
  destruct (clear_slot_run s1 own ext n p x1 i sl I1 C1 Hx1 Hi) as (s2 & E2 & (I2 & C2 & K2) & Es2). rewrite Ho in I2.
  pose proof (ei_nonneg _ _ _ I o).
  destruct (release_handle_object s2 own _ n o I2 C2) as (st & s3 & E3 & I3 & C3 & R3); [rewrite move_here; lia|].
  exists st, s1, s2, s3. split; [done|]. split; [done|]. split; [done|]. split; [split; [|split; [done|]]|].
  - eapply inv_ext_eq; [|exact I3]. intros o'. symmetry. apply (move_cancel o 1).
  - etrans; [exact K1|]. etrans; [exact K2|]. by apply refs_only_calm.
  - intros x3 Hx3. destruct (refs_only_process s2 s3 p x3 R3 Hx3) as (z & Hz & -> & _).
    rewrite Es2 in Hz. cbn in Hz. rewrite lookup_insert_eq in Hz. injection Hz as <-. cbn. by rewrite Ht1.
Qed.

Lemma keeps_refl s own ext n : ex_inv s own ext -> capped n s -> keeps own ext n s s.
Proof. intros. by split. Qed.

Lemma keeps_trans s1 s2 s3 own ext n : keeps own ext n s1 s2 -> keeps own ext n s2 s3 -> keeps own ext n s1 s3.
Proof. intros (I1 & C1 & K1) (I2 & C2 & K2). split; [done|]. split; [done|]. by etrans. Qed.

Lemma close_slot_step s own ext n p (i : Z) acc : 0 <= i < EX_MAX_HANDLES_PER_PROCESS -> ex_inv s own ext -> capped n s ->
  0 < ext (ObjProcess p) -> exists st s', close_slot p i (acc, s) = Ok (st, s') /\ keeps own ext n s s'.
Proof.
  intros Hi I Hc He. destruct (ei_ext _ _ _ I _ He) as [x Hx]. unfold close_slot, get_process. rewrite Hx. cbn [res_bind].
  pose proof (pk_len _ _ _ _ (ei_processes _ _ _ I p x Hx)) as Hl.
  destruct (rd_in (HandleTable x) i) as [sl Esl]; [lia|]. rewrite Esl. cbn [res_bind].
  apply rd_ok in Esl as [_ Esl]. destruct (Object sl) as [o|] eqn:Ho.
  - rewrite bool_decide_false by done.
    destruct (close_one_run s own ext n p x (Z.to_nat i) sl o (KiEncodeHandle i (Generation sl)) I Hc He Hx Esl Ho)
      as (st & s1 & s2 & s3 & -> & E2 & E3 & K & _). cbn [res_bind]. rewrite Z2Nat.id in E2 by lia. rewrite E2. cbn [res_bind].
    rewrite E3. cbn [res_bind]. eauto.
  - rewrite bool_decide_true by done. exists acc, s. split; [done | by apply keeps_refl].
Qed.

Lemma live_process_nz s own ext p : ex_inv s own ext -> is_Some (processes s !! p) -> p <> 0.
Proof. intros I Hp. apply (held_nonzero s own ext (ObjProcess p) I Hp). Qed.

(** The closing routines hold their process while they work. *)
Lemma held_body s own ext n p (body : EX W -> res (HO_STATUS * EX W)) : ex_inv s own ext -> capped n s -> n + 1 < 2 ^ 32 ->
  (p <> 0 -> is_Some (processes s !! p)) ->
  (forall s1, ex_inv s1 own (move (ObjProcess p) 1 ext) -> capped (n + 1) s1 -> calm s s1 ->
     exists st s2, body s1 = Ok (st, s2) /\ keeps own (move (ObjProcess p) 1 ext) (n + 1) s1 s2) ->
  exists st s', (let* (ownerReference, s) := ExRuntimeRetainProcess p s in
    if ownerReference =? 0 then Ok (EC_INVALID_STATE, s) else
    let* (firstError, s) := body s in
    let* (ownerStatus, s) := ExRuntimeReleaseProcess ownerReference s in
    Ok (if bool_decide (firstError = EC_SUCCESS) then ownerStatus else firstError, s)) = Ok (st, s') /\
    keeps own ext (n + 1) s s'.
Proof.
  intros I Hc Hn Hp Hb. destruct (retain_process_api s own ext n p I Hc Hn Hp) as (r & s1 & -> & [R|(-> & ->)]).
  2: { cbn [res_bind]. eexists _, s. split; [done|]. apply keeps_refl; [done|]. eapply capped_weaken; [|done]. lia. }
  destruct R as (-> & Hp0 & I1 & C1 & R1). cbn [res_bind]. rewrite (proj2 (Z.eqb_neq p 0) Hp0).
  destruct (Hb s1 I1 C1 (refs_only_calm _ _ R1)) as (st & s2 & -> & (I2 & C2 & K2)). cbn [res_bind].
  pose proof (ei_nonneg _ _ _ I (ObjProcess p)).
  destruct (release_process_api s2 own _ (n + 1) p I2 C2) as (st2 & s3 & -> & I3 & C3 & R3); [rewrite move_here; lia|].
  cbn [res_bind]. eexists _, s3. split; [done|]. split; [|split; [done|]].
  - eapply inv_ext_eq; [|exact I3]. intros o'. symmetry. apply (move_cancel _ 1).
  - etrans; [by apply refs_only_calm|]. etrans; [exact K2|]. by apply refs_only_calm.
Qed.

Lemma close_all_body s own ext n p allow : ex_inv s own ext -> capped n s -> 0 < ext (ObjProcess p) ->
  exists st s', (let* x := get_process p s in
    let* firstError := validate_slots (HandleTable x) allow s in
    if bool_decide (firstError = EC_SUCCESS)
    then for_loop (Z.to_nat EX_MAX_HANDLES_PER_PROCESS) 0 (close_slot p) (EC_SUCCESS, s)
    else Ok (firstError, s)) = Ok (st, s') /\ keeps own ext n s s'.
Proof.
  intros I Hc He. destruct (ei_ext _ _ _ I _ He) as [x Hx]. unfold get_process. rewrite Hx. cbn [res_bind].
  destruct (validate_slots_run s own ext (HandleTable x) allow I) as [st ->].
  { intros sl o Hin Ho. by apply (slot_alive s own ext p x sl o I Hx). }
  cbn [res_bind]. destruct (bool_decide _); [|eexists _, s; split; [done | by apply keeps_refl]].
  destruct (for_loop_rule (fun _ acc => keeps own ext n s acc.2) (Z.to_nat EX_MAX_HANDLES_PER_PROCESS) 0 (close_slot p) (EC_SUCCESS, s))
    as ([st' s'] & -> & K); [by apply keeps_refl | | by exists st', s'].
  intros i [acc s1] Hi (I1 & C1 & K1). cbn [snd] in *.
  destruct (close_slot_step s1 own ext n p i acc) as (st2 & s2 & -> & K2); [lia | done.. |].
  exists (st2, s2). split; [done|]. by eapply keeps_trans.
Qed.

Lemma close_all_run s own ext n p allow : ex_inv s own ext -> capped n s -> n + 1 < 2 ^ 32 ->
  (p <> 0 -> is_Some (processes s !! p)) ->
  exists st s', KiHandleCloseAll p allow s = Ok (st, s') /\ keeps own ext (n + 1) s s'.
Proof.
  intros I Hc Hn Hp. unfold KiHandleCloseAll. destruct (Z.eqb_spec p 0) as [Hz|Hz].
  { eexists _, s. split; [done|]. apply keeps_refl; [done|]. eapply capped_weaken; [|done]. lia. }
  destruct (held_body s own ext n p (fun s => let* x := get_process p s in
    let* firstError := validate_slots (HandleTable x) allow s in
    if bool_decide (firstError = EC_SUCCESS)
    then for_loop (Z.to_nat EX_MAX_HANDLES_PER_PROCESS) 0 (close_slot p) (EC_SUCCESS, s)
    else Ok (firstError, s)) I Hc Hn Hp) as (st & s' & E & K).
  - intros s1 I1 C1 K1. apply close_all_body; [done | done |]. rewrite move_here. pose proof (ei_nonneg _ _ _ I (ObjProcess p)). lia.
  - exists st, s'. split; [|done]. rewrite <- E. destruct (ExRuntimeRetainProcess p s) as [[r s1]| | |]; cbn [res_bind]; try done.
    destruct (r =? 0); [done|]. destruct (get_process p s1); cbn [res_bind]; try done.
    by destruct (validate_slots _ _ _).
Qed.

(** ** One handle *)

Lemma decode_range h i g : KiDecodeHandle h = Some (i, g) -> 0 <= i < EX_MAX_HANDLES_PER_PROCESS.
Proof.
  unfold KiDecodeHandle. destruct (h =? _); [done|].
  assert (0 <= Z.land h EX_HANDLE_INDEX_MASK) by (apply Z.land_nonneg; right; done).
  destruct (Z.eqb_spec (Z.land h EX_HANDLE_INDEX_MASK) 0); [done|]. cbn [orb].
  destruct (_ =? 0); [done|]. destruct (Z.leb_spec EX_MAX_HANDLES_PER_PROCESS (Z.land h EX_HANDLE_INDEX_MASK - 1)); [done|].
  intros [= <- <-]. lia.
Qed.

Lemma lookup_slot_run s own ext p x h : ex_inv s own ext -> processes s !! p = Some x ->
  KiLookupHandleSlot p h s = Ok None \/
  exists (i : nat) sl g, KiLookupHandleSlot p h s = Ok (Some (Z.of_nat i, sl, g)) /\ HandleTable x !! i = Some sl /\
    KiDecodeHandle h = Some (Z.of_nat i, g).
Proof.
  intros I Hx. unfold KiLookupHandleSlot.
  rewrite (proj2 (Z.eqb_neq p 0)) by (eapply live_process_nz; [exact I | by exists x]).
  destruct (KiDecodeHandle h) as [[i g]|] eqn:E; [|by left]. right. apply decode_range in E as Hi.
  rewrite (proj2 (get_process_ok s p x) Hx). cbn [res_bind].
  destruct (rd_in (HandleTable x) i) as [sl Esl].
  { rewrite (pk_len _ _ _ _ (ei_processes _ _ _ I p x Hx)). lia. }
  exists (Z.to_nat i), sl, g. rewrite Z2Nat.id, Esl by lia. cbn [res_bind]. apply rd_ok in Esl as [_ Esl]. done.
Qed.

(** Handle [h] names slot [i] of [x], open for closing. *)
Definition closable s x h (i : nat) : Prop :=
  exists sl, HandleTable x !! i = Some sl /\ KiDecodeHandle h = Some (Z.of_nat i, Generation sl) /\
    KiValidateCloseHandleSlot sl false s = Ok EC_SUCCESS.

Lemma close_body_run s own ext n p x h : ex_inv s own ext -> capped n s -> 0 < ext (ObjProcess p) ->
  processes s !! p = Some x ->
  exists st h' s', close_body p h s = Ok (st, h', s') /\ keeps own ext n s s' /\
    (forall i sl, closable s x h i -> HandleTable x !! i = Some sl -> h' = EX_HANDLE_INVALID /\
       forall x', processes s' !! p = Some x' -> HandleTable x' = <[i := clear_slot sl]> (HandleTable x)).
Proof.
  intros I Hc He Hx. unfold close_body. pose proof (keeps_refl s own ext n I Hc) as K0.
  destruct (lookup_slot_run s own ext p x h I Hx) as [E | (i & sl & g & E & Hi & Hd)]; rewrite E; cbn [res_bind].
  { eexists _, h, s. split; [done|]. split; [done|]. intros i sl (sl' & Hi & Hd & _) _. exfalso.
    unfold KiLookupHandleSlot in E. rewrite Hd in E.
    rewrite (proj2 (Z.eqb_neq p 0)) in E by (eapply live_process_nz; [exact I | by exists x]).
    rewrite (proj2 (get_process_ok s p x) Hx) in E. cbn [res_bind] in E. by destruct (rd _ _). }
  assert (Hcl : forall j sl', closable s x h j -> HandleTable x !! j = Some sl' -> j = i /\ sl' = sl /\ Generation sl = g /\
            KiValidateCloseHandleSlot sl false s = Ok EC_SUCCESS).
  { intros j sl' (sl0 & Hj & Hd' & Hv) Hj'. rewrite Hd in Hd'. injection Hd' as Hij Hg. assert (j = i) as -> by lia.
    rewrite Hi in Hj, Hj'. injection Hj as <-. by injection Hj' as <-. }
  assert (Hno : KiValidateCloseHandleSlot sl false s <> Ok EC_SUCCESS \/ Generation sl <> g ->
    forall j sl', closable s x h j -> HandleTable x !! j = Some sl' -> h = EX_HANDLE_INVALID /\
       forall x', processes s !! p = Some x' -> HandleTable x' = <[j := clear_slot sl']> (HandleTable x)).
  { intros Hne j sl' Hcj Hj. destruct (Hcl j sl' Hcj Hj) as (_ & _ & Hg & Hv). by destruct Hne. }
  destruct (Object sl) as [o|] eqn:Ho.
  2: { rewrite bool_decide_true by done. cbn [orb].
       eexists _, h, s. split; [done|]. split; [done|]. apply Hno. left. unfold KiValidateCloseHandleSlot. by rewrite Ho. }
  rewrite bool_decide_false by done. cbn [orb]. destruct (Z.eqb_spec (Generation sl) g) as [Hg|Hg]; cbn [negb].
  2: { eexists _, h, s. split; [done|]. split; [done|]. apply Hno. by right. }
  destruct (validate_slot_run s own ext sl false I) as [st Ev].
  { intros o' Ho'. eapply slot_alive; [exact I | exact Hx | by eapply list_elem_of_lookup_2 | done]. }
  rewrite Ev. cbn [res_bind]. destruct (decide (st = EC_SUCCESS)) as [->|Hst].
  2: { rewrite bool_decide_false by done. cbn [negb].
       eexists _, h, s. split; [done|]. split; [done|]. apply Hno. left. rewrite Ev. congruence. }
  rewrite bool_decide_true by done. cbn [negb].
  destruct (close_one_run s own ext n p x i sl o h I Hc He Hx Hi Ho) as (st1 & s1 & s2 & s3 & E1 & E2 & E3 & K & Ht).
  rewrite E1. cbn [res_bind]. rewrite E2. cbn [res_bind]. rewrite E3. cbn [res_bind]. eexists _, _, s3. split; [done|].
  split; [done|]. intros j sl' Hcj Hj. destruct (Hcl j sl' Hcj Hj) as (-> & -> & _). by split.
Qed.

Lemma capped_S n s : capped n s -> capped (n + 1) s.
Proof. apply capped_weaken. lia. Qed.

Lemma validate_calm s s' own own' ext ext' sl : ex_inv s own ext -> ex_inv s' own' ext' ->
  gExRuntimeProcessTable s' = gExRuntimeProcessTable s -> gExRuntimeThreadTable s' = gExRuntimeThreadTable s ->
  (forall o, Object sl = Some o -> alive s o /\ alive s' o) ->
  KiValidateCloseHandleSlot sl false s' = KiValidateCloseHandleSlot sl false s.
Proof.
  intros I I' E1 E2 Hal. unfold KiValidateCloseHandleSlot. destruct (Object sl) as [o|]; [|done].
  destruct (Hal o eq_refl) as [A A']. destruct (alive_header s o A) as (h & Eh), (alive_header s' o A') as (h' & Eh').
  destruct (negb _); [done|]. unfold ExRuntimeIsPublishedObject, KiFindProcessSlotByProcess, KiFindThreadSlotByThreadObject.
  rewrite Eh, Eh', E1, E2. cbn [res_bind]. by rewrite (header_type s own ext o h I Eh), (header_type s' own' ext' o h' I' Eh').
Qed.

Lemma close_run s own ext n p h : ex_inv s own ext -> capped n s -> n + 1 < 2 ^ 32 ->
  (p <> 0 -> is_Some (processes s !! p)) ->
  exists st h' s', ExHandleClose p h s = Ok (st, h', s') /\ keeps own ext (n + 1) s s' /\
    (forall x i sl, processes s !! p = Some x -> ReferenceCount (Header x) <> 0 -> closable s x h i ->
       HandleTable x !! i = Some sl -> h' = EX_HANDLE_INVALID /\
       forall x', processes s' !! p = Some x' -> HandleTable x' = <[i := clear_slot sl]> (HandleTable x)).
Proof.
  intros I Hc Hn Hp. unfold ExHandleClose. pose proof (keeps_refl s own ext (n + 1) I (capped_S n s Hc)) as K0.
  destruct (Z.eqb_spec p 0) as [Hz|Hz].
  { eexists _, h, s. split; [done|]. split; [done|]. intros x i sl Hx.
    by destruct (live_process_nz s own ext p I ltac:(by exists x)). }
  destruct (Z.eqb_spec h EX_HANDLE_INVALID) as [->|Hh].
  { eexists _, _, s. split; [done|]. split; [done|]. by intros x i sl _ _ (sl' & _ & Hd & _) _. }
  destruct (Hp Hz) as [x Hx].
  destruct (retain_process_api s own ext n p I Hc Hn Hp) as (r & s1 & E & R). rewrite E.
  destruct R as [R|(-> & ->)].
  2: { cbn [res_bind]. eexists _, h, s. split; [done|]. split; [done|]. intros x0 i sl Hx0 Hr _ _. exfalso.
       unfold ExRuntimeRetainProcess in E. rewrite (proj2 (Z.eqb_neq p 0) Hz) in E. unfold ExObjectRetain in E.
       cbn [ExObjectIsValidType negb get_header] in E. rewrite (proj2 (get_process_ok s p x0) Hx0) in E. cbn [res_bind] in E.
       rewrite (pk_type _ _ _ _ (ei_processes _ _ _ I p x0 Hx0)), bool_decide_true in E by done.
       rewrite (proj2 (Z.eqb_neq _ 0) Hr) in E. cbn [negb orb] in E.
       destruct (put_header _ _ _); try done. cbn [res_bind] in E. rewrite bool_decide_true in E by done. by injection E as ->. }
  destruct R as (-> & Hp0 & I1 & C1 & R1). cbn [res_bind]. rewrite (proj2 (Z.eqb_neq p 0) Hz).
  pose proof (ei_nonneg _ _ _ I (ObjProcess p)). assert (He1 : 0 < move (ObjProcess p) 1 ext (ObjProcess p)) by (rewrite move_here; lia).
  destruct (ei_ext _ _ _ I1 _ He1) as [x1 Hx1].
  destruct (close_body_run s1 own _ (n + 1) p x1 h I1 C1 He1 Hx1) as (st & h' & s2 & -> & (I2 & C2 & K2) & Hex).
  cbn [res_bind]. destruct (release_process_api s2 own _ (n + 1) p I2 C2) as (st2 & s3 & -> & I3 & C3 & R3); [rewrite move_here; lia|].
  cbn [res_bind]. eexists _, h', s3. split; [done|]. split; [split; [|split; [done|]]|].
  - eapply inv_ext_eq; [|exact I3]. intros o'. symmetry. apply (move_cancel _ 1).
  - etrans; [by apply refs_only_calm|]. etrans; [exact K2|]. by apply refs_only_calm.
  - intros x0 i sl Hx0 _ (sl' & Hi & Hd & Hv) Hi'. rewrite Hi in Hi'. injection Hi' as ->.
    destruct (refs_only_process s s1 p x1 R1 Hx1) as (z & Hz' & Ht & _). rewrite Hx0 in Hz'. injection Hz' as <-.
    destruct (Hex i sl) as [-> Ht'].
    + exists sl. rewrite Ht. split; [done|]. split; [done|]. destruct R1 as (_ & _ & T1 & T2 & _).
      rewrite (validate_calm s s1 own own ext _ sl I I1 T1 T2); [done|]. intros o Ho.
      split; [eapply (slot_alive s own ext p x0 sl); [done | done | by eapply list_elem_of_lookup_2 | done]|].
      eapply (slot_alive s1 own _ p x1 sl); [done | done | rewrite Ht; by eapply list_elem_of_lookup_2 | done].
    + by rewrite Ht.
    + split; [done|]. intros x' Hx'. destruct (refs_only_process s2 s3 p x' R3 Hx') as (z & Hz2 & -> & _).
      rewrite (Ht' z Hz2). by rewrite Ht.
Qed.

(** ** Encoding *)

Lemma encode_sum i g : 0 <= i < EX_MAX_HANDLES_PER_PROCESS -> 1 <= g <= EX_HANDLE_GENERATION_MASK ->
  KiEncodeHandle i g = g * 256 + (i + 1).
Proof.
  unfold EX_MAX_HANDLES_PER_PROCESS, EX_HANDLE_GENERATION_MASK, KiEncodeHandle. intros Hi Hg.
  rewrite (proj2 (Z.leb_gt _ i)), (proj2 (Z.eqb_neq g 0)) by (unfold EX_MAX_HANDLES_PER_PROCESS; lia). cbn [orb].
  unfold EX_HANDLE_INDEX_BITS. rewrite Z.shiftl_mul_pow2 by lia. rewrite !u32_small by word_lia.
  change (2 ^ 8) with 256. rewrite <- Z.lxor_lor, <- Z.add_nocarry_lxor; [lia | |];
    (apply Z.bits_inj'; intros k Hk; rewrite Z.land_spec, Z.bits_0; change 256 with (2 ^ 8);
     destruct (Z.ltb_spec k 8); [by rewrite Z.mul_pow2_bits_low by lia|];
     replace (i + 1) with ((i + 1) mod 2 ^ 8) by (apply Z.mod_small; lia);
     by rewrite Z.mod_pow2_bits_high, andb_false_r by lia).
Qed.

Lemma encode_decode i g : 0 <= i < EX_MAX_HANDLES_PER_PROCESS -> 1 <= g <= EX_HANDLE_GENERATION_MASK ->
  KiDecodeHandle (KiEncodeHandle i g) = Some (i, g).
Proof.
  intros Hi Hg. rewrite encode_sum by done. unfold EX_MAX_HANDLES_PER_PROCESS, EX_HANDLE_GENERATION_MASK in *.
  unfold KiDecodeHandle, EX_HANDLE_INVALID, EX_HANDLE_INDEX_MASK, EX_HANDLE_INDEX_BITS, EX_HANDLE_GENERATION_MASK.
  rewrite (proj2 (Z.eqb_neq _ 0)) by lia. change 0xFF with (Z.ones 8). change 0xFFFFFF with (Z.ones 24).
  rewrite !Z.land_ones, Z.shiftr_div_pow2 by lia.
  assert (E1 : (g * 256 + (i + 1)) mod 2 ^ 8 = i + 1) by div_lia.
  assert (E2 : (g * 256 + (i + 1)) / 2 ^ 8 mod 2 ^ 24 = g) by div_lia.
  rewrite E1, E2, (proj2 (Z.eqb_neq (i + 1) 0)), (proj2 (Z.eqb_neq g 0)) by lia. cbn [orb].
  rewrite Z.add_simpl_r, (proj2 (Z.leb_gt _ i)) by (unfold EX_MAX_HANDLES_PER_PROCESS; lia). done.
Qed.

(** ** Insertion *)

Lemma find_free_run (table : list EX_HANDLE_SLOT) k : exists i : nat, find_free_slot k table = k + Z.of_nat i /\
  (i <= length table)%nat /\ (forall sl, table !! i = Some sl -> Object sl = None) /\
  (forall j sl, (j < i)%nat -> table !! j = Some sl -> Object sl <> None).
Proof.
  revert k. induction table as [|sl table IH]; intros k; cbn [find_free_slot].
  - exists 0%nat. split_and!; [lia | done | done | lia].
  - destruct (Object sl) as [o|] eqn:Ho.
    + destruct (IH (k + 1)) as (i & E & Hl & H1' & H2'). exists (S i).
      split_and!; [lia | cbn; lia | done |]. intros [|j] sl' Hj; [intros [= <-]; congruence|]. apply H2'. lia.
    + exists 0%nat. split_and!; [lia | cbn; lia | by intros ? [= <-] | lia].
Qed.

(** What a handle in the table of [p] may name, with rights that let the
    process's teardown close it. *)
Definition insertable s p o (rights : Z) : Prop :=
  owned_object s p o /\ Z.land rights EX_HANDLE_RIGHT_CLOSE = EX_HANDLE_RIGHT_CLOSE.

Lemma owned_refs_only s s' p o : refs_only s s' -> alive s' o -> owned_object s p o -> owned_object s' p o.
Proof.
  intros R Hal. destruct o; cbn; [done | | done]. intros (y & Hy & Hp). destruct Hal as [y' Hy'].
  destruct R as (_ & R & _). destruct (R t y' Hy') as (y0 & Hy0 & E). exists y'. split; [done|].
  rewrite Hy in Hy0. injection Hy0 as <-. rewrite E. done.
Qed.

Lemma put_header_process s o h s' p x : put_header o h s = Ok s' -> processes s !! p = Some x ->
  exists x', processes s' !! p = Some x' /\ HandleTable x' = HandleTable x.
Proof.
  intros E Hx. destruct o as [q|t|q]; cbn in E; unfold upd_process, upd_thread, get_process, get_thread in E;
    (destruct (_ !! _) as [z|] eqn:Ez; [|done]); cbn in E; injection E as <-; cbn.
  - rewrite lookup_insert. destruct (decide (q = p)) as [->|]; [|by exists x]. eexists. split; [done|].
    rewrite Hx in Ez. by injection Ez as <-.
  - by exists x.
  - rewrite lookup_insert. destruct (decide (q = p)) as [->|]; [|by exists x]. eexists. split; [done|].
    rewrite Hx in Ez. by injection Ez as <-.
Qed.

Lemma retain_table s own ext o st s' p x : ex_inv s own ext -> ExObjectRetain (Some o) (type_of o) s = Ok (st, s') ->
  processes s !! p = Some x -> exists x', processes s' !! p = Some x' /\ HandleTable x' = HandleTable x.
Proof.
  intros I E Hx. unfold ExObjectRetain in E. destruct (negb (ExObjectIsValidType _)); [injection E as <- <-; by exists x|].
  destruct (get_header o s) as [h| | |]; try done. cbn [res_bind] in E.
  destruct (negb _ || _); [injection E as <- <-; by exists x|].
  destruct (put_header _ _ _) as [s1| | |] eqn:Es; try done. cbn [res_bind] in E. injection E as <- <-.
  by eapply put_header_process.
Qed.

Lemma put_header_alive_fwd s o h s' o' : put_header o h s = Ok s' -> alive s o' -> alive s' o'.
Proof.
  intros E Hal. destruct o as [q|t|q]; cbn in E; unfold upd_process, upd_thread, get_process, get_thread in E;
    (destruct (_ !! _) as [z|] eqn:Ez; [|done]); cbn in E; injection E as <-; destruct o' as [r|u|r]; cbn in *; try done;
    rewrite lookup_insert; (destruct (decide _); [by eexists | done]).
Qed.

Lemma retain_alive s o st s' o' ty : ExObjectRetain (Some o) ty s = Ok (st, s') -> alive s o' -> alive s' o'.
Proof.
  intros E Hal. unfold ExObjectRetain in E. destruct (negb (ExObjectIsValidType _)); [by injection E as <- <-|].
  destruct (get_header o s) as [h| | |]; try done. cbn [res_bind] in E.
  destruct (negb _ || _); [by injection E as <- <-|].
  destruct (put_header _ _ _) as [s1| | |] eqn:Es; try done. cbn [res_bind] in E. injection E as <- <-.
  by eapply put_header_alive_fwd.
Qed.

(** The outcome of an insertion: the new handle names the slot it filled. *)
Definition inserted s p o (rights : Z) (st : HO_STATUS) (h : EX_HANDLE) s' : Prop :=
  (st = EC_SUCCESS /\ exists (i : nat) g x x' sl, processes s !! p = Some x /\ processes s' !! p = Some x' /\
     HandleTable x !! i = Some sl /\ Object sl = None /\
     HandleTable x' = <[i := mkSlot (Some o) rights g]> (HandleTable x) /\ KiDecodeHandle h = Some (Z.of_nat i, g) /\
     g = (if Generation sl =? 0 then KiAdvanceHandleGeneration 0 else Generation sl))
  \/ (st <> EC_SUCCESS /\ h = EX_HANDLE_INVALID /\ s' = s).

Lemma insert_run s own ext n p o rights : ex_inv s own ext -> capped n s -> n + 1 < 2 ^ 32 -> is_Some (processes s !! p) ->
  insertable s p o rights ->
  exists st h s', ExHandleInsert p (Some o) rights s = Ok (st, h, s') /\ keeps own ext (n + 1) s s' /\
    (forall o', alive s o' -> alive s' o') /\ inserted s p o rights st h s'.
Proof.
  intros I Hc Hn [x Hx] [Hoo Hr]. unfold ExHandleInsert.
  pose proof (keeps_refl s own ext (n + 1) I (capped_S n s Hc)) as K0.
  assert (Hno : forall st : HO_STATUS, st <> EC_SUCCESS -> inserted s p o rights st EX_HANDLE_INVALID s) by (intros; by right).
  destruct (_ || _ || _); [by eauto 10|]. rewrite (proj2 (get_process_ok s p x) Hx). cbn [res_bind].
  destruct (find_free_run (HandleTable x) 0) as (i & -> & Hl & Hfree & _). rewrite Z.add_0_l.
  pose proof (pk_len _ _ _ _ (ei_processes _ _ _ I p x Hx)) as Hlen.
  destruct (Z.leb_spec EX_MAX_HANDLES_PER_PROCESS (Z.of_nat i)); [by eauto 10|].
  assert (Hal : alive s o) by (eapply owned_alive; [by exists x | done]).
  destruct (alive_header s o Hal) as (hd & Eh). unfold KiRetainHandleObject. rewrite Eh. cbn [res_bind].
  rewrite (header_type s own ext o hd I Eh), valid_type. cbn [negb].
  destruct (retain_run s own ext n o I Hc Hn Hal) as (st & s1 & E1 & R). rewrite E1. cbn [res_bind].
  destruct R as [(-> & I1 & C1 & R1)|(-> & -> & _)].
  2: { rewrite bool_decide_false by done. cbn [negb]. by eauto 10. }
  rewrite bool_decide_true by done. cbn [negb].
  destruct (retain_table s own ext o EC_SUCCESS s1 p x I E1 Hx) as (x1 & Hx1 & Ht1).
  rewrite (proj2 (get_process_ok s1 p x1) Hx1). cbn [res_bind]. rewrite Ht1.
  destruct (lookup_lt_is_Some_2 (HandleTable x) i) as [sl Esl].
  { unfold EX_MAX_HANDLES_PER_PROCESS in *. lia. }
  rewrite (proj2 (rd_ok _ _ sl)) by (split; [lia | by rewrite Nat2Z.id]). cbn [res_bind].
  pose proof (lookup_lt_Some _ _ _ Esl). rewrite wr_in by lia. cbn [res_bind]. rewrite Nat2Z.id.
  set (g := if Generation sl =? 0 then _ else _).
  assert (Hsl : slot_ok s p sl).
  { pose proof (pk_slots _ _ _ _ (ei_processes _ _ _ I p x Hx)) as Hs. rewrite Forall_forall in Hs.
    apply Hs. by eapply list_elem_of_lookup_2. }
  assert (Hg : 1 <= g <= EX_HANDLE_GENERATION_MASK).
  { unfold g. destruct Hsl as [Hsl _]. destruct (Z.eqb_spec (Generation sl) 0); [|lia].
    apply generation_range. unfold EX_HANDLE_GENERATION_MASK. lia. }
  assert (Hd : KiDecodeHandle (KiEncodeHandle (Z.of_nat i) g) = Some (Z.of_nat i, g)) by (apply encode_decode; [lia | done]).
  rewrite (proj2 (Z.eqb_neq (KiEncodeHandle _ _) EX_HANDLE_INVALID)) by (intros Eh0; by rewrite Eh0 in Hd).
  eexists _, _, _. split; [done|]. split; [split; [|split]|split].
  - rewrite <- Ht1. eapply inv_put_slot; [exact I1 | exact Hx1 | by rewrite Ht1 | | |].
    + split; [cbn; lia|]. cbn. split; [lia|]. split; [done|].
      pose proof (owned_refs_only s s1 p o R1 (retain_alive s o _ s1 o _ E1 Hal) Hoo) as Ho1. by destruct o.
    + intros o'. unfold holds. rewrite (Hfree sl Esl). cbn [Object]. rewrite (decide_False (P := None = Some o')) by done.
      unfold move. destruct (decide (o' = o)) as [->|]; [rewrite decide_True by done; lia | rewrite decide_False by congruence; lia].
    + apply (ei_nonneg _ _ _ I).
  - by apply capped_put_table.
  - etrans; [by apply refs_only_calm|]. by apply (calm_put_process s1 p x1).
  - intros o' Ha. pose proof (retain_alive s o _ s1 o' _ E1 Ha) as Ha1. destruct o' as [q|u|q]; cbn in *; try done;
      rewrite lookup_insert; (destruct (decide _); [by eexists | done]).
  - left. split; [done|]. exists i, g, x, (set_HandleTable (<[i := mkSlot (Some o) rights g]> (HandleTable x)) x1), sl.
    split; [done|]. split; [cbn; apply lookup_insert_eq|]. split_and!; try done. by apply Hfree.
Qed.

(** ** Resolving *)

(** A resolved handle gives the caller a reference of its own. *)
Definition resolved own ext n s (r : option EX_OBJECT) s' : Prop :=
  match r with
  | None => s' = s
  | Some o => ex_inv s' own (move o 1 ext) /\ capped (n + 1) s' /\ refs_only s s'
  end.

Lemma retain_resolved s own ext n o ty : ex_inv s own ext -> capped n s -> n + 1 < 2 ^ 32 -> alive s o ->
  exists st r s', (let* (status, s) := ExObjectRetain (Some o) ty s in
    if negb (bool_decide (status = EC_SUCCESS)) then Ok (status, None, s) else Ok (EC_SUCCESS, Some o, s)) = Ok (st, r, s') /\
    resolved own ext n s r s' /\
    ((st = EC_SUCCESS /\ r = Some o /\ ty = type_of o) \/ (st <> EC_SUCCESS /\ r = None)).
Proof.
  intros I Hc Hn Hal. destruct (decide (ty = type_of o)) as [->|Hty].
  - destruct (retain_run s own ext n o I Hc Hn Hal) as (st & s1 & E1 & R). rewrite E1. cbn [res_bind].
    destruct R as [(-> & R)|(-> & -> & _)].
    + rewrite bool_decide_true by done. eexists _, _, s1. split; [done|]. split; [done|]. by left.
    + rewrite bool_decide_false by done. eexists _, _, s. split; [done|]. split; [done|]. by right.
  - destruct (alive_header s o Hal) as (hd & Eh). unfold ExObjectRetain. rewrite Eh.
    assert (E : (if negb (ExObjectIsValidType ty) then Ok (EC_INVALID_STATE, s)
      else let* h := Ok hd in
           if negb (bool_decide (Type_ h = ty)) || (ReferenceCount h =? 0) then Ok (EC_INVALID_STATE, s)
           else let* s0 := put_header o (set_ReferenceCount (u32 (ReferenceCount h + 1)) h) s in Ok (EC_SUCCESS, s0))
        = Ok (EC_INVALID_STATE, s)).
    { destruct (negb (ExObjectIsValidType ty)); [done|]. cbn [res_bind].
      rewrite (header_type s own ext o hd I Eh), bool_decide_false by congruence. done. }
    rewrite E. cbn [res_bind]. rewrite bool_decide_false by done. eexists _, _, s. split; [done|]. split; [done|]. by right.
Qed.

Definition resolve_result own ext n s (wanted : EX_OBJECT -> Prop) (out : res (HO_STATUS * option EX_OBJECT * EX W)) : Prop :=
  exists st r s', out = Ok (st, r, s') /\ resolved own ext n s r s' /\
    ((st = EC_SUCCESS /\ exists o, r = Some o /\ wanted o) \/ (st <> EC_SUCCESS /\ r = None)).

Lemma unresolved own ext n s wanted st : st <> EC_SUCCESS -> resolve_result own ext n s wanted (Ok (st, None, s)).
Proof. intros. exists st, None, s. split; [done|]. split; [done|]. by right. Qed.

Lemma resolve_handle_run s own ext n p h ty rights : ex_inv s own ext -> capped n s -> n + 1 < 2 ^ 32 ->
  (p <> 0 -> is_Some (processes s !! p)) ->
  resolve_result own ext n s (fun o => ty = type_of o) (ExHandleResolve p h ty rights s).
Proof.
  intros I Hc Hn Hp. unfold ExHandleResolve. destruct (Z.eqb_spec p 0) as [Hz|Hz]; [by apply unresolved|].
  destruct (negb _); [by apply unresolved|]. destruct (Hp Hz) as [x Hx].
  destruct (lookup_slot_run s own ext p x h I Hx) as [-> | (i & sl & g & -> & Hi & _)]; cbn [res_bind]; [by apply unresolved|].
  destruct (Object sl) as [o|] eqn:Ho; [|rewrite bool_decide_true by done; by apply unresolved].
  rewrite bool_decide_false by done. cbn [orb]. destruct (negb _); [by apply unresolved|].
  destruct (negb _); [by apply unresolved|].
  destruct (retain_resolved s own ext n o ty I Hc Hn) as (st & r & s1 & E & R & Hst).
  { eapply slot_alive; [exact I | exact Hx | by eapply list_elem_of_lookup_2 | done]. }
  exists st, r, s1. split; [done|]. split; [done|]. destruct Hst as [(-> & -> & ->)|(? & ->)]; [left; by eauto | by right].
Qed.

Lemma resolve_waitable_run s own ext n p h rights : ex_inv s own ext -> capped n s -> n + 1 < 2 ^ 32 ->
  (p <> 0 -> is_Some (processes s !! p)) ->
  resolve_result own ext n s (fun o => KiObjectTypeIsWaitable (type_of o) = true) (ExHandleResolveWaitable p h rights s).
Proof.
  intros I Hc Hn Hp. unfold ExHandleResolveWaitable. destruct (Z.eqb_spec p 0) as [Hz|Hz]; [by apply unresolved|].
  destruct (Hp Hz) as [x Hx].
  destruct (lookup_slot_run s own ext p x h I Hx) as [-> | (i & sl & g & -> & Hi & _)]; cbn [res_bind]; [by apply unresolved|].
  destruct (Object sl) as [o|] eqn:Ho; [|by apply unresolved].
  destruct (negb _); [by apply unresolved|]. destruct (negb _); [by apply unresolved|].
  assert (Hal : alive s o) by (eapply slot_alive; [exact I | exact Hx | by eapply list_elem_of_lookup_2 | done]).
  destruct (alive_header s o Hal) as (hd & Eh). rewrite Eh. cbn [res_bind]. rewrite (header_type s own ext o hd I Eh).
  destruct (KiObjectTypeIsWaitable (type_of o)) eqn:Ew; [|by apply unresolved]. cbn [negb].
  destruct (retain_resolved s own ext n o (type_of o) I Hc Hn Hal) as (st & r & s1 & E & R & Hst).
  exists st, r, s1. split; [done|]. split; [done|]. destruct Hst as [(-> & -> & _)|(? & ->)]; [left; by eauto | by right].
Qed.
End handles.
