(* ===== verification/ExLife.v ===== *)
(** * Life cycle of processes and threads: the moves

    Fresh structures, adoption of a process by its thread, publication in the
    tables and its reversal, completion: each as a step between the accounts
    of [ExInv.v]. *)

From S2P Require Import Prelude Ex ExInv ExRefs ExHandles.

Local Open Scope Z_scope.

Section life.
Context {W : Type} `{ExLaws W}.
Implicit Types (s : EX W) (p t kt : Z) (o : EX_OBJECT) (x : EX_PROCESS) (y : EX_THREAD)
  (own : gset Z) (ext : EX_OBJECT -> Z).

(** ** Services *)

Lemma capped_svc n s w : capped n s -> capped n (set_Svc w s).
Proof. intros Hc o h Eo. apply (Hc o h). by destruct o. Qed.

Lemma calm_svc s w : (forall kt, is_Some (kernel_thread kt (Svc s)) -> is_Some (kernel_thread kt w)) -> calm s (set_Svc w s).
Proof.
  intros Hk. split; [|split; [|split; [done|split; [done|split; [by apply survivors_same|done]]]]]; cbn.
  - intros p x Hx. by exists x.
  - intros t y Hy. by exists y.
Qed.

Lemma evolves_keeps s own ext n w : ex_inv s own ext -> capped n s -> evolves (Svc s) w -> keeps own ext n s (set_Svc w s).
Proof.
  intros I Hc Hw. split; [by apply inv_svc|]. split; [by apply capped_svc|]. by apply calm_svc, Hw.
Qed.

Lemma quiet_keeps s own ext n w : ex_inv s own ext -> capped n s -> quiet_call (Svc s) w -> keeps own ext n s (set_Svc w s).
Proof. intros I Hc Hq. apply evolves_keeps; [done | done |]. by apply quiet_law. Qed.

Lemma calm_ptab s s' : calm s s' -> gExRuntimeProcessTable s' = gExRuntimeProcessTable s.
Proof. by intros (_ & _ & ? & _). Qed.

Lemma refs_only_ptab s s' : refs_only s s' -> gExRuntimeProcessTable s' = gExRuntimeProcessTable s.
Proof. by intros (_ & _ & ? & _). Qed.

(** An account of an object that does not exist is empty. *)
Lemma ext_dead s own ext o : ex_inv s own ext -> ~ alive s o -> ext o = 0.
Proof. intros I Hal. pose proof (ei_nonneg _ _ _ I o). destruct (decide (0 < ext o)); [|lia]. by destruct Hal; apply (ei_ext _ _ _ I). Qed.

Lemma owners_dead s own ext p : ex_inv s own ext -> processes s !! p = None -> p <> 0 -> owners p (exthreads s) = 0.
Proof.
  intros I Hp Hz. unfold owners. rewrite map_empty_filter_2; [done|].
  intros t y Hy E. cbn in E. subst p. destruct (tk_proc _ _ _ _ _ (ei_threads _ _ _ I t y Hy)) as [?|[? ?]]; congruence.
Qed.

(** ** Fresh structures *)

Lemma handles_initial o : length (filter (fun sl => Object sl = Some o) ExHandleInitializeTable) = 0%nat.
Proof. unfold ExHandleInitializeTable. generalize (Z.to_nat EX_MAX_HANDLES_PER_PROCESS) as k. by induction k. Qed.

Lemma inv_new_process s own ext p : ex_inv s own ext -> p <> 0 -> processes s !! p = None -> exthreads s !! p = None ->
  allocated (Svc s) p ->
  ex_inv (put_process p (ExRuntimeInitializeProcessObject p) s) own (move (ObjProcess p) 1 ext).
Proof.
  intros I Hz Hp Ht Ha.
  assert (E0 : ext (ObjProcess p) = 0) by (eapply ext_dead; [exact I | intros [? ?]; cbn in *; congruence]).
  assert (E1 : ext (ObjStdout p) = 0) by (eapply ext_dead; [exact I | intros [? ?]; cbn in *; congruence]).
  pose proof (owners_dead s own ext p I Hp Hz) as Eo. destruct I.
  constructor; cbn; try done.
  - intros q z. rewrite lookup_insert. destruct (decide (p = q)) as [<-|Hq].
    + intros [= <-]. constructor; try done.
      * cbn. rewrite move_here, Eo, E0. unfold handles. cbn [HandleTable ExRuntimeInitializeProcessObject
          ExRuntimeInitializeStdoutServiceObject set_StdoutOwner set_StdoutHeader]. by rewrite handles_initial.
      * rewrite move_other, E1 by congruence. unfold handles. cbn [HandleTable ExRuntimeInitializeProcessObject
          ExRuntimeInitializeStdoutServiceObject set_StdoutOwner set_StdoutHeader]. by rewrite handles_initial.
      * apply Forall_replicate. split; [cbn; unfold EX_HANDLE_GENERATION_MASK; lia | done].
    + intros Hzz. destruct (ei_processes q z Hzz). constructor; try done; rewrite move_other by congruence; done.
  - intros t y Hy. destruct (ei_threads t y Hy). constructor; try done.
    + destruct tk_proc as [|Hs]; [by left|]. right. cbn. rewrite lookup_insert. by destruct (decide (p = Process y)).
    + rewrite move_other by congruence. rewrite tk_refs. unfold thread_handles. cbn. rewrite lookup_insert.
      destruct (decide (p = Process y)) as [Hq|]; [|done]. rewrite <- Hq, Hp. unfold handles.
      cbn [HandleTable ExRuntimeInitializeProcessObject ExRuntimeInitializeStdoutServiceObject set_StdoutOwner set_StdoutHeader].
      by rewrite handles_initial.
  - intros o. unfold move. pose proof (ei_nonneg o). destruct (decide _); lia.
  - intros o. unfold move. destruct (decide (o = ObjProcess p)) as [->|Ho].
    + intros _. cbn. rewrite lookup_insert_eq. by eexists.
    + intros Hpos. pose proof (ei_ext o Hpos) as Hal. destruct o as [q|u|q]; cbn in *; try done; rewrite lookup_insert;
        (destruct (decide (p = q)); [by eexists | done]).
  - rewrite Forall_forall in *. intros e He Hact. destruct (ei_ptab e He Hact) as (z & Hzz & Hr). exists z. split; [|done].
    cbn. rewrite lookup_insert_ne; [done|]. intros ->. congruence.
  - intros a z. rewrite lookup_insert. destruct (decide (p = a)) as [<-|]; [done | apply ei_apart].
  - intros a Hal. rewrite lookup_insert in Hal. destruct (decide (p = a)) as [<-|]; [done | by apply ei_allocated].
Qed.

Lemma inv_new_thread s own ext t : ex_inv s own ext -> t <> 0 -> exthreads s !! t = None -> processes s !! t = None ->
  allocated (Svc s) t -> ex_inv (put_thread t ExRuntimeInitializeThreadObject s) own (move (ObjThread t) 1 ext).
Proof.
  intros I Hz Ht Hp Ha.
  assert (E0 : ext (ObjThread t) = 0) by (eapply ext_dead; [exact I | intros [? ?]; cbn in *; congruence]).
  assert (Hown : t ∉ own) by (intros Hin; destruct (ei_own _ _ _ I t Hin); congruence).
  assert (H00 : processes s !! 0 = None).
  { destruct (processes s !! 0) as [z|] eqn:E; [|done]. by destruct (pk_nz _ _ _ _ (ei_processes _ _ _ I 0 z E)). }
  destruct I. constructor; cbn; try done.
  - intros q z Hzz. destruct (ei_processes q z Hzz). constructor; try done.
    + cbn. rewrite ?move_other by congruence. rewrite owners_insert by done. cbn [Process ExRuntimeInitializeThreadObject].
      rewrite decide_False by congruence. lia.
    + eapply Forall_impl; [exact pk_slots|]. intros sl [G Hsl]. split; [done|]. destruct (Object sl) as [[r|u|r]|]; try done.
      destruct Hsl as (G1 & G2 & y & Hy & Hpy). split; [done|]. split; [done|]. exists y. cbn.
      rewrite lookup_insert_ne; [done|]. intros ->. congruence.
  - intros u y. rewrite lookup_insert. destruct (decide (t = u)) as [<-|Hu].
    + intros [= <-]. constructor; try done.
      * by left.
      * unfold thread_handles. cbn. rewrite H00, move_here, E0, decide_False by done. done.
    + intros Hy. destruct (ei_threads u y Hy). constructor; try done. by rewrite move_other by congruence.
  - intros o. unfold move. pose proof (ei_nonneg o). destruct (decide _); lia.
  - intros o. unfold move. destruct (decide (o = ObjThread t)) as [->|Ho].
    + intros _. cbn. rewrite lookup_insert_eq. by eexists.
    + intros Hpos. pose proof (ei_ext o Hpos) as Hal. destruct o as [q|u|q]; cbn in *; try done; rewrite lookup_insert;
        (destruct (decide (t = u)); [by eexists | done]).
  - intros u Hu. rewrite lookup_insert. destruct (decide (t = u)); [by eexists | by apply ei_own].
  - rewrite Forall_forall in *. intros e He Hact. destruct (ei_ptab e He Hact) as (z & Hzz & Hr). exists z. split; [done|].
    destruct Hr as [|(e2 & y & T1 & T2 & T3 & T4)]; [by left|]. right. exists e2, y. cbn.
    rewrite lookup_insert_ne; [done|]. intros ->. congruence.
  - rewrite Forall_forall in *. intros e He Hact. destruct (ei_ttab e He Hact) as (T1 & y & T2 & T3). split; [done|].
    exists y. cbn. rewrite lookup_insert_ne; [done|]. intros ->. congruence.
  - intros i j e1 e2 y1 y2 G1 G2 G3 G4. cbn in *. rewrite !lookup_insert. rewrite Forall_forall in ei_ttab.
    pose proof (ei_ttab e1 ltac:(by eapply list_elem_of_lookup_2) G3) as (O1 & _).
    pose proof (ei_ttab e2 ltac:(by eapply list_elem_of_lookup_2) G4) as (O2 & _).
    rewrite !decide_False by (intros ->; done). by apply (ei_distinct i j e1 e2 y1 y2).
  - intros a z Hzz. rewrite lookup_insert_ne; [by eapply ei_apart|]. intros ->. congruence.
  - intros a Hal. rewrite lookup_insert in Hal. destruct (decide (t = a)) as [<-|]; [done | by apply ei_allocated].
Qed.

(** ** A thread changes its process *)

Definition b2z (P : Prop) `{Decision P} : Z := if decide P then 1 else 0.

Lemma no_thread_slot s own ext t y p x sl : ex_inv s own ext -> exthreads s !! t = Some y -> thread_handles s t y = 0 ->
  processes s !! p = Some x -> sl ∈ HandleTable x -> Object sl <> Some (ObjThread t).
Proof.
  intros I Hy Hh Hx Hin Ho. destruct (slot_alive s own ext p x sl _ I Hx Hin Ho) as [_ (z & Hz & Hp)].
  rewrite Hy in Hz. injection Hz as <-. subst p. unfold thread_handles in Hh. rewrite Hx in Hh.
  by apply (handles_zero _ _ Hh sl Hin).
Qed.

Lemma no_thread_handles s own ext t y p x : ex_inv s own ext -> exthreads s !! t = Some y -> thread_handles s t y = 0 ->
  processes s !! p = Some x -> handles (ObjThread t) x = 0.
Proof.
  intros I Hy Hh Hx. unfold handles.
  assert (E : filter (fun sl => Object sl = Some (ObjThread t)) (HandleTable x) = []); [|by rewrite E].
  apply elem_of_nil_inv. intros sl [Ho Hin]%list_elem_of_filter. by eapply no_thread_slot.
Qed.

Lemma inv_reowner s own ext ext' t y y' : ex_inv s own ext -> exthreads s !! t = Some y -> thread_handles s t y = 0 ->
  tHeader y' = tHeader y -> (Process y' = 0 \/ is_Some (processes s !! Process y')) ->
  (forall e, e ∈ gExRuntimeThreadTable s -> Active e = true -> Entry e <> t) ->
  (forall o, ext' o = ext o + b2z (o = ObjProcess (Process y) /\ Process y <> 0) - b2z (o = ObjProcess (Process y') /\ Process y' <> 0)) ->
  (forall o, 0 <= ext' o) ->
  ex_inv (put_thread t y' s) own ext'.
Proof.
  intros I Hy Hh Eh Hp' Htab Hext Hnn. pose proof (no_thread_handles s own ext t y) as Hnh.
  pose proof (no_thread_slot s own ext t y) as Hns.
  assert (Hpnz : forall q z, processes s !! q = Some z -> q <> 0).
  { intros q z Hz. by destruct (ei_processes _ _ _ I q z Hz). }
  assert (Hother : forall o, (forall q, o <> ObjProcess q) -> ext' o = ext o).
  { intros o Ho. rewrite Hext. unfold b2z. rewrite !decide_False; [lia | by intros [? _]; eapply Ho | by intros [? _]; eapply Ho]. }
  assert (Halive : forall o, alive s o -> alive (put_thread t y' s) o).
  { intros [q|u|q]; cbn; try done. rewrite lookup_insert. by destruct (decide (t = u)). }
  pose proof (ei_threads _ _ _ I t y Hy) as Hok. pose proof I as I0. destruct I.
  constructor; cbn [put_thread set_exthreads processes exthreads gExRuntimeProcessTable gExRuntimeThreadTable Svc]; try done.
  - intros q z Hz. pose proof (ei_processes q z Hz) as Hq. destruct Hq. constructor; try done.
    + cbn. rewrite (owners_update q t y y') by done. rewrite pk_refs, Hext. unfold b2z.
      assert (E1 : (if decide (ObjProcess q = ObjProcess (Process y) /\ Process y <> 0) then 1 else 0) =
                   (if decide (Process y = q) then 1 else 0)).
      { destruct (decide (Process y = q)) as [Eq|Eq]; [rewrite decide_True by (split; congruence) | rewrite decide_False by (intros [? ?]; congruence)]; done. }
      assert (E2 : (if decide (ObjProcess q = ObjProcess (Process y') /\ Process y' <> 0) then 1 else 0) =
                   (if decide (Process y' = q) then 1 else 0)).
      { destruct (decide (Process y' = q)) as [Eq|Eq]; [rewrite decide_True by (split; congruence) | rewrite decide_False by (intros [? ?]; congruence)]; done. }
      rewrite E1, E2. lia.
    + rewrite Hother by congruence. done.
    + rewrite Forall_forall in *. intros sl Hin. destruct (pk_slots sl Hin) as [G Hs]. split; [done|].
      destruct (Object sl) as [[r|u|r]|] eqn:Eo; try done. destruct Hs as (G1 & G2 & z' & Hz' & Hpz). split; [done|].
      split; [done|]. exists z'. cbn. rewrite lookup_insert_ne; [done|]. intros <-. by apply (Hns q z sl).
  - intros u z. rewrite lookup_insert. destruct (decide (t = u)) as [<-|Hu].
    + intros [= <-]. destruct Hok. constructor; rewrite ?Eh; try done. rewrite Hother by congruence.
      unfold thread_handles. cbn. destruct (processes s !! Process y') as [z|] eqn:Ez; [rewrite (Hnh _ z) by done|]; lia.
    + intros Hz. destruct (ei_threads u z Hz). constructor; try done. by rewrite Hother by congruence.
  - intros o Ho. apply Halive. destruct o as [q|u|q]; [|by apply ei_ext; rewrite <- Hother by congruence..].
    rewrite Hext in Ho. unfold b2z in Ho. destruct (decide (ObjProcess q = ObjProcess (Process y) /\ _)) as [[[= ->] Hz]|Hne].
    + destruct Hok. by destruct tk_proc.
    + apply ei_ext. destruct (decide _); lia.
  - intros u Hu. rewrite lookup_insert. destruct (decide (t = u)); [by eexists | by apply ei_own].
  - rewrite Forall_forall in *. intros e He Hact. destruct (ei_ptab e He Hact) as (z & Hzz & Hr). exists z. split; [done|].
    destruct Hr as [|(e2 & z2 & T1 & T2 & T3 & T4)]; [by left|]. right. exists e2, z2. cbn.
    rewrite lookup_insert_ne; [done|]. intros E. by apply (Htab e2).
  - rewrite Forall_forall in *. intros e He Hact. destruct (ei_ttab e He Hact) as (T1 & z & T2 & T3). split; [done|].
    exists z. cbn. rewrite lookup_insert_ne; [done|]. intros E. by apply (Htab e).
  - intros i j e1 e2 y1 y2 G1 G2 G3 G4. cbn in *.
    rewrite !lookup_insert_ne; [by apply (ei_distinct i j e1 e2 y1 y2) | |]; intros E;
      [apply (Htab e2) | apply (Htab e1)]; try done; by eapply list_elem_of_lookup_2.
  - intros a z Hz. pose proof (ei_apart a z Hz). rewrite lookup_insert_ne; [done|]. intros <-. congruence.
  - intros a [Ha|Ha]; apply ei_allocated; [by left|]. right. revert Ha. rewrite lookup_insert.
    destruct (decide (t = a)) as [<-|]; [|done]. intros _. by exists y.
Qed.

(** ** Replacing the tables *)

Definition with_tables ptab ttab s : EX W := set_gExRuntimeThreadTable ttab (set_gExRuntimeProcessTable ptab s).

Lemma inv_tables s own own' ext ext' ptab ttab : ex_inv s own ext ->
  length ptab = length (gExRuntimeProcessTable s) -> length ttab = length (gExRuntimeThreadTable s) ->
  (forall t, b2z (t ∈ own) + ext (ObjThread t) = b2z (t ∈ own') + ext' (ObjThread t)) ->
  (forall o, (forall t, o <> ObjThread t) -> ext' o = ext o) -> (forall o, 0 <= ext' o) ->
  (forall t, t ∈ own' -> t ∈ own \/ 0 < ext (ObjThread t)) ->
  (forall t, t ∈ own' -> published_thread_object (with_tables ptab ttab s) t) ->
  Forall (pentry_ok (with_tables ptab ttab s)) ptab -> Forall (tentry_ok s own') ttab ->
  threads_distinct (with_tables ptab ttab s) -> processes_distinct (with_tables ptab ttab s) ->
  ex_inv (with_tables ptab ttab s) own' ext'.
Proof.
  intros I Hl1 Hl2 Hsum Hoth Hnn Hown Hpub Hp Ht Hd Hpd. pose proof (held_nonzero s own ext) as _. destruct I.
  constructor; try done.
  - intros p x Hx. destruct (ei_processes p x Hx). constructor; try done; rewrite Hoth by congruence; done.
  - intros t y Hy. destruct (ei_threads t y Hy). constructor; try done. specialize (Hsum t). unfold b2z in Hsum.
    change (thread_handles (with_tables ptab ttab s) t y) with (thread_handles s t y). lia.
  - intros o Ho. destruct o as [q|t|q]; [by apply (ei_ext (ObjProcess q)); rewrite <- Hoth by congruence | |
                                          by apply (ei_ext (ObjStdout q)); rewrite <- Hoth by congruence].
    specialize (Hsum t). unfold b2z in Hsum. destruct (decide (t ∈ own)) as [Hin|]; [by apply ei_own|].
    apply (ei_ext (ObjThread t)). destruct (decide (t ∈ own')); lia.
  - intros t Hin. destruct (Hown t Hin) as [?|?]; [by apply ei_own | by apply (ei_ext (ObjThread t))].
  - by rewrite <- ei_plen.
  - by rewrite <- ei_tlen.
Qed.

(** ** Publication *)

Lemma active_at (l : list TABLE_ENTRY) (i j : nat) e e' : l !! i = Some e -> Active e = false ->
  l !! j = Some e' -> Active e' = true -> i <> j.
Proof. intros Hi Ha Hj Ha' ->. rewrite Hi in Hj. injection Hj as <-. congruence. Qed.

Lemma insert_active (l : list TABLE_ENTRY) (i j : nat) e e' : (i < length l)%nat -> <[i := e]> l !! j = Some e' ->
  (j = i /\ e' = e) \/ (j <> i /\ l !! j = Some e').
Proof.
  intros Hl Hj. destruct (decide (j = i)) as [->|Hne].
  - rewrite list_lookup_insert_eq in Hj by done. injection Hj as <-. by left.
  - rewrite list_lookup_insert_ne in Hj by done. by right.
Qed.

Lemma inv_publish s own ext p t x y (i j : nat) e1 e2 : ex_inv s own ext -> processes s !! p = Some x ->
  exthreads s !! t = Some y -> Process y = p -> Thread y <> 0 -> is_Some (kernel_thread (Thread y) (Svc s)) ->
  0 < ext (ObjThread t) -> t ∉ own ->
  gExRuntimeProcessTable s !! i = Some e1 -> Active e1 = false ->
  gExRuntimeThreadTable s !! j = Some e2 -> Active e2 = false ->
  (forall e, e ∈ gExRuntimeProcessTable s -> Active e = true -> Entry e <> p) ->
  (forall e z, e ∈ gExRuntimeThreadTable s -> Active e = true -> exthreads s !! Entry e = Some z -> Thread z <> Thread y) ->
  ex_inv (with_tables (<[i := mkEntry true p]> (gExRuntimeProcessTable s)) (<[j := mkEntry true t]> (gExRuntimeThreadTable s)) s)
    (own ∪ {[t]}) (move (ObjThread t) (-1) ext).
Proof.
  intros I Hx Hy Hp Hk Hks He Hown Hi Ha1 Hj Ha2 Hnp Hnt.
  assert (Hpnz : p <> 0) by (eapply live_process_nz; [exact I | by exists x]).
  pose proof (lookup_lt_Some _ _ _ Hi) as Li. pose proof (lookup_lt_Some _ _ _ Hj) as Lj.
  set (s' := with_tables _ _ s).
  assert (Hkeep : forall e, e ∈ gExRuntimeThreadTable s -> Active e = true -> e ∈ gExRuntimeThreadTable s').
  { intros e He' Hact. apply list_elem_of_lookup in He' as [k Hk']. apply list_elem_of_lookup. exists k. cbn.
    rewrite list_lookup_insert_ne; [done|]. by eapply active_at. }
  pose proof (ei_ptab _ _ _ I) as Hpt. pose proof (ei_ttab _ _ _ I) as Htt. rewrite Forall_forall in Hpt, Htt.
  apply (inv_tables s own (own ∪ {[t]}) ext); try (by rewrite length_insert); try done.
  - intros u. unfold b2z, move. destruct (decide (u = t)) as [->|Hu].
    + rewrite decide_False, decide_True, decide_True by (done || set_solver). lia.
    + rewrite (decide_False (P := ObjThread u = ObjThread t)) by congruence.
      destruct (decide (u ∈ own)), (decide (u ∈ own ∪ {[t]})); try done; set_solver.
  - intros o Ho. by apply move_other.
  - intros o. pose proof (ei_nonneg _ _ _ I o). unfold move. destruct (decide _) as [->|]; lia.
  - intros u [Hu|Hu%elem_of_singleton]%elem_of_union; [by left|]. subst u. by right.
  - intros u [Hu|Hu%elem_of_singleton]%elem_of_union.
    + destruct (ei_published _ _ _ I u Hu) as (e & He' & Hact & Eu). exists e. by split; [apply Hkeep|].
    + subst u. exists (mkEntry true t). split; [|done]. apply list_elem_of_lookup. exists j. cbn. by rewrite list_lookup_insert_eq.
  - apply Forall_forall. intros e [k Hk']%list_elem_of_lookup Hact.
    apply insert_active in Hk' as [[-> ->]|[Hne Hk']]; [| |done].
    + exists x. split; [done|]. right. exists (mkEntry true t), y. split; [|done].
      apply list_elem_of_lookup. exists j. cbn. by rewrite list_lookup_insert_eq.
    + destruct (Hpt e) as (z & Hz & Hr); [by eapply list_elem_of_lookup_2 | done |]. exists z. split; [done|].
      destruct Hr as [|(e3 & z3 & T1 & T2 & T3 & T4)]; [by left|]. right. exists e3, z3. split; [by apply Hkeep | done].
  - apply Forall_forall. intros e [k Hk']%list_elem_of_lookup Hact.
    apply insert_active in Hk' as [[-> ->]|[Hne Hk']]; [| |done].
    + split; [set_solver|]. exists y. cbn. split; [done|]. split; [done|]. split; [by rewrite Hp | done].
    + destruct (Htt e) as (T1 & T2); [by eapply list_elem_of_lookup_2 | done |]. split; [set_solver | done].
  - intros k l f1 f2 y1 y2 G1 G2 G3 G4 G5 G6 G7. cbn in *.
    apply insert_active in G1 as [[-> ->]|[N1 G1]]; [| |done]; (apply insert_active in G2 as [[-> ->]|[N2 G2]]; [| |done]); try done.
    + cbn in G5. rewrite Hy in G5. injection G5 as <-.
      destruct (Hnt f2 y2); [by eapply list_elem_of_lookup_2 | done | done | congruence].
    + cbn in G6. rewrite Hy in G6. injection G6 as <-.
      destruct (Hnt f1 y1); [by eapply list_elem_of_lookup_2 | done | done | congruence].
    + by apply (ei_distinct _ _ _ I k l f1 f2 y1 y2).
  - intros k l f1 f2 G1 G2 G3 G4 G5. cbn in *.
    apply insert_active in G1 as [[-> ->]|[N1 G1]]; [| |done]; (apply insert_active in G2 as [[-> ->]|[N2 G2]]; [| |done]); try done.
    + destruct (Hnp f2); [by eapply list_elem_of_lookup_2 | done | by rewrite <- G5].
    + destruct (Hnp f1); [by eapply list_elem_of_lookup_2 | done | by rewrite G5].
    + by apply (ei_pdistinct _ _ _ I k l f1 f2).
Qed.

(** What is left of a table after some entries were cleared. *)
Definition cleared (l l' : list TABLE_ENTRY) : Prop :=
  length l' = length l /\ forall k e, l' !! k = Some e -> Active e = true -> l !! k = Some e.

Lemma cleared_refl l : cleared l l.
Proof. done. Qed.

Lemma cleared_insert l (i : nat) : (i < length l)%nat -> cleared l (<[i := mkEntry false 0]> l).
Proof.
  intros Hi. split; [by rewrite length_insert|]. intros k e Hk Ha. apply insert_active in Hk as [[-> ->]|[_ Hk]]; done.
Qed.

Lemma inv_unpublish s own ext t y (i : nat) e ptab : ex_inv s own ext ->
  gExRuntimeThreadTable s !! i = Some e -> Active e = true -> Entry e = t -> exthreads s !! t = Some y ->
  cleared (gExRuntimeProcessTable s) ptab ->
  (forall f, f ∈ ptab -> Active f = true -> Entry f = Process y -> exists x, processes s !! Process y = Some x /\ CompletionRetained x = true) ->
  ex_inv (with_tables ptab (<[i := mkEntry false 0]> (gExRuntimeThreadTable s)) s) (own ∖ {[t]}) (move (ObjThread t) 1 ext).
Proof.
  intros I Hi Ha He Hy [Hl Hcl] Hret. pose proof (lookup_lt_Some _ _ _ Hi) as Li.
  pose proof (ei_ptab _ _ _ I) as Hpt. pose proof (ei_ttab _ _ _ I) as Htt. rewrite Forall_forall in Hpt, Htt.
  assert (Hin : t ∈ own). { destruct (Htt e) as [Hin _]; [by eapply list_elem_of_lookup_2 | done |]. by rewrite <- He. }
  apply (inv_tables s own (own ∖ {[t]}) ext); try (by rewrite ?length_insert); try done.
  - intros u. unfold b2z, move. destruct (decide (u = t)) as [->|Hu].
    + rewrite decide_True, decide_False, decide_True by (done || set_solver). lia.
    + rewrite (decide_False (P := ObjThread u = ObjThread t)) by congruence.
      destruct (decide (u ∈ own)), (decide (u ∈ own ∖ {[t]})); try done; set_solver.
  - intros o Ho. by apply move_other.
  - intros o. pose proof (ei_nonneg _ _ _ I o). unfold move. destruct (decide _) as [->|]; lia.
  - intros u Hu. left. set_solver.
  - intros u [Hu Hut]%elem_of_difference. destruct (ei_published _ _ _ I u Hu) as (f & [k Hk]%list_elem_of_lookup & Hact & Eu).
    exists f. split; [|done]. apply list_elem_of_lookup. exists k. cbn. rewrite list_lookup_insert_ne; [done|].
    intros <-. rewrite Hi in Hk. injection Hk as <-. apply Hut. set_solver.
  - apply Forall_forall. intros f Hf Hact. pose proof Hf as [k Hk]%list_elem_of_lookup.
    destruct (Hpt f) as (z & Hz & Hr); [by eapply list_elem_of_lookup_2, Hcl | done |]. exists z. split; [done|].
    destruct (decide (Entry f = Process y)) as [E|E].
    { destruct (Hret f Hf Hact E) as (z' & Hz' & Hr'). rewrite E, Hz' in Hz. injection Hz as <-. by left. }
    destruct Hr as [|(e3 & z3 & T1 & T2 & T3 & T4)]; [by left|]. right. exists e3, z3. split; [|done]. cbn.
    apply list_elem_of_lookup in T1 as [k' Hk']. apply list_elem_of_lookup. exists k'.
    rewrite list_lookup_insert_ne; [done|]. intros <-. rewrite Hi in Hk'. injection Hk' as <-. rewrite He, Hy in T3.
    injection T3 as <-. congruence.
  - apply Forall_forall. intros f [k Hk]%list_elem_of_lookup Hact. apply insert_active in Hk as [[-> ->]|[Hne Hk]]; [done| |done].
    destruct (Htt f) as (T1 & z & T2 & T3); [by eapply list_elem_of_lookup_2 | done |]. split; [|by exists z].
    apply elem_of_difference. split; [done|]. intros E%elem_of_singleton.
    assert (k = i); [|done]. rewrite E in T2. rewrite Hy in T2. injection T2 as <-.
    apply (ei_distinct _ _ _ I k i f e y y); try done; by rewrite ?E, ?He.
  - intros k l f1 f2 y1 y2 G1 G2 G3 G4. cbn in *.
    apply insert_active in G1 as [[-> ->]|[N1 G1]]; [done| |done]; apply insert_active in G2 as [[-> ->]|[N2 G2]]; [done| |done].
    by apply (ei_distinct _ _ _ I k l f1 f2 y1 y2).
  - intros k l f1 f2 G1 G2 G3 G4. cbn in *. apply (ei_pdistinct _ _ _ I k l f1 f2); try done; by apply Hcl.
Qed.

(** Clearing process entries alone. *)
Lemma inv_clear_processes s own ext ptab : ex_inv s own ext -> cleared (gExRuntimeProcessTable s) ptab ->
  ex_inv (set_gExRuntimeProcessTable ptab s) own ext.
Proof.
  intros I [Hl Hcl]. pose proof (ei_ptab _ _ _ I) as Hpt. rewrite Forall_forall in Hpt.
  apply (inv_tables s own own ext ext ptab (gExRuntimeThreadTable s)); try done.
  - apply (ei_nonneg _ _ _ I).
  - intros t Ht. by left.
  - apply (ei_published _ _ _ I).
  - apply Forall_forall. intros f [k Hk]%list_elem_of_lookup Hact.
    apply (Hpt f); [by eapply list_elem_of_lookup_2, Hcl | done].
  - apply (ei_ttab _ _ _ I).
  - exact (ei_distinct _ _ _ I).
  - intros k l f1 f2 G1 G2 G3 G4. cbn in *. apply (ei_pdistinct _ _ _ I k l f1 f2); try done; by apply Hcl.
Qed.

(** ** Completion *)

Lemma inv_completion s own ext p x (b : bool) : ex_inv s own ext -> processes s !! p = Some x ->
  let ext' := move (ObjProcess p) (Z.b2z (CompletionRetained x) - Z.b2z b) ext in
  0 <= ext' (ObjProcess p) ->
  (CompletionRetained x = true -> b = true \/ forall e, e ∈ gExRuntimeProcessTable s -> Active e = true -> Entry e <> p) ->
  ex_inv (put_process p (set_CompletionRetained b x) s) own ext'.
Proof.
  intros I Hx ext' He Hb. pose proof (ei_processes _ _ _ I p x Hx) as Hok.
  eapply inv_put_process; [exact I | exact Hx | | | | | | exact Hb].
  - destruct Hok. constructor; try done; cbn.
    unfold ext'. rewrite move_here. unfold handles in *. cbn. lia.
  - intros [q|u|q] Hq; try done; apply move_other; congruence.
  - intros t y _ _. unfold ext'. by rewrite move_other by congruence.
  - intros t _. apply move_other; congruence.
  - intros o. destruct (decide (o = ObjProcess p)) as [->|Ho]; [done|]. unfold ext'. rewrite move_other by done.
    apply (ei_nonneg _ _ _ I).
Qed.
End life.
