(* ===== verification/ExCalls.v ===== *)
(** * The executive's calls

    Every call of [process.c], [thread.c], [runtime_table.c], the thread
    finalisation and the process-control calls on a well-formed state: it
    returns, and the invariant of [ExInv.v] holds again with the accounts
    moved as the call promises. *)

From S2P Require Import Prelude Ex ExInv ExRefs ExHandles ExLife.

Local Open Scope Z_scope.

Section calls.
Context {W : Type} `{ExLaws W}.
Implicit Types (s : EX W) (p t kt : Z) (o : EX_OBJECT) (x : EX_PROCESS) (y : EX_THREAD)
  (own : gset Z) (ext : EX_OBJECT -> Z).

(** ** Searching *)

Lemma process_search s own ext f : ex_inv s own ext ->
  (forall e x, Active e = true -> processes s !! Entry e = Some x -> exists b, f e = Ok b) ->
  (forall e, Active e = false -> exists b, f e = Ok b) ->
  exists i : nat, find_slot 0 (gExRuntimeProcessTable s) f = Ok (Z.of_nat i) /\
    (((Z.of_nat i <? EX_RUNTIME_PROCESS_TABLE_CAPACITY) = true /\ (EX_RUNTIME_PROCESS_TABLE_CAPACITY <=? Z.of_nat i) = false /\
      exists e, gExRuntimeProcessTable s !! i = Some e /\ f e = Ok true)
     \/ ((Z.of_nat i <? EX_RUNTIME_PROCESS_TABLE_CAPACITY) = false /\ (EX_RUNTIME_PROCESS_TABLE_CAPACITY <=? Z.of_nat i) = true /\
         forall e, e ∈ gExRuntimeProcessTable s -> f e = Ok false)).
Proof.
  intros I Ha Hd. destruct (find_process_slot s own ext f I Ha Hd) as (i & -> & Hi & Ht & Hf). exists i. split; [done|].
  pose proof (ei_plen _ _ _ I) as Hl. unfold EX_RUNTIME_PROCESS_TABLE_CAPACITY, EX_MAX_PROCESSES in *.
  destruct (Z.ltb_spec (Z.of_nat i) 8), (Z.leb_spec 8 (Z.of_nat i)); try lia; [left | right]; split_and!; try done.
  - destruct (lookup_lt_is_Some_2 (gExRuntimeProcessTable s) i) as [e He]; [lia|]. exists e. split; [done | by apply Ht].
  - intros e [j Hj]%list_elem_of_lookup. apply (Hf j e); [|done]. apply lookup_lt_Some in Hj. lia.
Qed.

Lemma thread_search s own ext f : ex_inv s own ext ->
  (forall e y, Active e = true -> exthreads s !! Entry e = Some y -> exists b, f e = Ok b) ->
  (forall e, Active e = false -> exists b, f e = Ok b) ->
  exists i : nat, find_slot 0 (gExRuntimeThreadTable s) f = Ok (Z.of_nat i) /\
    (((Z.of_nat i <? EX_RUNTIME_THREAD_TABLE_CAPACITY) = true /\ (EX_RUNTIME_THREAD_TABLE_CAPACITY <=? Z.of_nat i) = false /\
      exists e, gExRuntimeThreadTable s !! i = Some e /\ f e = Ok true)
     \/ ((Z.of_nat i <? EX_RUNTIME_THREAD_TABLE_CAPACITY) = false /\ (EX_RUNTIME_THREAD_TABLE_CAPACITY <=? Z.of_nat i) = true /\
         forall e, e ∈ gExRuntimeThreadTable s -> f e = Ok false)).
Proof.
  intros I Ha Hd. destruct (find_thread_slot s own ext f I Ha Hd) as (i & -> & Hi & Ht & Hf). exists i. split; [done|].
  pose proof (ei_tlen _ _ _ I) as Hl.
  unfold EX_RUNTIME_THREAD_TABLE_CAPACITY, EX_MAX_PROCESSES, EX_MAX_THREADS_PER_PROCESS in *. change (8 * 1) with 8 in *.
  destruct (Z.ltb_spec (Z.of_nat i) 8), (Z.leb_spec 8 (Z.of_nat i)); try lia; [left | right]; split_and!; try done.
  - destruct (lookup_lt_is_Some_2 (gExRuntimeThreadTable s) i) as [e He]; [lia|]. exists e. split; [done | by apply Ht].
  - intros e [j Hj]%list_elem_of_lookup. apply (Hf j e); [|done]. apply lookup_lt_Some in Hj. lia.
Qed.

(** A published thread [t] in entry [i]. *)
Definition published_thread s own (i : nat) e t y : Prop :=
  gExRuntimeThreadTable s !! i = Some e /\ Active e = true /\ Entry e = t /\ exthreads s !! t = Some y /\
  t <> 0 /\ t ∈ own /\ Thread y <> 0 /\ Process y <> 0 /\ is_Some (processes s !! Process y) /\
  is_Some (kernel_thread (Thread y) (Svc s)).

Lemma published_at s own ext (i : nat) e y : ex_inv s own ext -> gExRuntimeThreadTable s !! i = Some e -> Active e = true ->
  exthreads s !! Entry e = Some y -> published_thread s own i e (Entry e) y.
Proof.
  intros I Hi Ha Hy. pose proof (ei_ttab _ _ _ I) as Ht. rewrite Forall_forall in Ht.
  destruct (Ht e) as (T1 & z & T2 & T3 & T4 & T5); [by eapply list_elem_of_lookup_2 | done |].
  rewrite Hy in T2. injection T2 as <-. pose proof (ei_threads _ _ _ I _ y Hy) as Hok. destruct Hok.
  unfold published_thread. split_and!; try done. by destruct tk_proc.
Qed.

Lemma find_by_kernel_thread s own ext kt : ex_inv s own ext ->
  exists i : nat, KiFindThreadSlotByKernelThread kt s = Ok (Z.of_nat i) /\
    (((Z.of_nat i <? EX_RUNTIME_THREAD_TABLE_CAPACITY) = true /\ kt <> 0 /\
      exists e y, published_thread s own i e (Entry e) y /\ Thread y = kt)
     \/ ((Z.of_nat i <? EX_RUNTIME_THREAD_TABLE_CAPACITY) = false /\
         (kt <> 0 -> forall e y, e ∈ gExRuntimeThreadTable s -> Active e = true -> exthreads s !! Entry e = Some y -> Thread y <> kt))).
Proof.
  intros I. unfold KiFindThreadSlotByKernelThread. destruct (Z.eqb_spec kt 0) as [Hz|Hz].
  { exists 8%nat. split; [done|]. right. split; [done | by intros ?]. }
  destruct (thread_search s own ext (fun e => if Active e && negb (Entry e =? 0) then
      let* z := get_thread (Entry e) s in Ok (Thread z =? kt) else Ok false) I) as (i & -> & R).
  - intros e y -> Hy. destruct (negb _); [|by eexists]. cbn [andb]. rewrite (proj2 (get_thread_ok s _ y) Hy). by eexists.
  - intros e ->. by eexists.
  - exists i. split; [done|]. destruct R as [(Hi & _ & e & He & Hf)|(Hi & _ & Hf)]; [left | right]; (split; [done|]).
    + split; [done|]. destruct (Active e) eqn:Ha; [|done]. cbn [andb] in Hf. destruct (negb (Entry e =? 0)); [|done].
      unfold get_thread in Hf. destruct (exthreads s !! Entry e) as [y|] eqn:Hy; [|done]. cbn in Hf. injection Hf as Hf.
      exists e, y. split; [by eapply published_at | by apply Z.eqb_eq].
    + intros _ e y He Ha Hy Hk. specialize (Hf e He). rewrite Ha in Hf. cbn [andb] in Hf.
      assert (Hnz : Entry e <> 0) by (by destruct (ei_threads _ _ _ I _ y Hy)).
      rewrite (proj2 (Z.eqb_neq _ 0) Hnz), (proj2 (get_thread_ok s _ y) Hy) in Hf. cbn in Hf.
      rewrite Hk, Z.eqb_refl in Hf. done.
Qed.

Lemma lookup_thread_run s own ext kt : ex_inv s own ext ->
  exists t, ExRuntimeLookupThreadByKernelThread kt s = Ok t /\
    (t = 0 \/ exists i e y, published_thread s own i e t y /\ Thread y = kt).
Proof.
  intros I. unfold ExRuntimeLookupThreadByKernelThread.
  destruct (find_by_kernel_thread s own ext kt I) as (i & -> & [(Hi & _ & e & y & Hp & Hk)|(Hi & _)]); cbn [res_bind]; rewrite Hi.
  - rewrite (proj2 (rd_ok _ _ e)); [|split; [lia|]; rewrite Nat2Z.id; apply Hp]. cbn [res_bind]. exists (Entry e).
    split; [done|]. right. by exists i, e, y.
  - exists 0. split; [done | by left].
Qed.

Lemma lookup_process_run s own ext kt : ex_inv s own ext ->
  exists p, ExRuntimeLookupProcessByKernelThread kt s = Ok p /\ (p = 0 \/ is_Some (processes s !! p)).
Proof.
  intros I. unfold ExRuntimeLookupProcessByKernelThread.
  destruct (lookup_thread_run s own ext kt I) as (t & -> & [->|(i & e & y & Hp & _)]); cbn [res_bind].
  { exists 0. split; [done | by left]. }
  destruct Hp as (_ & _ & _ & Hy & Hz & _ & _ & _ & Hp & _). rewrite (proj2 (Z.eqb_neq t 0) Hz).
  rewrite (proj2 (get_thread_ok s t y) Hy). cbn [res_bind]. exists (Process y). split; [done | by right].
Qed.

Lemma find_by_process s own ext p : ex_inv s own ext ->
  exists i : nat, KiFindProcessSlotByProcess p s = Ok (Z.of_nat i) /\
    (((Z.of_nat i <? EX_RUNTIME_PROCESS_TABLE_CAPACITY) = true /\ (EX_RUNTIME_PROCESS_TABLE_CAPACITY <=? Z.of_nat i) = false /\
      p <> 0 /\ exists e, gExRuntimeProcessTable s !! i = Some e /\ Active e = true /\ Entry e = p)
     \/ ((Z.of_nat i <? EX_RUNTIME_PROCESS_TABLE_CAPACITY) = false /\ (EX_RUNTIME_PROCESS_TABLE_CAPACITY <=? Z.of_nat i) = true /\
         (p <> 0 -> forall e, e ∈ gExRuntimeProcessTable s -> Active e = true -> Entry e <> p))).
Proof.
  intros I. unfold KiFindProcessSlotByProcess. destruct (Z.eqb_spec p 0) as [Hz|Hz].
  { exists 8%nat. split; [done|]. right. split; [done|]. split; [done | by intros ?]. }
  destruct (process_search s own ext (fun e => Ok (Active e && (Entry e =? p))) I) as (i & -> & R); [by eauto..|].
  exists i. split; [done|]. destruct R as [(Hi & Hi' & e & He & Hf)|(Hi & Hi' & Hf)]; [left | right]; (split; [done|]); (split; [done|]).
  - split; [done|]. injection Hf as Hf. apply andb_true_iff in Hf as [Ha Hf%Z.eqb_eq]. by exists e.
  - intros _ e He Ha Hp. specialize (Hf e He). injection Hf as Hf. rewrite Ha, Hp, Z.eqb_refl in Hf. done.
Qed.

Lemma find_by_pid s own ext pid : ex_inv s own ext ->
  exists i : nat, KiFindProcessSlotByPid pid s = Ok (Z.of_nat i) /\
    (((Z.of_nat i <? EX_RUNTIME_PROCESS_TABLE_CAPACITY) = true /\
      exists e x, gExRuntimeProcessTable s !! i = Some e /\ Active e = true /\ processes s !! Entry e = Some x /\ ProcessId x = pid)
     \/ (Z.of_nat i <? EX_RUNTIME_PROCESS_TABLE_CAPACITY) = false).
Proof.
  intros I. unfold KiFindProcessSlotByPid. destruct (Z.eqb_spec pid 0) as [Hz|Hz].
  { exists 8%nat. split; [done | by right]. }
  destruct (process_search s own ext (fun e => if Active e && negb (Entry e =? 0) then
      let* x := get_process (Entry e) s in Ok (ProcessId x =? pid) else Ok false) I) as (i & -> & R).
  - intros e x -> Hx. destruct (negb _); [|by eexists]. cbn [andb]. rewrite (proj2 (get_process_ok s _ x) Hx). by eexists.
  - intros e ->. by eexists.
  - exists i. split; [done|]. destruct R as [(Hi & _ & e & He & Hf)|(Hi & _ & Hf)]; [left | by right]. split; [done|].
    destruct (Active e) eqn:Ha; [|done]. cbn [andb] in Hf. destruct (negb (Entry e =? 0)); [|done].
    unfold get_process in Hf. destruct (processes s !! Entry e) as [x|] eqn:Hx; [|done]. cbn in Hf. injection Hf as Hf.
    exists e, x. split_and!; try done. by apply Z.eqb_eq.
Qed.

Lemma find_by_tid s own ext tid : ex_inv s own ext ->
  exists i : nat, KiFindThreadSlotByThreadId tid s = Ok (Z.of_nat i) /\
    (((Z.of_nat i <? EX_RUNTIME_THREAD_TABLE_CAPACITY) = true /\ (EX_RUNTIME_THREAD_TABLE_CAPACITY <=? Z.of_nat i) = false /\
      exists e y, published_thread s own i e (Entry e) y)
     \/ ((Z.of_nat i <? EX_RUNTIME_THREAD_TABLE_CAPACITY) = false /\ (EX_RUNTIME_THREAD_TABLE_CAPACITY <=? Z.of_nat i) = true)).
Proof.
  intros I. unfold KiFindThreadSlotByThreadId. destruct (Z.eqb_spec tid 0) as [Hz|Hz].
  { exists 8%nat. split; [done | by right]. }
  destruct (thread_search s own ext (fun e => if Active e && negb (Entry e =? 0) then
      let* z := get_thread (Entry e) s in Ok (ThreadId z =? tid) else Ok false) I) as (i & -> & R).
  - intros e y -> Hy. destruct (negb _); [|by eexists]. cbn [andb]. rewrite (proj2 (get_thread_ok s _ y) Hy). by eexists.
  - intros e ->. by eexists.
  - exists i. split; [done|]. destruct R as [(Hi & Hi' & e & He & Hf)|(Hi & Hi' & Hf)]; [left | by right]. split; [done|]. split; [done|].
    destruct (Active e) eqn:Ha; [|done]. cbn [andb] in Hf. destruct (negb (Entry e =? 0)); [|done].
    unfold get_thread in Hf. destruct (exthreads s !! Entry e) as [y|] eqn:Hy; [|done].
    exists e, y. by eapply published_at.
Qed.

(** ** Steps that free nothing *)

Definition steady own ext n s s' : Prop := keeps own ext n s s' /\ forall o, alive s o -> alive s' o.

Lemma steady_refl s own ext n : ex_inv s own ext -> capped n s -> steady own ext n s s.
Proof. intros. split; [by apply keeps_refl | done]. Qed.

Lemma steady_trans s1 s2 s3 own ext n : steady own ext n s1 s2 -> steady own ext n s2 s3 -> steady own ext n s1 s3.
Proof. intros [K1 A1] [K2 A2]. split; [by eapply keeps_trans | by intros o Ho; apply A2, A1]. Qed.

Lemma steady_svc s own ext n w : ex_inv s own ext -> capped n s -> quiet_call (Svc s) w -> steady own ext n s (set_Svc w s).
Proof. intros. split; [by apply quiet_keeps | by intros []]. Qed.

Lemma steady_process s own ext n p f : ex_inv s own ext -> capped n s -> is_Some (processes s !! p) ->
  (forall x, same_accounts x (f x)) -> (forall x, same_process x (f x)) ->
  exists s', upd_process p f s = Ok s' /\ steady own ext n s s' /\ exthreads s' = exthreads s /\ Svc s' = Svc s.
Proof.
  intros I Hc Hp H1' H2'. destruct (upd_process_run s own ext n p f I Hc Hp H1' H2') as (x & Hx & E & K).
  exists (put_process p (f x) s). split; [done|]. split; [|done]. split; [done|].
  intros [q|u|q]; cbn; try done; rewrite lookup_insert; (destruct (decide (p = q)); [by eexists | done]).
Qed.

Lemma steady_thread s own ext n t y f : ex_inv s own ext -> capped n s -> exthreads s !! t = Some y ->
  (forall y, tHeader (f y) = tHeader y) -> (forall y, same_thread y (f y)) ->
  upd_thread t f s = Ok (put_thread t (f y) s) /\ steady own ext n s (put_thread t (f y) s).
Proof.
  intros I Hc Hy H1' H2'. unfold upd_thread. rewrite (proj2 (get_thread_ok s t y) Hy). split; [done|].
  destruct (H2' y) as (T1 & T2 & T3). split; [split; [|split]|].
  - by apply (inv_upd_thread s own ext t y).
  - by apply (capped_put_thread n s t y).
  - by apply (calm_put_thread s t y).
  - intros [q|u|q]; cbn; try done. rewrite lookup_insert. by destruct (decide (t = u)).
Qed.

Lemma restore_root_run s own ext n p : ex_inv s own ext -> capped n s -> (p <> 0 -> is_Some (processes s !! p)) ->
  exists st s', KiRestoreImportedRootForProcessTeardown p s = Ok (st, s') /\ steady own ext n s s' /\ exthreads s' = exthreads s.
Proof.
  intros I Hc Hp. pose proof (steady_refl s own ext n I Hc) as K0. unfold KiRestoreImportedRootForProcessTeardown.
  destruct (Z.eqb_spec p 0) as [Hz|Hz]; [by eauto|]. destruct (Hp Hz) as [x Hx].
  rewrite (proj2 (get_process_ok s p x) Hx). cbn [res_bind]. destruct (negb _); [by eauto|].
  destruct (KeQueryActiveRootPageTable (Svc s)) as [status activeRoot]. destruct (_ || _); [by eauto|].
  destruct (KernelSpaceRoot (Svc s)) as [root|]; [|by eauto]. destruct (root =? 0); [by eauto|].
  unfold svc. destruct (KeSwitchAddressSpace root (Svc s)) as [st w] eqn:Ew. exists st, (set_Svc w s). split; [done|].
  split; [|done]. apply steady_svc; [done | done | by eapply q_switch].
Qed.

Lemma teardown_payload_run s own ext n p : ex_inv s own ext -> capped n s -> (p <> 0 -> is_Some (processes s !! p)) ->
  exists st s', ExRuntimeTeardownProcessPayload p s = Ok (st, s') /\ steady own ext n s s' /\ exthreads s' = exthreads s.
Proof.
  intros I Hc Hp. unfold ExRuntimeTeardownProcessPayload.
  destruct (restore_root_run s own ext n p I Hc Hp) as (st & s1 & -> & K1 & T1). cbn [res_bind].
  destruct (Z.eqb_spec p 0) as [Hz|Hz]; [by eauto|]. pose proof K1 as [(I1 & C1 & _) A1].
  assert (Hp1 : is_Some (processes s1 !! p)) by (apply (A1 (ObjProcess p)), Hp; done). destruct Hp1 as [x Hx].
  rewrite (proj2 (get_process_ok s1 p x) Hx). cbn [res_bind].
  assert (exists st2 s2, (if Staging x =? 0 then Ok (st, s1) else
    let '(stagingStatus, s) := svc (KeUserModeDestroyStaging (Staging x)) s1 in
    let* s := upd_process p (set_Staging 0) s in
    Ok (if bool_decide (st = EC_SUCCESS) then stagingStatus else st, s)) = Ok (st2, s2) /\ steady own ext n s1 s2 /\
    exthreads s2 = exthreads s1) as (st2 & s2 & -> & K2 & T2).
  { destruct (Staging x =? 0); [exists st, s1; split; [done|]; split; [by apply steady_refl | done]|].
    unfold svc. destruct (KeUserModeDestroyStaging (Staging x) (Svc s1)) as [st2 w] eqn:Ew.
    assert (Kw : steady own ext n s1 (set_Svc w s1)) by (apply steady_svc; [done | done | by eapply q_destroy_staging]).
    pose proof Kw as [(Iw & Cw & _) Aw].
    destruct (steady_process (set_Svc w s1) own ext n p (set_Staging 0) Iw Cw) as (s2 & -> & K2 & T2 & _); [by exists x | fields | fields |].
    cbn [res_bind]. eexists _, s2. split; [done|]. split; [by eapply steady_trans | by rewrite T2]. }
  cbn [res_bind]. pose proof K2 as [(I2 & C2 & _) A2].
  assert (Hp2 : is_Some (processes s2 !! p)) by (apply (A2 (ObjProcess p)); by exists x). destruct Hp2 as [x2 Hx2].
  rewrite (proj2 (get_process_ok s2 p x2) Hx2). cbn [res_bind].
  assert (K12 : steady own ext n s s2) by (by eapply steady_trans). rewrite T1 in T2.
  destruct (PsInitialized _); [|by eauto]. unfold svc.
  destruct (KeDestroyProcessAddressSpace (AddressSpace x2) (Svc s2)) as [[st3 space] w] eqn:Ew.
  assert (Kw : steady own ext n s2 (set_Svc w s2)) by (apply steady_svc; [done | done | by eapply q_destroy_space]).
  pose proof Kw as [(Iw & Cw & _) Aw].
  destruct (steady_process (set_Svc w s2) own ext n p (set_AddressSpace space) Iw Cw) as (s3 & -> & K3 & T3 & _); [by exists x2 | fields | fields |].
  cbn [res_bind]. eexists _, s3. split; [done|]. split; [|by rewrite T3].
  eapply steady_trans; [exact K12|]. by eapply steady_trans.
Qed.

(** ** Kernel threads that never ran *)

Definition unpublished_kernel_thread s kt : Prop :=
  forall e y, e ∈ gExRuntimeThreadTable s -> Active e = true -> exthreads s !! Entry e = Some y -> Thread y <> kt.

Lemma unpublished_calm s s' kt : calm s s' -> unpublished_kernel_thread s kt -> unpublished_kernel_thread s' kt.
Proof.
  intros (_ & A2 & _ & A4 & _) Hu e y He Ha Hy. rewrite A4 in He. destruct (A2 _ y Hy) as (z & Hz & (-> & _)). by eapply Hu.
Qed.

(** [kt] may be gone afterwards; nothing else changes for the tables. *)
Definition drops_thread own ext n kt s s' : Prop :=
  ex_inv s' own ext /\ capped n s' /\ processes s' = processes s /\ exthreads s' = exthreads s /\
  gExRuntimeProcessTable s' = gExRuntimeProcessTable s /\ gExRuntimeThreadTable s' = gExRuntimeThreadTable s.

Lemma destroy_new_thread_run s own ext n kt : ex_inv s own ext -> capped n s -> unpublished_kernel_thread s kt ->
  (kt <> 0 -> is_Some (kernel_thread kt (Svc s))) ->
  exists st s', ExRuntimeDestroyNewKernelThread kt s = Ok (st, s') /\ drops_thread own ext n kt s s'.
Proof.
  intros I Hc Hu Hk. assert (K0 : drops_thread own ext n kt s s) by done.
  unfold ExRuntimeDestroyNewKernelThread. destruct (Z.eqb_spec kt 0) as [Hz|Hz]; [by eauto|].
  destruct (Hk Hz) as [v Hv]. unfold get_kthread. rewrite Hv. cbn [res_bind]. destruct (_ || _); [by eauto|].
  assert (exists st w, (if vStackOwnedByKva v then svc (KeKvaReleaseStackRange kt) s else (EC_SUCCESS, s)) = (st, set_Svc w s) /\
    evolves (Svc s) w) as (st & w & -> & Ew).
  { destruct (vStackOwnedByKva v).
    - unfold svc. destruct (KeKvaReleaseStackRange kt (Svc s)) as [st w] eqn:E. exists st, w. split; [done|].
      eapply quiet_law, q_release_stack, E.
    - exists EC_SUCCESS, (Svc s). split; [by destruct s|]. by split. }
  pose proof (inv_svc s own ext w I Ew) as Iw.
  destruct (negb _); [by exists st, (set_Svc w s); split; [done|]; split; [done|]; split; [by apply capped_svc|] |].
  eexists _, _. split; [done|]. cbn [Svc set_Svc].
  destruct (pool_free_law kt w) as [P1 P2]. destruct Ew as [Ew1 Ew2].
  split; [|split; [by apply capped_svc, capped_svc | done]].
  destruct Iw. constructor; cbn; try done.
  - intros p x Hx. destruct (ei_processes p x Hx). by constructor.
  - intros t y Hy. destruct (ei_threads t y Hy). by constructor.
  - rewrite Forall_forall in *. intros e He Hact. destruct (ei_ttab e He Hact) as (T1 & y & T2 & T3 & T4 & T5).
    split; [done|]. exists y. split_and!; try done. apply P2; [|done]. by apply (Hu e y).
  - intros a Ha. by apply P1, ei_allocated.
Qed.

(** ** Termination and completion *)

Lemma request_kill_run s own ext n p : ex_inv s own ext -> capped n s -> (p <> 0 -> is_Some (processes s !! p)) ->
  exists st s', ExRuntimeRequestProcessKill p s = Ok (st, s') /\ steady own ext n s s'.
Proof.
  intros I Hc Hp. pose proof (steady_refl s own ext n I Hc) as K0. unfold ExRuntimeRequestProcessKill.
  destruct (Z.eqb_spec p 0) as [Hz|Hz]; [by eauto|]. destruct (Hp Hz) as [x Hx].
  rewrite (proj2 (get_process_ok s p x) Hx). cbn [res_bind]. destruct (KillRequested x); [by eauto|].
  destruct (steady_process s own ext n p (set_KillRequested true) I Hc) as (s1 & -> & K & _); [by exists x | fields | fields |].
  cbn [res_bind]. by eauto.
Qed.

Lemma mark_terminating_run s own ext n p reason code : ex_inv s own ext -> capped n s -> (p <> 0 -> is_Some (processes s !! p)) ->
  exists st s', ExRuntimeMarkProcessTerminating p reason code s = Ok (st, s') /\ steady own ext n s s'.
Proof.
  intros I Hc Hp. pose proof (steady_refl s own ext n I Hc) as K0. unfold ExRuntimeMarkProcessTerminating.
  destruct (Z.eqb_spec p 0) as [Hz|Hz]; cbn [orb]; [by eauto|]. destruct (bool_decide _); [by eauto|].
  destruct (steady_process s own ext n p (fun x => if bool_decide (TerminationReason x = EX_PROCESS_TERMINATION_REASON_NONE)
    then set_ExitStatus code (set_TerminationReason reason x) else x) I Hc) as (s1 & -> & K & _); [by apply Hp | fields | fields |].
  cbn [res_bind]. by eauto.
Qed.

Lemma mark_current_run s own ext n kt reason code : ex_inv s own ext -> capped n s ->
  exists st s', ExRuntimeMarkCurrentProcessTerminating kt reason code s = Ok (st, s') /\ steady own ext n s s'.
Proof.
  intros I Hc. pose proof (steady_refl s own ext n I Hc) as K0. unfold ExRuntimeMarkCurrentProcessTerminating.
  destruct (_ || _); [by eauto|]. destruct (lookup_process_run s own ext kt I) as (p & -> & Hp). cbn [res_bind].
  destruct (Z.eqb_spec p 0); [by eauto|]. apply mark_terminating_run; [done | done |]. by destruct Hp.
Qed.

Lemma retain_process_exact s own ext n p x : ex_inv s own ext -> capped n s -> n + 1 < 2 ^ 32 -> processes s !! p = Some x ->
  (exists h, ExObjectRetain (Some (ObjProcess p)) EX_OBJECT_TYPE_PROCESS s = Ok (EC_SUCCESS, put_process p (set_Header h x) s) /\
     ex_inv (put_process p (set_Header h x) s) own (move (ObjProcess p) 1 ext) /\ capped (n + 1) (put_process p (set_Header h x) s))
  \/ ExObjectRetain (Some (ObjProcess p)) EX_OBJECT_TYPE_PROCESS s = Ok (EC_INVALID_STATE, s).
Proof.
  intros I Hc Hn Hx. destruct (retain_run s own ext n (ObjProcess p) I Hc Hn) as (st & s' & E & R); [by exists x|].
  cbn [type_of] in E. destruct R as [(-> & I' & C' & _)|(-> & -> & _)]; [left | by right]. rewrite E.
  unfold ExObjectRetain in E. cbn [ExObjectIsValidType negb get_header] in E.
  rewrite (proj2 (get_process_ok s p x) Hx) in E. cbn [res_bind] in E. destruct (_ || _); [done|].
  cbn [put_header] in E. unfold upd_process in E. rewrite (proj2 (get_process_ok s p x) Hx) in E. cbn [res_bind] in E.
  injection E as <-. by eexists.
Qed.

(** A step that touches the processes only. *)
Definition on_processes s s' : Prop :=
  exthreads s' = exthreads s /\ Svc s' = Svc s /\ gExRuntimeProcessTable s' = gExRuntimeProcessTable s /\
  gExRuntimeThreadTable s' = gExRuntimeThreadTable s /\ (forall p, is_Some (processes s !! p) -> is_Some (processes s' !! p)).

Lemma put_on_processes s p x : on_processes s (put_process p x s).
Proof. repeat split. intros q Hq. cbn. rewrite lookup_insert. destruct (decide (p = q)); [by eexists | done]. Qed.

Lemma on_processes_trans s1 s2 s3 : on_processes s1 s2 -> on_processes s2 s3 -> on_processes s1 s3.
Proof. intros (?&?&?&?&A) (?&?&?&?&B). split_and!; try congruence. intros q Hq. by apply B, A. Qed.

Lemma published_on_processes s s' own i e t y : on_processes s s' -> published_thread s own i e t y -> published_thread s' own i e t y.
Proof. intros (E1 & E2 & E3 & E4 & A) (?&?&?&?&?&?&?&?&?&?). unfold published_thread. rewrite E1, E2, E4. split_and!; auto. Qed.

(** The completion account takes over the reference the call retained. *)
Lemma mark_terminated_run s own ext n p : ex_inv s own ext -> capped n s -> n + 1 < 2 ^ 32 -> is_Some (processes s !! p) ->
  exists st s', ExRuntimeMarkProcessTerminated p s = Ok (st, s') /\ ex_inv s' own ext /\ capped (n + 1) s' /\ on_processes s s' /\
    (st = EC_SUCCESS -> exists x, processes s' !! p = Some x /\ CompletionRetained x = true).
Proof.
  intros I Hc Hn [x Hx]. unfold ExRuntimeMarkProcessTerminated.
  rewrite (proj2 (Z.eqb_neq p 0)) by (eapply live_process_nz; [exact I | by exists x]).
  assert (Ha : same_accounts x (mark_terminated x)).
  { unfold mark_terminated. case_match; repeat split. }
  pose proof (inv_upd_process s own ext p x _ I Hx Ha) as I1.
  unfold upd_process at 1. rewrite (proj2 (get_process_ok s p x) Hx). cbn [res_bind]. set (x1 := mark_terminated x) in *.
  set (s1 := put_process p x1 s) in *. assert (Hx1 : processes s1 !! p = Some x1) by apply lookup_insert_eq.
  assert (C1 : capped n s1) by (destruct Ha as (?&?&_); by eapply capped_put_process).
  assert (P1 : on_processes s s1) by apply put_on_processes.
  rewrite (proj2 (get_process_ok s1 p x1) Hx1). cbn [res_bind]. destruct (CompletionRetained x1) eqn:Er.
  { exists EC_SUCCESS, s1. split; [done|]. split; [done|]. split; [by apply capped_S|]. split; [done|]. intros _. by exists x1. }
  destruct (retain_process_exact s1 own ext n p x1 I1 C1 Hn Hx1) as [(h & -> & I2 & C2)| ->]; cbn [res_bind].
  2: { rewrite bool_decide_false by done. exists EC_INVALID_STATE, s1. split; [done|]. split; [done|].
       split; [by apply capped_S|]. by split. }
  rewrite bool_decide_true by done. set (s2 := put_process p _ s1) in *.
  assert (Hx2 : processes s2 !! p = Some (set_Header h x1)) by apply lookup_insert_eq.
  unfold upd_process. rewrite (proj2 (get_process_ok s2 p _) Hx2). cbn [res_bind]. eexists _, _. split; [done|].
  split; [|split; [|split]].
  - pose proof (inv_completion s2 own _ p (set_Header h x1) true I2 Hx2) as I3. cbn zeta in I3.
    change (CompletionRetained (set_Header h x1)) with (CompletionRetained x1) in I3. rewrite Er in I3.
    eapply inv_ext_eq; [|apply I3; [|done]].
    + intros o. symmetry. apply (move_cancel (ObjProcess p) 1).
    + rewrite !move_here. pose proof (ei_nonneg _ _ _ I (ObjProcess p)). cbn. lia.
  - by eapply capped_put_process.
  - eapply on_processes_trans; [exact P1|]. eapply on_processes_trans; apply put_on_processes.
  - intros _. eexists. split; [apply lookup_insert_eq | done].
Qed.

Lemma signal_thread_run s own ext n t y : ex_inv s own ext -> capped n s -> exthreads s !! t = Some y ->
  exists st s', ExRuntimeSignalThreadCompletion t s = Ok (st, s') /\ steady own ext n s s' /\
    exists y', exthreads s' !! t = Some y' /\ same_thread y y'.
Proof.
  intros I Hc Hy. pose proof (steady_refl s own ext n I Hc) as K0. unfold ExRuntimeSignalThreadCompletion.
  assert (Hyy : exists y', exthreads s !! t = Some y' /\ same_thread y y') by (exists y; by split).
  rewrite (proj2 (Z.eqb_neq t 0)) by (by destruct (ei_threads _ _ _ I t y Hy)).
  rewrite (proj2 (get_thread_ok s t y) Hy). cbn [res_bind]. destruct (tCompletionSignaled y); [by eauto|].
  destruct (steady_thread s own ext n t y (set_tCompletionSignaled true) I Hc Hy) as (-> & K); [done | fields |]. cbn [res_bind].
  eexists _, _. split; [done|]. pose proof K as [(I1 & C1 & _) A1]. split.
  - eapply steady_trans; [exact K|]. apply steady_svc; [done | done | apply q_event].
  - exists (set_tCompletionSignaled true y). cbn. rewrite lookup_insert_eq. by split.
Qed.

Lemma signal_process_run s own ext n p : ex_inv s own ext -> capped n s -> (p <> 0 -> is_Some (processes s !! p)) ->
  exists st s', ExRuntimeSignalProcessCompletion p s = Ok (st, s') /\ steady own ext n s s'.
Proof.
  intros I Hc Hp. pose proof (steady_refl s own ext n I Hc) as K0. unfold ExRuntimeSignalProcessCompletion.
  destruct (Z.eqb_spec p 0) as [Hz|Hz]; [by eauto|]. destruct (Hp Hz) as [x Hx].
  rewrite (proj2 (get_process_ok s p x) Hx). cbn [res_bind]. destruct (_ || _); [by eauto|].
  destruct (CompletionSignaled x); [by eauto|].
  destruct (steady_process s own ext n p (set_CompletionSignaled true) I Hc) as (s1 & -> & K & _); [by exists x | fields | fields |].
  cbn [res_bind]. eexists _, _. split; [done|]. pose proof K as [(I1 & C1 & _) A1].
  eapply steady_trans; [exact K|]. apply steady_svc; [done | done | apply q_event].
Qed.

(** Consuming a completed process gives its completion reference back. *)
(** Clearing the entry and the completion account hands the completion
    reference to the caller. *)
Lemma consume_entry s own ext n p x (i : nat) e : ex_inv s own ext -> capped n s -> processes s !! p = Some x ->
  CompletionRetained x = true -> gExRuntimeProcessTable s !! i = Some e -> Active e = true -> Entry e = p ->
  let ptab := <[i := mkEntry false 0]> (gExRuntimeProcessTable s) in
  let s1 := put_process p (set_CompletionRetained false x) (set_gExRuntimeProcessTable ptab s) in
  ex_inv s1 own (move (ObjProcess p) 1 ext) /\ capped n s1 /\ (forall f, f ∈ ptab -> Active f = true -> Entry f <> p).
Proof.
  intros I Hc Hx Er He Ha Hp ptab s1. pose proof (lookup_lt_Some _ _ _ He) as Li.
  assert (Hout : forall f, f ∈ ptab -> Active f = true -> Entry f <> p).
  { intros f [k Hk]%list_elem_of_lookup Hf Hfp. unfold ptab in Hk. apply insert_active in Hk as [[-> ->]|[Hne Hk]]; [done | | done].
    apply Hne. apply (ei_pdistinct _ _ _ I k i f e); congruence. }
  pose proof (inv_clear_processes s own ext ptab I (cleared_insert _ i Li)) as I1.
  assert (Hx1 : processes (set_gExRuntimeProcessTable ptab s) !! p = Some x) by done.
  pose proof (inv_completion _ own ext p x false I1 Hx1) as I2. cbn zeta in I2. rewrite Er in I2.
  pose proof (ei_nonneg _ _ _ I (ObjProcess p)). split; [|split; [|done]].
  - apply I2; [rewrite move_here; cbn; lia | by right].
  - by eapply capped_put_process; [|exact Hx1 | |].
Qed.

Lemma consume_run s own ext n p : ex_inv s own ext -> capped n s -> is_Some (processes s !! p) ->
  exists st s', ExRuntimeConsumeCompletedProcess p s = Ok (st, s') /\ ex_inv s' own ext /\ capped n s'.
Proof.
  intros I Hc [x Hx]. unfold ExRuntimeConsumeCompletedProcess.
  assert (Hz : p <> 0) by (eapply live_process_nz; [exact I | by exists x]).
  rewrite (proj2 (Z.eqb_neq p 0) Hz), (proj2 (get_process_ok s p x) Hx). cbn [res_bind].
  destruct (CompletionRetained x) eqn:Er; [|by rewrite orb_true_r; eauto]. destruct (_ || _); [by eauto|].
  destruct (find_by_process s own ext p I) as (i & -> & [(_ & Hi & _ & e & He & Ha & Hp)|(_ & Hi & _)]); cbn [res_bind]; rewrite Hi;
    [|by eauto].
  destruct (consume_entry s own ext n p x i e I Hc Hx Er He Ha Hp) as (I2 & C2 & _).
  pose proof (lookup_lt_Some _ _ _ He) as Li. unfold set_entry. rewrite wr_in by lia. cbn [res_bind]. rewrite Nat2Z.id.
  unfold upd_process. rewrite (proj2 (get_process_ok _ p x)) by done. cbn [res_bind].
  pose proof (ei_nonneg _ _ _ I (ObjProcess p)).
  destruct (release_process_api _ own (move (ObjProcess p) 1 ext) n p I2 C2) as (st & s3 & -> & I3 & C3 & _).
  - rewrite move_here. lia.
  - exists st, s3. split; [done|]. split; [|done]. eapply inv_ext_eq; [|exact I3]. intros o. symmetry. apply (move_cancel _ 1).
Qed.
End calls.
