(* ===== verification/ExProcess.v ===== *)
(** * The executive's calls: publication and processes

    Publishing a thread and unpublishing it again, and the creation of a
    process with each of its undo paths, as moves between the accounts. *)

From S2P Require Import Prelude Ex ExInv ExRefs ExHandles ExLife ExCalls.

Local Open Scope Z_scope.

Section process.
Context {W : Type} `{ExLaws W}.
Implicit Types (s : EX W) (p t kt : Z) (o : EX_OBJECT) (x : EX_PROCESS) (y : EX_THREAD)
  (own : gset Z) (ext : EX_OBJECT -> Z).

(** ** Publication *)

Lemma already_published_run s own ext p t x y : ex_inv s own ext -> processes s !! p = Some x -> exthreads s !! t = Some y ->
  Thread y <> 0 ->
  exists b, already_published p t x y s = Ok b /\
    (b = false -> (forall e, e ∈ gExRuntimeProcessTable s -> Active e = true -> Entry e <> p) /\
       unpublished_kernel_thread s (Thread y)).
Proof.
  intros I Hx Hy Hk. unfold already_published.
  assert (Hpz : p <> 0) by (eapply live_process_nz; [exact I | by exists x]).
  assert (Htz : t <> 0) by (by destruct (ei_threads _ _ _ I t y Hy)).
  destruct (find_by_process s own ext p I) as (i1 & -> & [(T1 & _)|(T1 & _ & F1)]); cbn [res_bind]; rewrite T1; [by eexists|].
  destruct (find_by_pid s own ext (ProcessId x) I) as (i2 & -> & [(T2 & _)|T2]); cbn [res_bind]; rewrite T2; [by eexists|].
  assert (exists b : bool, (let* i := KiFindThreadSlotByThreadObject t s in Ok (i <? EX_RUNTIME_THREAD_TABLE_CAPACITY)) = Ok b) as [b3 E3].
  { unfold KiFindThreadSlotByThreadObject. rewrite (proj2 (Z.eqb_neq t 0) Htz).
    destruct (thread_search s own ext (fun e => Ok (Active e && (Entry e =? t))) I) as (i3 & -> & _); eauto. }
  destruct (KiFindThreadSlotByThreadObject t s) as [i3| | |]; try done. cbn [res_bind]. destruct (i3 <? _); [by eexists|].
  destruct (find_by_tid s own ext (ThreadId y) I) as (i4 & -> & [(T4 & _)|(T4 & _)]); cbn [res_bind]; rewrite T4; [by eexists|].
  destruct (find_by_kernel_thread s own ext (Thread y) I) as (i5 & -> & [(T5 & _)|(T5 & F5)]); cbn [res_bind]; rewrite T5; [by eexists|].
  exists false. split; [done|]. intros _. split; [by apply F1|]. intros e z He Ha Hz. by apply (F5 Hk e z).
Qed.

Lemma publish_thread_run s own ext n p t x y : ex_inv s own ext -> capped n s -> processes s !! p = Some x ->
  exthreads s !! t = Some y -> is_Some (kernel_thread (Thread y) (Svc s)) -> 0 < ext (ObjThread t) -> t ∉ own ->
  exists st s', ExRuntimePublishThread p t s = Ok (st, s') /\
    ((st = EC_SUCCESS /\ ex_inv s' (own ∪ {[t]}) (move (ObjThread t) (-1) ext) /\ capped n s' /\ Process y = p)
     \/ (st <> EC_SUCCESS /\ s' = s)).
Proof.
  intros I Hc Hx Hy Hks He Hown. unfold ExRuntimePublishThread.
  assert (Hno : forall st : HO_STATUS, st <> EC_SUCCESS -> exists st' s', Ok (st, s) = Ok (st', s') /\
    ((st' = EC_SUCCESS /\ ex_inv s' (own ∪ {[t]}) (move (ObjThread t) (-1) ext) /\ capped n s' /\ Process y = p)
     \/ (st' <> EC_SUCCESS /\ s' = s))) by (intros st Hst; exists st, s; split; [done | by right]).
  destruct (_ || _); [by apply Hno|]. rewrite (proj2 (get_thread_ok s t y) Hy). cbn [res_bind].
  destruct (Z.eqb_spec (Thread y) 0) as [Hk|Hk]; cbn [orb]; [by apply Hno|].
  destruct (Z.eqb_spec (Process y) p) as [Hp|Hp]; cbn [negb]; [|by apply Hno].
  rewrite (proj2 (get_process_ok s p x) Hx). cbn [res_bind]. destruct (_ || _); [by apply Hno|].
  destruct (already_published_run s own ext p t x y I Hx Hy Hk) as (b & -> & Hb). cbn [res_bind].
  destruct b; [by apply Hno|]. destruct (Hb eq_refl) as [Hnp Hnt].
  unfold KiFindFreeProcessSlot, KiFindFreeThreadSlot.
  destruct (process_search s own ext (fun e => Ok (negb (Active e))) I) as (i & -> & Ri); [by eauto..|]. cbn [res_bind].
  destruct (thread_search s own ext (fun e => Ok (negb (Active e))) I) as (j & -> & Rj); [by eauto..|]. cbn [res_bind].
  destruct Ri as [(_ & Ti & e1 & Hi & Fi)|(_ & Ti & _)]; rewrite Ti; [|by apply Hno].
  destruct Rj as [(_ & Tj & e2 & Hj & Fj)|(_ & Tj & _)]; rewrite Tj; [|by apply Hno]. cbn [orb].
  injection Fi as Fi%negb_true_iff. injection Fj as Fj%negb_true_iff.
  pose proof (lookup_lt_Some _ _ _ Hi). pose proof (lookup_lt_Some _ _ _ Hj). unfold set_entry.
  rewrite !wr_in by lia. cbn [res_bind]. rewrite !Nat2Z.id.
  pose proof (inv_publish s own ext p t x y i j e1 e2 I Hx Hy Hp Hk Hks He Hown Hi Fi Hj Fj Hnp Hnt) as I1.
  fold (with_tables (<[i := mkEntry true p]> (gExRuntimeProcessTable s)) (<[j := mkEntry true t]> (gExRuntimeThreadTable s)) s).
  set (s1 := with_tables _ _ s) in *. assert (C1 : capped n s1) by exact Hc.
  destruct (steady_process s1 _ _ n p (set_MainThreadId (ThreadId y)) I1 C1) as (s2 & -> & [(I2 & C2 & _) _] & _);
    [by exists x | fields | fields |].
  cbn [res_bind]. eexists _, s2. split; [done|]. by left.
Qed.

(** A cleared entry leaves no trace of its kernel thread. *)
Lemma cleared_unpublished s own ext (i : nat) e t y ptab : ex_inv s own ext -> published_thread s own i e t y ->
  unpublished_kernel_thread (with_tables ptab (<[i := mkEntry false 0]> (gExRuntimeThreadTable s)) s) (Thread y).
Proof.
  intros I Hp f z [k Hk]%list_elem_of_lookup Ha Hz Heq. destruct Hp as (Hi & Hea & He & Hy & _).
  pose proof (lookup_lt_Some _ _ _ Hi). cbn in Hk. apply insert_active in Hk as [[-> ->]|[Hne Hk]]; [done | | done].
  apply Hne. cbn in Hz. subst t. by apply (ei_distinct _ _ _ I k i f e z y).
Qed.

Lemma unpublish_thread_run s own ext n kt : ex_inv s own ext -> capped n s ->
  (forall i e t y, published_thread s own i e t y -> Thread y = kt ->
     exists x, processes s !! Process y = Some x /\ CompletionRetained x = true) ->
  exists t p s', ExRuntimeUnpublishThreadByKernelThread kt s = Ok (t, p, s') /\
    ((t = 0 /\ p = 0 /\ s' = s) \/
     (exists i e y, published_thread s own i e t y /\ Thread y = kt /\ p = Process y /\
        s' = with_tables (gExRuntimeProcessTable s) (<[i := mkEntry false 0]> (gExRuntimeThreadTable s)) s /\
        ex_inv s' (own ∖ {[t]}) (move (ObjThread t) 1 ext) /\ capped n s')).
Proof.
  intros I Hc Hret. unfold ExRuntimeUnpublishThreadByKernelThread.
  destruct (find_by_kernel_thread s own ext kt I) as (i & -> & [(Hi & _ & e & y & Hp & Hk)|(Hi & _)]); cbn [res_bind]; rewrite Hi.
  2: { exists 0, 0, s. split; [done | by left]. }
  pose proof Hp as (He & Ha & _ & Hy & Hnz & _ & _ & _ & _ & _). pose proof (lookup_lt_Some _ _ _ He) as Li.
  rewrite (proj2 (rd_ok _ _ e)) by (split; [lia | by rewrite Nat2Z.id]). cbn [res_bind]. unfold set_entry.
  rewrite wr_in by lia. cbn [res_bind]. rewrite Nat2Z.id, (proj2 (Z.eqb_neq _ 0) Hnz).
  unfold get_thread. cbn [exthreads set_gExRuntimeThreadTable]. rewrite Hy. cbn [res_bind].
  eexists _, _, _. split; [done|]. right. exists i, e, y. split; [done|]. split; [done|]. split; [done|]. split; [by destruct s|].
  split; [|exact Hc].
  apply (inv_unpublish s own ext (Entry e) y i e (gExRuntimeProcessTable s) I He Ha eq_refl Hy (cleared_refl _)).
  intros _ _ _ _. by eapply Hret.
Qed.

(** Unpublishing both: the process entry goes with the thread's. *)
Lemma unpublish_both_run s own ext n kt i e t y : ex_inv s own ext -> capped n s ->
  published_thread s own i e t y -> Thread y = kt ->
  exists r s', ExRuntimeUnpublishByKernelThread kt s = Ok (r, s') /\
    ex_inv s' (own ∖ {[t]}) (move (ObjThread t) 1 ext) /\ capped n s' /\
    processes s' = processes s /\ exthreads s' = exthreads s /\ Svc s' = Svc s /\ unpublished_kernel_thread s' kt.
Proof.
  intros I Hc Hp Hk. unfold ExRuntimeUnpublishByKernelThread, ExRuntimeUnpublishThreadByKernelThread.
  pose proof Hp as (He & Ha & Het & Hy & Hnz & _ & Hkz & Hpz & _ & _).
  destruct (find_by_kernel_thread s own ext kt I) as (j & -> & [(Hj & _ & e' & y' & Hp' & Hk')|(Hj & Hno)]).
  2: { exfalso. apply (Hno ltac:(congruence) e y); try done; [by eapply list_elem_of_lookup_2 | by rewrite Het]. }
  cbn [res_bind]. rewrite Hj. pose proof Hp' as (He' & Ha' & _ & Hy' & _).
  assert (j = i) as ->.
  { apply (ei_distinct _ _ _ I j i e' e y' y); try done; [by rewrite Het | congruence]. }
  rewrite He in He'. injection He' as <-. rewrite Het, Hy in Hy'. injection Hy' as <-.
  pose proof (lookup_lt_Some _ _ _ He) as Li.
  rewrite (proj2 (rd_ok _ _ e)) by (split; [lia | by rewrite Nat2Z.id]). cbn [res_bind]. unfold set_entry.
  rewrite wr_in by lia. cbn [res_bind]. rewrite Nat2Z.id, Het, (proj2 (Z.eqb_neq _ 0) Hnz).
  unfold get_thread. cbn [exthreads set_gExRuntimeThreadTable]. rewrite Hy. cbn [res_bind].
  set (ttab := <[i := mkEntry false 0]> (gExRuntimeThreadTable s)).
  assert (Ef : KiFindProcessSlotByProcess (Process y) (set_gExRuntimeThreadTable ttab s) = KiFindProcessSlotByProcess (Process y) s) by done.
  rewrite Ef. destruct (find_by_process s own ext (Process y) I) as (k & -> & [(Hkc & _ & _ & e2 & He2 & Ha2 & Hep)|(Hkc & _ & Hnp)]);
    cbn [res_bind]; rewrite Hkc.
  - cbn [gExRuntimeProcessTable set_gExRuntimeThreadTable]. pose proof (lookup_lt_Some _ _ _ He2) as Lk.
    rewrite wr_in by lia. cbn [res_bind]. rewrite Nat2Z.id.
    assert (I' : ex_inv (with_tables (<[k := mkEntry false 0]> (gExRuntimeProcessTable s)) ttab s) (own ∖ {[t]}) (move (ObjThread t) 1 ext)).
    { apply (inv_unpublish s own ext t y i e _ I He Ha Het Hy (cleared_insert _ k Lk)).
      intros f [l Hl]%list_elem_of_lookup Hfa Hfp. apply insert_active in Hl as [[-> ->]|[Hne Hl]]; [done | | done].
      destruct Hne. apply (ei_pdistinct _ _ _ I l k f e2); congruence. }
    eexists _, _. split; [done|]. split; [exact I'|]. split; [exact Hc|]. split; [done|]. split; [done|]. split; [done|].
    subst kt. by apply (cleared_unpublished s own ext i e t y _ I Hp).
  - assert (I' : ex_inv (with_tables (gExRuntimeProcessTable s) ttab s) (own ∖ {[t]}) (move (ObjThread t) 1 ext)).
    { apply (inv_unpublish s own ext t y i e _ I He Ha Het Hy (cleared_refl _)).
      intros f Hf Hfa Hfp. by destruct (Hnp Hpz f Hf Hfa). }
    eexists _, _. split; [done|]. split; [|split; [exact Hc|split; [done|split; [done|split; [done|]]]]].
    + by destruct s.
    + subst kt. by apply (cleared_unpublished s own ext i e t y (gExRuntimeProcessTable s) I Hp).
Qed.

(** ** Creating a process *)

Definition params_ok (params : EX_RUNTIME_PROCESS_CREATE_PARAMS) : Prop :=
  match ConstBytes params with None => True | Some l => ConstLength params <= Z.of_nat (length l) end.

(** Every structure was allocated before [c] was. *)
Lemma inv_kfree s own ext c : ex_inv s own ext ->
  (is_Some (processes s !! c) \/ is_Some (exthreads s !! c) -> False) -> ex_inv (set_Svc (kfree c (Svc s)) s) own ext.
Proof.
  intros I Hno. destruct (kfree_law c (Svc s)) as [F1 F2]. destruct I. constructor; cbn; try done.
  - intros p x Hx. destruct (ei_processes p x Hx). by constructor.
  - intros t y Hy. destruct (ei_threads t y Hy). by constructor.
  - eapply Forall_impl; [exact ei_ttab|]. intros e He Hact. destruct (He Hact) as (T1 & y & T2 & T3 & T4 & T5).
    split; [done|]. exists y. split_and!; try done. by apply F2.
  - intros a Ha. apply F1; [|by apply ei_allocated]. by intros ->.
Qed.

Lemma kzalloc_run s own ext k a w : ex_inv s own ext -> kzalloc k (Svc s) = (a, w) ->
  evolves (Svc s) w /\ (a <> 0 -> allocated w a /\ processes s !! a = None /\ exthreads s !! a = None).
Proof.
  intros I E. destruct (kzalloc_law _ _ _ _ E) as (F1 & F2 & F3). split; [by split|]. intros Hz. destruct (F1 Hz) as [F4 F5].
  split; [done|]. split.
  - destruct (processes s !! a) eqn:Ea; [|done]. destruct F4. apply (ei_allocated _ _ _ I). left. by eexists.
  - destruct (exthreads s !! a) eqn:Ea; [|done]. destruct F4. apply (ei_allocated _ _ _ I). right. by eexists.
Qed.

Lemma build_const_run s own ext n params : ex_inv s own ext -> capped n s -> params_ok params ->
  exists st c contents w, ExRuntimeBuildInitialConstBytes params s = Ok (st, c, contents, set_Svc w s) /\
    evolves (Svc s) w /\ (st = EC_SUCCESS -> c <> 0 /\ processes s !! c = None /\ exthreads s !! c = None) /\
    (st <> EC_SUCCESS -> c = 0).
Proof.
  intros I Hc Hp. assert (Hno : forall st : HO_STATUS, st <> EC_SUCCESS ->
    exists st' c (contents : list Z) w, Ok (st, 0, [], s) = Ok (st', c, contents, set_Svc w s) /\ evolves (Svc s) w /\
    (st' = EC_SUCCESS -> c <> 0 /\ processes s !! c = None /\ exthreads s !! c = None) /\ (st' <> EC_SUCCESS -> c = 0)).
  { intros st Hst. exists st, 0, [], (Svc s). split; [by destruct s|]. by repeat split. }
  unfold ExRuntimeBuildInitialConstBytes. destruct (negb _) eqn:Ec; [by apply Hno|]. destruct (_ || _); [by apply Hno|].
  unfold svc. destruct (kzalloc _ (Svc s)) as [c w] eqn:Ek. destruct (kzalloc_run s own ext _ c w I Ek) as [Ew Hn].
  destruct (Z.eqb_spec c 0) as [Hz|Hz].
  { exists EC_OUT_OF_RESOURCE, 0, [], w. split; [done|]. by split. }
  assert (exists payload, (if ConstLength params =? 0 then Ok [] else copy_prefix (ConstLength params) (default [] (ConstBytes params)))
    = Ok payload) as [payload ->].
  { destruct (ConstLength params =? 0) eqn:El; [by eexists|]. unfold copy_prefix, params_ok in *.
    destruct (ConstBytes params) as [l|]; [|done]. cbn [default]. rewrite (proj2 (Z.ltb_ge _ _)) by done. by eexists. }
  cbn [res_bind]. eexists _, c, _, w. split; [done|]. split; [done|]. split; [|done]. intros _. split; [done|]. by apply Hn.
Qed.

Lemma create_undo_space_run s own ext n p status : ex_inv s own ext -> capped n s -> 0 < ext (ObjProcess p) ->
  status <> EC_SUCCESS ->
  exists st s', create_undo_space p status s = Ok (st, 0, s') /\ st <> EC_SUCCESS /\
    ex_inv s' own (move (ObjProcess p) (-1) ext) /\ capped n s' /\ gExRuntimeProcessTable s' = gExRuntimeProcessTable s.
Proof.
  intros I Hc He Hst. destruct (ei_ext _ _ _ I _ He) as [x Hx]. unfold create_undo_space.
  rewrite (proj2 (get_process_ok s p x) Hx). cbn [res_bind]. unfold svc.
  destruct (KeDestroyProcessAddressSpace (AddressSpace x) (Svc s)) as [[ds space] w] eqn:Ew.
  destruct (steady_svc s own ext n w I Hc) as [(I1 & C1 & _) A1]; [by eapply q_destroy_space|].
  destruct (steady_process (set_Svc w s) own ext n p (set_AddressSpace space) I1 C1) as (s2 & -> & [(I2 & C2 & K2) _] & _);
    [by exists x | fields | fields |]. cbn [res_bind].
  destruct (release_process_api s2 own ext n p I2 C2 He) as (rs & s3 & -> & I3 & C3 & R3). cbn [res_bind].
  assert (T3 : gExRuntimeProcessTable s3 = gExRuntimeProcessTable s) by by rewrite (refs_only_ptab _ _ R3), (calm_ptab _ _ K2).
  destruct (decide (ds = EC_SUCCESS)) as [->|Hd].
  - rewrite bool_decide_true by done. cbn [negb]. eexists _, s3. split; [done|]. split; [|done].
    destruct (decide (rs = EC_SUCCESS)) as [->|]; [by rewrite bool_decide_true | by rewrite bool_decide_false].
  - rewrite bool_decide_false by done. cbn [negb]. by exists ds, s3.
Qed.

Lemma create_undo_handles_run s own ext n p status : ex_inv s own ext -> capped n s -> n + 1 < 2 ^ 32 ->
  0 < ext (ObjProcess p) -> status <> EC_SUCCESS ->
  exists st s', create_undo_handles p status s = Ok (st, 0, s') /\ st <> EC_SUCCESS /\
    ex_inv s' own (move (ObjProcess p) (-1) ext) /\ capped (n + 1) s' /\ gExRuntimeProcessTable s' = gExRuntimeProcessTable s.
Proof.
  intros I Hc Hn He Hst. unfold create_undo_handles. pose proof (ei_ext _ _ _ I _ He) as Hal. cbn in Hal.
  destruct (teardown_payload_run s own ext n p I Hc) as (ts & s1 & -> & [(I1 & C1 & K1) A1] & _); [done|]. cbn [res_bind].
  unfold ExHandleCloseAll. destruct (close_all_run s1 own ext n p false I1 C1 Hn) as (cs & s2 & -> & (I2 & C2 & K2)).
  { intros _. by apply (A1 (ObjProcess p)). }
  cbn [res_bind]. destruct (release_process_api s2 own ext (n + 1) p I2 C2 He) as (rs & s3 & -> & I3 & C3 & R3). cbn [res_bind].
  assert (T3 : gExRuntimeProcessTable s3 = gExRuntimeProcessTable s).
  { by rewrite (refs_only_ptab _ _ R3), (calm_ptab _ _ K2), (calm_ptab _ _ K1). }
  destruct (decide (ts = EC_SUCCESS)) as [->|Hts]; [rewrite bool_decide_true by done | rewrite bool_decide_false by done];
    cbn [negb]; [|by exists ts, s3].
  destruct (decide (cs = EC_SUCCESS)) as [->|Hcs]; [rewrite bool_decide_true by done | rewrite bool_decide_false by done];
    cbn [negb]; [|by exists cs, s3].
  eexists _, s3. split; [done|]. split; [|done].
  destruct (decide (rs = EC_SUCCESS)) as [->|]; [by rewrite bool_decide_true | by rewrite bool_decide_false].
Qed.

(** What creating a process comes to. *)
Definition created own ext n s p0 (out : res (HO_STATUS * Z * EX W)) : Prop :=
  exists st p s', out = Ok (st, p, s') /\ capped n s' /\ gExRuntimeProcessTable s' = gExRuntimeProcessTable s /\
    ((st = EC_SUCCESS /\ p = p0 /\ p <> 0 /\ ex_inv s' own (move (ObjProcess p) 1 ext)) \/
     (st <> EC_SUCCESS /\ p = 0 /\ ex_inv s' own ext)).

Lemma undone own ext n n' s s0 p out : n <= n' -> gExRuntimeProcessTable s = gExRuntimeProcessTable s0 ->
  (exists st s', out = Ok (st, 0, s') /\ st <> EC_SUCCESS /\
     ex_inv s' own (move (ObjProcess p) (-1) (move (ObjProcess p) 1 ext)) /\ capped n s' /\
     gExRuntimeProcessTable s' = gExRuntimeProcessTable s) -> created own ext n' s0 p out.
Proof.
  intros Hn HT (st & s' & -> & Hst & I & C & T). exists st, 0, s'. split; [done|]. split; [by eapply capped_weaken|].
  split; [congruence|]. right.
  split_and!; try done. eapply inv_ext_eq; [|exact I]. intros o. symmetry. apply (move_cancel _ 1).
Qed.

(** One of the three insertions. *)
Lemma insert_handle_run s own ext n p o rights f : ex_inv s own ext -> capped n s -> n + 1 < 2 ^ 32 ->
  0 < ext (ObjProcess p) -> insertable s p o rights ->
  (forall h x, same_accounts x (f h x)) -> (forall h x, same_process x (f h x)) ->
  exists st h s1 s2, ExHandleInsert p (Some o) rights s = Ok (st, h, s1) /\ upd_process p (f h) s1 = Ok s2 /\
    ex_inv s2 own ext /\ capped (n + 1) s2 /\ gExRuntimeProcessTable s2 = gExRuntimeProcessTable s.
Proof.
  intros I Hc Hn He Hi H1' H2'.
  destruct (insert_run s own ext n p o rights I Hc Hn (ei_ext _ _ _ I _ He) Hi) as (st & h & s1 & E1 & (I1 & C1 & K1) & _).
  destruct (steady_process s1 own ext (n + 1) p (f h) I1 C1 (ei_ext _ _ _ I1 _ He)) as (s2 & E2 & [(I2 & C2 & K2) _] & _); [done..|].
  exists st, h, s1, s2. split_and!; try done. by rewrite (calm_ptab _ _ K2), (calm_ptab _ _ K1).
Qed.

Lemma create_handles_run s own ext n p : p <> 0 -> (forall o, 0 <= ext o) -> ex_inv s own (move (ObjProcess p) 1 ext) ->
  capped n s -> n + 4 < 2 ^ 32 -> created own ext (n + 4) s p (create_handles p s).
Proof.
  intros Hz Hnn I Hc Hn. unfold create_handles. set (ext1 := move (ObjProcess p) 1 ext) in *.
  assert (He : 0 < ext1 (ObjProcess p)) by (unfold ext1; rewrite move_here; specialize (Hnn (ObjProcess p)); lia).
  destruct (insert_handle_run s own ext1 n p (ObjProcess p) processSelfRights set_SelfHandle I Hc)
    as (st1 & h1 & a1 & s1 & -> & E1 & I1 & C1 & T1); [lia | done | done | fields | fields |]. cbn [res_bind]. rewrite E1. cbn [res_bind].
  destruct (decide (st1 = EC_SUCCESS)) as [->|Hs1]; [rewrite bool_decide_true by done | rewrite bool_decide_false by done]; cbn [negb].
  2: { apply (undone own ext (n + 1 + 1) _ s1 s p); [lia | done |]. apply create_undo_handles_run; try done. lia. }
  destruct (insert_handle_run s1 own ext1 (n + 1) p (ObjStdout p) stdoutRights set_StdoutHandle I1 C1)
    as (st2 & h2 & a2 & s2 & -> & E2 & I2 & C2 & T2); [lia | done | done | fields | fields |]. cbn [res_bind]. rewrite E2. cbn [res_bind].
  destruct (decide (st2 = EC_SUCCESS)) as [->|Hs2]; [rewrite bool_decide_true by done | rewrite bool_decide_false by done]; cbn [negb].
  2: { apply (undone own ext (n + 1 + 1 + 1) _ s2 s p); [lia | congruence |]. apply create_undo_handles_run; try done. lia. }
  destruct (insert_handle_run s2 own ext1 (n + 1 + 1) p (ObjProcess p) waitRights set_WaitHandle I2 C2)
    as (st3 & h3 & a3 & s3 & -> & E3 & I3 & C3 & T3); [lia | done | done | fields | fields |]. cbn [res_bind]. rewrite E3. cbn [res_bind].
  destruct (decide (st3 = EC_SUCCESS)) as [->|Hs3]; [rewrite bool_decide_true by done | rewrite bool_decide_false by done]; cbn [negb].
  2: { apply (undone own ext (n + 1 + 1 + 1 + 1) _ s3 s p); [lia | congruence |]. apply create_undo_handles_run; try done. lia. }
  exists EC_SUCCESS, p, s3. split; [done|]. split; [eapply capped_weaken; [|exact C3]; lia|]. split; [congruence | by left].
Qed.

Lemma capped_new_process n s p : 1 <= n -> capped n s -> processes s !! p = None ->
  capped n (put_process p (ExRuntimeInitializeProcessObject p) s).
Proof.
  intros Hn Hc Hp o h Eo. destruct o as [q|u|q]; cbn in Eo; unfold get_process, get_thread in Eo; cbn in Eo.
  - rewrite lookup_insert in Eo. destruct (decide (p = q)) as [<-|]; [by injection Eo as <-|]. by apply (Hc (ObjProcess q)).
  - by apply (Hc (ObjThread u)).
  - rewrite lookup_insert in Eo. destruct (decide (p = q)) as [<-|]; [by injection Eo as <-|]. by apply (Hc (ObjStdout q)).
Qed.

Lemma inv_next s own ext v : ex_inv s own ext -> ex_inv (set_gNextRuntimeProcessId v s) own ext.
Proof.
  intros I. destruct I. constructor; try done.
  - intros p x Hx. destruct (ei_processes p x Hx). by constructor.
  - intros t y Hy. destruct (ei_threads t y Hy). by constructor.
Qed.

Lemma created_from s s0 own ext n p0 out : gExRuntimeProcessTable s = gExRuntimeProcessTable s0 ->
  created own ext n s p0 out -> created own ext n s0 p0 out.
Proof. intros E (st & p & s' & -> & C & T & R). exists st, p, s'. split; [done|]. split; [done|]. split; [congruence | done]. Qed.

Lemma create_staging_run s own ext n p params space : p <> 0 -> (forall o, 0 <= ext o) ->
  ex_inv s own (move (ObjProcess p) 1 ext) -> capped n s -> n + 4 < 2 ^ 32 -> params_ok params ->
  created own ext (n + 4) s p (create_staged p params space s).
Proof.
  intros Hz Hnn I Hc Hn Hpar. set (ext1 := move (ObjProcess p) 1 ext) in *.
  assert (He : 0 < ext1 (ObjProcess p)) by (unfold ext1; rewrite move_here; specialize (Hnn (ObjProcess p)); lia).
  unfold create_staged. destruct (build_const_run s own ext1 n params I Hc Hpar) as (st & c & contents & w & -> & Ew & Hf & Hff).
  cbn [res_bind]. pose proof (inv_svc s own ext1 w I Ew) as I1. set (s1 := set_Svc w s) in *.
  assert (C1 : capped n s1) by (by apply capped_svc).
  destruct (decide (st = EC_SUCCESS)) as [->|Hst]; [rewrite bool_decide_true by done | rewrite bool_decide_false by done]; cbn [negb].
  2: { apply (undone own ext n _ s1 s p); [lia | done |]. by apply create_undo_space_run. }
  unfold svc. destruct (KeUserModeCreateStaging _ _ _ _ (Svc s1)) as [[st2 staging] w2] eqn:E2.
  destruct (steady_svc s1 own ext1 n w2 I1 C1) as [(I2 & C2 & _) _]; [by eapply q_create_staging|].
  destruct (Hf eq_refl) as (Hcz & Hcp & Hct). rewrite (proj2 (Z.eqb_neq c 0) Hcz).
  assert (I3 : ex_inv (set_Svc (kfree c (Svc (set_Svc w2 s1))) (set_Svc w2 s1)) own ext1).
  { apply inv_kfree; [done|]. cbn. rewrite Hcp, Hct. by intros [[? ?]|[? ?]]. }
  set (s3 := set_Svc _ (set_Svc w2 s1)) in *. assert (C3 : capped n s3) by (by apply capped_svc).
  destruct (decide (st2 = EC_SUCCESS)) as [->|Hst]; [rewrite bool_decide_true by done | rewrite bool_decide_false by done]; cbn [negb].
  2: { apply (undone own ext n _ s3 s p); [lia | done |]. by apply create_undo_space_run. }
  destruct (steady_process s3 own ext1 n p (set_Staging staging) I3 C3 (ei_ext _ _ _ I3 _ He)) as (s4 & -> & [(I4 & C4 & K4) _] & _);
    [fields | fields |]. cbn [res_bind]. apply (created_from s4); [by rewrite (calm_ptab _ _ K4)|]. by apply create_handles_run.
Qed.

(** From the fresh structure to the address space. *)
Lemma create_process_run s own ext n params : ex_inv s own ext -> capped n s -> 1 <= n -> n + 4 < 2 ^ 32 -> params_ok params ->
  gNextRuntimeProcessId s <> 0 ->
  exists p, (p <> 0 -> processes s !! p = None) /\ created own ext (n + 4) s p (ExRuntimeCreateProcess (Some params) s).
Proof.
  intros I Hc Hn1 Hn Hpar Hnext. pose proof (ei_nonneg _ _ _ I) as Hnn. unfold ExRuntimeCreateProcess, svc.
  destruct (kzalloc SizeofProcess (Svc s)) as [p w] eqn:Ek. destruct (kzalloc_run s own ext _ p w I Ek) as [Ew Hf].
  exists p. split; [by intros Hz; apply Hf|].
  pose proof (inv_svc s own ext w I Ew) as I1. set (s1 := set_Svc w s) in *.
  assert (C1 : capped n s1) by (by apply capped_svc).
  destruct (Z.eqb_spec p 0) as [Hz|Hz].
  { exists EC_OUT_OF_RESOURCE, 0, s1. split; [done|]. split; [eapply capped_weaken; [|exact C1]; lia|].
    split; [done | by right]. }
  destruct (Hf Hz) as (Ha & Hp & Ht). pose proof (inv_new_process s1 own ext p I1 Hz Hp Ht Ha) as I2.
  pose proof (capped_new_process n s1 p Hn1 C1 Hp) as C2. set (s2 := put_process p _ s1) in *.
  set (ext1 := move (ObjProcess p) 1 ext) in *.
  assert (He : 0 < ext1 (ObjProcess p)) by (unfold ext1; rewrite move_here; specialize (Hnn (ObjProcess p)); lia).
  unfold KiAllocateRuntimeProcessId. change (gNextRuntimeProcessId s2) with (gNextRuntimeProcessId s).
  rewrite (proj2 (Z.eqb_neq _ 0) Hnext). cbn [negb HO_KASSERT res_bind].
  pose proof (inv_next s2 own ext1 (u32 (gNextRuntimeProcessId s + 1)) I2) as I3. set (s3 := set_gNextRuntimeProcessId _ s2) in *.
  assert (C3 : capped n s3) by exact C2.
  destruct (steady_process s3 own ext1 n p (set_ProcessId (gNextRuntimeProcessId s)) I3 C3 (ei_ext _ _ _ I3 _ He))
    as (s4 & -> & [(I4 & C4 & K4) _] & _); [fields | fields |]. cbn [res_bind].
  destruct (steady_process s4 own ext1 n p (set_ParentProcessId (prParentProcessId params)) I4 C4 (ei_ext _ _ _ I4 _ He))
    as (s5 & -> & [(I5 & C5 & K5) _] & _); [fields | fields |]. cbn [res_bind].
  destruct (steady_process s5 own ext1 n p (set_ProgramId (prProgramId params)) I5 C5 (ei_ext _ _ _ I5 _ He))
    as (s6 & -> & [(I6 & C6 & K6) _] & _); [fields | fields |]. cbn [res_bind].
  assert (T6 : gExRuntimeProcessTable s6 = gExRuntimeProcessTable s).
  { by rewrite (calm_ptab _ _ K6), (calm_ptab _ _ K5), (calm_ptab _ _ K4). }
  destruct (KeCreateProcessAddressSpace (Svc s6)) as [[st space] w7] eqn:E7.
  destruct (steady_svc s6 own ext1 n w7 I6 C6) as [(I7 & C7 & _) _]; [by eapply q_create_space|].
  destruct (decide (st = EC_SUCCESS)) as [->|Hst]; [rewrite bool_decide_true by done | rewrite bool_decide_false by done]; cbn [negb].
  2: { destruct (release_process_api _ own ext1 n p I7 C7 He) as (rs & s8 & -> & I8 & C8 & R8). cbn [res_bind].
       apply (undone own ext n _ (set_Svc w7 s6) s p); [lia | exact T6 |]. eexists _, s8. split; [done|].
       split; [|split; [done|split; [done | by apply refs_only_ptab]]].
       destruct (decide (rs = EC_SUCCESS)) as [->|]; [by rewrite bool_decide_true | by rewrite bool_decide_false]. }
  destruct (steady_process (set_Svc w7 s6) own ext1 n p (set_AddressSpace space) I7 C7 (ei_ext _ _ _ I7 _ He))
    as (s8 & -> & [(I8 & C8 & K8) _] & _); [fields | fields |]. cbn [res_bind].
  apply (created_from s8); [by rewrite (calm_ptab _ _ K8)|]. by apply create_staging_run.
Qed.
End process.
