(* ===== verification/ExThread.v ===== *)
(** * The executive's calls: threads

    The creation of a thread in a process, from the kernel thread to the
    publication, with the common failure path. *)

From S2P Require Import Prelude Ex ExInv ExRefs ExHandles ExLife ExCalls ExProcess.

Local Open Scope Z_scope.

Section thread.
Context {W : Type} `{ExLaws W}.
Implicit Types (s : EX W) (p t kt : Z) (o : EX_OBJECT) (x : EX_PROCESS) (y : EX_THREAD)
  (own : gset Z) (ext : EX_OBJECT -> Z).

Lemma first_error (a b : HO_STATUS) : b <> EC_SUCCESS -> (if bool_decide (a = EC_SUCCESS) then b else a) <> EC_SUCCESS.
Proof. intros Hb. destruct (decide (a = EC_SUCCESS)) as [->|]; [by rewrite bool_decide_true | by rewrite bool_decide_false]. Qed.

(** A thread outside [own] has no entry. *)
Lemma no_entry s own ext t : ex_inv s own ext -> t ∉ own ->
  forall e, e ∈ gExRuntimeThreadTable s -> Active e = true -> Entry e <> t.
Proof.
  intros I Hown e He Ha <-. pose proof (ei_ttab _ _ _ I) as Ht. rewrite Forall_forall in Ht. by destruct (Ht e He Ha).
Qed.

Lemma validate_unpublished_thread s own ext t y sl : ex_inv s own ext -> t ∉ own -> exthreads s !! t = Some y ->
  Object sl = Some (ObjThread t) -> Z.land (Rights sl) EX_HANDLE_RIGHT_CLOSE = EX_HANDLE_RIGHT_CLOSE ->
  KiValidateCloseHandleSlot sl false s = Ok EC_SUCCESS.
Proof.
  intros I Hown Hy Ho Hr. unfold KiValidateCloseHandleSlot. rewrite Ho, Hr. cbn [Z.eqb negb].
  assert (Eh : get_header (ObjThread t) s = Ok (tHeader y)) by (cbn; by rewrite (proj2 (get_thread_ok s t y) Hy)).
  pose proof (header_type s own ext _ _ I Eh) as Ety. cbn in Ety.
  unfold ExRuntimeIsPublishedObject. rewrite Eh. cbn [res_bind]. rewrite Ety.
  unfold KiFindThreadSlotByThreadObject. rewrite (proj2 (Z.eqb_neq t 0)) by (by destruct (ei_threads _ _ _ I t y Hy)).
  destruct (thread_search s own ext (fun e => Ok (Active e && (Entry e =? t))) I) as (i & -> & R); [by eauto..|]. cbn [res_bind].
  destruct R as [(_ & _ & e & He & Hf)|(Hi & _)].
  - exfalso. injection Hf as Hf. apply andb_true_iff in Hf as [Ha Hf%Z.eqb_eq].
    apply (no_entry s own ext t I Hown e); [by eapply list_elem_of_lookup_2 | done | done].
  - rewrite Hi. done.
Qed.

(** The handle that a new thread has to itself, or its absence. *)
Definition self_handle s p t (h : EX_HANDLE) : Prop :=
  (h = EX_HANDLE_INVALID /\ forall x, processes s !! p = Some x -> handles (ObjThread t) x = 0) \/
  (exists x i sl, processes s !! p = Some x /\ HandleTable x !! i = Some sl /\ Object sl = Some (ObjThread t) /\
     Z.land (Rights sl) EX_HANDLE_RIGHT_CLOSE = EX_HANDLE_RIGHT_CLOSE /\
     KiDecodeHandle h = Some (Z.of_nat i, Generation sl) /\ handles (ObjThread t) x = 1).

Lemma owner_referenced s own ext t y x : ex_inv s own ext -> exthreads s !! t = Some y -> processes s !! Process y = Some x ->
  0 < ReferenceCount (Header x).
Proof.
  intros I Hy Hx. destruct (ei_processes _ _ _ I _ x Hx). rewrite pk_refs.
  pose proof (owners_pos (Process y) t y _ Hy eq_refl). pose proof (handles_nonneg (ObjProcess (Process y)) x).
  pose proof (ei_nonneg _ _ _ I (ObjProcess (Process y))). destruct (CompletionRetained x); cbn; lia.
Qed.

Lemma close_self_run s own ext n p t y h : ex_inv s own ext -> capped n s -> n + 1 < 2 ^ 32 -> exthreads s !! t = Some y ->
  Process y = p -> p <> 0 -> t ∉ own -> 0 < ext (ObjThread t) -> self_handle s p t h ->
  exists st h' s' y', ExHandleClose p h s = Ok (st, h', s') /\ keeps own ext (n + 1) s s' /\
    exthreads s' !! t = Some y' /\ same_thread y y' /\ thread_handles s' t y' = 0.
Proof.
  intros I Hc Hn Hy Hp Hz Hown He Hh.
  assert (Hal : is_Some (processes s !! p)) by (destruct (ei_threads _ _ _ I t y Hy); rewrite Hp in *; by destruct tk_proc).
  destruct Hh as [[-> Hh]|(x & i & sl & Hx & Hi & Ho & Hr & Hd & Hh)].
  { unfold ExHandleClose. rewrite (proj2 (Z.eqb_neq p 0) Hz). cbn [Z.eqb EX_HANDLE_INVALID].
    exists EC_SUCCESS, 0, s, y. split; [done|]. split; [by apply keeps_refl; [|apply capped_S]|]. split; [done|]. split; [done|].
    destruct Hal as [x Hx]. unfold thread_handles. rewrite Hp, Hx. by apply Hh. }
  destruct (close_run s own ext n p h I Hc Hn) as (st & h' & s' & -> & K & Hex); [done|].
  pose proof K as (I' & C' & (_ & A2 & _)). destruct (ei_ext _ _ _ I' _ He) as [y' Hy'].
  destruct (A2 t y' Hy') as (y0 & Hy0 & Hs). rewrite Hy in Hy0. injection Hy0 as <-.
  exists st, h', s', y'. split; [done|]. split; [done|]. split; [done|]. split; [done|].
  destruct (Hex x i sl Hx) as [_ Ht].
  - rewrite <- Hp in Hx. pose proof (owner_referenced s own ext t y x I Hy Hx). lia.
  - exists sl. split; [done|]. split; [done|]. by eapply validate_unpublished_thread.
  - done.
  - unfold thread_handles. destruct Hs as (_ & -> & _). rewrite Hp. destruct (processes s' !! p) as [x'|] eqn:Hx'; [|done].
    specialize (Ht x' eq_refl). rewrite (handles_same _ (set_HandleTable (<[i := clear_slot sl]> (HandleTable x)) x) x') by done.
    rewrite (handles_update _ x i sl _ Hi), Hh, Ho. rewrite decide_True by done. cbn [Object clear_slot].
    by rewrite decide_False.
Qed.

(** The accounts of a new thread that holds its process. *)
Definition adopted p t ext : EX_OBJECT -> Z := move (ObjProcess p) (-1) (move (ObjThread t) 1 ext).

Lemma fail_thread_setup_run s own ext n p t kt y status : (forall o, 0 <= ext o) ->
  ex_inv s own (adopted p t ext) -> capped n s -> n + 1 < 2 ^ 32 -> exthreads s !! t = Some y -> Process y = p -> Thread y = kt ->
  p <> 0 -> t ∉ own -> unpublished_kernel_thread s kt -> is_Some (kernel_thread kt (Svc s)) ->
  self_handle s p t (tSelfHandle y) -> status <> EC_SUCCESS ->
  exists st s', fail_thread_setup p t kt status s = Ok (st, p, 0, s') /\ st <> EC_SUCCESS /\ ex_inv s' own ext /\ capped (n + 1) s' /\
    gExRuntimeProcessTable s' = gExRuntimeProcessTable s.
Proof.
  intros Hnn I Hc Hn Hy Hp Hk Hz Hown Hu Hks Hh Hst. unfold fail_thread_setup. set (ext1 := adopted p t ext) in *.
  assert (Het : 0 < ext1 (ObjThread t)).
  { unfold ext1, adopted. rewrite move_other, move_here by congruence. specialize (Hnn (ObjThread t)). lia. }
  assert (Hal : is_Some (processes s !! p)) by (destruct (ei_threads _ _ _ I t y Hy); rewrite Hp in *; by destruct tk_proc).
  destruct Hal as [x Hx]. rewrite (proj2 (get_process_ok s p x) Hx). cbn [res_bind]. unfold svc.
  destruct (KeUserModeDetachThread kt (Staging x) (Svc s)) as [ds w] eqn:Ew.
  assert (Q : quiet_call (Svc s) w) by (by eapply q_detach).
  destruct (steady_svc s own ext1 n w I Hc Q) as [(I1 & C1 & K1) _]. set (s1 := set_Svc w s) in *.
  destruct (destroy_new_thread_run s1 own ext1 n kt I1 C1) as (dst & s2 & -> & I2 & C2 & P2 & T2 & Q2 & _).
  { by eapply unpublished_calm. }
  { intros _. destruct K1 as (_ & _ & _ & _ & _ & K). by apply K. }
  cbn [res_bind]. assert (Hy2 : exthreads s2 !! t = Some y) by (by rewrite T2).
  rewrite (proj2 (get_thread_ok s2 t y) Hy2). cbn [res_bind].
  destruct (close_self_run s2 own ext1 n p t y (tSelfHandle y) I2 C2 Hn Hy2 Hp Hz Hown Het)
    as (cs & h' & s3 & y3 & -> & (I3 & C3 & K3) & Hy3 & Hs3 & Hh3).
  { unfold self_handle. rewrite P2. exact Hh. }
  cbn [res_bind].
  destruct (steady_thread s3 own ext1 (n + 1) t y3 (set_tSelfHandle h') I3 C3 Hy3) as (-> & [(I4 & C4 & K4) _]); [done | fields |].
  cbn [res_bind]. set (y4 := set_tSelfHandle h' y3) in *. set (s4 := put_thread t y4 s3) in *.
  assert (Hy4 : exthreads s4 !! t = Some y4) by apply lookup_insert_eq.
  unfold upd_thread at 1. rewrite (proj2 (get_thread_ok s4 t y4) Hy4). cbn [res_bind].
  assert (I5 : ex_inv (put_thread t (set_Process 0 (set_Thread 0 y4)) s4) own (move (ObjThread t) 1 ext)).
  { destruct Hs3 as (S1 & S2 & S3). apply (inv_reowner s4 own ext1 _ t y4); try done.
    - by left.
    - by eapply no_entry.
    - intros o. change (Process (set_Process 0 (set_Thread 0 y4))) with 0. change (Process y4) with (Process y3). rewrite S2, Hp.
      unfold b2z. rewrite (decide_False (P := o = ObjProcess 0 /\ 0 <> 0)) by (by intros [_ ?]).
      unfold ext1, adopted. destruct (decide (o = ObjProcess p)) as [->|Ho].
      + rewrite decide_True by done. rewrite move_here. lia.
      + rewrite decide_False by (by intros [? _]). rewrite (move_other (ObjProcess p)) by done. lia.
    - intros o. specialize (Hnn o). unfold move. destruct (decide _); lia. }
  set (s5 := put_thread t _ s4) in *.
  assert (C5 : capped (n + 1) s5) by (by eapply capped_put_thread).
  destruct (release_thread_api s5 own _ (n + 1) t I5 C5) as (rs & s6 & -> & I6 & C6 & R6).
  { rewrite move_here. specialize (Hnn (ObjThread t)). lia. }
  cbn [res_bind]. eexists _, s6. split; [done|]. split; [|split; [|split; [done|]]].
  - destruct (decide (ds = EC_SUCCESS)) as [->|]; [rewrite bool_decide_true by done | by rewrite bool_decide_false]. cbn [negb].
    destruct (decide (dst = EC_SUCCESS)) as [->|]; [rewrite bool_decide_true by done | by rewrite bool_decide_false]. cbn [negb].
    destruct (decide (cs = EC_SUCCESS)) as [->|]; [rewrite bool_decide_true by done | by rewrite bool_decide_false]. cbn [negb].
    by apply first_error.
  - eapply inv_ext_eq; [|exact I6]. intros o. symmetry. apply (move_cancel _ 1).
  - rewrite (refs_only_ptab _ _ R6). change (gExRuntimeProcessTable s5) with (gExRuntimeProcessTable s3).
    by rewrite (calm_ptab _ _ K3), Q2.
Qed.

Lemma patch_seed_run s own ext n p t : ex_inv s own ext -> capped n s -> is_Some (processes s !! p) -> is_Some (exthreads s !! t) ->
  exists st w, ExRuntimePatchCapabilitySeed p t s = Ok (st, set_Svc w s) /\ evolves (Svc s) w.
Proof.
  intros I Hc [x Hx] [y Hy]. unfold ExRuntimePatchCapabilitySeed.
  assert (Hid : forall st : HO_STATUS, exists st' w, Ok (st, s) = Ok (st', set_Svc w s) /\ evolves (Svc s) w).
  { intros st. exists st, (Svc s). split; [by destruct s | by split]. }
  destruct (_ || _); [apply Hid|]. rewrite (proj2 (get_process_ok s p x) Hx). cbn [res_bind].
  rewrite (proj2 (get_thread_ok s t y) Hy). cbn [res_bind]. destruct (_ || _); [apply Hid|].
  destruct (_ || _ || _ || _); [apply Hid|]. unfold svc.
  destruct (KeUserModePatchConstBytes _ _ _ _) as [st w] eqn:Ew. exists st, w. split; [done|]. by eapply quiet_law, q_patch.
Qed.

(** What creating a thread in process [p] comes to. *)
Definition thread_created own ext n p s (out : res (HO_STATUS * Z * Z * EX W)) : Prop :=
  exists st p' t s', out = Ok (st, p', t, s') /\ capped n s' /\
    ((st = EC_SUCCESS /\ p' = 0 /\ t ∉ own /\ ex_inv s' (own ∪ {[t]}) (move (ObjProcess p) (-1) ext)) \/
     (st <> EC_SUCCESS /\ p' = p /\ t = 0 /\ ex_inv s' own ext /\ gExRuntimeProcessTable s' = gExRuntimeProcessTable s)).

Lemma thread_failed own ext n n' p s s0 out : n <= n' -> gExRuntimeProcessTable s = gExRuntimeProcessTable s0 ->
  (exists st s', out = Ok (st, p, 0, s') /\ st <> EC_SUCCESS /\ ex_inv s' own ext /\ capped n s' /\
     gExRuntimeProcessTable s' = gExRuntimeProcessTable s) -> thread_created own ext n' p s0 out.
Proof.
  intros Hn HT (st & s' & -> & Hst & I & C & T). exists st, p, 0, s'. split; [done|]. split; [by eapply capped_weaken|].
  right. split_and!; try done. congruence.
Qed.

Lemma finish_thread_run s own ext n p t kt y : (forall o, 0 <= ext o) ->
  ex_inv s own (adopted p t ext) -> capped n s -> n + 2 < 2 ^ 32 -> exthreads s !! t = Some y -> Process y = p -> Thread y = kt ->
  p <> 0 -> t ∉ own -> unpublished_kernel_thread s kt -> is_Some (kernel_thread kt (Svc s)) ->
  ReferenceCount (tHeader y) = 1 -> ext (ObjThread t) = 0 ->
  thread_created own ext (n + 2) p s (finish_thread p t kt s).
Proof.
  intros Hnn I Hc Hn Hy Hp Hk Hz Hown Hu Hks Hrc He0. set (ext1 := adopted p t ext) in *.
  assert (Het : ext1 (ObjThread t) = 1) by (unfold ext1, adopted; rewrite move_other, move_here by congruence; lia).
  assert (Hal : is_Some (processes s !! p)) by (destruct (ei_threads _ _ _ I t y Hy); rewrite Hp in *; by destruct tk_proc).
  assert (Hh0 : forall x, processes s !! p = Some x -> handles (ObjThread t) x = 0).
  { intros x Hx. apply (no_thread_handles s own ext1 t y p x I Hy); [|done]. destruct (ei_threads _ _ _ I t y Hy).
    unfold ext1 in *. rewrite decide_False in tk_refs by done. lia. }
  unfold finish_thread.
  destruct (insert_run s own ext1 n p (ObjThread t) threadSelfRights I Hc) as (st & h & s1 & -> & (I1 & C1 & K1) & A1 & Hins);
    [lia | done | split; [by exists y | done] |].
  cbn [res_bind]. destruct (A1 (ObjThread t)) as [y1 Hy1]; [by exists y|].
  assert (Hs1 : same_thread y y1).
  { destruct K1 as (_ & A2 & _). destruct (A2 t y1 Hy1) as (z & Hzz & Hs). rewrite Hy in Hzz. by injection Hzz as <-. }
  destruct (steady_thread s1 own ext1 (n + 1) t y1 (set_tSelfHandle h) I1 C1 Hy1) as (-> & [(I2 & C2 & K2) _]); [done | fields |].
  cbn [res_bind]. set (y2 := set_tSelfHandle h y1) in *. set (s2 := put_thread t y2 s1) in *.
  assert (Hy2 : exthreads s2 !! t = Some y2) by apply lookup_insert_eq.
  destruct Hs1 as (S1 & S2 & _). assert (K12 : calm s s2) by (by etrans).
  assert (Hu2 : unpublished_kernel_thread s2 kt) by (by eapply unpublished_calm).
  assert (Hks2 : is_Some (kernel_thread kt (Svc s2))) by (destruct K12 as (_ & _ & _ & _ & _ & K); by apply K).
  assert (Hsh : self_handle s2 p t h).
  { destruct Hins as [(-> & i & g & x & x' & sl & G1 & G2 & G3 & G4 & G5 & G6 & _)|(_ & -> & ->)].
    - right. exists x', i, (mkSlot (Some (ObjThread t)) threadSelfRights g).
      pose proof (lookup_lt_Some _ _ _ G3). split; [done|]. split; [by rewrite G5, list_lookup_insert_eq|].
      split; [done|]. split; [done|]. split; [done|].
      rewrite (handles_same _ (set_HandleTable (<[i := mkSlot (Some (ObjThread t)) threadSelfRights g]> (HandleTable x)) x) x') by done.
      rewrite (handles_update _ x i sl _ G3), (Hh0 x G1), G4. rewrite decide_False by done. cbn [Object]. by rewrite decide_True.
    - left. split; [done|]. intros x Hx. by apply Hh0. }
  assert (Hfail : forall w status, evolves (Svc s2) w -> status <> EC_SUCCESS ->
    thread_created own ext (n + 2) p s (fail_thread_setup p t kt status (set_Svc w s2))).
  { intros w status Ew Hst. apply (thread_failed own ext (n + 1 + 1) _ p (set_Svc w s2)); [lia | by apply (calm_ptab s s2) |].
    apply (fail_thread_setup_run _ own ext (n + 1) p t kt y2); try done.
    - by apply inv_svc.
    - lia.
    - change (Process y2) with (Process y1). congruence.
    - change (Thread y2) with (Thread y1). congruence.
    - by apply Ew. }
  assert (E2 : s2 = set_Svc (Svc s2) s2) by (by destruct s2).
  destruct (decide (st = EC_SUCCESS)) as [->|Hst]; [rewrite bool_decide_true by done | rewrite bool_decide_false by done]; cbn [negb].
  2: { rewrite E2. apply Hfail; [by split | done]. }
  assert (Hal2 : is_Some (processes s2 !! p)).
  { destruct (ei_threads _ _ _ I2 t y2 Hy2). change (Process y2) with (Process y1) in *. rewrite S2, Hp in *. by destruct tk_proc. }
  destruct (patch_seed_run s2 own ext1 (n + 1) p t I2 C2 Hal2) as (st3 & w & -> & Ew); [by exists y2|]. cbn [res_bind].
  destruct (decide (st3 = EC_SUCCESS)) as [->|Hst]; [rewrite bool_decide_true by done | rewrite bool_decide_false by done]; cbn [negb].
  2: { by apply Hfail. }
  set (s3 := set_Svc w s2). assert (I3 : ex_inv s3 own ext1) by (by apply inv_svc). assert (C3 : capped (n + 1) s3) by (by apply capped_svc).
  destruct Hal2 as [x2 Hx2].
  destruct (publish_thread_run s3 own ext1 (n + 1) p t x2 y2 I3 C3 Hx2 Hy2) as (st4 & s4 & -> & R4).
  { change (Thread y2) with (Thread y1). rewrite S1, Hk. by apply Ew. }
  { lia. }
  { done. }
  cbn [res_bind]. destruct R4 as [(-> & I4 & C4 & _)|(Hst4 & ->)].
  - rewrite bool_decide_true by done. cbn [negb]. eexists _, _, _, s4. split; [done|]. split; [eapply capped_weaken; [|exact C4]; lia|].
    left. split; [done|]. split; [done|]. split; [done|]. eapply inv_ext_eq; [|exact I4]. intros o. unfold ext1, adopted.
    unfold move. destruct (decide (o = ObjThread t)) as [->|]; [rewrite !decide_False by congruence; lia | done].
  - rewrite bool_decide_false by done. cbn [negb]. by apply Hfail.
Qed.

Lemma capped_new_thread n s t : 1 <= n -> capped n s -> capped n (put_thread t ExRuntimeInitializeThreadObject s).
Proof.
  intros Hn Hc o h Eo. destruct o as [q|u|q]; cbn in Eo; unfold get_process, get_thread in Eo; cbn in Eo.
  - by apply (Hc (ObjProcess q)).
  - rewrite lookup_insert in Eo. destruct (decide (t = u)) as [<-|]; [by injection Eo as <-|]. by apply (Hc (ObjThread u)).
  - by apply (Hc (ObjStdout q)).
Qed.

Lemma create_thread_run s own ext n p params : ex_inv s own ext -> capped n s -> 1 <= n -> n + 2 < 2 ^ 32 ->
  0 < ext (ObjProcess p) -> thread_created own ext (n + 2) p s (ExRuntimeCreateThread p (Some params) s).
Proof.
  intros I Hc Hn1 Hn He. pose proof (ei_nonneg _ _ _ I) as Hnn. unfold ExRuntimeCreateThread.
  assert (Hno : forall n' s' status, n' <= n + 2 -> status <> EC_SUCCESS -> ex_inv s' own ext -> capped n' s' ->
    gExRuntimeProcessTable s' = gExRuntimeProcessTable s ->
    thread_created own ext (n + 2) p s (Ok (status, p, 0, s'))).
  { intros n' s' status Hn' Hst I' C' T'. apply (thread_failed own ext n' _ p s s); [done | done |]. by exists status, s'. }
  destruct (ei_ext _ _ _ I _ He) as [x Hx]. cbn in Hx.
  assert (Hz : p <> 0) by (eapply live_process_nz; [exact I | by exists x]).
  destruct (_ || _); [apply (Hno n); done || lia|]. rewrite (proj2 (get_process_ok s p x) Hx). cbn [res_bind].
  destruct (Staging x =? 0); [apply (Hno n); done || lia|]. destruct (negb _); [apply (Hno n); done || lia|].
  unfold svc. destruct (kzalloc SizeofThread (Svc s)) as [t w] eqn:Ek. destruct (kzalloc_run s own ext _ t w I Ek) as [Ew Hf].
  pose proof (inv_svc s own ext w I Ew) as I1. set (s1 := set_Svc w s) in *. assert (C1 : capped n s1) by (by apply capped_svc).
  destruct (Z.eqb_spec t 0) as [Htz|Htz]; [apply (Hno n); done || lia|].
  destruct (Hf Htz) as (Ha & Hpt & Htt). pose proof (inv_new_thread s1 own ext t I1 Htz Htt Hpt Ha) as I2.
  assert (Het0 : ext (ObjThread t) = 0) by (eapply ext_dead; [exact I | intros [? ?]; cbn in *; congruence]).
  assert (Hown : t ∉ own) by (intros Hin; destruct (ei_own _ _ _ I t Hin); congruence).
  pose proof (capped_new_thread n s1 t Hn1 C1) as C2. set (s2 := put_thread t _ s1) in *. set (ext1 := move (ObjThread t) 1 ext) in *.
  assert (Het : 0 < ext1 (ObjThread t)) by (unfold ext1; rewrite move_here; lia).
  assert (Hrel : forall s' n' status, n' <= n + 2 -> status <> EC_SUCCESS -> ex_inv s' own ext1 -> capped n' s' ->
    gExRuntimeProcessTable s' = gExRuntimeProcessTable s ->
    thread_created own ext (n + 2) p s
      (let* (releaseStatus, s) := ExRuntimeReleaseThread t s' in
       Ok (if bool_decide (releaseStatus = EC_SUCCESS) then status else releaseStatus, p, 0, s))).
  { intros s' n' status Hn' Hst I' C' T'. destruct (release_thread_api s' own ext1 n' t I' C' Het) as (rs & s3 & -> & I3 & C3 & R3).
    cbn [res_bind]. apply (Hno n'); [done | by apply first_error | | done | by rewrite (refs_only_ptab _ _ R3)].
    eapply inv_ext_eq; [|exact I3]. intros o. symmetry. apply (move_cancel _ 1). }
  destruct (KeThreadCreate _ _ _ (Svc s2)) as [[st kt] w3] eqn:E3.
  destruct (steady_svc s2 own ext1 n w3 I2 C2) as [(I3 & C3 & K3) _]; [by eapply q_thread_create|]. set (s3 := set_Svc w3 s2) in *.
  destruct (decide (st = EC_SUCCESS)) as [->|Hst]; [rewrite bool_decide_true by done | rewrite bool_decide_false by done]; cbn [negb].
  2: { apply (Hrel s3 n); done || lia. }
  destruct (thread_create_law _ _ _ _ _ _ E3) as (Hkz & Hkn & Hks).
  assert (Hu3 : unpublished_kernel_thread s3 kt).
  { apply (unpublished_calm s2); [done|]. intros e z He' Hact Hzz Hk. pose proof (ei_ttab _ _ _ I2) as Htab. rewrite Forall_forall in Htab.
    destruct (Htab e He' Hact) as (_ & z' & Hz' & _ & _ & [v Hv]). rewrite Hzz in Hz'. injection Hz' as <-. congruence. }
  destruct (KeUserModeAttachThread kt (Staging x) (Svc s3)) as [st4 w4] eqn:E4.
  destruct (steady_svc s3 own ext1 n w4 I3 C3) as [(I4 & C4 & K4) _]; [by eapply q_attach|]. set (s4 := set_Svc w4 s3) in *.
  assert (Hu4 : unpublished_kernel_thread s4 kt) by (by eapply unpublished_calm).
  assert (Hks4 : is_Some (kernel_thread kt (Svc s4))) by (destruct K4 as (_ & _ & _ & _ & _ & K); by apply K).
  destruct (decide (st4 = EC_SUCCESS)) as [->|Hst4]; [rewrite bool_decide_true by done | rewrite bool_decide_false by done]; cbn [negb].
  2: { destruct (destroy_new_thread_run s4 own ext1 n kt I4 C4 Hu4) as (ds & s5 & -> & I5 & C5 & _ & _ & Q5 & _); [done|]. cbn [res_bind].
       destruct (release_thread_api s5 own ext1 n t I5 C5 Het) as (rs & s6 & -> & I6 & C6 & R6). cbn [res_bind].
       apply (Hno n); [lia | | | done | by rewrite (refs_only_ptab _ _ R6), Q5].
       - destruct (decide (ds = EC_SUCCESS)) as [->|]; [rewrite bool_decide_true by done | by rewrite bool_decide_false]. by apply first_error.
       - eapply inv_ext_eq; [|exact I6]. intros o. symmetry. apply (move_cancel _ 1). }
  destruct Hks4 as [v Hv]. unfold get_kthread. rewrite Hv. cbn [res_bind].
  assert (Hy4 : exthreads s4 !! t = Some ExRuntimeInitializeThreadObject) by apply lookup_insert_eq.
  unfold upd_thread at 1. rewrite (proj2 (get_thread_ok s4 t _) Hy4). cbn [res_bind].
  set (y5 := set_ThreadId _ _). set (s5 := put_thread t y5 s4).
  assert (I5 : ex_inv s5 own (adopted p t ext)).
  { apply (inv_reowner s4 own ext1 _ t ExRuntimeInitializeThreadObject); try done.
    - unfold thread_handles. cbn. destruct (processes s !! 0) as [z|] eqn:E0; [|done].
      by destruct (pk_nz _ _ _ _ (ei_processes _ _ _ I 0 z E0)).
    - right. by exists x.
    - by eapply no_entry.
    - intros o. change (Process y5) with p. change (Process ExRuntimeInitializeThreadObject) with 0. unfold b2z.
      rewrite (decide_False (P := o = ObjProcess 0 /\ 0 <> 0)) by (by intros [_ ?]). unfold adopted, ext1.
      destruct (decide (o = ObjProcess p)) as [->|Ho]; [rewrite decide_True, move_here by done | rewrite decide_False, (move_other (ObjProcess p)) by (done || by intros [? _])]; lia.
    - intros o. unfold adopted, move. pose proof (Hnn o). destruct (decide (o = ObjProcess p)) as [->|]; [rewrite decide_False by congruence; lia|].
      destruct (decide _); lia. }
  assert (C5 : capped n s5) by (by eapply capped_put_thread).
  apply (finish_thread_run s5 own ext n p t kt y5); try done.
  - apply lookup_insert_eq.
  - intros e z He' Hact Hzz Hk. apply (no_entry s5 own _ t I5 Hown e He' Hact). cbn in Hzz. rewrite lookup_insert in Hzz.
    destruct (decide (t = Entry e)) as [->|]; [done|]. by destruct (Hu4 e z He' Hact Hzz).
Qed.
End thread.
