(* ===== verification/ExControl.v ===== *)
(** * The executive's calls: control

    Starting and tearing down a thread, finalising one that exited, and the
    process-control calls: waiting, killing, showing and spawning. *)

From S2P Require Import Prelude Ex ExInv ExRefs ExHandles ExLife ExCalls ExProcess ExThread.

Local Open Scope Z_scope.

Section control.
Context {W : Type} `{ExLaws W}.
Implicit Types (s : EX W) (p t kt : Z) (o : EX_OBJECT) (x : EX_PROCESS) (y : EX_THREAD)
  (own : gset Z) (ext : EX_OBJECT -> Z).

Lemma thread_process s own ext t y : ex_inv s own ext -> exthreads s !! t = Some y -> Process y <> 0 -> is_Some (processes s !! Process y).
Proof. intros I Hy Hp. destruct (ei_threads _ _ _ I t y Hy). by destruct tk_proc. Qed.

(** The runtime's own reference, or a counted one, keeps a thread alive. *)
Lemma start_thread_run s own ext n t : ex_inv s own ext -> capped n s -> (t <> 0 -> is_Some (exthreads s !! t)) ->
  exists st t' s', ExRuntimeStartThread t s = Ok (st, t', s') /\ steady own ext n s s' /\
    (st = EC_SUCCESS /\ t' = 0 \/ st <> EC_SUCCESS /\ t' = t).
Proof.
  intros I Hc Ht. pose proof (steady_refl s own ext n I Hc) as K0. unfold ExRuntimeStartThread.
  destruct (Z.eqb_spec t 0) as [Hz|Hz]; [eexists _, t, s; split; [done|]; split; [done | by right]|].
  destruct (Ht Hz) as [y Hy]. rewrite (proj2 (get_thread_ok s t y) Hy). cbn [res_bind].
  destruct (Thread y =? 0); [eexists _, t, s; split; [done|]; split; [done | by right]|]. unfold svc.
  destruct (KeThreadStart (Thread y) (Svc s)) as [st w] eqn:Ew.
  assert (Kw : steady own ext n s (set_Svc w s)) by (apply steady_svc; [done | done | by eapply q_thread_start]).
  pose proof Kw as [(I1 & C1 & _) A1].
  destruct (decide (st = EC_SUCCESS)) as [->|Hst]; [rewrite bool_decide_true by done | rewrite bool_decide_false by done]; cbn [negb].
  2: { eexists _, t, _. split; [done|]. split; [done | by right]. }
  destruct (Z.eqb_spec (Process y) 0) as [Hp|Hp]; cbn [res_bind].
  { eexists _, 0, _. split; [done|]. split; [done | by left]. }
  destruct (steady_process (set_Svc w s) own ext n (Process y) (set_State EX_PROCESS_STATE_READY) I1 C1) as (s2 & -> & K2 & _);
    [by eapply thread_process | fields | fields |]. cbn [res_bind].
  eexists _, 0, s2. split; [done|]. split; [by eapply steady_trans | by left].
Qed.

Lemma mark_control_run s own ext n p fg owner : ex_inv s own ext -> capped n s -> (p <> 0 -> is_Some (processes s !! p)) ->
  exists st s', ExRuntimeMarkProcessControl p fg owner s = Ok (st, s') /\ steady own ext n s s'.
Proof.
  intros I Hc Hp. unfold ExRuntimeMarkProcessControl.
  destruct (Z.eqb_spec p 0) as [Hz|Hz]; [eexists _, s; split; [done | by apply steady_refl]|].
  destruct (steady_process s own ext n p (fun x => set_RestoreForegroundOwnerThreadId owner (set_Foreground fg x)) I Hc)
    as (s1 & -> & K & _); [by apply Hp | fields | fields |]. cbn [res_bind]. by eauto.
Qed.

Lemma destroy_process_run s own ext n p : ex_inv s own ext -> capped n s -> n + 1 < 2 ^ 32 -> 0 < ext (ObjProcess p) ->
  exists st s', ExRuntimeDestroyProcess p s = Ok (st, s') /\ capped (n + 1) s' /\
    (ex_inv s' own (move (ObjProcess p) (-1) ext) \/
     s' = s /\ exists e, e ∈ gExRuntimeProcessTable s /\ Active e = true /\ Entry e = p).
Proof.
  intros I Hc Hn He. pose proof (ei_ext _ _ _ I _ He) as Hal. unfold ExRuntimeDestroyProcess, ExRuntimeIsProcessPublished.
  rewrite (proj2 (Z.eqb_neq p 0)) by (eapply live_process_nz; [exact I | done]).
  destruct (find_by_process s own ext p I) as (i & -> & R). cbn [res_bind].
  destruct R as [(Hi & _ & _ & e & He' & Ha & Hp)|(Hi & _)]; rewrite Hi.
  { eexists _, s. split; [done|]. split; [by apply capped_S|]. right. split; [done|]. exists e.
    split; [by eapply list_elem_of_lookup_2 | done]. }
  destruct (teardown_payload_run s own ext n p I Hc) as (ts & s1 & -> & [(I1 & C1 & _) A1] & _); [done|]. cbn [res_bind].
  unfold ExHandleCloseAll. destruct (close_all_run s1 own ext n p false I1 C1 Hn) as (cs & s2 & -> & (I2 & C2 & _)).
  { intros _. by apply (A1 (ObjProcess p)). }
  cbn [res_bind]. destruct (release_process_api s2 own ext (n + 1) p I2 C2 He) as (rs & s3 & -> & I3 & C3 & _). cbn [res_bind].
  eexists _, s3. split; [done|]. split; [done | by left].
Qed.

(** A thread that never ran is taken out of the tables and released. *)
Lemma teardown_thread_run s own ext n t : ex_inv s own ext -> capped n s -> n + 1 < 2 ^ 32 -> (t <> 0 -> t ∈ own) ->
  exists st s', ExRuntimeTeardownThread t s = Ok (st, s') /\ capped (n + 1) s' /\
    (ex_inv s' own ext \/ ex_inv s' (own ∖ {[t]}) ext).
Proof.
  intros I Hc Hn Ht. assert (Hno : forall st : HO_STATUS, exists st' s', Ok (st, s) = Ok (st', s') /\ capped (n + 1) s' /\
    (ex_inv s' own ext \/ ex_inv s' (own ∖ {[t]}) ext)).
  { intros st. exists st, s. split; [done|]. split; [by apply capped_S | by left]. }
  unfold ExRuntimeTeardownThread. destruct (Z.eqb_spec t 0) as [Hz|Hz]; [apply Hno|].
  destruct (ei_own _ _ _ I t (Ht Hz)) as [y Hy]. rewrite (proj2 (get_thread_ok s t y) Hy). cbn [res_bind].
  destruct (Thread y =? 0); [apply Hno|].
  destruct (lookup_thread_run s own ext (Thread y) I) as (t' & E & R). rewrite E. cbn [res_bind].
  destruct (Z.eqb_spec t' t) as [->|Hne]; cbn [negb]; [|apply Hno].
  destruct R as [->|(i & e & y' & Hpub & _)]; [done|].
  assert (y' = y) as -> by (destruct Hpub as (_ & _ & _ & Hy' & _); congruence).
  pose proof Hpub as (_ & _ & _ & _ & _ & Hown & Hkz & Hpz & [x Hx] & [v Hv]). unfold get_kthread. rewrite Hv. cbn [res_bind].
  destruct (negb _); [apply Hno|]. unfold ExRuntimeLookupProcessByKernelThread. rewrite E. cbn [res_bind].
  rewrite (proj2 (Z.eqb_neq t 0) Hz), (proj2 (get_thread_ok s t y) Hy). cbn [res_bind].
  destruct (teardown_payload_run s own ext n (Process y) I Hc) as (ts & s1 & -> & [(I1 & C1 & K1) A1] & T1); [by exists x|]. cbn [res_bind].
  rewrite (proj2 (Z.eqb_neq (Process y) 0) Hpz).
  destruct (steady_process s1 own ext n (Process y) (set_State EX_PROCESS_STATE_TERMINATED) I1 C1) as (s2 & -> & [(I2 & C2 & K2) A2] & T2 & V2);
    [by apply (A1 (ObjProcess _)); exists x | fields | fields |]. cbn [res_bind].
  assert (K12 : calm s s2) by (by etrans). assert (Hpub2 : published_thread s2 own i e t y).
  { destruct Hpub as (P1 & P2 & P3 & P4 & P5 & P6 & P7 & P8 & P9 & P10). destruct K12 as (_ & _ & _ & Tt & _ & Tk).
    unfold published_thread. rewrite Tt, T2, T1. split_and!; try done; [|by apply Tk].
    apply (A2 (ObjProcess (Process y))), (A1 (ObjProcess (Process y))). done. }
  destruct (unpublish_both_run s2 own ext n (Thread y) i e t y I2 C2 Hpub2 eq_refl) as ([rt rp] & s3 & -> & I3 & C3 & P3 & T3 & V3 & U3). cbn [res_bind].
  destruct (destroy_new_thread_run s3 _ _ n (Thread y) I3 C3 U3) as (ds & s4 & -> & I4 & C4 & P4 & T4 & _).
  { intros _. rewrite V3. apply Hpub2. }
  cbn [res_bind]. unfold ExHandleCloseAll.
  destruct (close_all_run s4 _ _ n (Process y) false I4 C4 Hn) as (cs & s5 & -> & (I5 & C5 & _)).
  { intros _. rewrite P4, P3. apply Hpub2. }
  cbn [res_bind]. destruct (release_thread_api s5 _ _ (n + 1) t I5 C5) as (rs & s6 & -> & I6 & C6 & _).
  { rewrite move_here. pose proof (ei_nonneg _ _ _ I (ObjThread t)). lia. }
  cbn [res_bind]. eexists _, s6. split; [done|]. split; [done|]. right. eapply inv_ext_eq; [|exact I6].
  intros o. symmetry. apply (move_cancel _ 1).
Qed.

(** ** Finalisation of a thread that exited *)

(** Releasing the wrappers of thread [kt], whose process has its completion
    retained. *)
Lemma destroy_wrappers_run s own ext n kt : ex_inv s own ext -> capped n s -> n + 1 < 2 ^ 32 ->
  (forall i e t y, published_thread s own i e t y -> Thread y = kt ->
     exists x, processes s !! Process y = Some x /\ CompletionRetained x = true) ->
  exists st s' own', KiDestroyUserRuntimeWrapperObjects kt s = Ok (st, s') /\ ex_inv s' own' ext /\ capped (n + 1) s' /\
    own' ⊆ own /\ survivors s s'.
Proof.
  intros I Hc Hn Hret. unfold KiDestroyUserRuntimeWrapperObjects.
  destruct (unpublish_thread_run s own ext n kt I Hc Hret) as (t & p & s1 & -> & R). cbn [res_bind].
  destruct R as [(-> & -> & ->)|(i & e & y & Hpub & Hk & -> & E1 & I1 & C1)].
  { cbn. exists EC_SUCCESS, s, own. split_and!; try done; [by apply capped_S | by apply survivors_same]. }
  pose proof Hpub as (_ & _ & _ & Hy & Htz & _ & _ & Hpz & Hal & _).
  rewrite (proj2 (Z.eqb_neq t 0) Htz), (proj2 (Z.eqb_neq _ 0) Hpz). cbn [negb andb res_bind].
  rewrite (proj2 (Z.eqb_neq _ 0) Hpz). unfold ExHandleCloseAllForTeardown.
  destruct (close_all_run s1 _ _ n (Process y) true I1 C1 Hn) as (cs & s2 & -> & (I2 & C2 & K2)).
  { intros _. by rewrite E1. }
  cbn [res_bind]. destruct (release_thread_api s2 _ _ (n + 1) t I2 C2) as (rs & s3 & -> & I3 & C3 & R3).
  { rewrite move_here. pose proof (ei_nonneg _ _ _ I (ObjThread t)). lia. }
  cbn [res_bind]. eexists _, s3, (own ∖ {[t]}). split; [done|]. split; [|split; [done|split; [set_solver|]]].
  - eapply inv_ext_eq; [|exact I3]. intros o. symmetry. apply (move_cancel _ 1).
  - assert (K : calm s1 s3) by (etrans; [exact K2 | by apply refs_only_calm]). destruct K as (_ & _ & _ & _ & S & _).
    intros q z Hz Hr. apply (S q z); [by rewrite E1 | done].
Qed.

Lemma finalize_thread_run s own ext n kt : ex_inv s own ext -> capped n s -> n + 2 < 2 ^ 32 ->
  exists st s' own', ExUserRuntimeFinalizeThread kt s = Ok (st, s') /\ ex_inv s' own' ext /\ capped (n + 2) s' /\ own' ⊆ own.
Proof.
  intros I Hc Hn. assert (Hno : forall (st : HO_STATUS) n' s', n' <= n + 2 -> ex_inv s' own ext -> capped n' s' ->
    exists st' s'' own', Ok (st, s') = Ok (st', s'') /\ ex_inv s'' own' ext /\ capped (n + 2) s'' /\ own' ⊆ own).
  { intros st n' s' Hn' I' C'. exists st, s', own. split; [done|]. split; [done|]. split; [by eapply capped_weaken | done]. }
  unfold ExUserRuntimeFinalizeThread. destruct (lookup_thread_run s own ext kt I) as (t & -> & R). cbn [res_bind].
  destruct R as [->|(i & e & y & Hpub & Hk)]; [apply (Hno _ n); done || lia|].
  pose proof Hpub as (_ & _ & _ & Hy & Htz & _ & _ & Hpz & Hal & _). rewrite (proj2 (Z.eqb_neq t 0) Htz).
  rewrite (proj2 (get_thread_ok s t y) Hy). cbn [res_bind]. rewrite (proj2 (Z.eqb_neq _ 0) Hpz). cbn zeta.
  destruct (mark_terminated_run s own ext n (Process y) I Hc) as (ms & s1 & -> & I1 & C1 & P1 & Hr1); [lia | done |]. cbn [res_bind].
  destruct (decide (ms = EC_SUCCESS)) as [->|Hms]; [rewrite bool_decide_true by done | rewrite bool_decide_false by done]; cbn [negb].
  2: { apply (Hno _ (n + 1)); done || lia. }
  destruct (Hr1 eq_refl) as (x1 & Hx1 & Hret1).
  pose proof (published_on_processes s s1 own i e t y P1 Hpub) as Hpub1.
  assert (Hy1 : exthreads s1 !! t = Some y) by apply Hpub1.
  destruct (signal_thread_run s1 own ext (n + 1) t y I1 C1 Hy1) as (ss & s2 & -> & [(I2 & C2 & K2) A2] & _). cbn [res_bind].
  destruct (decide (ss = EC_SUCCESS)) as [->|Hss]; [rewrite bool_decide_true by done | rewrite bool_decide_false by done]; cbn [negb].
  2: { apply (Hno _ (n + 1)); done || lia. }
  destruct (teardown_payload_run s2 own ext (n + 1) (Process y) I2 C2) as (ts & s3 & -> & [(I3 & C3 & K3) A3] & _).
  { intros _. apply (A2 (ObjProcess (Process y))). by exists x1. }
  cbn [res_bind]. assert (K13 : calm s1 s3) by (by etrans).
  assert (Hret3 : exists x, processes s3 !! Process y = Some x /\ CompletionRetained x = true).
  { destruct K13 as (B1 & _ & _ & _ & S & _). destruct (S (Process y) x1 Hx1 Hret1) as [x3 Hx3]. exists x3. split; [done|].
    destruct (B1 _ x3 Hx3) as (z & Hz & E). rewrite Hx1 in Hz. injection Hz as <-. by rewrite E. }
  destruct (destroy_wrappers_run s3 own ext (n + 1) kt I3 C3) as (ws & s4 & own' & -> & I4 & C4 & Ho & S4); [lia | |].
  { intros j f u z Hpf Hkf.
    assert (Ez : Process z = Process y); [|by rewrite Ez].
    destruct K13 as (_ & B2 & _ & B4 & _). destruct Hpf as (F1 & F2 & F3 & F4 & _). destruct (B2 u z F4) as (z1 & Hz1 & (E1 & E2 & _)).
    rewrite B4 in F1. destruct Hpub1 as (G1 & G2 & G3 & G4 & _).
    assert (j = i) as ->.
    { apply (ei_distinct _ _ _ I1 j i f e z1 y); try done; [by rewrite F3 | by rewrite G3 | congruence]. }
    rewrite G1 in F1. injection F1 as <-. assert (u = t) as -> by congruence. congruence. }
  cbn [res_bind]. destruct Hret3 as (x3 & Hx3 & Hr3).
  destruct (_ && _); [|].
  - destruct (signal_process_run s4 own' ext (n + 1 + 1) (Process y) I4 C4) as (ps & s5 & -> & [(I5 & C5 & _) _]).
    { intros _. by apply (S4 _ x3). }
    exists ps, s5, own'. split; [done|]. split; [done|]. split; [eapply capped_weaken; [|exact C5]; lia | done].
  - eexists _, s4, own'. split; [done|]. split; [done|]. split; [eapply capped_weaken; [|exact C4]; lia | done].
Qed.

(** ** Waiting for, killing and showing a child *)

Lemma query_pid_run s own ext p : ex_inv s own ext -> (p <> 0 -> is_Some (processes s !! p)) ->
  exists st pid, ExRuntimeQueryProcessId p s = Ok (st, pid).
Proof.
  intros I Hp. unfold ExRuntimeQueryProcessId. destruct (Z.eqb_spec p 0) as [Hz|Hz]; [by eauto|].
  destruct (Hp Hz) as [x Hx]. rewrite (proj2 (get_process_ok s p x) Hx). cbn [res_bind]. destruct (_ =? _); by eauto.
Qed.

(** The call comes back with a reference to a process, or with none. *)
Definition child_held own ext n (out : res (HO_STATUS * Z * EX W)) : Prop :=
  exists st p s', out = Ok (st, p, s') /\ capped n s' /\
    ((st = EC_SUCCESS /\ p <> 0 /\ ex_inv s' own (move (ObjProcess p) 1 ext)) \/ (st <> EC_SUCCESS /\ p = 0 /\ ex_inv s' own ext)).

Lemma wait_begin_run s own ext n kt pid : ex_inv s own ext -> capped n s -> n + 1 < 2 ^ 32 ->
  child_held own ext (n + 1) (ExWaitProcess_begin kt pid s).
Proof.
  intros I Hc Hn. assert (Hno : forall st : HO_STATUS, st <> EC_SUCCESS -> child_held own ext (n + 1) (Ok (st, 0, s))).
  { intros st Hst. exists st, 0, s. split; [done|]. split; [by apply capped_S | by right]. }
  unfold ExWaitProcess_begin. destruct (_ || _); [by apply Hno|]. unfold KiResolveCallerParentProcessId.
  assert (exists st ppid, (if kt =? 0 then Ok (EC_INVALID_STATE, 0) else
    let* p := ExRuntimeLookupProcessByKernelThread kt s in
    if p =? 0 then Ok (EC_SUCCESS, 0) else ExRuntimeQueryProcessId p s) = Ok (st, ppid)) as (st & ppid & ->).
  { destruct (kt =? 0); [by eauto|]. destruct (lookup_process_run s own ext kt I) as (p & -> & Hp). cbn [res_bind].
    destruct (Z.eqb_spec p 0); [by eauto|]. apply (query_pid_run s own ext p I). by destruct Hp. }
  cbn [res_bind]. destruct (decide (st = EC_SUCCESS)) as [->|Hst];
    [rewrite bool_decide_true by done | rewrite bool_decide_false by done; by apply Hno]. cbn [negb].
  unfold ExRuntimeRetainChildProcess. destruct (pid =? 0); [by apply Hno|].
  destruct (find_by_pid s own ext pid I) as (i & -> & [(Hi & e & x & He & Ha & Hx & Hpid)|Hi]); cbn [res_bind]; rewrite Hi; [|by apply Hno].
  rewrite (proj2 (rd_ok _ _ e)) by (split; [lia | by rewrite Nat2Z.id]). cbn [res_bind].
  assert (Hz : Entry e <> 0) by (eapply live_process_nz; [exact I | by exists x]). rewrite (proj2 (Z.eqb_neq _ 0) Hz).
  rewrite (proj2 (get_process_ok s _ x) Hx). cbn [res_bind]. destruct (negb _); [by apply Hno|].
  destruct (retain_process_exact s own ext n (Entry e) x I Hc Hn Hx) as [(h & -> & I1 & C1)| ->]; cbn [res_bind].
  - rewrite bool_decide_true by done. eexists _, _, _. split; [done|]. split; [done | by left].
  - rewrite bool_decide_false by done. by apply Hno.
Qed.

Lemma restore_foreground_run s own ext n p : ex_inv s own ext -> capped n s -> (p <> 0 -> is_Some (processes s !! p)) ->
  exists st s', KiRestoreForegroundOwner p s = Ok (st, s') /\ steady own ext n s s'.
Proof.
  intros I Hc Hp. pose proof (steady_refl s own ext n I Hc) as K0. unfold KiRestoreForegroundOwner.
  destruct (Z.eqb_spec p 0) as [Hz|Hz]; [by eauto|]. destruct (Hp Hz) as [x Hx].
  rewrite (proj2 (get_process_ok s p x) Hx). cbn [res_bind]. destruct (negb _); [by eauto|]. unfold svc.
  destruct (KeInputSetForegroundOwnerThreadId _ (Svc s)) as [st w] eqn:Ew. exists st, (set_Svc w s). split; [done|].
  apply steady_svc; [done | done | by eapply q_foreground].
Qed.

(** The waiter's reference is given back whatever the wait returned. *)
Lemma wait_end_run s own ext n p status : ex_inv s own ext -> capped n s -> 0 < ext (ObjProcess p) ->
  exists st s', ExWaitProcess_end p status s = Ok (st, s') /\ ex_inv s' own (move (ObjProcess p) (-1) ext) /\ capped n s'.
Proof.
  intros I Hc He. unfold ExWaitProcess_end. pose proof (ei_ext _ _ _ I _ He) as Hal.
  assert (exists st1 s1, (if negb (bool_decide (status = EC_SUCCESS)) then Ok (status, s) else
    let* (status, s) := KiRestoreForegroundOwner p s in
    let* (consumeStatus, s) := ExRuntimeConsumeCompletedProcess p s in
    Ok (if bool_decide (status = EC_SUCCESS) then consumeStatus else status, s)) = Ok (st1, s1) /\
    ex_inv s1 own ext /\ capped n s1) as (st1 & s1 & -> & I1 & C1).
  { destruct (negb _); [by exists status, s|].
    destruct (restore_foreground_run s own ext n p I Hc) as (st & s1 & -> & [(I1 & C1 & _) A1]); [done|]. cbn [res_bind].
    destruct (consume_run s1 own ext n p I1 C1) as (cs & s2 & -> & I2 & C2); [by apply (A1 (ObjProcess p))|]. cbn [res_bind].
    by eexists _, s2. }
  cbn [res_bind]. destruct (release_process_api s1 own ext n p I1 C1 He) as (rs & s2 & -> & I2 & C2 & _). cbn [res_bind].
  by eexists _, s2.
Qed.

Lemma kill_begin_run s own ext n kt pid : ex_inv s own ext -> capped n s -> n + 1 < 2 ^ 32 ->
  child_held own ext (n + 1) (ExKillProcess_begin kt pid s).
Proof.
  intros I Hc Hn. unfold ExKillProcess_begin. destruct (wait_begin_run s own ext n kt pid I Hc Hn) as (st & p & s1 & -> & C1 & R).
  cbn [res_bind]. destruct R as [(-> & Hz & I1)|(Hst & -> & I1)].
  2: { rewrite bool_decide_false by done. cbn [negb]. exists st, 0, s1. split; [done|]. split; [done | by right]. }
  rewrite bool_decide_true by done. cbn [negb].
  assert (He : 0 < move (ObjProcess p) 1 ext (ObjProcess p)) by (rewrite move_here; pose proof (ei_nonneg _ _ _ I (ObjProcess p)); lia).
  destruct (request_kill_run s1 own _ (n + 1) p I1 C1) as (ks & s2 & -> & [(I2 & C2 & _) _]); [intros _; by apply (ei_ext _ _ _ I1 (ObjProcess p))|].
  cbn [res_bind]. destruct (decide (ks = EC_SUCCESS)) as [->|Hks]; [rewrite bool_decide_true by done | rewrite bool_decide_false by done].
  - eexists _, p, s2. split; [done|]. split; [done | by left].
  - destruct (release_process_api s2 own _ (n + 1) p I2 C2 He) as (rs & s3 & -> & I3 & C3 & _). cbn [res_bind].
    eexists _, 0, s3. split; [done|]. split; [done|]. right. split_and!; try done.
    eapply inv_ext_eq; [|exact I3]. intros o. symmetry. apply (move_cancel _ 1).
Qed.

Lemma foreground_eligible_run s own ext x : ex_inv s own ext -> exists b, foreground_eligible x s = Ok b.
Proof.
  intros I. unfold foreground_eligible, KiLookupThreadByTidLocked.
  destruct (find_by_tid s own ext (MainThreadId x) I) as (i & -> & [(_ & Hi & e & y & Hp)|(_ & Hi)]); cbn [res_bind]; rewrite Hi.
  2: { cbn [res_bind]. rewrite orb_true_r. by eexists. }
  pose proof Hp as (He & _ & _ & Hy & _ & _ & _ & _ & _ & [v Hv]).
  rewrite (proj2 (rd_ok _ _ e)) by (split; [lia | by rewrite Nat2Z.id]). cbn [res_bind].
  destruct (_ || _); [by eexists|]. rewrite (proj2 (get_thread_ok s _ y) Hy). cbn [res_bind].
  destruct (Thread y =? 0); [by eexists|]. unfold get_kthread. rewrite Hv. cbn [res_bind]. by eexists.
Qed.

Lemma set_process_foreground_run s own ext n p owner : ex_inv s own ext -> capped n s -> (p <> 0 -> is_Some (processes s !! p)) ->
  exists st s', ExRuntimeSetProcessForeground p owner s = Ok (st, s') /\ steady own ext n s s'.
Proof.
  intros I Hc Hp. pose proof (steady_refl s own ext n I Hc) as K0. unfold ExRuntimeSetProcessForeground.
  destruct (Z.eqb_spec p 0) as [Hz|Hz]; [by eauto|]. destruct (Hp Hz) as [x Hx].
  rewrite (proj2 (get_process_ok s p x) Hx). cbn [res_bind].
  destruct (foreground_eligible_run s own ext x I) as [b ->]. cbn [res_bind]. destruct (_ || _); [by eauto|].
  destruct (_ || _); [by eauto|]. unfold svc.
  destruct (KeInputSetForegroundOwnerThreadId _ (Svc s)) as [st w] eqn:Ew.
  assert (Kw : steady own ext n s (set_Svc w s)) by (apply steady_svc; [done | done | by eapply q_foreground]).
  destruct (negb _); [by eauto|]. pose proof Kw as [(I1 & C1 & _) A1]. set (s1 := set_Svc w s) in *.
  assert (Hx1 : processes s1 !! p = Some x) by done. rewrite (proj2 (get_process_ok s1 p x) Hx1). cbn [res_bind].
  destruct (foreground_eligible_run s1 own ext x I1) as [b1 ->]. cbn [res_bind]. destruct (negb b1).
  - destruct (KeInputSetForegroundOwnerThreadId _ (Svc s1)) as [st2 w2] eqn:Ew2. eexists _, _. split; [done|].
    eapply steady_trans; [exact Kw|]. apply steady_svc; [done | done | by eapply q_foreground].
  - destruct (Foreground x); [by eauto|].
    destruct (steady_process s1 own ext n p (fun x => set_RestoreForegroundOwnerThreadId owner (set_Foreground true x)) I1 C1)
      as (s2 & -> & K2 & _); [by exists x | fields | fields |]. cbn [res_bind]. eexists _, s2. split; [done|]. by eapply steady_trans.
Qed.

Lemma set_foreground_run s own ext n kt pid : ex_inv s own ext -> capped n s -> n + 1 < 2 ^ 32 ->
  exists st s', ExSetForegroundProcess kt pid s = Ok (st, s') /\ ex_inv s' own ext /\ capped (n + 1) s'.
Proof.
  intros I Hc Hn. unfold ExSetForegroundProcess. destruct (wait_begin_run s own ext n kt pid I Hc Hn) as (st & p & s1 & -> & C1 & R).
  cbn [res_bind]. destruct R as [(-> & Hz & I1)|(Hst & -> & I1)].
  2: { rewrite bool_decide_false by done. cbn [negb]. by exists st, s1. }
  rewrite bool_decide_true by done. cbn [negb].
  assert (He : 0 < move (ObjProcess p) 1 ext (ObjProcess p)) by (rewrite move_here; pose proof (ei_nonneg _ _ _ I (ObjProcess p)); lia).
  destruct (set_process_foreground_run s1 own _ (n + 1) p (KeInputGetForegroundOwnerThreadId (Svc s1)) I1 C1) as (fs & s2 & -> & [(I2 & C2 & _) _]);
    [intros _; by apply (ei_ext _ _ _ I1 (ObjProcess p))|]. cbn [res_bind].
  destruct (release_process_api s2 own _ (n + 1) p I2 C2 He) as (rs & s3 & -> & I3 & C3 & _). cbn [res_bind].
  eexists _, s3. split; [done|]. split; [|done]. eapply inv_ext_eq; [|exact I3]. intros o. symmetry. apply (move_cancel _ 1).
Qed.

(** ** Spawning a child *)

(** A spawn that returned, with the runtime's threads as they are then. *)
Definition spawned own ext n (out : res (HO_STATUS * Z * Z * EX W)) : Prop :=
  exists st pid tid s' own', out = Ok (st, pid, tid, s') /\ ex_inv s' own' ext /\ capped n s'.

(** The optional restoring of the focus. *)
Lemma restore_focus own ext n s (changed : bool) prev (status : HO_STATUS) : ex_inv s own ext -> capped n s ->
  exists st w, (if changed then
      let '(restoreStatus, s) := svc (KeInputSetForegroundOwnerThreadId prev) s in
      (if bool_decide (status = EC_SUCCESS) then restoreStatus else status, s)
    else (status, s)) = (st, set_Svc w s) /\ steady own ext n s (set_Svc w s).
Proof.
  intros I Hc. destruct changed.
  - unfold svc. destruct (KeInputSetForegroundOwnerThreadId prev (Svc s)) as [rs w] eqn:Ew. eexists _, w. split; [done|].
    apply steady_svc; [done | done | by eapply q_foreground].
  - exists status, (Svc s). assert (E : s = set_Svc (Svc s) s) by (by destruct s). rewrite <- E. split; [done | by apply steady_refl].
Qed.

Lemma cleanup_nothing own ext n s changed prev status : ex_inv s own ext -> capped n s ->
  spawned own ext n (spawn_cleanup changed prev 0 0 status s).
Proof.
  intros I Hc. unfold spawn_cleanup.
  destruct (restore_focus own ext n s changed prev status I Hc) as (st & w & -> & [(I1 & C1 & _) _]). cbn.
  by exists st, 0, 0, (set_Svc w s), own.
Qed.

Lemma cleanup_process own ext n s changed prev status p : ex_inv s own (move (ObjProcess p) 1 ext) -> (forall o, 0 <= ext o) ->
  capped n s -> n + 1 < 2 ^ 32 -> p <> 0 ->
  (forall e, e ∈ gExRuntimeProcessTable s -> Active e = true -> Entry e <> p) ->
  spawned own ext (n + 1) (spawn_cleanup changed prev p 0 status s).
Proof.
  intros I Hnn Hc Hn Hz Hu. unfold spawn_cleanup.
  destruct (restore_focus own _ n s changed prev status I Hc) as (st & w & -> & [(I1 & C1 & _) _]).
  cbn [Z.eqb negb]. rewrite (proj2 (Z.eqb_neq p 0) Hz). cbn [negb].
  destruct (destroy_process_run (set_Svc w s) own _ n p I1 C1 Hn) as (ds & s2 & -> & C2 & R).
  { rewrite move_here. specialize (Hnn (ObjProcess p)). lia. }
  cbn [res_bind]. eexists _, 0, 0, s2, own. split; [done|]. split; [|done].
  destruct R as [I2|(-> & e & He & Ha & Hp)]; [|by destruct (Hu e He Ha)].
  eapply inv_ext_eq; [|exact I2]. intros o. symmetry. apply (move_cancel _ 1).
Qed.

Lemma cleanup_thread own ext n s changed prev status p t : ex_inv s own ext -> capped n s -> n + 1 < 2 ^ 32 -> t ∈ own ->
  spawned own ext (n + 1) (spawn_cleanup changed prev p t status s).
Proof.
  intros I Hc Hn Ht. unfold spawn_cleanup.
  destruct (restore_focus own ext n s changed prev status I Hc) as (st & w & -> & [(I1 & C1 & _) _]).
  destruct (ei_own _ _ _ I t Ht) as [y Hy].
  rewrite (proj2 (Z.eqb_neq t 0)) by (by destruct (ei_threads _ _ _ I t y Hy)). cbn [negb].
  destruct (teardown_thread_run (set_Svc w s) own ext n t I1 C1 Hn) as (ts & s2 & -> & C2 & R); [done|]. cbn [res_bind].
  destruct R as [I2|I2]; [exists (if bool_decide (st = EC_SUCCESS) then ts else st), 0, 0, s2, own | 
                          exists (if bool_decide (st = EC_SUCCESS) then ts else st), 0, 0, s2, (own ∖ {[t]})]; done.
Qed.

Lemma spawned_weaken own own' ext n n' out : n <= n' -> spawned own' ext n out -> spawned own ext n' out.
Proof. intros Hn (st & pid & tid & s' & o & -> & I & C). exists st, pid, tid, s', o. split_and!; try done. by eapply capped_weaken. Qed.

(** From the published thread to its start. *)
Lemma start_child_run s own ext n t flags prev childProcessId : ex_inv s own ext -> capped n s -> n + 1 < 2 ^ 32 -> t ∈ own ->
  spawned own ext (n + 1) (start_child flags prev childProcessId 0 t s).
Proof.
  intros I Hc Hn Ht. unfold start_child. destruct (ei_own _ _ _ I t Ht) as [y Hy].
  assert (Hclean : forall s' (changed : bool) status, steady own ext n s s' -> spawned own ext (n + 1) (spawn_cleanup changed prev 0 t status s')).
  { intros s' changed status [(I' & C' & _) _]. by apply cleanup_thread. }
  pose proof (steady_refl s own ext n I Hc) as K0. rewrite (proj2 (get_thread_ok s t y) Hy). cbn [res_bind].
  destruct (Z.eqb_spec (Process y) 0) as [Hp|Hp]; [by apply Hclean|].
  unfold ExRuntimeQueryThreadId. rewrite (proj2 (Z.eqb_neq t 0)) by (by destruct (ei_threads _ _ _ I t y Hy)).
  rewrite (proj2 (get_thread_ok s t y) Hy). cbn [res_bind].
  destruct (Thread y =? 0); cbn [res_bind]; [rewrite bool_decide_false by done; by apply Hclean|].
  rewrite bool_decide_true by done. cbn [negb]. set (fg := negb _). clearbody fg.
  assert (exists st w, (if fg then svc (KeInputSetForegroundOwnerThreadId (ThreadId y)) s else (EC_SUCCESS, s)) = (st, set_Svc w s) /\
    steady own ext n s (set_Svc w s)) as (st & w & -> & K1).
  { destruct fg.
    - unfold svc. destruct (KeInputSetForegroundOwnerThreadId _ (Svc s)) as [rs w] eqn:Ew. eexists _, w. split; [done|].
      apply steady_svc; [done | done | by eapply q_foreground].
    - exists EC_SUCCESS, (Svc s). assert (E : s = set_Svc (Svc s) s) by (by destruct s). rewrite <- E. by split. }
  destruct (negb _); [by apply Hclean|]. pose proof K1 as [(I1 & C1 & _) A1].
  destruct (mark_control_run (set_Svc w s) own ext n (Process y) fg prev I1 C1) as (ms & s2 & -> & K2).
  { intros _. by eapply thread_process. }
  cbn [res_bind]. assert (K12 : steady own ext n s s2) by (by eapply steady_trans). destruct (negb _); [by apply Hclean|].
  pose proof K2 as [(I2 & C2 & _) A2].
  destruct (start_thread_run s2 own ext n t I2 C2) as (ss & t' & s3 & -> & K3 & R).
  { intros _. apply (A2 (ObjThread t)), (A1 (ObjThread t)). by exists y. }
  cbn [res_bind]. assert (K13 : steady own ext n s s3) by (by eapply steady_trans).
  destruct R as [(-> & ->)|(Hss & ->)].
  - rewrite bool_decide_true by done. cbn [negb]. pose proof K3 as [(I3 & C3 & _) _].
    eexists _, _, _, s3, own. split; [done|]. split; [done | by apply capped_S].
  - rewrite bool_decide_false by done. cbn [negb]. by apply Hclean.
Qed.

Lemma spawn_run s own ext n status params entry flags prev : ex_inv s own ext -> capped n s -> 1 <= n -> n + 8 < 2 ^ 32 ->
  params_ok params -> gNextRuntimeProcessId s <> 0 ->
  spawned own ext (n + 8) (KiExCreateAndStartProcessImage (status, params) entry flags prev s).
Proof.
  intros I Hc Hn1 Hn Hpar Hnext. pose proof (ei_nonneg _ _ _ I) as Hnn. unfold KiExCreateAndStartProcessImage.
  destruct (negb _); [apply (spawned_weaken own own ext n); [lia | by apply cleanup_nothing]|].
  destruct (create_process_run s own ext n params I Hc Hn1) as (p0 & Hfresh & st & p & s1 & -> & C1 & T1 & R); [lia | done | done |].
  cbn [res_bind]. destruct R as [(-> & -> & Hz & I1)|(Hst & -> & I1)].
  2: { rewrite bool_decide_false by done. cbn [negb]. apply (spawned_weaken own own ext (n + 4)); [lia | by apply cleanup_nothing]. }
  rewrite bool_decide_true by done. cbn [negb].
  assert (Hu : forall e, e ∈ gExRuntimeProcessTable s -> Active e = true -> Entry e <> p0).
  { intros e He Ha Ep. pose proof (ei_ptab _ _ _ I) as Hpt. rewrite Forall_forall in Hpt. destruct (Hpt e He Ha) as (x & Hx & _).
    rewrite Ep, (Hfresh Hz) in Hx. done. }
  assert (He : 0 < move (ObjProcess p0) 1 ext (ObjProcess p0)) by (rewrite move_here; specialize (Hnn (ObjProcess p0)); lia).
  destruct (query_pid_run s1 own _ p0 I1) as (qs & pid & ->); [intros _; by apply (ei_ext _ _ _ I1 (ObjProcess p0))|]. cbn [res_bind].
  destruct (negb _).
  { apply (spawned_weaken own own ext (n + 4 + 1)); [lia|]. apply cleanup_process; try done; [lia|]. by rewrite T1. }
  destruct (create_thread_run s1 own _ (n + 4) p0 (mkThreadParams entry 0 0) I1 C1) as (ts & p' & t & s2 & -> & C2 & R); [lia | lia | done |].
  cbn [res_bind]. destruct R as [(-> & -> & Ht & I2)|(Hts & -> & -> & I2 & T2)].
  - rewrite bool_decide_true by done. cbn [negb]. apply (spawned_weaken own (own ∪ {[t]}) ext (n + 4 + 2 + 1)); [lia|].
    apply start_child_run; [|done | lia | set_solver]. eapply inv_ext_eq; [|exact I2]. intros o. symmetry. apply (move_cancel _ 1).
  - rewrite bool_decide_false by done. cbn [negb]. apply (spawned_weaken own own ext (n + 4 + 2 + 1)); [lia|].
    apply cleanup_process; try done; [lia|]. by rewrite T2, T1.
Qed.
End control.
