(* ===== verification/ExSpec.v ===== *)
(** * What the handle calls promise, exactly

    The abstract condition under which a handle may be closed, the encoding
    of handles in both directions, and the exact effect of a refused close, an
    insertion followed by a lookup, and the wait for a terminated child. *)

From S2P Require Import Prelude Ex ExInv ExRefs ExHandles ExLife ExCalls.

Local Open Scope Z_scope.

(** ** Encoding *)

Lemma decode_encode h i g : is_u32 h -> KiDecodeHandle h = Some (i, g) ->
  0 <= i < EX_MAX_HANDLES_PER_PROCESS /\ 1 <= g <= EX_HANDLE_GENERATION_MASK /\ KiEncodeHandle i g = h.
Proof.
  intros Hh Hd. pose proof (decode_range h i g Hd) as Hi. revert Hd. unfold KiDecodeHandle.
  unfold EX_HANDLE_INDEX_MASK, EX_HANDLE_INDEX_BITS, EX_HANDLE_GENERATION_MASK.
  change 0xFF with (Z.ones 8). change 0xFFFFFF with (Z.ones 24). rewrite !Z.land_ones, Z.shiftr_div_pow2 by lia.
  destruct (_ =? EX_HANDLE_INVALID); [done|].
  destruct (Z.eqb_spec (h mod 2 ^ 8) 0), (Z.eqb_spec ((h / 2 ^ 8) mod 2 ^ 24) 0); try done. cbn [orb].
  destruct (_ <=? _); [done|]. intros [= <- <-].
  assert (Hg : 1 <= (h / 2 ^ 8) mod 2 ^ 24 <= 2 ^ 24 - 1) by div_lia.
  split; [done|]. split; [change (Z.ones 24) with (2 ^ 24 - 1); lia|].
  rewrite encode_sum by (try done; unfold EX_HANDLE_GENERATION_MASK; lia). div_lia.
Qed.

Lemma advance_other g : 1 <= g <= EX_HANDLE_GENERATION_MASK -> KiAdvanceHandleGeneration g <> g.
Proof.
  unfold KiAdvanceHandleGeneration, EX_HANDLE_GENERATION_MASK. intros Hg. rewrite u32_small by word_lia.
  change 0xFFFFFF with (Z.ones 24). rewrite Z.land_ones by lia.
  destruct (Z.eqb_spec ((g + 1) mod 2 ^ 24) 0); [|div_lia].
  assert (g = 2 ^ 24 - 1) by div_lia. lia.
Qed.

Section exact.
Context {W : Type} `{ExLaws W}.
Implicit Types (s : EX W) (p t kt : Z) (o : EX_OBJECT) (x : EX_PROCESS) (y : EX_THREAD)
  (own : gset Z) (ext : EX_OBJECT -> Z).

(** ** Publication *)

Definition published_process s p : Prop := exists e, e ∈ gExRuntimeProcessTable s /\ Active e = true /\ Entry e = p.

Definition published_object s o : Prop :=
  match o with
  | ObjProcess p => published_process s p
  | ObjThread t => published_thread_object s t
  | ObjStdout _ => False
  end.

Lemma find_by_thread s own ext t : ex_inv s own ext -> t <> 0 ->
  exists i : nat, KiFindThreadSlotByThreadObject t s = Ok (Z.of_nat i) /\
    ((Z.of_nat i <? EX_RUNTIME_THREAD_TABLE_CAPACITY) = true <-> published_thread_object s t).
Proof.
  intros I Hz. unfold KiFindThreadSlotByThreadObject. rewrite (proj2 (Z.eqb_neq t 0) Hz).
  destruct (thread_search s own ext (fun e => Ok (Active e && (Entry e =? t))) I) as (i & -> & R); [by eauto..|].
  exists i. split; [done|]. destruct R as [(-> & _ & e & He & Hf)|(-> & _ & Hf)]; (split; [|try done]).
  - intros _. injection Hf as [Ha Hf%Z.eqb_eq]%andb_true_iff. exists e. split; [by eapply list_elem_of_lookup_2 | done].
  - done.
  - intros (e & He & Ha & Ht). specialize (Hf e He). by rewrite Ha, Ht, Z.eqb_refl in Hf.
Qed.

Lemma published_object_run s own ext o : ex_inv s own ext -> alive s o ->
  exists b, ExRuntimeIsPublishedObject (Some o) s = Ok b /\ (b = true <-> published_object s o).
Proof.
  intros I Ha. destruct (alive_header s o Ha) as (h & Eh). unfold ExRuntimeIsPublishedObject. rewrite Eh. cbn [res_bind].
  rewrite (header_type s own ext o h I Eh). pose proof (held_nonzero s own ext o I Ha) as Hz. destruct o as [p|t|p]; cbn in *.
  - destruct (find_by_process s own ext p I) as (i & -> & R). cbn [res_bind]. eexists. split; [done|].
    destruct R as [(-> & _ & _ & e & He & Hp)|(-> & _ & Hn)]; (split; [|try done]).
    + intros _. exists e. split; [by eapply list_elem_of_lookup_2 | done].
    + done.
    + intros (e & He & Hae & Hp). by destruct (Hn Hz e He Hae).
  - destruct (find_by_thread s own ext t I Hz) as (i & -> & Hi). cbn [res_bind]. eexists. by split.
  - by exists false.
Qed.

(** ** Which handles may be closed *)

(** Handle [h] names slot [i] of [x]; the slot has the right to be closed and
    is not an identity handle of a published object. *)
Definition may_close s x (h : EX_HANDLE) (i : nat) : Prop :=
  exists sl o, HandleTable x !! i = Some sl /\ KiDecodeHandle h = Some (Z.of_nat i, Generation sl) /\ Object sl = Some o /\
    Z.land (Rights sl) EX_HANDLE_RIGHT_CLOSE = EX_HANDLE_RIGHT_CLOSE /\
    ~ (published_object s o /\ Z.land (Rights sl) identityRights <> EX_HANDLE_RIGHT_NONE).

Lemma validate_status sl allow s st : KiValidateCloseHandleSlot sl allow s = Ok st -> st = EC_SUCCESS \/ st = EC_INVALID_STATE.
Proof.
  unfold KiValidateCloseHandleSlot. destruct (Object sl) as [o|]; [|intros [= <-]; by right].
  destruct (negb _); [intros [= <-]; by right|].
  destruct (if allow then Ok false else _) as [b| | |]; [|done..]. cbn [res_bind]. destruct (b && _); [intros [= <-]; by right|].
  destruct (get_header o s) as [h| | |]; [|done..]. cbn [res_bind]. destruct (negb _); intros [= <-]; [by right | by left].
Qed.

Lemma may_close_iff s own ext p x h i : ex_inv s own ext -> processes s !! p = Some x ->
  may_close s x h i <-> closable s x h i.
Proof.
  intros I Hx. unfold may_close, closable. split.
  - intros (sl & o & Hi & Hd & Ho & Hr & Hn). exists sl. split; [done|]. split; [done|].
    destruct (slot_alive s own ext p x sl o I Hx ltac:(by eapply list_elem_of_lookup_2) Ho) as [Ha _].
    unfold KiValidateCloseHandleSlot. rewrite Ho, Hr, Z.eqb_refl. cbn [negb].
    destruct (published_object_run s own ext o I Ha) as (b & -> & Hb). cbn [res_bind].
    destruct (alive_header s o Ha) as (hd & Eh). rewrite Eh. cbn [res_bind]. rewrite (header_type s own ext o hd I Eh), valid_type.
    destruct b; [|done]. cbn [andb]. destruct (Z.eqb_spec (Z.land (Rights sl) identityRights) EX_HANDLE_RIGHT_NONE); [done|].
    exfalso. apply Hn. by split; [apply Hb|].
  - intros (sl & Hi & Hd & Hv). unfold KiValidateCloseHandleSlot in Hv. destruct (Object sl) as [o|] eqn:Ho; [|done].
    destruct (slot_alive s own ext p x sl o I Hx ltac:(by eapply list_elem_of_lookup_2) Ho) as [Ha _].
    destruct (Z.eqb_spec (Z.land (Rights sl) EX_HANDLE_RIGHT_CLOSE) EX_HANDLE_RIGHT_CLOSE) as [Hr|]; [|done]. cbn [negb] in Hv.
    destruct (published_object_run s own ext o I Ha) as (b & Eb & Hb). rewrite Eb in Hv. cbn [res_bind] in Hv.
    exists sl, o. split; [done|]. split; [done|]. split; [done|]. split; [done|]. intros [Hp%Hb Hid]. subst b.
    by rewrite (proj2 (Z.eqb_neq _ _) Hid) in Hv.
Qed.

(** ** A refused close *)

Lemma inv_refs_nonneg s own ext p x : ex_inv s own ext -> processes s !! p = Some x -> 0 <= ReferenceCount (Header x).
Proof.
  intros I Hx. rewrite (pk_refs _ _ _ _ (ei_processes _ _ _ I p x Hx)). pose proof (handles_nonneg (ObjProcess p) x).
  pose proof (owners_nonneg p (exthreads s)). pose proof (ei_nonneg _ _ _ I (ObjProcess p)). destruct (CompletionRetained x); cbn; lia.
Qed.

Lemma set_header_back x : set_Header (set_ReferenceCount (ReferenceCount (Header x))
  (set_ReferenceCount (ReferenceCount (Header x) + 1) (Header x))) (set_Header (set_ReferenceCount (ReferenceCount (Header x) + 1) (Header x)) x) = x.
Proof. destruct x as [h]; by destruct h. Qed.

Lemma put_process_back s p x x' : processes s !! p = Some x -> put_process p x (put_process p x' s) = s.
Proof. intros Hx. destruct s. unfold put_process, set_processes. cbn in *. by rewrite insert_insert_eq, insert_id. Qed.

(** Holding a live process and giving the hold back is the identity. *)
Lemma retain_release s own ext p x : ex_inv s own ext -> processes s !! p = Some x -> 0 < ReferenceCount (Header x) ->
  ReferenceCount (Header x) + 1 < 2 ^ 32 ->
  let x1 := set_Header (set_ReferenceCount (ReferenceCount (Header x) + 1) (Header x)) x in
  ExRuntimeRetainProcess p s = Ok (p, put_process p x1 s) /\
  ExRuntimeReleaseProcess p (put_process p x1 s) = Ok (EC_SUCCESS, s).
Proof.
  intros I Hx Hr Hn x1. destruct (ei_processes _ _ _ I p x Hx). split.
  - unfold ExRuntimeRetainProcess, ExObjectRetain. rewrite (proj2 (Z.eqb_neq p 0)) by done.
    cbn [ExObjectIsValidType negb get_header put_header]. unfold upd_process. rewrite (proj2 (get_process_ok s p x) Hx).
    cbn [res_bind]. rewrite pk_type, bool_decide_true, (proj2 (Z.eqb_neq _ 0)) by (done || lia). cbn [negb orb].
    by rewrite u32_small by (unfold is_u32; lia).
  - unfold ExRuntimeReleaseProcess, ExObjectRelease. rewrite (proj2 (Z.eqb_neq p 0)) by done.
    unfold release_depth. rewrite release_unfold. cbn [ExObjectIsValidType negb get_header put_header]. unfold upd_process.
    assert (E1 : get_process p (put_process p x1 s) = Ok x1) by (apply get_process_ok; cbn; by rewrite lookup_insert_eq).
    rewrite E1. cbn [res_bind x1 set_Header Header set_ReferenceCount Type_ ReferenceCount].
    rewrite pk_type, bool_decide_true, (proj2 (Z.eqb_neq _ 0)) by (done || lia). cbn [negb orb].
    rewrite Z.add_simpl_r, (proj2 (Z.eqb_neq _ 0)) by lia. cbn [res_bind].
    rewrite (put_process_back s p) at 1; [done|]. rewrite Hx. f_equal. symmetry. apply set_header_back.
Qed.

(** What a handle that may not be closed answers. *)
Definition refusal (h : EX_HANDLE) : HO_STATUS :=
  match KiDecodeHandle h with None => EC_ILLEGAL_ARGUMENT | Some _ => EC_INVALID_STATE end.

Lemma close_body_refused s own ext p x h : ex_inv s own ext -> processes s !! p = Some x ->
  (forall i, ~ closable s x h i) -> close_body p h s = Ok (refusal h, h, s).
Proof.
  intros I Hx Hn. unfold close_body, KiLookupHandleSlot, refusal.
  assert (Hz : p <> 0) by (by destruct (ei_processes _ _ _ I p x Hx)). rewrite (proj2 (Z.eqb_neq p 0) Hz).
  destruct (KiDecodeHandle h) as [[i g]|] eqn:Hd; [|done]. rewrite (proj2 (get_process_ok s p x) Hx). cbn [res_bind].
  pose proof (decode_range h i g Hd) as Hi. pose proof (pk_len _ _ _ _ (ei_processes _ _ _ I p x Hx)) as Hl.
  destruct (lookup_lt_is_Some_2 (HandleTable x) (Z.to_nat i)) as [sl Hsl].
  { rewrite Hl. unfold EX_MAX_HANDLES_PER_PROCESS in *. lia. }
  rewrite (proj2 (rd_ok _ _ sl)) by (split; [lia | done]). cbn [res_bind].
  destruct (_ || _) eqn:E; [done|]. apply orb_false_iff in E as [_ Hg%negb_false_iff%Z.eqb_eq].
  destruct (validate_slot_run s own ext sl false I) as [st Hv].
  { intros o Ho. apply (slot_alive s own ext p x sl o I Hx); [by eapply list_elem_of_lookup_2 | done]. }
  rewrite Hv. cbn [res_bind]. destruct (validate_status _ _ _ _ Hv) as [->| ->]; [|done].
  destruct (Hn (Z.to_nat i)). exists sl. split; [done|]. split; [|done]. by rewrite Z2Nat.id, Hg by lia.
Qed.

Lemma capped_process n s p x : capped n s -> processes s !! p = Some x -> ReferenceCount (Header x) <= n.
Proof. intros Hc Hx. apply (Hc (ObjProcess p)). cbn. by rewrite (proj2 (get_process_ok s p x) Hx). Qed.

Lemma close_refused s own ext n p x h : ex_inv s own ext -> capped n s -> n + 1 < 2 ^ 32 -> processes s !! p = Some x ->
  0 < ReferenceCount (Header x) -> h <> EX_HANDLE_INVALID -> (forall i, ~ closable s x h i) ->
  ExHandleClose p h s = Ok (refusal h, h, s).
Proof.
  intros I C Hn Hx Hr Hh Hc. pose proof (capped_process n s p x C Hx).
  destruct (retain_release s own ext p x I Hx Hr ltac:(lia)) as [E1 E2].
  assert (Hz : p <> 0) by (by destruct (ei_processes _ _ _ I p x Hx)).
  unfold ExHandleClose. rewrite (proj2 (Z.eqb_neq p 0) Hz), (proj2 (Z.eqb_neq h _) Hh), E1. cbn [res_bind].
  rewrite (proj2 (Z.eqb_neq p 0) Hz). set (x1 := set_Header _ x) in *. set (s1 := put_process p x1 s) in *.
  destruct (retain_process_api s own ext n p I C Hn ltac:(by exists x)) as (r & s1' & E & R).
  rewrite E1 in E. injection E as <- <-. destruct R as [(_ & _ & I1 & _ & R1)|[Hz' _]]; [|done].
  assert (Hx1 : processes s1 !! p = Some x1) by apply lookup_insert_eq.
  rewrite (close_body_refused s1 own _ p x1 h I1 Hx1).
  - cbn [res_bind]. rewrite E2. cbn [res_bind]. unfold refusal. by destruct (KiDecodeHandle h).
  - intros i (sl & Hsl & Hd & Hv). apply (Hc i). exists sl. split; [done|]. split; [done|]. rewrite <- Hv. symmetry.
    apply (validate_calm s s1 own own ext _ sl I I1 (proj1 (proj2 (proj2 R1))) (proj1 (proj2 (proj2 (proj2 R1))))).
    intros o Ho. pose proof (list_elem_of_lookup_2 _ _ _ Hsl) as Hin. split.
    + by apply (slot_alive s own ext p x sl o I Hx).
    + by apply (slot_alive s1 own _ p x1 sl o I1 Hx1).
Qed.

(** ** A closed handle *)

(** The slot [h] named is empty and has moved on. *)
Definition revoked s p (h : EX_HANDLE) : Prop :=
  exists x (i : nat) sl g, processes s !! p = Some x /\ HandleTable x !! i = Some sl /\ KiDecodeHandle h = Some (Z.of_nat i, g) /\
    Object sl = None /\ Generation sl <> 0 /\ Generation sl <> g.

Lemma close_revokes s own ext n p x h i : ex_inv s own ext -> capped n s -> n + 1 < 2 ^ 32 -> processes s !! p = Some x ->
  0 < ReferenceCount (Header x) -> closable s x h i ->
  exists st s', ExHandleClose p h s = Ok (st, EX_HANDLE_INVALID, s') /\ keeps own ext (n + 1) s s' /\
    forall x', processes s' !! p = Some x' -> revoked s' p h /\
      forall sl, HandleTable x !! i = Some sl -> HandleTable x' = <[i := clear_slot sl]> (HandleTable x).
Proof.
  intros I C Hn Hx Hr Hc. destruct (close_run s own ext n p h I C Hn ltac:(by exists x)) as (st & h' & s' & E & K & R).
  pose proof Hc as (sl & Hsl & Hd & Hv). destruct (R x i sl Hx ltac:(lia) Hc Hsl) as [-> Ht].
  exists st, s'. split; [done|]. split; [done|]. intros x' Hx'. rewrite (Ht x' Hx').
  split; [|intros sl' Hsl'; rewrite Hsl in Hsl'; by injection Hsl' as ->].
  pose proof (lookup_lt_Some _ _ _ Hsl).
  pose proof (pk_slots _ _ _ _ (ei_processes _ _ _ I p x Hx)) as Hs. rewrite Forall_forall in Hs.
  destruct (Hs sl (list_elem_of_lookup_2 _ _ _ Hsl)) as [Hg Ho].
  unfold KiValidateCloseHandleSlot in Hv. destruct (Object sl) as [o|]; [|done]. destruct Ho as [Hg0 _].
  pose proof (generation_range (Generation sl) Hg).
  exists x', i, (clear_slot sl), (Generation sl). split; [done|]. split; [by rewrite (Ht x' Hx'), list_lookup_insert_eq|].
  split; [done|]. split; [done|]. cbn. split; [lia|]. apply advance_other. lia.
Qed.

(** A revoked handle resolves to nothing and is not handed out again. *)
Lemma revoked_resolve s own ext p h ty rights : ex_inv s own ext -> revoked s p h -> ExObjectIsValidType ty = true ->
  ExHandleResolve p h ty rights s = Ok (EC_INVALID_STATE, None, s).
Proof.
  intros I (x & i & sl & g & Hx & Hsl & Hd & Ho & _) Ht. unfold ExHandleResolve, KiLookupHandleSlot.
  assert (Hz : p <> 0) by (by destruct (ei_processes _ _ _ I p x Hx)).
  rewrite (proj2 (Z.eqb_neq p 0) Hz), Ht, Hd, (proj2 (get_process_ok s p x) Hx). cbn [negb res_bind].
  rewrite (proj2 (rd_ok _ _ sl)) by (split; [lia | by rewrite Nat2Z.id]). cbn [res_bind].
  by rewrite bool_decide_true.
Qed.

Lemma revoked_insert s own ext n p h o rights st h2 s2 : ex_inv s own ext -> capped n s -> n + 1 < 2 ^ 32 -> revoked s p h ->
  insertable s p o rights -> ExHandleInsert p (Some o) rights s = Ok (st, h2, s2) -> st = EC_SUCCESS -> h2 <> h.
Proof.
  intros I C Hn (x & i & sl & g & Hx & Hsl & Hd & Ho & Hg0 & Hg) Hins E -> ->.
  destruct (insert_run s own ext n p o rights I C Hn ltac:(by exists x) Hins) as (st & h' & s' & E' & _ & _ & R).
  rewrite E in E'. injection E' as <- <- <-.
  destruct R as [(_ & j & g' & x0 & x' & sl' & G1 & _ & G3 & _ & _ & G6 & G7)|[? _]]; [|done].
  rewrite Hx in G1. injection G1 as <-. rewrite Hd in G6. injection G6 as Hij <-. apply Nat2Z.inj in Hij as <-.
  rewrite Hsl in G3. injection G3 as <-. by rewrite (proj2 (Z.eqb_neq _ 0) Hg0) in G7.
Qed.

(** ** Insertion, then lookup *)

(** An object named by a handle has a positive count. *)
Lemma slot_referenced s own ext p x sl o h : ex_inv s own ext -> processes s !! p = Some x -> sl ∈ HandleTable x ->
  Object sl = Some o -> get_header o s = Ok h -> 0 < ReferenceCount h.
Proof.
  intros I Hx Hin Ho Eh. destruct (slot_alive s own ext p x sl o I Hx Hin Ho) as [_ Ho'].
  pose proof (handles_pos o x sl Hin Ho) as Hpos. pose proof (ei_processes _ _ _ I p x Hx) as Hok.
  pose proof (ei_nonneg _ _ _ I o). destruct o as [q|t|q]; cbn in Ho', Eh.
  - subst q. rewrite (proj2 (get_process_ok s p x) Hx) in Eh. injection Eh as <-. rewrite (pk_refs _ _ _ _ Hok).
    pose proof (owners_nonneg p (exthreads s)). destruct (CompletionRetained x); cbn; lia.
  - destruct Ho' as (y & Hy & _). rewrite (proj2 (get_thread_ok s t y) Hy) in Eh. injection Eh as <-.
    apply (tk_pos _ _ _ _ _ (ei_threads _ _ _ I t y Hy)).
  - subst q. rewrite (proj2 (get_process_ok s p x) Hx) in Eh. injection Eh as <-. rewrite (pk_crefs _ _ _ _ Hok).
    destruct (negb _); cbn; lia.
Qed.

(** Resolving a handle whose slot is current. *)
Lemma resolve_named s own ext n p x (i : nat) sl o h ty want : ex_inv s own ext -> capped n s -> n + 1 < 2 ^ 32 ->
  processes s !! p = Some x -> HandleTable x !! i = Some sl -> Object sl = Some o ->
  KiDecodeHandle h = Some (Z.of_nat i, Generation sl) -> ExObjectIsValidType ty = true ->
  exists hd s', get_header o s = Ok hd /\ put_header o (set_ReferenceCount (ReferenceCount hd + 1) hd) s = Ok s' /\
    ExHandleResolve p h ty want s =
      if bool_decide (ty = type_of o /\ Z.land (Rights sl) want = want) then Ok (EC_SUCCESS, Some o, s')
      else Ok (EC_INVALID_STATE, None, s).
Proof.
  intros I C Hn Hx Hsl Ho Hd Hty. pose proof (list_elem_of_lookup_2 _ _ _ Hsl) as Hin.
  destruct (slot_alive s own ext p x sl o I Hx Hin Ho) as [Ha _]. destruct (alive_header s o Ha) as [hd Eh].
  destruct (refs_only_put_header s o (set_ReferenceCount (ReferenceCount hd + 1) hd) Ha) as (s' & Es' & _).
  exists hd, s'. split; [done|]. split; [done|].
  pose proof (slot_referenced s own ext p x sl o hd I Hx Hin Ho Eh). pose proof (C o hd Eh).
  assert (Hz : p <> 0) by (by destruct (ei_processes _ _ _ I p x Hx)).
  unfold ExHandleResolve, KiLookupHandleSlot. rewrite (proj2 (Z.eqb_neq p 0) Hz), Hty, Hd, (proj2 (get_process_ok s p x) Hx).
  cbn [negb res_bind]. rewrite (proj2 (rd_ok _ _ sl)) by (split; [lia | by rewrite Nat2Z.id]). cbn [res_bind].
  rewrite Ho, (bool_decide_false (Some o = None)), Z.eqb_refl by done. cbn [negb orb].
  destruct (Z.eqb_spec (Z.land (Rights sl) want) want) as [Hw|Hw]; cbn [negb].
  2: { by rewrite bool_decide_false by tauto. }
  unfold ExObjectRetain. rewrite Hty, Eh. cbn [negb res_bind]. rewrite (header_type s own ext o hd I Eh).
  rewrite (proj2 (Z.eqb_neq _ 0)) by lia. rewrite orb_false_r. destruct (decide (ty = type_of o)) as [->|Hne].
  - rewrite (bool_decide_true (type_of o = type_of o)) by done. cbn [negb].
    rewrite u32_small by (unfold is_u32; lia). rewrite Es'. cbn [res_bind].
    by rewrite (bool_decide_true (EC_SUCCESS = EC_SUCCESS)), bool_decide_true by done.
  - rewrite (bool_decide_false (type_of o = ty)) by congruence. cbn [negb res_bind].
    by rewrite bool_decide_false, bool_decide_false by (tauto || done).
Qed.

(** ** A terminated child that is waited for *)

Definition terminated_child s p x : Prop :=
  processes s !! p = Some x /\ State x = EX_PROCESS_STATE_TERMINATED /\ CompletionSignaled x = true /\
  CompletionRetained x = true /\ published_process s p.

(** Only the completion reference and the caller's are left. *)
Definition abandoned s ext p x : Prop :=
  handles (ObjProcess p) x = 0 /\ handles (ObjStdout p) x = 0 /\ owners p (exthreads s) = 0 /\
  ext (ObjProcess p) = 1 /\ ext (ObjStdout p) = 0.

Lemma consume_last s own ext n p x : ex_inv s own ext -> capped n s -> terminated_child s p x -> abandoned s ext p x ->
  exists s', ExRuntimeConsumeCompletedProcess p s = Ok (EC_SUCCESS, s') /\ ex_inv s' own ext /\ capped n s' /\
    ~ published_process s' p /\
    exists x', processes s' !! p = Some x' /\ handles (ObjStdout p) x' = 0 /\ ReferenceCount (Header x') = 1.
Proof.
  intros I Hc (Hx & Hst & Hsig & Er & Hpub) (H1 & H2 & H3 & H4 & H5). unfold ExRuntimeConsumeCompletedProcess.
  assert (Hz : p <> 0) by (by destruct (ei_processes _ _ _ I p x Hx)).
  rewrite (proj2 (Z.eqb_neq p 0) Hz), (proj2 (get_process_ok s p x) Hx). cbn [res_bind].
  rewrite Hst, Hsig, Er, bool_decide_true by done. cbn [negb orb].
  destruct (find_by_process s own ext p I) as (i & -> & [(_ & Hi & _ & e & He & Ha & Hp)|(_ & _ & Hn)]); cbn [res_bind].
  2: { destruct Hpub as (e & He & Ha & Hp). by destruct (Hn Hz e He Ha). }
  rewrite Hi. destruct (consume_entry s own ext n p x i e I Hc Hx Er He Ha Hp) as (I2 & C2 & Hout).
  pose proof (lookup_lt_Some _ _ _ He) as Li. unfold set_entry. rewrite wr_in by lia. cbn [res_bind]. rewrite Nat2Z.id.
  unfold upd_process. rewrite (proj2 (get_process_ok _ p x)) by done. cbn [res_bind].
  set (s1 := put_process _ _ _) in *. assert (Hx1 : processes s1 !! p = Some (set_CompletionRetained false x)) by apply lookup_insert_eq.
  unfold ExRuntimeReleaseProcess, ExObjectRelease. rewrite (proj2 (Z.eqb_neq p 0) Hz). unfold release_depth.
  destruct (release_process_run 1 s1 own _ n p I2 C2 ltac:(rewrite move_here; lia))
    as (st & rem & s3 & x1 & -> & I3 & C3 & R3 & T3 & _ & Hx1' & Hrem & D). cbn [res_bind].
  rewrite Hx1 in Hx1'. injection Hx1' as <-.
  assert (Erem : rem = 1).
  { rewrite Hrem, (pk_refs _ _ _ _ (ei_processes _ _ _ I2 p _ Hx1)). rewrite move_here.
    change (handles (ObjProcess p) (set_CompletionRetained false x)) with (handles (ObjProcess p) x).
    change (exthreads s1) with (exthreads s). cbn. lia. }
  rewrite Erem in D. cbn in D. destruct D as [-> [x3 Hx3]]. exists s3. split; [done|].
  assert (I4 : ex_inv s3 own ext) by (eapply inv_ext_eq; [|exact I3]; intros o; symmetry; apply (move_cancel _ 1)).
  split; [done|]. split; [done|]. split.
  - intros (f & Hf & Hfa & Hfp). rewrite (proj1 (proj2 (proj2 R3))) in Hf. by destruct (Hout f Hf Hfa).
  - exists x3. split; [done|]. destruct (refs_only_process _ _ _ _ R3 Hx3) as (x1 & Hx1' & Ht & Hcr & _).
    rewrite Hx1 in Hx1'. injection Hx1' as <-. cbn in Ht, Hcr.
    rewrite (pk_refs _ _ _ _ (ei_processes _ _ _ I4 p x3 Hx3)), !(handles_same _ x x3 Ht), T3, Hcr.
    change (exthreads s1) with (exthreads s). cbn. lia.
Qed.

Lemma wait_frees s own ext n p x : ex_inv s own ext -> capped n s -> terminated_child s p x -> abandoned s ext p x ->
  exists st s', ExWaitProcess_end p EC_SUCCESS s = Ok (st, s') /\ processes s' !! p = None /\ ~ published_process s' p /\
    (Foreground x = false -> st = EC_SUCCESS).
Proof.
  intros I Hc Ht Hab. unfold ExWaitProcess_end. rewrite bool_decide_true by done. cbn [negb].
  assert (exists st w, KiRestoreForegroundOwner p s = Ok (st, set_Svc w s) /\ ex_inv (set_Svc w s) own ext /\ capped n (set_Svc w s) /\
    (Foreground x = false -> st = EC_SUCCESS)) as (st & w & -> & I1 & C1 & Hf).
  { pose proof (proj1 Ht) as Hx. assert (Hz : p <> 0) by (by destruct (ei_processes _ _ _ I p x Hx)).
    unfold KiRestoreForegroundOwner. rewrite (proj2 (Z.eqb_neq p 0) Hz), (proj2 (get_process_ok s p x) Hx). cbn [res_bind].
    destruct (Foreground x); cbn [negb].
    - unfold svc. destruct (KeInputSetForegroundOwnerThreadId _ (Svc s)) as [st w] eqn:Ew. exists st, w. split; [done|].
      destruct (steady_svc s own ext n w I Hc ltac:(by eapply q_foreground)) as [(? & ? & _) _]. by split_and!.
    - exists EC_SUCCESS, (Svc s). by destruct s. }
  cbn [res_bind]. destruct (consume_last (set_Svc w s) own ext n p x I1 C1 Ht Hab) as (s2 & -> & I2 & C2 & Hn & x2 & Hx2 & Hh & Hr).
  cbn [res_bind]. destruct Hab as (_ & _ & _ & He & He').
  assert (Hz : p <> 0) by (by destruct (ei_processes _ _ _ I2 p x2 Hx2)).
  unfold ExRuntimeReleaseProcess, ExObjectRelease. rewrite (proj2 (Z.eqb_neq p 0) Hz). unfold release_depth.
  destruct (release_process_run 1 s2 own ext n p I2 C2 ltac:(lia)) as (rs & rem & s3 & x3 & -> & _ & _ & R3 & _ & _ & Hx3 & Hrem & D).
  rewrite Hx2 in Hx3. injection Hx3 as <-. assert (rem = 0) as -> by lia. cbn [res_bind].
  destruct D as [(-> & Hnone & _)|(_ & _ & Hbad)]; [|lia]. exists (if bool_decide (st = EC_SUCCESS) then EC_SUCCESS else st), s3.
  split; [by destruct st|]. split; [done|]. split.
  - intros (f & Hfi & Hfa & Hfp). apply Hn. exists f. by rewrite <- (proj1 (proj2 (proj2 R3))).
  - intros ->%Hf. done.
Qed.
End exact.
