(* ===== verification/ExRun.v ===== *)
(** * Calls of the executive and the states they reach

    [run] makes one call on behalf of some thread and tracks the references
    its callers hold; [permitted] is the callers' contract and [reachable] are
    the states that permitted calls lead to from start-up.  Every such call
    returns and keeps all references accounted for. *)

From S2P Require Import Prelude Ex ExInv ExRefs ExHandles ExLife ExCalls ExProcess ExThread ExControl ExSpec.

Local Open Scope Z_scope.

(** ** Calls *)

Inductive call :=
| CreateProcess (params : EX_RUNTIME_PROCESS_CREATE_PARAMS)
| CreateThread (p : Z) (params : EX_RUNTIME_THREAD_CREATE_PARAMS)
| StartThread (t : Z)
| TeardownThread (t : Z)
| DestroyProcess (p : Z)
| Spawn (status : HO_STATUS) (params : EX_RUNTIME_PROCESS_CREATE_PARAMS) (entry flags previous : Z)
| WaitBegin (kt pid : Z)
| WaitEnd (p : Z) (status : HO_STATUS)
| KillBegin (kt pid : Z)
| SetForeground (kt pid : Z)
| Terminating (kt : Z) (reason : EX_PROCESS_TERMINATION_REASON) (code : Z)
| Finalize (kt : Z)
| Close (kt : Z) (h : EX_HANDLE)
| Resolve (kt : Z) (h : EX_HANDLE) (type : EX_OBJECT_TYPE) (rights : Z)
| ResolveWaitable (kt : Z) (h : EX_HANDLE) (rights : Z)
| ReleaseResolved (o : EX_OBJECT).

Section protocol.
Context {W : Type} `{ExLaws W}.
Implicit Types (s : EX W) (p t kt : Z) (o : EX_OBJECT).

(** The executive and the references its callers hold. *)
Record WORLD : Type := mkWorld { wEx : EX W; wHeld : EX_OBJECT -> Z }.

(** A handle call works on the process of the calling thread. *)
Definition on_current {A : Type} kt s (f : Z -> res A) : res A :=
  let* p := ExRuntimeLookupProcessByKernelThread kt s in f p.

Definition hold (status : HO_STATUS) o (held : EX_OBJECT -> Z) : EX_OBJECT -> Z :=
  if bool_decide (status = EC_SUCCESS) then move o 1 held else held.

Definition hold_resolved (r : option EX_OBJECT) (held : EX_OBJECT -> Z) : EX_OBJECT -> Z :=
  match r with Some o => move o 1 held | None => held end.

Definition run (c : call) (w : WORLD) : res (HO_STATUS * WORLD) :=
  let s := wEx w in
  let held := wHeld w in
  match c with
  | CreateProcess params =>
      let* (st, p, s) := ExRuntimeCreateProcess (Some params) s in Ok (st, mkWorld s (hold st (ObjProcess p) held))
  | CreateThread p params =>
      let* (st, _, _, s) := ExRuntimeCreateThread p (Some params) s in
      Ok (st, mkWorld s (if bool_decide (st = EC_SUCCESS) then move (ObjProcess p) (-1) held else held))
  | StartThread t => let* (st, _, s) := ExRuntimeStartThread t s in Ok (st, mkWorld s held)
  | TeardownThread t => let* (st, s) := ExRuntimeTeardownThread t s in Ok (st, mkWorld s held)
  | DestroyProcess p =>
      let* (st, s) := ExRuntimeDestroyProcess p s in Ok (st, mkWorld s (move (ObjProcess p) (-1) held))
  | Spawn status params entry flags previous =>
      let* (st, _, _, s) := KiExCreateAndStartProcessImage (status, params) entry flags previous s in Ok (st, mkWorld s held)
  | WaitBegin kt pid => let* (st, p, s) := ExWaitProcess_begin kt pid s in Ok (st, mkWorld s (hold st (ObjProcess p) held))
  | WaitEnd p status => let* (st, s) := ExWaitProcess_end p status s in Ok (st, mkWorld s (move (ObjProcess p) (-1) held))
  | KillBegin kt pid => let* (st, p, s) := ExKillProcess_begin kt pid s in Ok (st, mkWorld s (hold st (ObjProcess p) held))
  | SetForeground kt pid => let* (st, s) := ExSetForegroundProcess kt pid s in Ok (st, mkWorld s held)
  | Terminating kt reason code =>
      let* (st, s) := ExRuntimeMarkCurrentProcessTerminating kt reason code s in Ok (st, mkWorld s held)
  | Finalize kt => let* (st, s) := ExUserRuntimeFinalizeThread kt s in Ok (st, mkWorld s held)
  | Close kt h => on_current kt s (fun p => let* (st, _, s) := ExHandleClose p h s in Ok (st, mkWorld s held))
  | Resolve kt h type rights => on_current kt s (fun p =>
      let* (st, r, s) := ExHandleResolve p h type rights s in Ok (st, mkWorld s (hold_resolved r held)))
  | ResolveWaitable kt h rights => on_current kt s (fun p =>
      let* (st, r, s) := ExHandleResolveWaitable p h rights s in Ok (st, mkWorld s (hold_resolved r held)))
  | ReleaseResolved o =>
      let* (st, s) := ExHandleReleaseResolvedObject (Some o) s in Ok (st, mkWorld s (move o (-1) held))
  end.

(** The callers' contract: a call that gives a reference back, or works on a
    process or thread it was handed, has that reference. *)
Definition permitted (c : call) (w : WORLD) : Prop :=
  match c with
  | CreateProcess params | Spawn _ params _ _ _ => params_ok params
  | CreateThread p _ => 0 < wHeld w (ObjProcess p)
  | StartThread t | TeardownThread t => published_thread_object (wEx w) t
  | DestroyProcess p => 0 < wHeld w (ObjProcess p) /\ ~ published_process (wEx w) p
  | WaitEnd p _ => 0 < wHeld w (ObjProcess p)
  | ReleaseResolved o => 0 < wHeld w o
  | _ => True
  end.

(** No 32-bit reference count or process number is about to wrap. *)
Definition roomy s : Prop :=
  (forall o h, get_header o s = Ok h -> ReferenceCount h <= 2 ^ 32 - 16) /\ gNextRuntimeProcessId s <> 0.

Definition ex_step (w w' : WORLD) : Prop := exists c st, permitted c w /\ roomy (wEx w) /\ run c w = Ok (st, w').

(** The executive after start-up. *)
Definition ex_boot (services : W) : WORLD :=
  mkWorld (mkEX ∅ ∅ (replicate (Z.to_nat EX_RUNTIME_PROCESS_TABLE_CAPACITY) (mkEntry false 0))
             (replicate (Z.to_nat EX_RUNTIME_THREAD_TABLE_CAPACITY) (mkEntry false 0)) 1 services) (fun _ => 0).

Definition reachable (w : WORLD) : Prop := exists services, rtc ex_step (ex_boot services) w.

(** Thread [t] stands in the thread table, as a test. *)
Definition thread_published s t : bool := existsb (fun e => Active e && (Entry e =? t)) (gExRuntimeThreadTable s).

(** Every reference is accounted for and leads to a live structure, and a
    process holds handles to nothing but itself, its console service and its
    own threads.  The references to a process are its handles, its threads,
    the completion reference and those held; to a console service its handles
    and its process; to a thread the handles in its process's table, the
    table's own while it is published, and those held. *)
Record accounted s (held : EX_OBJECT -> Z) : Prop := {
  ac_process p x : processes s !! p = Some x ->
    ReferenceCount (Header x) = handles (ObjProcess p) x + owners p (exthreads s) + Z.b2z (CompletionRetained x) + held (ObjProcess p);
  ac_console p x : processes s !! p = Some x ->
    ReferenceCount (StdoutHeader x) =
    handles (ObjStdout p) x + Z.b2z (negb (ReferenceCount (Header x) =? 0)) + held (ObjStdout p);
  ac_thread t y : exthreads s !! t = Some y ->
    ReferenceCount (tHeader y) = thread_handles s t y + Z.b2z (thread_published s t) + held (ObjThread t) /\
    0 < ReferenceCount (tHeader y);
  ac_held o : 0 < held o -> alive s o;
  ac_handles p x sl o : processes s !! p = Some x -> sl ∈ HandleTable x -> Object sl = Some o -> alive s o /\ owned_object s p o;
  ac_threads t y : exthreads s !! t = Some y -> Process y <> 0 -> is_Some (processes s !! Process y);
  ac_published_process p : published_process s p -> is_Some (processes s !! p);
  ac_published_thread t : published_thread_object s t -> is_Some (exthreads s !! t);
}.

Definition winv (w : WORLD) : Prop := exists own, ex_inv (wEx w) own (wHeld w).

Lemma boot_inv services : winv (ex_boot services).
Proof.
  exists ∅. constructor.
  1-3: done.
  - intros o Ho. cbn in Ho. lia.
  - by intros t Ht%elem_of_empty.
  - by intros t Ht%elem_of_empty.
  - done.
  - done.
  - by apply Forall_replicate.
  - by apply Forall_replicate.
  - intros i j e1 e2 y1 y2 Hi. apply lookup_replicate in Hi as [-> _]. done.
  - intros i j e1 e2 Hi. apply lookup_replicate in Hi as [-> _]. done.
  - done.
  - intros a [[? ?]|[? ?]]; done.
Qed.

Lemma thread_published_spec s t : thread_published s t = true <-> published_thread_object s t.
Proof.
  unfold thread_published, published_thread_object. rewrite existsb_exists. split.
  - intros (e & He%list_elem_of_In & Hb). apply andb_prop in Hb as [Ha Ht%Z.eqb_eq]. by exists e.
  - intros (e & He & Ha & Ht%Z.eqb_eq). exists e. by rewrite Ha, Ht, <- list_elem_of_In.
Qed.

(** The table's own references are those of the published threads. *)
Lemma own_published s own held t : ex_inv s own held -> (if decide (t ∈ own) then 1 else 0) = Z.b2z (thread_published s t).
Proof.
  intros I. destruct (decide (t ∈ own)) as [Ht|Ht].
  - by rewrite (proj2 (thread_published_spec s t)) by by apply (ei_published _ _ _ I).
  - destruct (thread_published s t) eqn:E; [|done]. apply thread_published_spec in E as (e & He & Ha & <-). destruct Ht.
    pose proof (ei_ttab _ _ _ I) as Hp. rewrite Forall_forall in Hp. by destruct (Hp e He Ha).
Qed.

Lemma inv_accounts s own held : ex_inv s own held -> accounted s held.
Proof.
  intros I. constructor.
  - intros p x Hx. by destruct (ei_processes _ _ _ I p x Hx).
  - intros p x Hx. by destruct (ei_processes _ _ _ I p x Hx).
  - intros t y Hy. destruct (ei_threads _ _ _ I t y Hy). by rewrite <- (own_published s own held t I).
  - apply (ei_ext _ _ _ I).
  - intros p x sl o Hx Hin Ho. by apply (slot_alive s own held p x sl o I Hx Hin Ho).
  - intros t y Hy Hp. by eapply thread_process.
  - intros p (e & He & Ha & <-). pose proof (ei_ptab _ _ _ I) as Hp. rewrite Forall_forall in Hp.
    destruct (Hp e He Ha) as (x & Hx & _). by exists x.
  - intros t (e & He & Ha & <-). pose proof (ei_ttab _ _ _ I) as Hp. rewrite Forall_forall in Hp.
    destruct (Hp e He Ha) as (_ & y & Hy & _). by exists y.
Qed.

Lemma roomy_capped s : roomy s -> capped (2 ^ 32 - 16) s.
Proof. intros [Hr _]. exact Hr. Qed.

Lemma published_own s own held t : ex_inv s own held -> published_thread_object s t -> t ∈ own.
Proof.
  intros I (e & He & Ha & <-). pose proof (ei_ttab _ _ _ I) as Hp. rewrite Forall_forall in Hp. by destruct (Hp e He Ha).
Qed.

Lemma published_live s own held t : ex_inv s own held -> published_thread_object s t -> is_Some (exthreads s !! t).
Proof. intros I Ht. apply (ei_own _ _ _ I). by eapply published_own. Qed.

Lemma current_run s own held kt : ex_inv s own held ->
  exists p, ExRuntimeLookupProcessByKernelThread kt s = Ok p /\ (p <> 0 -> is_Some (processes s !! p)).
Proof. intros I. destruct (lookup_process_run s own held kt I) as (p & -> & [->|Hp]); [by exists 0 | by exists p]. Qed.

Lemma hold_run s own n held out : child_held own held n out ->
  exists st p s', out = Ok (st, p, s') /\ exists own', ex_inv s' own' (hold st (ObjProcess p) held).
Proof.
  intros (st & p & s' & -> & _ & R). exists st, p, s'. split; [done|]. exists own. unfold hold.
  destruct R as [(-> & _ & I)|(Hst & _ & I)]; [by rewrite bool_decide_true | by rewrite bool_decide_false].
Qed.

Lemma resolve_hold s own n held wanted out : resolve_result own held n s wanted out -> ex_inv s own held ->
  exists st r s', out = Ok (st, r, s') /\ ex_inv s' own (hold_resolved r held).
Proof.
  intros (st & r & s' & -> & R & _) I. exists st, r, s'. split; [done|]. destruct r as [o|]; cbn in *; [by apply R | by rewrite R].
Qed.
(** A permitted call returns and leaves every reference accounted for. *)
Lemma run_inv c w : winv w -> permitted c w -> roomy (wEx w) -> exists st w', run c w = Ok (st, w') /\ winv w'.
Proof.
  destruct w as [s held]. intros [own I] Hc Hr. pose proof (roomy_capped s Hr) as C. destruct Hr as [_ Hpid].
  cbn [wEx wHeld] in *. unfold run. cbn [wEx wHeld].
  destruct c as [params|p params|t|t|p|status params entry flags prev|kt pid|p status|kt pid|kt pid|kt reason code|kt|kt h
    |kt h ty rights|kt h rights|o]; cbn [permitted wEx wHeld] in Hc.
  - destruct (create_process_run s own held _ params I C ltac:(lia) ltac:(lia) Hc Hpid)
      as (p & _ & st & p' & s' & -> & _ & _ & R). cbn [res_bind]. do 2 eexists. split; [done|]. exists own. unfold hold. cbn.
    destruct R as [(-> & _ & _ & J)|(Hst & _ & J)]; [by rewrite bool_decide_true | by rewrite bool_decide_false].
  - destruct (create_thread_run s own held _ p params I C ltac:(lia) ltac:(lia) Hc)
      as (st & p' & t & s' & -> & _ & R). cbn [res_bind]. do 2 eexists. split; [done|]. cbn.
    destruct R as [(-> & _ & _ & J)|(Hst & _ & _ & J & _)];
      [rewrite bool_decide_true by done; by eexists | rewrite bool_decide_false by done; by eexists].
  - destruct (start_thread_run s own held _ t I C) as (st & t' & s' & -> & ((J & _) & _) & _).
    { intros _. by eapply published_live. }
    cbn [res_bind]. do 2 eexists. split; [done|]. by exists own.
  - destruct (teardown_thread_run s own held _ t I C ltac:(lia)) as (st & s' & -> & _ & R).
    { intros _. by eapply published_own. }
    cbn [res_bind]. do 2 eexists. split; [done|]. destruct R as [J|J]; [by exists own | by exists (own ∖ {[t]})].
  - destruct Hc as [Hp Hn]. destruct (destroy_process_run s own held _ p I C ltac:(lia) Hp) as (st & s' & -> & _ & R).
    cbn [res_bind]. do 2 eexists. split; [done|]. destruct R as [J|(-> & Hpub)]; [by exists own | by destruct Hn].
  - destruct (spawn_run s own held _ status params entry flags prev I C ltac:(lia) ltac:(lia) Hc Hpid)
      as (st & pid & tid & s' & own' & -> & J & _). cbn [res_bind]. do 2 eexists. split; [done|]. by exists own'.
  - destruct (hold_run s own _ held _ (wait_begin_run s own held _ kt pid I C ltac:(lia))) as (st & p & s' & -> & own' & J).
    cbn [res_bind]. do 2 eexists. split; [done|]. by exists own'.
  - destruct (wait_end_run s own held _ p status I C Hc) as (st & s' & -> & J & _).
    cbn [res_bind]. do 2 eexists. split; [done|]. by exists own.
  - destruct (hold_run s own _ held _ (kill_begin_run s own held _ kt pid I C ltac:(lia))) as (st & p & s' & -> & own' & J).
    cbn [res_bind]. do 2 eexists. split; [done|]. by exists own'.
  - destruct (set_foreground_run s own held _ kt pid I C ltac:(lia)) as (st & s' & -> & J & _).
    cbn [res_bind]. do 2 eexists. split; [done|]. by exists own.
  - destruct (mark_current_run s own held _ kt reason code I C) as (st & s' & -> & (J & _) & _).
    cbn [res_bind]. do 2 eexists. split; [done|]. by exists own.
  - destruct (finalize_thread_run s own held _ kt I C ltac:(lia)) as (st & s' & own' & -> & J & _).
    cbn [res_bind]. do 2 eexists. split; [done|]. by exists own'.
  - destruct (current_run s own held kt I) as (p & Hp & Hlive). unfold on_current. rewrite Hp. cbn [res_bind].
    destruct (close_run s own held _ p h I C ltac:(lia) Hlive) as (st & h' & s' & -> & (J & _) & _).
    cbn [res_bind]. do 2 eexists. split; [done|]. by exists own.
  - destruct (current_run s own held kt I) as (p & Hp & Hlive). unfold on_current. rewrite Hp. cbn [res_bind].
    destruct (resolve_hold s own _ held _ _ (resolve_handle_run s own held _ p h ty rights I C ltac:(lia) Hlive) I) as (st & r & s' & -> & J).
    cbn [res_bind]. do 2 eexists. split; [done|]. by exists own.
  - destruct (current_run s own held kt I) as (p & Hp & Hlive). unfold on_current. rewrite Hp. cbn [res_bind].
    destruct (resolve_hold s own _ held _ _ (resolve_waitable_run s own held _ p h rights I C ltac:(lia) Hlive) I)
      as (st & r & s' & -> & J).
    cbn [res_bind]. do 2 eexists. split; [done|]. by exists own.
  - unfold ExHandleReleaseResolvedObject. destruct (release_handle_object s own held _ o I C Hc) as (st & s' & -> & J & _).
    cbn [res_bind]. do 2 eexists. split; [done|]. by exists own.
Qed.

Lemma reachable_inv w : reachable w -> winv w.
Proof.
  intros [services R]. remember (ex_boot services) as w0 eqn:E.
  assert (I0 : winv w0) by (subst; apply boot_inv). clear E.
  induction R as [w|w1 w2 w3 (c & st & Hc & Hr & E) R IH]; [done|]. apply IH.
  destruct (run_inv c w1 I0 Hc Hr) as (st' & w2' & E' & J). rewrite E in E'. by injection E' as _ ->.
Qed.
End protocol.
