(* ===== verification/ExToy.v ===== *)
(** * A small world of services for the executive

    A bump allocator and a table of kernel threads that satisfy [ExLaws], and
    a driver that runs a list of calls from start-up while it checks that each
    is permitted.  The witnesses of [ExThms.v] are evaluated on it. *)

From S2P Require Import Prelude Ex ExInv ExRefs ExHandles ExProcess ExSpec ExRun.
From S2P Require PageTable Sched.

Local Open Scope Z_scope.

Module Toy.

(** The next address, the kernel threads by number, the owner of the focus. *)
Record WORLD : Type := mkToy { next : Z; threads : list (option KTHREAD_VIEW); focus : Z }.

Definition step_next (w : WORLD) : WORLD := mkToy (Z.max 0 (next w) + 1) (threads w) (focus w).
Definition set_threads (l : list (option KTHREAD_VIEW)) (w : WORLD) : WORLD := mkToy (next w) l (focus w).

(** Kernel thread [kt] is entry [kt - 1]. *)
Definition thread_at (kt : Z) (w : WORLD) : option KTHREAD_VIEW :=
  if 0 <? kt then mjoin (threads w !! Z.to_nat (kt - 1)) else None.
Definition alter_thread (f : KTHREAD_VIEW -> option KTHREAD_VIEW) (kt : Z) (w : WORLD) : WORLD :=
  if 0 <? kt then set_threads (alter (fun v => mbind f v) (Z.to_nat (kt - 1)) (threads w)) w else w.

Definition ready (v : KTHREAD_VIEW) : option KTHREAD_VIEW :=
  Some (mkView (vThreadId v) (vIdle v) Sched.Sched.KTHREAD_STATE_READY (vStackOwnedByKva v)).

#[global] Instance services : ExServices WORLD := {
  kzalloc _ w := (Z.max 0 (next w) + 1, step_next w);
  kfree _ w := w;
  KeCreateProcessAddressSpace w := (EC_SUCCESS, mkProcessSpace 4096 true, w);
  KeDestroyProcessAddressSpace _ w := (EC_SUCCESS, mkProcessSpace 0 false, w);
  KeQueryActiveRootPageTable _ := (EC_SUCCESS, 8192);
  KernelSpaceRoot _ := Some 8192;
  KeSwitchAddressSpace _ w := (EC_SUCCESS, w);
  KeUserModeCreateStaging _ _ _ _ w := (EC_SUCCESS, Z.max 0 (next w) + 1, step_next w);
  KeUserModeDestroyStaging _ w := (EC_SUCCESS, w);
  KeUserModeAttachThread _ _ w := (EC_SUCCESS, w);
  KeUserModeDetachThread _ _ w := (EC_SUCCESS, w);
  KeUserModePatchConstBytes _ _ _ w := (EC_SUCCESS, w);
  KeThreadCreate _ _ _ w :=
    let kt := Z.of_nat (length (threads w)) + 1 in
    (EC_SUCCESS, kt, set_threads (threads w ++ [Some (mkView kt false Sched.Sched.KTHREAD_STATE_NEW true)]) w);
  KeThreadStart kt w := (EC_SUCCESS, alter_thread ready kt w);
  kernel_thread := thread_at;
  KeKvaReleaseStackRange _ w := (EC_SUCCESS, w);
  KThreadPoolFree kt w := alter_thread (fun _ => None) kt w;
  KeInputGetForegroundOwnerThreadId w := focus w;
  KeInputSetForegroundOwnerThreadId t w := (EC_SUCCESS, mkToy (next w) (threads w) t);
  KeSetCompletionEvent _ w := w;
}.

Lemma thread_at_app kt w v : is_Some (thread_at kt w) -> is_Some (thread_at kt (set_threads (threads w ++ [v]) w)).
Proof.
  unfold thread_at. destruct (0 <? kt); [|done]. cbn. intros [u Hu].
  destruct (threads w !! _) as [u'|] eqn:E; [cbn in Hu; subst u'|done].
  rewrite lookup_app_l, E by (by eapply lookup_lt_Some). by eexists.
Qed.

Lemma thread_at_alter f kt kt' w : (kt' = kt -> forall v, is_Some (f v)) -> is_Some (thread_at kt' w) ->
  is_Some (thread_at kt' (alter_thread f kt w)).
Proof.
  unfold thread_at, alter_thread. intros Hf. destruct (Z.ltb_spec 0 kt'); [|done]. destruct (Z.ltb_spec 0 kt); [|done].
  cbn. intros [u Hu].
  destruct (threads w !! _) as [u'|] eqn:E; [cbn in Hu; subst u'|done]. destruct (decide (kt' = kt)) as [->|Hne].
  - rewrite list_lookup_alter_eq, E. cbn. by apply Hf.
  - rewrite list_lookup_alter_ne, E by lia. by eexists.
Qed.

Lemma next_alter f kt w : next (alter_thread f kt w) = next w.
Proof. unfold alter_thread. by destruct (0 <? kt). Qed.

#[global] Instance laws : ExLaws WORLD.
Proof.
  refine {| allocated w a := 0 < a <= Z.max 0 (next w) |}.
  - intros n w a w' [= <- <-]. split; [intros _; cbn; lia|]. split; [cbn; lia | done].
  - intros a w. by split.
  - intros w w' []; match goal with E : _ = (_, _) |- _ => cbn in E; simplify_eq | _ => idtac end; try (split; [done|done]).
    + cbn. split; [lia | done].
    + split; [done|]. intros. by apply thread_at_app.
    + split; [by rewrite next_alter|]. intros. apply thread_at_alter; [|done]. intros _ v. by eexists.
  - intros a b c w kt w' [= <- <-]. split; [lia|]. cbn. unfold thread_at. split.
    + destruct (0 <? _); [|done]. rewrite lookup_ge_None_2 by lia. done.
    + rewrite (proj2 (Z.ltb_lt 0 _)) by lia. cbn. rewrite Z.add_simpl_r, Nat2Z.id, lookup_app_r, Nat.sub_diag by lia. by eexists.
  - intros a w. split; [cbn; by rewrite next_alter|]. intros kt Hne Hk. by apply thread_at_alter.
Defined.
End Toy.

(** ** Running calls *)

Section drive.
Context {W : Type} `{ExLaws W}.
Implicit Types (s : EX W) (p t : Z) (w : ExRun.WORLD (W := W)).

Definition namedb (table : list TABLE_ENTRY) (a : Z) : bool := existsb (fun e => Active e && (Entry e =? a)) table.

Definition params_okb (params : EX_RUNTIME_PROCESS_CREATE_PARAMS) : bool :=
  match ConstBytes params with None => true | Some l => ConstLength params <=? Z.of_nat (length l) end.

Definition permittedb (c : call) w : bool :=
  match c with
  | CreateProcess params | Spawn _ params _ _ _ => params_okb params
  | CreateThread p _ => 0 <? wHeld w (ObjProcess p)
  | StartThread t | TeardownThread t => namedb (gExRuntimeThreadTable (wEx w)) t
  | DestroyProcess p => (0 <? wHeld w (ObjProcess p)) && negb (namedb (gExRuntimeProcessTable (wEx w)) p)
  | WaitEnd p _ => 0 <? wHeld w (ObjProcess p)
  | ReleaseResolved o => 0 <? wHeld w o
  | _ => true
  end.

Definition roomyb s : bool :=
  bool_decide (map_Forall (fun _ x => ReferenceCount (Header x) <= 2 ^ 32 - 16 /\ ReferenceCount (StdoutHeader x) <= 2 ^ 32 - 16)
    (processes s)) &&
  bool_decide (map_Forall (fun _ y => ReferenceCount (tHeader y) <= 2 ^ 32 - 16) (exthreads s)) &&
  negb (gNextRuntimeProcessId s =? 0).

Fixpoint drive (cs : list call) w : option ExRun.WORLD :=
  match cs with
  | [] => Some w
  | c :: cs =>
      if permittedb c w && roomyb (wEx w) then
        match run c w with Ok (_, w) => drive cs w | _ => None end
      else None
  end.

Lemma namedb_sound (table : list TABLE_ENTRY) a :
  namedb table a = true <-> exists e, e ∈ table /\ Active e = true /\ Entry e = a.
Proof.
  unfold namedb. rewrite existsb_exists. split; intros (e & He & R); exists e.
  - apply andb_true_iff in R as [Ha Hp%Z.eqb_eq]. split; [by apply list_elem_of_In | done].
  - destruct R as [-> ->]. rewrite Z.eqb_refl. split; [by apply list_elem_of_In | done].
Qed.

Lemma permittedb_sound c w : permittedb c w = true -> permitted c w.
Proof.
  assert (Hp : forall params, params_okb params = true -> params_ok params).
  { intros params. unfold params_okb, params_ok. destruct (ConstBytes params); [apply Z.leb_le | done]. }
  destruct c; cbn; auto; try apply Z.ltb_lt; try apply namedb_sound.
  intros [Hb%Z.ltb_lt Hn]%andb_true_iff. split; [done|]. intros Hpub%namedb_sound. unfold namedb in *. by rewrite Hpub in Hn.
Qed.

Lemma roomyb_sound s : roomyb s = true -> roomy s.
Proof.
  unfold roomyb. intros [[Hp%bool_decide_eq_true Ht%bool_decide_eq_true]%andb_true_iff Hn%negb_true_iff%Z.eqb_neq]%andb_true_iff.
  split; [|done]. intros [p|t|p] h; cbn; unfold get_process, get_thread.
  - destruct (processes s !! p) as [x|] eqn:E; [|done]. intros [= <-]. by apply (Hp p x).
  - destruct (exthreads s !! t) as [y|] eqn:E; [|done]. intros [= <-]. by apply (Ht t y).
  - destruct (processes s !! p) as [x|] eqn:E; [|done]. intros [= <-]. by apply (Hp p x).
Qed.

Lemma drive_steps cs w w' : drive cs w = Some w' -> rtc ex_step w w'.
Proof.
  revert w. induction cs as [|c cs IH]; cbn; intros w; [by intros [= ->]|].
  destruct (permittedb c w) eqn:Hc; [|done]. destruct (roomyb (wEx w)) eqn:Hr; [|done]. cbn.
  destruct (run c w) as [[st w1]| | |] eqn:E; [|done..]. intros R%IH. eapply rtc_l; [|exact R].
  exists c, st. split; [by apply permittedb_sound|]. split; [by apply roomyb_sound | done].
Qed.
End drive.

(** ** A parent-less child *)

Definition toy_boot : ExRun.WORLD (W := Toy.WORLD) := ex_boot (Toy.mkToy 0 [] 0).
Definition after (cs : list call) : ExRun.WORLD (W := Toy.WORLD) := default toy_boot (drive cs toy_boot).

Lemma after_reachable cs : (if drive cs toy_boot then true else false) = true -> reachable (after cs).
Proof.
  unfold after. destruct (drive cs toy_boot) as [w|] eqn:Hw; [intros _|done]. exists (Toy.mkToy 0 [] 0). by eapply drive_steps.
Qed.

(** One page of code, a two-byte constant, no parent. *)
Definition toy_params : EX_RUNTIME_PROCESS_CREATE_PARAMS := mkCreateParams [0x90] 0 (Some [7; 8]) 2 5 0.

(** A child is spawned: its process is structure 1, its thread structure 4,
    its kernel thread number 1. *)
Definition spawned_child : list call := [Spawn EC_SUCCESS toy_params 0x1000 0 0].

(** Some kernel thread outside the executive waits for it, and it exits. *)
Definition exited_child : list call :=
  spawned_child ++ [WaitBegin 99 1; Terminating 1 EX_PROCESS_TERMINATION_REASON_EXIT 3; Finalize 1].

Definition process_of (cs : list call) (p : Z) : EX_PROCESS :=
  default (ExRuntimeInitializeProcessObject 0) (processes (wEx (after cs)) !! p).
