(* ===== verification/ExThms.v ===== *)
(** * Properties of the executive

    In every state that permitted calls lead to ([ExRun.v]): calls return and
    references stay accounted for; closing a handle takes effect or changes
    nothing; an inserted handle resolves to its object; a terminated child that
    is waited for is freed; and the code of handles is faithful.  The
    witnesses evaluate them on the world of [ExToy.v]. *)

From S2P Require Import Prelude Ex ExInv ExRefs ExHandles ExLife ExCalls ExProcess ExThread ExControl ExSpec ExRun ExToy.

Local Open Scope Z_scope.

Section properties.
Context {W : Type} `{ExLaws W}.
Implicit Types (s : EX W) (p t kt : Z) (o : EX_OBJECT).

(** C2: From start-up, whatever calls the kernel makes of the executive -
    creating, starting and destroying processes and threads, spawning,
    waiting, killing, finalising exited threads, closing, resolving and
    releasing handles, under the callers' contract and short of a wrap of a
    32-bit count - every reference count equals the references that exist: a
    process's its handles, its threads, its completion reference and those
    callers hold, a console service's its handles, its process and those
    held, and a thread's the handles in its process's table, the thread
    table's own while the thread is published, and those held; no
    handle, thread, table entry or held reference ever names a freed
    structure; and the next permitted call returns, never touching one. *)
Theorem executive_calls_are_safe w : reachable w ->
  accounted (wEx w) (wHeld w) /\
  (forall c, permitted c w -> roomy (wEx w) -> exists st w', run c w = Ok (st, w') /\ reachable w').
Proof.
  intros R. pose proof (reachable_inv w R) as I. split.
  - destruct I as [own I]. by eapply inv_accounts.
  - intros c Hc Hr. destruct (run_inv c w I Hc Hr) as (st & w' & E & _). exists st, w'. split; [done|].
    destruct R as [services R]. exists services. eapply rtc_r; [exact R|]. by exists c, st.
Qed.


(** A handle that an insertion returned resolves to the object it was made
    for: with the object's type and rights the slot has, resolving succeeds,
    yields that object and adds exactly one to its reference count; with
    another type or a right the slot lacks it is refused and nothing changes. *)
Theorem inserted_handle_resolves w p o rights h s1 ty want : reachable w -> roomy (wEx w) ->
  insertable (wEx w) p o rights -> is_Some (processes (wEx w) !! p) ->
  ExHandleInsert p (Some o) rights (wEx w) = Ok (EC_SUCCESS, h, s1) -> ExObjectIsValidType ty = true ->
  exists hd s2, get_header o s1 = Ok hd /\ put_header o (set_ReferenceCount (ReferenceCount hd + 1) hd) s1 = Ok s2 /\
    ExHandleResolve p h ty want s1 =
      if bool_decide (ty = type_of o /\ Z.land rights want = want) then Ok (EC_SUCCESS, Some o, s2)
      else Ok (EC_INVALID_STATE, None, s1).
Proof.
  intros R Hr Hins Hp E Hty. destruct (reachable_inv w R) as [own I]. pose proof (roomy_capped _ Hr) as C.
  destruct (insert_run _ own _ _ p o rights I C ltac:(lia) Hp Hins) as (st & h' & s' & E' & (I' & C' & _) & _ & Hi).
  rewrite E in E'. injection E' as <- <- <-.
  destruct Hi as [(_ & i & g & x & x' & sl & _ & Hx' & Hsl & _ & Ht & Hd & _)|[? _]]; [|done].
  pose proof (lookup_lt_Some _ _ _ Hsl).
  apply (resolve_named s1 own _ _ p x' i (mkSlot (Some o) rights g) o h ty want I' C'); try done.
  by rewrite Ht, list_lookup_insert_eq.
Qed.

(** C37: A child that has terminated and signalled its completion, and that
    nothing but its waiter still refers to, is reaped by the wait: its table
    slot becomes free, its structure is freed, and unless the focus could not
    be given back the wait reports success. *)
Theorem waited_child_is_reaped w p x : reachable w -> roomy (wEx w) ->
  terminated_child (wEx w) p x -> abandoned (wEx w) (wHeld w) p x ->
  exists st s', ExWaitProcess_end p EC_SUCCESS (wEx w) = Ok (st, s') /\ processes s' !! p = None /\ ~ published_process s' p /\
    (Foreground x = false -> st = EC_SUCCESS).
Proof.
  intros R Hr Ht Ha. destruct (reachable_inv w R) as [own I]. by eapply wait_frees, Ha; [exact I | by apply roomy_capped |].
Qed.
End properties.

(** The code of handles is faithful in both directions: a 32-bit handle
    decodes to slot [i] and generation [g] exactly when both are in range and
    the handle is their encoding.  Every other word, 0 among them, is refused. *)
Theorem handle_code_is_faithful h i g : is_u32 h ->
  KiDecodeHandle h = Some (i, g) <->
  0 <= i < EX_MAX_HANDLES_PER_PROCESS /\ 1 <= g <= EX_HANDLE_GENERATION_MASK /\ KiEncodeHandle i g = h.
Proof.
  intros Hh. split; [by apply decode_encode|]. intros (Hi & Hg & <-). by apply encode_decode.
Qed.

(** ** Witnesses *)

Lemma executive_calls_are_safe_witness :
  reachable (after spawned_child) /\ accounted (wEx (after spawned_child)) (wHeld (after spawned_child)) /\
  exists st w', run (WaitBegin 99 1) (after spawned_child) = Ok (st, w') /\ reachable w'.
Proof.
  assert (R : reachable (after spawned_child)) by (apply after_reachable; vm_compute; reflexivity).
  split; [exact R|]. split.
  - apply (executive_calls_are_safe _ R).
  - apply (executive_calls_are_safe _ R); [exact I | apply roomyb_sound; vm_compute; reflexivity].
Defined.


Definition toy_wait_handle : HO_STATUS * EX_HANDLE * EX Toy.WORLD :=
  match ExHandleInsert 1 (Some (ObjProcess 1)) waitRights (wEx (after spawned_child)) with
  | Ok r => r
  | _ => (EC_FAILURE, 0, wEx toy_boot)
  end.

Lemma inserted_handle_resolves_witness :
  exists s2, ExHandleResolve 1 (snd (fst toy_wait_handle)) EX_OBJECT_TYPE_PROCESS EX_HANDLE_RIGHT_WAIT (snd toy_wait_handle) =
    Ok (EC_SUCCESS, Some (ObjProcess 1), s2).
Proof.
  destruct (inserted_handle_resolves (after spawned_child) 1 (ObjProcess 1) waitRights (snd (fst toy_wait_handle)) (snd toy_wait_handle)
    EX_OBJECT_TYPE_PROCESS EX_HANDLE_RIGHT_WAIT) as (hd & s2 & _ & _ & E).
  - apply after_reachable. vm_compute. reflexivity.
  - apply roomyb_sound. vm_compute. reflexivity.
  - split; reflexivity.
  - eexists. vm_compute. reflexivity.
  - vm_compute. reflexivity.
  - reflexivity.
  - exists s2. exact E.
Defined.

Lemma waited_child_is_reaped_witness :
  exists s', ExWaitProcess_end 1 EC_SUCCESS (wEx (after exited_child)) = Ok (EC_SUCCESS, s') /\ processes s' !! 1 = None.
Proof.
  destruct (waited_child_is_reaped (after exited_child) 1 (process_of exited_child 1)) as (st & s' & E & Hn & _ & Hst).
  - apply after_reachable. vm_compute. reflexivity.
  - apply roomyb_sound. vm_compute. reflexivity.
  - split; [vm_compute; reflexivity|]. split; [vm_compute; reflexivity|]. split; [vm_compute; reflexivity|].
    split; [vm_compute; reflexivity|]. apply namedb_sound. vm_compute. reflexivity.
  - split; [vm_compute; reflexivity|]. split; [vm_compute; reflexivity|]. split; [vm_compute; reflexivity|].
    split; vm_compute; reflexivity.
  - exists s'. rewrite E, Hst by (vm_compute; reflexivity). split; [reflexivity | exact Hn].
Defined.

Lemma handle_code_is_faithful_witness :
  KiDecodeHandle 258 = Some (1, 1) /\ KiDecodeHandle (KiEncodeHandle 31 EX_HANDLE_GENERATION_MASK) = Some (31, EX_HANDLE_GENERATION_MASK).
Proof.
  split; (apply handle_code_is_faithful; [vm_compute; split; discriminate || reflexivity|]).
  - vm_compute. repeat split; discriminate.
  - split; [vm_compute; split; discriminate || reflexivity|]. split; [vm_compute; split; discriminate|]. reflexivity.
Defined.
