(* ===== verification/Input.v ===== *)
(** * Keyboard input ([ke/input/input.c], the PS/2 sink and driver)

    Scan codes become lines that the thread with the input focus may read.
    [InputServices] is the rest of the machine: the sink behind the device, the
    console that echoes, and what other code does while a thread waits.  The
    event object of the device is its signal state; what setting it does to
    waiting threads is the scheduler's business ([Sched]). *)

From stdpp Require Import strings.
From S2P Require Import Prelude.

Local Open Scope Z_scope.

Module Input.

(** ** Data *)

Definition KE_INPUT_LINE_CAPACITY : Z := 128.
Definition KE_INPUT_IRQ_VECTOR : Z := 0x21.
Definition KE_INPUT_OWNER_RECHECK_TIMEOUT_NS : Z := 10000000.

(** Characters and scan codes are bytes; character 0 stands for none. *)
Definition char_backspace : Z := 8.
Definition char_newline : Z := 10.
Definition char_space : Z := 32.
Definition char_tilde : Z := 126.

(** A C array with the designated elements set. *)
Definition array_of (n : nat) (elements : list (Z * Z)) : list Z :=
  fold_left (fun a '(i, x) => <[Z.to_nat i := x]> a) elements (replicate n 0).

Definition kPs2Set1AsciiMap : list Z := array_of 128
  [(0x02, 49); (0x03, 50); (0x04, 51); (0x05, 52); (0x06, 53); (0x07, 54); (0x08, 55); (0x09, 56); (0x0A,
   57); (0x0B, 48); (0x0C, 45); (0x0D, 61); (0x10, 113); (0x11, 119); (0x12, 101); (0x13, 114); (0x14, 116);
   (0x15, 121); (0x16, 117); (0x17, 105); (0x18, 111); (0x19, 112); (0x1A, 91); (0x1B, 93); (0x1E, 97);
   (0x1F, 115); (0x20, 100); (0x21, 102); (0x22, 103); (0x23, 104); (0x24, 106); (0x25, 107); (0x26, 108);
   (0x27, 59); (0x28, 39); (0x29, 96); (0x2B, 92); (0x2C, 122); (0x2D, 120); (0x2E, 99); (0x2F, 118); (0x30,
   98); (0x31, 110); (0x32, 109); (0x33, 44); (0x34, 46); (0x35, 47); (0x39, 32)].

Definition kPs2Set1ShiftAsciiMap : list Z := array_of 128
  [(0x02, 33); (0x03, 64); (0x04, 35); (0x05, 36); (0x06, 37); (0x07, 94); (0x08, 38); (0x09, 42); (0x0A,
   40); (0x0B, 41); (0x0C, 95); (0x0D, 43); (0x10, 81); (0x11, 87); (0x12, 69); (0x13, 82); (0x14, 84);
   (0x15, 89); (0x16, 85); (0x17, 73); (0x18, 79); (0x19, 80); (0x1A, 123); (0x1B, 125); (0x1E, 65); (0x1F,
   83); (0x20, 68); (0x21, 70); (0x22, 71); (0x23, 72); (0x24, 74); (0x25, 75); (0x26, 76); (0x27, 58);
   (0x28, 34); (0x29, 126); (0x2B, 124); (0x2C, 90); (0x2D, 88); (0x2E, 67); (0x2F, 86); (0x30, 66); (0x31,
   78); (0x32, 77); (0x33, 60); (0x34, 62); (0x35, 63); (0x39, 32)].

Record KE_INPUT_DEVICE : Type := mkInput {
  LineReadyEvent : bool;
  CurrentLine : list Z;
  CompletedLine : list Z;
  CurrentLineLength : Z;
  CompletedLineLength : Z;
  ForegroundOwnerThreadId : Z;
  CompletedReadCount : Z;
  LineReady : bool;
  ShiftDown : bool;
  Initialized : bool;
  Vector : Z;
}.

Definition blank_line : list Z := replicate (Z.to_nat KE_INPUT_LINE_CAPACITY) 0.

Definition set_shift (down : bool) (d : KE_INPUT_DEVICE) : KE_INPUT_DEVICE :=
  mkInput (LineReadyEvent d) (CurrentLine d) (CompletedLine d) (CurrentLineLength d) (CompletedLineLength d)
    (ForegroundOwnerThreadId d) (CompletedReadCount d) (LineReady d) down (Initialized d) (Vector d).
Definition set_current (line : list Z) (len : Z) (d : KE_INPUT_DEVICE) : KE_INPUT_DEVICE :=
  mkInput (LineReadyEvent d) line (CompletedLine d) len (CompletedLineLength d)
    (ForegroundOwnerThreadId d) (CompletedReadCount d) (LineReady d) (ShiftDown d) (Initialized d) (Vector d).

(** [memcpy(dst, src, n)] between character arrays. *)
Definition copy_chars (n : Z) (src dst : list Z) : res (list Z) :=
  if (Z.of_nat (length src) <? n) || (Z.of_nat (length dst) <? n) then Oob
  else Ok (take (Z.to_nat n) src ++ drop (Z.to_nat n) dst).

(** The machine around the device.  [KeWaitForSingleObject] blocks on the line
    event; other threads and interrupts change the device meanwhile. *)
Class InputServices (M : Type) := {
  SinkInit : M -> res (HO_STATUS * M);
  GetName : M -> string;
  HasPendingData : M -> bool * M;
  ReadScanCode : M -> HO_STATUS * Z * M;
  AcknowledgeInterrupt : M -> M;
  ConsoleWriteChar : Z -> M -> Z * M;
  IdtRegisterInterruptHandler : Z -> M -> HO_STATUS * M;
  KeWaitForSingleObject : Z -> KE_INPUT_DEVICE -> M -> HO_STATUS * KE_INPUT_DEVICE * M;
}.

(** ** The interrupt path *)

Definition KiTranslateSet1ScanCode (scanCode : Z) (shifted : bool) : res Z :=
  if 128 <=? scanCode then Ok 0 else
  if scanCode =? 0x1C then Ok char_newline else
  if scanCode =? 0x0E then Ok char_backspace else
  rd (if shifted then kPs2Set1ShiftAsciiMap else kPs2Set1AsciiMap) scanCode.

Section operations.
Context {M : Type} `{InputServices M}.
Implicit Types (d : KE_INPUT_DEVICE) (m : M).

Definition KiHandleTranslatedInputChar (character : Z) d m : res (KE_INPUT_DEVICE * M) :=
  if ForegroundOwnerThreadId d =? 0 then Ok (d, m) else
  if character =? char_backspace then
    if (CurrentLineLength d =? 0) || LineReady d then Ok (d, m) else
    let d := set_current (CurrentLine d) (u32 (CurrentLineLength d - 1)) d in
    let '(_, m) := ConsoleWriteChar char_backspace m in
    Ok (d, m)
  else if character =? char_newline then
    if LineReady d then Ok (d, m) else
    let* completed := if negb (CurrentLineLength d =? 0)
                      then copy_chars (CurrentLineLength d) (CurrentLine d) (CompletedLine d)
                      else Ok (CompletedLine d) in
    let length := CurrentLineLength d in
    let '(_, m) := ConsoleWriteChar char_newline m in
    Ok (mkInput true blank_line completed 0 length (ForegroundOwnerThreadId d) (CompletedReadCount d)
          true (ShiftDown d) (Initialized d) (Vector d), m)
  else if (character <? char_space) || (char_tilde <? character) || LineReady d then Ok (d, m) else
  if KE_INPUT_LINE_CAPACITY <=? CurrentLineLength d then Ok (d, m) else
  let* line := wr (CurrentLine d) (CurrentLineLength d) character in
  let d := set_current line (u32 (CurrentLineLength d + 1)) d in
  let '(_, m) := ConsoleWriteChar character m in
  Ok (d, m).

(** One turn of the handler's loop. *)
Definition handle_scan_code (scanCode : Z) d m : res (KE_INPUT_DEVICE * M) :=
  if (scanCode =? 0x2A) || (scanCode =? 0x36) then Ok (set_shift true d, m) else
  if (scanCode =? 0xAA) || (scanCode =? 0xB6) then Ok (set_shift false d, m) else
  if negb (Z.land scanCode 0x80 =? 0) then Ok (d, m) else
  let* character := KiTranslateSet1ScanCode scanCode (ShiftDown d) in
  if negb (character =? 0) then KiHandleTranslatedInputChar character d m else Ok (d, m).

Fixpoint drain_sink (fuel : nat) d m : res (KE_INPUT_DEVICE * M) :=
  let '(pending, m) := HasPendingData m in
  if negb pending then Ok (d, m) else
  match fuel with
  | O => NoFuel
  | S fuel =>
      let '(status, scanCode, m) := ReadScanCode m in
      if negb (bool_decide (status = EC_SUCCESS)) then Ok (d, m) else
      let* (d, m) := handle_scan_code scanCode d m in
      drain_sink fuel d m
  end.

(** [fuel] bounds the bytes the sink holds. *)
Definition KiKeyboardInterruptHandler (fuel : nat) d m : res (KE_INPUT_DEVICE * M) :=
  let* (d, m) := drain_sink fuel d m in
  Ok (d, AcknowledgeInterrupt m).

(** ** The calls *)

Definition KeInputInit m : res (HO_STATUS * KE_INPUT_DEVICE * M) :=
  let d := mkInput false blank_line blank_line 0 0 0 0 false false false KE_INPUT_IRQ_VECTOR in
  let* (status, m) := SinkInit m in
  if negb (bool_decide (status = EC_SUCCESS)) then Ok (status, d, m) else
  let '(status, m) := IdtRegisterInterruptHandler (Vector d) m in
  if negb (bool_decide (status = EC_SUCCESS)) then Ok (status, d, m) else
  Ok (EC_SUCCESS, mkInput false blank_line blank_line 0 0 0 0 false false true KE_INPUT_IRQ_VECTOR, m).

(** [None] for a null pointer. *)
Definition KeInputGetSourceName d m : option string := if negb (Initialized d) then None else Some (GetName m).
Definition KeInputIsReady d : bool := Initialized d.
Definition KeInputGetVector d : Z := Vector d.
Definition KeInputGetForegroundOwnerThreadId d : Z := ForegroundOwnerThreadId d.
Definition KeInputGetCompletedReadCount d : Z := CompletedReadCount d.

(** [current] is the id of the running thread, if there is one. *)
Definition KiValidateForegroundCurrentThread (current : option Z) d : HO_STATUS :=
  match current with
  | None => EC_INVALID_STATE
  | Some tid =>
      if (ForegroundOwnerThreadId d =? 0) || negb (tid =? ForegroundOwnerThreadId d) then EC_INVALID_STATE
      else EC_SUCCESS
  end.

Definition KeInputSetForegroundOwnerThreadId (threadId : Z) d : HO_STATUS * KE_INPUT_DEVICE :=
  if negb (Initialized d) then (EC_INVALID_STATE, d) else
  (EC_SUCCESS, mkInput false blank_line blank_line 0 0 threadId (CompletedReadCount d) false false
                 (Initialized d) (Vector d)).

(** The loop of [KeInputWaitForForegroundLine]; [NoFuel] when the thread is
    still waiting after [fuel] rounds. *)
Fixpoint wait_foreground_line (fuel : nat) (current : option Z) d m : res (HO_STATUS * KE_INPUT_DEVICE * M) :=
  match fuel with
  | O => NoFuel
  | S fuel =>
      let status := KiValidateForegroundCurrentThread current d in
      if negb (bool_decide (status = EC_SUCCESS)) then Ok (status, d, m) else
      let '(status, d, m) := KeWaitForSingleObject KE_INPUT_OWNER_RECHECK_TIMEOUT_NS d m in
      if bool_decide (status = EC_SUCCESS) then Ok (KiValidateForegroundCurrentThread current d, d, m) else
      if negb (bool_decide (status = EC_TIMEOUT)) then Ok (status, d, m) else
      wait_foreground_line fuel current d m
  end.

Definition KeInputWaitForForegroundLine (fuel : nat) (current : option Z) d m
  : res (HO_STATUS * KE_INPUT_DEVICE * M) :=
  if negb (Initialized d) then Ok (EC_INVALID_STATE, d, m) else wait_foreground_line fuel current d m.

(** The answer is the status and, when the line was copied, [buffer] with its
    length; [None] for null pointers. *)
Definition KeInputCopyCompletedLineForCurrentThread (current : option Z) (buffer : option (list Z)) (capacity : Z)
    (outLength : bool) d : res (HO_STATUS * option (list Z * Z)) :=
  match buffer with
  | None => Ok (EC_ILLEGAL_ARGUMENT, None)
  | Some buffer =>
  if negb outLength || (capacity =? 0) then Ok (EC_ILLEGAL_ARGUMENT, None) else
  if negb (Initialized d) then Ok (EC_INVALID_STATE, None) else
  let status := KiValidateForegroundCurrentThread current d in
  if negb (bool_decide (status = EC_SUCCESS)) then Ok (status, None) else
  if negb (LineReady d) then Ok (EC_TIMEOUT, None) else
  if capacity <? CompletedLineLength d then Ok (EC_ILLEGAL_ARGUMENT, None) else
  let* buffer := if negb (CompletedLineLength d =? 0)
                 then copy_chars (CompletedLineLength d) (CompletedLine d) buffer else Ok buffer in
  Ok (EC_SUCCESS, Some (buffer, CompletedLineLength d))
  end.

Definition KeInputConsumeCompletedLineForCurrentThread (current : option Z) d : HO_STATUS * KE_INPUT_DEVICE :=
  if negb (Initialized d) then (EC_INVALID_STATE, d) else
  let status := KiValidateForegroundCurrentThread current d in
  if negb (bool_decide (status = EC_SUCCESS)) then (status, d) else
  if negb (LineReady d) then (EC_INVALID_STATE, d) else
  (EC_SUCCESS, mkInput false (CurrentLine d) blank_line (CurrentLineLength d) 0 (ForegroundOwnerThreadId d)
     (u64 (CompletedReadCount d + 1)) false (ShiftDown d) (Initialized d) (Vector d)).
End operations.
End Input.
