(* ===== verification/InputThms.v ===== *)
(** * Keyboard input: a line editor

    [EDITOR] is what the component promises: the text typed so far, at most one
    finished line, the owner of both, with text as plain lists.  Every call on
    the device does what the same call does to the editor. *)

From S2P Require Import Prelude Input.
Import Input.

Local Open Scope Z_scope.

(** ** The editor *)

Record EDITOR : Type := mkEditor {
  owner : Z;
  typed : list Z;
  finished : option (list Z);
  shifted : bool;
  reads : Z;
}.

Definition type_char (c : Z) (e : EDITOR) : EDITOR * list Z :=
  if (owner e =? 0) || bool_decide (is_Some (finished e)) then (e, []) else
  if c =? char_backspace then
    if bool_decide (typed e = []) then (e, [])
    else (mkEditor (owner e) (removelast (typed e)) None (shifted e) (reads e), [char_backspace])
  else if c =? char_newline then (mkEditor (owner e) [] (Some (typed e)) (shifted e) (reads e), [char_newline])
  else if (char_space <=? c) && (c <=? char_tilde) && (Z.of_nat (length (typed e)) <? KE_INPUT_LINE_CAPACITY)
  then (mkEditor (owner e) (typed e ++ [c]) None (shifted e) (reads e), [c])
  else (e, []).

(** The character of a key pressed, 0 for none. *)
Definition key_char (code : Z) (shift : bool) : Z :=
  if code =? 0x1C then char_newline else if code =? 0x0E then char_backspace
  else nth (Z.to_nat code) (if shift then kPs2Set1ShiftAsciiMap else kPs2Set1AsciiMap) 0.

(** A byte from the keyboard: shift pressed or released, a key pressed, or
    something to ignore. *)
Definition type_code (code : Z) (e : EDITOR) : EDITOR * list Z :=
  if (code =? 0x2A) || (code =? 0x36) then (mkEditor (owner e) (typed e) (finished e) true (reads e), []) else
  if (code =? 0xAA) || (code =? 0xB6) then (mkEditor (owner e) (typed e) (finished e) false (reads e), []) else
  if 128 <=? code then (e, []) else
  if key_char code (shifted e) =? 0 then (e, []) else type_char (key_char code (shifted e)) e.

Fixpoint type_codes (codes : list Z) (e : EDITOR) : EDITOR * list Z :=
  match codes with
  | [] => (e, [])
  | c :: codes => let '(e, out) := type_code c e in let '(e, out') := type_codes codes e in (e, out ++ out')
  end.

Definition owns_focus (current : option Z) (e : EDITOR) : bool :=
  negb (owner e =? 0) && bool_decide (current = Some (owner e)).

(** ** Calls on both *)

Inductive INPUT_CALL : Type :=
| Interrupt (codes : list Z)
| SetOwner (threadId : Z)
| Copy (current : option Z) (buffer : list Z) (capacity : Z)
| Consume (current : option Z).

Inductive INPUT_RESULT : Type :=
| Nothing
| Status (status : HO_STATUS)
| Copied (status : HO_STATUS) (line : option (list Z * Z)).

Definition edit (c : INPUT_CALL) (e : EDITOR) : EDITOR * list Z * INPUT_RESULT :=
  match c with
  | Interrupt codes => (type_codes codes e, Nothing)
  | SetOwner threadId => (mkEditor threadId [] None false (reads e), [], Status EC_SUCCESS)
  | Copy current buffer capacity =>
      (e, [],
       if capacity =? 0 then Copied EC_ILLEGAL_ARGUMENT None else
       if negb (owns_focus current e) then Copied EC_INVALID_STATE None else
       match finished e with
       | None => Copied EC_TIMEOUT None
       | Some line =>
           if capacity <? Z.of_nat (length line) then Copied EC_ILLEGAL_ARGUMENT None
           else Copied EC_SUCCESS (Some (line ++ drop (length line) buffer, Z.of_nat (length line)))
       end)
  | Consume current =>
      if negb (owns_focus current e) then (e, [], Status EC_INVALID_STATE) else
      match finished e with
      | None => (e, [], Status EC_INVALID_STATE)
      | Some _ => (mkEditor (owner e) (typed e) None (shifted e) (u64 (reads e + 1)), [], Status EC_SUCCESS)
      end
  end.

Fixpoint edits (cs : list INPUT_CALL) (e : EDITOR) : EDITOR * list Z * list INPUT_RESULT :=
  match cs with
  | [] => (e, [], [])
  | c :: cs =>
      let '(e, out, r) := edit c e in
      let '(e, out', rs) := edits cs e in (e, out ++ out', r :: rs)
  end.

(** What the device relies on: while [usable], the sink is a queue of bytes;
    the console prints in order. *)
Class InputLaws (M : Type) `{InputServices M} := {
  usable : M -> Prop;
  queue : M -> list Z;
  echoed : M -> list Z;
  arrive : list Z -> M -> M;
  arrive_law cs m : usable m -> usable (arrive cs m) /\ queue (arrive cs m) = queue m ++ cs /\ echoed (arrive cs m) = echoed m;
  pending_law m : usable m -> exists m', HasPendingData m = (bool_decide (queue m <> []), m') /\
    usable m' /\ queue m' = queue m /\ echoed m' = echoed m;
  read_law m c q : usable m -> queue m = c :: q -> exists m', ReadScanCode m = (EC_SUCCESS, c, m') /\
    usable m' /\ queue m' = q /\ echoed m' = echoed m;
  console_law c m : usable m -> exists r m', ConsoleWriteChar c m = (r, m') /\
    usable m' /\ queue m' = queue m /\ echoed m' = echoed m ++ [c];
  ack_law m : usable m -> usable (AcknowledgeInterrupt m) /\
    queue (AcknowledgeInterrupt m) = queue m /\ echoed (AcknowledgeInterrupt m) = echoed m;
}.

Section refinement.
Context {M : Type} `{InputLaws M}.
Implicit Types (d : KE_INPUT_DEVICE) (m : M) (e : EDITOR).

(** One call on the device.  An interrupt finds the bytes that arrived. *)
Definition call (c : INPUT_CALL) d m : res (KE_INPUT_DEVICE * M * INPUT_RESULT) :=
  match c with
  | Interrupt codes =>
      let m := arrive codes m in
      let* (d, m) := KiKeyboardInterruptHandler (length (queue m)) d m in Ok (d, m, Nothing)
  | SetOwner threadId =>
      let '(status, d) := KeInputSetForegroundOwnerThreadId threadId d in Ok (d, m, Status status)
  | Copy current buffer capacity =>
      let* (status, line) := KeInputCopyCompletedLineForCurrentThread current (Some buffer) capacity true d in
      Ok (d, m, Copied status line)
  | Consume current =>
      let '(status, d) := KeInputConsumeCompletedLineForCurrentThread current d in Ok (d, m, Status status)
  end.

Fixpoint calls (cs : list INPUT_CALL) d m : res (KE_INPUT_DEVICE * M * list INPUT_RESULT) :=
  match cs with
  | [] => Ok (d, m, [])
  | c :: cs =>
      let* (d, m, r) := call c d m in
      let* (d, m, rs) := calls cs d m in Ok (d, m, r :: rs)
  end.

(** Scan codes are bytes; a buffer is as large as the caller says. *)
Definition permitted (c : INPUT_CALL) : Prop :=
  match c with
  | Interrupt codes => Forall is_u8 codes
  | Copy _ buffer capacity => 0 <= capacity <= Z.of_nat (length buffer)
  | _ => True
  end.

(** The device stands for the editor. *)
Record implements d e : Prop := {
  im_init : Initialized d = true;
  im_current : length (CurrentLine d) = 128%nat;
  im_completed : length (CompletedLine d) = 128%nat;
  im_length : CurrentLineLength d = Z.of_nat (length (typed e)) /\ CurrentLineLength d <= KE_INPUT_LINE_CAPACITY;
  im_typed : take (length (typed e)) (CurrentLine d) = typed e;
  im_ready : LineReady d = bool_decide (is_Some (finished e)) /\ LineReadyEvent d = LineReady d;
  im_finished line : finished e = Some line -> CompletedLineLength d = Z.of_nat (length line) /\
    take (length line) (CompletedLine d) = line /\ (length line <= 128)%nat;
  im_owner : ForegroundOwnerThreadId d = owner e;
  im_shift : ShiftDown d = shifted e;
  im_reads : CompletedReadCount d = reads e;
}.

Lemma take_removelast {A} (l : list A) (t : list A) : t <> [] -> take (length t) l = t ->
  take (length (removelast t)) l = removelast t.
Proof.
  intros Hne Ht. destruct (exists_last Hne) as (t' & x & ->). rewrite removelast_last. rewrite length_app in Ht.
  rewrite <- (take_app_length t' [x]) at 2. rewrite <- Ht at 1. rewrite take_take. f_equal. lia.
Qed.

Lemma length_removelast {A} (t : list A) : t <> [] -> Z.of_nat (length (removelast t)) = Z.of_nat (length t) - 1.
Proof. intros Hne. destruct (exists_last Hne) as (t' & x & ->). rewrite removelast_last, length_app. simpl. lia. Qed.

Lemma char_run c d m e : usable m -> implements d e -> let '(e', out) := type_char c e in
  exists d' m', KiHandleTranslatedInputChar c d m = Ok (d', m') /\ implements d' e' /\
    usable m' /\ queue m' = queue m /\ echoed m' = echoed m ++ out.
Proof.
  intros Hm I. pose proof I as [I1 I2 I3 [I4 I4'] I5 [I6 I6'] I7 I8 I9 I10]. unfold type_char, KiHandleTranslatedInputChar.
  rewrite I8. destruct (owner e =? 0) eqn:Eo; cbn [orb].
  { exists d, m. by rewrite app_nil_r. }
  rewrite I6. case_bool_decide as Hf; rewrite ?orb_true_r, ?orb_false_r.
  { exists d, m. rewrite app_nil_r. destruct (c =? char_backspace), (c =? char_newline); done. }
  assert (Hn : finished e = None) by (destruct (finished e); [exfalso; apply Hf; eauto | done]).
  destruct (console_law c m Hm) as (r & m' & Ec & U & Q & W).
  destruct (Z.eqb_spec c char_backspace) as [->|_]; [|destruct (Z.eqb_spec c char_newline) as [->|_]].
  - case_bool_decide as Ht.
    { rewrite I4, Ht. exists d, m. by rewrite app_nil_r. }
    assert (Hpos : 0 < CurrentLineLength d) by (rewrite I4; destruct (typed e); [done | simpl; lia]).
    rewrite (proj2 (Z.eqb_neq _ 0)) by lia. cbn [orb]. rewrite Ec. do 2 eexists. split; [reflexivity|]. split; [|done].
    pose proof (length_removelast (typed e) Ht) as Hl. unfold KE_INPUT_LINE_CAPACITY in *.
    split; cbn; try done; [|by apply take_removelast]. unfold KE_INPUT_LINE_CAPACITY.
    rewrite u32_small by word_lia. lia.
  - assert (Hcp : (if negb (CurrentLineLength d =? 0) then copy_chars (CurrentLineLength d) (CurrentLine d) (CompletedLine d)
      else Ok (CompletedLine d)) = Ok (typed e ++ drop (length (typed e)) (CompletedLine d))).
    { rewrite I4. destruct (Z.eqb_spec (Z.of_nat (length (typed e))) 0) as [E|E]; cbn [negb].
      - destruct (typed e); [done | simpl in E; lia].
      - unfold copy_chars, KE_INPUT_LINE_CAPACITY in *. rewrite I2, I3, !(proj2 (Z.ltb_ge _ _)) by lia. cbn [orb].
        by rewrite Nat2Z.id, I5. }
    rewrite Hcp. cbn [res_bind]. rewrite Ec. do 2 eexists. split; [reflexivity|]. split; [|done].
    unfold KE_INPUT_LINE_CAPACITY in *. split; cbn -[blank_line]; try done.
    + rewrite length_app, length_drop. lia.
    + intros line [= <-]. split_and!; [done | by rewrite take_app_length | lia].
  - rewrite (Z.ltb_antisym char_space), (Z.ltb_antisym c), <- negb_andb. rewrite <- I4.
    destruct ((char_space <=? c) && (c <=? char_tilde)); cbn [andb negb]; [|exists d, m; by rewrite app_nil_r].
    rewrite (Z.leb_antisym (CurrentLineLength d)). destruct (Z.ltb_spec (CurrentLineLength d) KE_INPUT_LINE_CAPACITY) as [Hlt|Hge]; cbn [negb];
      [|exists d, m; by rewrite app_nil_r].
    unfold KE_INPUT_LINE_CAPACITY in *. rewrite wr_in by lia. cbn [res_bind]. rewrite Ec. do 2 eexists. split; [reflexivity|]. split; [|done].
    split; cbn; try done.
    + by rewrite length_insert.
    + unfold KE_INPUT_LINE_CAPACITY. rewrite u32_small, length_app by word_lia. simpl. lia.
    + rewrite length_app, I4, Nat2Z.id. simpl. rewrite Nat.add_1_r. rewrite take_S_r with (x := c).
      * by rewrite take_insert_ge, I5.
      * apply list_lookup_insert_eq. lia.
Qed.

Lemma key_run code shift : 0 <= code < 128 -> KiTranslateSet1ScanCode code shift = Ok (key_char code shift).
Proof.
  intros Hc. unfold KiTranslateSet1ScanCode, key_char. rewrite (proj2 (Z.leb_gt 128 code)) by lia.
  destruct (code =? 0x1C); [done|]. destruct (code =? 0x0E); [done|].
  assert (Hrd : forall l : list Z, length l = 128%nat -> rd l code = Ok (nth (Z.to_nat code) l 0)).
  { intros l Hl. apply rd_ok. split; [lia|]. rewrite nth_lookup. destruct (lookup_lt_is_Some_2 l (Z.to_nat code)) as [x Hx]; [lia|].
    by rewrite Hx. }
  destruct shift; by apply Hrd.
Qed.

Lemma code_run code d m e : is_u8 code -> usable m -> implements d e -> let '(e', out) := type_code code e in
  exists d' m', handle_scan_code code d m = Ok (d', m') /\ implements d' e' /\
    usable m' /\ queue m' = queue m /\ echoed m' = echoed m ++ out.
Proof.
  intros Hu Hm I. unfold type_code, handle_scan_code.
  destruct ((code =? 0x2A) || (code =? 0x36)); [|destruct ((code =? 0xAA) || (code =? 0xB6))].
  1,2: eexists _, m; rewrite app_nil_r; split; [reflexivity|]; split; [by destruct I|done].
  assert (Hbit : (Z.land code 0x80 =? 0) = negb (128 <=? code)).
  { change 0x80 with (2 ^ 7). apply eq_true_iff_eq. rewrite negb_true_iff, Z.leb_gt, Z.eqb_eq. unfold is_u8 in Hu.
    rewrite <- (Z.mod_small code 256) at 1 by lia.
    destruct (Z.lt_ge_cases code 128).
    - split; [lia|]. intros _. apply Z.bits_inj'. intros i Hi. rewrite Z.land_spec, Z.bits_0, Z.pow2_bits_eqb by lia.
      destruct (Z.eqb_spec 7 i) as [<-|]; [|by rewrite andb_false_r]. rewrite andb_true_r, Z.testbit_false by lia.
      change (2 ^ 7) with 128. div_lia.
    - split; [|lia]. intros E. exfalso. assert (Hb : Z.testbit (Z.land (code mod 256) (2 ^ 7)) 7 = true); [|by rewrite E in Hb].
      rewrite Z.land_spec, Z.pow2_bits_eqb, Z.eqb_refl, andb_true_r, Z.testbit_true by lia. change (2 ^ 7) with 128. div_lia. }
  rewrite Hbit, negb_involutive. destruct (Z.leb_spec 128 code).
  { exists d, m. by rewrite app_nil_r. }
  unfold is_u8 in Hu. rewrite key_run by lia. cbn [res_bind]. rewrite (im_shift d e I).
  destruct (key_char code (shifted e) =? 0); cbn [negb]; [exists d, m; by rewrite app_nil_r | by apply char_run].
Qed.

Lemma drain_run codes d m e : Forall is_u8 codes -> usable m -> queue m = codes -> implements d e ->
  let '(e', out) := type_codes codes e in
  exists d' m', drain_sink (length codes) d m = Ok (d', m') /\ implements d' e' /\
    usable m' /\ queue m' = [] /\ echoed m' = echoed m ++ out.
Proof.
  revert d m e. induction codes as [|c codes IH]; intros d m e Hu Hm Hq I; cbn [type_codes length drain_sink];
    destruct (pending_law m Hm) as (m1 & -> & U1 & Q1 & W1); rewrite Hq.
  - cbn. exists d, m1. rewrite app_nil_r. split_and!; [done | done | done | congruence | done].
  - rewrite bool_decide_true by done. cbn [negb]. apply Forall_cons in Hu as [Hc Hu].
    destruct (read_law m1 c codes U1) as (m2 & -> & U2 & Q2 & W2); [congruence|]. cbn [bool_decide negb].
    rewrite bool_decide_true by done. cbn [negb].
    pose proof (code_run c d m2 e Hc U2 I) as R. destruct (type_code c e) as [e3 out3].
    destruct R as (d3 & m3 & -> & I3 & U3 & Q3 & W3). cbn [res_bind].
    specialize (IH d3 m3 e3 Hu U3 ltac:(congruence) I3). destruct (type_codes codes e3) as [e4 out4].
    destruct IH as (d4 & m4 & -> & I4 & U4 & Q4 & W4). exists d4, m4. split_and!; [done | done | done | done |].
    by rewrite W4, W3, W2, W1, app_assoc.
Qed.

Lemma validate_focus_run current d e : implements d e ->
  KiValidateForegroundCurrentThread current d = if owns_focus current e then EC_SUCCESS else EC_INVALID_STATE.
Proof.
  intros I. unfold KiValidateForegroundCurrentThread, owns_focus. rewrite (im_owner d e I).
  destruct current as [tid|]; [|by rewrite bool_decide_false, andb_false_r].
  destruct (owner e =? 0); [done|]. cbn [orb negb andb]. destruct (Z.eqb_spec tid (owner e)) as [->|Hne]; cbn [negb].
  - by rewrite bool_decide_true.
  - rewrite bool_decide_false; [done|]. by intros [= ->].
Qed.

(** One call. *)
Lemma device_call_run c d m e : permitted c -> usable m -> queue m = [] -> implements d e ->
  let '(e', out, r) := edit c e in
  exists d' m', call c d m = Ok (d', m', r) /\ implements d' e' /\ usable m' /\ queue m' = [] /\ echoed m' = echoed m ++ out.
Proof.
  intros Hp Hm Hq I. destruct c as [codes|tid|current buffer capacity|current]; cbn [edit call permitted] in *.
  - destruct (arrive_law codes m Hm) as (U1 & Q1 & W1). rewrite Hq in Q1. cbn in Q1.
    pose proof (drain_run codes d (arrive codes m) e Hp U1 Q1 I) as R. destruct (type_codes codes e) as [e' out].
    destruct R as (d' & m' & E & I' & U & Q & W). unfold KiKeyboardInterruptHandler. rewrite Q1, E. cbn [res_bind].
    destruct (ack_law m' U) as (U2 & Q2 & W2). do 2 eexists. split; [reflexivity|]. split; [done|]. split; [done|]. rewrite Q2, W2, W, W1. done.
  - unfold KeInputSetForegroundOwnerThreadId. rewrite (im_init d e I). cbn [negb]. do 2 eexists. split; [reflexivity|].
    rewrite app_nil_r. split; [|done]. destruct I. by split.
  - exists d, m. rewrite app_nil_r. split; [|done]. unfold KeInputCopyCompletedLineForCurrentThread. cbn [negb orb].
    destruct (capacity =? 0); [done|]. rewrite (im_init d e I), (validate_focus_run current d e I). cbn [negb].
    destruct (owns_focus current e); [|done]. cbn [negb bool_decide]. rewrite bool_decide_true by done. cbn [negb].
    rewrite (proj1 (im_ready d e I)). destruct (finished e) as [line|] eqn:Ef.
    + rewrite bool_decide_true by eauto. cbn [negb]. destruct (im_finished d e I line Ef) as (F1 & F2 & F3). rewrite F1.
      destruct (Z.ltb_spec capacity (Z.of_nat (length line))); [done|].
      destruct (Z.eqb_spec (Z.of_nat (length line)) 0) as [E0|E0]; cbn [negb].
      * destruct line; [done | simpl in E0; lia].
      * unfold copy_chars. rewrite (im_completed d e I), !(proj2 (Z.ltb_ge _ _)) by lia. cbn [orb res_bind].
        by rewrite Nat2Z.id, F2.
    + by rewrite bool_decide_false by (by intros [? ?]).
  - unfold KeInputConsumeCompletedLineForCurrentThread. rewrite (im_init d e I), (validate_focus_run current d e I). cbn [negb].
    destruct (owns_focus current e); cbn [negb]; [|exists d, m; by rewrite app_nil_r].
    rewrite bool_decide_true by done. cbn [negb]. rewrite (proj1 (im_ready d e I)). destruct (finished e) as [line|] eqn:Ef.
    + rewrite bool_decide_true by eauto. cbn [negb]. do 2 eexists. split; [reflexivity|]. rewrite app_nil_r. split; [|done].
      destruct I. split; cbn -[blank_line]; try done. by rewrite im_reads0.
    + rewrite bool_decide_false by (by intros [? ?]). cbn [negb]. exists d, m. by rewrite app_nil_r.
Qed.

(** Any sequence of calls.  The machine is left usable and quiet. *)
Lemma device_calls_run cs d m e : implements d e -> usable m -> queue m = [] -> Forall permitted cs ->
  let '(e', out, rs) := edits cs e in
  exists d' m', calls cs d m = Ok (d', m', rs) /\ implements d' e' /\ usable m' /\ queue m' = [] /\
    echoed m' = echoed m ++ out.
Proof.
  revert d m e. induction cs as [|c cs IH]; intros d m e I Hm Hq Hp; cbn [edits calls].
  { exists d, m. by rewrite app_nil_r. }
  apply Forall_cons in Hp as [Hc Hp]. pose proof (device_call_run c d m e Hc Hm Hq I) as R. destruct (edit c e) as [[e1 out1] r1].
  destruct R as (d1 & m1 & -> & I1 & U1 & Q1 & W1). cbn [res_bind]. specialize (IH d1 m1 e1 I1 U1 Q1 Hp).
  destruct (edits cs e1) as [[e2 out2] rs2]. destruct IH as (d2 & m2 & -> & I2 & U2 & Q2 & W2). cbn [res_bind].
  exists d2, m2. split_and!; try done. by rewrite W2, W1, app_assoc.
Qed.

(** The editor a fresh device stands for. *)
Definition new_editor : EDITOR := mkEditor 0 [] None false 0.

Lemma init_implements m d m' : KeInputInit m = Ok (EC_SUCCESS, d, m') ->
  implements d new_editor /\ Vector d = KE_INPUT_IRQ_VECTOR /\ exists m1, SinkInit m = Ok (EC_SUCCESS, m1) /\
    IdtRegisterInterruptHandler KE_INPUT_IRQ_VECTOR m1 = (EC_SUCCESS, m').
Proof.
  unfold KeInputInit. destruct (SinkInit m) as [[st m1]| | |]; cbn [res_bind]; try done.
  case_bool_decide as E; cbn [negb]; [|intros [= -> <- <-]; done]. cbn [Vector].
  destruct (IdtRegisterInterruptHandler KE_INPUT_IRQ_VECTOR m1) as [st2 m2] eqn:E2.
  case_bool_decide as E3; cbn [negb]; [|intros [= -> <- <-]; done]. intros [= <- <-]. subst.
  split; [by split|]. split; [done|]. by exists m1.
Qed.

(** What a wait for a line can answer, whatever happens to the device
    meanwhile: success only to the owner of the focus. *)
Lemma wait_answers fuel current d m st d' m' :
  KeInputWaitForForegroundLine fuel current d m = Ok (st, d', m') ->
  (st = EC_SUCCESS -> KiValidateForegroundCurrentThread current d' = EC_SUCCESS) /\
  (KiValidateForegroundCurrentThread current d <> EC_SUCCESS -> st = EC_INVALID_STATE /\ d' = d /\ m' = m).
Proof.
  unfold KeInputWaitForForegroundLine. destruct (Initialized d); cbn [negb]; [|by intros [= <- <- <-]].
  assert (Hv : forall d, KiValidateForegroundCurrentThread current d <> EC_SUCCESS ->
            KiValidateForegroundCurrentThread current d = EC_INVALID_STATE).
  { intros d0. unfold KiValidateForegroundCurrentThread. destruct current; [|done]. by destruct (_ || _). }
  revert d m. induction fuel as [|fuel IH]; intros d m; cbn [wait_foreground_line]; [done|].
  case_bool_decide as Ev; cbn [negb].
  2: { intros [= <- <- <-]. split; [by intros ?|]. intros _. split; [by apply Hv | done]. }
  destruct (KeWaitForSingleObject _ d m) as [[st1 d1] m1]. case_bool_decide as E1.
  { intros [= <- <- <-]. by split. }
  case_bool_decide as E2; cbn [negb]; [|intros [= <- <- <-]; split; done].
  intros E. destruct (IH d1 m1 E) as [F _]. by split.
Qed.
End refinement.
