(* ===== verification/Ps2.v ===== *)
(** * The PS/2 keyboard ([drivers/input/ps2_keyboard_driver.c] and its sink)

    The driver talks to the keyboard and interrupt controllers through I/O
    ports ([PortIo]).  Below the device of [Input.v] it is the sink: its
    functions make up [InputServices], and over a controller whose output
    buffer is a queue ([PortLaws]) they satisfy [InputLaws], so the whole
    keyboard is a line editor. *)

From stdpp Require Import strings.
From S2P Require Import Prelude Input InputThms.

Local Open Scope Z_scope.

Module Ps2.

(** ** Ports *)

Definition I8042_DATA_PORT : Z := 0x60.
Definition I8042_STATUS_PORT : Z := 0x64.
Definition I8042_COMMAND_PORT : Z := 0x64.
Definition I8042_STATUS_OUTPUT_FULL : Z := 0x01.
Definition I8042_STATUS_INPUT_FULL : Z := 0x02.
Definition I8042_COMMAND_READ_CONFIG : Z := 0x20.
Definition I8042_COMMAND_WRITE_CONFIG : Z := 0x60.
Definition I8042_COMMAND_ENABLE_PORT1 : Z := 0xAE.
Definition PS2_KEYBOARD_ENABLE_SCANNING : Z := 0xF4.
Definition PIC1_COMMAND_PORT : Z := 0x20.
Definition PIC1_DATA_PORT : Z := 0x21.
Definition PIC2_COMMAND_PORT : Z := 0xA0.
Definition PIC2_DATA_PORT : Z := 0xA1.
Definition PIC_EOI : Z := 0x20.
Definition PIC_ICW1_INIT : Z := 0x10.
Definition PIC_ICW1_ICW4 : Z := 0x01.
Definition PIC_ICW4_8086 : Z := 0x01.
Definition PS2_KEYBOARD_IRQ_LINE : Z := 1.
Definition PIC1_REMAP_VECTOR : Z := 0x20.
Definition PIC2_REMAP_VECTOR : Z := 0x28.

(** [inb] and [outb]; reading a port may change the hardware. *)
Class PortIo (H : Type) := {
  inb : Z -> H -> Z * H;
  outb : Z -> Z -> H -> H;
}.

Record PS2_KEYBOARD_DRIVER : Type := mkDriver { MasterMask : Z; SlaveMask : Z; DrvInitialized : bool }.

Section driver.
Context {H : Type} `{PortIo H}.
Implicit Types (h : H) (driver : PS2_KEYBOARD_DRIVER).

Definition has_bit (v bit : Z) : bool := negb (Z.land v bit =? 0).

Definition Ps2IoWait h : H := outb 0x80 0 h.

(** The polling loops, [attempts] times at most. *)
Fixpoint wait_status (attempts : nat) (done : Z -> bool) h : HO_STATUS * H :=
  match attempts with
  | O => (EC_TIMEOUT, h)
  | S attempts =>
      let '(v, h) := inb I8042_STATUS_PORT h in
      if done v then (EC_SUCCESS, h) else wait_status attempts done h
  end.
Definition Ps2WaitInputBufferReady h : HO_STATUS * H :=
  wait_status (Z.to_nat 100000) (fun v => negb (has_bit v I8042_STATUS_INPUT_FULL)) h.
Definition Ps2WaitOutputBufferReady h : HO_STATUS * H :=
  wait_status (Z.to_nat 100000) (fun v => has_bit v I8042_STATUS_OUTPUT_FULL) h.

Definition Ps2WriteCommand (command : Z) h : HO_STATUS * H :=
  let '(status, h) := Ps2WaitInputBufferReady h in
  if negb (bool_decide (status = EC_SUCCESS)) then (status, h) else
  (EC_SUCCESS, outb I8042_COMMAND_PORT command h).
Definition Ps2WriteData (value : Z) h : HO_STATUS * H :=
  let '(status, h) := Ps2WaitInputBufferReady h in
  if negb (bool_decide (status = EC_SUCCESS)) then (status, h) else
  (EC_SUCCESS, outb I8042_DATA_PORT value h).
Definition Ps2ReadData (out : bool) h : HO_STATUS * option Z * H :=
  if negb out then (EC_ILLEGAL_ARGUMENT, None, h) else
  let '(status, h) := Ps2WaitOutputBufferReady h in
  if negb (bool_decide (status = EC_SUCCESS)) then (status, None, h) else
  let '(v, h) := inb I8042_DATA_PORT h in (EC_SUCCESS, Some v, h).

(** [fuel] bounds what the controller holds. *)
Fixpoint Ps2DrainOutputBuffer (fuel : nat) h : res H :=
  let '(v, h) := inb I8042_STATUS_PORT h in
  if negb (has_bit v I8042_STATUS_OUTPUT_FULL) then Ok h else
  match fuel with
  | O => NoFuel
  | S fuel => let '(_, h) := inb I8042_DATA_PORT h in Ps2DrainOutputBuffer fuel h
  end.

Definition outb_wait (port value : Z) h : H := Ps2IoWait (outb port value h).

Definition PicRemapAndUnmaskKeyboard driver h : PS2_KEYBOARD_DRIVER * H :=
  let '(master, h) := inb PIC1_DATA_PORT h in
  let '(slave, h) := inb PIC2_DATA_PORT h in
  let h := outb_wait PIC1_COMMAND_PORT (Z.lor PIC_ICW1_INIT PIC_ICW1_ICW4) h in
  let h := outb_wait PIC2_COMMAND_PORT (Z.lor PIC_ICW1_INIT PIC_ICW1_ICW4) h in
  let h := outb_wait PIC1_DATA_PORT PIC1_REMAP_VECTOR h in
  let h := outb_wait PIC2_DATA_PORT PIC2_REMAP_VECTOR h in
  let h := outb_wait PIC1_DATA_PORT 0x04 h in
  let h := outb_wait PIC2_DATA_PORT 0x02 h in
  let h := outb_wait PIC1_DATA_PORT PIC_ICW4_8086 h in
  let h := outb_wait PIC2_DATA_PORT PIC_ICW4_8086 h in
  let h := outb_wait PIC1_DATA_PORT (u8 (Z.land master (u8 (not64 (Z.shiftl 1 PS2_KEYBOARD_IRQ_LINE))))) h in
  let h := outb_wait PIC2_DATA_PORT slave h in
  (mkDriver master slave (DrvInitialized driver), h).

Definition Ps2KeyboardDriverInit (fuel : nat) driver h : res (HO_STATUS * PS2_KEYBOARD_DRIVER * H) :=
  if DrvInitialized driver then Ok (EC_SUCCESS, driver, h) else
  let* h := Ps2DrainOutputBuffer fuel h in
  let '(status, h) := Ps2WriteCommand I8042_COMMAND_ENABLE_PORT1 h in
  if negb (bool_decide (status = EC_SUCCESS)) then Ok (status, driver, h) else
  let '(status, h) := Ps2WriteCommand I8042_COMMAND_READ_CONFIG h in
  if negb (bool_decide (status = EC_SUCCESS)) then Ok (status, driver, h) else
  let '(status, config, h) := Ps2ReadData true h in
  match config with
  | None => Ok (status, driver, h)
  | Some config =>
  let config := Z.lor (Z.lor config 0x01) 0x40 in
  let '(status, h) := Ps2WriteCommand I8042_COMMAND_WRITE_CONFIG h in
  if negb (bool_decide (status = EC_SUCCESS)) then Ok (status, driver, h) else
  let '(status, h) := Ps2WriteData config h in
  if negb (bool_decide (status = EC_SUCCESS)) then Ok (status, driver, h) else
  let '(status, h) := Ps2WriteData PS2_KEYBOARD_ENABLE_SCANNING h in
  if negb (bool_decide (status = EC_SUCCESS)) then Ok (status, driver, h) else
  let '(driver, h) := PicRemapAndUnmaskKeyboard driver h in
  let* h := Ps2DrainOutputBuffer fuel h in
  Ok (EC_SUCCESS, mkDriver (MasterMask driver) (SlaveMask driver) true, h)
  end.

Definition Ps2KeyboardDriverHasPendingData driver h : bool * H :=
  if negb (DrvInitialized driver) then (false, h) else
  let '(v, h) := inb I8042_STATUS_PORT h in (has_bit v I8042_STATUS_OUTPUT_FULL, h).

Definition Ps2KeyboardDriverReadScanCode driver (out : bool) h : HO_STATUS * option Z * H :=
  if negb out then (EC_ILLEGAL_ARGUMENT, None, h) else
  if negb (DrvInitialized driver) then (EC_INVALID_STATE, None, h) else
  let '(pending, h) := Ps2KeyboardDriverHasPendingData driver h in
  if negb pending then (EC_INVALID_STATE, None, h) else
  let '(v, h) := inb I8042_DATA_PORT h in (EC_SUCCESS, Some v, h).

Definition Ps2KeyboardDriverAcknowledgeInterrupt driver h : H :=
  if negb (DrvInitialized driver) then h else outb PIC1_COMMAND_PORT PIC_EOI h.

(** A sink around a cleared driver. *)
Definition KePs2KeyboardSinkInit : PS2_KEYBOARD_DRIVER := mkDriver 0 0 false.
End driver.

(** ** The sink of the input device *)

(** The driver, the hardware behind the ports, and the text on the console. *)
Record MACHINE (H : Type) : Type := mkPs2 { Driver : PS2_KEYBOARD_DRIVER; ports : H; screen : list Z }.
#[global] Arguments mkPs2 {H}.
#[global] Arguments Driver {H}.
#[global] Arguments ports {H}.
#[global] Arguments screen {H}.

(** The rest of the kernel: the interrupt table, and what happens while a
    thread waits.  [held] bounds the bytes the controller hands out when it is
    drained. *)
Class Surroundings (H : Type) := {
  held : H -> nat;
  register_handler : Z -> MACHINE H -> HO_STATUS * MACHINE H;
  wait_for_line : Z -> Input.KE_INPUT_DEVICE -> MACHINE H -> HO_STATUS * Input.KE_INPUT_DEVICE * MACHINE H;
}.

Section sink.
Context {H : Type} `{PortIo H} `{Surroundings H}.
Implicit Type m : MACHINE H.

(** The sink's functions pass the call on to the driver. *)
Definition Ps2KeyboardSinkInit m : res (HO_STATUS * MACHINE H) :=
  let* (status, driver, h) := Ps2KeyboardDriverInit (held (ports m)) (Driver m) (ports m) in
  Ok (status, mkPs2 driver h (screen m)).
Definition Ps2KeyboardSinkHasPendingData m : bool * MACHINE H :=
  let '(b, h) := Ps2KeyboardDriverHasPendingData (Driver m) (ports m) in (b, mkPs2 (Driver m) h (screen m)).
(** The caller's variable holds 0 when nothing is written to it. *)
Definition Ps2KeyboardSinkReadScanCode m : HO_STATUS * Z * MACHINE H :=
  let '(status, code, h) := Ps2KeyboardDriverReadScanCode (Driver m) true (ports m) in
  (status, default 0 code, mkPs2 (Driver m) h (screen m)).
Definition Ps2KeyboardSinkAcknowledgeInterrupt m : MACHINE H :=
  mkPs2 (Driver m) (Ps2KeyboardDriverAcknowledgeInterrupt (Driver m) (ports m)) (screen m).
Definition Ps2KeyboardSinkGetName m : string := "qemu-ps2-keyboard".

#[global] Instance ps2_services : Input.InputServices (MACHINE H) := {|
  Input.SinkInit := Ps2KeyboardSinkInit;
  Input.GetName := Ps2KeyboardSinkGetName;
  Input.HasPendingData := Ps2KeyboardSinkHasPendingData;
  Input.ReadScanCode := Ps2KeyboardSinkReadScanCode;
  Input.AcknowledgeInterrupt := Ps2KeyboardSinkAcknowledgeInterrupt;
  Input.ConsoleWriteChar c m := (1, mkPs2 (Driver m) (ports m) (screen m ++ [c]));
  Input.IdtRegisterInterruptHandler := register_handler;
  Input.KeWaitForSingleObject := wait_for_line;
|}.

(** [KeInputInit] with its first call, which clears the driver. *)
Definition boot_keyboard m : res (HO_STATUS * Input.KE_INPUT_DEVICE * MACHINE H) :=
  Input.KeInputInit (mkPs2 KePs2KeyboardSinkInit (ports m) (screen m)).
End sink.

(** A controller that queues bytes: the status port tells whether there is
    one, the data port takes the first one out, and acknowledging an interrupt
    leaves the queue alone.  Registering a handler does not touch it. *)
Class PortLaws (H : Type) `{PortIo H} `{Surroundings H} := {
  buffer : H -> list Z;
  press : list Z -> H -> H;
  press_law cs h : buffer (press cs h) = buffer h ++ cs;
  status_law h : exists v h', inb I8042_STATUS_PORT h = (v, h') /\ buffer h' = buffer h /\
    has_bit v I8042_STATUS_OUTPUT_FULL = bool_decide (buffer h <> []);
  data_law h c q : buffer h = c :: q -> exists h', inb I8042_DATA_PORT h = (c, h') /\ buffer h' = q;
  eoi_law h : buffer (outb PIC1_COMMAND_PORT PIC_EOI h) = buffer h;
  register_law v m : exists st h', register_handler v m = (st, mkPs2 (Driver m) h' (screen m)) /\
    buffer h' = buffer (ports m);
}.

Section laws.
Context {H : Type} `{PortLaws H}.
Implicit Types (m : MACHINE H) (h : H).

Lemma has_pending_run m : DrvInitialized (Driver m) = true -> exists h',
  Ps2KeyboardDriverHasPendingData (Driver m) (ports m) = (bool_decide (buffer (ports m) <> []), h') /\
  buffer h' = buffer (ports m).
Proof.
  intros Hi. unfold Ps2KeyboardDriverHasPendingData. rewrite Hi. cbn [negb].
  destruct (status_law (ports m)) as (v & h' & -> & Hb & ->). eauto.
Qed.

(** An initialised driver is the queue that the input device relies on. *)
#[global] Program Instance ps2_laws : InputLaws (MACHINE H) := {|
  usable m := DrvInitialized (Driver m) = true;
  queue m := buffer (ports m);
  echoed m := screen m;
  arrive cs m := mkPs2 (Driver m) (press cs (ports m)) (screen m);
|}.
Next Obligation. intros cs m Hi. cbn. by rewrite press_law. Qed.
Next Obligation.
  intros m Hi. cbn. unfold Ps2KeyboardSinkHasPendingData. destruct (has_pending_run m Hi) as (h' & -> & Hb).
  eexists. split; [reflexivity|]. by cbn.
Qed.
Next Obligation.
  intros m c q Hi Hq. cbn. unfold Ps2KeyboardSinkReadScanCode, Ps2KeyboardDriverReadScanCode. cbn [negb]. rewrite Hi. cbn [negb].
  destruct (has_pending_run m Hi) as (h1 & -> & Hb). rewrite Hq, bool_decide_true by done. cbn [negb].
  destruct (data_law h1 c q) as (h2 & -> & Hb2); [congruence|]. eexists. split; [reflexivity|]. by cbn.
Qed.
Next Obligation. intros c m Hi. cbn. do 2 eexists. split; [reflexivity|]. by cbn. Qed.
Next Obligation.
  intros m Hi. cbn. unfold Ps2KeyboardDriverAcknowledgeInterrupt. rewrite Hi. cbn [negb]. by rewrite eoi_law.
Qed.

(** Draining leaves nothing, and a fuel of the bytes held is enough. *)
Lemma drain_empties fuel h h' : Ps2DrainOutputBuffer fuel h = Ok h' -> buffer h' = [].
Proof.
  revert h. induction fuel as [|fuel IH]; intros h; cbn [Ps2DrainOutputBuffer];
    destruct (status_law h) as (v & h1 & -> & Hb & ->); case_bool_decide as Hn; cbn [negb].
  1,3: done || (intros E; destruct (inb I8042_DATA_PORT h1); eauto).
  all: intros [= <-]; by rewrite Hb.
Qed.

Lemma drain_enough fuel h : (length (buffer h) <= fuel)%nat -> exists h', Ps2DrainOutputBuffer fuel h = Ok h'.
Proof.
  revert h. induction fuel as [|fuel IH]; intros h Hl; cbn [Ps2DrainOutputBuffer];
    destruct (status_law h) as (v & h1 & -> & Hb & ->); case_bool_decide as Hn; cbn [negb]; eauto.
  { destruct (buffer h); cbn in Hl; [done | lia]. }
  destruct (buffer h) as [|c q]; [done|]. cbn in Hl.
  destruct (data_law h1 c q Hb) as (h2 & -> & Hq). apply IH. rewrite Hq. lia.
Qed.

(** One step of the driver's start went well, or the start failed with it. *)
Local Ltac command := match goal with
  |- context [let '(_, _) := ?x in _] => destruct x as [? ?]; case_bool_decide; cbn [negb]; [|by intros [= -> <- <-]] end.

(** What a successful start of the driver leaves behind. *)
Lemma driver_init_run fuel h driver h' :
  Ps2KeyboardDriverInit fuel KePs2KeyboardSinkInit h = Ok (EC_SUCCESS, driver, h') ->
  DrvInitialized driver = true /\ buffer h' = [].
Proof.
  unfold Ps2KeyboardDriverInit. cbn [DrvInitialized KePs2KeyboardSinkInit].
  destruct (Ps2DrainOutputBuffer fuel h) as [h1| | |]; cbn [res_bind]; try done.
  do 2 command. destruct (Ps2ReadData true _) as [[st config] g2] eqn:Er. destruct config as [config|].
  2: { unfold Ps2ReadData in Er. cbn [negb] in Er. destruct (Ps2WaitOutputBufferReady _) as [st' g3].
       case_bool_decide as E; cbn [negb] in Er; [by destruct (inb _ _)|]. injection Er as <- <-. by intros [= -> <- <-]. }
  do 3 command. destruct (PicRemapAndUnmaskKeyboard _ _) as [driver' g3].
  destruct (Ps2DrainOutputBuffer fuel g3) as [g4| | |] eqn:Ed; cbn [res_bind]; try done.
  intros [= <- <-]. split; [done|]. by eapply drain_empties.
Qed.

(** After a successful start the machine is quiet and the device is a new editor. *)
Lemma keyboard_started m d m' : boot_keyboard m = Ok (EC_SUCCESS, d, m') ->
  implements d new_editor /\ usable m' /\ queue m' = [] /\ echoed m' = screen m.
Proof.
  intros E. destruct (init_implements _ d m' E) as (I & _ & m1 & E1 & E2). split; [done|].
  cbn in E1, E2. unfold Ps2KeyboardSinkInit in E1. cbn [ports Driver] in E1.
  destruct (Ps2KeyboardDriverInit _ _ _) as [[[st driver] h]| | |] eqn:Ei; cbn [res_bind] in E1; try done.
  injection E1 as -> <-. apply driver_init_run in Ei as [Hi Hb].
  destruct (register_law Input.KE_INPUT_IRQ_VECTOR (mkPs2 driver h (screen m))) as (st & h' & Er & Hb').
  cbn in Hb'. rewrite E2 in Er. injection Er as _ ->. cbn. by rewrite Hb', Hb.
Qed.

(** C17: after [KeInputInit] on the PS/2 driver has succeeded, the keyboard is
    a line editor that starts empty.  Whatever scan codes arrive and whatever
    focus changes, copies and consumptions are made, in whatever order, the
    calls return (no access outside a line buffer, no endless loop) with
    exactly the answers and the console echo of the editor: only keys pressed
    under the focus count, at most 128 characters make a line, a finished line
    is kept until the owner consumes it and nobody else reads it, and a new
    owner starts with nothing. *)
Theorem keyboard_refines_line_editor m d m1 cs :
  boot_keyboard m = Ok (EC_SUCCESS, d, m1) -> Forall permitted cs ->
  let '(_, out, answers) := edits cs new_editor in
  exists d' m', calls cs d m1 = Ok (d', m', answers) /\ screen m' = screen m ++ out.
Proof.
  intros E Hp. destruct (keyboard_started m d m1 E) as (I & U & Q & W).
  pose proof (device_calls_run cs d m1 new_editor I U Q Hp) as R. destruct (edits cs new_editor) as [[e out] rs].
  destruct R as (d' & m' & Ec & _ & _ & _ & W'). exists d', m'. split; [done|]. cbn in W', W. by rewrite W', W.
Qed.
End laws.

(** ** A controller to run it on *)

(** An 8042 as a queue and the command it expects a byte for; the other ports
    do nothing. *)
Record TOY8042 : Type := mkToy { bytes : list Z; expects : Z }.

#[global] Instance toy_ports : PortIo TOY8042 := {|
  inb port t :=
    if port =? I8042_STATUS_PORT then (if bool_decide (bytes t = []) then 0 else 1, t) else
    if port =? I8042_DATA_PORT then
      match bytes t with [] => (0, t) | c :: q => (c, mkToy q (expects t)) end
    else (0xFF, t);
  outb port v t :=
    if port =? I8042_COMMAND_PORT then
      if v =? I8042_COMMAND_READ_CONFIG then mkToy (bytes t ++ [0x24]) 0 else mkToy (bytes t) v
    else if port =? I8042_DATA_PORT then
      if expects t =? I8042_COMMAND_WRITE_CONFIG then mkToy (bytes t) 0 else mkToy (bytes t ++ [0xFA]) 0
    else t;
|}.
#[global] Instance toy_surroundings : Surroundings TOY8042 := {|
  held t := 16%nat;
  register_handler v m := (EC_SUCCESS, m);
  wait_for_line t d m := (EC_TIMEOUT, d, m);
|}.
#[global] Program Instance toy_port_laws : PortLaws TOY8042 := {|
  buffer := bytes;
  press cs t := mkToy (bytes t ++ cs) (expects t);
|}.
Next Obligation. done. Qed.
Next Obligation.
  intros t. exists (if bool_decide (bytes t = []) then 0 else 1), t. split_and!; [done | done |]. by destruct (bytes t).
Qed.
Next Obligation. intros [? e] c q E. cbn in E |- *. subst. exists (mkToy q e). done. Qed.
Next Obligation. done. Qed.
Next Obligation. intros v [driver h s]. exists EC_SUCCESS, h. done. Qed.

Definition toy_machine : MACHINE TOY8042 := mkPs2 (mkDriver 0 0 false) (mkToy [0x1C] 0) [72].

(** Thread 7 gets the focus, types [hI], a wrong key, rubs it out, ends the
    line; thread 8 may not read it, thread 7 does. *)
Definition toy_session : list INPUT_CALL :=
  [Interrupt [0x23]; SetOwner 7; Interrupt [0x23; 0xA3; 0x2A; 0x17]; Interrupt [0xAA; 0x1E; 0x0E; 0x1C];
   Copy (Some 8) [0; 0; 0] 3; Copy (Some 7) [0; 0; 0] 3; Consume (Some 7); Copy (Some 7) [0; 0; 0] 3].

Lemma toy_session_permitted : Forall permitted toy_session.
Proof. repeat constructor; cbn; repeat constructor; unfold is_u8; lia. Qed.

Lemma keyboard_refines_line_editor_witness : exists d m1, boot_keyboard toy_machine = Ok (EC_SUCCESS, d, m1) /\
  exists d' m', calls toy_session d m1 = Ok (d', m',
    [Nothing; Status EC_SUCCESS; Nothing; Nothing; Copied EC_INVALID_STATE None;
     Copied EC_SUCCESS (Some ([104; 73; 0], 2)); Status EC_SUCCESS; Copied EC_TIMEOUT None]) /\
    screen m' = [72; 104; 73; 97; 8; 10].
Proof.
  do 2 eexists. assert (E : boot_keyboard toy_machine = Ok (EC_SUCCESS,
    Input.mkInput false Input.blank_line Input.blank_line 0 0 0 0 false false true 0x21,
    mkPs2 (mkDriver 0xFF 0xFF true) (mkToy [] 0) [72])) by (vm_compute; reflexivity).
  split; [exact E|]. exact (keyboard_refines_line_editor toy_machine _ _ toy_session E toy_session_permitted).
Defined.
End Ps2.
