(* ===== verification/UserMode.v ===== *)
(** * User mode: staging and user copies ([ke/user_mode.c], [ke/user_mode_syscall.c])

    A staging is the three pages of a user image (code, constants, stack) in
    the window of [ex/user_image_abi.h].  It lives in the kernel's small-object
    heap; its pages are mapped under the root of a process.  Copies between a
    kernel buffer and user memory go through the processor's translation under
    the active root, after the kernel has walked the page tables itself. *)

From S2P Require Import Prelude Pmm PageTable Sched Heap Parts.

Local Open Scope Z_scope.

Module UserMode.
Import PageTable.
#[local] Existing Instance Sched.KTHREAD_STATE_eq_dec.

(** ** Layout ([user_image_abi.h]) *)

Definition EX_USER_IMAGE_PAGE_SIZE : Z := 0x1000.
Definition EX_USER_IMAGE_WINDOW_BASE : Z := 0x80000000.
Definition EX_USER_IMAGE_CODE_BASE : Z := EX_USER_IMAGE_WINDOW_BASE.
Definition EX_USER_IMAGE_CONST_BASE : Z := EX_USER_IMAGE_CODE_BASE + EX_USER_IMAGE_PAGE_SIZE.
Definition EX_USER_IMAGE_STACK_GUARD_BASE : Z := EX_USER_IMAGE_CONST_BASE + EX_USER_IMAGE_PAGE_SIZE.
Definition EX_USER_IMAGE_STACK_BASE : Z := EX_USER_IMAGE_STACK_GUARD_BASE + EX_USER_IMAGE_PAGE_SIZE.
Definition EX_USER_IMAGE_STACK_TOP : Z := EX_USER_IMAGE_STACK_BASE + EX_USER_IMAGE_PAGE_SIZE.

Definition KE_USER_MODE_MAX_MAPPINGS : Z := 3.
Definition KE_USER_MODE_INITIAL_RFLAGS : Z := 0x202.
Definition GDT_USER_CODE_SEL : Z := 0x1B.
Definition GDT_USER_DATA_SEL : Z := 0x23.

Inductive KE_USER_MODE_MAPPING_KIND :=
| KE_USER_MODE_MAPPING_KIND_CODE
| KE_USER_MODE_MAPPING_KIND_CONST
| KE_USER_MODE_MAPPING_KIND_STACK.

#[export] Instance MAPPING_KIND_eq_dec : EqDecision KE_USER_MODE_MAPPING_KIND.
Proof. solve_decision. Defined.

Record KE_USER_MODE_MAPPING_RECORD := mkRecord {
  RKind : KE_USER_MODE_MAPPING_KIND;
  RVirtualBase : Z;
  RPhysicalBase : Z;
  RAttributes : Z
}.

(** [Mappings] holds the first [MappingCount] records of the array; the rest
    is never read.  The thread is its address, 0 for none. *)
Record KE_USER_MODE_STAGING := mkStaging {
  SEntryPoint : Z;
  SStackBase : Z;
  SStackTop : Z;
  SGuardBase : Z;
  SOwnerRootPageTablePhys : Z;
  AttachedThread : Z;
  Mappings : list KE_USER_MODE_MAPPING_RECORD
}.

Definition MappingCount (g : KE_USER_MODE_STAGING) : Z := Z.of_nat (length (Mappings g)).

Definition set_AttachedThread (t : Z) (g : KE_USER_MODE_STAGING) : KE_USER_MODE_STAGING :=
  mkStaging (SEntryPoint g) (SStackBase g) (SStackTop g) (SGuardBase g) (SOwnerRootPageTablePhys g) t (Mappings g).
Definition set_Mappings (l : list KE_USER_MODE_MAPPING_RECORD) (g : KE_USER_MODE_STAGING) : KE_USER_MODE_STAGING :=
  mkStaging (SEntryPoint g) (SStackBase g) (SStackTop g) (SGuardBase g) (SOwnerRootPageTablePhys g) (AttachedThread g) l.

Record KE_USER_MODE_LAYOUT := mkLayout {
  UserRangeBase : Z;
  UserRangeEndExclusive : Z;
  LEntryPoint : Z;
  LGuardBase : Z;
  LStackBase : Z;
  LStackTop : Z;
  LOwnerRootPageTablePhys : Z
}.

Definition KiFindMappedPage (g : KE_USER_MODE_STAGING) (kind : KE_USER_MODE_MAPPING_KIND)
  : option KE_USER_MODE_MAPPING_RECORD :=
  snd <$> list_find (fun r => RKind r = kind) (Mappings g).

(** [thread] is the running thread, [query] the executive's table of stagings
    ([ExUserRuntimeQueryThreadStaging]), [get] the staging object at an
    address. *)
Definition KiGetCurrentThreadStaging (thread : Z) (query : Z -> Z) (get : Z -> option KE_USER_MODE_STAGING)
  : res (option KE_USER_MODE_STAGING) :=
  if thread =? 0 then Ok None else
  if query thread =? 0 then Ok None else
  match get (query thread) with
  | None => Oob
  | Some g => if AttachedThread g =? thread then Ok (Some g) else Ok None
  end.

Definition KeUserModeQueryCurrentThreadLayout (staging : option KE_USER_MODE_STAGING)
  : HO_STATUS * option KE_USER_MODE_LAYOUT :=
  match staging with
  | None => (EC_INVALID_STATE, None)
  | Some g =>
      match KiFindMappedPage g KE_USER_MODE_MAPPING_KIND_CODE, KiFindMappedPage g KE_USER_MODE_MAPPING_KIND_STACK with
      | Some codeRecord, Some stackRecord =>
          if SOwnerRootPageTablePhys g =? 0 then (EC_INVALID_STATE, None) else
          if SStackTop g <=? RVirtualBase codeRecord then (EC_INVALID_STATE, None) else
          if negb (RVirtualBase stackRecord =? SStackBase g) then (EC_INVALID_STATE, None) else
          (EC_SUCCESS, Some (mkLayout (RVirtualBase codeRecord) (SStackTop g) (SEntryPoint g) (SGuardBase g)
             (SStackBase g) (SStackTop g) (SOwnerRootPageTablePhys g)))
      | _, _ => (EC_INVALID_STATE, None)
      end
  end.

(** [None] for a null pointer; the thread with its address. *)
Definition KeUserModeAttachThread (thread : option (Z * Sched.KTHREAD)) (staging : option KE_USER_MODE_STAGING)
  : HO_STATUS * option KE_USER_MODE_STAGING :=
  match thread, staging with
  | Some (t, k), Some g =>
      if negb (Z.land (Sched.Flags k) Sched.KTHREAD_FLAG_IDLE =? 0) then (EC_INVALID_STATE, staging) else
      if negb (bool_decide (Sched.State k = Sched.KTHREAD_STATE_NEW)) then (EC_INVALID_STATE, staging) else
      if negb (AttachedThread g =? 0) && negb (AttachedThread g =? t) then (EC_INVALID_STATE, staging) else
      match KiFindMappedPage g KE_USER_MODE_MAPPING_KIND_CODE, KiFindMappedPage g KE_USER_MODE_MAPPING_KIND_STACK with
      | Some _, Some _ => (EC_SUCCESS, Some (set_AttachedThread t g))
      | _, _ => (EC_INVALID_STATE, staging)
      end
  | _, _ => (EC_ILLEGAL_ARGUMENT, staging)
  end.

Definition KeUserModeDetachThread (thread : Z) (staging : option KE_USER_MODE_STAGING)
  : HO_STATUS * option KE_USER_MODE_STAGING :=
  match staging with
  | None => (EC_ILLEGAL_ARGUMENT, staging)
  | Some g =>
      if thread =? 0 then (EC_ILLEGAL_ARGUMENT, staging) else
      if AttachedThread g =? 0 then (EC_SUCCESS, staging) else
      if negb (AttachedThread g =? thread) then (EC_INVALID_STATE, staging) else
      (EC_SUCCESS, Some (set_AttachedThread 0 g))
  end.

(** The frame that [iretq] leaves the kernel with. *)
Definition KeUserModeEnterCurrentThread (thread : Z) (staging : option KE_USER_MODE_STAGING)
  : res (Z * Z * Z * Z * Z) :=
  let* _ := HO_KASSERT (negb (thread =? 0)) EC_INVALID_STATE in
  match staging with
  | None => Panic EC_INVALID_STATE
  | Some g =>
      let* _ := HO_KASSERT (AttachedThread g =? thread) EC_INVALID_STATE in
      let* _ := HO_KASSERT (bool_decide (is_Some (KiFindMappedPage g KE_USER_MODE_MAPPING_KIND_CODE))) EC_INVALID_STATE in
      let* _ := HO_KASSERT (bool_decide (is_Some (KiFindMappedPage g KE_USER_MODE_MAPPING_KIND_STACK))) EC_INVALID_STATE in
      let* _ := HO_KASSERT (EX_USER_IMAGE_CODE_BASE <=? SEntryPoint g) EC_INVALID_STATE in
      let* _ := HO_KASSERT (SEntryPoint g <? EX_USER_IMAGE_CODE_BASE + EX_USER_IMAGE_PAGE_SIZE) EC_INVALID_STATE in
      let* _ := HO_KASSERT (SStackBase g =? EX_USER_IMAGE_STACK_BASE) EC_INVALID_STATE in
      let* _ := HO_KASSERT (SStackTop g =? EX_USER_IMAGE_STACK_TOP) EC_INVALID_STATE in
      Ok (SEntryPoint g, SStackTop g, KE_USER_MODE_INITIAL_RFLAGS, GDT_USER_CODE_SEL, GDT_USER_DATA_SEL)
  end.

(** ** Bytes behind the processor's translation *)

Definition phys_byte (m : memory) (pa : Z) : Z := get_part (m (pa - pa mod 8)) (pa mod 8) 1.
Definition set_phys_byte (m : memory) (pa v : Z) : memory :=
  store m (pa - pa mod 8) (set_part (m (pa - pa mod 8)) (pa mod 8) 1 v).

(** Ring 0 may write when every entry on the way is writable ([CR0.WP]). *)
Fixpoint hw_writable (m : memory) (l : nat) (t va : Z) : bool :=
  match l with
  | O => false
  | S l' =>
      let e := m (entry_at t (vindex l va)) in
      has e PTE_PRESENT && has e PTE_WRITABLE &&
      (bool_decide (l = 1%nat) || (bool_decide (l = 2 \/ l = 3)%nat && has e PTE_PAGE_SIZE) ||
       hw_writable m l' (Z.land e KE_PT_PHYS_ADDR_MASK) va)
  end.

Section copy.
Context {P : Type} `{PageAllocator P}.
Implicit Type s : machine P.

(** A byte access of the kernel; [Oob] is a page fault in ring 0. *)
Definition read_byte (va : Z) s : res Z :=
  match translate (mem s) (KiReadCr3 s) va with
  | None => Oob
  | Some mp => Ok (phys_byte (mem s) (PhysicalBase mp))
  end.
Definition write_byte (va v : Z) s : res (machine P) :=
  match translate (mem s) (KiReadCr3 s) va with
  | None => Oob
  | Some mp => if hw_writable (mem s) 4 (KiReadCr3 s) va
               then Ok (set_mem s (set_phys_byte (mem s) (PhysicalBase mp) v)) else Oob
  end.

(** [memcpy] from and to user memory. *)
Fixpoint copy_from_user (va : Z) (n : nat) s : res (list Z) :=
  match n with
  | O => Ok []
  | S n => let* b := read_byte va s in let* bs := copy_from_user (va + 1) n s in Ok (b :: bs)
  end.
Fixpoint copy_to_user (va : Z) (bytes : list Z) s : res (machine P) :=
  match bytes with
  | [] => Ok s
  | b :: bytes => let* s := write_byte va b s in copy_to_user (va + 1) bytes s
  end.

(** ** Validation *)

(** [None] for a null layout; [out] is false for a null result pointer. *)
Definition KiValidateUserModeRange (layout : option KE_USER_MODE_LAYOUT) (userBase length : Z) (out : bool)
  : HO_STATUS * Z :=
  match layout with
  | None => (EC_ILLEGAL_ARGUMENT, 0)
  | Some layout =>
  if negb out then (EC_ILLEGAL_ARGUMENT, 0) else
  if UserRangeEndExclusive layout <=? UserRangeBase layout then (EC_INVALID_STATE, 0) else
  if length =? 0 then (EC_SUCCESS, userBase) else
  if userBase <? UserRangeBase layout then (EC_ILLEGAL_ARGUMENT, 0) else
  if UserRangeEndExclusive layout <=? userBase then (EC_ILLEGAL_ARGUMENT, 0) else
  let endExclusive := u64 (userBase + length) in
  if endExclusive <? userBase then (EC_ILLEGAL_ARGUMENT, 0) else
  if UserRangeEndExclusive layout <? endExclusive then (EC_ILLEGAL_ARGUMENT, 0) else
  (EC_SUCCESS, endExclusive)
  end.

(** The loop over the pages; the code's loop has no bound of its own, [fuel]
    is the number of pages. *)
Fixpoint validate_pages (fuel : nat) (space : KE_KERNEL_ADDRESS_SPACE) (m : memory) (pageBase lastPageBase : Z)
    (requireWritable : bool) : res HO_STATUS :=
  match fuel with
  | O => NoFuel
  | S fuel =>
      match KePtQueryPage (Some space) m pageBase true with
      | (EC_SUCCESS, Some mapping) =>
          if negb (Present mapping) || negb (UserAccessible mapping) then Ok EC_ILLEGAL_ARGUMENT else
          if requireWritable && (Z.land (Attributes mapping) PTE_WRITABLE =? 0) then Ok EC_ILLEGAL_ARGUMENT else
          if pageBase =? lastPageBase then Ok EC_SUCCESS else
          validate_pages fuel space m (u64 (pageBase + PAGE_4KB)) lastPageBase requireWritable
      | (status, _) => Ok status
      end
  end.

Definition KiValidateUserModePages (space : option KE_KERNEL_ADDRESS_SPACE) (m : memory) (userBase endExclusive : Z)
    (requireWritable : bool) : res HO_STATUS :=
  match space with
  | None => Ok EC_INVALID_STATE
  | Some space =>
      if negb (Initialized space) then Ok EC_INVALID_STATE else
      if userBase =? endExclusive then Ok EC_SUCCESS else
      let pageBase := HO_ALIGN_DOWN userBase PAGE_4KB in
      let lastPageBase := HO_ALIGN_DOWN (u64 (endExclusive - 1)) PAGE_4KB in
      validate_pages (S (Z.to_nat ((lastPageBase - pageBase) / PAGE_4KB))) space m pageBase lastPageBase requireWritable
  end.

Definition ownerView (layout : KE_USER_MODE_LAYOUT) : KE_KERNEL_ADDRESS_SPACE :=
  mkKernelSpace (LOwnerRootPageTablePhys layout) [] 0 0 true.

(** ** Copies

    [layout] is what [KeUserModeQueryCurrentThreadLayout] answered.  The first
    argument of a copy is false for a null kernel buffer. *)
Definition KeUserModeCopyInBytes (kernelDestination : bool) (userSource length : Z)
    (layout : HO_STATUS * option KE_USER_MODE_LAYOUT) s : res (HO_STATUS * option (list Z)) :=
  if negb kernelDestination then Ok (EC_ILLEGAL_ARGUMENT, None) else
  if length =? 0 then Ok (EC_SUCCESS, Some []) else
  match layout with
  | (EC_SUCCESS, Some layout) =>
      let '(status, endExclusive) := KiValidateUserModeRange (Some layout) userSource length true in
      if negb (bool_decide (status = EC_SUCCESS)) then Ok (status, None) else
      match KeQueryActiveRootPageTable true s with
      | (EC_SUCCESS, Some activeRoot) =>
          if negb (activeRoot =? LOwnerRootPageTablePhys layout) then Ok (EC_INVALID_STATE, None) else
          let* status := KiValidateUserModePages (Some (ownerView layout)) (mem s) userSource endExclusive false in
          if negb (bool_decide (status = EC_SUCCESS)) then Ok (status, None) else
          let* bytes := copy_from_user userSource (Z.to_nat length) s in Ok (EC_SUCCESS, Some bytes)
      | (status, _) => Ok (status, None)
      end
  | (status, _) => Ok (status, None)
  end.

(** [None] for a null source; the buffer is [length] bytes long. *)
Definition KeUserModeCopyOutBytes (userDestination : Z) (kernelSource : option (list Z)) (length : Z)
    (layout : HO_STATUS * option KE_USER_MODE_LAYOUT) s : res (HO_STATUS * machine P) :=
  if negb (bool_decide (is_Some kernelSource)) && negb (length =? 0) then Ok (EC_ILLEGAL_ARGUMENT, s) else
  if length =? 0 then Ok (EC_SUCCESS, s) else
  match layout with
  | (EC_SUCCESS, Some layout) =>
      let '(status, endExclusive) := KiValidateUserModeRange (Some layout) userDestination length true in
      if negb (bool_decide (status = EC_SUCCESS)) then Ok (status, s) else
      match KeQueryActiveRootPageTable true s with
      | (EC_SUCCESS, Some activeRoot) =>
          if negb (activeRoot =? LOwnerRootPageTablePhys layout) then Ok (EC_INVALID_STATE, s) else
          let* status := KiValidateUserModePages (Some (ownerView layout)) (mem s) userDestination endExclusive true in
          if negb (bool_decide (status = EC_SUCCESS)) then Ok (status, s) else
          match kernelSource with
          | Some source => let* s := copy_to_user userDestination source s in Ok (EC_SUCCESS, s)
          | None => Oob
          end
      | (status, _) => Ok (status, s)
      end
  | (status, _) => Ok (status, s)
  end.
End copy.

(** ** Console bytes and the trap *)

Section trap.
Context {W : Type}.
(** [ConsoleWriteChar] of the console: a negative result is an error. *)
Variable ConsoleWriteChar : Z -> W -> Z * W.

Fixpoint write_console (bytes : list Z) (written : Z) (w : W) : HO_STATUS * Z * W :=
  match bytes with
  | [] => (EC_SUCCESS, written, w)
  | b :: bytes =>
      let '(r, w) := ConsoleWriteChar b w in
      if r <? 0 then (EC_FAILURE, written, w) else write_console bytes (u64 (written + 1)) w
  end.

(** [bytes] is the buffer, [None] for a null pointer; [out] is false for a
    null [outWritten], and nothing is written to it then. *)
Definition KeUserModeWriteConsoleBytes (bytes : option (list Z)) (len : Z) (out : bool) (w : W)
  : res (HO_STATUS * Z * W) :=
  if negb out then Ok (EC_ILLEGAL_ARGUMENT, 0, w) else
  if len =? 0 then Ok (EC_SUCCESS, 0, w) else
  match bytes with
  | None => Ok (EC_ILLEGAL_ARGUMENT, 0, w)
  | Some bytes =>
      if Z.of_nat (length bytes) <? len then Oob else Ok (write_console (take (Z.to_nat len) bytes) 0 w)
  end.

End trap.
End UserMode.
