(* ===== verification/UserCopy.v ===== *)
(** * Copies between kernel and user memory

    [KeUserModeCopyInBytes] and [KeUserModeCopyOutBytes] never fault: a copy
    succeeds exactly for ranges inside the layout whose pages ring 3 may read
    (or write), under the layout's own root, and then moves exactly the bytes
    that the processor's translation designates. *)

From S2P Require Import Prelude Pmm PageTable Heap Parts Kva KvaInv KvaLayout KvaMach KvaOps KvaCalls KvaHeap UserMode.

Local Open Scope Z_scope.

Import PageTable UserMode.

(** ** Bytes of words *)

Lemma div_mod_congr x y q p r : 0 < p -> 0 < r -> (p * r | q) -> x mod q = y mod q ->
  (x / p) mod r = (y / p) mod r.
Proof.
  intros Hp Hr [k ->] E. assert (E' : x mod (p * r) = y mod (p * r)).
  { rewrite <- (Z.mod_mod_divide x (k * (p * r)) (p * r)), <- (Z.mod_mod_divide y (k * (p * r)) (p * r)) by (by exists k).
    by rewrite E. }
  rewrite !Z.rem_mul_r in E' by lia.
  pose proof (Z.mod_pos_bound x p Hp). pose proof (Z.mod_pos_bound y p Hp).
  set (a := (x / p) mod r) in *. set (b := (y / p) mod r) in *. nia.
Qed.

Lemma set_get_byte w o v o' : 0 <= o < 8 -> 0 <= o' < 8 -> is_u8 v ->
  get_part (set_part w o 1 v) o' 1 = if o =? o' then v else get_part w o' 1.
Proof.
  unfold is_u8. intros Ho Ho' Hv. rewrite set_part_div, !get_part_div by lia. change (8 * 1) with 8. change (2 ^ 8) with 256.
  assert (Hq : 0 < 2 ^ (8 * o)) by (apply Z.pow_pos_nonneg; lia). assert (Hq' : 0 < 2 ^ (8 * o')) by (apply Z.pow_pos_nonneg; lia).
  rewrite (Z.mod_small v) by lia. set (x := w + (v - (w / 2 ^ (8 * o)) mod 256) * 2 ^ (8 * o)).
  assert (E : (u64 x / 2 ^ (8 * o')) mod 256 = (x / 2 ^ (8 * o')) mod 256).
  { apply (div_mod_congr _ _ (2 ^ 64)); [lia | lia | | unfold u64; apply Z.mod_mod; lia].
    exists (2 ^ (56 - 8 * o')). change 256 with (2 ^ 8). rewrite <- !Z.pow_add_r by lia. f_equal. lia. }
  rewrite E. clear E. destruct (Z.eqb_spec o o') as [<-|Hne].
  - unfold x. rewrite Z.div_add by lia. rewrite Zminus_mod_idemp_r || idtac.
    replace (w / 2 ^ (8 * o) + (v - (w / 2 ^ (8 * o)) mod 256)) with (v + w / 2 ^ (8 * o) / 256 * 256).
    2: { pose proof (Z.div_mod (w / 2 ^ (8 * o)) 256). lia. }
    rewrite Z.mod_add, Z.mod_small by lia. done.
  - destruct (Z.lt_ge_cases o' o) as [Hlt|Hge].
    + apply (div_mod_congr _ _ (2 ^ (8 * o))); [lia | lia | | unfold x; by rewrite Z.mod_add by lia].
      exists (2 ^ (8 * (o - o') - 8)). change 256 with (2 ^ 8). rewrite <- !Z.pow_add_r by lia. f_equal. lia.
    + assert (Hs : 2 ^ (8 * o') = 2 ^ (8 * o) * 256 * 2 ^ (8 * (o' - o) - 8)).
      { change 256 with (2 ^ 8). rewrite <- !Z.pow_add_r by lia. f_equal. lia. }
      assert (0 < 2 ^ (8 * (o' - o) - 8)) by (apply Z.pow_pos_nonneg; lia).
      rewrite Hs, <- !Z.div_div by lia. do 2 f_equal. unfold x. rewrite Z.div_add by lia.
      set (y := w / 2 ^ (8 * o)). div_lia.
Qed.

Lemma phys_byte_set m pa v pa' : is_u8 v ->
  phys_byte (set_phys_byte m pa v) pa' = if pa' =? pa then v else phys_byte m pa'.
Proof.
  intros Hv. unfold phys_byte, set_phys_byte, store.
  pose proof (Z.mod_pos_bound pa 8 ltac:(lia)). pose proof (Z.mod_pos_bound pa' 8 ltac:(lia)).
  destruct (Z.eqb_spec (pa' - pa' mod 8) (pa - pa mod 8)) as [E|E].
  - rewrite E, set_get_byte by done. destruct (Z.eqb_spec (pa mod 8) (pa' mod 8)) as [Em|Em].
    + by rewrite (proj2 (Z.eqb_eq pa' pa)) by lia.
    + rewrite (proj2 (Z.eqb_neq pa' pa)) by congruence. done.
  - rewrite (proj2 (Z.eqb_neq pa' pa)) by congruence. done.
Qed.

(** Writing a list of bytes, each at its physical address. *)
Fixpoint put_bytes (l : list (Z * Z)) (m : memory) : memory :=
  match l with [] => m | (pa, v) :: l => put_bytes l (set_phys_byte m pa v) end.

Lemma put_other l m pa : Forall is_u8 l.*2 -> pa ∉ l.*1 -> phys_byte (put_bytes l m) pa = phys_byte m pa.
Proof.
  revert m. induction l as [|[a v] l IH]; intros m Hb Hn; [done|]. cbn in *. apply Forall_cons in Hb as [Hv Hb].
  apply not_elem_of_cons in Hn as [Hn1 Hn2]. rewrite IH, phys_byte_set by done. by rewrite (proj2 (Z.eqb_neq _ _)).
Qed.

Lemma put_at l m i pa v : Forall is_u8 l.*2 -> NoDup l.*1 -> l !! i = Some (pa, v) -> phys_byte (put_bytes l m) pa = v.
Proof.
  revert m i. induction l as [|[a w] l IH]; intros m i Hb Hd Hi; [done|]. cbn in *. apply Forall_cons in Hb as [Hv Hb].
  apply NoDup_cons in Hd as [Hn Hd]. destruct i as [|i]; cbn in Hi; [|by apply (IH _ i)].
  injection Hi as -> ->. rewrite put_other, phys_byte_set by done. by rewrite Z.eqb_refl.
Qed.

Lemma put_word l m x : (forall pa, pa ∈ l.*1 -> pa - pa mod 8 <> x) -> put_bytes l m x = m x.
Proof.
  revert m. induction l as [|[a v] l IH]; intros m Hn; [done|]. cbn in *. rewrite IH.
  - unfold set_phys_byte, store. rewrite (proj2 (Z.eqb_neq _ _)); [done|]. intros E. by apply (Hn a); [left|].
  - intros pa Hpa. apply Hn. by right.
Qed.

(** ** What user memory is *)

(** The byte ring 3 sees at [va], and the pages it may use. *)
Definition user_byte (m : memory) (root va : Z) : option Z :=
  match translate m root va with
  | Some mp => if UserAccessible mp then Some (phys_byte m (PhysicalBase mp)) else None
  | None => None
  end.

Definition user_page (w : bool) (m : memory) (root va : Z) : Prop :=
  exists mp, translate m root va = Some mp /\ UserAccessible mp = true /\
    (w = true -> has (Attributes mp) PTE_WRITABLE = true).

(** [KePtMapPage] makes upper entries writable; the leaf decides. *)
Definition upper_writable (m : memory) (G : tables) : Prop :=
  forall t l p i, G !! t = Some (S (S l), p) -> 0 <= i < 512 ->
    has (m (entry_at t i)) PTE_PRESENT = true -> has (m (entry_at t i)) PTE_PAGE_SIZE = false ->
    has (m (entry_at t i)) PTE_WRITABLE = true.

(** User frames hold no page table, and no byte of the window is mapped twice. *)
Record user_frames (m : memory) (root : Z) (G : tables) (layout : KE_USER_MODE_LAYOUT) : Prop := {
  uf_tables va mp t x i : UserRangeBase layout <= va < UserRangeEndExclusive layout ->
    translate m root va = Some mp -> UserAccessible mp = true -> G !! t = Some x -> 0 <= i < 512 ->
    PhysicalBase mp - PhysicalBase mp mod 8 <> entry_at t i;
  uf_once va1 va2 mp1 mp2 :
    UserRangeBase layout <= va1 < UserRangeEndExclusive layout -> UserRangeBase layout <= va2 < UserRangeEndExclusive layout ->
    translate m root va1 = Some mp1 -> translate m root va2 = Some mp2 ->
    UserAccessible mp1 = true -> UserAccessible mp2 = true -> PhysicalBase mp1 = PhysicalBase mp2 -> va1 = va2
}.

Lemma page_of_byte w m root va : user_page w m root (va - va mod PAGE_4KB) <-> user_page w m root va.
Proof.
  unfold user_page. rewrite (KvaHeap.translate_offset m root va).
  destruct (translate m root (va - va mod PAGE_4KB)) as [mp|]; cbn; [|by split; intros (? & ? & _)].
  split; intros (mp' & [= <-] & Hu & Hw); eexists; (split; [reflexivity | done]).
Qed.

Lemma user_page_at w m root va va' : va / PAGE_4KB = va' / PAGE_4KB -> user_page w m root va -> user_page w m root va'.
Proof.
  intros E. rewrite <- (page_of_byte _ _ _ va), <- (page_of_byte _ _ _ va').
  replace (va' - va' mod PAGE_4KB) with (va - va mod PAGE_4KB); [done|]. unfold PAGE_4KB in *. div_lia.
Qed.

Lemma walk_present m l t va u mp : hw_walk m l t va u = Some mp -> Present mp = true.
Proof.
  revert t u. induction l as [|l IH]; intros t u; [done|]. cbn [hw_walk]. cbv zeta.
  destruct (has _ PTE_PRESENT); [|done]. cbn [negb]. destruct (bool_decide _ || _); [by intros [= <-] | apply IH].
Qed.

Lemma walk_writable m root G va l t u mp : tree m root G -> upper_writable m G -> on_path G va t l ->
  hw_walk m l t va u = Some mp -> hw_writable m l t va = has (Attributes mp) PTE_WRITABLE.
Proof.
  intros T W. revert t u. induction l as [|l IH]; intros t u Ht; [done|]. cbn [hw_walk hw_writable]. cbv zeta.
  set (e := m (entry_at t (vindex (S l) va))) in *. destruct (has e PTE_PRESENT) eqn:P; [|done]. cbn [negb andb].
  destruct (bool_decide (S l = 1%nat) || bool_decide (S l = 2 \/ S l = 3)%nat && has e PTE_PAGE_SIZE) eqn:L.
  { intros [= <-]. cbn. by rewrite andb_true_r. }
  apply orb_false_iff in L as [L1 L2]. apply bool_decide_eq_false_1 in L1. destruct l as [|l']; [done|].
  destruct (tr_child _ _ _ T _ _ _ _ Ht (vindex_range _ va) P) as [[HPS Hlt]|[HPS Hc]].
  { exfalso. fold e in HPS. rewrite HPS, andb_true_r in L2. apply bool_decide_eq_false_1 in L2. lia. }
  destruct (tree_child_frame _ _ _ _ _ _ _ T Ht (vindex_range _ va) P HPS) as [Ha _].
  assert (Hlev : (S l' < 4)%nat) by (pose proof (proj2 (tr_label _ _ _ T _ _ _ Ht)); lia).
  rewrite <- prefix_step in Hc by done. fold e in Ha, Hc. rewrite Ha. intros E.
  assert (Hw : has e PTE_WRITABLE = true) by (eapply W; [exact Ht | apply vindex_range | exact P | exact HPS]).
  rewrite Hw. cbn [andb orb]. by apply (IH _ _ Hc E).
Qed.

Lemma user_writable m root G va mp : tree m root G -> upper_writable m G -> translate m root va = Some mp ->
  hw_writable m 4 root va = has (Attributes mp) PTE_WRITABLE.
Proof.
  intros T W E. apply (walk_writable m root G va 4 root true mp T W); [|exact E].
  unfold on_path. rewrite prefix_top. apply T.
Qed.

(** ** Validation *)

Definition window (layout : KE_USER_MODE_LAYOUT) (a n : Z) : Prop :=
  UserRangeBase layout <= a /\ a + n <= UserRangeEndExclusive layout.

Definition layout_ok (layout : KE_USER_MODE_LAYOUT) : Prop :=
  0 <= UserRangeBase layout /\ UserRangeEndExclusive layout < 2 ^ 64.

Lemma validate_range_run layout a n : layout_ok layout -> is_u64 a -> is_u64 n -> n <> 0 ->
  (window layout a n /\ KiValidateUserModeRange (Some layout) a n true = (EC_SUCCESS, a + n)) \/
  (~ window layout a n /\ exists st e, st <> EC_SUCCESS /\ KiValidateUserModeRange (Some layout) a n true = (st, e)).
Proof.
  unfold layout_ok, is_u64, window. intros [L1 L2] Ha Hn Hnz. unfold KiValidateUserModeRange. cbn [negb].
  destruct (Z.leb_spec (UserRangeEndExclusive layout) (UserRangeBase layout)).
  { right. split; [lia|]. do 2 eexists; split; [|reflexivity]; done. }
  rewrite (proj2 (Z.eqb_neq n 0)) by done.
  destruct (Z.ltb_spec a (UserRangeBase layout)); [right; split; [lia|]; do 2 eexists; split; [|reflexivity]; done|].
  destruct (Z.leb_spec (UserRangeEndExclusive layout) a); [right; split; [lia|]; do 2 eexists; split; [|reflexivity]; done|].
  destruct (Z.lt_ge_cases (a + n) (2 ^ 64)) as [Hs|Hs].
  - rewrite (u64_small (a + n)) by word_lia. rewrite (proj2 (Z.ltb_ge _ _)) by lia.
    destruct (Z.ltb_spec (UserRangeEndExclusive layout) (a + n)); [right; split; [lia|]; do 2 eexists; split; [|reflexivity]; done | by left].
  - assert (E : u64 (a + n) < a) by (unfold u64; div_lia). rewrite (proj2 (Z.ltb_lt _ _) E).
    right. split; [lia|]. do 2 eexists; split; [|reflexivity]; done.
Qed.

Lemma validate_pages_run fuel space m G w p last : space_ok space m G ->
  0 <= p -> p <= last -> last < 2 ^ 64 -> p mod PAGE_4KB = 0 -> last mod PAGE_4KB = 0 ->
  (last - p) / PAGE_4KB < Z.of_nat fuel ->
  exists st, validate_pages fuel space m p last w = Ok st /\
    (st = EC_SUCCESS <-> forall q, p <= q <= last -> q mod PAGE_4KB = 0 -> user_page w m (RootPageTablePhys space) q).
Proof.
  intros S. revert p. induction fuel as [|fuel IH]; intros p Hp Hle Hlast Hal Hal' Hf.
  { unfold PAGE_4KB in *. div_lia. }
  cbn [validate_pages]. rewrite (query_page_run space m G p S) by (done || word_lia).
  assert (Hself : p <= p <= last) by lia.
  destruct (translate m (RootPageTablePhys space) p) as [mp|] eqn:E; simpl default.
  2: { cbn. eexists. split; [reflexivity|]. split; [done|]. intros Hall. destruct (Hall p Hself Hal) as (mp & E' & _). congruence. }
  rewrite (walk_present _ _ _ _ _ _ E). cbn [negb orb].
  destruct (UserAccessible mp) eqn:U; cbn [negb].
  2: { eexists. split; [reflexivity|]. split; [done|]. intros Hall. destruct (Hall p Hself Hal) as (mp' & E' & U' & _). congruence. }
  destruct (w && (Z.land (Attributes mp) PTE_WRITABLE =? 0)) eqn:Ew.
  { eexists. split; [reflexivity|]. split; [done|]. intros Hall. destruct (Hall p Hself Hal) as (mp' & E' & _ & W').
    apply andb_true_iff in Ew as [Ew1 Ew2]. assert (mp' = mp) as -> by congruence. specialize (W' Ew1). unfold has in W'.
    by rewrite Ew2 in W'. }
  assert (Hpage : user_page w m (RootPageTablePhys space) p).
  { exists mp. split_and!; [done | done |]. intros ->. unfold has. by destruct (Z.land _ _ =? 0). }
  destruct (Z.eqb_spec p last) as [->|Hne].
  { eexists. split; [reflexivity|]. split; [|done]. intros _ q Hq _. by replace q with last by lia. }
  assert (Hstep : p + PAGE_4KB <= last) by (unfold PAGE_4KB in *; div_lia).
  rewrite (u64_small (p + PAGE_4KB)) by (unfold PAGE_4KB in *; word_lia).
  destruct (IH (p + PAGE_4KB)) as (st & -> & Hst); [unfold PAGE_4KB in *; div_lia .. |].
  exists st. split; [done|]. rewrite Hst. split; intros Hall q Hq Hqa.
  - destruct (Z.eq_dec q p) as [->|Hqp]; [done|]. apply Hall; [|done]. unfold PAGE_4KB in *. div_lia.
  - apply Hall; [|done]. unfold PAGE_4KB in *. lia.
Qed.

(** The pages of a byte range are usable when each byte is. *)
Lemma validate_user_run space m G w a n : space_ok space m G -> 0 <= a -> 0 < n -> a + n < 2 ^ 64 ->
  exists st, KiValidateUserModePages (Some space) m a (a + n) w = Ok st /\
    (st = EC_SUCCESS <-> forall i, 0 <= i < n -> user_page w m (RootPageTablePhys space) (a + i)).
Proof.
  intros S Ha Hn Hs. unfold KiValidateUserModePages. rewrite (proj1 S). cbn [negb]. rewrite (proj2 (Z.eqb_neq _ _)) by lia.
  rewrite (u64_small (a + n - 1)) by word_lia. change PAGE_4KB with (2 ^ 12). rewrite !align_down_pow2 by word_lia. change (2 ^ 12) with PAGE_4KB.
  destruct (validate_pages_run (Datatypes.S (Z.to_nat ((a + n - 1 - (a + n - 1) mod PAGE_4KB - (a - a mod PAGE_4KB)) / PAGE_4KB)))
    space m G w (a - a mod PAGE_4KB) (a + n - 1 - (a + n - 1) mod PAGE_4KB) S) as (st & E & Hst);
    [unfold PAGE_4KB; div_lia .. |].
  exists st. split; [exact E|]. rewrite Hst. split; intros Hall.
  - intros i Hi. apply (user_page_at w m _ ((a + i) - (a + i) mod PAGE_4KB)); [unfold PAGE_4KB; div_lia|].
    apply Hall; unfold PAGE_4KB; div_lia.
  - intros q Hq Hqa. destruct (Z.lt_ge_cases q a) as [Hlt|Hge].
    + apply (user_page_at w m _ (a + 0)); [unfold PAGE_4KB in *; div_lia | apply Hall; lia].
    + replace q with (a + (q - a)) by lia. apply Hall. unfold PAGE_4KB in *. div_lia.
Qed.

(** ** Moving bytes *)

Section copies.
Context {P : Type} `{PageAllocator P}.
Implicit Type s : machine P.

Lemma user_byte_page w m root va : user_page w m root va -> exists mp b, translate m root va = Some mp /\
  b = phys_byte m (PhysicalBase mp) /\ user_byte m root va = Some b.
Proof. intros (mp & E & U & _). exists mp, (phys_byte m (PhysicalBase mp)). unfold user_byte. by rewrite E, U. Qed.

Lemma copy_from_run n a s : (forall i, 0 <= i < Z.of_nat n -> user_page false (mem s) (KiReadCr3 s) (a + i)) ->
  exists bytes, copy_from_user a n s = Ok bytes /\ length bytes = n /\
    forall i, (i < n)%nat -> user_byte (mem s) (KiReadCr3 s) (a + Z.of_nat i) = bytes !! i.
Proof.
  revert a. induction n as [|n IH]; intros a Hp; cbn [copy_from_user].
  { exists []. split_and!; [done | done | lia]. }
  destruct (user_byte_page false (mem s) (KiReadCr3 s) a) as (mp & b & E & -> & Hb).
  { rewrite <- (Z.add_0_r a). apply Hp. lia. }
  unfold read_byte. rewrite E. cbn [res_bind].
  destruct (IH (a + 1)) as (bytes & -> & Hl & Hbs).
  { intros i Hi. replace (a + 1 + i) with (a + (1 + i)) by lia. apply Hp. lia. }
  cbn [res_bind]. eexists. split; [reflexivity|]. split; [by cbn; rewrite Hl|].
  intros [|i] Hi; cbn; [by rewrite Z.add_0_r|]. rewrite <- Hbs by lia. f_equal. lia.
Qed.

(** The physical bytes behind a user range. *)
Fixpoint targets (m : memory) (root a : Z) (n : nat) : list Z :=
  match n with
  | O => []
  | S n => from_option PhysicalBase 0 (translate m root a) :: targets m root (a + 1) n
  end.

Lemma length_targets m root a n : length (targets m root a n) = n.
Proof. revert a. induction n as [|n IH]; intros a; cbn; [done | by rewrite IH]. Qed.

Lemma targets_at m root a n i : (i < n)%nat ->
  targets m root a n !! i = Some (from_option PhysicalBase 0 (translate m root (a + Z.of_nat i))).
Proof.
  revert a i. induction n as [|n IH]; intros a i Hi; [lia|]. destruct i as [|i]; cbn [targets lookup list_lookup]; [by rewrite Z.add_0_r|].
  rewrite IH by lia. by replace (a + Z.of_nat (S i)) with (a + 1 + Z.of_nat i) by lia.
Qed.

Lemma targets_ext m m' root a n : (forall va, translate m' root va = translate m root va) ->
  targets m' root a n = targets m root a n.
Proof. intros Tr. revert a. induction n as [|n IH]; intros a; cbn [targets]; [done|]. rewrite IH. by rewrite (Tr a). Qed.

(** Two memories with the same tables translate alike. *)
Lemma same_tables m m' root G : tree m root G ->
  (forall t x i, G !! t = Some x -> 0 <= i < 512 -> m' (entry_at t i) = m (entry_at t i)) ->
  (forall va, translate m' root va = translate m root va) /\ tree m' root G /\
  (upper_writable m G -> upper_writable m' G).
Proof.
  intros T Hw. assert (K : tables_kept true m m' G).
  { intros t l p i Ht Hi. rewrite (Hw t (l, p) i Ht Hi). split; [by right; left | by eapply tr_word]. }
  split_and!.
  - intros va. apply same_mapping_strict. by apply (kept_translate true m m' root G).
  - by apply (kept_tree true m m' root G).
  - intros W t l p i Ht Hi. rewrite (Hw t _ i Ht Hi). by apply (W t l p i).
Qed.

Lemma copy_to_run bytes a s G : tree (mem s) (KiReadCr3 s) G -> upper_writable (mem s) G ->
  (forall i, 0 <= i < Z.of_nat (length bytes) -> user_page true (mem s) (KiReadCr3 s) (a + i)) ->
  (forall i mp t x j, 0 <= i < Z.of_nat (length bytes) -> translate (mem s) (KiReadCr3 s) (a + i) = Some mp ->
     G !! t = Some x -> 0 <= j < 512 -> PhysicalBase mp - PhysicalBase mp mod 8 <> entry_at t j) ->
  copy_to_user a bytes s =
    Ok (set_mem s (put_bytes (zip (targets (mem s) (KiReadCr3 s) a (length bytes)) bytes) (mem s))).
Proof.
  revert a s. induction bytes as [|b bytes IH]; intros a s T W Hp Ht; cbn [copy_to_user length].
  { by destruct s. }
  cbn [targets zip zip_with put_bytes]. cbn [length] in Hp, Ht.
  destruct (Hp 0 ltac:(lia)) as (mp & E & U & Hw). rewrite Z.add_0_r in E. unfold write_byte. rewrite E.
  rewrite (user_writable _ _ G _ mp T W E), (Hw eq_refl). cbn [res_bind].
  destruct (same_tables (mem s) (set_phys_byte (mem s) (PhysicalBase mp) b) (KiReadCr3 s) G T) as (Tr & T' & W').
  { intros t x j Hg Hj. unfold set_phys_byte, store. rewrite (proj2 (Z.eqb_neq _ _)); [done|].
    intros Ec. symmetry in Ec. revert Ec. apply (Ht 0 mp t x j); [lia | by rewrite Z.add_0_r | done | done]. }
  set (s1 := set_mem s (set_phys_byte (mem s) (PhysicalBase mp) b)).
  assert (Tr1 : forall va, translate (mem s1) (KiReadCr3 s1) va = translate (mem s) (KiReadCr3 s) va) by exact Tr.
  rewrite (IH (a + 1) s1).
  - unfold s1. cbn. by rewrite (targets_ext _ _ _ _ _ Tr).
  - exact T'.
  - by apply W'.
  - intros i Hi. unfold user_page. rewrite Tr1. replace (a + 1 + i) with (a + (1 + i)) by lia. apply Hp. lia.
  - intros i mp' t x j Hi. rewrite Tr1. replace (a + 1 + i) with (a + (1 + i)) by lia. apply Ht. lia.
Qed.

(** The whole range: the bytes arrive, nothing else changes. *)
Lemma put_range m root a bytes G layout : tree m root G -> user_frames m root G layout ->
  window layout a (Z.of_nat (length bytes)) -> Forall is_u8 bytes ->
  (forall i, 0 <= i < Z.of_nat (length bytes) -> user_page true m root (a + i)) ->
  let m' := put_bytes (zip (targets m root a (length bytes)) bytes) m in
  (forall va, translate m' root va = translate m root va) /\
  (forall i, (i < length bytes)%nat -> user_byte m' root (a + Z.of_nat i) = bytes !! i) /\
  (forall pa, (forall i mp, 0 <= i < Z.of_nat (length bytes) -> translate m root (a + i) = Some mp -> PhysicalBase mp <> pa) ->
     phys_byte m' pa = phys_byte m pa).
Proof.
  intros T [U1 U2] Hwin Hb Hp m'. unfold window in Hwin.
  assert (Ht : forall i, (i < length bytes)%nat -> exists mp, translate m root (a + Z.of_nat i) = Some mp /\
    UserAccessible mp = true /\ targets m root a (length bytes) !! i = Some (PhysicalBase mp)).
  { intros i Hi. destruct (Hp (Z.of_nat i) ltac:(lia)) as (mp & E & U & _). exists mp. rewrite targets_at, E by done. done. }
  assert (Hin : forall pa, pa ∈ targets m root a (length bytes) -> exists i mp, (i < length bytes)%nat /\
    translate m root (a + Z.of_nat i) = Some mp /\ UserAccessible mp = true /\ pa = PhysicalBase mp).
  { intros pa [i Hi]%list_elem_of_lookup. pose proof (lookup_lt_Some _ _ _ Hi) as Hl. rewrite length_targets in Hl.
    destruct (Ht i Hl) as (mp & E & U & E'). exists i, mp. split_and!; [done | done | done | congruence]. }
  assert (Hfst : (zip (targets m root a (length bytes)) bytes).*1 = targets m root a (length bytes)).
  { apply fst_zip. by rewrite length_targets. }
  assert (Hsnd : (zip (targets m root a (length bytes)) bytes).*2 = bytes).
  { apply snd_zip. by rewrite length_targets. }
  destruct (same_tables m m' root G T) as (Tr & _ & _).
  { intros t x j Hg Hj. unfold m'. apply put_word. rewrite Hfst. intros pa Hpa.
    destruct (Hin pa Hpa) as (i & mp & Hi & E & U & ->). apply (U1 (a + Z.of_nat i) mp t x j); (lia || done). }
  split; [exact Tr|]. split.
  - intros i Hi. destruct (Ht i Hi) as (mp & E & U & Ei). unfold user_byte. rewrite Tr, E, U.
    destruct (lookup_lt_is_Some_2 bytes i Hi) as [b Eb]. rewrite Eb. f_equal. unfold m'.
    apply (put_at _ _ i); [by rewrite Hsnd | | by apply lookup_zip_with_Some; eauto].
    rewrite Hfst. apply NoDup_alt. intros j k pa Hj Hk.
    pose proof (lookup_lt_Some _ _ _ Hj) as Lj. pose proof (lookup_lt_Some _ _ _ Hk) as Lk. rewrite length_targets in Lj, Lk.
    destruct (Ht j Lj) as (mj & Ej & Uj & Tj), (Ht k Lk) as (mk & Ek & Uk & Tk).
    assert (a + Z.of_nat j = a + Z.of_nat k); [|lia]. apply (U2 _ _ mj mk); (lia || done || congruence).
  - intros pa Hpa. unfold m'. apply put_other; [by rewrite Hsnd|]. rewrite Hfst. intros Hi.
    destruct (Hin pa Hi) as (i & mp & Hi' & E & U & ->). apply (Hpa (Z.of_nat i) mp); [lia | done | done].
Qed.

(** What a copy between a kernel buffer and [n] bytes at [a] needs: the range
    in the window of the layout, the layout's root active, the pages usable. *)
Definition copy_allowed (w : bool) (layout : KE_USER_MODE_LAYOUT) (a n : Z) s : Prop :=
  window layout a n /\ KiReadCr3 s = LOwnerRootPageTablePhys layout /\
  forall i, 0 <= i < n -> user_page w (mem s) (KiReadCr3 s) (a + i).

(** The common part of both copies. *)
Lemma gate_run w layout a n s G : layout_ok layout -> is_u64 a -> is_u64 n -> n <> 0 ->
  tree (mem s) (KiReadCr3 s) G ->
  (copy_allowed w layout a n s /\ KiValidateUserModeRange (Some layout) a n true = (EC_SUCCESS, a + n) /\
   KiValidateUserModePages (Some (ownerView layout)) (mem s) a (a + n) w = Ok EC_SUCCESS) \/
  (~ copy_allowed w layout a n s /\
   ((exists st e, KiValidateUserModeRange (Some layout) a n true = (st, e) /\ st <> EC_SUCCESS) \/
    (KiValidateUserModeRange (Some layout) a n true = (EC_SUCCESS, a + n) /\
     (KiReadCr3 s <> LOwnerRootPageTablePhys layout \/
      exists st, KiValidateUserModePages (Some (ownerView layout)) (mem s) a (a + n) w = Ok st /\ st <> EC_SUCCESS)))).
Proof.
  intros L Ha Hn Hnz T. unfold copy_allowed.
  destruct (validate_range_run layout a n L Ha Hn Hnz) as [[Hw E]|(Hw & st & e & Hst & E)].
  2: { right. split; [tauto|]. left. by exists st, e. }
  destruct (Z.eq_dec (KiReadCr3 s) (LOwnerRootPageTablePhys layout)) as [Er|Er].
  2: { right. split; [tauto|]. right. split; [done|]. by left. }
  destruct (validate_user_run (ownerView layout) (mem s) G w a n) as (st & Ev & Hst).
  { split; [done|]. cbn. by rewrite <- Er. }
  { unfold is_u64 in *. lia. }
  { unfold is_u64 in *. lia. }
  { unfold window, layout_ok in *. lia. }
  cbn in Hst. rewrite <- Er in Hst. destruct (decide (st = EC_SUCCESS)) as [->|Hne].
  - left. split_and!; try done. by apply Hst.
  - right. split; [tauto|]. right. split; [done|]. right. by exists st.
Qed.

(** C16: [KeUserModeCopyInBytes] reads exactly what ring 3 may read.  It never
    faults, whatever the address and length; it succeeds exactly for a range
    inside the layout (a wrapped range is not), under the layout's own root,
    all of whose pages ring 3 can reach, and delivers the bytes ring 3 sees
    there; otherwise nothing is delivered. *)
Theorem copy_in_reads_user_memory layout a n s G :
  layout_ok layout -> is_u64 a -> is_u64 n -> tree (mem s) (KiReadCr3 s) G ->
  exists st out, KeUserModeCopyInBytes true a n (EC_SUCCESS, Some layout) s = Ok (st, out) /\
    (st = EC_SUCCESS <-> n = 0 \/ copy_allowed false layout a n s) /\
    match out with
    | Some bytes => st = EC_SUCCESS /\ length bytes = Z.to_nat n /\
        forall i, (i < length bytes)%nat -> user_byte (mem s) (KiReadCr3 s) (a + Z.of_nat i) = bytes !! i
    | None => st <> EC_SUCCESS
    end.
Proof.
  intros L Ha Hn T. unfold KeUserModeCopyInBytes. cbn [negb]. destruct (Z.eqb_spec n 0) as [->|Hnz].
  { do 2 eexists. split; [reflexivity|]. split; [split; [by left | done]|]. split_and!; [done | done | cbn; lia]. }
  destruct (gate_run false layout a n s G L Ha Hn Hnz T) as [(A & -> & Ev)|(NA & [(st & e & -> & Hst)|[-> [Er|(st & Ev & Hst)]]])];
    cbn [KeQueryActiveRootPageTable negb].
  - rewrite bool_decide_true by done. cbn [negb]. rewrite (proj2 (Z.eqb_eq _ _)) by apply A. cbn [negb].
    rewrite Ev. cbn [res_bind]. rewrite bool_decide_true by done. cbn [negb].
    destruct (copy_from_run (Z.to_nat n) a s) as (bytes & -> & Hl & Hb).
    { intros i Hi. apply A. unfold is_u64 in *. lia. }
    cbn [res_bind]. do 2 eexists. split; [reflexivity|]. split; [split; [by right | done]|]. rewrite Hl. by split_and!.
  - rewrite bool_decide_false by done. cbn [negb]. do 2 eexists. split; [reflexivity|]. split; [|done]. tauto.
  - rewrite bool_decide_true by done. cbn [negb]. rewrite (proj2 (Z.eqb_neq _ _)) by done. cbn [negb].
    do 2 eexists. split; [reflexivity|]. split; [|done]. split; [done | tauto].
  - rewrite bool_decide_true by done. cbn [negb]. destruct (Z.eqb_spec (KiReadCr3 s) (LOwnerRootPageTablePhys layout)); cbn [negb].
    + rewrite Ev. cbn [res_bind]. rewrite bool_decide_false by done. cbn [negb].
      do 2 eexists. split; [reflexivity|]. split; [|done]. tauto.
    + do 2 eexists. split; [reflexivity|]. split; [|done]. split; [done | tauto].
Qed.

(** C15: [KeUserModeCopyOutBytes] writes exactly where ring 3 may write.  It
    never faults and never touches a page table: it succeeds exactly for a
    range inside the layout, under the layout's own root, all of whose pages
    ring 3 can reach and write, after which ring 3 sees the bytes there, every
    other byte of physical memory is as before and no translation has changed;
    otherwise the machine is unchanged. *)
Theorem copy_out_writes_user_memory layout a bytes s G :
  layout_ok layout -> is_u64 a -> Z.of_nat (length bytes) < 2 ^ 64 -> Forall is_u8 bytes ->
  tree (mem s) (KiReadCr3 s) G -> upper_writable (mem s) G -> user_frames (mem s) (KiReadCr3 s) G layout ->
  let n := Z.of_nat (length bytes) in
  exists st s', KeUserModeCopyOutBytes a (Some bytes) n (EC_SUCCESS, Some layout) s = Ok (st, s') /\
    (st = EC_SUCCESS <-> n = 0 \/ copy_allowed true layout a n s) /\
    (st <> EC_SUCCESS -> s' = s) /\
    (st = EC_SUCCESS ->
       pmm s' = pmm s /\ cr3 s' = cr3 s /\
       (forall va, translate (mem s') (KiReadCr3 s) va = translate (mem s) (KiReadCr3 s) va) /\
       (forall i, (i < length bytes)%nat -> user_byte (mem s') (KiReadCr3 s) (a + Z.of_nat i) = bytes !! i) /\
       (forall pa, (forall i mp, 0 <= i < n -> translate (mem s) (KiReadCr3 s) (a + i) = Some mp -> PhysicalBase mp <> pa) ->
          phys_byte (mem s') pa = phys_byte (mem s) pa)).
Proof.
  intros L Ha Hlen Hb T W U n. unfold KeUserModeCopyOutBytes. rewrite bool_decide_true by eauto. cbn [negb andb].
  destruct (Z.eqb_spec n 0) as [En|Hnz].
  { do 2 eexists. split; [reflexivity|]. split; [split; [by left | done]|]. split; [done|]. intros _. split_and!; try done.
    unfold n in En. lia. }
  assert (Hn : is_u64 n) by (unfold is_u64, n; lia).
  destruct (gate_run true layout a n s G L Ha Hn Hnz T) as [(A & -> & Ev)|(NA & [(st & e & -> & Hst)|[-> [Er|(st & Ev & Hst)]]])];
    cbn [KeQueryActiveRootPageTable negb].
  - rewrite bool_decide_true by done. cbn [negb]. rewrite (proj2 (Z.eqb_eq _ _)) by apply A. cbn [negb].
    rewrite Ev. cbn [res_bind]. rewrite bool_decide_true by done. cbn [negb]. destruct A as (Hw & Er & Hp).
    rewrite (copy_to_run bytes a s G T W Hp).
    2: { intros i mp t x j Hi E. destruct (Hp i Hi) as (mp' & E' & Um & _). assert (mp' = mp) as -> by congruence.
         apply (uf_tables _ _ _ _ U (a + i) mp t x j); [unfold window in Hw; lia | done | done]. }
    cbn [res_bind]. do 2 eexists. split; [reflexivity|]. split; [split; [by right | done]|]. split; [done|]. intros _.
    split; [done|]. split; [done|]. by apply (put_range (mem s) (KiReadCr3 s) a bytes G layout).
  - rewrite bool_decide_false by done. cbn [negb]. do 2 eexists. split; [reflexivity|]. split; [|done]. tauto.
  - rewrite bool_decide_true by done. cbn [negb]. rewrite (proj2 (Z.eqb_neq _ _)) by done. cbn [negb].
    do 2 eexists. split; [reflexivity|]. split; [|done]. split; [done | tauto].
  - rewrite bool_decide_true by done. cbn [negb]. destruct (Z.eqb_spec (KiReadCr3 s) (LOwnerRootPageTablePhys layout)); cbn [negb].
    + rewrite Ev. cbn [res_bind]. rewrite bool_decide_false by done. cbn [negb].
      do 2 eexists. split; [reflexivity|]. split; [|done]. tauto.
    + do 2 eexists. split; [reflexivity|]. split; [|done]. split; [done | tauto].
Qed.
End copies.

Import BitmapDevice.

(** ** A machine with one page of user memory *)

Definition sample_layout : KE_USER_MODE_LAYOUT :=
  mkLayout sample_va (sample_va + PAGE_4KB) sample_va 0 sample_va (sample_va + PAGE_4KB) sample_root.

Lemma sample_upper : upper_writable sample_mem sample_tables.
Proof.
  intros t l p i Ht Hi. unfold sample_tables in Ht. rewrite !lookup_insert, lookup_singleton in Ht.
  assert (Hw : forall x, sample_mem x = 0 \/ has (sample_mem x) PTE_WRITABLE = true).
  { intros x. unfold sample_mem, store, clear_page.
    repeat match goal with |- context [if ?b then _ else _] => destruct b end; (left; reflexivity) || (right; reflexivity). }
  destruct (Hw (entry_at t i)) as [-> | ->]; done.
Qed.

Lemma sample_byte va mp : UserRangeBase sample_layout <= va < UserRangeEndExclusive sample_layout ->
  translate sample_mem sample_root va = Some mp -> PhysicalBase mp = 0x5000 + (va - sample_va).
Proof.
  intros Hva. change (sample_va <= va < sample_va + PAGE_4KB) in Hva. rewrite KvaHeap.translate_offset. assert (E : va - va mod PAGE_4KB = sample_va /\ va mod PAGE_4KB = va - sample_va).
  { unfold sample_va, PAGE_4KB in *. div_lia. }
  destruct E as [-> ->]. rewrite sample_translation. intros [= <-]. reflexivity.
Qed.

Lemma sample_user_frames : user_frames sample_mem sample_root sample_tables sample_layout.
Proof.
  split.
  - intros va mp t x i Hva E _ Ht Hi. apply sample_byte in E; [|done]. change (sample_va <= va < sample_va + PAGE_4KB) in Hva.
    assert (Hr : 0x8000 <= t). { unfold sample_tables in Ht. rewrite !lookup_insert, lookup_singleton in Ht. by repeat case_decide; subst. }
    rewrite E. unfold entry_at, PAGE_4KB in *. set (o := va - sample_va). assert (0 <= o < 4096) by (subst o; lia). clearbody o. div_lia.
  - intros va1 va2 mp1 mp2 H1 H2 E1 E2 _ _ E. apply sample_byte in E1; [|done]. apply sample_byte in E2; [|done]. lia.
Qed.

Lemma sample_page w va : sample_va <= va < sample_va + PAGE_4KB -> user_page w sample_mem sample_root va.
Proof.
  intros Hva. apply page_of_byte. replace (va - va mod PAGE_4KB) with sample_va by (unfold sample_va, PAGE_4KB in *; div_lia).
  exists (mkMapping true false true 1 PAGE_4KB 0x5000 0x5067). split_and!; [exact sample_translation | done | done].
Qed.

Lemma copy_in_reads_user_memory_witness :
  exists st out, KeUserModeCopyInBytes true (sample_va + 8) 4 (EC_SUCCESS, Some sample_layout) sample_machine = Ok (st, out) /\
    st = EC_SUCCESS /\ out = Some [0; 0; 0; 0].
Proof.
  destruct (copy_in_reads_user_memory sample_layout (sample_va + 8) 4 sample_machine sample_tables) as (st & out & E & _ & _);
    [by vm_compute | by vm_compute | by vm_compute | apply sample_space_ok |].
  exists st, out. split; [exact E|].
  assert (R : KeUserModeCopyInBytes true (sample_va + 8) 4 (EC_SUCCESS, Some sample_layout) sample_machine =
    Ok (EC_SUCCESS, Some [0; 0; 0; 0])) by (vm_compute; reflexivity).
  rewrite R in E. injection E as <- <-. split; reflexivity.
Defined.

Lemma copy_out_writes_user_memory_witness :
  exists s', KeUserModeCopyOutBytes (sample_va + 6) (Some [1; 2; 3]) 3 (EC_SUCCESS, Some sample_layout) sample_machine = Ok (EC_SUCCESS, s') /\
    user_byte (mem s') sample_root (sample_va + 8) = Some 3.
Proof.
  destruct (copy_out_writes_user_memory sample_layout (sample_va + 6) [1; 2; 3] sample_machine sample_tables)
    as (st & s' & E & [_ Hs] & _ & Ho);
    [by vm_compute | by vm_compute | done | repeat constructor; by vm_compute | apply sample_space_ok | exact sample_upper |
     exact sample_user_frames |].
  assert (st = EC_SUCCESS) as ->.
  { apply Hs. right. split; [split; by vm_compute|]. split; [reflexivity|]. intros i Hi. apply sample_page. cbn in Hi.
    unfold PAGE_4KB. lia. }
  exists s'. split; [exact E|]. destruct (Ho eq_refl) as (_ & _ & _ & Hb & _). exact (Hb 2%nat ltac:(cbn; lia)).
Defined.
