(* ===== verification/LowHalf.v ===== *)
(** * The user half of a process's page tables

    The root of a process shares its upper 256 entries with the kernel, so the
    tables below it are not a tree of their own.  [low R m] is memory with
    those entries blanked: the user half is a tree there, and what the calls of
    [address_space.c] do to a user address they do the same way with the
    entries in place ([over]). *)

From Stdlib Require Import FunctionalExtensionality.
From S2P Require Import Prelude Pmm PageTable.

Local Open Scope Z_scope.

Module LowHalf.
Import PageTable.

Definition USER_LIMIT : Z := 2 ^ 47.

(** The words of the upper half of the root table [R]. *)
Definition high_word (R x : Z) : bool := (R + 2048 <=? x) && (x <? R + PAGE_4KB).

Definition overlay (R : Z) (h m : memory) : memory := fun x => if high_word R x then h x else m x.
Definition low (R : Z) (m : memory) : memory := overlay R (fun _ => 0) m.

Definition over {P} (R : Z) (h : memory) (s : machine P) : machine P := set_mem s (overlay R h (mem s)).

Lemma overlay_low R m : overlay R m (low R m) = m.
Proof. apply functional_extensionality. intros x. unfold low, overlay. by destruct (high_word R x). Qed.

Lemma overlay_in R h m x : high_word R x = false -> overlay R h m x = m x.
Proof. unfold overlay. by intros ->. Qed.

Lemma overlay_store R h m a v : high_word R a = false -> store (overlay R h m) a v = overlay R h (store m a v).
Proof.
  intros Ha. apply functional_extensionality. intros x. unfold store, overlay.
  destruct (Z.eqb_spec x a) as [->|]; [by rewrite Ha | done].
Qed.

Lemma overlay_clear R h m t : frame R -> frame t -> t <> R -> clear_page (overlay R h m) t = overlay R h (clear_page m t).
Proof.
  intros [HR _] [Ht _] Hne. apply functional_extensionality. intros x. unfold clear_page, overlay.
  destruct ((t <=? x) && (x <? t + PAGE_4KB)) eqn:E; [|done].
  replace (high_word R x) with false; [done|]. symmetry. apply not_true_iff_false. intros Eh. apply Hne.
  unfold high_word in Eh. rewrite andb_true_iff, Z.leb_le, Z.ltb_lt in E, Eh. unfold PAGE_4KB in *. div_lia.
Qed.

Lemma low_entry R i : 0 <= i < 256 -> high_word R (entry_at R i) = false.
Proof. intros Hi. unfold high_word, entry_at. apply andb_false_iff. left. apply Z.leb_gt. lia. Qed.

Lemma other_entry R t i : frame R -> frame t -> t <> R -> 0 <= i < 512 -> high_word R (entry_at t i) = false.
Proof.
  intros [HR _] [Ht _] Hne Hi. apply not_true_iff_false. intros E. apply Hne. unfold high_word, entry_at in E.
  rewrite andb_true_iff, Z.leb_le, Z.ltb_lt in E. unfold PAGE_4KB in *. div_lia.
Qed.

(** A user address uses the lower half of the root. *)
Lemma vindex_low va : 0 <= va < USER_LIMIT -> 0 <= vindex 4 va < 256.
Proof. intros Hva. unfold vindex, USER_LIMIT in *. change (span 4) with (2 ^ 39). div_lia. Qed.

(** The entries the walk of a user address reads are none of the blanked ones. *)
Lemma path_entry m R G va t l : tree m R G -> 0 <= va < USER_LIMIT -> on_path G va t l ->
  high_word R (entry_at t (vindex l va)) = false.
Proof.
  intros T Hva Ht. pose proof (tr_label _ _ _ T _ _ _ Ht) as [Hf Hl].
  pose proof (tr_label _ _ _ T _ _ _ (tr_root _ _ _ T)) as [HfR _].
  destruct (decide (t = R)) as [->|Hne]; [|by apply other_entry; try apply vindex_range].
  assert (l = 4%nat) as -> by (pose proof (tr_root _ _ _ T); unfold on_path in Ht; congruence).
  by apply low_entry, vindex_low.
Qed.

(** The processor reads the same entries with or without the upper half. *)
Lemma translate_over m h R G va : tree m R G -> 0 <= va < USER_LIMIT ->
  translate (overlay R h m) R va = translate m R va.
Proof.
  intros T Hva. apply same_mapping_strict. apply (walk_kept true m (overlay R h m) R G); try done.
  - unfold on_path. rewrite prefix_top. apply T.
  - intros t' l' Hp _. rewrite overlay_in by by eapply path_entry. right. by left.
Qed.

(** ** [KePtQueryPage] and [KePtUnmapPage] *)

Definition user_space (R : Z) : KE_KERNEL_ADDRESS_SPACE := mkKernelSpace R [] 0 0 true.

Lemma user_space_ok R m G : tree m R G -> space_ok (user_space R) m G.
Proof. by split. Qed.

(** One step of the walk down. *)
Lemma path_child m R G va t l : tree m R G -> on_path G va t (S (S l)) ->
  has (m (entry_at t (vindex (S (S l)) va))) PTE_PRESENT = true ->
  has (m (entry_at t (vindex (S (S l)) va))) PTE_PAGE_SIZE = false ->
  on_path G va (Z.land (m (entry_at t (vindex (S (S l)) va))) PAGE_MASK) (S l).
Proof.
  intros T Ht HP HS. destruct (tr_child _ _ _ T _ _ _ _ Ht (vindex_range _ va) HP) as [[E _]|[_ Hc]]; [congruence|].
  unfold on_path. rewrite Hc, (prefix_step (S l)); [done|]. pose proof (proj2 (tr_label _ _ _ T _ _ _ Ht)). lia.
Qed.

(** A walk that ended reads only entries below the overlay. *)
Ltac user_acc := split; [done|]; intros w [= <-]; unfold KiIsWalkUserAccessible, KiIsUserReachableEntry;
  cbn; rewrite ?overlay_in by done; (split; [done|]; intros leaf E; congruence).

Lemma walk_over m h R G va : tree m R G -> 0 <= va < USER_LIMIT ->
  KiWalkImportedRoot (Some (user_space R)) (overlay R h m) va = KiWalkImportedRoot (Some (user_space R)) m va /\
  forall w, KiWalkImportedRoot (Some (user_space R)) m va = (EC_SUCCESS, Some w) ->
    KiIsWalkUserAccessible (overlay R h m) w = KiIsWalkUserAccessible m w /\
    forall leaf, LeafEntry w = Some leaf -> high_word R leaf = false.
Proof.
  intros T Hva. unfold KiWalkImportedRoot. cbn [Initialized user_space RootPageTablePhys negb].
  destruct (HO_IS_ALIGNED va PAGE_4KB); cbn [negb]; [|done].
  destruct (index_levels va) as (-> & -> & -> & ->); [unfold USER_LIMIT in *; lia|].
  pose proof (tr_root _ _ _ T) as R4. rewrite <- (prefix_top va) in R4. change (on_path G va R 4) in R4.
  pose proof (path_entry m R G va R 4 T Hva R4) as H4. rewrite (overlay_in _ _ _ _ H4).
  set (e4 := entry_at R (vindex 4 va)) in *.
  destruct (has (m e4) PTE_PRESENT) eqn:P4; cbn [negb]; [|user_acc].
  assert (S4 : has (m e4) PTE_PAGE_SIZE = false).
  { destruct (tr_child _ _ _ T _ _ _ _ R4 (vindex_range _ va) P4) as [[_ ?]|[? _]]; [lia | done]. }
  pose proof (path_child m R G va R 2 T R4 P4 S4) as R3. fold e4 in R3.
  pose proof (path_entry m R G va _ 3 T Hva R3) as H3. rewrite (overlay_in _ _ _ _ H3).
  set (e3 := entry_at (Z.land (m e4) PAGE_MASK) (vindex 3 va)) in *.
  destruct (has (m e3) PTE_PRESENT) eqn:P3; cbn [negb]; [|user_acc].
  destruct (has (m e3) PTE_PAGE_SIZE) eqn:S3; [user_acc|].
  pose proof (path_child m R G va _ 1 T R3 P3 S3) as R2. fold e3 in R2.
  pose proof (path_entry m R G va _ 2 T Hva R2) as H2. rewrite (overlay_in _ _ _ _ H2).
  set (e2 := entry_at (Z.land (m e3) PAGE_MASK) (vindex 2 va)) in *.
  destruct (has (m e2) PTE_PRESENT) eqn:P2; cbn [negb]; [|user_acc].
  destruct (has (m e2) PTE_PAGE_SIZE) eqn:S2; [user_acc|].
  pose proof (path_child m R G va _ 0 T R2 P2 S2) as R1. fold e2 in R1.
  pose proof (path_entry m R G va _ 1 T Hva R1) as H1. rewrite (overlay_in _ _ _ _ H1).
  set (e1 := entry_at (Z.land (m e2) PAGE_MASK) (vindex 1 va)) in *.
  destruct (has (m e1) PTE_PRESENT) eqn:P1; cbn [negb]; user_acc.
Qed.

Lemma query_over m h R G va : tree m R G -> 0 <= va < USER_LIMIT ->
  KePtQueryPage (Some (user_space R)) (overlay R h m) va true = KePtQueryPage (Some (user_space R)) m va true.
Proof.
  intros T Hva. destruct (walk_over m h R G va T Hva) as [E W]. unfold KePtQueryPage. rewrite E.
  destruct (KiWalkImportedRoot (Some (user_space R)) m va) as [st [w|]] eqn:Ew; [|done].
  destruct st; try done. by destruct (W w eq_refl) as [-> _].
Qed.

Section calls.
Context `{PageAllocatorLaws P}.
Implicit Type s : machine P.

Lemma unmap_over s h R G va : tree (mem s) R G -> 0 <= va < USER_LIMIT ->
  KePtUnmapPage (Some (user_space R)) va (over R h s) =
    let '(st, s') := KePtUnmapPage (Some (user_space R)) va s in (st, over R h s').
Proof.
  intros T Hva. destruct (walk_over (mem s) h R G va T Hva) as [E W]. unfold KePtUnmapPage.
  change (mem (over R h s)) with (overlay R h (mem s)). rewrite E.
  destruct (KiWalkImportedRoot (Some (user_space R)) (mem s) va) as [st [w|]] eqn:Ew; [|by destruct st].
  destruct st; try done. destruct (LeafEntry w) as [leaf|] eqn:El; [|done].
  destruct (negb (WalkLevel w =? 1)); [done|].
  destruct (W w eq_refl) as [_ Hl]. rewrite overlay_store by by apply Hl.
  unfold over, KiReadCr3, KiInvalidatePage. cbn. by destruct (_ =? _).
Qed.

(** ** [KePtMapPage] *)

Definition over_setup (R : Z) (h : memory) (w : setup (P:=P)) : setup :=
  mkSetup (over R h (machine_of w)) (newTables w) (promotions w).

(** The entries an undo log names lie in the lower half. *)
Definition low_logs (R : Z) (w : setup (P:=P)) : Prop :=
  forall a, a ∈ new_parents w \/ a ∈ promoted w -> high_word R a = false.

Lemma over_mem R h s m : set_mem (over R h s) (overlay R h m) = over R h (set_mem s m).
Proof. by destruct s. Qed.

Lemma ensure_over R h a attrs w st w' out :
  frame R -> high_word R a = false -> low_logs R w ->
  (forall t, t ∈ new_frames w' -> frame t /\ t <> R) ->
  KiEnsureChildTable a attrs w = Ok (st, w', out) ->
  KiEnsureChildTable a attrs (over_setup R h w) = Ok (st, over_setup R h w', out) /\ low_logs R w'.
Proof.
  intros HR Ha L Hn. unfold KiEnsureChildTable. cbn [over_setup machine_of newTables promotions].
  change (mem (over R h (machine_of w))) with (overlay R h (mem (machine_of w))).
  change (pmm (over R h (machine_of w))) with (pmm (machine_of w)). rewrite (overlay_in _ _ _ _ Ha).
  destruct (has (mem (machine_of w) a) PTE_PRESENT); cbn [negb].
  - destruct (has (mem (machine_of w) a) PTE_PAGE_SIZE); [by intros [= <- <- <-]|].
    destruct (has attrs PTE_USER && _); [|by intros [= <- <- <-]].
    destruct (3 <=? Z.of_nat (length (promotions w))); [by intros [= <- <- <-]|]. intros [= <- <- <-].
    rewrite overlay_store by done. rewrite over_mem, (overlay_in _ _ _ _ Ha). split; [done|].
    intros b [Hb|Hb]; [apply L; by left|]. unfold promoted in Hb. cbn in Hb. apply elem_of_cons in Hb as [->|Hb]; [done|].
    apply L. by right.
  - destruct (pmm_alloc (pmm (machine_of w)) 1 None) as [[[st0 p'] tp]| | |]; cbn [res_bind]; try done.
    destruct tp as [tp|]; [|destruct st0; by intros [= <- <- <-]].
    destruct st0; try by intros [= <- <- <-].
    destruct (3 <=? Z.of_nat (length (newTables w))); [done|]. intros [= <- <- <-].
    destruct (Hn tp) as [Ht Hne]; [unfold new_frames; cbn; by left|].
    rewrite overlay_clear, overlay_store by done. split; [by destruct (machine_of w)|].
    intros b [Hb|Hb]; [|apply L; by right]. unfold new_parents in Hb. cbn in Hb. apply elem_of_cons in Hb as [->|Hb]; [done|].
    apply L. by left.
Qed.

Lemma rollback_over R h ts prs s :
  (forall a, a ∈ ParentEntry <$> ts -> high_word R a = false) -> (forall a, a ∈ Entry <$> prs -> high_word R a = false) ->
  KiRollbackMapSetup ts prs (over R h s) = let* s' := KiRollbackMapSetup ts prs s in Ok (over R h s').
Proof.
  intros Ht Hp. unfold KiRollbackMapSetup.
  assert (E1 : KiRollbackNewTables ts (over R h s) = let* s' := KiRollbackNewTables ts s in Ok (over R h s')).
  { revert s. induction ts as [|t ts IH]; intros s; [done|]. cbn [KiRollbackNewTables].
    change (mem (over R h s)) with (overlay R h (mem s)). change (pmm (set_mem (over R h s) _)) with (pmm s).
    rewrite overlay_store by (apply Ht; by left). rewrite over_mem. cbn [pmm set_mem].
    destruct (pmm_free (pmm s) (TablePhys t) 1) as [[st p]| | |]; cbn [res_bind]; try done.
    rewrite <- IH by (intros a Ha; apply Ht; by right). by destruct s. }
  rewrite E1. destruct (KiRollbackNewTables ts s) as [s1| | |]; cbn [res_bind]; try done. f_equal. clear E1.
  revert s1. induction prs as [|p prs IH]; intros s1; [done|]. cbn [KiRollbackEntryPromotions].
  change (mem (over R h s1)) with (overlay R h (mem s1)).
  assert (Hl : high_word R (Entry p) = false) by (apply Hp; by left).
  rewrite (overlay_in _ _ _ _ Hl), overlay_store, over_mem by done. apply IH. intros a Ha. apply Hp. by right.
Qed.

Lemma fail_over R h st w : low_logs R w ->
  map_fail st (over_setup R h w) = let* (st, s') := map_fail st w in Ok (st, over R h s').
Proof.
  intros L. unfold map_fail. cbn [over_setup machine_of newTables promotions].
  rewrite rollback_over by (intros a Ha; apply L; (left; exact Ha) || (right; exact Ha)).
  by destruct (KiRollbackMapSetup _ _ _).
Qed.

(** New tables are taken from free frames, so none of them is the root. *)
Lemma new_frames_other R s0 G0 w G : tree (mem s0) R G0 -> tables_used G0 (pmm s0) -> undo_ok R s0 G0 w G ->
  forall t, t ∈ new_frames w -> frame t /\ t <> R.
Proof.
  intros T Used U t Ht. destruct (un_fresh _ _ _ _ _ U t Ht) as [Hf Hs]. split; [done|]. intros ->.
  by apply (Used R (4%nat, 0)); [apply T|].
Qed.

Lemma map_over s h R G va pa attrs : tree (mem s) R G -> frames_ok (pmm s) -> tables_used G (pmm s) ->
  0 <= va < USER_LIMIT -> va mod PAGE_4KB = 0 -> frame pa ->
  KePtMapPage (Some (user_space R)) va pa attrs (over R h s) =
    let* (st, s') := KePtMapPage (Some (user_space R)) va pa attrs s in Ok (st, over R h s').
Proof.
  intros T Hf Used Hva Hal Hpa. pose proof (tr_label _ _ _ T _ _ _ (tr_root _ _ _ T)) as [HR _].
  destruct (index_levels va) as (I4 & I3 & I2 & I1); [unfold USER_LIMIT in *; lia|].
  unfold KePtMapPage. cbn [Initialized user_space RootPageTablePhys negb]. rewrite !is_aligned_4k, Hal, (proj1 Hpa), I4, I3, I2, I1.
  change (0 =? 0) with true. cbn [negb orb].
  pose proof (tr_root _ _ _ T) as R4. rewrite <- (prefix_top va) in R4. change (on_path G va R 4) in R4.
  change (mkSetup (over R h s) [] []) with (over_setup R h (mkSetup s [] [])).
  assert (L0 : low_logs R (mkSetup s [] [])) by (intros a [Ha|Ha]; by apply elem_of_nil in Ha).
  (* the three tables on the way *)
  destruct (ensure_run R s G (mkSetup s [] []) G R 2 _ _ attrs T Used (undo_start R s G T Hf)
    R4 (vindex_range 4 va)) as (st1 & w1 & [t3|] & E1 & H1); [simpl; lia..| |].
  2: { destruct H1 as [_ ->]. destruct (ensure_over R h _ _ _ _ _ _ HR (path_entry _ _ _ _ _ _ T Hva R4) L0
         (new_frames_other _ _ _ _ _ T Used (undo_start R s G T Hf)) E1) as [-> _]. by rewrite E1. }
  destruct H1 as (_ & G1 & U1 & S1 & R3 & L1 & L1' & _). rewrite <- prefix_step in R3 by lia.
  destruct (ensure_over R h _ _ _ _ _ _ HR (path_entry _ _ _ _ _ _ T Hva R4) L0 (new_frames_other _ _ _ _ _ T Used U1) E1)
    as [-> LL1]. rewrite E1. cbn [res_bind]. cbn [newTables promotions length] in L1, L1'.
  pose proof (path_entry _ _ _ _ _ _ (un_tree _ _ _ _ _ U1) Hva R3) as N3.
  destruct (ensure_run R s G w1 G1 t3 1 _ _ attrs T Used U1 R3 (vindex_range 3 va))
    as (st2 & w2 & [t2|] & E2 & H2); [lia..| |].
  2: { destruct H2 as [_ ->]. destruct (ensure_over R h _ _ _ _ _ _ HR N3 LL1 (new_frames_other _ _ _ _ _ T Used U1) E2) as [-> _].
       rewrite E2. cbn [res_bind]. by apply fail_over. }
  destruct H2 as (_ & G2 & U2 & S2 & R2 & L2 & L2' & _). rewrite <- prefix_step in R2 by lia.
  destruct (ensure_over R h _ _ _ _ _ _ HR N3 LL1 (new_frames_other _ _ _ _ _ T Used U2) E2) as [-> LL2].
  rewrite E2. cbn [res_bind]. pose proof (path_entry _ _ _ _ _ _ (un_tree _ _ _ _ _ U2) Hva R2) as N2.
  destruct (ensure_run R s G w2 G2 t2 0 _ _ attrs T Used U2 R2 (vindex_range 2 va))
    as (st3 & w3 & [t1|] & E3 & H3); [lia..| |].
  2: { destruct H3 as [_ ->]. destruct (ensure_over R h _ _ _ _ _ _ HR N2 LL2 (new_frames_other _ _ _ _ _ T Used U2) E3) as [-> _].
       rewrite E3. cbn [res_bind]. by apply fail_over. }
  destruct H3 as (_ & G3 & U3 & S3 & R1 & _). rewrite <- prefix_step in R1 by lia.
  destruct (ensure_over R h _ _ _ _ _ _ HR N2 LL2 (new_frames_other _ _ _ _ _ T Used U3) E3) as [-> LL3].
  rewrite E3. cbn [res_bind]. pose proof (path_entry _ _ _ _ _ _ (un_tree _ _ _ _ _ U3) Hva R1) as N1.
  (* the leaf *)
  change (machine_of (over_setup R h w3)) with (over R h (machine_of w3)).
  change (mem (over R h (machine_of w3))) with (overlay R h (mem (machine_of w3))). rewrite (overlay_in _ _ _ _ N1).
  destruct (has (mem (machine_of w3) (entry_at t1 (vindex 1 va))) PTE_PRESENT); [by apply fail_over|].
  rewrite overlay_store, over_mem by done. cbn [res_bind]. unfold over, KiReadCr3, KiInvalidatePage. cbn. by destruct (_ =? R).
Qed.
End calls.
End LowHalf.
