(* ===== verification/Staging.v ===== *)
(** * Staging user images ([ke/user_mode.c])

    A staging maps three fresh pages under a process's root: the code, the
    constants and the stack.  The pages are filled through temporary mappings
    of the kernel's virtual-address allocator, so the whole of [Kva] is part
    of the state; staging objects live in the kernel's small-object heap
    ([SmallObjects]), addressed by pointers. *)

From S2P Require Import Prelude Pmm PageTable Heap Parts Kva KvaInv KvaLayout KvaMach KvaOps KvaCalls KvaHeap UserMode.

Local Open Scope Z_scope.

Module Staging.
Import PageTable Kva UserMode.

(** [kzalloc] and [kfree] of [allocator.c] as this file sees them: an address
    (0 for none), and whatever else the allocator does to the kernel's pages. *)
Class SmallObjects (P : Type) := {
  objects_kzalloc : Z -> KE_KVA_STATE P -> Z * KE_KVA_STATE P;
  objects_kfree : Z -> KE_KVA_STATE P -> KE_KVA_STATE P;
}.

(** A byte buffer is [None] for a null pointer. *)
Record KE_USER_MODE_CREATE_PARAMS := mkParams {
  CodeBytes : option (list Z);
  CodeLength : Z;
  EntryOffset : Z;
  ConstBytes : option (list Z);
  ConstLength : Z
}.

Definition STAGING_SIZE : Z := 152.

Record USER_MODE (P : Type) := mkUM { kva : KE_KVA_STATE P; objects : gmap Z KE_USER_MODE_STAGING }.
#[global] Arguments mkUM {P}.
#[global] Arguments kva {P}.
#[global] Arguments objects {P}.

Section staging.
Context {P : Type} `{PageAllocator P} `{SmallObjects P}.
Implicit Types (u : USER_MODE P) (s : KE_KVA_STATE P).

Definition set_kva s u : USER_MODE P := mkUM s (objects u).
Definition get_staging (a : Z) u : res KE_USER_MODE_STAGING :=
  match objects u !! a with Some g => Ok g | None => Oob end.
Definition put_staging (a : Z) (g : KE_USER_MODE_STAGING) u : USER_MODE P := mkUM (kva u) (<[a := g]> (objects u)).

Definition succeeded (status : HO_STATUS) : bool := bool_decide (status = EC_SUCCESS).

Definition KiBuildProcessRootView (procSpace : KE_PROCESS_ADDRESS_SPACE) : KE_KERNEL_ADDRESS_SPACE :=
  mkKernelSpace (PsRootPageTablePhys procSpace) [] 0 0 (PsInitialized procSpace).

Definition KiValidateCreateParams (params : option KE_USER_MODE_CREATE_PARAMS) : HO_STATUS :=
  match params with
  | None => EC_ILLEGAL_ARGUMENT
  | Some p =>
      if bool_decide (CodeBytes p = None) || (CodeLength p =? 0) || (EX_USER_IMAGE_PAGE_SIZE <? CodeLength p)
      then EC_ILLEGAL_ARGUMENT else
      if CodeLength p <=? EntryOffset p then EC_ILLEGAL_ARGUMENT else
      if negb (Bool.eqb (bool_decide (ConstBytes p = None)) (ConstLength p =? 0)) then EC_ILLEGAL_ARGUMENT else
      if EX_USER_IMAGE_PAGE_SIZE <? ConstLength p then EC_ILLEGAL_ARGUMENT else
      EC_SUCCESS
  end.

Definition KiValidateUserModeHole (space : option KE_KERNEL_ADDRESS_SPACE) (virtAddr : Z) (m : memory) : HO_STATUS :=
  match space with
  | None => EC_ILLEGAL_ARGUMENT
  | Some _ =>
      if bool_decide (is_Some (KeFindImportedRegion space virtAddr)) then EC_INVALID_STATE else
      match KePtQueryPage space m virtAddr true with
      | (EC_SUCCESS, Some mapping) => if Present mapping then EC_INVALID_STATE else EC_SUCCESS
      | (status, _) => status
      end
  end.

(** [memcpy] of bytes into kernel memory. *)
Fixpoint memcpy_to (p : Z) (bytes : list Z) s : res (KE_KVA_STATE P) :=
  match bytes with
  | [] => Ok s
  | b :: bytes => let* s := store_part p 1 b s in memcpy_to (p + 1) bytes s
  end.

(** The bytes a caller passes: [byteCount] of them at [bytes]. *)
Definition source_bytes (bytes : option (list Z)) (byteCount : Z) : res (list Z) :=
  match bytes with
  | None => Ok []
  | Some l => if Z.of_nat (length l) <? byteCount then Oob else Ok (take (Z.to_nat byteCount) l)
  end.

Definition KiPopulatePhysicalPage (physAddr : Z) (bytes : option (list Z)) (byteCount : Z) s
  : res (HO_STATUS * KE_KVA_STATE P) :=
  let* (status, written, s) := KeTempPhysMapAcquire physAddr (Z.lor PTE_WRITABLE PTE_NO_EXECUTE) true s in
  if negb (succeeded status) then Ok (status, s) else
  let '(handle, tempVirt) := default (0, 0) written in
  let* s := memset0 tempVirt EX_USER_IMAGE_PAGE_SIZE s in
  let* source := source_bytes bytes byteCount in
  let* s := memcpy_to tempVirt source s in
  let* (releaseStatus, _, s) := KeTempPhysMapRelease (Some handle) s in
  if negb (succeeded releaseStatus) then Ok (releaseStatus, s) else Ok (EC_SUCCESS, s).

(** [a] is the address of the staging, 0 for a null pointer. *)
Definition KiRecordMappedPage (a : Z) (kind : KE_USER_MODE_MAPPING_KIND) (virtAddr physAddr attributes : Z) u
  : res (HO_STATUS * USER_MODE P) :=
  if a =? 0 then Ok (EC_ILLEGAL_ARGUMENT, u) else
  let* g := get_staging a u in
  if KE_USER_MODE_MAX_MAPPINGS <=? MappingCount g then Ok (EC_INVALID_STATE, u) else
  Ok (EC_SUCCESS, put_staging a (set_Mappings (Mappings g ++ [mkRecord kind virtAddr physAddr attributes]) g) u).

Definition free_page (physAddr : Z) u : res (HO_STATUS * USER_MODE P) :=
  let* (status, p) := pmm_free (pmm (mach (kva u))) physAddr 1 in
  Ok (status, set_kva (set_mach (kva u) (set_pmm (mach (kva u)) p)) u).

Definition KiAllocateAndMapUserPage (space : KE_KERNEL_ADDRESS_SPACE) (a : Z) (kind : KE_USER_MODE_MAPPING_KIND)
    (virtAddr attributes : Z) (bytes : option (list Z)) (byteCount : Z) u : res (HO_STATUS * USER_MODE P) :=
  let* (status, p, physAddr) := pmm_alloc (pmm (mach (kva u))) 1 None in
  let u := set_kva (set_mach (kva u) (set_pmm (mach (kva u)) p)) u in
  match status, physAddr with
  | EC_SUCCESS, Some physAddr =>
      let* (status, s) := KiPopulatePhysicalPage physAddr bytes byteCount (kva u) in
      let u := set_kva s u in
      if negb (succeeded status) then
        let* (_, u) := free_page physAddr u in Ok (status, u)
      else
      let* (status, m) := KePtMapPage (Some space) virtAddr physAddr attributes (mach (kva u)) in
      let u := set_kva (set_mach (kva u) m) u in
      if negb (succeeded status) then
        let* (_, u) := free_page physAddr u in Ok (status, u)
      else
      let* (status, u) := KiRecordMappedPage a kind virtAddr physAddr attributes u in
      if negb (succeeded status) then
        let '(cleanupStatus, m) := KePtUnmapPage (Some space) virtAddr (mach (kva u)) in
        let u := set_kva (set_mach (kva u) m) u in
        if negb (succeeded cleanupStatus) && negb (bool_decide (cleanupStatus = EC_INVALID_STATE))
        then Ok (cleanupStatus, u) else
        let* (_, u) := free_page physAddr u in Ok (status, u)
      else Ok (EC_SUCCESS, u)
  | EC_SUCCESS, None => Oob
  | _, _ => Ok (status, u)
  end.

(** ** Destruction *)

(** The loop over the recorded pages, the last one first; [n] is the number
    of records left. *)
Fixpoint destroy_mappings (n : nat) (space : KE_KERNEL_ADDRESS_SPACE) (a : Z) (firstError : HO_STATUS) u
  : res (HO_STATUS * USER_MODE P) :=
  match n with
  | O => Ok (firstError, u)
  | S n =>
      let* g := get_staging a u in
      match Mappings g !! n with
      | None => Oob
      | Some record =>
          let '(canFreeBackingPage, firstError, u) :=
            if Initialized space then
              let '(unmapStatus, m) := KePtUnmapPage (Some space) (RVirtualBase record) (mach (kva u)) in
              let u := set_kva (set_mach (kva u) m) u in
              if succeeded unmapStatus || bool_decide (unmapStatus = EC_INVALID_STATE) then (true, firstError, u)
              else (false, first_error firstError unmapStatus, u)
            else (false, first_error firstError EC_INVALID_STATE, u) in
          let* (firstError, u) := if canFreeBackingPage : bool then
              let* (freeStatus, u) := free_page (RPhysicalBase record) u in
              Ok (if succeeded freeStatus then firstError else first_error firstError freeStatus, u)
            else Ok (firstError, u) in
          let* g := get_staging a u in
          destroy_mappings n space a firstError (put_staging a (set_Mappings (take n (Mappings g)) g) u)
      end
  end.

Definition KeUserModeDestroyStaging (a : Z) u : res (HO_STATUS * USER_MODE P) :=
  if a =? 0 then Ok (EC_ILLEGAL_ARGUMENT, u) else
  let* g := get_staging a u in
  let space := mkKernelSpace (SOwnerRootPageTablePhys g) [] 0 0 (negb (SOwnerRootPageTablePhys g =? 0)) in
  let u := if negb (AttachedThread g =? 0) then put_staging a (set_AttachedThread 0 g) u else u in
  let* (firstError, u) := destroy_mappings (length (Mappings g)) space a EC_SUCCESS u in
  Ok (firstError, mkUM (objects_kfree a (kva u)) (delete a (objects u))).

(** ** Creation *)

(** Run a step unless an earlier one failed. *)
Definition and_then (first : res (HO_STATUS * USER_MODE P)) (next : USER_MODE P -> res (HO_STATUS * USER_MODE P))
  : res (HO_STATUS * USER_MODE P) :=
  let* (status, u) := first in if negb (succeeded status) then Ok (status, u) else next u.

(** The pages of the image, in order. *)
Definition stage_pages (space : KE_KERNEL_ADDRESS_SPACE) (a : Z) (params : KE_USER_MODE_CREATE_PARAMS) u
  : res (HO_STATUS * USER_MODE P) :=
  and_then (KiAllocateAndMapUserPage space a KE_USER_MODE_MAPPING_KIND_CODE EX_USER_IMAGE_CODE_BASE PTE_USER
              (CodeBytes params) (CodeLength params) u) (fun u =>
  and_then (if negb (ConstLength params =? 0) then
              KiAllocateAndMapUserPage space a KE_USER_MODE_MAPPING_KIND_CONST EX_USER_IMAGE_CONST_BASE
                (Z.lor PTE_USER PTE_NO_EXECUTE) (ConstBytes params) (ConstLength params) u
            else Ok (EC_SUCCESS, u)) (fun u =>
  and_then (KiAllocateAndMapUserPage space a KE_USER_MODE_MAPPING_KIND_STACK EX_USER_IMAGE_STACK_BASE
              (Z.lor (Z.lor PTE_USER PTE_WRITABLE) PTE_NO_EXECUTE) None 0 u) (fun u =>
  let* g := get_staging a u in
  Ok (KiValidateUserModeHole (Some space) (SGuardBase g) (mem (mach (kva u))), u)))).

(** The answer is the address of the staging, 0 for none. *)
Definition KeUserModeCreateStaging (params : option KE_USER_MODE_CREATE_PARAMS)
    (targetSpace : option KE_PROCESS_ADDRESS_SPACE) (outStaging : bool) u : res (HO_STATUS * Z * USER_MODE P) :=
  if negb outStaging then Ok (EC_ILLEGAL_ARGUMENT, 0, u) else
  match targetSpace with
  | None => Ok (EC_ILLEGAL_ARGUMENT, 0, u)
  | Some targetSpace =>
  if negb (PsInitialized targetSpace) then Ok (EC_INVALID_STATE, 0, u) else
  match KiValidateCreateParams params, params with
  | EC_SUCCESS, Some params =>
      let space := KiBuildProcessRootView targetSpace in
      let m := mem (mach (kva u)) in
      let status := KiValidateUserModeHole (Some space) 0 m in
      if negb (succeeded status) then Ok (status, 0, u) else
      let status := KiValidateUserModeHole (Some space) EX_USER_IMAGE_CODE_BASE m in
      if negb (succeeded status) then Ok (status, 0, u) else
      let status := KiValidateUserModeHole (Some space) EX_USER_IMAGE_CONST_BASE m in
      if negb (succeeded status) then Ok (status, 0, u) else
      let status := KiValidateUserModeHole (Some space) EX_USER_IMAGE_STACK_GUARD_BASE m in
      if negb (succeeded status) then Ok (status, 0, u) else
      let status := KiValidateUserModeHole (Some space) EX_USER_IMAGE_STACK_BASE m in
      if negb (succeeded status) then Ok (status, 0, u) else
      let '(a, s) := objects_kzalloc STAGING_SIZE (kva u) in
      let u := set_kva s u in
      if a =? 0 then Ok (EC_OUT_OF_RESOURCE, 0, u) else
      let u := put_staging a (mkStaging (u64 (EX_USER_IMAGE_CODE_BASE + EntryOffset params)) EX_USER_IMAGE_STACK_BASE
                 EX_USER_IMAGE_STACK_TOP EX_USER_IMAGE_STACK_GUARD_BASE (PsRootPageTablePhys targetSpace) 0 []) u in
      let* (status, u) := stage_pages space a params u in
      if succeeded status then Ok (EC_SUCCESS, a, u) else
      let* (destroyStatus, u) := KeUserModeDestroyStaging a u in
      Ok (if succeeded destroyStatus then status else destroyStatus, 0, u)
  | status, _ => Ok (status, 0, u)
  end
  end.

(** ** Patching the constants *)

Definition KeUserModePatchConstBytes (a : Z) (offset : Z) (bytes : option (list Z)) (length : Z) u
  : res (HO_STATUS * USER_MODE P) :=
  if a =? 0 then Ok (EC_ILLEGAL_ARGUMENT, u) else
  if length =? 0 then Ok (EC_SUCCESS, u) else
  match bytes with
  | None => Ok (EC_ILLEGAL_ARGUMENT, u)
  | Some _ =>
  if (EX_USER_IMAGE_PAGE_SIZE <? offset) || (EX_USER_IMAGE_PAGE_SIZE <? length) then Ok (EC_ILLEGAL_ARGUMENT, u) else
  if (u64 (offset + length) <? offset) || (EX_USER_IMAGE_PAGE_SIZE <? u64 (offset + length))
  then Ok (EC_ILLEGAL_ARGUMENT, u) else
  let* g := get_staging a u in
  match KiFindMappedPage g KE_USER_MODE_MAPPING_KIND_CONST with
  | None => Ok (EC_INVALID_STATE, u)
  | Some constRecord =>
      let* (status, written, s) :=
        KeTempPhysMapAcquire (RPhysicalBase constRecord) (Z.lor PTE_WRITABLE PTE_NO_EXECUTE) true (kva u) in
      if negb (succeeded status) then Ok (status, set_kva s u) else
      let '(patchHandle, patchTempVirt) := default (0, 0) written in
      let* source := source_bytes bytes length in
      let* s := memcpy_to (u64 (patchTempVirt + offset)) source s in
      let* (status, _, s) := KeTempPhysMapRelease (Some patchHandle) s in
      Ok (status, set_kva s u)
  end
  end.
End staging.
End Staging.
