(* ===== verification/StagingInv.v ===== *)
(** * Frames that are not the kernel's

    A frame is [foreign] to the kernel's virtual-address allocator when it is
    in use and neither a kernel page table nor the backing of a kernel range:
    the page tables and pages of processes are such frames.  [quiet X] is what
    the kernel's own work does to them: nothing, but the contents of those in
    [X]. *)

From S2P Require Import Prelude Pmm PageTable Heap Parts Kva KvaInv KvaLayout KvaMach KvaOps KvaCalls KvaFixmap KvaHeap UserMode UserCopy LowHalf.

Local Open Scope Z_scope.

Import PageTable Kva KvaInv KvaLayout KvaMach KvaOps KvaCalls KvaFixmap KvaHeap UserMode LowHalf.

Definition in_page (f x : Z) : Prop := f <= x < f + PAGE_4KB.

Lemma page_apart f g x : frame f -> frame g -> f <> g -> in_page f x -> ~ in_page g x.
Proof. unfold in_page, frame, PAGE_4KB. intros [Hf _] [Hg _] Hne Hx Hx'. div_lia. Qed.

Lemma page_word_of f o : frame f -> 0 <= o < PAGE_4KB -> in_page f (f + o - (f + o) mod 8).
Proof. unfold in_page, frame, PAGE_4KB. intros [Hf _] Ho. div_lia. Qed.

Section foreign.
Context `{PageAllocatorLaws P}.
Implicit Types (s : KE_KVA_STATE P) (G : tables).

Record foreign s G (f : Z) : Prop := mkForeign {
  fo_frame : frame f;
  fo_table : G !! f = None;
  fo_used : frame_state (pmm (mach s)) f <> PMM_PAGE_FREE;
  fo_owner a p : ~ owns s a p f
}.

Record quiet (X : Z -> Prop) s G s' G' : Prop := mkQuiet {
  qt_ok : kva_ok s' G';
  qt_space : gKernelAddressSpace s' = gKernelAddressSpace s;
  qt_foreign f : foreign s' G' f <-> foreign s G f;
  qt_state f : foreign s G f -> frame_state (pmm (mach s')) f = frame_state (pmm (mach s)) f;
  qt_mem f x : foreign s G f -> ~ X f -> in_page f x -> mem (mach s') x = mem (mach s) x
}.

Lemma quiet_refl X s G : kva_ok s G -> quiet X s G s G.
Proof. by split. Qed.

Lemma quiet_trans X s G s1 G1 s2 G2 : quiet X s G s1 G1 -> quiet X s1 G1 s2 G2 -> quiet X s G s2 G2.
Proof.
  intros [O1 P1 F1 S1 M1] [O2 P2 F2 S2 M2]. split; [done | congruence | | |].
  - intros f. by rewrite F2, F1.
  - intros f Hf. rewrite S2, S1; [done | done | by apply F1].
  - intros f x Hf Hn Hx. rewrite (M2 f), (M1 f); try done. by apply F1.
Qed.

Lemma quiet_weaken (X Y : Z -> Prop) s G s' G' : (forall f, X f -> Y f) -> quiet X s G s' G' -> quiet Y s G s' G'.
Proof. intros Hxy [O P1 F S M]. split; try done. intros f x Hf Hn. apply M; [done|]. intros Hx. by apply Hn, Hxy. Qed.

(** Words of a foreign page lie outside the kernel's tables. *)
Lemma outside_tables m root G f x t y : tree m root G -> frame f -> G !! f = None -> in_page f x ->
  G !! t = Some y -> ~ t <= x < t + PAGE_4KB.
Proof.
  intros T Hf Hn Hx Ht Hin. assert (Hft : frame t) by (destruct y; by eapply (tr_label _ _ _ T)).
  apply (page_apart f t x Hf Hft); [congruence | done | done].
Qed.

Lemma kva_tree s G : kva_ok s G -> tree (mem (mach s)) (root s) G.
Proof. intros K. apply (kv_space _ _ K). Qed.

(** The records that own frames are the same, and so are their translations. *)
Lemma owns_iff s G s' G' :
  kva_ok s G -> kva_ok s' G' -> root s' = root s ->
  (forall j r, OwnsPhysicalBacking r = true -> active (gKvaRanges s') j r <-> active (gKvaRanges s) j r) ->
  (forall j r p, OwnsPhysicalBacking r = true -> active (gKvaRanges s) j r -> usable r p ->
     leaf s' (page_va (Arena r) p) = leaf s (page_va (Arena r) p)) ->
  forall a p f, owns s' a p f <-> owns s a p f.
Proof.
  intros K K' Er Ha Hl a p f. split; intros (j & r & Hj & Ho & <- & Hu & E); exists j, r.
  - assert (Hj' : active (gKvaRanges s) j r) by (by apply Ha). rewrite (Hl j r p) in E by done. done.
  - assert (Hj' : active (gKvaRanges s') j r) by (by apply Ha). rewrite (Hl j r p) by done. done.
Qed.

(** Two usable pages of different records are different pages. *)
Lemma pages_differ s G i j r r' p q : kva_ok s G -> active (gKvaRanges s) i r -> active (gKvaRanges s) j r' -> i <> j ->
  usable r p -> usable r' q -> vprefix 0 (page_va (Arena r) p) <> vprefix 0 (page_va (Arena r') q).
Proof.
  intros K Hi Hj Hne Hp Hq E. apply Hne.
  pose proof (kva_record s G i r K Hi) as R. pose proof (kva_record s G j r' K Hj) as R'.
  destruct (usable_page r p R Hp) as [Ap Bp], (usable_page r' q R' Hq) as [Aq Bq].
  destruct (vprefix_page _ _ _ _ Ap Aq E) as [Ea ->].
  destruct Hi as [Ei Ui], Hj as [Ej Uj].
  apply (lo_disjoint _ _ _ _ (kv_layout _ _ K) i j r r' q); try (by split); split; done.
Qed.

(** ** Temporary mappings *)

Lemma acquired_quiet s G G1 i r0 q g pa attrs s' :
  kva_ok s G -> gKvaRanges s !! i = Some r0 -> InUse r0 = false -> gKernelAddressSpace s' = gKernelAddressSpace s ->
  gKvaRanges s' = <[i := fixmap_record i q g]> (gKvaRanges s) ->
  mapped (root s) (mach s) (mach s') G G1 (page_va KE_KVA_ARENA_FIXMAP q) pa attrs -> kva_ok s' G1 ->
  quiet (fun _ => False) s G s' G1.
Proof.
  intros K E0 Hu0 Es Eranges M K1. assert (Er : root s' = root s) by (unfold root; by rewrite Es).
  pose proof (lookup_lt_Some _ _ _ E0) as Hi. set (r := fixmap_record i q g) in *.
  assert (Ha1 : active (gKvaRanges s') i r) by (rewrite Eranges; apply active_insert; [done | by left]).
  assert (Hact : forall j r', OwnsPhysicalBacking r' = true -> active (gKvaRanges s') j r' <-> active (gKvaRanges s) j r').
  { intros j r' Ho. rewrite Eranges, active_insert by done. split; [intros [(_ & -> & _)|[_ ?]]; done|].
    intros Hj. right. split; [|done]. intros ->. destruct Hj as [Ej Hj]. congruence. }
  assert (Howns : forall a p f, owns s' a p f <-> owns s a p f).
  { apply (owns_iff s G s' G1 K K1 Er Hact). intros j r' p Ho Hj Hu. unfold leaf. rewrite Er.
    apply (same_leaf false), (mp_others _ _ _ _ _ _ _ _ M). apply Hact in Hj as Hj'; [|done].
    assert (Hne : j <> i) by (intros ->; destruct Hj; congruence).
    apply (pages_differ s' G1 j i r' r p q K1 Hj' Ha1 Hne Hu). unfold usable, first_usable. simpl. lia. }
  assert (Hstate : forall f, frame f -> G1 !! f = None -> frame_state (pmm (mach s')) f = frame_state (pmm (mach s)) f).
  { intros f Hf Hn. rewrite (mp_state _ _ _ _ _ _ _ _ M) by apply Hf. rewrite decide_False; [done|].
    intros [Hs _]. rewrite Hn in Hs. by destruct Hs. }
  assert (Hto : forall f, foreign s G f -> G1 !! f = None).
  { intros f [Hf Ht Hu _]. destruct (G1 !! f) as [y|] eqn:E; [|done].
    destruct (mp_new _ _ _ _ _ _ _ _ M f) as [Hs|Hfree]; [by rewrite E | rewrite Ht in Hs; by destruct Hs | done]. }
  split; [done | done | | |].
  - intros f. split; intros F.
    + destruct F as [Hf Ht Hu Ho]. split; [done | | by rewrite <- Hstate | intros a p; rewrite <- Howns; apply Ho].
      destruct (G !! f) as [y|] eqn:E; [|done]. pose proof (lookup_weaken _ _ _ _ E (mp_sub _ _ _ _ _ _ _ _ M)). congruence.
    + pose proof (Hto f F) as Hn. destruct F as [Hf Ht Hu Ho]. split; [done | done | by rewrite Hstate |].
      intros a p. rewrite Howns. apply Ho.
  - intros f F. apply Hstate; [apply F | by apply Hto].
  - intros f x F _ Hx. apply (mp_outside _ _ _ _ _ _ _ _ M). intros t y Ht.
    by apply (outside_tables _ _ _ f x t y (mp_tree _ _ _ _ _ _ _ _ M) (fo_frame _ _ _ F) (Hto f F)).
Qed.

(** A failed acquisition. *)
Lemma refused_quiet s G s' : kva_ok s G -> kva_ok s' G -> gKernelAddressSpace s' = gKernelAddressSpace s ->
  (forall j r, active (gKvaRanges s') j r <-> active (gKvaRanges s) j r) ->
  (mach s' = mach s \/ undone (mach s) (mach s') G) ->
  (forall va, translate (mem (mach s')) (root s) va = translate (mem (mach s)) (root s) va) ->
  quiet (fun _ => False) s G s' G.
Proof.
  intros K K1 Es Hact Hmach Htr. assert (Er : root s' = root s) by (unfold root; by rewrite Es).
  assert (Howns : forall a p f, owns s' a p f <-> owns s a p f).
  { apply (owns_iff s G s' G K K1 Er); [intros; apply Hact|]. intros j r' p _ _ _. unfold leaf. by rewrite Er, Htr. }
  assert (Hstate : forall f, frame f -> frame_state (pmm (mach s')) f = frame_state (pmm (mach s)) f).
  { intros f Hf. destruct Hmach as [->|U]; [done | by apply (ud_state _ _ _ U), Hf]. }
  split; [done | done | | |].
  - intros f. split; intros [Hf Ht Hu Ho]; (split; [done | done | | intros a p; by rewrite Howns || by rewrite <- Howns]).
    + by rewrite <- Hstate.
    + by rewrite Hstate.
  - intros f F. apply Hstate, F.
  - intros f x F _ Hx. destruct Hmach as [->|U]; [done|]. apply (ud_outside _ _ _ U).
    + intros t y Ht. by apply (outside_tables _ _ _ f x t y (kva_tree s G K) (fo_frame _ _ _ F) (fo_table _ _ _ F)).
    + replace (x - x mod PAGE_4KB) with f; [apply F|]. destruct (fo_frame _ _ _ F) as [Hf _].
      unfold in_page, PAGE_4KB in *. div_lia.
Qed.

Lemma release_quiet s G s' i r : kva_ok s G -> active (gKvaRanges s) i r -> OwnsPhysicalBacking r = false ->
  released s s' G i r -> quiet (fun _ => False) s G s' G.
Proof.
  intros K Hi Hown R. pose proof (rl_torn _ _ _ _ _ R) as T. rewrite Hown in T.
  assert (Er : root s' = root s) by (unfold root; by rewrite (rl_space _ _ _ _ _ R)).
  assert (Hlt : (i < length (gKvaRanges s))%nat) by (eapply lookup_lt_Some; apply Hi).
  assert (Howns : forall a p f, owns s' a p f <-> owns s a p f).
  { apply (owns_iff s G s' G K (rl_ok _ _ _ _ _ R) Er).
    - intros j r' Ho. rewrite (rl_ranges _ _ _ _ _ R), active_insert by done. split; [by intros [(_ & -> & ?)|[_ ?]]|].
      intros Hj. right. split; [|done]. intros ->. destruct Hi as [Ei _], Hj as [Ej _]. congruence.
    - intros j r' p Ho Hj Hu. unfold leaf. rewrite Er. f_equal. apply (to_others _ _ _ _ _ _ _ T). intros q Hq.
      apply (pages_differ s G j i r' r p q K Hj Hi); [|done | done]. intros ->. destruct Hi as [Ei _], Hj as [Ej _]. congruence. }
  assert (Hstate : forall f, frame f -> frame_state (pmm (mach s')) f = frame_state (pmm (mach s)) f).
  { intros f Hf. apply (to_frames _ _ _ _ _ _ _ T); [apply Hf | by left]. }
  split; [apply R | apply R | | |].
  - intros f. split; intros [Hf Ht Hu Ho]; (split; [done | done | | intros a p; by rewrite Howns || by rewrite <- Howns]).
    + by rewrite <- Hstate.
    + by rewrite Hstate.
  - intros f F. apply Hstate, F.
  - intros f x F _ Hx. apply (to_outside _ _ _ _ _ _ _ T). intros t y Ht.
    by apply (outside_tables _ _ _ f x t y (kva_tree s G K) (fo_frame _ _ _ F) (fo_table _ _ _ F)).
Qed.
End foreign.

(** ** Bytes at consecutive addresses *)

Fixpoint place (pa : Z) (bytes : list Z) : list (Z * Z) :=
  match bytes with [] => [] | b :: bytes => (pa, b) :: place (pa + 1) bytes end.

Lemma place_fst pa bytes x : x ∈ (place pa bytes).*1 <-> pa <= x < pa + Z.of_nat (length bytes).
Proof.
  revert pa. induction bytes as [|b bytes IH]; intros pa; cbn [place fmap list_fmap length].
  { rewrite elem_of_nil. lia. }
  rewrite elem_of_cons, IH. cbn [fst]. lia.
Qed.

Lemma place_snd pa bytes : (place pa bytes).*2 = bytes.
Proof. revert pa. induction bytes as [|b bytes IH]; intros pa; cbn; [done | by rewrite IH]. Qed.

Lemma place_nodup pa bytes : NoDup (place pa bytes).*1.
Proof.
  revert pa. induction bytes as [|b bytes IH]; intros pa; cbn; [constructor|]. constructor; [|apply IH].
  rewrite place_fst. lia.
Qed.

Lemma place_at pa bytes i b : bytes !! i = Some b -> place pa bytes !! i = Some (pa + Z.of_nat i, b).
Proof.
  revert pa i. induction bytes as [|c bytes IH]; intros pa [|i] E; cbn in *; [done | done | injection E as ->; by rewrite Z.add_0_r |].
  rewrite (IH _ _ E). do 2 f_equal. lia.
Qed.

(** The contents of a page: the bytes, then zeros. *)
Definition page_holds (m : memory) (f : Z) (bytes : list Z) : Prop :=
  forall i, 0 <= i < PAGE_4KB -> phys_byte m (f + i) = nth (Z.to_nat i) bytes 0.

Lemma page_holds_ext m m' f bytes : frame f -> (forall x, in_page f x -> m' x = m x) ->
  page_holds m f bytes -> page_holds m' f bytes.
Proof. intros Hf Hm Hp i Hi. rewrite <- Hp by done. unfold phys_byte. by rewrite Hm by by apply page_word_of. Qed.

Lemma zero_page_holds m f bytes : frame f -> Forall is_u8 bytes ->
  (forall x, in_page f x -> x mod 8 = 0 -> m x = 0) -> page_holds (put_bytes (place f bytes) m) f bytes.
Proof.
  intros Hf Hb Hz i Hi. destruct (decide (Z.to_nat i < length bytes)%nat) as [Hl|Hl].
  - destruct (lookup_lt_is_Some_2 bytes _ Hl) as [b Eb]. rewrite nth_lookup, Eb. cbn.
    apply (put_at _ _ (Z.to_nat i)); [by rewrite place_snd | apply place_nodup|].
    rewrite (place_at _ _ _ _ Eb). do 2 f_equal. lia.
  - rewrite nth_overflow by lia. rewrite put_other.
    + unfold phys_byte. rewrite Hz; [by rewrite get_part_div, Z.div_0_l by (pose proof (Z.mod_pos_bound (f + i) 8); try lia; apply Z.pow_nonzero; lia) | by apply page_word_of |].
      div_lia.
    + by rewrite place_snd.
    + rewrite place_fst. lia.
Qed.
