(* ===== verification/StagingFill.v ===== *)
(** * Filling a foreign page through a temporary mapping *)

From S2P Require Import Prelude Pmm PageTable Heap Parts Kva KvaInv KvaLayout KvaMach KvaOps KvaCalls KvaFixmap KvaHeap UserMode UserCopy LowHalf Staging StagingInv.

Local Open Scope Z_scope.

Import PageTable Kva KvaInv KvaLayout KvaMach KvaOps KvaCalls KvaFixmap KvaHeap UserMode LowHalf Staging.

Section fill.
Context `{PageAllocatorLaws P}.
Implicit Types (s t : KE_KVA_STATE P) (G : tables).

(** [s1] maps the foreign page [pa] at [va]. *)
Record window_on s1 G (pa va : Z) : Prop := mkWindow {
  wi_ok : kva_ok s1 G;
  wi_page : frame pa /\ G !! pa = None /\ forall a p, ~ owns s1 a p pa;
  wi_va : va mod PAGE_4KB = 0 /\ 0 <= va /\ va + PAGE_4KB < 2 ^ 64;
  wi_map : exists mp, translate (mem (mach s1)) (root s1) va = Some mp /\ PhysicalBase mp = pa
}.

Definition with_mem s1 (m : memory) : KE_KVA_STATE P := set_mach s1 (set_mem (mach s1) m).

(** [t] is [s1] with other contents of the page. *)
Definition written s1 (pa : Z) t : Prop :=
  exists m, t = with_mem s1 m /\ forall x, ~ in_page pa x -> m x = mem (mach s1) x.

Lemma written_tables s1 G pa va m : window_on s1 G pa va -> (forall x, ~ in_page pa x -> m x = mem (mach s1) x) ->
  forall tb x i, G !! tb = Some x -> 0 <= i < 512 -> m (entry_at tb i) = mem (mach s1) (entry_at tb i).
Proof.
  intros [K (Hf & Hn & _) _ _] Hm tb [l p] i Ht Hi. apply Hm. intros Hin.
  pose proof (kva_tree _ _ K) as T. pose proof (tr_label _ _ _ T tb l p Ht) as [Hft _].
  apply (page_apart pa tb (entry_at tb i) Hf Hft); [congruence | exact Hin |]. by apply word_in_page.
Qed.

Lemma written_translate s1 G pa va m : window_on s1 G pa va -> (forall x, ~ in_page pa x -> m x = mem (mach s1) x) ->
  forall va', translate m (root s1) va' = translate (mem (mach s1)) (root s1) va'.
Proof.
  intros W Hm. apply (same_tables _ m _ G (kva_tree _ _ (wi_ok _ _ _ _ W))). by apply (written_tables s1 G pa va).
Qed.

Lemma written_kva s1 G pa va m : window_on s1 G pa va -> (forall x, ~ in_page pa x -> m x = mem (mach s1) x) ->
  kva_ok (with_mem s1 m) G.
Proof.
  intros W Hm. pose proof (wi_ok _ _ _ _ W) as K. pose proof (written_translate s1 G pa va m W Hm) as Tr.
  apply (kva_ok_mach s1 _ G G K); [ | apply K | apply K | |].
  - split; [apply (kv_space _ _ K)|]. apply (same_tables (mem (mach s1)) m _ G (kva_tree _ _ K)).
    by apply (written_tables s1 G pa va).
  - intros a p lp _ E. rewrite <- E. symmetry. exact (f_equal leaf_of (Tr (page_va a p))).
  - intros a p f Ho _. destruct (kv_owned _ _ K a p f Ho) as (_ & Hs & Hn). done.
Qed.

Lemma written_quiet s1 G pa va t : window_on s1 G pa va -> written s1 pa t -> quiet (eq pa) s1 G t G.
Proof.
  intros W (m & -> & Hm). pose proof (wi_ok _ _ _ _ W) as K. pose proof (written_translate s1 G pa va m W Hm) as Tr.
  pose proof (written_kva s1 G pa va m W Hm) as K'.
  assert (Howns : forall a p f, owns (with_mem s1 m) a p f <-> owns s1 a p f).
  { apply (owns_iff s1 G (with_mem s1 m) G K K' eq_refl); [done|]. intros j r p _ _ _.
    exact (f_equal leaf_of (Tr (page_va (Arena r) p))). }
  split; [done | done | | done |].
  - intros f. split; intros [Hf Ht Hu Ho]; (split; [done | done | done |]); intros a p Hx; apply (Ho a p), Howns, Hx.
  - intros f x F Hne Hx. cbn. apply Hm. intros Hx'. 
    apply (page_apart f pa x (fo_frame _ _ _ F) (proj1 (wi_page _ _ _ _ W))); [congruence | done | done].
Qed.

(** The page through its window. *)
Lemma window_byte s1 G pa va m o : window_on s1 G pa va -> (forall x, ~ in_page pa x -> m x = mem (mach s1) x) ->
  0 <= o < PAGE_4KB ->
  exists mp, translate m (root s1) (va + o) = Some mp /\ PhysicalBase mp = pa + o.
Proof.
  intros W Hm Ho. rewrite (written_translate s1 G pa va m W Hm), translate_offset.
  destruct (wi_map _ _ _ _ W) as (mp & E & Ep). destruct (wi_va _ _ _ _ W) as [Hal _].
  assert (Eo : (va + o) mod PAGE_4KB = o) by (unfold PAGE_4KB in *; div_lia). rewrite Eo.
  replace (va + o - o) with va by lia. rewrite E. eexists. split; [reflexivity|]. cbn. lia.
Qed.

Lemma store_word_run s1 G pa va m o v : window_on s1 G pa va -> (forall x, ~ in_page pa x -> m x = mem (mach s1) x) ->
  0 <= o < PAGE_4KB -> o mod 8 = 0 ->
  Heap.store (va + o) v (with_mem s1 m) = Ok (with_mem s1 (PageTable.store m (pa + o) v)) /\
  Heap.load (va + o) (with_mem s1 m) = Ok (m (pa + o)).
Proof.
  intros W Hm Ho Ho8. destruct (window_byte s1 G pa va m o W Hm Ho) as (mp & E & Ep).
  destruct (wi_va _ _ _ _ W) as [Hal _]. unfold Heap.store, Heap.load.
  assert (E8 : HO_IS_ALIGNED (va + o) 8 = true).
  { change 8 with (2 ^ 3). rewrite is_aligned_pow2 by lia. apply Z.eqb_eq. change (2 ^ 3) with 8. unfold PAGE_4KB in *. div_lia. }
  rewrite E8. cbn [negb].
  cbn [store_word load_word kva_services]. unfold kva_store, kva_load. change (root (with_mem s1 m)) with (root s1).
  change (mem (mach (with_mem s1 m))) with m. rewrite E. cbn [fmap option_fmap option_map]. by rewrite Ep.
Qed.

Lemma store_keeps s1 pa m o v : frame pa -> 0 <= o < PAGE_4KB -> (forall x, ~ in_page pa x -> m x = mem (mach s1) x) ->
  forall x, ~ in_page pa x -> PageTable.store m (pa + o - (pa + o) mod 8) v x = mem (mach s1) x.
Proof.
  intros Hf Ho Hm x Hx. rewrite store_ne; [by apply Hm|]. intros ->. by apply Hx, page_word_of.
Qed.

Lemma store_byte_run s1 G pa va m o b : window_on s1 G pa va -> (forall x, ~ in_page pa x -> m x = mem (mach s1) x) ->
  0 <= o < PAGE_4KB ->
  store_part (va + o) 1 b (with_mem s1 m) = Ok (with_mem s1 (set_phys_byte m (pa + o) b)).
Proof.
  intros W Hm Ho. destruct (wi_va _ _ _ _ W) as [Hal _]. pose proof (proj1 (proj1 (wi_page _ _ _ _ W))) as Hpa.
  unfold store_part. set (w := o - o mod 8).
  assert (E1 : va + o - (va + o) mod 8 = va + w) by (unfold w, PAGE_4KB in *; div_lia).
  assert (E2 : (va + o) mod 8 = (pa + o) mod 8) by (unfold PAGE_4KB in *; div_lia).
  assert (E3 : pa + w = pa + o - (pa + o) mod 8) by (unfold w, PAGE_4KB in *; div_lia).
  assert (Hw : 0 <= w < PAGE_4KB /\ w mod 8 = 0) by (unfold w, PAGE_4KB in *; div_lia). rewrite E1, E2.
  destruct (store_word_run s1 G pa va m w 0 W Hm (proj1 Hw) (proj2 Hw)) as [_ ->]. cbn [res_bind].
  destruct (store_word_run s1 G pa va m w (set_part (m (pa + w)) ((pa + o) mod 8) 1 b) W Hm (proj1 Hw) (proj2 Hw)) as [-> _].
  unfold set_phys_byte. by rewrite E3.
Qed.

Lemma memcpy_run bytes s1 G pa va m o : window_on s1 G pa va -> (forall x, ~ in_page pa x -> m x = mem (mach s1) x) ->
  0 <= o -> o + Z.of_nat (length bytes) <= PAGE_4KB ->
  memcpy_to (va + o) bytes (with_mem s1 m) = Ok (with_mem s1 (put_bytes (place (pa + o) bytes) m)) /\
  forall x, ~ in_page pa x -> put_bytes (place (pa + o) bytes) m x = mem (mach s1) x.
Proof.
  intros W. revert m o. induction bytes as [|b bytes IH]; intros m o Hm Ho Hl; cbn [memcpy_to place put_bytes length] in *; [done|].
  rewrite (store_byte_run s1 G pa va m o b W Hm) by lia. cbn [res_bind].
  rewrite <- !Z.add_assoc. apply IH; [|lia|lia]. apply store_keeps; [apply W | lia | done].
Qed.

Lemma memset_run s1 G pa va : window_on s1 G pa va ->
  exists m, memset0 va EX_USER_IMAGE_PAGE_SIZE s1 = Ok (with_mem s1 m) /\
    (forall x, ~ in_page pa x -> m x = mem (mach s1) x) /\ forall x, in_page pa x -> x mod 8 = 0 -> m x = 0.
Proof.
  intros W. destruct (wi_va _ _ _ _ W) as (Hal & Hva & Hlim). pose proof (proj1 (wi_page _ _ _ _ W)) as Hf. unfold memset0.
  destruct (for_loop_rule (fun i t => exists m, t = with_mem s1 m /\ (forall x, ~ in_page pa x -> m x = mem (mach s1) x) /\
      forall x, in_page pa x -> x mod 8 = 0 -> x < pa + 8 * i -> m x = 0)
    (Z.to_nat (EX_USER_IMAGE_PAGE_SIZE / 8)) 0 (fun i t => Heap.store (u64 (va + i * 8)) 0 t) s1) as (t & E & m & -> & Hm & Hz).
  - exists (mem (mach s1)). split; [|split; [done|]].
    + unfold with_mem. by destruct s1 as [[]].
    + intros x Hx _ Hlt. unfold in_page in Hx. lia.
  - intros j t Hj (m & -> & Hm & Hz). change (Z.to_nat (EX_USER_IMAGE_PAGE_SIZE / 8)) with 512%nat in Hj.
    unfold PAGE_4KB in Hlim. rewrite u64_small by word_lia.
    destruct (store_word_run s1 G pa va m (j * 8) 0 W Hm) as [-> _]; [unfold PAGE_4KB; lia | apply Z.mod_mul; lia|].
    eexists. split; [reflexivity|]. eexists. split; [reflexivity|]. split.
    + intros x Hx. rewrite store_ne; [by apply Hm|]. intros ->. apply Hx. unfold in_page, PAGE_4KB. lia.
    + intros x Hx Hx8 Hlt. unfold PageTable.store. destruct (Z.eqb_spec x (pa + j * 8)); [done|]. apply Hz; [done | done|].
      destruct Hf as [Hf _]. unfold in_page, PAGE_4KB in *. div_lia.
  - exists m. split; [exact E|]. split; [exact Hm|]. intros x Hx Hx8. apply Hz; [done | done|].
    change (Z.of_nat (Z.to_nat (EX_USER_IMAGE_PAGE_SIZE / 8))) with 512. unfold in_page, PAGE_4KB in Hx. lia.
Qed.

(** The three steps of a write through a window. *)
Lemma quiet_window s G s1 G1 pa t s2 : quiet (fun _ => False) s G s1 G1 -> quiet (eq pa) s1 G1 t G1 ->
  quiet (fun _ => False) t G1 s2 G1 -> quiet (eq pa) s G s2 G1.
Proof.
  intros Q1 Q2 Q3. apply (quiet_trans _ _ _ s1 G1); [by apply (quiet_weaken (fun _ => False))|].
  apply (quiet_trans _ _ _ t G1); [done|]. by apply (quiet_weaken (fun _ => False)).
Qed.

(** The token of a live fixmap record is accepted. *)
Lemma release_token s G i r q g : kva_ok s G -> active (gKvaRanges s) i r -> Arena r = KE_KVA_ARENA_FIXMAP ->
  first_usable r = q -> gFixmapSlotGenerations s !! Z.to_nat q = Some g -> 0 <= q < KE_KVA_FIXMAP_ARENA_PAGES ->
  0 < g <= KE_TEMP_MAP_TOKEN_GENERATION_MASK ->
  exists s', KeTempPhysMapRelease (Some (KiEncodeTempMapToken q g)) s = Ok (EC_SUCCESS, Some 0, s') /\ released s s' G i r.
Proof.
  intros K Ha Hfix Hfu Hgen Hq Hg. destruct (token_decode q g Hq Hg) as [_ Hd].
  assert (Htok : is_u64 (KiEncodeTempMapToken q g)).
  { rewrite token_value by done. change KE_KVA_FIXMAP_ARENA_PAGES with 64 in Hq.
    change KE_TEMP_MAP_TOKEN_GENERATION_MASK with (2 ^ 58 - 1) in Hg. unfold is_u64. lia. }
  destruct (temp_release_run s G (KiEncodeTempMapToken q g) K Htok) as (st & h & s' & -> & O).
  destruct O as [(-> & -> & j & r' & q' & g' & Ed & Hj & Ea & Ef & _ & R)|(_ & _ & _ & Hno)].
  2: { by destruct (Hno i r q g Hd Ha). }
  rewrite Hd in Ed. injection Ed as <- <-.
  assert (j = i) as -> by (apply (base_unique s G j i r' r K Hj Ha); congruence).
  assert (r' = r) as -> by (destruct Ha, Hj; congruence). by exists s'.
Qed.

(** A temporary mapping of a foreign page: refused, or a window that can be
    released again after the page was written through it. *)
Lemma window_run s G pa : kva_ok s G -> foreign s G pa ->
  exists st out s1, KeTempPhysMapAcquire pa (Z.lor PTE_WRITABLE PTE_NO_EXECUTE) true s = Ok (st, out, s1) /\
    ((st = EC_SUCCESS /\ exists h va G1, out = Some (h, va) /\ quiet (fun _ => False) s G s1 G1 /\ window_on s1 G1 pa va /\
        forall t, written s1 pa t -> exists s2, KeTempPhysMapRelease (Some h) t = Ok (EC_SUCCESS, Some 0, s2) /\
          quiet (fun _ => False) t G1 s2 G1) \/
     (st <> EC_SUCCESS /\ quiet (fun _ => False) s G s1 G)).
Proof.
  intros K F. unfold KeTempPhysMapAcquire. rewrite is_aligned_4k.
  rewrite (proj2 (Z.eqb_eq _ _)) by apply (fo_frame _ _ _ F). cbn [negb orb].
  destruct (fixmap_acquire_run s G pa (Z.lor PTE_WRITABLE PTE_NO_EXECUTE) K (fo_frame _ _ _ F))
    as (st & tok & va & s1 & -> & i & (r0 & E0 & Hu0) & Ec & Es & O).
  eexists _, _, s1. split; [reflexivity|].
  destruct O as [(-> & q & g & G1 & Hq & _ & Hg & _ & -> & -> & Eranges & Eslots & M & K1)|(Hne & _ & _ & K1 & Hact & Hmach & Htr)].
  2: { right. split; [done|]. by apply refused_quiet. }
  left. split; [done|]. specialize (Hu0 eq_refl). set (va := page_va KE_KVA_ARENA_FIXMAP q).
  pose proof (acquired_quiet s G G1 i r0 q g pa _ s1 K E0 Hu0 Es Eranges M K1) as Q1.
  assert (Hp : arena_page KE_KVA_ARENA_FIXMAP q) by (split; [done | exact Hq]).
  assert (F1 : foreign s1 G1 pa) by (by apply (qt_foreign _ _ _ _ _ Q1)).
  assert (W : window_on s1 G1 pa va).
  { split; [done | | |].
    - split; [apply F1|]. split; [apply F1 | apply (fo_owner _ _ _ F1)].
    - split; [by apply page_va_aligned|]. pose proof (page_va_range _ _ Hp). unfold PAGE_4KB, va in *. lia.
    - eexists. unfold root. rewrite Es. split; [exact (mp_after _ _ _ _ _ _ _ _ M) | done]. }
  eexists _, va, G1. split; [reflexivity|]. split; [done|]. split; [done|]. intros t Wt.
  pose proof (qt_ok _ _ _ _ _ (written_quiet s1 G1 pa va t W Wt)) as Kt. destruct Wt as (m & -> & _).
  set (t := with_mem s1 m) in *. set (r := fixmap_record i q g) in *.
  assert (Ha : active (gKvaRanges t) i r).
  { change (gKvaRanges t) with (gKvaRanges s1). rewrite Eranges. apply active_insert; [by eapply lookup_lt_Some | by left]. }
  destruct (release_token t G1 i r q g Kt Ha) as (s2 & E & R); [done | unfold first_usable; simpl; lia | | done | done|].
  { change (gFixmapSlotGenerations t) with (gFixmapSlotGenerations s1). rewrite Eslots. apply list_lookup_insert_eq.
    destruct (lo_slots _ _ _ _ (kv_layout _ _ K)) as [Hl _]. apply Nat2Z.inj_lt. rewrite Hl. lia. }
  exists s2. split; [exact E|]. exact (release_quiet t G1 s2 i r Kt Ha eq_refl R).
Qed.

(** ** [KiPopulatePhysicalPage] *)

Lemma fill_page_run s G pa bytes n src : kva_ok s G -> foreign s G pa -> source_bytes bytes n = Ok src ->
  Forall is_u8 src -> Z.of_nat (length src) <= PAGE_4KB ->
  exists st s' G', KiPopulatePhysicalPage pa bytes n s = Ok (st, s') /\ quiet (eq pa) s G s' G' /\
    (st = EC_SUCCESS -> page_holds (mem (mach s')) pa src).
Proof.
  intros K F Hsrc Hu8 Hlen. unfold KiPopulatePhysicalPage.
  destruct (window_run s G pa K F) as (st & out & s1 & -> & [(-> & h & va & G1 & -> & Q1 & W & Hrel)|[Hne Q]]); cbn [res_bind].
  2: { unfold Staging.succeeded. rewrite bool_decide_false by done. exists st, s1, G. split; [done|]. split; [|done].
       by apply (quiet_weaken (fun _ => False)). }
  change (Staging.succeeded EC_SUCCESS) with true. cbn [negb default from_option id].
  destruct (memset_run s1 G1 pa _ W) as (m & -> & Hm & Hz). cbn [res_bind]. rewrite Hsrc. cbn [res_bind].
  pose proof (memcpy_run src s1 G1 pa _ m 0 W Hm ltac:(lia) ltac:(lia)) as [Em Hm'].
  rewrite (Z.add_0_r pa) in Em, Hm'. rewrite Z.add_0_r in Em. rewrite Em. cbn [res_bind]. set (m' := put_bytes _ m) in *.
  assert (Wt : written s1 pa (with_mem s1 m')) by (exists m'; split; [reflexivity | exact Hm']).
  destruct (Hrel _ Wt) as (s2 & -> & Q3). cbn [res_bind]. change (Staging.succeeded EC_SUCCESS) with true. cbn [negb].
  pose proof (written_quiet s1 G1 pa va _ W Wt) as Q2.
  exists EC_SUCCESS, s2, G1. split; [done|]. split; [by eapply quiet_window|].
  intros _. apply (page_holds_ext m'); [apply F | | by apply zero_page_holds; [apply F|..]].
  intros x Hx. apply (qt_mem _ _ _ _ _ Q3 pa x); [|exact (fun X => X)|done]. by apply (qt_foreign _ _ _ _ _ Q2), (qt_foreign _ _ _ _ _ Q1).
Qed.

(** ** [KeUserModePatchConstBytes] *)

(** Bytes [l] laid over a page from [offset]. *)
Definition patched (m : memory) (f offset : Z) (l : list Z) (i : Z) : Z :=
  if (offset <=? i) && (i <? offset + Z.of_nat (length l)) then nth (Z.to_nat (i - offset)) l 0 else phys_byte m (f + i).

Lemma put_patched m f offset l i : frame f -> Forall is_u8 l -> 0 <= offset -> 0 <= i ->
  phys_byte (put_bytes (place (f + offset) l) m) (f + i) = patched m f offset l i.
Proof.
  intros Hf Hl Ho Hi. unfold patched. destruct (Z.leb_spec offset i), (Z.ltb_spec i (offset + Z.of_nat (length l))); cbn [andb].
  2-4: apply put_other; [by rewrite place_snd | rewrite place_fst; lia].
  assert (Hlt : (Z.to_nat (i - offset) < length l)%nat) by lia. destruct (lookup_lt_is_Some_2 l _ Hlt) as [b Eb].
  rewrite nth_lookup, Eb. cbn. apply (put_at _ _ (Z.to_nat (i - offset))); [by rewrite place_snd | apply place_nodup|].
  rewrite (place_at _ _ _ _ Eb). do 2 f_equal. lia.
Qed.
End fill.
