(* ===== verification/StagingSpace.v ===== *)
(** * The page tables of a process beside the kernel's

    [proc s G R U]: under the root [R] the user half of the tables is the tree
    [U], all of whose tables are foreign frames.  The kernel's own work leaves
    it alone ([quiet_proc]), and mapping or unmapping a user page leaves the
    kernel alone ([proc_map], [proc_unmap]). *)

From S2P Require Import Prelude Pmm PageTable Kva KvaInv KvaLayout KvaMach KvaOps KvaCalls KvaFixmap KvaHeap UserMode UserCopy LowHalf StagingInv.

Local Open Scope Z_scope.

Import PageTable Kva KvaInv KvaLayout KvaMach KvaOps KvaCalls KvaFixmap KvaHeap UserMode LowHalf.

Section process.
Context `{PageAllocatorLaws P}.
Implicit Types (s : KE_KVA_STATE P) (G U : tables).

Record proc s G (R : Z) U : Prop := mkProc {
  pr_tree : tree (low R (mem (mach s))) R U;
  pr_tables t : is_Some (U !! t) -> foreign s G t
}.

Lemma proc_root s G R U : proc s G R U -> foreign s G R /\ is_Some (U !! R).
Proof. intros [T F]. assert (Hs : is_Some (U !! R)) by (by rewrite (tr_root _ _ _ T)). split; [by apply F | done]. Qed.

(** The processor's view of the user half. *)
Lemma proc_translate s G R U va : proc s G R U -> 0 <= va < USER_LIMIT ->
  translate (mem (mach s)) R va = translate (low R (mem (mach s))) R va.
Proof.
  intros [T _] Hva. rewrite <- (overlay_low R (mem (mach s))) at 1. by apply (translate_over _ _ R U).
Qed.

Lemma proc_tables_frame s G R U t : proc s G R U -> is_Some (U !! t) -> frame t.
Proof. intros [_ F] Ht. apply (F t Ht). Qed.

Lemma quiet_proc X s G s' G' R U : quiet X s G s' G' -> (forall t, is_Some (U !! t) -> ~ X t) -> proc s G R U ->
  proc s' G' R U /\ forall va, 0 <= va < USER_LIMIT -> translate (mem (mach s')) R va = translate (mem (mach s)) R va.
Proof.
  intros Q HX [T F].
  destruct (same_tables (low R (mem (mach s))) (low R (mem (mach s'))) R U T) as (Tr & T' & _).
  { intros t x i Ht Hi. assert (Hs : is_Some (U !! t)) by (by rewrite Ht). unfold low, overlay.
    destruct (high_word R (entry_at t i)); [done|]. apply (qt_mem _ _ _ _ _ Q t); [by apply F | by apply HX | by apply word_in_page]. }
  assert (Pr : proc s' G' R U).
  { split; [done|]. intros t Ht. apply (qt_foreign _ _ _ _ _ Q). by apply F. }
  split; [done|]. intros va Hva. rewrite (proc_translate s' G' R U va Pr Hva), Tr. symmetry. by apply (proc_translate s G R U).
Qed.

(** A change of the machine outside the kernel's tables and frames in use. *)
Lemma kva_user_change s G (m : machine P) : kva_ok s G -> frames_ok (pmm m) ->
  (forall t x i, G !! t = Some x -> 0 <= i < 512 -> mem m (entry_at t i) = mem (mach s) (entry_at t i)) ->
  (forall f, frame f -> frame_state (pmm (mach s)) f <> PMM_PAGE_FREE ->
     frame_state (pmm m) f = frame_state (pmm (mach s)) f) ->
  kva_ok (set_mach s m) G /\ forall a p f, owns (set_mach s m) a p f <-> owns s a p f.
Proof.
  intros K Hf Hw Hs. destruct (same_tables (mem (mach s)) (mem m) (root s) G (kva_tree _ _ K) Hw) as (Tr & T' & _).
  assert (Hleaf : forall va, leaf (set_mach s m) va = leaf s va) by (intros va; exact (f_equal leaf_of (Tr va))).
  assert (K' : kva_ok (set_mach s m) G).
  { apply (kva_ok_mach s m G G K); [ | done | | |].
    - split; [apply (kv_space _ _ K) | exact T'].
    - intros t x Ht. rewrite Hs; [by apply (kv_used _ _ K t x) | destruct x; by eapply (tr_label _ _ _ (kva_tree _ _ K)) | by apply (kv_used _ _ K t x)].
    - intros a p lp _. by rewrite Hleaf.
    - intros a p f Ho _. destruct (kv_owned _ _ K a p f Ho) as (Hfr & Hst & Hn). by rewrite Hs by (done || by rewrite Hst). }
  split; [done|]. apply (owns_iff s G (set_mach s m) G K K' eq_refl); [done|]. intros. apply Hleaf.
Qed.

Lemma foreign_same s G (m : machine P) f : (forall a p g, owns (set_mach s m) a p g <-> owns s a p g) ->
  (frame f -> G !! f = None -> frame_state (pmm (mach s)) f <> PMM_PAGE_FREE <-> frame_state (pmm m) f <> PMM_PAGE_FREE) ->
  foreign (set_mach s m) G f <-> foreign s G f.
Proof.
  intros Ho Hs. split; intros [Hf Ht Hu Hw]; (split; [done | done | by apply Hs |]); intros a p Hx; apply (Hw a p), Ho, Hx.
Qed.

(** Words outside the user tables keep their value through [over]. *)
Lemma over_outside R (m0 m1 : memory) x : m1 x = low R m0 x -> overlay R m0 m1 x = m0 x.
Proof. unfold low, overlay. destruct (high_word R x); done. Qed.

Lemma proc_used s G R U : proc s G R U -> tables_used U (pmm (mach s)).
Proof. intros [_ F] t x Ht. apply (F t). by rewrite Ht. Qed.

Definition lowered (R : Z) s : machine P := set_mem (mach s) (low R (mem (mach s))).

Lemma over_lowered R s : over R (mem (mach s)) (lowered R s) = mach s.
Proof. unfold over, lowered. cbn. rewrite overlay_low. by destruct (mach s). Qed.

(** The calls do not fill the blanked entries. *)
Lemma low_idem R (m0 m1 : memory) : low R m1 = m1 -> low R (overlay R m0 m1) = m1.
Proof.
  intros E. transitivity (low R m1); [|done]. unfold low, overlay.
  apply FunctionalExtensionality.functional_extensionality. intros x. by destruct (high_word R x).
Qed.

Lemma over_low_lowered R s : over R (fun _ => 0) (lowered R s) = lowered R s.
Proof.
  unfold over, lowered. cbn. f_equal. unfold low, overlay. apply FunctionalExtensionality.functional_extensionality.
  intros x. by destruct (high_word R x).
Qed.

Lemma proc_map_run s G R U va pa attrs : kva_ok s G -> proc s G R U ->
  0 <= va < USER_LIMIT -> va mod PAGE_4KB = 0 -> frame pa ->
  exists st m1, KePtMapPage (Some (user_space R)) va pa attrs (mach s) = Ok (st, over R (mem (mach s)) m1) /\
    low R (mem m1) = mem m1 /\ map_outcome R U va pa attrs (lowered R s) st m1.
Proof.
  intros K Pr Hva Hal Hpa. pose proof (pr_tree _ _ _ _ Pr) as T.
  assert (Used : tables_used U (pmm (lowered R s))) by (by eapply proc_used).
  destruct (map_page_run (user_space R) (lowered R s) U va pa attrs) as (st & m1 & E & O);
    [by split | apply K | done | unfold is_u64, USER_LIMIT in *; lia | done | done |].
  pose proof (map_over (lowered R s) (mem (mach s)) R U va pa attrs T (kv_frames _ _ K) Used Hva Hal Hpa) as E1.
  rewrite over_lowered, E in E1. cbn [res_bind] in E1.
  pose proof (map_over (lowered R s) (fun _ => 0) R U va pa attrs T (kv_frames _ _ K) Used Hva Hal Hpa) as E2.
  rewrite over_low_lowered, E in E2. cbn [res_bind] in E2. injection E2 as E2.
  exists st, m1. split; [exact E1|]. split; [|exact O]. rewrite E2 at 2. done.
Qed.

(** The machine after a call that changed the user half only. *)
Definition user_machine R s (m1 : machine P) : KE_KVA_STATE P := set_mach s (over R (mem (mach s)) m1).

Lemma user_mem R s m1 x : mem m1 x = low R (mem (mach s)) x -> mem (mach (user_machine R s m1)) x = mem (mach s) x.
Proof. intros E. by apply over_outside. Qed.

(** What a user address translates to afterwards. *)
Lemma user_translate R s (m1 : machine P) U' va : tree (mem m1) R U' -> 0 <= va < USER_LIMIT ->
  translate (mem (mach (user_machine R s m1))) R va = translate (mem m1) R va.
Proof. intros T Hva. by apply (translate_over _ _ R U'). Qed.

Record user_mapped s G R U U' va pa attrs s' : Prop := mkUserMapped {
  um_ok : kva_ok s' G;
  um_space : gKernelAddressSpace s' = gKernelAddressSpace s;
  um_proc : proc s' G R U';
  um_sub : U ⊆ U';
  um_foreign f : foreign s' G f <-> foreign s G f \/ (is_Some (U' !! f) /\ U !! f = None);
  um_fresh f : is_Some (U' !! f) -> U !! f = None -> frame_state (pmm (mach s)) f = PMM_PAGE_FREE;
  um_state f : foreign s G f -> frame_state (pmm (mach s')) f = frame_state (pmm (mach s)) f;
  um_mem f x : foreign s G f -> U !! f = None -> in_page f x -> mem (mach s') x = mem (mach s) x;
  um_before : translate (mem (mach s)) R va = None;
  um_after : translate (mem (mach s')) R va =
    Some (mkMapping true false (has attrs PTE_USER) 1 PAGE_4KB pa (leaf_value pa attrs));
  um_others va' : 0 <= va' < USER_LIMIT -> vprefix 0 va' <> vprefix 0 va ->
    same_mapping false (translate (mem (mach s)) R va') (translate (mem (mach s')) R va')
}.

(** A user map or unmap that changed nothing a page can see. *)
Record user_same s G R U s' : Prop := mkUserSame {
  us_ok : kva_ok s' G;
  us_space : gKernelAddressSpace s' = gKernelAddressSpace s;
  us_proc : proc s' G R U;
  us_foreign f : foreign s' G f <-> foreign s G f;
  us_state f : foreign s G f -> frame_state (pmm (mach s')) f = frame_state (pmm (mach s)) f;
  us_mem f x : foreign s G f -> U !! f = None -> in_page f x -> mem (mach s') x = mem (mach s) x
}.

Lemma user_change s G R U U' (m1 : machine P) : kva_ok s G -> proc s G R U ->
  low R (mem m1) = mem m1 -> tree (mem m1) R U' -> U ⊆ U' -> frames_ok (pmm m1) ->
  (forall f x, frame f -> U' !! f = None -> frame_state (pmm (mach s)) f <> PMM_PAGE_FREE -> in_page f x ->
     mem m1 x = low R (mem (mach s)) x) ->
  (forall f, frame f -> frame_state (pmm m1) f =
     if decide (is_Some (U' !! f) /\ U !! f = None) then PMM_PAGE_ALLOCATED else frame_state (pmm (mach s)) f) ->
  (forall f, is_Some (U' !! f) -> U !! f = None -> frame_state (pmm (mach s)) f = PMM_PAGE_FREE) ->
  let s' := user_machine R s m1 in
  kva_ok s' G /\ proc s' G R U' /\
  (forall f, foreign s' G f <-> foreign s G f \/ (is_Some (U' !! f) /\ U !! f = None)) /\
  (forall f, foreign s G f -> frame_state (pmm (mach s')) f = frame_state (pmm (mach s)) f) /\
  (forall f x, foreign s G f -> U !! f = None -> in_page f x -> mem (mach s') x = mem (mach s) x).
Proof.
  intros K Pr Low T Hsub Hf Hmem Hst Hfresh s'.
  assert (Hnew : forall f, frame_state (pmm (mach s)) f <> PMM_PAGE_FREE -> U !! f = None -> U' !! f = None).
  { intros f Hu Hn. destruct (U' !! f) eqn:E; [|done]. exfalso. apply Hu, Hfresh; [by rewrite E | done]. }
  assert (Hused : forall f, frame f -> frame_state (pmm (mach s)) f <> PMM_PAGE_FREE ->
    frame_state (pmm m1) f = frame_state (pmm (mach s)) f).
  { intros f Hfr Hu. rewrite Hst by done. apply decide_False. intros [Hs Hn]. by apply Hu, Hfresh. }
  destruct (kva_user_change s G (over R (mem (mach s)) m1) K Hf) as [K' Ho].
  { intros t x i Ht Hi. apply over_outside, (Hmem t); [destruct x; by eapply (tr_label _ _ _ (kva_tree _ _ K)) | | by apply (kv_used _ _ K t x) | by apply word_in_page].
    apply Hnew; [by apply (kv_used _ _ K t x)|]. destruct (U !! t) eqn:E; [|done].
    assert (Fo : foreign s G t) by (apply (pr_tables _ _ _ _ Pr); by rewrite E). pose proof (fo_table _ _ _ Fo). congruence. }
  { exact Hused. }
  change (set_mach s _) with s' in K', Ho.
  assert (Fo : forall f, foreign s' G f <-> foreign s G f \/ (is_Some (U' !! f) /\ U !! f = None)).
  { intros f. destruct (decide (is_Some (U' !! f) /\ U !! f = None)) as [[Hs Hn]|Hd].
    - split; [by right|]. intros _. assert (Hfr : frame f) by (destruct Hs as [[l p] Hs]; by eapply (tr_label _ _ _ T)).
      split; [done | | | ].
      + destruct (G !! f) eqn:E; [|done]. by destruct (kv_used _ _ K f _ E (Hfresh f Hs Hn)).
      + change (pmm (mach s')) with (pmm m1). rewrite Hst, decide_True by done. done.
      + intros a p Hx. apply Ho in Hx. apply (kv_owned _ _ K) in Hx as (_ & Hx & _). rewrite (Hfresh f Hs Hn) in Hx. done.
    - transitivity (foreign s G f); [|tauto]. apply (foreign_same s G (over R (mem (mach s)) m1) f Ho). intros Hfr _.
      change (pmm (over R (mem (mach s)) m1)) with (pmm m1). by rewrite Hst, decide_False. }
  split; [done|]. split; [split|]; [| |split; [done|split]].
  - change (mem (mach s')) with (overlay R (mem (mach s)) (mem m1)). by rewrite low_idem.
  - intros t Ht. apply Fo. destruct (U !! t) eqn:E; [left; apply (pr_tables _ _ _ _ Pr); by rewrite E | by right].
  - intros f Fs. apply Hused; apply Fs.
  - intros f x Fs Hn Hx. apply over_outside, (Hmem f); [apply Fs | apply Hnew; [apply Fs | done] | apply Fs | done].
Qed.

Lemma proc_map s G R U va pa attrs : kva_ok s G -> proc s G R U ->
  0 <= va < USER_LIMIT -> va mod PAGE_4KB = 0 -> frame pa ->
  exists st m, KePtMapPage (Some (user_space R)) va pa attrs (mach s) = Ok (st, m) /\
    ((st = EC_SUCCESS /\ exists U', user_mapped s G R U U' va pa attrs (set_mach s m)) \/
     (st <> EC_SUCCESS /\ user_same s G R U (set_mach s m) /\
      forall va', 0 <= va' < USER_LIMIT -> translate (mem m) R va' = translate (mem (mach s)) R va')).
Proof.
  intros K Pr Hva Hal Hpa. destruct (proc_map_run s G R U va pa attrs K Pr Hva Hal Hpa) as (st & m1 & E & Low & O).
  exists st, (over R (mem (mach s)) m1). split; [exact E|]. change (set_mach s _) with (user_machine R s m1).
  destruct O as [(-> & U' & M)|(Hne & Ud & T1 & Tr)]; [left | right]; (split; [done|]).
  - exists U'. pose proof (mp_tree _ _ _ _ _ _ _ _ M) as T1.
    destruct (user_change s G R U U' m1 K Pr Low T1) as (K' & Pr' & Fo & St & Me).
    + apply M.
    + apply M.
    + intros f x Hf Hn _ Hx. apply (mp_outside _ _ _ _ _ _ _ _ M). intros t y Ht. by apply (outside_tables _ _ _ f x t y T1).
    + intros f Hf. apply (mp_state _ _ _ _ _ _ _ _ M), Hf.
    + intros f Hs Hn. destruct (mp_new _ _ _ _ _ _ _ _ M f Hs) as [[y Hy]|]; [congruence | done].
    + assert (Hfr : forall f, is_Some (U' !! f) -> U !! f = None -> frame_state (pmm (mach s)) f = PMM_PAGE_FREE).
      { intros f Hs Hn. destruct (mp_new _ _ _ _ _ _ _ _ M f Hs) as [[y Hy]|]; [congruence | done]. }
      split; try done.
      * apply M.
      * rewrite (proc_translate s G R U va Pr Hva). apply M.
      * rewrite (user_translate R s m1 U' va T1 Hva). apply M.
      * intros va' Hva' Hv. rewrite (user_translate R s m1 U' va' T1 Hva'), (proc_translate s G R U va' Pr Hva'). by apply M.
  - destruct (user_change s G R U U m1 K Pr Low T1) as (K' & Pr' & Fo & St & Me).
    + done.
    + apply Ud.
    + intros f x Hf Hn Hu Hx. apply (ud_outside _ _ _ Ud).
      * intros t y Ht. by apply (outside_tables _ _ _ f x t y T1).
      * replace (x - x mod PAGE_4KB) with f; [done|]. destruct Hf as [Hf _]. unfold in_page, PAGE_4KB in *. div_lia.
    + intros f Hf. rewrite (ud_state _ _ _ Ud) by apply Hf. rewrite decide_False; [done|]. intros [[y Hy] Hn]. congruence.
    + intros f [y Hy] Hn. congruence.
    + split; [split; try done|].
      * intros f. rewrite Fo. split; [intros [?|[[y Hy] Hn]]; [done | congruence] | by left].
      * intros va' Hva'. change (mem (over R (mem (mach s)) m1)) with (mem (mach (user_machine R s m1))).
        rewrite (user_translate R s m1 U va' T1 Hva'), Tr. symmetry. by apply (proc_translate s G R U).
Qed.

Lemma proc_unmap s G R U va mp : kva_ok s G -> proc s G R U -> 0 <= va < USER_LIMIT -> va mod PAGE_4KB = 0 ->
  translate (mem (mach s)) R va = Some mp -> Level mp = 1 ->
  exists m, KePtUnmapPage (Some (user_space R)) va (mach s) = (EC_SUCCESS, m) /\
    user_same s G R U (set_mach s m) /\ translate (mem m) R va = None /\ pmm m = pmm (mach s) /\
    forall va', 0 <= va' < USER_LIMIT -> vprefix 0 va' <> vprefix 0 va ->
      translate (mem m) R va' = translate (mem (mach s)) R va'.
Proof.
  intros K Pr Hva Hal Em Hl. pose proof (pr_tree _ _ _ _ Pr) as T.
  rewrite (proc_translate s G R U va Pr Hva) in Em.
  pose proof (unmap_page_run (user_space R) (lowered R s) U va ltac:(by split) ltac:(unfold is_u64, USER_LIMIT in *; lia) Hal) as O.
  cbn [RootPageTablePhys user_space] in O. change (mem (lowered R s)) with (low R (mem (mach s))) in O. rewrite Em, Hl in O.
  pose proof (unmap_over (lowered R s) (mem (mach s)) R U va T Hva) as E1. rewrite over_lowered in E1.
  pose proof (unmap_over (lowered R s) (fun _ => 0) R U va T Hva) as E2. rewrite over_low_lowered in E2.
  destruct (KePtUnmapPage (Some (user_space R)) va (lowered R s)) as [st m1] eqn:Eu.
  change (1 =? 1) with true in O. cbv iota in O. destruct O as (-> & Hnone & Hoth & T1 & Ep & _ & Hout).
  injection E2 as E2. assert (Low : low R (mem m1) = mem m1) by (rewrite E2 at 2; done).
  exists (over R (mem (mach s)) m1). split; [exact E1|]. change (set_mach s _) with (user_machine R s m1).
  destruct (user_change s G R U U m1 K Pr Low T1) as (K' & Pr' & Fo & St & Me).
  + done.
  + rewrite Ep. apply K.
  + intros f x Hf Hn _ Hx. apply Hout. intros t y Ht. by apply (outside_tables _ _ _ f x t y T1).
  + intros f Hf. rewrite Ep, decide_False; [done|]. intros [[y Hy] Hn]. congruence.
  + intros f [y Hy] Hn. congruence.
  + split; [split; try done|].
    { intros f. rewrite Fo. split; [intros [?|[[y Hy] Hn]]; [done | congruence] | by left]. }
    change (mem (over R (mem (mach s)) m1)) with (mem (mach (user_machine R s m1))). split_and!.
    * by rewrite (user_translate R s m1 U va T1 Hva).
    * exact Ep.
    * intros va' Hva' Hv. rewrite (user_translate R s m1 U va' T1 Hva'), Hoth by done. symmetry. by apply (proc_translate s G R U).
Qed.
End process.
