(* ===== verification/StagingState.v ===== *)
(** * A staging under construction

    [staged s0 G0 U0 R extra pages s G U] compares a state with the one a
    staging started from: which frames have been taken since (tables of the
    process, pages mapped so far, and the pages in [extra] that are not mapped
    yet), what the pages hold and translate to, and that nothing else the
    kernel does not own has changed. *)

From S2P Require Import Prelude Pmm PageTable Kva KvaInv KvaLayout KvaMach KvaOps KvaCalls KvaFixmap KvaHeap UserMode UserCopy LowHalf StagingInv StagingSpace.

Local Open Scope Z_scope.

Import PageTable Kva KvaInv KvaLayout KvaMach KvaOps KvaCalls KvaFixmap KvaHeap UserMode LowHalf.

(** A recorded page and the bytes it was filled with. *)
Abbreviation staged_page := (KE_USER_MODE_MAPPING_RECORD * list Z)%type.

Definition page_frames (pages : list staged_page) : list Z := (fun p => RPhysicalBase p.1) <$> pages.
Definition page_prefixes (pages : list staged_page) : list Z := (fun p => vprefix 0 (RVirtualBase p.1)) <$> pages.

(** A ring-3 mapping of one 4 KB page. *)
Definition user_mapping (pa attrs : Z) : KE_PT_MAPPING := mkMapping true false true 1 PAGE_4KB pa (leaf_value pa attrs).

Section staged.
Context `{PageAllocatorLaws P}.
Implicit Types (s : KE_KVA_STATE P) (G U : tables) (extra : list Z) (pages : list staged_page).

Record page_staged s U R (p : staged_page) : Prop := mkPageStaged {
  pg_va : 0 <= RVirtualBase p.1 < USER_LIMIT /\ RVirtualBase p.1 mod PAGE_4KB = 0;
  pg_holds : page_holds (mem (mach s)) (RPhysicalBase p.1) p.2;
  pg_maps : translate (mem (mach s)) R (RVirtualBase p.1) = Some (user_mapping (RPhysicalBase p.1) (RAttributes p.1))
}.

Record staged s0 G0 U0 (R : Z) extra pages s G U : Prop := mkStaged {
  sg_ok : kva_ok s G;
  sg_proc : proc s G R U;
  sg_sub : U0 ⊆ U;
  sg_foreign f : foreign s G f <->
    foreign s0 G0 f \/ (is_Some (U !! f) /\ U0 !! f = None) \/ f ∈ extra ++ page_frames pages;
  sg_table f : is_Some (U !! f) -> U0 !! f = None -> ~ foreign s0 G0 f;
  sg_taken f : f ∈ extra ++ page_frames pages ->
    U !! f = None /\ frame_state (pmm (mach s)) f = PMM_PAGE_ALLOCATED /\ ~ foreign s0 G0 f;
  sg_state f : foreign s0 G0 f -> frame_state (pmm (mach s)) f = frame_state (pmm (mach s0)) f;
  sg_mem f x : foreign s0 G0 f -> U0 !! f = None -> in_page f x -> mem (mach s) x = mem (mach s0) x;
  sg_frames : NoDup (extra ++ page_frames pages);
  sg_prefixes : NoDup (page_prefixes pages);
  sg_pages p : p ∈ pages -> page_staged s U R p;
  sg_before p : p ∈ pages -> translate (mem (mach s0)) R (RVirtualBase p.1) = None;
  sg_others va : 0 <= va < USER_LIMIT -> vprefix 0 va ∉ page_prefixes pages ->
    same_mapping false (translate (mem (mach s0)) R va) (translate (mem (mach s)) R va)
}.

Lemma staged_start s G R U : kva_ok s G -> proc s G R U -> staged s G U R [] [] s G U.
Proof.
  intros K Pr. split; try done; cbn.
  - intros f. split; [by left|]. intros [?|[[[y Hy] Hn]|Hin]]; [done | congruence | by apply elem_of_nil in Hin].
  - intros f [y Hy] Hn. congruence.
  - intros f Hin. by apply elem_of_nil in Hin.
  - constructor.
  - constructor.
  - intros p Hin. by apply elem_of_nil in Hin.
  - intros p Hin. by apply elem_of_nil in Hin.
  - intros. apply same_mapping_refl.
Qed.

Lemma taken_foreign s0 G0 U0 R extra pages s G U f : staged s0 G0 U0 R extra pages s G U ->
  f ∈ extra ++ page_frames pages -> foreign s G f.
Proof. intros S Hf. apply (sg_foreign _ _ _ _ _ _ _ _ _ S). by right; right. Qed.

(** The foreign frames of the start are still there and are no new tables. *)
Lemma old_foreign s0 G0 U0 R extra pages s G U f : staged s0 G0 U0 R extra pages s G U ->
  foreign s0 G0 f -> foreign s G f /\ (U0 !! f = None -> U !! f = None).
Proof.
  intros S Fo. split; [apply (sg_foreign _ _ _ _ _ _ _ _ _ S); by left|]. intros Hn.
  destruct (U !! f) eqn:E; [|done]. by destruct (sg_table _ _ _ _ _ _ _ _ _ S f ltac:(by rewrite E) Hn).
Qed.

Lemma same_mapping_step o o1 o2 : same_mapping false o o1 -> same_mapping false o1 o2 -> same_mapping false o o2.
Proof. apply same_mapping_trans. Qed.

(** A ring-3 mapping is not changed by gaining reachability. *)
Lemma user_mapping_same pa attrs o : same_mapping false (Some (user_mapping pa attrs)) o -> o = Some (user_mapping pa attrs).
Proof. destruct o as [mp|]; [|done]. intros (E & U & _). specialize (U eq_refl). rewrite E, U. done. Qed.

(** ** Moves *)

(** The kernel's own work, on pages that are not mapped yet at most. *)
Lemma staged_quiet s0 G0 U0 R extra pages s G U X s' G' : staged s0 G0 U0 R extra pages s G U ->
  quiet X s G s' G' -> (forall f, X f -> f ∈ extra) -> staged s0 G0 U0 R extra pages s' G' U.
Proof.
  intros S Q HX. assert (Htab : forall t, is_Some (U !! t) -> ~ X t).
  { intros t [y Hy] Hx. destruct (sg_taken _ _ _ _ _ _ _ _ _ S t) as (Hn & _); [|congruence]. apply elem_of_app. left. by apply HX. }
  destruct (quiet_proc X s G s' G' R U Q Htab (sg_proc _ _ _ _ _ _ _ _ _ S)) as [Pr' Tr]. destruct S as [K Pr Hsub Fo Tb Tk St Me Nf Np Pg Be Ot].
  assert (Hkeep : forall f, foreign s G f -> ~ f ∈ extra -> forall x, in_page f x -> mem (mach s') x = mem (mach s) x).
  { intros f Hf Hn x Hx. apply (qt_mem _ _ _ _ _ Q f); [done | | done]. intros Hxf. by apply Hn, HX. }
  split; try done.
  - apply Q.
  - intros f. by rewrite (qt_foreign _ _ _ _ _ Q), Fo.
  - intros f Hf. destruct (Tk f Hf) as (Hn & Hs & Hnf). split_and!; try done.
    rewrite (qt_state _ _ _ _ _ Q); [done|]. apply Fo. by right; right.
  - intros f Hf. rewrite (qt_state _ _ _ _ _ Q); [by apply St|]. apply Fo. by left.
  - intros f x Hf Hn Hx. rewrite (Hkeep f); [by apply (Me f) | apply Fo; by left | | done].
    intros He. by apply (Tk f (proj2 (elem_of_app _ _ _) (or_introl He))).
  - intros p Hp. destruct (Pg p Hp) as [Hva Hh Hm]. split; [done | | by rewrite Tr by apply Hva].
    assert (Hin : RPhysicalBase p.1 ∈ page_frames pages) by (by apply (list_elem_of_fmap_2 (fun p : staged_page => RPhysicalBase p.1))).
    assert (Ff : foreign s G (RPhysicalBase p.1)) by (apply Fo; right; right; apply elem_of_app; by right).
    apply (page_holds_ext (mem (mach s))); [apply Ff | | done]. apply Hkeep; [done|]. intros He.
    apply NoDup_app in Nf as (_ & Hd & _). by apply (Hd _ He).
  - intros va Hva Hn. rewrite Tr by done. by apply Ot.
Qed.

(** The process's tables, through a map or unmap of a user page. *)
Record user_step s G R U U' s' : Prop := mkUserStep {
  ut_ok : kva_ok s' G;
  ut_proc : proc s' G R U';
  ut_sub : U ⊆ U';
  ut_foreign f : foreign s' G f <-> foreign s G f \/ (is_Some (U' !! f) /\ U !! f = None);
  ut_fresh f : is_Some (U' !! f) -> U !! f = None -> frame_state (pmm (mach s)) f = PMM_PAGE_FREE;
  ut_state f : foreign s G f -> frame_state (pmm (mach s')) f = frame_state (pmm (mach s)) f;
  ut_mem f x : foreign s G f -> U !! f = None -> in_page f x -> mem (mach s') x = mem (mach s) x
}.

Lemma mapped_step s G R U U' va pa attrs s' : user_mapped s G R U U' va pa attrs s' -> user_step s G R U U' s'.
Proof. by intros []. Qed.

Lemma same_step s G R U s' : user_same s G R U s' -> user_step s G R U U s'.
Proof.
  intros [K Es Pr Fo St Me]. split; try done.
  - intros f. rewrite Fo. split; [by left|]. intros [?|[[y Hy] Hn]]; [done | congruence].
  - intros f [y Hy] Hn. congruence.
Qed.

Lemma step_holds s0 G0 U0 R extra pages s G U U' s' f bytes : staged s0 G0 U0 R extra pages s G U ->
  user_step s G R U U' s' -> f ∈ extra ++ page_frames pages ->
  page_holds (mem (mach s)) f bytes -> page_holds (mem (mach s')) f bytes.
Proof.
  intros S T Hf. pose proof (taken_foreign _ _ _ _ _ _ _ _ _ f S Hf) as Fo.
  apply page_holds_ext; [apply Fo|]. intros x Hx. apply (ut_mem _ _ _ _ _ _ T f); [done | | done].
  by apply (sg_taken _ _ _ _ _ _ _ _ _ S).
Qed.

Lemma staged_user s0 G0 U0 R extra pages s G U U' s' extra' pages' : staged s0 G0 U0 R extra pages s G U ->
  user_step s G R U U' s' -> extra' ++ page_frames pages' ≡ₚ extra ++ page_frames pages ->
  NoDup (page_prefixes pages') -> (forall p, p ∈ pages' -> page_staged s' U' R p) ->
  (forall p, p ∈ pages' -> translate (mem (mach s0)) R (RVirtualBase p.1) = None) ->
  (forall va, 0 <= va < USER_LIMIT -> vprefix 0 va ∉ page_prefixes pages' ->
     same_mapping false (translate (mem (mach s0)) R va) (translate (mem (mach s')) R va)) ->
  staged s0 G0 U0 R extra' pages' s' G U'.
Proof.
  intros S T Hp Np Pg Be Ot. destruct S as [K Pr Hsub Fo Tb Tk St Me Nf _ _ _ _].
  assert (Hnone : forall f, foreign s G f -> U !! f = None -> U' !! f = None).
  { intros f Ff Hn. destruct (U' !! f) eqn:E; [|done]. destruct (fo_used _ _ _ Ff).
    apply (ut_fresh _ _ _ _ _ _ T); [by rewrite E | done]. }
  assert (Hold : forall f, foreign s0 G0 f -> U0 !! f = None -> U !! f = None).
  { intros f Ff Hn. destruct (U !! f) eqn:E; [|done]. by destruct (Tb f ltac:(by rewrite E) Hn). }
  split; try done.
  - apply T.
  - apply T.
  - by etrans; [|apply T].
  - intros f. rewrite (ut_foreign _ _ _ _ _ _ T), Fo, Hp. split.
    + intros [[?|[[[y Hy] Hn]|?]]|[Hs Hn]]; [by left | right; left | by right; right | right; left].
      * split; [|done]. exists y. by apply (lookup_weaken U); [|apply T].
      * split; [done|]. destruct (U0 !! f) eqn:E; [|done]. pose proof (lookup_weaken _ _ _ _ E Hsub). congruence.
    + intros [?|[[Hs Hn]|?]]; [by do 2 left | | by left; right; right].
      destruct (U !! f) eqn:E; [left; right; left; by (split; [eexists|]) | by right].
  - intros f Hs Hn Ff. destruct (U !! f) eqn:E; [by apply (Tb f ltac:(by rewrite E) Hn Ff)|].
    assert (Ff' : foreign s G f) by (apply Fo; by left). destruct (fo_used _ _ _ Ff'). by apply (ut_fresh _ _ _ _ _ _ T).
  - intros f Hf. rewrite Hp in Hf. destruct (Tk f Hf) as (Hn & Hs & Hnf).
    assert (Ff : foreign s G f) by (apply Fo; by right; right). split_and!; [by apply Hnone | | done].
    by rewrite (ut_state _ _ _ _ _ _ T).
  - intros f Hf. rewrite (ut_state _ _ _ _ _ _ T); [by apply St|]. apply Fo. by left.
  - intros f x Hf Hn Hx. rewrite (ut_mem _ _ _ _ _ _ T f); [by apply (Me f) | apply Fo; by left | by apply Hold | done].
  - by rewrite Hp.
Qed.

(** A page stays staged through a step that does not unmap it. *)
Lemma page_kept s0 G0 U0 R extra pages s G U U' s' p : staged s0 G0 U0 R extra pages s G U ->
  user_step s G R U U' s' -> p ∈ pages ->
  same_mapping false (translate (mem (mach s)) R (RVirtualBase p.1)) (translate (mem (mach s')) R (RVirtualBase p.1)) ->
  page_staged s' U' R p.
Proof.
  intros S T Hp Hm. destruct (sg_pages _ _ _ _ _ _ _ _ _ S p Hp) as [Hva Hh Em]. split; [done | |].
  - apply (step_holds s0 G0 U0 R extra pages s G U U' s'); [done | done | | done].
    apply elem_of_app. right. by apply (list_elem_of_fmap_2 (fun p : staged_page => RPhysicalBase p.1)).
  - rewrite Em in Hm. by apply user_mapping_same.
Qed.

Lemma prefix_of_page va va' : 0 <= va < USER_LIMIT -> 0 <= va' < USER_LIMIT ->
  va mod PAGE_4KB = 0 -> va' mod PAGE_4KB = 0 -> vprefix 0 va = vprefix 0 va' -> va = va'.
Proof.
  unfold USER_LIMIT, PAGE_4KB. intros Hva Hva' Ha Ha'. unfold vprefix. change (span 1) with 4096.
  rewrite !(Z.mod_small _ (2 ^ 48)) by lia. intros E. div_lia.
Qed.

Lemma vprefix_low va : 0 <= va < USER_LIMIT -> vprefix 0 (va - va mod PAGE_4KB) = vprefix 0 va.
Proof.
  unfold vprefix. change (span 1) with 4096. unfold PAGE_4KB, USER_LIMIT. intros Hva.
  rewrite !(Z.mod_small _ (2 ^ 48)) by div_lia. div_lia.
Qed.

Lemma staged_map s0 G0 U0 R extra pages s G U U' s' pa r bytes :
  staged s0 G0 U0 R (pa :: extra) pages s G U -> page_holds (mem (mach s)) pa bytes ->
  0 <= RVirtualBase r < USER_LIMIT -> RVirtualBase r mod PAGE_4KB = 0 -> RPhysicalBase r = pa ->
  has (RAttributes r) PTE_USER = true ->
  user_mapped s G R U U' (RVirtualBase r) pa (RAttributes r) s' ->
  staged s0 G0 U0 R extra (pages ++ [(r, bytes)]) s' G U'.
Proof.
  intros S Hh Hva Hal Er Hu M. pose proof (mapped_step _ _ _ _ _ _ _ _ _ M) as T.
  assert (Hnew : vprefix 0 (RVirtualBase r) ∉ page_prefixes pages).
  { intros Hin. apply list_elem_of_fmap in Hin as (p & E & Hp). destruct (sg_pages _ _ _ _ _ _ _ _ _ S p Hp) as [[Hv Ha] _ Em].
    apply prefix_of_page in E; [|done..]. rewrite <- E, (um_before _ _ _ _ _ _ _ _ _ M) in Em. done. }
  apply (staged_user s0 G0 U0 R (pa :: extra) pages s G U U'); try done.
  - unfold page_frames. rewrite fmap_app. cbn. rewrite Er, app_assoc, Permutation_app_comm. done.
  - unfold page_prefixes. rewrite fmap_app. apply NoDup_app. split; [apply S|]. split; [|apply NoDup_singleton].
    intros x Hx Hy%list_elem_of_singleton. by subst x.
  - intros p [Hp|Hp%list_elem_of_singleton]%elem_of_app.
    + apply (page_kept s0 G0 U0 R (pa :: extra) pages s G U U' s' p S T Hp), (um_others _ _ _ _ _ _ _ _ _ M).
      * apply (sg_pages _ _ _ _ _ _ _ _ _ S p Hp).
      * intros E. apply Hnew. rewrite <- E. by apply (list_elem_of_fmap_2 (fun p : staged_page => vprefix 0 (RVirtualBase p.1))).
    + subst p. split; [done | |].
      * cbn. rewrite Er. apply (step_holds s0 G0 U0 R (pa :: extra) pages s G U U' s'); [done | done | by left | done].
      * change (translate (mem (mach s')) R (RVirtualBase r) = Some (user_mapping (RPhysicalBase r) (RAttributes r))).
        rewrite (um_after _ _ _ _ _ _ _ _ _ M), Hu, Er. done.
  - intros p [Hp|Hp%list_elem_of_singleton]%elem_of_app; [by apply (sg_before _ _ _ _ _ _ _ _ _ S)|]. subst p.
    pose proof (sg_others _ _ _ _ _ _ _ _ _ S _ Hva Hnew) as Hs. rewrite (um_before _ _ _ _ _ _ _ _ _ M) in Hs.
    change (RVirtualBase (r, bytes).1) with (RVirtualBase r). by destruct (translate (mem (mach s0)) R (RVirtualBase r)).
  - intros va Hv Hn. unfold page_prefixes in Hn. rewrite fmap_app in Hn. apply not_elem_of_app in Hn as [Hn Hn'].
    apply (same_mapping_step _ (translate (mem (mach s)) R va)); [by apply (sg_others _ _ _ _ _ _ _ _ _ S)|].
    apply (um_others _ _ _ _ _ _ _ _ _ M); [done|]. intros E. apply Hn'. rewrite E. by left.
Qed.

(** The page allocator takes or frees a frame that is not a table. *)
Lemma frame_step s G R U p pa v : kva_ok s G -> proc s G R U -> frame pa -> G !! pa = None -> U !! pa = None ->
  (forall a q, ~ owns s a q pa) -> let s' := set_mach s (set_pmm (mach s) p) in kva_ok s' G ->
  (forall b, b mod PAGE_4KB = 0 -> frame_state p b = if decide (b = pa) then v else frame_state (pmm (mach s)) b) ->
  proc s' G R U /\ (forall f, f <> pa -> foreign s' G f <-> foreign s G f) /\ (foreign s' G pa <-> v <> PMM_PAGE_FREE) /\
  forall f, frame f -> f <> pa -> frame_state (pmm (mach s')) f = frame_state (pmm (mach s)) f.
Proof.
  intros K Pr Hf HG HU Hown s' K' Hst.
  assert (Ho : forall a q f, owns s' a q f <-> owns s a q f) by (by apply (owns_iff s G s' G K K' eq_refl)).
  assert (Hs : forall f, frame f -> f <> pa -> frame_state (pmm (mach s')) f = frame_state (pmm (mach s)) f).
  { intros f Hfr Hne. change (pmm (mach s')) with p. rewrite Hst by apply Hfr. by rewrite decide_False. }
  assert (Fo : forall f, f <> pa -> foreign s' G f <-> foreign s G f).
  { intros f Hne. apply (foreign_same s G (set_pmm (mach s) p) f Ho). intros Hfr _. by rewrite <- (Hs f Hfr Hne). }
  assert (Hpa : frame_state (pmm (mach s')) pa = v) by (change (pmm (mach s')) with p; rewrite Hst by apply Hf; by rewrite decide_True).
  split; [|split; [done|split; [|done]]].
  - split; [apply Pr|]. intros t Ht. apply Fo; [|by apply (pr_tables _ _ _ _ Pr)]. intros ->. rewrite HU in Ht. by destruct Ht.
  - split; [intros F; rewrite <- Hpa; apply F|]. intros Hv. split; [done | done | by rewrite Hpa|].
    intros a q Hq. apply Ho in Hq. by apply (Hown a q).
Qed.

Lemma staged_take s0 G0 U0 R extra pages s G U : staged s0 G0 U0 R extra pages s G U ->
  exists st p out, pmm_alloc (pmm (mach s)) 1 None = Ok (st, p, out) /\
    ((st = EC_SUCCESS /\ exists pa, out = Some pa /\
        staged s0 G0 U0 R (pa :: extra) pages (set_mach s (set_pmm (mach s) p)) G U) \/
     (st <> EC_SUCCESS /\ set_mach s (set_pmm (mach s) p) = s)).
Proof.
  intros S. destruct (take_frame s G (sg_ok _ _ _ _ _ _ _ _ _ S)) as (st & p & out & E & O).
  exists st, p, out. split; [done|]. destruct O as [(-> & pa & -> & Hf & Hfree & Hst & K' & B)|?]; [left | by right].
  split; [done|]. exists pa. split; [done|]. set (s' := set_mach s (set_pmm (mach s) p)) in *.
  assert (Hnf : ~ foreign s G pa) by (intros F; by destruct (fo_used _ _ _ F)).
  assert (Hno : forall a q, ~ owns s a q pa).
  { intros a q Ho. destruct (kv_owned _ _ (sg_ok _ _ _ _ _ _ _ _ _ S) a q pa Ho) as (_ & Ha & _). by rewrite Hfree in Ha. }
  assert (HU : U !! pa = None).
  { destruct (U !! pa) eqn:EU; [|done]. destruct Hnf. apply (pr_tables _ _ _ _ (sg_proc _ _ _ _ _ _ _ _ _ S)). by rewrite EU. }
  destruct S as [K Pr Hsub Fo Tb Tk St Me Nf Np Pg Be Ot].
  destruct (frame_step s G R U p pa PMM_PAGE_ALLOCATED K Pr Hf (proj1 (proj2 B)) HU Hno K' Hst) as (Pr' & Fs & Fp & Hs).
  change (set_mach s (set_pmm (mach s) p)) with s' in Pr', Fs, Fp, Hs.
  assert (Hne : forall f, foreign s G f -> f <> pa) by (intros f F ->; done).
  assert (Hnt : pa ∉ extra ++ page_frames pages) by (intros Hin; apply Hnf, Fo; by right; right).
  assert (Hn0 : ~ foreign s0 G0 pa) by (intros F; apply Hnf, Fo; by left).
  split; try done.
  - intros f. cbn [app]. rewrite elem_of_cons. destruct (decide (f = pa)) as [->|Hd]; [|rewrite Fs, Fo by done; tauto].
    split; [intros _; by right; right; left | intros _; by apply Fp].
  - intros f. cbn [app]. rewrite elem_of_cons. intros [->|Hin]; [split_and!; [done | apply B | done]|].
    destruct (Tk f Hin) as (Hn & Hsf & Hnf'). split_and!; [done | | done].
    assert (F : foreign s G f) by (apply Fo; by right; right). rewrite Hs; [done | apply F | by apply Hne].
  - intros f F0. assert (F : foreign s G f) by (apply Fo; by left). rewrite Hs; [by apply St | apply F | by apply Hne].
  - cbn [app]. by constructor.
  - intros q Hq. destruct (Pg q Hq) as [? ? ?]. by split.
Qed.

Lemma staged_free s0 G0 U0 R extra pages s G U pa : staged s0 G0 U0 R (pa :: extra) pages s G U ->
  exists p, pmm_free (pmm (mach s)) pa 1 = Ok (EC_SUCCESS, p) /\
    staged s0 G0 U0 R extra pages (set_mach s (set_pmm (mach s) p)) G U.
Proof.
  intros S. assert (F : foreign s G pa) by (eapply taken_foreign; [done | by left]).
  destruct S as [K Pr Hsub Fo Tb Tk St Me Nf Np Pg Be Ot]. cbn [app] in *.
  destruct (Tk pa ltac:(by left)) as (HU & Hal & Hn0).
  destruct (free_unowned s G pa K (fo_frame _ _ _ F) Hal (fo_table _ _ _ F) (fo_owner _ _ _ F)) as (p & E & K' & Hst).
  exists p. split; [done|]. set (s' := set_mach s (set_pmm (mach s) p)) in *.
  destruct (frame_step s G R U p pa PMM_PAGE_FREE K Pr (fo_frame _ _ _ F) (fo_table _ _ _ F) HU (fo_owner _ _ _ F) K' Hst)
    as (Pr' & Fs & Fp & Hs).
  change (set_mach s (set_pmm (mach s) p)) with s' in Pr', Fs, Fp, Hs.
  apply NoDup_cons in Nf as [Hnt Nf].
  assert (Hne : forall f, f ∈ extra ++ page_frames pages -> f <> pa) by (intros f Hin ->; done).
  split; try done.
  - intros f. destruct (decide (f = pa)) as [->|Hd].
    + rewrite Fp. split; [done|]. intros [?|[[[y Hy] ?]|?]]; [done | congruence | done].
    + rewrite Fs, Fo, elem_of_cons by done. tauto.
  - intros f Hin. destruct (Tk f ltac:(by right)) as (Hn & Hsf & Hnf'). split_and!; [done | | done].
    assert (Ff : foreign s G f) by (apply Fo; right; right; by right). rewrite Hs; [done | apply Ff | by apply Hne].
  - intros f F0. assert (Ff : foreign s G f) by (apply Fo; by left). rewrite Hs; [by apply St | apply Ff |]. by intros ->.
  - intros q Hq. destruct (Pg q Hq) as [? ? ?]. by split.
Qed.

Lemma staged_unmap s0 G0 U0 R extra pages s G U p : staged s0 G0 U0 R extra (pages ++ [p]) s G U ->
  exists m, KePtUnmapPage (Some (user_space R)) (RVirtualBase p.1) (mach s) = (EC_SUCCESS, m) /\
    staged s0 G0 U0 R (RPhysicalBase p.1 :: extra) pages (set_mach s m) G U.
Proof.
  intros S. assert (Hp : p ∈ pages ++ [p]) by (apply elem_of_app; right; by left).
  destruct (sg_pages _ _ _ _ _ _ _ _ _ S p Hp) as [[Hva Hal] _ Em].
  destruct (proc_unmap s G R U (RVirtualBase p.1) _ (sg_ok _ _ _ _ _ _ _ _ _ S) (sg_proc _ _ _ _ _ _ _ _ _ S) Hva Hal Em eq_refl)
    as (m & E & Us & Hgone & _ & Hoth).
  exists m. split; [done|]. pose proof (same_step _ _ _ _ _ Us) as T.
  pose proof (sg_prefixes _ _ _ _ _ _ _ _ _ S) as Np. unfold page_prefixes in Np. rewrite fmap_app in Np.
  apply NoDup_app in Np as (Np & Hd & _).
  apply (staged_user s0 G0 U0 R extra (pages ++ [p]) s G U U); try done.
  - unfold page_frames. rewrite fmap_app. cbn. symmetry. by rewrite app_assoc, Permutation_app_comm.
  - intros q Hq. apply (page_kept s0 G0 U0 R extra (pages ++ [p]) s G U U); [done | done | apply elem_of_app; by left|].
    change (mem (mach (set_mach s m))) with (mem m). rewrite Hoth; [apply same_mapping_refl | |].
    + apply (sg_pages _ _ _ _ _ _ _ _ _ S q). apply elem_of_app; by left.
    + intros Eq. apply (Hd (vprefix 0 (RVirtualBase q.1))); [by apply (list_elem_of_fmap_2 (fun p : staged_page => vprefix 0 (RVirtualBase p.1)))|].
      rewrite Eq. by left.
  - intros q Hq. apply (sg_before _ _ _ _ _ _ _ _ _ S q). apply elem_of_app; by left.
  - intros va Hv Hn. change (mem (mach (set_mach s m))) with (mem m). destruct (decide (vprefix 0 va = vprefix 0 (RVirtualBase p.1))) as [Ep|Ne].
    + assert (Eva : va - va mod PAGE_4KB = RVirtualBase p.1).
      { apply prefix_of_page; [clear - Hv; unfold USER_LIMIT, PAGE_4KB in *; div_lia | done | clear; unfold PAGE_4KB; div_lia | done |].
        rewrite <- Ep. by apply vprefix_low. }
      rewrite (translate_offset _ _ va), Eva, (sg_before _ _ _ _ _ _ _ _ _ S p Hp).
      rewrite (translate_offset _ _ va), Eva, Hgone. done.
    + rewrite Hoth by done. apply (sg_others _ _ _ _ _ _ _ _ _ S); [done|].
      unfold page_prefixes. rewrite fmap_app. apply not_elem_of_app. split; [done|]. by intros ?%list_elem_of_singleton.
Qed.
End staged.
