(* ===== verification/StagingRun.v ===== *)
(** * Runs of the staging calls

    [image] adds the staging object to [staged]: its records are those of the
    pages.  One page, the destruction loop and the whole of
    [KeUserModeDestroyStaging] run on it; [small_objects] is what the
    staging code relies on in the kernel's small-object heap. *)

From S2P Require Import Prelude Pmm PageTable Heap Parts Kva KvaInv KvaLayout KvaMach KvaOps KvaCalls KvaFixmap KvaHeap UserMode UserCopy LowHalf Staging StagingInv StagingFill StagingSpace StagingState.

Local Open Scope Z_scope.

Import PageTable Kva KvaInv KvaLayout KvaMach KvaOps KvaCalls KvaFixmap KvaHeap UserMode LowHalf Staging.

(** ** The small-object heap *)

(** The heap's own work is the kernel's ([quiet]); an address it hands out is
    not one already handed out. *)
Class SmallObjectsLaws (P : Type) `{PageAllocatorLaws P} `{SmallObjects P} := {
  live : KE_KVA_STATE P -> Z -> Prop;
  kzalloc_law s G size : kva_ok s G -> exists G', quiet (fun _ => False) s G (objects_kzalloc size s).2 G' /\
    ((objects_kzalloc size s).1 = 0 \/ ~ live s (objects_kzalloc size s).1);
  kfree_law s G a : kva_ok s G -> exists G', quiet (fun _ => False) s G (objects_kfree a s) G'
}.

(** ** The checks before anything is mapped *)

Section holes.
Context `{PageAllocatorLaws P}.

Lemma hole_run (s : KE_KVA_STATE P) G R U va : proc s G R U -> 0 <= va < USER_LIMIT -> va mod PAGE_4KB = 0 ->
  KiValidateUserModeHole (Some (user_space R)) va (mem (mach s)) =
    match translate (mem (mach s)) R va with Some mp => if Present mp then EC_INVALID_STATE else EC_SUCCESS | None => EC_SUCCESS end.
Proof.
  intros Pr Hva Hal. unfold KiValidateUserModeHole. cbn [KeFindImportedRegion user_space Initialized Regions negb fold_left].
  rewrite bool_decide_false by (by intros [? ?]).
  rewrite <- (overlay_low R (mem (mach s))) at 1. rewrite (query_over _ _ R U) by (done || apply Pr).
  rewrite (query_page_run (user_space R) (low R (mem (mach s))) U va); [|apply user_space_ok, Pr | unfold is_u64, USER_LIMIT in *; lia | done].
  change (RootPageTablePhys (user_space R)) with R. rewrite <- (proc_translate s G R U va Pr Hva).
  by destruct (translate (mem (mach s)) R va).
Qed.

Lemma hole_run' (s : KE_KVA_STATE P) G R U va : proc s G R U -> 0 <= va < USER_LIMIT -> va mod PAGE_4KB = 0 ->
  (KiValidateUserModeHole (Some (user_space R)) va (mem (mach s)) = EC_SUCCESS /\ translate (mem (mach s)) R va = None) \/
  (KiValidateUserModeHole (Some (user_space R)) va (mem (mach s)) = EC_INVALID_STATE).
Proof.
  intros Pr Hva Hal. rewrite (hole_run s G R U va Pr Hva Hal).
  destruct (translate (mem (mach s)) R va) as [mp|] eqn:E; [right | by left]. by rewrite (translate_present _ _ _ _ E).
Qed.
End holes.

Section runs.
Context `{SmallObjectsLaws P}.
Implicit Types (u : USER_MODE P) (s : KE_KVA_STATE P) (G U : tables) (pages : list staged_page).

Record image s0 G0 U0 R a g0 objs extra pages u G U : Prop := mkImage {
  im_staged : staged s0 G0 U0 R extra pages (kva u) G U;
  im_objects : objects u = <[a := set_Mappings pages.*1 g0]> objs
}.

Lemma image_get s0 G0 U0 R a g0 objs extra pages u G U : image s0 G0 U0 R a g0 objs extra pages u G U ->
  get_staging a u = Ok (set_Mappings pages.*1 g0).
Proof. intros [_ E]. unfold get_staging. by rewrite E, lookup_insert_eq. Qed.

Lemma set_kva_image s0 G0 U0 R a g0 objs extra extra' pages u G U s' G' U' :
  image s0 G0 U0 R a g0 objs extra pages u G U -> staged s0 G0 U0 R extra' pages s' G' U' ->
  image s0 G0 U0 R a g0 objs extra' pages (set_kva s' u) G' U'.
Proof. intros [_ E] S. by split. Qed.

Lemma set_records l g : Mappings (set_Mappings l g) = l.
Proof. done. Qed.

Lemma put_image s0 G0 U0 R a g0 objs extra pages pages' u G U :
  objects u = <[a := set_Mappings pages.*1 g0]> objs -> staged s0 G0 U0 R extra pages' (kva u) G U ->
  image s0 G0 U0 R a g0 objs extra pages' (put_staging a (set_Mappings pages'.*1 (set_Mappings pages.*1 g0)) u) G U.
Proof. intros E S. split; [done|]. cbn. rewrite E, insert_insert_eq. done. Qed.

Lemma free_page_run s0 G0 U0 R a g0 objs extra pages u G U pa : image s0 G0 U0 R a g0 objs (pa :: extra) pages u G U ->
  exists u', free_page pa u = Ok (EC_SUCCESS, u') /\ image s0 G0 U0 R a g0 objs extra pages u' G U.
Proof.
  intros I. destruct (staged_free _ _ _ _ _ _ _ _ _ _ (im_staged _ _ _ _ _ _ _ _ _ _ _ _ I)) as (p & E & S).
  unfold free_page. rewrite E. cbn [res_bind]. eexists. split; [done|]. by eapply set_kva_image.
Qed.

(** ** [KiAllocateAndMapUserPage] *)

Lemma page_run s0 G0 U0 R a g0 objs pages u G U kind va attrs bytes n src : a <> 0 ->
  image s0 G0 U0 R a g0 objs [] pages u G U -> (length pages < 3)%nat ->
  0 <= va < USER_LIMIT -> va mod PAGE_4KB = 0 -> has attrs PTE_USER = true ->
  source_bytes bytes n = Ok src -> Forall is_u8 src -> Z.of_nat (length src) <= PAGE_4KB ->
  exists st u' G' U', KiAllocateAndMapUserPage (user_space R) a kind va attrs bytes n u = Ok (st, u') /\
    ((st = EC_SUCCESS /\ exists pa, image s0 G0 U0 R a g0 objs [] (pages ++ [(mkRecord kind va pa attrs, src)]) u' G' U') \/
     (st <> EC_SUCCESS /\ image s0 G0 U0 R a g0 objs [] pages u' G' U')).
Proof.
  intros Ha I Hl Hva Hal Hu Hsrc Hu8 Hlen. unfold KiAllocateAndMapUserPage.
  destruct (staged_take _ _ _ _ _ _ _ _ _ (im_staged _ _ _ _ _ _ _ _ _ _ _ _ I)) as (st & p & out & -> & O). cbn [res_bind].
  destruct O as [(-> & pa & -> & S1)|(Hne & Es)].
  2: { destruct st; [done|..]; do 4 eexists; (split; [reflexivity|]); right; (split; [done|]);
       (eapply set_kva_image; [exact I | rewrite Es; apply I]). }
  set (u1 := set_kva _ u). assert (I1 : image s0 G0 U0 R a g0 objs [pa] pages u1 G U) by (by eapply set_kva_image).
  assert (F : foreign (kva u1) G pa) by (eapply taken_foreign; [exact S1 | by left]).
  destruct (fill_page_run (kva u1) G pa bytes n src (sg_ok _ _ _ _ _ _ _ _ _ S1) F Hsrc Hu8 Hlen) as (st & s2 & G2 & -> & Q & Hh).
  cbn [res_bind].
  assert (S2 : staged s0 G0 U0 R [pa] pages s2 G2 U).
  { eapply staged_quiet; [exact S1 | exact Q|]. intros f <-. by left. }
  assert (I2 : image s0 G0 U0 R a g0 objs [pa] pages (set_kva s2 u1) G2 U) by (by eapply set_kva_image).
  unfold succeeded at 1. case_bool_decide as Hst; cbn [negb].
  2: { destruct (free_page_run _ _ _ _ _ _ _ _ _ _ _ _ _ I2) as (u' & -> & I'). cbn [res_bind]. do 4 eexists. split; [done|]. by right. }
  specialize (Hh Hst).
  destruct (proc_map s2 G2 R U va pa attrs (sg_ok _ _ _ _ _ _ _ _ _ S2) (sg_proc _ _ _ _ _ _ _ _ _ S2) Hva Hal (fo_frame _ _ _ F))
    as (st3 & m & E3 & O).
  change (kva (set_kva s2 u1)) with s2. rewrite E3. cbn [res_bind].
  destruct O as [(-> & U' & M)|(Hne & Us & Htr)].
  - assert (S3 : staged s0 G0 U0 R [] (pages ++ [(mkRecord kind va pa attrs, src)]) (set_mach s2 m) G2 U') by (by eapply staged_map).
    change (succeeded EC_SUCCESS) with true. cbn [negb]. unfold KiRecordMappedPage.
    rewrite (proj2 (Z.eqb_neq a 0)) by done.
    unfold get_staging. cbn [set_kva objects]. rewrite (im_objects _ _ _ _ _ _ _ _ _ _ _ _ I1), lookup_insert_eq. cbn [res_bind].
    unfold MappingCount. rewrite set_records, length_fmap. change KE_USER_MODE_MAX_MAPPINGS with 3.
    rewrite (proj2 (Z.leb_gt _ _)) by lia. cbn [res_bind]. change (succeeded EC_SUCCESS) with true. cbn [negb].
    do 4 eexists. split; [reflexivity|]. left. split; [done|]. exists pa.
    replace (pages.*1 ++ [mkRecord kind va pa attrs]) with (pages ++ [(mkRecord kind va pa attrs, src)]).*1 by (by rewrite fmap_app).
    apply put_image; [apply I1 | exact S3].
  - unfold succeeded. rewrite bool_decide_false by done. cbn [negb].
    assert (I3 : image s0 G0 U0 R a g0 objs [pa] pages (set_kva (set_mach s2 m) (set_kva s2 u1)) G2 U).
    { eapply set_kva_image; [exact I2|]. pose proof (same_step _ _ _ _ _ Us) as T.
      apply (staged_user s0 G0 U0 R [pa] pages s2 G2 U U); try done.
      - apply S2.
      - intros q Hq. apply (page_kept s0 G0 U0 R [pa] pages s2 G2 U U); [done | done | done|].
        change (mem (mach (set_mach s2 m))) with (mem m). rewrite Htr; [apply same_mapping_refl|]. by apply (sg_pages _ _ _ _ _ _ _ _ _ S2 q).
      - intros q Hq. by apply (sg_before _ _ _ _ _ _ _ _ _ S2 q).
      - intros va' Hv Hn. change (mem (mach (set_mach s2 m))) with (mem m). rewrite Htr by done. by apply (sg_others _ _ _ _ _ _ _ _ _ S2). }
    destruct (free_page_run _ _ _ _ _ _ _ _ _ _ _ _ _ I3) as (u' & E & I'). cbn [set_kva objects kva] in E |- *. rewrite E. cbn [res_bind].
    do 4 eexists. split; [done|]. by right.
Qed.

(** ** Destruction *)

Lemma destroy_pages_run s0 G0 U0 R a g0 objs pages u G U : image s0 G0 U0 R a g0 objs [] pages u G U ->
  exists u', destroy_mappings (length pages) (user_space R) a EC_SUCCESS u = Ok (EC_SUCCESS, u') /\
    image s0 G0 U0 R a g0 objs [] [] u' G U.
Proof.
  revert u. induction pages as [|p pages IH] using rev_ind; intros u I; [by exists u|].
  rewrite length_app, Nat.add_comm. cbn [length Nat.add destroy_mappings]. rewrite (image_get _ _ _ _ _ _ _ _ _ _ _ _ I). cbn [res_bind].
  rewrite set_records, fmap_app, lookup_app_r, length_fmap, Nat.sub_diag by (by rewrite length_fmap). cbn [fmap list_fmap lookup list_lookup].
  change (Initialized (user_space R)) with true. cbv iota.
  destruct (staged_unmap _ _ _ _ _ _ _ _ _ _ (im_staged _ _ _ _ _ _ _ _ _ _ _ _ I)) as (m & -> & S1).
  change (succeeded EC_SUCCESS) with true. cbn [orb].
  set (u1 := set_kva _ u).
  assert (I1 : image s0 G0 U0 R a g0 objs [] (pages ++ [p]) u G U) by done.
  destruct (staged_free _ _ _ _ _ _ _ _ _ _ S1) as (p2 & E2 & S2).
  unfold free_page. change (kva u1) with (set_mach (kva u) m). rewrite E2. cbn [res_bind]. change (succeeded EC_SUCCESS) with true. cbv iota. cbn [res_bind].
  unfold get_staging. cbn [set_kva objects u1]. rewrite (im_objects _ _ _ _ _ _ _ _ _ _ _ _ I), lookup_insert_eq. cbn [res_bind].
  rewrite set_records, fmap_app, take_app_length' by (by rewrite length_fmap).
  rewrite <- (fmap_app fst pages [p]). apply IH. apply put_image; [apply I | exact S2].
Qed.

Lemma destroy_staging_run s0 G0 U0 R a g0 objs pages u G U : a <> 0 -> R <> 0 -> SOwnerRootPageTablePhys g0 = R ->
  AttachedThread g0 = 0 -> image s0 G0 U0 R a g0 objs [] pages u G U ->
  exists u' G', KeUserModeDestroyStaging a u = Ok (EC_SUCCESS, u') /\ objects u' = delete a objs /\
    staged s0 G0 U0 R [] [] (kva u') G' U.
Proof.
  intros Ha HR Eo Et I. unfold KeUserModeDestroyStaging. rewrite (proj2 (Z.eqb_neq a 0)) by done.
  rewrite (image_get _ _ _ _ _ _ _ _ _ _ _ _ I). cbn [res_bind set_Mappings SOwnerRootPageTablePhys AttachedThread].
  rewrite Eo, Et. rewrite (proj2 (Z.eqb_neq R 0)) by done. change (0 =? 0) with true. cbn [negb]. cbv iota.
  change (mkKernelSpace R [] 0 0 true) with (user_space R).
  change (Mappings _) with (pages.*1). rewrite length_fmap.
  destruct (destroy_pages_run _ _ _ _ _ _ _ _ _ _ _ I) as (u1 & -> & I1). cbn [res_bind].
  destruct (kfree_law (kva u1) G a (sg_ok _ _ _ _ _ _ _ _ _ (im_staged _ _ _ _ _ _ _ _ _ _ _ _ I1))) as (G' & Q).
  eexists _, G'. split; [reflexivity|]. split.
  - cbn. by rewrite (im_objects _ _ _ _ _ _ _ _ _ _ _ _ I1), delete_insert_eq.
  - cbn. eapply staged_quiet; [apply I1 | exact Q | done].
Qed.
End runs.
