(* ===== verification/StagingThms.v ===== *)
(** * Staging a user image is all or nothing *)

From S2P Require Import Prelude Pmm PageTable Heap Parts Kva KvaInv KvaLayout KvaMach KvaOps KvaCalls KvaFixmap KvaHeap KvaRun KvaThms UserMode UserCopy LowHalf Staging StagingInv StagingFill StagingSpace StagingState StagingRun.

Local Open Scope Z_scope.

Import PageTable Kva KvaInv KvaLayout KvaMach KvaOps KvaCalls KvaFixmap KvaHeap UserMode LowHalf Staging.

(** Ring 3 sees the frame [pa] at [va], a 4 KB page of these bytes, zero-padded,
    that it may write or not execute as [attrs] says. *)
Definition staged_at (m : memory) (R va attrs pa : Z) (bytes : list Z) : Prop :=
  exists mp, translate m R va = Some mp /\ Level mp = 1 /\ UserAccessible mp = true /\ PhysicalBase mp = pa /\
    has (Attributes mp) PTE_WRITABLE = has attrs PTE_WRITABLE /\
    has (Attributes mp) PTE_NO_EXECUTE = has attrs PTE_NO_EXECUTE /\ page_holds m pa bytes.

(** The first [n] bytes of a buffer. *)
Definition buffer (bytes : option (list Z)) (n : Z) : list Z := take (Z.to_nat n) (default [] bytes).

Definition params_ok (p : KE_USER_MODE_CREATE_PARAMS) : Prop :=
  is_u64 (CodeLength p) /\ is_u64 (ConstLength p) /\ is_u64 (EntryOffset p) /\
  forall bytes n, (bytes, n) = (CodeBytes p, CodeLength p) \/ (bytes, n) = (ConstBytes p, ConstLength p) ->
    (forall l, bytes = Some l -> n <= Z.of_nat (length l) /\ Forall is_u8 l).

(** The pages an image is to be made of: address, attributes, bytes. *)
Definition wanted (p : KE_USER_MODE_CREATE_PARAMS) : list (KE_USER_MODE_MAPPING_KIND * Z * Z * list Z) :=
  [(KE_USER_MODE_MAPPING_KIND_CODE, EX_USER_IMAGE_CODE_BASE, PTE_USER, buffer (CodeBytes p) (CodeLength p))] ++
  (if ConstLength p =? 0 then [] else
   [(KE_USER_MODE_MAPPING_KIND_CONST, EX_USER_IMAGE_CONST_BASE, Z.lor PTE_USER PTE_NO_EXECUTE, buffer (ConstBytes p) (ConstLength p))]) ++
  [(KE_USER_MODE_MAPPING_KIND_STACK, EX_USER_IMAGE_STACK_BASE, Z.lor (Z.lor PTE_USER PTE_WRITABLE) PTE_NO_EXECUTE, [])].

Lemma wanted_bases p kind va attrs bytes : (kind, va, attrs, bytes) ∈ wanted p -> va = 0x80000000 \/ va = 0x80001000 \/ va = 0x80003000.
Proof.
  assert (F : Forall (fun w => w.1.1.2 = 0x80000000 \/ w.1.1.2 = 0x80001000 \/ w.1.1.2 = 0x80003000) (wanted p)).
  { unfold wanted. destruct (ConstLength p =? 0); repeat constructor; cbn [fst snd]; tauto. }
  intros Hw. rewrite Forall_forall in F. exact (F _ Hw).
Qed.

Definition page_want (p : staged_page) : KE_USER_MODE_MAPPING_KIND * Z * Z * list Z :=
  (RKind p.1, RVirtualBase p.1, RAttributes p.1, p.2).

Lemma source_buffer bytes n : 0 <= n -> (forall l, bytes = Some l -> n <= Z.of_nat (length l) /\ Forall is_u8 l) ->
  n <= PAGE_4KB ->
  source_bytes bytes n = Ok (buffer bytes n) /\ Forall is_u8 (buffer bytes n) /\ Z.of_nat (length (buffer bytes n)) <= PAGE_4KB.
Proof.
  intros Hn Hl Hp. unfold buffer, source_bytes. destruct bytes as [l|]; cbn [default from_option id].
  - destruct (Hl l eq_refl) as [Hlen Hu]. rewrite (proj2 (Z.ltb_ge _ _)) by done. split; [done|]. split; [by apply Forall_take|].
    rewrite length_take. lia.
  - rewrite take_nil. split_and!; [done | constructor | done].
Qed.

Lemma leaf_bits pa attrs : frame pa ->
  has (leaf_value pa attrs) PTE_WRITABLE = has attrs PTE_WRITABLE /\
  has (leaf_value pa attrs) PTE_NO_EXECUTE = has attrs PTE_NO_EXECUTE.
Proof.
  intros Hf. change PTE_WRITABLE with (2 ^ 1). change PTE_NO_EXECUTE with (2 ^ 63). rewrite !has_bit by lia.
  unfold leaf_value. rewrite !Z.lor_spec, !Z.land_spec.
  assert (E : Z.testbit pa 63 = false).
  { destruct Hf as [_ Hf]. destruct (decide (pa = 0)) as [->|]; [done|]. apply Z.bits_above_log2; [lia|]. apply Z.log2_lt_pow2; lia. }
  rewrite E. change (Z.testbit PAGE_MASK 1) with false. change (Z.testbit KE_PT_ALLOWED_LEAF_FLAGS 1) with true.
  change (Z.testbit KE_PT_ALLOWED_LEAF_FLAGS 63) with true. change (Z.testbit PTE_PRESENT 1) with false.
  change (Z.testbit PTE_PRESENT 63) with false. by rewrite andb_false_r, !andb_true_r, !orb_false_r.
Qed.

Section create.
Context `{SmallObjectsLaws P}.
Implicit Types (u : USER_MODE P) (s : KE_KVA_STATE P) (G U : tables) (pages : list staged_page).

(** ** The pages of an image, one after the other *)
Section pages.
Variables (s0 : KE_KVA_STATE P) (G0 U0 : tables) (R a : Z) (g0 : KE_USER_MODE_STAGING) (objs : gmap Z KE_USER_MODE_STAGING).
Hypothesis Ha : a <> 0.

(** A step ends with some pages mapped, the wanted ones on success. *)
Definition stepped (r : res (HO_STATUS * USER_MODE P)) want : Prop :=
  exists st u G U pages, r = Ok (st, u) /\ image s0 G0 U0 R a g0 objs [] pages u G U /\
    (st = EC_SUCCESS -> page_want <$> pages = want).

Lemma stepped_then r next w w' : stepped r w ->
  (forall u G U pages, image s0 G0 U0 R a g0 objs [] pages u G U -> page_want <$> pages = w -> stepped (next u) w') ->
  stepped (and_then r next) w'.
Proof.
  intros (st & u & G & U & pages & -> & I & Hw) Hn. unfold and_then. cbn [res_bind]. unfold succeeded.
  case_bool_decide as E; cbn [negb]; [by apply (Hn u G U pages); [|apply Hw]|].
  exists st, u, G, U, pages. by split_and!.
Qed.

Lemma stepped_page pages u G U kind va attrs bytes n : image s0 G0 U0 R a g0 objs [] pages u G U -> (length pages < 3)%nat ->
  0 <= va < USER_LIMIT -> va mod PAGE_4KB = 0 -> has attrs PTE_USER = true ->
  0 <= n <= PAGE_4KB -> (forall l, bytes = Some l -> n <= Z.of_nat (length l) /\ Forall is_u8 l) ->
  stepped (KiAllocateAndMapUserPage (user_space R) a kind va attrs bytes n u)
    ((page_want <$> pages) ++ [(kind, va, attrs, buffer bytes n)]).
Proof.
  intros I Hl Hva Hal Hu Hn Hb. destruct (source_buffer bytes n) as (Es & H8 & Hlen); [lia | done | lia|].
  destruct (page_run s0 G0 U0 R a g0 objs pages u G U kind va attrs bytes n _ Ha I Hl Hva Hal Hu Es H8 Hlen)
    as (st & u' & G' & U' & E & [(-> & pa & I')|[Hne I']]).
  - exists EC_SUCCESS, u', G', U', (pages ++ [(mkRecord kind va pa attrs, buffer bytes n)]). split; [done|]. split; [done|]. intros _.
    by rewrite fmap_app.
  - exists st, u', G', U', pages. by split_and!.
Qed.

Lemma stepped_pages p u G U : image s0 G0 U0 R a g0 objs [] [] u G U -> params_ok p ->
  CodeLength p <= PAGE_4KB -> ConstLength p <= PAGE_4KB -> stepped (stage_pages (user_space R) a p u) (wanted p).
Proof.
  intros I (Hc & Hk & _ & Hb) Hc4 Hk4.
  unfold stage_pages. apply (stepped_then _ _ [(KE_USER_MODE_MAPPING_KIND_CODE, EX_USER_IMAGE_CODE_BASE, PTE_USER, buffer (CodeBytes p) (CodeLength p))]).
  { apply (stepped_page [] u G U); try done; [cbn; lia | unfold is_u64 in *; lia |]. intros l. apply Hb. by left. }
  intros u1 G1 U1 pages1 I1 W1. pose proof (f_equal length W1) as L1. rewrite length_fmap in L1. cbn [length] in L1.
  apply (stepped_then _ _ (removelast (wanted p))).
  { unfold wanted. destruct (ConstLength p =? 0); cbn [negb].
    - exists EC_SUCCESS, u1, G1, U1, pages1. split_and!; [done | done|]. by rewrite W1.
    - cbn [app removelast]. change (?x :: ?l) with ([x] ++ l) at 1. rewrite <- W1.
      apply stepped_page with G1 U1; try done; [lia | unfold is_u64 in *; lia |]. intros l. apply Hb. by right. }
  intros u2 G2 U2 pages2 I2 W2. pose proof (f_equal length W2) as L2. rewrite length_fmap in L2.
  assert (Hl2 : (length pages2 < 3)%nat) by (rewrite L2; unfold wanted; destruct (ConstLength p =? 0); cbn; lia).
  apply (stepped_then _ _ (wanted p)).
  { assert (Ew : wanted p = (page_want <$> pages2) ++
      [(KE_USER_MODE_MAPPING_KIND_STACK, EX_USER_IMAGE_STACK_BASE, Z.lor (Z.lor PTE_USER PTE_WRITABLE) PTE_NO_EXECUTE, buffer None 0)]).
    { rewrite W2. unfold wanted. by destruct (ConstLength p =? 0). }
    rewrite Ew. apply stepped_page with G2 U2; done. }
  intros u3 G3 U3 pages3 I3 W3. rewrite (image_get _ _ _ _ _ _ _ _ _ _ _ _ I3). cbn [res_bind].
  do 5 eexists. split; [reflexivity|]. by split.
Qed.
End pages.

(** ** The whole call *)

(** [s'] differs from [s] in the pages [vas] of the process, backed by
    [frames], and in new tables of the process: the kernel is as well formed
    as before, every other user address translates as before (its upper levels
    may have become reachable from ring 3), and of the frames the kernel does
    not own, those in use before still hold what they held, and the only new
    ones are the tables and [frames]. *)
Record around s G U (R : Z) (vas frames : list Z) s' G' U' : Prop := mkAround {
  ar_ok : kva_ok s' G';
  ar_proc : proc s' G' R U';
  ar_sub : U ⊆ U';
  ar_translate va : 0 <= va < USER_LIMIT -> (forall v, v ∈ vas -> ~ v <= va < v + PAGE_4KB) ->
    same_mapping false (translate (mem (mach s)) R va) (translate (mem (mach s')) R va);
  ar_fresh : NoDup frames /\ forall f, f ∈ frames -> ~ foreign s G f /\ U' !! f = None;
  ar_foreign f : foreign s' G' f <-> foreign s G f \/ (is_Some (U' !! f) /\ U !! f = None) \/ f ∈ frames;
  ar_memory f x : foreign s G f -> U !! f = None -> in_page f x -> mem (mach s') x = mem (mach s) x
}.

Lemma staged_around s G U R pages s' G' U' : staged s G U R [] pages s' G' U' ->
  around s G U R ((fun p => RVirtualBase p.1) <$> pages) (page_frames pages) s' G' U'.
Proof.
  intros S. destruct S as [K Pr Hsub Fo Tb Tk St Me Nf Np Pg Be Ot]. cbn [app] in *. split; try done.
  - intros va Hva Hn. apply Ot; [done|]. intros Hin. apply list_elem_of_fmap in Hin as (p & E & Hp).
    destruct (Pg p Hp) as [[Hpv Hpa] _ _]. apply (Hn (RVirtualBase p.1)).
    { by apply (list_elem_of_fmap_2 (fun p : staged_page => RVirtualBase p.1)). }
    assert (Eva : va - va mod PAGE_4KB = RVirtualBase p.1).
    { apply prefix_of_page; [clear - Hva; unfold USER_LIMIT, PAGE_4KB in *; div_lia | done | clear; unfold PAGE_4KB; div_lia | done |].
      rewrite <- E. by apply vprefix_low. }
    rewrite <- Eva. clear. unfold PAGE_4KB. div_lia.
  - split; [done|]. intros f Hf. destruct (Tk f Hf) as (? & _ & ?). done.
Qed.

(** Nothing mapped yet: the kernel has worked for itself only. *)
Lemma around_quiet s G U R s' G' : kva_ok s G -> proc s G R U -> quiet (fun _ => False) s G s' G' -> around s G U R [] [] s' G' U.
Proof. intros K Pr Q. apply (staged_around s G U R []). eapply staged_quiet; [by apply staged_start | exact Q | done]. Qed.

Lemma around_refl s G U R : kva_ok s G -> proc s G R U -> around s G U R [] [] s G U.
Proof. intros K Pr. apply around_quiet; [done | done | by apply quiet_refl]. Qed.

(** The records of a finished staging are the wanted pages. *)
Definition staged_as s R (r : KE_USER_MODE_MAPPING_RECORD) (want : KE_USER_MODE_MAPPING_KIND * Z * Z * list Z) : Prop :=
  let '(kind, va, attrs, bytes) := want in
  RKind r = kind /\ RVirtualBase r = va /\ RAttributes r = attrs /\
  staged_at (mem (mach s)) R va attrs (RPhysicalBase r) bytes.

Lemma staged_records s G U R pages s' G' U' want : staged s G U R [] pages s' G' U' -> page_want <$> pages = want ->
  Forall2 (staged_as s' R) pages.*1 want.
Proof.
  intros S <-. apply Forall2_fmap, Forall_Forall2_diag, Forall_forall. intros p Hp.
  destruct (sg_pages _ _ _ _ _ _ _ _ _ S p Hp) as [_ Hh Em]. unfold page_want, staged_as. split_and!; try done.
  assert (F : foreign s' G' (RPhysicalBase p.1)).
  { eapply taken_foreign; [exact S|]. cbn [app]. by apply (list_elem_of_fmap_2 (fun p : staged_page => RPhysicalBase p.1)). }
  destruct (leaf_bits (RPhysicalBase p.1) (RAttributes p.1) (fo_frame _ _ _ F)) as [Hw Hx].
  exists (user_mapping (RPhysicalBase p.1) (RAttributes p.1)). by split_and!.
Qed.

(** The staging object of an image. *)
Definition describes (g : KE_USER_MODE_STAGING) (p : KE_USER_MODE_CREATE_PARAMS) (R : Z) : Prop :=
  SEntryPoint g = EX_USER_IMAGE_CODE_BASE + EntryOffset p /\ SStackBase g = EX_USER_IMAGE_STACK_BASE /\
  SStackTop g = EX_USER_IMAGE_STACK_TOP /\ SGuardBase g = EX_USER_IMAGE_STACK_GUARD_BASE /\
  SOwnerRootPageTablePhys g = R /\ AttachedThread g = 0.

Lemma validate_params p : params_ok p ->
  (KiValidateCreateParams (Some p) = EC_SUCCESS /\ CodeLength p <= PAGE_4KB /\ ConstLength p <= PAGE_4KB /\ EntryOffset p < CodeLength p) \/
  KiValidateCreateParams (Some p) = EC_ILLEGAL_ARGUMENT.
Proof.
  intros _. unfold KiValidateCreateParams. change EX_USER_IMAGE_PAGE_SIZE with 4096. unfold PAGE_4KB.
  repeat case_match; (by right) || (left; split_and!; [done|lia..]).
Qed.

(** What the caller gets: a staged image, or nothing. *)
Definition create_outcome u G U R p st a u' G' U' : Prop :=
  (st = EC_SUCCESS /\ a <> 0 /\ exists g,
     objects u !! a = None /\ objects u' = <[a := g]> (objects u) /\ describes g p R /\
     Forall2 (staged_as (kva u') R) (Mappings g) (wanted p) /\
     around (kva u) G U R (RVirtualBase <$> Mappings g) (RPhysicalBase <$> Mappings g) (kva u') G' U') \/
  (st <> EC_SUCCESS /\ a = 0 /\ objects u' = objects u /\ around (kva u) G U R [] [] (kva u') G' U').

Lemma create_refused u G U R p st : kva_ok (kva u) G -> proc (kva u) G R U -> st <> EC_SUCCESS ->
  create_outcome u G U R p st 0 u G U.
Proof. intros K Pr Hne. right. split_and!; [done..|]. by apply around_refl. Qed.

Lemma create_image_run u G U R p a s1 G1 : kva_ok (kva u) G -> proc (kva u) G R U -> R <> 0 -> params_ok p ->
  CodeLength p <= PAGE_4KB -> ConstLength p <= PAGE_4KB -> EntryOffset p < CodeLength p ->
  a <> 0 -> objects u !! a = None -> quiet (fun _ => False) (kva u) G s1 G1 ->
  let g0 := mkStaging (u64 (EX_USER_IMAGE_CODE_BASE + EntryOffset p)) EX_USER_IMAGE_STACK_BASE
    EX_USER_IMAGE_STACK_TOP EX_USER_IMAGE_STACK_GUARD_BASE R 0 [] in
  exists st a' u' G' U',
    (let* (status, u) := stage_pages (user_space R) a p (put_staging a g0 (set_kva s1 u)) in
     if succeeded status then Ok (EC_SUCCESS, a, u) else
     let* (destroyStatus, u) := KeUserModeDestroyStaging a u in
     Ok (if succeeded destroyStatus then status else destroyStatus, 0, u)) = Ok (st, a', u') /\
    create_outcome u G U R p st a' u' G' U'.
Proof.
  intros K Pr HR Hp Hc Hk He Ha Hfresh Q g0.
  assert (I : image (kva u) G U R a g0 (objects u) [] [] (put_staging a g0 (set_kva s1 u)) G1 U).
  { split; [|done]. cbn. eapply staged_quiet; [by apply staged_start | exact Q | done]. }
  destruct (stepped_pages (kva u) G U R a g0 (objects u) Ha p _ _ _ I Hp Hc Hk) as (st & u2 & G2 & U2 & pages & -> & I2 & Hw).
  cbn [res_bind]. unfold succeeded at 1. case_bool_decide as Est.
  - exists EC_SUCCESS, a, u2, G2, U2. split; [done|]. left. split; [done|]. split; [done|].
    exists (set_Mappings pages.*1 g0). split; [done|]. split; [apply I2|]. split.
    + unfold describes. cbn. rewrite u64_small; [done|]. destruct Hp as (_ & _ & Hp & _). unfold is_u64, PAGE_4KB in *.
      change EX_USER_IMAGE_CODE_BASE with 0x80000000. word_lia.
    + rewrite set_records, <- !list_fmap_compose. split.
      * eapply staged_records; [apply I2 | by apply Hw].
      * apply staged_around, I2.
  - destruct (destroy_staging_run (kva u) G U R a g0 (objects u) pages u2 G2 U2 Ha HR eq_refl eq_refl I2) as (u3 & G3 & -> & Eo & S3).
    cbn [res_bind]. change (succeeded EC_SUCCESS) with true. cbv iota. exists st, 0, u3, G3, U2. split; [done|]. right.
    split; [done|]. split; [done|]. split; [by rewrite Eo, delete_id|]. apply (staged_around _ _ _ _ [] _ _ _ S3).
Qed.

(** C7: [KeUserModeCreateStaging] is all or nothing.  Whatever fails on the
    way (no frame, no staging object, no temporary mapping, an occupied
    page, no page table), the caller gets an error and a null pointer, no
    staging object is left, every frame taken for a page is back with the
    allocator, and every user address of the process translates as before;
    only page tables made on the way stay with the process.  On success
    the code page is readable and executable but not writable, the constants
    readable only, the stack writable but not executable; each is backed by a
    frame of its own that nobody used before and holds exactly the caller's
    bytes, zero-padded; the guard page below the stack and page zero are
    unmapped, and nothing else of any process's memory has changed. *)
Theorem create_staging_all_or_nothing u G R U p : kva_ok (kva u) G -> proc (kva u) G R U -> R <> 0 -> params_ok p ->
  (forall a, is_Some (objects u !! a) -> live (kva u) a) ->
  exists st a u' G' U', KeUserModeCreateStaging (Some p) (Some (mkProcessSpace R true)) true u = Ok (st, a, u') /\
    create_outcome u G U R p st a u' G' U' /\
    (st = EC_SUCCESS -> translate (mem (mach (kva u'))) R 0 = None /\
       translate (mem (mach (kva u'))) R EX_USER_IMAGE_STACK_GUARD_BASE = None).
Proof.
  intros K Pr HR Hp Hlive. unfold KeUserModeCreateStaging. cbn [negb PsInitialized].
  destruct (validate_params p Hp) as [(Ev & Hc & Hk & He)|Ev]; rewrite Ev.
  2: { do 5 eexists. split; [reflexivity|]. by split; [apply create_refused|]. }
  change (KiBuildProcessRootView (mkProcessSpace R true)) with (user_space R).
  assert (Hole : forall va, 0 <= va < USER_LIMIT -> va mod PAGE_4KB = 0 ->
    (KiValidateUserModeHole (Some (user_space R)) va (mem (mach (kva u))) = EC_SUCCESS /\ translate (mem (mach (kva u))) R va = None) \/
    KiValidateUserModeHole (Some (user_space R)) va (mem (mach (kva u))) = EC_INVALID_STATE) by (intros; by apply (hole_run' (kva u) G R U)).
  assert (Refused : forall st, st <> EC_SUCCESS -> exists st' a u' G' U', Ok (st, 0, u) = Ok (st', a, u') /\
    create_outcome u G U R p st' a u' G' U' /\
    (st' = EC_SUCCESS -> translate (mem (mach (kva u'))) R 0 = None /\
       translate (mem (mach (kva u'))) R EX_USER_IMAGE_STACK_GUARD_BASE = None)).
  { intros st Hne. do 5 eexists. split; [reflexivity|]. split; [by apply create_refused | done]. }
  change (succeeded EC_SUCCESS) with true.
  destruct (Hole 0) as [[-> N0] | ->]; [done..| |by apply Refused].
  destruct (Hole EX_USER_IMAGE_CODE_BASE) as [[-> _] | ->]; [done..| |by apply Refused].
  destruct (Hole EX_USER_IMAGE_CONST_BASE) as [[-> _] | ->]; [done..| |by apply Refused].
  destruct (Hole EX_USER_IMAGE_STACK_GUARD_BASE) as [[-> Ng] | ->]; [done..| |by apply Refused].
  destruct (Hole EX_USER_IMAGE_STACK_BASE) as [[-> _] | ->]; [done..| |by apply Refused].
  change (succeeded EC_SUCCESS) with true. cbn [negb].
  destruct (kzalloc_law (kva u) G STAGING_SIZE K) as (G1 & Q & Hfresh).
  destruct (objects_kzalloc STAGING_SIZE (kva u)) as [a s1]. cbn [fst snd] in Q, Hfresh.
  destruct (Z.eqb_spec a 0) as [->|Ha].
  { exists EC_OUT_OF_RESOURCE, 0, (set_kva s1 u), G1, U. split; [done|]. split; [|done]. right. split_and!; [done..|].
    by apply around_quiet. }
  assert (Hn : objects u !! a = None).
  { destruct (objects u !! a) eqn:E; [|done]. destruct Hfresh as [|Hf]; [done|]. destruct Hf. apply Hlive. by rewrite E. }
  destruct (create_image_run u G U R p a s1 G1 K Pr HR Hp Hc Hk He Ha Hn Q) as (st & a' & u' & G' & U' & E & O).
  exists st, a', u', G', U'. split; [exact E|]. split; [exact O|]. intros ->.
  destruct O as [(_ & _ & g & _ & _ & _ & HF & Ar)|(Hne & _)]; [|done].
  assert (Keep : forall va, 0 <= va < USER_LIMIT -> translate (mem (mach (kva u))) R va = None ->
    (va + PAGE_4KB <= EX_USER_IMAGE_CODE_BASE \/ va = EX_USER_IMAGE_STACK_GUARD_BASE) -> translate (mem (mach (kva u'))) R va = None).
  { intros va Hva En Hout. pose proof (ar_translate _ _ _ _ _ _ _ _ _ Ar va Hva) as Hs. rewrite En in Hs.
    destruct (translate (mem (mach (kva u'))) R va); [|done]. destruct Hs. intros v Hv.
    apply list_elem_of_fmap in Hv as (r & -> & Hr). apply list_elem_of_lookup in Hr as (i & Hr).
    destruct (Forall2_lookup_l _ _ _ _ _ HF Hr) as ([[[kind va'] attrs] bytes] & Hw & (_ & -> & _)).
    apply list_elem_of_lookup_2 in Hw. apply wanted_bases in Hw.
    change EX_USER_IMAGE_CODE_BASE with 0x80000000 in *. change EX_USER_IMAGE_STACK_GUARD_BASE with 0x80002000 in *.
    unfold PAGE_4KB in *. lia. }
  split; apply Keep; try done; [by left | by right].
Qed.

(** [KeUserModePatchConstBytes] overwrites exactly the bytes it names.
    It always returns: a range that leaves the page is refused, whatever
    the sum wraps to; on success the constant page holds the caller's bytes at
    the offset and its old bytes elsewhere; on any error (also a temporary
    mapping that could not be made) the page is as before.  No other frame
    outside the kernel's own is touched, and the staging objects stay. *)
Theorem patch_const_writes_exactly u G a g r offset l n : kva_ok (kva u) G -> a <> 0 ->
  objects u !! a = Some g -> KiFindMappedPage g KE_USER_MODE_MAPPING_KIND_CONST = Some r ->
  foreign (kva u) G (RPhysicalBase r) -> is_u64 offset -> is_u64 n -> n <= Z.of_nat (length l) -> Forall is_u8 l ->
  let pa := RPhysicalBase r in
  exists st u' G', KeUserModePatchConstBytes a offset (Some l) n u = Ok (st, u') /\
    objects u' = objects u /\ quiet (eq pa) (kva u) G (kva u') G' /\
    (n <> 0 -> PAGE_4KB < offset + n -> st = EC_ILLEGAL_ARGUMENT) /\
    forall i, 0 <= i < PAGE_4KB -> phys_byte (mem (mach (kva u'))) (pa + i) =
      if bool_decide (st = EC_SUCCESS) then patched (mem (mach (kva u))) pa offset (take (Z.to_nat n) l) i
      else phys_byte (mem (mach (kva u))) (pa + i).
Proof.
  intros K Ha Eg Er F Ho Hn Hl H8 pa. unfold KeUserModePatchConstBytes. rewrite (proj2 (Z.eqb_neq a 0)) by done.
  destruct (Z.eqb_spec n 0) as [->|Hn0].
  { exists EC_SUCCESS, u, G. split; [done|]. split; [done|]. split; [by apply quiet_refl|]. split; [done|]. intros i Hi.
    rewrite bool_decide_true by done. unfold patched. cbn [take Z.to_nat length]. rewrite Z.add_0_r.
    by destruct (Z.leb_spec offset i), (Z.ltb_spec i offset); cbn [andb]; [lia|..]. }
  assert (Keep : forall st, st <> EC_SUCCESS -> forall i, 0 <= i < PAGE_4KB -> phys_byte (mem (mach (kva u))) (pa + i) =
      if bool_decide (st = EC_SUCCESS) then patched (mem (mach (kva u))) pa offset (take (Z.to_nat n) l) i
      else phys_byte (mem (mach (kva u))) (pa + i)) by (intros st Hne i _; by rewrite bool_decide_false).
  change EX_USER_IMAGE_PAGE_SIZE with PAGE_4KB.
  destruct (Z.ltb_spec PAGE_4KB offset), (Z.ltb_spec PAGE_4KB n); cbn [orb];
    try by (exists EC_ILLEGAL_ARGUMENT, u, G; split_and!; [done | done | by apply quiet_refl | done | by apply Keep]).
  rewrite u64_small by (unfold PAGE_4KB, is_u64 in *; word_lia). rewrite (proj2 (Z.ltb_ge _ _)) by (unfold is_u64 in *; lia). cbn [orb].
  destruct (Z.ltb_spec PAGE_4KB (offset + n)) as [Hout|Hin].
  { by (exists EC_ILLEGAL_ARGUMENT, u, G; split_and!; [done | done | by apply quiet_refl | done | by apply Keep]). }
  unfold get_staging. rewrite Eg. cbn [res_bind]. rewrite Er. change (RPhysicalBase r) with pa.
  destruct (window_run (kva u) G pa K F) as (st & out & s1 & -> & [(-> & h & va & G1 & -> & Q1 & W & Hrel)|[Hne Q]]); cbn [res_bind].
  2: { unfold succeeded at 1. rewrite bool_decide_false by done. exists st, (set_kva s1 u), G. split; [done|]. split; [done|].
       split; [by apply (quiet_weaken (fun _ => False))|]. split; [lia|]. intros i Hi. rewrite bool_decide_false by done.
       unfold phys_byte. by rewrite (qt_mem _ _ _ _ _ Q pa _ F (fun X => X)) by by apply page_word_of; [apply F|]. }
  change (succeeded EC_SUCCESS) with true. cbn [negb default from_option id].
  unfold source_bytes. rewrite (proj2 (Z.ltb_ge _ _)) by done. cbn [res_bind]. set (src := take (Z.to_nat n) l).
  assert (Hsrc : Z.of_nat (length src) = n) by (unfold src; rewrite length_take; unfold is_u64 in *; lia).
  assert (Hsrc8 : Forall is_u8 src) by by apply Forall_take.
  destruct (wi_va _ _ _ _ W) as (_ & Hva & Hlim). rewrite u64_small by (unfold PAGE_4KB, is_u64 in *; word_lia).
  pose proof (memcpy_run src s1 G1 pa va (mem (mach s1)) offset W ltac:(done) ltac:(unfold is_u64 in *; lia) ltac:(lia)) as [Em Hm].
  assert (Es : with_mem s1 (mem (mach s1)) = s1) by (by destruct s1 as [[]]). rewrite Es in Em. rewrite Em. cbn [res_bind].
  set (m' := put_bytes _ _) in *. assert (Wt : written s1 pa (with_mem s1 m')) by (exists m'; split; [reflexivity | exact Hm]).
  destruct (Hrel _ Wt) as (s2 & -> & Q3). cbn [res_bind]. pose proof (written_quiet s1 G1 pa va _ W Wt) as Q2.
  exists EC_SUCCESS, (set_kva s2 u), G1. split; [done|]. split; [done|]. split; [by eapply quiet_window|]. split; [lia|].
  intros i Hi. rewrite bool_decide_true by done.
  assert (F1 : foreign s1 G1 pa) by (by apply (qt_foreign _ _ _ _ _ Q1)).
  assert (Ft : foreign (with_mem s1 m') G1 pa) by (by apply (qt_foreign _ _ _ _ _ Q2)).
  transitivity (phys_byte m' (pa + i)).
  { unfold phys_byte. cbn [kva set_kva]. by rewrite (qt_mem _ _ _ _ _ Q3 pa _ Ft (fun X => X) (page_word_of pa i (fo_frame _ _ _ F) Hi)). }
  unfold m'. rewrite (put_patched _ pa offset src i (fo_frame _ _ _ F) Hsrc8 ltac:(unfold is_u64 in *; lia) (proj1 Hi)).
  unfold patched, phys_byte. by rewrite (qt_mem _ _ _ _ _ Q1 pa _ F (fun X => X) (page_word_of pa i (fo_frame _ _ _ F) Hi)).
Qed.
End create.

(** ** A process with an empty user half on the sample machine *)

Import BitmapDevice.

(** One staging object, at a fixed address, straight from the sample's data. *)
#[local] Instance sample_objects : SmallObjects device := {
  objects_kzalloc _ s := (0xFFFF800000200000, s);
  objects_kfree _ s := s
}.

#[local] Instance sample_objects_laws : SmallObjectsLaws device.
Proof.
  refine {| live _ _ := False |}.
  - intros s G size K. exists G. split; [by apply quiet_refl | right; intros Hf; exact Hf].
  - intros s G a K. exists G. by apply quiet_refl.
Defined.

Definition process_root : Z := 0x100000.
Definition process_tables : tables := {[process_root := (4%nat, 0)]}.

Definition sample_params : KE_USER_MODE_CREATE_PARAMS := mkParams (Some [0x0F; 0x05; 0xEB; 0xFE]) 3 0 (Some [0x48; 0x69]) 2.

Definition sample_user : USER_MODE device := mkUM kva0 ∅.

Lemma process_frame : frame process_root.
Proof. by split. Qed.

Lemma sample_proc : proc kva0 sample_tables process_root process_tables.
Proof.
  split.
  - pose proof (empty_root_tree process_root process_frame) as T.
    refine (proj1 (proj2 (same_tables _ (low process_root (mem (mach kva0))) _ _ T _))).
    intros t x i Ht Hi. unfold process_tables in Ht. apply lookup_singleton_Some in Ht as [<- _].
    unfold low, overlay. destruct (high_word _ _); [done|]. change (mem (mach kva0)) with sample_mem.
    apply Z.eqb_eq. by apply (forall_below 512 (fun i => sample_mem (entry_at process_root i) =? 0)); [vm_compute|].
  - intros t [x Ht]. unfold process_tables in Ht. apply lookup_singleton_Some in Ht as [<- _]. split; [apply process_frame | done | by vm_compute |].
    intros a p (i & r & Ha & _). by apply KvaRun.fresh_unused in Ha.
Qed.

Lemma sample_params_ok : params_ok sample_params.
Proof.
  split_and!; [by vm_compute..|]. intros bytes n [[= -> ->]|[= -> ->]] l [= <-]; (split; [cbn; lia|]); repeat constructor; by vm_compute.
Qed.

(** The machine has just enough frames for the tables and the pages. *)
Lemma sample_created : match KeUserModeCreateStaging (Some sample_params) (Some (mkProcessSpace process_root true)) true sample_user with
  | Ok (st, a, _) => succeeded st && (a =? 0xFFFF800000200000)
  | _ => false
  end = true.
Proof. by vm_compute. Qed.

Lemma sample_live a : is_Some (objects sample_user !! a) -> live (kva sample_user) a.
Proof. intros [x Hx]. cbn in Hx. by rewrite lookup_empty in Hx. Qed.

Lemma create_staging_all_or_nothing_witness :
  exists u' G' U', KeUserModeCreateStaging (Some sample_params) (Some (mkProcessSpace process_root true)) true sample_user =
      Ok (EC_SUCCESS, 0xFFFF800000200000, u') /\
    create_outcome sample_user sample_tables process_tables process_root sample_params EC_SUCCESS 0xFFFF800000200000 u' G' U' /\
    translate (mem (mach (kva u'))) process_root EX_USER_IMAGE_STACK_GUARD_BASE = None.
Proof.
  destruct (create_staging_all_or_nothing sample_user sample_tables process_root process_tables sample_params (proj2 sample_init)
    sample_proc ltac:(done) sample_params_ok sample_live) as (st & a & u' & G' & U' & E & O & Hn).
  pose proof sample_created as Hc. rewrite E in Hc. apply andb_prop in Hc as [Hs Hp]. apply Z.eqb_eq in Hp. subst a.
  apply bool_decide_eq_true in Hs. subst st. exists u', G', U'. split; [exact E|]. split; [exact O|]. by apply Hn.
Defined.

(** A staging whose constant page is the frame 0x103000, in use and zero. *)
Definition patch_record : KE_USER_MODE_MAPPING_RECORD :=
  mkRecord KE_USER_MODE_MAPPING_KIND_CONST EX_USER_IMAGE_CONST_BASE 0x103000 PTE_USER.
Definition patch_staging : KE_USER_MODE_STAGING := mkStaging 0 0 0 0 process_root 0 [patch_record].
Definition patch_user : USER_MODE device := mkUM kva0 {[8 := patch_staging]}.

Lemma patch_foreign : foreign (kva patch_user) sample_tables 0x103000.
Proof.
  split; [by split | done | by vm_compute |].
  intros a p (i & r & Ha & _). by apply KvaRun.fresh_unused in Ha.
Qed.

Lemma patch_run : match KeUserModePatchConstBytes 8 0xFFE (Some [7; 9; 11]) 2 patch_user with
  | Ok (st, _) => succeeded st | _ => false end = true.
Proof. by vm_compute. Qed.

Lemma patch_bytes :
  patched (mem (mach (kva patch_user))) (RPhysicalBase patch_record) 0xFFE (take (Z.to_nat 2) [7; 9; 11]) 0xFFF = 9 /\
  patched (mem (mach (kva patch_user))) (RPhysicalBase patch_record) 0xFFE (take (Z.to_nat 2) [7; 9; 11]) 0xFFD = 0.
Proof. split; by vm_compute. Qed.

Lemma patch_const_writes_exactly_witness :
  exists u', KeUserModePatchConstBytes 8 0xFFE (Some [7; 9; 11]) 2 patch_user = Ok (EC_SUCCESS, u') /\
    phys_byte (mem (mach (kva u'))) (RPhysicalBase patch_record + 0xFFF) = 9 /\ phys_byte (mem (mach (kva u'))) (RPhysicalBase patch_record + 0xFFD) = 0.
Proof.
  destruct (patch_const_writes_exactly patch_user sample_tables 8 patch_staging patch_record 0xFFE [7; 9; 11] 2 (proj2 sample_init) ltac:(done)
    (lookup_singleton_eq _ _) eq_refl patch_foreign) as (st & u' & G' & E & _ & _ & _ & Hb);
    [by vm_compute | by vm_compute | cbn; lia | repeat constructor; by vm_compute |].
  pose proof patch_run as Hs. rewrite E in Hs. apply bool_decide_eq_true in Hs. subst st.
  exists u'. split; [exact E|]. rewrite bool_decide_true in Hb by done. destruct patch_bytes as [B1 B2].
  pose proof (Hb 0xFFF ltac:(by split)) as H1. pose proof (Hb 0xFFD ltac:(by split)) as H2. clear Hb E G'.
  rewrite H1, H2. split; [exact B1 | exact B2].
Defined.
