(* ===== verification/Program.v ===== *)
(** * The registry of built-in programs ([ex/program.c])

    The images are embedded in the kernel between symbols that the linker
    places; their addresses ([symbols]) and the bytes there ([bytes_at]) are
    parameters.  Names are bytes. *)

From S2P Require Import Prelude Ex ExProcess.
From stdpp Require Import strings.

Local Open Scope Z_scope.

Module Program.

(** ** Data ([program.h]) *)

Definition EX_PROGRAM_NAME_MAX_LENGTH : Z := 16.

Definition EX_PROGRAM_ID_NONE : Z := 0.
Definition EX_PROGRAM_ID_HSH : Z := 1.
Definition EX_PROGRAM_ID_CALC : Z := 2.
Definition EX_PROGRAM_ID_TICK1S : Z := 3.
Definition EX_PROGRAM_ID_FAULT_DE : Z := 4.
Definition EX_PROGRAM_ID_FAULT_PF : Z := 5.
Definition EX_PROGRAM_ID_USER_HELLO : Z := 6.
Definition EX_PROGRAM_ID_USER_COUNTER : Z := 7.
Definition EX_PROGRAM_ID_USER_CAPS : Z := 8.
Definition EX_PROGRAM_ID_INPUT_PROBE : Z := 9.
Definition EX_PROGRAM_ID_LINE_ECHO : Z := 10.

Inductive EX_USER_IMAGE_KIND :=
| EX_USER_IMAGE_KIND_INVALID
| EX_USER_IMAGE_KIND_EMBEDDED_SPLIT.

#[export] Instance EX_USER_IMAGE_KIND_eq_dec : EqDecision EX_USER_IMAGE_KIND.
Proof. solve_decision. Defined.

(** Code and constants are addresses, 0 for NULL; [Name] is [None] for NULL. *)
Record EX_USER_IMAGE := mkImage {
  Name : option (list Z);
  NameLength : Z;
  ProgramId : Z;
  Kind : EX_USER_IMAGE_KIND;
  ICodeBytes : Z;
  ICodeLength : Z;
  IConstBytes : Z;
  IConstLength : Z;
  IEntryOffset : Z;
  DefaultStackSize : Z;
  RequestedCapabilities : Z
}.

Record EX_PROGRAM_REGISTRY_ENTRY := mkRegistryEntry { Image : EX_USER_IMAGE; CodeEnd : Z; ConstEnd : Z }.

Record PROGRAMS := mkPrograms {
  gExBuiltinPrograms : list EX_PROGRAM_REGISTRY_ENTRY;
  gExProgramRegistryValidated : bool
}.

Definition set_lengths (code const : Z) (i : EX_USER_IMAGE) : EX_USER_IMAGE :=
  mkImage (Name i) (NameLength i) (ProgramId i) (Kind i) (ICodeBytes i) code (IConstBytes i) const
    (IEntryOffset i) (DefaultStackSize i) (RequestedCapabilities i).

(** The characters of a C string. *)
Fixpoint chars (s : string) : list Z :=
  match s with
  | EmptyString => []
  | String c s => Z.of_N (Ascii.N_of_ascii c) :: chars s
  end.

(** ** The registry before validation *)

Record PROGRAM_SYMBOLS := mkSymbols { CodeBytesStart : Z; CodeBytesEnd : Z; ConstBytesStart : Z; ConstBytesEnd : Z }.

Section registry.
Variable symbols : string -> PROGRAM_SYMBOLS.

Definition registry_entry (symbol name : string) (id : Z) : EX_PROGRAM_REGISTRY_ENTRY :=
  mkRegistryEntry
    (mkImage (Some (chars name)) (Z.of_nat (length (chars name))) id EX_USER_IMAGE_KIND_EMBEDDED_SPLIT
       (CodeBytesStart (symbols symbol)) 0 (ConstBytesStart (symbols symbol)) 0 0 4096 0)
    (CodeBytesEnd (symbols symbol)) (ConstBytesEnd (symbols symbol)).

Definition builtin_programs : list EX_PROGRAM_REGISTRY_ENTRY := [
  registry_entry "hsh" "hsh" EX_PROGRAM_ID_HSH;
  registry_entry "calc" "calc" EX_PROGRAM_ID_CALC;
  registry_entry "tick1s" "tick1s" EX_PROGRAM_ID_TICK1S;
  registry_entry "fault_de" "fault_de" EX_PROGRAM_ID_FAULT_DE;
  registry_entry "fault_pf" "fault_pf" EX_PROGRAM_ID_FAULT_PF;
  registry_entry "user_hello" "user_hello" EX_PROGRAM_ID_USER_HELLO;
  registry_entry "user_counter" "user_counter" EX_PROGRAM_ID_USER_COUNTER;
  registry_entry "user_caps" "user_caps" EX_PROGRAM_ID_USER_CAPS;
  registry_entry "input_probe" "input_probe" EX_PROGRAM_ID_INPUT_PROBE;
  registry_entry "line_echo" "line_echo" EX_PROGRAM_ID_LINE_ECHO
].

Definition boot_programs : PROGRAMS := mkPrograms builtin_programs false.
End registry.

(** ** Operations *)

Definition KiValidateProgramRegistryEntry (entry : EX_PROGRAM_REGISTRY_ENTRY) : HO_STATUS * EX_PROGRAM_REGISTRY_ENTRY :=
  let i := Image entry in
  if bool_decide (Name i = None) || (ICodeBytes i =? 0) || (CodeEnd entry =? 0) || (IConstBytes i =? 0) || (ConstEnd entry =? 0)
  then (EC_ILLEGAL_ARGUMENT, entry) else
  if (NameLength i =? 0) || (EX_PROGRAM_NAME_MAX_LENGTH <=? NameLength i) ||
     negb (bool_decide (Kind i = EX_USER_IMAGE_KIND_EMBEDDED_SPLIT)) || (ProgramId i =? EX_PROGRAM_ID_NONE)
  then (EC_ILLEGAL_ARGUMENT, entry) else
  if (CodeEnd entry <=? ICodeBytes i) || (ConstEnd entry <=? IConstBytes i) then (EC_INVALID_STATE, entry) else
  (EC_SUCCESS, mkRegistryEntry (set_lengths (CodeEnd entry - ICodeBytes i) (ConstEnd entry - IConstBytes i) i)
     (CodeEnd entry) (ConstEnd entry)).

(** [memcmp] is 0: the buffers agree on [n] bytes. *)
Definition memcmp_equal (a b : list Z) (n : Z) : res bool :=
  if (Z.of_nat (length a) <? n) || (Z.of_nat (length b) <? n) then Oob
  else Ok (bool_decide (take (Z.to_nat n) a = take (Z.to_nat n) b)).

Definition KiProgramNameEquals (image : EX_USER_IMAGE) (name : option (list Z)) (nameLength : Z) : res bool :=
  match name with
  | None => Ok false
  | Some name =>
      if negb (NameLength image =? nameLength) then Ok false else
      memcmp_equal (default [] (Name image)) name nameLength
  end.

(** The entries are validated in order; the first failure ends it. *)
Fixpoint validate_entries (entries : list EX_PROGRAM_REGISTRY_ENTRY) : HO_STATUS * list EX_PROGRAM_REGISTRY_ENTRY :=
  match entries with
  | [] => (EC_SUCCESS, [])
  | entry :: entries =>
      match KiValidateProgramRegistryEntry entry with
      | (EC_SUCCESS, entry) => let '(status, entries) := validate_entries entries in (status, entry :: entries)
      | (status, _) => (status, entry :: entries)
      end
  end.

Definition ExProgramValidateBuiltins (g : PROGRAMS) : HO_STATUS * PROGRAMS :=
  match validate_entries (gExBuiltinPrograms g) with
  | (EC_SUCCESS, entries) => (EC_SUCCESS, mkPrograms entries true)
  | (status, entries) => (status, mkPrograms entries (gExProgramRegistryValidated g))
  end.

Fixpoint find_by_name (entries : list EX_PROGRAM_REGISTRY_ENTRY) (name : option (list Z)) (nameLength : Z)
  : res (option EX_USER_IMAGE) :=
  match entries with
  | [] => Ok None
  | entry :: entries =>
      let* equal := KiProgramNameEquals (Image entry) name nameLength in
      if equal : bool then Ok (Some (Image entry)) else find_by_name entries name nameLength
  end.

Definition ExLookupProgramImageByName (name : option (list Z)) (nameLength : Z) (g : PROGRAMS)
  : res (HO_STATUS * option EX_USER_IMAGE) :=
  if negb (gExProgramRegistryValidated g) then Ok (EC_INVALID_STATE, None) else
  if bool_decide (name = None) || (nameLength =? 0) || (EX_PROGRAM_NAME_MAX_LENGTH <=? nameLength)
  then Ok (EC_ILLEGAL_ARGUMENT, None) else
  let* found := find_by_name (gExBuiltinPrograms g) name nameLength in
  match found with
  | Some image => Ok (EC_SUCCESS, Some image)
  | None => Ok (EC_ILLEGAL_ARGUMENT, None)
  end.

Definition ExLookupProgramImageById (programId : Z) (g : PROGRAMS) : HO_STATUS * option EX_USER_IMAGE :=
  if negb (gExProgramRegistryValidated g) then (EC_INVALID_STATE, None) else
  if programId =? EX_PROGRAM_ID_NONE then (EC_ILLEGAL_ARGUMENT, None) else
  match list_find (fun entry => ProgramId (Image entry) = programId) (gExBuiltinPrograms g) with
  | Some (_, entry) => (EC_SUCCESS, Some (Image entry))
  | None => (EC_ILLEGAL_ARGUMENT, None)
  end.

Section build.
Variable bytes_at : Z -> Z -> list Z.

Definition no_params : EX_RUNTIME_PROCESS_CREATE_PARAMS := mkCreateParams [] 0 None 0 0 0.

Definition ExProgramBuildRuntimeCreateParams (image : option EX_USER_IMAGE) (parentProcessId : Z) (g : PROGRAMS)
  : HO_STATUS * EX_RUNTIME_PROCESS_CREATE_PARAMS :=
  match image with
  | None => (EC_ILLEGAL_ARGUMENT, no_params)
  | Some i =>
      if negb (gExProgramRegistryValidated g) || negb (bool_decide (Kind i = EX_USER_IMAGE_KIND_EMBEDDED_SPLIT)) ||
         (ICodeBytes i =? 0) || (ICodeLength i =? 0) || (IConstBytes i =? 0) || (IConstLength i =? 0)
      then (EC_INVALID_STATE, no_params) else
      (EC_SUCCESS, mkCreateParams (bytes_at (ICodeBytes i) (ICodeLength i)) (IEntryOffset i)
         (Some (bytes_at (IConstBytes i) (IConstLength i))) (IConstLength i) (ProgramId i) parentProcessId)
  end.
End build.

(** ** Validation and lookup *)

Lemma validated_entries entries entries' : validate_entries entries = (EC_SUCCESS, entries') ->
  Forall2 (fun e e' => KiValidateProgramRegistryEntry e = (EC_SUCCESS, e')) entries entries'.
Proof.
  revert entries'. induction entries as [|e entries IH]; intros entries'; cbn; [intros [= <-]; constructor|].
  destruct (KiValidateProgramRegistryEntry e) as [st e'] eqn:E. destruct st; try by intros [= ? ?].
  destruct (validate_entries entries) as [st l]. intros [= -> <-]. constructor; [done | by apply IH].
Qed.

(** What validation changes and checks. *)
Lemma validated_entry e e' : KiValidateProgramRegistryEntry e = (EC_SUCCESS, e') ->
  Name (Image e') = Name (Image e) /\ NameLength (Image e') = NameLength (Image e) /\
  ProgramId (Image e') = ProgramId (Image e) /\ Kind (Image e') = EX_USER_IMAGE_KIND_EMBEDDED_SPLIT /\
  ICodeBytes (Image e') <> 0 /\ IConstBytes (Image e') <> 0 /\ 0 < ICodeLength (Image e') /\ 0 < IConstLength (Image e').
Proof.
  unfold KiValidateProgramRegistryEntry. destruct e as [[] ? ?]. cbn.
  repeat (case_match; [done|]). intros [= <-]. cbn.
  repeat match goal with Hb : (_ || _) = false |- _ => apply orb_false_iff in Hb as [? ?] end.
  match goal with Hk : negb (bool_decide (_ = EX_USER_IMAGE_KIND_EMBEDDED_SPLIT)) = false |- _ =>
    apply negb_false_iff, bool_decide_eq_true in Hk end.
  split_and!; done || lia.
Qed.

(** The lengths are those of the sections. *)
Lemma validated_sections e e' : KiValidateProgramRegistryEntry e = (EC_SUCCESS, e') ->
  Image e' = set_lengths (CodeEnd e - ICodeBytes (Image e)) (ConstEnd e - IConstBytes (Image e)) (Image e) /\
  ICodeBytes (Image e) < CodeEnd e /\ IConstBytes (Image e) < ConstEnd e.
Proof.
  unfold KiValidateProgramRegistryEntry. repeat (case_match; [done|]). intros [= <-].
  repeat match goal with Hb : (_ || _) = false |- _ => apply orb_false_iff in Hb as [? ?] end. split; [done | lia].
Qed.

(** Entries carry the length of their name. *)
Definition named (e : EX_PROGRAM_REGISTRY_ENTRY) : Prop :=
  exists l, Name (Image e) = Some l /\ NameLength (Image e) = Z.of_nat (length l).

Lemma find_by_name_run entries name n : Forall named entries -> 0 <= n <= Z.of_nat (length name) ->
  find_by_name entries (Some name) n =
    Ok ((fun f => Image f.2) <$> list_find (fun e => Name (Image e) = Some (take (Z.to_nat n) name)) entries).
Proof.
  intros F Hn. induction F as [|e entries (l & El & Ll) F IH]; [done|]. cbn [find_by_name KiProgramNameEquals list_find].
  rewrite Ll. destruct (Z.eqb_spec (Z.of_nat (length l)) n) as [En|Hne]; cbn [negb].
  - rewrite El. cbn [default from_option id]. unfold memcmp_equal. rewrite !(proj2 (Z.ltb_ge _ _)) by lia. cbn [orb].
    cbn [res_bind]. rewrite (take_ge l) by lia. case_bool_decide as Hl.
    + rewrite decide_True by congruence. done.
    + rewrite decide_False by congruence. rewrite IH. by destruct (list_find _ entries) as [[]|].
  - cbn [res_bind]. rewrite decide_False. { rewrite IH. by destruct (list_find _ entries) as [[]|]. }
    rewrite El. intros [= ->]. apply Hne. rewrite length_take. lia.
Qed.

(** A field whose values are distinct finds the entry it was read from. *)
Lemma list_find_key {A K} `{EqDecision K} (key : A -> K) (l : list A) i x : NoDup (key <$> l) -> l !! i = Some x ->
  list_find (fun y => key y = key x) l = Some (i, x).
Proof.
  intros Hd Hi. apply list_find_Some. split; [done|]. split; [done|]. intros j y Hj Hlt E.
  assert (i = j); [|lia]. apply (NoDup_lookup (key <$> l) i j (key x)); [done | by rewrite list_lookup_fmap, Hi |].
  by rewrite list_lookup_fmap, Hj; cbn; rewrite E.
Qed.

Section builtins.
Variable symbols : string -> PROGRAM_SYMBOLS.

(** The built-in programs: their names, which are those of their sections'
    symbols too, and their identifiers. *)
Definition builtins : list (string * Z) := [("hsh", 1); ("calc", 2); ("tick1s", 3); ("fault_de", 4); ("fault_pf", 5);
  ("user_hello", 6); ("user_counter", 7); ("user_caps", 8); ("input_probe", 9); ("line_echo", 10)].
Definition builtin_names : list (option (list Z)) := (fun b => Some (chars b.1)) <$> builtins.
Definition builtin_ids : list Z := snd <$> builtins.
Lemma builtin_entries : builtin_programs symbols = (fun b => registry_entry symbols b.1 b.1 b.2) <$> builtins.
Proof. done. Qed.

Lemma known_sizes (i : nat) name id : builtins !! i = Some (name, id) ->
  0 < Z.of_nat (length (chars name)) < EX_PROGRAM_NAME_MAX_LENGTH /\ id <> EX_PROGRAM_ID_NONE.
Proof.
  intros Hi. assert (Hall : Forall (fun b => 0 < Z.of_nat (length (chars b.1)) < EX_PROGRAM_NAME_MAX_LENGTH /\ b.2 <> EX_PROGRAM_ID_NONE) builtins)
    by (repeat constructor; done).
  exact (proj1 (Forall_lookup _ _) Hall i _ Hi).
Qed.

(** The registry after a successful validation. *)
Lemma validated_run g : ExProgramValidateBuiltins (boot_programs symbols) = (EC_SUCCESS, g) ->
  gExProgramRegistryValidated g = true /\
  Forall2 (fun e e' => KiValidateProgramRegistryEntry e = (EC_SUCCESS, e')) (builtin_programs symbols) (gExBuiltinPrograms g).
Proof.
  unfold ExProgramValidateBuiltins. change (gExBuiltinPrograms (boot_programs symbols)) with (builtin_programs symbols).
  destruct (validate_entries (builtin_programs symbols)) as [st l] eqn:E.
  destruct st; try by intros [= ? ?]. intros [= <-]. split; [done | by apply validated_entries].
Qed.

Lemma validated_names g : ExProgramValidateBuiltins (boot_programs symbols) = (EC_SUCCESS, g) ->
  (fun e => Name (Image e)) <$> gExBuiltinPrograms g = builtin_names /\
  (fun e => ProgramId (Image e)) <$> gExBuiltinPrograms g = builtin_ids /\ Forall named (gExBuiltinPrograms g).
Proof.
  intros V. apply validated_run in V as [_ F].
  assert (E : forall es es', Forall2 (fun e e' => KiValidateProgramRegistryEntry e = (EC_SUCCESS, e')) es es' ->
    ((fun e => Name (Image e)) <$> es' = (fun e => Name (Image e)) <$> es) /\
    ((fun e => ProgramId (Image e)) <$> es' = (fun e => ProgramId (Image e)) <$> es) /\ (Forall named es -> Forall named es')).
  { induction 1 as [|e e' es es' He Hes (IH1 & IH2 & IH3)]; [done|]. cbn. destruct (validated_entry e e' He) as (-> & El & -> & _).
    rewrite IH1, IH2. split; [done|]. split; [done|]. intros [(l & E1 & E2) Fn]%Forall_cons. constructor; [|by apply IH3].
    exists l. destruct (validated_entry e e' He) as (-> & -> & _). done. }
  destruct (E _ _ F) as (-> & -> & Hn). split; [done|]. split; [done|]. apply Hn. repeat constructor; by eexists.
Qed.

(** C38: After validation the registry is exact.  Every built-in program is
    found under its own name (whatever follows the name in the caller's
    buffer) and under its own identifier, and the creation parameters built
    from what was found are its own: the code between its code symbols,
    entered at its start, the constants between its constant symbols, with
    their length, its identifier and the parent asked for.  Any other name,
    also a prefix or an extension of one, is refused, and the search never
    reads past the name. *)
Theorem registry_is_exact g bytes_at : ExProgramValidateBuiltins (boot_programs symbols) = (EC_SUCCESS, g) ->
  (forall a n, 0 <= n -> Z.of_nat (length (bytes_at a n)) = n) ->
  (forall name id, (name, id) ∈ builtins -> exists image,
     let codeLength := CodeBytesEnd (symbols name) - CodeBytesStart (symbols name) in
     let constLength := ConstBytesEnd (symbols name) - ConstBytesStart (symbols name) in
     (forall rest, ExLookupProgramImageByName (Some (chars name ++ rest)) (Z.of_nat (length (chars name))) g = Ok (EC_SUCCESS, Some image)) /\
     ExLookupProgramImageById id g = (EC_SUCCESS, Some image) /\ 0 < codeLength /\ 0 < constLength /\
     forall parent, exists params, ExProgramBuildRuntimeCreateParams bytes_at (Some image) parent g = (EC_SUCCESS, params) /\
       CodeBytes params = bytes_at (CodeBytesStart (symbols name)) codeLength /\ EntryOffset params = 0 /\
       ConstBytes params = Some (bytes_at (ConstBytesStart (symbols name)) constLength) /\ ConstLength params = constLength /\
       prProgramId params = id /\ prParentProcessId params = parent /\ params_ok params /\ CodeBytes params <> []) /\
  (forall name n, 0 <= n <= Z.of_nat (length name) -> Some (take (Z.to_nat n) name) ∉ builtin_names ->
     ExLookupProgramImageByName (Some name) n g = Ok (EC_ILLEGAL_ARGUMENT, None)).
Proof.
  intros V Hb. destruct (validated_names g V) as (En & Ei & Fn). destruct (validated_run g V) as [Hv F].
  assert (Dn : NoDup builtin_names) by (apply (bool_decide_unpack (NoDup builtin_names)); by vm_compute).
  assert (Di : NoDup builtin_ids) by (apply (bool_decide_unpack (NoDup builtin_ids)); by vm_compute).
  split.
  - intros name id [i Hi]%list_elem_of_lookup. rewrite builtin_entries in F.
    destruct (Forall2_lookup_l _ _ _ i (registry_entry symbols name name id) F) as (e & He & Hval); [by rewrite list_lookup_fmap, Hi|].
    destruct (validated_sections _ _ Hval) as (EI & Hc & Hk). destruct (validated_entry _ _ Hval) as (E1 & E2 & E3 & Ek & Hcz & Hkz & Hcl & Hkl).
    cbn in E1, E2, E3, Hc, Hk. exists (Image e). cbv zeta. pose proof (known_sizes i name id Hi) as [Hlen Hid].
    split; [|split; [|split; [lia|split; [lia|]]]].
    + intros rest. unfold ExLookupProgramImageByName. rewrite Hv. cbn [negb]. rewrite bool_decide_false by done.
      rewrite (proj2 (Z.eqb_neq _ _)), (proj2 (Z.leb_gt _ _)) by lia. cbn [orb].
      rewrite find_by_name_run by (done || (rewrite length_app; lia)). rewrite Nat2Z.id, take_app_length, <- E1.
      rewrite (list_find_key (fun e => Name (Image e)) _ i e) by (done || by rewrite En). done.
    + unfold ExLookupProgramImageById. rewrite Hv. cbn [negb]. rewrite (proj2 (Z.eqb_neq _ _)) by done. rewrite <- E3.
      rewrite (list_find_key (fun e => ProgramId (Image e)) _ i e) by (done || by rewrite Ei). done.
    + intros parent. unfold ExProgramBuildRuntimeCreateParams. rewrite Hv, bool_decide_true by done.
      rewrite !(proj2 (Z.eqb_neq _ _)) by (done || lia). cbn [negb orb]. eexists. split; [reflexivity|]. rewrite EI. unfold params_ok. cbn.
      repeat (split; [done|]). rewrite Hb by lia. split; [lia|]. intros E.
      pose proof (Hb (CodeBytesStart (symbols name)) (CodeBytesEnd (symbols name) - CodeBytesStart (symbols name)) ltac:(lia)) as Hl.
      rewrite E in Hl. cbn in Hl. lia.
  - intros name n Hn Hnot. unfold ExLookupProgramImageByName. rewrite Hv. cbn [negb]. rewrite bool_decide_false by done.
    destruct (_ || _); [done|]. rewrite find_by_name_run by done. cbn [res_bind].
    destruct (list_find _ _) as [[j e]|] eqn:Ef; [|done]. exfalso. apply list_find_Some in Ef as (Hj & Hname & _).
    apply Hnot. rewrite <- En, <- Hname. apply (list_elem_of_fmap_2 (fun e => Name (Image e))). by eapply list_elem_of_lookup_2.
Qed.
End builtins.

(** Two pages of sections for every program. *)
Definition sample_symbols (_ : string) : PROGRAM_SYMBOLS := mkSymbols 0x1000 0x1800 0x2000 0x2010.
Definition sample_programs : PROGRAMS := (ExProgramValidateBuiltins (boot_programs sample_symbols)).2.

Lemma sample_validated : ExProgramValidateBuiltins (boot_programs sample_symbols) = (EC_SUCCESS, sample_programs).
Proof. reflexivity. Qed.

Lemma registry_is_exact_witness :
  (exists i params, ExLookupProgramImageByName (Some (chars "calculator")) 4 sample_programs = Ok (EC_SUCCESS, Some i) /\
    ExProgramBuildRuntimeCreateParams (fun a n => replicate (Z.to_nat n) a) (Some i) 7 sample_programs = (EC_SUCCESS, params) /\
    CodeBytes params = replicate 2048 0x1000 /\ ConstBytes params = Some (replicate 16 0x2000)) /\
  ExLookupProgramImageByName (Some (chars "calculator")) 5 sample_programs = Ok (EC_ILLEGAL_ARGUMENT, None).
Proof.
  destruct (registry_is_exact sample_symbols sample_programs (fun a n => replicate (Z.to_nat n) a) sample_validated) as [Hin Hout].
  { intros a n Hn. rewrite length_replicate. lia. }
  destruct (Hin "calc"%string 2) as (i & Hname & _ & _ & _ & Hbuild).
  { apply (bool_decide_unpack (("calc"%string, 2) ∈ builtins)). by vm_compute. }
  destruct (Hbuild 7) as (params & Eb & Hcode & _ & Hconst & _). split.
  - exists i, params. split; [exact (Hname (chars "ulator"))|]. split; [exact Eb|]. split; [exact Hcode | exact Hconst].
  - apply Hout; [by vm_compute|]. apply (bool_decide_unpack (Some (take (Z.to_nat 5) (chars "calculator")) ∉ builtin_names)). by vm_compute.
Defined.
End Program.
