(* ===== verification/Syscall.v ===== *)
(** * System calls ([ex/syscall.c]) and the bridge to the user runtime

    The dispatcher of user system calls, the trap in front of it
    ([ke/user_mode_syscall.c]), the spawning half of [ex/process_control.c] and
    the hooks of [ex/user_runtime_bridge.c].  A call runs up to the point where
    its thread blocks ([Blocked]) and continues there with whatever the wait
    answered, in whatever state the kernel is in then.  Copies to and from user
    memory, the console, the input line and the formatting of system
    information are the interface [SyscallServices]. *)

From S2P Require Import Prelude Ex Program.
From S2P Require Input.

Local Open Scope Z_scope.

Module Syscall.
Import Program.

(** ** Numbers and limits ([user_syscall_abi.h]) *)

Definition EX_USER_SYSCALL_WRITE_MAX_LENGTH : Z := 256.
Definition EX_USER_SYSCALL_BASE : Z := 0x100.
Definition EX_USER_SYS_WRITE : Z := EX_USER_SYSCALL_BASE + 0.
Definition EX_USER_SYS_CLOSE : Z := EX_USER_SYSCALL_BASE + 1.
Definition EX_USER_SYS_WAIT_ONE : Z := EX_USER_SYSCALL_BASE + 2.
Definition EX_USER_SYS_EXIT : Z := EX_USER_SYSCALL_BASE + 3.
Definition EX_USER_SYS_READLINE : Z := EX_USER_SYSCALL_BASE + 4.
Definition EX_USER_SYS_SPAWN_PROGRAM : Z := EX_USER_SYSCALL_BASE + 5.
Definition EX_USER_SYS_WAIT_PID : Z := EX_USER_SYSCALL_BASE + 6.
Definition EX_USER_SYS_SLEEP_MS : Z := EX_USER_SYSCALL_BASE + 7.
Definition EX_USER_SYS_KILL_PID : Z := EX_USER_SYSCALL_BASE + 8.
Definition EX_USER_SYS_QUERY_SYSINFO : Z := EX_USER_SYSCALL_BASE + 9.
Definition EX_USER_WAIT_ONE_TIMEOUT_MAX_MS : Z := 0xFFFFFFFF.
Definition EX_USER_WAIT_ONE_TIMEOUT_NS_PER_MS : Z := 1000000.
Definition EX_USER_SLEEP_MS_MAX : Z := 0xFFFFFFFF.
Definition EX_USER_SLEEP_NS_PER_MS : Z := 1000000.

(** The value of a status ([_hobase.h]). *)
Definition status_value (status : HO_STATUS) : Z :=
  match status with
  | EC_SUCCESS => 0
  | EC_FAILURE => 1
  | EC_ILLEGAL_ARGUMENT => 2
  | EC_NOT_ENOUGH_MEMORY => 3
  | EC_UNREACHABLE => 4
  | EC_NOT_SUPPORTED => 5
  | EC_OUT_OF_RESOURCE => 6
  | EC_INVALID_STATE => 7
  | EC_UNSUPPORTED_MACHINE => 8
  | EC_TIMEOUT => 9
  end.

Definition KiEncodeSyscallStatus (status : HO_STATUS) : Z :=
  if bool_decide (status = EC_SUCCESS) then 0 else - status_value status.

Inductive EX_SYSCALL_DISPOSITION :=
| EX_SYSCALL_DISPOSITION_RETURN_TO_USER
| EX_SYSCALL_DISPOSITION_EXIT_CURRENT_THREAD.

#[export] Instance EX_SYSCALL_DISPOSITION_eq_dec : EqDecision EX_SYSCALL_DISPOSITION.
Proof. solve_decision. Defined.

Record EX_SYSCALL_DISPATCH_RESULT := mkResult { Disposition : EX_SYSCALL_DISPOSITION; ReturnValue : Z }.
Record EX_SYSCALL_ARGUMENTS := mkArgs { Number : Z; Arg0 : Z; Arg1 : Z; Arg2 : Z }.

Definition KiSetReturnResult (returnValue : Z) : EX_SYSCALL_DISPATCH_RESULT :=
  mkResult EX_SYSCALL_DISPOSITION_RETURN_TO_USER returnValue.
Definition KiSetExitResult : EX_SYSCALL_DISPATCH_RESULT := mkResult EX_SYSCALL_DISPOSITION_EXIT_CURRENT_THREAD 0.

(** ** What the dispatcher calls *)

(** [kt] is the calling thread.  A copy in yields the bytes, a copy of a line
    the line; a write to the console says how much was written. *)
Class SyscallServices (W : Type) := {
  KeUserModeCopyInBytes : Z -> Z -> Z -> W -> HO_STATUS * list Z;
  KeUserModeCopyOutBytes : Z -> Z -> list Z -> W -> HO_STATUS * W;
  KeUserModeWriteConsoleBytes : list Z -> W -> HO_STATUS * Z * W;
  KeInputCopyCompletedLineForCurrentThread : Z -> Z -> W -> HO_STATUS * list Z;
  KeInputConsumeCompletedLineForCurrentThread : Z -> W -> HO_STATUS * W;
  KeUserModeQueryCurrentThreadLayout : Z -> W -> HO_STATUS * Z;
  ExRuntimeHandleQuerySysinfo : Z -> Z -> Z -> Z -> EX W -> Z * W;
}.

(** ** Blocking *)

(** What a thread waits for. *)
Inductive WAIT :=
| WaitForCompletion (e : EVENT) (timeoutNs : option Z)
| WaitForForegroundLine
| WaitForSleep (ns : Z)
| WaitForWorker (worker : Z) (image : EX_USER_IMAGE) (flags parentProcessId previousForegroundOwnerThreadId : Z).

(** What the wait answers: its status, and of a worker its work item's status
    and child. *)
Record ANSWER := mkAnswer { Status : HO_STATUS; WorkStatus : HO_STATUS; WorkChildProcessId : Z }.

Inductive outcome (W A : Type) : Type :=
| Finished (a : A) (s : EX W)
| Blocked (on : WAIT) (resume : ANSWER -> EX W -> res (outcome W A)) (s : EX W).
#[global] Arguments Finished {W A}.
#[global] Arguments Blocked {W A}.

Fixpoint after {W A B} (o : outcome W A) (f : A -> EX W -> res (outcome W B)) : res (outcome W B) :=
  match o with
  | Finished a s => f a s
  | Blocked on resume s => Ok (Blocked on (fun answer s => let* o := resume answer s in after o f) s)
  end.

(** A step that does not block. *)
Definition done_at {W A} (r : res (A * EX W)) : res (outcome W A) := let* (a, s) := r in Ok (Finished a s).

Section operations.
Context {W : Type} `{ExServices W} `{SyscallServices W}.
Implicit Types (s : EX W) (p t kt : Z).
Variable g : PROGRAMS.

Definition ok (status : HO_STATUS) : bool := bool_decide (status = EC_SUCCESS).

(** ** The bridge ([user_runtime_bridge.c]) *)

Definition ExUserRuntimeWrapThread kt s : res HO_STATUS :=
  if kt =? 0 then Ok EC_ILLEGAL_ARGUMENT else
  let* p := ExRuntimeLookupProcessByKernelThread kt s in
  if p =? 0 then Ok EC_INVALID_STATE else
  let* x := get_process p s in
  if Staging x =? 0 then Ok EC_INVALID_STATE else Ok EC_SUCCESS.

Definition ExUserRuntimeHasWrapper kt s : res bool :=
  let* t := ExRuntimeLookupThreadByKernelThread kt s in Ok (negb (t =? 0)).

Definition ExUserRuntimeQueryThreadStaging kt s : res Z :=
  let* p := ExRuntimeLookupProcessByKernelThread kt s in
  if p =? 0 then Ok 0 else let* x := get_process p s in Ok (Staging x).

(** The status and the process (0 for none). *)
Definition KiValidateUserRuntimeTerminationHandoff kt s : res (HO_STATUS * Z) :=
  if kt =? 0 then Ok (EC_ILLEGAL_ARGUMENT, 0) else
  let* t := ExRuntimeLookupThreadByKernelThread kt s in
  if t =? 0 then Ok (EC_INVALID_STATE, 0) else
  let* y := get_thread t s in
  if negb (Thread y =? kt) then Ok (EC_INVALID_STATE, 0) else
  if Process y =? 0 then Ok (EC_INVALID_STATE, 0) else
  let* x := get_process (Process y) s in
  if (Staging x =? 0) || negb (PsInitialized (AddressSpace x)) || (PsRootPageTablePhys (AddressSpace x) =? 0)
  then Ok (EC_INVALID_STATE, 0) else
  let '(status, ownerRoot) := KeUserModeQueryCurrentThreadLayout kt (Svc s) in
  if negb (ok status) then Ok (status, 0) else
  if (ownerRoot =? 0) || negb (ownerRoot =? PsRootPageTablePhys (AddressSpace x)) then Ok (EC_INVALID_STATE, 0) else
  Ok (EC_SUCCESS, Process y).

Definition ExUserRuntimeHandleExit kt s : res HO_STATUS :=
  let* (status, _) := KiValidateUserRuntimeTerminationHandoff kt s in Ok status.

(** Returns where the code calls [KeThreadExit]. *)
Definition ExUserRuntimeFaultHook kt (vectorNumber : option Z) s : res (EX W) :=
  match vectorNumber with
  | None => Panic EC_ILLEGAL_ARGUMENT
  | Some vectorNumber =>
      if kt =? 0 then Panic EC_ILLEGAL_ARGUMENT else
      let* (status, p) := KiValidateUserRuntimeTerminationHandoff kt s in
      if negb (ok status) then Panic status else
      let* (status, s) := ExRuntimeMarkProcessTerminating p EX_PROCESS_TERMINATION_REASON_FAULT vectorNumber s in
      if negb (ok status) then Panic status else
      let* status := ExUserRuntimeHandleExit kt s in
      if negb (ok status) then Panic status else Ok s
  end.

(** Returns where the code enters user mode. *)
Definition ExUserRuntimeEnterHook kt s : res unit :=
  let* status := ExUserRuntimeWrapThread kt s in
  if negb (ok status) then Panic status else
  let* p := ExRuntimeLookupProcessByKernelThread kt s in
  if p =? 0 then Panic EC_INVALID_STATE else
  let* x := get_process p s in
  if negb (PsInitialized (AddressSpace x)) then Panic EC_INVALID_STATE else
  if PsRootPageTablePhys (AddressSpace x) =? 0 then Panic EC_INVALID_STATE else
  let '(status, activeRoot) := KeQueryActiveRootPageTable (Svc s) in
  if negb (ok status) then Panic status else
  if negb (activeRoot =? PsRootPageTablePhys (AddressSpace x)) then Panic EC_INVALID_STATE else Ok tt.

Definition ExUserRuntimeResolveRootHook kt s : res (HO_STATUS * Z) :=
  if kt =? 0 then Ok (EC_ILLEGAL_ARGUMENT, 0) else
  match KernelSpaceRoot (Svc s) with
  | None => Ok (EC_INVALID_STATE, 0)
  | Some kernelRoot =>
      if kernelRoot =? 0 then Ok (EC_INVALID_STATE, 0) else
      let* t := ExRuntimeLookupThreadByKernelThread kt s in
      if t =? 0 then Ok (EC_SUCCESS, kernelRoot) else
      let* y := get_thread t s in
      if Process y =? 0 then Ok (EC_INVALID_STATE, kernelRoot) else
      let* x := get_process (Process y) s in
      if negb (PsInitialized (AddressSpace x)) || (PsRootPageTablePhys (AddressSpace x) =? 0)
      then Ok (EC_INVALID_STATE, kernelRoot) else Ok (EC_SUCCESS, PsRootPageTablePhys (AddressSpace x))
  end.

(** ** Leaving ([KiPrepareUserRuntimeExit], [KiPrepareUserRuntimeKillExit]) *)

Definition prepare_exit kt (reason : EX_PROCESS_TERMINATION_REASON) (exitCode : Z) s
  : res (EX_SYSCALL_DISPATCH_RESULT * EX W) :=
  if kt =? 0 then Panic EC_INVALID_STATE else
  let* staging := ExUserRuntimeQueryThreadStaging kt s in
  if staging =? 0 then Panic EC_INVALID_STATE else
  let* (status, s) := ExRuntimeMarkCurrentProcessTerminating kt reason exitCode s in
  if negb (ok status) then Panic status else
  let* status := ExUserRuntimeHandleExit kt s in
  if negb (ok status) then Panic status else Ok (KiSetExitResult, s).

Definition KiPrepareUserRuntimeExit kt (exitCode : Z) s : res (EX_SYSCALL_DISPATCH_RESULT * EX W) :=
  prepare_exit kt EX_PROCESS_TERMINATION_REASON_EXIT exitCode s.
Definition KiPrepareUserRuntimeKillExit kt s : res (EX_SYSCALL_DISPATCH_RESULT * EX W) :=
  prepare_exit kt EX_PROCESS_TERMINATION_REASON_KILL 0 s.

(** ** Capability calls *)

Definition KiHandleCapabilityWrite kt p (handle userBuffer length : Z) s : res (Z * EX W) :=
  if p =? 0 then Ok (KiEncodeSyscallStatus EC_INVALID_STATE, s) else
  if EX_USER_SYSCALL_WRITE_MAX_LENGTH <? length then Ok (KiEncodeSyscallStatus EC_ILLEGAL_ARGUMENT, s) else
  let* (status, objectHeader, s) := ExHandleResolve p handle EX_OBJECT_TYPE_CONSOLE EX_HANDLE_RIGHT_WRITE s in
  if negb (ok status) then Ok (KiEncodeSyscallStatus status, s) else
  let '(status, written, s) :=
    if length =? 0 then (EC_SUCCESS, 0, s) else
    let '(status, scratch) := KeUserModeCopyInBytes kt userBuffer length (Svc s) in
    if ok status then svc (KeUserModeWriteConsoleBytes scratch) s else (status, 0, s) in
  let* (releaseStatus, s) := ExHandleReleaseResolvedObject objectHeader s in
  let status := if ok status && negb (ok releaseStatus) then releaseStatus else status in
  if negb (ok status) then Ok (KiEncodeSyscallStatus status, s) else Ok (written, s).

Definition KiHandleCapabilityClose p (handle : Z) s : res (Z * EX W) :=
  if p =? 0 then Ok (KiEncodeSyscallStatus EC_INVALID_STATE, s) else
  if handle =? EX_HANDLE_INVALID then Ok (KiEncodeSyscallStatus EC_ILLEGAL_ARGUMENT, s) else
  let* (status, _, s) := ExHandleClose p handle s in
  if negb (ok status) then Ok (KiEncodeSyscallStatus status, s) else Ok (0, s).

Definition KiDecodeCapabilityWaitTimeoutNs (timeoutMsRaw reserved : Z) : HO_STATUS * Z :=
  if negb (reserved =? 0) || (EX_USER_WAIT_ONE_TIMEOUT_MAX_MS <? timeoutMsRaw) then (EC_ILLEGAL_ARGUMENT, 0)
  else (EC_SUCCESS, u64 (timeoutMsRaw * EX_USER_WAIT_ONE_TIMEOUT_NS_PER_MS)).

(** From the release of the waited-for object on. *)
Definition wait_one_end (o : EX_OBJECT) (status : HO_STATUS) s : res (Z * EX W) :=
  let* (releaseStatus, s) := ExHandleReleaseResolvedObject (Some o) s in
  let status := if (ok status || bool_decide (status = EC_TIMEOUT)) && negb (ok releaseStatus) then releaseStatus else status in
  if negb (ok status) then Ok (KiEncodeSyscallStatus status, s) else Ok (0, s).

Definition KiHandleCapabilityWaitOne p (handle timeoutMsRaw reserved : Z) s : res (outcome W Z) :=
  if p =? 0 then Ok (Finished (KiEncodeSyscallStatus EC_INVALID_STATE) s) else
  if handle =? EX_HANDLE_INVALID then Ok (Finished (KiEncodeSyscallStatus EC_ILLEGAL_ARGUMENT) s) else
  let '(status, timeoutNs) := KiDecodeCapabilityWaitTimeoutNs timeoutMsRaw reserved in
  if negb (ok status) then Ok (Finished (KiEncodeSyscallStatus status) s) else
  let* (status, objectHeader, s) := ExHandleResolveWaitable p handle EX_HANDLE_RIGHT_WAIT s in
  if negb (ok status) then Ok (Finished (KiEncodeSyscallStatus status) s) else
  match objectHeader with
  | None => Oob
  | Some o =>
      let* header := get_header o s in
      let wait e := Ok (Blocked (WaitForCompletion e (Some timeoutNs))
        (fun answer s => done_at (wait_one_end o (Status answer) s)) s) in
      match Type_ header, o with
      | EX_OBJECT_TYPE_PROCESS, ObjProcess q => wait (ProcessCompletion q)
      | EX_OBJECT_TYPE_THREAD, ObjThread t => wait (ThreadCompletion t)
      | EX_OBJECT_TYPE_PROCESS, _ | EX_OBJECT_TYPE_THREAD, _ => Oob
      | _, _ => done_at (wait_one_end o EC_INVALID_STATE s)
      end
  end.

Definition KiDispatchCapabilitySyscall kt (syscallNumber arg0 arg1 arg2 : Z) s : res (outcome W Z) :=
  let* p := ExRuntimeLookupProcessByKernelThread kt s in
  let* staging := if p =? 0 then Ok 0 else let* x := get_process p s in Ok (Staging x) in
  if (kt =? 0) || (p =? 0) || (staging =? 0) then Ok (Finished (KiEncodeSyscallStatus EC_INVALID_STATE) s) else
  if syscallNumber =? EX_USER_SYS_WRITE then done_at (KiHandleCapabilityWrite kt p (u32 arg0) arg1 arg2 s) else
  if syscallNumber =? EX_USER_SYS_CLOSE then done_at (KiHandleCapabilityClose p (u32 arg0) s) else
  if syscallNumber =? EX_USER_SYS_WAIT_ONE then KiHandleCapabilityWaitOne p (u32 arg0) arg1 arg2 s else
  if syscallNumber =? EX_USER_SYS_QUERY_SYSINFO then
    let '(value, w) := ExRuntimeHandleQuerySysinfo p arg0 arg1 arg2 s in Ok (Finished value (set_Svc w s))
  else Ok (Finished (KiEncodeSyscallStatus EC_NOT_SUPPORTED) s).

(** ** Input *)

(** Once the line is there. *)
Definition read_line kt (userBuffer capacity : Z) s : Z * EX W :=
  let '(status, scratch) := KeInputCopyCompletedLineForCurrentThread kt (u32 capacity) (Svc s) in
  if negb (ok status) then (KiEncodeSyscallStatus status, s) else
  let '(status, s) := svc (KeUserModeCopyOutBytes kt userBuffer scratch) s in
  if negb (ok status) then (KiEncodeSyscallStatus status, s) else
  let '(status, s) := svc (KeInputConsumeCompletedLineForCurrentThread kt) s in
  if negb (ok status) then (KiEncodeSyscallStatus status, s) else (Z.of_nat (length scratch), s).

Definition KiHandleReadLine kt (userBuffer capacity reserved : Z) s : outcome W Z :=
  if negb (reserved =? 0) || (capacity =? 0) || (Input.Input.KE_INPUT_LINE_CAPACITY <? capacity)
  then Finished (KiEncodeSyscallStatus EC_ILLEGAL_ARGUMENT) s else
  Blocked WaitForForegroundLine (fun answer s =>
    if negb (ok (Status answer)) then Ok (Finished (KiEncodeSyscallStatus (Status answer)) s)
    else let '(value, s) := read_line kt userBuffer capacity s in Ok (Finished value s)) s.

(** ** Processes *)

Section spawn.
Variable bytes_at : Z -> Z -> list Z.

(** The entry points of the worker and of the child's kernel thread. *)
Variables KiExSpawnWorkerThread KiUnexpectedExProcessControlKernelEntry : Z.

(** What the worker of a spawn does with its work item. *)
Definition spawn_image (image : EX_USER_IMAGE) (flags parentProcessId previousForegroundOwnerThreadId : Z) s :=
  KiExCreateAndStartProcessImage (ExProgramBuildRuntimeCreateParams bytes_at (Some image) parentProcessId g)
    KiUnexpectedExProcessControlKernelEntry flags previousForegroundOwnerThreadId s.

(** The work item is on the caller's stack; its address is not used. *)
Definition ExSpawnProgramImage kt (image : option EX_USER_IMAGE) (flags : Z) s : res (outcome W (HO_STATUS * Z)) :=
  if kt =? 0 then Ok (Finished (EC_INVALID_STATE, 0) s) else
  if negb (Z.ldiff flags EX_USER_SPAWN_FLAG_FOREGROUND =? 0) then Ok (Finished (EC_ILLEGAL_ARGUMENT, 0) s) else
  match image with
  | None => Ok (Finished (EC_ILLEGAL_ARGUMENT, 0) s)
  | Some image =>
      let* (status, parentProcessId) := KiResolveCallerParentProcessId kt s in
      if negb (ok status) then Ok (Finished (status, 0) s) else
      let* view := get_kthread kt s in
      let previous := KeInputGetForegroundOwnerThreadId (Svc s) in
      if vIdle view then
        let* (status, pid, _, s) := spawn_image image flags parentProcessId previous s in
        Ok (Finished (status, pid) s)
      else
      let '(status, worker, s) := svc (KeThreadCreate true KiExSpawnWorkerThread 0) s in
      if negb (ok status) then Ok (Finished (status, 0) s) else
      let '(status, s) := svc (KeThreadStart worker) s in
      if negb (ok status) then Ok (Finished (status, 0) s) else
      Ok (Blocked (WaitForWorker worker image flags parentProcessId previous) (fun answer s =>
        if negb (ok (Status answer)) then Ok (Finished (Status answer, 0) s) else
        if negb (ok (WorkStatus answer)) then Ok (Finished (WorkStatus answer, 0) s) else
        Ok (Finished (EC_SUCCESS, WorkChildProcessId answer) s)) s)
  end.

Definition ExSpawnProgram kt (name : list Z) (nameLength flags : Z) s : res (outcome W (HO_STATUS * Z)) :=
  let* (status, image) := ExLookupProgramImageByName (Some name) nameLength g in
  if negb (ok status) then Ok (Finished (status, 0) s) else ExSpawnProgramImage kt image flags s.

(** The buffer on the stack: the copied bytes, zeros behind. *)
Definition program_name (bytes : list Z) : list Z :=
  bytes ++ replicate (Z.to_nat EX_PROGRAM_NAME_MAX_LENGTH - length bytes) 0.

Definition KiHandleSpawnProgram kt (userName nameLength flags : Z) s : res (outcome W Z) :=
  if (userName =? 0) || (nameLength =? 0) || (EX_PROGRAM_NAME_MAX_LENGTH <=? nameLength) || (0xFFFFFFFF <? flags)
  then Ok (Finished (KiEncodeSyscallStatus EC_ILLEGAL_ARGUMENT) s) else
  let '(status, bytes) := KeUserModeCopyInBytes kt userName nameLength (Svc s) in
  if negb (ok status) then Ok (Finished (KiEncodeSyscallStatus status) s) else
  let* o := ExSpawnProgram kt (program_name bytes) (u32 nameLength) (u32 flags) s in
  after o (fun '(status, pid) s =>
    Ok (Finished (if negb (ok status) then KiEncodeSyscallStatus status else pid) s)).

(** [ExWaitProcess] and [ExKillProcess], from their beginning to their end. *)
Definition wait_process (begun : res (HO_STATUS * Z * EX W)) : res (outcome W HO_STATUS) :=
  let* (status, p, s) := begun in
  if negb (ok status) then Ok (Finished status s) else
  Ok (Blocked (WaitForCompletion (ProcessCompletion p) None) (fun answer s =>
    done_at (ExWaitProcess_end p (Status answer) s)) s).

Definition pid_call (begin : Z -> Z -> EX W -> res (HO_STATUS * Z * EX W)) kt (pid reserved0 reserved1 : Z) s : res (outcome W Z) :=
  if negb (reserved0 =? 0) || negb (reserved1 =? 0) || (pid =? 0) || (0xFFFFFFFF <? pid)
  then Ok (Finished (KiEncodeSyscallStatus EC_ILLEGAL_ARGUMENT) s) else
  let* o := wait_process (begin kt (u32 pid) s) in
  after o (fun status s => Ok (Finished (if negb (ok status) then KiEncodeSyscallStatus status else 0) s)).

Definition KiHandleWaitPid kt (pid reserved0 reserved1 : Z) s : res (outcome W Z) :=
  pid_call ExWaitProcess_begin kt pid reserved0 reserved1 s.
Definition KiHandleKillPid kt (pid reserved0 reserved1 : Z) s : res (outcome W Z) :=
  pid_call ExKillProcess_begin kt pid reserved0 reserved1 s.

Definition KiHandleSleepMs (milliseconds reserved0 reserved1 : Z) s : outcome W Z :=
  if negb (reserved0 =? 0) || negb (reserved1 =? 0) || (EX_USER_SLEEP_MS_MAX <? milliseconds)
  then Finished (KiEncodeSyscallStatus EC_ILLEGAL_ARGUMENT) s else
  Blocked (WaitForSleep (u64 (milliseconds * EX_USER_SLEEP_NS_PER_MS))) (fun _ s => Ok (Finished 0 s)) s.

(** ** Dispatch *)

Definition returns (r : res (outcome W Z)) : res (outcome W EX_SYSCALL_DISPATCH_RESULT) :=
  let* o := r in after o (fun value s => Ok (Finished (KiSetReturnResult value) s)).

Definition KiDispatchFormalSyscall kt (args : EX_SYSCALL_ARGUMENTS) s : res (outcome W EX_SYSCALL_DISPATCH_RESULT) :=
  let '(mkArgs number arg0 arg1 arg2) := args in
  if number =? EX_USER_SYS_EXIT then
    if negb (arg1 =? 0) || negb (arg2 =? 0)
    then Ok (Finished (KiSetReturnResult (KiEncodeSyscallStatus EC_ILLEGAL_ARGUMENT)) s)
    else done_at (KiPrepareUserRuntimeExit kt arg0 s)
  else if number =? EX_USER_SYS_READLINE then returns (Ok (KiHandleReadLine kt arg0 arg1 arg2 s))
  else if number =? EX_USER_SYS_SPAWN_PROGRAM then returns (KiHandleSpawnProgram kt arg0 arg1 arg2 s)
  else if number =? EX_USER_SYS_WAIT_PID then returns (KiHandleWaitPid kt arg0 arg1 arg2 s)
  else if number =? EX_USER_SYS_SLEEP_MS then returns (Ok (KiHandleSleepMs arg0 arg1 arg2 s))
  else if number =? EX_USER_SYS_KILL_PID then returns (KiHandleKillPid kt arg0 arg1 arg2 s)
  else returns (KiDispatchCapabilitySyscall kt number arg0 arg1 arg2 s).

Definition KiObserveKillRequest kt (result : EX_SYSCALL_DISPATCH_RESULT) s : res (EX_SYSCALL_DISPATCH_RESULT * EX W) :=
  let* (killed, _) := ExRuntimeShouldTerminateCurrentProcess kt s in
  if killed : bool then KiPrepareUserRuntimeKillExit kt s else Ok (result, s).

(** The status is [EC_SUCCESS]: null arguments do not occur. *)
Definition ExDispatchSyscall kt (args : EX_SYSCALL_ARGUMENTS) s : res (outcome W EX_SYSCALL_DISPATCH_RESULT) :=
  let* o := KiDispatchFormalSyscall kt args s in
  after o (fun result s =>
    if bool_decide (Disposition result = EX_SYSCALL_DISPOSITION_RETURN_TO_USER)
    then done_at (KiObserveKillRequest kt result s) else Ok (Finished result s)).

(** ** The trap ([user_mode_syscall.c]) *)

Record CONTEXT := mkContext { RAX : Z; RDI : Z; RSI : Z; RDX : Z }.

(** The frame to return with, [None] where the code calls [KeThreadExit]. *)
Definition KiHandleUserSyscallTrap kt (frame : CONTEXT) s : res (outcome W (option CONTEXT)) :=
  let* o := ExDispatchSyscall kt (mkArgs (RAX frame) (RDI frame) (RSI frame) (RDX frame)) s in
  after o (fun result s =>
    if bool_decide (Disposition result = EX_SYSCALL_DISPOSITION_EXIT_CURRENT_THREAD) then Ok (Finished None s) else
    if negb (bool_decide (Disposition result = EX_SYSCALL_DISPOSITION_RETURN_TO_USER)) then Panic EC_INVALID_STATE else
    Ok (Finished (Some (mkContext (u64 (ReturnValue result)) (RDI frame) (RSI frame) (RDX frame))) s)).
End spawn.
End operations.
End Syscall.
