(* ===== verification/SyscallInv.v ===== *)
(** * What the calls of a running thread leave alone

    [steadfast]: the thread table, the threads' identities, and the payload
    (staging, address space) of the processes stay.  Every executive call that
    a system call makes of a live thread is steadfast; [leads] states it of a
    call and the tactic [lead] follows the call's structure. *)

From S2P Require Import Prelude Ex ExInv Program Syscall.

Local Open Scope Z_scope.

Import Program Syscall.

(** ** What system calls rely on *)

(** Calls that leave every thread's layout alone. *)
Inductive light_call {W : Type} `{ExServices W} `{SyscallServices W} : W -> W -> Prop :=
| l_free a w : light_call w (kfree a w)
| l_focus a r w w' : KeInputSetForegroundOwnerThreadId a w = (r, w') -> light_call w w'
| l_create a b c r w w' : KeThreadCreate a b c w = (r, w') -> light_call w w'
| l_start a r w w' : KeThreadStart a w = (r, w') -> light_call w w'
| l_copy_out a b c r w w' : KeUserModeCopyOutBytes a b c w = (r, w') -> light_call w w'
| l_write a r w w' : KeUserModeWriteConsoleBytes a w = (r, w') -> light_call w w'
| l_consume a r w w' : KeInputConsumeCompletedLineForCurrentThread a w = (r, w') -> light_call w w'
| l_sysinfo p a b c s r w' : ExRuntimeHandleQuerySysinfo p a b c s = (r, w') -> light_call (Svc s) w'.

(** Calls that free nothing the executive knows. *)
Inductive user_call {W : Type} `{ExServices W} `{SyscallServices W} : W -> W -> Prop :=
| u_copy_out a b c r w w' : KeUserModeCopyOutBytes a b c w = (r, w') -> user_call w w'
| u_write a r w w' : KeUserModeWriteConsoleBytes a w = (r, w') -> user_call w w'
| u_consume a r w w' : KeInputConsumeCompletedLineForCurrentThread a w = (r, w') -> user_call w w'
| u_sysinfo p a b c s r w' : ExRuntimeHandleQuerySysinfo p a b c s = (r, w') -> user_call (Svc s) w'.

Class SyscallLaws (W : Type) `{ExLaws W} `{SyscallServices W} := {
  user_call_law w w' : user_call w w' -> evolves w w';
  light_call_law w w' kt : light_call w w' ->
    KeUserModeQueryCurrentThreadLayout kt w' = KeUserModeQueryCurrentThreadLayout kt w;
  copy_in_law kt a n w bytes : KeUserModeCopyInBytes kt a n w = (EC_SUCCESS, bytes) -> Z.of_nat (length bytes) = n;
}.

Section steadfast.
Context {W : Type} `{SyscallLaws W}.
Implicit Types (s : EX W) (p t kt : Z) (x : EX_PROCESS) (y : EX_THREAD).

Record steadfast s s' : Prop := mkSteadfast {
  sf_processes p x' : processes s' !! p = Some x' -> exists x, processes s !! p = Some x /\
    Staging x' = Staging x /\ AddressSpace x' = AddressSpace x;
  sf_threads t y' : exthreads s' !! t = Some y' -> exists y, exthreads s !! t = Some y /\
    Thread y' = Thread y /\ Process y' = Process y;
  sf_table : gExRuntimeThreadTable s' = gExRuntimeThreadTable s;
  sf_layout kt : KeUserModeQueryCurrentThreadLayout kt (Svc s') = KeUserModeQueryCurrentThreadLayout kt (Svc s)
}.

#[global] Instance steadfast_pre : PreOrder steadfast.
Proof.
  split.
  - intros s. split; try done; [intros p x Hx; by exists x | intros t y Hy; by exists y].
  - intros s1 s2 s3 [P1 T1 B1 L1] [P2 T2 B2 L2]. split.
    + intros p x3 H3. destruct (P2 p x3 H3) as (x2 & H2' & -> & ->). exact (P1 p x2 H2').
    + intros t y3 H3. destruct (T2 t y3 H3) as (y2 & H2' & -> & ->). exact (T1 t y2 H2').
    + congruence.
    + intros kt. by rewrite L2.
Qed.

Lemma steadfast_svc s w : light_call (Svc s) w -> steadfast s (set_Svc w s).
Proof.
  intros L. split; try done; [intros p x Hx; by exists x | intros t y Hy; by exists y|].
  intros kt. by apply light_call_law.
Qed.

(** ** Following a call *)

(** Where a result keeps its state. *)
Class Stateful (A : Type) := state : A -> EX W.
#[global] Instance stateful_alone : Stateful (EX W) := fun s => s.
#[global] Instance stateful_last A : Stateful (A * EX W) := snd.

Definition leads {A} `{Stateful A} s (r : res A) : Prop := forall a, r = Ok a -> steadfast s (state a).

Lemma leads_ok {A} `{Stateful A} s (a : A) : steadfast s (state a) -> leads s (Ok a).
Proof. by intros S b [= <-]. Qed.

Lemma leads_from {A} `{Stateful A} s s1 (r : res A) : steadfast s s1 -> leads s1 r -> leads s r.
Proof. intros S L a Ha. etrans; [exact S | by apply L]. Qed.

Lemma leads_bind {A B} `{Stateful A} `{Stateful B} s (m : res A) (k : A -> res B) :
  leads s m -> (forall a, leads (state a) (k a)) -> leads s (let* a := m in k a).
Proof.
  intros L K b Hb. destruct m as [a| | |]; cbn in Hb; try done. etrans; [by apply L | by apply (K a)].
Qed.

Lemma leads_read {A B} `{Stateful B} s (m : res A) (k : A -> res B) :
  (forall a, leads s (k a)) -> leads s (let* a := m in k a).
Proof. intros K b Hb. destruct m as [a| | |]; cbn in Hb; try done. by apply (K a). Qed.

Lemma leads_fault {A} `{Stateful A} s (r : res A) : (forall a, r <> Ok a) -> leads s r.
Proof. intros Hr a Ha. by destruct (Hr a). Qed.
End steadfast.

Create HintDb lead discriminated.

(** One step along a call. *)
Ltac lead_step :=
  lazymatch goal with
  | |- leads _ (Ok _) => apply leads_ok; cbn [state stateful_alone stateful_last snd]; solve [reflexivity | eauto 1 with lead]
  | |- leads _ (Panic _) => by apply leads_fault
  | |- leads _ Oob => by apply leads_fault
  | |- leads _ NoFuel => by apply leads_fault
  | |- leads _ (res_bind ?m _) =>
      lazymatch type of m with
      | res (EX _) => apply leads_bind; [|intros ?]
      | res (_ * EX _) => apply leads_bind; [|intros [? ?]]
      | _ => apply leads_read; intros ?
      end; cbn beta iota; cbn [state stateful_alone stateful_last snd]
  | |- leads _ (if ?b then _ else _) => destruct b
  | |- leads ?s (let '(_, _) := svc ?f ?s in _) =>
      let E := fresh "E" in destruct (svc f s) as [? ?] eqn:E; unfold svc in E;
      let F := fresh "F" in destruct (f (Svc s)) as [? ?] eqn:F in E; injection E as <- <-;
      eapply leads_from; [apply steadfast_svc; econstructor; exact F|]
  | |- leads _ (match ?e with _ => _ end) => destruct e
  | |- leads _ _ => solve [eauto 2 with lead]
  end.

Ltac lead := repeat lead_step.

Section calls.
Context {W : Type} `{SyscallLaws W}.
Implicit Types (s : EX W) (p t kt : Z).

Lemma upd_process_leads p f s : (forall x, Staging (f x) = Staging x /\ AddressSpace (f x) = AddressSpace x) ->
  leads s (upd_process p f s).
Proof.
  intros Hf. unfold upd_process, get_process. destruct (processes s !! p) as [x|] eqn:E; [|by apply leads_fault].
  cbn [res_bind]. apply leads_ok. split; try done; [|intros t y Hy; by exists y].
  intros q x'. cbn. rewrite lookup_insert. case_decide as Hq; [|intros Hx; by exists x'].
  subst q. intros [= <-]. exists x. split; [done | apply Hf].
Qed.

Lemma upd_thread_leads t f s : (forall y, Thread (f y) = Thread y /\ Process (f y) = Process y) ->
  leads s (upd_thread t f s).
Proof.
  intros Hf. unfold upd_thread, get_thread. destruct (exthreads s !! t) as [y|] eqn:E; [|by apply leads_fault].
  cbn [res_bind]. apply leads_ok. split; try done; [intros q x Hx; by exists x|].
  intros q y'. cbn. rewrite lookup_insert. case_decide as Hq; [|intros Hy; by exists y'].
  subst q. intros [= <-]. exists y. split; [done | apply Hf].
Qed.

Lemma put_header_leads o h s : leads s (put_header o h s).
Proof. destruct o; cbn [put_header]; (apply upd_process_leads || apply upd_thread_leads); done. Qed.
#[local] Hint Resolve put_header_leads : lead.

Lemma retain_leads o ty s : leads s (ExObjectRetain o ty s).
Proof. unfold ExObjectRetain. destruct o as [o|]; lead. Qed.
#[local] Hint Resolve retain_leads : lead.

Lemma free_process_steadfast p s : steadfast s (set_Svc (kfree p (Svc s)) (set_processes (delete p (processes s)) s)).
Proof.
  split; try done; [|intros t y Hy; by exists y|].
  - intros q x. cbn. intros [_ Hx]%lookup_delete_Some. by exists x.
  - intros kt. apply light_call_law, l_free.
Qed.

Lemma free_thread_steadfast t s : steadfast s (set_Svc (kfree t (Svc s)) (set_exthreads (delete t (exthreads s)) s)).
Proof.
  split; try done; [intros q x Hx; by exists x| |].
  - intros q y. cbn. intros [_ Hy]%lookup_delete_Some. by exists y.
  - intros kt. apply light_call_law, l_free.
Qed.
#[local] Hint Resolve free_process_steadfast : lead.

Lemma release_leads_depth depth o ty s : leads s (ExObjectRelease_ depth o ty s).
Proof.
  revert o ty s. induction depth as [|depth IH]; intros o ty s; cbn [ExObjectRelease_]; [by apply leads_fault|].
  unfold KiDestroyProcessObject, KiDestroyThreadObject, KiDestroyStdoutServiceObject, ExRuntimeReleaseStdoutServiceOwner_,
    ExRuntimeReleaseProcess_.
  lead. all: try (eapply leads_from; [apply free_thread_steadfast|]; lead).
Qed.
#[local] Hint Resolve release_leads_depth : lead.

Lemma release_leads ho ty s : leads s (ExObjectRelease ho ty s).
Proof. unfold ExObjectRelease. lead. Qed.
#[local] Hint Resolve release_leads : lead.

Lemma retain_process_leads p s : leads s (ExRuntimeRetainProcess p s).
Proof. unfold ExRuntimeRetainProcess. lead. Qed.

Lemma release_process_leads p s : leads s (ExRuntimeReleaseProcess p s).
Proof. unfold ExRuntimeReleaseProcess. lead. Qed.

Lemma release_thread_leads t s : leads s (ExRuntimeReleaseThread t s).
Proof. unfold ExRuntimeReleaseThread. lead. Qed.
#[local] Hint Resolve retain_process_leads release_process_leads release_thread_leads : lead.

Lemma release_handle_leads ho s : leads s (KiReleaseHandleObject ho s).
Proof. unfold KiReleaseHandleObject. lead. Qed.
#[local] Hint Resolve release_handle_leads : lead.

Lemma resolve_leads p h ty rights s : leads s (ExHandleResolve p h ty rights s).
Proof. unfold ExHandleResolve. lead. Qed.

Lemma resolve_waitable_leads p h rights s : leads s (ExHandleResolveWaitable p h rights s).
Proof. unfold ExHandleResolveWaitable. lead. Qed.

Lemma invalidate_leads ho h s : leads s (KiInvalidateObjectSelfHandleIfMatch ho h s).
Proof.
  unfold KiInvalidateObjectSelfHandleIfMatch. lead.
  all: try apply upd_process_leads; try apply upd_thread_leads; intros x; repeat case_match; done.
Qed.

Lemma clear_slot_leads p i s : leads s (KiClearHandleSlot p i s).
Proof.
  unfold KiClearHandleSlot, get_process. destruct (processes s !! p) as [x|] eqn:E; [|by apply leads_fault].
  cbn [res_bind]. lead. apply leads_ok. split; try done; [|intros t y Hy; by exists y].
  intros q x'. cbn. rewrite lookup_insert. case_decide as Hq; [|intros Hx; by exists x'].
  subst q. intros [= <-]. by exists x.
Qed.
#[local] Hint Resolve invalidate_leads clear_slot_leads : lead.

Lemma close_body_leads p h s : leads s (close_body p h s).
Proof. unfold close_body. lead. Qed.
#[local] Hint Resolve close_body_leads : lead.

Lemma close_leads p h s : leads s (ExHandleClose p h s).
Proof. unfold ExHandleClose. lead. Qed.

Lemma retain_child_leads parent pid s : leads s (ExRuntimeRetainChildProcess parent pid s).
Proof. unfold ExRuntimeRetainChildProcess. lead. Qed.
#[local] Hint Resolve retain_child_leads : lead.

Lemma request_kill_leads p s : leads s (ExRuntimeRequestProcessKill p s).
Proof. unfold ExRuntimeRequestProcessKill. lead. by apply upd_process_leads. Qed.
#[local] Hint Resolve request_kill_leads : lead.

Lemma wait_begin_leads kt pid s : leads s (ExWaitProcess_begin kt pid s).
Proof. unfold ExWaitProcess_begin. lead. Qed.
#[local] Hint Resolve wait_begin_leads : lead.

Lemma kill_begin_leads kt pid s : leads s (ExKillProcess_begin kt pid s).
Proof. unfold ExKillProcess_begin. lead. Qed.

Lemma restore_foreground_leads p s : leads s (KiRestoreForegroundOwner p s).
Proof.
  unfold KiRestoreForegroundOwner. lead. unfold svc.
  destruct (KeInputSetForegroundOwnerThreadId _ (Svc s)) as [r w] eqn:E. apply leads_ok, steadfast_svc. by eapply l_focus.
Qed.
#[local] Hint Resolve restore_foreground_leads : lead.

Lemma process_table_steadfast table s : steadfast s (set_gExRuntimeProcessTable table s).
Proof. split; try done; [intros p x Hx; by exists x | intros t y Hy; by exists y]. Qed.

Lemma consume_leads p s : leads s (ExRuntimeConsumeCompletedProcess p s).
Proof.
  unfold ExRuntimeConsumeCompletedProcess. lead.
  eapply leads_from; [apply process_table_steadfast|]. lead. by apply upd_process_leads.
Qed.
#[local] Hint Resolve consume_leads : lead.

Lemma wait_end_leads p status s : leads s (ExWaitProcess_end p status s).
Proof. unfold ExWaitProcess_end. lead. Qed.

Lemma mark_terminating_leads p reason code s : leads s (ExRuntimeMarkProcessTerminating p reason code s).
Proof.
  unfold ExRuntimeMarkProcessTerminating. lead. apply upd_process_leads. intros x. by case_match.
Qed.
#[local] Hint Resolve mark_terminating_leads : lead.

Lemma mark_current_leads kt reason code s : leads s (ExRuntimeMarkCurrentProcessTerminating kt reason code s).
Proof. unfold ExRuntimeMarkCurrentProcessTerminating. lead. Qed.
End calls.

#[export] Hint Resolve put_header_leads retain_leads release_leads retain_process_leads release_process_leads
  release_thread_leads release_handle_leads resolve_leads resolve_waitable_leads close_leads wait_begin_leads
  kill_begin_leads wait_end_leads mark_current_leads : lead.
