(* ===== verification/SyscallSafe.v ===== *)
(** * System calls of a user thread are safe

    A thread is [leavable] while its process still has its staging and its
    address space and its layout is the process's own: then the exit path
    succeeds.  Every system call of such a thread goes well: it returns, or it
    blocks holding the object whose completion it waits for and goes well when
    it is resumed, whatever the wait answered and whatever the executive did
    meanwhile. *)

From S2P Require Import Prelude Ex ExInv ExRefs ExHandles ExLife ExCalls ExControl ExSpec ExRun Program Syscall SyscallInv.

Local Open Scope Z_scope.

Import Program Syscall.

Section safety.
Context {W : Type} `{SyscallLaws W}.
Implicit Types (s : EX W) (p t kt : Z) (x : EX_PROCESS) (y : EX_THREAD) (own : gset Z)
  (held : EX_OBJECT -> Z).

(** ** Threads that can leave *)

Record leavable_by kt s (e : TABLE_ENTRY) y x : Prop := {
  lv_entry : e ∈ gExRuntimeThreadTable s;
  lv_active : Active e = true;
  lv_thread : exthreads s !! Entry e = Some y;
  lv_kernel : Thread y = kt;
  lv_process : processes s !! Process y = Some x;
  lv_staging : Staging x <> 0;
  lv_space : PsInitialized (AddressSpace x) = true;
  lv_root : PsRootPageTablePhys (AddressSpace x) <> 0;
  lv_layout : KeUserModeQueryCurrentThreadLayout kt (Svc s) = (EC_SUCCESS, PsRootPageTablePhys (AddressSpace x))
}.
Definition leavable kt s : Prop := exists e y x, leavable_by kt s e y x.

Lemma leavable_steadfast kt s s' own held : ex_inv s' own held -> steadfast s s' -> leavable kt s -> leavable kt s'.
Proof.
  intros I [P T B L] (e & y & x & [He Ha Hy Hk Hx Hs Hi Hr Hl]).
  pose proof (ei_ttab _ _ _ I) as F. rewrite Forall_forall in F. rewrite B in F.
  destruct (F e He Ha) as (_ & y' & Hy' & _ & Hnz & _).
  destruct (T _ _ Hy') as (y0 & Hy0 & Et & Ep). rewrite Hy in Hy0. injection Hy0 as <-.
  destruct (tk_proc _ _ _ _ _ (ei_threads _ _ _ I _ _ Hy')) as [Hz|[x' Hx']]; [by rewrite Hz in Hnz|].
  destruct (P _ _ Hx') as (x0 & Hx0 & Es & Ea). rewrite Ep, Hx in Hx0. injection Hx0 as <-.
  exists e, y', x'. split; rewrite ?B, ?Es, ?Ea, ?L; try done; congruence.
Qed.

Lemma leavable_lookup kt s own held : ex_inv s own held -> leavable kt s ->
  kt <> 0 /\ exists t y x, ExRuntimeLookupThreadByKernelThread kt s = Ok t /\ t <> 0 /\ get_thread t s = Ok y /\ Thread y = kt /\
    Process y <> 0 /\ get_process (Process y) s = Ok x /\ Staging x <> 0 /\ PsInitialized (AddressSpace x) = true /\
    PsRootPageTablePhys (AddressSpace x) <> 0 /\
    KeUserModeQueryCurrentThreadLayout kt (Svc s) = (EC_SUCCESS, PsRootPageTablePhys (AddressSpace x)).
Proof.
  intros I (e & y & x & [He Ha Hy Hk Hx Hs Hi Hr Hl]).
  apply list_elem_of_lookup in He as [i He].
  destruct (published_at s own held i e y I He Ha Hy) as (_ & _ & _ & _ & Hnz & _ & Htnz & Hpnz & _).
  split; [congruence|]. unfold ExRuntimeLookupThreadByKernelThread.
  destruct (find_by_kernel_thread s own held kt I) as (j & -> & [(Hj & _ & f & z & Hp & Hz)|(Hj & Hno)]); cbn [res_bind]; rewrite Hj.
  - destruct Hp as (Hf & Haf & _ & Hyz & _).
    assert (i = j) as <-. { apply (ei_distinct _ _ _ I i j e f y z); try done. congruence. }
    rewrite He in Hf. injection Hf as <-. rewrite (proj2 (rd_ok _ _ e)) by (split; [lia | by rewrite Nat2Z.id]).
    cbn [res_bind]. exists (Entry e), y, x. repeat split; try done; [by apply get_thread_ok | by apply get_process_ok].
  - exfalso. apply (Hno ltac:(congruence) e y); try done. by eapply list_elem_of_lookup_2.
Qed.

Lemma leavable_process kt s own held : ex_inv s own held -> leavable kt s ->
  exists p x, ExRuntimeLookupProcessByKernelThread kt s = Ok p /\ p <> 0 /\ get_process p s = Ok x /\ Staging x <> 0.
Proof.
  intros I L. destruct (leavable_lookup kt s own held I L) as (_ & t & y & x & Et & Ht & Ey & _ & Hp & Ex & Hs & _).
  exists (Process y), x. unfold ExRuntimeLookupProcessByKernelThread. rewrite Et. cbn [res_bind].
  rewrite (proj2 (Z.eqb_neq t 0) Ht), Ey. by cbn [res_bind].
Qed.

Lemma validate_handoff kt s own held : ex_inv s own held -> leavable kt s ->
  exists p, KiValidateUserRuntimeTerminationHandoff kt s = Ok (EC_SUCCESS, p) /\ p <> 0 /\
    ExRuntimeLookupProcessByKernelThread kt s = Ok p /\ is_Some (processes s !! p).
Proof.
  intros I L. destruct (leavable_lookup kt s own held I L) as (Hkt & t & y & x & Et & Ht & Ey & Ek & Hp & Ex & Hs & Hi & Hr & Hl).
  exists (Process y). unfold KiValidateUserRuntimeTerminationHandoff. rewrite (proj2 (Z.eqb_neq kt 0) Hkt), Et. cbn [res_bind].
  rewrite (proj2 (Z.eqb_neq t 0) Ht), Ey. cbn [res_bind]. rewrite Ek, Z.eqb_refl, (proj2 (Z.eqb_neq _ 0) Hp), Ex. cbn [res_bind negb].
  rewrite (proj2 (Z.eqb_neq _ 0) Hs), Hi, (proj2 (Z.eqb_neq _ 0) Hr), Hl. cbn [orb negb].
  rewrite (proj2 (Z.eqb_neq _ 0) Hr), Z.eqb_refl. split; [done|]. split; [done|]. split; [|exists x; by apply get_process_ok].
  unfold ExRuntimeLookupProcessByKernelThread. rewrite Et. cbn [res_bind]. by rewrite (proj2 (Z.eqb_neq t 0) Ht), Ey.
Qed.

(** ** States between the steps of a call *)

Definition settled kt held s : Prop :=
  exists own, ex_inv s own held /\ capped (2 ^ 32 - 8) s /\ leavable kt s.

(** Where a call begins, or begins again. *)
Definition entered kt held s : Prop := (exists own, ex_inv s own held) /\ roomy s /\ leavable kt s.

Lemma entered_capped kt held s : entered kt held s ->
  exists own, ex_inv s own held /\ capped (2 ^ 32 - 16) s /\ leavable kt s.
Proof. intros ((own & I) & R & L). exists own. split; [done|]. split; [by apply roomy_capped | done]. Qed.

Lemma entered_settled kt held s : entered kt held s -> settled kt held s.
Proof.
  intros (own & I & C & L)%entered_capped. exists own. split; [done|]. split; [eapply capped_weaken; [|exact C]; lia | done].
Qed.

Lemma settled_leads {A} `{Stateful W A} kt s (r : res A) a s' own held n : leads s r -> r = Ok a -> state a = s' ->
  leavable kt s -> ex_inv s' own held -> capped n s' -> n <= 2 ^ 32 - 8 -> settled kt held s'.
Proof.
  intros D E <- L I C Hn. exists own. split; [done|]. split; [by eapply capped_weaken|].
  eapply leavable_steadfast; [done | by apply D | done].
Qed.

Lemma settled_user kt held s w : settled kt held s -> user_call (Svc s) w -> light_call (Svc s) w -> settled kt held (set_Svc w s).
Proof.
  intros (own & I & C & L) U Q. pose proof (inv_svc s own held w I (user_call_law _ _ U)) as I'.
  exists own. split; [done|]. split; [exact C|]. eapply leavable_steadfast; [done | by apply steadfast_svc | done].
Qed.

Lemma settled_quiet kt held s w : settled kt held s -> quiet_call (Svc s) w -> light_call (Svc s) w -> settled kt held (set_Svc w s).
Proof.
  intros (own & I & C & L) U Q. pose proof (inv_svc s own held w I (quiet_law _ _ U)) as I'.
  exists own. split; [done|]. split; [exact C|]. eapply leavable_steadfast; [done | by apply steadfast_svc | done].
Qed.

Lemma hold_zero kt held s : settled kt held s -> forall o, 0 <= held o.
Proof. intros (own & I & _). apply (ei_nonneg _ _ _ I). Qed.

(** ** Calls that go well *)

(** The object a blocked call holds: the one whose completion it waits for. *)
Definition wait_ref (on : WAIT) : option EX_OBJECT :=
  match on with
  | WaitForCompletion (ProcessCompletion p) _ => Some (ObjProcess p)
  | WaitForCompletion (ThreadCompletion t) _ => Some (ObjThread t)
  | _ => None
  end.

(** [Q] holds of the result and the state it is reached in. *)
Fixpoint safe {A} (Q : A -> EX W -> Prop) kt held (o : outcome W A) : Prop :=
  match o with
  | Finished a s => settled kt held s /\ Q a s
  | Blocked on resume s =>
      settled kt (hold_resolved (wait_ref on) held) s /\
      forall answer held' s', (forall o, 0 <= held' o) -> entered kt (hold_resolved (wait_ref on) held') s' ->
        match resume answer s' with Ok o => safe Q kt held' o | _ => False end
  end.

Definition goes_well {A} (Q : A -> EX W -> Prop) kt held (r : res (outcome W A)) : Prop :=
  exists o, r = Ok o /\ safe Q kt held o.
Definition any {A} (_ : A) (_ : EX W) : Prop := True.

Lemma well_finished {A} Q kt held (a : A) s : settled kt held s -> Q a s -> goes_well Q kt held (Ok (Finished a s)).
Proof. intros S HQ. by exists (Finished a s). Qed.

Lemma safe_after {A B} (Q : A -> EX W -> Prop) (R : B -> EX W -> Prop) kt (f : A -> EX W -> res (outcome W B)) :
  (forall a s held, settled kt held s -> Q a s -> goes_well R kt held (f a s)) ->
  forall (o : outcome W A) held, safe Q kt held o -> goes_well R kt held (after o f).
Proof.
  intros Hf. fix IH 1. intros o held Ho. destruct o as [a s|on resume s]; cbn in *; [by apply Hf; apply Ho|].
  eexists. split; [done|]. cbn. destruct Ho as [S Hr]. split; [exact S|].
  intros answer held' s' Hnn S'. specialize (Hr answer held' s' Hnn S').
  destruct (resume answer s') as [o'| | |]; [|done..]. cbn.
  specialize (IH o' held' Hr). destruct (after o' f) as [o2| | |]; destruct IH as (o3 & E & S3); try done.
  by injection E as <-.
Qed.

Lemma well_after {A B} (Q : A -> EX W -> Prop) (R : B -> EX W -> Prop) kt held (r : res (outcome W A))
    (f : A -> EX W -> res (outcome W B)) : goes_well Q kt held r ->
  (forall a s held, settled kt held s -> Q a s -> goes_well R kt held (f a s)) -> goes_well R kt held (let* o := r in after o f).
Proof. intros (o & -> & So) Hf. cbn. by eapply safe_after. Qed.

Lemma well_done {A} Q kt held (r : res (A * EX W)) : (exists a s, r = Ok (a, s) /\ settled kt held s /\ Q a s) ->
  goes_well Q kt held (done_at r).
Proof. intros (a & s & -> & S & HQ). cbn. by apply well_finished. Qed.

Lemma well_done_any {A} kt held (r : res (A * EX W)) : (exists a s, r = Ok (a, s) /\ settled kt held s) ->
  goes_well any kt held (done_at r).
Proof. intros (a & s & -> & S). cbn. by apply well_finished. Qed.

(** Blocking on [on] while holding its object. *)
Lemma well_blocked {A} Q kt held on (resume : ANSWER -> EX W -> res (outcome W A)) s :
  settled kt (hold_resolved (wait_ref on) held) s ->
  (forall answer held' s', (forall o, 0 <= held' o) -> entered kt (hold_resolved (wait_ref on) held') s' ->
     goes_well Q kt held' (resume answer s')) ->
  goes_well Q kt held (Ok (Blocked on resume s)).
Proof.
  intros S R. eexists. split; [done|]. cbn. split; [exact S|]. intros answer held' s' Hnn S'.
  destruct (R answer held' s' Hnn S') as (o & -> & So). exact So.
Qed.

(** ** Leaving *)

(** The process of the calling thread. *)
Definition current_satisfies (P : EX_PROCESS -> Prop) kt s : Prop :=
  exists p x, ExRuntimeLookupProcessByKernelThread kt s = Ok p /\ processes s !! p = Some x /\ P x.
Definition marked kt s : Prop := current_satisfies (fun x => TerminationReason x <> EX_PROCESS_TERMINATION_REASON_NONE) kt s.
Definition unkilled kt s : Prop := current_satisfies (fun x => KillRequested x = false) kt s.

Lemma mark_current_exact kt s p x reason code : kt <> 0 -> reason <> EX_PROCESS_TERMINATION_REASON_NONE ->
  ExRuntimeLookupProcessByKernelThread kt s = Ok p -> p <> 0 -> get_process p s = Ok x ->
  exists s', ExRuntimeMarkCurrentProcessTerminating kt reason code s = Ok (EC_SUCCESS, s') /\ marked kt s'.
Proof.
  intros Hkt Hreason Ep Hp Ex.
  unfold ExRuntimeMarkCurrentProcessTerminating, ExRuntimeMarkProcessTerminating, upd_process.
  rewrite (proj2 (Z.eqb_neq kt 0) Hkt), Ep, (bool_decide_false _ Hreason). cbn [res_bind orb].
  rewrite (proj2 (Z.eqb_neq p 0) Hp), Ex. cbn [res_bind orb]. eexists. split; [reflexivity|].
  exists p. eexists. split; [exact Ep|]. cbn. split; [apply lookup_insert_eq|]. case_bool_decide; [done | done].
Qed.

Lemma prepare_exit_well kt held s reason code : settled kt held s -> reason <> EX_PROCESS_TERMINATION_REASON_NONE ->
  exists s', prepare_exit kt reason code s = Ok (KiSetExitResult, s') /\ settled kt held s' /\ marked kt s'.
Proof.
  intros (own & I & C & L) Hreason. destruct (leavable_lookup kt s own held I L) as (Hkt & _).
  destruct (leavable_process kt s own held I L) as (p & x & Ep & Hp & Ex & Hs).
  unfold prepare_exit, ExUserRuntimeQueryThreadStaging. rewrite (proj2 (Z.eqb_neq kt 0) Hkt), Ep. cbn [res_bind].
  rewrite (proj2 (Z.eqb_neq p 0) Hp), Ex. cbn [res_bind]. rewrite (proj2 (Z.eqb_neq _ 0) Hs).
  destruct (mark_current_exact kt s p x reason code Hkt Hreason Ep Hp Ex) as (s' & E & Hm).
  destruct (mark_current_run s own held _ kt reason code I C) as (st & s1 & E1 & (I' & C' & _) & _).
  rewrite E in E1. injection E1 as <- <-.
  pose proof (leavable_steadfast kt s s' own held I' (mark_current_leads kt reason code s _ E) L) as L'.
  rewrite E. cbn [res_bind]. unfold ok. rewrite bool_decide_true by done. cbn [negb].
  destruct (validate_handoff kt s' own held I' L') as (q & Eq & _).
  unfold ExUserRuntimeHandleExit. rewrite Eq. cbn [res_bind]. rewrite bool_decide_true by done. cbn [negb].
  eexists. split; [done|]. split; [by exists own | exact Hm].
Qed.

Lemma fault_hook_well kt held s vector : settled kt held s ->
  exists s', ExUserRuntimeFaultHook kt (Some vector) s = Ok s' /\ settled kt held s' /\ marked kt s'.
Proof.
  intros (own & I & C & L). destruct (leavable_lookup kt s own held I L) as (Hkt & _).
  destruct (validate_handoff kt s own held I L) as (p & Ev & Hp & Ep & x & Hx). apply get_process_ok in Hx as Ex.
  unfold ExUserRuntimeFaultHook. rewrite (proj2 (Z.eqb_neq kt 0) Hkt), Ev. cbn [res_bind].
  destruct (mark_current_exact kt s p x EX_PROCESS_TERMINATION_REASON_FAULT vector Hkt ltac:(done) Ep Hp Ex) as (s' & E & Hm).
  destruct (mark_current_run s own held _ kt EX_PROCESS_TERMINATION_REASON_FAULT vector I C) as (st & s1 & E1 & (I' & C' & _) & _).
  rewrite E in E1. injection E1 as <- <-. pose proof (leavable_steadfast kt s s' own held I' (mark_current_leads kt _ _ s _ E) L) as L'.
  unfold ExRuntimeMarkCurrentProcessTerminating in E. rewrite (proj2 (Z.eqb_neq kt 0) Hkt), Ep in E.
  cbn [orb res_bind] in E. rewrite bool_decide_false, (proj2 (Z.eqb_neq p 0) Hp) in E by done.
  unfold ok at 1. rewrite bool_decide_true by done. cbn [negb]. rewrite E. cbn [res_bind]. unfold ok at 1.
  rewrite bool_decide_true by done. cbn [negb].
  destruct (validate_handoff kt s' own held I' L') as (q & Eq & _).
  unfold ExUserRuntimeHandleExit. rewrite Eq. cbn [res_bind]. unfold ok. rewrite bool_decide_true by done. cbn [negb].
  eexists. split; [done|]. split; [by exists own | exact Hm].
Qed.

(** How a call leaves the kernel. *)
Definition leaves kt (result : EX_SYSCALL_DISPATCH_RESULT) s : Prop :=
  match Disposition result with
  | EX_SYSCALL_DISPOSITION_RETURN_TO_USER => unkilled kt s
  | EX_SYSCALL_DISPOSITION_EXIT_CURRENT_THREAD => marked kt s
  end.

Lemma observe_kill_well kt held s result : settled kt held s -> Disposition result = EX_SYSCALL_DISPOSITION_RETURN_TO_USER ->
  goes_well (leaves kt) kt held (done_at (KiObserveKillRequest kt result s)).
Proof.
  intros S Hd. pose proof S as (own & I & C & L). destruct (leavable_lookup kt s own held I L) as (Hkt & _).
  destruct (leavable_process kt s own held I L) as (p & x & Ep & Hp & Ex & Hs).
  apply well_done. unfold KiObserveKillRequest, ExRuntimeShouldTerminateCurrentProcess.
  rewrite (proj2 (Z.eqb_neq kt 0) Hkt), Ep. cbn [res_bind]. rewrite (proj2 (Z.eqb_neq p 0) Hp), Ex. cbn [res_bind].
  destruct (KillRequested x) eqn:Hk.
  - destruct (prepare_exit_well kt held s EX_PROCESS_TERMINATION_REASON_KILL 0 S) as (s' & E & S' & M); [done|].
    by exists KiSetExitResult, s'.
  - exists result, s. split; [done|]. split; [done|]. unfold leaves. rewrite Hd. exists p, x. split; [done|].
    split; [by apply get_process_ok | done].
Qed.

(** ** Capability calls *)

Lemma release_resolved_well kt held s ob : settled kt (move ob 1 held) s -> (forall o, 0 <= held o) ->
  exists st s', ExHandleReleaseResolvedObject (Some ob) s = Ok (st, s') /\ settled kt held s'.
Proof.
  intros (own & I & C & L) Hnn. unfold ExHandleReleaseResolvedObject.
  destruct (release_handle_object s own _ _ ob I C) as (st & s' & E & I' & C' & _).
  { rewrite move_here. specialize (Hnn ob). lia. }
  exists st, s'. split; [exact E|]. eapply settled_leads; [apply (release_handle_leads (Some ob) s) | exact E | done | exact L | | exact C' | lia].
  eapply inv_ext_eq; [|exact I']. intros o. symmetry. apply (move_cancel ob 1).
Qed.

(** A handle resolves to an object that the call then holds, or to nothing. *)
Lemma resolved_well kt held s n wanted out : settled kt held s -> n + 1 <= 2 ^ 32 - 8 -> leads s out ->
  (forall own, ex_inv s own held -> resolve_result own held n s wanted out) ->
  exists st r s', out = Ok (st, r, s') /\
    ((st = EC_SUCCESS /\ exists ob, r = Some ob /\ wanted ob /\ settled kt (move ob 1 held) s') \/
     (st <> EC_SUCCESS /\ settled kt held s')).
Proof.
  intros S Hn D R. pose proof S as (own & I & C & L). destruct (R own I) as (st & r & s' & E & Hr & Hcase).
  exists st, r, s'. split; [exact E|]. destruct Hcase as [(-> & ob & -> & Hw)|(Hst & ->)]; [left | right].
  - destruct Hr as (I' & C' & _). split; [done|]. exists ob. split; [done|]. split; [done|].
    by eapply (settled_leads kt s _ _ s').
  - cbn in Hr. subst s'. done.
Qed.

Lemma write_well kt held s p h buffer len : entered kt held s -> (p <> 0 -> is_Some (processes s !! p)) ->
  (forall o, 0 <= held o) ->
  exists v s', KiHandleCapabilityWrite kt p h buffer len s = Ok (v, s') /\ settled kt held s'.
Proof.
  intros S Hp Hnn. pose proof (entered_settled kt held s S) as S0. unfold KiHandleCapabilityWrite.
  destruct (Z.eqb_spec p 0); [by do 2 eexists|]. destruct (_ <? len); [by do 2 eexists|].
  destruct (resolved_well kt held s (2 ^ 32 - 16) (fun o => EX_OBJECT_TYPE_CONSOLE = type_of o) _ S0 ltac:(lia)
    (resolve_leads p h EX_OBJECT_TYPE_CONSOLE EX_HANDLE_RIGHT_WRITE s)) as (st & r & s1 & -> & R).
  { intros own I. apply resolve_handle_run; [exact I | by apply roomy_capped, S | lia | exact Hp]. }
  cbn [res_bind]. unfold ok. destruct R as [(-> & ob & -> & _ & S1)|(Hst & S1)].
  2: { rewrite bool_decide_false by done. by do 2 eexists. }
  rewrite bool_decide_true by done. cbn [negb].
  assert (exists st n s2, (if len =? 0 then (EC_SUCCESS, 0, s1) else
    let '(status, scratch) := KeUserModeCopyInBytes kt buffer len (Svc s1) in
    if bool_decide (status = EC_SUCCESS) then svc (KeUserModeWriteConsoleBytes scratch) s1 else (status, 0, s1)) = (st, n, s2) /\
    settled kt (move ob 1 held) s2) as (st & n1 & s2 & -> & S2).
  { destruct (len =? 0); [by do 3 eexists|]. destruct (KeUserModeCopyInBytes kt buffer len (Svc s1)) as [st scratch].
    destruct (bool_decide _); [|by do 3 eexists]. unfold svc.
    destruct (KeUserModeWriteConsoleBytes scratch (Svc s1)) as [[st2 n2] w] eqn:E.
    do 3 eexists. split; [done|]. apply settled_user; [done | by eapply u_write | by eapply l_write]. }
  destruct (release_resolved_well kt held s2 ob S2 Hnn) as (st2 & s3 & -> & S3). cbn [res_bind].
  destruct (negb _); by do 2 eexists.
Qed.

Lemma close_well kt held s p h : entered kt held s -> (p <> 0 -> is_Some (processes s !! p)) ->
  exists v s', KiHandleCapabilityClose p h s = Ok (v, s') /\ settled kt held s'.
Proof.
  intros S Hp. pose proof (entered_settled kt held s S) as S0. unfold KiHandleCapabilityClose.
  destruct (Z.eqb_spec p 0); [by do 2 eexists|]. destruct (h =? _); [by do 2 eexists|].
  destruct (entered_capped kt held s S) as (own & I & C & L).
  destruct (close_run s own held _ p h I C ltac:(lia) Hp) as (st & h' & s1 & E & (I1 & C1 & _) & _).
  assert (settled kt held s1) as S1.
  { eapply settled_leads; [apply (close_leads p h s) | exact E | done | exact L | exact I1 | exact C1 | lia]. }
  rewrite E. cbn [res_bind]. destruct (negb _); by do 2 eexists.
Qed.

Lemma wait_one_end_well kt held s ob status : settled kt (move ob 1 held) s -> (forall o, 0 <= held o) ->
  exists v s', wait_one_end ob status s = Ok (v, s') /\ settled kt held s'.
Proof.
  intros S Hnn. unfold wait_one_end. destruct (release_resolved_well kt held s ob S Hnn) as (st & s1 & -> & S1).
  cbn [res_bind]. destruct (negb _); by do 2 eexists.
Qed.

Lemma wait_one_well kt held s p h timeout reserved : entered kt held s -> (p <> 0 -> is_Some (processes s !! p)) ->
  (forall o, 0 <= held o) -> goes_well any kt held (KiHandleCapabilityWaitOne p h timeout reserved s).
Proof.
  intros S Hp Hnn. pose proof (entered_settled kt held s S) as S0. unfold KiHandleCapabilityWaitOne.
  destruct (Z.eqb_spec p 0); [by apply well_finished|]. destruct (h =? _); [by apply well_finished|].
  destruct (KiDecodeCapabilityWaitTimeoutNs timeout reserved) as [st0 ns]. destruct (negb _); [by apply well_finished|].
  destruct (resolved_well kt held s (2 ^ 32 - 16) (fun o => KiObjectTypeIsWaitable (type_of o) = true) _ S0 ltac:(lia)
    (resolve_waitable_leads p h EX_HANDLE_RIGHT_WAIT s)) as (st & r & s1 & -> & R).
  { intros own I. apply resolve_waitable_run; [exact I | by apply roomy_capped, S | lia | exact Hp]. }
  cbn [res_bind]. unfold ok. destruct R as [(-> & ob & -> & Hw & S1)|(Hst & S1)].
  2: { rewrite bool_decide_false by done. by apply well_finished. }
  rewrite bool_decide_true by done. cbn [negb]. pose proof S1 as (own & I & _).
  destruct (alive_header s1 ob) as (hd & Ehd). { apply (ei_ext _ _ _ I). rewrite move_here. specialize (Hnn ob). lia. }
  rewrite Ehd. cbn [res_bind]. rewrite (header_type s1 own _ ob hd I Ehd).
  destruct ob as [q|t|q]; cbn [type_of].
  3: done.
  all: apply well_blocked; [exact S1|]; intros answer held' s' Hnn' S';
    apply well_done_any, wait_one_end_well; [by apply entered_settled | exact Hnn'].
Qed.

Lemma current_process kt held s : entered kt held s ->
  exists p x, ExRuntimeLookupProcessByKernelThread kt s = Ok p /\ p <> 0 /\ kt <> 0 /\ get_process p s = Ok x /\ Staging x <> 0.
Proof.
  intros ((own & I) & _ & L). destruct (leavable_process kt s own held I L) as (p & x & Ep & Hp & Ex & Hs).
  destruct (leavable_lookup kt s own held I L) as (Hkt & _). by exists p, x.
Qed.

Lemma capability_well kt held s number arg0 arg1 arg2 : entered kt held s -> (forall o, 0 <= held o) ->
  goes_well any kt held (KiDispatchCapabilitySyscall kt number arg0 arg1 arg2 s).
Proof.
  intros S Hnn. pose proof (entered_settled kt held s S) as S0. unfold KiDispatchCapabilitySyscall.
  destruct (current_process kt held s S) as (p & x & -> & Hp & Hkt & Ex & Hs). cbn [res_bind].
  rewrite (proj2 (Z.eqb_neq p 0) Hp), Ex. cbn [res_bind]. rewrite (proj2 (Z.eqb_neq kt 0) Hkt), (proj2 (Z.eqb_neq _ 0) Hs).
  cbn [orb]. assert (Hlive : p <> 0 -> is_Some (processes s !! p)) by (intros _; exists x; by apply get_process_ok).
  destruct (number =? _); [by apply well_done_any, write_well|].
  destruct (number =? _); [by apply well_done_any, close_well|].
  destruct (number =? _); [by apply wait_one_well|].
  destruct (number =? _); [|by apply well_finished].
  destruct (ExRuntimeHandleQuerySysinfo p arg0 arg1 arg2 s) as [v w] eqn:E.
  apply well_finished; [|done]. apply settled_user; [done | by eapply u_sysinfo | by eapply l_sysinfo].
Qed.

(** ** Input, processes and sleep *)

Lemma read_line_well kt held s buffer capacity : settled kt held s ->
  settled kt held (snd (read_line kt buffer capacity s)).
Proof.
  intros S. unfold read_line. destruct (KeInputCopyCompletedLineForCurrentThread _ _ _) as [st scratch].
  destruct (negb _); [done|]. unfold svc.
  destruct (KeUserModeCopyOutBytes kt buffer scratch (Svc s)) as [st1 w1] eqn:E1.
  assert (S1 : settled kt held (set_Svc w1 s)) by (apply settled_user; [done | by eapply u_copy_out | by eapply l_copy_out]).
  destruct (negb _); [exact S1|].
  destruct (KeInputConsumeCompletedLineForCurrentThread kt (Svc (set_Svc w1 s))) as [st2 w2] eqn:E2.
  assert (S2 : settled kt held (set_Svc w2 (set_Svc w1 s))) by (apply settled_user; [done | by eapply u_consume | by eapply l_consume]).
  by destruct (negb _).
Qed.

Lemma read_well kt held s buffer capacity reserved : entered kt held s ->
  goes_well any kt held (Ok (KiHandleReadLine kt buffer capacity reserved s)).
Proof.
  intros S%entered_settled. unfold KiHandleReadLine. destruct (_ || _); [by apply well_finished|].
  apply well_blocked; [done|]. intros answer held' s' _ S'%entered_settled. cbn [hold_resolved wait_ref] in S'.
  destruct (negb _); [by apply well_finished|]. pose proof (read_line_well kt held' s' buffer capacity S') as R.
  destruct (read_line kt buffer capacity s') as [v s2]. by apply well_finished.
Qed.

Lemma sleep_well kt held s ms reserved0 reserved1 : entered kt held s ->
  goes_well any kt held (Ok (KiHandleSleepMs (W := W) ms reserved0 reserved1 s)).
Proof.
  intros S%entered_settled. unfold KiHandleSleepMs. destruct (_ || _); [by apply well_finished|].
  apply well_blocked; [done|]. intros answer held' s' _ S'%entered_settled. by apply well_finished.
Qed.

(** The wait for a child, from its beginning to its end. *)
Lemma wait_process_well kt held s begun : entered kt held s -> leads s begun ->
  (forall own, ex_inv s own held -> capped (2 ^ 32 - 16) s -> child_held own held (2 ^ 32 - 16 + 1) begun) ->
  goes_well any kt held (wait_process begun).
Proof.
  intros S D R. destruct (entered_capped kt held s S) as (own & I & C & L).
  destruct (R own I C) as (st & p & s1 & E & C1 & Hcase). rewrite E. unfold wait_process. cbn [res_bind]. unfold ok.
  destruct Hcase as [(-> & Hp & I1)|(Hst & -> & I1)].
  2: { rewrite bool_decide_false by done. apply well_finished; [|done].
       eapply settled_leads; [exact D | exact E | done | exact L | exact I1 | exact C1 | lia]. }
  rewrite bool_decide_true by done. cbn [negb].
  apply well_blocked; [eapply settled_leads; [exact D | exact E | done | exact L | exact I1 | exact C1 | lia]|].
  intros answer held' s' Hnn S'. cbn [hold_resolved wait_ref] in S'.
  destruct (entered_capped _ _ _ S') as (own' & I' & C' & L').
  destruct (wait_end_run s' own' _ _ p (Status answer) I' C') as (st & s2 & E2 & I2 & C2).
  { rewrite move_here. specialize (Hnn (ObjProcess p)). lia. }
  apply well_done_any. exists st, s2. split; [exact E2|].
  eapply settled_leads; [apply (wait_end_leads p (Status answer) s') | exact E2 | done | exact L' | | exact C2 | lia].
  eapply inv_ext_eq; [|exact I2]. intros ob. symmetry. apply (move_cancel (ObjProcess p) 1).
Qed.

Lemma pid_call_well kt held s begin pid reserved0 reserved1 : entered kt held s ->
  (forall pid, leads s (begin kt pid s)) ->
  (forall own pid, ex_inv s own held -> capped (2 ^ 32 - 16) s -> child_held own held (2 ^ 32 - 16 + 1) (begin kt pid s)) ->
  goes_well any kt held (pid_call begin kt pid reserved0 reserved1 s).
Proof.
  intros S D R. unfold pid_call. destruct (_ || _); [apply well_finished; [by apply entered_settled | done]|].
  apply (well_after any); [apply (wait_process_well kt held s); [exact S | apply D | intros own; apply R]|].
  intros status s' held' S' _. by apply well_finished.
Qed.

(** ** Spawning *)

(** The thread runs user code: it is not an idle thread. *)
Definition user_thread kt s : Prop := exists v, kernel_thread kt (Svc s) = Some v /\ vIdle v = false.

Lemma caller_pid kt s own held : ex_inv s own held -> exists st pid, KiResolveCallerParentProcessId kt s = Ok (st, pid).
Proof.
  intros I. unfold KiResolveCallerParentProcessId. destruct (kt =? 0); [by do 2 eexists|].
  destruct (current_run s own held kt I) as (p & -> & Hp). cbn [res_bind].
  destruct (Z.eqb_spec p 0); [by do 2 eexists|]. by apply (query_pid_run s own held).
Qed.

Section programs.
Variable g : PROGRAMS.
Variable bytes_at : Z -> Z -> list Z.
Variables worker entry : Z.

Lemma spawn_image_well kt held s image flags : entered kt held s -> user_thread kt s ->
  goes_well any kt held (ExSpawnProgramImage g bytes_at worker entry kt image flags s).
Proof.
  intros S (v & Hv & Hidle). pose proof (entered_settled kt held s S) as S0. pose proof S as ((own & I) & _).
  unfold ExSpawnProgramImage. destruct (kt =? 0); [by apply well_finished|]. destruct (negb _); [by apply well_finished|].
  destruct image as [image|]; [|by apply well_finished].
  destruct (caller_pid kt s own held I) as (st & pid & ->). cbn [res_bind]. destruct (negb _); [by apply well_finished|].
  unfold get_kthread. rewrite Hv. cbn [res_bind]. rewrite Hidle. unfold svc.
  destruct (KeThreadCreate true worker 0 (Svc s)) as [[st1 wt] w1] eqn:E1.
  assert (S1 : settled kt held (set_Svc w1 s)) by (apply settled_quiet; [done | by eapply q_thread_create | by eapply l_create]).
  destruct (negb _); [by apply well_finished|].
  destruct (KeThreadStart wt (Svc (set_Svc w1 s))) as [st2 w2] eqn:E2.
  assert (S2 : settled kt held (set_Svc w2 (set_Svc w1 s))) by (apply settled_quiet; [done | by eapply q_thread_start | by eapply l_start]).
  destruct (negb _); [by apply well_finished|].
  apply well_blocked; [exact S2|]. intros answer held' s' _ S'%entered_settled.
  do 2 (destruct (negb _); [by apply well_finished|]). by apply well_finished.
Qed.

Lemma lookup_name_run bytes n : Forall named (gExBuiltinPrograms g) -> 0 <= n <= Z.of_nat (length bytes) ->
  exists st image, ExLookupProgramImageByName (Some bytes) n g = Ok (st, image).
Proof.
  intros F Hn. unfold ExLookupProgramImageByName. destruct (negb _); [by do 2 eexists|]. destruct (_ || _ || _); [by do 2 eexists|].
  rewrite find_by_name_run by done. cbn [res_bind]. destruct (_ <$> _); by do 2 eexists.
Qed.

Lemma spawn_well kt held s name len flags : Forall named (gExBuiltinPrograms g) -> entered kt held s -> user_thread kt s ->
  goes_well any kt held (KiHandleSpawnProgram g bytes_at worker entry kt name len flags s).
Proof.
  intros F S Hu. pose proof (entered_settled kt held s S) as S0. unfold KiHandleSpawnProgram.
  destruct (_ || _ || (_ <=? len) || _) eqn:B; [by apply well_finished|].
  destruct (KeUserModeCopyInBytes kt name len (Svc s)) as [st bytes] eqn:E.
  destruct (negb (ok st)) eqn:Hok; [by apply well_finished|].
  apply negb_false_iff, bool_decide_eq_true in Hok. subst st. apply copy_in_law in E.
  assert (Hlen : len < EX_PROGRAM_NAME_MAX_LENGTH).
  { apply orb_false_iff in B as [B _]. apply orb_false_iff in B as [_ B]. by apply Z.leb_gt. }
  change EX_PROGRAM_NAME_MAX_LENGTH with 16 in Hlen.
  apply (well_after any); [|intros [st pid] s' held' S' _; by apply well_finished].
  unfold ExSpawnProgram. destruct (lookup_name_run (program_name bytes) (u32 len) F) as (st & image & ->).
  { unfold program_name. rewrite length_app, length_replicate, u32_small by (unfold is_u32; lia).
    change EX_PROGRAM_NAME_MAX_LENGTH with 16. lia. }
  cbn [res_bind]. destruct (negb _); [by apply well_finished | by apply spawn_image_well].
Qed.

(** ** Dispatch *)

(** A call that ends the thread has marked its process. *)
Definition marked_if_exits kt (result : EX_SYSCALL_DISPATCH_RESULT) s : Prop :=
  Disposition result = EX_SYSCALL_DISPOSITION_EXIT_CURRENT_THREAD -> marked kt s.

Lemma returns_well kt held r : goes_well any kt held r -> goes_well (marked_if_exits kt) kt held (returns (W := W) r).
Proof. intros R. unfold returns. apply (well_after any); [done|]. intros v s' held' S' _. by apply well_finished. Qed.

Lemma formal_well kt held s args : Forall named (gExBuiltinPrograms g) -> entered kt held s -> user_thread kt s ->
  (forall o, 0 <= held o) -> goes_well (marked_if_exits kt) kt held (KiDispatchFormalSyscall g bytes_at worker entry kt args s).
Proof.
  intros F S Hu Hnn. destruct args as [number a0 a1 a2]. unfold KiDispatchFormalSyscall.
  destruct (number =? _).
  { destruct (_ || _); [apply well_finished; [by apply entered_settled | done]|]. apply well_done.
    destruct (prepare_exit_well kt held s EX_PROCESS_TERMINATION_REASON_EXIT a0 (entered_settled kt held s S)) as (s' & E & S' & M); [done|].
    exists KiSetExitResult, s'. split; [exact E|]. split; [exact S'|]. intros _. exact M. }
  destruct (number =? _); [by apply returns_well, read_well|].
  destruct (number =? _); [by apply returns_well, spawn_well|].
  destruct (number =? _).
  { apply returns_well, pid_call_well; [done | intros pid; apply wait_begin_leads | intros own pid I C; by apply wait_begin_run]. }
  destruct (number =? _); [by apply returns_well, sleep_well|].
  destruct (number =? _).
  { apply returns_well, pid_call_well; [done | intros pid; apply kill_begin_leads | intros own pid I C; by apply kill_begin_run]. }
  by apply returns_well, capability_well.
Qed.

Lemma dispatch_well kt held s args : Forall named (gExBuiltinPrograms g) -> entered kt held s -> user_thread kt s ->
  (forall o, 0 <= held o) -> goes_well (leaves kt) kt held (ExDispatchSyscall g bytes_at worker entry kt args s).
Proof.
  intros F S Hu Hnn. unfold ExDispatchSyscall. apply (well_after (marked_if_exits kt)); [by apply formal_well|].
  intros result s' held' S' M. case_bool_decide as Hd; [by apply observe_kill_well|]. apply well_finished; [done|].
  unfold leaves. destruct (Disposition result) eqn:E; [done | by apply M].
Qed.

(** What a thread comes back with: its arguments in their registers and no
    kill pending, or nothing, its process marked. *)
Definition trap_result kt (frame : CONTEXT) (r : option CONTEXT) s : Prop :=
  match r with
  | Some back => (exists value, back = mkContext value (RDI frame) (RSI frame) (RDX frame)) /\ unkilled kt s
  | None => marked kt s
  end.

Lemma trap_well kt held s frame : Forall named (gExBuiltinPrograms g) -> entered kt held s -> user_thread kt s ->
  (forall o, 0 <= held o) -> goes_well (trap_result kt frame) kt held (KiHandleUserSyscallTrap g bytes_at worker entry kt frame s).
Proof.
  intros F S Hu Hnn. unfold KiHandleUserSyscallTrap. apply (well_after (leaves kt)); [by apply dispatch_well|].
  intros [[] v] s' held' S' Hq; cbn; apply well_finished; try done. cbn. split; [by eexists | exact Hq].
Qed.
End programs.
End safety.
