(* ===== verification/SyscallRun.v ===== *)
(** * The kernel under system calls

    [SYSTEM] is the executive with the references its other callers hold and
    the threads blocked in a system call.  A step is a call of [ExRun.v], a
    user thread trapping, a blocked thread resuming with any answer, a fault
    of a user thread, or the rest of the kernel moving on.  In every state
    they reach the references are accounted for, those of the blocked calls
    included, and the next step returns. *)

From S2P Require Import Prelude Ex ExInv ExRefs ExHandles ExLife ExCalls ExControl ExSpec ExRun Program Syscall SyscallInv SyscallSafe.

Local Open Scope Z_scope.

Import Program Syscall.

(** ** Calls and other people's references *)

Section frame.
Context {W : Type} `{ExLaws W}.
Implicit Types (s : EX W) (held ext : EX_OBJECT -> Z).

(** A call moves references by an amount that does not depend on how many
    others there are. *)
Lemma run_delta c s held ext st s' held' : run c (mkWorld s held) = Ok (st, mkWorld s' held') ->
  exists ext', run c (mkWorld s ext) = Ok (st, mkWorld s' ext') /\ forall ob, ext' ob - ext ob = held' ob - held ob.
Proof.
  unfold run, on_current. cbn [wEx wHeld].
  destruct c; intros E;
    repeat match type of E with res_bind ?m _ = _ => destruct m as [?| | |]; cbn [res_bind] in *; [|done..] end;
    repeat match goal with z : (_ * _)%type |- _ => destruct z end;
    injection E as <- <- <-; eexists; (split; [reflexivity|]); intros ob; unfold hold, hold_resolved, move;
    repeat case_match; lia.
Qed.

Lemma run_nonneg c s held st s' held' : run c (mkWorld s held) = Ok (st, mkWorld s' held') ->
  permitted c (mkWorld s held) -> (forall ob, 0 <= held ob) -> forall ob, 0 <= held' ob.
Proof.
  unfold run, on_current. cbn [wEx wHeld].
  destruct c; cbn [permitted wEx wHeld]; intros E Hc Hnn ob;
    repeat match type of E with res_bind ?m _ = _ => destruct m as [?| | |]; cbn [res_bind] in *; [|done..] end;
    repeat match goal with z : (_ * _)%type |- _ => destruct z end;
    injection E as <- <- <-; specialize (Hnn ob); unfold hold, hold_resolved, move;
    repeat case_match; subst; lia.
Qed.

Lemma permitted_mono c s held ext : permitted c (mkWorld s held) -> (forall ob, held ob <= ext ob) -> permitted c (mkWorld s ext).
Proof.
  intros Hc Hle. destruct c; cbn [permitted wEx wHeld] in *; try done.
  - specialize (Hle (ObjProcess p)). lia.
  - specialize (Hle (ObjProcess p)). split; [lia | apply Hc].
  - specialize (Hle (ObjProcess p)). lia.
  - specialize (Hle o). lia.
Qed.
End frame.

Section system.
Context {W : Type} `{SyscallLaws W}.
Implicit Types (s : EX W) (kt : Z) (held : EX_OBJECT -> Z).

Variable g : PROGRAMS.
Variable bytes_at : Z -> Z -> list Z.
Variables worker entry : Z.

Let trap := KiHandleUserSyscallTrap g bytes_at worker entry.

(** A thread in a blocked system call, with the frame it trapped with. *)
Record BLOCKED := mkBlocked {
  bThread : Z;
  bFrame : CONTEXT;
  bOn : WAIT;
  bResume : ANSWER -> EX W -> res (outcome W (option CONTEXT))
}.

Record SYSTEM := mkSystem { yEx : EX W; yHeld : EX_OBJECT -> Z; yBlocked : list BLOCKED }.

(** The references of the blocked calls, and all of them. *)
Definition blocked_refs (l : list BLOCKED) (ob : EX_OBJECT) : Z :=
  Z.of_nat (length (filter (fun b => wait_ref (bOn b) = Some ob) l)).
Definition all_held (y : SYSTEM) (ob : EX_OBJECT) : Z := yHeld y ob + blocked_refs (yBlocked y) ob.

(** The system once a call ran: it finished, or its thread is blocked. *)
Definition park kt frame (o : outcome W (option CONTEXT)) held (l : list BLOCKED) : SYSTEM :=
  match o with
  | Finished _ s => mkSystem s held l
  | Blocked on resume s => mkSystem s held (mkBlocked kt frame on resume :: l)
  end.

(** A user thread whose process has not been torn down. *)
Definition running kt s : Prop := leavable kt s /\ user_thread kt s.

Inductive system_step : SYSTEM -> SYSTEM -> Prop :=
| SystemCalls c st s s' held held' l :
    permitted c (mkWorld s held) -> roomy s -> run c (mkWorld s held) = Ok (st, mkWorld s' held') ->
    system_step (mkSystem s held l) (mkSystem s' held' l)
| SystemTraps kt frame o s held l :
    running kt s -> roomy s -> Forall (fun b => bThread b <> kt) l -> trap kt frame s = Ok o ->
    system_step (mkSystem s held l) (park kt frame o held l)
| SystemResumes b answer o s held l1 l2 :
    leavable (bThread b) s -> roomy s -> bResume b answer s = Ok o ->
    system_step (mkSystem s held (l1 ++ b :: l2)) (park (bThread b) (bFrame b) o held (l1 ++ l2))
| SystemFaults kt vector s s' held l :
    running kt s -> Forall (fun b => bThread b <> kt) l -> roomy s -> ExUserRuntimeFaultHook kt (Some vector) s = Ok s' ->
    system_step (mkSystem s held l) (mkSystem s' held l)
| SystemMovesOn w s held l :
    evolves (Svc s) w -> system_step (mkSystem s held l) (mkSystem (set_Svc w s) held l).

Definition system_boot (services : W) : SYSTEM := mkSystem (wEx (ex_boot services)) (fun _ => 0) [].
Definition system_reachable (y : SYSTEM) : Prop := exists services, rtc system_step (system_boot services) y.

(** ** The invariant *)

Definition sound (b : BLOCKED) : Prop :=
  forall answer held s, (forall ob, 0 <= held ob) -> entered (bThread b) (hold_resolved (wait_ref (bOn b)) held) s ->
    goes_well (trap_result (bThread b) (bFrame b)) (bThread b) held (bResume b answer s).

Record sys_inv (y : SYSTEM) : Prop := {
  si_inv : exists own, ex_inv (yEx y) own (all_held y);
  si_held ob : 0 <= yHeld y ob;
  si_blocked : Forall sound (yBlocked y)
}.

Lemma blocked_refs_cons b l ob : blocked_refs (b :: l) ob = hold_resolved (wait_ref (bOn b)) (blocked_refs l) ob.
Proof.
  unfold blocked_refs. rewrite filter_cons. unfold hold_resolved, move.
  destruct (wait_ref (bOn b)) as [r|]; [|by rewrite decide_False].
  destruct (decide (Some r = Some ob)) as [Hd|Hd]; destruct (decide (ob = r)) as [Hq|Hq]; cbn [length]; try lia; congruence.
Qed.

Lemma blocked_refs_middle b l1 l2 ob : blocked_refs (l1 ++ b :: l2) ob = blocked_refs (b :: l1 ++ l2) ob.
Proof. unfold blocked_refs. rewrite filter_app, !filter_cons, filter_app. case_decide; rewrite ?length_app; cbn [length]; rewrite ?length_app; lia. Qed.

Lemma hold_resolved_shift r held l ob : hold_resolved r (fun ob => held ob + blocked_refs l ob) ob = held ob + hold_resolved r (blocked_refs l) ob.
Proof. destruct r as [r|]; cbn; unfold move; [case_decide|]; lia. Qed.

Lemma all_held_nonneg y : sys_inv y -> forall ob, 0 <= all_held y ob.
Proof. intros I ob. pose proof (si_held y I ob). unfold all_held, blocked_refs. lia. Qed.

(** A call that went well is parked well. *)
Lemma park_inv kt frame o held l : safe (trap_result kt frame) kt (fun ob => held ob + blocked_refs l ob) o ->
  (forall ob, 0 <= held ob) -> Forall sound l -> sys_inv (park kt frame o held l).
Proof.
  intros So Hnn F. destruct o as [r s|on resume s]; cbn in *.
  - destruct So as [(own & I & _) _]. split; [by exists own | done | done].
  - destruct So as [(own & I & _) R]. split; [|done|].
    + exists own. eapply inv_ext_eq; [|exact I]. intros ob. unfold all_held. cbn. rewrite blocked_refs_cons. cbn.
      symmetry. apply hold_resolved_shift.
    + constructor; [|done]. intros answer held' s' Hnn' S'. cbn in *. specialize (R answer held' s' Hnn' S').
      destruct (resume answer s') as [o'| | |]; [by exists o' | done..].
Qed.

Hypothesis names : Forall named (gExBuiltinPrograms g).

(** A permitted call of another caller. *)
Lemma other_call_run c y : sys_inv y -> permitted c (mkWorld (yEx y) (yHeld y)) -> roomy (yEx y) ->
  exists st s' held', run c (mkWorld (yEx y) (yHeld y)) = Ok (st, mkWorld s' held') /\
    sys_inv (mkSystem s' held' (yBlocked y)).
Proof.
  intros [(own & I) Hnn F] Hc Hr. destruct (run_inv c (mkWorld (yEx y) (all_held y))) as (st & [s' ext'] & E & own' & I'); [by exists own | | done |].
  { eapply permitted_mono; [exact Hc|]. intros ob. unfold all_held, blocked_refs. lia. }
  destruct (run_delta c _ _ (yHeld y) _ _ _ E) as (held' & E' & Hd). exists st, s', held'. split; [exact E'|].
  split; cbn; [|by eapply run_nonneg | done]. exists own'. eapply inv_ext_eq; [|exact I'].
  intros ob. specialize (Hd ob). unfold all_held in *. cbn. lia.
Qed.

Lemma entered_now y kt : sys_inv y -> roomy (yEx y) -> leavable kt (yEx y) -> entered kt (all_held y) (yEx y).
Proof. intros [(own & I) _ _] Hr L. split; [by exists own | done]. Qed.

Lemma trap_run y kt frame : sys_inv y -> running kt (yEx y) -> roomy (yEx y) ->
  exists o, trap kt frame (yEx y) = Ok o /\ safe (trap_result kt frame) kt (all_held y) o.
Proof.
  intros I [L U] Hr. apply trap_well; [exact names | by apply entered_now | exact U | by apply all_held_nonneg].
Qed.

Lemma resume_blocked_run s held l1 b l2 answer : sys_inv (mkSystem s held (l1 ++ b :: l2)) -> leavable (bThread b) s -> roomy s ->
  exists o, bResume b answer s = Ok o /\
    safe (trap_result (bThread b) (bFrame b)) (bThread b) (fun ob => held ob + blocked_refs (l1 ++ l2) ob) o.
Proof.
  intros [(own & I) Hnn F] L Hr. apply Forall_app in F as [_ [Hb _]%Forall_cons]. cbn in *. apply Hb.
  { intros ob. specialize (Hnn ob). unfold blocked_refs. lia. }
  split; [|done]. exists own. eapply inv_ext_eq; [|exact I]. intros ob. unfold all_held. cbn.
  rewrite blocked_refs_middle, blocked_refs_cons. apply hold_resolved_shift.
Qed.

Lemma fault_run y kt vector : sys_inv y -> leavable kt (yEx y) -> roomy (yEx y) ->
  exists s', ExUserRuntimeFaultHook kt (Some vector) (yEx y) = Ok s' /\ marked kt s' /\ sys_inv (mkSystem s' (yHeld y) (yBlocked y)).
Proof.
  intros I L Hr. destruct (fault_hook_well kt (all_held y) (yEx y) vector) as (s' & E & (own & I' & _) & M).
  { by apply entered_settled, entered_now. }
  exists s'. split; [exact E|]. split; [exact M|]. destruct I as [_ Hnn F]. split; [by exists own | done | done].
Qed.

Lemma step_inv y y' : sys_inv y -> system_step y y' -> sys_inv y'.
Proof.
  intros I Hs. destruct Hs as [c st s s' held held' l Hc Hr E|kt frame o s held l U Hr _ E|b answer o s held l1 l2 L Hr E
    |kt vector s s' held l [L _] _ Hr E|w s held l Hw].
  - destruct (other_call_run c _ I Hc Hr) as (st2 & s2 & held2 & E2 & I2). cbn in E2, I2. rewrite E in E2. by injection E2 as <- <- <-.
  - destruct (trap_run _ kt frame I U Hr) as (o2 & E2 & So). cbn in E2. rewrite E in E2. injection E2 as <-.
    apply park_inv; [exact So | apply I | apply I].
  - destruct (resume_blocked_run s held l1 b l2 answer I L Hr) as (o2 & E2 & So). rewrite E in E2. injection E2 as <-.
    apply park_inv; [exact So | apply I |]. destruct I as [_ _ F]. cbn in F. apply Forall_app in F as [F1 [_ F2]%Forall_cons].
    by apply Forall_app.
  - destruct (fault_run _ kt vector I L Hr) as (s2 & E2 & _ & I2). cbn [yEx yHeld yBlocked] in E2, I2. rewrite E in E2. by injection E2 as <-.
  - destruct I as [(own & I) Hnn F]. split; [|done | done]. exists own. by apply inv_svc.
Qed.

Lemma system_inv y : system_reachable y -> sys_inv y.
Proof.
  intros [services R]. remember (system_boot services) as y0 eqn:E0.
  assert (I0 : sys_inv y0).
  { subst y0. destruct (boot_inv services) as [own I]. split; [|done | constructor]. exists own.
    eapply inv_ext_eq; [|exact I]. done. }
  clear E0. induction R as [|y1 y2 y3 S R IH]; [done|]. apply IH. by eapply step_inv.
Qed.

Lemma system_next y y' : system_reachable y -> system_step y y' -> system_reachable y'.
Proof. intros [services R] S. exists services. by eapply rtc_r. Qed.
End system.
