(* ===== verification/SyscallThms.v ===== *)
(** * Properties of system calls

    In every state of the kernel that [SyscallRun.v] reaches: calls return or
    block holding what they wait for, references stay accounted for, and a
    thread comes back to user mode unharmed and unkilled or leaves with its
    process marked.  The witnesses run on the world of [ExToy.v]. *)

From S2P Require Import Prelude Ex ExInv ExSpec ExRun ExToy Program Syscall SyscallInv SyscallSafe SyscallRun.
From S2P Require Sched.
From stdpp Require Import strings.

Local Open Scope Z_scope.

Import Program Syscall.

Section properties.
Context {W : Type} `{SyscallLaws W}.
Variable symbols : string -> PROGRAM_SYMBOLS.
Variable g : PROGRAMS.
Variable bytes_at : Z -> Z -> list Z.
Variables worker entry : Z.

Let trap := KiHandleUserSyscallTrap g bytes_at worker entry.
Let reach := system_reachable g bytes_at worker entry.

(** C3: Whatever system calls user threads make, in whatever order they
    trap, block, resume and fault, and whatever else the executive is called
    for meanwhile, no system call panics, reads a freed structure or leaks or
    loses a reference.  Every count of the executive - of processes, console
    services and threads - equals the handles, the owners and the references
    held, with those of the blocked calls among them; a call that waits for a completion holds
    the object whose event it waits for, so that it is alive; and each next
    trap of a user thread, each resumption of a blocked one with any answer
    and each fault returns and leads to such a state again. *)
Theorem system_calls_are_safe y : ExProgramValidateBuiltins (boot_programs symbols) = (EC_SUCCESS, g) -> reach y ->
  accounted (yEx y) (all_held y) /\
  (forall b ob, b ∈ yBlocked y -> wait_ref (bOn b) = Some ob -> alive (yEx y) ob) /\
  (forall kt frame, running kt (yEx y) -> roomy (yEx y) -> Forall (fun b => bThread b <> kt) (yBlocked y) ->
     exists o, trap kt frame (yEx y) = Ok o /\ reach (park kt frame o (yHeld y) (yBlocked y))) /\
  (forall l1 b l2 answer, yBlocked y = l1 ++ b :: l2 -> leavable (bThread b) (yEx y) -> roomy (yEx y) ->
     exists o, bResume b answer (yEx y) = Ok o /\ reach (park (bThread b) (bFrame b) o (yHeld y) (l1 ++ l2))) /\
  (forall kt vector, running kt (yEx y) -> roomy (yEx y) -> Forall (fun b => bThread b <> kt) (yBlocked y) ->
     exists s', ExUserRuntimeFaultHook kt (Some vector) (yEx y) = Ok s' /\ reach (mkSystem s' (yHeld y) (yBlocked y))).
Proof.
  intros V R. destruct (validated_names symbols g V) as (_ & _ & F).
  pose proof (system_inv g bytes_at worker entry F y R) as I. split; [|split; [|split; [|split]]].
  - destruct (si_inv y I) as [own J]. by apply (inv_accounts _ own).
  - intros b ob Hb Hw. destruct (si_inv y I) as [own J]. apply (ei_ext _ _ _ J). unfold all_held.
    apply list_elem_of_split in Hb as (l1 & l2 & ->). rewrite blocked_refs_middle, blocked_refs_cons, Hw. cbn. rewrite move_here.
    pose proof (si_held y I ob). unfold blocked_refs. lia.
  - intros kt frame U Hr Hn. destruct (trap_run g bytes_at worker entry F y kt frame I U Hr) as (o & E & _). exists o.
    split; [exact E|]. eapply system_next; [exact R|]. destruct y as [s held l]. by apply SystemTraps.
  - intros l1 b l2 answer El L Hr. destruct y as [s held l]. cbn in *. subst l.
    destruct (resume_blocked_run s held l1 b l2 answer I L Hr) as (o & E & _). exists o. split; [exact E|].
    eapply system_next; [exact R|]. by eapply SystemResumes.
  - intros kt vector U Hr Hn. destruct (fault_run y kt vector I (proj1 U) Hr) as (s' & E & _). exists s'. split; [exact E|].
    eapply system_next; [exact R|]. destruct y as [s held l]. by eapply SystemFaults.
Qed.

(** C4: No thread escapes a kill, and none is disturbed.  A system call that
    finishes - at once or after any wait - either returns to user mode with
    only RAX changed, and then no kill of its process is pending, or it takes
    the thread out of user mode, and then its process is marked with the
    reason of its termination, as it is after a fault. *)
Theorem finished_calls_return_or_terminate y : ExProgramValidateBuiltins (boot_programs symbols) = (EC_SUCCESS, g) -> reach y ->
  roomy (yEx y) ->
  (forall kt frame r s', running kt (yEx y) -> trap kt frame (yEx y) = Ok (Finished r s') -> trap_result kt frame r s') /\
  (forall b answer r s', b ∈ yBlocked y -> leavable (bThread b) (yEx y) -> bResume b answer (yEx y) = Ok (Finished r s') ->
     trap_result (bThread b) (bFrame b) r s') /\
  (forall kt vector s', running kt (yEx y) -> ExUserRuntimeFaultHook kt (Some vector) (yEx y) = Ok s' -> marked kt s').
Proof.
  intros V R Hr. destruct (validated_names symbols g V) as (_ & _ & F).
  pose proof (system_inv g bytes_at worker entry F y R) as I. split; [|split].
  - intros kt frame r s' U E. destruct (trap_run g bytes_at worker entry F y kt frame I U Hr) as (o & E2 & So).
    unfold trap in E. rewrite E in E2. injection E2 as <-. apply So.
  - intros b answer r s' (l1 & l2 & El)%list_elem_of_split L E. destruct y as [s held l]. cbn in *. subst l.
    destruct (resume_blocked_run s held l1 b l2 answer I L Hr) as (o & E2 & So). rewrite E in E2. injection E2 as <-. apply So.
  - intros kt vector s' [L _] E. destruct (fault_run y kt vector I L Hr) as (s2 & E2 & M & _). rewrite E in E2. by injection E2 as ->.
Qed.
End properties.

(** ** A user thread on the small world *)

(** Copies succeed and the console takes everything. *)
#[global] Instance toy_syscalls : SyscallServices Toy.WORLD := {
  KeUserModeCopyInBytes _ _ n _ := if 0 <=? n then (EC_SUCCESS, replicate (Z.to_nat n) 65) else (EC_ILLEGAL_ARGUMENT, []);
  KeUserModeCopyOutBytes _ _ _ w := (EC_SUCCESS, w);
  KeUserModeWriteConsoleBytes bytes w := (EC_SUCCESS, Z.of_nat (length bytes), w);
  KeInputCopyCompletedLineForCurrentThread _ _ _ := (EC_SUCCESS, [65]);
  KeInputConsumeCompletedLineForCurrentThread _ w := (EC_SUCCESS, w);
  KeUserModeQueryCurrentThreadLayout _ _ := (EC_SUCCESS, 4096);
  ExRuntimeHandleQuerySysinfo _ _ _ _ s := (0, Svc s)
}.

#[global] Instance toy_syscall_laws : SyscallLaws Toy.WORLD.
Proof.
  split; [| done |].
  - intros w w' Hc. inversion Hc; subst; cbn in *; simplify_eq; done.
  - intros kt a n w bytes. cbn. destruct (Z.leb_spec 0 n); [|done]. intros [= <-]. rewrite length_replicate. lia.
Qed.

Section check.
Context {W : Type} `{SyscallLaws W}.
Implicit Types (s : EX W) (kt : Z).

Definition leavableb kt s : bool :=
  existsb (fun e => Active e &&
    match exthreads s !! Entry e with
    | Some y => (Thread y =? kt) &&
        match processes s !! Process y with
        | Some x => negb (Staging x =? 0) && PsInitialized (AddressSpace x) && negb (PsRootPageTablePhys (AddressSpace x) =? 0) &&
            bool_decide (KeUserModeQueryCurrentThreadLayout kt (Svc s) = (EC_SUCCESS, PsRootPageTablePhys (AddressSpace x)))
        | None => false
        end
    | None => false
    end) (gExRuntimeThreadTable s).

Lemma leavableb_sound kt s : leavableb kt s = true -> leavable kt s.
Proof.
  unfold leavableb. intros (e & He%list_elem_of_In & Hb)%existsb_exists. apply andb_prop in Hb as [Ha Hb].
  destruct (exthreads s !! Entry e) as [y|] eqn:Hy; [|done]. apply andb_prop in Hb as [Hk Hb].
  destruct (processes s !! Process y) as [x|] eqn:Hx; [|done]. apply andb_prop in Hb as [Hb Hl].
  apply andb_prop in Hb as [Hb Hr]. apply andb_prop in Hb as [Hs Hi]. apply bool_decide_eq_true in Hl.
  apply negb_true_iff, Z.eqb_neq in Hs, Hr. exists e, y, x. split; try done. by apply Z.eqb_eq.
Qed.

Definition runningb kt s : bool :=
  leavableb kt s && match kernel_thread kt (Svc s) with Some v => negb (vIdle v) | None => false end.

Lemma runningb_sound kt s : runningb kt s = true -> running kt s.
Proof.
  intros [L U]%andb_prop. split; [by apply leavableb_sound|]. destruct (kernel_thread kt (Svc s)) as [v|] eqn:E; [|done].
  exists v. split; [done|]. by apply negb_true_iff in U.
Qed.

Variables (g : PROGRAMS) (bytes_at : Z -> Z -> list Z) (worker entry : Z).

Lemma drive_system cs w w' l : drive cs w = Some w' ->
  rtc (system_step g bytes_at worker entry) (mkSystem (wEx w) (wHeld w) l) (mkSystem (wEx w') (wHeld w') l).
Proof.
  revert w. induction cs as [|c cs IH]; cbn; intros w; [by intros [= ->]|].
  destruct (permittedb c w) eqn:Hc; [|done]. destruct (roomyb (wEx w)) eqn:Hr; [|done]. cbn.
  destruct (run c w) as [[st w1]| | |] eqn:E; [|done..]. intros R%IH. eapply rtc_l; [|exact R].
  destruct w as [s h], w1 as [s1 h1]. eapply SystemCalls; [by apply permittedb_sound | by apply roomyb_sound | exact E].
Qed.
End check.

(** The child that [ExToy.v] spawns, in user mode. *)
Definition toy_bytes (_ n : Z) : list Z := replicate (Z.to_nat n) 0x90.
Definition toy_user : SYSTEM (W := Toy.WORLD) := mkSystem (wEx (ExToy.after spawned_child)) (wHeld (ExToy.after spawned_child)) [].

Lemma toy_user_reachable : system_reachable sample_programs toy_bytes 0x5000 0x6000 toy_user.
Proof.
  exists (Toy.mkToy 0 [] 0). assert (D : drive spawned_child toy_boot = Some (ExToy.after spawned_child)).
  { unfold ExToy.after. assert (T : is_Some (drive spawned_child toy_boot)) by (vm_compute; eexists; reflexivity).
    destruct T as [w ->]. reflexivity. }
  exact (drive_system sample_programs toy_bytes 0x5000 0x6000 spawned_child toy_boot _ [] D).
Qed.

Lemma toy_user_runs : running 1 (yEx toy_user).
Proof. apply runningb_sound. vm_compute. reflexivity. Qed.

Lemma toy_user_roomy : roomy (yEx toy_user).
Proof. apply roomyb_sound. vm_compute. reflexivity. Qed.

(** It waits for its own process, for five milliseconds. *)
Definition wait_frame : CONTEXT := mkContext EX_USER_SYS_WAIT_ONE 259 5 0.

Definition waiting_on {A} (r : res (outcome Toy.WORLD A)) : option (WAIT * bool) :=
  match r with
  | Ok (Blocked on _ s) => Some (on, leavableb 1 s && roomyb s)
  | _ => None
  end.

Lemma wait_blocks : waiting_on (KiHandleUserSyscallTrap sample_programs toy_bytes 0x5000 0x6000 1 wait_frame (yEx toy_user)) =
  Some (WaitForCompletion (ProcessCompletion 1) (Some 5000000), true).
Proof. vm_compute. reflexivity. Qed.

(** The wait blocks holding the process, and its time-out resumes it. *)
Lemma system_calls_are_safe_witness : exists y b,
  system_reachable sample_programs toy_bytes 0x5000 0x6000 y /\ yBlocked y = [b] /\
  bOn b = WaitForCompletion (ProcessCompletion 1) (Some 5000000) /\ all_held y (ObjProcess 1) = 1 /\ alive (yEx y) (ObjProcess 1) /\
  exists o, bResume b (mkAnswer EC_TIMEOUT EC_SUCCESS 0) (yEx y) = Ok o.
Proof.
  destruct (system_calls_are_safe sample_symbols sample_programs toy_bytes 0x5000 0x6000 toy_user sample_validated toy_user_reachable)
    as (_ & _ & Htrap & _).
  destruct (Htrap 1 wait_frame toy_user_runs toy_user_roomy) as (o & E & R); [constructor|].
  pose proof wait_blocks as B. rewrite E in B. destruct o as [|on resume s]; [discriminate B|]. cbn in B.
  injection B as -> Hb. apply andb_prop in Hb as [Hl Hr]. apply leavableb_sound in Hl. apply roomyb_sound in Hr.
  exists (park 1 wait_frame (Blocked (WaitForCompletion (ProcessCompletion 1) (Some 5000000)) resume s) (yHeld toy_user) []),
    (mkBlocked 1 wait_frame (WaitForCompletion (ProcessCompletion 1) (Some 5000000)) resume).
  split; [exact R|]. split; [reflexivity|]. split; [reflexivity|]. split; [reflexivity|].
  destruct (system_calls_are_safe sample_symbols sample_programs toy_bytes 0x5000 0x6000 _ sample_validated R)
    as (_ & Hal & _ & Hres & _).
  split; [eapply Hal; [left | reflexivity]|].
  destruct (Hres [] _ [] (mkAnswer EC_TIMEOUT EC_SUCCESS 0) eq_refl Hl Hr) as (o & E2 & _). exists o. exact E2.
Defined.

(** A parent outside user mode kills the child, which then writes two bytes:
    it leaves. *)
Definition killed_child : list call := spawned_child ++ [KillBegin 99 1].
Definition toy_killed : SYSTEM (W := Toy.WORLD) := mkSystem (wEx (ExToy.after killed_child)) (wHeld (ExToy.after killed_child)) [].
Definition write_frame : CONTEXT := mkContext EX_USER_SYS_WRITE 258 0x7000 2.

Lemma toy_killed_reachable : system_reachable sample_programs toy_bytes 0x5000 0x6000 toy_killed.
Proof.
  exists (Toy.mkToy 0 [] 0). assert (D : drive killed_child toy_boot = Some (ExToy.after killed_child)).
  { unfold ExToy.after. assert (T : is_Some (drive killed_child toy_boot)) by (vm_compute; eexists; reflexivity).
    destruct T as [w ->]. reflexivity. }
  exact (drive_system sample_programs toy_bytes 0x5000 0x6000 killed_child toy_boot _ [] D).
Qed.

Definition result_state (r : res (outcome Toy.WORLD (option CONTEXT))) : option CONTEXT * EX Toy.WORLD :=
  match r with Ok (Finished a s) => (a, s) | _ => (None, yEx toy_user) end.
Definition write_run (y : SYSTEM (W := Toy.WORLD)) :=
  KiHandleUserSyscallTrap sample_programs toy_bytes 0x5000 0x6000 1 write_frame (yEx y).

Lemma write_finishes y : (match write_run y with Ok (Finished _ _) => true | _ => false end) = true ->
  write_run y = Ok (Finished (result_state (write_run y)).1 (result_state (write_run y)).2).
Proof. destruct (write_run y) as [[a s|]| | |]; done. Qed.

Lemma finished_calls_return_or_terminate_witness :
  ((result_state (write_run toy_user)).1 = Some (mkContext 2 258 0x7000 2) /\ unkilled 1 (result_state (write_run toy_user)).2) /\
  ((result_state (write_run toy_killed)).1 = None /\ marked 1 (result_state (write_run toy_killed)).2).
Proof.
  destruct (finished_calls_return_or_terminate sample_symbols sample_programs toy_bytes 0x5000 0x6000 toy_user sample_validated
    toy_user_reachable toy_user_roomy) as (Hu & _).
  destruct (finished_calls_return_or_terminate sample_symbols sample_programs toy_bytes 0x5000 0x6000 toy_killed sample_validated
    toy_killed_reachable) as (Hk & _). { apply roomyb_sound. vm_compute. reflexivity. }
  specialize (Hu 1 write_frame _ _ toy_user_runs (write_finishes toy_user ltac:(vm_compute; reflexivity))).
  specialize (Hk 1 write_frame _ _ ltac:(apply runningb_sound; vm_compute; reflexivity)
    (write_finishes toy_killed ltac:(vm_compute; reflexivity))).
  assert (Eu : (result_state (write_run toy_user)).1 = Some (mkContext 2 258 0x7000 2)) by (vm_compute; reflexivity).
  assert (Ek : (result_state (write_run toy_killed)).1 = None) by (vm_compute; reflexivity).
  rewrite Eu in Hu. rewrite Ek in Hk. split; [split; [exact Eu | exact (proj2 Hu)] | split; [exact Ek | exact Hk]].
Defined.
