(* ===== verification/Idt.v ===== *)
(** * The interrupt descriptor table and the user-runtime hooks

    [arch/amd64/idt.c], the hook registration [ke/user_runtime_hooks.c] and the
    initialisations that fill them ([KeUserModeSyscallInit],
    [ExUserRuntimeInit], [ExRuntimeInit]).  Gates are 16 bytes in memory; what
    the processor makes of them is [hw_gate], what it does with an interrupt
    [hw_accepts].  Handlers and hooks are addresses, 0 for NULL. *)

From S2P Require Import Prelude Program.

Local Open Scope Z_scope.

Module Idt.
Import Program.

(** ** Data ([idt.h], [hodbg.h], [user_runtime_hooks.h]) *)

Definition IDT_FLAG_INTERRUPT_GATE : Z := 0x8E.
Definition IDT_FLAG_TRAP_GATE : Z := 0x8F.
Definition IDT_FLAG_USER_TRAP_GATE : Z := 0xEF.
Definition EX_USER_SYSCALL_VECTOR : Z := 0x80.
Definition GDT_SELECTOR (index rpl : Z) : Z := Z.lor (Z.shiftl index 3) rpl.
Definition GDT_KRNL_CODE_SEL : Z := GDT_SELECTOR 1 0.

Record IDT_ENTRY := mkEntry {
  OffsetLow : Z;
  Selector : Z;
  Ist : Z;
  Attributes : Z;
  OffsetMiddle : Z;
  OffsetHigh : Z;
  Reserved : Z
}.

Record IDT_IRQ_HANDLER_ENTRY := mkHandler { Handler : Z; HContext : Z }.

(** The frame without the general registers. *)
Record INTERRUPT_FRAME := mkFrame { VectorNumber : Z; ErrorCode : Z; RIP : Z; CS : Z }.

Record HO_CPU_EXCEPTION_CONTEXT := mkException {
  Frame : INTERRUPT_FRAME;
  FaultAddress : Z;
  PageFaultErrorCode : Z;
  HasFaultAddress : bool;
  IsSafePageFaultContext : bool
}.

Record KE_USER_RUNTIME_FAULT_CONTEXT := mkFault {
  fVectorNumber : Z;
  fHasFaultAddress : bool;
  fIsSafePageFaultContext : bool;
  fInstructionPointer : Z;
  fErrorCode : Z;
  fFaultAddress : Z;
  fPageFaultErrorCode : Z
}.

Record HOOKS := mkHooks {
  gUserRuntimeEnterHook : Z;
  gUserRuntimeOwnsThreadHook : Z;
  gUserRuntimeResolveRootHook : Z;
  gUserRuntimeFinalizeThreadHook : Z;
  gUserRuntimeObserveTimerHook : Z;
  gUserRuntimeFaultHook : Z
}.
Definition no_hooks : HOOKS := mkHooks 0 0 0 0 0 0.

(** The static variables of the three files. *)
Record IDT := mkIdt {
  kInterruptDescriptorTable : list IDT_ENTRY;
  kIdtLimit : Z;
  kInterruptHandlers : list IDT_IRQ_HANDLER_ENTRY;
  hooks : HOOKS;
  gKeUserModeSyscallInitialized : bool
}.
Definition set_entries l (d : IDT) : IDT :=
  mkIdt l (kIdtLimit d) (kInterruptHandlers d) (hooks d) (gKeUserModeSyscallInitialized d).
Definition set_limit n (d : IDT) : IDT :=
  mkIdt (kInterruptDescriptorTable d) n (kInterruptHandlers d) (hooks d) (gKeUserModeSyscallInitialized d).
Definition set_handlers l (d : IDT) : IDT :=
  mkIdt (kInterruptDescriptorTable d) (kIdtLimit d) l (hooks d) (gKeUserModeSyscallInitialized d).
Definition set_hooks h (d : IDT) : IDT :=
  mkIdt (kInterruptDescriptorTable d) (kIdtLimit d) (kInterruptHandlers d) h (gKeUserModeSyscallInitialized d).
Definition set_syscalls b (d : IDT) : IDT :=
  mkIdt (kInterruptDescriptorTable d) (kIdtLimit d) (kInterruptHandlers d) (hooks d) b.

(** ** Gates *)

Definition GetVectorGateType (vectorNumber : Z) : Z :=
  if vectorNumber =? EX_USER_SYSCALL_VECTOR then IDT_FLAG_USER_TRAP_GATE
  else if (vectorNumber =? 3) || (vectorNumber =? 4) then IDT_FLAG_TRAP_GATE
  else IDT_FLAG_INTERRUPT_GATE.

Definition GetVectorIstIndex (vectorNumber : Z) : Z :=
  if vectorNumber =? 8 then 1 else if vectorNumber =? 14 then 2 else 0.

Definition IsSynchronousTrapVector (vectorNumber : Z) : bool := vectorNumber =? EX_USER_SYSCALL_VECTOR.

Definition gate_of (isrAddr selector attributes ist : Z) : IDT_ENTRY :=
  mkEntry (Z.land isrAddr 0xFFFF) selector (Z.land ist 0x7) attributes (Z.land (Z.shiftr isrAddr 16) 0xFFFF)
    (Z.land (Z.shiftr isrAddr 32) 0xFFFFFFFF) 0.

Definition IdtSetEntry (vn isrAddr selector attributes ist : Z) (d : IDT) : res IDT :=
  let* l := wr (kInterruptDescriptorTable d) vn (gate_of isrAddr selector attributes ist) in
  Ok (set_entries l d).

Section init.
Variable gIsrStubTable : Z -> Z.

Definition IdtInit (d : IDT) : res (HO_STATUS * IDT) :=
  let d := set_handlers (replicate 256 (mkHandler 0 0)) d in
  let* d := for_loop 256 0 (fun i d =>
    let vectorNumber := u8 i in
    IdtSetEntry i (gIsrStubTable i) GDT_KRNL_CODE_SEL (GetVectorGateType vectorNumber) (GetVectorIstIndex vectorNumber) d) d in
  Ok (EC_SUCCESS, set_limit (16 * 256 - 1) d).
End init.

Definition IdtRegisterInterruptHandler (vectorNumber handler context : Z) (d : IDT) : res (HO_STATUS * IDT) :=
  if (vectorNumber <? 32) || (handler =? 0) then Ok (EC_ILLEGAL_ARGUMENT, d) else
  let* l := wr (kInterruptHandlers d) vectorNumber (mkHandler handler context) in
  Ok (EC_SUCCESS, set_handlers l d).

(** ** Hooks *)

Definition KeRegisterUserRuntimeHooks (enterFn ownsThreadFn resolveRootFn finalizeThreadFn observeTimerFn faultFn : Z)
    (d : IDT) : HO_STATUS * IDT :=
  if (enterFn =? 0) || (ownsThreadFn =? 0) || (resolveRootFn =? 0) || (finalizeThreadFn =? 0) || (faultFn =? 0)
  then (EC_ILLEGAL_ARGUMENT, d) else
  let h := hooks d in
  if negb (gUserRuntimeEnterHook h =? 0) || negb (gUserRuntimeOwnsThreadHook h =? 0) ||
     negb (gUserRuntimeResolveRootHook h =? 0) || negb (gUserRuntimeFinalizeThreadHook h =? 0) ||
     negb (gUserRuntimeObserveTimerHook h =? 0) || negb (gUserRuntimeFaultHook h =? 0)
  then (EC_INVALID_STATE, d) else
  (EC_SUCCESS, set_hooks (mkHooks enterFn ownsThreadFn resolveRootFn finalizeThreadFn observeTimerFn faultFn) d).

Definition KiGetUserRuntimeEnterHook (d : IDT) : Z := gUserRuntimeEnterHook (hooks d).
Definition KiGetUserRuntimeOwnsThreadHook (d : IDT) : Z := gUserRuntimeOwnsThreadHook (hooks d).
Definition KiGetUserRuntimeResolveRootHook (d : IDT) : Z := gUserRuntimeResolveRootHook (hooks d).
Definition KiGetUserRuntimeFinalizeThreadHook (d : IDT) : Z := gUserRuntimeFinalizeThreadHook (hooks d).
Definition KiGetUserRuntimeObserveTimerHook (d : IDT) : Z := gUserRuntimeObserveTimerHook (hooks d).
Definition KiGetUserRuntimeFaultHook (d : IDT) : Z := gUserRuntimeFaultHook (hooks d).

(** ** Start-up *)

Section startup.
(** The addresses of the functions that are registered. *)
Record ROUTINES := mkRoutines {
  KiHandleUserSyscallTrap_at : Z;
  ExUserRuntimeEnterHook_at : Z;
  ExUserRuntimeOwnsThreadHook_at : Z;
  ExUserRuntimeResolveRootHook_at : Z;
  ExUserRuntimeFinalizeThreadHook_at : Z;
  ExUserRuntimeFaultHook_at : Z
}.
Variable a : ROUTINES.

Definition KeUserModeSyscallInit (d : IDT) : res (HO_STATUS * IDT) :=
  if gKeUserModeSyscallInitialized d then Ok (EC_SUCCESS, d) else
  let* (status, d) := IdtRegisterInterruptHandler EX_USER_SYSCALL_VECTOR (KiHandleUserSyscallTrap_at a) 0 d in
  if negb (bool_decide (status = EC_SUCCESS)) then Ok (status, d) else Ok (EC_SUCCESS, set_syscalls true d).

Definition ExUserRuntimeInit (d : IDT) : HO_STATUS * IDT :=
  KeRegisterUserRuntimeHooks (ExUserRuntimeEnterHook_at a) (ExUserRuntimeOwnsThreadHook_at a)
    (ExUserRuntimeResolveRootHook_at a) (ExUserRuntimeFinalizeThreadHook_at a) 0 (ExUserRuntimeFaultHook_at a) d.

Definition ExRuntimeInit (g : PROGRAMS) (d : IDT) : res (HO_STATUS * PROGRAMS * IDT) :=
  let '(status, g) := ExProgramValidateBuiltins g in
  if negb (bool_decide (status = EC_SUCCESS)) then Ok (status, g, d) else
  let* (status, d) := KeUserModeSyscallInit d in
  if negb (bool_decide (status = EC_SUCCESS)) then Ok (status, g, d) else
  let '(status, d) := ExUserRuntimeInit d in Ok (status, g, d).
End startup.

(** ** Interrupts *)

Section dispatch.
(** CR2, whether the handler runs on the page-fault stack, the current thread
    (0 for none) and what the ownership hook answers for it. *)
Record CPU_STATE := mkCpu { ReadCr2 : Z; IsCurrentPageFaultDiagnosticContext : bool; CurrentThread : Z; owned : bool }.
Variable c : CPU_STATE.

(** What becomes of an interrupt. *)
Inductive ACTION :=
| CallHandler (handler context : Z) (inInterruptContext : bool)
| Unhandled (inInterruptContext : bool)
| CallFaultHook (hook kt : Z) (context : KE_USER_RUNTIME_FAULT_CONTEXT)
| Halt (code : Z) (context : HO_CPU_EXCEPTION_CONTEXT).

Definition HandleRegisteredVector (frame : INTERRUPT_FRAME) (inInterruptContext : bool) (d : IDT) : res ACTION :=
  let* entry := rd (kInterruptHandlers d) (u8 (VectorNumber frame)) in
  if Handler entry =? 0 then Ok (Unhandled inInterruptContext)
  else Ok (CallHandler (Handler entry) (HContext entry) inInterruptContext).

Definition CaptureCpuExceptionContext (frame : INTERRUPT_FRAME) : HO_CPU_EXCEPTION_CONTEXT :=
  if u8 (VectorNumber frame) =? 14
  then mkException frame (ReadCr2 c) (u32 (ErrorCode frame)) true (IsCurrentPageFaultDiagnosticContext c)
  else mkException frame 0 0 false false.

Definition IsUserModeExceptionFrame (frame : INTERRUPT_FRAME) : bool := Z.land (CS frame) 3 =? 3.
Definition IsUserRuntimeFaultVector (vectorNumber : Z) : bool := (vectorNumber =? 0) || (vectorNumber =? 14).

Definition PopulateUserRuntimeFaultContext (e : HO_CPU_EXCEPTION_CONTEXT) : KE_USER_RUNTIME_FAULT_CONTEXT :=
  let frame := Frame e in
  mkFault (u8 (VectorNumber frame)) (HasFaultAddress e) (IsSafePageFaultContext e) (RIP frame) (ErrorCode frame)
    (FaultAddress e) (PageFaultErrorCode e).

(** [None] where the code returns [FALSE]. *)
Definition TryHandleUserRuntimeFault (e : HO_CPU_EXCEPTION_CONTEXT) (d : IDT) : option ACTION :=
  let frame := Frame e in
  if negb (IsUserRuntimeFaultVector (u8 (VectorNumber frame))) || negb (IsUserModeExceptionFrame frame) then None else
  let ownsThreadFn := KiGetUserRuntimeOwnsThreadHook d in
  let faultFn := KiGetUserRuntimeFaultHook d in
  if (CurrentThread c =? 0) || (ownsThreadFn =? 0) || (faultFn =? 0) || negb (owned c) then None else
  Some (CallFaultHook faultFn (CurrentThread c) (PopulateUserRuntimeFaultContext e)).

Definition IdtExceptionHandler (frame : INTERRUPT_FRAME) (d : IDT) : res ACTION :=
  let vectorNumber := u8 (VectorNumber frame) in
  if vectorNumber <? 32 then
    let e := CaptureCpuExceptionContext frame in
    match TryHandleUserRuntimeFault e d with
    | Some action => Ok action
    | None => Ok (Halt (- vectorNumber) e)
    end
  else if IsSynchronousTrapVector vectorNumber then HandleRegisteredVector frame false d
  else HandleRegisteredVector frame true d.
End dispatch.

(** ** What the processor does with a gate *)

(** The 16 bytes of a packed entry, as a little-endian number. *)
Definition gate_bits (e : IDT_ENTRY) : Z :=
  OffsetLow e + Selector e * 2 ^ 16 + Ist e * 2 ^ 32 + Attributes e * 2 ^ 40 + OffsetMiddle e * 2 ^ 48 +
  OffsetHigh e * 2 ^ 64 + Reserved e * 2 ^ 96.

(** A 64-bit gate: target, code segment, stack, whether interrupts stay
    enabled, the least privileged ring that may use it, and presence. *)
Record HW_GATE := mkGate {
  gTarget : Z;
  gSegment : Z;
  gStack : Z;
  gType : Z;
  gRing : Z;
  gPresent : bool
}.

Definition bits (x low count : Z) : Z := (x / 2 ^ low) mod 2 ^ count.

Definition hw_gate (x : Z) : HW_GATE :=
  mkGate (bits x 0 16 + bits x 48 16 * 2 ^ 16 + bits x 64 32 * 2 ^ 32) (bits x 16 16) (bits x 32 3) (bits x 40 4)
    (bits x 45 2) (bits x 47 1 =? 1).

Definition hw_interrupt_gate : Z := 14.
Definition hw_trap_gate : Z := 15.

(** An [int] instruction of ring [cpl] is let through. *)
Definition hw_int_allowed (gate : HW_GATE) (cpl : Z) : bool := gPresent gate && (cpl <=? gRing gate).

Lemma gate_round_trip isrAddr attributes ist : is_u64 isrAddr -> is_u8 attributes -> 0 <= ist < 8 ->
  hw_gate (gate_bits (gate_of isrAddr GDT_KRNL_CODE_SEL attributes ist)) =
  mkGate isrAddr 8 ist (attributes mod 16) (attributes / 32 mod 4) (attributes / 128 =? 1).
Proof.
  intros Ha Hb Hi. unfold gate_of, gate_bits, hw_gate. cbn [OffsetLow Selector Ist Attributes OffsetMiddle OffsetHigh Reserved].
  change GDT_KRNL_CODE_SEL with 8. change 0xFFFF with (Z.ones 16). change 0x7 with (Z.ones 3). change 0xFFFFFFFF with (Z.ones 32).
  rewrite !Z.land_ones, !Z.shiftr_div_pow2 by lia. unfold is_u64, is_u8, bits in *.
  f_equal; [..|f_equal]; Z.to_euclidean_division_equations; lia.
Qed.

(** ** The table after start-up *)

Section table.
Variable stub : Z -> Z.

Definition vector_gate (v : Z) : IDT_ENTRY := gate_of (stub v) GDT_KRNL_CODE_SEL (GetVectorGateType v) (GetVectorIstIndex v).

Lemma table_init_run d : length (kInterruptDescriptorTable d) = 256%nat ->
  exists d', IdtInit stub d = Ok (EC_SUCCESS, d') /\ length (kInterruptDescriptorTable d') = 256%nat /\
    (forall v, 0 <= v < 256 -> kInterruptDescriptorTable d' !! Z.to_nat v = Some (vector_gate v)) /\
    kIdtLimit d' = 4095 /\ kInterruptHandlers d' = replicate 256 (mkHandler 0 0) /\ hooks d' = hooks d /\
    gKeUserModeSyscallInitialized d' = gKeUserModeSyscallInitialized d.
Proof.
  intros Hl. unfold IdtInit. set (d0 := set_handlers _ d).
  destruct (for_loop_rule (fun i e => length (kInterruptDescriptorTable e) = 256%nat /\
      (forall v, 0 <= v < i -> kInterruptDescriptorTable e !! Z.to_nat v = Some (vector_gate v)) /\
      kInterruptHandlers e = replicate 256 (mkHandler 0 0) /\ hooks e = hooks d /\
      gKeUserModeSyscallInitialized e = gKeUserModeSyscallInitialized d)
    256 0 (fun i d => IdtSetEntry i (stub i) GDT_KRNL_CODE_SEL (GetVectorGateType (u8 i)) (GetVectorIstIndex (u8 i)) d) d0)
    as (d1 & E & H1 & H2 & H3 & H4 & H5).
  - split; [exact Hl|]. split; [intros v Hv; lia|]. done.
  - intros i e Hi (H1 & H2 & H3 & H4 & H5). unfold IdtSetEntry. rewrite wr_in by lia. cbn [res_bind].
    eexists. split; [reflexivity|]. cbn [kInterruptDescriptorTable kInterruptHandlers hooks gKeUserModeSyscallInitialized set_entries].
    rewrite (u8_small i) by (unfold is_u8; lia). split; [by rewrite length_insert|]. split; [|done].
    intros v Hv. destruct (decide (v = i)) as [->|Hne].
    + rewrite list_lookup_insert_eq by lia. done.
    + rewrite list_lookup_insert_ne by lia. apply H2. lia.
  - rewrite E. cbn [res_bind]. eexists. split; [reflexivity|]. cbn. by repeat split.
Qed.

(** C18: After [IdtInit] the processor finds, for each of the 256 vectors, a
    present gate to exactly that vector's stub, whatever 64-bit address it
    has, in the kernel's code segment; double and page faults run on stacks of
    their own; only the system-call vector can be raised by an instruction of
    ring 3, so a user program enters the kernel nowhere else of its own will;
    interrupts stay enabled only through the gates of #BP, #OF and the system
    call; and no vector has a handler yet. *)
Theorem gates_admit_only_system_calls d : length (kInterruptDescriptorTable d) = 256%nat ->
  (forall v, 0 <= v < 256 -> is_u64 (stub v)) ->
  exists d', IdtInit stub d = Ok (EC_SUCCESS, d') /\ kIdtLimit d' = 16 * 256 - 1 /\
    forall v, 0 <= v < 256 -> exists e, kInterruptDescriptorTable d' !! Z.to_nat v = Some e /\
      let gate := hw_gate (gate_bits e) in
      gTarget gate = stub v /\ gSegment gate = GDT_KRNL_CODE_SEL /\ gPresent gate = true /\
      gStack gate = (if v =? 8 then 1 else if v =? 14 then 2 else 0) /\
      (hw_int_allowed gate 3 = true <-> v = EX_USER_SYSCALL_VECTOR) /\
      gType gate = (if (v =? 3) || (v =? 4) || (v =? EX_USER_SYSCALL_VECTOR) then hw_trap_gate else hw_interrupt_gate) /\
      rd (kInterruptHandlers d') v = Ok (mkHandler 0 0).
Proof.
  intros Hl Hs. destruct (table_init_run d Hl) as (d' & E & _ & He & Hlim & Hh & _). exists d'. split; [exact E|]. split; [exact Hlim|].
  intros v Hv. exists (vector_gate v). split; [by apply He|]. unfold vector_gate.
  rewrite gate_round_trip; [|by apply Hs | unfold is_u8, GetVectorGateType; repeat case_match; split; by vm_compute |
    unfold GetVectorIstIndex; repeat case_match; lia].
  cbn [gTarget gSegment gPresent gStack gType]. split; [done|]. split; [done|].
  unfold GetVectorGateType, GetVectorIstIndex, hw_int_allowed, EX_USER_SYSCALL_VECTOR. cbn [gRing gPresent].
  rewrite Hh. assert (Hr : rd (replicate 256 (mkHandler 0 0)) v = Ok (mkHandler 0 0)).
  { apply rd_ok. split; [lia|]. apply lookup_replicate_2. lia. }
  rewrite Hr. destruct (Z.eqb_spec v 0x80) as [->|Hn]; [by repeat split|].
  destruct (Z.eqb_spec v 3) as [->|H3]; [by repeat split|]. destruct (Z.eqb_spec v 4) as [->|H4]; [by repeat split|].
  cbn [orb]. split; [done|]. split; [done|]. split; [|done]. split; [by intros ?|]. by intros ->.
Qed.
End table.

(** ** Dispatch after start-up *)

(** The static variables when the kernel is loaded. *)
Definition loaded : IDT :=
  mkIdt (replicate 256 (mkEntry 0 0 0 0 0 0 0)) 0 (replicate 256 (mkHandler 0 0)) no_hooks false.

(** A fault of user code that the runtime answers for. *)
Definition user_fault (c : CPU_STATE) (frame : INTERRUPT_FRAME) : Prop :=
  (u8 (VectorNumber frame) = 0 \/ u8 (VectorNumber frame) = 14) /\ Z.land (CS frame) 3 = 3 /\ CurrentThread c <> 0 /\ owned c = true.

#[global] Instance user_fault_dec c frame : Decision (user_fault c frame).
Proof. unfold user_fault. apply _. Defined.

Section started.
Variable stub : Z -> Z.
Variable a : ROUTINES.

(** Every function has an address. *)
Hypothesis placed : KiHandleUserSyscallTrap_at a <> 0 /\ ExUserRuntimeEnterHook_at a <> 0 /\ ExUserRuntimeOwnsThreadHook_at a <> 0 /\
  ExUserRuntimeResolveRootHook_at a <> 0 /\ ExUserRuntimeFinalizeThreadHook_at a <> 0 /\ ExUserRuntimeFaultHook_at a <> 0.

(** Validating twice. *)
Lemma validate_again g g' : ExProgramValidateBuiltins g = (EC_SUCCESS, g') -> ExProgramValidateBuiltins g' = (EC_SUCCESS, g').
Proof.
  unfold ExProgramValidateBuiltins. destruct (validate_entries (gExBuiltinPrograms g)) as [st l] eqn:E.
  destruct st; try by intros [= ? ?]. intros [= <-]. cbn [gExBuiltinPrograms]. apply validated_entries in E.
  assert (E2 : validate_entries l = (EC_SUCCESS, l)); [|by rewrite E2].
  induction E as [|e e' es es' He Hes IH]; [done|]. cbn [validate_entries].
  assert (Ee : KiValidateProgramRegistryEntry e' = (EC_SUCCESS, e')); [|by rewrite Ee, IH].
  revert He. unfold KiValidateProgramRegistryEntry. destruct e as [[] ? ?]. cbn -[bool_decide].
  repeat (case_match; [done|]). intros [= <-]. cbn -[bool_decide].
  repeat match goal with E : _ = false |- _ => rewrite E; clear E end. done.
Qed.

Lemma register_run v handler context d : 32 <= v < 256 -> handler <> 0 -> length (kInterruptHandlers d) = 256%nat ->
  IdtRegisterInterruptHandler v handler context d =
    Ok (EC_SUCCESS, set_handlers (<[Z.to_nat v := mkHandler handler context]> (kInterruptHandlers d)) d).
Proof.
  intros Hv Hn Hl. unfold IdtRegisterInterruptHandler. rewrite (proj2 (Z.ltb_ge v 32)), (proj2 (Z.eqb_neq _ 0) Hn) by lia.
  cbn [orb]. by rewrite wr_in by lia.
Qed.

Lemma hooks_run d : hooks d = no_hooks -> ExUserRuntimeInit a d =
  (EC_SUCCESS, set_hooks (mkHooks (ExUserRuntimeEnterHook_at a) (ExUserRuntimeOwnsThreadHook_at a)
     (ExUserRuntimeResolveRootHook_at a) (ExUserRuntimeFinalizeThreadHook_at a) 0 (ExUserRuntimeFaultHook_at a)) d).
Proof.
  intros Hk. destruct placed as (_ & P2 & P3 & P4 & P5 & P6). unfold ExUserRuntimeInit, KeRegisterUserRuntimeHooks.
  by rewrite (proj2 (Z.eqb_neq _ 0) P2), (proj2 (Z.eqb_neq _ 0) P3), (proj2 (Z.eqb_neq _ 0) P4), (proj2 (Z.eqb_neq _ 0) P5),
    (proj2 (Z.eqb_neq _ 0) P6), Hk.
Qed.

Lemma start_run g g' d0 : IdtInit stub loaded = Ok (EC_SUCCESS, d0) -> ExProgramValidateBuiltins g = (EC_SUCCESS, g') ->
  exists d, ExRuntimeInit a g d0 = Ok (EC_SUCCESS, g', d) /\
    kInterruptHandlers d = <[Z.to_nat EX_USER_SYSCALL_VECTOR := mkHandler (KiHandleUserSyscallTrap_at a) 0]> (replicate 256 (mkHandler 0 0)) /\
    hooks d = mkHooks (ExUserRuntimeEnterHook_at a) (ExUserRuntimeOwnsThreadHook_at a) (ExUserRuntimeResolveRootHook_at a)
      (ExUserRuntimeFinalizeThreadHook_at a) 0 (ExUserRuntimeFaultHook_at a) /\ gKeUserModeSyscallInitialized d = true.
Proof.
  intros E V. destruct (table_init_run stub loaded eq_refl) as (d1 & E1 & _ & _ & _ & Hh & Hk & Hi). rewrite E in E1. injection E1 as <-.
  unfold ExRuntimeInit. rewrite V, bool_decide_true by done. cbn [negb]. unfold KeUserModeSyscallInit.
  rewrite Hi. change (gKeUserModeSyscallInitialized loaded) with false.
  rewrite register_run; [|unfold EX_USER_SYSCALL_VECTOR; lia | apply placed | by rewrite Hh; apply length_replicate].
  cbn [res_bind]. rewrite bool_decide_true by done. cbn [negb res_bind]. rewrite bool_decide_true by done. cbn [negb].
  rewrite hooks_run by exact Hk. eexists. split; [reflexivity|]. cbn [kInterruptHandlers hooks gKeUserModeSyscallInitialized set_hooks set_syscalls set_handlers].
  rewrite Hh. exact (conj eq_refl (conj eq_refl eq_refl)).
Qed.

(** C19: Once [ExRuntimeInit] has run on a fresh table, every interrupt goes
    where it belongs.  A divide error or page fault of ring 3 in a thread that
    the user runtime owns goes to its fault hook, with the vector, the address
    and the error code of the fault, and never halts the machine; every other
    exception halts with its vector; vector 0x80 runs the system-call trap,
    not as an interrupt; any other vector runs the handler registered for it,
    as an interrupt, or is only reported.  Registering for an exception vector
    is refused, and a second start of the runtime is refused and changes
    nothing. *)
Theorem interrupts_go_where_they_belong g g' d0 c frame : IdtInit stub loaded = Ok (EC_SUCCESS, d0) ->
  ExProgramValidateBuiltins g = (EC_SUCCESS, g') ->
  exists d, ExRuntimeInit a g d0 = Ok (EC_SUCCESS, g', d) /\
    let v := u8 (VectorNumber frame) in
    (user_fault c frame -> exists context, IdtExceptionHandler c frame d = Ok (CallFaultHook (ExUserRuntimeFaultHook_at a) (CurrentThread c) context) /\
       fVectorNumber context = v /\ fInstructionPointer context = RIP frame /\
       fFaultAddress context = (if v =? 14 then ReadCr2 c else 0) /\ fPageFaultErrorCode context = (if v =? 14 then u32 (ErrorCode frame) else 0)) /\
    (v < 32 -> ~ user_fault c frame -> exists context, IdtExceptionHandler c frame d = Ok (Halt (- v) context) /\ Frame context = frame) /\
    (v = EX_USER_SYSCALL_VECTOR -> IdtExceptionHandler c frame d = Ok (CallHandler (KiHandleUserSyscallTrap_at a) 0 false)) /\
    (32 <= v -> v <> EX_USER_SYSCALL_VECTOR -> IdtExceptionHandler c frame d = Ok (Unhandled true) /\
       forall handler context, handler <> 0 -> exists d2, IdtRegisterInterruptHandler v handler context d = Ok (EC_SUCCESS, d2) /\
         IdtExceptionHandler c frame d2 = Ok (CallHandler handler context true)) /\
    (v < 32 -> forall handler context, IdtRegisterInterruptHandler v handler context d = Ok (EC_ILLEGAL_ARGUMENT, d)) /\
    ExRuntimeInit a g' d = Ok (EC_INVALID_STATE, g', d).
Proof.
  intros E V. destruct (start_run g g' d0 E V) as (d & Ed & Hh & Hk & Hi). exists d. split; [exact Ed|]. cbn zeta.
  destruct placed as (P1 & P2 & P3 & P4 & P5 & P6). set (v := u8 (VectorNumber frame)).
  assert (Hv : 0 <= v < 256) by (apply u8_range).
  assert (Lh : length (kInterruptHandlers d) = 256%nat) by (rewrite Hh, length_insert; apply length_replicate).
  assert (T : TryHandleUserRuntimeFault c (CaptureCpuExceptionContext c frame) d =
    if decide (user_fault c frame)
    then Some (CallFaultHook (ExUserRuntimeFaultHook_at a) (CurrentThread c) (PopulateUserRuntimeFaultContext (CaptureCpuExceptionContext c frame)))
    else None).
  { unfold TryHandleUserRuntimeFault. assert (Hf : Frame (CaptureCpuExceptionContext c frame) = frame) by (unfold CaptureCpuExceptionContext; by case_match).
    rewrite Hf. unfold IsUserRuntimeFaultVector, IsUserModeExceptionFrame, KiGetUserRuntimeOwnsThreadHook, KiGetUserRuntimeFaultHook.
    rewrite Hk. cbn [gUserRuntimeOwnsThreadHook gUserRuntimeFaultHook]. rewrite (proj2 (Z.eqb_neq _ 0) P3), (proj2 (Z.eqb_neq _ 0) P6).
    destruct (decide (user_fault c frame)) as [(Hvec & Hcs & Hkt & Ho)|Hno].
    - rewrite Hcs, Ho, (proj2 (Z.eqb_neq _ 0) Hkt). by destruct Hvec as [-> | ->].
    - destruct (negb _ || negb _) eqn:B1; [done|]. destruct (_ || _ || _ || _) eqn:B2; [done|]. exfalso. apply Hno.
      apply orb_false_iff in B1 as [B1 B3]. apply negb_false_iff, orb_prop in B1. apply negb_false_iff, Z.eqb_eq in B3.
      apply orb_false_iff in B2 as [B2 B4]. apply negb_false_iff in B4. rewrite !orb_false_r in B2. apply Z.eqb_neq in B2.
      split; [|exact (conj B3 (conj B2 B4))]. rewrite <- !Z.eqb_eq. exact B1. }
  unfold IdtExceptionHandler. fold v. split; [|split; [|split; [|split; [|split]]]].
  - intros F. rewrite T, decide_True by exact F. 
    assert (Hlt : v < 32) by (destruct F as [[F|F] _]; fold v in F; lia). rewrite (proj2 (Z.ltb_lt v 32) Hlt).
    eexists. split; [reflexivity|]. unfold PopulateUserRuntimeFaultContext, CaptureCpuExceptionContext. fold v.
    destruct (v =? 14); repeat split.
  - intros Hlt F. rewrite T, decide_False by exact F. rewrite (proj2 (Z.ltb_lt v 32)) by lia. eexists. split; [reflexivity|].
    unfold CaptureCpuExceptionContext. destruct (u8 (VectorNumber frame) =? 14); reflexivity.
  - intros Hs. rewrite Hs. unfold HandleRegisteredVector. fold v. rewrite Hs, Hh. cbn [IsSynchronousTrapVector].
    rewrite (proj2 (rd_ok _ _ (mkHandler (KiHandleUserSyscallTrap_at a) 0))).
    { cbn [res_bind Handler HContext]. rewrite (proj2 (Z.eqb_neq _ 0) P1). reflexivity. }
    split; [lia|]. apply list_lookup_insert_eq. rewrite length_replicate. unfold EX_USER_SYSCALL_VECTOR. lia.
  - intros Hge Hn. rewrite (proj2 (Z.ltb_ge v 32)) by lia. unfold IsSynchronousTrapVector. rewrite (proj2 (Z.eqb_neq _ _) Hn).
    unfold HandleRegisteredVector. fold v. split.
    + rewrite Hh, (proj2 (rd_ok _ _ (mkHandler 0 0))); [reflexivity|]. split; [lia|].
      rewrite list_lookup_insert_ne; [apply lookup_replicate_2; lia|].
      intros En. apply Hn. symmetry. apply (Z2Nat.inj EX_USER_SYSCALL_VECTOR v) in En; [exact En | discriminate | lia].
    + intros handler context Hnz. rewrite register_run; [|lia | exact Hnz | exact Lh]. eexists. split; [reflexivity|].
      cbn [kInterruptHandlers set_handlers]. rewrite (proj2 (rd_ok _ _ (mkHandler handler context))).
      * cbn [res_bind Handler HContext]. rewrite (proj2 (Z.eqb_neq _ 0) Hnz). reflexivity.
      * split; [lia|]. apply list_lookup_insert_eq. lia.
  - intros Hlt handler context. unfold IdtRegisterInterruptHandler. rewrite (proj2 (Z.ltb_lt v 32) Hlt). reflexivity.
  - unfold ExRuntimeInit. rewrite (validate_again g g' V), bool_decide_true by reflexivity. cbn [negb].
    unfold KeUserModeSyscallInit. rewrite Hi. cbn [res_bind]. rewrite bool_decide_true by reflexivity. cbn [negb].
    unfold ExUserRuntimeInit, KeRegisterUserRuntimeHooks. rewrite Hk. cbn [gUserRuntimeEnterHook].
    rewrite (proj2 (Z.eqb_neq _ 0) P2), (proj2 (Z.eqb_neq _ 0) P3), (proj2 (Z.eqb_neq _ 0) P4), (proj2 (Z.eqb_neq _ 0) P5),
      (proj2 (Z.eqb_neq _ 0) P6). reflexivity.
Qed.
End started.

(** Stubs sixteen bytes apart in the kernel's half, and the sample registry
    of [Program]. *)
Definition sample_stub (v : Z) : Z := 0xFFFF800000100000 + 16 * v.
Definition sample_routines : ROUTINES := mkRoutines 1 2 3 4 5 6.

Lemma gates_admit_only_system_calls_witness : exists d', IdtInit sample_stub loaded = Ok (EC_SUCCESS, d') /\
  exists e, kInterruptDescriptorTable d' !! 128%nat = Some e /\ gTarget (hw_gate (gate_bits e)) = 0xFFFF800000100800 /\
    hw_int_allowed (hw_gate (gate_bits e)) 3 = true.
Proof.
  destruct (gates_admit_only_system_calls sample_stub loaded eq_refl) as (d' & E & _ & Hg).
  { intros v Hv. unfold is_u64, sample_stub. lia. }
  exists d'. split; [exact E|]. destruct (Hg EX_USER_SYSCALL_VECTOR) as (e & He & Ht & _ & _ & _ & Hi & _).
  { unfold EX_USER_SYSCALL_VECTOR. lia. }
  exists e. split; [exact He|]. split; [exact Ht|]. apply Hi. reflexivity.
Defined.

(** A divide error of user code, and one of the kernel. *)
Definition user_divide : INTERRUPT_FRAME := mkFrame 0 0 0x400010 0x1B.
Definition kernel_divide : INTERRUPT_FRAME := mkFrame 0 0 0xFFFF800000200000 0x8.
Definition sample_cpu : CPU_STATE := mkCpu 0 false 7 true.

Lemma sample_table : exists d0, IdtInit sample_stub loaded = Ok (EC_SUCCESS, d0).
Proof. eexists. vm_compute. reflexivity. Qed.

Lemma interrupts_go_where_they_belong_witness : exists d context context2,
  IdtExceptionHandler sample_cpu user_divide d = Ok (CallFaultHook 6 7 context) /\ fInstructionPointer context = 0x400010 /\
  IdtExceptionHandler sample_cpu kernel_divide d = Ok (Halt 0 context2) /\
  IdtExceptionHandler sample_cpu (mkFrame 128 0 0x400020 0x1B) d = Ok (CallHandler 1 0 false).
Proof.
  destruct sample_table as [d0 E0].
  assert (P : KiHandleUserSyscallTrap_at sample_routines <> 0 /\ ExUserRuntimeEnterHook_at sample_routines <> 0 /\
    ExUserRuntimeOwnsThreadHook_at sample_routines <> 0 /\ ExUserRuntimeResolveRootHook_at sample_routines <> 0 /\
    ExUserRuntimeFinalizeThreadHook_at sample_routines <> 0 /\ ExUserRuntimeFaultHook_at sample_routines <> 0).
  { repeat split; discriminate. }
  pose proof (interrupts_go_where_they_belong sample_stub sample_routines P (boot_programs sample_symbols) sample_programs d0) as T.
  destruct (T sample_cpu user_divide E0 sample_validated) as (d & Ed & Hu & _).
  destruct (T sample_cpu kernel_divide E0 sample_validated) as (d2 & Ed2 & _ & Hh & _).
  rewrite Ed in Ed2. injection Ed2 as <-.
  destruct (T sample_cpu (mkFrame 128 0 0x400020 0x1B) E0 sample_validated) as (d2 & Ed2 & _ & _ & Hs & _).
  rewrite Ed in Ed2. injection Ed2 as <-.
  destruct Hu as (context & E1 & _ & Hi & _); [repeat split; [left; reflexivity | discriminate]|].
  destruct Hh as (context2 & E2 & _); [reflexivity | intros (_ & Hcs & _); discriminate Hcs |].
  exists d, context, context2. split; [exact E1|]. split; [exact Hi|]. split; [exact E2|]. apply Hs. reflexivity.
Defined.
End Idt.
