(* ===== verification/Time.v ===== *)
(** * Clocks: counters, their sinks and the time source device

    The counter drivers ([drivers/time/]), their sinks ([ke/time/sinks/]), the
    time source ([ke/time/time_source.c]), the processor information they start
    from ([arch/amd64/cpu.c]) and the clock stamp of log lines ([ke/log/log.c]).
    The hardware is class [TimeHw]: counters, device registers, [cpuid] and the
    firmware's tables in memory.  The properties are in [TimeThms]. *)

From stdpp Require Import strings.
From S2P Require Import Prelude.

Local Open Scope Z_scope.

(** ** Hardware

    Reading a device register may change the machine; [ram] is the memory behind
    the direct map, a byte per virtual address. *)
Class TimeHw (M : Type) := {
  rdtsc : M -> Z * M;
  inl : Z -> M -> Z * M;
  read64 : Z -> M -> Z * M;
  write64 : Z -> Z -> M -> M;
  pause : M -> M;
  cpuidex : Z -> Z -> M -> Z * Z * Z * Z;   (* eax, ebx, ecx, edx *)
  ram : M -> Z -> Z
}.

Module Time.

Definition HHDM_PHYS2VIRT (addr : Z) : Z := u64 (addr + 0xFFFF900000000000).

Definition success (status : HO_STATUS) : bool := bool_decide (status = EC_SUCCESS).
Definition bit_set (v bit : Z) : bool := negb (Z.land v (Z.shiftl 1 bit) =? 0).

(** ** Multiplication and division

    [divq] raises #DE when the quotient does not fit, which includes a zero
    divisor; [IdtExceptionHandler] then halts the machine with code -0, the
    number of [EC_SUCCESS]. *)
Definition Div128By64 (hi lo div : Z) : res Z :=
  if div <=? hi then Panic EC_SUCCESS else Ok ((hi * 2 ^ 64 + lo) / div).

Definition Mul64Div64 (value mul div : Z) : res Z :=
  let product := value * mul in
  let hi := u64 (Z.shiftr product 64) in
  let lo := u64 product in
  Div128By64 hi lo div.

(** ** Data ([time_source.h], [sinks/]) *)

Record KE_HPET_TIME_SINK := mkHpet { hpetBaseVirt : Z; hpetFreqHz : Z; hpetInitialized : bool }.

Record KE_PMTIMER_TIME_SINK := mkPmTimer {
  pmPort : Z;
  pmFreqHz : Z;
  pmHigh : Z;
  pmLastRaw : Z;
  pmBitWidth : Z;
  pmInitialized : bool
}.

Record KE_TSC_TIME_SINK := mkTsc {
  tscFreqHz : Z;
  tscIsInvariant : bool;
  tscInitialized : bool;
  tscCalibrated : bool
}.

Inductive TIME_SOURCE_KIND := TIME_SOURCE_NONE | TIME_SOURCE_TSC | TIME_SOURCE_PM_TIMER | TIME_SOURCE_HPET.

(** A pointer to the [Base] of one of the three static sinks. *)
Inductive KE_TIME_SINK := HpetBase | PmTimerBase | TscBase.

#[export] Instance KE_TIME_SINK_eq_dec : EqDecision KE_TIME_SINK.
Proof. solve_decision. Defined.

Record KE_TIME_DEVICE := mkTimeDevice {
  ActiveSink : option KE_TIME_SINK;
  FreqHz : Z;
  StartTick : Z;
  tdInitialized : bool;
  Kind : TIME_SOURCE_KIND
}.

(** The static variables and the hardware. *)
Record TIME (M : Type) := mkTime {
  gTimeDevice : KE_TIME_DEVICE;
  gHpetSink : KE_HPET_TIME_SINK;
  gPmTimerSink : KE_PMTIMER_TIME_SINK;
  gTscSink : KE_TSC_TIME_SINK;
  hw : M
}.
#[global] Arguments mkTime {M}.
#[global] Arguments gTimeDevice {M}.
#[global] Arguments gHpetSink {M}.
#[global] Arguments gPmTimerSink {M}.
#[global] Arguments gTscSink {M}.
#[global] Arguments hw {M}.

(** What [memset] leaves. *)
Definition no_hpet : KE_HPET_TIME_SINK := mkHpet 0 0 false.
Definition no_pmtimer : KE_PMTIMER_TIME_SINK := mkPmTimer 0 0 0 0 0 false.
Definition no_tsc : KE_TSC_TIME_SINK := mkTsc 0 false false false.
Definition no_device : KE_TIME_DEVICE := mkTimeDevice None 0 0 false TIME_SOURCE_NONE.

Section setters.
Context {M : Type}.
Implicit Type s : TIME M.
Definition set_device d s : TIME M := mkTime d (gHpetSink s) (gPmTimerSink s) (gTscSink s) (hw s).
Definition set_hpet x s : TIME M := mkTime (gTimeDevice s) x (gPmTimerSink s) (gTscSink s) (hw s).
Definition set_pmtimer x s : TIME M := mkTime (gTimeDevice s) (gHpetSink s) x (gTscSink s) (hw s).
Definition set_tsc x s : TIME M := mkTime (gTimeDevice s) (gHpetSink s) (gPmTimerSink s) x (hw s).
Definition set_hw m s : TIME M := mkTime (gTimeDevice s) (gHpetSink s) (gPmTimerSink s) (gTscSink s) m.
End setters.

Section drivers.
Context {M : Type} {HW : TimeHw M}.
Implicit Types (m : M) (s : TIME M).

(** ** Memory *)

(** [n] bytes at [a], least significant first. *)
Fixpoint load_bytes (n : nat) (a : Z) m : Z :=
  match n with O => 0 | S k => ram m a + 256 * load_bytes k (u64 (a + 1)) m end.

(** ** Processor information ([arch/amd64/cpu.c], [arch.c]) *)

Definition ARCH_TIMER_FEAT_NONE : Z := 0.
Definition ARCH_TIMER_FEAT_COUNTER : Z := 1.
Definition ARCH_TIMER_FEAT_INVARIANT : Z := 2.
Definition ARCH_TIMER_FEAT_ONE_SHOT : Z := 4.
Definition CPU_MODEL_NAME_LENGTH : nat := 128.

(** [IsRunningInHypervisor] is a [BOOL], an unsigned char. *)
Record ARCH_BASIC_CPU_INFO := mkCpuInfo {
  IsRunningInHypervisor : Z;
  TimerFeatures : Z;
  ModelName : list Z;
  MaxLeafSupported : Z;
  MaxExtLeafSupported : Z
}.

Definition cpuid (leaf : Z) m : Z * Z * Z * Z := cpuidex leaf 0 m.

(** The bytes of a register as [namePtr] stores them. *)
Definition word_bytes (w : Z) : list Z :=
  [w mod 256; Z.shiftr w 8 mod 256; Z.shiftr w 16 mod 256; Z.shiftr w 24 mod 256].
Definition name_part (leaf : Z) m : list Z :=
  let '(a, b, c, d) := cpuid leaf m in word_bytes a ++ word_bytes b ++ word_bytes c ++ word_bytes d.
Definition char_codes (t : string) : list Z := map (fun c => Z.of_N (Ascii.N_of_ascii c)) (String.list_ascii_of_string t).
Definition padded (l : list Z) : list Z := l ++ replicate (CPU_MODEL_NAME_LENGTH - length l) 0.

Definition x64_GetBasicCpuInfo m : ARCH_BASIC_CPU_INFO :=
  let timer := ARCH_TIMER_FEAT_NONE in
  let '(_, _, ecx, edx) := cpuid 0x1 m in
  let hypervisor := u8 (Z.land ecx (Z.shiftl 1 31)) in
  let timer := if bit_set ecx 24 then Z.lor timer ARCH_TIMER_FEAT_ONE_SHOT else timer in
  let timer := if bit_set edx 4 then Z.lor timer ARCH_TIMER_FEAT_COUNTER else timer in
  let '(maxLeaf, _, _, _) := cpuid 0x0 m in
  let '(maxExt, _, _, _) := cpuid 0x80000000 m in
  let timer := if 0x80000007 <=? maxExt
    then let '(_, _, _, edx) := cpuid 0x80000007 m in
         if bit_set edx 8 then Z.lor timer ARCH_TIMER_FEAT_INVARIANT else timer
    else timer in
  let name := if 0x80000004 <=? maxExt
    then padded (name_part 0x80000002 m ++ name_part 0x80000003 m ++ name_part 0x80000004 m)
    else padded (char_codes "Unknown CPU") in
  mkCpuInfo hypervisor timer name maxLeaf maxExt.

Definition GetBasicCpuInfo m : ARCH_BASIC_CPU_INFO := x64_GetBasicCpuInfo m.

(** ** Time stamp counter ([tsc_driver.c]) *)

Definition ReadTickInternal m : Z * M := rdtsc m.
Definition TscDetectAvailable (cpuInfo : ARCH_BASIC_CPU_INFO) : bool :=
  negb (Z.land (TimerFeatures cpuInfo) ARCH_TIMER_FEAT_COUNTER =? 0).
Definition TscDetectInvariant (cpuInfo : ARCH_BASIC_CPU_INFO) : bool :=
  negb (Z.land (TimerFeatures cpuInfo) ARCH_TIMER_FEAT_INVARIANT =? 0).

Definition freq_from_ratio (cpuInfo : ARCH_BASIC_CPU_INFO) m : option Z :=
  if 0x15 <=? MaxLeafSupported cpuInfo then
    let '(eax, ebx, ecx, _) := cpuidex 0x15 0 m in
    if negb (eax =? 0) && negb (ebx =? 0) && negb (ecx =? 0) then Some (u64 (ecx * ebx) / eax) else None
  else None.
Definition freq_from_base (cpuInfo : ARCH_BASIC_CPU_INFO) m : option Z :=
  if 0x16 <=? MaxLeafSupported cpuInfo then
    let '(eax, _, _, _) := cpuidex 0x16 0 m in
    if negb (Z.land eax 0xFFFF =? 0) then Some (u64 (Z.land eax 0xFFFF * 1000000)) else None
  else None.
Definition TscGetFreqFromCpuid (cpuInfo : ARCH_BASIC_CPU_INFO) m : Z :=
  match freq_from_ratio cpuInfo m with
  | Some f => f
  | None => match freq_from_base cpuInfo m with Some f => f | None => 0 end
  end.
Definition TscReadTick m : Z * M := ReadTickInternal m.

(** ** The firmware's tables ([acpi.h])

    Addresses of packed structures; the accessors carry the fields' offsets. *)

Definition ACPI_SDT_HEADER_size : Z := 36.
Definition rsdp_Revision (rsdp : Z) m : Z := load_bytes 1 (u64 (rsdp + 15)) m.
Definition rsdp_RsdtPhys (rsdp : Z) m : Z := load_bytes 4 (u64 (rsdp + 16)) m.
Definition rsdp_XsdtPhys (rsdp : Z) m : Z := load_bytes 8 (u64 (rsdp + 24)) m.
Definition sdt_Signature (table : Z) m : Z := load_bytes 4 table m.
Definition sdt_Length (table : Z) m : Z := load_bytes 4 (u64 (table + 4)) m.
Definition fadt_PmTmrBlk (fadt : Z) m : Z := load_bytes 4 (u64 (fadt + 76)) m.
Definition fadt_Flags (fadt : Z) m : Z := load_bytes 4 (u64 (fadt + 112)) m.
Definition fadt_XPmTmrBlk (fadt : Z) : Z := u64 (fadt + 208).
Definition gas_AddressSpaceId (gas : Z) m : Z := load_bytes 1 gas m.
Definition gas_Address (gas : Z) m : Z := load_bytes 8 (u64 (gas + 4)) m.
Definition hpet_AddressSpaceId (table : Z) m : Z := load_bytes 1 (u64 (table + 40)) m.
Definition hpet_BaseAddressPhys (table : Z) m : Z := load_bytes 8 (u64 (table + 44)) m.

(** Four characters as [memcmp] sees them. *)
Definition signature (t : string) : Z := foldr (fun c n => c + 256 * n) 0 (char_codes t).

(** The loop over [entries] addresses of [width] bytes from index [i]. *)
Fixpoint scan_tables (entries : nat) (i : Z) (tableAddrs : Z) (width : nat) (wanted : Z) m : option Z :=
  match entries with
  | O => None
  | S entries =>
      let table := HHDM_PHYS2VIRT (load_bytes width (u64 (tableAddrs + i * Z.of_nat width)) m) in
      if sdt_Signature table m =? wanted then Some table
      else scan_tables entries (i + 1) tableAddrs width wanted m
  end.

Definition scan_root (root : Z) (width : nat) (wanted : Z) m : option Z :=
  let sdt := HHDM_PHYS2VIRT root in
  let entries := u32 (u64 (sdt_Length sdt m - ACPI_SDT_HEADER_size) / Z.of_nat width) in
  scan_tables (Z.to_nat entries) 0 (u64 (sdt + ACPI_SDT_HEADER_size)) width wanted m.

(** The two drivers look for their tables in the same way. *)
Definition acpi_find (wanted : Z) (rsdpPhys : Z) m : option Z :=
  let rsdp := HHDM_PHYS2VIRT rsdpPhys in
  let xsdt := if (2 <=? rsdp_Revision rsdp m) && negb (rsdp_XsdtPhys rsdp m =? 0)
              then scan_root (rsdp_XsdtPhys rsdp m) 8 wanted m else None in
  match xsdt with
  | Some table => Some table
  | None => if negb (rsdp_RsdtPhys rsdp m =? 0) then scan_root (rsdp_RsdtPhys rsdp m) 4 wanted m else None
  end.

Definition AcpiFindHpetTable (rsdpPhys : Z) m : option Z := acpi_find (signature "HPET") rsdpPhys m.
Definition AcpiFindFadtTable (rsdpPhys : Z) m : option Z := acpi_find (signature "FACP") rsdpPhys m.
End drivers.

Section sinks.
Context {M : Type} {HW : TimeHw M}.
Implicit Types (m : M) (s : TIME M).

(** ** HPET ([hpet_driver.c], [hpet_sink.c]) *)

Definition HPET_REG_CAP_ID : Z := 0x000.
Definition HPET_REG_CONFIG : Z := 0x010.
Definition HPET_REG_MAIN_COUNTER : Z := 0x0F0.
Definition HPET_CONFIG_ENABLE : Z := 1.

Definition HpetReadReg (baseVirt offset : Z) m : Z * M := read64 (u64 (baseVirt + offset)) m.
Definition HpetWriteReg (baseVirt offset value : Z) m : M := write64 (u64 (baseVirt + offset)) value m.

(** The outputs are what is stored through [baseVirtOut] and [freqHzOut]. *)
Definition HpetSetup (acpiRsdpPhys : Z) m : HO_STATUS * option (Z * Z) * M :=
  match AcpiFindHpetTable acpiRsdpPhys m with
  | None => (EC_NOT_SUPPORTED, None, m)
  | Some hpetTable =>
      if negb (hpet_AddressSpaceId hpetTable m =? 0) then (EC_NOT_SUPPORTED, None, m) else
      let baseVirt := HHDM_PHYS2VIRT (hpet_BaseAddressPhys hpetTable m) in
      let '(capId, m) := HpetReadReg baseVirt HPET_REG_CAP_ID m in
      let periodFs := u32 (Z.shiftr capId 32) in
      if periodFs =? 0 then (EC_NOT_SUPPORTED, None, m) else
      let freqHz := 1000000000000000 / periodFs in
      let '(config, m) := HpetReadReg baseVirt HPET_REG_CONFIG m in
      let config := Z.lor config HPET_CONFIG_ENABLE in
      let m := HpetWriteReg baseVirt HPET_REG_CONFIG config m in
      (EC_SUCCESS, Some (baseVirt, freqHz), m)
  end.
Definition HpetReadMainCounterAt (baseVirt : Z) m : Z * M := HpetReadReg baseVirt HPET_REG_MAIN_COUNTER m.

Definition HpetSinkReadCounter s : Z * TIME M :=
  let '(v, m) := HpetReadMainCounterAt (hpetBaseVirt (gHpetSink s)) (hw s) in (v, set_hw m s).
Definition HpetSinkGetFrequency s : Z := hpetFreqHz (gHpetSink s).
Definition HpetSinkGetName : string := "HPET".

(** [sink] tells whether the caller passes the sink or NULL, here and below. *)
Definition KeHpetTimeSinkInit (sink : bool) (acpiRsdpPhys : Z) s : HO_STATUS * TIME M :=
  if negb sink then (EC_ILLEGAL_ARGUMENT, s) else
  let s := set_hpet no_hpet s in
  let '(status, out, m) := HpetSetup acpiRsdpPhys (hw s) in
  let s := set_hw m s in
  match out with
  | None => (status, s)
  | Some (baseVirt, freqHz) => (EC_SUCCESS, set_hpet (mkHpet baseVirt freqHz true) s)
  end.

(** ** PM timer ([pmtimer_driver.c], [pmtimer_sink.c]) *)

Definition PM_TIMER_FREQ_HZ : Z := 3579545.
Definition ACPI_GAS_SPACE_SYSTEM_IO : Z := 0x01.
Definition ACPI_FADT_FLAG_TMR_VAL_EXT : Z := Z.shiftl 1 8.

Definition PmTimerExtractFromGas (gas : Z) m : HO_STATUS * option Z :=
  if negb (gas_AddressSpaceId gas m =? ACPI_GAS_SPACE_SYSTEM_IO) then (EC_NOT_SUPPORTED, None) else
  if (gas_Address gas m =? 0) || (0xFFFF <? gas_Address gas m) then (EC_NOT_SUPPORTED, None) else
  (EC_SUCCESS, Some (u64 (gas_Address gas m) mod 2 ^ 16)).

Definition PmTimerSetup (acpiRsdpPhys : Z) m : HO_STATUS * option (Z * Z) :=
  match AcpiFindFadtTable acpiRsdpPhys m with
  | None => (EC_NOT_SUPPORTED, None)
  | Some fadt =>
      let fromGas := if negb (gas_Address (fadt_XPmTmrBlk fadt) m =? 0)
                     then snd (PmTimerExtractFromGas (fadt_XPmTmrBlk fadt) m) else None in
      let port := match fromGas with
        | Some port => Some port
        | None => if negb (fadt_PmTmrBlk fadt m =? 0) && (fadt_PmTmrBlk fadt m <=? 0xFFFF)
                  then Some (fadt_PmTmrBlk fadt m mod 2 ^ 16) else None
        end in
      match port with
      | None => (EC_NOT_SUPPORTED, None)
      | Some port =>
          let bitWidth := if negb (Z.land (fadt_Flags fadt m) ACPI_FADT_FLAG_TMR_VAL_EXT =? 0) then 32 else 24 in
          (EC_SUCCESS, Some (port, bitWidth))
      end
  end.
Definition PmTimerRead (port : Z) m : Z * M := inl port m.

(** What a raw reading does to the sink, and the counter it stands for. *)
Definition pm_extend (raw : Z) (sink : KE_PMTIMER_TIME_SINK) : Z * KE_PMTIMER_TIME_SINK :=
  let raw := if pmBitWidth sink =? 24 then Z.land raw 0x00FFFFFF else raw in
  let high := if raw <? pmLastRaw sink then u64 (pmHigh sink + Z.shiftl 1 (pmBitWidth sink)) else pmHigh sink in
  (Z.lor high raw, mkPmTimer (pmPort sink) (pmFreqHz sink) high raw (pmBitWidth sink) (pmInitialized sink)).

Definition PmTimerSinkReadCounter s : Z * TIME M :=
  let '(raw, m) := PmTimerRead (pmPort (gPmTimerSink s)) (hw s) in
  let '(v, sink) := pm_extend raw (gPmTimerSink s) in
  (v, set_pmtimer sink (set_hw m s)).
Definition PmTimerSinkGetFrequency s : Z := pmFreqHz (gPmTimerSink s).
Definition PmTimerSinkGetName : string := "PMTIMER".

Definition KePmTimerTimeSinkInit (sink : bool) (acpiRsdpPhys : Z) s : HO_STATUS * TIME M :=
  if negb sink then (EC_ILLEGAL_ARGUMENT, s) else
  let s := set_pmtimer no_pmtimer s in
  match PmTimerSetup acpiRsdpPhys (hw s) with
  | (status, None) => (status, s)
  | (_, Some (port, bitWidth)) =>
      let '(raw, m) := PmTimerRead port (hw s) in
      let lastRaw := Z.land raw (if bitWidth =? 24 then 0x00FFFFFF else 0xFFFFFFFF) in
      (EC_SUCCESS, set_pmtimer (mkPmTimer port PM_TIMER_FREQ_HZ 0 lastRaw bitWidth true) (set_hw m s))
  end.

(** ** TSC ([tsc_sink.c]) *)

Definition TscSinkReadCounter s : Z * TIME M :=
  let '(v, m) := TscReadTick (hw s) in (v, set_hw m s).
Definition TscSinkGetFrequency s : Z := tscFreqHz (gTscSink s).
Definition TscSinkGetName : string := "TSC".

Definition KeTscTimeSinkInit (sink : bool) s : HO_STATUS * TIME M :=
  if negb sink then (EC_ILLEGAL_ARGUMENT, s) else
  let s := set_tsc no_tsc s in
  let cpuInfo := GetBasicCpuInfo (hw s) in
  if negb (TscDetectAvailable cpuInfo) then (EC_NOT_SUPPORTED, s) else
  let invariant := TscDetectInvariant cpuInfo in
  let s := set_tsc (mkTsc 0 invariant false false) s in
  if negb invariant && (IsRunningInHypervisor cpuInfo =? 0) then (EC_NOT_SUPPORTED, s) else
  let freqHz := TscGetFreqFromCpuid cpuInfo (hw s) in
  (EC_SUCCESS, set_tsc (mkTsc freqHz invariant true (negb (freqHz =? 0))) s).

(** ** The interface of a sink ([time_sink.h])

    The function pointers of a static sink are set when it is [Initialized];
    before, they are NULL. *)
Definition has_interface (sink : KE_TIME_SINK) s : bool :=
  match sink with
  | HpetBase => hpetInitialized (gHpetSink s)
  | PmTimerBase => pmInitialized (gPmTimerSink s)
  | TscBase => tscInitialized (gTscSink s)
  end.
Definition ReadCounter (sink : KE_TIME_SINK) s : res (Z * TIME M) :=
  if negb (has_interface sink s) then Oob else
  Ok (match sink with
      | HpetBase => HpetSinkReadCounter s
      | PmTimerBase => PmTimerSinkReadCounter s
      | TscBase => TscSinkReadCounter s
      end).
Definition GetFrequency (sink : KE_TIME_SINK) s : res Z :=
  if negb (has_interface sink s) then Oob else
  Ok (match sink with
      | HpetBase => HpetSinkGetFrequency s
      | PmTimerBase => PmTimerSinkGetFrequency s
      | TscBase => TscSinkGetFrequency s
      end).

(** [while ((ReadCounter() - start) < ticks) pause;] *)
Fixpoint wait_ticks (fuel : nat) (sink : KE_TIME_SINK) (start ticks : Z) s : res (TIME M) :=
  match fuel with
  | O => NoFuel
  | S fuel =>
      let* (now, s) := ReadCounter sink s in
      if u64 (now - start) <? ticks then wait_ticks fuel sink start ticks (set_hw (pause (hw s)) s) else Ok s
  end.

(** ** Calibration *)

Definition NUM_ITERATIONS : nat := 5.
Definition DISCARD_EXTREMES : nat := 2.

(** [if (results[i] > results[j])] the two are exchanged. *)
Definition exchange (i j : Z) (results : list Z) : res (list Z) :=
  let* x := rd results i in
  let* y := rd results j in
  if y <? x then let* results := wr results i y in wr results j x else Ok results.
Definition sort_results (results : list Z) : res (list Z) :=
  for_loop (NUM_ITERATIONS - 1) 0 (fun i results =>
    for_loop (Z.to_nat (Z.of_nat NUM_ITERATIONS - (i + 1))) (i + 1) (fun j results => exchange i j results) results) results.
Definition average_middle (results : list Z) : res Z :=
  let* sum := for_loop (NUM_ITERATIONS - 2 * DISCARD_EXTREMES) (Z.of_nat DISCARD_EXTREMES) (fun i sum =>
    let* x := rd results i in Ok (u64 (sum + x))) 0 in
  Ok (sum / Z.of_nat (NUM_ITERATIONS - 2 * DISCARD_EXTREMES)).

(** One measurement and the pause after it. *)
Definition measure (fuel : nat) (refSink : KE_TIME_SINK) (refTicksFor10ms i : Z) s : res (Z * TIME M) :=
  let* (refStart, s) := ReadCounter refSink s in
  let '(tscStart, m) := TscReadTick (hw s) in
  let* s := wait_ticks fuel refSink refStart refTicksFor10ms (set_hw m s) in
  let '(tscEnd, m) := TscReadTick (hw s) in
  let s := set_hw m s in
  let result := u64 (u64 (tscEnd - tscStart) * 100) in
  if i <? Z.of_nat NUM_ITERATIONS - 1 then
    let* (delayStart, s) := ReadCounter refSink s in
    let* s := wait_ticks fuel refSink delayStart (refTicksFor10ms / 10) s in
    Ok (result, s)
  else Ok (result, s).

Definition KeTscTimeSinkCalibrate (fuel : nat) (sink : bool) (refSink : option KE_TIME_SINK) s : res (HO_STATUS * TIME M) :=
  match refSink with
  | Some refSink =>
      if negb sink || negb (tscInitialized (gTscSink s)) then Ok (EC_ILLEGAL_ARGUMENT, s) else
      let* refFreq := GetFrequency refSink s in
      if refFreq =? 0 then Ok (EC_INVALID_STATE, s) else
      let refTicksFor10ms := refFreq / 100 in
      let* (results, s) := for_loop NUM_ITERATIONS 0 (fun i '(results, s) =>
        let* (result, s) := measure fuel refSink refTicksFor10ms i s in
        let* results := wr results i result in
        Ok (results, s)) (replicate NUM_ITERATIONS 0, s) in
      let* results := sort_results results in
      let* freqHz := average_middle results in
      Ok (EC_SUCCESS, set_tsc (mkTsc freqHz (tscIsInvariant (gTscSink s)) (tscInitialized (gTscSink s)) true) s)
  | None => Ok (EC_ILLEGAL_ARGUMENT, s)
  end.
End sinks.

(** ** The time source device ([time_source.c]) *)

Section device.
Context {M : Type} {HW : TimeHw M}.
Variable HO_LOG_MIN_LEVEL : Z.
Implicit Types (m : M) (s : TIME M).

Definition KeGetSystemUpRealTime s : res (Z * TIME M) :=
  match tdInitialized (gTimeDevice s), ActiveSink (gTimeDevice s) with
  | true, Some sink =>
      let* (currentTick, s) := ReadCounter sink s in
      let elapsed := u64 (currentTick - StartTick (gTimeDevice s)) in
      let* us := Mul64Div64 elapsed 1000000 (FreqHz (gTimeDevice s)) in
      Ok (us, s)
  | _, _ => Ok (0, s)
  end.
Definition KeIsTimeSourceReady s : bool := tdInitialized (gTimeDevice s).
Definition KeGetTimeSourceKind s : TIME_SOURCE_KIND := Kind (gTimeDevice s).
Definition KeGetTimeSourceFrequency s : Z :=
  if negb (tdInitialized (gTimeDevice s)) then 0 else FreqHz (gTimeDevice s).

Definition KeBusyWaitUs (fuel : nat) (microsec : Z) s : res (TIME M) :=
  if negb (tdInitialized (gTimeDevice s)) || (microsec =? 0) then Ok s else
  let* ticksToWait := Mul64Div64 microsec (FreqHz (gTimeDevice s)) 1000000 in
  let ticksToWait := if ticksToWait =? 0 then 1 else ticksToWait in
  match ActiveSink (gTimeDevice s) with
  | None => Oob
  | Some sink =>
      let* (startTick, s) := ReadCounter sink s in
      wait_ticks fuel sink startTick ticksToWait s
  end.

(** The time stamp a log line starts with ([log.c]): seconds and microseconds. *)
Definition KLOG_LEVEL_INFO : Z := 1.
Definition KLOG_LEVEL_WARNING : Z := 2.
Definition KLOG_LEVEL_ERROR : Z := 3.
Definition KLogWriteFmt (level : Z) s : res (option (Z * Z) * TIME M) :=
  if level <? HO_LOG_MIN_LEVEL then Ok (None, s) else
  if KeIsTimeSourceReady s then
    let* (uptimeUs, s) := KeGetSystemUpRealTime s in
    Ok (Some (uptimeUs / 1000000, uptimeUs mod 1000000), s)
  else Ok (None, s).

(** The reference timer for the calibration: the PM timer if there is one. *)
Definition reference_sink (pmtStatus hpetStatus : HO_STATUS) s : option KE_TIME_SINK :=
  if success pmtStatus && pmInitialized (gPmTimerSink s) then Some PmTimerBase
  else if success hpetStatus && hpetInitialized (gHpetSink s) then Some HpetBase
  else None.

Definition set_tsc_freq (freqHz : Z) (calibrated : bool) s : TIME M :=
  set_tsc (mkTsc freqHz (tscIsInvariant (gTscSink s)) (tscInitialized (gTscSink s)) calibrated) s.

Definition calibrate_tsc (fuel : nat) (pmtStatus hpetStatus : HO_STATUS) s : res (TIME M) :=
  match reference_sink pmtStatus hpetStatus s with
  | None => Ok s
  | Some refSink =>
      let oldFreqHz := tscFreqHz (gTscSink s) in
      let* (calStatus, s) := KeTscTimeSinkCalibrate fuel true (Some refSink) s in
      if success calStatus then Ok s
      else if negb (oldFreqHz =? 0) then Ok (set_tsc_freq oldFreqHz true s)
      else Ok (set_tsc_freq (tscFreqHz (gTscSink s)) false s)
  end.

Definition select_sink s : option (KE_TIME_SINK * TIME_SOURCE_KIND) :=
  if tscInitialized (gTscSink s) && tscCalibrated (gTscSink s) then Some (TscBase, TIME_SOURCE_TSC)
  else if pmInitialized (gPmTimerSink s) then Some (PmTimerBase, TIME_SOURCE_PM_TIMER)
  else if hpetInitialized (gHpetSink s) then Some (HpetBase, TIME_SOURCE_HPET)
  else None.

Definition KeTimeSourceInit (fuel : nat) (acpiRsdpPhys : Z) s : res (HO_STATUS * TIME M) :=
  let s := set_device no_device s in
  let '(tscStatus, s) := KeTscTimeSinkInit true s in
  let '(pmtStatus, s) := KePmTimerTimeSinkInit true acpiRsdpPhys s in
  let '(hpetStatus, s) := KeHpetTimeSinkInit true acpiRsdpPhys s in
  let* s := if success tscStatus then calibrate_tsc fuel pmtStatus hpetStatus s else Ok s in
  match select_sink s with
  | None => Ok (EC_UNSUPPORTED_MACHINE, s)
  | Some (selectedSink, kind) =>
      let* freqHz := GetFrequency selectedSink s in
      let* (startTick, s) := ReadCounter selectedSink s in
      let s := set_device (mkTimeDevice (Some selectedSink) freqHz startTick true kind) s in
      let* (_, s) := KLogWriteFmt KLOG_LEVEL_INFO s in
      Ok (EC_SUCCESS, s)
  end.
End device.
End Time.
