(* ===== verification/TimeThms.v ===== *)
(** * Clocks: the counters are read truly

    [TimeLaws] says what the hardware promises: counters that count, the
    registers that show them, and memory that stays.  Over such hardware the
    sinks extend the counters to 64 bits ([tracks]), waits end, the time source
    comes up on the best counter there is, and the uptime is the time that
    passed. *)

From S2P Require Import Prelude Time.

Local Open Scope Z_scope.
Import Time.

(** ** What the hardware promises *)

(** [ticks c m] is how often the counter behind sink [c] has counted in all;
    [phase] bounds the accesses until it counts again. *)
Class TimeLaws (M : Type) {HW : TimeHw M} := {
  ticks : KE_TIME_SINK -> M -> Z;
  phase : KE_TIME_SINK -> M -> nat;
  max_phase : nat;
  pm_port : Z;
  pm_width : Z;
  hpet_at : Z;
  hpet_on : M -> Prop;

  later (m m' : M) : Prop :=
    (forall c, ticks c m <= ticks c m') /\ ram m' = ram m /\ (forall l k, cpuidex l k m' = cpuidex l k m) /\
    (hpet_on m -> hpet_on m');
  soon (m m' : M) : Prop :=
    later m m' /\ forall c, ticks c m' < ticks c m + 2 ^ 20 /\ (ticks c m' = ticks c m -> (phase c m' <= phase c m)%nat);
  counts (c : KE_TIME_SINK) (m m' : M) : Prop := ticks c m < ticks c m' \/ (phase c m' < phase c m)%nat;

  phase_law c m : (phase c m <= max_phase)%nat;
  width_law : pm_width = 24 \/ pm_width = 32;
  pause_law m : soon m (pause m);
  cpuid_law leaf sub m : let '(a, b, c, d) := cpuidex leaf sub m in is_u32 a /\ is_u32 b /\ is_u32 c /\ is_u32 d;
  rdtsc_law m v m' : rdtsc m = (v, m') ->
    soon m m' /\ v = u64 (ticks TscBase m') /\ counts TscBase m m';
  inl_law port m v m' : inl port m = (v, m') -> soon m m' /\ is_u32 v /\
    (port = pm_port -> v mod 2 ^ pm_width = ticks PmTimerBase m' mod 2 ^ pm_width /\ counts PmTimerBase m m');
  read64_law a m v m' : read64 a m = (v, m') -> soon m m' /\
    (a = u64 (hpet_at + HPET_REG_MAIN_COUNTER) -> hpet_on m -> v = u64 (ticks HpetBase m') /\ counts HpetBase m m');
  write64_law v m : let m' := write64 (u64 (hpet_at + HPET_REG_CONFIG)) v m in
    soon m m' /\ (Z.testbit v 0 = true -> hpet_on m')
}.

Module TimeThms.

(** ** Arithmetic *)

Lemma mul_div_run v mul d : is_u64 v -> is_u64 mul -> 0 <= d ->
  Mul64Div64 v mul d = if v * mul <? d * 2 ^ 64 then Ok (v * mul / d) else Panic EC_SUCCESS.
Proof.
  intros Hv Hm Hd. unfold Mul64Div64, Div128By64. rewrite Z.shiftr_div_pow2 by lia.
  assert (Hp : 0 <= v * mul < 2 ^ 64 * 2 ^ 64) by (unfold is_u64 in *; nia).
  assert (Hh : u64 (v * mul / 2 ^ 64) = v * mul / 2 ^ 64).
  { apply u64_small. unfold is_u64. split; [apply Z.div_pos; lia | apply Z.div_lt_upper_bound; lia]. }
  rewrite Hh. unfold u64. pose proof (Z.div_mod (v * mul) (2 ^ 64)) as E.
  replace (v * mul / 2 ^ 64 * 2 ^ 64 + (v * mul) mod 2 ^ 64) with (v * mul) by lia.
  destruct (Z.ltb_spec (v * mul) (d * 2 ^ 64)) as [Hlt|Hge]; destruct (Z.leb_spec d (v * mul / 2 ^ 64)) as [Hle|Hgt]; try done.
  - assert (v * mul / 2 ^ 64 < d) by (apply Z.div_lt_upper_bound; lia). lia.
  - assert (d <= v * mul / 2 ^ 64) by (apply Z.div_le_lower_bound; lia). lia.
Qed.

Lemma lor_high high raw w : 0 <= w -> 0 <= raw < 2 ^ w -> high mod 2 ^ w = 0 -> Z.lor high raw = high + raw.
Proof.
  intros Hw Hr Hh. rewrite Z.add_nocarry_lxor, Z.lxor_lor; [done|..].
  all: apply Z.bits_inj'; intros i Hi; rewrite Z.land_spec, Z.bits_0.
  all: destruct (Z.ltb_spec i w) as [Hlt|Hge].
  all: try (rewrite <- (Z.mod_pow2_bits_low high w i), Hh, Z.bits_0 by lia; done).
  all: rewrite <- (Z.mod_small raw (2 ^ w)), Z.mod_pow2_bits_high by lia; apply andb_false_r.
Qed.

Lemma mod_turn a b : 0 < b -> (a + b) mod b = a mod b.
Proof. intros Hb. rewrite <- (Z.mul_1_l b) at 1. by rewrite Z.mod_add by lia. Qed.
Lemma u64_idem_l a b : u64 (u64 a + b) = u64 (a + b).
Proof. unfold u64. by rewrite Z.add_mod_idemp_l by lia. Qed.
Lemma u64_sub_sub a b c : u64 (u64 (c + a) - u64 (c + b)) = u64 (a - b).
Proof. unfold u64. rewrite <- Zminus_mod. f_equal. lia. Qed.

(** ** The PM timer's 64 bits

    [pm_rel p off last]: the sink stands for the count [off + last] if the
    counter had counted [last] times when it was read last. *)
Definition pm_rel (p : KE_PMTIMER_TIME_SINK) (off last : Z) : Prop :=
  (pmBitWidth p = 24 \/ pmBitWidth p = 32) /\ pmLastRaw p = last mod 2 ^ pmBitWidth p /\ is_u64 (pmHigh p) /\
  pmHigh p mod 2 ^ pmBitWidth p = 0 /\ u64 (pmHigh p + pmLastRaw p) = u64 (off + last).

(** What is left of the ticks between two readings. *)
Definition seen (w gap : Z) : Z := gap mod 2 ^ w.

Lemma pm_extend_run p off last now raw : pm_rel p off last -> is_u32 raw -> last <= now ->
  raw mod 2 ^ pmBitWidth p = now mod 2 ^ pmBitWidth p ->
  exists p', pm_extend raw p = (u64 (off + last + seen (pmBitWidth p) (now - last)), p') /\
    pm_rel p' (off + seen (pmBitWidth p) (now - last) - (now - last)) now /\
    pmBitWidth p' = pmBitWidth p /\ pmPort p' = pmPort p /\ pmFreqHz p' = pmFreqHz p /\ pmInitialized p' = pmInitialized p.
Proof.
  intros (Hw & Hr & Hu & Hh & He) Hraw Hl Hm. unfold pm_extend, seen. set (w := pmBitWidth p) in *.
  assert (Er : (if w =? 24 then Z.land raw 0x00FFFFFF else raw) = now mod 2 ^ w).
  { rewrite <- Hm. destruct Hw as [-> | ->]; cbn [Z.eqb Pos.eqb].
    - change 0x00FFFFFF with (Z.ones 24). apply Z.land_ones. lia.
    - symmetry. by apply Z.mod_small. }
  rewrite Er, Hr. rewrite Hr in He. clear Er. set (high := if _ <? _ then _ else _).
  assert (Hp : 0 < 2 ^ w /\ 2 ^ 64 = 2 ^ (64 - w) * 2 ^ w) by (destruct Hw as [-> | ->]; split; done).
  assert (Eg : high mod 2 ^ w = 0 /\ is_u64 high /\ u64 (high + now mod 2 ^ w) = u64 (off + last + (now - last) mod 2 ^ w)).
  { assert (Es : (now - last) mod 2 ^ w = now mod 2 ^ w - last mod 2 ^ w + if now mod 2 ^ w <? last mod 2 ^ w then 2 ^ w else 0).
    { pose proof (Z.mod_pos_bound now (2 ^ w)). pose proof (Z.mod_pos_bound last (2 ^ w)).
      rewrite Zminus_mod. destruct (Z.ltb_spec (now mod 2 ^ w) (last mod 2 ^ w)).
      - symmetry. apply Z.mod_unique_pos with (-1); lia.
      - rewrite Z.mod_small; lia. }
    rewrite Es. subst high. destruct (now mod 2 ^ w <? last mod 2 ^ w).
    - rewrite Z.shiftl_1_l. split; [|split; [apply u64_range|]].
      + unfold u64. assert (0 < 2 ^ (64 - w)) by nia. rewrite (proj2 Hp), Z.mul_comm, Z.rem_mul_r by lia.
        rewrite Z.mul_comm, Z.mod_add, Z.mod_mod by lia.
        by rewrite mod_turn by lia.
      + rewrite u64_idem_l, <- (u64_idem_l (off + last)), <- He, u64_idem_l. f_equal. lia.
    - split; [done|]. split; [done|]. rewrite <- (u64_idem_l (off + last)), <- He, u64_idem_l. f_equal. lia. }
  destruct Eg as (G1 & G2 & G3). eexists. split.
  - f_equal. rewrite (lor_high _ _ w); [|destruct Hw; lia|apply Z.mod_pos_bound; lia|done].
    rewrite <- G3. symmetry. apply u64_small. clear -Hw G1 G2. unfold is_u64 in *.
    destruct Hw as [-> | ->]; Z.to_euclidean_division_equations; lia.
  - cbn. split; [|done]. unfold pm_rel. cbn. fold w. repeat split; try done; try apply G2.
    rewrite G3. f_equal. lia.
Qed.

(** A sequence of raw readings, and the counts they stand for. *)
Fixpoint pm_readings (raws : list Z) (p : KE_PMTIMER_TIME_SINK) : list Z :=
  match raws with [] => [] | raw :: raws => let '(v, p) := pm_extend raw p in v :: pm_readings raws p end.
Fixpoint counts_of (w count last : Z) (instants : list Z) : list Z :=
  match instants with
  | [] => []
  | t :: instants => let count := count + seen w (t - last) in u64 count :: counts_of w count t instants
  end.
Definition shows (w : Z) (raw t : Z) : Prop := is_u32 raw /\ raw mod 2 ^ w = t mod 2 ^ w.
(** Instants in order, and less than a turn of the counter apart. *)
Fixpoint in_time (last : Z) (instants : list Z) : Prop :=
  match instants with [] => True | t :: instants => last <= t /\ in_time t instants end.
Fixpoint timely (w last : Z) (instants : list Z) : Prop :=
  match instants with [] => True | t :: instants => t - last < 2 ^ w /\ timely w t instants end.

Lemma pm_readings_run p off last raws instants : pm_rel p off last -> in_time last instants ->
  Forall2 (shows (pmBitWidth p)) raws instants -> pm_readings raws p = counts_of (pmBitWidth p) (off + last) last instants.
Proof.
  intros Hp Hi Hr. revert p off last Hp Hi Hr. revert raws.
  induction instants as [|t instants IH]; intros raws p off last Hp Hi Hr; inversion Hr as [|raw ? raws' ? [Hu Hs] Hr']; [done|]; subst.
  destruct Hi as [Hl Hi]. destruct (pm_extend_run p off last t raw) as (p' & E & Hp' & Ew & _); [done..|].
  cbn [pm_readings counts_of]. rewrite E. f_equal. rewrite <- Ew in *. rewrite (IH raws' p' _ t Hp' Hi Hr'). f_equal. lia.
Qed.

Lemma counted_timely w c last instants : in_time last instants -> timely w last instants ->
  counts_of w c last instants = map (fun t => u64 (c + (t - last))) instants.
Proof.
  revert c last. induction instants as [|t instants IH]; intros c last Hi Ht; [done|].
  destruct Hi as [Hl Hi], Ht as [Hg Ht]. cbn [counts_of map]. unfold seen. rewrite (Z.mod_small (t - last)) by lia.
  f_equal. rewrite IH by done. apply map_ext. intros u. f_equal. lia.
Qed.

Definition fresh_pm (port w t0 : Z) : KE_PMTIMER_TIME_SINK := mkPmTimer port PM_TIMER_FREQ_HZ 0 (t0 mod 2 ^ w) w true.
Lemma fresh_pm_rel port w t0 : w = 24 \/ w = 32 -> pm_rel (fresh_pm port w t0) (t0 mod 2 ^ w - t0) t0.
Proof.
  intros Hw. unfold pm_rel, fresh_pm. cbn [pmBitWidth pmLastRaw pmHigh]. rewrite Z.mod_0_l by (destruct Hw as [-> | ->]; done).
  repeat split; try done. f_equal. lia.
Qed.

(** C24: The 24- or 32-bit PM timer extended to 64 bits: a sink initialised when
    the counter had counted [t0] times and read at instants [t1 <= t2 <= ...]
    returns, at each of them, the count so far plus the ticks since the
    previous reading modulo one turn of the counter.  So if readings are less
    than a turn apart (4.6 s for 24 bits) every reading is exact, and otherwise
    the missing turns are lost for ever. *)
Theorem pm_timer_counts_true_ticks port w t0 raws instants : w = 24 \/ w = 32 ->
  in_time t0 instants -> Forall2 (shows w) raws instants ->
  pm_readings raws (fresh_pm port w t0) = counts_of w (t0 mod 2 ^ w) t0 instants /\
  (timely w t0 instants ->
   pm_readings raws (fresh_pm port w t0) = map (fun t => u64 (t0 mod 2 ^ w + (t - t0))) instants).
Proof.
  intros Hw Hi Hr. assert (E : pm_readings raws (fresh_pm port w t0) = counts_of w (t0 mod 2 ^ w) t0 instants).
  { rewrite (pm_readings_run _ _ _ raws instants (fresh_pm_rel port w t0 Hw) Hi) by done. cbn. f_equal. lia. }
  split; [done|]. intros Ht. rewrite E. by apply counted_timely.
Qed.

(** Three readings: one after a full turn, which goes unseen. *)
Lemma pm_timer_counts_true_ticks_witness :
  pm_readings [0xFFFFFFF0; 5; 6] (fresh_pm 0x608 24 0xFFFF00) = [0xFFFFF0; 0x1000005; 0x1000006] /\
  counts_of 24 0xFFFF00 0xFFFF00 [0xFFFFF0; 0x1000005; 0x2000006] = [0xFFFFF0; 0x1000005; 0x1000006].
Proof.
  split; [|done]. rewrite (proj1 (pm_timer_counts_true_ticks 0x608 24 0xFFFF00 [0xFFFFFFF0; 5; 6] [0xFFFFF0; 0x1000005; 0x2000006]
    ltac:(by left) ltac:(repeat split; done) ltac:(repeat constructor; done))). done.
Defined.

(** C39: A reading of the PM timer is not atomic: if, between the port access and
    the comparison with the last reading, an interrupt handler reads the timer
    too, as the scheduler's timer handler does, the interrupted reading takes the
    older raw value for a wrap-around.  It returns a count one turn of the
    counter too high, and so does every reading after it. *)
Theorem interrupted_reading_jumps_a_turn p off last t1 t2 t3 raw1 raw2 raw3 :
  let w := pmBitWidth p in
  pm_rel p off last -> last <= t1 -> t1 < t2 -> t2 <= t3 -> t3 - last < 2 ^ w ->
  shows w raw1 t1 -> shows w raw2 t2 -> shows w raw3 t3 ->
  let '(handler, p) := pm_extend raw2 p in
  let '(interrupted, p) := pm_extend raw1 p in
  let '(next, _) := pm_extend raw3 p in
  handler = u64 (off + t2) /\ interrupted = u64 (off + t1 + 2 ^ w) /\ next = u64 (off + t3 + 2 ^ w).
Proof.
  cbv zeta. intros Hp H1 H2 H3 Hg [Hu1 Hs1] [Hu2 Hs2] [Hu3 Hs3].
  assert (Hw : 0 < 2 ^ pmBitWidth p) by (destruct Hp as [[-> | ->] _]; done).
  destruct (pm_extend_run p off last t2 raw2) as (p2 & -> & Hp2 & Ew & _); [done|done|lia|done|].
  assert (Eo : off + seen (pmBitWidth p) (t2 - last) - (t2 - last) = off) by (unfold seen; rewrite Z.mod_small; lia).
  rewrite Eo in Hp2. rewrite <- Ew in *.
  destruct (pm_extend_run p2 off t2 (t1 + 2 ^ pmBitWidth p2) raw1) as (p1 & -> & Hp1 & Ew1 & _); [done|done|lia|..].
  { by rewrite Hs1, mod_turn by lia. }
  assert (Eo1 : off + seen (pmBitWidth p2) (t1 + 2 ^ pmBitWidth p2 - t2) - (t1 + 2 ^ pmBitWidth p2 - t2) = off)
    by (unfold seen; rewrite Z.mod_small; lia).
  rewrite Eo1 in Hp1. rewrite <- Ew1 in *.
  destruct (pm_extend_run p1 off (t1 + 2 ^ pmBitWidth p1) (t3 + 2 ^ pmBitWidth p1) raw3) as (p3 & -> & _); [done|done|lia|..].
  { by rewrite Hs3, mod_turn by lia. }
  unfold seen in *. rewrite !Z.mod_small by lia. repeat split; f_equal; lia.
Qed.

Lemma interrupted_reading_jumps_a_turn_witness :
  let '(handler, p) := pm_extend 101 (fresh_pm 0x608 24 90) in
  let '(interrupted, p) := pm_extend 100 p in
  let '(next, _) := pm_extend 102 p in
  handler = u64 (0 + 101) /\ interrupted = u64 (0 + 100 + 2 ^ 24) /\ next = u64 (0 + 102 + 2 ^ 24).
Proof.
  apply (interrupted_reading_jumps_a_turn (fresh_pm 0x608 24 90) 0 90 100 101 102 100 101 102);
    first [exact (fresh_pm_rel 0x608 24 90 (or_introl eq_refl)) | by repeat split | lia | done].
Defined.

(** ** The sort of the measurements *)

Lemma rd_total (l : list Z) i : 0 <= i < Z.of_nat (length l) -> rd l i = Ok (l !!! Z.to_nat i).
Proof. intros Hi. apply rd_ok. split; [lia|]. apply list_lookup_lookup_total_lt. lia. Qed.

(** The element at [k] is not above any later one. *)
Definition low_at (l : list Z) (k : Z) : Prop := forall q, k < q < Z.of_nat (length l) -> l !!! Z.to_nat k <= l !!! Z.to_nat q.

(** Exchanging puts the lesser element first and keeps low places low. *)
Lemma exchange_run l i j : 0 <= i < j -> j < Z.of_nat (length l) -> exists l', exchange i j l = Ok l' /\
  Permutation l l' /\ l' !!! Z.to_nat i = Z.min (l !!! Z.to_nat i) (l !!! Z.to_nat j) /\
  (forall q, 0 <= q -> q <> i -> q <> j -> l' !!! Z.to_nat q = l !!! Z.to_nat q) /\
  l' !!! Z.to_nat i <= l' !!! Z.to_nat j /\ (forall k, 0 <= k < i -> low_at l k -> low_at l' k).
Proof.
  intros Hi Hj. unfold exchange. rewrite !rd_total by lia. cbn [res_bind].
  set (x := l !!! Z.to_nat i). set (y := l !!! Z.to_nat j).
  destruct (Z.ltb_spec y x) as [Hlt|Hge].
  - rewrite wr_in by lia. cbn [res_bind]. rewrite wr_in by (rewrite length_insert; lia).
    set (l' := <[_ := x]> _). exists l'.
    assert (Hp : Permutation l l').
    { symmetry. apply Permutation_insert_swap; apply list_lookup_lookup_total_lt; lia. }
    assert (Ei : l' !!! Z.to_nat i = y).
    { unfold l'. rewrite list_lookup_total_insert_ne by lia. apply list_lookup_total_insert_eq. lia. }
    assert (Ej : l' !!! Z.to_nat j = x) by (apply list_lookup_total_insert_eq; rewrite length_insert; lia).
    assert (Eq : forall q, 0 <= q -> q <> i -> q <> j -> l' !!! Z.to_nat q = l !!! Z.to_nat q).
    { intros q Hq Hqi Hqj. unfold l'. by rewrite !list_lookup_total_insert_ne by lia. }
    split; [done|]. split; [done|]. split; [rewrite Ei; lia|]. split; [done|]. split; [lia|].
    intros k Hk Hlow q Hq. apply Permutation_length in Hp as El. rewrite (Eq k) by lia.
    destruct (decide (q = i)) as [->|Hqi]; [rewrite Ei; apply Hlow; lia|].
    destruct (decide (q = j)) as [->|Hqj]; [rewrite Ej; apply Hlow; lia|].
    rewrite Eq by lia. apply Hlow. lia.
  - exists l. repeat split; try done; lia.
Qed.

Lemma sort_results_run l : length l = NUM_ITERATIONS -> exists l', sort_results l = Ok l' /\ Permutation l l' /\
  forall k, 0 <= k < 4 -> low_at l' k.
Proof.
  intros Hl. unfold sort_results.
  destruct (for_loop_rule (fun i l' => Permutation l l' /\ forall k, 0 <= k < i -> low_at l' k) (NUM_ITERATIONS - 1) 0
    (fun i results => for_loop (Z.to_nat (Z.of_nat NUM_ITERATIONS - (i + 1))) (i + 1) (fun j results => exchange i j results) results) l)
    as (l' & -> & Hp & Hlow).
  - split; [done|]. intros k Hk. lia.
  - intros i l1 Hi [Hp1 Hlow1]. apply Permutation_length in Hp1 as El1. cbn in Hi.
    destruct (for_loop_rule (fun j l' => Permutation l l' /\ (forall k, 0 <= k < i -> low_at l' k) /\
        forall q, i < q < j -> l' !!! Z.to_nat i <= l' !!! Z.to_nat q)
      (Z.to_nat (Z.of_nat NUM_ITERATIONS - (i + 1))) (i + 1) (fun j results => exchange i j results) l1) as (l2 & -> & Hp2 & Hlow2 & Hmin).
    + split; [done|]. split; [done|]. intros q Hq. lia.
    + intros j l2 Hj (Hp2 & Hlow2 & Hmin). apply Permutation_length in Hp2 as El2. rewrite Hl in El2. cbn in Hj, El2.
      destruct (exchange_run l2 i j) as (l3 & -> & Hp3 & Ei & Eq & Hij & Hk); [lia..|].
      exists l3. split; [done|]. split; [by rewrite Hp2|]. split; [intros k Hk'; apply Hk; auto|].
      intros q Hq. destruct (decide (q = j)) as [->|Hqj]; [done|]. rewrite (Eq q) by lia.
      specialize (Hmin q ltac:(lia)). lia.
    + exists l2. split; [done|]. split; [done|]. apply Permutation_length in Hp2 as El2. rewrite Hl in El2. cbn in El2, Hmin.
      intros k Hk. destruct (decide (k = i)) as [->|Hki]; [|apply Hlow2; lia]. intros q Hq. apply Hmin. lia.
  - exists l'. by split.
Qed.

(** The sort is a sort and the average of the middle is the median. *)
Lemma median_run l : length l = NUM_ITERATIONS -> Forall is_u64 l -> exists l' x,
  sort_results l = Ok l' /\ average_middle l' = Ok x /\ Permutation l l' /\ StronglySorted Z.le l' /\ l' !! 2%nat = Some x.
Proof.
  intros Hl Hu. destruct (sort_results_run l Hl) as (l' & E & Hp & Hlow). exists l'.
  apply Permutation_length in Hp as El. rewrite Hl in El. rewrite Hp in Hu.
  destruct l' as [|a [|b [|c [|d [|e [|]]]]]]; try done. exists c. split; [done|].
  assert (Hc : is_u64 c) by (do 2 (apply Forall_cons_1 in Hu as [_ Hu]); by apply Forall_cons_1 in Hu as [Hu _]).
  split.
  { unfold average_middle. replace (for_loop _ _ _ 0) with (Ok (u64 (0 + c))) by done. cbn [res_bind].
    rewrite u64_small by done. f_equal. apply Z.div_1_r. }
  split; [done|].
  pose proof (Hlow 0 ltac:(lia)) as L0. pose proof (Hlow 1 ltac:(lia)) as L1. pose proof (Hlow 2 ltac:(lia)) as L2. pose proof (Hlow 3 ltac:(lia)) as L3.
  unfold low_at in *. cbn in L0, L1, L2, L3.
  pose proof (L0 1 ltac:(lia)). pose proof (L0 2 ltac:(lia)). pose proof (L0 3 ltac:(lia)). pose proof (L0 4 ltac:(lia)).
  pose proof (L1 2 ltac:(lia)). pose proof (L1 3 ltac:(lia)). pose proof (L1 4 ltac:(lia)).
  pose proof (L2 3 ltac:(lia)). pose proof (L2 4 ltac:(lia)). pose proof (L3 4 ltac:(lia)). cbn in *.
  repeat (constructor; [|repeat constructor; done]). constructor.
Qed.


(** ** Reading through a sink *)

Section machine.
Context {M : Type} {HW : TimeHw M} {TL : TimeLaws M}.
Implicit Types (m : M) (s : TIME M) (c : KE_TIME_SINK).

#[export] Instance later_preorder : PreOrder (later (M := M)).
Proof.
  split.
  - intros m. split; [intros c; lia | by repeat split].
  - intros m1 m2 m3 (H1 & R1 & C1 & O1) (H2 & R2 & C2 & O2). split; [|split; [|split]].
    + intros c. specialize (H1 c). specialize (H2 c). lia.
    + congruence.
    + intros l k. by rewrite C2.
    + auto.
Qed.
Lemma soon_later m m' : soon m m' -> later m m'.
Proof. by intros []. Qed.
Lemma later_ticks c m m' : later m m' -> ticks c m <= ticks c m'.
Proof. intros [Ht _]. apply Ht. Qed.
Lemma soon_ticks c m m' : soon m m' -> ticks c m <= ticks c m' < ticks c m + 2 ^ 20.
Proof. intros [[Ht _] Hs]. destruct (Hs c). split; [apply Ht | done]. Qed.

(** Sink [c] stands for the count [off + t] when its counter has counted [t]
    times; it was read last at [last]. *)
Definition tracks c (off last : Z) s : Prop :=
  match c with
  | TscBase => tscInitialized (gTscSink s) = true /\ off = 0
  | HpetBase => hpetInitialized (gHpetSink s) = true /\ hpetBaseVirt (gHpetSink s) = hpet_at /\ hpet_on (hw s) /\ off = 0
  | PmTimerBase => pmInitialized (gPmTimerSink s) = true /\ pmPort (gPmTimerSink s) = pm_port /\
      pmBitWidth (gPmTimerSink s) <= pm_width /\ pm_rel (gPmTimerSink s) off last
  end.
(** The last reading is recent enough for the PM timer. *)
Definition fresh c (last : Z) m : Prop :=
  last <= ticks c m /\ (c = PmTimerBase -> ticks c m + 2 ^ 20 <= last + 2 ^ 24).

(** What readings leave alone. *)
Definition same_setup s s' : Prop :=
  gTimeDevice s' = gTimeDevice s /\ gHpetSink s' = gHpetSink s /\ gTscSink s' = gTscSink s /\
  pmPort (gPmTimerSink s') = pmPort (gPmTimerSink s) /\ pmFreqHz (gPmTimerSink s') = pmFreqHz (gPmTimerSink s) /\
  pmBitWidth (gPmTimerSink s') = pmBitWidth (gPmTimerSink s) /\ pmInitialized (gPmTimerSink s') = pmInitialized (gPmTimerSink s).

#[export] Instance same_setup_preorder : PreOrder same_setup.
Proof. split; [by intros s; repeat split | intros s1 s2 s3 H1 H2; unfold same_setup in *; intuition congruence]. Qed.

Lemma same_setup_hw m s : same_setup s (set_hw m s).
Proof. by repeat split. Qed.
Lemma tracks_hw c off last m s : tracks c off last s -> later (hw s) m -> tracks c off last (set_hw m s).
Proof. destruct c; cbn; [|done..]. intros (Hi & Hb & Ho & He) (_ & _ & _ & Hl). auto. Qed.

Lemma tracks_usable c off last s : tracks c off last s -> has_interface c s = true.
Proof. destruct c; cbn; intros Hc; apply Hc. Qed.
Lemma usable_setup c s s' : same_setup s s' -> has_interface c s' = has_interface c s.
Proof. intros (_ & Eh & Et & _ & _ & _ & Ep). destruct c; cbn; congruence. Qed.

Lemma mod_width a b w : w = 24 \/ w = 32 -> w <= pm_width -> a mod 2 ^ pm_width = b mod 2 ^ pm_width -> a mod 2 ^ w = b mod 2 ^ w.
Proof.
  intros Hw Hl. destruct width_law as [Ew|Ew]; rewrite Ew in *; destruct Hw as [-> | ->]; intros E; [done|lia| |done].
  rewrite <- (Z.mod_mod_divide a (2 ^ 32) (2 ^ 24)), E by (by exists (2 ^ 8)).
  by rewrite Z.mod_mod_divide by (by exists (2 ^ 8)).
Qed.

Lemma read_run c off last s : tracks c off last s -> fresh c last (hw s) -> exists s',
  ReadCounter c s = Ok (u64 (off + ticks c (hw s')), s') /\ tracks c off (ticks c (hw s')) s' /\ soon (hw s) (hw s') /\
  counts c (hw s) (hw s') /\ same_setup s s'.
Proof.
  intros Ht [Hl Hf]. unfold ReadCounter. rewrite (tracks_usable c off last s Ht). cbn [negb]. destruct c; cbn in Ht.
  - destruct Ht as (Hi & Hb & Ho & ->). unfold HpetSinkReadCounter, HpetReadMainCounterAt, HpetReadReg. rewrite Hb.
    destruct (read64 _ (hw s)) as [v m] eqn:E. destruct (read64_law _ _ _ _ E) as (Hs & Hv). destruct (Hv eq_refl Ho) as [-> Hc].
    exists (set_hw m s). split; [done|]. cbn. destruct Hs as [Hs Hs']. split; [|split; [by split | split; [done | by repeat split]]].
    destruct Hs as (_ & _ & _ & Hon). auto.
  - destruct Ht as (Hi & Hp & Hw & Hr). unfold PmTimerSinkReadCounter, PmTimerRead. rewrite Hp.
    destruct (inl pm_port (hw s)) as [raw m] eqn:E. destruct (inl_law _ _ _ _ E) as (Hs & Hu & Hv). destruct (Hv eq_refl) as [Hm Hc].
    pose proof (soon_ticks PmTimerBase _ _ Hs) as Hst. specialize (Hf eq_refl).
    destruct (pm_extend_run (gPmTimerSink s) off last (ticks PmTimerBase m) raw) as (p & -> & Hr' & Ew & Ep & Ef & Ei); [done|done|lia|..].
    { apply mod_width; [apply Hr | done | done]. }
    assert (Eg : seen (pmBitWidth (gPmTimerSink s)) (ticks PmTimerBase m - last) = ticks PmTimerBase m - last).
    { unfold seen. apply Z.mod_small. destruct Hr as [[-> | ->] _]; lia. }
    rewrite Eg in *. eexists. split; [do 3 f_equal; cbn; lia|]. cbn. rewrite Ep, Ew, Ei, Hp.
    replace (off + (ticks PmTimerBase m - last) - (ticks PmTimerBase m - last)) with off in Hr' by lia.
    split; [done|]. split; [done|]. split; [done|]. unfold same_setup. cbn. repeat split; congruence.
  - destruct Ht as (Hi & ->). unfold TscSinkReadCounter, TscReadTick, ReadTickInternal.
    destruct (rdtsc (hw s)) as [v m] eqn:E. destruct (rdtsc_law _ _ _ E) as (Hs & -> & Hc).
    exists (set_hw m s). split; [done|]. split; [done|]. split; [done|]. split; [done | apply same_setup_hw].
Qed.

(** ** Waiting *)

Definition enough (fuel : nat) (n : Z) : Prop := (Z.to_nat n * S max_phase + max_phase < fuel)%nat.

Lemma wait_ticks_run fuel c off last a n s :
  tracks c off last s -> fresh c last (hw s) -> 0 <= n <= 2 ^ 62 -> a <= ticks c (hw s) < a + 2 ^ 62 + 2 ^ 20 ->
  (Z.to_nat (a + n - ticks c (hw s)) * S max_phase + phase c (hw s) < fuel)%nat ->
  exists s', wait_ticks fuel c (u64 (off + a)) n s = Ok s' /\ tracks c off (ticks c (hw s')) s' /\ later (hw s) (hw s') /\
    same_setup s s' /\ a + n <= ticks c (hw s') < Z.max (a + n + 2 ^ 20) (ticks c (hw s)) + 2 ^ 20.
Proof.
  revert last s. induction fuel as [|fuel IH]; intros last s Ht Hf Hn Ha Hm; [lia|]. cbn [wait_ticks].
  destruct (read_run c off last s Ht Hf) as (s1 & -> & Ht1 & Hs1 & Hc1 & Hk1). cbn [res_bind].
  rewrite u64_sub_sub. pose proof (soon_ticks c _ _ Hs1) as Hst. rewrite u64_small by (unfold is_u64; lia).
  destruct (Z.ltb_spec (ticks c (hw s1) - a) n) as [Hlt|Hge].
  - pose proof (pause_law (hw s1)) as Hp. pose proof (soon_ticks c _ _ Hp) as Hpt. set (s2 := set_hw _ s1).
    destruct (IH (ticks c (hw s1)) s2) as (s' & E & Ht' & Hl' & Hk' & Hb).
    + by apply tracks_hw, soon_later.
    + cbn. split; [lia | intros _; lia].
    + done.
    + cbn. lia.
    + cbn. destruct Hp as [_ Hp]. destruct (Hp c) as [_ Hpp]. destruct Hs1 as [[_ _] Hss]. destruct (Hss c) as [_ Hsp].
      pose proof (phase_law c (hw s1)). pose proof (phase_law c (pause (hw s1))).
      unfold counts in Hc1. set (t0 := ticks c (hw s)) in *. set (t1 := ticks c (hw s1)) in *. set (t2 := ticks c (pause (hw s1))) in *.
      assert (Hcase : (t2 = t0 /\ (phase c (pause (hw s1)) < phase c (hw s))%nat) \/
                      (Z.to_nat (a + n - t2) < Z.to_nat (a + n - t0))%nat) by lia.
      clear - Hcase Hm H0. destruct Hcase as [[-> Hph]|Hlt']; [lia|].
      assert (Hle : (S (Z.to_nat (a + n - t2)) * S max_phase <= Z.to_nat (a + n - t0) * S max_phase)%nat)
        by (apply Nat.mul_le_mono_r; lia). lia.
    + exists s'. split; [done|]. split; [done|]. cbn in Hl', Hb. split; [|split].
      * etransitivity; [apply soon_later, Hs1|]. etransitivity; [apply soon_later, Hp | done].
      * etransitivity; [exact Hk1|]. etransitivity; [apply same_setup_hw | exact Hk'].
      * lia.
  - exists s1. split; [done|]. split; [done|]. split; [by apply soon_later|]. split; [done|]. lia.
Qed.

Lemma wait_enough_run fuel c off last a n s :
  tracks c off last s -> fresh c last (hw s) -> 0 <= n <= 2 ^ 62 -> a <= ticks c (hw s) < a + 2 ^ 62 + 2 ^ 20 -> enough fuel n ->
  exists s', wait_ticks fuel c (u64 (off + a)) n s = Ok s' /\ tracks c off (ticks c (hw s')) s' /\ later (hw s) (hw s') /\
    same_setup s s' /\ a + n <= ticks c (hw s') < Z.max (a + n + 2 ^ 20) (ticks c (hw s)) + 2 ^ 20.
Proof.
  intros Ht Hf Hn Ha He. apply wait_ticks_run with last; try done.
  pose proof (phase_law c (hw s)). unfold enough in He.
  assert (Hle : (Z.to_nat (a + n - ticks c (hw s)) * S max_phase <= Z.to_nat n * S max_phase)%nat)
    by (apply Nat.mul_le_mono_r; lia). lia.
Qed.

(** ** Calibration *)

(** Recent enough for a few more accesses. *)
Definition recent c (last : Z) m : Prop := last <= ticks c m <= last + 2 ^ 23.
Lemma recent_fresh c last m : recent c last m -> fresh c last m.
Proof. intros [H1 H2]. split; [done | lia]. Qed.

(** [result] is a hundred times the TSC ticks between two instants around a
    wait in which [ref] counted [n] times, and hardly more. *)
Definition measured c (n : Z) m m' (result : Z) : Prop := exists m0 m1 m2 m3,
  later m m0 /\ soon m0 m1 /\ later m1 m2 /\ soon m2 m3 /\ later m3 m' /\
  n <= ticks c m2 - ticks c m0 < n + 2 ^ 21 /\ result = u64 (100 * (ticks TscBase m3 - ticks TscBase m1)).

Lemma measured_wider c n m0 m1 m2 m3 r : later m0 m1 -> later m2 m3 -> measured c n m1 m2 r -> measured c n m0 m3 r.
Proof.
  intros H1 H2 (a & b & d & e & Ha & Hb & Hd & He & Hf & Hn & ->). exists a, b, d, e.
  split; [by etransitivity|]. do 3 (split; [done|]). split; [by etransitivity | done].
Qed.

Lemma enough_less fuel n n' : enough fuel n -> n' <= n -> enough fuel n'.
Proof.
  unfold enough. intros He Hn.
  assert (Hle : (Z.to_nat n' * S max_phase <= Z.to_nat n * S max_phase)%nat) by (apply Nat.mul_le_mono_r; lia). lia.
Qed.

Lemma measure_run fuel c n i off last s :
  tracks c off last s -> recent c last (hw s) -> 0 <= n <= 2 ^ 62 -> enough fuel n ->
  exists r s' last', measure fuel c n i s = Ok (r, s') /\ measured c n (hw s) (hw s') r /\
    tracks c off last' s' /\ recent c last' (hw s') /\ later (hw s) (hw s') /\ same_setup s s'.
Proof.
  intros Ht Hr Hn He. unfold measure.
  destruct (read_run c off last s Ht (recent_fresh _ _ _ Hr)) as (s1 & -> & Ht1 & Hs1 & _ & Hk1). cbn [res_bind].
  unfold TscReadTick, ReadTickInternal. destruct (rdtsc (hw s1)) as [v1 m1] eqn:E1.
  destruct (rdtsc_law _ _ _ E1) as (Hs2 & Hv1 & _). pose proof (soon_ticks c _ _ Hs2) as Hb2.
  destruct (wait_enough_run fuel c off (ticks c (hw s1)) (ticks c (hw s1)) n (set_hw m1 s1)) as (s3 & -> & Ht3 & Hl3 & Hk3 & Hb3).
  { apply tracks_hw; [done | by apply soon_later]. }
  { cbn. split; [lia | intros _; lia]. }
  { done. }
  { cbn. lia. }
  { done. }
  cbn [res_bind hw set_hw] in *. destruct (rdtsc (hw s3)) as [v3 m3] eqn:E3. cbn zeta.
  destruct (rdtsc_law _ _ _ E3) as (Hs4 & Hv3 & _). pose proof (soon_ticks c _ _ Hs4) as Hb4.
  assert (Er : u64 (u64 (v3 - v1) * 100) = u64 (100 * (ticks TscBase m3 - ticks TscBase m1))).
  { subst. rewrite <- (Z.add_0_l (ticks TscBase m3)), <- (Z.add_0_l (ticks TscBase m1)) at 1. rewrite u64_sub_sub.
    unfold u64. rewrite Z.mul_mod_idemp_l by lia. f_equal. lia. }
  rewrite Er.
  assert (Hm : forall m', later m3 m' -> measured c n (hw s) m' (u64 (100 * (ticks TscBase m3 - ticks TscBase m1)))).
  { intros m' Hl. exists (hw s1), m1, (hw s3), m3. split; [by apply soon_later|]. do 4 (split; [done|]). split; [lia | done]. }
  assert (Hl03 : later (hw s) m3).
  { etransitivity; [apply soon_later, Hs1|]. etransitivity; [apply soon_later, Hs2|].
    etransitivity; [exact Hl3 | apply soon_later, Hs4]. }
  assert (Hk03 : same_setup s (set_hw m3 s3)).
  { etransitivity; [exact Hk1|]. etransitivity; [apply (same_setup_hw m1)|]. etransitivity; [exact Hk3 | apply same_setup_hw]. }
  assert (Ht4 : tracks c off (ticks c (hw s3)) (set_hw m3 s3)) by (by apply tracks_hw, soon_later).
  destruct (i <? _).
  - destruct (read_run c off _ _ Ht4) as (s5 & -> & Ht5 & Hs5 & _ & Hk5); [cbn; split; [lia | intros _; lia]|].
    cbn [res_bind hw set_hw] in *. pose proof (soon_ticks c _ _ Hs5) as Hb5.
    destruct (wait_enough_run fuel c off (ticks c (hw s5)) (ticks c (hw s5)) (n / 10) s5) as (s6 & -> & Ht6 & Hl6 & Hk6 & Hb6).
    { done. }
    { split; [lia | intros _; lia]. }
    { Z.to_euclidean_division_equations; lia. }
    { lia. }
    { apply enough_less with n; [done | Z.to_euclidean_division_equations; lia]. }
    cbn [res_bind]. exists (u64 (100 * (ticks TscBase m3 - ticks TscBase m1))), s6, (ticks c (hw s6)).
    assert (Hl36 : later m3 (hw s6)) by (etransitivity; [apply soon_later, Hs5 | exact Hl6]).
    split; [done|]. split; [by apply Hm|]. split; [done|]. split; [unfold recent; lia|].
    split; [by etransitivity|]. etransitivity; [exact Hk03|]. by etransitivity.
  - exists (u64 (100 * (ticks TscBase m3 - ticks TscBase m1))), (set_hw m3 s3), (ticks c (hw s3)).
    split; [done|]. split; [by apply Hm|]. split; [done|]. split; [unfold recent; cbn; lia|]. done.
Qed.

Definition set_frequency (freqHz : Z) s : TIME M :=
  set_tsc (mkTsc freqHz (tscIsInvariant (gTscSink s)) (tscInitialized (gTscSink s)) true) s.

Lemma calibrate_run fuel c off last s f :
  tscInitialized (gTscSink s) = true -> tracks c off last s -> recent c last (hw s) ->
  GetFrequency c s = Ok f -> 0 < f < 2 ^ 64 -> enough fuel (f / 100) ->
  exists s1 last' samples sorted freqHz,
    KeTscTimeSinkCalibrate fuel true (Some c) s = Ok (EC_SUCCESS, set_frequency freqHz s1) /\
    same_setup s s1 /\ later (hw s) (hw s1) /\ tracks c off last' s1 /\ recent c last' (hw s1) /\
    length samples = 5%nat /\ Forall (measured c (f / 100) (hw s) (hw s1)) samples /\
    Permutation samples sorted /\ StronglySorted Z.le sorted /\ sorted !! 2%nat = Some freqHz.
Proof.
  intros Hi Ht Hr Hg Hf He. unfold KeTscTimeSinkCalibrate. rewrite Hi, Hg. cbn [negb orb res_bind].
  rewrite (proj2 (Z.eqb_neq f 0)) by lia.
  set (body := fun i '(results, s) => _).
  destruct (for_loop_rule (fun i '(results, s1) => exists last', length results = 5%nat /\
      Forall (fun r => measured c (f / 100) (hw s) (hw s1) r) (take (Z.to_nat i) results) /\ Forall is_u64 results /\
      tracks c off last' s1 /\ recent c last' (hw s1) /\ later (hw s) (hw s1) /\ same_setup s s1)
    NUM_ITERATIONS 0 body (replicate NUM_ITERATIONS 0, s)) as ([results s1] & -> & last' & Hl & Hm & Hu & Ht1 & Hr1 & Hl1 & Hk1).
  - exists last. split; [done|]. split; [constructor|]. split; [by repeat constructor|]. do 2 (split; [done|]). split; reflexivity.
  - intros i [results s1] Hb (last' & Hl & Hm & Hu & Ht1 & Hr1 & Hl1 & Hk1). change NUM_ITERATIONS with 5%nat in Hb.
    destruct (measure_run fuel c (f / 100) i off last' s1) as (r & s2 & last2 & E & Hm2 & Ht2 & Hr2 & Hl2 & Hk2); [done..| |done|].
    { Z.to_euclidean_division_equations; lia. }
    subst body. cbn beta iota. rewrite E. cbn [res_bind]. rewrite wr_in by lia. cbn [res_bind].
    eexists. split; [reflexivity|]. exists last2. split; [by rewrite length_insert|]. split; [|split; [|split; [done|]]].
    + replace (Z.to_nat (i + 1)) with (S (Z.to_nat i)) by lia.
      rewrite (take_S_r _ _ r) by (apply list_lookup_insert_eq; lia). rewrite take_insert_ge by lia.
      apply Forall_app. split.
      * eapply Forall_impl; [exact Hm|]. intros x Hx. apply measured_wider with (hw s) (hw s1); done.
      * constructor; [|constructor]. apply measured_wider with (hw s1) (hw s2); done.
    + apply Forall_insert; [done|]. destruct Hm2 as (? & ? & ? & ? & _ & _ & _ & _ & _ & _ & ->). apply u64_range.
    + split; [done|]. split; by etransitivity.
  - cbn [res_bind]. destruct (median_run results Hl Hu) as (sorted & x & -> & E & Hp & Hs & Hx). cbn [res_bind].
    rewrite E. cbn [res_bind]. exists s1, last', results, sorted, x. split; [done|]. split; [done|]. split; [done|].
    split; [done|]. split; [done|]. split; [done|]. split; [|done].
    rewrite take_ge in Hm by (rewrite Hl; done). done.
Qed.

(** ** Bringing the sinks up *)

Lemma load_ram n a m m' : ram m' = ram m -> load_bytes n a m' = load_bytes n a m.
Proof. intros E. revert a. induction n as [|n IH]; intros a; [done|]. cbn. by rewrite E, IH. Qed.
Lemma acpi_find_ram wanted rsdp m m' : ram m' = ram m -> acpi_find wanted rsdp m' = acpi_find wanted rsdp m.
Proof.
  intros E. assert (Hs : forall n i a w, scan_tables n i a w wanted m' = scan_tables n i a w wanted m).
  { intros n. induction n as [|n IH]; intros i a w; [done|]. cbn [scan_tables]. unfold sdt_Signature.
    by rewrite !(load_ram _ _ _ _ E), IH. }
  unfold acpi_find, scan_root, rsdp_Revision, rsdp_XsdtPhys, rsdp_RsdtPhys, sdt_Length.
  by rewrite !Hs, !(load_ram _ _ _ _ E).
Qed.
Lemma pm_setup_ram rsdp m m' : ram m' = ram m -> PmTimerSetup rsdp m' = PmTimerSetup rsdp m.
Proof.
  intros E. unfold PmTimerSetup, AcpiFindFadtTable. rewrite (acpi_find_ram _ _ _ _ E). destruct (acpi_find _ _ _) as [fadt|]; [|done].
  unfold PmTimerExtractFromGas, gas_Address, gas_AddressSpaceId, fadt_PmTmrBlk, fadt_Flags.
  by rewrite !(load_ram _ _ _ _ E).
Qed.

(** The firmware's tables describe the timers the machine has. *)
Definition honest (rsdp : Z) m : Prop :=
  (forall port w, PmTimerSetup rsdp m = (EC_SUCCESS, Some (port, w)) -> port = pm_port /\ w <= pm_width) /\
  (forall table, AcpiFindHpetTable rsdp m = Some table -> hpet_AddressSpaceId table m = 0 ->
     HHDM_PHYS2VIRT (hpet_BaseAddressPhys table m) = hpet_at).

Lemma honest_later rsdp m m' : honest rsdp m -> later m m' -> honest rsdp m'.
Proof.
  intros [Hp Hh] (_ & E & _). split.
  - intros port w. rewrite (pm_setup_ram _ _ _ E). apply Hp.
  - intros table. unfold AcpiFindHpetTable, hpet_AddressSpaceId, hpet_BaseAddressPhys in *.
    rewrite (acpi_find_ram _ _ _ _ E), !(load_ram _ _ _ _ E). apply Hh.
Qed.

(** Bit 31 does not fit in a [BOOL]. *)
Lemma bool_of_bit_31 x : u8 (Z.land x (Z.shiftl 1 31)) = 0.
Proof.
  unfold u8. apply Z.bits_inj'. intros i Hi. rewrite Z.bits_0. destruct (Z.ltb_spec i 8) as [Hlt|Hge].
  - rewrite Z.mod_pow2_bits_low by lia. rewrite Z.land_spec, Z.shiftl_spec by lia.
    rewrite (Z.testbit_neg_r 1) by lia. apply andb_false_r.
  - by apply Z.mod_pow2_bits_high; lia.
Qed.

Lemma no_hypervisor m : IsRunningInHypervisor (GetBasicCpuInfo m) = 0.
Proof.
  unfold GetBasicCpuInfo, x64_GetBasicCpuInfo. destruct (cpuid 0x1 m) as [[[? ?] ecx] ?].
  destruct (cpuid 0x0 m) as [[[? ?] ?] ?]. destruct (cpuid 0x80000000 m) as [[[? ?] ?] ?]. apply bool_of_bit_31.
Qed.

Definition tsc_counts m : bool := TscDetectAvailable (GetBasicCpuInfo m) && TscDetectInvariant (GetBasicCpuInfo m).
Definition tsc_cpuid_freq m : Z := TscGetFreqFromCpuid (GetBasicCpuInfo m) m.

Lemma cpuid_freq_u64 m : is_u64 (tsc_cpuid_freq m).
Proof.
  unfold tsc_cpuid_freq, TscGetFreqFromCpuid, freq_from_ratio, freq_from_base. set (info := GetBasicCpuInfo m).
  pose proof (cpuid_law 0x15 0 m) as H15. destruct (cpuidex 0x15 0 m) as [[[a b] c] d]. destruct H15 as (Ha & _).
  pose proof (u64_range (c * b)) as Hu. unfold is_u32, is_u64 in *.
  assert (Hq : a <> 0 -> 0 <= u64 (c * b) / a < 2 ^ 64).
  { intros Hz. split; [apply Z.div_pos; lia|]. apply Z.div_lt_upper_bound; nia. }
  assert (Hbase : 0 <= match (if 0x16 <=? MaxLeafSupported info then let '(eax, _, _, _) := cpuidex 0x16 0 m in
      if negb (Z.land eax 0xFFFF =? 0) then Some (u64 (Z.land eax 0xFFFF * 1000000)) else None else None) with Some f => f | None => 0 end < 2 ^ 64).
  { destruct (0x16 <=? _); [|lia]. destruct (cpuidex 0x16 0 m) as [[[e ?] ?] ?]. destruct (negb _); [|lia]. apply u64_range. }
  destruct (0x15 <=? _); [|exact Hbase]. destruct (Z.eqb_spec a 0); cbn [negb andb]; [exact Hbase|].
  destruct (b =? 0), (c =? 0); cbn [negb andb]; auto.
Qed.

Lemma tsc_init_run s : exists t, KeTscTimeSinkInit true s = (if tsc_counts (hw s) then EC_SUCCESS else EC_NOT_SUPPORTED, set_tsc t s) /\
  tscInitialized t = tsc_counts (hw s) /\ is_u64 (tscFreqHz t) /\
  tscCalibrated t = tsc_counts (hw s) && negb (tsc_cpuid_freq (hw s) =? 0) /\
  (tsc_counts (hw s) = true -> tscFreqHz t = tsc_cpuid_freq (hw s)).
Proof.
  unfold KeTscTimeSinkInit, tsc_counts. cbn [negb hw set_tsc]. rewrite no_hypervisor.
  destruct (TscDetectAvailable _); cbn [negb andb]; [|by exists no_tsc].
  destruct (TscDetectInvariant _); cbn [negb andb Z.eqb]; [|by exists (mkTsc 0 false false false)].
  eexists. split; [reflexivity|]. cbn [tscInitialized tscFreqHz tscCalibrated]. split; [done|].
  split; [apply cpuid_freq_u64 | done].
Qed.

Lemma pm_init_run rsdp s : honest rsdp (hw s) -> exists p m,
  KePmTimerTimeSinkInit true rsdp s = (fst (PmTimerSetup rsdp (hw s)), set_pmtimer p (set_hw m s)) /\
  later (hw s) m /\ pmInitialized p = success (fst (PmTimerSetup rsdp (hw s))) /\
  (pmInitialized p = true -> pmFreqHz p = PM_TIMER_FREQ_HZ /\ exists off, tracks PmTimerBase off (ticks PmTimerBase m) (set_pmtimer p (set_hw m s))).
Proof.
  intros [Hh _]. unfold KePmTimerTimeSinkInit. cbn [negb hw set_pmtimer].
  assert (Ef : forall st o, PmTimerSetup rsdp (hw s) = (st, o) -> (o = None /\ st = EC_NOT_SUPPORTED) \/ (st = EC_SUCCESS /\ exists port w, o = Some (port, w) /\ (w = 24 \/ w = 32))).
  { intros st o. unfold PmTimerSetup. destruct (AcpiFindFadtTable _ _) as [fadt|]; [|intros [= <- <-]; by left].
    destruct (match _ with Some port => Some port | None => _ end) as [port|]; [|intros [= <- <-]; by left].
    intros [= <- <-]. right. split; [done|]. do 2 eexists. split; [done|]. destruct (negb _); auto. }
  destruct (PmTimerSetup rsdp (hw s)) as [st o] eqn:E. destruct (Ef _ _ eq_refl) as [[-> ->] | (-> & port & w & -> & Hw)].
  - exists no_pmtimer, (hw s). split; [done|]. split; [reflexivity|]. done.
  - destruct (Hh _ _ eq_refl) as [-> Hle]. unfold PmTimerRead. destruct (inl pm_port (hw s)) as [raw m] eqn:Ei.
    destruct (inl_law _ _ _ _ Ei) as (Hs & Hu & Hv). destruct (Hv eq_refl) as [Hm _].
    eexists _, m. split; [reflexivity|]. split; [by apply soon_later|]. split; [done|]. intros _. split; [done|].
    assert (El : Z.land raw (if w =? 24 then 0x00FFFFFF else 0xFFFFFFFF) = ticks PmTimerBase m mod 2 ^ w).
    { rewrite <- (mod_width raw _ w Hw Hle Hm). destruct Hw as [-> | ->]; cbn [Z.eqb Pos.eqb].
      - apply (Z.land_ones raw 24). lia.
      - apply (Z.land_ones raw 32). lia. }
    rewrite El. exists (ticks PmTimerBase m mod 2 ^ w - ticks PmTimerBase m).
    split; [done|]. split; [done|]. split; [done|]. apply (fresh_pm_rel pm_port w _ Hw).
Qed.

Lemma hpet_init_run rsdp s : honest rsdp (hw s) -> exists st h m,
  KeHpetTimeSinkInit true rsdp s = (st, set_hpet h (set_hw m s)) /\ later (hw s) m /\
  (forall c, ticks c m <= ticks c (hw s) + 3 * 2 ^ 20) /\
  success st = hpetInitialized h /\ is_u64 (hpetFreqHz h) /\
  (hpetInitialized h = true -> 0 < hpetFreqHz h <= 10 ^ 15 /\ tracks HpetBase 0 (ticks HpetBase m) (set_hpet h (set_hw m s))).
Proof.
  intros [_ Hh]. unfold KeHpetTimeSinkInit, HpetSetup. cbn [negb hw set_hpet].
  destruct (AcpiFindHpetTable rsdp (hw s)) as [table|] eqn:E.
  2: { exists EC_NOT_SUPPORTED, no_hpet, (hw s). split; [done|]. split; [reflexivity|]. split; [intros c; lia|]. done. }
  destruct (Z.eqb_spec (hpet_AddressSpaceId table (hw s)) 0) as [Ea|Ea]; cbn [negb].
  2: { exists EC_NOT_SUPPORTED, no_hpet, (hw s). split; [done|]. split; [reflexivity|]. split; [intros c; lia|]. done. }
  rewrite (Hh table eq_refl Ea). unfold HpetReadReg, HpetWriteReg.
  destruct (read64 _ (hw s)) as [capId m1] eqn:E1. destruct (read64_law _ _ _ _ E1) as (Hs1 & _).
  set (period := u32 (Z.shiftr capId 32)). pose proof (u32_range (Z.shiftr capId 32)) as Hu. fold period in Hu. unfold is_u32 in Hu.
  destruct (Z.eqb_spec period 0) as [Ep|Ep].
  { exists EC_NOT_SUPPORTED, no_hpet, m1. split; [done|]. split; [by apply soon_later|].
    split; [intros c; pose proof (soon_ticks c _ _ Hs1); lia|]. done. }
  destruct (read64 _ m1) as [config m2] eqn:E2. destruct (read64_law _ _ _ _ E2) as (Hs2 & _).
  destruct (write64_law (Z.lor config HPET_CONFIG_ENABLE) m2) as [Hs3 Hon]. set (m3 := write64 _ _ m2) in *.
  assert (Hl : later (hw s) m3) by (etransitivity; [apply soon_later, Hs1|]; etransitivity; apply soon_later; done).
  assert (Hf : 0 < 1000000000000000 / period <= 10 ^ 15) by (Z.to_euclidean_division_equations; nia).
  exists EC_SUCCESS, (mkHpet hpet_at (1000000000000000 / period) true), m3. split; [done|]. split; [done|].
  split; [intros c; pose proof (soon_ticks c _ _ Hs1); pose proof (soon_ticks c _ _ Hs2); pose proof (soon_ticks c _ _ Hs3); lia|].
  split; [done|]. cbn [hpetFreqHz hpetInitialized]. split; [unfold is_u64; lia|]. intros _. split; [done|].
  cbn. repeat split; try done. apply Hon. rewrite Z.lor_spec. apply orb_true_r.
Qed.

(** ** The device *)

(** The device counts with sink [c] from tick [t0] on. *)
Definition keeps_time c (t0 last : Z) s : Prop := exists off,
  tdInitialized (gTimeDevice s) = true /\ ActiveSink (gTimeDevice s) = Some c /\
  StartTick (gTimeDevice s) = u64 (off + t0) /\ is_u64 (FreqHz (gTimeDevice s)) /\ tracks c off last s.

Lemma uptime_run c t0 last s : keeps_time c t0 last s -> fresh c last (hw s) -> exists s',
  KeGetSystemUpRealTime s =
    (let e := u64 (ticks c (hw s') - t0) in let f := FreqHz (gTimeDevice s) in
     if e * 1000000 <? f * 2 ^ 64 then Ok (e * 1000000 / f, s') else Panic EC_SUCCESS) /\
  keeps_time c t0 (ticks c (hw s')) s' /\ soon (hw s) (hw s') /\ same_setup s s'.
Proof.
  intros (off & Hi & Ha & Hs & Hf & Ht) Hfr. unfold KeGetSystemUpRealTime. rewrite Hi, Ha.
  destruct (read_run c off last s Ht Hfr) as (s1 & -> & Ht1 & Hs1 & _ & Hk1). cbn [res_bind].
  destruct (Hk1) as (Ed & _). rewrite Ed, Hs, u64_sub_sub, mul_div_run by (first [apply u64_range | done | unfold is_u64 in *; lia]).
  exists s1. cbv zeta. split; [by destruct (_ <? _)|]. split; [|done].
  exists off. rewrite Ed. done.
Qed.

Definition reference c (pm hpet : bool) : Prop := if pm then c = PmTimerBase else hpet = true /\ c = HpetBase.

(** The frequency is the median of five measurements with [ref]. *)
Definition median_frequency ref (refFreq : Z) m m' (freqHz : Z) : Prop := exists samples sorted,
  length samples = 5%nat /\ Forall (measured ref (refFreq / 100) m m') samples /\
  Permutation samples sorted /\ StronglySorted Z.le sorted /\ sorted !! 2%nat = Some freqHz.

Lemma median_is_u64 ref f m m' x : median_frequency ref f m m' x -> is_u64 x.
Proof.
  intros (l & l' & _ & Hm & Hp & _ & Hx). rewrite Hp in Hm. rewrite Forall_lookup in Hm.
  destruct (Hm _ _ Hx) as (? & ? & ? & ? & _ & _ & _ & _ & _ & _ & ->). apply u64_range.
Qed.

Lemma median_earlier ref f m0 m m' m1 x : later m0 m -> later m' m1 -> median_frequency ref f m m' x -> median_frequency ref f m0 m1 x.
Proof.
  intros H1 H2 (l & l' & Hl & Hm & Hp & Hs & Hx). exists l, l'. split; [done|]. split; [|done].
  eapply Forall_impl; [exact Hm|]. intros y Hy. by apply measured_wider with m m'.
Qed.

Definition enough_to_calibrate (fuel : nat) (rsdp : Z) m : Prop :=
  enough fuel (PM_TIMER_FREQ_HZ / 100) /\ (fst (PmTimerSetup rsdp m) <> EC_SUCCESS -> enough fuel (10 ^ 13)).

(** The sinks as [KeTimeSourceInit] has brought them up. *)
Definition sinks_up pm s : Prop :=
  pmInitialized (gPmTimerSink s) = pm /\
  (pm = true -> pmFreqHz (gPmTimerSink s) = PM_TIMER_FREQ_HZ /\
     exists off last, tracks PmTimerBase off last s /\ recent PmTimerBase last (hw s)) /\
  (hpetInitialized (gHpetSink s) = true -> 0 < hpetFreqHz (gHpetSink s) <= 10 ^ 15 /\
     exists last, tracks HpetBase 0 last s /\ recent HpetBase last (hw s)) /\
  is_u64 (hpetFreqHz (gHpetSink s)).

Lemma sinks_run rsdp s : honest rsdp (hw s) ->
  let pm := success (fst (PmTimerSetup rsdp (hw s))) in
  let s0 := set_device no_device s in
  exists t s1 s2 s3 hpetStatus,
    KeTscTimeSinkInit true s0 = (if tsc_counts (hw s) then EC_SUCCESS else EC_NOT_SUPPORTED, s1) /\
    KePmTimerTimeSinkInit true rsdp s1 = (fst (PmTimerSetup rsdp (hw s)), s2) /\
    KeHpetTimeSinkInit true rsdp s2 = (hpetStatus, s3) /\
    success hpetStatus = hpetInitialized (gHpetSink s3) /\ gTscSink s3 = t /\ tscInitialized t = tsc_counts (hw s) /\
    is_u64 (tscFreqHz t) /\ tscCalibrated t = tsc_counts (hw s) && negb (tsc_cpuid_freq (hw s) =? 0) /\
    (tsc_counts (hw s) = true -> tscFreqHz t = tsc_cpuid_freq (hw s)) /\
    sinks_up pm s3 /\ later (hw s) (hw s3) /\ gTimeDevice s3 = no_device.
Proof.
  intros Hh pm s0. destruct (tsc_init_run s0) as (t & E1 & Ht1 & Ht2 & Ht3 & Ht4).
  destruct (pm_init_run rsdp (set_tsc t s0)) as (p & m1 & E2 & Hl1 & Hp1 & Hp2); [done|].
  set (s2 := set_pmtimer p _) in *.
  destruct (hpet_init_run rsdp s2) as (st & h & m2 & E3 & Hl2 & Hb2 & Hst & Hu & Hh2).
  { by apply honest_later with (hw s). }
  exists t, (set_tsc t s0), s2, (set_hpet h (set_hw m2 s2)), st. cbn [hw set_tsc set_device s0] in *.
  assert (Hl : later (hw s) m2) by (etransitivity; [exact Hl1 | exact Hl2]).
  do 9 (split; [done|]). split; [|by split]. cbn [gPmTimerSink gHpetSink hw set_hpet set_hw s2 set_pmtimer].
  split; [done|]. split; [|split; [|done]].
  - intros Hpm. rewrite Hp1 in Hp2. destruct (Hp2 Hpm) as (Hf & off & Ht). split; [done|]. exists off, (ticks PmTimerBase m1).
    split; [exact Ht|]. pose proof (later_ticks PmTimerBase _ _ Hl2). specialize (Hb2 PmTimerBase). cbn [hw s2 set_pmtimer set_hw] in *.
    unfold recent. cbn in *. lia.
  - intros Hi. destruct (Hh2 Hi) as [Hf Ht]. split; [done|]. exists (ticks HpetBase m2). split; [exact Ht|]. unfold recent. cbn in *. lia.
Qed.

(** What the TSC's frequency is: measured against the PM timer or, without one,
    the HPET; without either, what [cpuid] says. *)
Definition tsc_frequency (pm hpet : bool) (hpetFreq cpuidFreq : Z) m m' (freqHz : Z) : Prop :=
  if pm then median_frequency PmTimerBase PM_TIMER_FREQ_HZ m m' freqHz
  else if hpet then median_frequency HpetBase hpetFreq m m' freqHz
  else freqHz = cpuidFreq.

Lemma set_frequency_tracks c off last x s : c <> TscBase -> tracks c off last s -> tracks c off last (set_frequency x s).
Proof. by destruct c. Qed.

Lemma calibrate_tsc_run fuel m0 s pmtStatus hpetStatus :
  let pm := success pmtStatus in let hpet := hpetInitialized (gHpetSink s) in
  success hpetStatus = hpet -> tscInitialized (gTscSink s) = true -> is_u64 (tscFreqHz (gTscSink s)) ->
  tscCalibrated (gTscSink s) = negb (tscFreqHz (gTscSink s) =? 0) ->
  sinks_up pm s -> later m0 (hw s) -> enough fuel (PM_TIMER_FREQ_HZ / 100) -> (pm = false -> enough fuel (10 ^ 13)) ->
  exists s', calibrate_tsc fuel pmtStatus hpetStatus s = Ok s' /\ later (hw s) (hw s') /\ gTimeDevice s' = gTimeDevice s /\
    gHpetSink s' = gHpetSink s /\ pmInitialized (gPmTimerSink s') = pm /\ tscInitialized (gTscSink s') = true /\
    tscCalibrated (gTscSink s') = negb (tscFreqHz (gTscSink s) =? 0) || pm || hpet /\
    is_u64 (tscFreqHz (gTscSink s')) /\
    tsc_frequency pm hpet (hpetFreqHz (gHpetSink s)) (tscFreqHz (gTscSink s)) m0 (hw s') (tscFreqHz (gTscSink s')) /\
    (pm || hpet = false -> s' = s).
Proof.
  intros pm hpet Hst Hi Hu Hcal (Hpm & Hp & Hh & Huh) Hl He1 He2. unfold calibrate_tsc, reference_sink.
  rewrite Hpm, Hst. fold pm hpet. unfold tsc_frequency.
  assert (Hmain : forall c f, (exists off last, tracks c off last s /\ recent c last (hw s)) -> GetFrequency c s = Ok f -> 0 < f < 2 ^ 64 ->
    enough fuel (f / 100) -> pm || hpet = true -> exists s', KeTscTimeSinkCalibrate fuel true (Some c) s = Ok (EC_SUCCESS, s') /\ later (hw s) (hw s') /\ gTimeDevice s' = gTimeDevice s /\
      gHpetSink s' = gHpetSink s /\ pmInitialized (gPmTimerSink s') = pm /\ tscInitialized (gTscSink s') = true /\
      tscCalibrated (gTscSink s') = negb (tscFreqHz (gTscSink s) =? 0) || pm || hpet /\ is_u64 (tscFreqHz (gTscSink s')) /\
      median_frequency c f m0 (hw s') (tscFreqHz (gTscSink s'))).
  { intros c f (off & last & Ht & Hr) Hg Hf He Hor.
    destruct (calibrate_run fuel c off last s f Hi Ht Hr Hg Hf He) as (s1 & last' & l & l' & x & -> & Hk & Hl1 & _ & _ & Hm).
    assert (Hm' : median_frequency c f m0 (hw s1) x).
    { apply median_earlier with (hw s) (hw s1); [done | reflexivity|]. by exists l, l'. }
    exists (set_frequency x s1). destruct Hk as (Kd & Kh & Kt & _ & _ & _ & Ki).
    split; [done|]. cbn. rewrite Kd, Kh, Kt, Ki. split; [done|]. split; [done|]. split; [done|]. split; [done|]. split; [done|].
    split; [by rewrite <- orb_assoc, Hor, orb_true_r|]. split; [by apply median_is_u64 in Hm' | done]. }
  destruct pm eqn:Epm.
  - destruct (Hp eq_refl) as [Hf Ht]. destruct (Hmain PmTimerBase PM_TIMER_FREQ_HZ) as (s' & E & H').
    + exact Ht.
    + unfold GetFrequency, has_interface. rewrite Hpm. cbn. by rewrite <- Hf.
    + done.
    + done.
    + done.
    + exists s'. cbn [andb]. rewrite E. split; [done|]. by intuition.
  - cbn [andb]. destruct hpet eqn:Eh.
    + destruct (Hh Eh) as [Hf (last & Ht & Hr)]. destruct (Hmain HpetBase (hpetFreqHz (gHpetSink s))) as (s' & E & H').
      * by exists 0, last.
      * unfold GetFrequency, has_interface. by rewrite (Eh : hpetInitialized _ = true).
      * lia.
      * apply enough_less with (10 ^ 13); [by apply He2|]. Z.to_euclidean_division_equations. lia.
      * done.
      * exists s'. cbn [andb]. rewrite E. split; [done|]. by intuition.
    + exists s. rewrite Hi, Hcal. rewrite !orb_false_r. repeat split; try done; apply Hu.
Qed.

(** The counter that the time source is to use. *)
Definition best_source (tsc : bool) (cpuidFreq : Z) (pm hpet : bool) : option (KE_TIME_SINK * TIME_SOURCE_KIND) :=
  if tsc && (negb (cpuidFreq =? 0) || pm || hpet) then Some (TscBase, TIME_SOURCE_TSC)
  else if pm then Some (PmTimerBase, TIME_SOURCE_PM_TIMER)
  else if hpet then Some (HpetBase, TIME_SOURCE_HPET)
  else None.

Lemma sinks_calibrated_run fuel rsdp s : honest rsdp (hw s) -> enough_to_calibrate fuel rsdp (hw s) ->
  let pm := success (fst (PmTimerSetup rsdp (hw s))) in
  exists s1 s2 s3 pmtStatus hpetStatus tscStatus s4,
    KeTscTimeSinkInit true (set_device no_device s) = (tscStatus, s1) /\
    KePmTimerTimeSinkInit true rsdp s1 = (pmtStatus, s2) /\ KeHpetTimeSinkInit true rsdp s2 = (hpetStatus, s3) /\
    (if success tscStatus then calibrate_tsc fuel pmtStatus hpetStatus s3 else Ok s3) = Ok s4 /\
    later (hw s) (hw s4) /\ gTimeDevice s4 = no_device /\
    let hpet := hpetInitialized (gHpetSink s4) in
    let source := best_source (tsc_counts (hw s)) (tsc_cpuid_freq (hw s)) pm hpet in
    select_sink s4 = source /\
    forall c kind, source = Some (c, kind) -> exists off last freqHz, tracks c off last s4 /\ recent c last (hw s4) /\
      GetFrequency c s4 = Ok freqHz /\ is_u64 freqHz /\ (c <> TscBase -> 0 < freqHz) /\
      (c = PmTimerBase -> freqHz = PM_TIMER_FREQ_HZ) /\ (c = HpetBase -> freqHz = hpetFreqHz (gHpetSink s4)) /\
      (c = TscBase -> tsc_frequency pm hpet (hpetFreqHz (gHpetSink s4)) (tsc_cpuid_freq (hw s)) (hw s) (hw s4) freqHz).
Proof.
  intros Hh [He1 He2] pm. destruct (sinks_run rsdp s Hh) as (t & s1 & s2 & s3 & st & E1 & E2 & E3 & Hst & Et & Ht1 & Ht2 & Ht3 & Ht4 & Hup & Hl & Hd).
  fold pm in Hup. exists s1, s2, s3, (fst (PmTimerSetup rsdp (hw s))), st, (if tsc_counts (hw s) then EC_SUCCESS else EC_NOT_SUPPORTED).
  assert (He2' : pm = false -> enough fuel (10 ^ 13)).
  { intros Hpm. apply He2. intros E. unfold pm, success in Hpm. by rewrite E in Hpm. }
  assert (Hother : forall c kind, (if pm then Some (PmTimerBase, TIME_SOURCE_PM_TIMER) else if hpetInitialized (gHpetSink s3) then Some (HpetBase, TIME_SOURCE_HPET) else None) = Some (c, kind) ->
    exists off last freqHz, tracks c off last s3 /\ recent c last (hw s3) /\ GetFrequency c s3 = Ok freqHz /\ is_u64 freqHz /\
      0 < freqHz /\ c <> TscBase /\ (c = PmTimerBase -> freqHz = PM_TIMER_FREQ_HZ) /\ (c = HpetBase -> freqHz = hpetFreqHz (gHpetSink s3))).
  { intros c kind Hs. destruct Hup as (Hpi & Hp & Hhp & Hu). destruct pm.
    - injection Hs as <- <-. destruct (Hp eq_refl) as (Hf & off & last & Ht & Hr). exists off, last, PM_TIMER_FREQ_HZ.
      unfold GetFrequency, has_interface, PmTimerSinkGetFrequency. rewrite Hpi, Hf. split; [done|]. split; [done|]. by repeat split.
    - destruct (hpetInitialized (gHpetSink s3)) eqn:Eh; [|done]. injection Hs as <- <-. destruct (Hhp eq_refl) as (Hf & last & Ht & Hr).
      exists 0, last, (hpetFreqHz (gHpetSink s3)). unfold GetFrequency, has_interface. rewrite Eh. split; [exact Ht|].
      split; [done|]. split; [done|]. split; [done|]. split; [lia|]. by repeat split. }
  assert (Hsel : forall s4, pmInitialized (gPmTimerSink s4) = pm -> tscInitialized (gTscSink s4) = tsc_counts (hw s) ->
    tscCalibrated (gTscSink s4) = negb (tsc_cpuid_freq (hw s) =? 0) || pm || hpetInitialized (gHpetSink s4) \/ tsc_counts (hw s) = false ->
    select_sink s4 = best_source (tsc_counts (hw s)) (tsc_cpuid_freq (hw s)) pm (hpetInitialized (gHpetSink s4))).
  { intros s4 Hp Hi Hc. unfold select_sink, best_source. rewrite Hp, Hi. destruct Hc as [-> | ->]; done. }
  destruct (tsc_counts (hw s)) eqn:Ec.
  - specialize (Ht4 eq_refl). rewrite <- Ht4, <- Et in *. cbn [andb] in Ht3.
    destruct (calibrate_tsc_run fuel (hw s) s3 (fst (PmTimerSetup rsdp (hw s))) st) as
      (s4 & E & Hl4 & Hd4 & Hh4 & Hp4 & Hi4 & Hc4 & Hu4 & Hf4 & Hsame); [done..|].
    exists s4. do 4 (split; [done|]). split; [by etransitivity|]. split; [congruence|]. cbn zeta.
    rewrite Hh4. fold pm in Hc4, Hf4, Hp4. split.
    + rewrite <- Hh4. apply Hsel; [done | done|]. left. by rewrite Hh4.
    + intros c kind Hs. unfold best_source in Hs. cbn [andb] in Hs.
      destruct (negb (tscFreqHz (gTscSink s3) =? 0) || pm || hpetInitialized (gHpetSink s3)) eqn:Eb.
      * injection Hs as <- <-. exists 0, (ticks TscBase (hw s4)), (tscFreqHz (gTscSink s4)).
        split; [by split|]. split; [unfold recent; lia|]. unfold GetFrequency, has_interface. rewrite Hi4. split; [done|]. split; [exact Hu4|]. by split.
      * assert (Esame : s4 = s3) by (apply Hsame; destruct pm, (hpetInitialized (gHpetSink s3)); rewrite ?orb_true_r in Eb; done).
        subst s4. destruct (Hother c kind Hs) as (off & last & f & H1 & H2 & H3 & H4 & H5 & H6 & H7 & H8).
        exists off, last, f. do 7 (split; [done|]). intros Hc. by destruct (H6 Hc).
  - exists s3. do 4 (split; [done|]). split; [done|]. split; [done|]. cbn zeta. split.
    + apply Hsel; [apply Hup | by rewrite Et | by right].
    + intros c kind Hs. destruct (Hother c kind Hs) as (off & last & f & H1 & H2 & H3 & H4 & H5 & H6 & H7 & H8).
      exists off, last, f. do 7 (split; [done|]). intros Hc. by destruct (H6 Hc).
Qed.

(** What [KeTimeSourceInit] does, [s'] being the state it ends in. *)
Definition comes_up (minLevel : Z) (fuel : nat) (rsdp : Z) s s' : Prop :=
  let pm := success (fst (PmTimerSetup rsdp (hw s))) in
  let hpet := hpetInitialized (gHpetSink s') in
  let outcome := KeTimeSourceInit minLevel fuel rsdp s in
  match best_source (tsc_counts (hw s)) (tsc_cpuid_freq (hw s)) pm hpet with
  | None => outcome = Ok (EC_UNSUPPORTED_MACHINE, s') /\ KeIsTimeSourceReady s' = false
  | Some (c, kind) =>
      let f := FreqHz (gTimeDevice s') in
      outcome = (if (f =? 0) && (minLevel <=? KLOG_LEVEL_INFO) then Panic EC_SUCCESS else Ok (EC_SUCCESS, s')) /\
      KeIsTimeSourceReady s' = true /\ KeGetTimeSourceKind s' = kind /\ ActiveSink (gTimeDevice s') = Some c /\
      (exists t0, ticks c (hw s) <= t0 <= ticks c (hw s') /\ keeps_time c t0 (ticks c (hw s')) s') /\
      match c with
      | PmTimerBase => f = PM_TIMER_FREQ_HZ
      | HpetBase => f = hpetFreqHz (gHpetSink s')
      | TscBase => tsc_frequency pm hpet (hpetFreqHz (gHpetSink s')) (tsc_cpuid_freq (hw s)) (hw s) (hw s') f
      end
  end.

Lemma tsc_frequency_later pm hpet hf cf m m' m1 f : later m' m1 -> tsc_frequency pm hpet hf cf m m' f -> tsc_frequency pm hpet hf cf m m1 f.
Proof. intros Hl. unfold tsc_frequency. destruct pm, hpet; [..|done]; apply median_earlier; try done; reflexivity. Qed.

Lemma stamp_run minLevel c t0 s : keeps_time c t0 (ticks c (hw s)) s -> ticks c (hw s) = t0 ->
  exists s', (if (FreqHz (gTimeDevice s) =? 0) && (minLevel <=? KLOG_LEVEL_INFO) then KLogWriteFmt minLevel KLOG_LEVEL_INFO s = Panic EC_SUCCESS
    else exists stamp, KLogWriteFmt minLevel KLOG_LEVEL_INFO s = Ok (stamp, s')) /\
  keeps_time c t0 (ticks c (hw s')) s' /\ later (hw s) (hw s') /\ same_setup s s'.
Proof.
  intros Hk Ht. pose proof Hk as (off & Hi & Ha & Hs & Hu & Htr). unfold KLogWriteFmt, KeIsTimeSourceReady. rewrite Hi.
  destruct (Z.ltb_spec KLOG_LEVEL_INFO minLevel) as [Hlt|Hge].
  - exists s. rewrite (proj2 (Z.leb_gt _ _)), andb_false_r by lia. split; [by eexists|]. split; [done|]. split; reflexivity.
  - rewrite (proj2 (Z.leb_le _ _)), andb_true_r by lia.
    destruct (uptime_run c t0 _ s Hk) as (s' & E & Hk' & Hs' & Hsame); [split; [lia | intros _; lia]|].
    rewrite E. cbv zeta. exists s'. split; [|split; [done|]; split; [by apply soon_later | done]].
    pose proof (soon_ticks c _ _ Hs') as Hb. rewrite Ht in Hb. rewrite u64_small by (unfold is_u64; lia). unfold is_u64 in Hu.
    destruct (Z.eqb_spec (FreqHz (gTimeDevice s)) 0) as [E0|E0].
    + rewrite E0, (proj2 (Z.ltb_ge _ _)) by lia. done.
    + rewrite (proj2 (Z.ltb_lt _ _)) by lia. by eexists.
Qed.

Lemma time_init_run minLevel fuel rsdp s : honest rsdp (hw s) -> enough_to_calibrate fuel rsdp (hw s) ->
  exists s', comes_up minLevel fuel rsdp s s'.
Proof.
  intros Hh He. destruct (sinks_calibrated_run fuel rsdp s Hh He) as (s1 & s2 & s3 & st2 & st3 & st1 & s4 & E1 & E2 & E3 & E4 & Hl & Hd & Hsel & Hsrc).
  unfold comes_up, KeTimeSourceInit. rewrite E1, E2, E3, E4. cbn [res_bind]. rewrite Hsel.
  set (pm := success (fst (PmTimerSetup rsdp (hw s)))) in *. set (hpet := hpetInitialized (gHpetSink s4)) in *.
  destruct (best_source (tsc_counts (hw s)) (tsc_cpuid_freq (hw s)) pm hpet) as [[c kind]|] eqn:Eb.
  2: { exists s4. fold hpet. rewrite Eb. unfold KeIsTimeSourceReady. by rewrite Hd. }
  destruct (Hsrc c kind eq_refl) as (off & last & f & Ht & Hr & Hg & Hu & _ & Hpf & Hhf & Htf).
  rewrite Hg. cbn [res_bind]. destruct (read_run c off last s4 Ht (recent_fresh _ _ _ Hr)) as (s5 & -> & Ht5 & Hs5 & _ & Hk5). cbn [res_bind].
  set (s6 := set_device _ s5).
  assert (Hk6 : keeps_time c (ticks c (hw s5)) (ticks c (hw s6)) s6).
  { exists off. split; [done|]. split; [done|]. split; [done|]. split; [done|]. by destruct c. }
  destruct (stamp_run minLevel c _ s6 Hk6 eq_refl) as (s7 & E7 & Hk7 & Hl7 & Hsame).
  assert (Ehpet : gHpetSink s7 = gHpetSink s4).
  { destruct Hsame as (_ & -> & _). destruct Hk5 as (_ & Eh & _). exact Eh. }
  assert (Ed : gTimeDevice s7 = mkTimeDevice (Some c) f (u64 (off + ticks c (hw s5))) true kind) by (by destruct Hsame as (-> & _)).
  exists s7. rewrite Ehpet. fold hpet. rewrite Eb. unfold KeIsTimeSourceReady, KeGetTimeSourceKind. rewrite Ed. cbn [FreqHz tdInitialized Kind ActiveSink].
  split; [|split; [done|]; split; [done|]; split; [done|]; split].
  - change (FreqHz (gTimeDevice s6)) with f in E7. destruct ((f =? 0) && (minLevel <=? KLOG_LEVEL_INFO)); [by rewrite E7|].
    destruct E7 as [stamp ->]. done.
  - exists (ticks c (hw s5)). split; [|done]. split.
    + apply later_ticks. etransitivity; [exact Hl | by apply soon_later].
    + apply (later_ticks c _ _ Hl7).
  - assert (Hl57 : later (hw s4) (hw s7)) by (etransitivity; [apply soon_later, Hs5 | exact Hl7]).
    destruct c; [by apply Hhf | by apply Hpf|]. by apply tsc_frequency_later with (hw s4), Htf.
Qed.

Lemma busy_wait_run fuel c t0 last n s : keeps_time c t0 last s -> fresh c last (hw s) -> 0 < n < 2 ^ 64 ->
  let f := FreqHz (gTimeDevice s) in
  let ticksToWait := Z.max 1 (n * f / 1000000) in
  (1000000 * 2 ^ 64 <= n * f -> KeBusyWaitUs fuel n s = Panic EC_SUCCESS) /\
  (ticksToWait <= 2 ^ 62 -> enough fuel ticksToWait -> exists s' t1, KeBusyWaitUs fuel n s = Ok s' /\
    keeps_time c t0 (ticks c (hw s')) s' /\ later (hw s) (hw s') /\ same_setup s s' /\
    ticks c (hw s) <= t1 < ticks c (hw s) + 2 ^ 20 /\ t1 + ticksToWait <= ticks c (hw s') < t1 + ticksToWait + 2 ^ 21).
Proof.
  intros (off & Hi & Ha & Hs & Hu & Ht) Hfr Hn f w. unfold KeBusyWaitUs. rewrite Hi, Ha. cbn [negb orb].
  rewrite (proj2 (Z.eqb_neq n 0)) by lia. unfold is_u64 in Hu. fold f in Hu. rewrite mul_div_run by (unfold is_u64; lia). fold f. split.
  - intros Hbig. by rewrite (proj2 (Z.ltb_ge _ _)) by lia.
  - intros Hw He. assert (Hlt : n * f < 1000000 * 2 ^ 64) by (subst w; Z.to_euclidean_division_equations; lia).
    rewrite (proj2 (Z.ltb_lt _ _)) by lia. cbn [res_bind].
    assert (Ew : (if n * f / 1000000 =? 0 then 1 else n * f / 1000000) = w).
    { pose proof (Z.div_pos (n * f) 1000000). subst w. destruct (Z.eqb_spec (n * f / 1000000) 0); lia. }
    rewrite Ew. destruct (read_run c off last s Ht Hfr) as (s1 & -> & Ht1 & Hs1 & _ & Hk1). cbn [res_bind].
    pose proof (soon_ticks c _ _ Hs1) as Hb1.
    destruct (wait_enough_run fuel c off _ (ticks c (hw s1)) w s1 Ht1) as (s2 & E2 & Ht2 & Hl2 & Hk2 & Hb2).
    { split; [lia | intros _; lia]. }
    { lia. }
    { lia. }
    { done. }
    exists s2, (ticks c (hw s1)). split; [done|]. split; [|split; [|split; [|split]]].
    + exists off. destruct Hk1 as (E1 & _), Hk2 as (E2' & _). rewrite E2', E1. by do 4 (split; [done|]).
    + etransitivity; [apply soon_later, Hs1 | exact Hl2].
    + by etransitivity.
    + lia.
    + lia.
Qed.

(** ** Properties *)

(** C40: A TSC that [cpuid] does not mark invariant is never used: the code means
    to accept it under a hypervisor, but [IsRunningInHypervisor] is a [BOOL], an
    unsigned char, and is given the value of bit 31, which does not fit, so it
    is false on every machine. *)
Theorem hypervisor_is_never_seen s : TscDetectInvariant (GetBasicCpuInfo (hw s)) = false ->
  IsRunningInHypervisor (GetBasicCpuInfo (hw s)) = 0 /\
  exists t, KeTscTimeSinkInit true s = (EC_NOT_SUPPORTED, set_tsc t s) /\ tscInitialized t = false.
Proof.
  intros Hi. split; [apply no_hypervisor|]. destruct (tsc_init_run s) as (t & E & Ht & _). exists t.
  unfold tsc_counts in *. rewrite Hi, andb_false_r in *. done.
Qed.

(** Calibrating the TSC against an initialised sink of frequency [f]
    returns, and the frequency it sets is the median of five measurements; each
    is a hundred times the TSC ticks around a wait in which the reference
    counted a hundredth of its frequency, and at most [2^21] more.  A missing
    sink or a reference that does not count is refused. *)
Theorem calibration_takes_the_median fuel c off last s f :
  tscInitialized (gTscSink s) = true -> tracks c off last s -> recent c last (hw s) ->
  GetFrequency c s = Ok f -> is_u64 f ->
  KeTscTimeSinkCalibrate fuel true None s = Ok (EC_ILLEGAL_ARGUMENT, s) /\
  (f = 0 -> KeTscTimeSinkCalibrate fuel true (Some c) s = Ok (EC_INVALID_STATE, s)) /\
  (f <> 0 -> enough fuel (f / 100) -> exists s',
    KeTscTimeSinkCalibrate fuel true (Some c) s = Ok (EC_SUCCESS, s') /\ later (hw s) (hw s') /\
    tscCalibrated (gTscSink s') = true /\ median_frequency c f (hw s) (hw s') (tscFreqHz (gTscSink s'))).
Proof.
  intros Hi Ht Hr Hg Hf. split; [done|]. split.
  - intros ->. unfold KeTscTimeSinkCalibrate. rewrite Hi, Hg. done.
  - intros Hz He. unfold is_u64 in Hf.
    destruct (calibrate_run fuel c off last s f Hi Ht Hr Hg ltac:(lia) He) as (s1 & last' & l & l' & x & -> & _ & Hl & _ & _ & Hm).
    eexists. split; [reflexivity|]. cbn. split; [done|]. split; [done|]. by exists l, l'.
Qed.

(** C21: [KeTimeSourceInit] returns on every machine whose firmware describes its
    timers truly.  It takes the TSC if [cpuid] says it counts at a constant rate
    and its frequency is known or can be measured, else the PM timer, else the
    HPET, else it fails with the device unready.  Then the device counts with
    the chosen sink from an instant during the call on, at the frequency of the
    sink: for the TSC the median of five measurements against the PM timer, or
    the HPET, or what [cpuid] says.  A measured frequency of 0 is accepted, and
    the first log line then divides by it and stops the machine. *)
Theorem time_source_comes_up minLevel fuel rsdp s :
  honest rsdp (hw s) -> enough_to_calibrate fuel rsdp (hw s) -> exists s', comes_up minLevel fuel rsdp s s'.
Proof. apply time_init_run. Qed.




(** A busy wait of [n] microseconds ends, and not before the counter has
    counted [n * f / 10^6] times, at least once, since an instant of the call;
    it overshoots by two accesses at most.  A wait whose ticks do not fit in 64
    bits stops the machine, and an uninitialised clock or a wait of 0 returns at
    once. *)
Theorem busy_wait_waits fuel c t0 last n s : keeps_time c t0 last s -> fresh c last (hw s) -> 0 < n < 2 ^ 64 ->
  let f := FreqHz (gTimeDevice s) in
  let ticksToWait := Z.max 1 (n * f / 1000000) in
  KeBusyWaitUs fuel 0 s = Ok s /\ KeBusyWaitUs fuel n (set_device no_device s) = Ok (set_device no_device s) /\
  (1000000 * 2 ^ 64 <= n * f -> KeBusyWaitUs fuel n s = Panic EC_SUCCESS) /\
  (ticksToWait <= 2 ^ 62 -> enough fuel ticksToWait -> exists s' t1, KeBusyWaitUs fuel n s = Ok s' /\
    keeps_time c t0 (ticks c (hw s')) s' /\ ticks c (hw s) <= t1 < ticks c (hw s) + 2 ^ 20 /\
    t1 + ticksToWait <= ticks c (hw s') < t1 + ticksToWait + 2 ^ 21).
Proof.
  intros Hk Hf Hn f w. destruct (busy_wait_run fuel c t0 last n s Hk Hf Hn) as [Hbig Hrun].
  split; [unfold KeBusyWaitUs; by rewrite orb_true_r|]. split; [done|]. split; [exact Hbig|].
  intros Hw He. destruct (Hrun Hw He) as (s' & t1 & E & Hk' & _ & _ & Hb1 & Hb2). by exists s', t1.
Qed.
End machine.

(** ** A machine *)

(** Every access takes 400 ticks of the PM timer and the HPET, and a thousand
    times as many of the TSC.  The firmware's tables list both timers. *)
Record toy := mkToy { toy_now : Z; toy_enabled : bool; toy_invariant : bool }.
Definition toy_step (m : toy) : toy := mkToy (toy_now m + 400) (toy_enabled m) (toy_invariant m).

Definition toy_tables : list (Z * (Z * Z)) :=
  [(0x100F, (1, 2)); (0x1018, (8, 0x2000)); (0x2004, (4, 52)); (0x2024, (8, 0x3000)); (0x202C, (8, 0x4000));
   (0x3000, (4, 0x50434146)); (0x304C, (4, 0x608)); (0x3070, (4, 0x100)); (0x4000, (4, 0x54455048)); (0x402C, (8, 0xFED00000))].
Definition toy_ram (va : Z) : Z :=
  let a := u64 (va - HHDM_PHYS2VIRT 0) in
  match find (fun f => (fst f <=? a) && (a <? fst f + fst (snd f))) toy_tables with
  | Some (start, (_, v)) => v / 256 ^ (a - start) mod 256
  | None => 0
  end.
Definition toy_hpet : Z := HHDM_PHYS2VIRT 0xFED00000.

#[export] Instance toy_hw : TimeHw toy := {
  rdtsc m := let m := toy_step m in (u64 (1000 * toy_now m), m);
  inl port m := let m := toy_step m in (u32 (toy_now m), m);
  read64 a m := let m := toy_step m in
    (if a =? toy_hpet then Z.shiftl 69841279 32 else u64 (toy_now m), m);
  write64 a v m := mkToy (toy_now m + 400) (toy_enabled m || Z.testbit v 0) (toy_invariant m);
  pause m := toy_step m;
  cpuidex leaf sub m :=
    if leaf =? 1 then (0, 0, 2 ^ 31, 16) else if leaf =? 0 then (13, 0, 0, 0)
    else if leaf =? 0x80000000 then (0x80000008, 0, 0, 0)
    else if leaf =? 0x80000007 then (0, 0, 0, if toy_invariant m then 256 else 0) else (0, 0, 0, 0);
  ram m := toy_ram
}.

Definition toy_ticks (c : KE_TIME_SINK) (m : toy) : Z :=
  match c with TscBase => 1000 * toy_now m | _ => toy_now m end.

#[export] Program Instance toy_laws : TimeLaws toy := {
  ticks := toy_ticks;
  phase c m := 0%nat;
  max_phase := 0%nat;
  pm_port := 0x608;
  pm_width := 32;
  hpet_at := toy_hpet;
  hpet_on m := toy_enabled m = true
}.
Next Obligation. done. Qed.
Next Obligation. by right. Qed.
Next Obligation. intros m. split; [split; [|done]|]; intros []; cbn; lia. Qed.
Next Obligation.
  intros leaf sub m. cbn. repeat case_match; simplify_eq; repeat split; done.
Qed.
Next Obligation.
  intros m v m' [= <- <-]. split; [split; [split; [|done]|]; intros []; cbn; lia|]. split; [done|]. left. cbn. lia.
Qed.
Next Obligation.
  intros port m v m' [= <- <-]. split; [split; [split; [|done]|]; intros []; cbn; lia|]. split; [apply u32_range|].
  intros _. split; [by apply Z.mod_mod | left; cbn; lia].
Qed.
Next Obligation.
  intros a m v m' [= <- <-]. split; [split; [split; [|done]|]; intros []; cbn; lia|]. intros -> _. cbn. split; [done|]. left. lia.
Qed.
Next Obligation.
  intros v m. split; [split; [split; [|split; [done|split; [done|]]]|]|].
  - intros []; cbn; lia.
  - cbn. intros ->. done.
  - intros []; cbn; lia.
  - cbn. intros ->. apply orb_true_r.
Qed.

Definition toy_off (invariant : bool) : TIME toy := mkTime no_device no_hpet no_pmtimer no_tsc (mkToy 1000 false invariant).
Definition toy_fuel : nat := Z.to_nat 40000.

Lemma toy_honest invariant : honest 0x1000 (hw (toy_off invariant)).
Proof. split; [intros port w E | intros table E _]; vm_compute in E; injection E as <-; [subst; by split | by vm_compute]. Qed.
Lemma toy_enough invariant : enough_to_calibrate toy_fuel 0x1000 (hw (toy_off invariant)).
Proof. split; [unfold enough, toy_fuel; cbn [max_phase toy_laws]; change (PM_TIMER_FREQ_HZ / 100) with 35795; lia | intros E; by destruct E]. Qed.

Lemma hypervisor_is_never_seen_witness :
  TscDetectInvariant (GetBasicCpuInfo (hw (toy_off false))) = false /\
  bit_set (let '(_, _, ecx, _) := cpuid 1 (hw (toy_off false)) in ecx) 31 = true /\
  IsRunningInHypervisor (GetBasicCpuInfo (hw (toy_off false))) = 0.
Proof. split; [done|]. split; [done|]. apply (hypervisor_is_never_seen (toy_off false)). done. Defined.

(** A machine whose PM timer has been read at tick 1000. *)
Definition toy_pm : TIME toy := mkTime no_device no_hpet (fresh_pm 0x608 32 1000) (mkTsc 0 true true false) (mkToy 1000 false true).
Lemma toy_pm_tracks : tracks PmTimerBase 0 1000 toy_pm.
Proof. split; [done|]. split; [done|]. split; [done|]. apply (fresh_pm_rel 0x608 32 1000). by right. Qed.

Lemma calibration_takes_the_median_witness : exists s',
  KeTscTimeSinkCalibrate toy_fuel true (Some PmTimerBase) toy_pm = Ok (EC_SUCCESS, s') /\ later (hw toy_pm) (hw s') /\
  tscCalibrated (gTscSink s') = true /\ median_frequency PmTimerBase PM_TIMER_FREQ_HZ (hw toy_pm) (hw s') (tscFreqHz (gTscSink s')).
Proof.
  apply (calibration_takes_the_median toy_fuel PmTimerBase 0 1000 toy_pm PM_TIMER_FREQ_HZ).
  - done.
  - exact toy_pm_tracks.
  - by split.
  - done.
  - done.
  - done.
  - exact (proj1 (toy_enough true)).
Defined.

Lemma time_source_comes_up_witness : exists s', comes_up 0 toy_fuel 0x1000 (toy_off true) s'.
Proof. apply time_source_comes_up; [apply toy_honest | apply toy_enough]. Defined.


(** The device on the PM timer. *)
Definition toy_device : TIME toy := set_device (mkTimeDevice (Some PmTimerBase) PM_TIMER_FREQ_HZ 1000 true TIME_SOURCE_PM_TIMER) toy_pm.

Lemma busy_wait_waits_witness : let ticksToWait := Z.max 1 (200 * FreqHz (gTimeDevice toy_device) / 1000000) in
  ticksToWait = 715 /\ exists s' t1, KeBusyWaitUs toy_fuel 200 toy_device = Ok s' /\
  keeps_time PmTimerBase 1000 (ticks PmTimerBase (hw s')) s' /\
  ticks PmTimerBase (hw toy_device) <= t1 < ticks PmTimerBase (hw toy_device) + 2 ^ 20 /\
  t1 + ticksToWait <= ticks PmTimerBase (hw s') < t1 + ticksToWait + 2 ^ 21.
Proof.
  split; [done|]. apply (busy_wait_waits toy_fuel PmTimerBase 1000 1000 200 toy_device).
  - exists 0. do 4 (split; [done|]). exact toy_pm_tracks.
  - split; [done | intros _; by vm_compute].
  - done.
  - by vm_compute.
  - unfold enough, toy_fuel. cbn [max_phase toy_laws]. change (Z.max 1 _) with 715. lia.
Defined.
End TimeThms.
