(* ===== verification/ClockEvent.v ===== *)
(** * Clock events: the local APIC timer and the clock event device

    [drivers/time/lapic_timer_driver.c], its sink
    ([ke/time/sinks/lapic_clockevent_sink.c]) and the device
    ([ke/time/clock_event.c]) with its start-up test.  Time comes from [Time],
    handlers are registered in the table of [Idt].  Interrupts that arrive while
    a busy wait runs are taken when it ends ([take_interrupts]). *)

From stdpp Require Import strings.
From S2P Require Import Prelude Time Idt.

Local Open Scope Z_scope.

(** The local APIC, by memory and by model-specific registers, and the vector
    of an interrupt that waits to be taken. *)
Class LapicHw (M : Type) {HW : TimeHw M} := {
  rdmsr : Z -> M -> Z * M;
  wrmsr : Z -> Z -> M -> M;
  read32 : Z -> M -> Z * M;
  write32 : Z -> Z -> M -> M;
  take_irq : M -> option Z * M
}.

Module ClockEvent.
Import Time.

Definition IA32_APIC_BASE_MSR : Z := 0x1B.
Definition IA32_X2APIC_MSR_BASE : Z := 0x800.
Definition IA32_APIC_BASE_X2APIC : Z := Z.shiftl 1 10.
Definition IA32_APIC_BASE_ENABLE : Z := Z.shiftl 1 11.
Definition IA32_APIC_BASE_ADDR_MASK : Z := 0x00000000FFFFF000.
Definition LAPIC_REG_EOI : Z := 0x0B0.
Definition LAPIC_REG_SVR : Z := 0x0F0.
Definition LAPIC_REG_LVT_TIMER : Z := 0x320.
Definition LAPIC_REG_INITIAL_COUNT : Z := 0x380.
Definition LAPIC_REG_CURRENT_COUNT : Z := 0x390.
Definition LAPIC_REG_DIVIDE_CONFIG : Z := 0x3E0.
Definition LAPIC_SVR_ENABLE : Z := Z.shiftl 1 8.
Definition LAPIC_LVT_MASKED : Z := Z.shiftl 1 16.
Definition LAPIC_LVT_MODE_ONE_SHOT : Z := Z.shiftl 0 17.
Definition LAPIC_TIMER_DIVIDE_BY_16 : Z := 3.
Definition LAPIC_TIMER_VECTOR : Z := 0x40.
Definition LAPIC_SPURIOUS_VECTOR : Z := 0xFF.
Definition LAPIC_CALIBRATION_US : Z := 10000.
Definition LAPIC_SELFTEST_DELTA_NS : Z := 5000000.
Definition LAPIC_SELFTEST_TIMEOUT_US : Z := 50000.
Definition KE_CLOCK_EVENT_MAX_CPU_COUNT : Z := 1.

(** ** Data *)

Inductive LAPIC_ACCESS_MODE := LAPIC_ACCESS_XAPIC_MMIO | LAPIC_ACCESS_X2APIC_MSR.

Record KE_LAPIC_CLOCK_EVENT_SINK := mkLapic {
  BasePhys : Z;
  BaseVirt : Z;
  TicksPerSec : Z;
  DividerValue : Z;
  VectorNumber : Z;
  lapicInitialized : bool
}.

Inductive KE_CLOCK_EVENT_MODE := KE_CLOCK_EVENT_MODE_ONE_SHOT | KE_CLOCK_EVENT_MODE_TSC_DEADLINE.
Inductive KE_CLOCK_EVENT_KIND := KE_CLOCK_EVENT_NONE | KE_CLOCK_EVENT_LAPIC_TIMER.
Record KE_CLOCK_EVENT_PERCPU_STATE := mkPerCpu { cpuInitialized : bool; InterruptCount : Z }.

(** [HasSink]: [ActiveSink] and [ActiveSinkContext] point to the only sink. *)
Record KE_CLOCK_EVENT_DEVICE := mkClockEvent {
  HasSink : bool;
  ceMode : KE_CLOCK_EVENT_MODE;
  ceKind : KE_CLOCK_EVENT_KIND;
  ceFreqHz : Z;
  ceVectorNumber : Z;
  ceInitialized : bool;
  PerCpu : list KE_CLOCK_EVENT_PERCPU_STATE
}.

(** The static variables, the interrupt flag, the interrupt table and time. *)
Record CLOCK (M : Type) := mkClock {
  gLapicAccessMode : LAPIC_ACCESS_MODE;
  gLapicClockEventSink : KE_LAPIC_CLOCK_EVENT_SINK;
  gClockEventDevice : KE_CLOCK_EVENT_DEVICE;
  MaskableInterruptEnabled : bool;
  idt : Idt.IDT;
  time : TIME M
}.
#[global] Arguments mkClock {M}.
#[global] Arguments gLapicAccessMode {M}.
#[global] Arguments gLapicClockEventSink {M}.
#[global] Arguments gClockEventDevice {M}.
#[global] Arguments MaskableInterruptEnabled {M}.
#[global] Arguments idt {M}.
#[global] Arguments time {M}.

Definition no_lapic : KE_LAPIC_CLOCK_EVENT_SINK := mkLapic 0 0 0 0 0 false.
Definition no_clock_event : KE_CLOCK_EVENT_DEVICE :=
  mkClockEvent false KE_CLOCK_EVENT_MODE_ONE_SHOT KE_CLOCK_EVENT_NONE 0 0 false
    (replicate (Z.to_nat KE_CLOCK_EVENT_MAX_CPU_COUNT) (mkPerCpu false 0)).

Section setters.
Context {M : Type}.
Implicit Type k : CLOCK M.
Definition set_mode x k : CLOCK M := mkClock x (gLapicClockEventSink k) (gClockEventDevice k) (MaskableInterruptEnabled k) (idt k) (time k).
Definition set_lapic x k : CLOCK M := mkClock (gLapicAccessMode k) x (gClockEventDevice k) (MaskableInterruptEnabled k) (idt k) (time k).
Definition set_clock_event x k : CLOCK M := mkClock (gLapicAccessMode k) (gLapicClockEventSink k) x (MaskableInterruptEnabled k) (idt k) (time k).
Definition set_if x k : CLOCK M := mkClock (gLapicAccessMode k) (gLapicClockEventSink k) (gClockEventDevice k) x (idt k) (time k).
Definition set_idt x k : CLOCK M := mkClock (gLapicAccessMode k) (gLapicClockEventSink k) (gClockEventDevice k) (MaskableInterruptEnabled k) x (time k).
Definition set_time x k : CLOCK M := mkClock (gLapicAccessMode k) (gLapicClockEventSink k) (gClockEventDevice k) (MaskableInterruptEnabled k) (idt k) x.
Definition set_machine m k : CLOCK M := set_time (set_hw m (time k)) k.
Definition set_per_cpu l (d : KE_CLOCK_EVENT_DEVICE) : KE_CLOCK_EVENT_DEVICE :=
  mkClockEvent (HasSink d) (ceMode d) (ceKind d) (ceFreqHz d) (ceVectorNumber d) (ceInitialized d) l.
Definition set_ready b (d : KE_CLOCK_EVENT_DEVICE) : KE_CLOCK_EVENT_DEVICE :=
  mkClockEvent (HasSink d) (ceMode d) (ceKind d) (ceFreqHz d) (ceVectorNumber d) b (PerCpu d).
End setters.

Section lapic.
Context {M : Type} {HW : TimeHw M} {LH : LapicHw M}.
Variable HO_LOG_MIN_LEVEL : Z.
Implicit Type k : CLOCK M.

(** ** The driver ([lapic_timer_driver.c]) *)

Definition LapicGetCpuidFeatureBits (out : bool) k : HO_STATUS * Z * Z :=
  if negb out then (EC_ILLEGAL_ARGUMENT, 0, 0) else
  let '(_, _, ecx, edx) := cpuid 0x1 (hw (time k)) in (EC_SUCCESS, ecx, edx).
Definition LapicGetRegPtr (baseVirt regOffset : Z) : Z := u64 (baseVirt + regOffset).
Definition LapicRegOffsetToMsr (regOffset : Z) : Z := u32 (IA32_X2APIC_MSR_BASE + Z.shiftr regOffset 4).

Definition read_msr (msr : Z) k : Z * CLOCK M := let '(v, m) := rdmsr msr (hw (time k)) in (v, set_machine m k).
Definition write_msr (msr value : Z) k : CLOCK M := set_machine (wrmsr msr value (hw (time k))) k.

(** The outputs are what is stored through [basePhysOut] and [baseVirtOut];
    [out] tells whether they are given. *)
Definition LapicDetectAndEnable (out : bool) k : HO_STATUS * option (Z * Z) * CLOCK M :=
  if negb out then (EC_ILLEGAL_ARGUMENT, None, k) else
  let '(status, featureEcx, featureEdx) := LapicGetCpuidFeatureBits true k in
  if negb (success status) then (status, None, k) else
  if negb (bit_set featureEdx 9) then (EC_NOT_SUPPORTED, None, k) else
  let hasX2Apic := bit_set featureEcx 21 in
  let '(apicBase, k) := read_msr IA32_APIC_BASE_MSR k in
  let apicBase := if hasX2Apic then Z.lor apicBase (Z.lor IA32_APIC_BASE_ENABLE IA32_APIC_BASE_X2APIC)
                  else Z.land (Z.lor apicBase IA32_APIC_BASE_ENABLE) (not64 IA32_APIC_BASE_X2APIC) in
  let k := write_msr IA32_APIC_BASE_MSR apicBase k in
  let '(apicBase, k) := read_msr IA32_APIC_BASE_MSR k in
  if Z.land apicBase IA32_APIC_BASE_ENABLE =? 0 then (EC_FAILURE, None, k) else
  (* the processor must have followed the request *)
  if Bool.eqb (Z.land apicBase IA32_APIC_BASE_X2APIC =? 0) hasX2Apic then (EC_FAILURE, None, k) else
  let mode := if hasX2Apic then LAPIC_ACCESS_X2APIC_MSR else LAPIC_ACCESS_XAPIC_MMIO in
  let k := set_mode mode k in
  let basePhys := Z.land apicBase IA32_APIC_BASE_ADDR_MASK in
  if negb hasX2Apic && (basePhys =? 0) then (EC_FAILURE, None, k) else
  (EC_SUCCESS, Some (basePhys, HHDM_PHYS2VIRT basePhys), k).

Definition LapicReadReg (baseVirt regOffset : Z) k : Z * CLOCK M :=
  match gLapicAccessMode k with
  | LAPIC_ACCESS_X2APIC_MSR => let '(v, k) := read_msr (LapicRegOffsetToMsr regOffset) k in (u32 v, k)
  | LAPIC_ACCESS_XAPIC_MMIO => let '(v, m) := read32 (LapicGetRegPtr baseVirt regOffset) (hw (time k)) in (u32 v, set_machine m k)
  end.
Definition LapicWriteReg (baseVirt regOffset value : Z) k : CLOCK M :=
  match gLapicAccessMode k with
  | LAPIC_ACCESS_X2APIC_MSR => write_msr (LapicRegOffsetToMsr regOffset) value k
  | LAPIC_ACCESS_XAPIC_MMIO => set_machine (write32 (LapicGetRegPtr baseVirt regOffset) value (hw (time k))) k
  end.
Definition LapicGetAccessMode k : LAPIC_ACCESS_MODE := gLapicAccessMode k.
Definition LapicIsX2ApicActive k : bool :=
  match gLapicAccessMode k with LAPIC_ACCESS_X2APIC_MSR => true | LAPIC_ACCESS_XAPIC_MMIO => false end.

Definition LapicSetSpuriousVector (baseVirt vectorNumber : Z) k : CLOCK M :=
  let '(svr, k) := LapicReadReg baseVirt LAPIC_REG_SVR k in
  let svr := Z.land svr (u32 (Z.lnot 0xFF)) in
  let svr := Z.lor svr vectorNumber in
  let svr := Z.lor svr LAPIC_SVR_ENABLE in
  LapicWriteReg baseVirt LAPIC_REG_SVR svr k.
Definition LapicSendEoi (baseVirt : Z) k : CLOCK M := LapicWriteReg baseVirt LAPIC_REG_EOI 0 k.
Definition LapicTimerConfigureOneShot (baseVirt vectorNumber dividerValue : Z) (masked : bool) k : CLOCK M :=
  let lvt := Z.lor vectorNumber LAPIC_LVT_MODE_ONE_SHOT in
  let lvt := if masked then Z.lor lvt LAPIC_LVT_MASKED else lvt in
  let k := LapicWriteReg baseVirt LAPIC_REG_DIVIDE_CONFIG dividerValue k in
  LapicWriteReg baseVirt LAPIC_REG_LVT_TIMER lvt k.
Definition LapicTimerSetInitialCount (baseVirt initialCount : Z) k : CLOCK M :=
  LapicWriteReg baseVirt LAPIC_REG_INITIAL_COUNT initialCount k.
Definition LapicTimerGetCurrentCount (baseVirt : Z) k : Z * CLOCK M := LapicReadReg baseVirt LAPIC_REG_CURRENT_COUNT k.

(** ** The sink ([lapic_clockevent_sink.c])

    [sink] tells whether the pointer is to the sink or NULL. *)

Definition LapicClockEventSetNextEventNs (sink : bool) (deltaNs : Z) k : res (HO_STATUS * CLOCK M) :=
  if negb sink then Ok (EC_ILLEGAL_ARGUMENT, k) else
  let s := gLapicClockEventSink k in
  if negb (lapicInitialized s) || (TicksPerSec s =? 0) then Ok (EC_INVALID_STATE, k) else
  let deltaNs := if deltaNs =? 0 then 1 else deltaNs in
  let* ticks := Mul64Div64 deltaNs (TicksPerSec s) 1000000000 in
  let ticks := if ticks =? 0 then 1 else ticks in
  let ticks := if 0xFFFFFFFF <? ticks then 0xFFFFFFFF else ticks in
  let k := LapicTimerConfigureOneShot (BaseVirt s) (VectorNumber s) (DividerValue s) false k in
  let k := LapicTimerSetInitialCount (BaseVirt s) (u32 ticks) k in
  Ok (EC_SUCCESS, k).

Definition LapicClockEventGetMinDeltaNs (sink : bool) k : Z :=
  let s := gLapicClockEventSink k in
  if negb sink || (TicksPerSec s =? 0) then 0 else u64 (1000000000 + TicksPerSec s - 1) / TicksPerSec s.
Definition LapicClockEventGetMaxDeltaNs (sink : bool) k : res Z :=
  let s := gLapicClockEventSink k in
  if negb sink || (TicksPerSec s =? 0) then Ok 0 else Mul64Div64 0xFFFFFFFF 1000000000 (TicksPerSec s).
Definition LapicClockEventGetName k : string := if LapicIsX2ApicActive k then "x2APIC" else "LAPIC".

Definition set_ticks_per_sec (t : Z) (s : KE_LAPIC_CLOCK_EVENT_SINK) : KE_LAPIC_CLOCK_EVENT_SINK :=
  mkLapic (BasePhys s) (BaseVirt s) t (DividerValue s) (VectorNumber s) (lapicInitialized s).

Definition KeLapicClockEventSinkInit (sink : bool) (vectorNumber : Z) k : HO_STATUS * CLOCK M :=
  if negb sink then (EC_ILLEGAL_ARGUMENT, k) else
  let k := set_lapic no_lapic k in
  let '(status, out, k) := LapicDetectAndEnable true k in
  match out with
  | None => (status, k)
  | Some (basePhys, baseVirt) =>
      let k := LapicSetSpuriousVector baseVirt 0xFF k in
      let k := LapicTimerConfigureOneShot baseVirt vectorNumber LAPIC_TIMER_DIVIDE_BY_16 true k in
      let k := LapicTimerSetInitialCount baseVirt 0 k in
      (EC_SUCCESS, set_lapic (mkLapic basePhys baseVirt 0 LAPIC_TIMER_DIVIDE_BY_16 vectorNumber true) k)
  end.

(** [KeGetSystemUpRealTime] and [KeBusyWaitUs] on the whole state. *)
Definition up_time k : res (Z * CLOCK M) :=
  let* (us, t) := KeGetSystemUpRealTime (time k) in Ok (us, set_time t k).
Definition busy_wait (fuel : nat) (us : Z) k : res (CLOCK M) :=
  let* t := KeBusyWaitUs fuel us (time k) in Ok (set_time t k).

(** The calibration loop. *)
Fixpoint wait_window (rounds fuel : nat) (startUs windowUs nowUs : Z) k : res (Z * CLOCK M) :=
  if negb (u64 (nowUs - startUs) <? windowUs) then Ok (nowUs, k) else
  match rounds with
  | O => NoFuel
  | S rounds =>
      let* k := busy_wait fuel 200 k in
      let* (nowUs, k) := up_time k in
      wait_window rounds fuel startUs windowUs nowUs k
  end.

Definition KeLapicClockEventSinkCalibrate (rounds fuel : nat) (sink : bool) (windowUs : Z) k : res (HO_STATUS * CLOCK M) :=
  if negb sink || (windowUs =? 0) then Ok (EC_ILLEGAL_ARGUMENT, k) else
  let s := gLapicClockEventSink k in
  if negb (lapicInitialized s) then Ok (EC_INVALID_STATE, k) else
  let k := LapicTimerConfigureOneShot (BaseVirt s) (VectorNumber s) (DividerValue s) false k in
  let k := LapicTimerSetInitialCount (BaseVirt s) 0xFFFFFFFF k in
  let* (startUs, k) := up_time k in
  let '(startCount, k) := LapicTimerGetCurrentCount (BaseVirt s) k in
  let* (nowUs, k) := wait_window rounds fuel startUs windowUs startUs k in
  let '(endCount, k) := LapicTimerGetCurrentCount (BaseVirt s) k in
  let k := LapicTimerConfigureOneShot (BaseVirt s) (VectorNumber s) (DividerValue s) true k in
  let k := LapicTimerSetInitialCount (BaseVirt s) 0 k in
  let elapsedUs := u64 (nowUs - startUs) in
  if (elapsedUs =? 0) || (startCount <=? endCount) then Ok (EC_FAILURE, k) else
  let consumedTicks := u32 (startCount - endCount) in
  let* ticksPerSec := Mul64Div64 consumedTicks 1000000 elapsedUs in
  if ticksPerSec =? 0 then Ok (EC_FAILURE, k) else
  Ok (EC_SUCCESS, set_lapic (set_ticks_per_sec ticksPerSec (gLapicClockEventSink k)) k).

Definition KeLapicClockEventSinkSendEoi (sink : bool) k : CLOCK M :=
  if negb sink || negb (lapicInitialized (gLapicClockEventSink k)) then k
  else LapicSendEoi (BaseVirt (gLapicClockEventSink k)) k.

(** ** The device ([clock_event.c]) *)

(** [PerCpu[0]]: the array has one entry. *)
Definition per_cpu0 k : KE_CLOCK_EVENT_PERCPU_STATE :=
  match PerCpu (gClockEventDevice k) with p :: _ => p | [] => mkPerCpu false 0 end.
Definition set_per_cpu0 p k : CLOCK M := set_clock_event (set_per_cpu [p] (gClockEventDevice k)) k.

Definition KeClockEventPerCpuInit (cpuIndex : Z) k : res (HO_STATUS * CLOCK M) :=
  if KE_CLOCK_EVENT_MAX_CPU_COUNT <=? cpuIndex then Ok (EC_ILLEGAL_ARGUMENT, k) else
  let s := gLapicClockEventSink k in
  if negb (lapicInitialized s) || (TicksPerSec s =? 0) then Ok (EC_INVALID_STATE, k) else
  let k := LapicTimerConfigureOneShot (BaseVirt s) (VectorNumber s) (DividerValue s) true k in
  let k := LapicTimerSetInitialCount (BaseVirt s) 0 k in
  let* l := wr (PerCpu (gClockEventDevice k)) cpuIndex (mkPerCpu true 0) in
  Ok (EC_SUCCESS, set_clock_event (set_per_cpu l (gClockEventDevice k)) k).

Definition KeClockEventSetNextEvent (deltaNs : Z) k : res (HO_STATUS * CLOCK M) :=
  if negb (ceInitialized (gClockEventDevice k)) || negb (HasSink (gClockEventDevice k)) then Ok (EC_INVALID_STATE, k) else
  if negb (cpuInitialized (per_cpu0 k)) then Ok (EC_INVALID_STATE, k) else
  let* k := if deltaNs =? 0
            then let* (_, t) := KLogWriteFmt HO_LOG_MIN_LEVEL KLOG_LEVEL_WARNING (time k) in Ok (set_time t k)
            else Ok k in
  LapicClockEventSetNextEventNs true deltaNs k.

Definition KeClockEventIsReady k : bool := ceInitialized (gClockEventDevice k).
Definition KeClockEventGetInterruptCount k : Z := InterruptCount (per_cpu0 k).

Definition KeClockEventOnInterrupt k : CLOCK M :=
  let p := per_cpu0 k in
  let k := if cpuInitialized p then set_per_cpu0 (mkPerCpu true (u64 (InterruptCount p + 1))) k else k in
  KeLapicClockEventSinkSendEoi true k.

Definition KeClockEventGetFrequency k : Z := if negb (KeClockEventIsReady k) then 0 else ceFreqHz (gClockEventDevice k).
Definition KeClockEventGetVector k : Z := if negb (KeClockEventIsReady k) then 0 else ceVectorNumber (gClockEventDevice k).
Definition KeClockEventGetSourceName k : option string :=
  if negb (KeClockEventIsReady k) || negb (HasSink (gClockEventDevice k)) then None else Some (LapicClockEventGetName k).
Definition KeClockEventGetMinDeltaNs k : Z :=
  if negb (KeClockEventIsReady k) || negb (HasSink (gClockEventDevice k)) then 0 else LapicClockEventGetMinDeltaNs true k.
Definition KeClockEventGetMaxDeltaNs k : res Z :=
  if negb (KeClockEventIsReady k) || negb (HasSink (gClockEventDevice k)) then Ok 0 else LapicClockEventGetMaxDeltaNs true k.

(** ** Interrupts

    The addresses of the two handlers, and what any other handler does. *)
Record HANDLERS := mkHandlers { LapicTimerInterruptHandler_at : Z; LapicSpuriousInterruptHandler_at : Z }.
Variable a : HANDLERS.
Variable other_handler : Z -> CLOCK M -> CLOCK M.

Definition LapicTimerInterruptHandler k : CLOCK M := KeClockEventOnInterrupt k.
Definition LapicSpuriousInterruptHandler k : CLOCK M := k.

Definition interrupt (vector : Z) k : res (CLOCK M) :=
  let* action := Idt.HandleRegisteredVector (Idt.mkFrame vector 0 0 0) true (idt k) in
  match action with
  | Idt.CallHandler h _ _ =>
      Ok (if h =? LapicTimerInterruptHandler_at a then LapicTimerInterruptHandler k
          else if h =? LapicSpuriousInterruptHandler_at a then LapicSpuriousInterruptHandler k
          else other_handler h k)
  | _ => Ok k
  end.

(** An interrupt that waits is taken if interrupts are enabled. *)
Definition take_interrupts k : res (CLOCK M) :=
  if negb (MaskableInterruptEnabled k) then Ok k else
  let '(irq, m) := take_irq (hw (time k)) in
  match irq with
  | Some vector => interrupt vector (set_machine m k)
  | None => Ok (set_machine m k)
  end.

(** ** The self-test and start-up *)

(** The loop of [WaitForTickAdvance]. *)
Fixpoint tick_loop (rounds fuel : nat) (baseCount neededDelta timeoutUs startUs nowUs : Z) k : res (HO_STATUS * CLOCK M) :=
  if negb (u64 (nowUs - startUs) <? timeoutUs) then Ok (EC_FAILURE, k) else
  let currentCount := InterruptCount (per_cpu0 k) in
  if neededDelta <=? u64 (currentCount - baseCount) then Ok (EC_SUCCESS, k) else
  match rounds with
  | O => NoFuel
  | S rounds =>
      let* k := busy_wait fuel 200 k in
      let* k := take_interrupts k in
      let* (nowUs, k) := up_time k in
      tick_loop rounds fuel baseCount neededDelta timeoutUs startUs nowUs k
  end.
Definition WaitForTickAdvance (rounds fuel : nat) (baseCount neededDelta timeoutUs : Z) k : res (HO_STATUS * CLOCK M) :=
  let* (startUs, k) := up_time k in
  tick_loop rounds fuel baseCount neededDelta timeoutUs startUs startUs k.

(** The loop of the self-test; it ends at the first failure. *)
Fixpoint test_rounds (n : nat) (rounds fuel : nat) k : res (HO_STATUS * CLOCK M) :=
  match n with
  | O => Ok (EC_SUCCESS, k)
  | S n =>
      let beforeCount := InterruptCount (per_cpu0 k) in
      let* (testStatus, k) := KeClockEventSetNextEvent LAPIC_SELFTEST_DELTA_NS k in
      if negb (success testStatus) then Ok (testStatus, k) else
      let* (testStatus, k) := WaitForTickAdvance rounds fuel beforeCount 1 LAPIC_SELFTEST_TIMEOUT_US k in
      if negb (success testStatus) then Ok (testStatus, k) else test_rounds n rounds fuel k
  end.

Definition ClockEventSelfTest (rounds fuel : nat) k : res (HO_STATUS * CLOCK M) :=
  let startCount := InterruptCount (per_cpu0 k) in
  let savedInterruptState := MaskableInterruptEnabled k in
  let k := set_if true (set_if false k) in
  let* (testStatus, k) := test_rounds 2 rounds fuel k in
  let k := set_if savedInterruptState k in
  if negb (success testStatus) then Ok (testStatus, k) else
  let totalFired := u64 (InterruptCount (per_cpu0 k) - startCount) in
  if negb (totalFired =? 2) then Ok (EC_FAILURE, k) else Ok (EC_SUCCESS, k).

Definition register (vector handler : Z) k : res (HO_STATUS * CLOCK M) :=
  let* (status, d) := Idt.IdtRegisterInterruptHandler vector handler 0 (idt k) in Ok (status, set_idt d k).
Definition log (level : Z) k : res (CLOCK M) :=
  let* (_, t) := KLogWriteFmt HO_LOG_MIN_LEVEL level (time k) in Ok (set_time t k).
(** A failure is logged and returned. *)
Definition fails (status : HO_STATUS) k : res (HO_STATUS * CLOCK M) :=
  let* k := log KLOG_LEVEL_ERROR k in Ok (status, k).

Definition KeClockEventInit (rounds fuel : nat) k : res (HO_STATUS * CLOCK M) :=
  let k := set_clock_event no_clock_event k in
  let '(status, k) := KeLapicClockEventSinkInit true LAPIC_TIMER_VECTOR k in
  if negb (success status) then fails status k else
  let* (status, k) := register LAPIC_TIMER_VECTOR (LapicTimerInterruptHandler_at a) k in
  if negb (success status) then fails status k else
  let* (status, k) := register LAPIC_SPURIOUS_VECTOR (LapicSpuriousInterruptHandler_at a) k in
  if negb (success status) then fails status k else
  let* (status, k) := KeLapicClockEventSinkCalibrate rounds fuel true LAPIC_CALIBRATION_US k in
  if negb (success status) then fails status k else
  let k := set_clock_event (mkClockEvent true KE_CLOCK_EVENT_MODE_ONE_SHOT KE_CLOCK_EVENT_LAPIC_TIMER
    (TicksPerSec (gLapicClockEventSink k)) LAPIC_TIMER_VECTOR (ceInitialized (gClockEventDevice k)) (PerCpu (gClockEventDevice k))) k in
  let* (status, k) := KeClockEventPerCpuInit 0 k in
  if negb (success status) then fails status k else
  let k := set_clock_event (set_ready true (gClockEventDevice k)) k in
  let* (status, k) := ClockEventSelfTest rounds fuel k in
  if negb (success status) then
    let k := set_clock_event (set_ready false (gClockEventDevice k)) k in
    fails status k
  else
    let k := set_per_cpu0 (mkPerCpu (cpuInitialized (per_cpu0 k)) 0) k in
    let* k := log KLOG_LEVEL_INFO k in
    Ok (EC_SUCCESS, k).
End lapic.
End ClockEvent.
