(* ===== verification/ClockEventThms.v ===== *)
(** * Clock events: the timer is programmed truly and comes up

    [LapicLaws] says that accesses to the local APIC take no more time than
    others.  Then the timer is armed with the count its delay stands for, the
    scheduler's requests always fit, and start-up ends with a timer that works or
    a device that refuses. *)

From S2P Require Import Prelude Time TimeThms Idt ClockEvent Irql Sched.

Local Open Scope Z_scope.
Import Time TimeThms ClockEvent.

Class LapicLaws (M : Type) {HW : TimeHw M} {TL : TimeLaws M} {LH : LapicHw M} := {
  rdmsr_law msr m v m' : rdmsr msr m = (v, m') -> soon m m';
  wrmsr_law msr v m : soon m (wrmsr msr v m);
  read32_law a m v m' : read32 a m = (v, m') -> soon m m';
  write32_law a v m : soon m (write32 a v m);
  take_law m irq m' : take_irq m = (irq, m') -> soon m m'
}.

Module ClockEventThms.

(** ** Programming the timer *)

Section program.
Context {M : Type} {HW : TimeHw M} {LH : LapicHw M}.
Implicit Type k : CLOCK M.

(** Three writes, by register number or by address. *)
Definition write_at (mode : LAPIC_ACCESS_MODE) (baseVirt msr offset value : Z) (m : M) : M :=
  match mode with
  | LAPIC_ACCESS_X2APIC_MSR => wrmsr msr value m
  | LAPIC_ACCESS_XAPIC_MMIO => write32 (u64 (baseVirt + offset)) value m
  end.
Definition armed (mode : LAPIC_ACCESS_MODE) (baseVirt vector divider count : Z) (m : M) : M :=
  let write := write_at mode baseVirt in
  write 0x838 0x380 count (write 0x832 0x320 vector (write 0x83E 0x3E0 divider m)).
Definition programmed (count : Z) k : CLOCK M :=
  let s := gLapicClockEventSink k in
  set_machine (armed (gLapicAccessMode k) (BaseVirt s) (VectorNumber s) (DividerValue s) count (hw (time k))) k.

(** The timer's current count. *)
Definition count_at (mode : LAPIC_ACCESS_MODE) (baseVirt : Z) (m : M) : Z * M :=
  let '(v, m) := match mode with
                 | LAPIC_ACCESS_X2APIC_MSR => rdmsr 0x839 m
                 | LAPIC_ACCESS_XAPIC_MMIO => read32 (u64 (baseVirt + 0x390)) m
                 end in (u32 v, m).

(** A timer interrupt handled: the count becomes [n], and 0 is written to the
    local APIC's end-of-interrupt register. *)
Definition acknowledged (n : Z) k : CLOCK M :=
  set_machine (write_at (gLapicAccessMode k) (BaseVirt (gLapicClockEventSink k)) 0x80B 0x0B0 0 (hw (time k)))
    (set_clock_event (set_per_cpu [mkPerCpu true n] (gClockEventDevice k)) k).

Definition device_ready k : Prop :=
  ceInitialized (gClockEventDevice k) = true /\ HasSink (gClockEventDevice k) = true /\
  cpuInitialized (per_cpu0 k) = true /\ lapicInitialized (gLapicClockEventSink k) = true.

(** The timer ticks that a delay stands for, kept in the register's range. *)
Definition count_of (deltaNs ticksPerSec : Z) : Z :=
  Z.min (2 ^ 32 - 1) (Z.max 1 (Z.max 1 deltaNs * ticksPerSec / 1000000000)).

Lemma one_shot_run baseVirt vector divider count k :
  LapicTimerSetInitialCount baseVirt count (LapicTimerConfigureOneShot baseVirt vector divider false k) =
  set_machine (armed (gLapicAccessMode k) baseVirt vector divider count (hw (time k))) k.
Proof.
  unfold LapicTimerSetInitialCount, LapicTimerConfigureOneShot, LapicWriteReg, write_msr. cbn [andb].
  change LAPIC_LVT_MODE_ONE_SHOT with 0. rewrite Z.lor_0_r. by destruct k as [[] ? ? ? ? []].
Qed.

Lemma set_next_run deltaNs k : lapicInitialized (gLapicClockEventSink k) = true -> TicksPerSec (gLapicClockEventSink k) <> 0 ->
  is_u64 deltaNs -> is_u64 (TicksPerSec (gLapicClockEventSink k)) ->
  LapicClockEventSetNextEventNs true deltaNs k =
    (if Z.max 1 deltaNs * TicksPerSec (gLapicClockEventSink k) <? 1000000000 * 2 ^ 64
     then Ok (EC_SUCCESS, programmed (count_of deltaNs (TicksPerSec (gLapicClockEventSink k))) k) else Panic EC_SUCCESS).
Proof.
  intros Hi Ht Hd Hu. unfold LapicClockEventSetNextEventNs. rewrite Hi. cbn [negb orb]. rewrite (proj2 (Z.eqb_neq _ 0) Ht).
  set (t := TicksPerSec (gLapicClockEventSink k)) in *. unfold is_u64 in *.
  assert (Ed : (if deltaNs =? 0 then 1 else deltaNs) = Z.max 1 deltaNs) by (destruct (Z.eqb_spec deltaNs 0); lia).
  rewrite Ed, mul_div_run by (unfold is_u64; lia). destruct (_ <? _); [|done]. cbn [res_bind].
  set (q := Z.max 1 deltaNs * t / 1000000000).
  assert (Hq : 0 <= q) by (apply Z.div_pos; nia).
  assert (Eq : (let x := if q =? 0 then 1 else q in if 0xFFFFFFFF <? x then 0xFFFFFFFF else x) = count_of deltaNs t).
  { unfold count_of. fold q. cbv zeta. destruct (Z.eqb_spec q 0), (Z.ltb_spec 0xFFFFFFFF (if q =? 0 then 1 else q)); repeat case_match; lia. }
  cbv zeta in Eq. rewrite Eq. rewrite u32_small by (unfold is_u32, count_of; lia).
  unfold programmed. by rewrite one_shot_run.
Qed.

Lemma min_delta_run k : device_ready k -> 0 < TicksPerSec (gLapicClockEventSink k) < 2 ^ 62 ->
  KeClockEventGetMinDeltaNs k = (1000000000 + TicksPerSec (gLapicClockEventSink k) - 1) / TicksPerSec (gLapicClockEventSink k).
Proof.
  intros (Hi & Hs & _) Ht. unfold KeClockEventGetMinDeltaNs, KeClockEventIsReady, LapicClockEventGetMinDeltaNs. rewrite Hi, Hs. cbn [negb orb].
  rewrite (proj2 (Z.eqb_neq _ 0)) by lia. rewrite u64_small by (unfold is_u64; lia). done.
Qed.
Lemma max_delta_run k : device_ready k -> 0 < TicksPerSec (gLapicClockEventSink k) < 2 ^ 62 ->
  KeClockEventGetMaxDeltaNs k = Ok (0xFFFFFFFF * 1000000000 / TicksPerSec (gLapicClockEventSink k)).
Proof.
  intros (Hi & Hs & _) Ht. unfold KeClockEventGetMaxDeltaNs, KeClockEventIsReady, LapicClockEventGetMaxDeltaNs. rewrite Hi, Hs. cbn [negb orb].
  rewrite (proj2 (Z.eqb_neq _ 0)) by lia. rewrite mul_div_run by (unfold is_u64; lia).
  by rewrite (proj2 (Z.ltb_lt _ _)) by lia.
Qed.

Lemma set_next_event_run minLevel deltaNs k : device_ready k -> 0 < TicksPerSec (gLapicClockEventSink k) < 2 ^ 64 -> 0 < deltaNs < 2 ^ 64 ->
  KeClockEventSetNextEvent minLevel deltaNs k =
    (if deltaNs * TicksPerSec (gLapicClockEventSink k) <? 1000000000 * 2 ^ 64
     then Ok (EC_SUCCESS, programmed (count_of deltaNs (TicksPerSec (gLapicClockEventSink k))) k) else Panic EC_SUCCESS).
Proof.
  intros (Hi & Hs & Hc & Hl) Ht Hd. unfold KeClockEventSetNextEvent. rewrite Hi, Hs, Hc. cbn [negb orb].
  rewrite (proj2 (Z.eqb_neq deltaNs 0)) by lia. cbn [res_bind]. rewrite set_next_run by (first [done | lia | unfold is_u64; lia]).
  by rewrite Z.max_r by lia.
Qed.

(** Within the register's range the count is the quotient. *)
Lemma count_in_range d t : 0 < d -> 1000000000 <= d * t <= (2 ^ 32 - 1) * 1000000000 -> count_of d t = d * t / 1000000000.
Proof.
  intros Hd [Hlo Hhi]. unfold count_of. rewrite (Z.max_r 1 d) by lia.
  assert (1 <= d * t / 1000000000) by (apply Z.div_le_lower_bound; lia).
  assert (d * t / 1000000000 < 2 ^ 32) by (apply Z.div_lt_upper_bound; lia). lia.
Qed.

(** The count stands for the delay where the register can hold it. *)
Lemma count_exact d t : 0 < d -> 0 < t -> 1000000000 <= d * t -> d * t < 2 ^ 32 * 1000000000 ->
  count_of d t * 1000000000 <= d * t < (count_of d t + 1) * 1000000000.
Proof.
  intros Hd Ht Hlo Hhi. unfold count_of. rewrite (Z.max_r 1 d) by lia.
  assert (1 <= d * t / 1000000000) by (apply Z.div_le_lower_bound; lia).
  assert (d * t / 1000000000 < 2 ^ 32) by (apply Z.div_lt_upper_bound; lia).
  rewrite Z.max_r, Z.min_r by lia. pose proof (Z.div_mod (d * t) 1000000000). pose proof (Z.mod_pos_bound (d * t) 1000000000). lia.
Qed.

(** Asking a ready clock event device for an event in [d] nanoseconds, with
    [t] timer ticks a second, unmasks the one-shot timer with its vector and
    divider and then writes the count, through the registers' numbers or
    addresses as the access mode says.  The count is at least 1, so the timer
    does fire, and fits in 32 bits; it is [d * t / 10^9] whenever that is in
    range.  A delay beyond [2^64] ticks stops the machine.  A device that is not
    ready refuses and nothing is written. *)
Theorem next_event_is_programmed minLevel d k : 0 < d < 2 ^ 64 ->
  (ceInitialized (gClockEventDevice k) = false -> KeClockEventSetNextEvent minLevel d k = Ok (EC_INVALID_STATE, k)) /\
  (device_ready k -> 0 < TicksPerSec (gLapicClockEventSink k) < 2 ^ 64 ->
   let t := TicksPerSec (gLapicClockEventSink k) in let n := count_of d t in
   KeClockEventSetNextEvent minLevel d k =
     (if d * t <? 1000000000 * 2 ^ 64 then Ok (EC_SUCCESS, programmed n k) else Panic EC_SUCCESS) /\
   1 <= n <= 2 ^ 32 - 1 /\
   (1000000000 <= d * t < 2 ^ 32 * 1000000000 -> n * 1000000000 <= d * t < (n + 1) * 1000000000)).
Proof.
  intros Hd. split; [intros Hi; unfold KeClockEventSetNextEvent; by rewrite Hi|]. intros Hr Ht t n. split; [by apply set_next_event_run|].
  split; [unfold n, count_of; lia|]. intros [H1 H2]. apply count_exact; lia.
Qed.
End program.

(** ** The scheduler's timer *)

(** The services of the scheduler whose timer is the clock event device. *)
Class ClockServices (W M : Type) {HW : TimeHw M} {LH : LapicHw M} {SV : Services W} := {
  clock_of : W -> CLOCK M;
  log_level : Z;
  min_delta_law w : MinDeltaNs w = KeClockEventGetMinDeltaNs (clock_of w);
  max_delta_law w d : KeClockEventGetMaxDeltaNs (clock_of w) = Ok d -> MaxDeltaNs w = d;
  set_next_law w d st k : KeClockEventSetNextEvent log_level d (clock_of w) = Ok (st, k) ->
    exists w', SetNextEvent d w = (st, w') /\ clock_of w' = k
}.

Section sched.
Context {W M : Type} {HW : TimeHw M} {LH : LapicHw M} {SV : Services W} {CS : ClockServices W M}.

(** C22: When the scheduler arms its timer on a ready clock event device of less
    than [2^39] ticks a second, no delay, however short or long, makes the
    device fault.  With [lo] the least delay that lasts a whole tick and [hi]
    the greatest whose ticks fit in the 32-bit count, a shorter delay is made
    [lo] and a longer one [hi], and the count that reaches the timer stands for
    the delay so limited to the tick.  A delay within the limits is kept, so
    the timer fires at most one tick early and never late. *)
Theorem scheduler_arms_the_timer (s : Sched.SCHED W) d : let k := clock_of (Sched.Svc s) in let t := TicksPerSec (gLapicClockEventSink k) in
  device_ready k -> 0 < t < 2 ^ 39 -> 0 < d < 2 ^ 64 ->
  exists w' lo hi, (lo - 1) * t < 1000000000 <= lo * t /\ hi * t <= (2 ^ 32 - 1) * 1000000000 < (hi + 1) * t /\
    let limited := if d <? lo then lo else if hi <? d then hi else d in let n := limited * t / 1000000000 in
    Sched.KiArmClockEvent d s = Sched.set_Svc w' s /\ clock_of w' = programmed n k /\
    1 <= n <= 2 ^ 32 - 1 /\ n * 1000000000 <= limited * t < (n + 1) * 1000000000 /\
    (1000000000 <= d * t -> d * t <= (2 ^ 32 - 1) * 1000000000 -> limited = d).
Proof.
  intros k t Hr Ht Hd. unfold Sched.KiArmClockEvent. rewrite (proj2 (Z.eqb_neq d 0)) by lia.
  rewrite min_delta_law. fold k. rewrite min_delta_run by (fold t; done || lia).
  rewrite (max_delta_law _ _ (max_delta_run k Hr ltac:(fold t; lia))). fold t.
  set (lo := (1000000000 + t - 1) / t). set (hi := 0xFFFFFFFF * 1000000000 / t).
  assert (Hlo : 1 <= lo /\ 1000000000 <= lo * t < 1000000000 + t) by (unfold lo; Z.to_euclidean_division_equations; nia).
  assert (Hhi : lo <= hi /\ 0xFFFFFFFF * 1000000000 - t < hi * t <= 0xFFFFFFFF * 1000000000) by (unfold lo, hi; Z.to_euclidean_division_equations; nia).
  rewrite (proj2 (Z.ltb_lt 0 lo)), (proj2 (Z.ltb_lt 0 hi)) by lia. cbn [andb]. cbv zeta.
  set (d1 := if d <? lo then lo else d). set (d2 := if hi <? d1 then hi else d1).
  assert (H2 : d2 = if d <? lo then lo else if hi <? d then hi else d).
  { unfold d2, d1. destruct (Z.ltb_spec d lo); [by rewrite (proj2 (Z.ltb_ge hi lo)) by lia | done]. }
  assert (H3 : lo <= d2 <= hi) by (rewrite H2; destruct (Z.ltb_spec d lo), (Z.ltb_spec hi d); lia).
  assert (Hb : 1000000000 <= d2 * t <= 0xFFFFFFFF * 1000000000) by nia.
  assert (Hh64 : hi < 2 ^ 64) by nia.
  destruct (set_next_law (Sched.Svc s) d2 EC_SUCCESS (programmed (count_of d2 t) k)) as (w' & -> & Ew).
  { fold k. rewrite set_next_event_run by (fold t; first [done | lia]). fold t. by rewrite (proj2 (Z.ltb_lt _ _)) by lia. }
  exists w', lo, hi. split; [lia|]. split; [lia|]. cbv zeta. rewrite <- H2, <- count_in_range by lia. split; [done|]. split; [done|].
  split; [unfold count_of; lia|]. split; [apply count_exact; lia|]. intros Hk1 Hk2.
  assert (lo <= d) by nia. assert (d <= hi) by nia.
  by rewrite H2, (proj2 (Z.ltb_ge d lo)), (proj2 (Z.ltb_ge hi d)) by lia.
Qed.
End sched.

(** ** Start-up *)

Section startup.
Context {M : Type} {HW : TimeHw M} {TL : TimeLaws M} {LH : LapicHw M} {LL : LapicLaws M}.
Implicit Type k : CLOCK M.

(** Time has passed and been read; nothing else has changed. *)
Definition passes k k' : Prop :=
  k' = set_time (time k') k /\ same_setup (time k) (time k') /\ later (hw (time k)) (hw (time k')).
#[export] Instance evolves_preorder : PreOrder passes.
Proof.
  split.
  - intros k. split; [by destruct k | split; reflexivity].
  - intros k1 k2 k3 (E1 & S1 & L1) (E2 & S2 & L2). split; [rewrite E2, E1; done|]. split; by etransitivity.
Qed.

(** The time source of frequency [f] counts with [c] from [t0] on; at most [n]
    accesses were made since the last reading; at most [b] ticks have passed in all. *)
Definition ticking (c : KE_TIME_SINK) (t0 f n b : Z) k : Prop := exists last,
  keeps_time c t0 last (time k) /\ FreqHz (gTimeDevice (time k)) = f /\
  last <= ticks c (hw (time k)) <= last + n * 2 ^ 20 /\ 0 <= ticks c (hw (time k)) - t0 <= b.

Lemma ticking_fresh c last n k : last <= ticks c (hw (time k)) <= last + n * 2 ^ 20 -> n <= 15 -> fresh c last (hw (time k)).
Proof. intros H Hn. split; [lia | intros _; lia]. Qed.

Lemma ticking_weaken c t0 f n n' b b' k : ticking c t0 f n b k -> n <= n' -> b <= b' -> ticking c t0 f n' b' k.
Proof. intros (last & H1 & H2 & H3 & H4) Hn Hb. exists last. do 2 (split; [done|]). split; lia. Qed.

(** An access to a device. *)
Lemma access_run m k : soon (hw (time k)) m -> passes k (set_machine m k) /\
  forall c t0 f n b, ticking c t0 f n b k -> ticking c t0 f (n + 1) (b + 2 ^ 20) (set_machine m k).
Proof.
  intros Hs. split; [split; [by destruct k | split; [apply same_setup_hw | by apply soon_later]]|].
  intros c t0 f n b (last & (off & H1 & H2 & H3 & H4 & H5) & Hf & Hl & Hb). pose proof (soon_ticks c _ _ Hs).
  exists last. split; [|split; [done|]; cbn; split; lia]. exists off. do 4 (split; [done|]). apply tracks_hw; [done | by apply soon_later].
Qed.

Lemma lapic_write_run baseVirt off v k : exists m, LapicWriteReg baseVirt off v k = set_machine m k /\ soon (hw (time k)) m.
Proof. unfold LapicWriteReg, write_msr. destruct (gLapicAccessMode k); eexists; (split; [reflexivity|]); [apply write32_law | apply wrmsr_law]. Qed.
Lemma lapic_read_run baseVirt off k : exists v m, LapicReadReg baseVirt off k = (v, set_machine m k) /\ is_u32 v /\ soon (hw (time k)) m.
Proof.
  unfold LapicReadReg, read_msr. destruct (gLapicAccessMode k).
  - destruct (read32 _ _) as [v m] eqn:E. eexists _, m. split; [done|]. split; [apply u32_range | by apply read32_law in E].
  - destruct (rdmsr _ _) as [v m] eqn:E. eexists _, m. split; [done|]. split; [apply u32_range | by apply rdmsr_law in E].
Qed.

(** [n] accesses. *)
Definition accesses (n : Z) k k' : Prop := passes k k' /\
  forall c t0 f i b, ticking c t0 f i b k -> ticking c t0 f (i + n) (b + n * 2 ^ 20) k'.
Lemma accesses_trans n1 n2 k1 k2 k3 : accesses n1 k1 k2 -> accesses n2 k2 k3 -> accesses (n1 + n2) k1 k3.
Proof.
  intros [E1 T1] [E2 T2]. split; [by etransitivity|]. intros c t0 f i b H. apply T1, T2 in H.
  eapply ticking_weaken; [exact H | lia | lia].
Qed.
Lemma write_accesses baseVirt off v k : accesses 1 k (LapicWriteReg baseVirt off v k).
Proof. destruct (lapic_write_run baseVirt off v k) as (m & -> & Hs). destruct (access_run m k Hs) as [He Ht]. split; [done|]. intros c t0 f i b H. apply Ht in H. by rewrite Z.mul_1_l. Qed.
Lemma read_accesses baseVirt off k : exists v k', LapicReadReg baseVirt off k = (v, k') /\ is_u32 v /\ accesses 1 k k'.
Proof.
  destruct (lapic_read_run baseVirt off k) as (v & m & E & Hv & Hs). exists v, (set_machine m k). split; [done|]. split; [done|].
  destruct (access_run m k Hs) as [He Ht]. split; [done|]. intros c t0 f i b H. apply Ht in H. by rewrite Z.mul_1_l.
Qed.
Lemma one_shot_accesses baseVirt vector divider masked count k :
  accesses 3 k (LapicTimerSetInitialCount baseVirt count (LapicTimerConfigureOneShot baseVirt vector divider masked k)).
Proof. apply (accesses_trans 2 1 _ (LapicTimerConfigureOneShot baseVirt vector divider masked k)); [apply (accesses_trans 1 1 _ (LapicWriteReg baseVirt LAPIC_REG_DIVIDE_CONFIG divider k))|]; apply write_accesses. Qed.

(** ** Reading the time *)

Definition us_at (c : KE_TIME_SINK) (t0 f : Z) (m : M) : Z := (ticks c m - t0) * 1000000 / f.
Definition us_of (c : KE_TIME_SINK) (t0 f : Z) k : Z := us_at c t0 f (hw (time k)).

(** [t] ticks a second were measured on the way from [m] to [m']: the timer
    was started from [2^32 - 1], its count read at [mA] and at [mB] at least
    10 milliseconds later, and the ticks it lost were divided by that time. *)
Definition measured (c : KE_TIME_SINK) (t0 f : Z) (mode : LAPIC_ACCESS_MODE) (s : KE_LAPIC_CLOCK_EVENT_SINK) (t : Z) (m m' : M) : Prop :=
  exists m1 mA startCount m2 mB endCount m3,
    later m m1 /\ later (armed mode (BaseVirt s) (VectorNumber s) (DividerValue s) 0xFFFFFFFF m1) mA /\ count_at mode (BaseVirt s) mA = (startCount, m2) /\
    later m2 mB /\ count_at mode (BaseVirt s) mB = (endCount, m3) /\ later m3 m' /\
    10000 <= us_at c t0 f mB - us_at c t0 f mA /\ endCount < startCount /\
    t = (startCount - endCount) * 1000000 / (us_at c t0 f mB - us_at c t0 f mA).
Lemma measured_on c t0 f mode s t m0 m m' m'' : later m0 m -> measured c t0 f mode s t m m' -> later m' m'' -> measured c t0 f mode s t m0 m''.
Proof.
  intros Hl (m1 & mA & sC & m2 & mB & eC & m3 & H1 & H2 & H3 & H4 & H5 & H6 & H7) Hl'.
  exists m1, mA, sC, m2, mB, eC, m3. split; [by etransitivity|]. split; [done|]. split; [done|]. split; [done|]. split; [done|].
  split; [by etransitivity | done].
Qed.

Context (c : KE_TIME_SINK) (t0 f : Z) (Hf : 10 ^ 6 <= f <= 2 ^ 40).

Lemma up_time_run n b k : ticking c t0 f n b k -> n <= 15 -> b <= 2 ^ 62 -> exists k',
  up_time k = Ok (us_of c t0 f k', k') /\ passes k k' /\ ticking c t0 f 0 (b + 2 ^ 20) k'.
Proof.
  intros (last & Hk & Ef & Hl & Hb) Hn Hb'. unfold up_time.
  destruct (uptime_run c t0 last (time k) Hk) as (s' & E & Hk' & Hs & Hsame); [by apply (ticking_fresh c last n)|].
  rewrite E, Ef. cbv zeta. pose proof (soon_ticks c _ _ Hs) as Hst. rewrite u64_small by (unfold is_u64; lia).
  rewrite (proj2 (Z.ltb_lt _ _)) by lia. cbn [res_bind]. exists (set_time s' k). split; [done|].
  split; [split; [done | split; [done | by apply soon_later]]|]. exists (ticks c (hw s')). split; [done|].
  split; [cbn; destruct Hsame as (-> & _); done|]. cbn. lia.
Qed.

(** The ticks of a busy wait of 200 microseconds. *)
Definition pause_ticks : Z := 200 * f / 1000000.
Lemma pause_ticks_bounds : 200 <= pause_ticks <= 2 ^ 28 /\ 199 * f <= pause_ticks * 1000000.
Proof. unfold pause_ticks. Z.to_euclidean_division_equations. lia. Qed.

Context (fuel : nat) (Hfuel : enough fuel pause_ticks).

Lemma busy_wait_200_run n b k : ticking c t0 f n b k -> n <= 15 -> exists k',
  busy_wait fuel 200 k = Ok k' /\ passes k k' /\ ticking c t0 f 0 (b + 2 ^ 29) k' /\
  ticks c (hw (time k)) + pause_ticks <= ticks c (hw (time k')).
Proof.
  intros (last & Hk & Ef & Hl & Hb) Hn. pose proof pause_ticks_bounds as Hp. unfold busy_wait.
  destruct (busy_wait_run fuel c t0 last 200 (time k) Hk) as [_ Hrun]; [by apply (ticking_fresh c last n) | lia|].
  rewrite Ef in Hrun. fold pause_ticks in Hrun. rewrite Z.max_r in Hrun by lia.
  destruct Hrun as (s' & t1 & -> & Hk' & Hl' & Hsame & Ht1 & Ht2); [lia | done|]. cbn [res_bind].
  exists (set_time s' k). split; [done|]. split; [by split|]. split; [|cbn; lia].
  exists (ticks c (hw s')). split; [done|]. split; [cbn; destruct Hsame as (-> & _); done|]. cbn. lia.
Qed.

Lemma us_advance e d : 0 <= e -> 199 * f <= d * 1000000 -> e * 1000000 / f + 199 <= (e + d) * 1000000 / f.
Proof.
  intros He Hd. apply Z.div_le_lower_bound; [lia|]. pose proof (Z.mul_div_le (e * 1000000) f). lia.
Qed.
Lemma us_mono e e' : e <= e' -> e * 1000000 / f <= e' * 1000000 / f.
Proof. intros He. apply Z.div_le_mono; lia. Qed.

(** ** Calibration *)

Lemma started_count baseVirt k : LapicTimerGetCurrentCount baseVirt k =
  (let '(v, m) := count_at (gLapicAccessMode k) baseVirt (hw (time k)) in (v, set_machine m k)).
Proof.
  unfold LapicTimerGetCurrentCount, LapicReadReg, read_msr, count_at, LapicGetRegPtr. destruct (gLapicAccessMode k); [|change (LapicRegOffsetToMsr LAPIC_REG_CURRENT_COUNT) with 0x839].
  - by destruct (read32 _ _).
  - by destruct (rdmsr _ _).
Qed.
Lemma count_accesses mode baseVirt k : gLapicAccessMode k = mode -> exists v m, count_at mode baseVirt (hw (time k)) = (v, m) /\
  LapicTimerGetCurrentCount baseVirt k = (v, set_machine m k) /\ is_u32 v /\ accesses 1 k (set_machine m k).
Proof.
  intros Em. destruct (read_accesses baseVirt LAPIC_REG_CURRENT_COUNT k) as (v & k' & E & Hv & A).
  pose proof (started_count baseVirt k) as Ec. rewrite Em in Ec. destruct (count_at mode baseVirt (hw (time k))) as [v' m].
  unfold LapicTimerGetCurrentCount in *. rewrite E in Ec. injection Ec as <- ->. by exists v, m.
Qed.

Lemma wait_window_run rounds startUs windowUs nowUs n b k :
  ticking c t0 f n b k -> n <= 15 -> b + Z.of_nat rounds * 2 ^ 30 <= 2 ^ 62 -> 0 < windowUs < 2 ^ 32 ->
  0 <= startUs <= nowUs -> nowUs <= us_of c t0 f k -> nowUs < 2 ^ 63 -> windowUs <= nowUs - startUs + 199 * Z.of_nat rounds ->
  nowUs - startUs < windowUs \/ nowUs = us_of c t0 f k ->
  exists k' nowUs', wait_window rounds fuel startUs windowUs nowUs k = Ok (nowUs', k') /\ passes k k' /\
    ticking c t0 f n (b + Z.of_nat rounds * 2 ^ 30) k' /\ windowUs <= nowUs' - startUs < 2 ^ 63 /\ nowUs' = us_of c t0 f k'.
Proof.
  revert nowUs n b k. induction rounds as [|rounds IH]; intros nowUs n b k Ht Hn Hb Hw Hs Hu Hlt Hr Hnow.
  - exists k, nowUs. cbn [wait_window]. rewrite u64_small by (unfold is_u64; lia).
    rewrite (proj2 (Z.ltb_ge _ _)) by lia. split; [done|]. split; [reflexivity|]. split; [|split; [lia | by destruct Hnow; [lia|]]].
    eapply ticking_weaken; [exact Ht | lia | lia].
  - cbn [wait_window]. rewrite u64_small by (unfold is_u64; lia).
    destruct (Z.ltb_spec (nowUs - startUs) windowUs) as [Hlt'|Hge]; cbn [negb].
    2: { exists k, nowUs. split; [done|]. split; [reflexivity|]. split; [|split; [lia | by destruct Hnow; [lia|]]]. eapply ticking_weaken; [exact Ht | lia | lia]. }
    destruct (busy_wait_200_run n b k Ht Hn) as (k1 & -> & He1 & Ht1 & Hadv). cbn [res_bind].
    destruct (up_time_run 0 _ k1 Ht1 ltac:(lia) ltac:(lia)) as (k2 & -> & He2 & Ht2). cbn [res_bind].
    assert (Hus : us_of c t0 f k + 199 <= us_of c t0 f k2).
    { destruct Ht as (_ & _ & _ & _ & Hb0). destruct He2 as (_ & _ & Hl2). pose proof (later_ticks c _ _ Hl2).
      pose proof pause_ticks_bounds as [_ Hp]. unfold us_of, us_at. etransitivity; [apply (us_advance _ pause_ticks); lia|]. apply us_mono. lia. }
    assert (Hub : us_of c t0 f k2 < 2 ^ 63).
    { destruct Ht2 as (_ & _ & _ & _ & Hb2). unfold us_of, us_at. apply Z.div_lt_upper_bound; lia. }
    destruct (IH (us_of c t0 f k2) 0 _ k2 Ht2) as (k3 & now3 & E3 & He3 & Ht3 & Hd3); [lia.. | by right |].
    exists k3, now3. split; [exact E3|]. split; [by etransitivity; [exact He1|]; etransitivity|]. split; [|done].
    eapply ticking_weaken; [exact Ht3| |lia]. destruct Ht as (last & _ & _ & Hl & _). lia.
Qed.

Lemma calibrate_lapic_run rounds n b k : lapicInitialized (gLapicClockEventSink k) = true ->
  ticking c t0 f n b k -> n <= 12 -> b <= 2 ^ 61 -> 51 <= Z.of_nat rounds <= 2 ^ 20 ->
  exists st k1 k', KeLapicClockEventSinkCalibrate rounds fuel true LAPIC_CALIBRATION_US k = Ok (st, k') /\ passes k k1 /\
    ticking c t0 f 5 (b + 2 ^ 51) k' /\
    ((st = EC_FAILURE /\ k' = k1) \/
     (st = EC_SUCCESS /\ exists t, 0 < t < 2 ^ 39 /\
        measured c t0 f (gLapicAccessMode k) (gLapicClockEventSink k) t (hw (time k)) (hw (time k1)) /\ k' = set_lapic (set_ticks_per_sec t (gLapicClockEventSink k1)) k1)).
Proof.
  intros Hi Ht Hn Hb Hr. unfold KeLapicClockEventSinkCalibrate. rewrite Hi. change (LAPIC_CALIBRATION_US =? 0) with false. cbn [negb orb].
  set (sink := gLapicClockEventSink k). set (mode := gLapicAccessMode k). set (k1 := LapicTimerSetInitialCount _ _ (LapicTimerConfigureOneShot _ _ _ false k)).
  destruct (one_shot_accesses (BaseVirt sink) (VectorNumber sink) (DividerValue sink) false 0xFFFFFFFF k) as [He1 Ht1]. fold k1 in He1, Ht1.
  apply Ht1 in Ht. destruct (up_time_run _ _ k1 Ht ltac:(lia) ltac:(lia)) as (k2 & -> & He2 & Ht2). cbn [res_bind].
  assert (Em2 : gLapicAccessMode k2 = mode) by (destruct He2 as (-> & _), He1 as (E1 & _); cbn; by rewrite E1).
  destruct (count_accesses mode (BaseVirt sink) k2 Em2) as (startCount & m3 & Ec3 & -> & Hu3 & He3 & Ht3). set (k3 := set_machine m3 k2) in *.
  apply Ht3 in Ht2 as Ht3'. pose proof Ht2 as (_ & _ & _ & _ & Hb2). pose proof Ht3' as (_ & _ & _ & _ & Hb3).
  assert (Hus : 0 <= us_of c t0 f k2 < 2 ^ 63) by (unfold us_of, us_at; split; [apply Z.div_pos; lia | apply Z.div_lt_upper_bound; lia]).
  destruct (wait_window_run rounds (us_of c t0 f k2) LAPIC_CALIBRATION_US (us_of c t0 f k2) (0 + 1) _ k3 Ht3') as (k4 & now & -> & He4 & Ht4 & Hnow & Enow).
  { lia. } { lia. } { done. } { lia. }
  { unfold us_of, us_at. apply us_mono. destruct He3 as (_ & _ & Hl3). pose proof (later_ticks c _ _ Hl3). lia. }
  { lia. } { unfold LAPIC_CALIBRATION_US. lia. } { left. unfold LAPIC_CALIBRATION_US. lia. }
  cbn [res_bind]. 
  assert (Em4 : gLapicAccessMode k4 = mode) by (by destruct He4 as (-> & _)).
  destruct (count_accesses mode (BaseVirt sink) k4 Em4) as (endCount & m5 & Ec5 & -> & Hu5 & He5 & Ht5). set (k5 := set_machine m5 k4) in *.
  set (k6 := LapicTimerSetInitialCount _ _ (LapicTimerConfigureOneShot _ _ _ true k5)).
  destruct (one_shot_accesses (BaseVirt sink) (VectorNumber sink) (DividerValue sink) true 0 k5) as [He6 Ht6]. fold k6 in He6, Ht6.
  assert (He : passes k k6) by (do 5 (etransitivity; [eassumption|]); exact He6).
  assert (Htick : ticking c t0 f 5 (b + 2 ^ 51) k6).
  { apply Ht5, Ht6 in Ht4. eapply ticking_weaken; [exact Ht4 | lia | lia]. }
  rewrite u64_small by (unfold is_u64, LAPIC_CALIBRATION_US in *; lia). set (us := now - us_of c t0 f k2) in *.
  assert (Hus' : 10000 <= us < 2 ^ 63) by (unfold LAPIC_CALIBRATION_US in Hnow; exact Hnow).
  rewrite (proj2 (Z.eqb_neq us 0)) by lia. cbn [orb].
  destruct (Z.leb_spec startCount endCount) as [Hle|Hgt].
  { exists EC_FAILURE, k6, k6. split; [done|]. split; [done|]. split; [done|]. by left. }
  unfold is_u32 in *. rewrite u32_small by (unfold is_u32; lia). rewrite mul_div_run by (unfold is_u64; lia).
  rewrite (proj2 (Z.ltb_lt _ _)) by lia. cbn [res_bind]. set (t := (startCount - endCount) * 1000000 / us).
  assert (Htb : 0 <= t < 2 ^ 39) by (unfold t; split; [apply Z.div_pos; lia | apply Z.div_lt_upper_bound; lia]).
  destruct (Z.eqb_spec t 0) as [E|E].
  { exists EC_FAILURE, k6, k6. split; [done|]. split; [done|]. split; [done|]. by left. }
  exists EC_SUCCESS, k6, (set_lapic (set_ticks_per_sec t (gLapicClockEventSink k6)) k6). split; [done|]. split; [done|]. split; [done|].
  right. split; [done|]. exists t. split; [lia|]. split; [|done].
  exists (hw (time k)), (hw (time k2)), startCount, m3, (hw (time k4)), endCount, m5.
  split; [reflexivity|]. split; [|split; [done|]; split; [apply He4|]; split; [done|]; split; [apply He6|];
    change (us_at c t0 f (hw (time k4))) with (us_of c t0 f k4); change (us_at c t0 f (hw (time k2))) with (us_of c t0 f k2);
    rewrite <- Enow; split; [exact (proj1 Hus') | by split; [lia|]]].
  unfold k1 in He2. rewrite one_shot_run in He2. apply He2.
Qed.

(** ** Detection *)

Lemma read_msr_accesses msr k : exists v k', read_msr msr k = (v, k') /\ accesses 1 k k'.
Proof.
  unfold read_msr. destruct (rdmsr msr (hw (time k))) as [v m] eqn:E. exists v, (set_machine m k). split; [done|].
  destruct (access_run m k (rdmsr_law _ _ _ _ E)) as [He Ht]. split; [done|]. intros c' t' f' i b H. apply Ht in H. by rewrite Z.mul_1_l.
Qed.
Lemma write_msr_accesses msr v k : accesses 1 k (write_msr msr v k).
Proof.
  destruct (access_run (wrmsr msr v (hw (time k))) k (wrmsr_law _ _ _)) as [He Ht]. split; [done|].
  intros c' t' f' i b H. apply Ht in H. by rewrite Z.mul_1_l.
Qed.

(** What bringing the sink up leaves alone. *)
Definition sink_only k k' : Prop :=
  gClockEventDevice k' = gClockEventDevice k /\ MaskableInterruptEnabled k' = MaskableInterruptEnabled k /\ idt k' = idt k /\
  later (hw (time k)) (hw (time k')).
Lemma evolves_sink_only k k' : passes k k' -> sink_only k k' /\ gLapicClockEventSink k' = gLapicClockEventSink k.
Proof. intros (E & _ & L). unfold sink_only. rewrite E at 1 2 3 5. by destruct k. Qed.
Lemma sink_only_trans k1 k2 k3 : sink_only k1 k2 -> sink_only k2 k3 -> sink_only k1 k3.
Proof. intros (A1 & A2 & A3 & A4) (B1 & B2 & B3 & B4). split; [congruence|]. split; [congruence|]. split; [congruence|]. by etransitivity. Qed.

Lemma detect_run n b k : ticking c t0 f n b k -> exists st out k', LapicDetectAndEnable true k = (st, out, k') /\
  sink_only k k' /\ gLapicClockEventSink k' = gLapicClockEventSink k /\ ticking c t0 f (n + 3) (b + 3 * 2 ^ 20) k' /\
  (success st = true <-> is_Some out).
Proof.
  intros Ht. unfold LapicDetectAndEnable, LapicGetCpuidFeatureBits. cbn [negb]. destruct (cpuid 0x1 _) as [[[? ?] ecx] edx].
  assert (Hsame : sink_only k k) by (split; [done|]; split; [done|]; split; [done | reflexivity]). cbn [success bool_decide negb].
  assert (Ht3 : ticking c t0 f (n + 3) (b + 3 * 2 ^ 20) k) by (eapply ticking_weaken; [exact Ht | lia | lia]).
  assert (Hnone : forall st : HO_STATUS, st <> EC_SUCCESS -> (success st = true <-> is_Some (None : option (Z * Z)))).
  { intros st Hst. split; [intros Hs; by apply bool_decide_eq_true in Hs | by intros []]. }
  destruct (bit_set edx 9); cbn [negb]; [|exists EC_NOT_SUPPORTED, None, k; repeat (split; [done|]); by apply Hnone].
  destruct (read_msr_accesses IA32_APIC_BASE_MSR k) as (v1 & k1 & -> & A1).
  match goal with |- context [write_msr _ ?v k1] => pose proof (write_msr_accesses IA32_APIC_BASE_MSR v k1) as A2; set (k2 := write_msr _ v k1) in * end.
  destruct (read_msr_accesses IA32_APIC_BASE_MSR k2) as (v3 & k3 & -> & A3).
  destruct (accesses_trans _ _ _ _ _ A1 (accesses_trans _ _ _ _ _ A2 A3)) as [He HT]. apply HT in Ht.
  destruct (evolves_sink_only _ _ He) as [Hso Hsink].
  destruct (_ =? 0); [exists EC_FAILURE, None, k3; repeat (split; [done|]); by apply Hnone|].
  destruct (Bool.eqb _ _); [exists EC_FAILURE, None, k3; repeat (split; [done|]); by apply Hnone|].
  set (k4 := set_mode _ k3). assert (Hso4 : sink_only k k4) by exact Hso.
  destruct (_ && _); [exists EC_FAILURE, None, k4; repeat (split; [done|]); by apply Hnone|].
  eexists EC_SUCCESS, (Some _), k4. split; [reflexivity|]. repeat (split; [done|]). done.
Qed.

Lemma sink_init_run vector n b k : ticking c t0 f n b k -> exists st k', KeLapicClockEventSinkInit true vector k = (st, k') /\
  sink_only k k' /\ ticking c t0 f (n + 8) (b + 8 * 2 ^ 20) k' /\
  (success st = true -> lapicInitialized (gLapicClockEventSink k') = true /\ VectorNumber (gLapicClockEventSink k') = vector /\
    DividerValue (gLapicClockEventSink k') = LAPIC_TIMER_DIVIDE_BY_16).
Proof.
  intros Ht. unfold KeLapicClockEventSinkInit. cbn [negb].
  destruct (detect_run n b (set_lapic no_lapic k) Ht) as (st & out & k1 & -> & Hso & Hsink & Ht1 & Hst).
  destruct out as [[basePhys baseVirt]|].
  2: { exists st, k1. split; [done|]. split; [exact Hso|]. split; [eapply ticking_weaken; [exact Ht1 | lia | lia]|]. intros Hs. apply Hst in Hs as [? ?]. done. }
  unfold LapicSetSpuriousVector. destruct (read_accesses baseVirt LAPIC_REG_SVR k1) as (svr & k2 & -> & _ & A2).
  match goal with |- context [LapicWriteReg baseVirt LAPIC_REG_SVR ?v k2] => pose proof (write_accesses baseVirt LAPIC_REG_SVR v k2) as A3; set (k3 := LapicWriteReg baseVirt _ v k2) in * end.
  pose proof (one_shot_accesses baseVirt vector LAPIC_TIMER_DIVIDE_BY_16 true 0 k3) as A4. set (k4 := LapicTimerSetInitialCount _ _ _) in *.
  destruct (accesses_trans _ _ _ _ _ A2 (accesses_trans _ _ _ _ _ A3 A4)) as [He HT]. apply HT in Ht1.
  destruct (evolves_sink_only _ _ He) as [Hso4 _].
  eexists EC_SUCCESS, _. split; [reflexivity|]. split; [exact (sink_only_trans _ _ _ Hso Hso4)|].
  split; [|done]. eapply ticking_weaken; [exact Ht1 | lia | lia].
Qed.

(** ** The self-test *)

Context (minLevel : Z) (a : HANDLERS) (other_handler : Z -> CLOCK M -> CLOCK M).
Context (Hother : forall h k, accesses 1 k (other_handler h k)).

(** The timer interrupts of one processor have been counted; time has passed. *)
Definition counted_on k k' : Prop := exists n, k' = set_time (time k') (set_per_cpu0 (mkPerCpu true n) k) /\
  same_setup (time k) (time k') /\ later (hw (time k)) (hw (time k')).
Definition counting k : Prop := exists n, PerCpu (gClockEventDevice k) = [mkPerCpu true n].

Lemma evolves_counted k k' : counting k -> passes k k' -> counted_on k k'.
Proof.
  intros [n Hc] (E & S & L). exists n. split; [|done]. rewrite E at 1. destruct k as [? ? [? ? ? ? ? ? ?] ? ? ?]. cbn in *. by subst.
Qed.
Lemma counted_trans k1 k2 k3 : counted_on k1 k2 -> counted_on k2 k3 -> counted_on k1 k3.
Proof.
  intros (n1 & E1 & S1 & L1) (n2 & E2 & S2 & L2). exists n2. split; [rewrite E2 at 1; rewrite E1 at 1; by destruct k1|]. split; by etransitivity.
Qed.
Lemma counted_counting k k' : counted_on k k' -> counting k'.
Proof. intros (n & -> & _). by exists n. Qed.
Lemma evolves_same k k' : passes k k' -> counting k -> counting k'.
Proof. intros (-> & _) [n Hc]. by exists n. Qed.

Definition table_ok k : Prop := length (Idt.kInterruptHandlers (idt k)) = 256%nat.
Lemma counted_rest k k' : counted_on k k' -> gLapicClockEventSink k' = gLapicClockEventSink k /\ idt k' = idt k /\
  MaskableInterruptEnabled k' = MaskableInterruptEnabled k /\ gLapicAccessMode k' = gLapicAccessMode k /\
  set_per_cpu [] (gClockEventDevice k') = set_per_cpu [] (gClockEventDevice k).
Proof. intros (n & -> & _). by destruct k. Qed.

Lemma on_interrupt_run k : lapicInitialized (gLapicClockEventSink k) = true -> counting k ->
  counted_on k (KeClockEventOnInterrupt k) /\
  forall n b, ticking c t0 f n b k -> ticking c t0 f (n + 1) (b + 2 ^ 20) (KeClockEventOnInterrupt k).
Proof.
  intros Hi [n0 Hc]. unfold KeClockEventOnInterrupt, KeLapicClockEventSinkSendEoi, per_cpu0. rewrite Hc. cbn [cpuInitialized InterruptCount negb orb].
  set (k1 := set_per_cpu0 _ k). change (gLapicClockEventSink k1) with (gLapicClockEventSink k). rewrite Hi. cbn [negb].
  destruct (write_accesses (BaseVirt (gLapicClockEventSink k)) LAPIC_REG_EOI 0 k1) as [He Ht]. fold (LapicSendEoi (BaseVirt (gLapicClockEventSink k)) k1) in *.
  split.
  - destruct He as (E & S & L). exists (u64 (n0 + 1)). by rewrite E at 1.
  - intros n b H. apply (Ht c t0 f) in H. by rewrite Z.mul_1_l in H.
Qed.

(** The handler counts the interrupt and acknowledges it. *)
Lemma acknowledge_run i k : lapicInitialized (gLapicClockEventSink k) = true -> PerCpu (gClockEventDevice k) = [mkPerCpu true i] ->
  KeClockEventOnInterrupt k = acknowledged (u64 (KeClockEventGetInterruptCount k + 1)) k.
Proof.
  intros Hi Hp. unfold KeClockEventOnInterrupt, KeClockEventGetInterruptCount, KeLapicClockEventSinkSendEoi, LapicSendEoi, LapicWriteReg, write_msr,
    acknowledged, write_at, per_cpu0. rewrite Hp. cbn [cpuInitialized InterruptCount]. cbn. rewrite Hi. cbn. by destruct (gLapicAccessMode k).
Qed.

Lemma interrupt_run v k : table_ok k -> lapicInitialized (gLapicClockEventSink k) = true -> counting k -> exists k',
  interrupt a other_handler v k = Ok k' /\ counted_on k k' /\
  forall n b, ticking c t0 f n b k -> ticking c t0 f (n + 1) (b + 2 ^ 20) k'.
Proof.
  intros Hl Hi Hc. assert (Hsame : counted_on k k) by (apply evolves_counted; [done | reflexivity]).
  assert (Hstay : forall n b, ticking c t0 f n b k -> ticking c t0 f (n + 1) (b + 2 ^ 20) k).
  { intros n b H. eapply ticking_weaken; [exact H | lia | lia]. }
  unfold interrupt, Idt.HandleRegisteredVector. cbn [Idt.VectorNumber].
  destruct (rd_in (Idt.kInterruptHandlers (idt k)) (u8 v)) as [e ->].
  { unfold table_ok in Hl. rewrite Hl. pose proof (u8_range v). unfold is_u8 in *. lia. }
  cbn [res_bind]. destruct (Idt.Handler e =? 0); cbn [res_bind]; [by exists k|].
  destruct (_ =? _); [eexists; split; [reflexivity | by apply on_interrupt_run]|].
  destruct (_ =? _); [by exists k|]. destruct (Hother (Idt.Handler e) k) as [He Ht]. eexists. split; [reflexivity|].
  split; [by apply evolves_counted|]. intros n b H. apply (Ht c t0 f) in H. by rewrite Z.mul_1_l in H.
Qed.

Lemma take_interrupts_run k : table_ok k -> lapicInitialized (gLapicClockEventSink k) = true -> counting k -> exists k',
  take_interrupts a other_handler k = Ok k' /\ counted_on k k' /\
  forall n b, ticking c t0 f n b k -> ticking c t0 f (n + 2) (b + 2 ^ 21) k'.
Proof.
  intros Hl Hi Hc. unfold take_interrupts. destruct (MaskableInterruptEnabled k); cbn [negb].
  2: { exists k. split; [done|]. split; [apply evolves_counted; [done | reflexivity]|]. intros n b H. eapply ticking_weaken; [exact H | lia | lia]. }
  destruct (take_irq (hw (time k))) as [irq m] eqn:E. destruct (access_run m k (take_law _ _ _ E)) as [He Ht].
  assert (Hc1 : counted_on k (set_machine m k)) by (by apply evolves_counted).
  destruct irq as [v|].
  - destruct (interrupt_run v (set_machine m k)) as (k' & -> & Hc2 & Ht2); [done | done | by apply counted_counting in Hc1|].
    exists k'. split; [done|]. split; [by apply counted_trans with (set_machine m k)|]. intros n b H. apply Ht, Ht2 in H.
    eapply ticking_weaken; [exact H | lia | lia].
  - eexists. split; [reflexivity|]. split; [done|]. intros n b H. apply Ht in H. eapply ticking_weaken; [exact H | lia | lia].
Qed.

Lemma tick_loop_run rounds base needed timeout startUs nowUs n b k :
  table_ok k -> lapicInitialized (gLapicClockEventSink k) = true -> counting k ->
  ticking c t0 f n b k -> n <= 15 -> b + Z.of_nat rounds * 2 ^ 30 <= 2 ^ 62 -> 0 < timeout < 2 ^ 32 ->
  0 <= startUs <= nowUs -> nowUs <= us_of c t0 f k -> nowUs < 2 ^ 63 -> timeout <= nowUs - startUs + 199 * Z.of_nat rounds ->
  exists k' st, tick_loop a other_handler rounds fuel base needed timeout startUs nowUs k = Ok (st, k') /\ counted_on k k' /\
    ticking c t0 f n (b + Z.of_nat rounds * 2 ^ 30) k'.
Proof.
  revert nowUs n b k. induction rounds as [|rounds IH]; intros nowUs n b k Hl Hi Hc Ht Hn Hb Hw Hs Hu Hlt Hr; cbn [tick_loop];
    rewrite u64_small by (unfold is_u64; lia).
  - rewrite (proj2 (Z.ltb_ge _ _)) by lia. exists k, EC_FAILURE. split; [done|]. split; [apply evolves_counted; [done | reflexivity]|].
    eapply ticking_weaken; [exact Ht | lia | lia].
  - assert (Hstop : counted_on k k /\ ticking c t0 f n (b + Z.of_nat (S rounds) * 2 ^ 30) k).
    { split; [apply evolves_counted; [done | reflexivity]|]. eapply ticking_weaken; [exact Ht | lia | lia]. }
    destruct (Z.ltb_spec (nowUs - startUs) timeout) as [Hlt'|Hge]; cbn [negb]; [|by exists k, EC_FAILURE].
    destruct (_ <=? _); [by exists k, EC_SUCCESS|].
    destruct (busy_wait_200_run n b k Ht Hn) as (k1 & -> & He1 & Ht1 & Hadv). cbn [res_bind].
    assert (Hc1 : counted_on k k1) by (by apply evolves_counted). destruct (counted_rest _ _ Hc1) as (Es1 & Ei1 & _).
    destruct (take_interrupts_run k1) as (k2 & -> & Hc2 & Ht2); [unfold table_ok; by rewrite Ei1 | by rewrite Es1 | by apply counted_counting in Hc1|].
    cbn [res_bind]. apply Ht2 in Ht1. destruct (counted_rest _ _ Hc2) as (Es2 & Ei2 & _).
    destruct (up_time_run _ _ k2 Ht1 ltac:(lia) ltac:(lia)) as (k3 & -> & He3 & Ht3). cbn [res_bind].
    assert (Hc3 : counted_on k2 k3) by (apply evolves_counted; [by apply counted_counting in Hc2 | done]).
    destruct (counted_rest _ _ Hc3) as (Es3 & Ei3 & _).
    assert (Hc13 : counted_on k k3) by (apply counted_trans with k1; [done|]; by apply counted_trans with k2).
    assert (Hus : us_of c t0 f k + 199 <= us_of c t0 f k3).
    { destruct Ht as (_ & _ & _ & _ & Hb0). destruct Hc2 as (_ & _ & _ & Hl2). destruct Hc3 as (_ & _ & _ & Hl3).
      pose proof (later_ticks c _ _ Hl2). pose proof (later_ticks c _ _ Hl3).
      pose proof pause_ticks_bounds as [_ Hp]. unfold us_of, us_at. etransitivity; [apply (us_advance _ pause_ticks); lia|]. apply us_mono. lia. }
    assert (Hub : us_of c t0 f k3 < 2 ^ 63).
    { destruct Ht3 as (_ & _ & _ & _ & Hb3). unfold us_of, us_at. apply Z.div_lt_upper_bound; lia. }
    destruct (IH (us_of c t0 f k3) 0 (b + 2 ^ 29 + 2 ^ 21 + 2 ^ 20) k3) as (k4 & st & E4 & Hc4 & Ht4);
      [unfold table_ok in *; congruence | congruence | by apply counted_counting in Hc13 | exact Ht3 | lia..|].
    exists k4, st. split; [exact E4|]. split; [by apply counted_trans with k3|].
    eapply ticking_weaken; [exact Ht4| |lia]. destruct Ht as (last & _ & _ & Hlast & _). lia.
Qed.

Lemma tick_wait_run rounds base needed n b k :
  table_ok k -> lapicInitialized (gLapicClockEventSink k) = true -> counting k -> ticking c t0 f n b k -> n <= 15 -> b <= 2 ^ 61 ->
  252 <= Z.of_nat rounds <= 2 ^ 20 -> exists k' st,
    WaitForTickAdvance a other_handler rounds fuel base needed LAPIC_SELFTEST_TIMEOUT_US k = Ok (st, k') /\ counted_on k k' /\
    ticking c t0 f 0 (b + 2 ^ 51) k'.
Proof.
  intros Hl Hi Hc Ht Hn Hb Hr. unfold WaitForTickAdvance. destruct (up_time_run n b k Ht Hn ltac:(lia)) as (k1 & -> & He1 & Ht1). cbn [res_bind].
  assert (Hc1 : counted_on k k1) by (by apply evolves_counted). destruct (counted_rest _ _ Hc1) as (Es1 & Ei1 & _).
  pose proof Ht1 as (_ & _ & _ & _ & Hb1).
  assert (Hus : 0 <= us_of c t0 f k1 < 2 ^ 63) by (unfold us_of, us_at; split; [apply Z.div_pos; lia | apply Z.div_lt_upper_bound; lia]).
  destruct (tick_loop_run rounds base needed LAPIC_SELFTEST_TIMEOUT_US (us_of c t0 f k1) (us_of c t0 f k1) 0 (b + 2 ^ 20) k1) as (k2 & st & E2 & Hc2 & Ht2);
    [unfold table_ok in *; congruence | congruence | by apply counted_counting in Hc1 | exact Ht1 | lia | lia | done | lia | lia | lia | unfold LAPIC_SELFTEST_TIMEOUT_US; lia|].
  exists k2, st. split; [exact E2|]. split; [by apply counted_trans with k1|]. eapply ticking_weaken; [exact Ht2 | lia | lia].
Qed.

Lemma programmed_accesses count k : accesses 3 k (programmed count k).
Proof. unfold programmed. rewrite <- one_shot_run. apply one_shot_accesses. Qed.

Lemma test_rounds_run m rounds n b k :
  table_ok k -> device_ready k -> counting k -> 0 < TicksPerSec (gLapicClockEventSink k) < 2 ^ 39 ->
  ticking c t0 f n b k -> n <= 12 -> b + Z.of_nat m * 2 ^ 52 <= 2 ^ 61 -> 252 <= Z.of_nat rounds <= 2 ^ 20 -> exists k' st,
    test_rounds minLevel a other_handler m rounds fuel k = Ok (st, k') /\ counted_on k k' /\ ticking c t0 f 15 (b + Z.of_nat m * 2 ^ 52) k'.
Proof.
  revert n b k. induction m as [|m IH]; intros n b k Hl Hd Hc Htps Ht Hn Hb Hr; cbn [test_rounds].
  - exists k, EC_SUCCESS. split; [done|]. split; [apply evolves_counted; [done | reflexivity]|]. eapply ticking_weaken; [exact Ht | lia | lia].
  - rewrite set_next_event_run by (done || (unfold LAPIC_SELFTEST_DELTA_NS; lia)).
    rewrite (proj2 (Z.ltb_lt _ _)) by (unfold LAPIC_SELFTEST_DELTA_NS; lia). cbn [res_bind success bool_decide negb].
    change (negb (success EC_SUCCESS)) with false. cbn iota.
    set (k1 := programmed _ k). destruct (programmed_accesses (count_of LAPIC_SELFTEST_DELTA_NS (TicksPerSec (gLapicClockEventSink k))) k) as [He1 Ht1]. fold k1 in He1, Ht1.
    apply Ht1 in Ht. assert (Hc1 : counted_on k k1) by (by apply evolves_counted). destruct (counted_rest _ _ Hc1) as (Es1 & Ei1 & _ & _ & Ed1).
    destruct (tick_wait_run rounds (InterruptCount (per_cpu0 k)) 1 (n + 3) (b + 3 * 2 ^ 20) k1) as (k2 & st & -> & Hc2 & Ht2);
      [unfold table_ok in *; congruence | rewrite Es1; apply Hd | by apply counted_counting in Hc1 | exact Ht | lia | lia | done|]. cbn [res_bind].
    assert (Hc02 : counted_on k k2) by (by apply counted_trans with k1). destruct (counted_rest _ _ Hc02) as (Es2 & Ei2 & _ & _ & Ed2).
    destruct (success st); cbn [negb].
    2: { exists k2, st. split; [done|]. split; [done|]. eapply ticking_weaken; [exact Ht2 | lia | lia]. }
    destruct (IH 0 (b + 3 * 2 ^ 20 + 2 ^ 51) k2) as (k3 & st3 & -> & Hc3 & Ht3).
    + unfold table_ok in *; congruence.
    + destruct Hd as (D1 & D2 & D3 & D4). pose proof (counted_counting _ _ Hc02) as [n2 Hn2].
      unfold device_ready, per_cpu0. rewrite Es2, Hn2. destruct (gClockEventDevice k2), (gClockEventDevice k). cbn in *. by injection Ed2 as -> -> -> -> -> ->.
    + by apply counted_counting in Hc02.
    + by rewrite Es2.
    + eapply ticking_weaken; [exact Ht2 | lia | lia].
    + lia.
    + lia.
    + done.
    + exists k3, st3. split; [done|]. split; [by apply counted_trans with k2|]. eapply ticking_weaken; [exact Ht3 | lia | lia].
Qed.

Lemma self_test_run rounds n b k :
  table_ok k -> device_ready k -> counting k -> 0 < TicksPerSec (gLapicClockEventSink k) < 2 ^ 39 ->
  ticking c t0 f n b k -> n <= 12 -> b <= 2 ^ 60 -> 252 <= Z.of_nat rounds <= 2 ^ 20 -> exists k' st,
    ClockEventSelfTest minLevel a other_handler rounds fuel k = Ok (st, k') /\ counted_on k k' /\ ticking c t0 f 15 (b + 2 ^ 53) k' /\
    (st = EC_SUCCESS -> u64 (InterruptCount (per_cpu0 k') - InterruptCount (per_cpu0 k)) = 2).
Proof.
  intros Hl Hd Hc Htps Ht Hn Hb Hr. unfold ClockEventSelfTest.
  destruct (test_rounds_run 2 rounds n b (set_if true (set_if false k))) as (k1 & st & -> & Hc1 & Ht1); [done..|lia|done|]. cbn [res_bind].
  assert (Hc2 : counted_on k (set_if (MaskableInterruptEnabled k) k1)).
  { destruct Hc1 as (n1 & -> & S1 & L1). exists n1. split; [by destruct k | by split]. }
  assert (Ht2 : ticking c t0 f 15 (b + 2 ^ 53) (set_if (MaskableInterruptEnabled k) k1)) by (eapply ticking_weaken; [exact Ht1 | lia | lia]).
  destruct (success st) eqn:Es; cbn [negb].
  2: { eexists _, st. split; [reflexivity|]. split; [exact Hc2|]. split; [exact Ht2|]. intros ->. done. }
  set (k2 := set_if _ k1) in *. destruct (Z.eqb_spec (u64 (InterruptCount (per_cpu0 k2) - InterruptCount (per_cpu0 k))) 2) as [E|E]; cbn [negb];
    (eexists _, _; split; [reflexivity|]; split; [exact Hc2|]; split; [exact Ht2|]); [by intros _|done].
Qed.

Lemma klog_run level n b k : ticking c t0 f n b k -> n <= 15 -> b <= 2 ^ 62 -> exists k', log minLevel level k = Ok k' /\ passes k k' /\
  ticking c t0 f 15 (b + 2 ^ 20) k'.
Proof.
  intros Ht Hn Hb. assert (Hstay : exists k', Ok k = Ok k' /\ passes k k' /\ ticking c t0 f 15 (b + 2 ^ 20) k').
  { exists k. split; [done|]. split; [reflexivity|]. eapply ticking_weaken; [exact Ht | lia | lia]. }
  assert (Eid : set_time (time k) k = k) by (by destruct k).
  unfold log, KLogWriteFmt. destruct (level <? minLevel); [cbn [res_bind]; by rewrite Eid|].
  destruct (KeIsTimeSourceReady (time k)); [|cbn [res_bind]; by rewrite Eid].
  destruct (up_time_run n b k Ht Hn Hb) as (k' & E & He & Ht'). unfold up_time in E.
  destruct (KeGetSystemUpRealTime (time k)) as [[us t]| | |]; try done. cbn [res_bind] in *. injection E as _ <-.
  eexists. split; [reflexivity|]. split; [done|]. eapply ticking_weaken; [exact Ht' | lia | lia].
Qed.

Lemma register_handler_run vector handler k : table_ok k -> 32 <= vector < 256 -> handler <> 0 ->
  exists d, register vector handler k = Ok (EC_SUCCESS, set_idt d k) /\ table_ok (set_idt d k) /\
    Idt.kInterruptHandlers d = <[Z.to_nat vector := Idt.mkHandler handler 0]> (Idt.kInterruptHandlers (idt k)).
Proof.
  intros Hl Hv Hh. unfold register, Idt.IdtRegisterInterruptHandler. rewrite (proj2 (Z.ltb_ge vector 32)), (proj2 (Z.eqb_neq handler 0)) by lia.
  cbn [orb]. rewrite wr_in by (rewrite Hl; lia). cbn [res_bind]. eexists. split; [reflexivity|]. split; [|done].
  unfold table_ok. cbn. by rewrite length_insert.
Qed.

Lemma per_cpu_run k n b : lapicInitialized (gLapicClockEventSink k) = true -> TicksPerSec (gLapicClockEventSink k) <> 0 ->
  PerCpu (gClockEventDevice k) = [mkPerCpu false 0] -> ticking c t0 f n b k -> exists k1,
  KeClockEventPerCpuInit 0 k = Ok (EC_SUCCESS, set_clock_event (set_per_cpu [mkPerCpu true 0] (gClockEventDevice k)) k1) /\
  passes k k1 /\ ticking c t0 f (n + 3) (b + 3 * 2 ^ 20) k1.
Proof.
  intros Hi Ht Hp Htick. unfold KeClockEventPerCpuInit. rewrite Hi, (proj2 (Z.eqb_neq _ 0) Ht). cbn [negb orb].
  change (KE_CLOCK_EVENT_MAX_CPU_COUNT <=? 0) with false. cbn iota.
  set (s := gLapicClockEventSink k). destruct (one_shot_accesses (BaseVirt s) (VectorNumber s) (DividerValue s) true 0 k) as [He HT].
  set (k1 := LapicTimerSetInitialCount _ _ _) in *. assert (Ed : gClockEventDevice k1 = gClockEventDevice k) by (by destruct He as (-> & _)).
  rewrite Ed, Hp. exists k1. split; [done|]. split; [done|]. by apply HT.
Qed.

(** What start-up comes to. *)
Definition startup_outcome (st : HO_STATUS) b k k' : Prop :=
  MaskableInterruptEnabled k' = MaskableInterruptEnabled k /\ KeClockEventIsReady k' = success st /\ ticking c t0 f 15 (b + 2 ^ 55) k' /\
  (success st = true ->
     device_ready k' /\ 0 < TicksPerSec (gLapicClockEventSink k') < 2 ^ 39 /\
     measured c t0 f (gLapicAccessMode k') (gLapicClockEventSink k') (TicksPerSec (gLapicClockEventSink k')) (hw (time k)) (hw (time k')) /\
     VectorNumber (gLapicClockEventSink k') = LAPIC_TIMER_VECTOR /\ DividerValue (gLapicClockEventSink k') = LAPIC_TIMER_DIVIDE_BY_16 /\
     KeClockEventGetFrequency k' = TicksPerSec (gLapicClockEventSink k') /\ KeClockEventGetVector k' = LAPIC_TIMER_VECTOR /\
     KeClockEventGetInterruptCount k' = 0 /\
     forall k2, counted_on k' k2 ->
       interrupt a other_handler LAPIC_TIMER_VECTOR k2 = Ok (acknowledged (u64 (KeClockEventGetInterruptCount k2 + 1)) k2) /\
       interrupt a other_handler LAPIC_SPURIOUS_VECTOR k2 = Ok k2) /\
  (success st = false -> forall d, KeClockEventSetNextEvent minLevel d k' = Ok (EC_INVALID_STATE, k')).

(** A failure before the device is ready. *)
Lemma fails_run st n b b0 k0 k : st <> EC_SUCCESS -> ceInitialized (gClockEventDevice k) = false ->
  MaskableInterruptEnabled k = MaskableInterruptEnabled k0 -> ticking c t0 f n b k -> n <= 15 -> b + 2 ^ 20 <= b0 + 2 ^ 55 -> b0 <= 2 ^ 60 ->
  exists st' k', fails minLevel st k = Ok (st', k') /\ startup_outcome st' b0 k0 k'.
Proof.
  intros Hst Hi Hm Ht Hn Hb Hb0. unfold fails. destruct (klog_run KLOG_LEVEL_ERROR n b k Ht Hn ltac:(lia)) as (k1 & -> & He & Ht1). cbn [res_bind].
  exists st, k1. split; [done|]. assert (Hs : success st = false) by (by apply bool_decide_eq_false).
  assert (Ed : gClockEventDevice k1 = gClockEventDevice k /\ MaskableInterruptEnabled k1 = MaskableInterruptEnabled k) by (by destruct He as (-> & _)).
  destruct Ed as [Ed Em]. unfold startup_outcome, KeClockEventIsReady, KeClockEventSetNextEvent. rewrite Hs, Ed, Em, Hi. split; [done|]. split; [done|].
  split; [eapply ticking_weaken; [exact Ht1 | lia | lia]|]. by split.
Qed.

Lemma handler_runs v h k : table_ok k -> 0 <= v < 256 -> h <> 0 -> Idt.kInterruptHandlers (idt k) !! Z.to_nat v = Some (Idt.mkHandler h 0) ->
  interrupt a other_handler v k = Ok (if h =? LapicTimerInterruptHandler_at a then KeClockEventOnInterrupt k
    else if h =? LapicSpuriousInterruptHandler_at a then k else other_handler h k).
Proof.
  intros Hl Hv Hh E. unfold interrupt, Idt.HandleRegisteredVector. cbn [Idt.VectorNumber].
  rewrite u8_small by (unfold is_u8; lia). rewrite (proj2 (rd_ok _ _ _) (conj (proj1 Hv) E)). cbn [res_bind Idt.Handler].
  by rewrite (proj2 (Z.eqb_neq h 0)) by done.
Qed.

Context (Htimer : LapicTimerInterruptHandler_at a <> 0) (Hspurious : LapicSpuriousInterruptHandler_at a <> 0)
  (Hdiffer : LapicSpuriousInterruptHandler_at a <> LapicTimerInterruptHandler_at a).

Lemma startup_run rounds n b k : table_ok k -> ticking c t0 f n b k -> n <= 4 -> b <= 2 ^ 59 -> 252 <= Z.of_nat rounds <= 2 ^ 20 ->
  exists st k', KeClockEventInit minLevel a other_handler rounds fuel k = Ok (st, k') /\ startup_outcome st b k k'.
Proof.
  intros Hl Ht Hn Hb Hr. unfold KeClockEventInit. set (k0 := set_clock_event no_clock_event k).
  destruct (sink_init_run LAPIC_TIMER_VECTOR n b k0 Ht) as (st1 & k1 & -> & (Ed1 & Em1 & Ei1 & Hla1) & Ht1 & Hs1).
  destruct (success st1) eqn:Es1; cbn [negb].
  2: { apply fails_run with (n + 8) (b + 8 * 2 ^ 20); try (done || lia); [by apply bool_decide_eq_false in Es1 | by rewrite Ed1]. }
  destruct (Hs1 eq_refl) as (Hi1 & Hv1 & Hdi1).
  assert (Hl1 : table_ok k1) by (unfold table_ok; by rewrite Ei1).
  destruct (register_handler_run LAPIC_TIMER_VECTOR (LapicTimerInterruptHandler_at a) k1 Hl1 ltac:(unfold LAPIC_TIMER_VECTOR; lia) Htimer) as (d2 & -> & Hl2 & Eh2).
  cbn [res_bind]. change (negb (success EC_SUCCESS)) with false. cbn iota. set (k2 := set_idt d2 k1) in *.
  destruct (register_handler_run LAPIC_SPURIOUS_VECTOR (LapicSpuriousInterruptHandler_at a) k2 Hl2 ltac:(unfold LAPIC_SPURIOUS_VECTOR; lia) Hspurious) as (d3 & -> & Hl3 & Eh3).
  cbn [res_bind]. change (negb (success EC_SUCCESS)) with false. cbn iota. set (k3 := set_idt d3 k2) in *.
  destruct (calibrate_lapic_run rounds (n + 8) (b + 8 * 2 ^ 20) k3) as (st4 & k4 & k4' & -> & He4 & Ht4 & Hcase); [done | exact Ht1 | lia | lia | lia|].
  cbn [res_bind]. assert (E4 : gClockEventDevice k4 = gClockEventDevice k0 /\ MaskableInterruptEnabled k4 = MaskableInterruptEnabled k /\
    idt k4 = d3 /\ gLapicClockEventSink k4 = gLapicClockEventSink k1).
  { destruct He4 as (-> & _). cbn. by rewrite Ed1, Em1. }
  destruct E4 as (Ed4 & Em4 & Ei4 & Es4).
  destruct Hcase as [[-> ->] | (-> & t & Htb & Hme & ->)].
  { change (negb (success EC_FAILURE)) with true. cbn iota. apply fails_run with 5 (b + 8 * 2 ^ 20 + 2 ^ 51); try (done || lia). by rewrite Ed4. }
  change (negb (success EC_SUCCESS)) with false. cbn iota zeta.
  set (k5 := set_clock_event _ _).
  destruct (per_cpu_run k5 5 (b + 8 * 2 ^ 20 + 2 ^ 51)) as (k6 & -> & He6 & Ht6).
  { cbn. by rewrite Es4. } { cbn. lia. } { cbn. by rewrite Ed4. } { exact Ht4. }
  cbn [res_bind]. change (negb (success EC_SUCCESS)) with false. cbn iota zeta.
  set (k7 := set_clock_event (set_ready true _) _).
  assert (E7 : gLapicClockEventSink k7 = set_ticks_per_sec t (gLapicClockEventSink k1) /\ idt k7 = d3 /\ MaskableInterruptEnabled k7 = MaskableInterruptEnabled k /\
    gClockEventDevice k7 = mkClockEvent true KE_CLOCK_EVENT_MODE_ONE_SHOT KE_CLOCK_EVENT_LAPIC_TIMER t LAPIC_TIMER_VECTOR true [mkPerCpu true 0]).
  { subst k7. destruct He6 as (-> & _). cbn. by rewrite Es4, Ei4, Em4. }
  destruct E7 as (Es7 & Ei7 & Em7 & Ed7).
  destruct (self_test_run rounds 8 (b + 8 * 2 ^ 20 + 2 ^ 51 + 3 * 2 ^ 20) k7) as (k8 & st8 & -> & Hc8 & Ht8 & _).
  { unfold table_ok. by rewrite Ei7. }
  { unfold device_ready, per_cpu0. by rewrite Ed7, Es7. }
  { exists 0. by rewrite Ed7. }
  { by rewrite Es7. }
  { exact Ht6. } { lia. } { lia. } { done. }
  cbn [res_bind]. destruct (counted_rest _ _ Hc8) as (Es8 & Ei8 & Em8 & Emo8 & _).
  assert (Ed8 : exists m, gClockEventDevice k8 = set_per_cpu [mkPerCpu true m] (gClockEventDevice k7)).
  { destruct Hc8 as (m & -> & _). by exists m. }
  destruct Ed8 as [m Ed8]. rewrite Ed7 in Ed8. unfold set_per_cpu in Ed8. cbn in Ed8.
  destruct (success st8) eqn:Est8; cbn [negb].
  2: { apply fails_run with 15 (b + 8 * 2 ^ 20 + 2 ^ 51 + 3 * 2 ^ 20 + 2 ^ 53); try (done || lia);
         [by apply bool_decide_eq_false in Est8 | cbn; congruence]. }
  set (k9 := set_per_cpu0 _ k8).
  destruct (klog_run KLOG_LEVEL_INFO 15 (b + 8 * 2 ^ 20 + 2 ^ 51 + 3 * 2 ^ 20 + 2 ^ 53) k9) as (k10 & -> & He10 & Ht10); [exact Ht8 | lia | lia|].
  cbn [res_bind]. exists EC_SUCCESS, k10. split; [done|].
  assert (E10 : gLapicClockEventSink k10 = set_ticks_per_sec t (gLapicClockEventSink k1) /\ idt k10 = d3 /\ MaskableInterruptEnabled k10 = MaskableInterruptEnabled k /\
    gClockEventDevice k10 = mkClockEvent true KE_CLOCK_EVENT_MODE_ONE_SHOT KE_CLOCK_EVENT_LAPIC_TIMER t LAPIC_TIMER_VECTOR true [mkPerCpu true 0]).
  { destruct He10 as (-> & _). cbn. rewrite Es8, Es7, Ei8, Ei7, Em8, Em7. unfold per_cpu0. by rewrite Ed8. }
  destruct E10 as (Es10 & Ei10 & Em10 & Ed10).
  assert (Hme10 : measured c t0 f (gLapicAccessMode k10) (gLapicClockEventSink k10) t (hw (time k)) (hw (time k10))).
  { destruct He6 as (E6 & _ & L6), Hc8 as (_ & _ & _ & L8), He10 as (E10 & _ & L10).
    assert (Emo : gLapicAccessMode k10 = gLapicAccessMode k3).
    { rewrite E10. change (gLapicAccessMode k8 = gLapicAccessMode k3). rewrite Emo8. unfold k7. rewrite E6. cbn. by destruct He4 as (-> & _). }
    rewrite Emo, Es10. apply measured_on with (hw (time k3)) (hw (time k4)); [exact Hla1 | exact Hme|].
    etransitivity; [exact L6|]. etransitivity; [exact L8 | exact L10]. }
  assert (Hl10 : table_ok k10) by (unfold table_ok; by rewrite Ei10).
  unfold startup_outcome, KeClockEventIsReady, KeClockEventGetFrequency, KeClockEventGetVector, KeClockEventGetInterruptCount, KeClockEventIsReady, per_cpu0, device_ready, per_cpu0.
  rewrite Ed10, Em10, Es10. cbn [ceInitialized negb ceFreqHz ceVectorNumber PerCpu InterruptCount cpuInitialized HasSink lapicInitialized TicksPerSec set_ticks_per_sec].
  split; [done|]. split; [done|]. split; [eapply ticking_weaken; [exact Ht10 | lia | lia]|]. split; [|by intros ?]. intros _.
  split; [by rewrite Hi1|]. split; [done|]. split; [by rewrite Es10 in Hme10|]. split; [exact Hv1|]. split; [exact Hdi1|].
  split; [done|]. split; [done|]. split; [done|]. intros k2' Hc'. destruct (counted_rest _ _ Hc') as (Es' & Ei' & _).
  assert (Hl' : table_ok k2') by (unfold table_ok; by rewrite Ei').
  destruct (counted_counting _ _ Hc') as [i' Hi']. split.
  - rewrite (handler_runs LAPIC_TIMER_VECTOR (LapicTimerInterruptHandler_at a) k2'); [|done|by unfold LAPIC_TIMER_VECTOR; lia|done|].
    2: { rewrite Ei', Ei10, Eh3. change (idt k2) with d2. rewrite list_lookup_insert_ne by (unfold LAPIC_SPURIOUS_VECTOR, LAPIC_TIMER_VECTOR; lia). rewrite Eh2.
         apply list_lookup_insert_eq. rewrite Hl1. unfold LAPIC_TIMER_VECTOR. lia. }
    rewrite Z.eqb_refl. f_equal. apply (acknowledge_run i'); [by rewrite Es', Es10 | done].
  - rewrite (handler_runs LAPIC_SPURIOUS_VECTOR (LapicSpuriousInterruptHandler_at a) k2'); [|done|by unfold LAPIC_SPURIOUS_VECTOR; lia|done|].
    2: { rewrite Ei', Ei10, Eh3. apply list_lookup_insert_eq. change (length (Idt.kInterruptHandlers (idt k2)) ) with (length (Idt.kInterruptHandlers d2)).
         unfold table_ok in Hl2. change (idt k2) with d2 in Hl2. rewrite Hl2. unfold LAPIC_SPURIOUS_VECTOR. lia. }
    by rewrite (proj2 (Z.eqb_neq _ _) Hdiffer), Z.eqb_refl.
Qed.

(** C23: On a running time source of 1 MHz or more that was read recently,
    [KeClockEventInit] returns, with the interrupt flag as before and time still
    kept, after at most some fifty calibration pauses and two self-test events.
    Either it succeeds or it fails and the device refuses to be armed.  Where
    it succeeds, the ticks a second it reports, between 1 and [2^39], are
    [measured]: the ticks the counting timer lost between two readings, divided
    by the true time between them, 10 milliseconds or more; the count of
    interrupts is 0; and from then on, however much time has passed and however
    many have been counted, an interrupt of the timer's vector is counted and
    acknowledged at the local APIC - 0 is written to its end-of-interrupt
    register - and nothing else changes, and one of the spurious vector changes
    nothing. *)
Theorem clock_event_comes_up rounds n b k :
  table_ok k -> ticking c t0 f n b k -> n <= 4 -> b <= 2 ^ 59 -> 252 <= Z.of_nat rounds <= 2 ^ 20 ->
  exists st k', KeClockEventInit minLevel a other_handler rounds fuel k = Ok (st, k') /\ startup_outcome st b k k'.
Proof. apply startup_run. Qed.
End startup.

(** ** A machine with an x2APIC *)

(** The timer fires when an interrupt is looked for after it was armed. *)
Record apic_toy := mkApicToy { core : toy; apic_base : Z; initial : Z }.
Definition set_core x (m : apic_toy) : apic_toy := mkApicToy x (apic_base m) (initial m).

#[export] Instance apic_hw : TimeHw apic_toy := {
  rdtsc m := let '(v, x) := rdtsc (core m) in (v, set_core x m);
  inl port m := let '(v, x) := inl port (core m) in (v, set_core x m);
  read64 r m := let '(v, x) := read64 r (core m) in (v, set_core x m);
  write64 r v m := set_core (write64 r v (core m)) m;
  pause m := set_core (pause (core m)) m;
  cpuidex leaf sub m := if leaf =? 1 then (0, 0, 2 ^ 21, 2 ^ 9 + 16) else cpuidex leaf sub (core m);
  ram m := toy_ram
}.
#[export] Instance apic_lapic : LapicHw apic_toy := {
  rdmsr msr m := (if msr =? 0x1B then apic_base m else if msr =? 0x839 then Z.max 0 (initial m - toy_now (core m)) else 0,
                  set_core (toy_step (core m)) m);
  wrmsr msr v m := mkApicToy (toy_step (core m)) (if msr =? 0x1B then v else apic_base m) (if msr =? 0x838 then v else initial m);
  read32 r m := (0, set_core (toy_step (core m)) m);
  write32 r v m := set_core (toy_step (core m)) m;
  take_irq m := if 0 <? initial m then (Some LAPIC_TIMER_VECTOR, mkApicToy (toy_step (core m)) (apic_base m) 0)
                else (None, set_core (toy_step (core m)) m)
}.

#[export] Program Instance apic_laws : TimeLaws apic_toy := {
  ticks c m := toy_ticks c (core m);
  phase c m := 0%nat;
  max_phase := 0%nat;
  pm_port := 0x608;
  pm_width := 32;
  hpet_at := toy_hpet;
  hpet_on m := toy_enabled (core m) = true
}.
Next Obligation. done. Qed.
Next Obligation. by right. Qed.
Next Obligation. intros m. split; [split; [|done]|]; intros []; cbn; lia. Qed.
Next Obligation.
  intros leaf sub m. cbn. repeat case_match; simplify_eq; repeat split; done.
Qed.
Next Obligation.
  intros m v m' [= <- <-]. split; [split; [split; [|done]|]; intros []; cbn; lia|]. split; [done|]. left. cbn. lia.
Qed.
Next Obligation.
  intros port m v m' [= <- <-]. split; [split; [split; [|done]|]; intros []; cbn; lia|]. split; [apply u32_range|].
  intros _. split; [by apply Z.mod_mod | left; cbn; lia].
Qed.
Next Obligation.
  intros r m v m' [= <- <-]. split; [split; [split; [|done]|]; intros []; cbn; lia|]. intros -> _. cbn. split; [done|]. left. lia.
Qed.
Next Obligation.
  intros v m. split; [split; [split; [|split; [done|split; [done|]]]|]|].
  - intros []; cbn; lia.
  - cbn. intros ->. done.
  - intros []; cbn; lia.
  - cbn. intros ->. apply orb_true_r.
Qed.

#[export] Instance apic_lapic_laws : LapicLaws apic_toy.
Proof.
  assert (Hs : forall (m : apic_toy) m', core m' = toy_step (core m) -> soon m m').
  { intros m m' E. split; [split; [|split; [done|split]]|].
    - intros []; cbn; rewrite E; cbn; lia.
    - intros l j. cbn. by rewrite E.
    - change (toy_enabled (core m) = true -> toy_enabled (core m') = true). by rewrite E.
    - intros []; cbn; rewrite E; cbn; lia. }
  split.
  - intros msr m v m' [= _ <-]. by apply Hs.
  - intros msr v m. by apply Hs.
  - intros r m v m' [= _ <-]. by apply Hs.
  - intros r v m. by apply Hs.
  - intros m irq m' E. cbn in E. destruct (0 <? initial m); injection E as _ <-; by apply Hs.
Qed.

(** The PM timer runs the clock; the interrupt table is empty. *)
Definition apic_time : TIME apic_toy :=
  mkTime (gTimeDevice toy_device) no_hpet (fresh_pm 0x608 32 1000) (mkTsc 0 true true false) (mkApicToy (mkToy 1000 false true) 0 0).
Definition apic_boot : CLOCK apic_toy :=
  mkClock LAPIC_ACCESS_XAPIC_MMIO no_lapic no_clock_event false
    (Idt.mkIdt [] 0 (replicate 256 (Idt.mkHandler 0 0)) Idt.no_hooks false) apic_time.
Definition apic_handlers : HANDLERS := mkHandlers 0x1000 0x2000.

Lemma apic_ticking : ticking PmTimerBase 1000 PM_TIMER_FREQ_HZ 0 0 apic_boot.
Proof.
  exists 1000. split; [|split; [done | split; [done | done]]]. exists 0. do 4 (split; [done|]).
  split; [done|]. split; [done|]. split; [done|]. apply (fresh_pm_rel 0x608 32 1000). by right.
Qed.

Lemma clock_event_comes_up_witness :
  (match KeClockEventInit 0 apic_handlers (fun _ k => k) 252 toy_fuel apic_boot with
   | Ok (EC_SUCCESS, k) => Some (ceFreqHz (gClockEventDevice k)) | _ => None end) = Some 3579506 /\
  exists st k', KeClockEventInit 0 apic_handlers (fun _ k => k) 252 toy_fuel apic_boot = Ok (st, k') /\
    startup_outcome PmTimerBase 1000 PM_TIMER_FREQ_HZ 0 apic_handlers (fun _ k => k) st 0 apic_boot k'.
Proof.
  split; [by vm_compute|].
  apply (clock_event_comes_up PmTimerBase 1000 PM_TIMER_FREQ_HZ ltac:(unfold PM_TIMER_FREQ_HZ; lia) toy_fuel) with (n := 0).
  - unfold enough, toy_fuel. cbn [max_phase apic_laws]. change (pause_ticks PM_TIMER_FREQ_HZ) with 715. lia.
  - intros h k. split; [reflexivity|]. intros c t0 f i b H. eapply ticking_weaken; [exact H | lia | lia].
  - done.
  - done.
  - done.
  - done.
  - exact apic_ticking.
  - done.
  - done.
  - done.
Defined.

(** The scheduler on that machine: its other services do nothing. *)
#[export] Instance apic_services : Services (CLOCK apic_toy) := {
  OwnsThreadHook _ := None;
  EnterHook _ := None;
  ResolveRootHook _ := None;
  FinalizeThreadHook _ := None;
  ObserveTimerHook _ := None;
  SwitchAddressSpace _ w := (EC_SUCCESS, w);
  ReleaseStack _ w := (EC_SUCCESS, w);
  AllocStack w := (EC_OUT_OF_RESOURCE, (0, 0, 0), w);
  MapStack _ w := (EC_SUCCESS, w);
  PoolAlloc w := Ok (0, w);
  PoolFree _ w := Ok w;
  SystemUpRealTime w := match up_time w with Ok r => r | _ => (0, w) end;
  MinDeltaNs := KeClockEventGetMinDeltaNs;
  MaxDeltaNs w := match KeClockEventGetMaxDeltaNs w with Ok d => d | _ => 0 end;
  SetNextEvent d w := match KeClockEventSetNextEvent 0 d w with Ok r => r | _ => (EC_FAILURE, w) end;
  OnClockInterrupt := KeClockEventOnInterrupt;
  RegisterTimerISR w := (EC_SUCCESS, w);
  BootStackTop _ := 0
}.
#[export] Instance apic_clock : ClockServices (CLOCK apic_toy) apic_toy.
Proof.
  refine {| clock_of := id; log_level := 0 |}.
  - done.
  - intros w d E. cbn. unfold id in E. by rewrite E.
  - intros w d st k E. exists k. unfold id in *. cbn. by rewrite E.
Defined.

(** A ready device of 62.5 million ticks a second. *)
Definition apic_ready : CLOCK apic_toy :=
  mkClock LAPIC_ACCESS_X2APIC_MSR (mkLapic 0xFEE00000 0xFFFF9000FEE00000 62500000 LAPIC_TIMER_DIVIDE_BY_16 LAPIC_TIMER_VECTOR true)
    (mkClockEvent true KE_CLOCK_EVENT_MODE_ONE_SHOT KE_CLOCK_EVENT_LAPIC_TIMER 62500000 LAPIC_TIMER_VECTOR true [mkPerCpu true 0])
    false (idt apic_boot) apic_time.
Definition apic_sched : Sched.SCHED (CLOCK apic_toy) :=
  Sched.mkSched ∅ ∅ ∅ [] [] [] 0 0 true 0 0 (Sched.mkStats 0 0 0 0 0 0) 1 0 (Irql.mkCpu false ∅ 0 0) apic_ready.

Lemma next_event_is_programmed_witness :
  KeClockEventSetNextEvent 0 5000000 (set_clock_event no_clock_event apic_ready) = Ok (EC_INVALID_STATE, set_clock_event no_clock_event apic_ready) /\
  count_of 5000000 62500000 = 312500 /\ KeClockEventSetNextEvent 0 5000000 apic_ready = Ok (EC_SUCCESS, programmed 312500 apic_ready).
Proof.
  split; [by apply (next_event_is_programmed 0 5000000)|]. split; [done|].
  refine (proj1 (proj2 (next_event_is_programmed 0 5000000 apic_ready _) _ _)); [done | by repeat split | done].
Defined.

(** A delay of 10^13 nanoseconds is cut to what 32 bits of ticks last; the
    longest is 68719476720 nanoseconds. *)
Lemma scheduler_arms_the_timer_witness :
  exists w' lo hi, (lo - 1) * 62500000 < 1000000000 <= lo * 62500000 /\ hi * 62500000 <= (2 ^ 32 - 1) * 1000000000 < (hi + 1) * 62500000 /\
    Sched.KiArmClockEvent 10000000000000 apic_sched = Sched.set_Svc w' apic_sched /\
    clock_of w' = programmed ((if 10000000000000 <? lo then lo else if hi <? 10000000000000 then hi else 10000000000000) * 62500000 / 1000000000) apic_ready.
Proof.
  destruct (scheduler_arms_the_timer apic_sched 10000000000000) as (w' & lo & hi & H1 & H2 & H3 & H4 & _); [by repeat split | done | done|].
  exists w', lo, hi. by split.
Defined.
End ClockEventThms.
